(* ===== verification/_CoqProject ===== *)
-Q . S2P
Prelude.v
BerEncoder.v
BerDecoder.v
BerInteger.v
StringUtils.v
CText.v
BerOid.v
IsoParameters.v
ByteBuffer.v
Cotp.v
CotpSend.v
CotpReceive.v
CotpConnect.v
IsoSession.v
SessionFacts.v
IsoPresentation.v
PresentationFacts.v
Acse.v
AcseFacts.v
IsoConnection.v
IsoConnectionFacts.v
IsoClient.v
IsoClientFacts.v
IsoClientState.v
OsiExchange.v
CFloat.v
MmsValue.v
MmsFacts.v
MmsData.v
GoosePublisher.v
GooseSubscriber.v
GooseReceiver.v
GooseSafety.v
GooseThread.v
GooseDataSet.v
GooseRoundtrip.v
IecCommon.v
ObjectReference.v
SvPublisher.v
SvSubscriber.v
SvSafety.v
SvLayout.v
SvSetup.v
SvRefine.v
SvRoundtrip.v
SvRead.v
SvBounds.v
Containers.v
ContainerFacts.v
MmsTypeSpec.v
Control.v
ControlSetup.v
ControlFacts.v
ControlServer.v
ControlTimeout.v
MmsUpdate.v
ControlSafety.v
ControlServerSafety.v
ReportBuffer.v
Reporting.v
ReportRing.v
ReportWrite.v
ReportQueue.v
ProtectionIed.v
BreakerIed.v
Substation.v
BerProperties.v
MmsProperties.v
GooseProperties.v
SubstationProperties.v
CotpProperties.v
LayerProperties.v
OsiProperties.v
ClientProperties.v
IecProperties.v
SvProperties.v
ContainerProperties.v
TypeProperties.v
ControlProperties.v
ReportProperties.v
