(* ===== verification/Prelude.v ===== *)
(** * A verified model of the virtual substation

    The repository simulates a substation bay. A protection IED
    (examples/goose_publisher/goose_publisher_example.c) reads measurements
    from a text file, applies its protection functions and publishes the result
    as a GOOSE message; a breaker IED
    (examples/goose_subscriber/goose_subscriber_example.c) receives the message
    and writes the commands into a text file its user interface polls. Both are
    linked with libiec61850: the GOOSE publisher, subscriber and receiver
    (src/goose), the MMS values and their codec (src/mms/iso_mms), the BER
    encoder and decoder (src/mms/asn1) and string helpers (src/common). The
    library also holds the OSI stack on which MMS clients and servers talk to each
    other over TCP: transport, session, presentation and association control
    (src/mms/iso_cotp, iso_session, iso_presentation, iso_acse), put together by
    one connection object on each side (src/mms/iso_server/iso_connection.c,
    src/mms/iso_client/iso_client_connection.c), the publisher and subscriber of
    sampled values (src/sampled_values), and the IEC 61850 server, of which the control
    objects are modelled, with which clients operate switches, and the reports, which
    tell clients of changes (src/iec61850/server/mms_mapping/control.c, reporting.c). All paths are below src/libiec61850/.

    ** The files

    - Prelude: machine integers, memory blocks, sequential output, byte order,
      and the tactics and hint databases [zlen] and [bytes].
    - BerEncoder, BerDecoder, BerInteger: src/mms/asn1/ber_encoder.c,
      ber_decode.c, ber_integer.c and asn1_ber_primitive_value.c. Every encoder is
      shown to be a run of stores of one byte string ([puts]), so that sizes,
      bounds and round trips are statements on byte strings.
      BerOid: the encoder of object identifiers.
    - StringUtils: src/common/string_utilities.c. CText: decimal numbers of the C
      library. CFloat: the types [float] and [double] on bit patterns.
    - IsoParameters, ByteBuffer: the addresses of a connection
      (src/mms/iso_common/iso_connection_parameters.c), buffers and chains of
      buffers (src/common/byte_buffer.c, buffer_chain.c).
    - Cotp: src/mms/iso_cotp/cotp.c over a socket that may take and give any number of
      bytes. CotpSend, CotpReceive, CotpConnect: what is sent, how it is put
      together again, the handshake.
    - IsoSession, IsoPresentation, Acse: the three layers above, one file each
      (iso_session.c, iso_presentation.c, acse.c); SessionFacts, PresentationFacts,
      AcseFacts: their parsers on arbitrary bytes and on their own messages.
    - IsoConnection: iso_connection.c, the server side; IsoConnectionFacts has the
      interface [MmsServer] of the layer above. IsoClient: iso_client_connection.c, the
      state machine of the client; IsoClientFacts has the interface [MmsClient],
      IsoClientState the calls in any order and their invariant. OsiExchange:
      both sides connected by a network.
    - MmsValue: src/mms/iso_mms/common/mms_value.c, with the byte order helper
      of src/common/conversions.c; one constructor per type tag, one definition
      per function. MmsFacts: the type invariant [mms_ok],
      copy, comparison and time stamps.
    - MmsData: src/mms/iso_mms/server/mms_access_result.c, the encoder and the
      recursive decoder of MMS data, with their specification [mms_bytes].
    - GoosePublisher, GooseSubscriber, GooseReceiver: src/goose/*.c, the states
      as records, one definition per function, the long parser functions
      divided along their loops and switches.
    - GooseSafety: memory safety of the receiver. GooseThread: the receiver
      thread and the thread that stops it, as interleaved steps. GooseDataSet: data sets built
      from or updated by a message. GooseRoundtrip: from the publisher's state
      to the subscriber's.
    - IecCommon, ObjectReference: src/iec61850/common/iec61850_common.c, the quality,
      double points, functional constraints and time stamps of the first half, and the
      object references of the second.
    - SvPublisher, SvSubscriber: src/sampled_values/sv_publisher.c, sv_subscriber.c.
      SvLayout: the frame as a function of a list of samples, with the positions of
      its fields. SvSetup: the layout the publisher makes is that frame. SvRefine: its
      setters are updates of the samples. SvRoundtrip, SvRead: what the subscriber
      parses and reads. SvSafety: arbitrary frames. SvBounds: frames that do not fit.
    - Containers: src/common/linked_list.c, map.c, string_map.c, simple_allocator.c and
      mem_alloc_linked_list.c on an explicit heap of cells. ContainerFacts: the heap
      as a representation of sequences.
    - MmsTypeSpec: src/mms/iso_mms/common/mms_type_spec.c, types with their names, and the
      look-up of variables in src/mms/iso_mms/server/mms_domain.c.
    - Control: control.c, the object as a record, its functions in a monad of state
      and failure that also collects what leaves the component (messages, calls of the
      application). ControlSetup: the objects of a data model (createControlObjects of
      src/iec61850/server/impl/ied_server.c). ControlFacts: a program logic for the monad and who may operate.
      ControlServer: all objects under calls in any order. ControlTimeout: the end of
      selections. MmsUpdate: the update and the comparison of values of one type.
      ControlSafety, ControlServerSafety: well-formed objects and servers, and that every
      operation is defined on them and keeps them so.
    - ReportBuffer: the ring of reports in a block of memory, through its bytes and
      addresses. Reporting: report control blocks, enqueueing, the processing of events,
      resynchronisation (reporting.c). ReportRing: the block as a sequence of reports,
      the removal of reports and the place of a new one. ReportWrite: the bytes of a new
      report. ReportQueue: enqueueing, sending, resynchronisation and the processing of
      events on the sequence.
    - ProtectionIed, BreakerIed: the two programs; one turn of the publisher's
      loop, the listener with the replacement of the shared file. Substation:
      both on one network, turn by turn, with frames that may be lost.
    - BerProperties, MmsProperties, GooseProperties, SubstationProperties,
      CotpProperties, LayerProperties, OsiProperties, ClientProperties,
      IecProperties, SvProperties, ContainerProperties, TypeProperties, ControlProperties,
      ReportProperties: the properties, each with a concrete instance.

    ** How the code is modelled

    A definition carries the name of the C function it translates. A C integer is the
    integer it denotes, with the conversion to its width written where the code
    converts ([u8], [u16], [u32], [s16], [s32], ...). A block of memory is the list of
    its bytes and a pointer the rest of its block from the pointer on. The result
    [None] is undefined behaviour: an access outside a block, a null dereference,
    the read of an inactive union member, a signed overflow the code can
    reach ([chk_int]). A theorem that an operation returns [Some] therefore
    says that it ends and touches its own memory only. Error codes and null
    results are values inside. Loops over a buffer take fuel: one more than the
    bytes left, which the totality theorems show to be enough ([decodeLength_total],
    [decodeRecursive_total], [payload_loop_ok], [parseMessage_total],
    [parseConnect_total]); the one loop that need not end, over the user information
    of an association, has a step relation as well ([turns]). The recursion of the MMS
    decoder is bounded by the code itself (25 levels).

    The machine is little endian. Allocation succeeds (the branches for
    [malloc] returning NULL are left out, and fresh memory that the code does
    not initialise reads as zero); destructors and the [deleteValue] flag, which
    only steer deallocation, are left out. [int] counters of bytes of one
    object in memory are unbounded. Outside the file Containers a [LinkedList] is the
    sequence of its entries, which [linked_list_refines] justifies; the receiver names a
    subscriber by its index in the list. Time
    ([Hal_getTimeInMs]), the Ethernet layer, the outcome of [fscanf] and the
    results of system calls are arguments; frames sent, listeners called and
    text displayed are results. Routable GOOSE is compiled out, as in the
    repository's configuration. A semaphore that is waited for without a permit is
    the result [None]: the call never returns.

    ** What is shown

    - The substation: over any inputs, losses and failing system calls the file of the
      breaker has the line (its first 127 characters) of the last turn whose frame arrived
      and whose file operations succeeded, messages are not flagged invalid without a reason; trip decision, fault classification, message
      numbering; the shared file is replaced as a whole.
    - GOOSE: what is published is delivered, for values that the receiver has a case for
      ([goose_value]: no MMS strings) and that can be read back ([sendable]); the receiver
      is memory safe on any bytes; publishing is all or nothing and bounded, for values
      whose size the library computes correctly ([mms_sized]); known data sets are updated
      in place, unknown ones built; replays are recognised; the counters;
      stopping the receiver waits for its thread.
    - MMS: encode and decode are inverse (for [mms_sized] and [decodable] values), the
      decoder is total and safe, sizes are exact and bounded, copies compare equal, time stamps keep their
      milliseconds.
    - BER: lengths and integers round trip, integers are minimal, lengths are
      decoded inside the buffer; where a size function disagrees with its
      encoder, the theorem gives exactly the arguments.
    - The OSI stack: an association is made as the authenticator of the server
      decides, and a request and its answer pass all layers of both sides
      unchanged, in whatever pieces the packets arrive; the parsers of all four
      layers are memory safe on any bytes, except for the association control messages
      that lead the parser in front of the message ([message_leaves]) and the connect
      packets that ask for a size of 2^31 bytes or more ([packet_asks_size]); the transport
      layer cuts messages into packets and puts them together again; in every reachable
      state the transmit buffer of the client has one owner or was lost by one of two
      calls, and connecting ends in time.
    - Sampled values: configured, laid out, written and sent, they are read as they
      were written; the writes through the pointers into the frame refine updates of
      a list of samples; the layout is in bounds exactly when the frame fits; the
      receiver is safe on any packet shorter than its buffer.
    - Object references survive the way to an MMS variable name and back, time stamps
      keep their nanoseconds up to their resolution.
    - Containers: lists refine sequences, maps return the entry added first.
    - Types: default values have the type described, components found by name have the
      type found by name, with dollar signs for dots.
    - Control objects: in every sequence of calls an object of a select-before-operate
      model that is operated once per selection is operated only for the client that
      selected it, its selection ends in time (both fail for the class operate-many), and
      requests with values of the right types never crash the server.
    - Reports: the buffer implements a sequence of reports, whatever the block wraps
      around; the processing of events always returns; clients that come back get the
      reports behind the last one they have.
    - Defects of the code are theorems as well: the server that serves a peer
      without association, the association request on which the parser never
      returns, the request without password that every server rejects, the packet size
      for which nothing is sent, the client that refuses an answer in several
      packets, that loses its buffer when closed early and its next connection to
      an old packet; the overruns of the receiver of sampled values, the sampling mode
      that is always zero, the name one byte too long, the time stamps from 2038 on;
      the foreign request that ends a selection, the refused operation that blocks an
      object, the select that is not answered, the name that crashes the server;
      the lone report that is lost without notice;
      the read behind the frame, the bit string that is written behind the
      publisher's buffer, the MMS string that no receiver takes, the VLAN priority, the validity after a failed first message, strings that
      cannot be decoded, the flood after a NaN, the cut line, the heartbeat
      slower than the time allowed to live, the breaker acting on invalid messages and
      the message that crashes it.

    ** Not modelled

    The user interfaces (Python) and scripts; printing and in-buffer copies of MMS
    values; sorting, IPv6 and generalized time in the string helpers; the threads and
    sockets of the ISO server (src/mms/iso_server/iso_server.c), whose connections are
    modelled; the MMS services of client and server, the IEC 61850 object model, and of its
    server logging, setting groups, and of reporting the messages to the clients and the
    attributes and reservation of the control blocks; of the tracking of control
    services all but the service and its error; routable
    GOOSE and sampled values, which are compiled out; the hardware abstraction layer, whose
    results are arguments. *)

From Stdlib Require Export ZArith Lia ZifyBool ZifyNat.
From stdpp Require Export base option list numbers.
Open Scope Z_scope.

(** * Machine integers

    A C integer is the mathematical integer it denotes; a conversion to a
    fixed-width type is written where the source converts. *)

Definition u8 (z : Z) : Z := z mod 256.
Definition u16 (z : Z) : Z := z mod 65536.
Definition u32 (z : Z) : Z := z mod 4294967296.
Definition u64 (z : Z) : Z := z mod 18446744073709551616.

Definition s16 (z : Z) : Z := (z + 32768) mod 65536 - 32768.
Definition s32 (z : Z) : Z := (z + 2147483648) mod 4294967296 - 2147483648.
Definition s64 (z : Z) : Z :=
  (z + 9223372036854775808) mod 18446744073709551616 - 9223372036854775808.

(** The ranges the C types have. *)
Definition is_byte (z : Z) : Prop := 0 <= z < 256.
Definition is_u32 (z : Z) : Prop := 0 <= z < 4294967296.
Definition is_s32 (z : Z) : Prop := -2147483648 <= z < 2147483648.

Abbreviation bytes_ok := (Forall is_byte).

(** Signed [int] arithmetic whose overflow is undefined behaviour. *)
Definition chk_int (z : Z) : option Z :=
  if (-2147483648 <=? z) && (z <=? 2147483647) then Some z else None.

(** * Memory blocks

    A block of memory is the list of its bytes; a pointer into a block is the
    list of the bytes from the pointer to the end of the block. [None] is the
    result of every operation that C leaves undefined: an access outside the
    block, a null dereference, a read of an inactive union member. *)

Definition zlen {A} (l : list A) : Z := Z.of_nat (length l).

(** [buf[i]] *)
Definition ld {A} (buf : list A) (i : Z) : option A :=
  if 0 <=? i then buf !! Z.to_nat i else None.

(** [buf[i] = v] *)
Definition st {A} (buf : list A) (i : Z) (v : A) : option (list A) :=
  if (0 <=? i) && (i <? zlen buf) then Some (<[Z.to_nat i := v]> buf) else None.

(** [buf + i] *)
Definition ptr_add (buf : list Z) (i : Z) : list Z := drop (Z.to_nat i) buf.

(** the [n] bytes at [buf + i], as [memcpy] and [memcmp] read them *)
Definition ld_range (buf : list Z) (i n : Z) : option (list Z) :=
  if (0 <=? i) && (0 <=? n) && (i + n <=? zlen buf)
  then Some (take (Z.to_nat n) (drop (Z.to_nat i) buf)) else None.

(** [memcpy(buf + i, bs, n)] for a source holding [bs] *)
Definition st_range (buf : list Z) (i : Z) (bs : list Z) : option (list Z) :=
  if (0 <=? i) && (i + zlen bs <=? zlen buf)
  then Some (take (Z.to_nat i) buf ++ bs ++ drop (Z.to_nat i + length bs) buf) else None.

(** [f(buf + i, ...)] for a function that updates the memory it is given *)
Definition on_ptr {A} (buf : list Z) (i : Z) (f : list Z -> option (A * list Z))
  : option (A * list Z) :=
  if (0 <=? i) && (i <=? zlen buf) then
    '(r, sub) ← f (drop (Z.to_nat i) buf);
    Some (r, take (Z.to_nat i) buf ++ sub)
  else None.

(** [strlen]: the index of the first zero byte, undefined when there is none *)
Fixpoint strlen (s : list Z) : option Z :=
  match s with
  | [] => None
  | c :: s' => if c =? 0 then Some 0 else n ← strlen s'; Some (n + 1)
  end.

(** * Sequential output

    The encoders of the library share one shape: they take a buffer and a
    position, write from there on and return the advanced position. *)

Definition writer : Type := list Z -> Z -> option (list Z * Z).

(** [buffer[bufPos++] = b] *)
Definition put (b : Z) : writer := fun buffer bufPos =>
  buffer ← st buffer bufPos b; Some (buffer, bufPos + 1).

Fixpoint puts (bs : list Z) : writer := fun buffer bufPos =>
  match bs with
  | [] => Some (buffer, bufPos)
  | b :: bs => '(buffer, bufPos) ← put b buffer bufPos; puts bs buffer bufPos
  end.

(** * Byte order *)

(** the bytes of an integer as they lie in the memory of a little-endian
    machine, the byte order the library is compiled for *)
Fixpoint le_bytes (n : nat) (z : Z) : list Z :=
  match n with
  | O => []
  | S n => z mod 256 :: le_bytes n (z / 256)
  end.

Fixpoint le_val (bs : list Z) : Z :=
  match bs with
  | [] => 0
  | b :: bs => b + 256 * le_val bs
  end.

Definition be_bytes (n : nat) (z : Z) : list Z := reverse (le_bytes n z).

Definition be_val (bs : list Z) : Z := fold_left (fun acc b => acc * 256 + b) bs 0.

(** * Automation *)

Create Rewrite HintDb zlen.
Create HintDb bytes.

(** rewrite every length to linear arithmetic over the lengths of variables *)
Ltac zlen := autorewrite with zlen in *.
Ltac zlia := zlen; unfold is_byte, is_u32, is_s32 in *; lia.

(** that the elements of a list written out are bytes *)
Ltac bytes_concrete :=
  repeat (apply List.Forall_nil || (apply List.Forall_cons; [unfold is_byte; lia|])).

(** split the conjunctions of boolean tests into arithmetic facts *)
Ltac bdestr :=
  repeat match goal with
  | H : (_ && _)%bool = true |- _ => let Ha := fresh "Hb" in let Hb := fresh "Hb" in
      apply andb_prop in H; destruct H as [Ha Hb]
  | H : (_ <=? _) = true |- _ => apply Z.leb_le in H
  | H : (_ <=? _) = false |- _ => apply Z.leb_gt in H
  | H : (_ <? _) = true |- _ => apply Z.ltb_lt in H
  | H : (_ <? _) = false |- _ => apply Z.ltb_ge in H
  | H : (_ =? _) = true |- _ => apply Z.eqb_eq in H
  | H : (_ =? _) = false |- _ => apply Z.eqb_neq in H
  end.

(** case analysis on a boolean test of the goal, closing the cases that
    arithmetic refutes *)
Ltac btest :=
  match goal with
  | |- context [if ?b then _ else _] =>
      let E := fresh "E" in destruct b eqn:E; bdestr; try lia
  end.

(** decide a test of the goal by arithmetic *)
Ltac if_true := match goal with
  | |- context [if ?b then _ else _] => replace b with true by (symmetry; lia)
  end; cbv iota.
Ltac if_false := match goal with
  | |- context [if ?b then _ else _] => replace b with false by (symmetry; lia)
  end; cbv iota.

(** * Lengths *)

Lemma zlen_nil {A} : zlen (@nil A) = 0.
Proof. reflexivity. Qed.
Lemma zlen_cons {A} (x : A) l : zlen (x :: l) = 1 + zlen l.
Proof. unfold zlen. simpl. lia. Qed.
Lemma zlen_app {A} (l k : list A) : zlen (l ++ k) = zlen l + zlen k.
Proof. unfold zlen. rewrite length_app. lia. Qed.
Lemma zlen_nonneg {A} (l : list A) : 0 <= zlen l.
Proof. unfold zlen. lia. Qed.
Lemma zlen_insert {A} (l : list A) i x : zlen (<[i:=x]> l) = zlen l.
Proof. unfold zlen. by rewrite length_insert. Qed.
Lemma zlen_reverse {A} (l : list A) : zlen (reverse l) = zlen l.
Proof. unfold zlen. by rewrite length_reverse. Qed.
Lemma zlen_replicate {A} n (x : A) : zlen (replicate n x) = Z.of_nat n.
Proof. unfold zlen. by rewrite length_replicate. Qed.
Lemma zlen_fmap {A B} (f : A -> B) l : zlen (f <$> l) = zlen l.
Proof. unfold zlen. by rewrite length_fmap. Qed.
Lemma zlen_take {A} (l : list A) n : 0 <= n <= zlen l -> zlen (take (Z.to_nat n) l) = n.
Proof. unfold zlen. rewrite length_take. lia. Qed.
Lemma zlen_drop {A} (l : list A) n : 0 <= n <= zlen l -> zlen (drop (Z.to_nat n) l) = zlen l - n.
Proof. unfold zlen. rewrite length_drop. lia. Qed.
Lemma zlen_ptr_add buf i : 0 <= i <= zlen buf -> zlen (ptr_add buf i) = zlen buf - i.
Proof. apply zlen_drop. Qed.
Lemma u8_small z : 0 <= z < 256 -> u8 z = z.
Proof. apply Z.mod_small. Qed.
Lemma zlen_to_nat {A} (l : list A) : Z.to_nat (zlen l) = length l.
Proof. unfold zlen. lia. Qed.
#[export] Hint Rewrite @zlen_nil @zlen_cons @zlen_app @zlen_insert @zlen_reverse
  @zlen_replicate @zlen_fmap @zlen_to_nat : zlen.

(** * Reads and writes *)

Lemma ld_lt {A} (buf : list A) i x : ld buf i = Some x -> 0 <= i < zlen buf.
Proof.
  unfold ld, zlen. btest; intros H; [|done].
  apply lookup_lt_Some in H. lia.
Qed.

Lemma ld_is_Some {A} (buf : list A) i : 0 <= i < zlen buf -> is_Some (ld buf i).
Proof.
  intros. unfold ld. if_true. apply lookup_lt_is_Some. unfold zlen in *. lia.
Qed.

Lemma ld_byte buf i x : bytes_ok buf -> ld buf i = Some x -> is_byte x.
Proof.
  intros Hb. unfold ld. btest; [|done]. intros H.
  by eapply (Forall_lookup_1 _ _ _ _ Hb H).
Qed.

Lemma st_Some {A} (buf : list A) i v :
  0 <= i < zlen buf -> st buf i v = Some (<[Z.to_nat i := v]> buf).
Proof. intros. unfold st. by if_true. Qed.

Lemma st_inv {A} (buf buf' : list A) i v :
  st buf i v = Some buf' -> 0 <= i < zlen buf /\ buf' = <[Z.to_nat i := v]> buf.
Proof. unfold st. btest; intros H; simplify_eq. auto. Qed.

Lemma ld_range_zlen buf i n bs : ld_range buf i n = Some bs -> zlen bs = n /\ 0 <= i /\ i + n <= zlen buf.
Proof.
  unfold ld_range. btest; intros H; simplify_eq.
  unfold zlen in *. rewrite length_take, length_drop. lia.
Qed.

Lemma ld_range_Some buf i n :
  0 <= i -> 0 <= n -> i + n <= zlen buf ->
  ld_range buf i n = Some (take (Z.to_nat n) (drop (Z.to_nat i) buf)).
Proof. intros. unfold ld_range. by if_true. Qed.

Lemma ld_range_bytes buf i n bs : bytes_ok buf -> ld_range buf i n = Some bs -> bytes_ok bs.
Proof.
  unfold ld_range. intros Hb. btest; intros H; simplify_eq.
  by apply Forall_take, Forall_drop.
Qed.

(** [bs] lies in [buf] from [pos] on. *)
Definition at_pos (buf : list Z) (pos : Z) (bs : list Z) : Prop :=
  exists pre post, buf = pre ++ bs ++ post /\ zlen pre = pos.

Lemma at_pos_app buf pos l k :
  at_pos buf pos (l ++ k) -> at_pos buf pos l /\ at_pos buf (pos + zlen l) k.
Proof.
  intros (pre & post & -> & <-). split.
  - exists pre, (k ++ post). by rewrite <- !app_assoc.
  - exists (pre ++ l), post. rewrite <- !app_assoc. split; [done | zlia].
Qed.

Lemma at_pos_cons buf pos b l :
  at_pos buf pos (b :: l) -> ld buf pos = Some b /\ at_pos buf (pos + 1) l.
Proof.
  intros (pre & post & -> & <-). pose proof (zlen_nonneg pre). split.
  - unfold ld. if_true. rewrite zlen_to_nat. by apply list_lookup_middle.
  - exists (pre ++ [b]), post. rewrite <- !app_assoc. split; [done | zlia].
Qed.

Lemma at_pos_bounds buf pos bs : at_pos buf pos bs -> 0 <= pos /\ pos + zlen bs <= zlen buf.
Proof.
  intros (pre & post & -> & <-). pose proof (zlen_nonneg pre).
  pose proof (zlen_nonneg post). zlia.
Qed.

Lemma at_pos_range buf pos bs : at_pos buf pos bs -> ld_range buf pos (zlen bs) = Some bs.
Proof.
  intros H. pose proof (at_pos_bounds _ _ _ H). pose proof (zlen_nonneg bs).
  destruct H as (pre & post & -> & <-). rewrite ld_range_Some by lia.
  by rewrite !zlen_to_nat, drop_app_length, take_app_length.
Qed.

Lemma at_pos_ptr buf pos bs : at_pos buf pos bs -> at_pos (ptr_add buf pos) 0 bs.
Proof.
  intros (pre & post & -> & <-). exists [], post. unfold ptr_add.
  by rewrite zlen_to_nat, drop_app_length.
Qed.

Lemma at_pos_whole bs : at_pos bs 0 bs.
Proof. exists [], []. by rewrite app_nil_r. Qed.

Lemma at_pos_prefix bs post : at_pos (bs ++ post) 0 bs.
Proof. by exists [], post. Qed.

(** * Sequential output *)

Lemma puts_app l k buffer bufPos :
  puts (l ++ k) buffer bufPos = '(buffer, bufPos) ← puts l buffer bufPos; puts k buffer bufPos.
Proof.
  revert buffer bufPos. induction l as [|b l IH]; intros buffer bufPos; [done|].
  simpl. unfold put. destruct (st buffer bufPos b); simpl; auto.
Qed.

Lemma puts_snoc l b buffer bufPos :
  puts (l ++ [b]) buffer bufPos = '(buffer, bufPos) ← puts l buffer bufPos; put b buffer bufPos.
Proof.
  rewrite puts_app. destruct (puts l buffer bufPos) as [[bf p]|]; simpl; [|done].
  by destruct (put b bf p) as [[? ?]|].
Qed.

(** What a run of stores leaves in the buffer. *)
Definition splice (buffer : list Z) (pos : Z) (bs : list Z) : list Z :=
  take (Z.to_nat pos) buffer ++ bs ++ drop (Z.to_nat pos + length bs) buffer.

Lemma zlen_splice buffer pos bs :
  0 <= pos -> pos + zlen bs <= zlen buffer -> zlen (splice buffer pos bs) = zlen buffer.
Proof.
  intros. unfold splice, zlen in *. rewrite !length_app, length_take, length_drop. lia.
Qed.

Lemma splice_at buffer pos bs :
  0 <= pos -> pos + zlen bs <= zlen buffer -> at_pos (splice buffer pos bs) pos bs.
Proof.
  intros. pose proof (zlen_nonneg bs). eexists _, _. split; [done|]. apply zlen_take. lia.
Qed.

(** A run of stores succeeds exactly when it fits, and then writes the bytes
    at the position and nothing else. *)
Lemma puts_fits bs buffer bufPos :
  0 <= bufPos -> bufPos + zlen bs <= zlen buffer ->
  puts bs buffer bufPos = Some (splice buffer bufPos bs, bufPos + zlen bs).
Proof.
  revert buffer bufPos. induction bs as [|b bs IH]; intros buffer bufPos Hp Hf; zlen.
  - simpl. unfold splice. simpl. rewrite Nat.add_0_r, take_drop. do 2 f_equal. lia.
  - pose proof (zlen_nonneg bs). simpl. unfold put. rewrite st_Some by lia. simpl.
    rewrite IH by zlia. do 2 f_equal; [|lia]. unfold splice. unfold zlen in *.
    replace (Z.to_nat (bufPos + 1)) with (S (Z.to_nat bufPos)) by lia.
    erewrite take_S_r by (apply list_lookup_insert_eq; lia).
    rewrite take_insert_ge by lia. rewrite drop_insert_lt by lia.
    rewrite <- app_assoc. simpl. do 4 f_equal. lia.
Qed.

(** Consecutive runs of stores are one. *)
Lemma splice_splice buffer pos l k :
  0 <= pos -> pos + zlen l + zlen k <= zlen buffer ->
  splice (splice buffer pos l) (pos + zlen l) k = splice buffer pos (l ++ k).
Proof.
  intros Hp Hf. pose proof (zlen_nonneg l). pose proof (zlen_nonneg k).
  pose proof (puts_fits (l ++ k) buffer pos Hp ltac:(zlia)) as H1.
  rewrite puts_app, puts_fits in H1 by lia. cbn [mbind option_bind] in H1.
  rewrite puts_fits in H1 by (rewrite ?zlen_splice; lia). congruence.
Qed.

Lemma puts_inv bs buffer bufPos buffer' bufPos' :
  puts bs buffer bufPos = Some (buffer', bufPos') ->
  bufPos' = bufPos + zlen bs /\ zlen buffer' = zlen buffer.
Proof.
  revert buffer bufPos. induction bs as [|b bs IH]; intros buffer bufPos; simpl.
  - intros [= -> ->]. zlia.
  - unfold put. destruct (st buffer bufPos b) as [bf|] eqn:E; simpl; [|done].
    intros H. apply st_inv in E as [? ->]. apply IH in H as [-> ->]. zlia.
Qed.

Lemma puts_overflow bs buffer bufPos :
  bufPos <= zlen buffer -> zlen buffer < bufPos + zlen bs -> puts bs buffer bufPos = None.
Proof.
  revert buffer bufPos. induction bs as [|b bs IH]; intros buffer bufPos Hp Ho; zlen; [lia|].
  simpl. unfold put. destruct (st buffer bufPos b) as [bf|] eqn:E; simpl; [|done].
  apply st_inv in E as [? ->]. apply IH; zlia.
Qed.

(** * Byte order *)

Lemma length_le_bytes n z : length (le_bytes n z) = n.
Proof. revert z. induction n; intros z; simpl; auto. Qed.

Lemma zlen_le_bytes n z : zlen (le_bytes n z) = Z.of_nat n.
Proof. unfold zlen. by rewrite length_le_bytes. Qed.

Lemma zlen_be_bytes n z : zlen (be_bytes n z) = Z.of_nat n.
Proof. unfold be_bytes. by rewrite zlen_reverse, zlen_le_bytes. Qed.
#[export] Hint Rewrite zlen_le_bytes zlen_be_bytes : zlen.

Lemma le_bytes_ok n z : bytes_ok (le_bytes n z).
Proof.
  revert z. induction n; intros z; simpl; constructor; auto.
  unfold is_byte. apply Z.mod_pos_bound. lia.
Qed.

Lemma be_bytes_ok n z : bytes_ok (be_bytes n z).
Proof. unfold be_bytes. apply Forall_reverse, le_bytes_ok. Qed.
#[export] Hint Resolve le_bytes_ok be_bytes_ok : bytes.

Lemma pow256_succ n : 256 ^ Z.of_nat (S n) = 256 * 256 ^ Z.of_nat n.
Proof. rewrite Nat2Z.inj_succ, Z.pow_succ_r; lia. Qed.

Lemma pow256_pos n : 0 < 256 ^ Z.of_nat n.
Proof. apply Z.pow_pos_nonneg; lia. Qed.

Lemma le_val_le_bytes n z : le_val (le_bytes n z) = z mod 256 ^ Z.of_nat n.
Proof.
  revert z. induction n as [|n IH]; intros z.
  - simpl. by rewrite Z.mod_1_r.
  - cbn [le_bytes le_val]. rewrite IH, pow256_succ.
    pose proof (pow256_pos n). by rewrite Z.rem_mul_r by lia.
Qed.

Lemma le_val_bound bs : bytes_ok bs -> 0 <= le_val bs < 256 ^ zlen bs.
Proof.
  induction 1 as [|b bs Hb _ IH]; [by cbn|].
  unfold zlen in *. cbn [length le_val]. rewrite pow256_succ. unfold is_byte in *. lia.
Qed.

Lemma le_bytes_le_val bs : bytes_ok bs -> le_bytes (length bs) (le_val bs) = bs.
Proof.
  induction 1 as [|b bs Hb _ IH]; [done|]. cbn [length le_bytes le_val].
  unfold is_byte in *. f_equal.
  - rewrite Z.mul_comm, Z_mod_plus_full. apply Z.mod_small. lia.
  - rewrite Z.mul_comm, Z_div_plus_full, Z.div_small, Z.add_0_l by lia. done.
Qed.

Lemma le_bytes_mod n z : le_bytes n (z mod 256 ^ Z.of_nat n) = le_bytes n z.
Proof.
  rewrite <- le_val_le_bytes. rewrite <- (length_le_bytes n z) at 1.
  apply le_bytes_le_val, le_bytes_ok.
Qed.

Lemma le_val_app l k : le_val (l ++ k) = le_val l + 256 ^ zlen l * le_val k.
Proof.
  induction l as [|b l IH]; [rewrite (@zlen_nil Z), Z.pow_0_r; cbn [app le_val]; lia|].
  unfold zlen in *. cbn [app length le_val]. rewrite IH, pow256_succ. lia.
Qed.

Lemma be_val_snoc bs b : be_val (bs ++ [b]) = be_val bs * 256 + b.
Proof. unfold be_val. by rewrite fold_left_app. Qed.

Lemma be_val_reverse bs : be_val (reverse bs) = le_val bs.
Proof.
  induction bs as [|b bs IH]; [done|]. rewrite reverse_cons, be_val_snoc, IH. simpl. lia.
Qed.

Lemma be_val_le_val bs : be_val bs = le_val (reverse bs).
Proof. by rewrite <- be_val_reverse, reverse_involutive. Qed.

Lemma be_val_be_bytes n z : be_val (be_bytes n z) = z mod 256 ^ Z.of_nat n.
Proof. unfold be_bytes. by rewrite be_val_reverse, le_val_le_bytes. Qed.

Lemma be_val_bound bs : bytes_ok bs -> 0 <= be_val bs < 256 ^ zlen bs.
Proof.
  intros H. rewrite be_val_le_val, <- (zlen_reverse bs). by apply le_val_bound, Forall_reverse.
Qed.

Lemma be_val_cons b bs : be_val (b :: bs) = b * 256 ^ zlen bs + be_val bs.
Proof.
  rewrite !be_val_le_val, reverse_cons, le_val_app, zlen_reverse. simpl. lia.
Qed.

(** A fold that shifts in one byte after the other is the big-endian value,
    modulo the width of the accumulator. *)
Lemma fold_shift_mod m bs acc :
  0 < m ->
  fold_left (fun a b => (a * 256 + b) mod m) bs (acc mod m)
  = fold_left (fun a b => a * 256 + b) bs acc mod m.
Proof.
  intros Hm. revert acc. induction bs as [|b bs IH]; intros acc; [done|]. simpl.
  rewrite <- IH. f_equal.
  rewrite <- Z.add_mod_idemp_l, Z.mul_mod_idemp_l, Z.add_mod_idemp_l by lia. done.
Qed.

Lemma fold_shift_acc bs acc :
  fold_left (fun a b => a * 256 + b) bs acc = acc * 256 ^ zlen bs + be_val bs.
Proof.
  revert acc. induction bs as [|b bs IH]; intros acc.
  - rewrite (@zlen_nil Z), Z.pow_0_r. unfold be_val. cbn [fold_left]. lia.
  - simpl. rewrite IH, be_val_cons. unfold zlen. cbn [length]. rewrite pow256_succ. lia.
Qed.
