(* ===== verification/BerEncoder.v ===== *)
(** BER encoding primitives: src/libiec61850/src/mms/asn1/ber_encoder.c.

    Every encoder of the file is a [writer]. The first part translates the C
    functions; the second part gives, for each of them, the byte string it
    writes, and proves that the C function performs exactly that run of stores
    (so it fails exactly when the run does not fit the buffer); the third part
    relates the [determine...Size] functions to the number of bytes written. *)

From S2P Require Import Prelude.
Open Scope Z_scope.

(** * The C functions *)

Definition BerEncoder_encodeLength (length : Z) : writer := fun buffer bufPos =>
  if length <? 128 then
    put (u8 length) buffer bufPos
  else if length <? 256 then
    '(buffer, bufPos) ← put 0x81 buffer bufPos;
    put (u8 length) buffer bufPos
  else if length <? 65535 then
    '(buffer, bufPos) ← put 0x82 buffer bufPos;
    '(buffer, bufPos) ← put (u8 (length / 256)) buffer bufPos;
    put (u8 (length mod 256)) buffer bufPos
  else
    '(buffer, bufPos) ← put 0x83 buffer bufPos;
    '(buffer, bufPos) ← put (u8 (length / 0x10000)) buffer bufPos;
    '(buffer, bufPos) ← put (u8 (Z.land length 0xffff / 0x100)) buffer bufPos;
    put (u8 (length mod 256)) buffer bufPos.

Definition BerEncoder_encodeTL (tag length : Z) : writer := fun buffer bufPos =>
  '(buffer, bufPos) ← put tag buffer bufPos;
  BerEncoder_encodeLength length buffer bufPos.

Definition BerEncoder_encodeBoolean (tag : Z) (value : bool) : writer := fun buffer bufPos =>
  '(buffer, bufPos) ← put tag buffer bufPos;
  '(buffer, bufPos) ← put 1 buffer bufPos;
  if value then put 0x01 buffer bufPos else put 0x00 buffer bufPos.

(** [for (i = 0; i < n; i++) buffer[bufPos++] = src[i];] from index [i] on *)
Fixpoint copy_loop (n : nat) (src : list Z) (i : Z) : writer := fun buffer bufPos =>
  match n with
  | O => Some (buffer, bufPos)
  | S n =>
      b ← ld src i;
      '(buffer, bufPos) ← put b buffer bufPos;
      copy_loop n src (i + 1) buffer bufPos
  end.

(** The string is [None] for the null pointer, else the block it points to. *)
Definition BerEncoder_encodeStringWithTag (tag : Z) (string : option (list Z)) : writer :=
  fun buffer bufPos =>
  '(buffer, bufPos) ← put tag buffer bufPos;
  match string with
  | Some string =>
      length ← strlen string;
      '(buffer, bufPos) ← BerEncoder_encodeLength length buffer bufPos;
      copy_loop (Z.to_nat length) string 0 buffer bufPos
  | None => put 0 buffer bufPos
  end.

(** src/libiec61850/src/mms/inc_private/asn1_ber_primitive_value.h: the octets
    are the allocated block of [maxSize] bytes. *)
Record Asn1PrimitiveValue := mkAsn1PrimitiveValue {
  apv_size : Z;
  apv_maxSize : Z;
  apv_octets : list Z
}.

Definition BerEncoder_encodeAsn1PrimitiveValue (tag : Z) (value : Asn1PrimitiveValue) : writer :=
  fun buffer bufPos =>
  '(buffer, bufPos) ← put tag buffer bufPos;
  '(buffer, bufPos) ← BerEncoder_encodeLength (u32 (apv_size value)) buffer bufPos;
  copy_loop (Z.to_nat (apv_size value)) (apv_octets value) 0 buffer bufPos.

Definition BerEncoder_encodeOctetString (tag : Z) (octetString : list Z) (octetStringSize : Z)
  : writer := fun buffer bufPos =>
  '(buffer, bufPos) ← put tag buffer bufPos;
  '(buffer, bufPos) ← BerEncoder_encodeLength octetStringSize buffer bufPos;
  copy_loop (Z.to_nat octetStringSize) octetString 0 buffer bufPos.

(** [for (i = 0; i < padding; i++) paddingMask += (1 << i); paddingMask = ~paddingMask;]
    on a [uint8_t] *)
Fixpoint paddingMask_loop (n : nat) (i : Z) (paddingMask : Z) : Z :=
  match n with
  | O => paddingMask
  | S n => paddingMask_loop n (i + 1) (u8 (paddingMask + Z.shiftl 1 i))
  end.

Definition paddingMask (padding : Z) : Z := u8 (Z.lnot (paddingMask_loop (Z.to_nat padding) 0 0)).

Definition BerEncoder_encodeBitString (tag bitStringSize : Z) (bitString : list Z) : writer :=
  fun buffer bufPos =>
  '(buffer, bufPos) ← put tag buffer bufPos;
  let byteSize := Z.quot bitStringSize 8 in
  let byteSize := if Z.rem bitStringSize 8 =? 0 then byteSize else byteSize + 1 in
  let padding := byteSize * 8 - bitStringSize in
  '(buffer, bufPos) ← BerEncoder_encodeLength (u32 (byteSize + 1)) buffer bufPos;
  '(buffer, bufPos) ← put (u8 padding) buffer bufPos;
  '(buffer, bufPos) ← copy_loop (Z.to_nat byteSize) bitString 0 buffer bufPos;
  b ← ld buffer (bufPos - 1);
  buffer ← st buffer (bufPos - 1) (Z.land b (paddingMask padding));
  Some (buffer, bufPos).

Definition BerEncoder_determineLengthSize (length : Z) : Z :=
  if length <? 128 then 1
  else if length <? 256 then 2
  else if length <? 65536 then 3
  else 4.

Definition BerEncoder_determineEncodedBitStringSize (bitStringSize : Z) : Z :=
  let size := 2 in
  let byteSize := Z.quot bitStringSize 8 in
  let byteSize := if Z.rem bitStringSize 8 =? 0 then byteSize else byteSize + 1 in
  let size := size + BerEncoder_determineLengthSize (u32 byteSize) in
  size + byteSize.

Fixpoint revert_loop (n : nat) (i size : Z) (octets : list Z) : option (list Z) :=
  match n with
  | O => Some octets
  | S n =>
      temp ← ld octets i;
      x ← ld octets (size - 1 - i);
      octets ← st octets i x;
      octets ← st octets (size - 1 - i) temp;
      revert_loop n (i + 1) size octets
  end.

Definition BerEncoder_revertByteOrder (octets : list Z) (size : Z) : option (list Z) :=
  revert_loop (Z.to_nat (Z.quot size 2)) 0 size octets.

(** the scan of the redundant leading octets: [n] positions are left before
    the last octet *)
Fixpoint compress_scan (n : nat) (integer : list Z) (bytePosition : Z) : option Z :=
  match n with
  | O => Some bytePosition
  | S n =>
      b0 ← ld integer bytePosition;
      if b0 =? 0x00 then
        b1 ← ld integer (bytePosition + 1);
        if Z.land b1 0x80 =? 0 then compress_scan n integer (bytePosition + 1)
        else Some bytePosition
      else if b0 =? 0xff then
        b1 ← ld integer (bytePosition + 1);
        if Z.land b1 0x80 =? 0x80 then compress_scan n integer (bytePosition + 1)
        else Some bytePosition
      else Some bytePosition
  end.

(** the copy of the remaining octets to the front of the array *)
Fixpoint compress_shift (n : nat) (newBytePosition bytePosition : Z) (integer : list Z)
  : option (list Z) :=
  match n with
  | O => Some integer
  | S n =>
      b ← ld integer bytePosition;
      integer ← st integer newBytePosition b;
      compress_shift n (newBytePosition + 1) (bytePosition + 1) integer
  end.

Definition BerEncoder_compressInteger (integer : list Z) (originalSize : Z)
  : option (list Z * Z) :=
  bytesToDelete ← compress_scan (Z.to_nat (originalSize - 1)) integer 0;
  if bytesToDelete =? 0 then Some (integer, originalSize)
  else
    let newSize := originalSize - bytesToDelete in
    integer ← compress_shift (Z.to_nat newSize) 0 bytesToDelete integer;
    Some (integer, newSize).

(** The five octets [valueBuffer] holds before it is compressed: a zero octet
    and the value in big-endian order. *)
Definition uint32_valueBuffer (value : Z) : option (list Z) :=
  octets ← BerEncoder_revertByteOrder (le_bytes 4 value) 4;
  Some (0 :: octets).

Definition BerEncoder_encodeUInt32 (value : Z) : writer := fun buffer bufPos =>
  valueBuffer ← uint32_valueBuffer value;
  '(valueBuffer, size) ← BerEncoder_compressInteger valueBuffer 5;
  copy_loop (Z.to_nat size) valueBuffer 0 buffer bufPos.

(** [for (i = 0; i < 4; i++) valueBuffer[3 - i] = valueArray[i];] *)
Fixpoint reverse_copy_loop (n : nat) (i : Z) (valueArray valueBuffer : list Z)
  : option (list Z) :=
  match n with
  | O => Some valueBuffer
  | S n =>
      b ← ld valueArray i;
      valueBuffer ← st valueBuffer (3 - i) b;
      reverse_copy_loop n (i + 1) valueArray valueBuffer
  end.

(** [uninit] is the indeterminate content of the local array. *)
Definition BerEncoder_encodeInt32 (uninit : list Z) (value : Z) : writer := fun buffer bufPos =>
  valueBuffer ← reverse_copy_loop 4 0 (le_bytes 4 value) uninit;
  '(valueBuffer, size) ← BerEncoder_compressInteger valueBuffer 4;
  copy_loop (Z.to_nat size) valueBuffer 0 buffer bufPos.

Definition BerEncoder_encodeUInt32WithTL (tag value : Z) : writer := fun buffer bufPos =>
  valueBuffer ← uint32_valueBuffer value;
  '(valueBuffer, size) ← BerEncoder_compressInteger valueBuffer 5;
  '(buffer, bufPos) ← put tag buffer bufPos;
  '(buffer, bufPos) ← put (u8 size) buffer bufPos;
  copy_loop (Z.to_nat size) valueBuffer 0 buffer bufPos.

Definition BerEncoder_encodeFloat (floatValue : list Z) (formatWidth exponentWidth : Z) : writer :=
  fun buffer bufPos =>
  let byteSize := formatWidth / 8 in
  '(buffer, valuePos) ← put exponentWidth buffer bufPos;
  '(buffer, _) ← copy_loop (Z.to_nat byteSize) floatValue 0 buffer valuePos;
  '(_, buffer) ← on_ptr buffer (bufPos + 1)
     (fun sub => sub ← BerEncoder_revertByteOrder sub byteSize; Some (tt, sub));
  Some (buffer, bufPos + 1 + byteSize).

Definition BerEncoder_UInt32determineEncodedSize (value : Z) : option Z :=
  valueBuffer ← uint32_valueBuffer value;
  '(_, size) ← BerEncoder_compressInteger valueBuffer 5;
  Some size.

Definition BerEncoder_Int32determineEncodedSize (value : Z) : option Z :=
  valueBuffer ← uint32_valueBuffer value;
  '(_, size) ← BerEncoder_compressInteger valueBuffer 5;
  Some size.

Definition BerEncoder_determineEncodedStringSize (string : option (list Z)) : option Z :=
  match string with
  | Some string =>
      let size := 1 in
      length ← strlen string;
      let size := size + BerEncoder_determineLengthSize length in
      Some (size + length)
  | None => Some 2
  end.

(** * The bytes the encoders write *)

Definition ber_length (n : Z) : list Z :=
  if n <? 128 then [u8 n]
  else if n <? 256 then [0x81; u8 n]
  else if n <? 65535 then [0x82; u8 (n / 256); u8 (n mod 256)]
  else [0x83; u8 (n / 0x10000); u8 (Z.land n 0xffff / 0x100); u8 (n mod 256)].

Definition ber_tlv (tag : Z) (content : list Z) : list Z :=
  tag :: ber_length (zlen content) ++ content.

(** the shortest two's complement octets with the same value *)
Fixpoint ber_minimal (l : list Z) : list Z :=
  match l with
  | b0 :: ((b1 :: _) as l') =>
      if (b0 =? 0) && (b1 <? 128) || (b0 =? 255) && (128 <=? b1) then ber_minimal l' else l
  | _ => l
  end.

(** the octets of an unsigned 32 bit value and of a signed one *)
Definition ber_uint32 (value : Z) : list Z := ber_minimal (0 :: be_bytes 4 value).
Definition ber_int32 (value : Z) : list Z := ber_minimal (be_bytes 4 value).

(** the value of two's complement octets *)
Definition sbe_val (bs : list Z) : Z :=
  match bs with
  | [] => 0
  | b :: _ => if b <? 128 then be_val bs else be_val bs - 256 ^ zlen bs
  end.

(** a C string: the characters before the terminating zero *)
Fixpoint c_string (s : list Z) : list Z :=
  match s with
  | [] => []
  | c :: s' => if c =? 0 then [] else c :: c_string s'
  end.

Definition ber_string (string : option (list Z)) : list Z :=
  match string with Some s => c_string s | None => [] end.

(** the bits of a bit string, the padding bits of the last octet cleared *)
Definition ber_bits (bitStringSize : Z) (bitString : list Z) : list Z :=
  let byteSize := (bitStringSize + 7) / 8 in
  let padding := byteSize * 8 - bitStringSize in
  let octets := take (Z.to_nat byteSize) bitString in
  alter (fun b => Z.land b (paddingMask padding)) (pred (length octets)) octets.

(** ** Runs of stores *)

Lemma puts_one b buffer bufPos : puts [b] buffer bufPos = put b buffer bufPos.
Proof. simpl. by destruct (put b buffer bufPos) as [[? ?]|]. Qed.

(** Both sides of a writer equation perform the same stores in turn. *)
Ltac writer_eq :=
  repeat (cbn [puts mbind option_bind];
          match goal with
          | |- context [put ?b ?bf ?p] => destruct (put b bf p) as [[? ?]|]
          end);
  cbn [puts mbind option_bind]; try done.

Lemma copy_loop_puts n src i buffer bufPos :
  0 <= i -> i + Z.of_nat n <= zlen src ->
  copy_loop n src i buffer bufPos = puts (take n (drop (Z.to_nat i) src)) buffer bufPos.
Proof.
  revert i buffer bufPos. induction n as [|n IH]; intros i buffer bufPos Hi Hn; [done|].
  destruct (ld_is_Some src i) as [b Hb]; [lia|]. cbn [copy_loop]. rewrite Hb. cbn.
  unfold ld in Hb. replace (0 <=? i) with true in Hb by lia.
  rewrite (drop_S _ _ _ Hb). cbn. destruct (put b buffer bufPos) as [[bf p]|]; cbn; [|done].
  rewrite IH by lia. by replace (Z.to_nat (i + 1)) with (S (Z.to_nat i)) by lia.
Qed.

Lemma copy_loop_all src n buffer bufPos :
  0 <= n <= zlen src ->
  copy_loop (Z.to_nat n) src 0 buffer bufPos = puts (take (Z.to_nat n) src) buffer bufPos.
Proof. intros. rewrite copy_loop_puts by lia. done. Qed.

(** ** Lengths and tags *)

Lemma encodeLength_puts n buffer bufPos :
  BerEncoder_encodeLength n buffer bufPos = puts (ber_length n) buffer bufPos.
Proof. unfold BerEncoder_encodeLength, ber_length. repeat case_match; writer_eq. Qed.

Lemma encodeTL_puts tag n buffer bufPos :
  BerEncoder_encodeTL tag n buffer bufPos = puts (tag :: ber_length n) buffer bufPos.
Proof.
  unfold BerEncoder_encodeTL. cbn. destruct (put _ _ _) as [[? ?]|]; cbn; [|done].
  apply encodeLength_puts.
Qed.

Lemma encodeBoolean_puts tag v buffer bufPos :
  BerEncoder_encodeBoolean tag v buffer bufPos
  = puts (ber_tlv tag [if v then 1 else 0]) buffer bufPos.
Proof.
  unfold BerEncoder_encodeBoolean. change (ber_tlv tag [if v then 1 else 0])
    with [tag; 1; if v then 1 else 0]. destruct v; writer_eq.
Qed.

(** Write a length and then [content]. *)
Lemma length_content_puts n content buffer bufPos :
  ('(buffer, bufPos) ← BerEncoder_encodeLength n buffer bufPos; puts content buffer bufPos)
  = puts (ber_length n ++ content) buffer bufPos.
Proof. by rewrite encodeLength_puts, puts_app. Qed.

(** ** Strings *)

Lemma strlen_c_string s n :
  strlen s = Some n -> n = zlen (c_string s) /\ take (Z.to_nat n) s = c_string s /\ n < zlen s.
Proof.
  revert n. induction s as [|c s IH]; intros n; [done|]. cbn.
  destruct (c =? 0); [intros [= <-]; zlen; pose proof (zlen_nonneg s); auto with lia|].
  destruct (strlen s) as [m|] eqn:E; cbn; [|done]. intros [= <-].
  destruct (IH m eq_refl) as (-> & Ht & Hl). zlen. pose proof (zlen_nonneg (c_string s)).
  replace (Z.to_nat (zlen (c_string s) + 1)) with (S (length (c_string s)))
    by (unfold zlen; lia).
  cbn. repeat split; [lia| by f_equal | lia].
Qed.

Lemma strlen_is_Some s : 0 ∈ s -> is_Some (strlen s).
Proof.
  induction s as [|c s IH]; intros Hs; [by apply not_elem_of_nil in Hs|]. cbn.
  destruct (Z.eqb_spec c 0); [eauto|].
  apply elem_of_cons in Hs as [Hc|Hs]; [lia|]. destruct (IH Hs) as [m ->]. cbn. eauto.
Qed.

Lemma strlen_terminated s post : 0 ∉ s -> strlen (s ++ 0 :: post) = Some (zlen s).
Proof.
  induction s as [|c s IH]; intros Hs; [done|]. apply not_elem_of_cons in Hs as [Hc Hs].
  cbn. replace (c =? 0) with false by lia. rewrite IH by done. cbn. f_equal. zlia.
Qed.

Lemma c_string_terminated s post : 0 ∉ s -> c_string (s ++ 0 :: post) = s.
Proof.
  induction s as [|c s IH]; intros Hs; [done|]. apply not_elem_of_cons in Hs as [Hc Hs].
  cbn. replace (c =? 0) with false by lia. by rewrite IH.
Qed.

(** A string argument is null or terminated. *)
Definition string_ok (string : option (list Z)) : Prop :=
  match string with Some s => 0 ∈ s | None => True end.

Lemma encodeStringWithTag_puts tag string buffer bufPos :
  string_ok string ->
  BerEncoder_encodeStringWithTag tag string buffer bufPos
  = puts (ber_tlv tag (ber_string string)) buffer bufPos.
Proof.
  intros Hs. unfold BerEncoder_encodeStringWithTag, ber_tlv. cbn.
  destruct (put tag buffer bufPos) as [[bf p]|]; cbn; [|done].
  destruct string as [s|]; [|by rewrite <- puts_one]. cbn.
  destruct (strlen_is_Some s Hs) as [n Hn]. rewrite Hn. cbn.
  apply strlen_c_string in Hn as (-> & Ht & Hl). rewrite <- Ht.
  rewrite <- length_content_puts, Ht. rewrite !encodeLength_puts.
  destruct (puts _ bf p) as [[bf' p']|]; cbn; [|done].
  pose proof (zlen_nonneg (c_string s)).
  by rewrite copy_loop_all, Ht by lia.
Qed.

Lemma encodeOctetString_puts tag octets size buffer bufPos :
  0 <= size <= zlen octets ->
  BerEncoder_encodeOctetString tag octets size buffer bufPos
  = puts (ber_tlv tag (take (Z.to_nat size) octets)) buffer bufPos.
Proof.
  intros H. unfold BerEncoder_encodeOctetString, ber_tlv. cbn.
  destruct (put tag buffer bufPos) as [[bf p]|]; cbn; [|done].
  rewrite zlen_take by lia. rewrite <- length_content_puts, !encodeLength_puts.
  destruct (puts _ bf p) as [[bf' p']|]; cbn; [|done]. by apply copy_loop_all.
Qed.

(** A primitive value whose size is in range. *)
Definition apv_ok (v : Asn1PrimitiveValue) : Prop :=
  0 <= apv_size v <= apv_maxSize v /\ apv_maxSize v = zlen (apv_octets v) /\
  bytes_ok (apv_octets v) /\ apv_maxSize v < 256.

Definition apv_content (v : Asn1PrimitiveValue) : list Z :=
  take (Z.to_nat (apv_size v)) (apv_octets v).

Lemma u32_small z : 0 <= z < 4294967296 -> u32 z = z.
Proof. intros. by apply Z.mod_small. Qed.

Lemma zlen_apv_content v : apv_ok v -> zlen (apv_content v) = apv_size v.
Proof. intros (? & ? & _). apply zlen_take. lia. Qed.

Lemma encodeAsn1PrimitiveValue_puts tag v buffer bufPos :
  apv_ok v ->
  BerEncoder_encodeAsn1PrimitiveValue tag v buffer bufPos
  = puts (ber_tlv tag (apv_content v)) buffer bufPos.
Proof.
  intros Hv. pose proof Hv as (? & ? & _ & ?).
  unfold BerEncoder_encodeAsn1PrimitiveValue, ber_tlv. cbn.
  destruct (put tag buffer bufPos) as [[bf p]|]; cbn; [|done].
  rewrite zlen_apv_content by done. rewrite u32_small by lia.
  rewrite <- length_content_puts, !encodeLength_puts.
  destruct (puts _ bf p) as [[bf' p']|]; cbn; [|done]. apply copy_loop_all. lia.
Qed.

(** ** Byte order reversal *)

(** [l'] is [l] with the [k] outermost pairs of its first [N] octets swapped. *)
Definition swapped (N k : nat) (l l' : list Z) : Prop :=
  length l' = length l /\
  forall j, l' !! j = if (j <? k)%nat || ((N - k <=? j)%nat && (j <? N)%nat)
                      then l !! (N - 1 - j)%nat else l !! j.

Lemma swapped_final N k l l' :
  (N <= length l)%nat -> (2 * k = N \/ 2 * k + 1 = N)%nat -> swapped N k l l' ->
  l' = reverse (take N l) ++ drop N l.
Proof.
  intros HN Hk [Hl Hj]. apply list_eq. intros j. rewrite Hj.
  destruct (Nat.lt_ge_cases j N) as [Hlt|Hge].
  - rewrite lookup_app_l by (rewrite length_reverse, length_take; lia).
    rewrite reverse_lookup by (rewrite length_take; lia).
    rewrite length_take, lookup_take_lt by lia.
    destruct (_ || _) eqn:E; f_equal; lia.
  - rewrite lookup_app_r by (rewrite length_reverse, length_take; lia).
    rewrite lookup_drop, length_reverse, length_take.
    destruct (_ || _) eqn:E; f_equal; lia.
Qed.

Lemma swapped_step N k l l' x y :
  (2 * k + 2 <= N)%nat -> (N <= length l)%nat -> swapped N k l l' ->
  l' !! k = Some x -> l' !! (N - 1 - k)%nat = Some y ->
  swapped N (S k) l (<[(N - 1 - k)%nat := x]> (<[k := y]> l')).
Proof.
  intros Hk HN [Hl Hj] Hx Hy. split; [by rewrite !length_insert|]. intros j.
  pose proof (Hj k) as Hjk. pose proof (Hj (N - 1 - k)%nat) as Hjy.
  rewrite Hx in Hjk. rewrite Hy in Hjy.
  replace (_ || _) with false in Hjk by lia. replace (_ || _) with false in Hjy by lia.
  destruct (decide (j = N - 1 - k)%nat) as [->|Hne].
  - rewrite list_lookup_insert_eq by (rewrite length_insert; lia).
    replace (_ || _) with true by lia. rewrite Hjk. f_equal. lia.
  - rewrite list_lookup_insert_ne by done. destruct (decide (j = k)) as [->|Hne'].
    + rewrite list_lookup_insert_eq by lia. replace (_ || _) with true by lia. done.
    + rewrite list_lookup_insert_ne by done. rewrite Hj.
      destruct (_ || _) eqn:E1; destruct ((j <? S k)%nat || _) eqn:E2; try done; lia.
Qed.

Lemma revert_loop_spec n k N l l' :
  (N <= length l)%nat -> (2 * (n + k) = N \/ 2 * (n + k) + 1 = N)%nat -> swapped N k l l' ->
  revert_loop n (Z.of_nat k) (Z.of_nat N) l' = Some (reverse (take N l) ++ drop N l).
Proof.
  intros HN. revert k l'. induction n as [|n IH]; intros k l' Hk Hs.
  - cbn. f_equal. by eapply swapped_final; [..|exact Hs].
  - pose proof Hs as [Hl _]. cbn [revert_loop].
    assert (0 <= Z.of_nat k < zlen l') as Hr1 by (unfold zlen; lia).
    assert (0 <= Z.of_nat N - 1 - Z.of_nat k < zlen l') as Hr2 by (unfold zlen; lia).
    destruct (ld_is_Some l' _ Hr1) as [x Hx]. destruct (ld_is_Some l' _ Hr2) as [y Hy].
    rewrite Hx, Hy. cbn [mbind option_bind]. rewrite st_Some by done.
    cbn [mbind option_bind]. rewrite st_Some by zlia. cbn [mbind option_bind].
    replace (Z.of_nat k + 1) with (Z.of_nat (S k)) by lia.
    replace (Z.to_nat (Z.of_nat N - 1 - Z.of_nat k)) with (N - 1 - k)%nat by lia.
    rewrite Nat2Z.id. apply IH; [lia|].
    unfold ld in Hx, Hy. revert Hx Hy. do 2 if_true. rewrite Nat2Z.id.
    replace (Z.to_nat (Z.of_nat N - 1 - Z.of_nat k)) with (N - 1 - k)%nat by lia.
    intros Hx Hy. by apply swapped_step; [lia|lia|..].
Qed.

Lemma revertByteOrder_spec octets size :
  0 <= size <= zlen octets ->
  BerEncoder_revertByteOrder octets size
  = Some (reverse (take (Z.to_nat size) octets) ++ drop (Z.to_nat size) octets).
Proof.
  intros H. unfold BerEncoder_revertByteOrder.
  rewrite Z.quot_div_nonneg by lia.
  pose proof (Z.div_mod size 2 ltac:(lia)). pose proof (Z.mod_pos_bound size 2 ltac:(lia)).
  replace size with (Z.of_nat (Z.to_nat size)) at 2 by lia.
  apply (revert_loop_spec _ 0); [unfold zlen in *; lia | lia |].
  split; [done|]. intros j. replace (_ || _) with false by lia. done.
Qed.

Lemma revertByteOrder_all octets :
  BerEncoder_revertByteOrder octets (zlen octets) = Some (reverse octets).
Proof.
  pose proof (zlen_nonneg octets). rewrite revertByteOrder_spec by lia.
  by rewrite zlen_to_nat, take_ge, drop_ge, app_nil_r by lia.
Qed.

Lemma uint32_valueBuffer_spec value : uint32_valueBuffer value = Some (0 :: be_bytes 4 value).
Proof.
  unfold uint32_valueBuffer. pose proof (revertByteOrder_all (le_bytes 4 value)) as H.
  rewrite zlen_le_bytes in H. change (Z.of_nat 4) with 4 in H. by rewrite H.
Qed.

(** ** Integer compression *)

Lemma land_128 b : is_byte b -> Z.land b 0x80 = if b <? 128 then 0 else 0x80.
Proof.
  intros Hb. assert (forallb (fun n => Z.land (Z.of_nat n) 128 =? if Z.of_nat n <? 128 then 0 else 128)
    (seq 0 256) = true) as H by (vm_compute; reflexivity).
  rewrite forallb_forall in H. specialize (H (Z.to_nat b)).
  rewrite Z2Nat.id in H by (unfold is_byte in Hb; lia).
  apply Z.eqb_eq, H, in_seq. unfold is_byte in Hb. lia.
Qed.

Lemma ber_minimal_step b0 b1 l :
  ber_minimal (b0 :: b1 :: l)
  = if (b0 =? 0) && (b1 <? 128) || (b0 =? 255) && (128 <=? b1)
    then ber_minimal (b1 :: l) else b0 :: b1 :: l.
Proof. reflexivity. Qed.

Lemma ber_minimal_suffix l : exists pre, l = pre ++ ber_minimal l.
Proof.
  induction l as [|b0 l IH]; [by exists []|]. destruct l as [|b1 l]; [by exists []|].
  cbn [ber_minimal]. case_match; [|by exists []].
  destruct IH as [pre IH]. exists (b0 :: pre). cbn. by f_equal.
Qed.

Lemma ber_minimal_ok l : bytes_ok l -> bytes_ok (ber_minimal l).
Proof.
  intros H. destruct (ber_minimal_suffix l) as [pre E]. rewrite E in H.
  by apply Forall_app in H as [_ ?].
Qed.

Lemma ber_minimal_nonempty l : l <> [] -> ber_minimal l <> [].
Proof.
  induction l as [|b0 l IH]; [done|]. intros _. destruct l as [|b1 l]; [done|].
  cbn [ber_minimal]. case_match; [by apply IH|done].
Qed.

Lemma zlen_ber_minimal l : zlen (ber_minimal l) <= zlen l.
Proof.
  destruct (ber_minimal_suffix l) as [pre E]. pose proof (zlen_nonneg pre).
  rewrite E at 2. zlia.
Qed.

Lemma zlen_ber_minimal_pos l : l <> [] -> 1 <= zlen (ber_minimal l).
Proof.
  intros H. apply ber_minimal_nonempty in H. destruct (ber_minimal l); [done|].
  pose proof (zlen_nonneg l0). zlia.
Qed.

Lemma compress_scan_spec pre l :
  bytes_ok l -> l <> [] ->
  compress_scan (pred (length l)) (pre ++ l) (zlen pre)
  = Some (zlen pre + (zlen l - zlen (ber_minimal l))).
Proof.
  intros Hl. revert pre. induction Hl as [|b0 l Hb0 Hl IH]; intros pre; [done|]. intros _.
  destruct l as [|b1 l]; [cbn; f_equal; zlia|].
  change (pred (length (b0 :: b1 :: l))) with (S (pred (length (b1 :: l)))).
  pose proof (at_pos_prefix (pre ++ b0 :: b1 :: l) []) as Hat. rewrite app_nil_r in Hat.
  apply at_pos_app in Hat as [_ Hat]. rewrite Z.add_0_l in Hat.
  apply at_pos_cons in Hat as [Hl0 Hat]. apply at_pos_cons in Hat as [Hl1 _].
  cbn [compress_scan]. rewrite Hl0, Hl1. cbn [mbind option_bind].
  assert (is_byte b1) as Hb1 by by inversion Hl.
  rewrite land_128 by done.
  assert (forall P : Z, compress_scan (pred (length (b1 :: l))) (pre ++ b0 :: b1 :: l) (zlen pre + 1)
    = Some (zlen pre + (zlen (b0 :: b1 :: l) - zlen (ber_minimal (b1 :: l))))) as Hnext.
  { intros _. specialize (IH (pre ++ [b0]) ltac:(done)). rewrite <- app_assoc in IH. cbn [app] in IH.
    rewrite zlen_app in IH. change (zlen [b0]) with 1 in IH.
    rewrite IH. f_equal. zlia. }
  cbn [ber_minimal].
  destruct (Z.eqb_spec b0 0) as [->|?]; [|destruct (Z.eqb_spec b0 255) as [->|?]].
  - destruct (Z.ltb_spec b1 128); cbn [andb orb Z.eqb]; [by apply Hnext|].
    f_equal. lia.
  - replace (128 <=? b1) with (negb (b1 <? 128)) by lia.
    destruct (b1 <? 128); cbn [negb andb orb]; [f_equal; lia|]. by apply Hnext.
  - cbn [andb orb]. f_equal. lia.
Qed.

Lemma compress_shift_spec n k d l :
  (k + n + d = length l)%nat ->
  compress_shift n (Z.of_nat k) (Z.of_nat (k + d)) (take k (drop d l) ++ drop k l)
  = Some (take (k + n) (drop d l) ++ drop (k + n) l).
Proof.
  revert k. induction n as [|n IH]; intros k Hk; [by rewrite Nat.add_0_r|].
  cbn [compress_shift].
  assert (length (take k (drop d l)) = k) as Hlen by (rewrite length_take, length_drop; lia).
  destruct (lookup_lt_is_Some_2 l (k + d)) as [b Hb]; [lia|].
  assert (ld (take k (drop d l) ++ drop k l) (Z.of_nat (k + d)) = Some b) as ->.
  { unfold ld. if_true. rewrite Nat2Z.id, lookup_app_r by lia.
    rewrite lookup_drop, Hlen. rewrite <- Hb. f_equal. lia. }
  cbn [mbind option_bind]. rewrite st_Some
    by (unfold zlen; rewrite length_app, Hlen, length_drop; lia).
  cbn [mbind option_bind].
  replace (Z.of_nat k + 1) with (Z.of_nat (S k)) by lia.
  replace (Z.of_nat (k + d) + 1) with (Z.of_nat (S k + d)) by lia.
  replace (k + S n)%nat with (S k + n)%nat by lia. rewrite <- IH by lia. f_equal.
  rewrite Nat2Z.id, insert_app_r_alt by lia. rewrite Hlen, Nat.sub_diag.
  assert (drop d l !! k = Some b) as Hbk by (rewrite lookup_drop, <- Hb; f_equal; lia).
  rewrite (take_S_r _ _ _ Hbk), <- app_assoc. f_equal.
  destruct (drop k l) as [|x r] eqn:Er.
  - apply (f_equal length) in Er. rewrite length_drop in Er. cbn in Er. lia.
  - cbn. f_equal. replace (S k) with (k + 1)%nat by lia. rewrite <- drop_drop, Er. done.
Qed.

(** [BerEncoder_compressInteger] leaves the shortest equivalent octets in the
    front of the array and returns their number. *)
Lemma compressInteger_spec l :
  bytes_ok l -> l <> [] ->
  BerEncoder_compressInteger l (zlen l)
  = Some (ber_minimal l ++ drop (length (ber_minimal l)) l, zlen (ber_minimal l)).
Proof.
  intros Hl Hne. unfold BerEncoder_compressInteger.
  replace (Z.to_nat (zlen l - 1)) with (pred (length l)) by (unfold zlen; lia).
  pose proof (compress_scan_spec [] l Hl Hne) as Hscan. cbn [app] in Hscan.
  rewrite zlen_nil in Hscan. rewrite Hscan. cbn [mbind option_bind].
  pose proof (zlen_ber_minimal l). destruct (ber_minimal_suffix l) as [pre E].
  replace (0 + (zlen l - zlen (ber_minimal l))) with (zlen pre)
    by (rewrite E at 1; rewrite zlen_app; lia).
  assert (drop (length pre) l = ber_minimal l) as Hd by (rewrite E at 1; apply drop_app_length).
  destruct (Z.eqb_spec (zlen pre) 0) as [Hz|Hz].
  - destruct pre; [|zlen; pose proof (zlen_nonneg pre); lia]. cbn in E. rewrite <- E.
    by rewrite drop_all, app_nil_r.
  - assert (zlen l = zlen pre + zlen (ber_minimal l)) as Hsum by (rewrite E at 1; zlia).
    replace (Z.to_nat (zlen l - zlen pre)) with (length (ber_minimal l)) by (unfold zlen in *; lia).
    pose proof (compress_shift_spec (length (ber_minimal l)) 0 (length pre) l) as Hs.
    rewrite Hd in Hs. cbn [Nat.add] in Hs. rewrite take_0, drop_0 in Hs. cbn [app] in Hs.
    change (compress_shift (length (ber_minimal l)) 0 (zlen pre) l)
      with (compress_shift (length (ber_minimal l)) (Z.of_nat 0) (Z.of_nat (length pre)) l).
    rewrite (Hs ltac:(unfold zlen in *; lia)). cbn [mbind option_bind].
    rewrite firstn_all. do 2 f_equal. lia.
Qed.

Lemma compressInteger_copy l buffer bufPos :
  bytes_ok l -> l <> [] ->
  ('(arr, size) ← BerEncoder_compressInteger l (zlen l); copy_loop (Z.to_nat size) arr 0 buffer bufPos)
  = puts (ber_minimal l) buffer bufPos.
Proof.
  intros Hl Hne. rewrite compressInteger_spec by done. cbn [mbind option_bind].
  rewrite copy_loop_all.
  - by rewrite zlen_to_nat, take_app_length.
  - pose proof (zlen_nonneg (ber_minimal l)). rewrite zlen_app.
    pose proof (zlen_nonneg (drop (length (ber_minimal l)) l)). lia.
Qed.

(** ** Values of the compressed octets *)

Lemma sbe_val_cons b bs :
  bytes_ok (b :: bs) ->
  sbe_val (b :: bs) = (if b <? 128 then b else b - 256) * 256 ^ zlen bs + be_val bs.
Proof.
  intros Hb. unfold sbe_val. rewrite be_val_cons. zlen.
  pose proof (zlen_nonneg bs). rewrite Z.pow_add_r by lia. case_match; lia.
Qed.

Lemma sbe_val_minimal l : bytes_ok l -> sbe_val (ber_minimal l) = sbe_val l.
Proof.
  induction 1 as [|b0 l Hb0 Hl IH]; [done|]. destruct l as [|b1 l]; [done|].
  rewrite ber_minimal_step. case_match; [|done]. rewrite IH.
  rewrite (sbe_val_cons b0) by by constructor. rewrite (sbe_val_cons b1) by done.
  inversion Hl as [|? ? Hb1 Hl']; subst. unfold is_byte in Hb0, Hb1.
  rewrite be_val_cons. zlen. pose proof (zlen_nonneg l). rewrite Z.pow_add_r by lia.
  change (256 ^ 1) with 256.
  destruct (Z.ltb_spec b1 128).
  - replace b0 with 0 by lia. change (0 <? 128) with true. cbv iota. lia.
  - replace b0 with 255 by lia. change (255 <? 128) with false. cbv iota. lia.
Qed.

(** No shorter two's complement encoding exists: the first nine bits of what
    is left are not all equal. *)
Lemma ber_minimal_shortest l b0 b1 r :
  bytes_ok l -> ber_minimal l = b0 :: b1 :: r ->
  ~ (b0 = 0 /\ b1 < 128) /\ ~ (b0 = 255 /\ 128 <= b1).
Proof.
  induction 1 as [|x l Hx Hl IH]; [done|]. destruct l as [|y l]; [done|].
  rewrite ber_minimal_step. case_match eqn:E; [done|]. intros [= -> -> ->]. lia.
Qed.

Lemma ber_uint32_ok value : bytes_ok (ber_uint32 value).
Proof. apply ber_minimal_ok. constructor; [unfold is_byte; lia | auto with bytes]. Qed.
Lemma ber_int32_ok value : bytes_ok (ber_int32 value).
Proof. apply ber_minimal_ok. auto with bytes. Qed.
#[export] Hint Resolve ber_uint32_ok ber_int32_ok : bytes.

Lemma be_bytes_4_cons value : exists b bs, be_bytes 4 value = b :: bs.
Proof. pose proof (zlen_be_bytes 4 value). destruct (be_bytes 4 value); [done|eauto]. Qed.

Lemma sbe_val_uint32 value : is_u32 value -> sbe_val (ber_uint32 value) = value.
Proof.
  intros H. unfold ber_uint32. rewrite sbe_val_minimal
    by (constructor; [unfold is_byte; lia | auto with bytes]).
  rewrite sbe_val_cons by (constructor; [unfold is_byte; lia | auto with bytes]).
  change (0 <? 128) with true. rewrite be_val_be_bytes, Z.mod_small; [lia|].
  unfold is_u32 in H. change (256 ^ Z.of_nat 4) with 4294967296. lia.
Qed.

(** The unsigned reading of the octets is the value as well: the sign octet
    is never dropped when it is needed. *)
Lemma be_val_uint32 value : is_u32 value -> be_val (ber_uint32 value) = value.
Proof.
  intros H. pose proof (sbe_val_uint32 value H) as Hv. pose proof (ber_uint32_ok value) as Hok.
  destruct (ber_uint32 value) as [|b bs]; [done|].
  cbn [sbe_val] in Hv. destruct (b <? 128); [done|].
  pose proof (be_val_bound _ Hok). unfold is_u32 in H. lia.
Qed.

Lemma sbe_val_int32 value : is_s32 value -> sbe_val (ber_int32 value) = value.
Proof.
  intros H. unfold ber_int32. rewrite sbe_val_minimal by auto with bytes.
  pose proof (be_val_be_bytes 4 value) as Hv. change (256 ^ Z.of_nat 4) with 4294967296 in Hv.
  pose proof (be_bytes_ok 4 value) as Hok. pose proof (zlen_be_bytes 4 value) as Hz.
  destruct (be_bytes_4_cons value) as (b & bs & E). rewrite E in *.
  cbn [sbe_val]. rewrite Hz. change (256 ^ Z.of_nat 4) with 4294967296.
  rewrite be_val_cons in *. zlen. assert (zlen bs = 3) as Hbs by lia. rewrite Hbs in *.
  change (256 ^ 3) with 16777216 in *. inversion Hok as [|? ? Hb Hbs']; subst.
  pose proof (be_val_bound _ Hbs') as Hbound. rewrite Hbs in Hbound.
  change (256 ^ 3) with 16777216 in Hbound. unfold is_s32, is_byte in *.
  pose proof (Z.div_mod value 4294967296 ltac:(lia)).
  assert (value / 4294967296 = 0 \/ value / 4294967296 = -1) by lia.
  destruct (Z.ltb_spec b 128); lia.
Qed.

Lemma zlen_ber_uint32 value : 1 <= zlen (ber_uint32 value) <= 5.
Proof.
  unfold ber_uint32. split; [by apply zlen_ber_minimal_pos|].
  pose proof (zlen_ber_minimal (0 :: be_bytes 4 value)). zlia.
Qed.

Lemma zlen_ber_int32 value : 1 <= zlen (ber_int32 value) <= 4.
Proof.
  unfold ber_int32. destruct (be_bytes_4_cons value) as (b & bs & E).
  split; [apply zlen_ber_minimal_pos; by rewrite E|].
  pose proof (zlen_ber_minimal (be_bytes 4 value)). zlia.
Qed.

(** ** Integer encoders *)

Lemma zero_be_bytes_ok value : bytes_ok (0 :: be_bytes 4 value).
Proof. constructor; [unfold is_byte; lia | auto with bytes]. Qed.
#[export] Hint Resolve zero_be_bytes_ok : bytes.

Lemma zlen_zero_be_bytes value : zlen (0 :: be_bytes 4 value) = 5.
Proof. zlia. Qed.

Lemma encodeUInt32_puts value buffer bufPos :
  BerEncoder_encodeUInt32 value buffer bufPos = puts (ber_uint32 value) buffer bufPos.
Proof.
  unfold BerEncoder_encodeUInt32. rewrite uint32_valueBuffer_spec. cbn [mbind option_bind].
  rewrite <- (zlen_zero_be_bytes value). apply compressInteger_copy; [auto with bytes | done].
Qed.

Lemma UInt32determineEncodedSize_spec value :
  BerEncoder_UInt32determineEncodedSize value = Some (zlen (ber_uint32 value)).
Proof.
  unfold BerEncoder_UInt32determineEncodedSize. rewrite uint32_valueBuffer_spec.
  cbn [mbind option_bind]. rewrite <- (zlen_zero_be_bytes value).
  by rewrite compressInteger_spec by auto with bytes.
Qed.

Lemma ber_length_short n : 0 <= n < 128 -> ber_length n = [n].
Proof. intros. unfold ber_length, u8. if_true. by rewrite Z.mod_small by lia. Qed.

Lemma encodeUInt32WithTL_puts tag value buffer bufPos :
  BerEncoder_encodeUInt32WithTL tag value buffer bufPos
  = puts (ber_tlv tag (ber_uint32 value)) buffer bufPos.
Proof.
  unfold BerEncoder_encodeUInt32WithTL. rewrite uint32_valueBuffer_spec. cbn [mbind option_bind].
  pose proof (zlen_ber_uint32 value).
  rewrite <- (zlen_zero_be_bytes value), compressInteger_spec by auto with bytes.
  cbn [mbind option_bind]. unfold ber_tlv. rewrite ber_length_short by lia. cbn [puts app].
  unfold u8. rewrite Z.mod_small by (unfold ber_uint32 in *; lia).
  destruct (put tag buffer bufPos) as [[bf p]|]; cbn [mbind option_bind]; [|done].
  unfold ber_uint32 in *. destruct (put _ bf p) as [[bf' p']|]; cbn [mbind option_bind]; [|done].
  rewrite copy_loop_all.
  - by rewrite zlen_to_nat, take_app_length.
  - rewrite zlen_app. pose proof (zlen_nonneg (drop (length (ber_minimal (0 :: be_bytes 4 value)))
      (0 :: be_bytes 4 value))). lia.
Qed.

Lemma reverse_copy_spec a b c d uninit :
  zlen uninit = 4 -> reverse_copy_loop 4 0 [a; b; c; d] uninit = Some [d; c; b; a].
Proof.
  intros H. destruct uninit as [|w [|x [|y [|z [|? ?]]]]]; zlen; try lia; [done|].
  pose proof (zlen_nonneg l). lia.
Qed.

Lemma encodeInt32_puts uninit value buffer bufPos :
  zlen uninit = 4 ->
  BerEncoder_encodeInt32 uninit value buffer bufPos = puts (ber_int32 value) buffer bufPos.
Proof.
  intros H. unfold BerEncoder_encodeInt32. cbn [le_bytes]. rewrite reverse_copy_spec by done.
  cbn [mbind option_bind]. pose proof (zlen_be_bytes 4 value) as Hz.
  change (Z.of_nat 4) with 4 in Hz. rewrite <- Hz.
  apply (compressInteger_copy (be_bytes 4 value)); [auto with bytes|].
  by destruct (be_bytes_4_cons value) as (? & ? & ->).
Qed.

(** ** Floating point and bit strings *)

Lemma puts_zlen bs buffer bufPos r :
  0 <= bufPos -> puts bs buffer bufPos = Some r ->
  r = (splice buffer bufPos bs, bufPos + zlen bs) /\ bufPos + zlen bs <= zlen buffer \/ bs = [].
Proof.
  intros Hp H. destruct bs as [|b bs]; [by right|]. left.
  destruct (Z.le_gt_cases (bufPos + zlen (b :: bs)) (zlen buffer)) as [Hf|Hf].
  - rewrite puts_fits in H by done. by simplify_eq.
  - destruct (Z.le_gt_cases bufPos (zlen buffer)).
    + by rewrite puts_overflow in H.
    + cbn in H. unfold put, st in H.
      replace ((0 <=? bufPos) && (bufPos <? zlen buffer)) with false in H by lia. done.
Qed.

Lemma drop_splice buffer pos bs :
  0 <= pos -> pos + zlen bs <= zlen buffer ->
  drop (Z.to_nat pos) (splice buffer pos bs) = bs ++ drop (Z.to_nat pos + length bs) buffer.
Proof.
  intros. pose proof (zlen_nonneg bs). unfold splice.
  rewrite drop_app_length' by (rewrite length_take; unfold zlen in *; lia). done.
Qed.

Lemma take_splice buffer pos bs :
  0 <= pos -> pos + zlen bs <= zlen buffer ->
  take (Z.to_nat pos) (splice buffer pos bs) = take (Z.to_nat pos) buffer.
Proof.
  intros. pose proof (zlen_nonneg bs). unfold splice.
  rewrite take_app_length' by (rewrite length_take; unfold zlen in *; lia). done.
Qed.

(** Reversing, in place, the octets just written. *)
Lemma puts_revert bs buffer pos :
  0 <= pos <= zlen buffer ->
  ('(buffer, _) ← puts bs buffer pos;
   '(_, buffer) ← on_ptr buffer pos
      (fun sub => sub ← BerEncoder_revertByteOrder sub (zlen bs); Some (tt, sub));
   Some (buffer, pos + zlen bs))
  = puts (reverse bs) buffer pos.
Proof.
  intros Hp. pose proof (zlen_nonneg bs).
  destruct (Z.le_gt_cases (pos + zlen bs) (zlen buffer)) as [Hf|Hf].
  - rewrite !puts_fits by zlia. cbn [mbind option_bind]. unfold on_ptr.
    rewrite zlen_splice by lia. if_true. rewrite drop_splice, take_splice by lia.
    rewrite revertByteOrder_spec by (rewrite zlen_app; pose proof
      (zlen_nonneg (drop (Z.to_nat pos + length bs) buffer)); lia).
    cbn [mbind option_bind]. rewrite zlen_to_nat, take_app_length, drop_app_length, zlen_reverse.
    unfold splice. by rewrite length_reverse.
  - by rewrite !puts_overflow by zlia.
Qed.

Lemma put_bounds b buffer pos buffer' pos' :
  put b buffer pos = Some (buffer', pos') ->
  0 <= pos < zlen buffer /\ pos' = pos + 1 /\ zlen buffer' = zlen buffer.
Proof.
  unfold put. destruct (st buffer pos b) as [bf|] eqn:E; cbn; [|done]. intros [= <- <-].
  apply st_inv in E as [? ->]. zlia.
Qed.

Lemma encodeFloat_puts floatValue formatWidth exponentWidth buffer bufPos :
  0 <= formatWidth -> formatWidth / 8 <= zlen floatValue ->
  BerEncoder_encodeFloat floatValue formatWidth exponentWidth buffer bufPos
  = puts (exponentWidth :: reverse (take (Z.to_nat (formatWidth / 8)) floatValue)) buffer bufPos.
Proof.
  intros Hw Hl. unfold BerEncoder_encodeFloat. cbn [puts].
  assert (0 <= formatWidth / 8) by (apply Z.div_pos; lia).
  destruct (put exponentWidth buffer bufPos) as [[bf p]|] eqn:E; cbn [mbind option_bind]; [|done].
  apply put_bounds in E as (? & -> & ?). rewrite copy_loop_all by lia.
  rewrite <- puts_revert by lia. rewrite zlen_take by lia. done.
Qed.

Lemma ld_insert_eq {A} (l : list A) i v :
  0 <= i < zlen l -> ld (<[Z.to_nat i := v]> l) i = Some v.
Proof.
  intros. unfold ld. if_true. apply list_lookup_insert_eq. unfold zlen in *. lia.
Qed.

(** Updating, in place, the octet just written. *)
Lemma puts_update_last l b f buffer pos :
  0 <= pos ->
  ('(buffer, pos) ← puts (l ++ [b]) buffer pos;
   x ← ld buffer (pos - 1);
   buffer ← st buffer (pos - 1) (f x);
   Some (buffer, pos)) = puts (l ++ [f b]) buffer pos.
Proof.
  intros Hp. rewrite !puts_snoc. destruct (puts l buffer pos) as [[bf p]|] eqn:E; [|done].
  cbn [mbind option_bind]. apply puts_inv in E as [-> _]. pose proof (zlen_nonneg l).
  set (p := pos + zlen l) in *. unfold put.
  destruct (Z.lt_ge_cases p (zlen bf)) as [Hlt|Hge].
  - rewrite !st_Some by lia. cbn [mbind option_bind]. replace (p + 1 - 1) with p by lia.
    rewrite ld_insert_eq by lia. cbn [mbind option_bind]. rewrite st_Some by zlia.
    cbn [mbind option_bind]. by rewrite list_insert_insert_eq.
  - unfold st. replace ((0 <=? p) && (p <? zlen bf)) with false by lia. done.
Qed.

Lemma alter_last_snoc {A} (f : A -> A) l b :
  alter f (pred (length (l ++ [b]))) (l ++ [b]) = l ++ [f b].
Proof.
  rewrite length_app, alter_app_r_alt by (cbn; lia).
  by replace (pred (length l + length [b]) - length l)%nat with 0%nat by (cbn; lia).
Qed.

Lemma zlen_alter {A} (f : A -> A) i l : zlen (alter f i l) = zlen l.
Proof. unfold zlen. by rewrite length_alter. Qed.
#[export] Hint Rewrite @zlen_alter : zlen.

Lemma byteSize_eq n :
  0 <= n -> (if Z.rem n 8 =? 0 then Z.quot n 8 else Z.quot n 8 + 1) = (n + 7) / 8.
Proof.
  intros. rewrite Z.rem_mod_nonneg, Z.quot_div_nonneg by lia.
  pose proof (Z.div_mod n 8 ltac:(lia)). pose proof (Z.mod_pos_bound n 8 ltac:(lia)).
  pose proof (Z.div_mod (n + 7) 8 ltac:(lia)). pose proof (Z.mod_pos_bound (n + 7) 8 ltac:(lia)).
  destruct (Z.eqb_spec (n mod 8) 0); lia.
Qed.

Lemma padding_range n : 0 <= n -> 0 <= (n + 7) / 8 * 8 - n < 8.
Proof.
  intros. pose proof (Z.div_mod (n + 7) 8 ltac:(lia)).
  pose proof (Z.mod_pos_bound (n + 7) 8 ltac:(lia)). lia.
Qed.

Definition ber_bitstring (size : Z) (bits : list Z) : list Z :=
  ((size + 7) / 8 * 8 - size) :: ber_bits size bits.

Lemma zlen_ber_bits size bits :
  0 <= size -> (size + 7) / 8 <= zlen bits -> zlen (ber_bits size bits) = (size + 7) / 8.
Proof.
  intros. unfold ber_bits. rewrite zlen_alter, zlen_take; [done|].
  split; [apply Z.div_pos; lia | done].
Qed.

Lemma encodeBitString_puts tag size bits buffer bufPos :
  0 <= size < 2147483648 -> (size + 7) / 8 <= zlen bits ->
  BerEncoder_encodeBitString tag size bits buffer bufPos
  = puts (ber_tlv tag (ber_bitstring size bits)) buffer bufPos.
Proof.
  intros Hs Hb. unfold BerEncoder_encodeBitString, ber_tlv. rewrite byteSize_eq by lia.
  pose proof (padding_range size ltac:(lia)) as Hpad.
  assert (0 <= (size + 7) / 8) as Hpos by (apply Z.div_pos; lia).
  cbn [puts]. destruct (put tag buffer bufPos) as [[bf p]|] eqn:E; cbn [mbind option_bind]; [|done].
  apply put_bounds in E as (? & -> & ?).
  unfold ber_bitstring. rewrite zlen_cons, zlen_ber_bits by lia.
  rewrite u32_small by lia. replace (1 + (size + 7) / 8) with ((size + 7) / 8 + 1) by lia.
  rewrite encodeLength_puts, puts_app.
  destruct (puts (ber_length _) bf _) as [[bf' p']|] eqn:E'; cbn [mbind option_bind]; [|done].
  apply puts_inv in E' as [-> _].
  match goal with |- context [bufPos + 1 + ?z] => assert (0 <= z) by apply zlen_nonneg;
    set (q := bufPos + 1 + z) in * end.
  assert (0 <= q) as Hq by lia. clearbody q.
  set (pad := (size + 7) / 8 * 8 - size) in *. unfold u8. rewrite Z.mod_small by lia.
  unfold ber_bits. fold pad. set (oct := take (Z.to_nat ((size + 7) / 8)) bits).
  assert (zlen oct = (size + 7) / 8) as Hoct by (apply zlen_take; lia).
  transitivity ('(buffer, pos) ← puts (pad :: oct) bf' q;
    x ← ld buffer (pos - 1); buffer ← st buffer (pos - 1) (Z.land x (paddingMask pad));
    Some (buffer, pos)).
  { cbn [puts]. destruct (put pad bf' q) as [[? ?]|]; cbn [mbind option_bind]; [|done].
    by rewrite copy_loop_all by lia. }
  assert ((size + 7) / 8 = 0 -> pad = 0) as Hp0 by (unfold pad; lia).
  clearbody oct pad. destruct oct as [|o oct' _] using rev_ind.
  - etransitivity; [exact (puts_update_last [] pad (fun x => Z.land x (paddingMask pad)) bf' q Hq)|].
    rewrite zlen_nil in Hoct. rewrite Hp0 by lia. done.
  - rewrite alter_last_snoc.
    exact (puts_update_last (pad :: oct') o (fun x => Z.land x (paddingMask pad)) bf' q Hq).
Qed.

(** * Sizes *)

Lemma zlen_ber_length n :
  0 <= n -> n <> 65535 -> zlen (ber_length n) = BerEncoder_determineLengthSize n.
Proof.
  intros. unfold ber_length, BerEncoder_determineLengthSize.
  repeat case_match; zlen; lia.
Qed.

Lemma zlen_ber_length_bounds n : 1 <= zlen (ber_length n) <= 4.
Proof. unfold ber_length. repeat case_match; zlen; lia. Qed.

Lemma zlen_ber_tlv tag content : zlen (ber_tlv tag content) = 1 + zlen (ber_length (zlen content)) + zlen content.
Proof. unfold ber_tlv. zlia. Qed.
#[export] Hint Rewrite zlen_ber_tlv : zlen.

Lemma ber_length_ok n : bytes_ok (ber_length n).
Proof.
  unfold ber_length, u8. repeat case_match; repeat constructor; unfold is_byte; try lia;
    apply Z.mod_pos_bound; lia.
Qed.
#[export] Hint Resolve ber_length_ok : bytes.

Lemma determineEncodedStringSize_spec string :
  string_ok string -> zlen (ber_string string) <> 65535 ->
  BerEncoder_determineEncodedStringSize string = Some (zlen (ber_tlv 0 (ber_string string))).
Proof.
  intros Hs Hl. zlen. destruct string as [s|]; [|done]. cbn [ber_string] in *.
  destruct (strlen_is_Some s Hs) as [n Hn]. cbn. rewrite Hn. cbn.
  apply strlen_c_string in Hn as (-> & _ & _). pose proof (zlen_nonneg (c_string s)).
  by rewrite zlen_ber_length by lia.
Qed.

(** A bit string whose length octets the size function counts right. *)
Definition bits_size_ok (size : Z) : Prop :=
  (size + 7) / 8 ∉ [127; 255; 65534; 65535].

Lemma determineEncodedBitStringSize_spec size bits :
  0 <= size < 2147483648 -> (size + 7) / 8 <= zlen bits -> bits_size_ok size ->
  BerEncoder_determineEncodedBitStringSize size = zlen (ber_tlv 0 (ber_bitstring size bits)).
Proof.
  intros Hs Hb Hok. unfold BerEncoder_determineEncodedBitStringSize.
  rewrite byteSize_eq by lia. unfold ber_bitstring. zlen. rewrite zlen_ber_bits by lia.
  assert (0 <= (size + 7) / 8 < 4294967296)
    by (split; [apply Z.div_pos; lia | apply Z.div_lt_upper_bound; lia]).
  rewrite u32_small by lia. unfold bits_size_ok in Hok.
  rewrite !not_elem_of_cons in Hok. destruct Hok as (? & ? & ? & ? & _).
  rewrite zlen_ber_length by lia. unfold BerEncoder_determineLengthSize.
  repeat case_match; lia.
Qed.
