(* ===== verification/BerDecoder.v ===== *)
(** BER decoding primitives: src/libiec61850/src/mms/asn1/ber_decode.c.

    The decoders read a block of memory; a read outside of it is [None]. The
    length decoder follows nested indefinite lengths; the two mutually
    recursive C functions are translated with fuel, and [decodeLength_total]
    proves that the fuel [BerDecoder_decodeLength] supplies always suffices:
    every nested call and every loop iteration starts at a higher position. *)

From S2P Require Import Prelude BerEncoder.
Open Scope Z_scope.

(** * The C functions *)

(** The long form: [n] length octets are left. A position of [-1] is the
    early error return. *)
Fixpoint length_octets (n : nat) (buffer : list Z) (length bufPos maxBufPos : Z)
  : option (Z * Z) :=
  match n with
  | O => Some (bufPos, length)
  | S n =>
      if maxBufPos <=? bufPos then Some (-1, length)
      else if maxBufPos <? bufPos + length then Some (-1, length)
      else
        b ← ld buffer bufPos;
        length ← chk_int (Z.shiftl length 8 + b);
        length_octets n buffer length (bufPos + 1) maxBufPos
  end.

(** [getIndefiniteLength] is split in its depth test, in the caller, and its
    loop. Both functions return the new position and the length they leave in
    the output parameter. *)
Fixpoint BerDecoder_decodeLengthRecursive (fuel : nat) (buffer : list Z)
    (length bufPos maxBufPos depth maxDepth : Z) {struct fuel} : option (Z * Z) :=
  match fuel with
  | O => None
  | S fuel =>
      if maxBufPos <=? bufPos then Some (-1, length)
      else
        len1 ← ld buffer bufPos;
        let bufPos := bufPos + 1 in
        '(bufPos, length) ←
          (if Z.land len1 0x80 =? 0 then Some (bufPos, len1)
           else
             let lenLength := Z.land len1 0x7f in
             if lenLength =? 0 then
               length ← (if maxDepth <? depth + 1 then Some (-1)
                         else getIndefiniteLength_loop fuel buffer 0 bufPos maxBufPos
                                (depth + 1) maxDepth);
               Some (bufPos, length)
             else length_octets (Z.to_nat lenLength) buffer 0 bufPos maxBufPos);
        if bufPos =? -1 then Some (-1, length)
        else if length <? 0 then Some (-1, length)
        else if maxBufPos <? bufPos + length then Some (-1, length)
        else Some (bufPos, length)
  end
with getIndefiniteLength_loop (fuel : nat) (buffer : list Z)
    (length bufPos maxBufPos depth maxDepth : Z) {struct fuel} : option Z :=
  match fuel with
  | O => None
  | S fuel =>
      if maxBufPos <=? bufPos then Some (-1)
      else
        b ← ld buffer bufPos;
        endOfContents ←
          (if (b =? 0) && (bufPos + 1 <? maxBufPos)
           then b1 ← ld buffer (bufPos + 1); Some (b1 =? 0) else Some false);
        if endOfContents : bool then Some (length + 2)
        else
          let length := length + 1 in
          let extended := Z.land b 0x1f =? 0x1f in
          let bufPos := if extended then bufPos + 2 else bufPos + 1 in
          let length := if extended then length + 1 else length in
          '(newBufPos, subLength) ←
             BerDecoder_decodeLengthRecursive fuel buffer (-1) bufPos maxBufPos depth maxDepth;
          if newBufPos =? -1 then Some (-1)
          else
            getIndefiniteLength_loop fuel buffer (length + (subLength + newBufPos - bufPos))
              (newBufPos + subLength) maxBufPos depth maxDepth
  end.

Definition BerDecoder_decodeLength (buffer : list Z) (length bufPos maxBufPos : Z)
  : option (Z * Z) :=
  BerDecoder_decodeLengthRecursive (S (Z.to_nat (maxBufPos - bufPos)))
    buffer length bufPos maxBufPos 0 50.

(** The string is the new block, with its terminating zero. *)
Definition BerDecoder_decodeString (buffer : list Z) (strlen bufPos maxBufPos : Z)
  : option (option (list Z)) :=
  if maxBufPos - bufPos <? 0 then Some None
  else s ← ld_range buffer bufPos strlen; Some (Some (s ++ [0])).

Fixpoint decodeUint32_loop (n : nat) (buffer : list Z) (pos value : Z) : option Z :=
  match n with
  | O => Some value
  | S n => b ← ld buffer pos; decodeUint32_loop n buffer (pos + 1) (u32 (u32 (Z.shiftl value 8) + b))
  end.

Definition BerDecoder_decodeUint32 (buffer : list Z) (intLen bufPos : Z) : option Z :=
  decodeUint32_loop (Z.to_nat intLen) buffer bufPos 0.

(** The shift of a negative [int32_t] is the two's complement one. *)
Fixpoint decodeInt32_loop (n : nat) (buffer : list Z) (pos value : Z) : option Z :=
  match n with
  | O => Some value
  | S n => b ← ld buffer pos; decodeInt32_loop n buffer (pos + 1) (s32 (s32 (Z.shiftl value 8) + b))
  end.

Definition BerDecoder_decodeInt32 (buffer : list Z) (intlen bufPos : Z) : option Z :=
  b ← ld buffer bufPos;
  let isNegative := Z.land b 0x80 =? 0x80 in
  decodeInt32_loop (Z.to_nat intlen) buffer bufPos (if isNegative then -1 else 0).

(** [for (i = n - 1; i >= 0; i--) valueBuf[i] = buffer[bufPos++];]: the octets
    in the order they lie in [valueBuf]. *)
Fixpoint valueBuf_loop (n : nat) (buffer : list Z) (bufPos : Z) (valueBuf : list Z)
  : option (list Z) :=
  match n with
  | O => Some valueBuf
  | S n => b ← ld buffer bufPos; valueBuf_loop n buffer (bufPos + 1) (b :: valueBuf)
  end.

(** A [float] or [double] is its bit pattern. *)
Definition BerDecoder_decodeFloat (buffer : list Z) (bufPos : Z) : option Z :=
  valueBuf ← valueBuf_loop 4 buffer (bufPos + 1) []; Some (le_val valueBuf).

Definition BerDecoder_decodeDouble (buffer : list Z) (bufPos : Z) : option Z :=
  valueBuf ← valueBuf_loop 8 buffer (bufPos + 1) []; Some (le_val valueBuf).

Definition BerDecoder_decodeBoolean (buffer : list Z) (bufPos : Z) : option bool :=
  b ← ld buffer bufPos; Some (negb (b =? 0)).

(** src/libiec61850/src/mms/inc/mms_common.h *)
Record ItuObjectIdentifier := mkItuObjectIdentifier {
  oid_arc : list Z;
  oid_arcCount : Z
}.

Fixpoint decodeOID_loop (n : nat) (buffer : list Z) (bufPos : Z) (arc : list Z) (currentArc : Z)
  : option (list Z * Z) :=
  match n with
  | O => Some (arc, currentArc)
  | S n =>
      if currentArc <? 10 then
        a ← ld arc currentArc;
        b ← ld buffer bufPos;
        let a := u16 (Z.shiftl a 7) in
        if b <? 0x80 then
          arc ← st arc currentArc (u16 (a + b));
          decodeOID_loop n buffer (bufPos + 1) arc (currentArc + 1)
        else
          arc ← st arc currentArc (u16 (a + Z.land b 0x7f));
          decodeOID_loop n buffer (bufPos + 1) arc currentArc
      else Some (arc, currentArc)
  end.

Definition BerDecoder_decodeOID (buffer : list Z) (bufPos length : Z) : option ItuObjectIdentifier :=
  let arc := replicate 10 0 in
  '(arc, currentArc) ←
    (if 0 <? length then
       b ← ld buffer bufPos;
       decodeOID_loop (Z.to_nat (length - 1)) buffer (bufPos + 1)
         (<[0%nat := b / 40]> (<[1%nat := b mod 40]> arc)) 2
     else Some (arc, 0));
  Some (mkItuObjectIdentifier arc currentArc).

(** * The length decoder *)

(** What a call returns: an error, or a position behind the length octets from
    which the content lies inside the limit. *)
Definition length_result (bufPos maxBufPos : Z) (r : Z * Z) : Prop :=
  r.1 = -1 \/ bufPos < r.1 /\ 0 <= r.2 /\ r.1 + r.2 <= maxBufPos.

Lemma shiftl8 z : Z.shiftl z 8 = z * 256.
Proof. by rewrite Z.shiftl_mul_pow2. Qed.

Section Total.
Context (buffer : list Z) (maxBufPos : Z).
Hypothesis Hok : bytes_ok buffer.
Hypothesis Hmax : maxBufPos <= zlen buffer.
Hypothesis Hsmall : maxBufPos < 4194304.

Lemma length_octets_total n length bufPos :
  0 <= bufPos -> 0 <= length -> exists p l,
  length_octets n buffer length bufPos maxBufPos = Some (p, l) /\
  (p = -1 \/ bufPos <= p /\ 0 <= l).
Proof.
  revert length bufPos. induction n as [|n IH]; intros length bufPos Hp Hl; cbn [length_octets].
  { exists bufPos, length. split; [done | lia]. }
  destruct (Z.leb_spec maxBufPos bufPos); [by exists (-1), length; auto|].
  destruct (Z.ltb_spec maxBufPos (bufPos + length)); [by exists (-1), length; auto|].
  destruct (ld_is_Some buffer bufPos) as [b Hb]; [lia|]. rewrite Hb. cbn [mbind option_bind].
  apply ld_byte in Hb; [|done]. unfold is_byte in Hb. rewrite shiftl8. unfold chk_int.
  if_true. cbn [mbind option_bind].
  destruct (IH (length * 256 + b) (bufPos + 1)) as (p & l & E & Hr); [lia..|].
  exists p, l. split; [done | lia].
Qed.

Lemma decodeLength_total_aux fuel :
  (forall length bufPos depth maxDepth,
    0 <= bufPos -> Z.max 0 (maxBufPos - bufPos) < Z.of_nat fuel ->
    exists r, BerDecoder_decodeLengthRecursive fuel buffer length bufPos maxBufPos depth maxDepth
              = Some r /\ length_result bufPos maxBufPos r) /\
  (forall length bufPos depth maxDepth,
    0 <= bufPos -> Z.max 0 (maxBufPos - bufPos) < Z.of_nat fuel ->
    exists l, getIndefiniteLength_loop fuel buffer length bufPos maxBufPos depth maxDepth
              = Some l).
Proof.
  induction fuel as [|fuel [IHd IHl]]; [split; lia|].
  split; intros length bufPos depth maxDepth Hp Hf;
    cbn [BerDecoder_decodeLengthRecursive getIndefiniteLength_loop];
    destruct (Z.leb_spec maxBufPos bufPos) as [|Hlt];
    try (eexists; split; [done | by left]); [|by eauto|];
    (destruct (ld_is_Some buffer bufPos) as [b Hb]; [lia|]); rewrite Hb; cbn [mbind option_bind].
  - assert (exists p l, (if Z.land b 0x80 =? 0 then Some (bufPos + 1, b)
      else if Z.land b 0x7f =? 0 then
        length ← (if maxDepth <? depth + 1 then Some (-1)
                  else getIndefiniteLength_loop fuel buffer 0 (bufPos + 1) maxBufPos
                         (depth + 1) maxDepth); Some (bufPos + 1, length)
      else length_octets (Z.to_nat (Z.land b 0x7f)) buffer 0 (bufPos + 1) maxBufPos)
      = Some (p, l) /\ (p = -1 \/ bufPos + 1 <= p)) as (p & l & -> & Hpl).
    { case_match; [eexists _, _; split; [done | lia]|]. case_match.
      - case_match; [eexists _, _; split; [done | lia]|].
        destruct (IHl 0 (bufPos + 1) (depth + 1) maxDepth) as [l ->]; [lia..|].
        eexists _, _; split; [done | lia].
      - destruct (length_octets_total (Z.to_nat (Z.land b 0x7f)) 0 (bufPos + 1))
          as (p & l & -> & ?); [lia..|]. eexists _, _; split; [done | lia]. }
    cbn [mbind option_bind]. unfold length_result.
    repeat case_match; bdestr; (eexists; split; [done|]); cbn; lia.
  - assert (exists eoc : bool, (if (b =? 0) && (bufPos + 1 <? maxBufPos)
      then b1 ← ld buffer (bufPos + 1); Some (b1 =? 0) else Some false) = Some eoc)
      as [[] ->]; [|by eauto|].
    { case_match; [|eauto]. destruct (ld_is_Some buffer (bufPos + 1)) as [b1 ->]; [lia|].
      cbn. eauto. }
    cbn [mbind option_bind]. set (q := if Z.land b 0x1f =? 0x1f then bufPos + 2 else bufPos + 1).
    assert (bufPos < q) by (subst q; case_match; lia). clearbody q.
    destruct (IHd (-1) q depth maxDepth) as ([p l] & -> & Hr); [lia..|].
    cbn [mbind option_bind]. unfold length_result in Hr. cbn in Hr.
    destruct (Z.eqb_spec p (-1)); [eauto|]. apply IHl; lia.
Qed.

(** The length decoder needs no more fuel than it is given, reads no byte at
    or behind the limit, and returns an error or a content that lies inside
    the limit. *)
Lemma decodeLength_total length bufPos :
  0 <= bufPos ->
  exists r, BerDecoder_decodeLength buffer length bufPos maxBufPos = Some r /\
            length_result bufPos maxBufPos r.
Proof. intros. apply decodeLength_total_aux; lia. Qed.
End Total.

(** ** The definite form *)

Lemma length_octets_one n buffer length bufPos maxBufPos b :
  ld buffer bufPos = Some b -> bufPos < maxBufPos -> bufPos + length <= maxBufPos ->
  0 <= length -> is_byte b -> length * 256 + b < 2147483648 ->
  length_octets (S n) buffer length bufPos maxBufPos
  = length_octets n buffer (length * 256 + b) (bufPos + 1) maxBufPos.
Proof.
  intros Hb ? ? ? ? ?. unfold is_byte in *. cbn [length_octets]. do 2 if_false.
  rewrite Hb. cbn [mbind option_bind]. rewrite shiftl8. unfold chk_int. by if_true.
Qed.

Lemma ber_length_long n :
  0 <= n < 16777216 ->
  ber_length n = [n] /\ n < 128 \/
  exists k bs, ber_length n = (128 + Z.of_nat k) :: bs /\ length bs = k /\ (0 < k < 4)%nat /\
               bytes_ok bs /\ be_val bs = n.
Proof.
  intros Hn. assert (Z.land n 0xffff = n mod 65536) as Hland
    by (change 0xffff with (Z.ones 16); by rewrite Z.land_ones).
  unfold ber_length, u8. rewrite Hland.
  repeat case_match; bdestr; [left; rewrite Z.mod_small by lia; auto with lia|right..];
    [exists 1%nat | exists 2%nat | exists 3%nat]; (eexists; split; [done|]); (split; [done|]);
    (split; [lia|]); (split; [repeat constructor; unfold is_byte; apply Z.mod_pos_bound; lia|]);
    unfold be_val; cbn [fold_left];
    pose proof (Z.div_mod n 256 ltac:(lia)); pose proof (Z.div_mod n 65536 ltac:(lia));
    pose proof (Z.mod_pos_bound n 256 ltac:(lia)); pose proof (Z.mod_pos_bound n 65536 ltac:(lia));
    rewrite ?Z.mod_mod by lia; Z.div_mod_to_equations; lia.
Qed.

Lemma length_octets_all bs buffer length bufPos maxBufPos :
  at_pos buffer bufPos bs -> bytes_ok bs -> 0 <= length ->
  let n := length * 256 ^ zlen bs + be_val bs in
  n < 16777216 -> bufPos + zlen bs + n <= maxBufPos ->
  length_octets (List.length bs) buffer length bufPos maxBufPos = Some (bufPos + zlen bs, n).
Proof.
  revert length bufPos. induction bs as [|b bs IH]; intros length bufPos Hat Hok Hl n Hn Hm.
  - cbn. subst n. rewrite zlen_nil in *. unfold be_val in *. cbn in *. do 2 f_equal; lia.
  - apply at_pos_cons in Hat as [Hb Hat]. inversion Hok as [|? ? Hb' Hok']; subst.
    assert (n = (length * 256 + b) * 256 ^ zlen bs + be_val bs) as Hneq.
    { subst n. rewrite be_val_cons, zlen_cons, Z.pow_add_r by (pose proof (zlen_nonneg bs); lia). lia. }
    pose proof (be_val_bound bs Hok') as [Hv0 _]. pose proof (pow256_pos (List.length bs)) as Hpow.
    unfold zlen in Hneq. clearbody n. unfold is_byte in Hb'.
    assert (length * 256 + b <= n) as Hle by nia. pose proof (zlen_nonneg bs). zlen.
    cbn [List.length]. rewrite (length_octets_one _ _ _ _ _ b) by (unfold is_byte; lia || done).
    fold (zlen bs) in Hneq. rewrite IH by (lia || done). subst n. do 2 f_equal; lia.
Qed.

(** The decoder inverts [BerEncoder_encodeLength] up to three length octets. *)
Lemma decodeLength_definite buffer length bufPos maxBufPos n :
  0 <= n < 16777216 -> at_pos buffer bufPos (ber_length n) ->
  bufPos + zlen (ber_length n) + n <= maxBufPos ->
  BerDecoder_decodeLength buffer length bufPos maxBufPos = Some (bufPos + zlen (ber_length n), n).
Proof.
  intros Hn Hat Hmax. pose proof (at_pos_bounds _ _ _ Hat) as [Hp _].
  unfold BerDecoder_decodeLength. cbn [BerDecoder_decodeLengthRecursive].
  pose proof (zlen_ber_length_bounds n). if_false.
  destruct (ber_length_long n Hn) as [[E Hs]|(k & bs & E & <- & Hk & Hok & Hv)]; rewrite E in *.
  - apply at_pos_cons in Hat as [-> _]. cbn [mbind option_bind]. zlen.
    rewrite land_128 by (unfold is_byte; lia). if_true. change (0 =? 0) with true.
    cbn [mbind option_bind]. do 3 if_false. do 2 f_equal; lia.
  - apply at_pos_cons in Hat as [-> Hat]. cbn [mbind option_bind]. zlen.
    rewrite land_128 by (unfold is_byte; lia). if_false. change (0x80 =? 0) with false. cbv iota.
    change 0x7f with (Z.ones 7). rewrite Z.land_ones by lia.
    replace ((128 + Z.of_nat (List.length bs)) mod 2 ^ 7) with (Z.of_nat (List.length bs))
      by (change (2 ^ 7) with 128; Z.div_mod_to_equations; lia).
    if_false. rewrite Nat2Z.id, length_octets_all by (rewrite ?Hv; lia || done).
    cbn [mbind option_bind]. rewrite Hv. cbn. do 3 if_false. do 2 f_equal; lia.
Qed.

(** * Content decoders *)

Lemma shift_in_mod m v b :
  m <> 0 -> ((v mod m * 256) mod m + b) mod m = (v * 256 + b) mod m.
Proof.
  intros. rewrite Z.mul_mod_idemp_l by done. by apply Z.add_mod_idemp_l.
Qed.

Lemma decodeUint32_loop_spec bs buffer pos value :
  at_pos buffer pos bs ->
  decodeUint32_loop (length bs) buffer pos (u32 value) = Some (u32 (value * 256 ^ zlen bs + be_val bs)).
Proof.
  rewrite <- fold_shift_acc. revert pos value. induction bs as [|b bs IH]; intros pos value Hat; [done|].
  apply at_pos_cons in Hat as [Hb Hat]. cbn [length decodeUint32_loop fold_left].
  rewrite Hb. cbn [mbind option_bind]. rewrite shiftl8.
  replace (u32 (u32 (u32 value * 256) + b)) with (u32 (value * 256 + b)); [by apply IH|].
  unfold u32. by rewrite shift_in_mod.
Qed.

Lemma decodeUint32_spec bs buffer pos n :
  at_pos buffer pos bs -> n = zlen bs ->
  BerDecoder_decodeUint32 buffer n pos = Some (u32 (be_val bs)).
Proof.
  intros Hat ->. unfold BerDecoder_decodeUint32. rewrite zlen_to_nat.
  apply (decodeUint32_loop_spec bs buffer pos 0 Hat).
Qed.

(** The bytes of a range that lies in the buffer. *)
Lemma at_pos_exists buffer pos n :
  0 <= pos -> 0 <= n -> pos + n <= zlen buffer -> exists bs, at_pos buffer pos bs /\ zlen bs = n.
Proof.
  intros Hp Hn Hb. exists (take (Z.to_nat n) (drop (Z.to_nat pos) buffer)). split.
  - exists (take (Z.to_nat pos) buffer), (drop (Z.to_nat n) (drop (Z.to_nat pos) buffer)).
    rewrite !take_drop. split; [done | apply zlen_take; lia].
  - rewrite zlen_take; [done|]. rewrite zlen_drop; lia.
Qed.

Lemma at_pos_ok buffer pos bs : bytes_ok buffer -> at_pos buffer pos bs -> bytes_ok bs.
Proof. intros Hok (pre & post & -> & _). rewrite !Forall_app in Hok. tauto. Qed.

Lemma decodeUint32_total buffer pos n :
  0 <= pos -> 0 <= n -> pos + n <= zlen buffer ->
  exists v, BerDecoder_decodeUint32 buffer n pos = Some v /\ is_u32 v.
Proof.
  intros Hp Hn Hb. destruct (at_pos_exists buffer pos n Hp Hn Hb) as (bs & Hat & Hz).
  rewrite (decodeUint32_spec bs) by done. eexists. split; [done|].
  unfold is_u32, u32. apply Z.mod_pos_bound. lia.
Qed.

(** The decoder inverts [BerEncoder_encodeUInt32]. *)
Lemma decodeUint32_uint32 buffer pos value n :
  is_u32 value -> at_pos buffer pos (ber_uint32 value) -> n = zlen (ber_uint32 value) ->
  BerDecoder_decodeUint32 buffer n pos = Some value.
Proof.
  intros Hv Hat Hn. rewrite (decodeUint32_spec _ _ _ _ Hat Hn), be_val_uint32 by done.
  f_equal. by apply u32_small.
Qed.

Lemma s32_mod a b : a mod 4294967296 = b mod 4294967296 -> s32 a = s32 b.
Proof.
  intros H. unfold s32.
  rewrite <- (Z.add_mod_idemp_l a), <- (Z.add_mod_idemp_l b), H by lia. done.
Qed.

Lemma s32_idem a : s32 a mod 4294967296 = a mod 4294967296.
Proof. unfold s32. rewrite Zminus_mod_idemp_l. f_equal. lia. Qed.

Lemma s32_small a : is_s32 a -> s32 a = a.
Proof. unfold is_s32, s32. intros. rewrite Z.mod_small; lia. Qed.

Lemma decodeInt32_loop_spec bs buffer pos value :
  at_pos buffer pos bs ->
  decodeInt32_loop (length bs) buffer pos (s32 value) = Some (s32 (value * 256 ^ zlen bs + be_val bs)).
Proof.
  rewrite <- fold_shift_acc. revert pos value. induction bs as [|b bs IH]; intros pos value Hat; [done|].
  apply at_pos_cons in Hat as [Hb Hat]. cbn [length decodeInt32_loop fold_left].
  rewrite Hb. cbn [mbind option_bind]. rewrite shiftl8.
  replace (s32 (s32 (s32 value * 256) + b)) with (s32 (value * 256 + b)); [by apply IH|].
  apply s32_mod. symmetry.
  rewrite <- Z.add_mod_idemp_l, s32_idem, <- (Z.mul_mod_idemp_l (s32 value)), s32_idem by lia.
  by apply shift_in_mod.
Qed.

(** Octets are read as a two's complement number, sign extended. *)
Lemma decodeInt32_spec b bs buffer pos n :
  bytes_ok (b :: bs) -> at_pos buffer pos (b :: bs) -> n = zlen (b :: bs) ->
  BerDecoder_decodeInt32 buffer n pos = Some (s32 (sbe_val (b :: bs))).
Proof.
  intros Hok Hat ->. unfold BerDecoder_decodeInt32. rewrite zlen_to_nat.
  pose proof (at_pos_cons _ _ _ _ Hat) as [-> _]. cbn [mbind option_bind].
  assert (is_byte b) by by inversion Hok. rewrite land_128 by done.
  unfold sbe_val. destruct (b <? 128); cbv iota.
  - exact (decodeInt32_loop_spec (b :: bs) buffer pos 0 Hat).
  - change (0x80 =? 0x80) with true. cbv iota.
    pose proof (decodeInt32_loop_spec (b :: bs) buffer pos (-1) Hat) as H'.
    change (s32 (-1)) with (-1) in H'. rewrite H'. do 2 f_equal. lia.
Qed.

Lemma valueBuf_loop_spec bs buffer pos acc :
  at_pos buffer pos bs -> valueBuf_loop (length bs) buffer pos acc = Some (reverse bs ++ acc).
Proof.
  revert pos acc. induction bs as [|b bs IH]; intros pos acc Hat; [done|].
  apply at_pos_cons in Hat as [Hb Hat]. cbn [length valueBuf_loop]. rewrite Hb.
  cbn [mbind option_bind]. rewrite IH by done. by rewrite reverse_cons, <- app_assoc.
Qed.

Lemma decodeFloat_spec w bs buffer pos :
  at_pos buffer pos (w :: bs) -> zlen bs = 4 ->
  BerDecoder_decodeFloat buffer pos = Some (be_val bs).
Proof.
  intros Hat Hz. apply at_pos_cons in Hat as [_ Hat]. unfold BerDecoder_decodeFloat.
  replace 4%nat with (length bs) by (unfold zlen in *; lia).
  rewrite valueBuf_loop_spec, app_nil_r by done. cbn. by rewrite <- be_val_le_val.
Qed.

Lemma decodeDouble_spec w bs buffer pos :
  at_pos buffer pos (w :: bs) -> zlen bs = 8 ->
  BerDecoder_decodeDouble buffer pos = Some (be_val bs).
Proof.
  intros Hat Hz. apply at_pos_cons in Hat as [_ Hat]. unfold BerDecoder_decodeDouble.
  replace 8%nat with (length bs) by (unfold zlen in *; lia).
  rewrite valueBuf_loop_spec, app_nil_r by done. cbn. by rewrite <- be_val_le_val.
Qed.

Lemma decodeFloat_total buffer pos :
  0 <= pos -> pos + 5 <= zlen buffer -> is_Some (BerDecoder_decodeFloat buffer pos).
Proof.
  intros. destruct (at_pos_exists buffer pos 5) as ([|w bs] & Hat & Hz); [lia..|zlia|].
  zlen. rewrite (decodeFloat_spec w bs) by (lia || done). eauto.
Qed.

Lemma decodeDouble_total buffer pos :
  0 <= pos -> pos + 9 <= zlen buffer -> is_Some (BerDecoder_decodeDouble buffer pos).
Proof.
  intros. destruct (at_pos_exists buffer pos 9) as ([|w bs] & Hat & Hz); [lia..|zlia|].
  zlen. rewrite (decodeDouble_spec w bs) by (lia || done). eauto.
Qed.

Lemma decodeBoolean_total buffer pos :
  0 <= pos < zlen buffer -> is_Some (BerDecoder_decodeBoolean buffer pos).
Proof.
  intros. unfold BerDecoder_decodeBoolean. destruct (ld_is_Some buffer pos) as [b ->]; [done|].
  cbn. eauto.
Qed.

Lemma decodeBoolean_spec buffer pos (v : bool) bs :
  at_pos buffer pos ((if v then 1 else 0) :: bs) ->
  BerDecoder_decodeBoolean buffer pos = Some v.
Proof.
  intros Hat. apply at_pos_cons in Hat as [Hb _]. unfold BerDecoder_decodeBoolean.
  rewrite Hb. by destruct v.
Qed.

(** * Elements

    How the parsers of the protocol layers read: a tag, then a length whose content
    lies before the end of the enclosing element. *)

Lemma element_total buffer length bufPos endPos :
  bytes_ok buffer -> 0 <= bufPos < endPos -> endPos <= zlen buffer -> endPos < 4194304 ->
  exists tag p l, ld buffer bufPos = Some tag /\ is_byte tag /\
    BerDecoder_decodeLength buffer length (bufPos + 1) endPos = Some (p, l) /\
    (p = -1 \/ bufPos + 1 < p /\ 0 <= l /\ p + l <= endPos).
Proof.
  intros Hok Hp He Hs. destruct (ld_is_Some buffer bufPos) as [tag Htag]; [lia|].
  destruct (decodeLength_total buffer endPos Hok He Hs length (bufPos + 1)) as ([p l] & Hd & Hr); [lia|].
  exists tag, p, l. split; [done|]. split; [exact (ld_byte _ _ _ Hok Htag)|]. by split.
Qed.

Lemma element_at buffer length pos endPos tag content :
  at_pos buffer pos (ber_tlv tag content) -> zlen content < 16777216 -> pos + zlen (ber_tlv tag content) <= endPos ->
  let start := pos + 1 + zlen (ber_length (zlen content)) in
  ld buffer pos = Some tag /\ BerDecoder_decodeLength buffer length (pos + 1) endPos = Some (start, zlen content) /\
  at_pos buffer start content.
Proof.
  intros Hat Hc He start. pose proof (zlen_nonneg content). unfold ber_tlv in Hat. apply at_pos_cons in Hat as [Ht Hat].
  apply at_pos_app in Hat as [Hl Hat]. split; [done|]. split; [|done]. zlen. apply decodeLength_definite; [lia | done | lia].
Qed.

(** An indefinite length counts the two octets that end the content. *)
Lemma getIndefiniteLength_min buffer maxBufPos fuel : forall length bufPos depth maxDepth l,
  bytes_ok buffer -> maxBufPos <= zlen buffer -> maxBufPos < 4194304 -> 0 <= bufPos -> 0 <= length ->
  Z.max 0 (maxBufPos - bufPos) < Z.of_nat fuel ->
  getIndefiniteLength_loop fuel buffer length bufPos maxBufPos depth maxDepth = Some l -> l = -1 \/ 2 <= l.
Proof.
  induction fuel as [|fuel IH]; intros length bufPos depth maxDepth l Hok Hm Hs Hp Hl Hf; [lia|]. cbn [getIndefiniteLength_loop].
  btest; [intros [= <-]; lia|]. destruct (ld buffer bufPos) as [b|]; [|done]. cbn [mbind option_bind].
  destruct (if (b =? 0) && (bufPos + 1 <? maxBufPos) then _ else _) as [[]|]; cbn [mbind option_bind]; [intros [= <-]; lia | | done].
  set (q := if Z.land b 0x1f =? 0x1f then bufPos + 2 else bufPos + 1). assert (bufPos < q) by (subst q; case_match; lia).
  set (k := if Z.land b 0x1f =? 0x1f then length + 1 + 1 else length + 1). assert (0 <= k) by (subst k; case_match; lia). clearbody q k.
  destruct (proj1 (decodeLength_total_aux buffer maxBufPos Hok Hm Hs fuel) (-1) q depth maxDepth) as ([p n] & -> & Hr); [lia..|].
  cbn [mbind option_bind]. unfold length_result in Hr. cbn in Hr. case_match; bdestr; [intros [= <-]; lia|].
  intros H2. apply IH in H2; try done; lia.
Qed.

Lemma decodeLength_indefinite buffer length bufPos maxBufPos p l :
  bytes_ok buffer -> maxBufPos <= zlen buffer -> maxBufPos < 4194304 -> 0 <= bufPos -> ld buffer bufPos = Some 0x80 ->
  BerDecoder_decodeLength buffer length bufPos maxBufPos = Some (p, l) -> p = -1 \/ 2 <= l.
Proof.
  intros Hok Hm Hs Hp Hb. unfold BerDecoder_decodeLength. cbn [BerDecoder_decodeLengthRecursive]. btest; [intros [= <- <-]; lia|].
  rewrite Hb. cbn [mbind option_bind]. change (Z.land 0x80 0x80 =? 0) with false. change (Z.land 0x80 0x7f =? 0) with true. cbv iota.
  change (50 <? 0 + 1) with false. cbv iota.
  destruct (getIndefiniteLength_loop _ _ _ _ _ _ _) as [n|] eqn:Ei; cbn [mbind option_bind]; [|done].
  replace (Z.to_nat (maxBufPos - bufPos)) with (S (Z.to_nat (maxBufPos - (bufPos + 1)))) in Ei by lia.
  apply getIndefiniteLength_min in Ei; try done; try lia. repeat case_match; intros [= <- <-]; bdestr; lia.
Qed.

(** A length whose content does not fit is an error. *)
Lemma length_octets_either bs : forall buffer length bufPos maxBufPos,
  at_pos buffer bufPos bs -> bytes_ok bs -> 0 <= length ->
  length * 256 ^ zlen bs + be_val bs < 16777216 ->
  exists l, length_octets (List.length bs) buffer length bufPos maxBufPos = Some (-1, l) \/
    length_octets (List.length bs) buffer length bufPos maxBufPos = Some (bufPos + zlen bs, length * 256 ^ zlen bs + be_val bs).
Proof.
  induction bs as [|b bs IH]; intros buffer length bufPos maxBufPos Hat Hok Hl Hn.
  - exists length. right. cbn [List.length length_octets]. rewrite (@zlen_nil Z) in *. unfold be_val. cbn [fold_left]. do 2 f_equal; lia.
  - apply at_pos_cons in Hat as [Hb Hat]. inversion Hok as [|? ? Hb' Hok']; subst. unfold is_byte in Hb'.
    rewrite be_val_cons, zlen_cons, Z.pow_add_r in * by (pose proof (zlen_nonneg bs); lia).
    pose proof (be_val_bound bs Hok') as [Hv0 _]. pose proof (pow256_pos (List.length bs)) as Hpow. fold (zlen bs) in Hpow.
    assert (length * 256 + b < 16777216) by nia. cbn [List.length length_octets].
    case_match; [exists length; by left|]. case_match; [exists length; by left|]. rewrite Hb. cbn [mbind option_bind]. rewrite shiftl8. unfold chk_int. if_true. cbn [mbind option_bind].
    destruct (IH buffer (length * 256 + b) (bufPos + 1) maxBufPos Hat Hok' ltac:(lia) ltac:(nia)) as [l [-> | ->]]; [exists l; by left|].
    exists 0. right. do 2 f_equal; nia.
Qed.

Lemma decodeLength_too_long buffer length bufPos maxBufPos n :
  0 <= n < 16777216 -> at_pos buffer bufPos (ber_length n) -> maxBufPos < bufPos + zlen (ber_length n) + n ->
  exists l, BerDecoder_decodeLength buffer length bufPos maxBufPos = Some (-1, l).
Proof.
  intros Hn Hat Hmax. pose proof (at_pos_bounds _ _ _ Hat) as [Hp _].
  unfold BerDecoder_decodeLength. cbn [BerDecoder_decodeLengthRecursive]. btest; [by eexists|].
  destruct (ber_length_long n Hn) as [[Eb Hs]|(k & bs & Eb & <- & Hk & Hok & Hv)]; rewrite Eb in *.
  - apply at_pos_cons in Hat as [-> _]. cbn [mbind option_bind]. rewrite zlen_cons, zlen_nil in Hmax.
    rewrite land_128 by (unfold is_byte; lia). if_true. change (0 =? 0) with true. cbn [mbind option_bind].
    if_false. if_false. if_true. by eexists.
  - apply at_pos_cons in Hat as [-> Hat]. cbn [mbind option_bind]. rewrite zlen_cons in Hmax.
    rewrite land_128 by (unfold is_byte; lia). if_false. change (0x80 =? 0) with false. cbv iota.
    change 0x7f with (Z.ones 7). rewrite Z.land_ones by lia.
    replace ((128 + Z.of_nat (List.length bs)) mod 2 ^ 7) with (Z.of_nat (List.length bs))
      by (change (2 ^ 7) with 128; Z.div_mod_to_equations; lia).
    if_false. rewrite Nat2Z.id.
    destruct (length_octets_either bs buffer 0 (bufPos + 1) maxBufPos Hat Hok ltac:(lia) ltac:(lia)) as [l [-> | ->]]; cbn [mbind option_bind]; [by eexists|].
    rewrite Z.mul_0_l, Z.add_0_l, Hv. pose proof (zlen_nonneg bs). do 2 if_false. if_true. by eexists.
Qed.
