(* ===== verification/BerInteger.v ===== *)
(** Variable-size BER integers: src/libiec61850/src/mms/asn1/
    asn1_ber_primitive_value.c and ber_integer.c.

    An integer value owns a block of [maxSize] octets of which the first
    [size] hold the big-endian two's complement number. Allocation succeeds. *)

From S2P Require Import Prelude BerEncoder BerDecoder.
Open Scope Z_scope.

(** * The C functions *)

Definition Asn1PrimitiveValue_create (size : Z) : Asn1PrimitiveValue :=
  mkAsn1PrimitiveValue 1 (u8 size) (replicate (Z.to_nat size) 0).

Definition Asn1PrimitiveValue_clone (self : Asn1PrimitiveValue) : option Asn1PrimitiveValue :=
  octets ← ld_range (apv_octets self) 0 (apv_maxSize self);
  Some (mkAsn1PrimitiveValue (apv_size self) (apv_maxSize self) octets).

(** [memcmp(a, b, n) == 0] *)
Definition memcmp_eq (a b : list Z) (n : Z) : option bool :=
  x ← ld_range a 0 n; y ← ld_range b 0 n; Some (bool_decide (x = y)).

Definition Asn1PrimitivaValue_compare (self otherValue : Asn1PrimitiveValue) : option bool :=
  if apv_size self =? apv_size otherValue then
    memcmp_eq (apv_octets self) (apv_octets otherValue) (apv_size self)
  else Some false.

Definition Asn1PrimitiveValue_getSize (self : Asn1PrimitiveValue) : Z := apv_size self.
Definition Asn1PrimitiveValue_getMaxSize (self : Asn1PrimitiveValue) : Z := apv_maxSize self.

Definition setIntegerValue (self : Asn1PrimitiveValue) (valueBuffer : list Z) (bufferSize : Z)
  : option (Asn1PrimitiveValue * bool) :=
  valueBuffer ← BerEncoder_revertByteOrder valueBuffer bufferSize;
  '(valueBuffer, size) ← BerEncoder_compressInteger valueBuffer bufferSize;
  if size <=? apv_maxSize self then
    bs ← ld_range valueBuffer 0 size;
    octets ← st_range (apv_octets self) 0 bs;
    Some (mkAsn1PrimitiveValue (u8 size) (apv_maxSize self) octets, true)
  else Some (self, false).

Definition BerInteger_createInt32 : Asn1PrimitiveValue := Asn1PrimitiveValue_create 5.

Definition BerInteger_createFromBuffer (buf : list Z) (size : Z) : option Asn1PrimitiveValue :=
  let maxSize := if 8 <? size then size else 8 in
  let self := Asn1PrimitiveValue_create maxSize in
  bs ← ld_range buf 0 size;
  octets ← st_range (apv_octets self) 0 bs;
  Some (mkAsn1PrimitiveValue (u8 size) (apv_maxSize self) octets).

Definition BerInteger_setFromBerInteger (self value : Asn1PrimitiveValue)
  : option (Asn1PrimitiveValue * bool) :=
  if apv_size value <=? apv_maxSize self then
    bs ← ld_range (apv_octets value) 0 (apv_size value);
    octets ← st_range (apv_octets self) 0 bs;
    Some (mkAsn1PrimitiveValue (apv_size value) (apv_maxSize self) octets, true)
  else Some (self, false).

Definition BerInteger_setInt32 (self : Asn1PrimitiveValue) (value : Z)
  : option (Asn1PrimitiveValue * bool) := setIntegerValue self (le_bytes 4 value) 4.

Definition BerInteger_createFromInt32 (value : Z) : option Asn1PrimitiveValue :=
  '(asn1Value, _) ← BerInteger_setInt32 BerInteger_createInt32 value; Some asn1Value.

Definition BerInteger_setUint16 (self : Asn1PrimitiveValue) (value : Z)
  : option (Asn1PrimitiveValue * bool) := setIntegerValue self (le_bytes 2 value ++ [0]) 3.

Definition BerInteger_setUint8 (self : Asn1PrimitiveValue) (value : Z)
  : option (Asn1PrimitiveValue * bool) := setIntegerValue self (le_bytes 1 value) 1.

Definition BerInteger_setUint32 (self : Asn1PrimitiveValue) (value : Z)
  : option (Asn1PrimitiveValue * bool) := setIntegerValue self (le_bytes 4 value ++ [0]) 5.

Definition BerInteger_createFromUint32 (value : Z) : option Asn1PrimitiveValue :=
  '(asn1Value, _) ← BerInteger_setUint32 BerInteger_createInt32 value; Some asn1Value.

Definition BerInteger_createInt64 : Asn1PrimitiveValue := Asn1PrimitiveValue_create 9.

Definition BerInteger_setInt64 (self : Asn1PrimitiveValue) (value : Z)
  : option (Asn1PrimitiveValue * bool) := setIntegerValue self (le_bytes 8 value) 8.

Definition BerInteger_createFromInt64 (value : Z) : option Asn1PrimitiveValue :=
  '(asn1Value, _) ← BerInteger_setInt64 BerInteger_createInt64 value; Some asn1Value.

(** [for (i = 0; i < self->size; i++) *nativeValue = ( *nativeValue << 8) | buf[i];]
    on the integer type whose conversion is [wrap] *)
Fixpoint shift_or_loop (wrap : Z -> Z) (n : nat) (buf : list Z) (i value : Z) : option Z :=
  match n with
  | O => Some value
  | S n => b ← ld buf i; shift_or_loop wrap n buf (i + 1) (Z.lor (wrap (Z.shiftl value 8)) b)
  end.

Definition BerInteger_toInt32 (self : Asn1PrimitiveValue) : option Z :=
  let buf := apv_octets self in
  b0 ← ld buf 0;
  let nativeValue := if Z.land b0 0x80 =? 0 then 0 else -1 in
  shift_or_loop s32 (Z.to_nat (apv_size self)) buf 0 nativeValue.

Definition BerInteger_toUint32 (self : Asn1PrimitiveValue) : option Z :=
  shift_or_loop u32 (Z.to_nat (apv_size self)) (apv_octets self) 0 0.

Definition BerInteger_toInt64 (self : Asn1PrimitiveValue) : option Z :=
  let buf := apv_octets self in
  b0 ← ld buf 0;
  let nativeValue := if Z.land b0 0x80 =? 0 then 0 else -1 in
  shift_or_loop s64 (Z.to_nat (apv_size self)) buf 0 nativeValue.

(** * Well-formed values *)

(** The octets hold [content] and nothing in the block is out of range. *)
Definition apv_holds (v : Asn1PrimitiveValue) (content : list Z) : Prop :=
  apv_ok v /\ apv_content v = content.

Lemma create_ok n :
  0 < n < 256 -> apv_ok (Asn1PrimitiveValue_create n) /\ apv_maxSize (Asn1PrimitiveValue_create n) = n.
Proof.
  intros. unfold apv_ok, Asn1PrimitiveValue_create. cbn.
  unfold u8. rewrite Z.mod_small, zlen_replicate by lia.
  repeat split; try lia. apply Forall_replicate. unfold is_byte. lia.
Qed.

Lemma st_range_front octets bs :
  zlen bs <= zlen octets -> st_range octets 0 bs = Some (bs ++ drop (length bs) octets).
Proof. intros. unfold st_range. if_true. done. Qed.

Lemma ld_range_front bs post : ld_range (bs ++ post) 0 (zlen bs) = Some bs.
Proof. apply at_pos_range, at_pos_prefix. Qed.

Lemma overwrite_ok octets bs :
  bytes_ok octets -> bytes_ok bs -> zlen bs <= zlen octets ->
  bytes_ok (bs ++ drop (length bs) octets) /\ zlen (bs ++ drop (length bs) octets) = zlen octets.
Proof.
  intros. split; [apply Forall_app; auto using Forall_drop|].
  unfold zlen in *. rewrite length_app, length_drop. lia.
Qed.

(** Overwriting the front of the octets gives a value that holds the new content. *)
Lemma overwrite_holds v bs size :
  apv_ok v -> bytes_ok bs -> zlen bs <= apv_maxSize v -> size = zlen bs ->
  apv_holds (mkAsn1PrimitiveValue size (apv_maxSize v) (bs ++ drop (length bs) (apv_octets v))) bs.
Proof.
  intros (H1 & H2 & H3 & H4) Hbs Hle ->.
  destruct (overwrite_ok (apv_octets v) bs H3 Hbs) as [Ho Hz]; [lia|].
  pose proof (zlen_nonneg bs). split; [repeat split; cbn; try lia; done|].
  unfold apv_content. cbn. rewrite zlen_to_nat. apply take_app_length.
Qed.

(** [setIntegerValue] stores the shortest octets when they fit and leaves the
    value alone when they do not. *)
Lemma setIntegerValue_spec self valueBuffer n :
  apv_ok self -> bytes_ok valueBuffer -> valueBuffer <> [] -> n = zlen valueBuffer ->
  let bs := ber_minimal (reverse valueBuffer) in
  exists self', setIntegerValue self valueBuffer n = Some (self', zlen bs <=? apv_maxSize self) /\
    apv_maxSize self' = apv_maxSize self /\
    if zlen bs <=? apv_maxSize self then apv_holds self' bs else self' = self.
Proof.
  intros Hs Hv Hne -> bs. unfold setIntegerValue. rewrite revertByteOrder_all.
  cbn [mbind option_bind]. rewrite <- (zlen_reverse valueBuffer).
  assert (bytes_ok (reverse valueBuffer)) as Hr by by apply Forall_reverse.
  assert (reverse valueBuffer <> []) as Hrne
    by (intros E; apply Hne; by rewrite <- (reverse_involutive valueBuffer), E).
  rewrite compressInteger_spec by done. cbn [mbind option_bind]. fold bs.
  destruct (Z.leb_spec (zlen bs) (apv_maxSize self)) as [Hle|Hgt]; [|by exists self].
  rewrite ld_range_front. cbn [mbind option_bind]. pose proof Hs as (? & Hz & _ & Hlt).
  rewrite st_range_front by lia. cbn [mbind option_bind]. eexists. split; [done|]. split; [done|].
  apply overwrite_holds; [done | by apply ber_minimal_ok | done |].
  pose proof (zlen_nonneg bs). unfold u8. rewrite Z.mod_small; lia.
Qed.

Lemma reverse_le_bytes_zero n value : reverse (le_bytes n value ++ [0]) = 0 :: be_bytes n value.
Proof. by rewrite reverse_snoc. Qed.

Lemma createFromInt32_holds value :
  exists v, BerInteger_createFromInt32 value = Some v /\ apv_holds v (ber_int32 value) /\ apv_maxSize v = 5.
Proof.
  destruct (create_ok 5) as [Hok Hm]; [lia|]. unfold BerInteger_createFromInt32, BerInteger_setInt32.
  destruct (setIntegerValue_spec BerInteger_createInt32 (le_bytes 4 value) 4)
    as (v & -> & Hv & Hh); [done | auto with bytes | done | zlia|].
  exists v. fold (be_bytes 4 value) in Hh. fold (ber_int32 value) in Hh.
  pose proof (zlen_ber_int32 value). unfold BerInteger_createInt32 in *.
  rewrite Hm in *. replace (zlen (ber_int32 value) <=? 5) with true in Hh by lia. done.
Qed.

Lemma createFromUint32_holds value :
  exists v, BerInteger_createFromUint32 value = Some v /\ apv_holds v (ber_uint32 value) /\ apv_maxSize v = 5.
Proof.
  destruct (create_ok 5) as [Hok Hm]; [lia|]. unfold BerInteger_createFromUint32, BerInteger_setUint32.
  destruct (setIntegerValue_spec BerInteger_createInt32 (le_bytes 4 value ++ [0]) 5)
    as (v & -> & Hv & Hh); [done | | by destruct (le_bytes 4 value) | zlia|].
  { apply Forall_app. split; [auto with bytes | repeat constructor; unfold is_byte; lia]. }
  exists v. rewrite reverse_le_bytes_zero in Hh. fold (ber_uint32 value) in Hh.
  pose proof (zlen_ber_uint32 value). unfold BerInteger_createInt32 in *.
  rewrite Hm in *. replace (zlen (ber_uint32 value) <=? 5) with true in Hh by lia. done.
Qed.

(** * Conversion to native integers *)

(** Conversion to a type with the range [-h .. m - h - 1]. *)
Definition wrap (h m z : Z) : Z := (z + h) mod m - h.

Lemma s32_wrap z : s32 z = wrap 2147483648 4294967296 z.
Proof. done. Qed.
Lemma s64_wrap z : s64 z = wrap 9223372036854775808 18446744073709551616 z.
Proof. done. Qed.
Lemma u32_wrap z : u32 z = wrap 0 4294967296 z.
Proof. unfold u32, wrap. rewrite Z.add_0_r. lia. Qed.

Lemma lor_low x b : is_byte b -> Z.lor (x * 256) b = x * 256 + b.
Proof.
  intros Hb. assert (Z.land (x * 256) b = 0) as H0.
  { apply Z.bits_inj'. intros n Hn. rewrite Z.land_spec, Z.bits_0.
    change 256 with (2 ^ 8). destruct (Z.lt_ge_cases n 8).
    - by rewrite Z.mul_pow2_bits_low.
    - rewrite (Z.bits_above_log2 b n), andb_false_r; [done|unfold is_byte in Hb; lia|].
      unfold is_byte in Hb. pose proof (Z.log2_le_mono b 255 ltac:(lia)) as Hl.
      change (Z.log2 255) with 7 in Hl. lia. }
  pose proof (Z.add_lor_land (x * 256) b). lia.
Qed.

Section Wrap.
Context (h m : Z).
Hypothesis Hm : 0 < m.

Lemma wrap_shift_or v b :
  is_byte b -> Z.lor (wrap (256 * h) (256 * m) (v * 256)) b = wrap (256 * h) (256 * m) (v * 256 + b).
Proof.
  intros Hb. unfold is_byte in Hb. unfold wrap.
  rewrite !Z.rem_mul_r by lia.
  replace (v * 256 + 256 * h) with ((v + h) * 256) by lia.
  replace (v * 256 + b + 256 * h) with (b + (v + h) * 256) by lia.
  rewrite Z.mod_mul, Z.div_mul, Z_mod_plus_full, Z_div_plus_full by lia.
  rewrite (Z.mod_small b), (Z.div_small b) by lia.
  replace (0 + 256 * ((v + h) mod m) - 256 * h) with (((v + h) mod m - h) * 256) by lia.
  rewrite lor_low by done. rewrite Z.add_0_l. lia.
Qed.

Lemma wrap_shift v b :
  wrap (256 * h) (256 * m) (wrap (256 * h) (256 * m) v * 256 + b) = wrap (256 * h) (256 * m) (v * 256 + b).
Proof.
  unfold wrap at 1 3. f_equal. unfold wrap.
  rewrite (Z.mod_eq (v + 256 * h) (256 * m)) by lia. symmetry.
  rewrite <- (Z_mod_plus_full _ (- ((v + 256 * h) / (256 * m) * 256)) (256 * m)). f_equal. lia.
Qed.

Lemma shift_or_loop_spec bs buf i value :
  at_pos buf i bs -> bytes_ok bs ->
  shift_or_loop (wrap (256 * h) (256 * m)) (length bs) buf i (wrap (256 * h) (256 * m) value)
  = Some (wrap (256 * h) (256 * m) (value * 256 ^ zlen bs + be_val bs)).
Proof.
  rewrite <- fold_shift_acc. intros Hat Hok. revert i value Hat.
  induction Hok as [|b bs Hb Hok IH]; intros i value Hat; [done|].
  apply at_pos_cons in Hat as [Hl Hat]. cbn [length shift_or_loop fold_left]. rewrite Hl.
  cbn [mbind option_bind]. rewrite shiftl8, wrap_shift_or, wrap_shift by done. by apply IH.
Qed.
End Wrap.

Lemma shift_or_loop_ext f g n buf i value :
  (forall z, f z = g z) -> shift_or_loop f n buf i value = shift_or_loop g n buf i value.
Proof.
  intros Hfg. revert i value. induction n as [|n IH]; intros i value; [done|].
  cbn [shift_or_loop]. destruct (ld buf i); cbn; [|done]. by rewrite Hfg.
Qed.

Lemma apv_content_at v : apv_ok v -> at_pos (apv_octets v) 0 (apv_content v).
Proof.
  intros (? & ? & _). exists [], (drop (Z.to_nat (apv_size v)) (apv_octets v)).
  unfold apv_content. cbn. by rewrite take_drop.
Qed.

Lemma apv_content_ok v : apv_ok v -> bytes_ok (apv_content v).
Proof. intros (_ & _ & ? & _). by apply Forall_take. Qed.

Lemma apv_length_content v : apv_ok v -> length (apv_content v) = Z.to_nat (apv_size v).
Proof. intros H. rewrite <- (zlen_apv_content v H). by rewrite zlen_to_nat. Qed.

(** The integer read back is the two's complement value of the content, cut to
    the width of the result. *)
Lemma toInt32_spec v : apv_ok v -> 0 < apv_size v ->
  BerInteger_toInt32 v = Some (s32 (sbe_val (apv_content v))).
Proof.
  intros Hv Hs. pose proof (apv_content_at v Hv) as Hat. pose proof (apv_content_ok v Hv) as Hok.
  pose proof (apv_length_content v Hv) as Hl. unfold BerInteger_toInt32.
  destruct (apv_content v) as [|b bs] eqn:E; [cbn in Hl; lia|].
  pose proof (at_pos_cons _ _ _ _ Hat) as [-> _]. cbn [mbind option_bind].
  inversion Hok as [|? ? Hb _]; subst. rewrite land_128 by done. rewrite <- Hl.
  pose proof (shift_or_loop_spec 8388608 16777216 ltac:(lia) (b :: bs) (apv_octets v) 0) as H.
  cbn [sbe_val]. destruct (b <? 128); cbn [Z.eqb].
  - exact (H 0 Hat Hok).
  - specialize (H (-1) Hat Hok). change (wrap (256 * 8388608) (256 * 16777216)) with s32 in H.
    change (s32 (-1)) with (-1) in H. rewrite H. do 2 f_equal. lia.
Qed.

Lemma toUint32_spec v : apv_ok v -> BerInteger_toUint32 v = Some (u32 (be_val (apv_content v))).
Proof.
  intros Hv. pose proof (apv_content_at v Hv) as Hat. pose proof (apv_content_ok v Hv) as Hok.
  unfold BerInteger_toUint32. rewrite <- (apv_length_content v Hv), u32_wrap.
  rewrite (shift_or_loop_ext _ _ _ _ _ _ u32_wrap).
  exact (shift_or_loop_spec 0 16777216 ltac:(lia) _ _ _ 0 Hat Hok).
Qed.

Lemma toInt64_spec v : apv_ok v -> 0 < apv_size v ->
  BerInteger_toInt64 v = Some (s64 (sbe_val (apv_content v))).
Proof.
  intros Hv Hs. pose proof (apv_content_at v Hv) as Hat. pose proof (apv_content_ok v Hv) as Hok.
  pose proof (apv_length_content v Hv) as Hl. unfold BerInteger_toInt64.
  destruct (apv_content v) as [|b bs] eqn:E; [cbn in Hl; lia|].
  pose proof (at_pos_cons _ _ _ _ Hat) as [-> _]. cbn [mbind option_bind].
  inversion Hok as [|? ? Hb _]; subst. rewrite land_128 by done. rewrite <- Hl.
  pose proof (shift_or_loop_spec 36028797018963968 72057594037927936 ltac:(lia)
    (b :: bs) (apv_octets v) 0) as H.
  cbn [sbe_val]. destruct (b <? 128); cbn [Z.eqb].
  - exact (H 0 Hat Hok).
  - specialize (H (-1) Hat Hok).
    change (wrap (256 * 36028797018963968) (256 * 72057594037927936)) with s64 in H.
    change (s64 (-1)) with (-1) in H. rewrite H. do 2 f_equal. lia.
Qed.
