(* ===== verification/StringUtils.v ===== *)
(** String helpers: src/libiec61850/src/common/string_utilities.c.

    A [char*] is the block it points into; a function that fills a destination
    buffer returns the buffer's new content. Allocation succeeds, and the
    indeterminate bytes of a fresh block are represented by zeros. *)

From S2P Require Import Prelude BerEncoder.
Open Scope Z_scope.

(** * The C functions *)

(** [endPos] is an offset from [startPos]. *)
Definition StringUtils_copySubString (startPos : list Z) (endPos : Z) : option (list Z) :=
  s ← ld_range startPos 0 endPos; Some (s ++ [0]).

Definition StringUtils_copyString (str : option (list Z)) : option (option (list Z)) :=
  match str with
  | None => Some None
  | Some str =>
      n ← strlen str;
      let newStringLength := n + 1 in
      newString ← ld_range str 0 newStringLength;
      Some (Some newString)
  end.

Definition StringUtils_copyStringToBuffer (string buffer : list Z) : option (list Z) :=
  n ← strlen string;
  bs ← ld_range string 0 (n + 1);
  st_range buffer 0 bs.

(** the loop runs along the string and stops behind its terminating zero *)
Fixpoint copyAndReplace_loop (str : list Z) (i : Z) (buffer : list Z) (oldChar newChar : Z)
  : option (list Z) :=
  match str with
  | [] => None
  | c :: str =>
      buffer ← st buffer i (if c =? oldChar then newChar else c);
      if c =? 0 then Some buffer else copyAndReplace_loop str (i + 1) buffer oldChar newChar
  end.

Definition StringUtils_copyStringToBufferAndReplace (str buffer : list Z) (oldChar newChar : Z)
  : option (list Z) := copyAndReplace_loop str 0 buffer oldChar newChar.

Definition StringUtils_createStringFromBuffer (buf : list Z) (size : Z) : option (list Z) :=
  s ← ld_range buf 0 size; Some (s ++ [0]).

Definition StringUtils_createStringFromBufferInBuffer (newString buf : list Z) (size : Z)
  : option (list Z) :=
  s ← ld_range buf 0 size;
  newString ← st_range newString 0 s;
  st newString size 0.

Definition StringUtils_createStringFromBufferInBufferMax (newString buf : list Z)
    (size maxBufSize : Z) : option (list Z) :=
  let size := if maxBufSize <=? size then maxBufSize - 1 else size in
  s ← ld_range buf 0 size;
  newString ← st_range newString 0 s;
  st newString size 0.

(** One of the copy loops of [StringUtils_concatString] and
    [StringUtils_copyStringMax]: the result is the buffer, the next position
    and whether the function returned from inside the loop. *)
Fixpoint copyMax_loop (str res : list Z) (destPos maxStringSize : Z) : option (list Z * Z * bool) :=
  match str with
  | [] => None
  | c :: str =>
      if c =? 0 then Some (res, destPos, false)
      else if destPos <? maxStringSize then
        res ← st res destPos c;
        copyMax_loop str res (destPos + 1) maxStringSize
      else
        res ← st res destPos 0;
        Some (res, destPos, true)
  end.

Definition StringUtils_concatString (dest : option (list Z)) (maxBufferSize : Z)
    (str1 str2 : list Z) : option (list Z) :=
  let res := default (replicate (Z.to_nat maxBufferSize) 0) dest in
  let maxStringSize := maxBufferSize - 1 in
  '(res, destPos, full) ← copyMax_loop str1 res 0 maxStringSize;
  if full : bool then Some res
  else
    '(res, destPos, full) ← copyMax_loop str2 res destPos maxStringSize;
    if full : bool then Some res else st res destPos 0.

(** [None] inside the result is the returned null pointer. *)
Definition StringUtils_copyStringMax (dest : option (list Z)) (maxBufferSize : Z) (str1 : list Z)
  : option (option (list Z)) :=
  if maxBufferSize <? 1 then Some None
  else
    let res := default (replicate (Z.to_nat maxBufferSize) 0) dest in
    let maxStringSize := maxBufferSize - 1 in
    '(res, destPos, full) ← copyMax_loop str1 res 0 maxStringSize;
    if full : bool then Some (Some res)
    else res ← st res destPos 0; Some (Some res).

(** the search for the end of the existing string *)
Fixpoint appendString_find (n : nat) (dest : list Z) (i : Z) : option Z :=
  match n with
  | O => Some i
  | S n => c ← ld dest i; if c =? 0 then Some i else appendString_find n dest (i + 1)
  end.

(** the copy: [n] bytes of [dest] are left from [i] on *)
Fixpoint appendString_copy (n : nat) (dest : list Z) (i : Z) (str : list Z) : option (list Z * Z) :=
  match n with
  | O => Some (dest, i)
  | S n =>
      match str with
      | [] => None
      | c :: str =>
          if c =? 0 then Some (dest, i)
          else dest ← st dest i c; appendString_copy n dest (i + 1) str
      end
  end.

Definition StringUtils_appendString (dest : list Z) (maxBufferSize : Z) (str : list Z)
  : option (list Z) :=
  i ← appendString_find (Z.to_nat maxBufferSize) dest 0;
  if i =? maxBufferSize then
    if 0 <? maxBufferSize then st dest (maxBufferSize - 1) 0 else Some dest
  else
    '(dest, i) ← appendString_copy (Z.to_nat (maxBufferSize - i)) dest i str;
    if i =? maxBufferSize then
      if 0 <? maxBufferSize then st dest (maxBufferSize - 1) 0 else Some dest
    else st dest i 0.

(** The arguments behind [count] are [strs]. *)
Definition StringUtils_createStringInBuffer (newStr : list Z) (bufSize : Z) (strs : list (list Z)) : option (list Z) :=
  if 0 <? bufSize then
    newStr ← st newStr 0 0;
    foldl (fun newStr str => newStr ← newStr; StringUtils_appendString newStr bufSize str) (Some newStr) strs
  else Some newStr.

(** the second loop of [StringUtils_createString]: [strcpy] at [currentPos] *)
Fixpoint createString_loop (strs : list (list Z)) (newStr : list Z) (currentPos : Z) : option (list Z) :=
  match strs with
  | [] => Some newStr
  | str :: strs =>
      n ← strlen str;
      bs ← ld_range str 0 (n + 1);
      newStr ← st_range newStr currentPos bs;
      createString_loop strs newStr (currentPos + n)
  end.

Definition StringUtils_createString (strs : list (list Z)) : option (list Z) :=
  newStringLength ← foldl (fun len str => len ← len; n ← strlen str; Some (len + n)) (Some 0) strs;
  createString_loop strs (replicate (Z.to_nat (newStringLength + 1)) 0) 0.

Definition StringUtils_replace (string : list Z) (oldChar newChar : Z) : option (list Z) :=
  len ← strlen string;
  Some (((fun c => if c =? oldChar then newChar else c) <$> take (Z.to_nat len) string)
        ++ drop (Z.to_nat len) string).

(** A [char] is signed here, as it is on the platforms the library is built for. *)
Definition char_val (c : Z) : Z := if c <? 128 then c else c - 256.

Definition StringUtils_isDigit (character : Z) : bool :=
  (47 <? char_val character) && (char_val character <? 58).

Definition StringUtils_digitToInt (digit : Z) : Z :=
  if StringUtils_isDigit digit then char_val digit - 48 else -1.

Fixpoint digitsToInt_loop (count : nat) (digits : list Z) (i value : Z) : option Z :=
  match count with
  | O => Some value
  | S count =>
      c ← ld digits i;
      value ← chk_int (value * 10);
      let digitValue := StringUtils_digitToInt c in
      if digitValue =? -1 then Some (-1)
      else value ← chk_int (value + digitValue); digitsToInt_loop count digits (i + 1) value
  end.

Definition StringUtils_digitsToInt (digits : list Z) (count : Z) : option Z :=
  digitsToInt_loop (Z.to_nat count) digits 0 0.

Definition toInt (c : Z) : Z :=
  if (48 <=? c) && (c <=? 57) then c - 48
  else if (65 <=? c) && (c <=? 70) then 10 + c - 65
  else if (97 <=? c) && (c <=? 102) then 10 + c - 97
  else -1.

Fixpoint hexString_loop (n : nat) (hexString buffer : list Z) (i bytesCount : Z)
  : option (list Z * Z) :=
  match n with
  | O => Some (buffer, bytesCount)
  | S n =>
      c ← ld hexString (i * 2);
      let high := toInt c in
      if high =? -1 then Some (buffer, -1)
      else
        c ← ld hexString (i * 2 + 1);
        let low := toInt c in
        if low =? -1 then Some (buffer, -1)
        else
          buffer ← st buffer i (u8 (high * 16 + low));
          hexString_loop n hexString buffer (i + 1) (bytesCount + 1)
  end.

Definition StringUtils_createBufferFromHexString (hexString buffer : list Z) : option (list Z * Z) :=
  hexStringLen ← strlen hexString;
  if negb (hexStringLen mod 2 =? 0) then Some (buffer, -1)
  else hexString_loop (Z.to_nat (hexStringLen / 2)) hexString buffer 0 0.

Fixpoint StringUtils_startsWith (string prefix : list Z) : option bool :=
  match string, prefix with
  | s :: string', p :: prefix' =>
      if negb (s =? 0) && negb (p =? 0) then
        if negb (s =? p) then Some false else StringUtils_startsWith string' prefix'
      else if p =? 0 then Some true else Some false
  | _, _ => None
  end.

(** [strcmp(s, t) == 0] *)
Fixpoint strcmp_eq (s t : list Z) : option bool :=
  match s, t with
  | a :: s, b :: t => if a =? b then if a =? 0 then Some true else strcmp_eq s t else Some false
  | _, _ => None
  end.

Definition StringUtils_endsWith (str suffix : list Z) : option bool :=
  stringLength ← strlen str;
  suffixLength ← strlen suffix;
  if suffixLength <=? stringLength then
    strcmp_eq (ptr_add str (stringLength - suffixLength)) suffix
  else Some false.

(** * Copying *)

Lemma copyMax_loop_puts str res destPos max :
  0 ∈ str -> 0 <= destPos <= max ->
  copyMax_loop str res destPos max =
  let s := c_string str in
  if zlen s <=? max - destPos then '(r, p) ← puts s res destPos; Some (r, p, false)
  else '(r, p) ← puts (take (Z.to_nat (max - destPos)) s) res destPos;
       r ← st r p 0; Some (r, p, true).
Proof.
  intros Ht. revert res destPos. induction str as [|c str IH]; intros res destPos Hd;
    [by apply not_elem_of_nil in Ht|].
  cbn [copyMax_loop c_string]. destruct (Z.eqb_spec c 0) as [|Hc].
  { rewrite zlen_nil. if_true. done. }
  apply elem_of_cons in Ht as [Ht|Ht]; [lia|]. specialize (IH Ht). cbv zeta. rewrite zlen_cons.
  pose proof (zlen_nonneg (c_string str)).
  destruct (Z.ltb_spec destPos max) as [Hlt|Hge].
  - replace (Z.to_nat (max - destPos)) with (S (Z.to_nat (max - (destPos + 1)))) by lia.
    replace (1 + zlen (c_string str) <=? max - destPos)
      with (zlen (c_string str) <=? max - (destPos + 1)) by lia.
    cbn [take puts]. unfold put. destruct (st res destPos c) as [r|] eqn:E; cbn [mbind option_bind].
    + rewrite IH by lia. cbv zeta. by case_match.
    + by case_match.
  - if_false. replace (Z.to_nat (max - destPos)) with 0%nat by lia. cbn. done.
Qed.

(** The destination holds the string, cut to the buffer, and its terminator. *)
Lemma copyStringMax_spec dest n str :
  0 ∈ str -> 1 <= n <= zlen dest ->
  StringUtils_copyStringMax (Some dest) n str
  = Some (Some (splice dest 0 (take (Z.to_nat (n - 1)) (c_string str) ++ [0]))).
Proof.
  intros Ht Hn. unfold StringUtils_copyStringMax. if_false. cbn [default from_option id].
  rewrite copyMax_loop_puts by (lia || done). cbv zeta. rewrite Z.sub_0_r.
  pose proof (zlen_nonneg (c_string str)).
  assert (forall s, zlen s <= n - 1 ->
    ('(r, p) ← puts s dest 0; r ← st r p 0; Some (Some r)) = Some (Some (splice dest 0 (s ++ [0])))) as Hput.
  { intros s Hs. pose proof (zlen_nonneg s).
    pose proof (puts_fits (s ++ [0]) dest 0 ltac:(lia) ltac:(zlia)) as Hp.
    rewrite puts_snoc in Hp. destruct (puts s dest 0) as [[r p]|]; [|done].
    cbn [mbind option_bind] in *. unfold put in Hp. destruct (st r p 0); [|done].
    cbn [mbind option_bind] in *. by simplify_eq. }
  destruct (Z.leb_spec (zlen (c_string str)) (n - 1)) as [Hle|Hgt].
  - rewrite take_ge by (unfold zlen in *; lia). rewrite <- Hput by done.
    by destruct (puts _ dest 0) as [[? ?]|].
  - rewrite <- Hput by (rewrite zlen_take; lia).
    destruct (puts _ dest 0) as [[r p]|]; cbn [mbind option_bind]; [|done].
    by destruct (st r p 0).
Qed.

Lemma c_string_no_zero s : 0 ∉ c_string s.
Proof.
  induction s as [|c s IH]; cbn; [by apply not_elem_of_nil|].
  destruct (Z.eqb_spec c 0); [by apply not_elem_of_nil|].
  apply not_elem_of_cons. split; [lia | done].
Qed.

(** What a reader of the destination sees: the string cut to the buffer. *)
Lemma copyStringMax_c_string dest n str dest' :
  0 ∈ str -> 1 <= n <= zlen dest ->
  StringUtils_copyStringMax (Some dest) n str = Some (Some dest') ->
  c_string dest' = take (Z.to_nat (n - 1)) (c_string str) /\ 0 ∈ dest' /\ zlen dest' = zlen dest.
Proof.
  intros Ht Hn. rewrite copyStringMax_spec by done. intros [= <-].
  pose proof (zlen_nonneg (take (Z.to_nat (n - 1)) (c_string str))).
  split; [|split].
  - unfold splice. cbn [Z.to_nat take]. rewrite take_0, <- app_assoc. cbn [app].
    apply c_string_terminated. intros Hin. apply (c_string_no_zero str).
    rewrite <- (take_drop (Z.to_nat (n - 1)) (c_string str)). apply elem_of_app. by left.
  - unfold splice. rewrite take_0. cbn [app]. apply elem_of_app. left. apply elem_of_app. right.
    by apply list_elem_of_singleton.
  - apply zlen_splice; [lia|]. rewrite zlen_app. change (zlen [0]) with 1.
    unfold zlen at 1. rewrite length_take. unfold zlen in *. lia.
Qed.

Lemma copyString_c_string str :
  0 ∈ str ->
  exists s, StringUtils_copyString (Some str) = Some (Some s) /\ c_string s = c_string str /\ 0 ∈ s.
Proof.
  intros Ht. unfold StringUtils_copyString.
  destruct (strlen_is_Some str Ht) as [n Hn]. rewrite Hn. cbn [mbind option_bind].
  pose proof (strlen_c_string str n Hn) as (Hz & Htake & Hlt). pose proof (zlen_nonneg (c_string str)).
  rewrite ld_range_Some by lia. cbn [mbind option_bind]. eexists. split; [done|].
  rewrite drop_0. clear Htake. revert n Hn Hz Hlt. induction str as [|c str IH]; intros n Hn Hz Hlt; [done|].
  cbn in Hn, Hz |- *. destruct (Z.eqb_spec c 0) as [->|Hc].
  - simplify_eq. cbn. split; [done | by left].
  - destruct (strlen str) as [m|] eqn:E; [|done]. cbn in Hn. simplify_eq. rewrite !zlen_cons in *.
    apply elem_of_cons in Ht as [?|Ht]; [lia|]. pose proof (zlen_nonneg (c_string str)).
    destruct (IH Ht ltac:(lia) m eq_refl) as [Hc' Hin]; [lia|lia|].
    replace (Z.to_nat (1 + zlen (c_string str) + 1)) with (S (Z.to_nat (m + 1))) by lia.
    cbn [take c_string]. replace (c =? 0) with false by lia. rewrite Hc'. split; [done|].
    apply elem_of_cons. by right.
Qed.

(** A string built from the [n] bytes of a message element. *)
Lemma createStringFromBuffer_at bs buf pos :
  at_pos buf pos bs ->
  StringUtils_createStringFromBuffer (ptr_add buf pos) (zlen bs) = Some (bs ++ [0]).
Proof.
  intros Hat. unfold StringUtils_createStringFromBuffer.
  by rewrite (at_pos_range _ _ _ (at_pos_ptr _ _ _ Hat)).
Qed.

Lemma strcmp_eq_spec s t :
  0 ∈ s -> 0 ∈ t -> strcmp_eq s t = Some (bool_decide (c_string s = c_string t)).
Proof.
  revert t. induction s as [|a s IH]; intros t Hs Ht; [by apply not_elem_of_nil in Hs|].
  destruct t as [|b t]; [by apply not_elem_of_nil in Ht|]. cbn.
  apply elem_of_cons in Hs. apply elem_of_cons in Ht.
  destruct (Z.eqb_spec a b) as [->|Hab].
  - destruct (Z.eqb_spec b 0) as [->|Hb]; [done|].
    rewrite IH by (destruct Hs, Ht; lia || done). f_equal. apply bool_decide_ext.
    split; [by intros -> | by intros [= ->]].
  - f_equal. symmetry. apply bool_decide_eq_false. destruct (Z.eqb_spec a 0), (Z.eqb_spec b 0); congruence.
Qed.
