(* ===== verification/CText.v ===== *)
(** Decimal numbers as text, the way the C library prints and reads them:
    [%d], [strtol], [atoi], and [strchr]. Strings are their characters with the
    terminating zero; a string without one is undefined behaviour. Also the literals
    of the source. *)

From Stdlib Require Import String Ascii.
From S2P Require Import Prelude BerEncoder.
Open Scope Z_scope.

(** a string literal: its characters and the terminating zero *)
Definition c_literal (s : string) : list Z :=
  ((fun a => Z.of_N (N_of_ascii a)) <$> list_ascii_of_string s) ++ [0].

(** * Printing *)

(** the decimal digits of a natural number; a number has no more digits than bits *)
Fixpoint digits_loop (fuel : nat) (n : Z) (acc : list Z) : list Z :=
  match fuel with
  | O => acc
  | S fuel => if n / 10 =? 0 then (48 + n mod 10) :: acc else digits_loop fuel (n / 10) ((48 + n mod 10) :: acc)
  end.
Definition digits (n : Z) : list Z := digits_loop (S (Z.to_nat (Z.log2 n))) n [].

(** [%d] *)
Definition print_d (z : Z) : list Z := if z <? 0 then 45 :: digits (- z) else digits z.

(** * Reading *)

(** [strtol(s, &end, 10)]: the value and the index of [end] *)
Fixpoint skip_spaces (s : list Z) : option nat :=
  match s with
  | [] => None
  | c :: s => if (c =? 32) || ((9 <=? c) && (c <=? 13)) then n ← skip_spaces s; Some (S n) else Some O
  end.
Fixpoint scan_digits (s : list Z) (value : Z) (n : nat) : option (Z * nat) :=
  match s with
  | [] => None
  | c :: s => if (48 <=? c) && (c <=? 57) then scan_digits s (value * 10 + (c - 48)) (S n) else Some (value, n)
  end.
Definition clip_long (z : Z) : Z := Z.max (-9223372036854775808) (Z.min 9223372036854775807 z).
Definition strtol (s : list Z) : option (Z * nat) :=
  k ← skip_spaces s;
  c ← s !! k;
  let negative := c =? 45 in
  let k := if negative || (c =? 43) then S k else k in
  '(value, n) ← scan_digits (drop k s) 0 O;
  Some (if (n =? 0)%nat then (0, O) else (clip_long (if negative then - value else value), (k + n)%nat)).

(** [atoi(s)]: a value beyond [int] is undefined *)
Definition atoi (s : list Z) : option Z := '(value, _) ← strtol s; chk_int value.

(** [strchr(s, c)] for a character that is not zero: the index, if there is one *)
Fixpoint strchr (s : list Z) (c : Z) : option (option Z) :=
  match s with
  | [] => None
  | x :: s =>
      if x =? c then Some (Some 0)
      else if x =? 0 then Some None
      else r ← strchr s c; Some (option_map (Z.add 1) r)
  end.

(** * Facts *)

Definition is_digit (c : Z) : Prop := 48 <= c <= 57.

Lemma digits_loop_ok fuel n acc : Forall is_digit acc -> Forall is_digit (digits_loop fuel n acc).
Proof.
  revert n acc. induction fuel as [|fuel IH]; intros n acc H; cbn [digits_loop]; [done|].
  pose proof (Z.mod_pos_bound n 10 ltac:(lia)).
  assert (Forall is_digit ((48 + n mod 10) :: acc)) by (constructor; [unfold is_digit; lia | done]).
  case_match; auto.
Qed.

Lemma digits_loop_length fuel : forall (k : nat) n acc, (0 < k)%nat -> 0 <= n < 10 ^ Z.of_nat k ->
  zlen (digits_loop fuel n acc) <= Z.of_nat k + zlen acc.
Proof.
  induction fuel as [|fuel IH]; intros k n acc Hk Hn; cbn [digits_loop]; [lia|].
  case_match; [zlia|]. destruct k as [|[|k]]; [lia| |].
  - exfalso. assert (n / 10 = 0) by (apply Z.div_small; change (10 ^ Z.of_nat 1) with 10 in Hn; lia). lia.
  - rewrite Nat2Z.inj_succ, Z.pow_succ_r in Hn by lia.
    assert (0 <= n / 10 < 10 ^ Z.of_nat (S k)) by (split; [apply Z.div_pos; lia | apply Z.div_lt_upper_bound; lia]).
    specialize (IH (S k) (n / 10) ((48 + n mod 10) :: acc) ltac:(lia) ltac:(lia)). zlen. lia.
Qed.

Lemma digits_length k n : (0 < k)%nat -> 0 <= n < 10 ^ Z.of_nat k -> zlen (digits n) <= Z.of_nat k.
Proof. intros Hk Hn. pose proof (digits_loop_length (S (Z.to_nat (Z.log2 n))) k n [] Hk Hn). unfold digits. zlen. lia. Qed.

Lemma skip_spaces_total s : 0 ∈ s -> exists k, skip_spaces s = Some k /\ 0 ∈ drop k s.
Proof.
  induction s as [|c s IH]; intros H; [by apply not_elem_of_nil in H|]. cbn [skip_spaces].
  destruct ((c =? 32) || _) eqn:E; [|by exists O].
  apply elem_of_cons in H as [<-|H]; [done|]. destruct (IH H) as (k & -> & Hk). by exists (S k).
Qed.

Lemma scan_digits_total s value n : 0 ∈ s ->
  exists v k, scan_digits s value n = Some (v, (n + k)%nat) /\ (k < length s)%nat.
Proof.
  revert value n. induction s as [|c s IH]; intros value n H; [by apply not_elem_of_nil in H|]. cbn [scan_digits length].
  destruct ((48 <=? c) && (c <=? 57)) eqn:E; [|exists value, O; split; [do 2 f_equal; lia | lia]].
  apply elem_of_cons in H as [<-|H]; [done|].
  destruct (IH (value * 10 + (c - 48)) (S n) H) as (v & k & -> & Hk). exists v, (S k). split; [do 2 f_equal; lia | lia].
Qed.

(** [strtol] stops inside the string. *)
Lemma strtol_total s : 0 ∈ s -> exists v k, strtol s = Some (v, k) /\ (k < length s)%nat.
Proof.
  intros H. unfold strtol. destruct (skip_spaces_total s H) as (k & -> & Hk). cbn [mbind option_bind].
  assert (k < length s)%nat as Hlt.
  { destruct (decide (k < length s)%nat); [done|]. rewrite drop_ge in Hk by lia. by apply not_elem_of_nil in Hk. }
  destruct (lookup_lt_is_Some_2 s k Hlt) as [c Hc]. rewrite Hc. cbn [mbind option_bind].
  set (k' := if _ || _ then S k else k).
  assert (0 ∈ drop k' s) as Hk'.
  { unfold k'. destruct (_ || _) eqn:E; [|done]. rewrite (drop_S s c k Hc) in Hk.
    apply elem_of_cons in Hk as [<-|Hk]; [done|done]. }
  destruct (scan_digits_total (drop k' s) 0 O Hk') as (v & n & -> & Hn). cbn [mbind option_bind Nat.add].
  rewrite length_drop in Hn. destruct (n =? 0)%nat; do 2 eexists; (split; [done|]); lia.
Qed.


(** ** Reading what was printed *)

Definition digits_value (v : Z) (ds : list Z) : Z := fold_left (fun v c => v * 10 + (c - 48)) ds v.

Lemma digits_value_acc v ds : digits_value v ds = v * 10 ^ zlen ds + digits_value 0 ds.
Proof.
  revert v. induction ds as [|d ds IH]; intros v; [cbn; rewrite Z.pow_0_r; lia|].
  unfold digits_value in *. cbn [fold_left]. rewrite IH, (IH (0 * 10 + (d - 48))), zlen_cons, Z.pow_add_r by (pose proof (zlen_nonneg ds); lia). lia.
Qed.

Lemma digits_loop_value fuel n acc :
  0 <= n < 10 ^ Z.of_nat fuel -> (0 < fuel)%nat ->
  exists ds, digits_loop fuel n acc = ds ++ acc /\ ds <> [] /\ Forall is_digit ds /\ digits_value 0 ds = n.
Proof.
  revert n acc. induction fuel as [|fuel IH]; intros n acc Hn Hf; [lia|]. cbn [digits_loop].
  pose proof (Z.mod_pos_bound n 10 ltac:(lia)). pose proof (Z.div_mod n 10 ltac:(lia)).
  destruct (Z.eqb_spec (n / 10) 0) as [E|E].
  - exists [48 + n mod 10]. split_and!; try done; [constructor; [unfold is_digit; lia | done]|]. unfold digits_value. cbn [fold_left]. lia.
  - assert (0 <= n / 10) by (apply Z.div_pos; lia). rewrite Nat2Z.inj_succ, Z.pow_succ_r in Hn by lia.
    destruct (IH (n / 10) ((48 + n mod 10) :: acc)) as (ds & -> & Hne & Hd & Hv).
    { split; [done|]. apply Z.div_lt_upper_bound; lia. }
    { destruct fuel; [|lia]. cbn in Hn. lia. }
    exists (ds ++ [48 + n mod 10]). rewrite <- app_assoc. split_and!; try done.
    + by destruct ds.
    + apply Forall_app_2; [done|]. constructor; [unfold is_digit; lia | done].
    + unfold digits_value in *. rewrite fold_left_app. cbn [fold_left]. rewrite Hv. lia.
Qed.

Lemma digits_spec n : 0 <= n -> digits n <> [] /\ Forall is_digit (digits n) /\ digits_value 0 (digits n) = n.
Proof.
  intros Hn. unfold digits. destruct (digits_loop_value (S (Z.to_nat (Z.log2 n))) n []) as (ds & -> & ? & ? & ?); [|lia|by rewrite app_nil_r].
  split; [done|]. pose proof (Z.log2_nonneg n). rewrite Nat2Z.inj_succ, Z2Nat.id by done.
  destruct (decide (n = 0)) as [->|Hne]; [done|]. apply Z.lt_le_trans with (2 ^ Z.succ (Z.log2 n)); [apply Z.log2_spec; lia|].
  apply Z.pow_le_mono_l. lia.
Qed.

Lemma scan_digits_value ds c post v k :
  Forall is_digit ds -> ~ is_digit c ->
  scan_digits (ds ++ c :: post) v k = Some (digits_value v ds, (k + length ds)%nat).
Proof.
  intros Hd Hc. revert v k. induction Hd as [|d ds Hd _ IH]; intros v k; cbn [app scan_digits].
  - unfold is_digit in Hc. replace ((48 <=? c) && (c <=? 57)) with false by lia. cbn. do 2 f_equal. lia.
  - unfold is_digit in Hd. replace ((48 <=? d) && (d <=? 57)) with true by lia. rewrite IH. cbn [length]. do 2 f_equal. lia.
Qed.

(** [atoi] reads the number in front of a character that is not a digit. *)
Lemma atoi_digits n c post : 0 <= n <= 2147483647 -> ~ is_digit c -> atoi (digits n ++ c :: post) = Some n.
Proof.
  intros Hn Hc. destruct (digits_spec n ltac:(lia)) as (Hne & Hd & Hv). unfold atoi, strtol.
  destruct (digits n) as [|d ds] eqn:Hds; [done|]. assert (is_digit d) as Hd0 by (by inversion Hd). unfold is_digit in Hd0.
  cbn [app skip_spaces]. replace ((d =? 32) || ((9 <=? d) && (d <=? 13))) with false by lia. cbn [mbind option_bind lookup list_lookup].
  replace (d =? 45) with false by lia. replace (false || (d =? 43)) with false by lia. rewrite drop_0.
  change (d :: ds ++ c :: post) with ((d :: ds) ++ c :: post). rewrite scan_digits_value by done. cbn [mbind option_bind Nat.add length].
  change (S (length ds) =? 0)%nat with false. cbv iota. rewrite Hv. unfold clip_long, chk_int. rewrite Z.min_r, Z.max_r by lia. by if_true.
Qed.

Lemma strchr_digits ds c post : Forall is_digit ds -> ~ is_digit c -> strchr (ds ++ c :: post) c = Some (Some (zlen ds)).
Proof.
  intros Hd Hc. induction Hd as [|d ds Hd _ IH]; cbn [app strchr]; [by rewrite Z.eqb_refl|]. unfold is_digit in *.
  replace (d =? c) with false by lia. replace (d =? 0) with false by lia. rewrite IH. cbn. by rewrite zlen_cons.
Qed.

Lemma strchr_digits_end ds c post : Forall is_digit ds -> ~ is_digit c -> c <> 0 -> strchr (ds ++ 0 :: post) c = Some None.
Proof.
  intros Hd Hc Hc0. induction Hd as [|d ds Hd _ IH]; cbn [app strchr]; [by replace (0 =? c) with false by lia|]. unfold is_digit in *.
  replace (d =? c) with false by lia. replace (d =? 0) with false by lia. rewrite IH. done.
Qed.
