(* ===== verification/BerOid.v ===== *)
(** Object identifiers: [BerEncoder_encodeOIDToBuffer] of
    src/libiec61850/src/mms/asn1/ber_encoder.c, the counterpart of
    [BerDecoder_decodeOID]. *)

From S2P Require Import Prelude BerEncoder BerDecoder CText.
Open Scope Z_scope.

(** [while (val2 > 0)]: a positive [int] has at most five groups of seven bits *)
Fixpoint requiredBytes_loop (fuel : nat) (val2 requiredBytes : Z) : option Z :=
  match fuel with
  | O => None
  | S fuel => if 0 <? val2 then requiredBytes_loop fuel (Z.shiftr val2 7) (requiredBytes + 1) else Some requiredBytes
  end.

(** [while (requiredBytes > 0)]; the flag is false for the early return *)
Fixpoint encodeArc_loop (requiredBytes : nat) (val : Z) (buffer : list Z) (encodedBytes maxBufLen : Z)
  : option (bool * list Z * Z) :=
  match requiredBytes with
  | O => Some (true, buffer, encodedBytes)
  | S rest =>
      let val2 := Z.land (Z.shiftr val (7 * Z.of_nat rest)) 0x7f in
      let val2 := if match rest with O => false | S _ => true end then val2 + 128 else val2 in
      if encodedBytes =? maxBufLen then Some (false, buffer, encodedBytes)
      else
        '(buffer, encodedBytes) ← put (u8 val2) buffer encodedBytes;
        encodeArc_loop rest val buffer encodedBytes maxBufLen
  end.

(** [while (1)]: [separator] is the string from the last separator on *)
Fixpoint encodeArcs_loop (fuel : nat) (sepChar : Z) (separator : list Z) (buffer : list Z) (encodedBytes maxBufLen : Z)
  : option (list Z * Z) :=
  match fuel with
  | O => None
  | S fuel =>
      next ← strchr (ptr_add separator 1) sepChar;
      match next with
      | None => Some (buffer, encodedBytes)
      | Some i =>
          let separator := ptr_add separator (1 + i) in
          val ← atoi (ptr_add separator 1);
          if val =? 0 then
            '(buffer, encodedBytes) ← put 0 buffer encodedBytes;
            encodeArcs_loop fuel sepChar separator buffer encodedBytes maxBufLen
          else
            requiredBytes ← requiredBytes_loop 6 val 0;
            '(ok, buffer, encodedBytes) ← encodeArc_loop (Z.to_nat requiredBytes) val buffer encodedBytes maxBufLen;
            if ok : bool then encodeArcs_loop fuel sepChar separator buffer encodedBytes maxBufLen
            else Some (buffer, 0)
      end
  end.

(** the separator the string uses: a dot, else a comma, else a blank *)
Definition find_separator (oidString : list Z) : option (option (Z * Z)) :=
  dot ← strchr oidString 46;
  match dot with
  | Some i => Some (Some (46, i))
  | None =>
      comma ← strchr oidString 44;
      match comma with
      | Some i => Some (Some (44, i))
      | None => blank ← strchr oidString 32; Some (option_map (pair 32) blank)
      end
  end.

(** The buffer and the number of bytes, zero for a string that is not encoded. *)
Definition BerEncoder_encodeOIDToBuffer (oidString buffer : list Z) (maxBufLen : Z) : option (list Z * Z) :=
  x ← atoi oidString;
  separator ← find_separator oidString;
  match separator with
  | None => Some (buffer, 0)
  | Some (sepChar, i) =>
      let separator := ptr_add oidString i in
      y ← atoi (ptr_add separator 1);
      x40 ← chk_int (x * 40);
      val ← chk_int (x40 + y);
      if 0 <? maxBufLen then
        '(buffer, encodedBytes) ← put (u8 val) buffer 0;
        encodeArcs_loop (S (length separator)) sepChar separator buffer encodedBytes maxBufLen
      else Some (buffer, 0)
  end.

(** * The octets of an object identifier *)

(** an arc below [2 ^ 16], in groups of seven bits *)
Definition arc_octets (n : Z) : list Z :=
  if n <? 128 then [n]
  else if n <? 16384 then [128 + n / 128; n mod 128]
  else [128 + n / 16384; 128 + n / 128 mod 128; n mod 128].

Definition oid_octets (a b : Z) (arcs : list Z) : list Z := (a * 40 + b) :: concat (arc_octets <$> arcs).

(** the identifier as text, with dots *)
Definition oid_text (a b : Z) (arcs : list Z) : list Z :=
  digits a ++ 46 :: digits b ++ concat ((fun n => 46 :: digits n) <$> arcs) ++ [0].

Definition arc_ok (n : Z) : Prop := 0 <= n < 65536.

Lemma land_127 z : Z.land z 0x7f = z mod 128.
Proof. change 0x7f with (Z.ones 7). by rewrite Z.land_ones. Qed.

Lemma requiredBytes_arc n : 0 < n < 65536 -> requiredBytes_loop 6 n 0 = Some (zlen (arc_octets n)).
Proof.
  intros Hn. unfold arc_octets. cbn [requiredBytes_loop]. if_true. rewrite !Z.shiftr_div_pow2 by lia. change (2 ^ 7) with 128.
  pose proof (Z.div_mod n 128 ltac:(lia)). pose proof (Z.mod_pos_bound n 128 ltac:(lia)).
  rewrite Z.div_div by lia. change (128 * 128) with 16384. rewrite Z.div_div by lia. change (16384 * 128) with 2097152.
  assert (n / 2097152 = 0) as -> by (apply Z.div_small; lia). change (0 <? 0) with false. cbv iota.
  pose proof (Z.div_mod n 16384 ltac:(lia)). pose proof (Z.mod_pos_bound n 16384 ltac:(lia)).
  destruct (Z.ltb_spec n 128); [|destruct (Z.ltb_spec n 16384)].
  - replace (0 <? n / 128) with false by lia. done.
  - replace (0 <? n / 128) with true by lia. replace (0 <? n / 16384) with false by lia. done.
  - replace (0 <? n / 128) with true by lia. replace (0 <? n / 16384) with true by lia. done.
Qed.

Lemma encodeArc_spec n buffer pos maxBufLen :
  0 < n < 65536 -> 0 <= pos -> pos + zlen (arc_octets n) <= maxBufLen -> maxBufLen <= zlen buffer ->
  encodeArc_loop (Z.to_nat (zlen (arc_octets n))) n buffer pos maxBufLen =
  Some (true, splice buffer pos (arc_octets n), pos + zlen (arc_octets n)).
Proof.
  intros Hn Hp Hf Hm.
  pose proof (Z.div_mod n 128 ltac:(lia)). pose proof (Z.mod_pos_bound n 128 ltac:(lia)).
  pose proof (Z.div_mod n 16384 ltac:(lia)). pose proof (Z.mod_pos_bound n 16384 ltac:(lia)).
  pose proof (Z.mod_pos_bound (n / 128) 128 ltac:(lia)).
  assert (n / 16384 = n / 128 / 128) as Hdd by (rewrite Z.div_div by lia; done).
  pose proof (puts_fits (arc_octets n) buffer pos Hp ltac:(lia)) as Hputs. unfold arc_octets in *.
  destruct (Z.ltb_spec n 128); [|destruct (Z.ltb_spec n 16384)]; rewrite ?zlen_cons, ?(@zlen_nil Z) in *.
  - change (Z.to_nat (1 + 0)) with 1%nat. cbn [encodeArc_loop]. change (7 * Z.of_nat 0) with 0. rewrite Z.shiftr_0_r, land_127.
    replace (n mod 128) with n by lia. if_false. unfold u8. rewrite (Z.mod_small n) by lia.
    cbn [puts] in Hputs. destruct (put n buffer pos) as [[bf p]|]; cbn [mbind option_bind] in *; [|done]. by injection Hputs as -> ->.
  - change (Z.to_nat (1 + (1 + 0))) with 2%nat. cbn [encodeArc_loop]. change (7 * Z.of_nat 0) with 0. change (7 * Z.of_nat 1) with 7.
    rewrite Z.shiftr_0_r, Z.shiftr_div_pow2, !land_127 by lia. change (2 ^ 7) with 128.
    assert (n / 128 < 128) by lia. rewrite (Z.mod_small (n / 128)) by lia. if_false. unfold u8.
    rewrite (Z.mod_small (n / 128 + 128) 256), (Z.mod_small (n mod 128) 256) by lia.
    cbn [puts] in Hputs. rewrite (Z.add_comm (n / 128)). destruct (put (128 + n / 128) buffer pos) as [[bf p]|] eqn:E1; cbn [mbind option_bind] in *; [|done].
    destruct (put_bounds _ _ _ _ _ E1) as (_ & -> & _). if_false.
    destruct (put (n mod 128) bf (pos + 1)) as [[bf2 p2]|] eqn:E2; cbn [mbind option_bind] in *; [|done]. by injection Hputs as -> ->.
  - change (Z.to_nat (1 + (1 + (1 + 0)))) with 3%nat. cbn [encodeArc_loop]. change (7 * Z.of_nat 0) with 0. change (7 * Z.of_nat 1) with 7. change (7 * Z.of_nat 2) with 14.
    rewrite Z.shiftr_0_r, !Z.shiftr_div_pow2, !land_127 by lia. change (2 ^ 7) with 128. change (2 ^ 14) with 16384.
    assert (n / 16384 < 4) by lia. rewrite (Z.mod_small (n / 16384)) by lia. if_false. unfold u8.
    rewrite (Z.mod_small (n / 16384 + 128) 256), (Z.mod_small (n / 128 mod 128 + 128) 256), (Z.mod_small (n mod 128) 256) by lia.
    cbn [puts] in Hputs. rewrite (Z.add_comm (n / 16384)), (Z.add_comm (n / 128 mod 128)).
    destruct (put (128 + n / 16384) buffer pos) as [[bf p]|] eqn:E1; cbn [mbind option_bind] in *; [|done].
    destruct (put_bounds _ _ _ _ _ E1) as (_ & -> & _). if_false.
    destruct (put (128 + n / 128 mod 128) bf (pos + 1)) as [[bf2 p2]|] eqn:E2; cbn [mbind option_bind] in *; [|done].
    destruct (put_bounds _ _ _ _ _ E2) as (_ & -> & _). if_false.
    destruct (put (n mod 128) bf2 (pos + 1 + 1)) as [[bf3 p3]|] eqn:E3; cbn [mbind option_bind] in *; [|done]. by injection Hputs as -> ->.
Qed.

(** * Encoding *)

Definition tail_text (arcs : list Z) : list Z := concat ((fun n => 46 :: digits n) <$> arcs) ++ [0].

Lemma tail_text_head arcs : exists c post, tail_text arcs = c :: post /\ ~ is_digit c.
Proof. destruct arcs; do 2 eexists; (split; [done|]); unfold is_digit; lia. Qed.

Lemma arc_octets_pos n : 1 <= zlen (arc_octets n).
Proof. unfold arc_octets. repeat case_match; zlia. Qed.

Lemma encodeArcs_spec arcs ds fuel buffer pos maxBufLen :
  Forall is_digit ds -> Forall arc_ok arcs -> (length arcs < fuel)%nat ->
  0 <= pos -> pos + zlen (concat (arc_octets <$> arcs)) <= maxBufLen -> maxBufLen <= zlen buffer ->
  encodeArcs_loop fuel 46 (46 :: ds ++ tail_text arcs) buffer pos maxBufLen =
  Some (splice buffer pos (concat (arc_octets <$> arcs)), pos + zlen (concat (arc_octets <$> arcs))).
Proof.
  intros Hds Ha. revert ds Hds fuel buffer pos.
  induction Ha as [|n arcs Hn _ IH]; intros ds Hds fuel buffer pos Hf Hp Hfit Hmax; (destruct fuel as [|fuel]; [cbn in Hf; lia|]); cbn [encodeArcs_loop].
  - change (ptr_add (46 :: ds ++ tail_text []) 1) with (ds ++ tail_text []). change (tail_text []) with (0 :: @nil Z).
    rewrite strchr_digits_end by (unfold is_digit; done || lia). cbn [mbind option_bind fmap list_fmap concat].
    unfold splice. simpl. rewrite Nat.add_0_r, take_drop. do 2 f_equal. zlia.
  - change (ptr_add (46 :: ds ++ tail_text (n :: arcs)) 1) with (ds ++ tail_text (n :: arcs)).
    assert (tail_text (n :: arcs) = 46 :: digits n ++ tail_text arcs) as Htt.
    { unfold tail_text. cbn [fmap list_fmap concat]. by rewrite <- app_comm_cons, app_assoc. }
    rewrite Htt, strchr_digits by (unfold is_digit; done || lia). cbn [mbind option_bind].
    assert (ptr_add (46 :: ds ++ 46 :: digits n ++ tail_text arcs) (1 + zlen ds) = 46 :: digits n ++ tail_text arcs) as ->.
    { unfold ptr_add. replace (Z.to_nat (1 + zlen ds)) with (S (length ds)) by (unfold zlen; lia). cbn [skipn]. by rewrite drop_app_length. }
    change (ptr_add (46 :: digits n ++ tail_text arcs) 1) with (digits n ++ tail_text arcs).
    destruct (tail_text_head arcs) as (c & post & Hc & Hcd). unfold arc_ok in Hn.
    rewrite Hc at 1. rewrite atoi_digits by (done || lia). cbn [mbind option_bind].
    destruct (digits_spec n ltac:(lia)) as (_ & Hdn & _). cbn [fmap list_fmap concat length] in *. rewrite zlen_app in *.
    pose proof (arc_octets_pos n). pose proof (zlen_nonneg (concat (arc_octets <$> arcs))).
    btest.
    + subst n. change (arc_octets 0) with [0] in *. unfold put. rewrite st_Some by lia. cbn [mbind option_bind].
      rewrite zlen_cons, (@zlen_nil Z) in *. rewrite (IH (digits 0)) by (try done; zlia).
      assert (<[Z.to_nat pos:=0]> buffer = splice buffer pos [0]) as ->.
      { pose proof (puts_fits [0] buffer pos Hp ltac:(zlia)) as H1. cbn [puts] in H1. unfold put in H1. rewrite st_Some in H1 by lia.
        cbn [mbind option_bind] in H1. congruence. }
      f_equal. f_equal; [|lia]. change (pos + 1) with (pos + zlen [0]). rewrite splice_splice by (try lia; zlia). done.
    + rewrite requiredBytes_arc by lia. cbn [mbind option_bind]. rewrite encodeArc_spec by lia. cbn [mbind option_bind].
      rewrite (IH (digits n)) by (try done; rewrite ?zlen_splice; lia). f_equal. f_equal; [|lia]. apply splice_splice; lia.
Qed.

Lemma encodeOID_spec a b arcs buffer maxBufLen :
  0 <= a -> 0 <= b -> a * 40 + b < 256 -> Forall arc_ok arcs -> zlen (oid_octets a b arcs) <= maxBufLen <= zlen buffer ->
  BerEncoder_encodeOIDToBuffer (oid_text a b arcs) buffer maxBufLen =
  Some (splice buffer 0 (oid_octets a b arcs), zlen (oid_octets a b arcs)).
Proof.
  intros Ha Hb Hab Harcs Hfit. unfold BerEncoder_encodeOIDToBuffer, oid_text. fold (tail_text arcs).
  destruct (digits_spec a ltac:(lia)) as (_ & Hda & _), (digits_spec b ltac:(lia)) as (_ & Hdb & _).
  rewrite atoi_digits by (unfold is_digit; lia). cbn [mbind option_bind]. unfold find_separator.
  rewrite strchr_digits by (unfold is_digit; done || lia). cbn [mbind option_bind].
  assert (forall l k, ptr_add (l ++ k) (zlen l) = k) as Hptr by (intros l k; unfold ptr_add; by rewrite zlen_to_nat, drop_app_length).
  rewrite !Hptr. change (ptr_add (46 :: digits b ++ tail_text arcs) 1) with (digits b ++ tail_text arcs).
  destruct (tail_text_head arcs) as (c & post & Hc & Hcd). rewrite Hc at 1. rewrite atoi_digits by (done || lia). cbn [mbind option_bind].
  unfold chk_int. if_true. cbn [mbind option_bind]. if_true. cbn [mbind option_bind].
  unfold oid_octets in *. rewrite zlen_cons in *. pose proof (zlen_nonneg (concat (arc_octets <$> arcs))). if_true.
  unfold put. rewrite st_Some by lia. cbn [mbind option_bind]. unfold u8. rewrite Z.mod_small by lia.
  rewrite encodeArcs_spec; try done; try (rewrite ?zlen_insert; lia).
  - assert (<[Z.to_nat 0:=a * 40 + b]> buffer = splice buffer 0 [a * 40 + b]) as ->.
    { pose proof (puts_fits [a * 40 + b] buffer 0 ltac:(lia) ltac:(zlia)) as H1. cbn [puts] in H1. unfold put in H1. rewrite st_Some in H1 by lia.
      cbn [mbind option_bind] in H1. congruence. }
    f_equal. f_equal. change (0 + 1) with (0 + zlen [a * 40 + b]). rewrite splice_splice by (try lia; zlia). done.
  - cbn [length]. rewrite length_app. unfold tail_text. rewrite length_app. cbn [length].
    assert (length arcs <= length (concat ((fun n => 46%Z :: digits n) <$> arcs)))%nat; [|lia].
    clear. induction arcs as [|n arcs IH]; [done|]. rewrite fmap_cons. cbn [concat length app]. rewrite length_app. lia.
Qed.

(** * Decoding *)

(** the arcs decoded so far, padded to the ten of the record *)
Definition padded (arcs : list Z) : list Z := arcs ++ replicate (10 - length arcs) 0.

Lemma padded_next arcs v k : (length arcs < 10)%nat -> k = zlen arcs ->
  ld (arcs ++ v :: replicate (9 - length arcs) 0) k = Some v /\
  (forall w, st (arcs ++ v :: replicate (9 - length arcs) 0) k w = Some (arcs ++ w :: replicate (9 - length arcs) 0)).
Proof.
  intros Hl ->. pose proof (zlen_nonneg arcs). split.
  - unfold ld. if_true. rewrite zlen_to_nat. by apply list_lookup_middle.
  - intros w. rewrite st_Some by (pose proof (zlen_nonneg (replicate (9 - length arcs) 0)); zlia).
    rewrite zlen_to_nat. rewrite <- (Nat.add_0_r (length arcs)) at 1. by rewrite insert_app_r.
Qed.

Lemma padded_split arcs : (length arcs < 10)%nat -> padded arcs = arcs ++ 0 :: replicate (9 - length arcs) 0.
Proof. intros H. unfold padded. f_equal. by replace (10 - length arcs)%nat with (S (9 - length arcs)) by lia. Qed.

Lemma padded_snoc arcs v : (length arcs < 10)%nat -> arcs ++ v :: replicate (9 - length arcs) 0 = padded (arcs ++ [v]).
Proof.
  intros H. unfold padded. rewrite <- app_assoc. cbn [app]. do 3 f_equal. rewrite length_app. cbn [length]. lia.
Qed.

Lemma shift_in_7 v w : 0 <= v < 512 -> 0 <= w < 128 -> u16 (u16 (Z.shiftl v 7) + w) = v * 128 + w.
Proof.
  intros Hv Hw. rewrite Z.shiftl_mul_pow2 by lia. change (2 ^ 7) with 128. unfold u16. rewrite !Z.mod_small; lia.
Qed.

(** a group of seven bits that is not the last *)
Lemma decode_group n buffer pos arcs v g :
  (length arcs < 10)%nat -> ld buffer pos = Some (128 + g) -> 0 <= g < 128 -> 0 <= v < 512 ->
  decodeOID_loop (S n) buffer pos (arcs ++ v :: replicate (9 - length arcs) 0) (zlen arcs) =
  decodeOID_loop n buffer (pos + 1) (arcs ++ (v * 128 + g) :: replicate (9 - length arcs) 0) (zlen arcs).
Proof.
  intros Hl Hld Hg Hv. destruct (padded_next arcs v (zlen arcs) Hl eq_refl) as [H1 H2].
  cbn [decodeOID_loop]. replace (zlen arcs <? 10) with true by (unfold zlen; lia). cbv iota. rewrite H1. cbn [mbind option_bind].
  rewrite Hld. cbn [mbind option_bind]. if_false. rewrite H2. cbn [mbind option_bind]. rewrite land_127.
  replace ((128 + g) mod 128) with g by (rewrite <- (Z.mul_1_l 128) at 1; rewrite Z.add_comm, Z_mod_plus_full, Z.mod_small; lia).
  by rewrite shift_in_7.
Qed.

(** the last group of an arc *)
Lemma decode_last n buffer pos arcs v g :
  (length arcs < 10)%nat -> ld buffer pos = Some g -> 0 <= g < 128 -> 0 <= v < 512 ->
  decodeOID_loop (S n) buffer pos (arcs ++ v :: replicate (9 - length arcs) 0) (zlen arcs) =
  decodeOID_loop n buffer (pos + 1) (padded (arcs ++ [v * 128 + g])) (zlen arcs + 1).
Proof.
  intros Hl Hld Hg Hv. destruct (padded_next arcs v (zlen arcs) Hl eq_refl) as [H1 H2].
  cbn [decodeOID_loop]. replace (zlen arcs <? 10) with true by (unfold zlen; lia). cbv iota. rewrite H1. cbn [mbind option_bind].
  rewrite Hld. cbn [mbind option_bind]. if_true. rewrite H2. cbn [mbind option_bind]. by rewrite shift_in_7, padded_snoc.
Qed.

Lemma decode_arc n m buffer pos arcs :
  (length arcs < 10)%nat -> arc_ok n -> at_pos buffer pos (arc_octets n) ->
  decodeOID_loop (length (arc_octets n) + m) buffer pos (padded arcs) (zlen arcs) =
  decodeOID_loop m buffer (pos + zlen (arc_octets n)) (padded (arcs ++ [n])) (zlen arcs + 1).
Proof.
  intros Hl Hn Hat. unfold arc_ok in Hn. rewrite padded_split by done.
  pose proof (Z.div_mod n 128 ltac:(lia)). pose proof (Z.mod_pos_bound n 128 ltac:(lia)).
  pose proof (Z.mod_pos_bound (n / 128) 128 ltac:(lia)). pose proof (Z.div_mod (n / 128) 128 ltac:(lia)).
  assert (n / 128 / 128 = n / 16384) as Hdd by (rewrite Z.div_div by lia; done). rewrite Hdd in *.
  assert (0 <= n / 16384) by (apply Z.div_pos; lia). assert (0 <= n / 128) by (apply Z.div_pos; lia).
  unfold arc_octets in *. destruct (Z.ltb_spec n 128); [|destruct (Z.ltb_spec n 16384)]; cbn [length Nat.add].
  - apply at_pos_cons in Hat as [B0 _]. rewrite (decode_last m buffer pos arcs 0 n) by (done || lia). rewrite !zlen_cons, (@zlen_nil Z).
    by replace (0 * 128 + n) with n by lia.
  - apply at_pos_cons in Hat as [B0 Hat]. apply at_pos_cons in Hat as [B1 _].
    rewrite (decode_group _ buffer pos arcs 0 (n / 128)) by (done || lia). rewrite (decode_last m buffer (pos + 1) arcs _ (n mod 128)) by (done || lia).
    rewrite !zlen_cons, (@zlen_nil Z). replace (pos + 1 + 1) with (pos + (1 + (1 + 0))) by lia.
    by replace ((0 * 128 + n / 128) * 128 + n mod 128) with n by lia.
  - apply at_pos_cons in Hat as [B0 Hat]. apply at_pos_cons in Hat as [B1 Hat]. apply at_pos_cons in Hat as [B2 _].
    rewrite (decode_group _ buffer pos arcs 0 (n / 16384)) by (done || lia).
    rewrite (decode_group _ buffer (pos + 1) arcs _ (n / 128 mod 128)) by (done || lia).
    rewrite (decode_last m buffer (pos + 1 + 1) arcs _ (n mod 128)) by (done || lia).
    rewrite !zlen_cons, (@zlen_nil Z). replace (pos + 1 + 1 + 1) with (pos + (1 + (1 + (1 + 0)))) by lia.
    by replace (((0 * 128 + n / 16384) * 128 + n / 128 mod 128) * 128 + n mod 128) with n by lia.
Qed.

Lemma decode_arcs rest arcs buffer pos :
  (length arcs + length rest <= 10)%nat -> Forall arc_ok rest -> at_pos buffer pos (concat (arc_octets <$> rest)) ->
  decodeOID_loop (length (concat (arc_octets <$> rest))) buffer pos (padded arcs) (zlen arcs) =
  Some (padded (arcs ++ rest), zlen arcs + zlen rest).
Proof.
  revert arcs pos. induction rest as [|n rest IH]; intros arcs pos Hl Ha Hat.
  - cbn. rewrite app_nil_r. do 2 f_equal. zlia.
  - inversion Ha as [|? ? Hn Hr]; subst. cbn [fmap list_fmap concat] in *. cbn [length] in Hl. apply at_pos_app in Hat as [Hat1 Hat2].
    rewrite length_app, decode_arc by (done || lia).
    specialize (IH (arcs ++ [n]) (pos + zlen (arc_octets n))). rewrite zlen_app, zlen_cons, (@zlen_nil Z), Z.add_0_r in IH.
    unfold fmap in *. rewrite IH; try done; [|rewrite length_app; cbn [length]; lia]. rewrite <- app_assoc. cbn [app]. do 2 f_equal. rewrite zlen_cons. lia.
Qed.

Lemma decodeOID_octets a b arcs buffer :
  0 <= a -> 0 <= b < 40 -> Forall arc_ok arcs -> (length arcs <= 8)%nat -> at_pos buffer 0 (oid_octets a b arcs) ->
  BerDecoder_decodeOID buffer 0 (zlen (oid_octets a b arcs)) =
  Some (mkItuObjectIdentifier (padded (a :: b :: arcs)) (2 + zlen arcs)).
Proof.
  intros Ha Hb Harcs Hl Hat. unfold oid_octets in *. apply at_pos_cons in Hat as [H0 Hat].
  unfold BerDecoder_decodeOID. rewrite zlen_cons. pose proof (zlen_nonneg (concat (arc_octets <$> arcs))). if_true.
  rewrite H0. cbn [mbind option_bind].
  replace (Z.to_nat (1 + zlen (concat (arc_octets <$> arcs)) - 1)) with (length (concat (arc_octets <$> arcs))) by (unfold zlen; lia).
  replace ((a * 40 + b) / 40) with a by (rewrite Z.add_comm, Z_div_plus_full, Z.div_small; lia).
  replace ((a * 40 + b) mod 40) with b by (rewrite Z.add_comm, Z_mod_plus_full, Z.mod_small; lia).
  change (<[0%nat:=a]> (<[1%nat:=b]> (replicate 10 0))) with (padded [a; b]). change 2 with (zlen [a; b]) at 1.
  rewrite decode_arcs by (cbn [length]; done || lia). cbn [mbind option_bind]. done.
Qed.
