(* ===== verification/IsoParameters.v ===== *)
(** The parameters of an ISO connection:
    src/libiec61850/src/mms/inc/iso_connection_parameters.h and
    src/libiec61850/src/mms/iso_common/iso_connection_parameters.c. A connection
    is set up with the addresses of both sides, one selector per layer, and
    optionally with their application titles and a password. *)

From S2P Require Import Prelude BerEncoder BerDecoder StringUtils CText BerOid.
Open Scope Z_scope.

(** [size] of the bytes of the array [value] are used; zero means that there is no
    selector. The arrays have 4, 16 and 16 bytes. *)
Record TSelector := mkTSelector {
  ts_size : Z;
  ts_value : list Z
}.

Record SSelector := mkSSelector {
  ss_size : Z;
  ss_value : list Z
}.

Record PSelector := mkPSelector {
  pse_size : Z;
  pse_value : list Z
}.

(** The union [value] holds a pointer and a length in both of its members. *)
Inductive AcseAuthenticationMechanism :=
| ACSE_AUTH_NONE
| ACSE_AUTH_PASSWORD
| ACSE_AUTH_CERTIFICATE
| ACSE_AUTH_TLS.

Record AcseAuthenticationParameter := mkAcseAuthenticationParameter {
  aa_mechanism : AcseAuthenticationMechanism;
  aa_octetString : option (list Z);
  aa_passwordLength : Z
}.

Definition AcseAuthenticationParameter_create : AcseAuthenticationParameter :=
  mkAcseAuthenticationParameter ACSE_AUTH_NONE None 0.

Definition AcseAuthenticationParameter_setPassword (self : AcseAuthenticationParameter) (password : list Z)
  : option AcseAuthenticationParameter :=
  copy ← StringUtils_copyString (Some password);
  length ← strlen password;
  Some (mkAcseAuthenticationParameter (aa_mechanism self) copy length).

Definition AcseAuthenticationParameter_getPassword (self : option AcseAuthenticationParameter) : option (list Z) :=
  match self with
  | Some self => match aa_mechanism self with ACSE_AUTH_PASSWORD => aa_octetString self | _ => None end
  | None => None
  end.

Definition AcseAuthenticationParameter_getPasswordLength (self : option AcseAuthenticationParameter) : Z :=
  match self with
  | Some self => match aa_mechanism self with ACSE_AUTH_PASSWORD => aa_passwordLength self | _ => 0 end
  | None => 0
  end.

Definition AcseAuthenticationParameter_setAuthMechanism (self : AcseAuthenticationParameter)
    (mechanism : AcseAuthenticationMechanism) : AcseAuthenticationParameter :=
  mkAcseAuthenticationParameter mechanism (aa_octetString self) (aa_passwordLength self).

Definition AcseAuthenticationParameter_getAuthMechanism (self : AcseAuthenticationParameter)
  : AcseAuthenticationMechanism := aa_mechanism self.

(** one side of the connection *)
Record IsoAddress := mkIsoAddress {
  ia_apTitle : list Z;
  ia_apTitleLen : Z;
  ia_aeQualifier : Z;
  ia_pSelector : PSelector;
  ia_sSelector : SSelector;
  ia_tSelector : TSelector
}.

(** The TLS configuration and the TCP addresses are not used by the layers
    above TCP. *)
Record IsoConnectionParameters := mkIsoConnectionParameters {
  ip_acseAuthParameter : option AcseAuthenticationParameter;
  ip_hostname : option (list Z);
  ip_tcpPort : Z;
  ip_localIpAddress : option (list Z);
  ip_localTcpPort : Z;
  ip_remote : IsoAddress;
  ip_local : IsoAddress
}.

Definition emptyAddress : IsoAddress :=
  mkIsoAddress (replicate 10 0) 0 0 (mkPSelector 0 (replicate 16 0)) (mkSSelector 0 (replicate 16 0)) (mkTSelector 0 (replicate 4 0)).

Definition IsoConnectionParameters_create : IsoConnectionParameters :=
  mkIsoConnectionParameters None None 0 None 0 emptyAddress emptyAddress.

Definition IsoConnectionParameters_setAcseAuthenticationParameter (self : IsoConnectionParameters)
    (acseAuthParameter : option AcseAuthenticationParameter) : IsoConnectionParameters :=
  let 'mkIsoConnectionParameters _ h p lh lp r l := self in
  mkIsoConnectionParameters acseAuthParameter h p lh lp r l.

Definition IsoConnectionParameters_setTcpParameters (self : IsoConnectionParameters) (hostname : option (list Z)) (tcpPort : Z)
  : IsoConnectionParameters :=
  let 'mkIsoConnectionParameters a _ _ lh lp r l := self in
  mkIsoConnectionParameters a hostname tcpPort lh lp r l.

Definition IsoConnectionParameters_setLocalTcpParameters (self : IsoConnectionParameters)
    (localIpAddress : option (list Z)) (localTcpPort : Z) : IsoConnectionParameters :=
  let 'mkIsoConnectionParameters a h p lh lp r l := self in
  match localIpAddress with
  | Some _ => mkIsoConnectionParameters a h p localIpAddress localTcpPort r l
  | None => self
  end.

(** [setRemoteApTitle] and [setLocalApTitle] do the same to their side *)
Definition set_apTitle (side : IsoAddress) (apTitle : option (list Z)) (aeQualifier : Z) : option IsoAddress :=
  match apTitle with
  | None => Some (mkIsoAddress (ia_apTitle side) 0 (ia_aeQualifier side) (ia_pSelector side) (ia_sSelector side) (ia_tSelector side))
  | Some apTitle =>
      '(title, len) ← BerEncoder_encodeOIDToBuffer apTitle (ia_apTitle side) 10;
      Some (mkIsoAddress title len aeQualifier (ia_pSelector side) (ia_sSelector side) (ia_tSelector side))
  end.

Definition IsoConnectionParameters_setRemoteApTitle (self : IsoConnectionParameters) (apTitle : option (list Z))
    (aeQualifier : Z) : option IsoConnectionParameters :=
  let 'mkIsoConnectionParameters a h p lh lp r l := self in
  r ← set_apTitle r apTitle aeQualifier;
  Some (mkIsoConnectionParameters a h p lh lp r l).

Definition IsoConnectionParameters_setLocalApTitle (self : IsoConnectionParameters) (apTitle : option (list Z))
    (aeQualifier : Z) : option IsoConnectionParameters :=
  let 'mkIsoConnectionParameters a h p lh lp r l := self in
  l ← set_apTitle l apTitle aeQualifier;
  Some (mkIsoConnectionParameters a h p lh lp r l).

Definition set_addresses (side : IsoAddress) (p : PSelector) (s : SSelector) (t : TSelector) : IsoAddress :=
  mkIsoAddress (ia_apTitle side) (ia_apTitleLen side) (ia_aeQualifier side) p s t.

Definition IsoConnectionParameters_setRemoteAddresses (self : IsoConnectionParameters) (pSelector : PSelector)
    (sSelector : SSelector) (tSelector : TSelector) : IsoConnectionParameters :=
  let 'mkIsoConnectionParameters a h p lh lp r l := self in
  mkIsoConnectionParameters a h p lh lp (set_addresses r pSelector sSelector tSelector) l.

Definition IsoConnectionParameters_setLocalAddresses (self : IsoConnectionParameters) (pSelector : PSelector)
    (sSelector : SSelector) (tSelector : TSelector) : IsoConnectionParameters :=
  let 'mkIsoConnectionParameters a h p lh lp r l := self in
  mkIsoConnectionParameters a h p lh lp r (set_addresses l pSelector sSelector tSelector).
