(* ===== verification/ByteBuffer.v ===== *)
(** Byte buffers and buffer chains: src/libiec61850/src/common/byte_buffer.c
    and buffer_chain.c, with their headers.

    A [ByteBuffer] is memory with a capacity and a fill level. A [BufferChain]
    is how the protocol layers build a message without copying: every layer
    puts the part with its header in front of the parts of the layer above. The
    bytes of a chain, [chain_bytes], are what the transport layer sends. *)

From S2P Require Import Prelude.
Open Scope Z_scope.

Record ByteBuffer := mkByteBuffer {
  bb_buffer : list Z;
  bb_maxSize : Z;
  bb_size : Z
}.

Definition ByteBuffer_create (maxSize : Z) : ByteBuffer :=
  mkByteBuffer (replicate (Z.to_nat maxSize) 0) maxSize 0.

Definition ByteBuffer_wrap (buf : list Z) (size maxSize : Z) : ByteBuffer :=
  mkByteBuffer buf maxSize size.

Definition ByteBuffer_append (self : ByteBuffer) (data : list Z) (dataSize : Z) : option (ByteBuffer * Z) :=
  if bb_size self + dataSize <=? bb_maxSize self then
    bytes ← ld_range data 0 dataSize;
    buffer ← st_range (bb_buffer self) (bb_size self) bytes;
    Some (mkByteBuffer buffer (bb_maxSize self) (bb_size self + dataSize), dataSize)
  else Some (self, -1).

Definition ByteBuffer_appendByte (self : ByteBuffer) (byte : Z) : option (ByteBuffer * Z) :=
  if bb_size self <? bb_maxSize self then
    buffer ← st (bb_buffer self) (bb_size self) byte;
    Some (mkByteBuffer buffer (bb_maxSize self) (bb_size self + 1), 1)
  else Some (self, 0).

Definition ByteBuffer_getBuffer (self : ByteBuffer) : list Z := bb_buffer self.
Definition ByteBuffer_getMaxSize (self : ByteBuffer) : Z := bb_maxSize self.
Definition ByteBuffer_getSize (self : ByteBuffer) : Z := bb_size self.

Definition ByteBuffer_setSize (self : ByteBuffer) (size : Z) : ByteBuffer * Z :=
  let self := if size <=? bb_maxSize self
              then mkByteBuffer (bb_buffer self) (bb_maxSize self) size else self in
  (self, bb_size self).

(** [partMaxLength] is recorded and never read. *)
Unset Elimination Schemes.
Inductive BufferChain := mkBufferChain {
  bc_length : Z;
  bc_partLength : Z;
  bc_partMaxLength : Z;
  bc_buffer : list Z;
  bc_nextPart : option BufferChain
}.
Set Elimination Schemes.

Definition BufferChain_init (length partLength : Z) (nextPart : option BufferChain) (buffer : list Z)
  : BufferChain := mkBufferChain length partLength partLength buffer nextPart.

(** The area hands out consecutive blocks, here their offsets. *)
Record MemoryArea := mkMemoryArea {
  ma_memory : list Z;
  ma_currentPos : Z;
  ma_size : Z
}.

Definition MemoryArea_initialize (memory : list Z) (size : Z) : MemoryArea :=
  mkMemoryArea memory 0 size.

Definition MemoryArea_getNextBlock (self : MemoryArea) (size : Z) : MemoryArea * option Z :=
  if size <=? ma_size self - ma_currentPos self then
    (mkMemoryArea (ma_memory self) (ma_currentPos self + size) (ma_size self), Some (ma_currentPos self))
  else (self, None).

(** * What a buffer and a chain hold *)

Definition byteBuffer_ok (b : ByteBuffer) : Prop :=
  0 <= bb_size b <= bb_maxSize b /\ bb_maxSize b <= zlen (bb_buffer b).

Definition byteBuffer_bytes (b : ByteBuffer) : list Z := take (Z.to_nat (bb_size b)) (bb_buffer b).

(** a received message: [bytes], in a buffer that goes on with [post] *)
Definition message_of (bytes post : list Z) (maxSize : Z) : ByteBuffer := mkByteBuffer (bytes ++ post) maxSize (zlen bytes).

Lemma zlen_byteBuffer_bytes b : byteBuffer_ok b -> zlen (byteBuffer_bytes b) = bb_size b.
Proof. intros [? ?]. apply zlen_take. lia. Qed.

Fixpoint chain_bytes (c : BufferChain) : list Z :=
  take (Z.to_nat (bc_partLength c)) (bc_buffer c) ++
  match bc_nextPart c with Some c => chain_bytes c | None => [] end.

(** every part has bytes, and the length of a part counts those behind it *)
Fixpoint chain_ok (c : BufferChain) : Prop :=
  0 < bc_partLength c <= zlen (bc_buffer c) /\
  bc_length c = zlen (chain_bytes c) /\
  match bc_nextPart c with Some c => chain_ok c | None => True end.

Lemma chain_ok_length c : chain_ok c -> bc_length c = zlen (chain_bytes c) /\ 0 < bc_length c.
Proof.
  destruct c as [len part mx buf next]. cbn [chain_ok bc_partLength bc_buffer bc_length bc_nextPart].
  intros (Hp & Hl & _). split; [done|]. rewrite Hl. cbn [chain_bytes bc_partLength bc_buffer bc_nextPart].
  rewrite zlen_app, zlen_take by lia. pose proof (zlen_nonneg (match next with Some c => chain_bytes c | None => [] end)). lia.
Qed.

Lemma chain_ok_cons len mx header rest payload :
  0 < zlen header -> len = zlen header + bc_length payload -> chain_ok payload ->
  chain_ok (mkBufferChain len (zlen header) mx (header ++ rest) (Some payload)) /\
  chain_bytes (mkBufferChain len (zlen header) mx (header ++ rest) (Some payload)) = header ++ chain_bytes payload.
Proof.
  intros Hh Hl Hp. pose proof (zlen_nonneg rest).
  assert (chain_bytes (mkBufferChain len (zlen header) mx (header ++ rest) (Some payload)) = header ++ chain_bytes payload) as Heq.
  { cbn [chain_bytes bc_partLength bc_buffer bc_nextPart]. by rewrite zlen_to_nat, take_app_length. }
  split; [|done]. cbn [chain_ok bc_partLength bc_buffer bc_length bc_nextPart]. rewrite Heq.
  destruct (chain_ok_length payload Hp) as [Hlp _]. split_and!; [lia | zlia | zlia | done].
Qed.

Lemma chain_ok_single bytes mx rest :
  0 < zlen bytes ->
  chain_ok (mkBufferChain (zlen bytes) (zlen bytes) mx (bytes ++ rest) None) /\
  chain_bytes (mkBufferChain (zlen bytes) (zlen bytes) mx (bytes ++ rest) None) = bytes.
Proof.
  intros Hh. pose proof (zlen_nonneg rest).
  assert (chain_bytes (mkBufferChain (zlen bytes) (zlen bytes) mx (bytes ++ rest) None) = bytes) as Heq.
  { cbn [chain_bytes bc_partLength bc_buffer bc_nextPart]. by rewrite zlen_to_nat, take_app_length, app_nil_r. }
  split; [|done]. cbn [chain_ok bc_partLength bc_buffer bc_length bc_nextPart]. rewrite Heq. split_and!; [lia | zlia | done | done].
Qed.

(** * Appending *)

Lemma st_range_splice buf i bs :
  0 <= i -> i + zlen bs <= zlen buf -> st_range buf i bs = Some (splice buf i bs).
Proof. intros. unfold st_range. if_true. done. Qed.

(** [ByteBuffer_append] adds all the bytes or reports that they do not fit. *)
Lemma append_spec self data :
  byteBuffer_ok self ->
  exists self' n, ByteBuffer_append self data (zlen data) = Some (self', n) /\ byteBuffer_ok self' /\
    bb_maxSize self' = bb_maxSize self /\
    (n = -1 /\ self' = self /\ bb_maxSize self < bb_size self + zlen data \/
     n = zlen data /\ byteBuffer_bytes self' = byteBuffer_bytes self ++ data).
Proof.
  intros Hok. pose proof Hok as [Hs Hm]. pose proof (zlen_nonneg data). unfold ByteBuffer_append. btest.
  - rewrite ld_range_Some by lia. cbn [mbind option_bind]. rewrite zlen_to_nat, drop_0, firstn_all.
    rewrite st_range_splice by lia. cbn [mbind option_bind]. do 2 eexists. split; [done|].
    cbn [bb_maxSize]. split; [|split; [done|right; split; [done|]]].
    + unfold byteBuffer_ok. cbn [bb_size bb_maxSize bb_buffer]. rewrite zlen_splice by lia. lia.
    + unfold byteBuffer_bytes, splice. cbn [bb_size bb_buffer].
      replace (Z.to_nat (bb_size self + zlen data)) with (length (take (Z.to_nat (bb_size self)) (bb_buffer self) ++ data)).
      * by rewrite app_assoc, take_app_length.
      * rewrite length_app, length_take. unfold zlen in *. lia.
  - do 2 eexists. split; [done|]. split; [done|]. split; [done|]. left. split_and!; [done | done | lia].
Qed.
