(* ===== verification/Cotp.v ===== *)
(** The transport layer: src/libiec61850/src/mms/iso_cotp/cotp.c with cotp.h,
    ISO 8073 class 0 over TCP (RFC 1006), and the socket functions it calls,
    src/libiec61850/hal/socket/linux/socket_linux.c.

    A TCP connection is the bytes it has accepted and those that will arrive; what
    the system calls [send], [recv] and [poll] report is left open, as a list of
    their next results. A negative result is an error (or, for [recv], the end of
    the connection), zero that the call would block, a positive one how many bytes the call
    takes or gives at most. When the list has ended the calls block. The
    connection may as well be a TLS socket: its functions have the same results. *)

From S2P Require Import Prelude BerEncoder ByteBuffer IsoParameters.
Open Scope Z_scope.

(** * Sockets *)

Record Socket := mkSocket {
  sk_sent : list Z;
  sk_sendResults : list Z;
  sk_arriving : list Z;
  sk_recvResults : list Z
}.

Definition next_result (results : list Z) : Z * list Z :=
  match results with [] => (0, []) | r :: results => (r, results) end.

(** [buf] holds the [size] bytes to write *)
Definition Socket_write (self : Socket) (buf : list Z) : Z * Socket :=
  let '(r, results) := next_result (sk_sendResults self) in
  if r <? 0 then (-1, mkSocket (sk_sent self) results (sk_arriving self) (sk_recvResults self))
  else
    let n := Z.min r (zlen buf) in
    (n, mkSocket (sk_sent self ++ take (Z.to_nat n) buf) results (sk_arriving self) (sk_recvResults self)).

(** the bytes read come with the result *)
Definition Socket_read (self : Socket) (size : Z) : Z * list Z * Socket :=
  let '(r, results) := next_result (sk_recvResults self) in
  let blocked := mkSocket (sk_sent self) (sk_sendResults self) (sk_arriving self) results in
  if (r <? 0) || (size =? 0) then (-1, [], blocked)
  else
    let n := Z.min (Z.min r size) (zlen (sk_arriving self)) in
    (n, take (Z.to_nat n) (sk_arriving self),
     mkSocket (sk_sent self) (sk_sendResults self) (drop (Z.to_nat n) (sk_arriving self)) results).

Definition Handleset_waitReady (self : Socket) : Z * Socket :=
  let '(r, results) := next_result (sk_recvResults self) in
  (r, mkSocket (sk_sent self) (sk_sendResults self) (sk_arriving self) results).

(** * The connection *)

Definition TPKT_RFC1006_HEADER_SIZE : Z := 4.
Definition COTP_DATA_HEADER_SIZE : Z := 3.
Definition COTP_MAX_TPDU_SIZE : Z := 8192.

Record CotpOptions := mkCotpOptions {
  co_tSelSrc : TSelector;
  co_tSelDst : TSelector;
  co_tpduSize : Z
}.

(** The member [state] is never used. *)
Record CotpConnection := mkCotpConnection {
  ct_remoteRef : Z;
  ct_localRef : Z;
  ct_protocolClass : Z;
  ct_socket : Socket;
  ct_options : CotpOptions;
  ct_isLastDataUnit : bool;
  ct_payload : ByteBuffer;
  ct_writeBuffer : option ByteBuffer;
  ct_readBuffer : ByteBuffer;
  ct_packetSize : Z;
  ct_socketExtensionBuffer : option (list Z);
  ct_socketExtensionBufferSize : Z;
  ct_socketExtensionBufferFill : Z
}.

Inductive CotpIndication :=
| COTP_OK
| COTP_ERROR
| COTP_CONNECT_INDICATION
| COTP_DATA_INDICATION
| COTP_DISCONNECT_INDICATION
| COTP_MORE_FRAGMENTS_FOLLOW.

Inductive TpktState :=
| TPKT_PACKET_COMPLETE
| TPKT_WAITING
| TPKT_ERROR.

(** assignments to members *)
Definition with_socket (self : CotpConnection) (s : Socket) : CotpConnection :=
  let 'mkCotpConnection rr lr pc _ op la pl wb rb ps eb es ef := self in
  mkCotpConnection rr lr pc s op la pl wb rb ps eb es ef.
Definition with_options (self : CotpConnection) (o : CotpOptions) : CotpConnection :=
  let 'mkCotpConnection rr lr pc s _ la pl wb rb ps eb es ef := self in
  mkCotpConnection rr lr pc s o la pl wb rb ps eb es ef.
Definition with_remote (self : CotpConnection) (remoteRef protocolClass : Z) : CotpConnection :=
  let 'mkCotpConnection _ lr _ s o la pl wb rb ps eb es ef := self in
  mkCotpConnection remoteRef lr protocolClass s o la pl wb rb ps eb es ef.
Definition with_isLastDataUnit (self : CotpConnection) (la : bool) : CotpConnection :=
  let 'mkCotpConnection rr lr pc s o _ pl wb rb ps eb es ef := self in
  mkCotpConnection rr lr pc s o la pl wb rb ps eb es ef.
Definition with_payload (self : CotpConnection) (pl : ByteBuffer) : CotpConnection :=
  let 'mkCotpConnection rr lr pc s o la _ wb rb ps eb es ef := self in
  mkCotpConnection rr lr pc s o la pl wb rb ps eb es ef.
Definition with_writeBuffer (self : CotpConnection) (wb : ByteBuffer) : CotpConnection :=
  let 'mkCotpConnection rr lr pc s o la pl _ rb ps eb es ef := self in
  mkCotpConnection rr lr pc s o la pl (Some wb) rb ps eb es ef.
Definition with_read (self : CotpConnection) (rb : ByteBuffer) (ps : Z) : CotpConnection :=
  let 'mkCotpConnection rr lr pc s o la pl wb _ _ eb es ef := self in
  mkCotpConnection rr lr pc s o la pl wb rb ps eb es ef.
Definition with_extension (self : CotpConnection) (eb : option (list Z)) (ef : Z) : CotpConnection :=
  let 'mkCotpConnection rr lr pc s o la pl wb rb ps _ es _ := self in
  mkCotpConnection rr lr pc s o la pl wb rb ps eb es ef.

Definition getUint16 (buffer : list Z) : option Z :=
  b0 ← ld buffer 0; b1 ← ld buffer 1; Some (u16 (b0 * 0x100 + b1)).
Definition getUint8 (buffer : list Z) : option Z := ld buffer 0.

(** ** TPDU size *)

(** [tpduSize] is at most 13, so the shift does not overflow. *)
Definition CotpConnection_getTpduSize (self : CotpConnection) : Z :=
  Z.shiftl 1 (co_tpduSize (ct_options self)).

(** [while ((1 << newTpduSize) < tpduSize) newTpduSize++] *)
Fixpoint tpduSize_loop (fuel : nat) (newTpduSize tpduSize : Z) : option Z :=
  match fuel with
  | O => None
  | S fuel =>
      if Z.shiftl 1 newTpduSize <? tpduSize then tpduSize_loop fuel (newTpduSize + 1) tpduSize
      else Some newTpduSize
  end.

Definition with_tpduSize (o : CotpOptions) (tpduSize : Z) : CotpOptions :=
  mkCotpOptions (co_tSelSrc o) (co_tSelDst o) tpduSize.

Definition CotpConnection_setTpduSize (self : CotpConnection) (tpduSize : Z) : option CotpConnection :=
  let tpduSize := if COTP_MAX_TPDU_SIZE <? tpduSize then COTP_MAX_TPDU_SIZE else tpduSize in
  newTpduSize ← tpduSize_loop 14 1 tpduSize;
  let newTpduSize := if tpduSize <? Z.shiftl 1 newTpduSize then newTpduSize - 1 else newTpduSize in
  Some (with_options self (with_tpduSize (ct_options self) newTpduSize)).

(** ** Writing *)

(** The buffer the connection writes to; [None] is the null pointer. *)
Definition on_writeBuffer (self : CotpConnection) (f : ByteBuffer -> option ByteBuffer) : option CotpConnection :=
  wb ← ct_writeBuffer self;
  wb ← f wb;
  Some (with_writeBuffer self wb).

(** [buffer[pos++] = ...] for each of the bytes, then [size = ...] *)
Definition write_at (wb : ByteBuffer) (pos : Z) (bs : list Z) (size : Z) : option ByteBuffer :=
  '(buffer, _) ← puts bs (bb_buffer wb) pos; Some (mkByteBuffer buffer (bb_maxSize wb) size).

Definition write_selector (code : Z) (sel : TSelector) : writer := fun buffer bufPos =>
  if ts_size sel =? 0 then Some (buffer, bufPos)
  else
    '(buffer, bufPos) ← puts [code; u8 (ts_size sel)] buffer bufPos;
    copy_loop (Z.to_nat (ts_size sel)) (ts_value sel) 0 buffer bufPos.

Definition writeOptions (self : CotpConnection) : option CotpConnection :=
  let o := ct_options self in
  on_writeBuffer self (fun wb =>
    '(buffer, bufPos) ← (if co_tpduSize o =? 0 then Some (bb_buffer wb, bb_size wb)
                         else puts [0xc0; 0x01; co_tpduSize o] (bb_buffer wb) (bb_size wb));
    '(buffer, bufPos) ← write_selector 0xc2 (co_tSelDst o) buffer bufPos;
    '(buffer, bufPos) ← write_selector 0xc1 (co_tSelSrc o) buffer bufPos;
    Some (mkByteBuffer buffer (bb_maxSize wb) bufPos)).

Definition getOptionsLength (self : CotpConnection) : Z :=
  let o := ct_options self in
  (if co_tpduSize o =? 0 then 0 else 3) +
  (if ts_size (co_tSelDst o) =? 0 then 0 else 2 + ts_size (co_tSelDst o)) +
  (if ts_size (co_tSelSrc o) =? 0 then 0 else 2 + ts_size (co_tSelSrc o)).

Definition writeStaticConnectResponseHeader (self : CotpConnection) (optionsLength : Z) : option CotpConnection :=
  on_writeBuffer self (fun wb =>
    write_at wb 4 [u8 (6 + optionsLength); 0xd0;
      u8 (Z.quot (ct_remoteRef self) 0x100); u8 (Z.land (ct_remoteRef self) 0xff);
      u8 (Z.quot (ct_localRef self) 0x100); u8 (Z.land (ct_localRef self) 0xff);
      u8 (ct_protocolClass self)] 11).

Definition writeRfc1006Header (self : CotpConnection) (len : Z) : option CotpConnection :=
  on_writeBuffer self (fun wb =>
    write_at wb 0 [0x03; 0x00; u8 (Z.quot len 0x100); u8 (Z.land len 0xff)] 4).

Definition writeDataTpduHeader (self : CotpConnection) (isLastUnit : bool) : option CotpConnection :=
  on_writeBuffer self (fun wb =>
    write_at wb 4 [0x02; 0xf0; if isLastUnit then 0x80 else 0x00] 7).

(** the first [size] bytes of [buf] *)
Definition writeToSocket (self : CotpConnection) (buf : list Z) (size : Z) : option (Z * CotpConnection) :=
  bytes ← ld_range buf 0 size;
  let '(n, socket) := Socket_write (ct_socket self) bytes in
  Some (n, with_socket self socket).

(** [for (i = sentBytes; i < fill; i++) buf[target++] = buf[i]] *)
Fixpoint shift_loop (n : nat) (buf : list Z) (target i : Z) : option (list Z) :=
  match n with
  | O => Some buf
  | S n => b ← ld buf i; buf ← st buf target b; shift_loop n buf (target + 1) (i + 1)
  end.

Definition flushBuffer (self : CotpConnection) : option (bool * CotpConnection) :=
  let fill := ct_socketExtensionBufferFill self in
  if 0 <? fill then
    ext ← ct_socketExtensionBuffer self;
    '(sentBytes, self) ← writeToSocket self ext fill;
    if 0 <? sentBytes then
      if sentBytes =? fill then Some (true, with_extension self (Some ext) 0)
      else
        ext ← shift_loop (Z.to_nat (fill - sentBytes)) ext 0 sentBytes;
        Some (true, with_extension self (Some ext) (fill - sentBytes))
    else if sentBytes =? -1 then Some (false, self)
    else Some (true, self)
  else Some (true, self).

Definition CotpConnection_flushBuffer (self : CotpConnection) : option CotpConnection :=
  if 0 <? ct_socketExtensionBufferFill self
  then '(_, self) ← flushBuffer self; Some self else Some self.

Definition sendBuffer (self : CotpConnection) : option (bool * CotpConnection) :=
  wb ← ct_writeBuffer self;
  let remainingSize := ByteBuffer_getSize wb in
  let buffer := ByteBuffer_getBuffer wb in
  '(flushed, self) ← flushBuffer self;
  if negb flushed then Some (false, self)
  else
    '(sentBytes, self) ←
      (if ct_socketExtensionBufferFill self =? 0 then writeToSocket self buffer remainingSize
       else Some (0, self));
    if sentBytes =? -1 then Some (false, self)
    else if sentBytes =? remainingSize then
      Some (true, with_writeBuffer self (fst (ByteBuffer_setSize wb 0)))
    else
      match ct_socketExtensionBuffer self with
      | None => Some (false, self)
      | Some extBuf =>
          let extCurrentPos := ct_socketExtensionBufferFill self in
          let bytesNotSent := remainingSize - sentBytes in
          '(extBuf, _) ← copy_loop (Z.to_nat bytesNotSent) buffer sentBytes extBuf extCurrentPos;
          Some (true, with_writeBuffer (with_extension self (Some extBuf) (extCurrentPos + bytesNotSent))
                        (fst (ByteBuffer_setSize wb 0)))
      end.

(** [for (i = currentBufPos; i < currentLimit; i++) ...]: [n] bytes of the
    chain; a chain that ends early is a null dereference *)
Fixpoint copy_chain (n : nat) (currentChain : BufferChain) (currentChainIndex : Z) (buffer : list Z) (bufPos : Z)
  : option (list Z * Z * BufferChain * Z) :=
  match n with
  | O => Some (buffer, bufPos, currentChain, currentChainIndex)
  | S n =>
      '(currentChain, currentChainIndex) ←
        (if bc_partLength currentChain <=? currentChainIndex
         then next ← bc_nextPart currentChain; Some (next, 0)
         else Some (currentChain, currentChainIndex));
      b ← ld (bc_buffer currentChain) currentChainIndex;
      '(buffer, bufPos) ← put b buffer bufPos;
      copy_chain n currentChain (currentChainIndex + 1) buffer bufPos
  end.

(** [while (fragments > 0)] *)
Fixpoint send_fragments (fragments : nat) (self : CotpConnection) (payloadLength fragmentPayloadSize currentBufPos : Z)
    (currentChain : BufferChain) (currentChainIndex : Z) : option (CotpIndication * CotpConnection) :=
  match fragments with
  | O => Some (COTP_OK, self)
  | S rest =>
      let lastUnit := match rest with O => true | S _ => false end in
      let currentLimit := if lastUnit then payloadLength else currentBufPos + fragmentPayloadSize in
      self ← writeRfc1006Header self (7 + (currentLimit - currentBufPos));
      self ← writeDataTpduHeader self lastUnit;
      wb ← ct_writeBuffer self;
      '(buffer, bufPos, currentChain, currentChainIndex) ←
        copy_chain (Z.to_nat (currentLimit - currentBufPos)) currentChain currentChainIndex (bb_buffer wb) 7;
      let self := with_writeBuffer self (mkByteBuffer buffer (bb_maxSize wb) bufPos) in
      '(sent, self) ← sendBuffer self;
      if negb sent then Some (COTP_ERROR, self)
      else send_fragments rest self payloadLength fragmentPayloadSize currentLimit currentChain currentChainIndex
  end.

Definition CotpConnection_sendDataMessage (self : CotpConnection) (payload : BufferChain)
  : option (CotpIndication * CotpConnection) :=
  let fragmentPayloadSize := CotpConnection_getTpduSize self - COTP_DATA_HEADER_SIZE in
  let fragments :=
    if fragmentPayloadSize <? bc_length payload then
      Z.quot (bc_length payload) fragmentPayloadSize +
      (if Z.rem (bc_length payload) fragmentPayloadSize =? 0 then 0 else 1)
    else 1 in
  let totalSize := fragments * (COTP_DATA_HEADER_SIZE + 4) + bc_length payload in
  '(flushed, self) ← flushBuffer self;
  if negb flushed then Some (COTP_ERROR, self)
  else if match ct_socketExtensionBuffer self with
          | Some _ => ct_socketExtensionBufferSize self - ct_socketExtensionBufferFill self <? totalSize
          | None => false
          end then Some (COTP_ERROR, self)
  else
    _ ← ct_writeBuffer self;
    send_fragments (Z.to_nat fragments) self (bc_length payload) fragmentPayloadSize 0 payload 0.

Definition allocateWriteBuffer (self : CotpConnection) : CotpConnection :=
  match ct_writeBuffer self with
  | Some _ => self
  | None => with_writeBuffer self (ByteBuffer_create (CotpConnection_getTpduSize self + TPKT_RFC1006_HEADER_SIZE))
  end.

Definition CotpConnection_sendConnectionRequestMessage (self : CotpConnection)
    (isoParameters : IsoConnectionParameters) : option (CotpIndication * CotpConnection) :=
  let self := allocateWriteBuffer self in
  let self := with_options self (mkCotpOptions (ia_tSelector (ip_local isoParameters))
                (ia_tSelector (ip_remote isoParameters)) (co_tpduSize (ct_options self))) in
  let cotpRequestSize := getOptionsLength self + 6 in
  let conRequestSize := cotpRequestSize + 5 in
  wb ← ct_writeBuffer self;
  if bb_maxSize wb <? conRequestSize then Some (COTP_ERROR, self)
  else
    self ← writeRfc1006Header self conRequestSize;
    self ← on_writeBuffer self (fun wb =>
      write_at wb 4 [u8 cotpRequestSize; 0xe0; 0x00; 0x00;
        u8 (Z.quot (ct_localRef self) 0x100); u8 (Z.land (ct_localRef self) 0xff); 0x00] 11);
    self ← writeOptions self;
    '(sent, self) ← sendBuffer self;
    Some (if sent : bool then COTP_OK else COTP_ERROR, self).

Definition CotpConnection_sendConnectionResponseMessage (self : CotpConnection)
  : option (CotpIndication * CotpConnection) :=
  let self := allocateWriteBuffer self in
  let optionsLength := getOptionsLength self in
  let messageLength := 11 + optionsLength in
  self ← writeRfc1006Header self messageLength;
  self ← writeStaticConnectResponseHeader self optionsLength;
  self ← writeOptions self;
  '(sent, self) ← sendBuffer self;
  Some (if sent : bool then COTP_OK else COTP_ERROR, self).

(** ** Parsing *)

(** [1 << b]: a shift beyond the width of [int] is undefined *)
Definition shift_int (b : Z) : option Z := if b <? 31 then Some (Z.shiftl 1 b) else None.

(** [for (i = 0; i < optionLen; i++) value[i] = buffer[bufPos++]] into an array of four *)
Definition read_selector (old : TSelector) (buffer : list Z) (bufPos optionLen : Z) : option TSelector :=
  bytes ← ld_range buffer bufPos optionLen;
  value ← st_range (ts_value old) 0 bytes;
  Some (mkTSelector optionLen value).

(** [while (bufPos < bufLen)]; [buffer] is the pointer to the options. An error
    leaves the options parsed so far behind. *)
Fixpoint parseOptions_loop (fuel : nat) (self : CotpConnection) (buffer : list Z) (bufPos bufLen : Z)
  : option (bool * CotpConnection) :=
  match fuel with
  | O => None
  | S fuel =>
      if bufPos <? bufLen then
        optionType ← ld buffer bufPos;
        optionLen ← ld buffer (bufPos + 1);
        let bufPos := bufPos + 2 in
        if bufLen - bufPos <? optionLen then Some (false, self)
        else if optionType =? 0xc0 then
          if optionLen =? 1 then
            b ← ld buffer bufPos;
            requestedTpduSize ← shift_int b;
            self ← CotpConnection_setTpduSize self requestedTpduSize;
            parseOptions_loop fuel self buffer (bufPos + 1) bufLen
          else Some (false, self)
        else if optionType =? 0xc1 then
          if optionLen <? 5 then
            let o := ct_options self in
            sel ← read_selector (co_tSelSrc o) buffer bufPos optionLen;
            parseOptions_loop fuel (with_options self (mkCotpOptions sel (co_tSelDst o) (co_tpduSize o)))
              buffer (bufPos + optionLen) bufLen
          else Some (false, self)
        else if optionType =? 0xc2 then
          if optionLen <? 5 then
            let o := ct_options self in
            sel ← read_selector (co_tSelDst o) buffer bufPos optionLen;
            parseOptions_loop fuel (with_options self (mkCotpOptions (co_tSelSrc o) sel (co_tpduSize o)))
              buffer (bufPos + optionLen) bufLen
          else Some (false, self)
        else if optionType =? 0xc6 then
          if optionLen =? 1 then parseOptions_loop fuel self buffer (bufPos + 1) bufLen
          else Some (false, self)
        else parseOptions_loop fuel self buffer (bufPos + optionLen) bufLen
      else Some (true, self)
  end.

Definition parseOptions (self : CotpConnection) (buffer : list Z) (bufLen : Z) : option (bool * CotpConnection) :=
  parseOptions_loop (S (Z.to_nat bufLen)) self buffer 0 bufLen.

Definition parseConnectRequestTpdu (self : CotpConnection) (buffer : list Z) (len : Z)
  : option (bool * CotpConnection) :=
  if len <? 6 then Some (false, self)
  else
    remoteRef ← getUint16 (ptr_add buffer 2);
    protocolClass ← getUint8 (ptr_add buffer 4);
    parseOptions (with_remote self remoteRef protocolClass) (ptr_add buffer 5) (len - 6).

Definition parseConnectConfirmTpdu (self : CotpConnection) (buffer : list Z) (len : Z)
  : option (bool * CotpConnection) :=
  if len <? 6 then Some (false, self)
  else
    remoteRef ← getUint16 buffer;
    protocolClass ← getUint8 (ptr_add buffer 4);
    parseOptions (with_remote self remoteRef protocolClass) (ptr_add buffer 5) (len - 6).

Definition parseDataTpdu (self : CotpConnection) (buffer : list Z) (len : Z) : option (bool * CotpConnection) :=
  if negb (len =? 2) then Some (false, self)
  else
    flowControl ← getUint8 buffer;
    Some (true, with_isLastDataUnit self (negb (Z.land flowControl 0x80 =? 0))).

Definition addPayloadToBuffer (self : CotpConnection) (buffer : list Z) (payloadLength : Z)
  : option (bool * CotpConnection) :=
  if payloadLength <? 1 then Some (false, self)
  else
    let payload := ct_payload self in
    if bb_maxSize payload <? bb_size payload + payloadLength then Some (false, self)
    else
      bytes ← ld_range buffer 0 payloadLength;
      memory ← st_range (bb_buffer payload) (bb_size payload) bytes;
      Some (true, with_payload self
                    (mkByteBuffer memory (bb_maxSize payload) (bb_size payload + payloadLength))).

Definition parseCotpMessage (self : CotpConnection) : option (CotpIndication * CotpConnection) :=
  let buffer := ptr_add (bb_buffer (ct_readBuffer self)) 4 in
  let tpduLength := bb_size (ct_readBuffer self) - 4 in
  len ← ld buffer 0;
  if tpduLength <? len then Some (COTP_ERROR, self)
  else
    tpduType ← ld buffer 1;
    if tpduType =? 0xe0 then
      '(ok, self) ← parseConnectRequestTpdu self (ptr_add buffer 2) len;
      Some (if ok : bool then COTP_CONNECT_INDICATION else COTP_ERROR, self)
    else if tpduType =? 0xd0 then
      '(ok, self) ← parseConnectConfirmTpdu self (ptr_add buffer 2) len;
      Some (if ok : bool then COTP_CONNECT_INDICATION else COTP_ERROR, self)
    else if tpduType =? 0xf0 then
      '(ok, self) ← parseDataTpdu self (ptr_add buffer 2) len;
      if negb ok then Some (COTP_ERROR, self)
      else
        '(added, self) ← addPayloadToBuffer self (ptr_add buffer 3) (tpduLength - 3);
        if negb added then Some (COTP_ERROR, self)
        else Some (if ct_isLastDataUnit self then COTP_DATA_INDICATION else COTP_MORE_FRAGMENTS_FOLLOW, self)
    else Some (COTP_ERROR, self).

Definition with_readSize (self : CotpConnection) (size : Z) : CotpConnection :=
  let rb := ct_readBuffer self in
  with_read self (mkByteBuffer (bb_buffer rb) (bb_maxSize rb) size) (ct_packetSize self).

Definition CotpConnection_parseIncomingMessage (self : CotpConnection)
  : option (CotpIndication * CotpConnection) :=
  '(indication, self) ← parseCotpMessage self;
  let rb := ct_readBuffer self in
  Some (indication, with_read self (mkByteBuffer (bb_buffer rb) (bb_maxSize rb) 0) 0).

Definition CotpConnection_resetPayload (self : CotpConnection) : CotpConnection :=
  let payload := ct_payload self in
  with_payload self (mkByteBuffer (bb_buffer payload) (bb_maxSize payload) 0).

Definition CotpConnection_getPayload (self : CotpConnection) : ByteBuffer := ct_payload self.
Definition CotpConnection_getRemoteRef (self : CotpConnection) : Z := ct_remoteRef self.
Definition CotpConnection_getLocalRef (self : CotpConnection) : Z := ct_localRef self.

(** The selectors start with their default; the remaining bytes of their arrays
    are not initialised. *)
Definition CotpConnection_init (socket : Socket) (payloadBuffer readBuffer : ByteBuffer)
    (writeBuffer : option ByteBuffer) (socketExtensionBuffer : option (list Z)) (socketExtensionBufferSize : Z)
  : option CotpConnection :=
  let tsel := mkTSelector 2 [0; 1; 0; 0] in
  let self := mkCotpConnection (-1) 1 (-1) socket (mkCotpOptions tsel tsel 0) false payloadBuffer writeBuffer
                readBuffer 0 socketExtensionBuffer socketExtensionBufferSize 0 in
  CotpConnection_setTpduSize (CotpConnection_resetPayload self) COTP_MAX_TPDU_SIZE.

(** ** Reading *)

(** The bytes go to the read buffer, at [bufPos]. *)
Definition readFromSocket (self : CotpConnection) (bufPos size : Z) : option (Z * CotpConnection) :=
  let '(ready, socket) := Handleset_waitReady (ct_socket self) in
  let self := with_socket self socket in
  if ready <? 0 then Some (-1, self)
  else if ready =? 0 then Some (0, self)
  else
    let '(n, bytes, socket) := Socket_read socket size in
    let rb := ct_readBuffer self in
    buffer ← st_range (bb_buffer rb) bufPos bytes;
    Some (n, with_read (with_socket self socket) (mkByteBuffer buffer (bb_maxSize rb) (bb_size rb)) (ct_packetSize self)).

Definition with_packetSize (self : CotpConnection) (packetSize : Z) : CotpConnection :=
  with_read self (ct_readBuffer self) packetSize.

(** The part behind the header, once [bufPos] bytes are there. *)
Definition read_packet (self : CotpConnection) (bufPos : Z) : option (TpktState * CotpConnection) :=
  if ct_packetSize self <=? bufPos then Some (TPKT_ERROR, with_readSize self 0)
  else
    '(readBytes, self) ← readFromSocket self bufPos (ct_packetSize self - bufPos);
    if readBytes <? 0 then Some (TPKT_ERROR, with_readSize self 0)
    else
      let bufPos := bufPos + readBytes in
      if bufPos <? ct_packetSize self then Some (TPKT_WAITING, with_readSize self bufPos)
      else Some (TPKT_PACKET_COMPLETE, with_readSize self bufPos).

Definition CotpConnection_readToTpktBuffer (self : CotpConnection) : option (TpktState * CotpConnection) :=
  let bufferSize := bb_maxSize (ct_readBuffer self) in
  let bufPos := bb_size (ct_readBuffer self) in
  if bufferSize <=? 4 then None
  else
    '(flushed, self) ← (if 0 <? ct_socketExtensionBufferFill self then flushBuffer self else Some (true, self));
    if negb flushed then Some (TPKT_ERROR, with_readSize self 0)
    else if 0 <? ct_socketExtensionBufferFill self then Some (TPKT_WAITING, with_readSize self bufPos)
    else if bufPos <? 4 then
      '(readBytes, self) ← readFromSocket self bufPos (4 - bufPos);
      if readBytes <? 0 then Some (TPKT_ERROR, with_readSize self 0)
      else
        let bufPos := bufPos + readBytes in
        if bufPos =? 4 then
          let buffer := bb_buffer (ct_readBuffer self) in
          b0 ← ld buffer 0; b1 ← ld buffer 1; b2 ← ld buffer 2; b3 ← ld buffer 3;
          if (b0 =? 3) && (b1 =? 0) then
            let self := with_packetSize self (u16 (b2 * 0x100 + b3)) in
            if bufferSize <? ct_packetSize self then Some (TPKT_ERROR, with_readSize self 0)
            else read_packet self bufPos
          else Some (TPKT_ERROR, with_readSize self 0)
        else Some (TPKT_WAITING, with_readSize self bufPos)
    else read_packet self bufPos.
