(* ===== verification/CotpSend.v ===== *)
(** The sending side of the transport layer: whatever the socket accepts, the
    bytes accepted and those waiting in the extension buffer are together the
    packets handed over, in their order. *)

From S2P Require Import Prelude BerEncoder ByteBuffer IsoParameters Cotp.
Open Scope Z_scope.

(** * Packets *)

(** a data TPDU in its TPKT *)
Definition data_packet (last : bool) (data : list Z) : list Z :=
  [0x03; 0x00; (7 + zlen data) / 256; (7 + zlen data) mod 256; 0x02; 0xf0; if last then 0x80 else 0x00] ++ data.

(** [n] packets, all but the last with [size] bytes *)
Fixpoint data_packets (n size : nat) (data : list Z) : list Z :=
  match n with
  | O => []
  | S rest =>
      match rest with
      | O => data_packet true data
      | S _ => data_packet false (take size data) ++ data_packets rest size (drop size data)
      end
  end.

(** how many packets a message takes *)
Definition packet_count (fragmentPayloadSize len : Z) : Z :=
  if fragmentPayloadSize <? len then (len + fragmentPayloadSize - 1) / fragmentPayloadSize else 1.

(** the packets of a message on a connection *)
Definition message_packets (self : CotpConnection) (data : list Z) : list Z :=
  let size := CotpConnection_getTpduSize self - 3 in
  data_packets (Z.to_nat (packet_count size (zlen data))) (Z.to_nat size) data.

Lemma zlen_data_packet last data : zlen (data_packet last data) = 7 + zlen data.
Proof. unfold data_packet. zlia. Qed.

Lemma zlen_data_packets n size data :
  Z.of_nat size * (Z.of_nat n - 1) <= zlen data -> (0 < n)%nat ->
  zlen (data_packets n size data) = 7 * Z.of_nat n + zlen data.
Proof.
  revert data. induction n as [|[|n] IH]; intros data Hs Hn; [lia | |].
  - change (data_packets 1 size data) with (data_packet true data). rewrite zlen_data_packet. lia.
  - change (data_packets (S (S n)) size data)
      with (data_packet false (take size data) ++ data_packets (S n) size (drop size data)).
    assert (zlen (take size data) = Z.of_nat size) as Ht by (unfold zlen in *; rewrite length_take; lia).
    assert (zlen (drop size data) = zlen data - Z.of_nat size) as Hd by (unfold zlen in *; rewrite length_drop; nia).
    rewrite zlen_app, zlen_data_packet, IH by (rewrite ?Hd; lia). lia.
Qed.

Lemma packet_count_bounds size len :
  0 < size -> 0 < len ->
  1 <= packet_count size len /\ size * (packet_count size len - 1) < len <= size * packet_count size len.
Proof.
  intros Hs Hl. unfold packet_count. btest.
Qed.

(** * What is on its way *)

Definition extension_bytes (self : CotpConnection) : list Z :=
  match ct_socketExtensionBuffer self with
  | Some ext => take (Z.to_nat (ct_socketExtensionBufferFill self)) ext
  | None => []
  end.

(** the bytes the socket has taken, then those that wait *)
Definition tx_stream (self : CotpConnection) : list Z := sk_sent (ct_socket self) ++ extension_bytes self.

Definition extension_ok (self : CotpConnection) : Prop :=
  match ct_socketExtensionBuffer self with
  | Some ext =>
      0 <= ct_socketExtensionBufferFill self <= ct_socketExtensionBufferSize self /\
      ct_socketExtensionBufferSize self <= zlen ext
  | None => ct_socketExtensionBufferFill self = 0
  end.

(** no error of the socket is to come *)
Definition sends_well (self : CotpConnection) : Prop := Forall (fun r => 0 <= r) (sk_sendResults (ct_socket self)).

(** What sending leaves alone. *)
Record tx_frame (self self' : CotpConnection) : Prop := {
  tf_remoteRef : ct_remoteRef self' = ct_remoteRef self;
  tf_localRef : ct_localRef self' = ct_localRef self;
  tf_protocolClass : ct_protocolClass self' = ct_protocolClass self;
  tf_options : ct_options self' = ct_options self;
  tf_payload : ct_payload self' = ct_payload self;
  tf_readBuffer : ct_readBuffer self' = ct_readBuffer self;
  tf_packetSize : ct_packetSize self' = ct_packetSize self;
  tf_extensionSize : ct_socketExtensionBufferSize self' = ct_socketExtensionBufferSize self;
  tf_extension : zlen <$> ct_socketExtensionBuffer self' = zlen <$> ct_socketExtensionBuffer self;
  tf_arriving : sk_arriving (ct_socket self') = sk_arriving (ct_socket self);
  tf_recvResults : sk_recvResults (ct_socket self') = sk_recvResults (ct_socket self);
  tf_sends_well : sends_well self -> sends_well self'
}.

#[export] Instance tx_frame_refl : Reflexive tx_frame.
Proof. intros self. by constructor. Qed.
#[export] Instance tx_frame_trans : Transitive tx_frame.
Proof. intros a b c [] []. constructor; try congruence. auto. Qed.

Lemma tx_frame_writeBuffer self wb : tx_frame self (with_writeBuffer self wb).
Proof. by destruct self. Qed.

(** * One write *)

Lemma next_result_ok results : Forall (fun r => 0 <= r) results ->
  0 <= fst (next_result results) /\ Forall (fun r => 0 <= r) (snd (next_result results)).
Proof. intros H. destruct H; cbn; auto with lia. Qed.

Lemma writeToSocket_spec self buf bs n :
  at_pos buf 0 bs -> n = zlen bs ->
  exists r self', writeToSocket self buf n = Some (r, self') /\ tx_frame self self' /\
    (r = -1 \/ 0 <= r <= zlen bs) /\ (sends_well self -> r <> -1) /\
    sk_sent (ct_socket self') = sk_sent (ct_socket self) ++ take (Z.to_nat r) bs /\
    ct_writeBuffer self' = ct_writeBuffer self /\
    ct_socketExtensionBuffer self' = ct_socketExtensionBuffer self /\
    ct_socketExtensionBufferFill self' = ct_socketExtensionBufferFill self.
Proof.
  intros Hat ->. unfold writeToSocket. rewrite (at_pos_range _ _ _ Hat). cbn [mbind option_bind].
  unfold Socket_write. pose proof (next_result_ok (sk_sendResults (ct_socket self))) as Hnext.
  destruct (next_result _) as [r rs] eqn:Er. cbn [fst snd] in Hnext. pose proof (zlen_nonneg bs).
  destruct self as [rr lr pc [sent sr ar rc] op la pl wb rb ps eb es ef]. cbn [ct_socket sk_sendResults sk_sent] in *.
  btest; do 2 eexists; (split; [done|]); (split; [constructor; try done; unfold sends_well; cbn; intros Hw; by apply Hnext|]);
    cbn [with_socket ct_socket sk_sent ct_writeBuffer ct_socketExtensionBuffer ct_socketExtensionBufferFill];
    unfold sends_well; cbn [ct_socket sk_sendResults].
  - split; [by left|]. split; [intros Hw; apply Hnext in Hw; lia|]. by rewrite app_nil_r.
  - split; [right; lia|]. split; [lia|]. done.
Qed.

(** * The extension buffer *)

Lemma shift_loop_spec n buf target i :
  0 <= target < i -> i + Z.of_nat n <= zlen buf ->
  shift_loop n buf target i = Some (splice buf target (take n (drop (Z.to_nat i) buf))).
Proof.
  revert buf target i. induction n as [|n IH]; intros buf target i Ht Hn.
  - cbn [shift_loop]. unfold splice. rewrite take_0. simpl. by rewrite Nat.add_0_r, take_drop.
  - cbn [shift_loop]. destruct (ld_is_Some buf i) as [b Hb]; [lia|]. rewrite Hb. cbn [mbind option_bind].
    rewrite st_Some by lia. cbn [mbind option_bind]. rewrite IH by zlia. f_equal.
    unfold ld in Hb. replace (0 <=? i) with true in Hb by lia.
    rewrite (drop_S _ _ _ Hb). cbn [take].
    replace (Z.to_nat (i + 1)) with (S (Z.to_nat i)) by lia.
    rewrite drop_insert_lt by lia. unfold splice, zlen in *.
    set (k := take n (drop (S (Z.to_nat i)) buf)). cbn [length].
    replace (Z.to_nat (target + 1)) with (S (Z.to_nat target)) by lia.
    erewrite take_S_r by (apply list_lookup_insert_eq; lia). rewrite take_insert_ge by lia.
    rewrite drop_insert_lt by lia. rewrite <- app_assoc. cbn [app]. by rewrite Nat.add_succ_r.
Qed.

Lemma extension_at self ext :
  ct_socketExtensionBuffer self = Some ext -> extension_ok self ->
  at_pos ext 0 (extension_bytes self) /\ zlen (extension_bytes self) = ct_socketExtensionBufferFill self.
Proof.
  intros He Hok. unfold extension_ok, extension_bytes in *. rewrite He in *. split.
  - exists [], (drop (Z.to_nat (ct_socketExtensionBufferFill self)) ext). by rewrite app_nil_l, take_drop.
  - apply zlen_take. lia.
Qed.

Lemma extension_none self : ct_socketExtensionBuffer self = None -> extension_bytes self = [].
Proof. intros He. unfold extension_bytes. by rewrite He. Qed.

(** the extension buffer holds [bs] from now on *)
Lemma with_extension_spec self ext fill old :
  ct_socketExtensionBuffer self = Some old -> zlen ext = zlen old ->
  tx_frame self (with_extension self (Some ext) fill) /\
  ct_writeBuffer (with_extension self (Some ext) fill) = ct_writeBuffer self /\
  ct_socketExtensionBuffer (with_extension self (Some ext) fill) = Some ext /\
  ct_socketExtensionBufferFill (with_extension self (Some ext) fill) = fill /\
  ct_socketExtensionBufferSize (with_extension self (Some ext) fill) = ct_socketExtensionBufferSize self /\
  ct_socket (with_extension self (Some ext) fill) = ct_socket self.
Proof.
  intros He Hz. destruct self. cbn in *. split_and!; try done. constructor; try done. cbn. rewrite He. cbn. by rewrite Hz.
Qed.

Lemma flushBuffer_spec self :
  extension_ok self ->
  exists ok self', flushBuffer self = Some (ok, self') /\ tx_frame self self' /\ extension_ok self' /\
    tx_stream self' = tx_stream self /\
    ct_socketExtensionBufferFill self' <= ct_socketExtensionBufferFill self /\
    ct_writeBuffer self' = ct_writeBuffer self /\ (sends_well self -> ok = true).
Proof.
  intros Hok. unfold flushBuffer. btest; [|do 2 eexists; split_and!; done].
  destruct (ct_socketExtensionBuffer self) as [ext|] eqn:He;
    [|unfold extension_ok in Hok; rewrite He in Hok; lia].
  cbn [mbind option_bind]. destruct (extension_at self ext He Hok) as [Hat Hz].
  destruct (writeToSocket_spec self ext (extension_bytes self) (ct_socketExtensionBufferFill self) Hat (eq_sym Hz))
    as (r & s1 & -> & Hf & Hr & Hw & Hsent & Hwb & Hext & Hfill). cbn [mbind option_bind].
  assert (extension_bytes s1 = extension_bytes self) as Heb by (unfold extension_bytes; by rewrite Hext, Hfill).
  assert (extension_ok s1) as Hok1
    by (unfold extension_ok in *; rewrite Hext, Hfill, (tf_extensionSize _ _ Hf), He in *; done).
  unfold extension_ok in Hok. rewrite He in Hok. btest; [btest|].
  - destruct (with_extension_spec s1 ext 0 ext ltac:(congruence) eq_refl) as (Hf2 & Hw2 & He2 & Hfl2 & Hs2 & Hsk2).
    do 2 eexists. split; [done|]. split; [by etrans|]. split.
    { unfold extension_ok. rewrite He2, Hfl2, Hs2, (tf_extensionSize _ _ Hf). lia. }
    split; [|split; [lia | split; [congruence | done]]].
    unfold tx_stream. rewrite Hsk2, Hsent. unfold extension_bytes at 2. rewrite He2, Hfl2. cbn [take].
    rewrite take_0, app_nil_r. f_equal. subst r. rewrite <- Hz. by rewrite zlen_to_nat, firstn_all.
  - rewrite shift_loop_spec by lia. cbn [mbind option_bind]. set (fill := ct_socketExtensionBufferFill self) in *.
    set (k := take _ _). assert (zlen k = fill - r) as Hk.
    { unfold k, zlen in *. rewrite length_take, length_drop. lia. }
    assert (zlen (splice ext 0 k) = zlen ext) as Hze by (apply zlen_splice; lia).
    destruct (with_extension_spec s1 (splice ext 0 k) (fill - r) ext ltac:(congruence) Hze) as (Hf2 & Hw2 & He2 & Hfl2 & Hs2 & Hsk2).
    do 2 eexists. split; [done|]. split; [by etrans|]. split.
    { unfold extension_ok. rewrite He2, Hfl2, Hs2, (tf_extensionSize _ _ Hf). lia. }
    split; [|split; [lia | split; [congruence | done]]].
    unfold tx_stream. rewrite Hsk2, Hsent. unfold extension_bytes. rewrite He2, Hfl2, He. fold fill.
    rewrite <- app_assoc. f_equal. unfold splice. rewrite take_0, app_nil_l. rewrite <- Hk, zlen_to_nat, take_app_length.
    unfold k. rewrite take_take. replace (Z.to_nat r `min` Z.to_nat fill)%nat with (Z.to_nat r) by lia.
    rewrite <- (take_drop (Z.to_nat r) (take (Z.to_nat fill) ext)). rewrite take_take.
    replace (Z.to_nat r `min` Z.to_nat fill)%nat with (Z.to_nat r) by lia. f_equal.
    rewrite skipn_firstn_comm. f_equal. lia.
  - assert (tx_stream s1 = tx_stream self) as Hst.
    { unfold tx_stream. rewrite Hsent, Heb. replace (Z.to_nat r) with O by lia. by rewrite take_0, app_nil_r. }
    btest; do 2 eexists; split_and!; try done; lia.
Qed.

(** room in the extension buffer, where there is one *)
Definition extension_room (self : CotpConnection) (n : Z) : Prop :=
  match ct_socketExtensionBuffer self with
  | Some _ => ct_socketExtensionBufferFill self + n <= ct_socketExtensionBufferSize self
  | None => True
  end.

(** What a sending operation does to the connection: [p] of [bs] is under way,
    all of it when the operation reports success. *)
Definition sends (self self' : CotpConnection) (bs : list Z) (ok : bool) : Prop :=
  tx_frame self self' /\ extension_ok self' /\
  ct_socketExtensionBufferFill self' <= ct_socketExtensionBufferFill self + zlen bs /\
  (exists p, p `prefix_of` bs /\ tx_stream self' = tx_stream self ++ p /\ (ok = true -> p = bs)) /\
  (is_Some (ct_socketExtensionBuffer self) -> sends_well self -> ok = true).

Lemma extension_room_frame self self' n m :
  tx_frame self self' -> extension_room self n ->
  ct_socketExtensionBufferFill self' + m <= ct_socketExtensionBufferFill self + n ->
  extension_room self' m.
Proof.
  intros Hf Hr Hm. unfold extension_room in *. rewrite (tf_extensionSize _ _ Hf).
  pose proof (tf_extension _ _ Hf) as He.
  destruct (ct_socketExtensionBuffer self'), (ct_socketExtensionBuffer self); cbn in He; try done. lia.
Qed.

Lemma tx_frame_extension self self' :
  tx_frame self self' -> is_Some (ct_socketExtensionBuffer self') <-> is_Some (ct_socketExtensionBuffer self).
Proof. intros Hf. rewrite <- (fmap_is_Some zlen), (tf_extension _ _ Hf). apply fmap_is_Some. Qed.

Lemma with_writeBuffer_proj self wb :
  ct_writeBuffer (with_writeBuffer self wb) = Some wb /\
  ct_socketExtensionBuffer (with_writeBuffer self wb) = ct_socketExtensionBuffer self /\
  ct_socketExtensionBufferFill (with_writeBuffer self wb) = ct_socketExtensionBufferFill self /\
  ct_socketExtensionBufferSize (with_writeBuffer self wb) = ct_socketExtensionBufferSize self /\
  tx_stream (with_writeBuffer self wb) = tx_stream self /\
  (extension_ok (with_writeBuffer self wb) <-> extension_ok self) /\
  (sends_well (with_writeBuffer self wb) <-> sends_well self).
Proof. by destruct self. Qed.

(** the bytes that the socket did not take are appended to the extension buffer *)
Lemma append_extension self ext src i n :
  ct_socketExtensionBuffer self = Some ext -> extension_ok self ->
  0 <= i -> 0 <= n -> i + n <= zlen src ->
  ct_socketExtensionBufferFill self + n <= ct_socketExtensionBufferSize self ->
  exists ext', copy_loop (Z.to_nat n) src i ext (ct_socketExtensionBufferFill self) =
      Some (ext', ct_socketExtensionBufferFill self + n) /\
    let self' := with_extension self (Some ext') (ct_socketExtensionBufferFill self + n) in
    tx_frame self self' /\ extension_ok self' /\
    tx_stream self' = tx_stream self ++ take (Z.to_nat n) (drop (Z.to_nat i) src).
Proof.
  intros He Hok Hi Hn Hsrc Hroom. set (fill := ct_socketExtensionBufferFill self) in *.
  set (bs := take (Z.to_nat n) (drop (Z.to_nat i) src)).
  assert (zlen bs = n) as Hb by (unfold bs, zlen in *; rewrite length_take, length_drop; lia).
  pose proof Hok as Hok'. unfold extension_ok in Hok'. rewrite He in Hok'. fold fill in Hok'.
  exists (splice ext fill bs). rewrite copy_loop_puts by lia. fold bs. rewrite puts_fits by lia. rewrite Hb.
  split; [done|]. assert (zlen (splice ext fill bs) = zlen ext) as Hz by (apply zlen_splice; lia).
  destruct (with_extension_spec self (splice ext fill bs) (fill + n) ext He Hz) as (Hf & Hw & He' & Hfl & Hs & Hsk).
  cbv zeta. split; [done|]. split.
  - unfold extension_ok. rewrite He', Hfl, Hs. lia.
  - unfold tx_stream. rewrite Hsk. rewrite <- app_assoc. f_equal. unfold extension_bytes. rewrite He', Hfl, He. fold fill.
    unfold splice. rewrite app_assoc.
    replace (Z.to_nat (fill + n)) with (length (take (Z.to_nat fill) ext ++ bs)); [by rewrite take_app_length|].
    rewrite length_app, length_take. unfold zlen in *. lia.
Qed.

Lemma sendBuffer_spec self wb :
  ct_writeBuffer self = Some wb -> byteBuffer_ok wb -> extension_ok self -> extension_room self (bb_size wb) ->
  exists ok self', sendBuffer self = Some (ok, self') /\ sends self self' (byteBuffer_bytes wb) ok /\
    (ok = true -> ct_writeBuffer self' = Some (mkByteBuffer (bb_buffer wb) (bb_maxSize wb) 0)).
Proof.
  intros Hwb Hbb Hok Hroom. pose proof (zlen_byteBuffer_bytes wb Hbb) as Hz. pose proof Hbb as [Hsz Hmx].
  unfold sendBuffer. rewrite Hwb. cbn [mbind option_bind]. unfold ByteBuffer_getSize, ByteBuffer_getBuffer.
  destruct (flushBuffer_spec self Hok) as (fl & s1 & -> & Hf1 & Hok1 & Hst1 & Hfill1 & Hwb1 & Hsw1). cbn [mbind option_bind].
  assert (byteBuffer_bytes wb = take (Z.to_nat (bb_size wb)) (bb_buffer wb)) as Hbytes by done.
  destruct fl; cbn [negb].
  2:{ do 2 eexists. split; [done|]. split; [|done]. unfold sends; split_and!; try done; [lia|].
      exists []. split_and!; [apply prefix_nil | by rewrite app_nil_r | done]. }
  assert (exists r s2, (if ct_socketExtensionBufferFill s1 =? 0 then writeToSocket s1 (bb_buffer wb) (bb_size wb) else Some (0, s1))
      = Some (r, s2) /\ tx_frame s1 s2 /\ (r = -1 \/ 0 <= r <= bb_size wb) /\ (sends_well s1 -> r <> -1) /\
      tx_stream s2 = tx_stream s1 ++ take (Z.to_nat r) (byteBuffer_bytes wb) /\
      ct_socketExtensionBuffer s2 = ct_socketExtensionBuffer s1 /\
      ct_socketExtensionBufferFill s2 = ct_socketExtensionBufferFill s1) as (r & s2 & -> & Hf2 & Hr & Hsw2 & Hst2 & He2 & Hfl2).
  { btest.
    - destruct (writeToSocket_spec s1 (bb_buffer wb) (byteBuffer_bytes wb) (bb_size wb))
        as (r & s2 & H1 & H2 & H3 & H4 & H5 & H6 & H7 & H8); [|lia|].
      { exists [], (drop (Z.to_nat (bb_size wb)) (bb_buffer wb)). by rewrite app_nil_l, Hbytes, take_drop. }
      exists r, s2. split_and!; try done; [lia|]. unfold tx_stream, extension_bytes. rewrite H5, H7, H8, E.
      destruct (ct_socketExtensionBuffer s1); by rewrite ?take_0, ?app_nil_r.
    - exists 0, s1. split_and!; try done; [lia|]. by rewrite take_0, app_nil_r. }
  cbn [mbind option_bind].
  assert (tx_frame self s2) as Hf by (by etrans).
  assert (extension_ok s2) as Hok2 by (unfold extension_ok in *; rewrite He2, Hfl2, (tf_extensionSize _ _ Hf2); done).
  assert (sends_well self -> r <> -1) as Hsw by (intros Hs; apply Hsw2, (tf_sends_well _ _ Hf1), Hs).
  assert (fst (ByteBuffer_setSize wb 0) = mkByteBuffer (bb_buffer wb) (bb_maxSize wb) 0) as Hset.
  { unfold ByteBuffer_setSize. by if_true. }
  btest; [|btest].
  - do 2 eexists. split; [done|]. split; [|done]. unfold sends; split_and!; try done; [lia| |lia].
    exists []. subst r. split_and!; [apply prefix_nil | by rewrite Hst2, Hst1, take_0 | done].
  - rewrite Hset. destruct (with_writeBuffer_proj s2 (mkByteBuffer (bb_buffer wb) (bb_maxSize wb) 0)) as (W1 & W2 & W3 & W4 & W5 & W6 & W7).
    do 2 eexists. split; [done|]. split; [|done]. unfold sends; split_and!; [etrans; [done|apply tx_frame_writeBuffer] | by apply W6 | lia | | done].
    exists (byteBuffer_bytes wb). split_and!; [done| |done]. rewrite W5, Hst2, Hst1. subst r. f_equal.
    rewrite <- Hz. by rewrite zlen_to_nat, firstn_all.
  - destruct (ct_socketExtensionBuffer s2) as [ext|] eqn:He.
    + assert (ct_socketExtensionBufferFill s2 + (bb_size wb - r) <= ct_socketExtensionBufferSize s2) as Hrm.
      { assert (extension_room s2 (bb_size wb - r)) as H by (eapply extension_room_frame; [exact Hf | exact Hroom | lia]).
        unfold extension_room in H. by rewrite He in H. }
      destruct (append_extension s2 ext (bb_buffer wb) r (bb_size wb - r)) as (ext' & -> & Hf3 & Hok3 & Hst3); try done; try lia.
      cbn [mbind option_bind]. rewrite Hset.
      set (s3 := with_extension s2 (Some ext') (ct_socketExtensionBufferFill s2 + (bb_size wb - r))) in *.
      destruct (with_writeBuffer_proj s3 (mkByteBuffer (bb_buffer wb) (bb_maxSize wb) 0)) as (W1 & W2 & W3 & W4 & W5 & W6 & W7).
      do 2 eexists. split; [done|]. split; [|done].
      unfold sends; split_and!; [etrans; [exact Hf|]; etrans; [exact Hf3 | apply tx_frame_writeBuffer] | by apply W6 | | | done].
      * rewrite W3. unfold s3. assert (ct_socketExtensionBufferFill (with_extension s2 (Some ext') (ct_socketExtensionBufferFill s2 + (bb_size wb - r))) = ct_socketExtensionBufferFill s2 + (bb_size wb - r)) as -> by (by destruct s2). lia.
      * exists (byteBuffer_bytes wb). split_and!; [done| |done]. rewrite W5, Hst3, Hst2, Hst1, <- app_assoc. f_equal.
        rewrite Hbytes, take_take. replace (Z.to_nat r `min` Z.to_nat (bb_size wb))%nat with (Z.to_nat r) by lia.
        rewrite <- (take_drop (Z.to_nat r) (take (Z.to_nat (bb_size wb)) (bb_buffer wb))) at 1. rewrite take_take.
        replace (Z.to_nat r `min` Z.to_nat (bb_size wb))%nat with (Z.to_nat r) by lia. f_equal.
        rewrite skipn_firstn_comm. f_equal. lia.
    + do 2 eexists. split; [done|]. split; [|done]. unfold sends; split_and!; try done; [lia| |].
      * exists (take (Z.to_nat r) (byteBuffer_bytes wb)). split_and!; [apply take_prefix_of || (by exists (drop (Z.to_nat r) (byteBuffer_bytes wb)); rewrite take_drop) | by rewrite Hst2, Hst1 | done].
      * intros H. apply (tx_frame_extension _ _ Hf) in H. rewrite He in H. by destruct H.
Qed.

(** * The payload *)

(** the bytes of a chain from an index of its first part on *)
Definition chain_rest (c : BufferChain) (i : Z) : list Z :=
  drop (Z.to_nat i) (take (Z.to_nat (bc_partLength c)) (bc_buffer c)) ++
  match bc_nextPart c with Some c => chain_bytes c | None => [] end.

Definition position_ok (c : BufferChain) (i : Z) : Prop := chain_ok c /\ 0 <= i <= bc_partLength c.

Lemma chain_rest_0 c : chain_rest c 0 = chain_bytes c.
Proof. unfold chain_rest. rewrite drop_0. by destruct c. Qed.

Lemma chain_ok_unfold c : chain_ok c ->
  0 < bc_partLength c <= zlen (bc_buffer c) /\ match bc_nextPart c with Some c => chain_ok c | None => True end.
Proof. destruct c as [cl cp cm cb next]. cbn [chain_ok bc_partLength bc_buffer bc_nextPart]. intros (? & _ & ?). done. Qed.

Lemma chain_rest_step c i :
  chain_ok c -> 0 <= i < bc_partLength c ->
  exists b, ld (bc_buffer c) i = Some b /\ chain_rest c i = b :: chain_rest c (i + 1).
Proof.
  intros Hc Hi. apply chain_ok_unfold in Hc as [Hp _].
  destruct (ld_is_Some (bc_buffer c) i) as [b Hb]; [lia|]. exists b. split; [done|].
  unfold ld in Hb. replace (0 <=? i) with true in Hb by lia. unfold chain_rest.
  rewrite (drop_S (take (Z.to_nat (bc_partLength c)) (bc_buffer c)) b (Z.to_nat i)).
  - replace (Z.to_nat (i + 1)) with (S (Z.to_nat i)) by lia. done.
  - rewrite lookup_take_lt by lia. done.
Qed.

Lemma chain_rest_end c : chain_ok c ->
  chain_rest c (bc_partLength c) = match bc_nextPart c with Some c => chain_bytes c | None => [] end.
Proof.
  intros Hc. apply chain_ok_unfold in Hc as [Hp _]. unfold chain_rest. rewrite drop_ge; [done|].
  rewrite length_take. unfold zlen in *. lia.
Qed.

Lemma copy_chain_spec n c i buffer pos :
  position_ok c i -> (n <= length (chain_rest c i))%nat -> 0 <= pos -> pos + Z.of_nat n <= zlen buffer ->
  exists c' i', copy_chain n c i buffer pos =
      Some (splice buffer pos (take n (chain_rest c i)), pos + Z.of_nat n, c', i') /\
    position_ok c' i' /\ chain_rest c' i' = drop n (chain_rest c i).
Proof.
  revert c i buffer pos. induction n as [|n IH]; intros c i buffer pos [Hc Hi] Hn Hpos Hfit.
  - exists c, i. cbn [copy_chain]. split; [|done]. rewrite take_0. unfold splice. simpl.
    rewrite Nat.add_0_r, take_drop. do 4 f_equal. lia.
  - assert (exists c1 i1, (if bc_partLength c <=? i then next ← bc_nextPart c; Some (next, 0) else Some (c, i)) = Some (c1, i1) /\
      chain_ok c1 /\ 0 <= i1 < bc_partLength c1 /\ chain_rest c1 i1 = chain_rest c i) as (c1 & i1 & Hsel & Hc1 & Hi1 & Hrest).
    { btest; [|by exists c, i; split_and!; try done; lia].
      replace i with (bc_partLength c) in * by lia. rewrite chain_rest_end in * by done.
      pose proof (chain_ok_unfold c Hc) as [_ Hnext]. destruct (bc_nextPart c) as [c2|]; [|cbn in Hn; lia].
      exists c2, 0. rewrite chain_rest_0. destruct (chain_ok_unfold c2 Hnext) as [? _]. split_and!; try done; lia. }
    cbn [copy_chain]. rewrite Hsel. cbn [mbind option_bind].
    destruct (chain_rest_step c1 i1 Hc1 Hi1) as (b & -> & Hb). cbn [mbind option_bind].
    rewrite <- Hrest, Hb in *. cbn [length] in Hn. unfold put. rewrite st_Some by lia. cbn [mbind option_bind].
    destruct (IH c1 (i1 + 1) (<[Z.to_nat pos:=b]> buffer) (pos + 1)) as (c' & i' & Hcp & Hok' & Hr'); try zlia.
    { split; [done|lia]. }
    rewrite Hcp. exists c', i'. split; [|done]. do 3 f_equal; [f_equal; [|lia]..].
    cbn [take]. set (k := take n (chain_rest c1 (i1 + 1))).
    assert (zlen k = Z.of_nat n) as Hk by (unfold k, zlen; rewrite length_take; lia).
    assert (puts (b :: k) buffer pos = Some (splice buffer pos (b :: k), pos + zlen (b :: k))) as Hp1 by (apply puts_fits; zlia).
    cbn [puts] in Hp1. unfold put in Hp1. rewrite st_Some in Hp1 by lia. cbn [mbind option_bind] in Hp1.
    rewrite puts_fits in Hp1 by zlia. congruence.
Qed.

(** * Data messages *)

Definition cotp_ok (self : CotpConnection) : Prop :=
  2 <= co_tpduSize (ct_options self) <= 13 /\ extension_ok self /\
  exists wb, ct_writeBuffer self = Some wb /\ 0 <= bb_maxSize wb <= zlen (bb_buffer wb) /\
    CotpConnection_getTpduSize self + 4 <= bb_maxSize wb.

Lemma tpduSize_bounds self : 2 <= co_tpduSize (ct_options self) <= 13 -> 4 <= CotpConnection_getTpduSize self <= 8192.
Proof.
  intros H. unfold CotpConnection_getTpduSize. rewrite Z.shiftl_1_l. split.
  - change 4 with (2 ^ 2). apply Z.pow_le_mono_r; lia.
  - change 8192 with (2 ^ 13). apply Z.pow_le_mono_r; lia.
Qed.

Lemma len_octets n : 0 <= n < 65536 -> u8 (Z.quot n 256) = n / 256 /\ u8 (Z.land n 255) = n mod 256.
Proof.
  intros Hn. unfold u8. rewrite Z.quot_div_nonneg by lia. change 255 with (Z.ones 8). rewrite Z.land_ones by lia.
  change (2 ^ 8) with 256. rewrite Z.mod_mod by lia. split; [|done]. apply Z.mod_small.
  split; [apply Z.div_pos; lia | apply Z.div_lt_upper_bound; lia].
Qed.

Lemma splice_app buffer l k :
  zlen l + zlen k <= zlen buffer -> splice (splice buffer 0 l) (zlen l) k = splice buffer 0 (l ++ k).
Proof.
  intros Hf. apply (splice_splice buffer 0); lia.
Qed.

(** The stores of one fragment leave its packet in the write buffer. *)
Lemma write_fragment self wb last n c i :
  ct_writeBuffer self = Some wb -> bb_maxSize wb <= zlen (bb_buffer wb) -> 0 <= n -> 7 + n <= bb_maxSize wb -> n < 65529 ->
  position_ok c i -> n <= zlen (chain_rest c i) ->
  exists buffer c' i',
    (self ← writeRfc1006Header self (7 + n);
     self ← writeDataTpduHeader self last;
     wb ← ct_writeBuffer self;
     '(buffer, bufPos, c, i) ← copy_chain (Z.to_nat n) c i (bb_buffer wb) 7;
     Some (with_writeBuffer self (mkByteBuffer buffer (bb_maxSize wb) bufPos), c, i))
    = Some (with_writeBuffer self (mkByteBuffer buffer (bb_maxSize wb) (7 + n)), c', i') /\
    zlen buffer = zlen (bb_buffer wb) /\
    take (Z.to_nat (7 + n)) buffer = data_packet last (take (Z.to_nat n) (chain_rest c i)) /\
    position_ok c' i' /\ chain_rest c' i' = drop (Z.to_nat n) (chain_rest c i).
Proof.
  intros Hwb Hmx Hn Hfit Hlen Hpos Hrest. destruct (len_octets (7 + n)) as [Hhi Hlo]; [lia|].
  unfold writeRfc1006Header, on_writeBuffer. rewrite Hwb. cbn [mbind option_bind]. unfold write_at.
  change 0x100 with 256. change 0xff with 255. rewrite Hhi, Hlo, puts_fits by zlia. cbn [mbind option_bind].
  unfold writeDataTpduHeader, on_writeBuffer. destruct self as [rr lr pc sk op la pl wb' rb ps eb es ef].
  cbn [ct_writeBuffer with_writeBuffer mbind option_bind bb_buffer bb_maxSize]. unfold write_at. cbn [bb_buffer bb_maxSize].
  set (h := [3; 0; (7 + n) / 256; (7 + n) mod 256]). set (g := [2; 240; if last then 128 else 0]).
  rewrite (puts_fits g) by (rewrite ?zlen_splice; unfold h, g; zlia). cbn [mbind option_bind].
  change 4 with (zlen h). rewrite splice_app by (unfold h, g; zlia).
  cbn [ct_writeBuffer with_writeBuffer mbind option_bind bb_buffer bb_maxSize].
  destruct (copy_chain_spec (Z.to_nat n) c i (splice (bb_buffer wb) 0 (h ++ g)) 7 Hpos) as (c' & i' & -> & Hok' & Hr');
    [unfold zlen in *; lia | lia | rewrite zlen_splice; unfold h, g; zlia |].
  cbn [mbind option_bind]. rewrite Z2Nat.id by lia.
  set (d := take (Z.to_nat n) (chain_rest c i)).
  assert (zlen d = n) as Hd by (unfold d, zlen in *; rewrite length_take; lia).
  change 7 with (zlen (h ++ g)). rewrite splice_app by (unfold h, g; zlia).
  exists (splice (bb_buffer wb) 0 ((h ++ g) ++ d)), c', i'. cbn [bb_maxSize]. split; [done|].
  split; [apply zlen_splice; unfold h, g; zlia|]. split; [|done].
  unfold splice. rewrite take_0, app_nil_l.
  replace (Z.to_nat (zlen (h ++ g) + n)) with (length ((h ++ g) ++ d)) by (unfold zlen in *; rewrite !length_app; lia).
  rewrite take_app_length. unfold data_packet. rewrite Hd. done.
Qed.

Lemma sends_refl self : extension_ok self -> sends self self [] true.
Proof.
  intros H. unfold sends. split_and!; try done; [zlia|]. exists []. by rewrite app_nil_r.
Qed.

Lemma sends_trans a b c x y ok : sends a b x true -> sends b c y ok -> sends a c (x ++ y) ok.
Proof.
  intros (F1 & E1 & L1 & (p & _ & S1 & P1) & W1) (F2 & E2 & L2 & (q & Q & S2 & P2) & W2). unfold sends.
  split_and!; [by etrans | done | zlia | |].
  - exists (x ++ q). rewrite (P1 eq_refl) in S1. split_and!; [by apply prefix_app | by rewrite S2, S1, app_assoc |].
    intros Hok. by rewrite P2.
  - intros He Hw. apply W2; [by apply (tx_frame_extension _ _ F1) | by apply (tf_sends_well _ _ F1)].
Qed.

Lemma sends_false a b x y : sends a b x false -> sends a b (x ++ y) false.
Proof.
  intros (F1 & E1 & L1 & (p & P & S1 & _) & W1). pose proof (zlen_nonneg y). unfold sends. split_and!; try done; [zlia|].
  exists p. split_and!; [by apply prefix_app_r | done | done].
Qed.

Lemma sends_writeBuffer self wb self' bs ok : sends (with_writeBuffer self wb) self' bs ok -> sends self self' bs ok.
Proof.
  destruct (with_writeBuffer_proj self wb) as (W1 & W2 & W3 & W4 & W5 & W6 & W7).
  intros (F1 & E1 & L1 & (p & P & S1 & H1) & Hw). unfold sends. rewrite W3 in L1. rewrite W5 in S1. rewrite W2, W7 in Hw.
  split_and!; try done; [etrans; [apply tx_frame_writeBuffer | done]|]. by exists p.
Qed.

Definition is_ok (ind : CotpIndication) : bool := match ind with COTP_OK => true | _ => false end.

(** One turn of the loop. *)
Lemma send_fragment_spec rest self wb len size cur c i :
  let last := match rest with O => true | S _ => false end in
  let n := (if last then len else cur + size) - cur in
  ct_writeBuffer self = Some wb -> bb_maxSize wb <= zlen (bb_buffer wb) -> 7 + n <= bb_maxSize wb -> 0 <= n < 65529 ->
  extension_ok self -> extension_room self (7 + n) -> position_ok c i -> n <= zlen (chain_rest c i) ->
  exists ok self' c' i' wb',
    send_fragments (S rest) self len size cur c i =
      (if ok : bool then send_fragments rest self' len size (cur + n) c' i' else Some (COTP_ERROR, self')) /\
    sends self self' (data_packet last (take (Z.to_nat n) (chain_rest c i))) ok /\
    (ok = true -> ct_writeBuffer self' = Some wb' /\ bb_maxSize wb' = bb_maxSize wb /\ zlen (bb_buffer wb') = zlen (bb_buffer wb)) /\
    position_ok c' i' /\ chain_rest c' i' = drop (Z.to_nat n) (chain_rest c i).
Proof.
  intros last n Hwb Hmx Hfit Hn Hext Hroom Hpos Hrest.
  destruct (write_fragment self wb last n c i) as (buffer & c' & i' & Heq & Hz & Htake & Hpos' & Hr'); try done; try lia.
  cbn [send_fragments]. fold last. cbv zeta.
  assert ((if last then len else cur + size) - cur = n) as Hdef by done.
  assert ((if last then len else cur + size) = cur + n) as Hcur by lia. rewrite Hcur.
  replace (cur + n - cur) with n by lia.
  destruct (writeRfc1006Header self (7 + n)) as [s1|]; [|done]. cbn [mbind option_bind] in *.
  destruct (writeDataTpduHeader s1 last) as [s2|]; [|done]. cbn [mbind option_bind] in *.
  destruct (ct_writeBuffer s2) as [wb2|]; [|done]. cbn [mbind option_bind] in *.
  destruct (copy_chain (Z.to_nat n) c i (bb_buffer wb2) 7) as [[[[bf bp] c2] i2]|]; [|done]. cbn [mbind option_bind] in *.
  injection Heq as Heq -> ->. rewrite Heq. set (wb3 := mkByteBuffer buffer (bb_maxSize wb) (7 + n)).
  destruct (with_writeBuffer_proj self wb3) as (W1 & W2 & W3 & W4 & W5 & W6 & W7).
  destruct (sendBuffer_spec (with_writeBuffer self wb3) wb3 W1) as (ok & s3 & -> & Hsends & Hwb3).
  { unfold byteBuffer_ok, wb3. cbn [bb_size bb_maxSize bb_buffer]. lia. }
  { by apply W6. }
  { unfold extension_room. rewrite W2, W3, W4. done. }
  cbn [mbind option_bind]. exists ok, s3, c', i', (mkByteBuffer buffer (bb_maxSize wb) 0).
  split; [by destruct ok|]. split.
  { apply (sends_writeBuffer _ wb3). unfold byteBuffer_bytes in Hsends. cbn [wb3 bb_size bb_buffer] in Hsends.
    by rewrite Htake in Hsends. }
  split; [|done]. intros Hok. split; [by rewrite Hwb3 | done].
Qed.

Lemma data_packets_step rest size data :
  (Z.of_nat size < zlen data \/ rest = O) ->
  data_packets (S rest) size data =
    data_packet (match rest with O => true | S _ => false end)
      (take (match rest with O => length data | S _ => size end) data) ++
    data_packets rest size (drop (match rest with O => length data | S _ => size end) data).
Proof.
  intros H. destruct rest as [|rest]; [|done]. cbn [data_packets]. by rewrite firstn_all, app_nil_r.
Qed.

Lemma send_fragments_spec n self wb len size cur c i :
  ct_writeBuffer self = Some wb -> bb_maxSize wb <= zlen (bb_buffer wb) -> 7 + size <= bb_maxSize wb ->
  0 < size < 65529 -> extension_ok self -> position_ok c i ->
  let data := chain_rest c i in
  (0 < n)%nat -> zlen data = len - cur -> size * (Z.of_nat n - 1) < zlen data <= size * Z.of_nat n ->
  extension_room self (7 * Z.of_nat n + zlen data) ->
  exists ind self', send_fragments n self len size cur c i = Some (ind, self') /\
    sends self self' (data_packets n (Z.to_nat size) data) (is_ok ind) /\ (ind = COTP_OK \/ ind = COTP_ERROR) /\
    (ind = COTP_OK -> exists wb', ct_writeBuffer self' = Some wb' /\ bb_maxSize wb' = bb_maxSize wb /\
       zlen (bb_buffer wb') = zlen (bb_buffer wb)).
Proof.
  revert self wb cur c i. induction n as [|rest IH]; intros self wb cur c i Hwb Hmx Hfit Hsize Hext Hpos data Hn Hlen Hcnt Hroom; [lia|].
  set (last := match rest with O => true | S _ => false end). set (k := (if last then len else cur + size) - cur).
  assert (0 < k <= size /\ k <= zlen data /\ (rest = O -> k = zlen data) /\ (rest <> O -> k = size)) as (Hk & Hkd & Hk0 & HkS).
  { unfold k, last. destruct rest; [|nia]. split_and!; try lia. }
  destruct (send_fragment_spec rest self wb len size cur c i) as (ok & s1 & c1 & i1 & wb1 & -> & Hs & Hw & Hpos1 & Hr1);
    try done; fold last; fold k; try lia.
  { eapply extension_room_frame; [reflexivity | exact Hroom | lia]. }
  fold last k in Hs. fold k data in Hr1. fold k.
  rewrite data_packets_step by (destruct rest; [by right | left; nia]). fold last.
  replace (match rest with O => length data | S _ => Z.to_nat size end) with (Z.to_nat k)
    by (destruct rest; [rewrite Hk0 by done; unfold zlen; lia | by rewrite HkS]).
  destruct ok.
  2:{ do 2 eexists. split; [done|]. split; [by apply sends_false|]. split; [by right | done]. }
  destruct (Hw eq_refl) as (Hwb1 & Hm1 & Hz1). pose proof Hs as (F1 & E1 & L1 & _ & _).
  assert (zlen (data_packet last (take (Z.to_nat k) data)) = 7 + k) as Hzp.
  { rewrite zlen_data_packet, zlen_take by lia. done. }
  destruct rest as [|rest].
  { cbn [send_fragments]. do 2 eexists. split; [done|]. split; [|split; [by left | intros _; by exists wb1]].
    eapply sends_trans; [exact Hs|]. by apply sends_refl. }
  specialize (HkS ltac:(done)).
  assert (zlen (chain_rest c1 i1) = zlen data - size) as Hz'.
  { rewrite Hr1, zlen_drop by lia. lia. }
  destruct (IH s1 wb1 (cur + k) c1 i1) as (ind & s2 & -> & Hs2 & Hind & Hw2); try done; try lia.
  { eapply extension_room_frame; [exact F1 | exact Hroom |]. rewrite Hz'. unfold data in Hzp. lia. }
  do 2 eexists. split; [done|]. split; [|split; [done|]].
  - rewrite Hr1 in Hs2. by eapply sends_trans.
  - intros Hok. destruct (Hw2 Hok) as (wb2 & ? & ? & ?). exists wb2. split_and!; congruence.
Qed.

Lemma fragments_count size len :
  0 < size -> 0 < len ->
  (if size <? len then Z.quot len size + (if Z.rem len size =? 0 then 0 else 1) else 1) = packet_count size len.
Proof.
  intros Hs Hl. unfold packet_count. btest. rewrite Z.quot_div_nonneg, Z.rem_mod_nonneg by lia.
  pose proof (Z.div_mod len size ltac:(lia)). pose proof (Z.mod_pos_bound len size Hs). btest.
  - apply Z.div_unique with (size - 1); lia.
  - apply Z.div_unique with (len mod size - 1); lia.
Qed.

(** A data message is sent as its packets; where there is an extension buffer
    with enough room and the socket reports no error it is sent. *)
Lemma sendDataMessage_spec self payload :
  cotp_ok self -> chain_ok payload ->
  exists ind self', CotpConnection_sendDataMessage self payload = Some (ind, self') /\
    (ind = COTP_OK \/ ind = COTP_ERROR) /\ (ind = COTP_OK -> cotp_ok self') /\ tx_frame self self' /\
    (exists p, p `prefix_of` message_packets self (chain_bytes payload) /\ tx_stream self' = tx_stream self ++ p /\
       (ind = COTP_OK -> p = message_packets self (chain_bytes payload))) /\
    (is_Some (ct_socketExtensionBuffer self) -> sends_well self ->
     extension_room self (zlen (message_packets self (chain_bytes payload))) -> ind = COTP_OK).
Proof.
  intros (Ht & Hext & wb & Hwb & Hmx & Hfit) Hc. destruct (chain_ok_length payload Hc) as [Hlen Hpos].
  pose proof (tpduSize_bounds self Ht) as Hb. set (size := CotpConnection_getTpduSize self - 3).
  pose proof (packet_count_bounds size (zlen (chain_bytes payload)) ltac:(lia) ltac:(lia)) as [Hn1 Hn2].
  assert (zlen (message_packets self (chain_bytes payload)) = 7 * packet_count size (bc_length payload) + bc_length payload) as Hz.
  { unfold message_packets. fold size. rewrite zlen_data_packets; rewrite ?Hlen; lia. }
  unfold CotpConnection_sendDataMessage, COTP_DATA_HEADER_SIZE. fold size. rewrite fragments_count by lia.
  set (n := packet_count size (bc_length payload)) in *. rewrite <- Hlen in Hn1, Hn2. fold n in Hn1, Hn2.
  destruct (flushBuffer_spec self Hext) as (fl & s1 & -> & F1 & E1 & S1 & L1 & W1 & Hsw1). cbn [mbind option_bind].
  destruct fl; cbn [negb].
  2:{ do 2 eexists. split; [done|]. split; [by right|]. split; [done|]. split; [done|]. split; [|by intros _ Hs; apply Hsw1 in Hs].
      exists []. split; [apply prefix_nil|]. by rewrite app_nil_r. }
  set (full := match ct_socketExtensionBuffer s1 with Some _ => _ | None => false end).
  destruct full eqn:Efull.
  { do 2 eexists. split; [done|]. split; [by right|]. split; [done|]. split; [done|]. split.
    - exists []. split; [apply prefix_nil|]. by rewrite app_nil_r.
    - intros _ _ Hroom. exfalso. assert (extension_room s1 (n * 7 + bc_length payload)) as Hr.
      { eapply extension_room_frame; [exact F1 | exact Hroom | lia]. }
      unfold full, extension_room in *. destruct (ct_socketExtensionBuffer s1); [lia | done]. }
  rewrite W1, Hwb. cbn [mbind option_bind].
  destruct (send_fragments_spec (Z.to_nat n) s1 wb (bc_length payload) size 0 payload 0) as (ind & s2 & -> & Hs & Hind & Hw2);
    rewrite ?chain_rest_0, ?Z2Nat.id; try done; try congruence; try lia.
  { split; [done|]. apply chain_ok_unfold in Hc as [? _]. lia. }
  { unfold full, extension_room in *. destruct (ct_socketExtensionBuffer s1); [lia | done]. }
  rewrite chain_rest_0 in Hs. pose proof Hs as (F2 & E2 & _ & (p & P & S2 & Hp) & Hsw2).
  assert (tx_frame self s2) as F by (by etrans).
  do 2 eexists. split; [done|]. split; [done|]. split; [|split; [done|split]].
  - intros Hok. destruct (Hw2 Hok) as (wb2 & Hwb2 & Hm2 & Hz2). unfold cotp_ok, CotpConnection_getTpduSize.
    rewrite (tf_options _ _ F). split; [done|]. split; [done|]. exists wb2. unfold CotpConnection_getTpduSize in Hfit. split; [done|]. lia.
  - exists p. unfold message_packets. fold size. rewrite <- Hlen. fold n. split; [done|]. split; [by rewrite S2, S1|].
    intros ->. by apply Hp.
  - intros He Hsw _. assert (is_ok ind = true) as Hok by (apply Hsw2; [by apply (tx_frame_extension _ _ F1) | by apply (tf_sends_well _ _ F1)]).
    by destruct Hind as [->| ->].
Qed.
