(* ===== verification/CotpReceive.v ===== *)
(** The receiving side of the transport layer: however the bytes of the stream
    arrive, the packets are cut out of it and the payload is put together again. *)

From S2P Require Import Prelude BerEncoder BerDecoder ByteBuffer IsoParameters Cotp CotpSend.
Open Scope Z_scope.

(** * Reading a packet *)

(** what reading changes: the bytes to come, the results to come, the read
    buffer and the packet size *)
Definition rx_update (self : CotpConnection) (arriving results buffer : list Z) (size packetSize : Z) : CotpConnection :=
  with_read (with_socket self (mkSocket (sk_sent (ct_socket self)) (sk_sendResults (ct_socket self)) arriving results))
    (mkByteBuffer buffer (bb_maxSize (ct_readBuffer self)) size) packetSize.

Lemma rx_update_twice self a r b s p a' r' b' s' p' :
  rx_update (rx_update self a r b s p) a' r' b' s' p' = rx_update self a' r' b' s' p'.
Proof. by destruct self. Qed.

Lemma with_readSize_update self a r b s p s' :
  with_readSize (rx_update self a r b s p) s' = rx_update self a r b s' p.
Proof. by destruct self. Qed.

Lemma rx_update_proj self a r b s p :
  ct_socketExtensionBufferFill (rx_update self a r b s p) = ct_socketExtensionBufferFill self /\
  bb_buffer (ct_readBuffer (rx_update self a r b s p)) = b /\
  bb_size (ct_readBuffer (rx_update self a r b s p)) = s /\
  bb_maxSize (ct_readBuffer (rx_update self a r b s p)) = bb_maxSize (ct_readBuffer self) /\
  ct_packetSize (rx_update self a r b s p) = p /\
  sk_arriving (ct_socket (rx_update self a r b s p)) = a /\
  sk_recvResults (ct_socket (rx_update self a r b s p)) = r.
Proof. by destruct self. Qed.

Lemma rx_update_id self :
  self = rx_update self (sk_arriving (ct_socket self)) (sk_recvResults (ct_socket self)) (bb_buffer (ct_readBuffer self))
           (bb_size (ct_readBuffer self)) (ct_packetSize self).
Proof. by destruct self as [? ? ? [] ? ? ? ? [] ? ? ? ?]. Qed.

(** [rs'] is [rs] after at most [m] system calls *)
Definition consumed (m : nat) (rs rs' : list Z) : Prop := exists j, (j <= m)%nat /\ rs' = drop j rs.

Ltac consumed_by n := exists n; split; [lia | try reflexivity].

Lemma consumed_trans m n a b c : consumed m a b -> consumed n b c -> consumed (m + n) a c.
Proof. intros (i & Hi & ->) (j & Hj & ->). exists (i + j)%nat. split; [lia|]. apply drop_drop. Qed.

Lemma next_result_consumed rs : consumed 1 rs (snd (next_result rs)).
Proof. destruct rs as [|r rs]; [by consumed_by 0%nat | by consumed_by 1%nat]. Qed.

Definition nonneg (rs : list Z) : Prop := Forall (fun r => 0 <= r) rs.
Definition positive (rs : list Z) : Prop := Forall (fun r => 0 < r) rs.

Lemma readFromSocket_spec self bufPos size :
  let ar := sk_arriving (ct_socket self) in
  let rs := sk_recvResults (ct_socket self) in
  let rb := ct_readBuffer self in
  nonneg rs -> 0 < size -> 0 <= bufPos -> bufPos + size <= zlen (bb_buffer rb) ->
  exists n rs', readFromSocket self bufPos size =
      Some (n, rx_update self (drop (Z.to_nat n) ar) rs' (splice (bb_buffer rb) bufPos (take (Z.to_nat n) ar))
                 (bb_size rb) (ct_packetSize self)) /\
    0 <= n <= size /\ n <= zlen ar /\ consumed 2 rs rs' /\
    (positive rs -> (2 <= length rs)%nat -> 0 < zlen ar -> 0 < n).
Proof.
  intros ar rs rb Hrs Hsz Hp Hfit. pose proof (zlen_nonneg ar).
  assert (splice (bb_buffer rb) bufPos [] = bb_buffer rb) as Hnil.
  { unfold splice. simpl. by rewrite Nat.add_0_r, take_drop. }
  destruct self as [rr lr pc [sent sr ar0 rs0] op la pl wb [b mx s] ps eb es ef]. subst ar rs rb.
  cbn [ct_socket ct_readBuffer sk_arriving sk_recvResults bb_buffer bb_size ct_packetSize] in *.
  unfold readFromSocket, Handleset_waitReady. cbn [ct_socket sk_arriving sk_recvResults sk_sent sk_sendResults].
  destruct rs0 as [|w rs1]; cbn [next_result].
  { exists 0, []. rewrite take_0, drop_0, Hnil. split_and!; try done; try lia; [by consumed_by 0%nat | cbn; lia]. }
  inversion Hrs as [|? ? Hw Hrs1]; subst. cbn [with_socket].
  if_false. btest.
  - exists 0, rs1. rewrite take_0, drop_0, Hnil. split_and!; try done; try lia.
    + by consumed_by 1%nat.
    + intros Hpos. inversion Hpos; subst. lia.
  - unfold Socket_read. cbn [sk_arriving sk_recvResults sk_sent sk_sendResults].
    destruct rs1 as [|r rs2]; cbn [next_result].
    + replace ((0 <? 0) || (size =? 0)) with false by lia.
      replace (Z.min (Z.min 0 size) (zlen ar0)) with 0 by lia. cbn [with_socket ct_readBuffer bb_buffer bb_maxSize bb_size].
      change (Z.to_nat 0) with 0%nat. rewrite take_0, st_range_splice by (rewrite ?(@zlen_nil Z); lia). cbn [mbind option_bind].
      exists 0, []. change (Z.to_nat 0) with 0%nat. rewrite take_0, drop_0. split_and!; try done; try lia; [by consumed_by 1%nat | cbn; lia].
    + inversion Hrs1 as [|? ? Hr Hrs2]; subst. replace ((r <? 0) || (size =? 0)) with false by lia.
      set (n := Z.min (Z.min r size) (zlen ar0)). cbn [with_socket ct_readBuffer bb_buffer bb_maxSize bb_size].
      rewrite st_range_splice by (rewrite ?zlen_take by lia; lia). cbn [mbind option_bind].
      exists n, rs2. split_and!; try done; try lia.
      * by consumed_by 2%nat.
      * intros Hpos _ Har. inversion Hpos as [|? ? _ Hpos1]; subst. inversion Hpos1; subst. lia.
Qed.

(** the first bytes of [buffer] *)
Definition holds (buffer got : list Z) : Prop := exists post, buffer = got ++ post.

Lemma holds_splice buffer got bs :
  holds buffer got -> zlen got + zlen bs <= zlen buffer -> holds (splice buffer (zlen got) bs) (got ++ bs).
Proof.
  intros (post & ->) Hf. exists (drop (length bs) post). unfold splice. rewrite zlen_to_nat, take_app_length, <- app_assoc.
  do 2 f_equal. rewrite drop_app_ge by lia. f_equal. lia.
Qed.

Section reading.

Context (self : CotpConnection) (got rest tail : list Z).

Abbreviation packet := (got ++ rest).
Abbreviation rb := (ct_readBuffer self).
Abbreviation rs := (sk_recvResults (ct_socket self)).

Hypothesis Hfill : ct_socketExtensionBufferFill self = 0.
Hypothesis Hcap : bb_maxSize rb <= zlen (bb_buffer rb).
Hypothesis Hnonneg : nonneg rs.
Hypothesis Harriving : sk_arriving (ct_socket self) = rest ++ tail.
Hypothesis Hrest : 0 < zlen rest.
Hypothesis Hsize : zlen packet <= bb_maxSize rb.
Hypothesis Hgot : holds (bb_buffer rb) got.

(** what a call that read [k] more bytes leaves *)
Definition read_more (m : nat) (r : option (TpktState * CotpConnection)) : Prop :=
  exists k ps rs' buffer,
    r = Some (if k <? zlen rest then TPKT_WAITING else TPKT_PACKET_COMPLETE,
              rx_update self (drop (Z.to_nat k) (rest ++ tail)) rs' buffer (zlen got + k) ps) /\
    0 <= k <= zlen rest /\ zlen buffer = zlen (bb_buffer rb) /\ holds buffer (got ++ take (Z.to_nat k) rest) /\
    (4 <= zlen got + k -> ps = zlen packet) /\ consumed m rs rs' /\
    (positive rs -> (m <= length rs)%nat -> 0 < k).

Lemma read_packet_spec :
  4 <= zlen got -> ct_packetSize self = zlen packet -> read_more 2 (read_packet self (zlen got)).
Proof.
  intros Hg Hps. assert (zlen packet = zlen got + zlen rest) as Hzp by zlia.
  unfold read_packet. rewrite Hps. if_false.
  destruct (readFromSocket_spec self (zlen got) (zlen packet - zlen got)) as (n & rs' & -> & Hn & Har & Hc & Hpos);
    try done; try lia. rewrite Harriving in Har, Hpos |- *. pose proof (zlen_nonneg tail).
  cbn [mbind option_bind]. if_false. destruct (rx_update_proj self (drop (Z.to_nat n) (rest ++ tail)) rs'
    (splice (bb_buffer rb) (zlen got) (take (Z.to_nat n) (rest ++ tail))) (bb_size rb) (ct_packetSize self)) as (_ & _ & _ & _ & Hp & _).
  rewrite Hp, Hps.
  assert (take (Z.to_nat n) (rest ++ tail) = take (Z.to_nat n) rest) as Ht by (apply take_app_le; unfold zlen in *; lia).
  exists n, (zlen packet), rs', (splice (bb_buffer rb) (zlen got) (take (Z.to_nat n) rest)).
  assert (zlen (take (Z.to_nat n) rest) = n) as Hzt by (apply zlen_take; lia).
  rewrite Ht. split.
  { rewrite with_readSize_update. repeat btest; done. }
  split_and!; try done; try lia.
  - apply zlen_splice; lia.
  - apply holds_splice; [done | lia].
  - intros Hps' Hm. apply Hpos; try done. zlia.
Qed.

End reading.

Lemma consumed_le m n rs rs' : (m <= n)%nat -> consumed m rs rs' -> consumed n rs rs'.
Proof. intros Hm (j & Hj & ->). exists j. split; [lia | done]. Qed.

Lemma consumed_nonneg m rs rs' : consumed m rs rs' -> nonneg rs -> nonneg rs'.
Proof. intros (j & _ & ->) H. by apply Forall_drop. Qed.

(** a packet starts with its length *)
Definition tpkt_ok (packet : list Z) : Prop :=
  exists hi lo body, packet = 3 :: 0 :: hi :: lo :: body /\ is_byte hi /\ is_byte lo /\
    zlen packet = hi * 256 + lo /\ body <> [].

Lemma tpkt_ok_zlen packet : tpkt_ok packet -> 4 < zlen packet.
Proof.
  intros (hi & lo & body & -> & _ & _ & _ & Hb). destruct body as [|b body]; [done|].
  pose proof (zlen_nonneg body). zlia.
Qed.

(** [got] of a packet is in the read buffer *)
Definition reading (self : CotpConnection) (got rest : list Z) : Prop :=
  holds (bb_buffer (ct_readBuffer self)) got /\ bb_size (ct_readBuffer self) = zlen got /\
  (4 <= zlen got -> ct_packetSize self = zlen (got ++ rest)).

Definition rx_ok (self : CotpConnection) : Prop :=
  ct_socketExtensionBufferFill self = 0 /\ 4 < bb_maxSize (ct_readBuffer self) <= zlen (bb_buffer (ct_readBuffer self)) /\
  nonneg (sk_recvResults (ct_socket self)).

Lemma readToTpktBuffer_spec self got rest tail :
  rx_ok self -> reading self got rest -> 0 < zlen rest -> tpkt_ok (got ++ rest) ->
  zlen (got ++ rest) <= bb_maxSize (ct_readBuffer self) -> sk_arriving (ct_socket self) = rest ++ tail ->
  read_more self got rest tail 4 (CotpConnection_readToTpktBuffer self).
Proof.
  intros (Hfill & Hcap & Hrs) (Hgot & Hbs & Hps) Hrest Htp Hmax Har. pose proof (tpkt_ok_zlen _ Htp) as H4.
  pose proof (zlen_nonneg got). assert (zlen (got ++ rest) = zlen got + zlen rest) as Hzp by zlia.
  unfold CotpConnection_readToTpktBuffer. if_false. rewrite Hfill.
  change (0 <? 0) with false. cbn [mbind option_bind negb]. rewrite Hfill. change (0 <? 0) with false. cbv iota. rewrite Hbs.
  btest.
  2:{ destruct (read_packet_spec self got rest tail) as (k & ps & rs' & b & H1 & H2 & H3 & H5 & H6 & H7 & H8); try done; try lia.
      exists k, ps, rs', b. split_and!; try done; try lia. by eapply consumed_le; [|exact H7]; lia. }
  destruct (readFromSocket_spec self (zlen got) (4 - zlen got)) as (n & rs1 & -> & Hn & Hna & Hc & Hpos); try done; try lia.
  rewrite Har in Hna, Hpos |- *. pose proof (zlen_nonneg tail). cbn [mbind option_bind]. if_false.
  assert (take (Z.to_nat n) (rest ++ tail) = take (Z.to_nat n) rest) as Ht by (apply take_app_le; unfold zlen in *; lia).
  rewrite Ht. assert (zlen (take (Z.to_nat n) rest) = n) as Hzt by (apply zlen_take; lia).
  set (buf1 := splice (bb_buffer (ct_readBuffer self)) (zlen got) (take (Z.to_nat n) rest)).
  assert (zlen buf1 = zlen (bb_buffer (ct_readBuffer self))) as Hzb by (apply zlen_splice; lia).
  assert (holds buf1 (got ++ take (Z.to_nat n) rest)) as Hh1 by (apply holds_splice; [done|lia]).
  set (s1 := rx_update self _ rs1 buf1 _ _).
  btest.
  2:{ exists n, (ct_packetSize self), rs1, buf1. unfold s1. rewrite with_readSize_update. split; [by if_true|].
      split_and!; try done; try lia; [by eapply consumed_le; [|exact Hc]; lia|]. intros Hp Hl. apply Hpos; [done | lia | zlia]. }
  set (got1 := got ++ take (Z.to_nat n) rest) in *. set (rest1 := drop (Z.to_nat n) rest).
  assert (got1 ++ rest1 = got ++ rest) as Hgr by (unfold got1, rest1; rewrite <- app_assoc, take_drop; done).
  assert (zlen got1 = 4) as Hzg by (unfold got1; zlia).
  assert (zlen rest1 = zlen rest - n) as Hzr by (unfold rest1; rewrite zlen_drop; lia).
  destruct Htp as (hi & lo & body & Hpk & Hhi & Hlo & Hlen & Hbody).
  assert (got1 = [3; 0; hi; lo]) as Hg1.
  { rewrite Hpk in Hgr. destruct got1 as [|a [|b [|c [|d [|e g]]]]]; try (exfalso; zlia).
    - cbn in Hgr. congruence.
    - exfalso. pose proof (zlen_nonneg g). zlia. }
  destruct Hh1 as (post & Hbuf). rewrite Hg1 in Hbuf.
  destruct (rx_update_proj self (drop (Z.to_nat n) (rest ++ tail)) rs1 buf1 (bb_size (ct_readBuffer self)) (ct_packetSize self)) as (P1 & P2 & P3 & P4 & P5 & P6 & P7).
  fold s1 in P1, P2, P3, P4, P5, P6, P7. rewrite P2, Hbuf. cbn [app].
  change (ld (3 :: 0 :: hi :: lo :: post) 0) with (Some 3). change (ld (3 :: 0 :: hi :: lo :: post) 1) with (Some 0).
  change (ld (3 :: 0 :: hi :: lo :: post) 2) with (Some hi). change (ld (3 :: 0 :: hi :: lo :: post) 3) with (Some lo).
  cbn [mbind option_bind]. change ((3 =? 3) && (0 =? 0)) with true. cbv iota zeta.
  unfold is_byte in *. assert (u16 (hi * 256 + lo) = zlen (got ++ rest)) as Hu by (unfold u16; rewrite Hlen; apply Z.mod_small; lia).
  change 0x100 with 256. rewrite Hu.
  assert (with_packetSize s1 (zlen (got ++ rest)) =
    rx_update self (rest1 ++ tail) rs1 buf1 (zlen got) (zlen (got ++ rest))) as ->.
  { unfold s1, with_packetSize, rest1. rewrite <- Hbs. rewrite drop_app_le by (unfold zlen in *; lia). by destruct self. }
  set (s2 := rx_update self (rest1 ++ tail) rs1 buf1 (zlen got) (zlen (got ++ rest))).
  destruct (rx_update_proj self (rest1 ++ tail) rs1 buf1 (zlen got) (zlen (got ++ rest))) as (Q1 & Q2 & Q3 & Q4 & Q5 & Q6 & Q7).
  fold s2 in Q1, Q2, Q3, Q4, Q5, Q6, Q7. rewrite Q5. if_false. replace (zlen got + n) with (zlen got1) by lia.
  destruct (read_packet_spec s2 got1 rest1 tail) as (k & ps & rs' & b & H1 & H2 & H3 & H5 & H6 & H7 & H8);
    rewrite ?Q2, ?Q4, ?Q6, ?Q7, ?Hgr; try done; try lia.
  { by eapply consumed_nonneg. }
  { exists post. rewrite Hg1. done. }
  exists (n + k), ps, rs', b. rewrite H1. split.
  { unfold s2. rewrite rx_update_twice. replace (zlen got1 + k) with (zlen got + (n + k)) by lia.
    do 3 f_equal; [|]. { replace (n + k <? zlen rest) with (k <? zlen rest1) by lia. done. }
    unfold rest1. rewrite <- (drop_app_le rest tail) by (unfold zlen in *; lia). rewrite drop_drop. f_equal. lia. }
  rewrite Q7 in H7. rewrite Q2 in H3. split_and!; try lia.
  - replace (got ++ take (Z.to_nat (n + k)) rest) with (got1 ++ take (Z.to_nat k) rest1); [done|].
    unfold got1, rest1. rewrite <- app_assoc. f_equal. rewrite take_take_drop. f_equal. lia.
  - intros _. rewrite Hgr in H6. apply H6. lia.
  - change 4%nat with (2 + 2)%nat. by eapply consumed_trans.
Qed.

(** * Parsing a data packet *)

Lemma land_flag (last : bool) : negb (Z.land (if last then 0x80 else 0x00) 0x80 =? 0) = last.
Proof. by destruct last. Qed.

(** the connection after a data packet *)
Definition after_packet (self : CotpConnection) (last : bool) (payload : ByteBuffer) : CotpConnection :=
  with_read (with_payload (with_isLastDataUnit self last) payload)
    (mkByteBuffer (bb_buffer (ct_readBuffer self)) (bb_maxSize (ct_readBuffer self)) 0) 0.

Lemma parse_data_packet self last data :
  holds (bb_buffer (ct_readBuffer self)) (data_packet last data) ->
  bb_size (ct_readBuffer self) = zlen (data_packet last data) -> 0 < zlen data ->
  byteBuffer_ok (ct_payload self) -> bb_size (ct_payload self) + zlen data <= bb_maxSize (ct_payload self) ->
  exists payload, CotpConnection_parseIncomingMessage self =
      Some (if last then COTP_DATA_INDICATION else COTP_MORE_FRAGMENTS_FOLLOW, after_packet self last payload) /\
    byteBuffer_ok payload /\ bb_maxSize payload = bb_maxSize (ct_payload self) /\
    byteBuffer_bytes payload = byteBuffer_bytes (ct_payload self) ++ data.
Proof.
  intros (post & Hbuf) Hsz Hd Hok Hroom. pose proof Hok as [Hps Hpm].
  rewrite zlen_data_packet in Hsz. unfold CotpConnection_parseIncomingMessage, parseCotpMessage.
  destruct self as [rr lr pc sk op la pl wb [b mx s] ps eb es ef]. cbn [ct_readBuffer ct_payload bb_buffer bb_size bb_maxSize] in *.
  subst b s. unfold ptr_add, data_packet. change (Z.to_nat 4) with 4%nat. cbn [app skipn].
  set (f := if last then 0x80 else 0x00). set (m := 2 :: 240 :: f :: data ++ post).
  change (ld m 0) with (Some 2). change (ld m 1) with (Some 240). cbn [mbind option_bind].
  replace (7 + zlen data - 4 <? 2) with false by lia. cbv iota.
  change (240 =? 0xe0) with false. change (240 =? 0xd0) with false. change (240 =? 0xf0) with true. cbv iota.
  unfold parseDataTpdu. change (negb (2 =? 2)) with false. cbv iota. unfold m. change (Z.to_nat 2) with 2%nat. cbn [skipn].
  change (getUint8 (f :: data ++ post)) with (Some f). cbn [mbind option_bind negb]. unfold f. rewrite land_flag.
  unfold addPayloadToBuffer. cbn [with_isLastDataUnit ct_payload]. replace (7 + zlen data - 4 - 3) with (zlen data) by lia.
  if_false. if_false. change (Z.to_nat 3) with 3%nat. cbn [skipn]. rewrite ?drop_0.
  rewrite (at_pos_range (data ++ post) 0 data (at_pos_prefix data post)). cbn [mbind option_bind].
  rewrite st_range_splice by lia. cbn [mbind option_bind negb with_payload ct_isLastDataUnit ct_readBuffer bb_buffer bb_maxSize].
  eexists. split; [reflexivity|].
  destruct (append_spec pl data Hok) as (pl' & n & Ha & Hok' & Hmax & Hn). unfold ByteBuffer_append in Ha.
  replace (bb_size pl + zlen data <=? bb_maxSize pl) with true in Ha by lia.
  rewrite ld_range_Some in Ha by (pose proof (zlen_nonneg data); lia). cbn [mbind option_bind] in Ha.
  rewrite zlen_to_nat, drop_0, firstn_all, st_range_splice in Ha by lia. cbn [mbind option_bind] in Ha.
  injection Ha as <- <-. split; [done|]. split; [done|]. destruct Hn as [(? & _)|(_ & ?)]; [lia | done].
Qed.

(** * Receiving a message *)

(** One turn of a receiver: a packet is read as far as it is there, and parsed
    when it is complete. *)
Definition cotp_receive (self : CotpConnection) : option (TpktState * option CotpIndication * CotpConnection) :=
  '(state, self) ← CotpConnection_readToTpktBuffer self;
  match state with
  | TPKT_PACKET_COMPLETE =>
      '(indication, self) ← CotpConnection_parseIncomingMessage self; Some (state, Some indication, self)
  | _ => Some (state, None, self)
  end.

(** The packets of [data] are arriving, [got] of the first one is in the read
    buffer and [acc] in the payload buffer. *)
Record rx_pending (self : CotpConnection) (n size : nat) (data got acc tail : list Z) : Prop := {
  rp_ok : rx_ok self;
  rp_count : (0 < n)%nat /\ (0 < size)%nat /\ Z.of_nat size * (Z.of_nat n - 1) < zlen data <= Z.of_nat size * Z.of_nat n;
  rp_fits : 7 + Z.of_nat size <= bb_maxSize (ct_readBuffer self) /\ 7 + Z.of_nat size < 65536;
  rp_payload : byteBuffer_ok (ct_payload self) /\ byteBuffer_bytes (ct_payload self) = acc /\
    zlen acc + zlen data <= bb_maxSize (ct_payload self);
  rp_stream : exists rest, got ++ rest = data_packets n size data /\ sk_arriving (ct_socket self) = rest ++ tail /\
    zlen got < 7 + zlen (take (match n with 1%nat => length data | _ => size end) data) /\
    holds (bb_buffer (ct_readBuffer self)) got /\ bb_size (ct_readBuffer self) = zlen got /\
    (4 <= zlen got -> ct_packetSize self = 7 + zlen (take (match n with 1%nat => length data | _ => size end) data))
}.

Lemma data_packet_tpkt last data : 0 < zlen data -> 7 + zlen data < 65536 -> tpkt_ok (data_packet last data).
Proof.
  intros Hd Hl. pose proof (Z.div_mod (7 + zlen data) 256 ltac:(lia)). pose proof (Z.mod_pos_bound (7 + zlen data) 256 ltac:(lia)).
  exists ((7 + zlen data) / 256), ((7 + zlen data) mod 256), ([2; 0xf0; if last then 0x80 else 0x00] ++ data).
  split; [done|]. rewrite zlen_data_packet. unfold is_byte. split_and!; try lia; done.
Qed.

(** the next packet and what follows it *)
Lemma pending_packet n size data :
  (0 < n)%nat -> (0 < size)%nat -> Z.of_nat size * (Z.of_nat n - 1) < zlen data <= Z.of_nat size * Z.of_nat n ->
  let k := match n with 1%nat => length data | _ => size end in
  let last := match n with 1%nat => true | _ => false end in
  data_packets n size data = data_packet last (take k data) ++ data_packets (pred n) size (drop k data) /\
  0 < zlen (take k data) <= Z.of_nat size /\ (n = 1%nat -> take k data = data /\ drop k data = []) /\
  (n <> 1%nat -> zlen (take k data) = Z.of_nat size /\ zlen (drop k data) = zlen data - Z.of_nat size).
Proof.
  intros Hn Hs Hc k last. destruct n as [|[|n]]; [lia| |].
  - unfold k, last. cbn [data_packets pred]. rewrite firstn_all, skipn_all, app_nil_r. split; [done|]. split; [lia|]. by split.
  - unfold k, last. split; [done|]. unfold zlen in *. rewrite length_take, length_drop. split_and!; nia.
Qed.

(** What one turn does to a message that is arriving: it goes on, with the next
    packet or within the packet, or it is complete. *)
Definition turn_result (n size : nat) (data got acc tail : list Z)
    (r : TpktState * option CotpIndication * CotpConnection) : Prop :=
  match r with
  | (TPKT_WAITING, None, self') => exists got', rx_pending self' n size data got' acc tail
  | (TPKT_PACKET_COMPLETE, Some COTP_MORE_FRAGMENTS_FOLLOW, self') =>
      n <> 1%nat /\ rx_pending self' (pred n) size (drop size data) [] (acc ++ take size data) tail
  | (TPKT_PACKET_COMPLETE, Some COTP_DATA_INDICATION, self') =>
      byteBuffer_bytes (CotpConnection_getPayload self') = acc ++ data /\ byteBuffer_ok (CotpConnection_getPayload self') /\
      sk_arriving (ct_socket self') = tail /\ bb_size (ct_readBuffer self') = 0 /\ rx_ok self' /\ n = 1%nat
  | _ => False
  end.

(** Receiving leaves the sending side alone. *)
Definition tx_part (self : CotpConnection) :=
  (ct_remoteRef self, ct_localRef self, ct_protocolClass self, ct_options self, ct_writeBuffer self, ct_socketExtensionBuffer self,
   ct_socketExtensionBufferSize self, ct_socketExtensionBufferFill self, sk_sent (ct_socket self), sk_sendResults (ct_socket self),
   bb_maxSize (ct_payload self)).

(** the part of a packet that a turn has read *)
Lemma receive_turn self n size data got acc tail :
  rx_pending self n size data got acc tail ->
  exists r, cotp_receive self = Some r /\ turn_result n size data got acc tail r /\
    let rs := sk_recvResults (ct_socket self) in
    let rs' := sk_recvResults (ct_socket (snd r)) in
    consumed 4 rs rs' /\ zlen (sk_arriving (ct_socket (snd r))) <= zlen (sk_arriving (ct_socket self)) /\
    (positive rs -> (4 <= length rs)%nat ->
     zlen (sk_arriving (ct_socket (snd r))) < zlen (sk_arriving (ct_socket self))) /\
    tx_part (snd r) = tx_part self /\ bb_maxSize (ct_readBuffer (snd r)) = bb_maxSize (ct_readBuffer self).
Proof.
  intros [Hok (Hn & Hs & Hcnt) (Hfit & H16) (Hpok & Hacc & Hroom) (rest & Hgr & Har & Hlt & Hgot & Hsz & Hps)].
  pose proof (pending_packet n size data Hn Hs Hcnt) as (Hpk & Hk & Hone & Hmore).
  set (k := match n with 1%nat => length data | _ => size end) in *.
  set (last := match n with 1%nat => true | _ => false end) in *.
  set (d := take k data) in *. set (later := data_packets (pred n) size (drop k data)) in *.
  rewrite Hpk in Hgr. assert (exists rest1, got ++ rest1 = data_packet last d /\ rest = rest1 ++ later) as (rest1 & Hg1 & ->).
  { exists (drop (length got) (data_packet last d)). pose proof (zlen_data_packet last d) as Hz. unfold zlen in *.
    assert (got = take (length got) (data_packet last d)) as Hg.
    { rewrite <- (take_app_le (data_packet last d) later) by lia. rewrite <- Hgr. by rewrite take_app_length. }
    split; [rewrite Hg at 1; apply take_drop|].
    rewrite <- (take_drop (length got) (data_packet last d)), <- Hg, <- app_assoc in Hgr. by apply app_inv_head in Hgr. }
  rewrite <- app_assoc in Har.
  assert (zlen got + zlen rest1 = 7 + zlen d) as Hzr by (rewrite <- zlen_data_packet with (last := last), <- Hg1; zlia).
  pose proof (zlen_nonneg later). pose proof (zlen_nonneg tail).
  pose proof Hok as (Hfill & Hcap & Hrs).
  destruct (readToTpktBuffer_spec self got rest1 (later ++ tail) Hok) as (j & ps & rs' & buf & Hread & Hj & Hzb & Hhold & Hps' & Hcons & Hpos);
    rewrite ?Hg1, ?zlen_data_packet; try done; try lia.
  { unfold reading. rewrite Hg1, zlen_data_packet. done. }
  { apply data_packet_tpkt; lia. }
  rewrite Hg1, zlen_data_packet in Hps'.
  unfold cotp_receive. rewrite Hread. cbn [mbind option_bind].
  set (s1 := rx_update self _ rs' buf _ ps).
  destruct (rx_update_proj self (drop (Z.to_nat j) (rest1 ++ later ++ tail)) rs' buf (zlen got + j) ps) as (Q1 & Q2 & Q3 & Q4 & Q5 & Q6 & Q7).
  fold s1 in Q1, Q2, Q3, Q4, Q5, Q6, Q7.
  assert (zlen (sk_arriving (ct_socket s1)) = zlen (sk_arriving (ct_socket self)) - j) as Hza.
  { rewrite Q6, Har, zlen_drop by zlia. done. }
  assert (rx_ok s1) as Hok1.
  { unfold rx_ok. rewrite Q1, Q2, Q4, Q7, Hzb. split_and!; try done; try lia. by eapply consumed_nonneg. }
  assert (ct_payload s1 = ct_payload self) as Hpl by (unfold s1; by destruct self).
  btest.
  - (* the packet is not complete *)
    eexists. split; [done|]. cbn [turn_result snd]. rewrite Q7, Hza. split; [|split_and!; [done | lia | intros Hp Hl; specialize (Hpos Hp Hl); lia | unfold s1; by destruct self | done]].
    exists (got ++ take (Z.to_nat j) rest1). assert (zlen (take (Z.to_nat j) rest1) = j) as Hzj by (apply zlen_take; lia).
    constructor; rewrite ?Hpl, ?Q4; try done; try lia. exists (drop (Z.to_nat j) rest1 ++ later). split_and!.
    + rewrite Hpk, <- Hg1, <- !app_assoc. f_equal. by rewrite app_assoc, take_drop.
    + rewrite Q6, <- app_assoc. apply drop_app_le. unfold zlen in *. lia.
    + fold k d. zlia.
    + by rewrite Q2.
    + rewrite Q3. zlia.
    + rewrite Q5. fold k d. intros Hg. apply Hps'. zlia.
  - (* it is *)
    assert (j = zlen rest1) as -> by lia. rewrite zlen_to_nat, firstn_all, Hg1 in Hhold.
    rewrite zlen_to_nat, drop_app_length in Q6.
    destruct (parse_data_packet s1 last d) as (pl & -> & Hplok & Hplm & Hplb); rewrite ?Q2, ?Q3, ?Hpl, ?zlen_data_packet; try done; try lia.
    { rewrite <- Hacc, zlen_byteBuffer_bytes in Hroom by done. unfold d. pose proof (zlen_nonneg (drop k data)).
      rewrite <- (take_drop k data) in Hroom. zlia. }
    cbn [mbind option_bind]. rewrite Hpl, Hacc in Hplb. rewrite Hpl in Hplm.
    set (s2 := after_packet s1 last pl).
    assert (ct_socket s2 = ct_socket s1 /\ ct_payload s2 = pl /\ bb_size (ct_readBuffer s2) = 0 /\
      bb_buffer (ct_readBuffer s2) = buf /\ bb_maxSize (ct_readBuffer s2) = bb_maxSize (ct_readBuffer self) /\
      ct_socketExtensionBufferFill s2 = 0) as (R1 & R2 & R3 & R4 & R5 & R6).
    { rewrite <- Q2, <- Q4. rewrite Hfill in Q1. rewrite <- Q1. unfold s2. by destruct s1. }
    assert (rx_ok s2) as Hok2.
    { unfold rx_ok. rewrite R1, R4, R5, R6, Q7, Hzb. split_and!; try done; try lia. by eapply consumed_nonneg. }
    eexists. split; [done|]. cbn [snd]. rewrite R1, Q7, Hza. split; [|split_and!; [done | lia | intros; lia | unfold tx_part; rewrite R2, Hplm; unfold s2, s1; by destruct self | done]].
    unfold turn_result. unfold last at 1. destruct (decide (n = 1%nat)) as [->|Hn1].
    + destruct (Hone eq_refl) as [Hd1 Hd2]. unfold CotpConnection_getPayload. rewrite R2, Hplb. fold d in Hd1.
      rewrite Hd1. split_and!; try done. rewrite R1, Q6. unfold later. cbn [pred data_packets]. done.
    + replace (match n with 1%nat => true | _ => false end) with false by (destruct n as [|[|]]; [lia | done | done]).
      cbv iota. destruct (Hmore Hn1) as [Hd1 Hd2]. assert (k = size) as Hks by (unfold k; destruct n as [|[|]]; [lia | done | done]).
      assert (d = take size data) as Hds by (unfold d; by rewrite Hks).
      assert (later = data_packets (pred n) size (drop size data)) as Hls by (unfold later; by rewrite Hks). rewrite Hks in Hd2.
      split; [done|]. constructor; rewrite ?R2, ?R5; try done.
      * split_and!; try lia. all: rewrite ?Hd2; nia.
      * split; [done|]. split; [by rewrite Hplb, Hds|]. rewrite Hplm, <- Hds. zlia.
      * assert ((0 < pred n)%nat /\ Z.of_nat size * (Z.of_nat (pred n) - 1) < zlen (drop size data) <= Z.of_nat size * Z.of_nat (pred n)) as [Hpn Hpc]
          by (rewrite Hd2; nia).
        pose proof (pending_packet (pred n) size (drop size data) Hpn Hs Hpc) as (_ & Hk2 & _).
        exists later. rewrite R1, Q6, R3, R4, Hls. split_and!; try done.
        -- rewrite (@zlen_nil Z). lia.
        -- by exists buf.
Qed.

Lemma pending_arriving self n size data got acc tail :
  rx_pending self n size data got acc tail -> zlen tail < zlen (sk_arriving (ct_socket self)).
Proof.
  intros [_ (Hn & Hs & Hcnt) _ _ (rest & Hgr & Har & Hlt & _)]. rewrite Har.
  pose proof (pending_packet n size data Hn Hs Hcnt) as (Hpk & _). rewrite Hpk in Hgr.
  apply (f_equal zlen) in Hgr. rewrite !zlen_app, zlen_data_packet in Hgr.
  pose proof (zlen_nonneg (data_packets (pred n) size (drop (match n with 1%nat => length data | _ => size end) data))). zlia.
Qed.

(** A receiver takes turns until the layer indicates something, for at most
    [fuel] turns. *)
Inductive Reception :=
| Delivered (indication : CotpIndication)
| Broken
| Pending.

Fixpoint receive_message (fuel : nat) (self : CotpConnection) : option (Reception * CotpConnection) :=
  match fuel with
  | O => Some (Pending, self)
  | S fuel =>
      '(state, indication, self) ← cotp_receive self;
      match state, indication with
      | TPKT_WAITING, _ => receive_message fuel self
      | TPKT_PACKET_COMPLETE, Some COTP_MORE_FRAGMENTS_FOLLOW => receive_message fuel self
      | TPKT_PACKET_COMPLETE, Some indication => Some (Delivered indication, self)
      | _, _ => Some (Broken, self)
      end
  end.

(** what has been received when the message is there *)
Definition received (self : CotpConnection) (message tail : list Z) : Prop :=
  byteBuffer_bytes (CotpConnection_getPayload self) = message /\ byteBuffer_ok (CotpConnection_getPayload self) /\
  sk_arriving (ct_socket self) = tail /\ bb_size (ct_readBuffer self) = 0 /\ rx_ok self.

Lemma receive_message_spec fuel self n size data got acc tail :
  rx_pending self n size data got acc tail ->
  exists r self', receive_message fuel self = Some (r, self') /\
    (r = Pending \/ r = Delivered COTP_DATA_INDICATION /\ received self' (acc ++ data) tail) /\
    let rs := sk_recvResults (ct_socket self) in
    (positive rs -> (4 * fuel <= length rs)%nat -> zlen (sk_arriving (ct_socket self)) <= zlen tail + Z.of_nat fuel ->
     r = Delivered COTP_DATA_INDICATION).
Proof.
  revert self n data got acc. induction fuel as [|fuel IH]; intros self n data got acc Hp.
  { do 2 eexists. split; [done|]. split; [by left|]. intros rs _ _ H. apply pending_arriving in Hp. lia. }
  cbn [receive_message]. destruct (receive_turn self n size data got acc tail Hp) as ([[st ind] s1] & -> & Hr & (j & Hj & Hrs) & Hle & Hlt & _ & _).
  cbn [mbind option_bind snd] in *.
  assert (positive (sk_recvResults (ct_socket self)) -> (4 * S fuel <= length (sk_recvResults (ct_socket self)))%nat ->
    zlen (sk_arriving (ct_socket self)) <= zlen tail + Z.of_nat (S fuel) ->
    positive (sk_recvResults (ct_socket s1)) /\ (4 * fuel <= length (sk_recvResults (ct_socket s1)))%nat /\
    zlen (sk_arriving (ct_socket s1)) <= zlen tail + Z.of_nat fuel) as Hnext.
  { intros H1 H2 H3. rewrite Hrs, length_drop. specialize (Hlt H1 ltac:(lia)). split_and!; [by apply Forall_drop | lia | lia]. }
  destruct st; destruct ind as [[]|]; cbn [turn_result] in Hr; try done.
  - do 2 eexists. split; [done|]. split; [|done]. right. split; [done|]. unfold received. destruct Hr as (? & ? & ? & ? & ? & _). by split_and!.
  - destruct Hr as [Hn1 Hr]. destruct (IH _ _ _ _ _ Hr) as (r & s2 & -> & Hres & Hlive). do 2 eexists. split; [done|]. split.
    + rewrite <- app_assoc, take_drop in Hres. done.
    + intros H1 H2 H3. destruct (Hnext H1 H2 H3) as (? & ? & ?). by apply Hlive.
  - destruct Hr as [got' Hr]. destruct (IH _ _ _ _ _ Hr) as (r & s2 & -> & Hres & Hlive). do 2 eexists. split; [done|]. split; [done|].
    intros H1 H2 H3. destruct (Hnext H1 H2 H3) as (? & ? & ?). by apply Hlive.
Qed.

(** At the start nothing of the message has been read. *)
Lemma pending_start self n size data tail :
  rx_ok self -> (0 < n)%nat -> (0 < size)%nat ->
  Z.of_nat size * (Z.of_nat n - 1) < zlen data <= Z.of_nat size * Z.of_nat n ->
  7 + Z.of_nat size <= bb_maxSize (ct_readBuffer self) -> 7 + Z.of_nat size < 65536 ->
  byteBuffer_ok (ct_payload self) -> bb_size (ct_payload self) = 0 -> zlen data <= bb_maxSize (ct_payload self) ->
  bb_size (ct_readBuffer self) = 0 -> sk_arriving (ct_socket self) = data_packets n size data ++ tail ->
  rx_pending self n size data [] [] tail.
Proof.
  intros Hok Hn Hs Hc Hf H16 Hp Hp0 Hpm Hr Ha. pose proof (pending_packet n size data Hn Hs Hc) as (_ & Hk & _).
  constructor; try done.
  - split; [done|]. split; [|zlia]. unfold byteBuffer_bytes. rewrite Hp0. apply take_0.
  - exists (data_packets n size data). rewrite (@zlen_nil Z). split_and!; try done; try lia. by eexists.
Qed.

(** ** A message for a connection that waits for one *)

Definition rx_idle (self : CotpConnection) (tpduSize messageSize : Z) : Prop :=
  ct_socketExtensionBufferFill self = 0 /\ 4 < bb_maxSize (ct_readBuffer self) <= zlen (bb_buffer (ct_readBuffer self)) /\
  bb_size (ct_readBuffer self) = 0 /\ tpduSize + 4 <= bb_maxSize (ct_readBuffer self) /\
  byteBuffer_ok (ct_payload self) /\ bb_size (ct_payload self) = 0 /\ messageSize <= bb_maxSize (ct_payload self).

Definition rx_ready (self : CotpConnection) (tpduSize messageSize : Z) : Prop :=
  rx_idle self tpduSize messageSize /\ nonneg (sk_recvResults (ct_socket self)).

(** The packets of a message are what the receiver waits for. *)
Lemma packets_pending sender receiver message tail :
  2 <= co_tpduSize (ct_options sender) <= 13 -> 0 < zlen message ->
  rx_ready receiver (CotpConnection_getTpduSize sender) (zlen message) ->
  sk_arriving (ct_socket receiver) = message_packets sender message ++ tail ->
  let size := CotpConnection_getTpduSize sender - 3 in
  rx_pending receiver (Z.to_nat (packet_count size (zlen message))) (Z.to_nat size) message [] [] tail /\
  zlen (message_packets sender message) <= 8 * zlen message.
Proof.
  intros Ht Hm ((Hf & Hmx & Hrb & Hfit & Hpl & Hps & Hsz) & Hnn) Har. pose proof (tpduSize_bounds _ Ht) as Hts.
  intros size. destruct (packet_count_bounds size (zlen message)) as [Hn Hc]; [unfold size; lia | lia|]. split.
  - apply pending_start; try done; rewrite ?Z2Nat.id by (unfold size; lia); unfold size in *; lia.
  - unfold message_packets. fold size. rewrite zlen_data_packets; rewrite ?Z2Nat.id by (unfold size; lia); unfold size in *; nia.
Qed.

(** ** The network *)

(** [bytes] arrive at the socket, in pieces by [results]. *)
Definition arrives (self : CotpConnection) (bytes results : list Z) : CotpConnection :=
  with_socket self (mkSocket (sk_sent (ct_socket self)) (sk_sendResults (ct_socket self)) bytes results).

Lemma arrives_ready self bytes results tpduSize messageSize :
  rx_idle self tpduSize messageSize -> positive results ->
  rx_ready (arrives self bytes results) tpduSize messageSize.
Proof. destruct self. intros H Hp. split; [exact H|]. apply (Forall_impl (P := fun r => 0 < r)); [cbn; lia | exact Hp]. Qed.

Lemma arrives_socket self bytes results :
  sk_arriving (ct_socket (arrives self bytes results)) = bytes /\ sk_recvResults (ct_socket (arrives self bytes results)) = results.
Proof. by destruct self. Qed.

Lemma arrives_tx_part self bytes results : tx_part (arrives self bytes results) = tx_part self.
Proof. by destruct self. Qed.

(** Sending keeps a connection that waits for a message waiting for it. *)
Lemma tx_frame_idle self self' tpduSize messageSize :
  tx_frame self self' -> ct_socketExtensionBufferFill self' = 0 -> rx_idle self tpduSize messageSize -> rx_idle self' tpduSize messageSize.
Proof. intros Hf H0 (_ & H). unfold rx_idle. rewrite (tf_readBuffer _ _ Hf), (tf_payload _ _ Hf). done. Qed.
