(* ===== verification/CotpConnect.v ===== *)
(** Connection establishment of the transport layer: what the option parser does
    with arbitrary bytes and with the options the library itself writes. *)

From S2P Require Import Prelude BerEncoder BerDecoder ByteBuffer IsoParameters Cotp CotpSend CotpReceive.
Open Scope Z_scope.

(** * The TPDU size *)

Definition tpduSize_of (tpduSize : Z) : option Z :=
  let tpduSize := if COTP_MAX_TPDU_SIZE <? tpduSize then COTP_MAX_TPDU_SIZE else tpduSize in
  newTpduSize ← tpduSize_loop 14 1 tpduSize;
  Some (if tpduSize <? Z.shiftl 1 newTpduSize then newTpduSize - 1 else newTpduSize).

Lemma tpduSize_of_pow b : 0 <= b < 31 -> tpduSize_of (Z.shiftl 1 b) = Some (Z.min b 13).
Proof.
  assert (forallb (fun b => bool_decide (tpduSize_of (Z.shiftl 1 b) = Some (Z.min b 13))) (seqZ 0 31) = true) as H by by vm_compute.
  intros Hb. rewrite forallb_forall in H. specialize (H b). rewrite bool_decide_eq_true in H. apply H.
  apply list_elem_of_In, elem_of_seqZ. lia.
Qed.

(** A requested size of [2 ^ b] is taken up to the maximum of 8192 bytes. *)
Lemma setTpduSize_pow self b : 0 <= b < 31 ->
  CotpConnection_setTpduSize self (Z.shiftl 1 b) =
  Some (with_options self (with_tpduSize (ct_options self) (Z.min b 13))).
Proof.
  intros Hb. pose proof (tpduSize_of_pow b Hb) as H. unfold CotpConnection_setTpduSize. unfold tpduSize_of in H.
  destruct (tpduSize_loop _ _ _); cbn [mbind option_bind] in *; [|done]. by injection H as ->.
Qed.

(** * Arbitrary bytes *)

Definition selector_ok (s : TSelector) : Prop := zlen (ts_value s) = 4 /\ bytes_ok (ts_value s) /\ 0 <= ts_size s <= 4.

Definition options_ok (o : CotpOptions) : Prop :=
  selector_ok (co_tSelSrc o) /\ selector_ok (co_tSelDst o) /\ 0 <= co_tpduSize o <= 13.

(** the options the parser accepts, by their type and length *)
Definition option_accepted (optionType optionLen : Z) : Prop :=
  (optionType = 0xc0 \/ optionType = 0xc6 -> optionLen = 1) /\ (optionType = 0xc1 \/ optionType = 0xc2 -> optionLen < 5).

(** The parser of the options, at [pos], comes to an option that asks for packets of
    [2 ^ b] bytes: that is the option there, or one behind an option it accepts. *)
Inductive asks_size (buffer : list Z) (bufLen : Z) : Z -> Z -> Prop :=
  | asks_here pos b :
      pos < bufLen -> ld buffer pos = Some 0xc0 -> ld buffer (pos + 1) = Some 1 -> 1 <= bufLen - (pos + 2) -> ld buffer (pos + 2) = Some b ->
      asks_size buffer bufLen pos b
  | asks_behind pos t n b :
      pos < bufLen -> ld buffer pos = Some t -> ld buffer (pos + 1) = Some n -> n <= bufLen - (pos + 2) -> option_accepted t n ->
      asks_size buffer bufLen (pos + 2 + n) b -> asks_size buffer bufLen pos b.

(** The packet in the read buffer is a connect request or a connect confirm with such
    an option. *)
Definition packet_asks_size (self : CotpConnection) (b : Z) : Prop :=
  let packet := bb_buffer (ct_readBuffer self) in
  exists len t, ld packet 4 = Some len /\ len <= bb_size (ct_readBuffer self) - 4 /\ ld packet 5 = Some t /\ (t = 0xe0 \/ t = 0xd0) /\
    asks_size (ptr_add packet 11) (len - 6) 0 b.

Lemma read_selector_total old buffer bufPos n :
  zlen (ts_value old) = 4 -> bytes_ok (ts_value old) -> bytes_ok buffer -> 0 <= bufPos -> 0 <= n < 5 -> bufPos + n <= zlen buffer ->
  exists bs, ld_range buffer bufPos n = Some bs /\ zlen bs = n /\
    read_selector old buffer bufPos n = Some (mkTSelector n (splice (ts_value old) 0 bs)) /\
    selector_ok (mkTSelector n (splice (ts_value old) 0 bs)).
Proof.
  intros Hv Hvb Hb Hp Hn Hf. pose proof (ld_range_Some buffer bufPos n ltac:(lia) ltac:(lia) ltac:(lia)) as Hr.
  set (bs := take _ _) in Hr. destruct (ld_range_zlen _ _ _ _ Hr) as [Hz _]. pose proof (ld_range_bytes _ _ _ _ Hb Hr) as Hbb.
  exists bs. split; [done|]. split; [done|]. unfold read_selector. rewrite Hr. cbn [mbind option_bind].
  rewrite st_range_splice by lia. split; [done|]. unfold selector_ok. cbn [ts_value ts_size].
  split; [rewrite zlen_splice; lia|]. split; [|lia]. unfold splice.
  apply Forall_app_2; [by apply Forall_take|]. apply Forall_app_2; [done | by apply Forall_drop].
Qed.

(** what parsing options changes *)
Definition only_options (self self' : CotpConnection) : Prop :=
  exists o, self' = with_options self o /\ options_ok o.

Lemma only_options_step self o self' : options_ok o -> only_options (with_options self o) self' -> only_options self self'.
Proof. intros Ho (o' & -> & Ho'). exists o'. split; [by destruct self | done]. Qed.

Lemma with_options_id self : with_options self (ct_options self) = self.
Proof. by destruct self. Qed.

Lemma ct_options_with self o : ct_options (with_options self o) = o.
Proof. by destruct self. Qed.

(** The parser of the options, which has a byte behind the options to read, returns,
    unless it comes to a size that is no [int]. *)
Definition options_parsed (self : CotpConnection) (buffer : list Z) (bufPos bufLen : Z) (r : option (bool * CotpConnection)) : Prop :=
  (exists b, asks_size buffer bufLen bufPos b /\ 31 <= b /\ r = None) \/
  (exists ok self', r = Some (ok, self') /\ only_options self self').

Lemma options_parsed_behind self o buffer bufPos bufLen t n r :
  options_ok o -> bufPos < bufLen -> ld buffer bufPos = Some t -> ld buffer (bufPos + 1) = Some n -> n <= bufLen - (bufPos + 2) -> option_accepted t n ->
  options_parsed (with_options self o) buffer (bufPos + 2 + n) bufLen r -> options_parsed self buffer bufPos bufLen r.
Proof.
  intros Ho Hp Ht Hn Hl Ha [(b & Hb & H31 & Hr)|(ok & s' & Hr & Hs)].
  - left. exists b. split; [by eapply asks_behind | done].
  - right. exists ok, s'. split; [done|]. by eapply only_options_step.
Qed.

Lemma parseOptions_loop_total fuel self buffer bufPos bufLen :
  options_ok (ct_options self) -> bytes_ok buffer ->
  0 <= bufPos <= bufLen -> bufLen + 1 <= zlen buffer -> bufLen - bufPos < Z.of_nat fuel ->
  options_parsed self buffer bufPos bufLen (parseOptions_loop fuel self buffer bufPos bufLen).
Proof.
  revert self bufPos. induction fuel as [|fuel IH]; intros self bufPos Ho Hb Hp Hf Hfuel; [lia|].
  assert (forall ok : bool, options_parsed self buffer bufPos bufLen (Some (ok, self))) as Hstop.
  { intros ok. right. exists ok, self. split; [done|]. exists (ct_options self). by rewrite with_options_id. }
  cbn [parseOptions_loop]. btest; [|apply Hstop].
  destruct (ld_is_Some buffer bufPos) as [t Ht]; [lia|]. rewrite Ht. cbn [mbind option_bind].
  destruct (ld_is_Some buffer (bufPos + 1)) as [n Hn]; [lia|]. rewrite Hn. cbn [mbind option_bind].
  pose proof (ld_byte _ _ _ Hb Hn) as Hnb. unfold is_byte in Hnb. btest; [apply Hstop|].
  assert (forall o, options_ok o -> option_accepted t n ->
    options_parsed self buffer bufPos bufLen (parseOptions_loop fuel (with_options self o) buffer (bufPos + 2 + n) bufLen)) as Hgo.
  { intros o Hoo Ha. eapply options_parsed_behind; [exact Hoo | lia | exact Ht | exact Hn | lia | exact Ha|]. apply IH; rewrite ?ct_options_with; (done || lia). }
  assert (option_accepted t n -> options_parsed self buffer bufPos bufLen (parseOptions_loop fuel self buffer (bufPos + 2 + n) bufLen)) as Hskip.
  { intros Ha. pose proof (Hgo (ct_options self) Ho Ha) as H. by rewrite with_options_id in H. }
  unfold option_accepted in Hgo, Hskip. pose proof Ho as (Hsrc & Hdst & Htp).
  btest; [btest; [|apply Hstop]|btest; [btest; [|apply Hstop]|btest; [btest; [|apply Hstop]|btest; [btest; [|apply Hstop]|]]]].
  - subst. destruct (ld_is_Some buffer (bufPos + 2)) as [b Hbb]; [lia|]. rewrite Hbb. cbn [mbind option_bind].
    pose proof (ld_byte _ _ _ Hb Hbb) as Hbyte. unfold is_byte in Hbyte. unfold shift_int.
    btest; [|left; exists b; split; [by apply asks_here; try lia | done]].
    cbn [mbind option_bind]. rewrite setTpduSize_pow by lia. cbn [mbind option_bind].
    apply Hgo; [|lia]. unfold options_ok. cbn [with_tpduSize co_tSelSrc co_tSelDst co_tpduSize]. split_and!; try done; lia.
  - destruct Hsrc as (H1 & H2 & H3). destruct (read_selector_total (co_tSelSrc (ct_options self)) buffer (bufPos + 2) n)
      as (bs & _ & _ & -> & Hsel); try done; try lia. cbn [mbind option_bind]. apply Hgo; [done | lia].
  - destruct Hdst as (H1 & H2 & H3). destruct (read_selector_total (co_tSelDst (ct_options self)) buffer (bufPos + 2) n)
      as (bs & _ & _ & -> & Hsel); try done; try lia. cbn [mbind option_bind]. apply Hgo; [done | lia].
  - subst. apply Hskip. lia.
  - apply Hskip. lia.
Qed.

(** * Arbitrary traffic *)

(** What the receiver keeps, whatever arrives. The read buffer is larger than
    any connect TPDU, so that the bytes the parser may read behind one are
    still inside. *)
Record rx_safe (self : CotpConnection) : Prop := {
  rs_extension : extension_ok self;
  rs_options : options_ok (ct_options self);
  rs_payload : byteBuffer_ok (ct_payload self);
  rs_capacity : 261 <= bb_maxSize (ct_readBuffer self) <= zlen (bb_buffer (ct_readBuffer self));
  rs_size : 0 <= bb_size (ct_readBuffer self) <= bb_maxSize (ct_readBuffer self);
  rs_packetSize : 4 <= bb_size (ct_readBuffer self) -> ct_packetSize self <= bb_maxSize (ct_readBuffer self);
  rs_bytes : bytes_ok (bb_buffer (ct_readBuffer self)) /\ bytes_ok (sk_arriving (ct_socket self))
}.

Lemma splice_bytes buffer pos bs : bytes_ok buffer -> bytes_ok bs -> bytes_ok (splice buffer pos bs).
Proof.
  intros H1 H2. unfold splice. apply Forall_app_2; [by apply Forall_take|]. apply Forall_app_2; [done | by apply Forall_drop].
Qed.

Lemma readFromSocket_total self bufPos size :
  let rb := ct_readBuffer self in
  bytes_ok (bb_buffer rb) -> bytes_ok (sk_arriving (ct_socket self)) ->
  0 < size -> 0 <= bufPos -> bufPos + size <= zlen (bb_buffer rb) ->
  exists n ar rs buffer, readFromSocket self bufPos size =
      Some (n, rx_update self ar rs buffer (bb_size rb) (ct_packetSize self)) /\
    -1 <= n <= size /\ zlen buffer = zlen (bb_buffer rb) /\ bytes_ok buffer /\ bytes_ok ar.
Proof.
  intros rb Hb Ha Hs Hp Hf. destruct self as [rr lr pc [sent sr ar rs] op la pl wb [b mx sz] ps eb es ef]. subst rb.
  cbn [ct_socket ct_readBuffer sk_arriving bb_buffer bb_size ct_packetSize] in *.
  unfold readFromSocket, Handleset_waitReady. cbn [ct_socket sk_arriving sk_recvResults sk_sent sk_sendResults].
  destruct (next_result rs) as [w rs1]. cbn [with_socket].
  btest; [|btest]; [by exists (-1), ar, rs1, b; split_and!; try done; lia | by exists 0, ar, rs1, b; split_and!; try done; lia|].
  unfold Socket_read. cbn [sk_arriving sk_recvResults sk_sent sk_sendResults]. destruct (next_result rs1) as [r rs2].
  pose proof (zlen_nonneg ar). btest.
  - cbn [with_socket ct_readBuffer bb_buffer bb_maxSize bb_size]. rewrite st_range_splice by (rewrite ?(@zlen_nil Z); lia).
    cbn [mbind option_bind]. exists (-1), ar, rs2, (splice b bufPos []).
    split_and!; try done; try lia; [apply zlen_splice; rewrite ?(@zlen_nil Z); lia | by apply splice_bytes].
  - set (n := Z.min (Z.min r size) (zlen ar)). cbn [with_socket ct_readBuffer bb_buffer bb_maxSize bb_size].
    rewrite orb_false_iff in E1. destruct E1 as [E1 E2]. bdestr.
    assert (zlen (take (Z.to_nat n) ar) = n) as Hn by (apply zlen_take; lia).
    rewrite st_range_splice by lia. cbn [mbind option_bind]. exists n, (drop (Z.to_nat n) ar), rs2, (splice b bufPos (take (Z.to_nat n) ar)).
    split_and!; try done; try lia; [apply zlen_splice; lia | apply splice_bytes; [done | by apply Forall_take] | by apply Forall_drop].
Qed.

Lemma rx_safe_update self ar rs buffer size ps :
  rx_safe self -> zlen buffer = zlen (bb_buffer (ct_readBuffer self)) -> bytes_ok buffer -> bytes_ok ar ->
  0 <= size <= bb_maxSize (ct_readBuffer self) -> (4 <= size -> ps <= bb_maxSize (ct_readBuffer self)) ->
  rx_safe (rx_update self ar rs buffer size ps).
Proof.
  intros [Hext Hop Hpl Hcap Hsz Hps Hby] Hz Hb Ha Hs Hp. destruct self as [rr lr pc sk op la pl wb [b mx sz] p eb es ef].
  cbn in *. constructor; try done; cbn. lia.
Qed.

Lemma rx_safe_size self n :
  rx_safe self -> 0 <= n <= bb_maxSize (ct_readBuffer self) -> (4 <= n -> ct_packetSize self <= bb_maxSize (ct_readBuffer self)) ->
  rx_safe (with_readSize self n).
Proof.
  intros H Hn Hp. pose proof H as [_ _ _ _ _ _ [Hb Ha]]. rewrite (rx_update_id self), with_readSize_update. by apply rx_safe_update.
Qed.

Definition complete_packet (self : CotpConnection) : Prop := 5 <= bb_size (ct_readBuffer self).

Lemma read_packet_total self bufPos :
  rx_safe self -> 4 <= bufPos <= bb_maxSize (ct_readBuffer self) -> ct_packetSize self <= bb_maxSize (ct_readBuffer self) ->
  exists st self', read_packet self bufPos = Some (st, self') /\ rx_safe self' /\ (st = TPKT_PACKET_COMPLETE -> complete_packet self').
Proof.
  intros Hs Hp Hps. pose proof Hs as [_ _ _ Hcap _ _ [Hb Ha]]. unfold read_packet. btest.
  { do 2 eexists. split; [done|]. split; [|done]. apply rx_safe_size; try done; lia. }
  destruct (readFromSocket_total self bufPos (ct_packetSize self - bufPos)) as (n & ar & rs & buf & -> & Hn & Hz & Hb' & Ha'); try done; try lia.
  cbn [mbind option_bind].
  destruct (rx_update_proj self ar rs buf (bb_size (ct_readBuffer self)) (ct_packetSize self)) as (_ & _ & _ & _ & -> & _).
  btest; [|btest]; rewrite with_readSize_update; do 2 eexists; (split; [done|]); (split; [apply rx_safe_update; try done; lia|]); try done.
  intros _. unfold complete_packet. destruct self. cbn in *. lia.
Qed.

Lemma readToTpktBuffer_total self :
  rx_safe self ->
  exists st self', CotpConnection_readToTpktBuffer self = Some (st, self') /\ rx_safe self' /\
    (st = TPKT_PACKET_COMPLETE -> complete_packet self').
Proof.
  intros Hs. pose proof Hs as [Hext Hop Hpl Hcap Hsz Hps [Hb Ha]]. unfold CotpConnection_readToTpktBuffer. if_false.
  assert (exists fl s1, (if 0 <? ct_socketExtensionBufferFill self then flushBuffer self else Some (true, self)) = Some (fl, s1) /\
    rx_safe s1 /\ ct_readBuffer s1 = ct_readBuffer self /\ ct_packetSize s1 = ct_packetSize self) as (fl & s1 & -> & Hs1 & Hrb & Hpk).
  { btest; [|by do 2 eexists]. destruct (flushBuffer_spec self Hext) as (fl & s1 & -> & Hf & He & _). do 2 eexists. split; [done|].
    destruct Hf as [_ _ _ F4 F5 F6 F7 _ _ F10 _ _]. split; [|done]. constructor; rewrite ?F4, ?F5, ?F6, ?F7, ?F10; done. }
  cbn [mbind option_bind]. rewrite <- Hrb, <- Hpk in *. clear Hrb Hpk.
  destruct fl; cbn [negb]; [|do 2 eexists; split; [done|]; split; [|done]; apply rx_safe_size; try done; lia].
  btest. { do 2 eexists. split; [done|]. split; [|done]. by apply rx_safe_size. }
  btest; [|apply read_packet_total; try done; auto with lia].
  destruct (readFromSocket_total s1 (bb_size (ct_readBuffer s1)) (4 - bb_size (ct_readBuffer s1)))
    as (n & ar & rs & buf & -> & Hn & Hz & Hb' & Ha'); try done; try lia; [by apply Hs1|].
  cbn [mbind option_bind].
  set (s2 := rx_update s1 ar rs buf _ _).
  assert (rx_safe s2) as Hs2 by (apply rx_safe_update; try done).
  destruct (rx_update_proj s1 ar rs buf (bb_size (ct_readBuffer s1)) (ct_packetSize s1)) as (_ & P2 & P3 & P4 & P5 & _). fold s2 in P2, P3, P4, P5.
  assert (rx_safe (with_readSize s2 0)) as Hs20 by (apply rx_safe_size; [done | lia | lia]).
  btest; [by do 2 eexists|]. btest.
  2:{ do 2 eexists. split; [done|]. split; [|done]. apply rx_safe_size; [done | lia | lia]. }
  rewrite P2. assert (forall i, 0 <= i < 4 -> is_Some (ld buf i)) as Hld by (intros i Hi; apply ld_is_Some; lia).
  destruct (Hld 0 ltac:(lia)) as [b0 ->], (Hld 1 ltac:(lia)) as [b1 ->], (Hld 2 ltac:(lia)) as [b2 ->], (Hld 3 ltac:(lia)) as [b3 ->].
  cbn [mbind option_bind]. btest; [|by do 2 eexists].
  set (s3 := with_packetSize s2 _).
  assert (ct_readBuffer s3 = ct_readBuffer s2 /\ rx_safe s3) as [Hr3 Hs3].
  { split; [by unfold s3; destruct s2|]. unfold s3, s2, with_packetSize.
    replace (with_read (rx_update s1 ar rs buf (bb_size (ct_readBuffer s1)) (ct_packetSize s1)) (ct_readBuffer (rx_update s1 ar rs buf (bb_size (ct_readBuffer s1)) (ct_packetSize s1))) (u16 (b2 * 256 + b3)))
      with (rx_update s1 ar rs buf (bb_size (ct_readBuffer s1)) (u16 (b2 * 256 + b3))) by (by destruct s1).
    apply rx_safe_update; try done; lia. }
  btest.
  - do 2 eexists. split; [done|]. split; [|done]. apply rx_safe_size; [done | rewrite Hr3; lia | lia].
  - apply read_packet_total; [done | rewrite Hr3; lia | rewrite Hr3; lia].
Qed.

(** a read inside a pointer into a block *)
Lemma ld_ptr_add buf k i : 0 <= k -> 0 <= i -> ld (ptr_add buf k) i = ld buf (k + i).
Proof.
  intros Hk Hi. unfold ld, ptr_add. if_true. if_true. rewrite lookup_drop. f_equal. lia.
Qed.

Lemma ptr_add_add buf i j : 0 <= i -> 0 <= j -> ptr_add (ptr_add buf i) j = ptr_add buf (i + j).
Proof. intros. unfold ptr_add. rewrite drop_drop. f_equal. lia. Qed.

Lemma getUint16_total buffer : 2 <= zlen buffer -> exists v, getUint16 buffer = Some v.
Proof.
  intros H. unfold getUint16. destruct (ld_is_Some buffer 0) as [a ->]; [lia|]. destruct (ld_is_Some buffer 1) as [b ->]; [lia|]. by eexists.
Qed.

(** add up the constant offsets of a pointer *)
Ltac fold_offsets :=
  repeat match goal with
  | |- context [ptr_add ?b (?x + ?y)] => let z := eval vm_compute in (x + y) in change (ptr_add b (x + y)) with (ptr_add b z)
  end.

(** what parsing a TPDU may change *)
Lemma rx_safe_remote self r p : rx_safe self -> rx_safe (with_remote self r p).
Proof. intros [? ? ? ? ? ? ?]. destruct self. by constructor. Qed.

Lemma rx_safe_options self self' : rx_safe self -> only_options self self' -> rx_safe self'.
Proof. intros [? ? ? ? ? ? ?] (o & -> & Ho). destruct self. by constructor. Qed.

Lemma parseOptions_total self buffer n :
  rx_safe self -> bytes_ok buffer -> 0 <= n -> n + 1 <= zlen buffer ->
  (exists b, asks_size buffer n 0 b /\ 31 <= b /\ parseOptions self buffer n = None) \/
  exists ok self', parseOptions self buffer n = Some (ok, self') /\ rx_safe self'.
Proof.
  intros Hs Hb Hn Hf. pose proof (rs_options _ Hs) as Ho.
  destruct (parseOptions_loop_total (S (Z.to_nat n)) self buffer 0 n) as [Hu|(ok & s' & H & Hop)]; try done; try lia; [by left|].
  right. exists ok, s'. split; [done|]. by eapply rx_safe_options.
Qed.

Lemma parseIncomingMessage_total self :
  rx_safe self -> complete_packet self ->
  (exists b, packet_asks_size self b /\ 31 <= b /\ CotpConnection_parseIncomingMessage self = None) \/
  exists ind self', CotpConnection_parseIncomingMessage self = Some (ind, self') /\ rx_safe self' /\
    bb_size (ct_readBuffer self') = 0.
Proof.
  intros Hs Hc. pose proof Hs as [Hext Hop [Hpl1 Hpl2] Hcap Hsz Hps [Hb Ha]]. unfold complete_packet in Hc.
  assert ((exists b, packet_asks_size self b /\ 31 <= b /\ parseCotpMessage self = None) \/
    exists ind s1, parseCotpMessage self = Some (ind, s1) /\ rx_safe s1) as [(b & Hask & H31 & Hp)|(ind & s1 & Hp & Hs1)].
  { unfold parseCotpMessage. rewrite !ptr_add_add by lia. set (buf := bb_buffer (ct_readBuffer self)) in *.
    set (size := bb_size (ct_readBuffer self)) in *.
    destruct (ld_is_Some (ptr_add buf 4) 0) as [len Hlen]; [rewrite zlen_ptr_add; lia|].
    rewrite Hlen. cbn [mbind option_bind]. assert (is_byte len) as Hlb by (eapply ld_byte; [|exact Hlen]; by apply Forall_drop).
    unfold is_byte in Hlb. btest; [right; by do 2 eexists|].
    destruct (ld_is_Some (ptr_add buf 4) 1) as [t Ht]; [rewrite zlen_ptr_add; lia|]. rewrite Ht. cbn [mbind option_bind].
    assert (forall r p, 6 <= len -> t = 0xe0 \/ t = 0xd0 ->
      (exists b, packet_asks_size self b /\ 31 <= b /\ parseOptions (with_remote self r p) (ptr_add buf 11) (len - 6) = None) \/
      exists ok s', parseOptions (with_remote self r p) (ptr_add buf 11) (len - 6) = Some (ok, s') /\ rx_safe s') as Hopt.
    { intros r p Hl6 Htype. destruct (parseOptions_total (with_remote self r p) (ptr_add buf 11) (len - 6)) as [(b & H1 & H2 & H3)|H];
        [by apply rx_safe_remote | by apply Forall_drop | lia | rewrite zlen_ptr_add; lia | left | by right].
      exists b. split; [|done]. exists len, t. rewrite ld_ptr_add in Hlen, Ht by lia. split_and!; (done || lia). }
    destruct (getUint16_total (ptr_add buf 8)) as [v1 Hv1]; [rewrite zlen_ptr_add; lia|].
    destruct (getUint16_total (ptr_add buf 6)) as [v2 Hv2]; [rewrite zlen_ptr_add; lia|].
    destruct (ld_is_Some (ptr_add buf 10) 0) as [pc Hpc]; [rewrite zlen_ptr_add; lia|].
    destruct (ld_is_Some (ptr_add buf 6) 0) as [fc Hfc]; [rewrite zlen_ptr_add; lia|].
    btest; [|btest; [|btest]].
    - unfold parseConnectRequestTpdu. btest; [right; by do 2 eexists|]. rewrite !ptr_add_add by lia. fold_offsets.
      rewrite Hv1. cbn [mbind option_bind]. unfold getUint8. rewrite Hpc. cbn [mbind option_bind].
      destruct (Hopt v1 pc ltac:(lia) ltac:(lia)) as [(b & H1 & H2 & ->)|(ok & s' & -> & Hs')]; cbn [mbind option_bind]; [left; by exists b | right; by do 2 eexists].
    - unfold parseConnectConfirmTpdu. btest; [right; by do 2 eexists|]. rewrite !ptr_add_add by lia. fold_offsets.
      rewrite Hv2. cbn [mbind option_bind]. unfold getUint8. rewrite Hpc. cbn [mbind option_bind].
      destruct (Hopt v2 pc ltac:(lia) ltac:(lia)) as [(b & H1 & H2 & ->)|(ok & s' & -> & Hs')]; cbn [mbind option_bind]; [left; by exists b | right; by do 2 eexists].
    - unfold parseDataTpdu. btest; [right; by do 2 eexists|]. unfold getUint8. fold_offsets. rewrite Hfc. cbn [mbind option_bind negb].
      unfold addPayloadToBuffer. set (s1 := with_isLastDataUnit self _). assert (rx_safe s1) as Hs1 by (destruct self; by constructor).
      btest; [right; by do 2 eexists|]. assert (ct_payload s1 = ct_payload self) as -> by (unfold s1; by destruct self).
      btest; [right; by do 2 eexists|]. rewrite ld_range_Some by (rewrite ?zlen_ptr_add; lia). cbn [mbind option_bind].
      set (bs := take _ _). assert (zlen bs = size - 4 - 3) as Hbs.
      { unfold bs. rewrite drop_0. apply zlen_take. rewrite zlen_ptr_add; lia. }
      rewrite st_range_splice by lia. cbn [mbind option_bind negb]. right. do 2 eexists. split; [done|].
      destruct Hs1 as [? ? ? ? ? ? ?]. destruct s1 as [a1 a2 a3 a4 a5 a6 a7 a8 a9 a10 a11 a12 a13]. constructor; try done. unfold byteBuffer_ok. cbn [ct_payload with_payload bb_size bb_maxSize bb_buffer].
      rewrite zlen_splice by lia. lia.
    - right; by do 2 eexists. }
  { left. exists b. split_and!; try done. unfold CotpConnection_parseIncomingMessage. by rewrite Hp. }
  right. unfold CotpConnection_parseIncomingMessage. rewrite Hp. cbn [mbind option_bind]. do 2 eexists. split; [done|].
  pose proof Hs1 as [? ? ? ? ? ? [? ?]]. split; [|by destruct s1].
  destruct s1. constructor; try done; cbn in *; lia.
Qed.


(** * The options the library writes *)

Definition selector_octets (s : TSelector) : list Z := take (Z.to_nat (ts_size s)) (ts_value s).

Definition selector_bytes (code : Z) (s : TSelector) : list Z :=
  if ts_size s =? 0 then [] else code :: ts_size s :: selector_octets s.

Definition options_bytes (o : CotpOptions) : list Z :=
  (if co_tpduSize o =? 0 then [] else [0xc0; 0x01; co_tpduSize o]) ++
  selector_bytes 0xc2 (co_tSelDst o) ++ selector_bytes 0xc1 (co_tSelSrc o).

Lemma zlen_selector_octets s : selector_ok s -> zlen (selector_octets s) = ts_size s.
Proof. intros (Hv & _ & Hs). apply zlen_take. lia. Qed.

Lemma zlen_selector_bytes code s : selector_ok s -> zlen (selector_bytes code s) = if ts_size s =? 0 then 0 else 2 + ts_size s.
Proof.
  intros H. unfold selector_bytes. btest; [done|]. pose proof (zlen_selector_octets s H). zlia.
Qed.

Lemma getOptionsLength_spec self :
  options_ok (ct_options self) ->
  getOptionsLength self = zlen (options_bytes (ct_options self)) /\ 0 <= getOptionsLength self <= 15.
Proof.
  intros (Hs & Hd & Ht). unfold getOptionsLength, options_bytes. rewrite !zlen_app, !zlen_selector_bytes by done.
  destruct Hs as (_ & _ & ?), Hd as (_ & _ & ?).
  destruct (co_tpduSize (ct_options self) =? 0), (ts_size (co_tSelDst (ct_options self)) =? 0), (ts_size (co_tSelSrc (ct_options self)) =? 0);
    rewrite ?zlen_cons, ?(@zlen_nil Z); lia.
Qed.

Lemma write_selector_puts code s buffer bufPos :
  selector_ok s -> write_selector code s buffer bufPos = puts (selector_bytes code s) buffer bufPos.
Proof.
  intros (Hv & Hb & Hs). unfold write_selector, selector_bytes. btest; [done|].
  assert (u8 (ts_size s) = ts_size s) as -> by (unfold u8; apply Z.mod_small; lia).
  change (code :: ts_size s :: selector_octets s) with ([code; ts_size s] ++ selector_octets s). rewrite puts_app.
  destruct (puts [code; ts_size s] buffer bufPos) as [[bf p]|]; cbn [mbind option_bind]; [|done].
  rewrite copy_loop_puts by lia. by rewrite drop_0.
Qed.

Lemma writeOptions_spec self wb :
  options_ok (ct_options self) -> ct_writeBuffer self = Some wb -> 0 <= bb_size wb -> bb_size wb + 15 <= zlen (bb_buffer wb) ->
  writeOptions self = Some (with_writeBuffer self (mkByteBuffer
    (splice (bb_buffer wb) (bb_size wb) (options_bytes (ct_options self))) (bb_maxSize wb)
    (bb_size wb + zlen (options_bytes (ct_options self))))).
Proof.
  intros Ho Hwb Hs Hf. destruct (getOptionsLength_spec self Ho) as [Hl1 Hl2]. destruct Ho as (Hsrc & Hdst & Ht).
  unfold writeOptions, on_writeBuffer. rewrite Hwb. cbn [mbind option_bind].
  assert (forall k : list Z * Z -> option ByteBuffer,
    ('(buffer, bufPos) ← (if co_tpduSize (ct_options self) =? 0 then Some (bb_buffer wb, bb_size wb)
                          else puts [0xc0; 0x01; co_tpduSize (ct_options self)] (bb_buffer wb) (bb_size wb));
     '(buffer, bufPos) ← write_selector 0xc2 (co_tSelDst (ct_options self)) buffer bufPos;
     '(buffer, bufPos) ← write_selector 0xc1 (co_tSelSrc (ct_options self)) buffer bufPos; k (buffer, bufPos))
    = '(buffer, bufPos) ← puts (options_bytes (ct_options self)) (bb_buffer wb) (bb_size wb); k (buffer, bufPos)) as Hk.
  { intros k. unfold options_bytes. rewrite puts_app.
    replace (if co_tpduSize (ct_options self) =? 0 then Some (bb_buffer wb, bb_size wb) else puts [0xc0; 1; co_tpduSize (ct_options self)] (bb_buffer wb) (bb_size wb))
      with (puts (if co_tpduSize (ct_options self) =? 0 then [] else [0xc0; 1; co_tpduSize (ct_options self)]) (bb_buffer wb) (bb_size wb))
      by (by destruct (co_tpduSize (ct_options self) =? 0)).
    destruct (puts _ (bb_buffer wb) (bb_size wb)) as [[bf p]|]; cbn [mbind option_bind]; [|done].
    rewrite write_selector_puts, puts_app by done. destruct (puts _ bf p) as [[bf2 p2]|]; cbn [mbind option_bind]; [|done].
    by rewrite write_selector_puts. }
  rewrite (Hk (fun '(buffer, bufPos) => Some (mkByteBuffer buffer (bb_maxSize wb) bufPos))).
  rewrite puts_fits by lia. done.
Qed.

(** one option parsed *)
Lemma parse_option_size fuel self buffer pos len b :
  at_pos buffer pos [0xc0; 1; b] -> 0 <= b <= 13 -> pos + 3 <= len ->
  parseOptions_loop (S fuel) self buffer pos len =
  parseOptions_loop fuel (with_options self (with_tpduSize (ct_options self) b)) buffer (pos + 3) len.
Proof.
  intros Hat Hb Hl. apply at_pos_cons in Hat as [H0 Hat]. apply at_pos_cons in Hat as [H1 Hat]. apply at_pos_cons in Hat as [H2 _].
  replace (pos + 1 + 1) with (pos + 2) in H2 by lia.
  cbn [parseOptions_loop]. if_true. rewrite H0. cbn [mbind option_bind]. rewrite H1. cbn [mbind option_bind]. if_false.
  change (0xc0 =? 0xc0) with true. change (1 =? 1) with true. cbv iota. rewrite H2. cbn [mbind option_bind].
  unfold shift_int. if_true. cbn [mbind option_bind]. rewrite setTpduSize_pow by lia. cbn [mbind option_bind].
  replace (Z.min b 13) with b by lia. f_equal. lia.
Qed.

Lemma parse_option_selector fuel self buffer pos len code s :
  (code = 0xc1 \/ code = 0xc2) -> options_ok (ct_options self) -> selector_ok s -> ts_size s <> 0 ->
  at_pos buffer pos (selector_bytes code s) -> pos + 2 + ts_size s <= len ->
  exists s', selector_octets s' = selector_octets s /\ ts_size s' = ts_size s /\ selector_ok s' /\
  parseOptions_loop (S fuel) self buffer pos len =
  parseOptions_loop fuel (with_options self
    (if code =? 0xc1 then mkCotpOptions s' (co_tSelDst (ct_options self)) (co_tpduSize (ct_options self))
     else mkCotpOptions (co_tSelSrc (ct_options self)) s' (co_tpduSize (ct_options self)))) buffer (pos + 2 + ts_size s) len.
Proof.
  intros Hcode (Hsrc & Hdst & _) Hs Hne Hat Hl. pose proof (zlen_selector_octets s Hs) as Hz. destruct Hs as (Hv & Hvb & Hsz).
  unfold selector_bytes in Hat. replace (ts_size s =? 0) with false in Hat by lia.
  apply at_pos_cons in Hat as [H0 Hat]. apply at_pos_cons in Hat as [H1 Hat]. replace (pos + 1 + 1) with (pos + 2) in Hat by lia.
  set (old := if code =? 0xc1 then co_tSelSrc (ct_options self) else co_tSelDst (ct_options self)).
  assert (selector_ok old) as (Ho1 & Ho2 & Ho3) by (unfold old; by destruct (code =? 0xc1)).
  assert (read_selector old buffer (pos + 2) (ts_size s) = Some (mkTSelector (ts_size s) (splice (ts_value old) 0 (selector_octets s)))) as Hread.
  { unfold read_selector. rewrite <- Hz, (at_pos_range _ _ _ Hat). cbn [mbind option_bind]. rewrite st_range_splice by lia. done. }
  exists (mkTSelector (ts_size s) (splice (ts_value old) 0 (selector_octets s))). split; [|split; [done|split]].
  - unfold selector_octets at 1. cbn [ts_size ts_value]. unfold splice. rewrite take_0, app_nil_l, <- Hz, zlen_to_nat. apply take_app_length.
  - unfold selector_ok. cbn [ts_size ts_value]. split; [rewrite zlen_splice; lia|]. split; [|lia].
    apply splice_bytes; [done|]. by apply Forall_take.
  - cbn [parseOptions_loop]. if_true. rewrite H0. cbn [mbind option_bind]. rewrite H1. cbn [mbind option_bind]. if_false.
    destruct Hcode as [-> | ->].
    + change (0xc1 =? 0xc0) with false. change (0xc1 =? 0xc1) with true in *. cbv iota in *. if_true.
      unfold old in *. rewrite Hread. cbn [mbind option_bind]. done.
    + change (0xc2 =? 0xc0) with false. change (0xc2 =? 0xc1) with false in *. change (0xc2 =? 0xc2) with true. cbv iota in *. if_true.
      unfold old in *. rewrite Hread. cbn [mbind option_bind]. done.
Qed.

(** the same options, up to the unused bytes of the selector arrays *)
Definition same_options (o o' : CotpOptions) : Prop :=
  co_tpduSize o' = co_tpduSize o /\
  ts_size (co_tSelSrc o') = ts_size (co_tSelSrc o) /\ selector_octets (co_tSelSrc o') = selector_octets (co_tSelSrc o) /\
  ts_size (co_tSelDst o') = ts_size (co_tSelDst o) /\ selector_octets (co_tSelDst o') = selector_octets (co_tSelDst o).

Definition options_present (o : CotpOptions) : Prop :=
  options_ok o /\ co_tpduSize o <> 0 /\ ts_size (co_tSelSrc o) <> 0 /\ ts_size (co_tSelDst o) <> 0.

Lemma with_options_twice self a b : with_options (with_options self a) b = with_options self b.
Proof. by destruct self. Qed.

(** What one side writes the other side reads. *)
Lemma parseOptions_written self o buffer n :
  options_ok (ct_options self) -> options_present o -> at_pos buffer 0 (options_bytes o) -> n = zlen (options_bytes o) ->
  exists o', parseOptions self buffer n = Some (true, with_options self o') /\ same_options o o' /\ options_ok o'.
Proof.
  intros Hself ((Hsrc & Hdst & Htp) & Htp0 & Hs0 & Hd0) Hat ->.
  pose proof (zlen_selector_bytes 0xc2 _ Hdst) as Hz2. pose proof (zlen_selector_bytes 0xc1 _ Hsrc) as Hz1.
  pose proof Hsrc as (_ & _ & Hs1). pose proof Hdst as (_ & _ & Hd1).
  replace (ts_size (co_tSelDst o) =? 0) with false in Hz2 by lia. replace (ts_size (co_tSelSrc o) =? 0) with false in Hz1 by lia.
  unfold options_bytes in *. replace (co_tpduSize o =? 0) with false in * by lia.
  rewrite !zlen_app, Hz1, Hz2. apply at_pos_app in Hat as [Ha Hat]. apply at_pos_app in Hat as [Hb Hc].
  rewrite Hz2 in Hc. rewrite !zlen_cons, (@zlen_nil Z) in Hb, Hc |- *. unfold parseOptions.
  set (len := 1 + (1 + (1 + 0)) + (2 + ts_size (co_tSelDst o) + (2 + ts_size (co_tSelSrc o)))).
  destruct (Z.to_nat len) as [|[|[|fuel]]] eqn:Hf; [lia.. |].
  rewrite (parse_option_size _ self buffer 0 len (co_tpduSize o)); [|done|lia|lia].
  set (o1 := with_tpduSize (ct_options self) (co_tpduSize o)).
  assert (options_ok o1) as Ho1 by (destruct Hself as (? & ? & ?); unfold options_ok, o1; done).
  destruct (parse_option_selector (S (S fuel)) (with_options self o1) buffer (0 + 3) len 0xc2 (co_tSelDst o)) as (d' & Hd2 & Hd3 & Hd4 & ->);
    rewrite ?ct_options_with; try done; try lia.
  rewrite with_options_twice. change (0xc2 =? 0xc1) with false. cbv iota.
  set (o2 := mkCotpOptions (co_tSelSrc o1) d' (co_tpduSize o1)).
  assert (options_ok o2) as Ho2 by (destruct Ho1 as (? & ? & ?); unfold options_ok, o2; done).
  destruct (parse_option_selector (S fuel) (with_options self o2) buffer (0 + 3 + 2 + ts_size (co_tSelDst o)) len 0xc1 (co_tSelSrc o)) as (s' & Hs2 & Hs3 & Hs4 & ->);
    rewrite ?ct_options_with; try done; try lia.
  { replace (0 + 3 + 2 + ts_size (co_tSelDst o)) with (0 + (1 + (1 + (1 + 0))) + (2 + ts_size (co_tSelDst o))) by lia. done. }
  rewrite with_options_twice. change (0xc1 =? 0xc1) with true. cbv iota. cbn [parseOptions_loop]. if_false.
  eexists. split; [done|]. unfold same_options, options_ok. cbn [co_tSelSrc co_tSelDst co_tpduSize o2 o1 with_tpduSize]. split_and!; done || lia.
Qed.

(** * Connect TPDUs *)

(** a connect request (code 0xe0) or confirm (code 0xd0) in its TPKT *)
Definition connect_packet (code dstRef srcRef class : Z) (o : CotpOptions) : list Z :=
  let n := zlen (options_bytes o) in
  [3; 0; (11 + n) / 256; (11 + n) mod 256; 6 + n; code; dstRef / 256; dstRef mod 256; srcRef / 256; srcRef mod 256; class]
  ++ options_bytes o.

Lemma zlen_connect_packet code d s c o : zlen (connect_packet code d s c o) = 11 + zlen (options_bytes o).
Proof. unfold connect_packet. zlia. Qed.

Lemma zlen_options_bytes o : options_ok o -> 0 <= zlen (options_bytes o) <= 15.
Proof.
  intros Ho. destruct (getOptionsLength_spec (mkCotpConnection 0 0 0 (mkSocket [] [] [] []) o false (mkByteBuffer [] 0 0) None (mkByteBuffer [] 0 0) 0 None 0 0) Ho) as [H1 H2].
  cbn [ct_options] in H1. lia.
Qed.

(** The headers of a connect TPDU, the options and the send. *)
Lemma send_connect self wb code dstRef srcRef class :
  let o := ct_options self in
  let n := zlen (options_bytes o) in
  ct_writeBuffer self = Some wb -> 26 <= bb_maxSize wb <= zlen (bb_buffer wb) -> options_ok o ->
  extension_ok self -> extension_room self (11 + n) ->
  exists ok self',
    (self ← writeRfc1006Header self (11 + n);
     self ← on_writeBuffer self (fun wb => write_at wb 4
       [6 + n; code; dstRef / 256; dstRef mod 256; srcRef / 256; srcRef mod 256; class] 11);
     self ← writeOptions self;
     '(sent, self) ← sendBuffer self;
     Some (if sent : bool then COTP_OK else COTP_ERROR, self))
    = Some (if ok : bool then COTP_OK else COTP_ERROR, self') /\
    sends self self' (connect_packet code dstRef srcRef class o) ok.
Proof.
  intros o n Hwb Hmx Ho Hext Hroom. pose proof (zlen_options_bytes o Ho) as Hn. fold n in Hn.
  destruct (len_octets (11 + n)) as [Hhi Hlo]; [lia|].
  unfold writeRfc1006Header, on_writeBuffer. rewrite Hwb. cbn [mbind option_bind]. unfold write_at.
  change 0x100 with 256. change 0xff with 255. rewrite Hhi, Hlo, puts_fits by zlia. cbn [mbind option_bind].
  set (h := [3; 0; (11 + n) / 256; (11 + n) mod 256]).
  set (g := [6 + n; code; dstRef / 256; dstRef mod 256; srcRef / 256; srcRef mod 256; class]).
  set (s1 := with_writeBuffer self _). destruct (with_writeBuffer_proj self (mkByteBuffer (splice (bb_buffer wb) 0 h) (bb_maxSize wb) 4)) as (W1 & _).
  fold s1 in W1. rewrite W1. cbn [mbind option_bind bb_buffer bb_maxSize].
  rewrite (puts_fits g) by (rewrite ?zlen_splice; unfold h, g; zlia). cbn [mbind option_bind].
  change 4 with (zlen h). rewrite splice_app by (unfold h, g; zlia).
  set (wb2 := mkByteBuffer (splice (bb_buffer wb) 0 (h ++ g)) (bb_maxSize wb) 11).
  assert (with_writeBuffer s1 wb2 = with_writeBuffer self wb2) as -> by (unfold s1; by destruct self).
  destruct (with_writeBuffer_proj self wb2) as (V1 & _).
  assert (ct_options (with_writeBuffer self wb2) = o) as Ho2 by (unfold o; by destruct self).
  rewrite (writeOptions_spec (with_writeBuffer self wb2) wb2);
    [|by rewrite Ho2|done|cbn; lia|cbn [wb2 bb_buffer bb_size]; rewrite zlen_splice; unfold h, g; zlia].
  rewrite Ho2. cbn [mbind option_bind wb2 bb_buffer bb_size bb_maxSize].
  change 11 with (zlen (h ++ g)) at 1. rewrite splice_app by (fold n; unfold h, g; zlia).
  set (wb3 := mkByteBuffer (splice (bb_buffer wb) 0 ((h ++ g) ++ options_bytes o)) (bb_maxSize wb) (11 + zlen (options_bytes o))).
  assert (with_writeBuffer (with_writeBuffer self wb2) wb3 = with_writeBuffer self wb3) as -> by (by destruct self).
  destruct (with_writeBuffer_proj self wb3) as (U1 & U2 & U3 & U4 & U5 & U6 & U7).
  destruct (sendBuffer_spec (with_writeBuffer self wb3) wb3 U1) as (ok & s3 & -> & Hs & _).
  { unfold byteBuffer_ok, wb3. cbn [bb_size bb_maxSize bb_buffer]. fold n. rewrite zlen_splice; unfold h, g; zlia. }
  { by apply U6. }
  { unfold extension_room. rewrite U2, U3, U4. unfold wb3. cbn [bb_size]. fold n. done. }
  cbn [mbind option_bind]. exists ok, s3. split; [done|]. apply (sends_writeBuffer _ wb3).
  replace (connect_packet code dstRef srcRef class o) with (byteBuffer_bytes wb3); [done|].
  unfold byteBuffer_bytes, wb3. cbn [bb_size bb_buffer]. unfold splice. rewrite take_0, app_nil_l.
  replace (Z.to_nat (11 + zlen (options_bytes o))) with (length ((h ++ g) ++ options_bytes o)).
  - by rewrite take_app_length.
  - unfold h, g, zlen. rewrite !length_app. cbn [length]. lia.
Qed.

Lemma octets_ref r : 0 <= r < 65536 -> u16 (r / 256 * 256 + r mod 256) = r.
Proof.
  intros Hr. pose proof (Z.div_mod r 256 ltac:(lia)). unfold u16. replace (r / 256 * 256 + r mod 256) with r by lia. apply Z.mod_small. lia.
Qed.

(** the connection after a connect TPDU *)
Definition after_connect (self : CotpConnection) (remoteRef class : Z) (o : CotpOptions) : CotpConnection :=
  with_read (with_options (with_remote self remoteRef class) o)
    (mkByteBuffer (bb_buffer (ct_readBuffer self)) (bb_maxSize (ct_readBuffer self)) 0) 0.

(** Both connect TPDUs are accepted. The request tells the reference of its
    sender; from the confirm the reference of its addressee is taken. *)
Lemma parse_connect_packet self code dstRef srcRef class o :
  (code = 0xe0 \/ code = 0xd0) -> 0 <= dstRef < 65536 -> 0 <= srcRef < 65536 ->
  holds (bb_buffer (ct_readBuffer self)) (connect_packet code dstRef srcRef class o) ->
  bb_size (ct_readBuffer self) = zlen (connect_packet code dstRef srcRef class o) ->
  options_ok (ct_options self) -> options_present o ->
  exists o', CotpConnection_parseIncomingMessage self =
      Some (COTP_CONNECT_INDICATION, after_connect self (if code =? 0xe0 then srcRef else dstRef) class o') /\
    same_options o o' /\ options_ok o'.
Proof.
  intros Hcode Hdst Hsrc (post & Hbuf) Hsz Hself Ho. pose proof (zlen_options_bytes o (proj1 Ho)) as Hn.
  rewrite zlen_connect_packet in Hsz.
  destruct self as [rr lr pc sk op la pl wb [b mx s] ps eb es ef]. cbn [ct_readBuffer bb_buffer bb_size ct_options] in *. subst b s.
  unfold CotpConnection_parseIncomingMessage, parseCotpMessage. cbn [ct_readBuffer bb_buffer bb_size].
  unfold connect_packet. set (n := zlen (options_bytes o)) in *. cbn [app].
  set (m := (6 + n) :: code :: _). change (ptr_add (3 :: 0 :: (11 + n) / 256 :: (11 + n) mod 256 :: m) 4) with m. change (ld m 0) with (Some (6 + n)). change (ld m 1) with (Some code). cbn [mbind option_bind].
  replace (11 + n - 4 <? 6 + n) with false by lia. cbv iota.
  set (self := mkCotpConnection _ _ _ _ _ _ _ _ _ _ _ _ _).
  assert (forall r, exists o', parseOptions (with_remote self r class) (options_bytes o ++ post) (6 + n - 6) =
    Some (true, with_options (with_remote self r class) o') /\ same_options o o' /\ options_ok o') as Hopt.
  { intros r. apply parseOptions_written; [done | done | apply at_pos_prefix | lia]. }
  assert (ptr_add m 2 = dstRef / 256 :: dstRef mod 256 :: srcRef / 256 :: srcRef mod 256 :: class :: options_bytes o ++ post) as Hm by done.
  rewrite Hm. set (q := dstRef / 256 :: _).
  assert (getUint16 (ptr_add q 2) = Some srcRef) as Hq2.
  { unfold getUint16, q, ptr_add. change (Z.to_nat 2) with 2%nat. cbn [skipn].
    change (Some (u16 (srcRef / 256 * 0x100 + srcRef mod 256)) = Some srcRef). change 0x100 with 256. by rewrite octets_ref. }
  assert (getUint16 q = Some dstRef) as Hq0.
  { unfold getUint16, q. change (Some (u16 (dstRef / 256 * 0x100 + dstRef mod 256)) = Some dstRef). change 0x100 with 256. by rewrite octets_ref. }
  assert (getUint8 (ptr_add q 4) = Some class) as Hq4 by done.
  assert (ptr_add q 5 = options_bytes o ++ post) as Hq5 by done.
  destruct Hcode as [-> | ->].
  - change (0xe0 =? 0xe0) with true. cbv iota. unfold parseConnectRequestTpdu. if_false. rewrite Hq2. cbn [mbind option_bind].
    rewrite Hq4. cbn [mbind option_bind]. rewrite Hq5. destruct (Hopt srcRef) as (o' & -> & Hsame & Hok). cbn [mbind option_bind].
    by exists o'.
  - change (0xd0 =? 0xe0) with false. change (0xd0 =? 0xd0) with true. cbv iota. unfold parseConnectConfirmTpdu. if_false. rewrite Hq0. cbn [mbind option_bind].
    rewrite Hq4. cbn [mbind option_bind]. rewrite Hq5. destruct (Hopt dstRef) as (o' & -> & Hsame & Hok). cbn [mbind option_bind].
    by exists o'.
Qed.

(** ** The handshake *)

(** The connection can send the packets of the handshake. *)
Definition connect_ready (self : CotpConnection) : Prop :=
  (exists wb, ct_writeBuffer self = Some wb /\ 26 <= bb_maxSize wb <= zlen (bb_buffer wb)) /\
  extension_ok self /\ extension_room self 26 /\ is_Some (ct_socketExtensionBuffer self) /\ sends_well self /\ 0 <= ct_localRef self < 65536.

Lemma ref_octets r : 0 <= r < 65536 -> u8 (Z.quot r 0x100) = r / 256 /\ u8 (Z.land r 0xff) = r mod 256.
Proof. apply len_octets. Qed.

Lemma room_le self n m : m <= n -> extension_room self n -> extension_room self m.
Proof. unfold extension_room. destruct (ct_socketExtensionBuffer self); lia. Qed.

Lemma allocateWriteBuffer_present self wb : ct_writeBuffer self = Some wb -> allocateWriteBuffer self = self.
Proof. unfold allocateWriteBuffer. by intros ->. Qed.

Lemma sends_stream self self' bs ok :
  sends self self' bs ok -> is_Some (ct_socketExtensionBuffer self) -> sends_well self ->
  ok = true /\ tx_frame self self' /\ tx_stream self' = tx_stream self ++ bs.
Proof. intros (Hf & _ & _ & (p & _ & Hs & Hp) & Hok) Hi Hw. specialize (Hok Hi Hw). split; [done|]. split; [done|]. by rewrite Hs, Hp. Qed.

Definition request_options (self : CotpConnection) (p : IsoConnectionParameters) : CotpOptions :=
  mkCotpOptions (ia_tSelector (ip_local p)) (ia_tSelector (ip_remote p)) (co_tpduSize (ct_options self)).

Lemma sendConnectionRequest_spec self p :
  connect_ready self -> options_ok (request_options self p) ->
  exists self', CotpConnection_sendConnectionRequestMessage self p = Some (COTP_OK, self') /\
    tx_frame (with_options self (request_options self p)) self' /\
    tx_stream self' = tx_stream self ++ connect_packet 0xe0 0 (ct_localRef self) 0 (request_options self p).
Proof.
  intros ((wb & Hwb & Hmx) & Hext & Hroom & Hi & Hw & Hr) Ho. unfold CotpConnection_sendConnectionRequestMessage.
  rewrite (allocateWriteBuffer_present self wb Hwb). fold (request_options self p). set (self1 := with_options self _).
  assert (ct_options self1 = request_options self p) as Ho1 by apply ct_options_with.
  destruct (getOptionsLength_spec self1) as [Hl Hn]; [by rewrite Ho1|].
  assert (ct_writeBuffer self1 = Some wb) as Hwb1 by (unfold self1; by destruct self). rewrite Hwb1. cbn [mbind option_bind]. if_false.
  destruct (send_connect self1 wb 0xe0 0 (ct_localRef self1) 0) as (ok & self' & Hsend & Hs); try done.
  { by rewrite Ho1. }
  { unfold self1. by destruct self. }
  { apply (room_le self1 26); [rewrite <- Hl; lia | unfold self1; by destruct self]. }
  rewrite <- Hl in Hsend. destruct (ref_octets (ct_localRef self1)) as [Ha Hb]; [by destruct self|].
  rewrite (u8_small (getOptionsLength self1 + 6)) by lia. replace (getOptionsLength self1 + 6 + 5) with (11 + getOptionsLength self1) by lia.
  rewrite (Z.add_comm (getOptionsLength self1) 6).
  assert (forall s, writeRfc1006Header self1 (11 + getOptionsLength self1) = Some s -> ct_localRef s = ct_localRef self1) as Hsame.
  { intros s. unfold writeRfc1006Header, on_writeBuffer. rewrite Hwb1. cbn [mbind option_bind]. destruct (write_at _ _ _ _); [|done].
    intros [= <-]. by destruct self1. }
  destruct (writeRfc1006Header self1 _) as [s|]; [|done]. cbn [mbind option_bind] in Hsend |- *. rewrite (Hsame s eq_refl), Ha, Hb.
  change (0 / 256) with 0 in Hsend. change (0 mod 256) with 0 in Hsend. rewrite Hsend.
  destruct (sends_stream _ _ _ _ Hs) as (-> & Hf & Hst); [unfold self1; by destruct self | unfold self1; by destruct self|]. exists self'. split; [done|]. split; [done|].
  rewrite Hst, Ho1. unfold self1. by destruct self.
Qed.

Lemma sendConnectionResponse_spec self :
  connect_ready self -> options_ok (ct_options self) -> 0 <= ct_remoteRef self < 65536 -> 0 <= ct_protocolClass self < 256 ->
  exists self', CotpConnection_sendConnectionResponseMessage self = Some (COTP_OK, self') /\ tx_frame self self' /\
    tx_stream self' = tx_stream self ++ connect_packet 0xd0 (ct_remoteRef self) (ct_localRef self) (ct_protocolClass self) (ct_options self).
Proof.
  intros ((wb & Hwb & Hmx) & Hext & Hroom & Hi & Hw & Hr) Ho Hrr Hc. unfold CotpConnection_sendConnectionResponseMessage.
  rewrite (allocateWriteBuffer_present self wb Hwb). destruct (getOptionsLength_spec self Ho) as [Hl Hn].
  destruct (send_connect self wb 0xd0 (ct_remoteRef self) (ct_localRef self) (ct_protocolClass self)) as (ok & self' & Hsend & Hs); try done.
  { apply (room_le self 26); [rewrite <- Hl; lia | done]. }
  rewrite <- Hl in Hsend. destruct (ref_octets (ct_localRef self) Hr) as [Ha Hb]. destruct (ref_octets (ct_remoteRef self) Hrr) as [Ha' Hb'].
  assert (forall s, writeRfc1006Header self (11 + getOptionsLength self) = Some s ->
    ct_localRef s = ct_localRef self /\ ct_remoteRef s = ct_remoteRef self /\ ct_protocolClass s = ct_protocolClass self) as Hsame.
  { intros s. unfold writeRfc1006Header, on_writeBuffer. rewrite Hwb. cbn [mbind option_bind]. destruct (write_at _ _ _ _); [|done].
    intros [= <-]. by destruct self. }
  destruct (writeRfc1006Header self _) as [s|]; [|done]. cbn [mbind option_bind] in Hsend |- *. destruct (Hsame s eq_refl) as (E1 & E2 & E3).
  unfold writeStaticConnectResponseHeader. rewrite E1, E2, E3, Ha, Hb, Ha', Hb', (u8_small (6 + getOptionsLength self)), (u8_small (ct_protocolClass self)) by lia.
  rewrite Hsend. destruct (sends_stream _ _ _ _ Hs) as (-> & Hf & Hst); [done | done|]. by exists self'.
Qed.
