(* ===== verification/IsoSession.v ===== *)
(** The session layer: src/libiec61850/src/mms/iso_session/iso_session.c with
    iso_session.h, ISO 8327.

    An SPDU is built in front of the payload of the layer above, so a function
    that creates one takes the memory for its header and the payload chain and
    returns the chain with the new part. The parser leaves a pointer to the user
    data inside the message. *)

From S2P Require Import Prelude BerEncoder BerDecoder ByteBuffer IsoParameters.
Open Scope Z_scope.

Record IsoSession := mkIsoSession {
  is_callingSessionSelector : SSelector;
  is_calledSessionSelector : SSelector;
  is_sessionRequirement : Z;
  is_protocolOptions : Z;
  is_userData : ByteBuffer
}.

Inductive IsoSessionIndication :=
| SESSION_OK
| SESSION_ERROR
| SESSION_CONNECT
| SESSION_GIVE_TOKEN
| SESSION_DATA
| SESSION_ABORT
| SESSION_FINISH
| SESSION_DISCONNECT
| SESSION_NOT_FINISHED.

Definition with_callingSelector (s : IsoSession) (v : SSelector) : IsoSession :=
  mkIsoSession v (is_calledSessionSelector s) (is_sessionRequirement s) (is_protocolOptions s) (is_userData s).
Definition with_calledSelector (s : IsoSession) (v : SSelector) : IsoSession :=
  mkIsoSession (is_callingSessionSelector s) v (is_sessionRequirement s) (is_protocolOptions s) (is_userData s).
Definition with_requirement (s : IsoSession) (v : Z) : IsoSession :=
  mkIsoSession (is_callingSessionSelector s) (is_calledSessionSelector s) v (is_protocolOptions s) (is_userData s).
Definition with_protocolOptions (s : IsoSession) (v : Z) : IsoSession :=
  mkIsoSession (is_callingSessionSelector s) (is_calledSessionSelector s) (is_sessionRequirement s) v (is_userData s).
Definition with_userData (s : IsoSession) (v : ByteBuffer) : IsoSession :=
  mkIsoSession (is_callingSessionSelector s) (is_calledSessionSelector s) (is_sessionRequirement s) (is_protocolOptions s) v.

(** * Parsing *)

(** [while (offset < maxOffset)]; the result [-1] is an error. Every turn reads
    two bytes, so that [parameterLength] turns are enough. *)
Fixpoint acceptParameters_loop (fuel : nat) (session : IsoSession) (buffer : list Z) (offset maxOffset startOffset : Z)
    (hasProtocolOptions hasProtocolVersion : bool) : option (Z * IsoSession) :=
  match fuel with
  | O => None
  | S fuel =>
      if offset <? maxOffset then
        pi ← ld buffer offset;
        param_len ← ld buffer (offset + 1);
        let offset := offset + 2 in
        let skip n := acceptParameters_loop fuel session buffer (offset + n) maxOffset startOffset
                        hasProtocolOptions hasProtocolVersion in
        if pi =? 19 then
          if negb (param_len =? 1) then Some (-1, session)
          else
            b ← ld buffer offset;
            acceptParameters_loop fuel (with_protocolOptions session b) buffer (offset + 1) maxOffset startOffset
              true hasProtocolVersion
        else if pi =? 21 then skip 4
        else if pi =? 22 then
          param_val ← ld buffer offset;
          if negb (param_val =? 2) then Some (-1, session)
          else acceptParameters_loop fuel session buffer (offset + 1) maxOffset startOffset hasProtocolOptions true
        else if pi =? 26 then _ ← ld buffer offset; skip 1
        else if (pi =? 23) || (pi =? 55) || (pi =? 56) || (pi =? 57) || (pi =? 58) then skip param_len
        else skip 0
      else Some (if hasProtocolOptions && hasProtocolVersion then offset - startOffset else -1, session)
  end.

Definition parseAcceptParameters (session : IsoSession) (message : ByteBuffer) (startOffset parameterLength : Z)
  : option (Z * IsoSession) :=
  acceptParameters_loop (S (Z.to_nat parameterLength)) session (bb_buffer message) startOffset
    (startOffset + parameterLength) startOffset false false.

(** [for (i = 0; i < size; i++) value[i] = buffer[offset++]] *)
Definition read_sSelector (old : SSelector) (buffer : list Z) (offset parameterLength : Z) : option SSelector :=
  bytes ← ld_range buffer offset parameterLength;
  value ← st_range (ss_value old) 0 bytes;
  Some (mkSSelector parameterLength value).

Fixpoint headerParameters_loop (fuel : nat) (session : IsoSession) (message : ByteBuffer) (offset parametersOctets : Z)
  : option (IsoSessionIndication * IsoSession) :=
  match fuel with
  | O => None
  | S fuel =>
      let buffer := bb_buffer message in
      if offset <? parametersOctets + 2 then
        pgi ← ld buffer offset;
        parameterLength ← ld buffer (offset + 1);
        let offset := offset + 2 in
        if pgi =? 5 then
          '(connectAcceptLen, session) ← parseAcceptParameters session message offset parameterLength;
          if connectAcceptLen =? -1 then Some (SESSION_ERROR, session)
          else headerParameters_loop fuel session message (offset + connectAcceptLen) parametersOctets
        else if pgi =? 20 then
          if negb (parameterLength =? 2) then Some (SESSION_ERROR, session)
          else
            b0 ← ld buffer offset;
            b1 ← ld buffer (offset + 1);
            headerParameters_loop fuel (with_requirement session (u16 (u16 (b0 * 0x100) + b1))) message (offset + 2) parametersOctets
        else if pgi =? 51 then
          if 16 <? parameterLength then Some (SESSION_ERROR, session)
          else
            sel ← read_sSelector (is_callingSessionSelector session) buffer offset parameterLength;
            headerParameters_loop fuel (with_callingSelector session sel) message (offset + parameterLength) parametersOctets
        else if pgi =? 52 then
          if 16 <? parameterLength then Some (SESSION_ERROR, session)
          else
            sel ← read_sSelector (is_calledSessionSelector session) buffer offset parameterLength;
            headerParameters_loop fuel (with_calledSelector session sel) message (offset + parameterLength) parametersOctets
        else if pgi =? 193 then
          Some (SESSION_OK, with_userData session
            (ByteBuffer_wrap (ptr_add buffer offset) (bb_size message - offset) (bb_maxSize message - offset)))
        else if (pgi =? 1) || (pgi =? 17) || (pgi =? 25) || (pgi =? 49) || (pgi =? 60) then
          headerParameters_loop fuel session message (offset + parameterLength) parametersOctets
        else headerParameters_loop fuel session message offset parametersOctets
      else Some (SESSION_ERROR, session)
  end.

Definition parseSessionHeaderParameters (session : IsoSession) (message : ByteBuffer) (parametersOctets : Z)
  : option (IsoSessionIndication * IsoSession) :=
  headerParameters_loop (S (Z.to_nat parametersOctets)) session message 2 parametersOctets.

(** an SPDU with parameters: its length must be that of the message *)
Definition parse_parameters (self : IsoSession) (message : ByteBuffer) (length : Z) (indication : IsoSessionIndication)
  : option (IsoSessionIndication * IsoSession) :=
  if negb (length =? bb_size message - 2) then Some (SESSION_ERROR, self)
  else
    '(r, self) ← parseSessionHeaderParameters self message length;
    Some (match r with SESSION_OK => indication | _ => SESSION_ERROR end, self).

Definition IsoSession_parseMessage (self : IsoSession) (message : ByteBuffer) : option (IsoSessionIndication * IsoSession) :=
  let buffer := bb_buffer message in
  if 1 <? bb_size message then
    id ← ld buffer 0;
    length ← ld buffer 1;
    if id =? 13 then parse_parameters self message length SESSION_CONNECT
    else if id =? 14 then parse_parameters self message length SESSION_CONNECT
    else if id =? 1 then
      if bb_size message <? 4 then Some (SESSION_ERROR, self)
      else
        b2 ← ld buffer 2;
        b3 ← ld buffer 3;
        if (length =? 0) && (b2 =? 1) && (b3 =? 0) then
          Some (SESSION_DATA, with_userData self
            (ByteBuffer_wrap (ptr_add buffer 4) (bb_size message - 4) (bb_maxSize message - 4)))
        else Some (SESSION_ERROR, self)
    else if id =? 8 then Some (SESSION_NOT_FINISHED, self)
    else if id =? 9 then parse_parameters self message length SESSION_FINISH
    else if id =? 10 then parse_parameters self message length SESSION_DISCONNECT
    else if id =? 25 then Some (SESSION_ABORT, self)
    else Some (SESSION_ERROR, self)
  else Some (SESSION_ERROR, self).

Definition IsoSession_getUserData (session : IsoSession) : ByteBuffer := is_userData session.

(** * Creating SPDUs *)

Definition dataSpdu : list Z := [0x01; 0x00; 0x01; 0x00].

Definition IsoSession_createDataSpdu (partMaxLength : Z) (payload : BufferChain) : BufferChain :=
  mkBufferChain (4 + bc_length payload) 4 partMaxLength dataSpdu (Some payload).

Definition encodeConnectAcceptItem (options : Z) : writer := puts [5; 6; 0x13; 1; options; 0x16; 1; 2].

Definition encodeConnectionIdentifier (reasonCode : Z) : writer := puts [1; 2; 17; 1; 1; 50; 1; reasonCode].

Definition encodeSessionRequirement (self : IsoSession) : writer :=
  puts [0x14; 2; u8 (Z.quot (is_sessionRequirement self) 0x100); u8 (Z.land (is_sessionRequirement self) 0x00ff)].

Definition encode_selector (code : Z) (sel : SSelector) : writer := fun buf offset =>
  '(buf, offset) ← puts [code; ss_size sel] buf offset;
  copy_loop (Z.to_nat (ss_size sel)) (ss_value sel) 0 buf offset.

Definition encodeCallingSessionSelector (self : IsoSession) : writer := encode_selector 0x33 (is_callingSessionSelector self).
Definition encodeCalledSessionSelector (self : IsoSession) : writer := encode_selector 0x34 (is_calledSessionSelector self).

Definition encodeSessionUserData (payloadLength : Z) : writer := puts [0xc1; u8 payloadLength].

(** the parts of the connect and accept SPDUs in common: [items] are written behind
    the length octet, which is filled in at the end *)
Definition spdu_with_length (code : Z) (items : writer) (buf : list Z) (partMaxLength : Z) (payload : BufferChain)
  : option BufferChain :=
  '(buf, offset) ← put code buf 0;
  let lengthOffset := offset in
  '(buf, offset) ← items buf (offset + 1);
  '(buf, offset) ← encodeSessionUserData (bc_length payload) buf offset;
  let spduLength := (offset - lengthOffset - 1) + bc_length payload in
  buf ← st buf lengthOffset (u8 spduLength);
  Some (mkBufferChain (offset + bc_length payload) offset partMaxLength buf (Some payload)).

Definition IsoSession_createConnectSpdu (self : IsoSession) (isoParameters : IsoConnectionParameters)
    (buf : list Z) (partMaxLength : Z) (payload : BufferChain) : option (IsoSession * BufferChain) :=
  let self := with_calledSelector self (ia_sSelector (ip_remote isoParameters)) in
  let self := with_callingSelector self (ia_sSelector (ip_local isoParameters)) in
  chain ← spdu_with_length 13 (fun buf offset =>
    '(buf, offset) ← encodeConnectAcceptItem 0 buf offset;
    '(buf, offset) ← encodeSessionRequirement self buf offset;
    '(buf, offset) ← encodeCallingSessionSelector self buf offset;
    encodeCalledSessionSelector self buf offset) buf partMaxLength payload;
  Some (self, chain).

Definition IsoSession_createAcceptSpdu (self : IsoSession) (buf : list Z) (partMaxLength : Z) (payload : BufferChain)
  : option BufferChain :=
  spdu_with_length 14 (fun buf offset =>
    '(buf, offset) ← encodeConnectAcceptItem (is_protocolOptions self) buf offset;
    '(buf, offset) ← encodeSessionRequirement self buf offset;
    encodeCalledSessionSelector self buf offset) buf partMaxLength payload.

(** an SPDU that is a header written from the start, then the payload *)
Definition simple_spdu (header : list Z) (buf : list Z) (partMaxLength : Z) (payload : BufferChain) : option BufferChain :=
  '(buf, offset) ← puts header buf 0;
  Some (mkBufferChain (bc_length payload + offset) offset partMaxLength buf (Some payload)).

Definition IsoSession_createAbortSpdu (buf : list Z) (partMaxLength : Z) (payload : BufferChain) : option BufferChain :=
  simple_spdu [25; u8 (5 + bc_length payload); 17; 1; 11; 193; u8 (bc_length payload)] buf partMaxLength payload.

Definition IsoSession_createFinishSpdu (buf : list Z) (partMaxLength : Z) (payload : BufferChain) : option BufferChain :=
  simple_spdu [9; u8 (2 + bc_length payload); 193; u8 (bc_length payload)] buf partMaxLength payload.

Definition IsoSession_createDisconnectSpdu (buf : list Z) (partMaxLength : Z) (payload : BufferChain) : option BufferChain :=
  simple_spdu [10; u8 (2 + bc_length payload); 193; u8 (bc_length payload)] buf partMaxLength payload.

(** The lengths of the chain are not set: [buffer] is the chain handed in. *)
Definition IsoSession_createRefuseSpdu (buffer : BufferChain) (reasonCode : Z) : option BufferChain :=
  '(buf, offset) ← put 12 (bc_buffer buffer) 0;
  '(buf, _) ← encodeConnectionIdentifier reasonCode buf (offset + 1);
  Some (mkBufferChain (bc_length buffer) (bc_partLength buffer) (bc_partMaxLength buffer) buf (bc_nextPart buffer)).

Definition IsoSession_init : IsoSession :=
  let sel := mkSSelector 2 ([0; 1] ++ replicate 14 0) in
  mkIsoSession sel sel 0x0002 0 (mkByteBuffer [] 0 0).
