(* ===== verification/SessionFacts.v ===== *)
(** The session layer: the parser on arbitrary bytes, and on the SPDUs the
    library creates. *)

From S2P Require Import Prelude BerEncoder BerDecoder ByteBuffer IsoParameters IsoSession.
Open Scope Z_scope.

(** the result of a parser that stops early: the claim about the user data is void *)
Ltac not_user_data := let H := fresh in intros [H|[H|[H|H]]]; discriminate H.
Ltac stopped r s := exists r, s; split; [done|]; split; [done|]; not_user_data.

(** * Arbitrary bytes *)

Definition sSelector_ok (s : SSelector) : Prop := zlen (ss_value s) = 16 /\ bytes_ok (ss_value s) /\ 0 <= ss_size s <= 16.

Definition session_ok (s : IsoSession) : Prop :=
  sSelector_ok (is_callingSessionSelector s) /\ sSelector_ok (is_calledSessionSelector s) /\
  0 <= is_sessionRequirement s < 65536 /\ is_byte (is_protocolOptions s).

Lemma acceptParameters_total fuel session buffer offset maxOffset start o v :
  session_ok session -> bytes_ok buffer -> 0 <= start <= offset -> maxOffset + 2 <= zlen buffer -> maxOffset - offset < Z.of_nat fuel -> (0 < fuel)%nat ->
  exists n session', acceptParameters_loop fuel session buffer offset maxOffset start o v = Some (n, session') /\
    session_ok session' /\ is_userData session' = is_userData session /\ -1 <= n.
Proof.
  revert session offset o v. induction fuel as [|fuel IH]; intros session offset o v Hs Hb Ho Hm Hf H0; [lia|].
  cbn [acceptParameters_loop]. btest; [|do 2 eexists; split; [done|]; split; [done|]; split; [done|]; case_match; lia].
  destruct (ld_is_Some buffer offset) as [pi Hpi]; [lia|]. rewrite Hpi. cbn [mbind option_bind].
  destruct (ld_is_Some buffer (offset + 1)) as [len Hlen]; [lia|]. rewrite Hlen. cbn [mbind option_bind].
  pose proof (ld_byte _ _ _ Hb Hlen) as Hlb. unfold is_byte in Hlb.
  assert (forall s n o v, session_ok s -> is_userData s = is_userData session -> 0 <= n ->
    exists k s', acceptParameters_loop fuel s buffer (offset + 2 + n) maxOffset start o v = Some (k, s') /\
      session_ok s' /\ is_userData s' = is_userData session /\ -1 <= k) as Hgo.
  { intros s n o' v' Hs' Hu Hn. destruct (decide (fuel = O)) as [->|Hne].
    - exfalso. lia.
    - destruct (IH s (offset + 2 + n) o' v') as (k & s' & -> & H1 & H2 & H3); try done; try lia. do 2 eexists. split; [done|]. split; [done|]. split; [congruence | done]. }
  assert (forall n, -1 <= n -> exists k s', Some (n, session) = Some (k, s') /\ session_ok s' /\ is_userData s' = is_userData session /\ -1 <= k) as Hstop
    by (intros n Hn; by exists n, session).
  destruct (ld_is_Some buffer (offset + 2)) as [b Hbv]; [lia|]. pose proof (ld_byte _ _ _ Hb Hbv) as Hbb.
  rewrite Hbv. cbn [mbind option_bind].
  repeat (case_match; [first [apply Hgo; (done || lia) | apply Hstop; lia | idtac]|]); try (apply Hgo; (done || lia)); try (apply Hstop; lia).
  destruct Hs as (? & ? & ? & ?). apply Hgo; [by unfold session_ok | done | lia].
Qed.

Lemma parseAcceptParameters_total session message start n :
  session_ok session -> bytes_ok (bb_buffer message) -> 0 <= start -> 0 <= n -> start + n + 2 <= zlen (bb_buffer message) ->
  exists k session', parseAcceptParameters session message start n = Some (k, session') /\
    session_ok session' /\ is_userData session' = is_userData session /\ -1 <= k.
Proof. intros. apply acceptParameters_total; try done; lia. Qed.

Lemma read_sSelector_total old buffer offset n :
  sSelector_ok old -> bytes_ok buffer -> 0 <= offset -> 0 <= n <= 16 -> offset + n <= zlen buffer ->
  exists sel, read_sSelector old buffer offset n = Some sel /\ sSelector_ok sel.
Proof.
  intros (Hv & Hvb & _) Hb Ho Hn Hf. unfold read_sSelector.
  pose proof (ld_range_Some buffer offset n ltac:(lia) ltac:(lia) ltac:(lia)) as Hr. rewrite Hr. cbn [mbind option_bind].
  destruct (ld_range_zlen _ _ _ _ Hr) as [Hz _]. pose proof (ld_range_bytes _ _ _ _ Hb Hr) as Hbb. set (bs := take _ _) in *.
  rewrite st_range_splice by lia. cbn [mbind option_bind]. eexists. split; [done|]. unfold sSelector_ok. cbn [ss_value ss_size].
  split; [rewrite zlen_splice; lia|]. split; [|lia]. unfold splice.
  apply Forall_app_2; [by apply Forall_take|]. apply Forall_app_2; [done | by apply Forall_drop].
Qed.

(** The user data lies in the message, or is a pointer just behind it. *)
Definition user_data_in (message userData : ByteBuffer) : Prop :=
  exists offset, 0 <= offset <= bb_size message + 1 /\ bb_buffer userData = ptr_add (bb_buffer message) offset /\
    bb_size userData = bb_size message - offset /\ bb_maxSize userData = bb_maxSize message - offset.

Lemma headerParameters_total fuel session message offset n :
  session_ok session -> bytes_ok (bb_buffer message) -> 2 <= offset -> n = bb_size message - 2 ->
  n + 262 <= zlen (bb_buffer message) -> n + 2 - offset < Z.of_nat fuel -> (0 < fuel)%nat ->
  exists r session', headerParameters_loop fuel session message offset n = Some (r, session') /\ session_ok session' /\
    (r = SESSION_OK -> user_data_in message (is_userData session')).
Proof.
  revert session offset. induction fuel as [|fuel IH]; intros session offset Hs Hb Ho Hn Hz Hf H0; [lia|].
  cbn [headerParameters_loop]. btest; [|by do 2 eexists].
  destruct (ld_is_Some (bb_buffer message) offset) as [pgi Hpgi]; [lia|]. rewrite Hpgi. cbn [mbind option_bind].
  destruct (ld_is_Some (bb_buffer message) (offset + 1)) as [len Hlen]; [lia|]. rewrite Hlen. cbn [mbind option_bind].
  pose proof (ld_byte _ _ _ Hb Hlen) as Hlb. unfold is_byte in Hlb.
  assert (forall s k, session_ok s -> 0 <= k ->
    exists r s', headerParameters_loop fuel s message (offset + 2 + k) n = Some (r, s') /\ session_ok s' /\
      (r = SESSION_OK -> user_data_in message (is_userData s'))) as Hgo.
  { intros s k Hs' Hk. destruct (decide (fuel = O)) as [->|Hne]; [exfalso; lia|]. apply IH; try done; lia. }
  pose proof Hs as (Hcalling & Hcalled & Hreq & Hopt).
  assert (forall k, 0 <= k <= 1 -> is_Some (ld (bb_buffer message) (offset + 2 + k))) as Hld by (intros k Hk; apply ld_is_Some; lia).
  destruct (Hld 0 ltac:(lia)) as [b0 Hb0], (Hld 1 ltac:(lia)) as [b1 Hb1]. rewrite Z.add_0_r in Hb0.
  case_match.
  { destruct (parseAcceptParameters_total session message (offset + 2) len) as (k & s1 & -> & Hs1 & Hu & Hk); try done; try lia.
    cbn [mbind option_bind]. btest; [by do 2 eexists|]. apply Hgo; [done|lia]. }
  case_match.
  { case_match; [by do 2 eexists|]. rewrite Hb0. cbn [mbind option_bind]. rewrite Hb1. cbn [mbind option_bind]. apply Hgo; [|lia].
    unfold session_ok. cbn. split_and!; try done; unfold u16; apply Z.mod_pos_bound; lia. }
  case_match.
  { btest; [by do 2 eexists|]. destruct (read_sSelector_total (is_callingSessionSelector session) (bb_buffer message) (offset + 2) len) as (sel & -> & Hsel); try done; try lia.
    cbn [mbind option_bind]. apply Hgo; [by unfold session_ok | lia]. }
  case_match.
  { btest; [by do 2 eexists|]. destruct (read_sSelector_total (is_calledSessionSelector session) (bb_buffer message) (offset + 2) len) as (sel & -> & Hsel); try done; try lia.
    cbn [mbind option_bind]. apply Hgo; [by unfold session_ok | lia]. }
  case_match.
  { do 2 eexists. split; [done|]. split; [by unfold session_ok|]. intros _. exists (offset + 2). split_and!; try done; lia. }
  case_match; [apply Hgo; [done|lia]|]. rewrite <- (Z.add_0_r (offset + 2)). apply Hgo; [done|lia].
Qed.

(** Parsing an SPDU is total. SPDUs with parameters have at most 257 bytes; the
    parser may read up to 262 bytes behind one, so the message has to lie in a
    buffer of 519 bytes or more. *)
Lemma parseMessage_total self message :
  session_ok self -> byteBuffer_ok message -> bytes_ok (bb_buffer message) -> 519 <= zlen (bb_buffer message) ->
  exists r self', IsoSession_parseMessage self message = Some (r, self') /\ session_ok self' /\
    (r = SESSION_CONNECT \/ r = SESSION_DATA \/ r = SESSION_FINISH \/ r = SESSION_DISCONNECT ->
     user_data_in message (is_userData self')).
Proof.
  intros Hs [Hsz Hmx] Hb Hz. unfold IsoSession_parseMessage. btest; [|stopped SESSION_ERROR self].
  assert (forall k, 0 <= k <= 3 -> is_Some (ld (bb_buffer message) k)) as Hld by (intros k Hk; apply ld_is_Some; lia).
  destruct (Hld 0 ltac:(lia)) as [id Hid], (Hld 1 ltac:(lia)) as [len Hlen], (Hld 2 ltac:(lia)) as [b2 Hb2], (Hld 3 ltac:(lia)) as [b3 Hb3].
  rewrite Hid, Hlen. cbn [mbind option_bind]. pose proof (ld_byte _ _ _ Hb Hlen) as Hlb. unfold is_byte in Hlb.
  assert (forall ind, exists r self', parse_parameters self message len ind = Some (r, self') /\ session_ok self' /\
    (r = SESSION_CONNECT \/ r = SESSION_DATA \/ r = SESSION_FINISH \/ r = SESSION_DISCONNECT ->
     user_data_in message (is_userData self'))) as Hpar.
  { intros ind. unfold parse_parameters. case_match; [stopped SESSION_ERROR self|].
    destruct (headerParameters_total (S (Z.to_nat len)) self message 2 len) as (r & s' & Hr & Hs' & Hu); try done; try lia.
    unfold parseSessionHeaderParameters. rewrite Hr. cbn [mbind option_bind]. do 2 eexists. split; [done|]. split; [done|].
    destruct r; try not_user_data. intros _. by apply Hu. }
  repeat (case_match; [first [apply Hpar | idtac]|]); try (stopped SESSION_ERROR self).
  - rewrite Hb2, Hb3. cbn [mbind option_bind]. case_match; [|stopped SESSION_ERROR self].
    do 2 eexists. split; [done|]. split; [by unfold session_ok|]. intros _. exists 4. split_and!; try done; lia.
  - stopped SESSION_NOT_FINISHED self.
  - stopped SESSION_ABORT self.
Qed.

(** * What the library writes

    The parameters of an SPDU are a sequence of items, of which the parser applies
    one after the other to the session. *)

Inductive spdu_item :=
| item_accept (options : Z)
| item_requirement (requirement : Z)
| item_calling (sel : SSelector)
| item_called (sel : SSelector).

Definition sSelector_octets (s : SSelector) : list Z := take (Z.to_nat (ss_size s)) (ss_value s).

Definition item_bytes (i : spdu_item) : list Z :=
  match i with
  | item_accept o => [5; 6; 0x13; 1; o; 0x16; 1; 2]
  | item_requirement r => [0x14; 2; u8 (Z.quot r 0x100); u8 (Z.land r 0x00ff)]
  | item_calling s => [0x33; ss_size s] ++ sSelector_octets s
  | item_called s => [0x34; ss_size s] ++ sSelector_octets s
  end.

Definition item_ok (i : spdu_item) : Prop :=
  match i with
  | item_accept o => is_byte o
  | item_requirement r => 0 <= r < 65536
  | item_calling s | item_called s => sSelector_ok s
  end.

Definition set_octets (old sel : SSelector) : SSelector :=
  mkSSelector (ss_size sel) (splice (ss_value old) 0 (sSelector_octets sel)).

Definition item_apply (s : IsoSession) (i : spdu_item) : IsoSession :=
  match i with
  | item_accept o => with_protocolOptions s o
  | item_requirement r => with_requirement s r
  | item_calling sel => with_callingSelector s (set_octets (is_callingSessionSelector s) sel)
  | item_called sel => with_calledSelector s (set_octets (is_calledSessionSelector s) sel)
  end.

Definition items_bytes (items : list spdu_item) : list Z := concat (item_bytes <$> items).

Lemma zlen_sSelector_octets s : sSelector_ok s -> zlen (sSelector_octets s) = ss_size s.
Proof. intros (? & ? & ?). apply zlen_take. lia. Qed.

Lemma sSelector_octets_ok s : sSelector_ok s -> bytes_ok (sSelector_octets s).
Proof. intros (? & ? & ?). by apply Forall_take. Qed.

Lemma set_octets_ok old sel : sSelector_ok old -> sSelector_ok sel -> sSelector_ok (set_octets old sel).
Proof.
  intros (Ho & Hb & _) Hs. pose proof (zlen_sSelector_octets _ Hs). pose proof (sSelector_octets_ok _ Hs). destruct Hs as (? & ? & ?).
  unfold sSelector_ok, set_octets. cbn [ss_value ss_size]. split; [rewrite zlen_splice; lia|]. split; [|lia].
  unfold splice. apply Forall_app_2; [by apply Forall_take|]. apply Forall_app_2; [done | by apply Forall_drop].
Qed.

Lemma set_octets_same old sel :
  sSelector_ok old -> sSelector_ok sel -> sSelector_octets (set_octets old sel) = sSelector_octets sel.
Proof.
  intros (Ho & _ & _) Hs. pose proof (zlen_sSelector_octets _ Hs) as Hz. unfold sSelector_octets at 1, set_octets, splice. cbn [ss_size ss_value].
  change (take (Z.to_nat 0) (ss_value old)) with (@nil Z). cbn [app]. rewrite <- Hz. by rewrite zlen_to_nat, take_app_length.
Qed.

Lemma item_apply_ok s i : session_ok s -> item_ok i -> session_ok (item_apply s i).
Proof. intros (? & ? & ? & ?) Hi. destruct i; unfold session_ok; cbn in *; split_and!; try done; try lia; by apply set_octets_ok. Qed.

Lemma zlen_item_bytes i : item_ok i -> 2 <= zlen (item_bytes i) <= 18.
Proof. destruct i; cbn [item_ok item_bytes]; intros Hi; zlen; try lia; rewrite zlen_sSelector_octets by done; destruct Hi as (? & ? & ?); lia. Qed.

Lemma requirement_octets r : 0 <= r < 65536 -> u16 (u16 (u8 (Z.quot r 0x100) * 0x100) + u8 (Z.land r 0x00ff)) = r.
Proof.
  intros Hr. rewrite Z.quot_div_nonneg by lia. change 0x00ff with (Z.ones 8). rewrite Z.land_ones by lia. change (2 ^ 8) with 256.
  unfold u8, u16. pose proof (Z.div_mod r 256 ltac:(lia)). pose proof (Z.mod_pos_bound r 256 ltac:(lia)).
  rewrite Z.mod_mod by lia. rewrite (Z.mod_small (r / 0x100)) by (change 0x100 with 256; lia). change 0x100 with 256.
  rewrite (Z.mod_small (r / 256 * 256)) by lia. rewrite Z.mod_small by lia. lia.
Qed.

Lemma read_sSelector_at old buffer offset sel :
  sSelector_ok old -> sSelector_ok sel -> at_pos buffer offset (sSelector_octets sel) ->
  read_sSelector old buffer offset (ss_size sel) = Some (set_octets old sel).
Proof.
  intros (Ho & _ & _) Hs Hat. pose proof (zlen_sSelector_octets _ Hs) as Hz. destruct Hs as (Hv & _ & Hn). unfold read_sSelector.
  rewrite <- Hz, at_pos_range by done. cbn [mbind option_bind]. rewrite st_range_splice by lia. cbn [mbind option_bind].
  unfold set_octets. by rewrite Hz.
Qed.

Lemma at_pos_lookup buf pos bs k b : at_pos buf pos bs -> bs !! k = Some b -> ld buf (pos + Z.of_nat k) = Some b.
Proof.
  intros (pre & post & -> & <-) Hk. unfold ld. pose proof (zlen_nonneg pre). if_true.
  replace (Z.to_nat (zlen pre + Z.of_nat k)) with (length pre + k)%nat by (unfold zlen; lia).
  rewrite lookup_app_r by lia. replace (length pre + k - length pre)%nat with k by lia. by apply lookup_app_l_Some.
Qed.

Ltac next_byte H := let Hld := fresh "Hld" in apply at_pos_cons in H as [Hld H]; rewrite ?Hld; cbn [mbind option_bind].

(** The parser applies an item it meets. *)
Lemma headerParameters_item fuel s message offset n i :
  session_ok s -> item_ok i -> at_pos (bb_buffer message) offset (item_bytes i) -> offset < n + 2 -> 
  headerParameters_loop (S fuel) s message offset n
  = headerParameters_loop fuel (item_apply s i) message (offset + zlen (item_bytes i)) n.
Proof.
  intros (Hcg & Hcd & _ & _) Hi Hat Hoff. cbn [headerParameters_loop]. if_true. destruct i as [o|r|sel|sel]; cbn [item_bytes item_ok item_apply app] in *; do 2 next_byte Hat.
  - assert (forall k b p, [0x13; 1; o; 0x16; 1; 2] !! k = Some b -> p = offset + 2 + Z.of_nat k -> ld (bb_buffer message) p = Some b) as Hb.
    { intros k b p Hk ->. replace (offset + 2) with (offset + 1 + 1) by lia. exact (at_pos_lookup _ _ _ _ _ Hat Hk). }
    simpl (5 =? 5). cbv iota. unfold parseAcceptParameters. change (S (Z.to_nat 6)) with 7%nat.
    remember 6%nat as f eqn:Hf. cbn [acceptParameters_loop]. if_true.
    rewrite (Hb 0%nat 0x13 (offset + 2) eq_refl ltac:(lia)), (Hb 1%nat 1 (offset + 2 + 1) eq_refl ltac:(lia)), (Hb 2%nat o (offset + 2 + 2) eq_refl ltac:(lia)).
    cbn [mbind option_bind]. simpl (0x13 =? 19). simpl (negb (1 =? 1)). cbv iota. subst f. remember 5%nat as f eqn:Hf. cbn [mbind option_bind acceptParameters_loop].
    if_true. rewrite (Hb 3%nat 0x16 (offset + 2 + 2 + 1) eq_refl ltac:(lia)), (Hb 4%nat 1 (offset + 2 + 2 + 1 + 1) eq_refl ltac:(lia)), (Hb 5%nat 2 (offset + 2 + 2 + 1 + 2) eq_refl ltac:(lia)).
    cbn [mbind option_bind]. simpl (0x16 =? 19). simpl (0x16 =? 21). simpl (0x16 =? 22). simpl (negb (2 =? 2)). cbv iota. subst f. cbn [acceptParameters_loop].
    if_false. cbn [andb mbind option_bind]. if_false. f_equal. zlia.
  - simpl (0x14 =? 5). simpl (0x14 =? 20). simpl (negb (2 =? 2)). cbv iota.
    next_byte Hat. replace (offset + 2) with (offset + 1 + 1) by lia. rewrite Hld1. cbn [mbind option_bind]. next_byte Hat.
    rewrite requirement_octets by done. by replace (offset + 1 + 1 + 2) with (offset + zlen [20; 2; u8 (r ÷ 256); u8 (Z.land r 255)]) by zlia.
  - simpl (0x33 =? 5). simpl (0x33 =? 20). simpl (0x33 =? 51). cbv iota. pose proof Hi as (_ & _ & Hn). if_false.
    replace (offset + 2) with (offset + 1 + 1) by lia. rewrite read_sSelector_at by done. cbn [mbind option_bind].
    f_equal. zlen. rewrite zlen_sSelector_octets by done. lia.
  - simpl (0x34 =? 5). simpl (0x34 =? 20). simpl (0x34 =? 51). simpl (0x34 =? 52). cbv iota. pose proof Hi as (_ & _ & Hn). if_false.
    replace (offset + 2) with (offset + 1 + 1) by lia. rewrite read_sSelector_at by done. cbn [mbind option_bind].
    f_equal. zlen. rewrite zlen_sSelector_octets by done. lia.
Qed.

Lemma items_bytes_cons i items : items_bytes (i :: items) = item_bytes i ++ items_bytes items.
Proof. done. Qed.

(** A sequence of items, then the user data. *)
Lemma headerParameters_items items : forall fuel s message offset n k,
  session_ok s -> Forall item_ok items -> (length items < fuel)%nat -> 0 <= offset ->
  at_pos (bb_buffer message) offset (items_bytes items ++ [193; k]) -> offset + zlen (items_bytes items) < n + 2 ->
  headerParameters_loop fuel s message offset n
  = Some (SESSION_OK, with_userData (fold_left item_apply items s)
      (ByteBuffer_wrap (ptr_add (bb_buffer message) (offset + zlen (items_bytes items) + 2))
         (bb_size message - (offset + zlen (items_bytes items) + 2)) (bb_maxSize message - (offset + zlen (items_bytes items) + 2)))).
Proof.
  induction items as [|i items IH]; intros fuel s message offset n k Hs Hi Hf Ho Hat Hn; (destruct fuel as [|fuel]; [cbn in Hf; lia|]).
  - cbn [items_bytes concat fmap list_fmap app] in *. change (zlen (concat (item_bytes <$> []))) with 0 in *. rewrite Z.add_0_r in *. remember fuel as f. cbn [headerParameters_loop]. if_true.
    do 2 next_byte Hat. done.
  - inversion Hi as [|? ? H1 H2]; subst. rewrite items_bytes_cons in *. rewrite <- app_assoc in Hat. apply at_pos_app in Hat as [Ha Hat].
    pose proof (zlen_item_bytes _ H1). zlen. pose proof (zlen_nonneg (items_bytes items)).
    rewrite (headerParameters_item _ _ _ _ _ i) by (done || lia).
    erewrite IH; [|by apply item_apply_ok | done | cbn in Hf; lia | lia | exact Hat | lia]. rewrite Z.add_assoc. done.
Qed.

(** An SPDU with parameters: code, length, items and the header of the user data. *)
Definition spdu_header (code : Z) (items : list spdu_item) (payloadLength : Z) : list Z :=
  [code; 2 + zlen (items_bytes items) + payloadLength] ++ items_bytes items ++ [193; payloadLength].

Definition spdu_indication (code : Z) : IsoSessionIndication :=
  if code =? 9 then SESSION_FINISH else if code =? 10 then SESSION_DISCONNECT else SESSION_CONNECT.

Lemma parse_spdu s code items payload post mx :
  session_ok s -> Forall item_ok items -> code ∈ [9; 10; 13; 14] ->
  IsoSession_parseMessage s (message_of (spdu_header code items (zlen payload) ++ payload) post mx)
  = Some (spdu_indication code, with_userData (fold_left item_apply items s)
      (message_of payload post (mx - zlen (spdu_header code items (zlen payload))))).
Proof.
  intros Hs Hi Hc. set (message := message_of _ _ _). pose proof (zlen_nonneg payload) as Hp. pose proof (zlen_nonneg (items_bytes items)) as Hib.
  assert (Hsz : bb_size message = 4 + zlen (items_bytes items) + zlen payload) by (unfold message, message_of, spdu_header; cbn [bb_size]; zlia).
  assert (at_pos (bb_buffer message) 0 (spdu_header code items (zlen payload))) as Hat
    by (unfold message, message_of; cbn [bb_buffer]; rewrite <- app_assoc; apply at_pos_prefix).
  unfold spdu_header in Hat. cbn [app] in Hat. apply at_pos_cons in Hat as [H0 Hat]. apply at_pos_cons in Hat as [H1 Hat].
  assert (length items <= Z.to_nat (zlen (items_bytes items)))%nat as Hfuel.
  { clear -Hi. induction Hi as [|i items H1 _ IH]; [cbn; lia|]. rewrite items_bytes_cons. pose proof (zlen_item_bytes _ H1). unfold zlen in *. rewrite length_app. cbn [length]. lia. }
  assert (forall ind, parse_parameters s message (2 + zlen (items_bytes items) + zlen payload) ind
    = Some (ind, with_userData (fold_left item_apply items s) (message_of payload post (mx - zlen (spdu_header code items (zlen payload)))))) as Hpar.
  { intros ind. unfold parse_parameters. rewrite Hsz. replace (negb _) with false by lia. cbv iota. unfold parseSessionHeaderParameters.
    erewrite headerParameters_items; [|done | done | lia | | exact Hat | lia]; [|lia]. cbn [mbind option_bind]. do 4 f_equal.
    unfold ByteBuffer_wrap, message_of. rewrite Hsz. f_equal; [|unfold message, message_of, spdu_header; cbn [bb_maxSize]; zlia|lia].
    unfold message, message_of. cbn [bb_buffer]. unfold ptr_add.
    replace (Z.to_nat (2 + zlen (items_bytes items) + 2)) with (length (spdu_header code items (zlen payload))).
    - rewrite <- (app_assoc (spdu_header _ _ _)). by rewrite drop_app_length.
    - rewrite <- zlen_to_nat. f_equal. unfold spdu_header. zlia. }
  unfold IsoSession_parseMessage. if_true. rewrite H0. cbn [mbind option_bind]. change (0 + 1) with 1 in H1. rewrite H1. cbn [mbind option_bind].
  rewrite !Hpar. rewrite !elem_of_cons, elem_of_nil in Hc. destruct Hc as [->|[->|[->|[->|[]]]]]; done.
Qed.

(** The items of an SPDU are stored behind its length octet. *)
Lemma spdu_with_length_spec code items (ws : writer) buf mx payload :
  (forall buffer pos, ws buffer pos = puts (items_bytes items) buffer pos) -> Forall item_ok items -> chain_ok payload ->
  2 + zlen (items_bytes items) + bc_length payload <= 255 -> 4 + zlen (items_bytes items) <= zlen buf ->
  exists chain, spdu_with_length code ws buf mx payload = Some chain /\ chain_ok chain /\
    chain_bytes chain = spdu_header code items (bc_length payload) ++ chain_bytes payload /\ zlen (bc_buffer chain) = zlen buf.
Proof.
  intros Hw Hi Hp Hmax Hfit. pose proof (zlen_nonneg (items_bytes items)) as Hib. destruct (chain_ok_length _ Hp) as [Hl Hpos].
  destruct buf as [|b0 [|b1 rest]]; [zlia | zlia|]. zlen.
  unfold spdu_with_length. unfold put. rewrite st_Some by zlia. cbn [mbind option_bind]. rewrite Hw. change (Z.to_nat 0) with 0%nat. cbn [list_insert insert].
  rewrite puts_fits by zlia. cbn [mbind option_bind]. unfold encodeSessionUserData.
  rewrite puts_fits by (rewrite ?zlen_splice; zlia). cbn [mbind option_bind].
  change (0 + 1 + 1) with 2. rewrite splice_splice by zlia. change (splice (code :: b1 :: rest) 2 ?bs) with (code :: b1 :: bs ++ drop (length bs) rest).
  rewrite st_Some by (rewrite !zlen_cons; match goal with |- context [zlen (?a ++ ?b)] => pose proof (zlen_nonneg (a ++ b)) end; lia).
  cbn [mbind option_bind]. eexists. split; [done|].
  change (Z.to_nat (0 + 1)) with 1%nat. cbn [list_insert insert].
  replace (2 + zlen (items_bytes items) + zlen [193; u8 (bc_length payload)]) with (zlen (spdu_header code items (bc_length payload))) by (unfold spdu_header; zlia).
  replace (code :: _ :: _) with (spdu_header code items (bc_length payload) ++ drop (length (items_bytes items ++ [193; u8 (bc_length payload)])) rest).
  - match goal with |- context [mkBufferChain ?len _ ?m (_ ++ ?r) _] =>
      destruct (chain_ok_cons len m (spdu_header code items (bc_length payload)) r payload) as [H1 H2]; [unfold spdu_header; zlia | done | done|] end.
    split; [exact H1|]. split; [exact H2|]. cbn [bc_buffer]. unfold spdu_header.
    unfold zlen in *. rewrite ?length_app, ?length_drop in *. cbn [length] in *. rewrite ?length_app in *. cbn [length]. lia.
  - unfold spdu_header. cbn [app]. unfold u8. rewrite (Z.mod_small (bc_length payload)) by lia. rewrite Z.mod_small by zlia.
    f_equal. f_equal. zlia.
Qed.

Lemma item_puts i buffer pos :
  item_ok i ->
  match i with
  | item_accept o => encodeConnectAcceptItem o
  | item_requirement r => encodeSessionRequirement (with_requirement IsoSession_init r)
  | item_calling sel => encode_selector 0x33 sel
  | item_called sel => encode_selector 0x34 sel
  end buffer pos = puts (item_bytes i) buffer pos.
Proof.
  destruct i as [o|r|sel|sel]; cbn [item_ok]; intros Hi; try done; unfold encode_selector; destruct Hi as (Hv & _ & Hn);
    cbn [item_bytes]; rewrite puts_app; apply option_bind_ext_fun; intros [? ?]; rewrite copy_loop_all by lia; done.
Qed.

(** ** The SPDUs of a connection *)


Definition connect_items (self : IsoSession) (p : IsoConnectionParameters) : list spdu_item :=
  [item_accept 0; item_requirement (is_sessionRequirement self);
   item_calling (ia_sSelector (ip_local p)); item_called (ia_sSelector (ip_remote p))].

Definition accept_items (self : IsoSession) : list spdu_item :=
  [item_accept (is_protocolOptions self); item_requirement (is_sessionRequirement self); item_called (is_calledSessionSelector self)].

Lemma zlen_items_le items : Forall item_ok items -> zlen (items_bytes items) <= 18 * Z.of_nat (length items).
Proof.
  induction 1 as [|i items Hi _ IH]; [done|]. rewrite items_bytes_cons. zlen. pose proof (zlen_item_bytes _ Hi). cbn [length]. lia.
Qed.

(** Creating the connect SPDU; a payload of 180 bytes always fits in its one length octet. *)
Lemma createConnectSpdu_spec self p buf mx payload :
  session_ok self -> sSelector_ok (ia_sSelector (ip_local p)) -> sSelector_ok (ia_sSelector (ip_remote p)) -> chain_ok payload ->
  2 + zlen (items_bytes (connect_items self p)) + bc_length payload <= 255 -> 76 <= zlen buf ->
  exists chain, IsoSession_createConnectSpdu self p buf mx payload
      = Some (with_callingSelector (with_calledSelector self (ia_sSelector (ip_remote p))) (ia_sSelector (ip_local p)), chain) /\
    chain_ok chain /\ chain_bytes chain = spdu_header 13 (connect_items self p) (bc_length payload) ++ chain_bytes payload /\
    zlen (bc_buffer chain) = zlen buf.
Proof.
  intros Hs Hl Hr Hp Hmax Hfit. pose proof Hs as (_ & _ & Hq & _).
  assert (Forall item_ok (connect_items self p)) as Hi by (repeat apply List.Forall_cons; try apply List.Forall_nil; cbn [item_ok]; unfold is_byte; done || lia).
  pose proof (zlen_items_le _ Hi) as Hz. change (length (connect_items self p)) with 4%nat in Hz. unfold IsoSession_createConnectSpdu.
  match goal with |- context [spdu_with_length 13 ?ws _ _ _] =>
    destruct (spdu_with_length_spec 13 (connect_items self p) ws buf mx payload) as (chain & -> & H) end; [|done | done | exact Hmax | lia | by exists chain].
  intros buffer pos. unfold connect_items, items_bytes. cbn [fmap list_fmap concat]. rewrite puts_app.
  rewrite <- (item_puts (item_accept 0)) by (cbn; unfold is_byte; lia). apply option_bind_ext_fun. intros [b1 p1]. rewrite puts_app.
  change (encodeSessionRequirement _ b1 p1) with (puts (item_bytes (item_requirement (is_sessionRequirement self))) b1 p1).
  apply option_bind_ext_fun. intros [b2 p2]. rewrite puts_app. rewrite <- (item_puts (item_calling _)) by done. apply option_bind_ext_fun. intros [b3 p3]. rewrite app_nil_r.
  rewrite <- (item_puts (item_called _)) by done. done.
Qed.

Lemma createAcceptSpdu_spec self buf mx payload :
  session_ok self -> chain_ok payload ->
  2 + zlen (items_bytes (accept_items self)) + bc_length payload <= 255 -> 58 <= zlen buf ->
  exists chain, IsoSession_createAcceptSpdu self buf mx payload = Some chain /\
    chain_ok chain /\ chain_bytes chain = spdu_header 14 (accept_items self) (bc_length payload) ++ chain_bytes payload /\
    zlen (bc_buffer chain) = zlen buf.
Proof.
  intros (Hcg & Hcd & Hq & Ho) Hp Hmax Hfit.
  assert (Forall item_ok (accept_items self)) as Hi by (repeat apply List.Forall_cons; try apply List.Forall_nil; done).
  pose proof (zlen_items_le _ Hi) as Hz. change (length (accept_items self)) with 3%nat in Hz.
  apply (spdu_with_length_spec 14 (accept_items self)); [|done | done | exact Hmax | lia].
  intros buffer pos. unfold accept_items, items_bytes. cbn [fmap list_fmap concat]. rewrite puts_app.
  rewrite <- (item_puts (item_accept _)) by done. apply option_bind_ext_fun. intros [b1 p1]. rewrite puts_app.
  change (encodeSessionRequirement _ b1 p1) with (puts (item_bytes (item_requirement (is_sessionRequirement self))) b1 p1).
  apply option_bind_ext_fun. intros [b2 p2]. rewrite app_nil_r. by rewrite <- (item_puts (item_called _)).
Qed.

Lemma simple_spdu_spec header buf mx payload :
  0 < zlen header <= zlen buf -> chain_ok payload ->
  exists chain, simple_spdu header buf mx payload = Some chain /\ chain_ok chain /\
    chain_bytes chain = header ++ chain_bytes payload.
Proof.
  intros Hh Hp. unfold simple_spdu. rewrite puts_fits by lia. cbn [mbind option_bind]. eexists. split; [done|].
  unfold splice. change (take (Z.to_nat 0) buf) with (@nil Z). cbn [app]. rewrite Z.add_0_l. apply chain_ok_cons; [lia | lia | done].
Qed.

Lemma dataSpdu_spec mx payload :
  chain_ok payload -> chain_ok (IsoSession_createDataSpdu mx payload) /\
    chain_bytes (IsoSession_createDataSpdu mx payload) = dataSpdu ++ chain_bytes payload.
Proof. intros Hp. apply (chain_ok_cons _ mx dataSpdu [] payload); [done | done | done]. Qed.

(** The finish and disconnect SPDUs. *)
Lemma createFinishSpdu_spec buf mx payload :
  chain_ok payload -> bc_length payload <= 253 -> 4 <= zlen buf ->
  exists chain, IsoSession_createFinishSpdu buf mx payload = Some chain /\ chain_ok chain /\
    chain_bytes chain = spdu_header 9 [] (bc_length payload) ++ chain_bytes payload.
Proof.
  intros Hp Hl Hb. destruct (chain_ok_length _ Hp) as [_ Hpos]. unfold IsoSession_createFinishSpdu, u8. rewrite !Z.mod_small by lia.
  apply (simple_spdu_spec (spdu_header 9 [] (bc_length payload))); [change (0 < 4 <= zlen buf); lia | done].
Qed.

Lemma createDisconnectSpdu_spec buf mx payload :
  chain_ok payload -> bc_length payload <= 253 -> 4 <= zlen buf ->
  exists chain, IsoSession_createDisconnectSpdu buf mx payload = Some chain /\ chain_ok chain /\
    chain_bytes chain = spdu_header 10 [] (bc_length payload) ++ chain_bytes payload.
Proof.
  intros Hp Hl Hb. destruct (chain_ok_length _ Hp) as [_ Hpos]. unfold IsoSession_createDisconnectSpdu, u8. rewrite !Z.mod_small by lia.
  apply (simple_spdu_spec (spdu_header 10 [] (bc_length payload))); [change (0 < 4 <= zlen buf); lia | done].
Qed.

(** Data SPDUs have no length field and carry any payload. *)
Lemma parse_data_spdu s payload post mx :
  0 < zlen payload ->
  IsoSession_parseMessage s (message_of (dataSpdu ++ payload) post mx) = Some (SESSION_DATA, with_userData s (message_of payload post (mx - 4))).
Proof.
  intros Hp. unfold IsoSession_parseMessage, message_of, dataSpdu. cbn [bb_size bb_buffer bb_maxSize app].
  rewrite !zlen_cons. if_true. set (rest := payload ++ post).
  change (ld (1 :: 0 :: 1 :: 0 :: rest) 0) with (Some 1). change (ld (1 :: 0 :: 1 :: 0 :: rest) 1) with (Some 0).
  change (ld (1 :: 0 :: 1 :: 0 :: rest) 2) with (Some 1). change (ld (1 :: 0 :: 1 :: 0 :: rest) 3) with (Some 0).
  cbn [mbind option_bind Z.eqb Pos.eqb]. if_false. cbn [andb]. unfold ByteBuffer_wrap.
  by replace (1 + (1 + (1 + (1 + zlen payload))) - 4) with (zlen payload) by lia.
Qed.

Lemma IsoSession_init_ok : session_ok IsoSession_init.
Proof. unfold session_ok, sSelector_ok. split_and!; try done; cbn; try lia; bytes_concrete. Qed.
