(* ===== verification/IsoPresentation.v ===== *)
(** The presentation layer:
    src/libiec61850/src/mms/iso_presentation/iso_presentation.c with
    iso_presentation.h, ISO 8823.

    A PDU is built in front of the payload, as in the session layer: a function
    that creates one takes the memory [buf] for its header and returns the chain.
    The parsers run through the BER elements of a message; their result [-1] is an
    error. Every turn of a loop consumes a tag and a length, so that one turn per byte
    and one more for the exit are enough. *)

From S2P Require Import Prelude BerEncoder BerDecoder ByteBuffer IsoParameters.
Open Scope Z_scope.

Record IsoPresentation := mkIsoPresentation {
  pr_callingPresentationSelector : PSelector;
  pr_calledPresentationSelector : PSelector;
  pr_nextContextId : Z;
  pr_acseContextId : Z;
  pr_mmsContextId : Z;
  pr_nextPayload : ByteBuffer
}.

Definition with_callingPSelector (p : IsoPresentation) (v : PSelector) : IsoPresentation :=
  mkIsoPresentation v (pr_calledPresentationSelector p) (pr_nextContextId p) (pr_acseContextId p) (pr_mmsContextId p) (pr_nextPayload p).
Definition with_calledPSelector (p : IsoPresentation) (v : PSelector) : IsoPresentation :=
  mkIsoPresentation (pr_callingPresentationSelector p) v (pr_nextContextId p) (pr_acseContextId p) (pr_mmsContextId p) (pr_nextPayload p).
Definition with_nextContextId (p : IsoPresentation) (v : Z) : IsoPresentation :=
  mkIsoPresentation (pr_callingPresentationSelector p) (pr_calledPresentationSelector p) v (pr_acseContextId p) (pr_mmsContextId p) (pr_nextPayload p).
Definition with_acseContextId (p : IsoPresentation) (v : Z) : IsoPresentation :=
  mkIsoPresentation (pr_callingPresentationSelector p) (pr_calledPresentationSelector p) (pr_nextContextId p) v (pr_mmsContextId p) (pr_nextPayload p).
Definition with_mmsContextId (p : IsoPresentation) (v : Z) : IsoPresentation :=
  mkIsoPresentation (pr_callingPresentationSelector p) (pr_calledPresentationSelector p) (pr_nextContextId p) (pr_acseContextId p) v (pr_nextPayload p).
Definition with_nextPayload (p : IsoPresentation) (v : ByteBuffer) : IsoPresentation :=
  mkIsoPresentation (pr_callingPresentationSelector p) (pr_calledPresentationSelector p) (pr_nextContextId p) (pr_acseContextId p) (pr_mmsContextId p) v.

Definition calledPresentationSelector : list Z := [0x00; 0x00; 0x00; 0x01].
Definition asn_id_as_acse : list Z := [0x52; 0x01; 0x00; 0x01].
Definition asn_id_mms : list Z := [0x28; 0xca; 0x22; 0x02; 0x01].
Definition ber_id : list Z := [0x51; 0x01].

(** * Creating PDUs *)

Definition encodeAcceptBer : writer := fun buffer bufPos =>
  '(buffer, bufPos) ← BerEncoder_encodeTL 0x30 7 buffer bufPos;
  '(buffer, bufPos) ← BerEncoder_encodeTL 0x80 1 buffer bufPos;
  '(buffer, bufPos) ← put 0 buffer bufPos;
  '(buffer, bufPos) ← BerEncoder_encodeTL 0x81 2 buffer bufPos;
  '(buffer, bufPos) ← put 0x51 buffer bufPos;
  put 0x01 buffer bufPos.

(** [encodeUserData] with [encode] false returns a size, with [encode] true it writes. *)
Definition encodedDataSetLength (payload : BufferChain) : Z :=
  3 + (bc_length payload + 1) + BerEncoder_determineLengthSize (bc_length payload).

Definition fullyEncodedDataLength (payload : BufferChain) : Z :=
  encodedDataSetLength payload + (BerEncoder_determineLengthSize (encodedDataSetLength payload) + 1).

Definition encodeUserData_size (payload : BufferChain) : Z :=
  fullyEncodedDataLength payload + 1 + BerEncoder_determineLengthSize (fullyEncodedDataLength payload).

Definition encodeUserData (payload : BufferChain) (contextId : Z) : writer := fun buffer bufPos =>
  '(buffer, bufPos) ← BerEncoder_encodeTL 0x61 (fullyEncodedDataLength payload) buffer bufPos;
  '(buffer, bufPos) ← BerEncoder_encodeTL 0x30 (encodedDataSetLength payload) buffer bufPos;
  '(buffer, bufPos) ← BerEncoder_encodeTL 0x02 1 buffer bufPos;
  '(buffer, bufPos) ← put contextId buffer bufPos;
  BerEncoder_encodeTL 0xa0 (bc_length payload) buffer bufPos.

Definition encode_pSelector (tag : Z) (sel : PSelector) : writer := fun buffer bufPos =>
  '(buffer, bufPos) ← BerEncoder_encodeTL tag (pse_size sel) buffer bufPos;
  copy_loop (Z.to_nat (pse_size sel)) (pse_value sel) 0 buffer bufPos.

(** an item of the context list: identifier, abstract syntax and BER as transfer syntax *)
Definition encode_context (itemLength contextId : Z) (syntax : list Z) : writer := fun buffer bufPos =>
  '(buffer, bufPos) ← BerEncoder_encodeTL 0x30 itemLength buffer bufPos;
  '(buffer, bufPos) ← BerEncoder_encodeTL 0x02 1 buffer bufPos;
  '(buffer, bufPos) ← put contextId buffer bufPos;
  '(buffer, bufPos) ← BerEncoder_encodeTL 0x06 (zlen syntax) buffer bufPos;
  '(buffer, bufPos) ← puts syntax buffer bufPos;
  '(buffer, bufPos) ← BerEncoder_encodeTL 0x30 4 buffer bufPos;
  '(buffer, bufPos) ← BerEncoder_encodeTL 0x06 2 buffer bufPos;
  puts ber_id buffer bufPos.

(** [writeBuffer->partLength], [length] and [nextPart], set in the end *)
Definition finish_part (write : writer) (buf : list Z) (partMaxLength : Z) (payload : BufferChain) : option BufferChain :=
  '(buf, bufPos) ← write buf 0;
  Some (mkBufferChain (bufPos + bc_length payload) bufPos partMaxLength buf (Some payload)).

Definition createConnectPdu (self : IsoPresentation) (buf : list Z) (partMaxLength : Z) (payload : BufferChain)
  : option BufferChain :=
  let pclLength := 27 + pse_size (pr_callingPresentationSelector self) + pse_size (pr_calledPresentationSelector self) in
  let normalModeLength := 12 + pclLength + encodeUserData_size payload + 2 in
  let contentLength := 5 + normalModeLength + (1 + BerEncoder_determineLengthSize normalModeLength) in
  finish_part (fun buffer bufPos =>
    '(buffer, bufPos) ← BerEncoder_encodeTL 0x31 contentLength buffer bufPos;
    '(buffer, bufPos) ← BerEncoder_encodeTL 0xa0 3 buffer bufPos;
    '(buffer, bufPos) ← BerEncoder_encodeTL 0x80 1 buffer bufPos;
    '(buffer, bufPos) ← put 1 buffer bufPos;
    '(buffer, bufPos) ← BerEncoder_encodeTL 0xa2 normalModeLength buffer bufPos;
    '(buffer, bufPos) ← encode_pSelector 0x81 (pr_callingPresentationSelector self) buffer bufPos;
    '(buffer, bufPos) ← encode_pSelector 0x82 (pr_calledPresentationSelector self) buffer bufPos;
    '(buffer, bufPos) ← BerEncoder_encodeTL 0xa4 35 buffer bufPos;
    '(buffer, bufPos) ← encode_context 15 1 asn_id_as_acse buffer bufPos;
    '(buffer, bufPos) ← encode_context 16 3 asn_id_mms buffer bufPos;
    encodeUserData payload (pr_acseContextId self) buffer bufPos) buf partMaxLength payload.

Definition IsoPresentation_createConnectPdu (self : IsoPresentation) (parameters : IsoConnectionParameters)
    (buf : list Z) (partMaxLength : Z) (payload : BufferChain) : option (IsoPresentation * BufferChain) :=
  let self := with_mmsContextId (with_acseContextId self 1) 3 in
  let self := with_callingPSelector self (ia_pSelector (ip_local parameters)) in
  let self := with_calledPSelector self (ia_pSelector (ip_remote parameters)) in
  chain ← createConnectPdu self buf partMaxLength payload;
  Some (self, chain).

Definition IsoPresentation_createAbortUserMessage (self : IsoPresentation) (buf : list Z) (partMaxLength : Z)
    (payload : BufferChain) : option BufferChain :=
  finish_part (fun buffer bufPos =>
    '(buffer, bufPos) ← BerEncoder_encodeTL 0xa0 (encodeUserData_size payload) buffer bufPos;
    encodeUserData payload (pr_acseContextId self) buffer bufPos) buf partMaxLength payload.

Definition IsoPresentation_createCpaMessage (self : IsoPresentation) (buf : list Z) (partMaxLength : Z)
    (payload : BufferChain) : option BufferChain :=
  let normalModeLength := 6 + 20 + encodeUserData_size payload in
  let contentLength := 5 + normalModeLength + (BerEncoder_determineLengthSize normalModeLength + 1) in
  finish_part (fun buffer bufPos =>
    '(buffer, bufPos) ← BerEncoder_encodeTL 0x31 contentLength buffer bufPos;
    '(buffer, bufPos) ← BerEncoder_encodeTL 0xa0 3 buffer bufPos;
    '(buffer, bufPos) ← BerEncoder_encodeTL 0x80 1 buffer bufPos;
    '(buffer, bufPos) ← put 1 buffer bufPos;
    '(buffer, bufPos) ← BerEncoder_encodeTL 0xa2 normalModeLength buffer bufPos;
    '(buffer, bufPos) ← BerEncoder_encodeTL 0x83 4 buffer bufPos;
    '(buffer, bufPos) ← puts calledPresentationSelector buffer bufPos;
    '(buffer, bufPos) ← BerEncoder_encodeTL 0xa5 18 buffer bufPos;
    '(buffer, bufPos) ← encodeAcceptBer buffer bufPos;
    '(buffer, bufPos) ← encodeAcceptBer buffer bufPos;
    encodeUserData payload (pr_acseContextId self) buffer bufPos) buf partMaxLength payload.

(** [createUserData] and [createUserDataACSE] differ in the context they name *)
Definition create_user_data (contextId : Z) (buf : list Z) (partMaxLength : Z) (payload : BufferChain)
  : option BufferChain :=
  let payloadLength := bc_length payload in
  let userDataLengthFieldSize := BerEncoder_determineLengthSize payloadLength in
  let pdvListLength := payloadLength + (userDataLengthFieldSize + 4) in
  let pdvListLengthFieldSize := BerEncoder_determineLengthSize pdvListLength in
  let presentationLength := pdvListLength + (pdvListLengthFieldSize + 1) in
  finish_part (fun buffer bufPos =>
    '(buffer, bufPos) ← BerEncoder_encodeTL 0x61 presentationLength buffer bufPos;
    '(buffer, bufPos) ← BerEncoder_encodeTL 0x30 pdvListLength buffer bufPos;
    '(buffer, bufPos) ← puts [0x02; 0x01; contextId] buffer bufPos;
    BerEncoder_encodeTL 0xa0 payloadLength buffer bufPos) buf partMaxLength payload.

Definition IsoPresentation_createUserData (self : IsoPresentation) : list Z -> Z -> BufferChain -> option BufferChain :=
  create_user_data (pr_mmsContextId self).

Definition IsoPresentation_createUserDataACSE (self : IsoPresentation) : list Z -> Z -> BufferChain -> option BufferChain :=
  create_user_data (pr_acseContextId self).

Definition IsoPresentation_init (self : IsoPresentation) : IsoPresentation := self.

(** * Parsing *)

(** [while (bufPos < endPos)] of [parseFullyEncodedData]; the last argument is
    [userDataPresent]. Only the pointer and the size of [nextPayload] are set. *)
Fixpoint fullyEncodedData_loop (fuel : nat) (self : IsoPresentation) (buffer : list Z) (bufPos endPos : Z)
    (userDataPresent : bool) : option (Z * IsoPresentation) :=
  match fuel with
  | O => None
  | S fuel =>
      if bufPos <? endPos then
        tag ← ld buffer bufPos;
        '(bufPos, length) ← BerDecoder_decodeLength buffer 0 (bufPos + 1) endPos;
        if bufPos <? 0 then Some (-1, self)
        else if tag =? 0x02 then
          presentationSelector ← BerDecoder_decodeUint32 buffer length bufPos;
          fullyEncodedData_loop fuel (with_nextContextId self (u8 presentationSelector)) buffer (bufPos + length) endPos userDataPresent
        else if tag =? 0x06 then fullyEncodedData_loop fuel self buffer (bufPos + length) endPos userDataPresent
        else if tag =? 0xa0 then
          fullyEncodedData_loop fuel
            (with_nextPayload self (mkByteBuffer (ptr_add buffer bufPos) (bb_maxSize (pr_nextPayload self)) length))
            buffer (bufPos + length) endPos true
        else if tag =? 0x00 then fullyEncodedData_loop fuel self buffer bufPos endPos userDataPresent
        else fullyEncodedData_loop fuel self buffer (bufPos + length) endPos userDataPresent
      else Some (if userDataPresent then bufPos else -1, self)
  end.

Definition parseFullyEncodedData (self : IsoPresentation) (buffer : list Z) (len bufPos : Z) : option (Z * IsoPresentation) :=
  let endPos := bufPos + len in
  b ← ld buffer bufPos;
  if negb (b =? 0x30) then Some (-1, self)
  else
    '(bufPos, len) ← BerDecoder_decodeLength buffer len (bufPos + 1) endPos;
    if bufPos <? 0 then Some (-1, self)
    else fullyEncodedData_loop (S (Z.to_nat len)) self buffer bufPos (bufPos + len) false.

(** [memcmp(buffer + bufPos, id, n) == 0] *)
Definition same_bytes (buffer : list Z) (bufPos : Z) (id : list Z) : option bool :=
  bytes ← ld_range buffer bufPos (zlen id); Some (bool_decide (bytes = id)).

Fixpoint pcdlEntry_loop (fuel : nat) (buffer : list Z) (bufPos endPos : Z) (contextId : Z) (isAcse isMms : bool)
  : option (Z * (Z * bool * bool)) :=
  match fuel with
  | O => None
  | S fuel =>
      if bufPos <? endPos then
        tag ← ld buffer bufPos;
        '(bufPos, len) ← BerDecoder_decodeLength buffer 0 (bufPos + 1) endPos;
        if bufPos <? 0 then Some (-1, (contextId, isAcse, isMms))
        else if tag =? 0x02 then
          v ← BerDecoder_decodeUint32 buffer len bufPos;
          pcdlEntry_loop fuel buffer (bufPos + len) endPos (s32 v) isAcse isMms
        else if tag =? 0x06 then
          '(isAcse, isMms) ←
            (if len =? 5 then m ← same_bytes buffer bufPos asn_id_mms; Some (isAcse, isMms || m)
             else if len =? 4 then m ← same_bytes buffer bufPos asn_id_as_acse; Some (isAcse || m, isMms)
             else Some (isAcse, isMms));
          pcdlEntry_loop fuel buffer (bufPos + len) endPos contextId isAcse isMms
        else if tag =? 0x30 then pcdlEntry_loop fuel buffer (bufPos + len) endPos contextId isAcse isMms
        else if tag =? 0x00 then pcdlEntry_loop fuel buffer bufPos endPos contextId isAcse isMms
        else pcdlEntry_loop fuel buffer (bufPos + len) endPos contextId isAcse isMms
      else Some (bufPos, (contextId, isAcse, isMms))
  end.

Definition parsePCDLEntry (self : IsoPresentation) (buffer : list Z) (totalLength bufPos : Z) : option (Z * IsoPresentation) :=
  '(bufPos, (contextId, isAcse, isMms)) ← pcdlEntry_loop (S (Z.to_nat totalLength)) buffer bufPos (bufPos + totalLength) (-1) false false;
  if bufPos <? 0 then Some (-1, self)
  else if contextId <? 0 then Some (-1, self)
  else if negb isAcse && negb isMms then Some (-1, self)
  else if isMms then Some (bufPos, with_mmsContextId self (u8 contextId))
  else Some (bufPos, with_acseContextId self (u8 contextId)).

Fixpoint pcdl_loop (fuel : nat) (self : IsoPresentation) (buffer : list Z) (bufPos endPos : Z) : option (Z * IsoPresentation) :=
  match fuel with
  | O => None
  | S fuel =>
      if bufPos <? endPos then
        tag ← ld buffer bufPos;
        '(bufPos, len) ← BerDecoder_decodeLength buffer 0 (bufPos + 1) endPos;
        if bufPos <? 0 then Some (-1, self)
        else if tag =? 0x30 then
          '(bufPos, self) ← parsePCDLEntry self buffer len bufPos;
          if bufPos <? 0 then Some (-1, self) else pcdl_loop fuel self buffer bufPos endPos
        else if tag =? 0x00 then pcdl_loop fuel self buffer bufPos endPos
        else pcdl_loop fuel self buffer (bufPos + len) endPos
      else Some (bufPos, self)
  end.

Definition parsePresentationContextDefinitionList (self : IsoPresentation) (buffer : list Z) (totalLength bufPos : Z)
  : option (Z * IsoPresentation) :=
  pcdl_loop (S (Z.to_nat totalLength)) self buffer bufPos (bufPos + totalLength).

(** [for (i = 0; i < len; i++) value[i] = buffer[bufPos + i]], for selectors that fit *)
Definition read_pSelector (old : PSelector) (buffer : list Z) (bufPos len : Z) : option PSelector :=
  if 16 <? len then Some old
  else
    bytes ← ld_range buffer bufPos len;
    value ← st_range (pse_value old) 0 bytes;
    Some (mkPSelector len value).

Fixpoint normalMode_loop (fuel : nat) (self : IsoPresentation) (buffer : list Z) (bufPos endPos : Z) (hasUserData : bool)
  : option (Z * IsoPresentation) :=
  match fuel with
  | O => None
  | S fuel =>
      if bufPos <? endPos then
        tag ← ld buffer bufPos;
        let bufPos := bufPos + 1 in
        if bufPos =? endPos then Some (-1, self)
        else
          '(bufPos, len) ← BerDecoder_decodeLength buffer 0 bufPos endPos;
          if bufPos <? 0 then Some (-1, self)
          else if tag =? 0x81 then
            sel ← read_pSelector (pr_callingPresentationSelector self) buffer bufPos len;
            normalMode_loop fuel (with_callingPSelector self sel) buffer (bufPos + len) endPos hasUserData
          else if tag =? 0x82 then
            sel ← read_pSelector (pr_calledPresentationSelector self) buffer bufPos len;
            normalMode_loop fuel (with_calledPSelector self sel) buffer (bufPos + len) endPos hasUserData
          else if tag =? 0x83 then normalMode_loop fuel self buffer (bufPos + len) endPos hasUserData
          else if tag =? 0xa4 then
            '(bufPos, self) ← parsePresentationContextDefinitionList self buffer len bufPos;
            if bufPos <? 0 then Some (-1, self) else normalMode_loop fuel self buffer bufPos endPos hasUserData
          else if tag =? 0xa5 then normalMode_loop fuel self buffer (bufPos + len) endPos hasUserData
          else if tag =? 0x61 then
            '(bufPos, self) ← parseFullyEncodedData self buffer len bufPos;
            if bufPos <? 0 then Some (-1, self)
            else normalMode_loop fuel self buffer bufPos endPos (hasUserData || (0 <? bb_size (pr_nextPayload self)))
          else if tag =? 0x00 then normalMode_loop fuel self buffer bufPos endPos hasUserData
          else normalMode_loop fuel self buffer (bufPos + len) endPos hasUserData
      else Some (if hasUserData then bufPos else -1, self)
  end.

Definition parseNormalModeParameters (self : IsoPresentation) (buffer : list Z) (totalLength bufPos : Z)
  : option (Z * IsoPresentation) :=
  let self := with_calledPSelector self (mkPSelector 0 (pse_value (pr_calledPresentationSelector self))) in
  let self := with_callingPSelector self (mkPSelector 0 (pse_value (pr_callingPresentationSelector self))) in
  normalMode_loop (S (Z.to_nat totalLength)) self buffer bufPos (bufPos + totalLength) false.

Fixpoint acceptMessage_loop (fuel : nat) (self : IsoPresentation) (buffer : list Z) (bufPos maxBufPos : Z)
  : option (Z * IsoPresentation) :=
  match fuel with
  | O => None
  | S fuel =>
      if bufPos <? maxBufPos then
        tag ← ld buffer bufPos;
        '(bufPos, len) ← BerDecoder_decodeLength buffer 0 (bufPos + 1) maxBufPos;
        if bufPos <? 0 then Some (0, self)
        else if tag =? 0xa0 then acceptMessage_loop fuel self buffer (bufPos + len) maxBufPos
        else if tag =? 0xa2 then
          '(bufPos, self) ← parseNormalModeParameters self buffer len bufPos;
          if bufPos <? 0 then Some (0, self) else acceptMessage_loop fuel self buffer bufPos maxBufPos
        else if tag =? 0x00 then acceptMessage_loop fuel self buffer bufPos maxBufPos
        else acceptMessage_loop fuel self buffer (bufPos + len) maxBufPos
      else Some (1, self)
  end.

Definition IsoPresentation_parseAcceptMessage (self : IsoPresentation) (byteBuffer : ByteBuffer) : option (Z * IsoPresentation) :=
  let buffer := bb_buffer byteBuffer in
  let maxBufPos := bb_size byteBuffer in
  cpTag ← ld buffer 0;
  if negb (cpTag =? 0x31) then Some (0, self)
  else
    '(bufPos, len) ← BerDecoder_decodeLength buffer 0 1 maxBufPos;
    if bufPos <? 0 then Some (0, self)
    else acceptMessage_loop (S (Z.to_nat maxBufPos)) self buffer bufPos maxBufPos.

(** An element of a kind that is not expected is entered, not skipped: its content
    is taken for the next elements. *)
Fixpoint userData_loop (fuel : nat) (self : IsoPresentation) (buffer : list Z) (bufPos maxBufPos : Z)
    (hasAbstractSyntaxName : bool) : option (Z * IsoPresentation) :=
  match fuel with
  | O => None
  | S fuel =>
      if bufPos <? maxBufPos then
        tag ← ld buffer bufPos;
        lenField ← ld buffer (bufPos + 1);
        '(bufPos, len) ← BerDecoder_decodeLength buffer 0 (bufPos + 1) maxBufPos;
        if bufPos <? 0 then Some (0, self)
        else if tag =? 0x02 then
          b ← ld buffer bufPos;
          userData_loop fuel (with_nextContextId self b) buffer (bufPos + len) maxBufPos true
        else if tag =? 0x06 then
          b0 ← ld buffer bufPos;
          bad ← (if negb (b0 =? 0x51) then Some true else b1 ← ld buffer (bufPos + 1); Some (negb (b1 =? 0x01)));
          if (bad : bool) then Some (0, self)
          else userData_loop fuel self buffer (bufPos + len) maxBufPos hasAbstractSyntaxName
        else if tag =? 0xa0 then
          if negb hasAbstractSyntaxName then Some (0, self)
          else
            let userDataLength := if lenField =? 0x80 then len - 2 else len in
            Some (1, with_nextPayload self (ByteBuffer_wrap (ptr_add buffer bufPos) userDataLength userDataLength))
        else userData_loop fuel self buffer bufPos maxBufPos hasAbstractSyntaxName
      else Some (0, self)
  end.

Definition IsoPresentation_parseUserData (self : IsoPresentation) (readBuffer : ByteBuffer) : option (Z * IsoPresentation) :=
  let buffer := bb_buffer readBuffer in
  let maxBufPos := bb_size readBuffer in
  if maxBufPos <? 9 then Some (0, self)
  else
    b ← ld buffer 0;
    if negb (b =? 0x61) then Some (0, self)
    else
      '(bufPos, len) ← BerDecoder_decodeLength buffer 0 1 maxBufPos;
      if bufPos <? 0 then Some (0, self)
      else
        b ← ld buffer bufPos;
        if negb (b =? 0x30) then Some (0, self)
        else
          '(bufPos, len) ← BerDecoder_decodeLength buffer len (bufPos + 1) maxBufPos;
          if bufPos <? 0 then Some (0, self)
          else userData_loop (S (Z.to_nat maxBufPos)) self buffer bufPos maxBufPos false.

Fixpoint connect_loop (fuel : nat) (self : IsoPresentation) (buffer : list Z) (bufPos maxBufPos : Z)
    (hasNormalModeParameters : bool) : option (Z * IsoPresentation) :=
  match fuel with
  | O => None
  | S fuel =>
      if bufPos <? maxBufPos then
        tag ← ld buffer bufPos;
        '(bufPos, len) ← BerDecoder_decodeLength buffer 0 (bufPos + 1) maxBufPos;
        if bufPos <? 0 then Some (0, self)
        else if tag =? 0xa0 then
          b ← ld buffer bufPos;
          if negb (b =? 0x80) then Some (0, self)
          else
            '(bufPos, len) ← BerDecoder_decodeLength buffer len (bufPos + 1) maxBufPos;
            if bufPos <? 0 then Some (0, self)
            else
              _ ← BerDecoder_decodeUint32 buffer len bufPos;
              connect_loop fuel self buffer (bufPos + len) maxBufPos hasNormalModeParameters
        else if tag =? 0xa2 then
          '(bufPos, self) ← parseNormalModeParameters self buffer len bufPos;
          if bufPos <? 0 then Some (0, self) else connect_loop fuel self buffer bufPos maxBufPos true
        else if tag =? 0x00 then connect_loop fuel self buffer bufPos maxBufPos hasNormalModeParameters
        else connect_loop fuel self buffer (bufPos + len) maxBufPos hasNormalModeParameters
      else Some (if hasNormalModeParameters then 1 else 0, self)
  end.

Definition IsoPresentation_parseConnect (self : IsoPresentation) (byteBuffer : ByteBuffer) : option (Z * IsoPresentation) :=
  let buffer := bb_buffer byteBuffer in
  let maxBufPos := bb_size byteBuffer in
  cpTag ← ld buffer 0;
  if negb (cpTag =? 0x31) then Some (0, self)
  else
    '(bufPos, len) ← BerDecoder_decodeLength buffer 0 1 maxBufPos;
    if bufPos <? 0 then Some (0, self)
    else connect_loop (S (Z.to_nat maxBufPos)) self buffer bufPos maxBufPos false.
