(* ===== verification/PresentationFacts.v ===== *)
(** The presentation layer: the parsers on arbitrary bytes, and on the PDUs the
    library creates. *)

From S2P Require Import Prelude BerEncoder BerDecoder ByteBuffer IsoParameters IsoPresentation.
Open Scope Z_scope.

(** * Arbitrary bytes *)

Definition pSelector_ok (s : PSelector) : Prop := zlen (pse_value s) = 16 /\ bytes_ok (pse_value s) /\ 0 <= pse_size s <= 16.

Definition presentation_ok (p : IsoPresentation) : Prop :=
  pSelector_ok (pr_callingPresentationSelector p) /\ pSelector_ok (pr_calledPresentationSelector p) /\
  is_byte (pr_nextContextId p) /\ is_byte (pr_acseContextId p) /\ is_byte (pr_mmsContextId p).

Lemma u8_byte z : is_byte (u8 z).
Proof. unfold is_byte, u8. apply Z.mod_pos_bound. lia. Qed.

Section Safety.
Context (buffer : list Z) (limit : Z).
Hypothesis Hok : bytes_ok buffer.
(** The message has [limit] bytes; the parsers may look at the two bytes behind it. *)
Hypothesis Hlimit : limit + 2 <= zlen buffer.
Hypothesis Hsmall : limit < 4194304.

(** The payload lies inside the message. *)
Definition payload_in (payload : ByteBuffer) : Prop :=
  exists offset, 0 <= offset /\ bb_buffer payload = ptr_add buffer offset /\ 0 <= bb_size payload /\ offset + bb_size payload <= limit.

(** What a parser of an element from [bufPos] to [endPos] returns. *)
Definition parse_result (self : IsoPresentation) (bufPos endPos : Z) (r : option (Z * IsoPresentation)) : Prop :=
  exists n self', r = Some (n, self') /\ presentation_ok self' /\ pr_nextPayload self' = pr_nextPayload self /\ (n = -1 \/ bufPos <= n <= endPos).

Definition payload_result (bufPos endPos : Z) (r : option (Z * IsoPresentation)) : Prop :=
  exists n self', r = Some (n, self') /\ presentation_ok self' /\
    (n = -1 \/ bufPos <= n <= endPos /\ payload_in (pr_nextPayload self')).

Definition flag_result (r : option (Z * IsoPresentation)) : Prop :=
  exists n self', r = Some (n, self') /\ presentation_ok self' /\ (n = 0 \/ n = 1).

Lemma parse_result_mono self self' a a' e e' r :
  parse_result self a e r -> pr_nextPayload self = pr_nextPayload self' -> a' <= a -> e <= e' -> parse_result self' a' e' r.
Proof. intros (n & s & -> & Hs & Hp & Hn) ? ? ?. exists n, s. split; [done|]. split; [done|]. split; [congruence | lia]. Qed.

Lemma payload_result_mono a a' e e' r : payload_result a e r -> a' <= a -> e <= e' -> payload_result a' e' r.
Proof.
  intros (n & s & -> & Hs & Hn) ? ?. exists n, s. split; [done|]. split; [done|].
  destruct Hn as [Hn|[Hn Hp]]; [by left | right; split; [lia | done]].
Qed.

(** read the tag and length at the head of a loop *)
Ltac element bufPos endPos :=
  let tag := fresh "tag" in let p := fresh "p" in let l := fresh "len" in
  let Ht := fresh "Ht" in let Hb := fresh "Hb" in let Hd := fresh "Hd" in let Hr := fresh "Hr" in
  destruct (element_total buffer 0 bufPos endPos Hok ltac:(lia) ltac:(lia) ltac:(lia)) as (tag & p & l & Ht & Hb & Hd & Hr);
  rewrite Ht; cbn [mbind option_bind]; rewrite ?Hd; cbn [mbind option_bind].

Lemma fullyEncodedData_total fuel : forall self bufPos endPos present,
  presentation_ok self -> (present = true -> payload_in (pr_nextPayload self)) ->
  0 <= bufPos <= endPos -> endPos <= limit -> endPos - bufPos < Z.of_nat fuel ->
  payload_result bufPos endPos (fullyEncodedData_loop fuel self buffer bufPos endPos present).
Proof.
  induction fuel as [|fuel IH]; intros self bufPos endPos present Hs Hpr Hp He Hf; [lia|]. cbn [fullyEncodedData_loop].
  btest; [|exists (if present then bufPos else -1), self; split; [done|]; split; [done|]; destruct present; [right; split; [lia | auto] | by left]].
  element bufPos endPos. btest; [exists (-1), self; auto|].
  assert (forall s q b, presentation_ok s -> (b = true -> payload_in (pr_nextPayload s)) -> p <= q <= endPos ->
    payload_result bufPos endPos (fullyEncodedData_loop fuel s buffer q endPos b)) as Hgo.
  { intros s q b Hs' Hb' Hq. eapply payload_result_mono; [apply IH; try done; lia | lia | lia]. }
  pose proof Hs as (? & ? & ? & ? & ?).
  case_match.
  { destruct (decodeUint32_total buffer p len) as (v & -> & _); try lia. cbn [mbind option_bind]. apply Hgo; [|done|lia].
    unfold presentation_ok. cbn. split_and!; try done; apply u8_byte. }
  case_match; [apply Hgo; (done || lia)|]. case_match; [apply Hgo; [done | | lia]; intros _; exists p; cbn; split_and!; (done || lia)|].
  case_match; apply Hgo; (done || lia).
Qed.

Lemma parseFullyEncodedData_total self len bufPos :
  presentation_ok self -> 0 <= bufPos -> 0 <= len -> bufPos + len <= limit ->
  payload_result bufPos (bufPos + len) (parseFullyEncodedData self buffer len bufPos).
Proof.
  intros Hs Hp Hl He. unfold parseFullyEncodedData. destruct (ld_is_Some buffer bufPos) as [b ->]; [lia|]. cbn [mbind option_bind].
  case_match; [exists (-1), self; auto|].
  destruct (decodeLength_total buffer (bufPos + len) Hok ltac:(lia) ltac:(lia) len (bufPos + 1)) as ([p l] & -> & Hr); [lia|].
  unfold length_result in Hr. cbn [fst snd] in Hr. cbn [mbind option_bind]. btest; [exists (-1), self; auto|].
  eapply payload_result_mono; [apply fullyEncodedData_total; try done; lia | lia | lia].
Qed.

Lemma same_bytes_total bufPos id : 0 <= bufPos -> bufPos + zlen id <= zlen buffer -> is_Some (same_bytes buffer bufPos id).
Proof. intros. unfold same_bytes. pose proof (zlen_nonneg id). rewrite ld_range_Some by lia. cbn. eauto. Qed.

Lemma pcdlEntry_total fuel : forall bufPos endPos ctx a m,
  0 <= bufPos <= endPos -> endPos <= limit -> endPos - bufPos < Z.of_nat fuel ->
  exists n r, pcdlEntry_loop fuel buffer bufPos endPos ctx a m = Some (n, r) /\ (n = -1 \/ bufPos <= n <= endPos).
Proof.
  induction fuel as [|fuel IH]; intros bufPos endPos ctx a m Hp He Hf; [lia|]. cbn [pcdlEntry_loop].
  btest; [|do 2 eexists; split; [done | lia]]. element bufPos endPos. btest; [do 2 eexists; split; [done | by left]|].
  assert (forall q c a m, p <= q <= endPos -> exists n r, pcdlEntry_loop fuel buffer q endPos c a m = Some (n, r) /\ (n = -1 \/ bufPos <= n <= endPos)) as Hgo.
  { intros q c a' m' Hq. destruct (IH q endPos c a' m') as (n & r & -> & Hn); try lia. exists n, r. split; [done | lia]. }
  case_match; [destruct (decodeUint32_total buffer p len) as (v & -> & _); try lia; cbn [mbind option_bind]; apply Hgo; lia|].
  case_match.
  { case_match; bdestr; [|case_match; bdestr; [|cbn [mbind option_bind]; apply Hgo; lia]].
    - destruct (same_bytes_total p asn_id_mms) as [b ->]; [lia | change (zlen asn_id_mms) with 5; lia|]. cbn [mbind option_bind]. apply Hgo; lia.
    - destruct (same_bytes_total p asn_id_as_acse) as [b ->]; [lia | change (zlen asn_id_as_acse) with 4; lia|]. cbn [mbind option_bind]. apply Hgo; lia. }
  repeat case_match; apply Hgo; lia.
Qed.

Lemma parsePCDLEntry_total self totalLength bufPos :
  presentation_ok self -> 0 <= bufPos -> 0 <= totalLength -> bufPos + totalLength <= limit ->
  parse_result self bufPos (bufPos + totalLength) (parsePCDLEntry self buffer totalLength bufPos).
Proof.
  intros Hs Hp Hl He. unfold parsePCDLEntry.
  destruct (pcdlEntry_total (S (Z.to_nat totalLength)) bufPos (bufPos + totalLength) (-1) false false) as (n & [[c a] m] & -> & Hn); try lia.
  cbn [mbind option_bind]. pose proof Hs as (? & ? & ? & ? & ?).
  repeat case_match; bdestr; (do 2 eexists; split; [done|]); (split; [|split; [done | lia]]); try done; unfold presentation_ok; cbn; split_and!; try done; apply u8_byte.
Qed.

Lemma pcdl_total fuel : forall self bufPos endPos,
  presentation_ok self -> 0 <= bufPos <= endPos -> endPos <= limit -> endPos - bufPos < Z.of_nat fuel ->
  parse_result self bufPos endPos (pcdl_loop fuel self buffer bufPos endPos).
Proof.
  induction fuel as [|fuel IH]; intros self bufPos endPos Hs Hp He Hf; [lia|]. cbn [pcdl_loop].
  btest; [|exists bufPos, self; split; [done|]; split; [done|]; split; [done | lia]]. element bufPos endPos. btest; [exists (-1), self; auto|].
  assert (forall s q, presentation_ok s -> pr_nextPayload s = pr_nextPayload self -> p <= q <= endPos -> parse_result self bufPos endPos (pcdl_loop fuel s buffer q endPos)) as Hgo.
  { intros s q Hs' Hn Hq. eapply parse_result_mono; [apply IH; try done; lia | done | lia | lia]. }
  case_match; [|repeat case_match; apply Hgo; (done || lia)].
  destruct (parsePCDLEntry_total self len p) as (n & s & -> & Hs' & Hpl & Hn); try done; try lia.
  cbn [mbind option_bind]. btest; [exists (-1), s; auto|]. apply Hgo; (done || lia).
Qed.

Lemma read_pSelector_total old bufPos len :
  pSelector_ok old -> 0 <= bufPos -> 0 <= len -> bufPos + len <= limit ->
  exists sel, read_pSelector old buffer bufPos len = Some sel /\ pSelector_ok sel.
Proof.
  intros Ho Hp Hl He. pose proof Ho as (Hv & Hvb & _). unfold read_pSelector. btest; [by exists old|].
  pose proof (ld_range_Some buffer bufPos len ltac:(lia) ltac:(lia) ltac:(lia)) as Hr. rewrite Hr. cbn [mbind option_bind].
  destruct (ld_range_zlen _ _ _ _ Hr) as [Hz _]. pose proof (ld_range_bytes _ _ _ _ Hok Hr) as Hbb. set (bs := take _ _) in *.
  rewrite st_range_splice by lia. cbn [mbind option_bind]. eexists. split; [done|]. unfold pSelector_ok. cbn [pse_value pse_size].
  split; [rewrite zlen_splice; lia|]. split; [|lia]. unfold splice.
  apply Forall_app_2; [by apply Forall_take|]. apply Forall_app_2; [done | by apply Forall_drop].
Qed.

Lemma normalMode_total fuel : forall self bufPos endPos has,
  presentation_ok self -> (has = true -> payload_in (pr_nextPayload self)) ->
  0 <= bufPos <= endPos -> endPos <= limit -> endPos - bufPos < Z.of_nat fuel ->
  payload_result bufPos endPos (normalMode_loop fuel self buffer bufPos endPos has).
Proof.
  induction fuel as [|fuel IH]; intros self bufPos endPos has Hs Hh Hp He Hf; [lia|]. cbn [normalMode_loop].
  btest; [|exists (if has then bufPos else -1), self; split; [done|]; split; [done|]; destruct has; [right; split; [lia | auto] | by left]].
  element bufPos endPos. case_match; [exists (-1), self; auto|]. btest; [exists (-1), self; auto|].
  assert (forall s q b, presentation_ok s -> (b = true -> payload_in (pr_nextPayload s)) -> p <= q <= endPos ->
    payload_result bufPos endPos (normalMode_loop fuel s buffer q endPos b)) as Hgo.
  { intros s q b Hs' Hb' Hq. eapply payload_result_mono; [apply IH; try done; lia | lia | lia]. }
  pose proof Hs as (Hcg & Hcd & ? & ? & ?).
  case_match; [destruct (read_pSelector_total _ p len Hcg) as (sel & -> & Hsel); try lia; cbn [mbind option_bind]; apply Hgo; [done | done | lia]|].
  case_match; [destruct (read_pSelector_total _ p len Hcd) as (sel & -> & Hsel); try lia; cbn [mbind option_bind]; apply Hgo; [done | done | lia]|].
  case_match; [apply Hgo; (done || lia)|].
  case_match.
  { destruct (pcdl_total (S (Z.to_nat len)) self p (p + len)) as (n & s & Hn & Hs' & Hpl & Hr'); try done; try lia.
    unfold parsePresentationContextDefinitionList. rewrite Hn. cbn [mbind option_bind]. btest; [exists (-1), s; auto|]. apply Hgo; [done | by rewrite Hpl | lia]. }
  case_match; [apply Hgo; (done || lia)|].
  case_match.
  { destruct (parseFullyEncodedData_total self len p) as (n & s & -> & Hs' & Hn); try done; try lia. cbn [mbind option_bind]. btest; [exists (-1), s; auto|].
    destruct Hn as [Hn|[Hn Hpl]]; [lia|]. apply Hgo; (done || lia). }
  case_match; apply Hgo; (done || lia).
Qed.

Lemma parseNormalModeParameters_total self totalLength bufPos :
  presentation_ok self -> 0 <= bufPos -> 0 <= totalLength -> bufPos + totalLength <= limit ->
  payload_result bufPos (bufPos + totalLength) (parseNormalModeParameters self buffer totalLength bufPos).
Proof.
  intros Hs Hp Hl He. unfold parseNormalModeParameters. apply normalMode_total; try done; try lia.
  destruct Hs as ((? & ? & ?) & (? & ? & ?) & ? & ? & ?). unfold presentation_ok, pSelector_ok. cbn. split_and!; done || lia.
Qed.

Lemma acceptMessage_total fuel : forall self bufPos,
  presentation_ok self -> 0 <= bufPos <= limit -> limit - bufPos < Z.of_nat fuel ->
  flag_result (acceptMessage_loop fuel self buffer bufPos limit).
Proof.
  induction fuel as [|fuel IH]; intros self bufPos Hs Hp Hf; [lia|]. cbn [acceptMessage_loop].
  btest; [|exists 1, self; auto]. element bufPos limit. btest; [exists 0, self; auto|].
  assert (forall s q, presentation_ok s -> p <= q <= limit -> flag_result (acceptMessage_loop fuel s buffer q limit)) as Hgo
    by (intros s q Hs' Hq; apply IH; (done || lia)).
  case_match; [apply Hgo; (done || lia)|]. case_match; [|repeat case_match; apply Hgo; (done || lia)].
  destruct (parseNormalModeParameters_total self len p) as (n & s & -> & Hs' & Hn); try done; try lia.
  cbn [mbind option_bind]. btest; [exists 0, s; auto|]. apply Hgo; (done || lia).
Qed.

(** A connect message that is accepted has user data inside the message. *)
Definition payload_flag (r : option (Z * IsoPresentation)) : Prop :=
  exists n self', r = Some (n, self') /\ presentation_ok self' /\ (n = 0 \/ n = 1 /\ payload_in (pr_nextPayload self')).

Lemma connect_total fuel : forall self bufPos has,
  presentation_ok self -> (has = true -> payload_in (pr_nextPayload self)) -> 0 <= bufPos <= limit -> limit - bufPos < Z.of_nat fuel ->
  payload_flag (connect_loop fuel self buffer bufPos limit has).
Proof.
  induction fuel as [|fuel IH]; intros self bufPos has Hs Hh Hp Hf; [lia|]. cbn [connect_loop].
  btest; [|exists (if has then 1 else 0), self; split; [done|]; split; [done|]; destruct has; auto].
  element bufPos limit. btest; [exists 0, self; auto|].
  assert (forall s q b, presentation_ok s -> (b = true -> payload_in (pr_nextPayload s)) -> p <= q <= limit ->
    payload_flag (connect_loop fuel s buffer q limit b)) as Hgo by (intros s q b Hs' Hb' Hq; apply IH; (done || lia)).
  case_match.
  { destruct (ld_is_Some buffer p) as [b ->]; [lia|]. cbn [mbind option_bind]. case_match; [exists 0, self; auto|].
    destruct (decodeLength_total buffer limit Hok ltac:(lia) Hsmall len (p + 1)) as ([p2 l2] & -> & Hr2); [lia|].
    unfold length_result in Hr2. cbn [fst snd] in Hr2. cbn [mbind option_bind]. btest; [exists 0, self; auto|].
    destruct (decodeUint32_total buffer p2 l2) as (v & -> & _); try lia. cbn [mbind option_bind]. apply Hgo; (done || lia). }
  case_match; [|repeat case_match; apply Hgo; (done || lia)].
  destruct (parseNormalModeParameters_total self len p) as (n & s & -> & Hs' & Hn); try done; try lia.
  cbn [mbind option_bind]. btest; [exists 0, s; auto|]. destruct Hn as [Hn|[Hn Hpl]]; [lia|]. apply Hgo; (done || lia).
Qed.

Lemma userData_total fuel : forall self bufPos has,
  presentation_ok self -> 0 <= bufPos <= limit -> limit - bufPos < Z.of_nat fuel ->
  payload_flag (userData_loop fuel self buffer bufPos limit has).
Proof.
  induction fuel as [|fuel IH]; intros self bufPos has Hs Hp Hf; [lia|]. cbn [userData_loop]. btest; [|exists 0, self; auto].
  destruct (ld_is_Some buffer (bufPos + 1)) as [lf Hlf]; [lia|]. rewrite Hlf.
  element bufPos limit. btest; [exists 0, self; auto|].
  assert (forall s q b, presentation_ok s -> p <= q <= limit -> payload_flag (userData_loop fuel s buffer q limit b)) as Hgo
    by (intros s q b Hs' Hq; apply IH; (done || lia)).
  destruct (ld_is_Some buffer p) as [b0 Hb0]; [lia|]. destruct (ld_is_Some buffer (p + 1)) as [b1 Hb1]; [lia|].
  pose proof (ld_byte _ _ _ Hok Hb0) as Hbyte. rewrite Hb0. cbn [mbind option_bind]. rewrite Hb1. cbn [mbind option_bind]. pose proof Hs as (? & ? & ? & ? & ?).
  case_match; [apply Hgo; [|lia]; unfold presentation_ok; cbn; split_and!; done|].
  case_match; [case_match; cbn [mbind option_bind]; [exists 0, self; auto|]; case_match; [exists 0, self; auto | apply Hgo; (done || lia)]|].
  case_match; [|apply Hgo; (done || lia)].
  case_match; [exists 0, self; auto|]. do 2 eexists. split; [done|]. split; [done|]. right. split; [done|]. exists p. cbn.
  assert (lf = 0x80 -> p = -1 \/ 2 <= len) as Hind by (intros ->; eapply decodeLength_indefinite; [| | | |exact Hlf|exact Hd]; done || lia).
  split_and!; [lia | done | case_match; bdestr; lia | case_match; bdestr; lia].
Qed.
End Safety.

(** * The three parsers are total and stay in the message *)

Lemma parseAcceptMessage_total self message :
  presentation_ok self -> byteBuffer_ok message -> bytes_ok (bb_buffer message) -> bb_size message + 2 <= zlen (bb_buffer message) ->
  bb_size message < 4194304 -> flag_result (IsoPresentation_parseAcceptMessage self message).
Proof.
  intros Hs [Hm _] Hb Hz Hsm. unfold IsoPresentation_parseAcceptMessage.
  destruct (ld_is_Some (bb_buffer message) 0) as [b ->]; [lia|]. cbn [mbind option_bind]. case_match; [exists 0, self; auto|].
  destruct (decodeLength_total (bb_buffer message) (bb_size message) Hb ltac:(lia) Hsm 0 1) as ([p l] & -> & Hr); [lia|].
  unfold length_result in Hr. cbn [fst snd] in Hr. cbn [mbind option_bind]. btest; [exists 0, self; auto|].
  apply acceptMessage_total; (done || lia).
Qed.

Lemma parseConnect_total self message :
  presentation_ok self -> byteBuffer_ok message -> bytes_ok (bb_buffer message) -> bb_size message + 2 <= zlen (bb_buffer message) ->
  bb_size message < 4194304 -> payload_flag (bb_buffer message) (bb_size message) (IsoPresentation_parseConnect self message).
Proof.
  intros Hs [Hm _] Hb Hz Hsm. unfold IsoPresentation_parseConnect.
  destruct (ld_is_Some (bb_buffer message) 0) as [b ->]; [lia|]. cbn [mbind option_bind]. case_match; [exists 0, self; auto|].
  destruct (decodeLength_total (bb_buffer message) (bb_size message) Hb ltac:(lia) Hsm 0 1) as ([p l] & -> & Hr); [lia|].
  unfold length_result in Hr. cbn [fst snd] in Hr. cbn [mbind option_bind]. btest; [exists 0, self; auto|].
  apply connect_total; (done || lia).
Qed.

Lemma parseUserData_total self message :
  presentation_ok self -> byteBuffer_ok message -> bytes_ok (bb_buffer message) -> bb_size message + 2 <= zlen (bb_buffer message) ->
  bb_size message < 4194304 -> payload_flag (bb_buffer message) (bb_size message) (IsoPresentation_parseUserData self message).
Proof.
  intros Hs [Hm _] Hb Hz Hsm. unfold IsoPresentation_parseUserData. btest; [exists 0, self; auto|].
  destruct (ld_is_Some (bb_buffer message) 0) as [b ->]; [lia|]. cbn [mbind option_bind]. case_match; [exists 0, self; auto|].
  destruct (decodeLength_total (bb_buffer message) (bb_size message) Hb ltac:(lia) Hsm 0 1) as ([p l] & -> & Hr); [lia|].
  unfold length_result in Hr. cbn [fst snd] in Hr. cbn [mbind option_bind]. btest; [exists 0, self; auto|].
  destruct (ld_is_Some (bb_buffer message) p) as [b2 ->]; [lia|]. cbn [mbind option_bind]. case_match; [exists 0, self; auto|].
  destruct (decodeLength_total (bb_buffer message) (bb_size message) Hb ltac:(lia) Hsm l (p + 1)) as ([p2 l2] & -> & Hr2); [lia|].
  unfold length_result in Hr2. cbn [fst snd] in Hr2. cbn [mbind option_bind]. btest; [exists 0, self; auto|].
  apply userData_total; (done || lia).
Qed.

(** * What the library writes *)

(** the user data of a PDU: one value in the presentation context [ctx] *)
Definition user_data (ctx : Z) (payload : list Z) : list Z :=
  ber_tlv 0x61 (ber_tlv 0x30 (ber_tlv 0x02 [ctx] ++ ber_tlv 0xa0 payload)).

Definition pSelector_octets (s : PSelector) : list Z := take (Z.to_nat (pse_size s)) (pse_value s).

Definition context_item (ctx : Z) (syntax : list Z) : list Z :=
  ber_tlv 0x30 (ber_tlv 0x02 [ctx] ++ ber_tlv 0x06 syntax ++ ber_tlv 0x30 (ber_tlv 0x06 ber_id)).

Definition mode_selector : list Z := ber_tlv 0xa0 (ber_tlv 0x80 [1]).

Definition connect_parameters (calling called : PSelector) (ctx : Z) (payload : list Z) : list Z :=
  ber_tlv 0x81 (pSelector_octets calling) ++ ber_tlv 0x82 (pSelector_octets called) ++
  ber_tlv 0xa4 (context_item 1 asn_id_as_acse ++ context_item 3 asn_id_mms) ++ user_data ctx payload.

Definition connect_pdu (calling called : PSelector) (ctx : Z) (payload : list Z) : list Z :=
  ber_tlv 0x31 (mode_selector ++ ber_tlv 0xa2 (connect_parameters calling called ctx payload)).

Definition accept_result : list Z := ber_tlv 0x30 (ber_tlv 0x80 [0] ++ ber_tlv 0x81 ber_id).

Definition cpa_parameters (ctx : Z) (payload : list Z) : list Z :=
  ber_tlv 0x83 calledPresentationSelector ++ ber_tlv 0xa5 (accept_result ++ accept_result) ++ user_data ctx payload.

Definition cpa_pdu (ctx : Z) (payload : list Z) : list Z :=
  ber_tlv 0x31 (mode_selector ++ ber_tlv 0xa2 (cpa_parameters ctx payload)).

(** ** The PDUs as runs of stores *)

(** A part is made in the memory [buf]: with the parts behind it, it holds [bytes]. *)
Definition makes (r : option BufferChain) (buf bytes : list Z) : Prop :=
  exists chain, r = Some chain /\ chain_ok chain /\ chain_bytes chain = bytes /\ zlen (bc_buffer chain) = zlen buf.

Lemma finish_part_spec write header buf mx payload bytes :
  (forall buffer pos, write buffer pos = puts header buffer pos) -> bytes = header ++ chain_bytes payload ->
  0 < zlen header <= zlen buf -> chain_ok payload -> makes (finish_part write buf mx payload) buf bytes.
Proof.
  intros Hw -> Hh Hp. unfold makes, finish_part. rewrite Hw, puts_fits by lia. cbn [mbind option_bind]. eexists. split; [done|].
  assert (zlen (splice buf 0 header) = zlen buf) as Hz by (apply zlen_splice; lia). unfold splice in *.
  change (take (Z.to_nat 0) buf) with (@nil Z) in *. cbn [app] in *. rewrite Z.add_0_l.
  edestruct (chain_ok_cons (zlen header + bc_length payload) mx header) as [H1 H2]; [| | |split; [exact H1|split; [exact H2 | exact Hz]]]; (done || lia).
Qed.

Definition user_data_header (ctx : Z) (payload : BufferChain) : list Z :=
  (0x61 :: ber_length (fullyEncodedDataLength payload)) ++ (0x30 :: ber_length (encodedDataSetLength payload)) ++
  (0x02 :: ber_length 1) ++ [ctx] ++ (0xa0 :: ber_length (bc_length payload)).

Lemma encodeUserData_puts payload ctx buffer pos :
  encodeUserData payload ctx buffer pos = puts (user_data_header ctx payload) buffer pos.
Proof.
  unfold encodeUserData, user_data_header. rewrite encodeTL_puts, puts_app. apply option_bind_ext_fun. intros [b1 p1].
  rewrite encodeTL_puts, puts_app. apply option_bind_ext_fun. intros [b2 p2].
  rewrite encodeTL_puts, puts_app. apply option_bind_ext_fun. intros [b3 p3].
  rewrite puts_app, puts_one. apply option_bind_ext_fun. intros [b4 p4]. by rewrite encodeTL_puts.
Qed.

(** The largest MMS message; the length 65535, where the two length functions of the
    encoder differ, is not reached. *)
Definition payload_small (payload : BufferChain) : Prop := chain_ok payload /\ bc_length payload <= 65000.

Lemma determineLengthSize_bounds n : 1 <= BerEncoder_determineLengthSize n <= 4.
Proof. unfold BerEncoder_determineLengthSize. repeat case_match; lia. Qed.

Lemma user_data_header_spec ctx payload :
  payload_small payload -> user_data_header ctx payload ++ chain_bytes payload = user_data ctx (chain_bytes payload) /\
  zlen (user_data ctx (chain_bytes payload)) = encodeUserData_size payload /\ 0 < encodeUserData_size payload <= bc_length payload + 20.
Proof.
  intros [Hp Hm]. destruct (chain_ok_length _ Hp) as [Hl Hpos].
  pose proof (determineLengthSize_bounds (bc_length payload)).
  assert (zlen (ber_tlv 0x02 [ctx] ++ ber_tlv 0xa0 (chain_bytes payload)) = encodedDataSetLength payload) as H1.
  { unfold encodedDataSetLength. change (ber_tlv 2 [ctx]) with [2; 1; ctx]. zlen. rewrite <- Hl. rewrite zlen_ber_length by lia. lia. }
  assert (0 <= encodedDataSetLength payload < 65535) as H1b by (unfold encodedDataSetLength; lia).
  pose proof (determineLengthSize_bounds (encodedDataSetLength payload)).
  assert (zlen (ber_tlv 0x30 (ber_tlv 0x02 [ctx] ++ ber_tlv 0xa0 (chain_bytes payload))) = fullyEncodedDataLength payload) as H2.
  { rewrite zlen_ber_tlv, H1. unfold fullyEncodedDataLength. rewrite zlen_ber_length by lia. lia. }
  assert (0 <= fullyEncodedDataLength payload < 65535) as H2b by (unfold fullyEncodedDataLength, encodedDataSetLength in *; lia).
  pose proof (determineLengthSize_bounds (fullyEncodedDataLength payload)).
  split_and!.
  - unfold user_data, user_data_header. unfold ber_tlv at 1. rewrite H2. unfold ber_tlv at 1. rewrite H1.
    change (ber_tlv 2 [ctx]) with [2; 1; ctx]. unfold ber_tlv. rewrite <- Hl. change (ber_length 1) with [1].
    by repeat (cbn [app]; rewrite <- ?app_assoc).
  - unfold user_data. rewrite zlen_ber_tlv, H2. unfold encodeUserData_size. rewrite zlen_ber_length by lia. lia.
  - unfold encodeUserData_size. lia.
  - unfold encodeUserData_size, fullyEncodedDataLength, encodedDataSetLength in *. lia.
Qed.

Lemma create_user_data_eq ctx buf mx payload : create_user_data ctx buf mx payload = finish_part (encodeUserData payload ctx) buf mx payload.
Proof.
  unfold create_user_data, finish_part.
  match goal with |- mbind ?f ?x = mbind ?f ?y => assert (x = y) as ->; [|done] end. rewrite encodeUserData_puts. unfold user_data_header, fullyEncodedDataLength.
  replace (encodedDataSetLength payload) with (bc_length payload + (BerEncoder_determineLengthSize (bc_length payload) + 4))
    by (unfold encodedDataSetLength; lia).
  rewrite encodeTL_puts, puts_app. apply option_bind_ext_fun. intros [b1 p1].
  rewrite encodeTL_puts, puts_app. apply option_bind_ext_fun. intros [b2 p2].
  rewrite app_assoc, puts_app. apply option_bind_ext_fun. intros [b3 p3]. by rewrite encodeTL_puts.
Qed.

(** [IsoPresentation_createUserData] and [createUserDataACSE]. *)
Lemma create_user_data_spec ctx buf mx payload :
  payload_small payload -> 20 <= zlen buf ->
  makes (create_user_data ctx buf mx payload) buf (user_data ctx (chain_bytes payload)).
Proof.
  intros Hp Hb. destruct (user_data_header_spec ctx _ Hp) as (H1 & H2 & H3). destruct (chain_ok_length _ (proj1 Hp)) as [Hl _].
  rewrite create_user_data_eq. eapply finish_part_spec; [intros; apply encodeUserData_puts | done | | apply Hp].
  rewrite <- H1, zlen_app in H2. unfold user_data_header in *. zlen. split; [|lia].
  repeat match goal with |- context [zlen (ber_length ?n)] => pose proof (zlen_nonneg (ber_length n)); generalize dependent (zlen (ber_length n)); intros end. lia.
Qed.

Lemma pSelector_puts tag sel buffer pos :
  pSelector_ok sel -> encode_pSelector tag sel buffer pos = puts (ber_tlv tag (pSelector_octets sel)) buffer pos.
Proof.
  intros (Hv & _ & Hn). unfold encode_pSelector, ber_tlv, pSelector_octets. rewrite encodeTL_puts, zlen_take by lia.
  change (tag :: ber_length (pse_size sel) ++ ?l) with ((tag :: ber_length (pse_size sel)) ++ l). rewrite puts_app.
  apply option_bind_ext_fun. intros [b p]. by rewrite copy_loop_all by lia.
Qed.

(** one step of a sequence of writers against the appended bytes *)
Ltac write_step := rewrite ?encodeTL_puts, puts_app, ?puts_one; apply option_bind_ext_fun; intros [? ?].

Lemma encode_context_puts n ctx syntax buffer pos :
  n = 10 + zlen syntax + zlen (ber_length (zlen syntax)) ->
  encode_context n ctx syntax buffer pos = puts (context_item ctx syntax) buffer pos.
Proof.
  intros ->. unfold encode_context, context_item.
  replace (10 + zlen syntax + zlen (ber_length (zlen syntax))) with (zlen (ber_tlv 2 [ctx] ++ ber_tlv 6 syntax ++ ber_tlv 48 (ber_tlv 6 ber_id)))
    by (change (ber_tlv 48 (ber_tlv 6 ber_id)) with [0x30; 4; 6; 2; 0x51; 1]; change (ber_tlv 2 [ctx]) with [2; 1; ctx]; zlia).
  transitivity (puts ((0x30 :: ber_length (zlen (ber_tlv 2 [ctx] ++ ber_tlv 6 syntax ++ ber_tlv 48 (ber_tlv 6 ber_id)))) ++
    (2 :: ber_length 1) ++ [ctx] ++ (6 :: ber_length (zlen syntax)) ++ syntax ++ (0x30 :: ber_length 4) ++ (6 :: ber_length 2) ++ ber_id) buffer pos).
  - do 7 write_step. done.
  - f_equal. unfold ber_tlv at 2. cbn [app]. f_equal. f_equal. change (ber_tlv 2 [ctx]) with [2; 1; ctx]. change (ber_length 1) with [1].
    change (ber_tlv 48 (ber_tlv 6 ber_id)) with ((0x30 :: ber_length 4) ++ (6 :: ber_length 2) ++ ber_id). unfold ber_tlv. cbn [app]. by rewrite <- app_assoc.
Qed.

Definition connect_header (self : IsoPresentation) (payload : BufferChain) : list Z :=
  let n := 41 + pse_size (pr_callingPresentationSelector self) + pse_size (pr_calledPresentationSelector self) + encodeUserData_size payload in
  (0x31 :: ber_length (5 + n + (1 + BerEncoder_determineLengthSize n))) ++ (0xa0 :: ber_length 3) ++ (0x80 :: ber_length 1) ++ [1] ++ (0xa2 :: ber_length n) ++
  ber_tlv 0x81 (pSelector_octets (pr_callingPresentationSelector self)) ++ ber_tlv 0x82 (pSelector_octets (pr_calledPresentationSelector self)) ++
  (0xa4 :: ber_length 35) ++ context_item 1 asn_id_as_acse ++ context_item 3 asn_id_mms ++ user_data_header (pr_acseContextId self) payload.

Lemma connect_header_puts self payload buf mx :
  pSelector_ok (pr_callingPresentationSelector self) -> pSelector_ok (pr_calledPresentationSelector self) ->
  createConnectPdu self buf mx payload = finish_part (puts (connect_header self payload)) buf mx payload.
Proof.
  intros Hcg Hcd. unfold createConnectPdu, finish_part. match goal with |- mbind ?f ?x = mbind ?f ?y => assert (x = y) as ->; [|done] end.
  unfold connect_header.
  set (n := 41 + _ + _ + _). replace (12 + _ + _ + 2) with n by (unfold n; lia).
  do 5 write_step. rewrite pSelector_puts by done. write_step. rewrite pSelector_puts by done. write_step. write_step.
  rewrite encode_context_puts by done. write_step. rewrite encode_context_puts by done. write_step. by rewrite encodeUserData_puts.
Qed.

Lemma zlen_pSelector_octets s : pSelector_ok s -> zlen (pSelector_octets s) = pse_size s.
Proof. intros (? & ? & ?). apply zlen_take. lia. Qed.

Lemma zlen_connect_parameters calling called ctx payload :
  pSelector_ok calling -> pSelector_ok called ->
  zlen (connect_parameters calling called ctx payload) = 41 + pse_size calling + pse_size called + zlen (user_data ctx payload).
Proof.
  intros Hcg Hcd. pose proof (zlen_pSelector_octets _ Hcg) as H1. pose proof (zlen_pSelector_octets _ Hcd) as H2. unfold connect_parameters.
  rewrite !zlen_app, (zlen_ber_tlv 0x81), (zlen_ber_tlv 0x82), H1, H2.
  destruct Hcg as (_ & _ & ?), Hcd as (_ & _ & ?).
  rewrite (zlen_ber_length (pse_size calling)), (zlen_ber_length (pse_size called)) by lia. unfold BerEncoder_determineLengthSize. do 2 if_true.
  change (zlen (ber_tlv 0xa4 (context_item 1 asn_id_as_acse ++ context_item 3 asn_id_mms))) with 37. lia.
Qed.

Lemma connect_header_spec self payload :
  pSelector_ok (pr_callingPresentationSelector self) -> pSelector_ok (pr_calledPresentationSelector self) -> payload_small payload ->
  connect_header self payload ++ chain_bytes payload
  = connect_pdu (pr_callingPresentationSelector self) (pr_calledPresentationSelector self) (pr_acseContextId self) (chain_bytes payload) /\
  zlen (connect_pdu (pr_callingPresentationSelector self) (pr_calledPresentationSelector self) (pr_acseContextId self) (chain_bytes payload)) <= bc_length payload + 110.
Proof.
  intros Hcg Hcd Hp. destruct (user_data_header_spec (pr_acseContextId self) _ Hp) as (H1 & H2 & H3).
  pose proof (zlen_connect_parameters _ _ (pr_acseContextId self) (chain_bytes payload) Hcg Hcd) as H4. rewrite H2 in H4.
  destruct Hp as [Hp Hm]. destruct (chain_ok_length _ Hp) as [Hl Hpos].
  unfold connect_header, connect_pdu. set (n := 41 + _ + _ + _) in *.
  assert (0 <= n < 65200) by (unfold n; destruct Hcg as (_ & _ & ?), Hcd as (_ & _ & ?); lia).
  pose proof (determineLengthSize_bounds n).
  assert (zlen (mode_selector ++ ber_tlv 162 (connect_parameters (pr_callingPresentationSelector self) (pr_calledPresentationSelector self) (pr_acseContextId self) (chain_bytes payload)))
    = 5 + n + (1 + BerEncoder_determineLengthSize n)) as H5.
  { rewrite zlen_app, zlen_ber_tlv, H4, zlen_ber_length by lia. change (zlen mode_selector) with 5. lia. }
  split.
  - unfold ber_tlv at 3. rewrite H5. unfold ber_tlv at 3. rewrite H4. unfold connect_parameters. rewrite <- H1.
    change (ber_tlv 0xa4 (context_item 1 asn_id_as_acse ++ context_item 3 asn_id_mms)) with ((0xa4 :: ber_length 35) ++ context_item 1 asn_id_as_acse ++ context_item 3 asn_id_mms).
    change mode_selector with ((0xa0 :: ber_length 3) ++ (0x80 :: ber_length 1) ++ [1]).
    by repeat (cbn [app]; rewrite <- ?app_assoc).
  - rewrite zlen_ber_tlv, H5. pose proof (zlen_ber_length_bounds (5 + n + (1 + BerEncoder_determineLengthSize n))).
    unfold n in *; destruct Hcg as (_ & _ & ?), Hcd as (_ & _ & ?); lia.
Qed.

Lemma createConnectPdu_spec self p buf mx payload :
  pSelector_ok (ia_pSelector (ip_local p)) -> pSelector_ok (ia_pSelector (ip_remote p)) -> payload_small payload -> 110 <= zlen buf ->
  exists self' chain, IsoPresentation_createConnectPdu self p buf mx payload = Some (self', chain) /\ chain_ok chain /\
    chain_bytes chain = connect_pdu (ia_pSelector (ip_local p)) (ia_pSelector (ip_remote p)) 1 (chain_bytes payload) /\
    pr_acseContextId self' = 1 /\ pr_mmsContextId self' = 3 /\ zlen (bc_buffer chain) = zlen buf.
Proof.
  intros Hl Hr Hp Hb. unfold IsoPresentation_createConnectPdu. set (self' := with_calledPSelector _ _).
  destruct (connect_header_spec self' payload Hl Hr Hp) as [H1 H2]. destruct (chain_ok_length _ (proj1 Hp)) as [Hlen _].
  rewrite connect_header_puts by done.
  destruct (finish_part_spec (puts (connect_header self' payload)) (connect_header self' payload) buf mx payload _ ltac:(done) (eq_sym H1)) as (chain & -> & Hc & Hcb & Hz).
  - rewrite <- H1, zlen_app in H2. unfold connect_header in *. cbn [app] in *. rewrite zlen_cons in *. split; [|lia].
    match goal with |- context [1 + zlen ?l] => pose proof (zlen_nonneg l) end. lia.
  - apply Hp.
  - exists self', chain. split; [done|]. split; [done|]. split; [exact Hcb | done].
Qed.

Definition cpa_header (self : IsoPresentation) (payload : BufferChain) : list Z :=
  let n := 26 + encodeUserData_size payload in
  (0x31 :: ber_length (5 + n + (BerEncoder_determineLengthSize n + 1))) ++ (0xa0 :: ber_length 3) ++ (0x80 :: ber_length 1) ++ [1] ++ (0xa2 :: ber_length n) ++
  (0x83 :: ber_length 4) ++ calledPresentationSelector ++ (0xa5 :: ber_length 18) ++ accept_result ++ accept_result ++
  user_data_header (pr_acseContextId self) payload.

Lemma encodeAcceptBer_puts buffer pos : encodeAcceptBer buffer pos = puts accept_result buffer pos.
Proof.
  change accept_result with ((0x30 :: ber_length 7) ++ (0x80 :: ber_length 1) ++ [0] ++ (0x81 :: ber_length 2) ++ [0x51] ++ [0x01]).
  unfold encodeAcceptBer. do 5 write_step. by rewrite puts_one.
Qed.

Lemma cpa_header_spec self payload :
  payload_small payload ->
  cpa_header self payload ++ chain_bytes payload = cpa_pdu (pr_acseContextId self) (chain_bytes payload) /\
  zlen (cpa_pdu (pr_acseContextId self) (chain_bytes payload)) <= bc_length payload + 70.
Proof.
  intros Hp. destruct (user_data_header_spec (pr_acseContextId self) _ Hp) as (H1 & H2 & H3).
  destruct Hp as [Hp Hm]. destruct (chain_ok_length _ Hp) as [Hl Hpos]. unfold cpa_header, cpa_pdu. set (n := 26 + _) in *.
  assert (zlen (cpa_parameters (pr_acseContextId self) (chain_bytes payload)) = n) as H4.
  { unfold cpa_parameters. rewrite !zlen_app, H2. change (zlen (ber_tlv 131 calledPresentationSelector)) with 6.
    change (zlen (ber_tlv 165 (accept_result ++ accept_result))) with 20. unfold n. lia. }
  assert (0 <= n < 65200) by (unfold n; lia). pose proof (determineLengthSize_bounds n).
  assert (zlen (mode_selector ++ ber_tlv 162 (cpa_parameters (pr_acseContextId self) (chain_bytes payload))) = 5 + n + (BerEncoder_determineLengthSize n + 1)) as H5.
  { rewrite zlen_app, zlen_ber_tlv, H4, zlen_ber_length by lia. change (zlen mode_selector) with 5. lia. }
  split.
  - unfold ber_tlv at 1. rewrite H5. unfold ber_tlv at 1. rewrite H4. unfold cpa_parameters. rewrite <- H1.
    change (ber_tlv 165 (accept_result ++ accept_result)) with ((0xa5 :: ber_length 18) ++ accept_result ++ accept_result).
    change (ber_tlv 131 calledPresentationSelector) with ((0x83 :: ber_length 4) ++ calledPresentationSelector).
    change mode_selector with ((0xa0 :: ber_length 3) ++ (0x80 :: ber_length 1) ++ [1]).
    by repeat (cbn [app]; rewrite <- ?app_assoc).
  - rewrite zlen_ber_tlv, H5. pose proof (zlen_ber_length_bounds (5 + n + (BerEncoder_determineLengthSize n + 1))). unfold n in *; lia.
Qed.

Lemma createCpaMessage_spec self buf mx payload :
  payload_small payload -> 70 <= zlen buf ->
  makes (IsoPresentation_createCpaMessage self buf mx payload) buf (cpa_pdu (pr_acseContextId self) (chain_bytes payload)).
Proof.
  intros Hp Hb. destruct (cpa_header_spec self payload Hp) as [H1 H2]. destruct (chain_ok_length _ (proj1 Hp)) as [Hlen _].
  eapply (finish_part_spec _ (cpa_header self payload)); [|by rewrite H1| |apply Hp].
  - intros buffer pos. unfold cpa_header. do 8 write_step. rewrite encodeAcceptBer_puts. write_step. rewrite encodeAcceptBer_puts. write_step. apply encodeUserData_puts.
  - rewrite <- H1, zlen_app in H2. unfold cpa_header in *. cbn [app] in *. rewrite zlen_cons in *. split; [|lia].
    match goal with |- context [1 + zlen ?l] => pose proof (zlen_nonneg l) end. lia.
Qed.

(** ** Parsing what is written *)

Lemma ber_length_head n : 0 <= n < 16777216 -> exists b r, ber_length n = b :: r /\ b <> 0x80.
Proof.
  intros Hn. destruct (ber_length_long n Hn) as [[-> ?]|(k & bs & -> & ? & ? & ? & ?)]; [exists n, [] | exists (128 + Z.of_nat k), bs]; split; (done || lia).
Qed.

Lemma zlen_ber_length_short n : 0 <= n < 128 -> zlen (ber_length n) = 1.
Proof. intros. by rewrite ber_length_short. Qed.

(** The turn of a loop at an element: [H] says that the element and then the rest
    lie at the position of the loop; the content is left in [Hc]. *)
Ltac tlia := zlen; rewrite ?zlen_ber_length_short by lia; lia.
Ltac turn_true := match goal with |- context [if ?b then _ else _] => replace b with true by (symmetry; tlia) end; cbv iota.
Ltac turn_false := match goal with |- context [if ?b then _ else _] => replace b with false by (symmetry; tlia) end; cbv iota.
Ltac turn loop H Hc endPos :=
  let Ha := fresh "Ha" in let Ht := fresh "Ht" in let Hd := fresh "Hd" in
  apply at_pos_app in H as [Ha H];
  match type of Ha with at_pos ?buffer ?pos (ber_tlv ?tag ?content) =>
    pose proof (zlen_nonneg (ber_length (zlen content)));
    destruct (element_at buffer 0 pos endPos tag content Ha) as (Ht & Hd & Hc);
      [zlia | tlia |
       replace (pos + zlen (ber_tlv tag content)) with (pos + 1 + zlen (ber_length (zlen content)) + zlen content) in H by (rewrite zlen_ber_tlv; lia);
       cbn [loop]; turn_true; rewrite Ht; cbn [mbind option_bind]; try turn_false; rewrite Hd; cbn [mbind option_bind Z.eqb Pos.eqb]; turn_false] end.

Section Written.
Context (buffer : list Z).

Lemma fullyEncodedData_at self pos ctx payload :
  is_byte ctx -> zlen payload < 65500 ->
  at_pos buffer pos (ber_tlv 0x30 (ber_tlv 0x02 [ctx] ++ ber_tlv 0xa0 payload)) ->
  let n := zlen (ber_tlv 0x30 (ber_tlv 0x02 [ctx] ++ ber_tlv 0xa0 payload)) in
  parseFullyEncodedData self buffer n pos
  = Some (pos + n, with_nextPayload (with_nextContextId self ctx)
      (mkByteBuffer (ptr_add buffer (pos + n - zlen payload)) (bb_maxSize (pr_nextPayload self)) (zlen payload))).
Proof.
  intros Hctx Hz Hat n. pose proof (at_pos_bounds _ _ _ Hat) as [Hpos _]. pose proof (zlen_nonneg payload) as Hp0.
  pose proof (zlen_ber_length_bounds (zlen payload)). set (inner := ber_tlv 0x02 [ctx] ++ ber_tlv 0xa0 payload) in *.
  assert (zlen inner = 4 + zlen (ber_length (zlen payload)) + zlen payload) as Hi by (unfold inner; change (ber_tlv 2 [ctx]) with [2; 1; ctx]; zlia).
  pose proof (zlen_ber_length_bounds (zlen inner)).
  destruct (element_at buffer n pos (pos + n) 0x30 inner Hat) as (Ht & Hd & Hc); [lia | unfold n; lia|].
  unfold parseFullyEncodedData. rewrite Ht. cbn [mbind option_bind]. change (negb (0x30 =? 0x30)) with false. cbv iota. rewrite Hd. cbn [mbind option_bind]. if_false.
  set (start := pos + 1 + zlen (ber_length (zlen inner))) in *. assert (n = 1 + zlen (ber_length (zlen inner)) + zlen inner) as Hn by (unfold n; zlia).
  assert (exists f, S (Z.to_nat (zlen inner)) = S (S (S f))) as [f ->] by (exists (Z.to_nat (zlen inner) - 2)%nat; lia).
  unfold inner in Hc. apply at_pos_app in Hc as [Ha Hb].
  destruct (element_at buffer 0 start (start + zlen inner) 0x02 [ctx] Ha) as (Ht1 & Hd1 & Hc1); [done | change (zlen (ber_tlv 2 [ctx])) with 3; lia|].
  change (zlen (ber_length (zlen [ctx]))) with 1 in *. change (zlen (ber_tlv 2 [ctx])) with 3 in *. change (zlen [ctx]) with 1 in *.
  remember (S (S f)) as g eqn:Hg. cbn [fullyEncodedData_loop]. if_true. rewrite Ht1. cbn [mbind option_bind]. rewrite Hd1. cbn [mbind option_bind]. if_false.
  change (2 =? 2) with true. cbv iota. rewrite (decodeUint32_spec [ctx]) by done. cbn [mbind option_bind].
  replace (u8 _) with ctx by (unfold be_val, u32, u8, is_byte in *; cbn [fold_left]; rewrite !Z.mod_small by lia; lia).
  replace (start + 1 + 1 + 1) with (start + 3) by lia.
  destruct (element_at buffer 0 (start + 3) (start + zlen inner) 0xa0 payload Hb) as (Ht2 & Hd2 & Hc2); [lia | zlia|].
  subst g. remember (S f) as g eqn:Hg. cbn [fullyEncodedData_loop]. if_true. rewrite Ht2. cbn [mbind option_bind]. rewrite Hd2. cbn [mbind option_bind]. if_false.
  change (160 =? 2) with false. change (160 =? 6) with false. change (160 =? 160) with true. cbv iota.
  subst g. cbn [fullyEncodedData_loop]. if_false. f_equal. f_equal; [lia|]. do 3 f_equal. lia.
Qed.

Lemma same_bytes_at pos id : at_pos buffer pos id -> same_bytes buffer pos id = Some true.
Proof. intros H. unfold same_bytes. rewrite at_pos_range by done. cbn. by rewrite bool_decide_eq_true_2. Qed.

Definition syntax_of (mms : bool) : list Z := if mms then asn_id_mms else asn_id_as_acse.

Lemma parsePCDLEntry_at self pos ctx (mms : bool) n :
  0 <= ctx < 128 -> n = 11 + zlen (syntax_of mms) ->
  at_pos buffer pos (ber_tlv 0x02 [ctx] ++ ber_tlv 0x06 (syntax_of mms) ++ ber_tlv 0x30 [6; 2; 0x51; 1] ++ []) ->
  parsePCDLEntry self buffer n pos = Some (pos + n, if mms then with_mmsContextId self ctx else with_acseContextId self ctx).
Proof.
  intros Hctx Hn Hat. pose proof (at_pos_bounds _ _ _ Hat) as [Hpos _]. unfold parsePCDLEntry.
  assert (4 <= zlen (syntax_of mms) <= 5) as Hsy by (by destruct mms).
  assert (exists f, S (Z.to_nat n) = S (S (S (S f)))) as [f ->] by (exists (Z.to_nat n - 3)%nat; lia).
  remember (S (S (S f))) as g eqn:Hg. turn pcdlEntry_loop Hat Hc (pos + n).
  rewrite (decodeUint32_spec [ctx]) by done. cbn [mbind option_bind].
  replace (s32 _) with ctx by (unfold be_val, u32, s32; cbn [fold_left]; rewrite !Z.mod_small by (rewrite ?Z.mod_small by lia; lia); lia).
  subst g. remember (S (S f)) as g eqn:Hg. turn pcdlEntry_loop Hat Hc2 (pos + n).
  assert ((if zlen (syntax_of mms) =? 5 then m ← same_bytes buffer (pos + 1 + zlen (ber_length (zlen [ctx])) + zlen [ctx] + 1 + zlen (ber_length (zlen (syntax_of mms)))) asn_id_mms; Some (false, false || m)
             else if zlen (syntax_of mms) =? 4 then m ← same_bytes buffer (pos + 1 + zlen (ber_length (zlen [ctx])) + zlen [ctx] + 1 + zlen (ber_length (zlen (syntax_of mms)))) asn_id_as_acse; Some (false || m, false)
             else Some (false, false)) = Some (negb mms, mms)) as Hm.
  { destruct mms; [change (zlen (syntax_of true) =? 5) with true | change (zlen (syntax_of false) =? 5) with false; change (zlen (syntax_of false) =? 4) with true];
      cbv iota; rewrite same_bytes_at by exact Hc2; done. }
  rewrite Hm. cbn [mbind option_bind]. subst g. remember (S f) as g eqn:Hg. turn pcdlEntry_loop Hat Hc3 (pos + n).
  subst g. cbn [pcdlEntry_loop]. change (zlen [6; 2; 0x51; 1]) with 4. change (zlen [ctx]) with 1. rewrite !zlen_ber_length_short by lia. if_false. cbn [mbind option_bind].
  if_false. unfold u8. rewrite Z.mod_small by lia. turn_false. destruct mms; cbn [negb andb]; do 2 f_equal; lia.
Qed.

Lemma context_list_at self pos :
  at_pos buffer pos (context_item 1 asn_id_as_acse ++ context_item 3 asn_id_mms ++ []) ->
  parsePresentationContextDefinitionList self buffer 35 pos = Some (pos + 35, with_mmsContextId (with_acseContextId self 1) 3).
Proof.
  unfold context_item. intros Hat. pose proof (at_pos_bounds _ _ _ Hat) as [Hpos _]. unfold parsePresentationContextDefinitionList.
  remember (ber_tlv 2 [1] ++ ber_tlv 6 asn_id_as_acse ++ ber_tlv 48 (ber_tlv 6 ber_id)) as c1 eqn:H1.
  remember (ber_tlv 2 [3] ++ ber_tlv 6 asn_id_mms ++ ber_tlv 48 (ber_tlv 6 ber_id)) as c2 eqn:H2.
  assert (zlen c1 = 15) as Hz1 by (by rewrite H1). assert (zlen c2 = 16) as Hz2 by (by rewrite H2).
  assert (exists f, S (Z.to_nat 35) = S (S (S f))) as [f ->] by (by exists 33%nat). remember (S (S f)) as g eqn:Hg. turn pcdl_loop Hat Hc1 (pos + 35). rewrite Hz1 in *. change (zlen (ber_length 15)) with 1 in *.
  rewrite (parsePCDLEntry_at _ _ 1 false) by (done || (rewrite H1 in Hc1; exact Hc1)). cbn [mbind option_bind]. turn_false.
  subst g. remember (S f) as g eqn:Hg. turn pcdl_loop Hat Hc2 (pos + 35). rewrite Hz2 in *. change (zlen (ber_length 16)) with 1 in *.
  rewrite (parsePCDLEntry_at _ _ 3 true) by (done || (rewrite H2 in Hc2; exact Hc2)). cbn [mbind option_bind]. turn_false.
  subst g. cbn [pcdl_loop]. if_false. do 2 f_equal. lia.
Qed.

(** the selector a parser leaves, in the array of the old one *)
Definition set_pOctets (old sel : PSelector) : PSelector :=
  mkPSelector (pse_size sel) (splice (pse_value old) 0 (pSelector_octets sel)).

Lemma read_pSelector_at old pos sel :
  pSelector_ok old -> pSelector_ok sel -> at_pos buffer pos (pSelector_octets sel) ->
  read_pSelector old buffer pos (pse_size sel) = Some (set_pOctets old sel).
Proof.
  intros (Ho & _ & _) Hs Hat. pose proof (zlen_pSelector_octets _ Hs) as Hz. destruct Hs as (Hv & _ & Hn). unfold read_pSelector. if_false.
  rewrite <- Hz, at_pos_range by done. cbn [mbind option_bind]. rewrite st_range_splice by lia. cbn [mbind option_bind].
  unfold set_pOctets. by rewrite Hz.
Qed.

Lemma fullyEncoded_user_data self pos ctx payload n :
  is_byte ctx -> zlen payload < 65500 ->
  at_pos buffer pos (ber_tlv 0x30 (ber_tlv 0x02 [ctx] ++ ber_tlv 0xa0 payload)) -> n = zlen (ber_tlv 0x30 (ber_tlv 0x02 [ctx] ++ ber_tlv 0xa0 payload)) ->
  parseFullyEncodedData self buffer n pos
  = Some (pos + n, with_nextPayload (with_nextContextId self ctx)
      (mkByteBuffer (ptr_add buffer (pos + n - zlen payload)) (bb_maxSize (pr_nextPayload self)) (zlen payload))).
Proof. intros ? ? ? ->. by apply fullyEncodedData_at. Qed.

(** The state after a connect PDU. *)
Definition pres_connected (self : IsoPresentation) (calling called : PSelector) (ctx : Z) (payload : ByteBuffer) : IsoPresentation :=
  mkIsoPresentation (set_pOctets (pr_callingPresentationSelector self) calling) (set_pOctets (pr_calledPresentationSelector self) called) ctx 1 3 payload.

Lemma connect_parameters_at self pos calling called ctx payload n :
  presentation_ok self -> pSelector_ok calling -> pSelector_ok called -> is_byte ctx -> 0 < zlen payload <= 65000 ->
  at_pos buffer pos (connect_parameters calling called ctx payload) -> n = zlen (connect_parameters calling called ctx payload) ->
  parseNormalModeParameters self buffer n pos
  = Some (pos + n, pres_connected self calling called ctx
      (mkByteBuffer (ptr_add buffer (pos + n - zlen payload)) (bb_maxSize (pr_nextPayload self)) (zlen payload))).
Proof.
  intros Hs Hcg Hcd Hctx Hpl Hat Hn. rewrite zlen_connect_parameters in Hn by done. pose proof (at_pos_bounds _ _ _ Hat) as [Hpos _].
  unfold connect_parameters, user_data in *. rewrite <- (app_nil_r (ber_tlv 97 _)) in Hat.
  remember (context_item 1 asn_id_as_acse ++ context_item 3 asn_id_mms) as c1 eqn:H1. assert (zlen c1 = 35) as Hz1 by (by rewrite H1).
  remember (ber_tlv 48 (ber_tlv 2 [ctx] ++ ber_tlv 160 payload)) as c2 eqn:H2.
  assert (zlen payload < zlen c2 <= zlen payload + 20) as Hz2.
  { rewrite H2. pose proof (zlen_ber_length_bounds (zlen payload)). rewrite zlen_ber_tlv. change (ber_tlv 2 [ctx]) with [2; 1; ctx]. zlen.
    match goal with |- context [zlen (ber_length ?k)] => pose proof (zlen_ber_length_bounds k) end. lia. }
  pose proof (zlen_ber_length_bounds (zlen c2)). rewrite zlen_ber_tlv in Hn.
  pose proof (zlen_pSelector_octets _ Hcg) as Hz3. pose proof (zlen_pSelector_octets _ Hcd) as Hz4.
  pose proof Hcg as (_ & _ & Hs3). pose proof Hcd as (_ & _ & Hs4). destruct Hs as ((Ha1 & Ha2 & _) & (Hb1 & Hb2 & _) & _).
  unfold parseNormalModeParameters. set (self0 := with_callingPSelector _ _).
  assert (exists f, S (Z.to_nat n) = S (S (S (S (S f))))) as [f ->] by (exists (Z.to_nat n - 4)%nat; lia).
  remember (S (S (S (S f)))) as g eqn:Hg. turn normalMode_loop Hat Hc1 (pos + n). rewrite Hz3 in *.
  rewrite read_pSelector_at by (done || (unfold pSelector_ok; cbn; split_and!; (done || lia))). cbn [mbind option_bind].
  subst g. remember (S (S (S f))) as g eqn:Hg. turn normalMode_loop Hat Hc2 (pos + n). rewrite Hz4 in *.
  rewrite read_pSelector_at by (done || (unfold pSelector_ok; cbn; split_and!; (done || lia))). cbn [mbind option_bind].
  subst g. remember (S (S f)) as g eqn:Hg. turn normalMode_loop Hat Hc3 (pos + n). rewrite Hz1 in *.
  rewrite context_list_at by (by rewrite app_nil_r, <- H1). cbn [mbind option_bind]. turn_false.
  subst g. remember (S f) as g eqn:Hg. turn normalMode_loop Hat Hc4 (pos + n).
  rewrite (fullyEncoded_user_data _ _ ctx payload) by (rewrite <- ?H2; done || lia). cbn [mbind option_bind]. turn_false.
  subst g. cbn [normalMode_loop pr_nextPayload with_nextPayload bb_size].
  rewrite !(zlen_ber_length_short (pse_size _)) by lia. change (zlen (ber_length 35)) with 1. if_false. if_true.
  cbn [with_nextPayload with_nextContextId with_mmsContextId with_acseContextId with_calledPSelector with_callingPSelector]. unfold pres_connected. f_equal. f_equal; [lia|]. f_equal. f_equal. f_equal. lia.
Qed.

(** The state after the answer to a connect PDU: the selectors are reset. *)
Definition pres_accepted (self : IsoPresentation) (ctx : Z) (payload : ByteBuffer) : IsoPresentation :=
  mkIsoPresentation (mkPSelector 0 (pse_value (pr_callingPresentationSelector self))) (mkPSelector 0 (pse_value (pr_calledPresentationSelector self)))
    ctx (pr_acseContextId self) (pr_mmsContextId self) payload.

Lemma cpa_parameters_at self pos ctx payload n :
  is_byte ctx -> 0 < zlen payload <= 65000 -> at_pos buffer pos (cpa_parameters ctx payload) -> n = zlen (cpa_parameters ctx payload) ->
  parseNormalModeParameters self buffer n pos
  = Some (pos + n, pres_accepted self ctx
      (mkByteBuffer (ptr_add buffer (pos + n - zlen payload)) (bb_maxSize (pr_nextPayload self)) (zlen payload))).
Proof.
  intros Hctx Hpl Hat Hn. pose proof (at_pos_bounds _ _ _ Hat) as [Hpos _].
  unfold cpa_parameters, user_data in *. rewrite <- (app_nil_r (ber_tlv 97 _)) in Hat.
  remember (accept_result ++ accept_result) as c1 eqn:H1. assert (zlen c1 = 18) as Hz1 by (by rewrite H1).
  remember calledPresentationSelector as c0 eqn:H0. assert (zlen c0 = 4) as Hz0 by (by rewrite H0).
  remember (ber_tlv 48 (ber_tlv 2 [ctx] ++ ber_tlv 160 payload)) as c2 eqn:H2.
  assert (zlen payload < zlen c2 <= zlen payload + 20) as Hz2.
  { rewrite H2. pose proof (zlen_ber_length_bounds (zlen payload)). rewrite zlen_ber_tlv. change (ber_tlv 2 [ctx]) with [2; 1; ctx]. zlen.
    match goal with |- context [zlen (ber_length ?k)] => pose proof (zlen_ber_length_bounds k) end. lia. }
  pose proof (zlen_ber_length_bounds (zlen c2)). rewrite !zlen_app, !zlen_ber_tlv, Hz0, Hz1 in Hn. change (zlen (ber_length 4)) with 1 in Hn. change (zlen (ber_length 18)) with 1 in Hn.
  unfold parseNormalModeParameters. set (self0 := with_callingPSelector _ _).
  assert (exists f, S (Z.to_nat n) = S (S (S (S f)))) as [f ->] by (exists (Z.to_nat n - 3)%nat; lia).
  remember (S (S (S f))) as g eqn:Hg. turn normalMode_loop Hat Hc1 (pos + n).
  subst g. remember (S (S f)) as g eqn:Hg. turn normalMode_loop Hat Hc2 (pos + n).
  subst g. remember (S f) as g eqn:Hg. turn normalMode_loop Hat Hc4 (pos + n).
  rewrite (fullyEncoded_user_data _ _ ctx payload) by (rewrite <- ?H2; done || lia). cbn [mbind option_bind]. turn_false.
  subst g. cbn [normalMode_loop pr_nextPayload with_nextPayload bb_size]. rewrite Hz0, Hz1.
  change (zlen (ber_length 18)) with 1. change (zlen (ber_length 4)) with 1. if_false. if_true.
  cbn [with_nextPayload with_nextContextId with_mmsContextId with_acseContextId with_calledPSelector with_callingPSelector]. unfold pres_accepted. f_equal. f_equal; [lia|]. f_equal. f_equal. f_equal. lia.
Qed.
End Written.

(** the rest of a message from its last bytes on *)
Lemma ptr_add_tail bytes payload post k :
  k = zlen (bytes ++ payload) - zlen payload -> ptr_add ((bytes ++ payload) ++ post) k = payload ++ post.
Proof. intros ->. rewrite zlen_app. unfold ptr_add. replace (zlen bytes + _ - _) with (zlen bytes) by lia. rewrite zlen_to_nat, <- app_assoc. apply drop_app_length. Qed.

Lemma ber_tlv_suffix tag content pre payload : content = pre ++ payload -> exists pre', ber_tlv tag content = pre' ++ payload.
Proof. intros ->. exists (tag :: ber_length (zlen (pre ++ payload)) ++ pre). unfold ber_tlv. cbn [app]. by rewrite <- app_assoc. Qed.

Lemma user_data_suffix ctx payload : exists pre, user_data ctx payload = pre ++ payload.
Proof.
  unfold user_data. destruct (ber_tlv_suffix 160 payload [] payload eq_refl) as [p1 H1]. rewrite H1, app_assoc.
  destruct (ber_tlv_suffix 48 _ (ber_tlv 2 [ctx] ++ p1) payload eq_refl) as [p2 H2]. rewrite H2. by eapply ber_tlv_suffix.
Qed.

Lemma zlen_connect_pdu_bound calling called ctx payload :
  pSelector_ok calling -> pSelector_ok called -> zlen payload <= 65000 ->
  zlen (connect_parameters calling called ctx payload) < 65500.
Proof.
  intros Hcg Hcd Hp. rewrite zlen_connect_parameters by done. destruct Hcg as (_ & _ & ?), Hcd as (_ & _ & ?).
  unfold user_data. change (ber_tlv 2 [ctx]) with [2; 1; ctx]. zlen.
  repeat match goal with |- context [zlen (ber_length ?k)] => lazymatch k with context [ber_length] => fail | _ => idtac end;
    pose proof (zlen_ber_length_bounds k); generalize dependent (zlen (ber_length k)); intros end. lia.
Qed.


Section TopLevel.
Context (buffer : list Z).

Lemma connect_loop_at self pos limit calling called ctx payload fuel :
  presentation_ok self -> pSelector_ok calling -> pSelector_ok called -> is_byte ctx -> 0 < zlen payload <= 65000 ->
  let pdu := mode_selector ++ ber_tlv 0xa2 (connect_parameters calling called ctx payload) ++ [] in
  at_pos buffer pos pdu -> limit = pos + zlen pdu -> (3 <= fuel)%nat ->
  connect_loop fuel self buffer pos limit false
  = Some (1, pres_connected self calling called ctx (mkByteBuffer (ptr_add buffer (limit - zlen payload)) (bb_maxSize (pr_nextPayload self)) (zlen payload))).
Proof.
  intros Hs Hcg Hcd Hctx Hpl pdu Hat Hlim Hfuel. pose proof (at_pos_bounds _ _ _ Hat) as [Hpos _]. unfold pdu in *. clear pdu.
  assert (zlen (connect_parameters calling called ctx payload) < 65500) as Hsmall by (apply zlen_connect_pdu_bound; (done || lia)).
  remember (connect_parameters calling called ctx payload) as c1 eqn:H1. pose proof (zlen_nonneg c1). pose proof (zlen_ber_length_bounds (zlen c1)).
  unfold mode_selector in *. change (ber_tlv 0x80 [1]) with [0x80; 1; 1] in *. rewrite !zlen_app, !zlen_ber_tlv, zlen_nil in Hlim. change (zlen [0x80; 1; 1]) with 3 in Hlim. change (zlen (ber_length 3)) with 1 in Hlim.
  destruct fuel as [|[|[|f]]]; [lia..|]. clear Hfuel. remember (S (S f)) as g eqn:Hg. turn connect_loop Hat Hc limit.
  destruct (element_at buffer (zlen [0x80; 1; 1]) (pos + 1 + zlen (ber_length (zlen [0x80; 1; 1]))) limit 0x80 [1] Hc) as (Ht1 & Hd1 & Hc1);
    [done | change (zlen [0x80; 1; 1]) with 3; change (zlen (ber_tlv 128 [1])) with 3; change (zlen (ber_length 3)) with 1; lia|].
  rewrite Ht1. cbn [mbind option_bind]. change (negb (128 =? 128)) with false. cbv iota. rewrite Hd1. cbn [mbind option_bind]. turn_false.
  rewrite (decodeUint32_spec [1]) by done. cbn [mbind option_bind]. change (zlen [0x80; 1; 1]) with 3 in *. change (zlen (ber_length 3)) with 1 in *.
  change (zlen (ber_length (zlen [1]))) with 1. change (zlen [1]) with 1. replace (pos + 1 + 1 + 1 + 1 + 1) with (pos + 1 + 1 + 3) by lia.
  subst g. remember (S f) as g eqn:Hg. turn connect_loop Hat Hc2 limit.
  rewrite (connect_parameters_at buffer self _ calling called ctx payload) by (rewrite <- ?H1; done || lia). cbn [mbind option_bind]. turn_false.
  subst g. cbn [connect_loop]. if_false. do 4 f_equal. f_equal. lia.
Qed.

Lemma accept_loop_at self pos limit ctx payload fuel :
  is_byte ctx -> 0 < zlen payload <= 65000 ->
  let pdu := mode_selector ++ ber_tlv 0xa2 (cpa_parameters ctx payload) ++ [] in
  at_pos buffer pos pdu -> limit = pos + zlen pdu -> zlen (cpa_parameters ctx payload) < 65500 -> (3 <= fuel)%nat ->
  acceptMessage_loop fuel self buffer pos limit
  = Some (1, pres_accepted self ctx (mkByteBuffer (ptr_add buffer (limit - zlen payload)) (bb_maxSize (pr_nextPayload self)) (zlen payload))).
Proof.
  intros Hctx Hpl pdu Hat Hlim Hsmall Hfuel. pose proof (at_pos_bounds _ _ _ Hat) as [Hpos _]. unfold pdu in *. clear pdu.
  remember (cpa_parameters ctx payload) as c1 eqn:H1. pose proof (zlen_nonneg c1). pose proof (zlen_ber_length_bounds (zlen c1)).
  unfold mode_selector in *. change (ber_tlv 0x80 [1]) with [0x80; 1; 1] in *. rewrite !zlen_app, !zlen_ber_tlv, zlen_nil in Hlim. change (zlen [0x80; 1; 1]) with 3 in Hlim. change (zlen (ber_length 3)) with 1 in Hlim.
  destruct fuel as [|[|[|f]]]; [lia..|]. clear Hfuel. remember (S (S f)) as g eqn:Hg. turn acceptMessage_loop Hat Hc limit.
  change (zlen [0x80; 1; 1]) with 3 in *. change (zlen (ber_length 3)) with 1 in *.
  subst g. remember (S f) as g eqn:Hg. turn acceptMessage_loop Hat Hc2 limit.
  rewrite (cpa_parameters_at buffer self _ ctx payload) by (rewrite <- ?H1; done || lia). cbn [mbind option_bind]. turn_false.
  subst g. cbn [acceptMessage_loop]. if_false. do 4 f_equal. f_equal. lia.
Qed.
End TopLevel.

Lemma connect_parameters_suffix calling called ctx payload : exists pre, connect_parameters calling called ctx payload = pre ++ payload.
Proof.
  destruct (user_data_suffix ctx payload) as [p1 H1]. unfold connect_parameters. rewrite H1. eexists. rewrite !app_assoc. done.
Qed.

Lemma cpa_parameters_suffix ctx payload : exists pre, cpa_parameters ctx payload = pre ++ payload.
Proof. destruct (user_data_suffix ctx payload) as [p1 H1]. unfold cpa_parameters. rewrite H1. eexists. rewrite !app_assoc. done. Qed.

Lemma pdu_suffix parameters pre payload : parameters = pre ++ payload -> exists pre', ber_tlv 0x31 (mode_selector ++ ber_tlv 0xa2 parameters) = pre' ++ payload.
Proof.
  intros H. destruct (ber_tlv_suffix 0xa2 _ _ _ H) as [p1 H1]. rewrite H1, app_assoc. by eapply ber_tlv_suffix.
Qed.

(** the head of a connect PDU or its answer *)
Lemma pdu_head bytes post content :
  bytes = ber_tlv 0x31 content -> zlen content < 65530 ->
  exists p, ld (bytes ++ post) 0 = Some 0x31 /\ BerDecoder_decodeLength (bytes ++ post) 0 1 (zlen bytes) = Some (p, zlen content) /\
    2 <= p /\ at_pos (bytes ++ post) p content /\ zlen bytes = p + zlen content.
Proof.
  intros -> Hc. pose proof (zlen_ber_length_bounds (zlen content)).
  destruct (element_at (ber_tlv 0x31 content ++ post) 0 0 (zlen (ber_tlv 0x31 content)) 0x31 content) as (H1 & H2 & H3); [apply at_pos_prefix | lia | lia|].
  exists (0 + 1 + zlen (ber_length (zlen content))). split_and!; [exact H1 | exact H2 | lia | exact H3 | zlia].
Qed.

Lemma zlen_mode_params params : zlen params < 65500 -> zlen (mode_selector ++ ber_tlv 0xa2 params) < 65530.
Proof. intros. zlen. change (zlen mode_selector) with 5. pose proof (zlen_ber_length_bounds (zlen params)). lia. Qed.

(** Parsing a connect PDU the library wrote. *)
Lemma parse_connect_pdu self calling called ctx payload post mx :
  presentation_ok self -> pSelector_ok calling -> pSelector_ok called -> is_byte ctx -> 0 < zlen payload <= 65000 ->
  IsoPresentation_parseConnect self (message_of (connect_pdu calling called ctx payload) post mx)
  = Some (1, pres_connected self calling called ctx (mkByteBuffer (payload ++ post) (bb_maxSize (pr_nextPayload self)) (zlen payload))).
Proof.
  intros Hs Hcg Hcd Hctx Hpl. set (pdu := connect_pdu calling called ctx payload).
  assert (zlen (connect_parameters calling called ctx payload) < 65500) as Hsmall by (apply zlen_connect_pdu_bound; (done || lia)).
  destruct (connect_parameters_suffix calling called ctx payload) as [pre Hpre]. destruct (pdu_suffix _ _ _ Hpre) as [pre' Hsuf].
  destruct (pdu_head pdu post _ eq_refl (zlen_mode_params _ Hsmall)) as (p & H0 & Hd & Hp & Hat & Hz).
  unfold IsoPresentation_parseConnect, message_of. cbn [bb_buffer bb_size]. rewrite H0. cbn [mbind option_bind]. change (negb (0x31 =? 0x31)) with false. cbv iota.
  rewrite Hd. cbn [mbind option_bind]. if_false.
  rewrite <- (app_nil_r (ber_tlv 162 _)) in Hat. rewrite <- (app_nil_r (ber_tlv 162 _)) in Hz.
  rewrite (connect_loop_at _ _ p (zlen pdu) calling called ctx payload); try done.
  - do 4 f_equal. f_equal. unfold pdu at 2. unfold pdu, connect_pdu. rewrite Hsuf. by apply ptr_add_tail.
  - rewrite !zlen_app in Hz. change (zlen mode_selector) with 5 in Hz. pose proof (zlen_nonneg (ber_tlv 162 (connect_parameters calling called ctx payload))). rewrite zlen_nil in Hz. lia.
Qed.

(** Parsing the answer. *)
Lemma parse_cpa_pdu self ctx payload post mx :
  is_byte ctx -> 0 < zlen payload <= 65000 -> zlen (cpa_parameters ctx payload) < 65500 ->
  IsoPresentation_parseAcceptMessage self (message_of (cpa_pdu ctx payload) post mx)
  = Some (1, pres_accepted self ctx (mkByteBuffer (payload ++ post) (bb_maxSize (pr_nextPayload self)) (zlen payload))).
Proof.
  intros Hctx Hpl Hsmall. set (pdu := cpa_pdu ctx payload).
  destruct (cpa_parameters_suffix ctx payload) as [pre Hpre]. destruct (pdu_suffix _ _ _ Hpre) as [pre' Hsuf].
  destruct (pdu_head pdu post _ eq_refl (zlen_mode_params _ Hsmall)) as (p & H0 & Hd & Hp & Hat & Hz).
  unfold IsoPresentation_parseAcceptMessage, message_of. cbn [bb_buffer bb_size]. rewrite H0. cbn [mbind option_bind]. change (negb (0x31 =? 0x31)) with false. cbv iota.
  rewrite Hd. cbn [mbind option_bind]. if_false.
  rewrite <- (app_nil_r (ber_tlv 162 _)) in Hat. rewrite <- (app_nil_r (ber_tlv 162 _)) in Hz.
  rewrite (accept_loop_at _ _ p (zlen pdu) ctx payload); try done.
  - do 4 f_equal. f_equal. unfold pdu at 2. unfold pdu, cpa_pdu. rewrite Hsuf. by apply ptr_add_tail.
  - rewrite !zlen_app in Hz. change (zlen mode_selector) with 5 in Hz. pose proof (zlen_nonneg (ber_tlv 162 (cpa_parameters ctx payload))). rewrite zlen_nil in Hz. lia.
Qed.

(** Parsing user data. *)
Lemma parse_user_data self ctx payload post mx :
  0 < zlen payload <= 65000 ->
  IsoPresentation_parseUserData self (message_of (user_data ctx payload) post mx)
  = Some (1, with_nextPayload (with_nextContextId self ctx) (message_of payload post (zlen payload))).
Proof.
  intros Hpl. destruct (user_data_suffix ctx payload) as [pre Hsuf]. unfold message_of.
  set (inner := ber_tlv 2 [ctx] ++ ber_tlv 160 payload). pose proof (zlen_ber_length_bounds (zlen payload)).
  assert (zlen inner = 4 + zlen (ber_length (zlen payload)) + zlen payload) as Hi by (unfold inner; change (ber_tlv 2 [ctx]) with [2; 1; ctx]; zlia).
  pose proof (zlen_ber_length_bounds (zlen inner)). set (set_ := ber_tlv 48 inner). assert (zlen set_ = 1 + zlen (ber_length (zlen inner)) + zlen inner) as Hset by (unfold set_; zlia).
  pose proof (zlen_ber_length_bounds (zlen set_)).
  assert (zlen (user_data ctx payload) = 1 + zlen (ber_length (zlen set_)) + zlen set_) as Hz by (unfold user_data; fold inner; fold set_; zlia).
  remember (user_data ctx payload ++ post) as buffer eqn:Hbuf. set (limit := zlen (user_data ctx payload)) in *.
  assert (at_pos buffer 0 (ber_tlv 0x61 set_)) as Hat by (rewrite Hbuf; apply at_pos_prefix).
  destruct (element_at buffer 0 0 limit 0x61 set_ Hat) as (Ht & Hd & Hc); [lia | rewrite zlen_ber_tlv; lia|].
  unfold IsoPresentation_parseUserData. cbn [bb_buffer bb_size]. if_false. rewrite Ht. cbn [mbind option_bind]. change (negb (0x61 =? 0x61)) with false. cbv iota.
  change (0 + 1) with 1 in *. rewrite Hd. cbn [mbind option_bind]. if_false. set (q := 1 + zlen (ber_length (zlen set_))) in *.
  destruct (element_at buffer (zlen set_) q limit 0x30 inner Hc) as (Ht2 & Hd2 & Hc2); [lia | fold set_; lia|].
  rewrite Ht2. cbn [mbind option_bind]. change (negb (0x30 =? 0x30)) with false. cbv iota. rewrite Hd2. cbn [mbind option_bind]. if_false.
  set (start := q + 1 + zlen (ber_length (zlen inner))) in *.
  assert (exists f, S (Z.to_nat limit) = S (S f)) as [f ->] by (exists (Z.to_nat limit - 1)%nat; lia).
  remember (S f) as g eqn:Hg. unfold inner in Hc2. apply at_pos_app in Hc2 as [Ha Hb].
  destruct (element_at buffer 0 start limit 2 [ctx] Ha) as (Ht3 & Hd3 & Hc3); [done | change (zlen (ber_tlv 2 [ctx])) with 3; lia|].
  change (zlen (ber_length (zlen [ctx]))) with 1 in *. change (zlen (ber_tlv 2 [ctx])) with 3 in *. change (zlen [ctx]) with 1 in *.
  cbn [userData_loop]. if_true. rewrite Ht3. cbn [mbind option_bind].
  destruct (ld_is_Some buffer (start + 1)) as [lf ->]; [apply at_pos_bounds in Hb; pose proof (zlen_nonneg (ber_tlv 160 payload)); lia|]. cbn [mbind option_bind].
  rewrite Hd3. cbn [mbind option_bind]. if_false. change (2 =? 2) with true. cbv iota. apply at_pos_cons in Hc3 as [Hctx _]. rewrite Hctx. cbn [mbind option_bind].
  replace (start + 1 + 1 + 1) with (start + 3) by lia. subst g. cbn [userData_loop]. if_true.
  destruct (element_at buffer 0 (start + 3) limit 160 payload Hb) as (Ht4 & Hd4 & Hc4); [lia | rewrite zlen_ber_tlv; lia|].
  destruct (ber_length_head (zlen payload)) as (b & r & Hbl & Hne); [lia|].
  assert (ld buffer (start + 3 + 1) = Some b) as Hlf.
  { unfold ber_tlv in Hb. rewrite Hbl in Hb. apply at_pos_cons in Hb as [_ Hb]. by apply at_pos_cons in Hb as [Hb _]. }
  rewrite Ht4. cbn [mbind option_bind]. rewrite Hlf. cbn [mbind option_bind]. rewrite Hd4. cbn [mbind option_bind]. if_false.
  change (160 =? 2) with false. change (160 =? 6) with false. change (160 =? 160) with true. cbn [negb]. cbv iota. if_false.
  unfold ByteBuffer_wrap. do 4 f_equal. rewrite Hbuf, Hsuf. apply ptr_add_tail. rewrite <- Hsuf. fold limit. lia.
Qed.
