(* ===== verification/Acse.v ===== *)
(** The association control layer: src/libiec61850/src/mms/iso_acse/acse.c with
    acse.h, ISO 8650.

    The authenticator of the application and the peer certificate of a TLS
    connection are values of the connection record. The parsers get two more
    arguments: [uninit], the value that the uninitialised variable [len] of a
    loop happens to have, and [front], the byte of memory in front of the message,
    [None] when there is none. Both are read only by [parseUserInformation], when
    the length of an element cannot be decoded (see there). *)

From S2P Require Import Prelude BerEncoder BerDecoder ByteBuffer IsoParameters IsoPresentation.
Open Scope Z_scope.

Inductive AcseConnectionState := idle | requestIndicated | connected.

Inductive AcseIndication :=
| ACSE_ERROR
| ACSE_ASSOCIATE
| ACSE_ASSOCIATE_FAILED
| ACSE_OK
| ACSE_ABORT
| ACSE_RELEASE_REQUEST
| ACSE_RELEASE_RESPONSE.

(** src/libiec61850/src/mms/inc/iso_connection_parameters.h *)
Record IsoApplicationReference := mkIsoApplicationReference {
  ar_apTitle : ItuObjectIdentifier;
  ar_aeQualifier : Z
}.

(** decides, stores a security token and may change the application reference *)
Definition AcseAuthenticator : Type :=
  AcseAuthenticationParameter -> option Z -> IsoApplicationReference -> bool * option Z * IsoApplicationReference.

(** [tlsSocket] is the socket by what is asked of it, the certificate of the peer.
    The member [authentication] is used nowhere. *)
Record AcseConnection := mkAcseConnection {
  ac_state : AcseConnectionState;
  ac_nextReference : Z;
  ac_userDataBuffer : option (list Z);
  ac_userDataBufferSize : Z;
  ac_authenticator : option AcseAuthenticator;
  ac_applicationReference : IsoApplicationReference;
  ac_securityToken : option Z;
  ac_tlsSocket : option (option (list Z))
}.

Definition with_nextReference (c : AcseConnection) (v : Z) : AcseConnection :=
  mkAcseConnection (ac_state c) v (ac_userDataBuffer c) (ac_userDataBufferSize c) (ac_authenticator c) (ac_applicationReference c) (ac_securityToken c) (ac_tlsSocket c).
Definition with_acseUserData (c : AcseConnection) (buffer : list Z) (size : Z) : AcseConnection :=
  mkAcseConnection (ac_state c) (ac_nextReference c) (Some buffer) size (ac_authenticator c) (ac_applicationReference c) (ac_securityToken c) (ac_tlsSocket c).
Definition with_applicationReference (c : AcseConnection) (v : IsoApplicationReference) : AcseConnection :=
  mkAcseConnection (ac_state c) (ac_nextReference c) (ac_userDataBuffer c) (ac_userDataBufferSize c) (ac_authenticator c) v (ac_securityToken c) (ac_tlsSocket c).
Definition with_securityToken (c : AcseConnection) (v : option Z) : AcseConnection :=
  mkAcseConnection (ac_state c) (ac_nextReference c) (ac_userDataBuffer c) (ac_userDataBufferSize c) (ac_authenticator c) (ac_applicationReference c) v (ac_tlsSocket c).

Definition ACSE_RESULT_ACCEPT : Z := 0.
Definition ACSE_RESULT_REJECT_PERMANENT : Z := 1.

Definition appContextNameMms : list Z := [0x28; 0xca; 0x22; 0x02; 0x03].
Definition auth_mech_password_oid : list Z := [0x52; 0x03; 0x01].
Definition requirements_authentication : list Z := [0x80].

Definition AcseConnection_init (authenticator : option AcseAuthenticator) (tlsSocket : option (option (list Z))) : AcseConnection :=
  mkAcseConnection idle 0 None 0 authenticator (mkIsoApplicationReference (mkItuObjectIdentifier (replicate 10 0) 0) 0) None tlsSocket.

(** * Authentication *)

Definition checkAuthMechanismName (authMechanism : option (list Z)) (authMechLen : Z) : option AcseAuthenticationMechanism :=
  match authMechanism with
  | Some authMechanism =>
      if authMechLen =? 3 then
        same ← same_bytes authMechanism 0 auth_mech_password_oid;
        Some (if (same : bool) then ACSE_AUTH_PASSWORD else ACSE_AUTH_NONE)
      else Some ACSE_AUTH_NONE
  | None => Some ACSE_AUTH_NONE
  end.

(** The value of the parameter is set for passwords and certificates only. *)
Definition authenticateClient (authenticator : AcseAuthenticator) (self : AcseConnection) (mechanism : AcseAuthenticationMechanism)
    (authValue : option (list Z)) (authValueLen : Z) : bool * AcseConnection :=
  let authParameter := match mechanism with
    | ACSE_AUTH_PASSWORD | ACSE_AUTH_TLS => mkAcseAuthenticationParameter mechanism authValue authValueLen
    | _ => mkAcseAuthenticationParameter mechanism None 0
    end in
  let '(accepted, token, reference) := authenticator authParameter (ac_securityToken self) (ac_applicationReference self) in
  (accepted, with_applicationReference (with_securityToken self token) reference).

Definition checkAuthentication (self : AcseConnection) (authMechanism : option (list Z)) (authMechLen : Z)
    (authValue : option (list Z)) (authValueLen : Z) : option (bool * AcseConnection) :=
  let self := with_securityToken self None in
  match ac_authenticator self with
  | Some authenticator =>
      mechanism ← checkAuthMechanismName authMechanism authMechLen;
      match mechanism, ac_tlsSocket self with
      | ACSE_AUTH_NONE, Some (Some certificate) =>
          Some (authenticateClient authenticator self ACSE_AUTH_TLS (Some certificate) (zlen certificate))
      | _, _ => Some (authenticateClient authenticator self mechanism authValue authValueLen)
      end
  | None => Some (true, self)
  end.

(** * Parsing *)

(** the local variables of the loop of [parseUserInformation] *)
Record UserInformation := mkUserInformation {
  ui_bufPos : Z;
  ui_self : AcseConnection;
  ui_hasindirectReference : bool;
  ui_isDataValid : bool
}.

Definition ui_at (s : UserInformation) (bufPos : Z) : UserInformation :=
  mkUserInformation bufPos (ui_self s) (ui_hasindirectReference s) (ui_isDataValid s).

(** One turn of the loop: the next state, or the result (position, [userInfoValid]
    and the connection). The length is tested for zero before the error of the
    decoder is, so a turn may leave the position [-1]; the next one then reads
    the byte in front of the buffer. *)
Definition userInformation_turn (uninit : Z) (front : option Z) (buffer : list Z) (maxBufPos : Z) (s : UserInformation)
  : option (UserInformation + (Z * bool * AcseConnection)) :=
  let bufPos := ui_bufPos s in
  if bufPos <? maxBufPos then
    tag ← (if bufPos <? 0 then front else ld buffer bufPos);
    '(bufPos, len) ← BerDecoder_decodeLength buffer uninit (bufPos + 1) maxBufPos;
    if len =? 0 then Some (inl (ui_at s bufPos))
    else if (bufPos <? 0) || (maxBufPos <? bufPos + len) then Some (inr (-1, false, ui_self s))
    else if tag =? 0x02 then
      reference ← BerDecoder_decodeUint32 buffer len bufPos;
      Some (inl (mkUserInformation (bufPos + len) (with_nextReference (ui_self s) reference) true (ui_isDataValid s)))
    else if tag =? 0xa0 then
      Some (inl (mkUserInformation (bufPos + len) (with_acseUserData (ui_self s) (ptr_add buffer bufPos) len)
                   (ui_hasindirectReference s) true))
    else Some (inl (ui_at s (bufPos + len)))
  else Some (inr (bufPos, ui_hasindirectReference s && ui_isDataValid s, ui_self s)).

Fixpoint userInformation_loop (fuel : nat) (uninit : Z) (front : option Z) (buffer : list Z) (maxBufPos : Z) (s : UserInformation)
  : option (Z * bool * AcseConnection) :=
  match fuel with
  | O => None
  | S fuel =>
      r ← userInformation_turn uninit front buffer maxBufPos s;
      match r with
      | inl s => userInformation_loop fuel uninit front buffer maxBufPos s
      | inr result => Some result
      end
  end.

Definition parseUserInformation (uninit : Z) (front : option Z) (self : AcseConnection) (buffer : list Z) (bufPos maxBufPos : Z)
  : option (Z * bool * AcseConnection) :=
  userInformation_loop (S (Z.to_nat (maxBufPos - bufPos))) uninit front buffer maxBufPos (mkUserInformation bufPos self false false).

(** [case 0xbe] of both PDUs: the position behind the user information, [-1] after an
    error, and whether it is valid *)
Definition case_userInformation (uninit : Z) (front : option Z) (self : AcseConnection) (buffer : list Z)
    (len bufPos maxBufPos : Z) (userInfoValid : bool) : option (Z * bool * AcseConnection) :=
  b ← ld buffer bufPos;
  if negb (b =? 0x28) then Some (bufPos + len, userInfoValid, self)
  else
    '(bufPos, len) ← BerDecoder_decodeLength buffer len (bufPos + 1) maxBufPos;
    if bufPos <? 0 then Some (-1, userInfoValid, self)
    else parseUserInformation uninit front self buffer bufPos (bufPos + len).

(** the local variables of the loop of [parseAarePdu] *)
Record Aare := mkAare {
  ae_self : AcseConnection;
  ae_userInfoValid : bool;
  ae_result : Z
}.

(** One turn of the loop: the next state and position, or the indication. *)
Definition aare_turn (uninit : Z) (front : option Z) (buffer : list Z) (maxBufPos : Z) (s : Aare) (bufPos : Z)
  : option (Aare * Z + AcseIndication * AcseConnection) :=
  let continue bufPos := Some (inl (s, bufPos)) in
  let error := Some (inr (ACSE_ERROR, ae_self s)) in
  if bufPos <? maxBufPos then
    tag ← ld buffer bufPos;
    '(bufPos, len) ← BerDecoder_decodeLength buffer uninit (bufPos + 1) maxBufPos;
    if bufPos <? 0 then error
    else if len =? 0 then continue bufPos
    else if maxBufPos <? bufPos + len then error
    else if tag =? 0xa1 then continue (bufPos + len)
    else if tag =? 0xa2 then
      '(bufPos, len) ← BerDecoder_decodeLength buffer len (bufPos + 1) maxBufPos;
      if bufPos <? 0 then error
      else
        result ← BerDecoder_decodeUint32 buffer len bufPos;
        Some (inl (mkAare (ae_self s) (ae_userInfoValid s) result, bufPos + len))
    else if tag =? 0xa3 then continue (bufPos + len)
    else if tag =? 0xbe then
      '(bufPos, userInfoValid, self) ← case_userInformation uninit front (ae_self s) buffer len bufPos maxBufPos (ae_userInfoValid s);
      if bufPos <? 0 then Some (inr (ACSE_ERROR, self))
      else Some (inl (mkAare self userInfoValid (ae_result s), bufPos))
    else if tag =? 0x00 then continue bufPos
    else continue (bufPos + len)
  else
    Some (inr (if negb (ae_userInfoValid s) then ACSE_ERROR
               else if negb (ae_result s =? 0) then ACSE_ASSOCIATE_FAILED else ACSE_ASSOCIATE, ae_self s)).

Fixpoint aare_loop (fuel : nat) (uninit : Z) (front : option Z) (s : Aare) (buffer : list Z) (bufPos maxBufPos : Z)
  : option (AcseIndication * AcseConnection) :=
  match fuel with
  | O => None
  | S fuel =>
      r ← aare_turn uninit front buffer maxBufPos s bufPos;
      match r with
      | inl (s, bufPos) => aare_loop fuel uninit front s buffer bufPos maxBufPos
      | inr result => Some result
      end
  end.

Definition parseAarePdu (uninit : Z) (front : option Z) (self : AcseConnection) (buffer : list Z) (bufPos maxBufPos : Z)
  : option (AcseIndication * AcseConnection) :=
  aare_loop (S (Z.to_nat (maxBufPos - bufPos))) uninit front (mkAare self false 99) buffer bufPos maxBufPos.

(** [case 0xa6]: the calling AP title *)
Definition case_apTitle (self : AcseConnection) (buffer : list Z) (bufPos len : Z) : option AcseConnection :=
  b ← ld buffer bufPos;
  if b =? 0x06 then
    innerLength ← ld buffer (bufPos + 1);
    if innerLength =? len - 2 then
      apTitle ← BerDecoder_decodeOID buffer (bufPos + 2) innerLength;
      Some (with_applicationReference self (mkIsoApplicationReference apTitle (ar_aeQualifier (ac_applicationReference self))))
    else Some self
  else Some self.

(** [case 0xa7]: the calling AE qualifier *)
Definition case_aeQualifier (self : AcseConnection) (buffer : list Z) (bufPos len : Z) : option AcseConnection :=
  b ← ld buffer bufPos;
  if b =? 0x02 then
    innerLength ← ld buffer (bufPos + 1);
    if innerLength =? len - 2 then
      aeQualifier ← BerDecoder_decodeInt32 (ptr_add buffer 2) innerLength bufPos;
      Some (with_applicationReference self (mkIsoApplicationReference (ar_apTitle (ac_applicationReference self)) aeQualifier))
    else Some self
  else Some self.

(** the local variables of the loop of [parseAarqPdu] *)
Record Aarq := mkAarq {
  aq_self : AcseConnection;
  aq_authValue : option (list Z);
  aq_authValueLen : Z;
  aq_authMechanism : option (list Z);
  aq_authMechLen : Z;
  aq_userInfoValid : bool
}.

Definition aq_with (s : Aarq) (self : AcseConnection) : Aarq :=
  mkAarq self (aq_authValue s) (aq_authValueLen s) (aq_authMechanism s) (aq_authMechLen s) (aq_userInfoValid s).

(** One turn of the loop: the next state and position, or the indication. *)
Definition aarq_turn (uninit : Z) (front : option Z) (buffer : list Z) (maxBufPos : Z) (s : Aarq) (bufPos : Z)
  : option (Aarq * Z + AcseIndication * AcseConnection) :=
  let failed := Some (inr (ACSE_ASSOCIATE_FAILED, aq_self s)) in
  let continue s bufPos := Some (inl (s, bufPos)) in
  if bufPos <? maxBufPos then
    tag ← ld buffer bufPos;
    '(bufPos, len) ← BerDecoder_decodeLength buffer uninit (bufPos + 1) maxBufPos;
    if bufPos <? 0 then failed
    else if len =? 0 then continue s bufPos
    else if maxBufPos <? bufPos + len then failed
    else if (tag =? 0xa1) || (tag =? 0xa2) || (tag =? 0xa3) then continue s (bufPos + len)
    else if tag =? 0xa6 then self ← case_apTitle (aq_self s) buffer bufPos len; continue (aq_with s self) (bufPos + len)
    else if tag =? 0xa7 then self ← case_aeQualifier (aq_self s) buffer bufPos len; continue (aq_with s self) (bufPos + len)
    else if tag =? 0x8a then continue s (bufPos + len)
    else if tag =? 0x8b then
      continue (mkAarq (aq_self s) (aq_authValue s) (aq_authValueLen s) (Some (ptr_add buffer bufPos)) len (aq_userInfoValid s)) (bufPos + len)
    else if tag =? 0xac then
      '(bufPos, len) ← BerDecoder_decodeLength buffer len (bufPos + 1) maxBufPos;
      if bufPos <? 0 then failed
      else continue (mkAarq (aq_self s) (Some (ptr_add buffer bufPos)) len (aq_authMechanism s) (aq_authMechLen s) (aq_userInfoValid s)) (bufPos + len)
    else if tag =? 0xbe then
      '(bufPos, userInfoValid, self) ← case_userInformation uninit front (aq_self s) buffer len bufPos maxBufPos (aq_userInfoValid s);
      if bufPos <? 0 then Some (inr (ACSE_ASSOCIATE_FAILED, self))
      else continue (mkAarq self (aq_authValue s) (aq_authValueLen s) (aq_authMechanism s) (aq_authMechLen s) userInfoValid) bufPos
    else if tag =? 0x00 then continue s bufPos
    else continue s (bufPos + len)
  else
    '(accepted, self) ← checkAuthentication (aq_self s) (aq_authMechanism s) (aq_authMechLen s) (aq_authValue s) (aq_authValueLen s);
    Some (inr (if negb accepted || negb (aq_userInfoValid s) then ACSE_ASSOCIATE_FAILED else ACSE_ASSOCIATE, self)).

Fixpoint aarq_loop (fuel : nat) (uninit : Z) (front : option Z) (s : Aarq) (buffer : list Z) (bufPos maxBufPos : Z)
  : option (AcseIndication * AcseConnection) :=
  match fuel with
  | O => None
  | S fuel =>
      r ← aarq_turn uninit front buffer maxBufPos s bufPos;
      match r with
      | inl (s, bufPos) => aarq_loop fuel uninit front s buffer bufPos maxBufPos
      | inr result => Some result
      end
  end.

Definition parseAarqPdu (uninit : Z) (front : option Z) (self : AcseConnection) (buffer : list Z) (bufPos maxBufPos : Z)
  : option (AcseIndication * AcseConnection) :=
  aarq_loop (S (Z.to_nat (maxBufPos - bufPos))) uninit front (mkAarq self None 0 None 0 false) buffer bufPos maxBufPos.

Definition AcseConnection_parseMessage (uninit : Z) (front : option Z) (self : AcseConnection) (message : ByteBuffer)
  : option (AcseIndication * AcseConnection) :=
  if bb_size message <? 1 then Some (ACSE_ERROR, self)
  else
    let buffer := bb_buffer message in
    let messageSize := bb_size message in
    messageType ← ld buffer 0;
    '(bufPos, len) ← BerDecoder_decodeLength buffer uninit 1 messageSize;
    if bufPos <? 0 then Some (ACSE_ERROR, self)
    else if messageType =? 0x60 then parseAarqPdu uninit front self buffer bufPos messageSize
    else if messageType =? 0x61 then parseAarePdu uninit front self buffer bufPos messageSize
    else if messageType =? 0x62 then Some (ACSE_RELEASE_REQUEST, self)
    else if messageType =? 0x63 then Some (ACSE_RELEASE_RESPONSE, self)
    else if messageType =? 0x64 then Some (ACSE_ABORT, self)
    else Some (ACSE_ERROR, self).

(** * Creating messages *)

Definition app_context : writer := fun buffer bufPos =>
  '(buffer, bufPos) ← BerEncoder_encodeTL 0xa1 7 buffer bufPos;
  '(buffer, bufPos) ← BerEncoder_encodeTL 0x06 5 buffer bufPos;
  puts appContextNameMms buffer bufPos.

(** The null pointer stops the program: it is asserted not to be one, and dereferenced. *)
Definition AcseConnection_createAssociateResponseMessage (self : AcseConnection) (acseResult : Z) (buf : list Z) (partMaxLength : Z)
    (payload : option BufferChain) : option BufferChain :=
  payload ← payload;
  let payloadLength := bc_length payload in
  nextRefLength ← BerEncoder_UInt32determineEncodedSize (u32 (ac_nextReference self));
  let assocDataLength := payloadLength + 1 + BerEncoder_determineLengthSize payloadLength + nextRefLength + 2 in
  let userInfoLength := assocDataLength + BerEncoder_determineLengthSize assocDataLength + 1 in
  let variableContentLength := userInfoLength + BerEncoder_determineLengthSize userInfoLength + 1 + 2 in
  let contentLength := 9 + 5 + 5 + variableContentLength in
  finish_part (fun buffer bufPos =>
    '(buffer, bufPos) ← BerEncoder_encodeTL 0x61 contentLength buffer bufPos;
    '(buffer, bufPos) ← app_context buffer bufPos;
    '(buffer, bufPos) ← BerEncoder_encodeTL 0xa2 3 buffer bufPos;
    '(buffer, bufPos) ← BerEncoder_encodeTL 0x02 1 buffer bufPos;
    '(buffer, bufPos) ← put acseResult buffer bufPos;
    '(buffer, bufPos) ← BerEncoder_encodeTL 0xa3 5 buffer bufPos;
    '(buffer, bufPos) ← BerEncoder_encodeTL 0xa1 3 buffer bufPos;
    '(buffer, bufPos) ← BerEncoder_encodeTL 0x02 1 buffer bufPos;
    '(buffer, bufPos) ← put 0 buffer bufPos;
    '(buffer, bufPos) ← BerEncoder_encodeTL 0xbe userInfoLength buffer bufPos;
    '(buffer, bufPos) ← BerEncoder_encodeTL 0x28 assocDataLength buffer bufPos;
    '(buffer, bufPos) ← BerEncoder_encodeTL 0x02 nextRefLength buffer bufPos;
    '(buffer, bufPos) ← BerEncoder_encodeUInt32 (u32 (ac_nextReference self)) buffer bufPos;
    BerEncoder_encodeTL 0xa0 payloadLength buffer bufPos) buf partMaxLength payload.

Definition AcseConnection_createAssociateFailedMessage (self : AcseConnection) (buf : list Z) (partMaxLength : Z) : option BufferChain :=
  AcseConnection_createAssociateResponseMessage self ACSE_RESULT_REJECT_PERMANENT buf partMaxLength None.

(** the AP title and AE qualifier of one side: their size, and their bytes *)
Definition address_size (side : IsoAddress) (qualifierLength : Z) : Z :=
  if 0 <? ia_apTitleLen side then (4 + ia_apTitleLen side) + (4 + qualifierLength) else 0.

Definition qualifier_length (side : IsoAddress) : option Z :=
  if 0 <? ia_apTitleLen side then BerEncoder_UInt32determineEncodedSize (u32 (ia_aeQualifier side)) else Some 0.

Definition encode_address (titleTag qualifierTag : Z) (side : IsoAddress) (qualifierLength : Z) : writer := fun buffer bufPos =>
  if 0 <? ia_apTitleLen side then
    '(buffer, bufPos) ← BerEncoder_encodeTL titleTag (ia_apTitleLen side + 2) buffer bufPos;
    '(buffer, bufPos) ← BerEncoder_encodeTL 0x06 (ia_apTitleLen side) buffer bufPos;
    title ← ld_range (ia_apTitle side) 0 (ia_apTitleLen side);
    '(buffer, bufPos) ← puts title buffer bufPos;
    '(buffer, bufPos) ← BerEncoder_encodeTL qualifierTag (qualifierLength + 2) buffer bufPos;
    '(buffer, bufPos) ← BerEncoder_encodeTL 0x02 qualifierLength buffer bufPos;
    BerEncoder_encodeUInt32 (u32 (ia_aeQualifier side)) buffer bufPos
  else Some (buffer, bufPos).

Definition authentication_size (authParameter : option AcseAuthenticationParameter) : Z :=
  match authParameter with
  | Some p =>
      4 + 5 + match aa_mechanism p with
        | ACSE_AUTH_PASSWORD =>
            let authValueStringLength := BerEncoder_determineLengthSize (aa_passwordLength p) in
            2 + (aa_passwordLength p + authValueStringLength)
            + BerEncoder_determineLengthSize (aa_passwordLength p + authValueStringLength + 1)
        | _ => 2
        end
  | None => 0
  end.

Definition encode_authentication (authParameter : option AcseAuthenticationParameter) : writer := fun buffer bufPos =>
  match authParameter with
  | Some p =>
      '(buffer, bufPos) ← BerEncoder_encodeTL 0x8a 2 buffer bufPos;
      '(buffer, bufPos) ← put 0x04 buffer bufPos;
      match aa_mechanism p with
      | ACSE_AUTH_PASSWORD =>
          '(buffer, bufPos) ← puts requirements_authentication buffer bufPos;
          '(buffer, bufPos) ← BerEncoder_encodeTL 0x8b 3 buffer bufPos;
          '(buffer, bufPos) ← puts auth_mech_password_oid buffer bufPos;
          '(buffer, bufPos) ← BerEncoder_encodeTL 0xac
             (BerEncoder_determineLengthSize (aa_passwordLength p) + aa_passwordLength p + 1) buffer bufPos;
          '(buffer, bufPos) ← BerEncoder_encodeTL 0x80 (aa_passwordLength p) buffer bufPos;
          octetString ← aa_octetString p;
          password ← ld_range octetString 0 (aa_passwordLength p);
          puts password buffer bufPos
      | _ => put 0 buffer bufPos
      end
  | None => Some (buffer, bufPos)
  end.

Definition AcseConnection_createAssociateRequestMessage (isoParameters : IsoConnectionParameters) (buf : list Z) (partMaxLength : Z)
    (payload : BufferChain) (authParameter : option AcseAuthenticationParameter) : option BufferChain :=
  let payloadLength := bc_length payload in
  calledAEQualifierLength ← qualifier_length (ip_remote isoParameters);
  callingAEQualifierLength ← qualifier_length (ip_local isoParameters);
  let assocDataLength := payloadLength + 1 + BerEncoder_determineLengthSize payloadLength + 1 + 2 in
  let userInfoLen := assocDataLength + BerEncoder_determineLengthSize assocDataLength + 1 in
  let userInfoLength := userInfoLen + BerEncoder_determineLengthSize userInfoLen + 1 in
  let contentLength := 9 + address_size (ip_remote isoParameters) calledAEQualifierLength
    + address_size (ip_local isoParameters) callingAEQualifierLength + authentication_size authParameter + userInfoLength in
  finish_part (fun buffer bufPos =>
    '(buffer, bufPos) ← BerEncoder_encodeTL 0x60 contentLength buffer bufPos;
    '(buffer, bufPos) ← app_context buffer bufPos;
    '(buffer, bufPos) ← encode_address 0xa2 0xa3 (ip_remote isoParameters) calledAEQualifierLength buffer bufPos;
    '(buffer, bufPos) ← encode_address 0xa6 0xa7 (ip_local isoParameters) callingAEQualifierLength buffer bufPos;
    '(buffer, bufPos) ← encode_authentication authParameter buffer bufPos;
    '(buffer, bufPos) ← BerEncoder_encodeTL 0xbe userInfoLen buffer bufPos;
    '(buffer, bufPos) ← BerEncoder_encodeTL 0x28 assocDataLength buffer bufPos;
    '(buffer, bufPos) ← BerEncoder_encodeTL 0x02 1 buffer bufPos;
    '(buffer, bufPos) ← put 3 buffer bufPos;
    BerEncoder_encodeTL 0xa0 payloadLength buffer bufPos) buf partMaxLength payload.

(** a message of constant bytes, without payload *)
Definition constant_message (bytes buf : list Z) (partMaxLength : Z) : option BufferChain :=
  '(buf, bufPos) ← puts bytes buf 0;
  Some (mkBufferChain bufPos bufPos partMaxLength buf None).

Definition AcseConnection_createAbortMessage (buf : list Z) (partMaxLength : Z) (isProvider : bool) : option BufferChain :=
  constant_message [0x64; 3; 0x80; 1; if isProvider then 1 else 0] buf partMaxLength.

Definition AcseConnection_createReleaseRequestMessage (buf : list Z) (partMaxLength : Z) : option BufferChain :=
  constant_message [0x62; 3; 0x80; 1; 0] buf partMaxLength.

Definition AcseConnection_createReleaseResponseMessage (buf : list Z) (partMaxLength : Z) : option BufferChain :=
  constant_message [0x63; 0] buf partMaxLength.
