(* ===== verification/AcseFacts.v ===== *)
(** Association control: the parser on arbitrary bytes, authentication, and the
    messages the library creates. *)

From stdpp Require Import relations.
From S2P Require Import Prelude BerEncoder BerDecoder ByteBuffer IsoParameters IsoPresentation PresentationFacts Acse.
Open Scope Z_scope.

(** * Arbitrary bytes *)

(** one turn of the loop over the user information to the next *)
Definition turns (uninit : Z) (front : option Z) (buffer : list Z) (maxBufPos : Z) (s s' : UserInformation) : Prop :=
  userInformation_turn uninit front buffer maxBufPos s = Some (inl s').

Section Safety.
Context (buffer : list Z) (limit uninit : Z) (front : option Z).
Hypothesis Hok : bytes_ok buffer.
Hypothesis Hlimit : limit + 2 <= zlen buffer.
Hypothesis Hsmall : limit < 4194304.

(** The connection has user data, in the message. *)
Definition acse_data_in (c : AcseConnection) : Prop :=
  exists offset, 0 <= offset /\ ac_userDataBuffer c = Some (ptr_add buffer offset) /\
    0 < ac_userDataBufferSize c /\ offset + ac_userDataBufferSize c <= limit.

(** The loop over the user information that ends at [maxBufPos] leaves the message:
    it comes to the position [-1]. *)
Definition leaves (maxBufPos : Z) (s : UserInformation) : Prop :=
  exists s', rtc (turns uninit front buffer maxBufPos) s s' /\ ui_bufPos s' = -1.

(** The element at [bufPos] of a PDU is the user information, and the loop over it,
    which starts at its content, leaves the message. *)
Definition element_leaves (self : AcseConnection) (bufPos : Z) : Prop :=
  exists p len q n,
    bufPos < limit /\ ld buffer bufPos = Some 0xbe /\
    BerDecoder_decodeLength buffer uninit (bufPos + 1) limit = Some (p, len) /\ 0 <= p /\ len <> 0 /\ p + len <= limit /\
    ld buffer p = Some 0x28 /\ BerDecoder_decodeLength buffer len (p + 1) limit = Some (q, n) /\ 0 <= q /\
    leaves (q + n) (mkUserInformation q self false false).

(** the next turn of the loops over the elements of both PDUs *)
Definition aarq_next (x y : Aarq * Z) : Prop := aarq_turn uninit front buffer limit x.1 x.2 = Some (inl y).
Definition aare_next (x y : Aare * Z) : Prop := aare_turn uninit front buffer limit x.1 x.2 = Some (inl y).

(** One of the turns to come reads user information that leaves the message. *)
Definition aarq_leaves (x : Aarq * Z) : Prop := exists y, rtc aarq_next x y /\ element_leaves (aq_self y.1) y.2.
Definition aare_leaves (x : Aare * Z) : Prop := exists y, rtc aare_next x y /\ element_leaves (ae_self y.1) y.2.

(** The parser, which starts behind the header of the message, comes to user information
    that leaves the message. *)
Definition message_leaves (self : AcseConnection) : Prop :=
  exists p l, BerDecoder_decodeLength buffer uninit 1 limit = Some (p, l) /\ 0 <= p /\
    (ld buffer 0 = Some 0x60 /\ aarq_leaves (mkAarq self None 0 None 0 false, p) \/
     ld buffer 0 = Some 0x61 /\ aare_leaves (mkAare self false 99, p)).

Lemma userInformation_total fuel : forall maxBufPos s,
  maxBufPos <= limit -> 0 <= ui_bufPos s <= maxBufPos -> maxBufPos - ui_bufPos s < Z.of_nat fuel ->
  (ui_isDataValid s = true -> acse_data_in (ui_self s)) ->
  leaves maxBufPos s \/
  exists n valid c, userInformation_loop fuel uninit front buffer maxBufPos s = Some (n, valid, c) /\
    (valid = true -> acse_data_in c) /\ (n = -1 \/ ui_bufPos s <= n <= maxBufPos).
Proof.
  induction fuel as [|fuel IH]; intros maxBufPos s Hm Hp Hf Hv; [lia|]. cbn [userInformation_loop].
  destruct (userInformation_turn uninit front buffer maxBufPos s) as [[s'|[[n valid] c]]|] eqn:E.
  - cbn [mbind option_bind].
    assert (ui_bufPos s' = -1 \/ ui_bufPos s < ui_bufPos s' <= maxBufPos /\
      (ui_isDataValid s' = true -> acse_data_in (ui_self s'))) as [Hneg|(Hnext & Hv')].
    { revert E. unfold userInformation_turn. btest; [|done]. if_false.
      destruct (element_total buffer uninit (ui_bufPos s) maxBufPos Hok ltac:(lia) ltac:(lia) ltac:(lia)) as (tag & p & l & -> & _ & Hdec & Hr).
      cbn [mbind option_bind]. rewrite Hdec. cbn [mbind option_bind].
      case_match; [intros [= <-]; cbn; destruct Hr; [by left | right; split; [lia | done]]|].
      case_match; bdestr; [done|]. case_match.
      { destruct (decodeUint32_total buffer p l) as (v & -> & _); try lia. cbn. intros [= <-]. right. cbn. split; [lia | done]. }
      case_match; intros [= <-]; right; cbn; (split; [lia|]); [|done].
      intros _. exists p. cbn. split_and!; try done; lia. }
    + left. exists s'. split; [by apply rtc_once | done].
    + destruct (IH maxBufPos s') as [(s2 & Hr & Hn)|(n & valid & c & -> & Hvc & Hn)]; try done; try lia.
      * left. exists s2. split; [by eapply rtc_l | done].
      * right. exists n, valid, c. split_and!; try done. lia.
  - right. cbn [mbind option_bind]. exists n, valid, c. split; [done|]. revert E. unfold userInformation_turn. btest.
    + if_false. destruct (element_total buffer uninit (ui_bufPos s) maxBufPos Hok ltac:(lia) ltac:(lia) ltac:(lia)) as (tag & p & l & -> & _ & Hdec & Hr).
      cbn [mbind option_bind]. rewrite Hdec. cbn [mbind option_bind]. case_match; [done|]. case_match; [intros [= <- <- <-]; split; [done | by left]|].
      case_match; [by destruct (BerDecoder_decodeUint32 buffer l p)|]. by case_match.
    + intros [= <- <- <-]. split; [|lia]. destruct (ui_hasindirectReference s); [done | by intros].
  - exfalso. revert E. unfold userInformation_turn. btest; [|done]. if_false.
    destruct (element_total buffer uninit (ui_bufPos s) maxBufPos Hok ltac:(lia) ltac:(lia) ltac:(lia)) as (tag & p & l & -> & _ & Hdec & Hr).
    cbn [mbind option_bind]. rewrite Hdec. cbn [mbind option_bind]. case_match; [done|]. case_match; bdestr; [done|].
    case_match; [destruct (decodeUint32_total buffer p l) as (v & -> & _); try lia; done|]. by case_match.
Qed.

(** What [case 0xbe] does, unless the loop leaves the message. *)
Lemma case_userInformation_total self bufPos p len valid :
  0 <= bufPos < limit -> ld buffer bufPos = Some 0xbe -> BerDecoder_decodeLength buffer uninit (bufPos + 1) limit = Some (p, len) ->
  0 <= p -> 0 < len -> p + len <= limit -> (valid = true -> acse_data_in self) ->
  element_leaves self bufPos \/
  exists n valid' c, case_userInformation uninit front self buffer len p limit valid = Some (n, valid', c) /\
    (valid' = true -> acse_data_in c) /\ (n = -1 \/ p <= n <= limit).
Proof.
  intros Hb Htag Hdec Hp Hl He Hv. unfold case_userInformation. destruct (ld_is_Some buffer p) as [b Hld]; [lia|]. rewrite Hld. cbn [mbind option_bind].
  destruct (b =? 0x28) eqn:Hb28; bdestr; cbn [negb]; [|right; exists (p + len), valid, self; split_and!; (done || lia)].
  destruct (decodeLength_total buffer limit Hok ltac:(lia) Hsmall len (p + 1)) as ([q n] & Hdec2 & Hr); [lia|].
  rewrite Hdec2. unfold length_result in Hr. cbn [fst snd] in Hr. cbn [mbind option_bind]. btest; [right; exists (-1), valid, self; auto|].
  destruct (userInformation_total (S (Z.to_nat (q + n - q))) (q + n) (mkUserInformation q self false false)) as [Hlv|(m & v & c & Hc & H2 & H3)];
    cbn [ui_bufPos ui_self]; try done; try lia.
  - left. exists p, len, q, n. split_and!; (done || lia || congruence).
  - right. exists m, v, c. split; [exact Hc|]. cbn [ui_bufPos] in H3. split_and!; (done || lia).
Qed.

(** An association that is indicated has its user data in the message. *)
Definition acse_ok (r : AcseIndication * AcseConnection) : Prop := r.1 = ACSE_ASSOCIATE -> acse_data_in r.2.

Lemma acse_stop i c : i <> ACSE_ASSOCIATE -> acse_ok (i, c).
Proof. by intros ? ?. Qed.

(** What the parsers of both PDUs return, where [leaving] is the exception. *)
Definition acse_result (leaving : Prop) (r : option (AcseIndication * AcseConnection)) : Prop :=
  leaving \/ exists r', r = Some r' /\ acse_ok r'.

(** What one turn of their loops does: it goes on behind [bufPos] in a state with the
    invariant, or ends. *)
Definition turn_result {S : Type} (leaving : Prop) (inv : S -> Prop) (bufPos : Z) (r : option (S * Z + AcseIndication * AcseConnection)) : Prop :=
  leaving \/ match r with
            | Some (inl (s, p)) => bufPos < p <= limit /\ inv s
            | Some (inr r) => acse_ok r
            | None => False
            end.

Definition aare_inv (s : Aare) : Prop := ae_userInfoValid s = true -> acse_data_in (ae_self s).

Lemma aare_turn_total s bufPos : 0 <= bufPos <= limit -> aare_inv s ->
  turn_result (element_leaves (ae_self s) bufPos) aare_inv bufPos (aare_turn uninit front buffer limit s bufPos).
Proof.
  intros Hp Hv. unfold aare_turn. btest; [|right; intros Hi; cbn in Hi; apply Hv; by destruct (ae_userInfoValid s)].
  destruct (element_total buffer uninit bufPos limit Hok ltac:(lia) ltac:(lia) ltac:(lia)) as (tag & p & l & Htag & _ & Hdec & Hr).
  rewrite Htag. cbn [mbind option_bind]. rewrite Hdec. cbn [mbind option_bind]. btest; [by right|].
  assert (forall s' q, p <= q <= limit -> aare_inv s' ->
    turn_result (element_leaves (ae_self s) bufPos) aare_inv bufPos (Some (inl (s', q)))) as Hgo by (intros; right; split; (done || lia)).
  case_match; bdestr; [apply Hgo; (done || lia)|]. if_false. case_match; [apply Hgo; (done || lia)|]. case_match.
  { destruct (decodeLength_total buffer limit Hok ltac:(lia) Hsmall l (p + 1)) as ([p2 l2] & -> & Hr2); [lia|].
    unfold length_result in Hr2. cbn [fst snd] in Hr2. cbn [mbind option_bind]. btest; [by right|].
    destruct (decodeUint32_total buffer p2 l2) as (v & -> & _); try lia. cbn [mbind option_bind]. apply Hgo; (done || lia). }
  case_match; [apply Hgo; (done || lia)|]. case_match; bdestr; [|case_match; apply Hgo; (done || lia)]. subst tag.
  destruct (case_userInformation_total (ae_self s) bufPos p l (ae_userInfoValid s)) as [Hlv|(n & v & c & -> & Hv2 & Hn)]; try done; try lia; [by left|].
  cbn [mbind option_bind]. btest; [by right|]. apply Hgo; (done || lia).
Qed.

Lemma aare_total fuel : forall s bufPos, 0 <= bufPos <= limit -> limit - bufPos < Z.of_nat fuel -> aare_inv s ->
  acse_result (aare_leaves (s, bufPos)) (aare_loop fuel uninit front s buffer bufPos limit).
Proof.
  induction fuel as [|fuel IH]; intros s bufPos Hp Hf Hv; [lia|]. cbn [aare_loop].
  destruct (aare_turn_total s bufPos Hp Hv) as [Hl|Hr]; [left; exists (s, bufPos); by split|].
  destruct (aare_turn uninit front buffer limit s bufPos) as [[[s' q]|r]|] eqn:E; [|right; by exists r | done].
  destruct Hr as [Hq Hs']. cbn [mbind option_bind]. destruct (IH s' q) as [(y & Hy & Hly)|Hy]; [lia | lia | done | left | by right].
  exists y. split; [|done]. by eapply rtc_l.
Qed.

Lemma decodeOID_loop_total n : forall pos arc k, 0 <= pos -> pos + Z.of_nat n <= zlen buffer -> 0 <= k -> zlen arc = 10 ->
  is_Some (decodeOID_loop n buffer pos arc k).
Proof.
  induction n as [|n IH]; intros pos arc k Hp Hf Hk Ha; [by eexists|]. cbn [decodeOID_loop]. btest; [|by eexists].
  destruct (ld_is_Some arc k) as [a ->]; [lia|]. destruct (ld_is_Some buffer pos) as [b ->]; [lia|]. cbn [mbind option_bind].
  case_match; rewrite st_Some by lia; cbn [mbind option_bind]; apply IH; zlia.
Qed.

Lemma decodeOID_total pos n : 0 <= pos -> 0 <= n -> pos + n <= zlen buffer -> is_Some (BerDecoder_decodeOID buffer pos n).
Proof.
  intros Hp Hn Hf. unfold BerDecoder_decodeOID. btest; [|by eexists]. destruct (ld_is_Some buffer pos) as [b ->]; [lia|]. cbn [mbind option_bind].
  edestruct decodeOID_loop_total as [[a k] ->]; [| | | |by eexists]; try lia. by rewrite !zlen_insert.
Qed.

Lemma decodeInt32_loop_total n : forall buf pos v, 0 <= pos -> pos + Z.of_nat n <= zlen buf -> is_Some (decodeInt32_loop n buf pos v).
Proof.
  induction n as [|n IH]; intros buf pos v Hp Hf; [by eexists|]. cbn [decodeInt32_loop].
  destruct (ld_is_Some buf pos) as [b ->]; [lia|]. cbn [mbind option_bind]. apply IH; lia.
Qed.

Lemma case_apTitle_total self bufPos len :
  0 <= bufPos -> 0 < len -> bufPos + len <= limit ->
  exists c, case_apTitle self buffer bufPos len = Some c /\ (acse_data_in self -> acse_data_in c).
Proof.
  intros Hp Hl He. unfold case_apTitle. destruct (ld_is_Some buffer bufPos) as [b ->]; [lia|]. cbn [mbind option_bind].
  case_match; [|by exists self]. destruct (ld_is_Some buffer (bufPos + 1)) as [n Hn]; [lia|]. rewrite Hn. cbn [mbind option_bind].
  pose proof (ld_byte _ _ _ Hok Hn) as Hb. unfold is_byte in Hb. case_match; bdestr; [|by exists self].
  destruct (decodeOID_total (bufPos + 2) n) as [o ->]; try lia. by eexists.
Qed.

Lemma case_aeQualifier_total self bufPos len :
  0 <= bufPos -> 0 < len -> bufPos + len <= limit ->
  exists c, case_aeQualifier self buffer bufPos len = Some c /\ (acse_data_in self -> acse_data_in c).
Proof.
  intros Hp Hl He. unfold case_aeQualifier. destruct (ld_is_Some buffer bufPos) as [b ->]; [lia|]. cbn [mbind option_bind].
  case_match; [|by exists self]. destruct (ld_is_Some buffer (bufPos + 1)) as [n Hn]; [lia|]. rewrite Hn. cbn [mbind option_bind].
  pose proof (ld_byte _ _ _ Hok Hn) as Hb. unfold is_byte in Hb. case_match; bdestr; [|by exists self].
  unfold BerDecoder_decodeInt32. assert (zlen (ptr_add buffer 2) = zlen buffer - 2) as Hz by (apply zlen_drop; lia).
  destruct (ld_is_Some (ptr_add buffer 2) bufPos) as [b2 ->]; [lia|]. cbn [mbind option_bind].
  edestruct decodeInt32_loop_total as [v ->]; [| |by eexists]; lia.
Qed.

Definition aarq_inv (s : Aarq) : Prop :=
  (aq_userInfoValid s = true -> acse_data_in (aq_self s)) /\
  (forall m, aq_authMechanism s = Some m -> 0 <= aq_authMechLen s <= zlen m).

Lemma checkAuthentication_total s : aarq_inv s ->
  exists b c, checkAuthentication (aq_self s) (aq_authMechanism s) (aq_authMechLen s) (aq_authValue s) (aq_authValueLen s) = Some (b, c) /\
    (acse_data_in (aq_self s) -> acse_data_in c).
Proof.
  intros [_ Hm]. unfold checkAuthentication. cbn [ac_authenticator with_securityToken]. destruct (ac_authenticator (aq_self s)) as [auth|]; [|by do 2 eexists].
  assert (is_Some (checkAuthMechanismName (aq_authMechanism s) (aq_authMechLen s))) as [mech ->].
  { unfold checkAuthMechanismName. destruct (aq_authMechanism s) as [m|]; [|by eexists]. case_match; bdestr; [|by eexists].
    specialize (Hm m eq_refl). destruct (same_bytes_total m 0 auth_mech_password_oid) as [b ->]; [lia | change (zlen auth_mech_password_oid) with 3; lia | by eexists]. }
  cbn [mbind option_bind]. unfold authenticateClient. repeat case_match; (do 2 eexists; split; [done|]); done.
Qed.

Lemma aarq_turn_total s bufPos : 0 <= bufPos <= limit -> aarq_inv s ->
  turn_result (element_leaves (aq_self s) bufPos) aarq_inv bufPos (aarq_turn uninit front buffer limit s bufPos).
Proof.
  intros Hp Hs. pose proof Hs as [Hv Hm]. unfold aarq_turn. btest.
  2: { destruct (checkAuthentication_total s Hs) as (b & c & -> & Hc). cbn [mbind option_bind]. right. intros Hi. cbn in *. apply Hc, Hv.
       destruct b, (aq_userInfoValid s); done. }
  destruct (element_total buffer uninit bufPos limit Hok ltac:(lia) ltac:(lia) ltac:(lia)) as (tag & p & l & Htag & _ & Hdec & Hr).
  rewrite Htag. cbn [mbind option_bind]. rewrite Hdec. cbn [mbind option_bind]. btest; [by right|].
  assert (forall s' q, p <= q <= limit -> aarq_inv s' ->
    turn_result (element_leaves (aq_self s) bufPos) aarq_inv bufPos (Some (inl (s', q)))) as Hgo by (intros; right; split; (done || lia)).
  case_match; bdestr; [apply Hgo; (done || lia)|]. if_false. case_match; [apply Hgo; (done || lia)|]. case_match.
  { destruct (case_apTitle_total (aq_self s) p l) as (c & -> & Hc); try lia. cbn [mbind option_bind]. apply Hgo; [lia | split; cbn; auto]. }
  case_match.
  { destruct (case_aeQualifier_total (aq_self s) p l) as (c & -> & Hc); try lia. cbn [mbind option_bind]. apply Hgo; [lia | split; cbn; auto]. }
  case_match; [apply Hgo; (done || lia)|]. case_match.
  { apply Hgo; [lia | split; [done|]]. cbn. intros m [= <-]. unfold ptr_add. rewrite zlen_drop by lia. lia. }
  case_match.
  { destruct (decodeLength_total buffer limit Hok ltac:(lia) Hsmall l (p + 1)) as ([p2 l2] & -> & Hr2); [lia|].
    unfold length_result in Hr2. cbn [fst snd] in Hr2. cbn [mbind option_bind]. btest; [by right|]. apply Hgo; (done || lia). }
  case_match; bdestr; [|case_match; apply Hgo; (done || lia)]. subst tag.
  destruct (case_userInformation_total (aq_self s) bufPos p l (aq_userInfoValid s)) as [Hlv|(n & v & c & -> & Hv2 & Hn)]; try done; try lia; [by left|].
  cbn [mbind option_bind]. btest; [by right|]. apply Hgo; [lia | by split].
Qed.

Lemma aarq_total fuel : forall s bufPos, 0 <= bufPos <= limit -> limit - bufPos < Z.of_nat fuel -> aarq_inv s ->
  acse_result (aarq_leaves (s, bufPos)) (aarq_loop fuel uninit front s buffer bufPos limit).
Proof.
  induction fuel as [|fuel IH]; intros s bufPos Hp Hf Hv; [lia|]. cbn [aarq_loop].
  destruct (aarq_turn_total s bufPos Hp Hv) as [Hl|Hr]; [left; exists (s, bufPos); by split|].
  destruct (aarq_turn uninit front buffer limit s bufPos) as [[[s' q]|r]|] eqn:E; [|right; by exists r | done].
  destruct Hr as [Hq Hs']. cbn [mbind option_bind]. destruct (IH s' q) as [(y & Hy & Hly)|Hy]; [lia | lia | done | left | by right].
  exists y. split; [|done]. by eapply rtc_l.
Qed.
(** ** The exception is real: where nothing can be read in front of the buffer, such a
    message has no result. *)

(** What is read in front of the buffer matters only where it is read. *)
Lemma userInformation_turn_front maxBufPos s r :
  userInformation_turn uninit None buffer maxBufPos s = Some r -> userInformation_turn uninit front buffer maxBufPos s = Some r.
Proof. unfold userInformation_turn. case_match; [|done]. by case_match. Qed.

Lemma userInformation_loop_front fuel : forall maxBufPos s r,
  userInformation_loop fuel uninit None buffer maxBufPos s = Some r -> userInformation_loop fuel uninit front buffer maxBufPos s = Some r.
Proof.
  induction fuel as [|fuel IH]; intros maxBufPos s r; [done|]. cbn [userInformation_loop].
  destruct (userInformation_turn uninit None buffer maxBufPos s) as [x|] eqn:E; [|done]. rewrite (userInformation_turn_front _ _ _ E).
  cbn [mbind option_bind]. destruct x; [apply IH | done].
Qed.

Lemma case_userInformation_front self len bufPos valid r :
  case_userInformation uninit None self buffer len bufPos limit valid = Some r ->
  case_userInformation uninit front self buffer len bufPos limit valid = Some r.
Proof.
  unfold case_userInformation. destruct (ld buffer bufPos); [|done]. cbn [mbind option_bind]. case_match; [done|].
  destruct (BerDecoder_decodeLength buffer len (bufPos + 1) limit) as [[q n]|]; [|done]. cbn [mbind option_bind]. case_match; [done|].
  apply userInformation_loop_front.
Qed.

Ltac front_step :=
  match goal with
  | |- context [case_userInformation uninit None ?self buffer ?len ?pos limit ?v] =>
      let E := fresh in destruct (case_userInformation uninit None self buffer len pos limit v) eqn:E; [|done];
      rewrite (case_userInformation_front _ _ _ _ _ E)
  | |- context [if ?b then _ else _] => destruct b; try done
  | |- context [ld buffer ?p] => destruct (ld buffer p); [|done]
  | |- context [BerDecoder_decodeLength buffer ?u ?p limit] => destruct (BerDecoder_decodeLength buffer u p limit) as [[??]|]; [|done]
  end; cbn [mbind option_bind].

Lemma aarq_turn_front s bufPos r :
  aarq_turn uninit None buffer limit s bufPos = Some r -> aarq_turn uninit front buffer limit s bufPos = Some r.
Proof. unfold aarq_turn. by repeat front_step. Qed.

Lemma aare_turn_front s bufPos r :
  aare_turn uninit None buffer limit s bufPos = Some r -> aare_turn uninit front buffer limit s bufPos = Some r.
Proof. unfold aare_turn. by repeat front_step. Qed.

Lemma leaves_undefined maxBufPos s fuel : 0 <= maxBufPos -> leaves maxBufPos s -> userInformation_loop fuel uninit None buffer maxBufPos s = None.
Proof.
  intros Hm (s' & Hr & Hn). revert fuel. induction Hr as [s|x y z Hxy _ IH]; intros [|fuel]; try done; cbn [userInformation_loop].
  - unfold userInformation_turn. rewrite Hn. by if_true.
  - destruct (userInformation_turn uninit None buffer maxBufPos x) as [r|] eqn:E; [|done].
    apply userInformation_turn_front in E. unfold turns in Hxy. rewrite Hxy in E. injection E as <-. by apply IH.
Qed.

Lemma element_leaves_undefined self bufPos : 0 <= limit -> element_leaves self bufPos ->
  exists p len, bufPos < limit /\ ld buffer bufPos = Some 0xbe /\ BerDecoder_decodeLength buffer uninit (bufPos + 1) limit = Some (p, len) /\
    0 <= p /\ len <> 0 /\ p + len <= limit /\ forall valid, case_userInformation uninit None self buffer len p limit valid = None.
Proof.
  intros H0 (p & len & q & n & Hb & Htag & Hdec & Hp & Hl & He & H28 & Hdec2 & Hq & Hlv). exists p, len. split_and!; try done.
  intros valid. unfold case_userInformation. rewrite H28. cbn [mbind option_bind negb Z.eqb Pos.eqb]. rewrite Hdec2. cbn [mbind option_bind]. if_false.
  destruct (decodeLength_total buffer limit Hok ltac:(lia) Hsmall len (p + 1)) as (r & Hdec3 & Hr); [lia|]. rewrite Hdec2 in Hdec3. injection Hdec3 as <-.
  unfold length_result in Hr. cbn [fst snd] in Hr. apply leaves_undefined; [lia | done].
Qed.

Lemma aarq_leaves_undefined x fuel : 0 <= limit -> aarq_leaves x -> aarq_loop fuel uninit None x.1 buffer x.2 limit = None.
Proof.
  intros H0 (y & Hr & Hl). revert fuel. induction Hr as [x|x y z Hxy _ IH]; intros [|fuel]; try done; cbn [aarq_loop].
  - apply element_leaves_undefined in Hl as (p & len & Hb & Htag & Hdec & Hp & Hlen & He & Hc); [|done]. unfold aarq_turn. if_true.
    rewrite Htag. cbn [mbind option_bind]. rewrite Hdec. cbn [mbind option_bind]. do 3 if_false. cbn [Z.eqb Pos.eqb orb]. by rewrite Hc.
  - destruct (aarq_turn uninit None buffer limit x.1 x.2) as [r|] eqn:E; [|done]. apply aarq_turn_front in E. unfold aarq_next in Hxy.
    rewrite Hxy in E. injection E as <-. specialize (IH Hl fuel). by destruct y.
Qed.

Lemma aare_leaves_undefined x fuel : 0 <= limit -> aare_leaves x -> aare_loop fuel uninit None x.1 buffer x.2 limit = None.
Proof.
  intros H0 (y & Hr & Hl). revert fuel. induction Hr as [x|x y z Hxy _ IH]; intros [|fuel]; try done; cbn [aare_loop].
  - apply element_leaves_undefined in Hl as (p & len & Hb & Htag & Hdec & Hp & Hlen & He & Hc); [|done]. unfold aare_turn. if_true.
    rewrite Htag. cbn [mbind option_bind]. rewrite Hdec. cbn [mbind option_bind]. do 3 if_false. cbn [Z.eqb Pos.eqb orb]. by rewrite Hc.
  - destruct (aare_turn uninit None buffer limit x.1 x.2) as [r|] eqn:E; [|done]. apply aare_turn_front in E. unfold aare_next in Hxy.
    rewrite Hxy in E. injection E as <-. specialize (IH Hl fuel). by destruct y.
Qed.
End Safety.

(** Parsing is total on any bytes, and user data that is accepted lies in the
    message, unless the loop over the user information runs into a length that it
    cannot decode and takes for zero. *)
Lemma parseMessage_acse_total uninit front self message :
  byteBuffer_ok message -> bytes_ok (bb_buffer message) -> bb_size message + 2 <= zlen (bb_buffer message) -> bb_size message < 4194304 ->
  acse_result (bb_buffer message) (bb_size message) (message_leaves (bb_buffer message) (bb_size message) uninit front self)
    (AcseConnection_parseMessage uninit front self message).
Proof.
  intros [Hm _] Hb Hz Hs. unfold AcseConnection_parseMessage. btest; [right; by eexists|].
  destruct (ld_is_Some (bb_buffer message) 0) as [t Ht]; [lia|]. rewrite Ht. cbn [mbind option_bind].
  destruct (decodeLength_total (bb_buffer message) (bb_size message) Hb ltac:(lia) Hs uninit 1) as ([p l] & Hd & Hr); [lia|].
  rewrite Hd. unfold length_result in Hr. cbn [fst snd] in Hr. cbn [mbind option_bind]. btest; [right; by eexists|].
  assert (aarq_inv (bb_buffer message) (bb_size message) (mkAarq self None 0 None 0 false)) as Hi by done.
  case_match; bdestr; [subst t|case_match; bdestr; [subst t|repeat (case_match; [right; by eexists|]); right; by eexists]].
  - edestruct (aarq_total (bb_buffer message) (bb_size message) uninit front) as [Hlv|Hok]; [| | | | | | |by right]; try done; try lia.
    left. exists p, l. split_and!; (done || lia || by left).
  - edestruct (aare_total (bb_buffer message) (bb_size message) uninit front) as [Hlv|Hok]; [| | | | | | |by right]; try done; try lia.
    left. exists p, l. split_and!; (done || lia || by right).
Qed.

(** In such a message, the parser reads the byte in front of the buffer. *)
Lemma message_leaves_undefined uninit front self message :
  byteBuffer_ok message -> bytes_ok (bb_buffer message) -> bb_size message + 2 <= zlen (bb_buffer message) -> bb_size message < 4194304 ->
  message_leaves (bb_buffer message) (bb_size message) uninit front self ->
  AcseConnection_parseMessage uninit None self message = None.
Proof.
  intros [Hm _] Hb Hz Hs (p & l & Hd & Hp & Hcase). unfold AcseConnection_parseMessage.
  destruct (decodeLength_total (bb_buffer message) (bb_size message) Hb ltac:(lia) Hs uninit 1) as (r & Hd' & Hr); [lia|].
  rewrite Hd in Hd'. injection Hd' as <-. unfold length_result in Hr. cbn [fst snd] in Hr. if_false.
  destruct Hcase as [[-> Hl]|[-> Hl]]; cbn [mbind option_bind]; rewrite Hd; cbn [mbind option_bind Z.eqb Pos.eqb]; if_false.
  - by apply (aarq_leaves_undefined (bb_buffer message) (bb_size message) uninit front Hb Hz Hs _ _ (proj1 Hm) Hl).
  - by apply (aare_leaves_undefined (bb_buffer message) (bb_size message) uninit front Hb Hz Hs _ _ (proj1 Hm) Hl).
Qed.

(** * What the library writes *)

Definition user_information (reference payload : list Z) : list Z :=
  ber_tlv 0xbe (ber_tlv 0x28 (ber_tlv 0x02 reference ++ ber_tlv 0xa0 payload)).

Definition context_name : list Z := ber_tlv 0xa1 (ber_tlv 0x06 appContextNameMms).

Definition aare_bytes (result reference : Z) (payload : list Z) : list Z :=
  ber_tlv 0x61 (context_name ++ ber_tlv 0xa2 (ber_tlv 0x02 [result]) ++ ber_tlv 0xa3 (ber_tlv 0xa1 (ber_tlv 0x02 [0])) ++
    user_information (ber_uint32 reference) payload).

(** the title and qualifier of one side, if it has a title *)
Definition ap_title (side : IsoAddress) : list Z := take (Z.to_nat (ia_apTitleLen side)) (ia_apTitle side).

Definition address_bytes (titleTag qualifierTag : Z) (side : IsoAddress) : list Z :=
  if 0 <? ia_apTitleLen side then
    ber_tlv titleTag (ber_tlv 0x06 (ap_title side)) ++ ber_tlv qualifierTag (ber_tlv 0x02 (ber_uint32 (u32 (ia_aeQualifier side))))
  else [].

Definition address_ok (side : IsoAddress) : Prop :=
  zlen (ia_apTitle side) = 10 /\ bytes_ok (ia_apTitle side) /\ 0 <= ia_apTitleLen side <= 10 /\ is_s32 (ia_aeQualifier side).

Definition password_bytes (password : list Z) : list Z :=
  ber_tlv 0x8a [0x04; 0x80] ++ ber_tlv 0x8b auth_mech_password_oid ++ ber_tlv 0xac (ber_tlv 0x80 password).

Definition aarq_bytes (p : IsoConnectionParameters) (password : option (list Z)) (payload : list Z) : list Z :=
  ber_tlv 0x60 (context_name ++ address_bytes 0xa2 0xa3 (ip_remote p) ++ address_bytes 0xa6 0xa7 (ip_local p) ++
    from_option password_bytes [] password ++ user_information [3] payload).

(** ** The messages as runs of stores *)

Lemma app_context_puts buffer pos : app_context buffer pos = puts context_name buffer pos.
Proof.
  change context_name with ((0xa1 :: ber_length 7) ++ (0x06 :: ber_length 5) ++ appContextNameMms). unfold app_context.
  do 2 write_step. done.
Qed.

Lemma zlen_ap_title side : address_ok side -> zlen (ap_title side) = ia_apTitleLen side.
Proof. intros (? & _ & ? & _). apply zlen_take. lia. Qed.

Lemma tlv_header tag content : ber_tlv tag content = (tag :: ber_length (zlen content)) ++ content.
Proof. done. Qed.

Lemma qualifier_length_spec side : address_ok side ->
  qualifier_length side = Some (if 0 <? ia_apTitleLen side then zlen (ber_uint32 (u32 (ia_aeQualifier side))) else 0).
Proof. intros _. unfold qualifier_length. case_match; [|done]. by rewrite UInt32determineEncodedSize_spec. Qed.

Lemma zlen_tlv_short tag content : zlen content < 128 -> zlen (ber_tlv tag content) = 2 + zlen content.
Proof. intros. pose proof (zlen_nonneg content). rewrite zlen_ber_tlv, zlen_ber_length_short by lia. lia. Qed.

Lemma address_size_spec titleTag qualifierTag side n : address_ok side -> qualifier_length side = Some n ->
  address_size side n = zlen (address_bytes titleTag qualifierTag side) /\ 0 <= zlen (address_bytes titleTag qualifierTag side) <= 23.
Proof.
  intros Hs Hn. rewrite qualifier_length_spec in Hn by done. pose proof (zlen_ap_title _ Hs) as Hz. destruct Hs as (_ & _ & Hl & _).
  pose proof (zlen_ber_uint32 (u32 (ia_aeQualifier side))). unfold address_size, address_bytes. case_match; [|done].
  injection Hn as <-. rewrite zlen_app, !zlen_tlv_short by (rewrite ?zlen_tlv_short; lia). lia.
Qed.

Lemma encode_address_puts titleTag qualifierTag side n buffer pos : address_ok side -> qualifier_length side = Some n ->
  encode_address titleTag qualifierTag side n buffer pos = puts (address_bytes titleTag qualifierTag side) buffer pos.
Proof.
  intros Hs Hn. rewrite qualifier_length_spec in Hn by done. pose proof (zlen_ap_title _ Hs) as Hz. destruct Hs as (Ht & _ & Hl & _).
  pose proof (zlen_ber_uint32 (u32 (ia_aeQualifier side))). unfold encode_address, address_bytes. case_match; [|done]. injection Hn as <-.
  rewrite (tlv_header titleTag), (tlv_header qualifierTag), (zlen_tlv_short 6), (zlen_tlv_short 2) by lia.
  rewrite (tlv_header 6), (tlv_header 2), Hz, <- !app_assoc. rewrite !(Z.add_comm _ 2).
  do 2 write_step. rewrite ld_range_Some by lia. cbn [mbind option_bind]. change (drop (Z.to_nat 0) (ia_apTitle side)) with (ia_apTitle side).
  do 3 write_step. by rewrite encodeUInt32_puts.
Qed.

(** an authentication parameter with its password *)
Definition auth_ok (a : option AcseAuthenticationParameter) (password : option (list Z)) : Prop :=
  match a, password with
  | None, None => True
  | Some a, Some pw =>
      aa_mechanism a = ACSE_AUTH_PASSWORD /\ aa_passwordLength a = zlen pw /\ zlen pw <= 1000 /\
      exists rest, aa_octetString a = Some (pw ++ rest)
  | _, _ => False
  end.

Lemma zlen_tlv_mid tag content : zlen content < 65535 -> zlen (ber_tlv tag content) = 1 + BerEncoder_determineLengthSize (zlen content) + zlen content.
Proof. intros. pose proof (zlen_nonneg content). by rewrite zlen_ber_tlv, zlen_ber_length by lia. Qed.

Lemma authentication_size_spec a password : auth_ok a password ->
  authentication_size a = zlen (from_option password_bytes [] password) /\ 0 <= zlen (from_option password_bytes [] password) <= 1020.
Proof.
  destruct a as [a|], password as [pw|]; cbn [auth_ok from_option]; try done.
  intros (Hm & Hl & Hs & _). pose proof (zlen_nonneg pw). pose proof (determineLengthSize_bounds (zlen pw)).
  unfold authentication_size. rewrite Hm, Hl. unfold password_bytes. rewrite !zlen_app.
  rewrite (zlen_tlv_mid 0xac) by (rewrite zlen_tlv_mid; lia). rewrite (zlen_tlv_mid 0x80) by lia.
  change (zlen (ber_tlv 0x8a [0x04; 0x80])) with 4. change (zlen (ber_tlv 0x8b auth_mech_password_oid)) with 5.
  replace (zlen pw + BerEncoder_determineLengthSize (zlen pw) + 1) with (1 + BerEncoder_determineLengthSize (zlen pw) + zlen pw) by lia.
  pose proof (determineLengthSize_bounds (1 + BerEncoder_determineLengthSize (zlen pw) + zlen pw)). lia.
Qed.

Lemma encode_authentication_puts a password buffer pos : auth_ok a password ->
  encode_authentication a buffer pos = puts (from_option password_bytes [] password) buffer pos.
Proof.
  destruct a as [a|], password as [pw|]; cbn [auth_ok from_option]; try done.
  intros (Hm & Hl & Hs & rest & Ho). pose proof (zlen_nonneg pw). pose proof (determineLengthSize_bounds (zlen pw)).
  unfold encode_authentication, password_bytes. rewrite Hm, Hl, Ho.
  change (ber_tlv 0x8a [0x04; 0x80]) with ((0x8a :: ber_length 2) ++ [0x04] ++ requirements_authentication).
  change (ber_tlv 0x8b auth_mech_password_oid) with ((0x8b :: ber_length 3) ++ auth_mech_password_oid).
  rewrite (tlv_header 0xac), (zlen_tlv_mid 0x80), (tlv_header 0x80) by lia. rewrite <- !app_assoc.
  replace (BerEncoder_determineLengthSize (zlen pw) + zlen pw + 1) with (1 + BerEncoder_determineLengthSize (zlen pw) + zlen pw) by lia.
  do 7 write_step. cbn [mbind option_bind]. pose proof (zlen_nonneg rest). rewrite ld_range_Some by zlia. cbn [mbind option_bind].
  by rewrite zlen_to_nat, drop_0, take_app_length.
Qed.

(** the user information, in front of the payload *)
Definition user_information_header (reference : list Z) (payload : BufferChain) : list Z :=
  let assoc := bc_length payload + 1 + BerEncoder_determineLengthSize (bc_length payload) + zlen reference + 2 in
  (0xbe :: ber_length (assoc + BerEncoder_determineLengthSize assoc + 1)) ++ (0x28 :: ber_length assoc) ++
  (0x02 :: ber_length (zlen reference)) ++ reference ++ (0xa0 :: ber_length (bc_length payload)).

Lemma user_information_spec reference payload :
  chain_ok payload -> bc_length payload <= 60000 -> 1 <= zlen reference <= 5 ->
  let assoc := bc_length payload + 1 + BerEncoder_determineLengthSize (bc_length payload) + zlen reference + 2 in
  let info := assoc + BerEncoder_determineLengthSize assoc + 1 in
  user_information_header reference payload ++ chain_bytes payload = user_information reference (chain_bytes payload) /\
  zlen (user_information reference (chain_bytes payload)) = info + BerEncoder_determineLengthSize info + 1 /\
  info + BerEncoder_determineLengthSize info + 1 <= bc_length payload + 30.
Proof.
  intros Hp Hm Hr assoc info. destruct (chain_ok_length _ Hp) as [Hl Hpos]. pose proof (determineLengthSize_bounds (bc_length payload)).
  pose proof (determineLengthSize_bounds assoc). pose proof (determineLengthSize_bounds info).
  assert (zlen (ber_tlv 0x02 reference ++ ber_tlv 0xa0 (chain_bytes payload)) = assoc) as Ha1.
  { rewrite zlen_app, zlen_tlv_short, zlen_tlv_mid by lia. unfold assoc. rewrite <- Hl. lia. }
  assert (zlen (ber_tlv 0x28 (ber_tlv 0x02 reference ++ ber_tlv 0xa0 (chain_bytes payload))) = info) as Ha2.
  { rewrite zlen_tlv_mid, Ha1 by (unfold assoc in *; lia). unfold info. lia. }
  split_and!.
  - unfold user_information, user_information_header. fold assoc. fold info. unfold ber_tlv at 1. rewrite Ha2. unfold ber_tlv at 1. rewrite Ha1.
    unfold ber_tlv. rewrite <- Hl. by repeat (cbn [app]; rewrite <- ?app_assoc).
  - unfold user_information. rewrite zlen_tlv_mid, Ha2 by (unfold info, assoc in *; lia). lia.
  - unfold info, assoc in *. lia.
Qed.

Lemma createAssociateResponse_spec self result buf mx payload :
  chain_ok payload -> bc_length payload <= 60000 -> 70 <= zlen buf ->
  makes (AcseConnection_createAssociateResponseMessage self result buf mx (Some payload)) buf
    (aare_bytes result (u32 (ac_nextReference self)) (chain_bytes payload)).
Proof.
  intros Hp Hm Hb. set (reference := u32 (ac_nextReference self)). pose proof (zlen_ber_uint32 reference) as Hr.
  destruct (user_information_spec (ber_uint32 reference) payload Hp Hm Hr) as (H1 & H2 & H3). destruct (chain_ok_length _ Hp) as [Hl Hpos].
  unfold AcseConnection_createAssociateResponseMessage. cbn [mbind option_bind]. fold reference. rewrite UInt32determineEncodedSize_spec. cbn [mbind option_bind].
  set (assoc := bc_length payload + 1 + _ + _ + 2) in *. set (info := assoc + _ + 1) in *. set (u := info + _ + 1) in *.
  set (fixed := context_name ++ ber_tlv 0xa2 (ber_tlv 0x02 [result]) ++ ber_tlv 0xa3 (ber_tlv 0xa1 (ber_tlv 0x02 [0]))).
  set (content := fixed ++ user_information (ber_uint32 reference) (chain_bytes payload)).
  assert (aare_bytes result reference (chain_bytes payload) = ber_tlv 0x61 content) as -> by (unfold aare_bytes, content, fixed; by rewrite <- !app_assoc).
  assert (zlen content = 21 + u) as Hc by (unfold content; rewrite zlen_app, H2; change (zlen fixed) with 21; lia).
  pose proof (zlen_ber_length_bounds (21 + u)). pose proof (zlen_nonneg (user_information_header (ber_uint32 reference) payload)).
  eapply (finish_part_spec _ ((0x61 :: ber_length (21 + u)) ++ fixed ++ user_information_header (ber_uint32 reference) payload)).
  - intros buffer pos. replace (9 + 5 + 5 + _) with (21 + u) by lia. write_step.
    change fixed with (context_name ++ (0xa2 :: ber_length 3) ++ (2 :: ber_length 1) ++ [result] ++ (0xa3 :: ber_length 5) ++ (0xa1 :: ber_length 3) ++ (2 :: ber_length 1) ++ [0]).
    unfold user_information_header. cbn zeta. fold assoc. fold info. rewrite <- !app_assoc. rewrite app_context_puts. do 10 write_step.
    write_step. rewrite encodeUInt32_puts. write_step. by rewrite encodeTL_puts.
  - rewrite tlv_header, Hc. unfold content. rewrite <- H1. by rewrite <- !app_assoc.
  - rewrite !zlen_app, !zlen_cons. change (zlen fixed) with 21.
    apply (f_equal zlen) in H1. rewrite zlen_app, H2 in H1. pose proof (zlen_nonneg (ber_length (21 + u))). lia.
  - done.
Qed.

(** the content of a request, with the bytes of the authentication *)
Definition aarq_content (p : IsoConnectionParameters) (authentication payload : list Z) : list Z :=
  context_name ++ address_bytes 0xa2 0xa3 (ip_remote p) ++ address_bytes 0xa6 0xa7 (ip_local p) ++ authentication ++ user_information [3] payload.

(** The length of a request is that of its content, if the size of the authentication
    is counted right. *)
Lemma createAssociateRequest_gen p buf mx payload a ab :
  chain_ok payload -> bc_length payload <= 60000 -> address_ok (ip_remote p) -> address_ok (ip_local p) ->
  (forall buffer pos, encode_authentication a buffer pos = puts ab buffer pos) -> 0 <= zlen ab <= 1020 -> 1200 <= zlen buf ->
  let content := aarq_content p ab (chain_bytes payload) in
  zlen content <= 62000 /\
  makes (AcseConnection_createAssociateRequestMessage p buf mx payload a) buf
    ((0x60 :: ber_length (zlen content + authentication_size a - zlen ab)) ++ content).
Proof.
  intros Hp Hm Hrem Hloc Ha Hab Hb content. destruct (user_information_spec [3] payload Hp Hm ltac:(by split)) as (H1 & H2 & H3).
  destruct (chain_ok_length _ Hp) as [Hl Hpos]. unfold AcseConnection_createAssociateRequestMessage.
  pose proof (qualifier_length_spec _ Hrem) as Hq1. pose proof (qualifier_length_spec _ Hloc) as Hq2.
  rewrite Hq1. cbn [mbind option_bind]. rewrite Hq2. cbn [mbind option_bind].
  destruct (address_size_spec 0xa2 0xa3 _ _ Hrem Hq1) as [Hs1 Hb1]. destruct (address_size_spec 0xa6 0xa7 _ _ Hloc Hq2) as [Hs2 Hb2].
  rewrite Hs1, Hs2. change (zlen [3]) with 1 in *.
  set (assoc := bc_length payload + 1 + _ + _ + 2) in *. set (info := assoc + _ + 1) in *. set (u := info + _ + 1) in *.
  set (fixed := context_name ++ address_bytes 0xa2 0xa3 (ip_remote p) ++ address_bytes 0xa6 0xa7 (ip_local p) ++ ab).
  assert (content = fixed ++ user_information [3] (chain_bytes payload)) as Hcontent by (unfold content, aarq_content, fixed; by rewrite <- !app_assoc).
  set (n := 9 + _ + _ + _ + u).
  assert (zlen fixed = n - u - authentication_size a + zlen ab) as Hf by (unfold fixed, n; rewrite !zlen_app; change (zlen context_name) with 9; lia).
  assert (zlen content = n - authentication_size a + zlen ab) as Hc by (rewrite Hcontent, zlen_app, H2, Hf; lia).
  split; [rewrite Hc; unfold n; lia|]. rewrite Hc. replace (n - authentication_size a + zlen ab + authentication_size a - zlen ab) with n by lia.
  pose proof (zlen_ber_length_bounds n). pose proof (zlen_nonneg (user_information_header [3] payload)).
  eapply (finish_part_spec _ ((0x60 :: ber_length n) ++ fixed ++ user_information_header [3] payload)).
  - intros buffer pos. write_step. unfold fixed, user_information_header. cbn zeta. change (zlen [3]) with 1. fold assoc. fold info. rewrite <- !app_assoc.
    rewrite app_context_puts. write_step. rewrite encode_address_puts by done. write_step. rewrite encode_address_puts by done. write_step.
    rewrite Ha. write_step. do 4 write_step. by rewrite encodeTL_puts.
  - rewrite Hcontent, <- H1. by rewrite <- !app_assoc.
  - rewrite !zlen_app, !zlen_cons, Hf.
    apply (f_equal zlen) in H1. rewrite zlen_app, H2 in H1. pose proof (zlen_nonneg (ber_length n)). unfold n in *. lia.
  - done.
Qed.

Lemma createAssociateRequest_spec p buf mx payload a password :
  chain_ok payload -> bc_length payload <= 60000 -> address_ok (ip_remote p) -> address_ok (ip_local p) -> auth_ok a password -> 1200 <= zlen buf ->
  makes (AcseConnection_createAssociateRequestMessage p buf mx payload a) buf (aarq_bytes p password (chain_bytes payload)).
Proof.
  intros Hp Hm Hrem Hloc Ha Hb. destruct (authentication_size_spec _ _ Ha) as [Has Hab].
  destruct (createAssociateRequest_gen p buf mx payload a (from_option password_bytes [] password)) as (_ & chain & Hc & Hok & Hbytes & Hbuf); try done.
  { intros. by apply encode_authentication_puts. }
  exists chain. split; [done|]. split; [done|]. split; [|done]. rewrite Hbytes, Has. by replace (_ + _ - _) with (zlen (aarq_content p (from_option password_bytes [] password) (chain_bytes payload))) by lia.
Qed.

(** ** Parsing what is written *)

(** The connection after the user information has been read. *)
Definition with_information (self : AcseConnection) (reference : list Z) (data : list Z) (size : Z) : AcseConnection :=
  with_acseUserData (with_nextReference self (u32 (be_val reference))) data size.

Section Written.
Context (buffer : list Z) (uninit : Z) (front : option Z).

Lemma userInformation_at self pos reference payload n :
  1 <= zlen reference <= 5 -> 0 < zlen payload <= 60000 ->
  at_pos buffer pos (ber_tlv 0x02 reference ++ ber_tlv 0xa0 payload) -> n = zlen (ber_tlv 0x02 reference ++ ber_tlv 0xa0 payload) ->
  parseUserInformation uninit front self buffer pos (pos + n)
  = Some (pos + n, true, with_information self reference (ptr_add buffer (pos + n - zlen payload)) (zlen payload)).
Proof.
  intros Hr Hp Hat Hn. pose proof (at_pos_bounds _ _ _ Hat) as [Hpos _]. rewrite zlen_app, zlen_tlv_short, zlen_ber_tlv in Hn by lia.
  pose proof (zlen_ber_length_bounds (zlen payload)). apply at_pos_app in Hat as [Ha Hb]. rewrite zlen_tlv_short in Hb by lia. unfold parseUserInformation.
  assert (exists f, S (Z.to_nat (pos + n - pos)) = S (S (S f))) as [f ->] by (exists (Z.to_nat n - 2)%nat; lia).
  destruct (element_at buffer uninit pos (pos + n) 0x02 reference Ha) as (Ht1 & Hd1 & Hc1); [lia | rewrite zlen_tlv_short; lia|].
  rewrite zlen_ber_length_short in Hd1, Hc1 by lia.
  destruct (element_at buffer uninit (pos + (2 + zlen reference)) (pos + n) 0xa0 payload Hb) as (Ht2 & Hd2 & Hc2); [lia | rewrite zlen_ber_tlv; lia|].
  remember (S (S f)) as g eqn:Hg. cbn [userInformation_loop]. unfold userInformation_turn at 1. cbn [ui_bufPos ui_self ui_isDataValid ui_hasindirectReference].
  if_true. if_false. rewrite Ht1. cbn [mbind option_bind]. rewrite Hd1. cbn [mbind option_bind]. if_false.
  replace ((pos + 1 + 1 <? 0) || (pos + n <? pos + 1 + 1 + zlen reference)) with false by lia. change (2 =? 2) with true. cbv iota.
  rewrite (decodeUint32_spec reference) by done. cbn [mbind option_bind].
  subst g. remember (S f) as g eqn:Hg. cbn [userInformation_loop]. unfold userInformation_turn at 1. cbn [ui_bufPos ui_self ui_isDataValid ui_hasindirectReference].
  replace (pos + 1 + 1 + zlen reference) with (pos + (2 + zlen reference)) by lia. if_true. if_false. rewrite Ht2. cbn [mbind option_bind]. rewrite Hd2. cbn [mbind option_bind]. if_false.
  match goal with |- context [if ?b then _ else _] => replace b with false by lia end. change (160 =? 2) with false. change (160 =? 160) with true. cbv iota. cbn [mbind option_bind].
  subst g. cbn [userInformation_loop]. unfold userInformation_turn. cbn [ui_bufPos ui_self ui_isDataValid ui_hasindirectReference]. if_false. cbn [mbind option_bind andb].
  unfold with_information. do 2 f_equal; [f_equal; lia|]. f_equal. f_equal. lia.
Qed.

Lemma case_userInformation_at self pos reference payload valid limit n :
  1 <= zlen reference <= 5 -> 0 < zlen payload <= 60000 ->
  at_pos buffer pos (ber_tlv 0x28 (ber_tlv 0x02 reference ++ ber_tlv 0xa0 payload)) ->
  n = zlen (ber_tlv 0x28 (ber_tlv 0x02 reference ++ ber_tlv 0xa0 payload)) -> pos + n <= limit ->
  case_userInformation uninit front self buffer n pos limit valid
  = Some (pos + n, true, with_information self reference (ptr_add buffer (pos + n - zlen payload)) (zlen payload)).
Proof.
  intros Hr Hp Hat Hn He. pose proof (at_pos_bounds _ _ _ Hat) as [Hpos _]. set (content := ber_tlv 0x02 reference ++ ber_tlv 0xa0 payload) in *.
  assert (zlen content < 65000) as Hc. { unfold content. rewrite zlen_app, zlen_tlv_short, zlen_ber_tlv by lia. pose proof (zlen_ber_length_bounds (zlen payload)). lia. }
  destruct (element_at buffer n pos limit 0x28 content Hat) as (Ht & Hd & Hat2); [lia | lia|]. rewrite zlen_ber_tlv in Hn. pose proof (zlen_ber_length_bounds (zlen content)).
  unfold case_userInformation. rewrite Ht. cbn [mbind option_bind]. change (negb (0x28 =? 0x28)) with false. cbv iota. rewrite Hd. cbn [mbind option_bind]. if_false.
  rewrite (userInformation_at _ _ reference payload) by done. do 2 f_equal; [f_equal; lia|]. f_equal. f_equal. lia.
Qed.

(** *** The response *)

Ltac acse_turn loop H Hc endPos :=
  let Ha := fresh "Ha" in let Ht := fresh "Ht" in let Hd := fresh "Hd" in
  apply at_pos_app in H as [Ha H];
  match type of Ha with at_pos ?buffer ?pos (ber_tlv ?tag ?content) =>
    pose proof (zlen_ber_length_bounds (zlen content)); pose proof (zlen_nonneg content);
    destruct (element_at buffer uninit pos endPos tag content Ha) as (Ht & Hd & Hc);
      [lia | rewrite zlen_ber_tlv; lia |
       replace (pos + zlen (ber_tlv tag content)) with (pos + 1 + zlen (ber_length (zlen content)) + zlen content) in H by (rewrite zlen_ber_tlv; lia);
       cbn [loop]; try unfold aare_turn at 1; try unfold aarq_turn at 1; cbn [ae_self ae_userInfoValid ae_result];
       if_true; rewrite Ht; cbn [mbind option_bind]; rewrite Hd; cbn [mbind option_bind]; do 3 if_false; cbn [Z.eqb Pos.eqb orb mbind option_bind]] end.

Lemma aare_at self pos result reference payload limit :
  0 <= result < 128 -> 1 <= zlen reference <= 5 -> 0 < zlen payload <= 60000 ->
  at_pos buffer pos (context_name ++ ber_tlv 0xa2 (ber_tlv 0x02 [result]) ++ ber_tlv 0xa3 (ber_tlv 0xa1 (ber_tlv 0x02 [0])) ++ user_information reference payload ++ []) ->
  limit = pos + 21 + zlen (user_information reference payload) ->
  parseAarePdu uninit front self buffer pos limit
  = Some (if result =? 0 then ACSE_ASSOCIATE else ACSE_ASSOCIATE_FAILED,
          with_information self reference (ptr_add buffer (limit - zlen payload)) (zlen payload)).
Proof.
  intros Hres Hr Hp Hat Hlim. pose proof (at_pos_bounds _ _ _ Hat) as [Hpos _]. unfold context_name, user_information in *.
  remember (ber_tlv 6 appContextNameMms) as c1 eqn:H1. assert (zlen c1 = 7) as Hz1 by (by rewrite H1).
  remember (ber_tlv 2 [result]) as c2 eqn:H2. assert (zlen c2 = 3) as Hz2 by (by rewrite H2).
  remember (ber_tlv 161 (ber_tlv 2 [0])) as c3 eqn:H3. assert (zlen c3 = 5) as Hz3 by (by rewrite H3).
  remember (ber_tlv 40 (ber_tlv 2 reference ++ ber_tlv 160 payload)) as c4 eqn:H4.
  assert (0 < zlen c4 < 65000) as Hz4.
  { rewrite H4, (zlen_ber_tlv 40), zlen_app, zlen_tlv_short, zlen_ber_tlv by lia. pose proof (zlen_ber_length_bounds (zlen payload)).
    match goal with |- context [1 + zlen (ber_length ?k) + (2 + _ + _)] => pose proof (zlen_ber_length_bounds k) end. lia. }
  rewrite zlen_ber_tlv in Hlim. pose proof (zlen_ber_length_bounds (zlen c4)).
  unfold parseAarePdu. assert (exists f, S (Z.to_nat (limit - pos)) = S (S (S (S (S f))))) as [f ->] by (exists (Z.to_nat (limit - pos) - 4)%nat; lia).
  remember (S (S (S (S f)))) as g eqn:Hg. acse_turn aare_loop Hat Hc1 limit.
  rewrite Hz1 in *. change (zlen (ber_length 7)) with 1 in *. subst g. remember (S (S (S f))) as g eqn:Hg. acse_turn aare_loop Hat Hc2 limit.
  rewrite Hz2 in *. change (zlen (ber_length 3)) with 1 in *. rewrite H2 in Hc2.
  destruct (element_at buffer 3 (pos + 1 + 1 + 7 + 1 + 1) limit 0x02 [result] Hc2) as (Ht2 & Hd2 & Hc2'); [done | change (zlen (ber_tlv 2 [result])) with 3; lia|].
  rewrite Hd2. cbn [mbind option_bind]. change (zlen (ber_length (zlen [result]))) with 1 in *. change (zlen [result]) with 1. if_false.
  rewrite (decodeUint32_spec [result]) by done. cbn [mbind option_bind].
  replace (pos + 1 + 1 + 7 + 1 + 1 + 1 + 1 + 1) with (pos + 1 + 1 + 7 + 1 + 1 + 3) by lia.
  subst g. remember (S (S f)) as g eqn:Hg. acse_turn aare_loop Hat Hc3 limit. rewrite Hz3 in *. change (zlen (ber_length 5)) with 1 in *.
  subst g. remember (S f) as g eqn:Hg. acse_turn aare_loop Hat Hc4 limit.
  rewrite (case_userInformation_at _ _ reference payload) by (rewrite <- ?H4; done || lia). cbn [mbind option_bind]. if_false. cbn [mbind option_bind].
  subst g. cbn [aare_loop]. unfold aare_turn. cbn [ae_self ae_userInfoValid ae_result]. if_false. cbn [mbind option_bind negb]. replace (u32 (be_val [result])) with result by (unfold be_val, u32; cbn [fold_left]; rewrite Z.mod_small; lia).
  f_equal. f_equal; [by destruct (result =? 0)|]. f_equal. f_equal. lia.
Qed.

(** *** The request *)

Lemma at_pos_drop n pos bs : 0 <= n -> 0 <= pos -> at_pos buffer (pos + n) bs -> at_pos (ptr_add buffer n) pos bs.
Proof.
  intros Hn Hp (pre & post & Hb & Hz). exists (drop (Z.to_nat n) pre), post. unfold ptr_add. rewrite Hb. split; [|rewrite zlen_drop; lia].
  unfold zlen in Hz. rewrite drop_app_le by lia. done.
Qed.

Lemma aarq_skip fuel s pos tag content rest limit :
  tag ∈ [0xa1; 0xa2; 0xa3; 0x8a] -> 0 < zlen content < 65000 -> at_pos buffer pos (ber_tlv tag content ++ rest) -> pos + zlen (ber_tlv tag content) <= limit ->
  aarq_loop (S fuel) uninit front s buffer pos limit = aarq_loop fuel uninit front s buffer (pos + zlen (ber_tlv tag content)) limit.
Proof.
  intros Htag Hc Hat He. pose proof (at_pos_bounds _ _ _ Hat) as [Hpos _]. rewrite zlen_ber_tlv in He. acse_turn aarq_loop Hat Hx limit.
  replace (pos + zlen (ber_tlv tag content)) with (pos + 1 + zlen (ber_length (zlen content)) + zlen content) by (rewrite zlen_ber_tlv; lia).
  rewrite !elem_of_cons, elem_of_nil in Htag. destruct Htag as [->|[->|[->|[->|[]]]]]; done.
Qed.

Lemma aarq_title fuel s pos title rest limit o :
  0 < zlen title <= 10 -> at_pos buffer pos (ber_tlv 0xa6 (ber_tlv 0x06 title) ++ rest) -> pos + zlen (ber_tlv 0xa6 (ber_tlv 0x06 title)) <= limit ->
  BerDecoder_decodeOID buffer (pos + 4) (zlen title) = Some o ->
  aarq_loop (S fuel) uninit front s buffer pos limit
  = aarq_loop fuel uninit front (aq_with s (with_applicationReference (aq_self s) (mkIsoApplicationReference o (ar_aeQualifier (ac_applicationReference (aq_self s))))))
      buffer (pos + zlen (ber_tlv 0xa6 (ber_tlv 0x06 title))) limit.
Proof.
  intros Hc Hat He Ho. pose proof (at_pos_bounds _ _ _ Hat) as [Hpos _].
  assert (zlen (ber_tlv 6 title) = 2 + zlen title) as Hz by (apply zlen_tlv_short; lia).
  assert (zlen (ber_tlv 0xa6 (ber_tlv 0x06 title)) = 4 + zlen title) as Hz2 by (rewrite zlen_tlv_short; lia). rewrite Hz2 in *.
  remember (ber_tlv 6 title) as c eqn:Hcc. assert (zlen (ber_length (zlen c)) = 1) as Hl by (apply zlen_ber_length_short; lia). acse_turn aarq_loop Hat Hx limit.
  rewrite Hl in Hx |- *. rewrite Hcc in Hx. unfold ber_tlv in Hx. rewrite ber_length_short in Hx by lia. cbn [app] in Hx.
  apply at_pos_cons in Hx as [H6 Hx]. apply at_pos_cons in Hx as [Hn Hx].
  unfold case_apTitle. rewrite H6. cbn [mbind option_bind]. change (6 =? 6) with true. cbv iota. rewrite Hn. cbn [mbind option_bind]. rewrite Hz. if_true.
  replace (pos + 1 + 1 + 2) with (pos + 4) by lia. rewrite Ho. cbn [mbind option_bind].
  by replace (pos + 1 + 1 + (2 + zlen title)) with (pos + (4 + zlen title)) by lia.
Qed.

Lemma aarq_qualifier fuel s pos q rest limit :
  is_s32 q -> at_pos buffer pos (ber_tlv 0xa7 (ber_tlv 0x02 (ber_uint32 (u32 q))) ++ rest) -> pos + zlen (ber_tlv 0xa7 (ber_tlv 0x02 (ber_uint32 (u32 q)))) <= limit ->
  aarq_loop (S fuel) uninit front s buffer pos limit
  = aarq_loop fuel uninit front (aq_with s (with_applicationReference (aq_self s) (mkIsoApplicationReference (ar_apTitle (ac_applicationReference (aq_self s))) q)))
      buffer (pos + zlen (ber_tlv 0xa7 (ber_tlv 0x02 (ber_uint32 (u32 q))))) limit.
Proof.
  intros Hq Hat He. pose proof (at_pos_bounds _ _ _ Hat) as [Hpos _]. pose proof (zlen_ber_uint32 (u32 q)) as Hu. pose proof (ber_uint32_ok (u32 q)) as Hub.
  assert (is_u32 (u32 q)) as Hu32 by (unfold is_u32, u32; apply Z.mod_pos_bound; lia). pose proof (sbe_val_uint32 _ Hu32) as Hval.
  assert (s32 (u32 q) = q) as Hs by (rewrite <- (s32_small q Hq) at 2; apply s32_mod; unfold u32; by rewrite Z.mod_mod).
  remember (ber_uint32 (u32 q)) as bs eqn:Hbs.
  assert (zlen (ber_tlv 2 bs) = 2 + zlen bs) as Hz by (apply zlen_tlv_short; lia).
  assert (zlen (ber_tlv 0xa7 (ber_tlv 0x02 bs)) = 4 + zlen bs) as Hz2 by (rewrite zlen_tlv_short; lia). rewrite Hz2 in *.
  remember (ber_tlv 2 bs) as c eqn:Hcc. assert (zlen (ber_length (zlen c)) = 1) as Hl by (apply zlen_ber_length_short; lia). acse_turn aarq_loop Hat Hx limit.
  rewrite Hl in Hx |- *. rewrite Hcc in Hx. unfold ber_tlv in Hx. rewrite ber_length_short in Hx by lia. cbn [app] in Hx.
  apply at_pos_cons in Hx as [H6 Hx]. apply at_pos_cons in Hx as [Hn Hx].
  unfold case_aeQualifier. rewrite H6. cbn [mbind option_bind]. change (2 =? 2) with true. cbv iota. rewrite Hn. cbn [mbind option_bind]. rewrite Hz. if_true.
  destruct bs as [|b bs]; [rewrite (@zlen_nil Z) in Hu; lia|]. rewrite (decodeInt32_spec b bs); [|done| |done].
  - cbn [mbind option_bind]. rewrite Hval, Hs. by replace (pos + 1 + 1 + (2 + zlen (b :: bs))) with (pos + (4 + zlen (b :: bs))) by lia.
  - apply at_pos_drop; [lia | lia|]. by replace (pos + 1 + 1 + 2) with (pos + 1 + 1 + 1 + 1) by lia.
Qed.

Lemma aarq_password fuel s pos password rest limit :
  0 < zlen password <= 1000 -> at_pos buffer pos (password_bytes password ++ rest) -> pos + zlen (password_bytes password) <= limit ->
  aarq_loop (S (S (S fuel))) uninit front s buffer pos limit
  = aarq_loop fuel uninit front
      (mkAarq (aq_self s) (Some (ptr_add buffer (pos + zlen (password_bytes password) - zlen password))) (zlen password)
         (Some (ptr_add buffer (pos + 6))) 3 (aq_userInfoValid s))
      buffer (pos + zlen (password_bytes password)) limit.
Proof.
  intros Hpw Hat He. pose proof (at_pos_bounds _ _ _ Hat) as [Hpos _]. unfold password_bytes in *. rewrite <- !app_assoc in Hat. rewrite !zlen_app in *.
  change (zlen (ber_tlv 0x8a [4; 0x80])) with 4 in *. change (zlen (ber_tlv 0x8b auth_mech_password_oid)) with 5 in *.
  remember (ber_tlv 0x80 password) as c eqn:Hcc. pose proof (zlen_ber_length_bounds (zlen password)) as Hlp.
  assert (zlen c = 1 + zlen (ber_length (zlen password)) + zlen password) as Hc by (by rewrite Hcc, zlen_ber_tlv).
  pose proof (zlen_ber_length_bounds (zlen c)) as Hlc. rewrite zlen_ber_tlv in *.
  erewrite aarq_skip; [|by rewrite !elem_of_cons; auto | | exact Hat | change (zlen (ber_tlv 0x8a [4; 0x80])) with 4; lia]; [|done].
  apply at_pos_app in Hat as [_ Hat]. change (zlen (ber_tlv 0x8a [4; 0x80])) with 4 in *.
  remember auth_mech_password_oid as m eqn:Hm. assert (zlen m = 3) as Hm3 by (by rewrite Hm).
  remember (S fuel) as g eqn:Hg. acse_turn aarq_loop Hat Hc2 limit. rewrite Hm3 in *. change (zlen (ber_length 3)) with 1 in *.
  subst g. acse_turn aarq_loop Hat Hc3 limit. rewrite Hcc in Hc3.
  destruct (element_at buffer (zlen c) _ limit 0x80 password Hc3) as (Ht4 & Hd4 & Hc4); [lia | rewrite zlen_ber_tlv, <- Hc; lia|].
  rewrite <- Hcc in *. rewrite Hd4. cbn [mbind option_bind]. if_false. cbn [mbind option_bind]. cbn [aq_self aq_authValue aq_authValueLen aq_authMechanism aq_authMechLen aq_userInfoValid].
  f_equal; [f_equal; do 2 f_equal; lia | lia].
Qed.

Lemma aarq_information fuel s pos reference payload rest limit :
  1 <= zlen reference <= 5 -> 0 < zlen payload <= 60000 ->
  at_pos buffer pos (user_information reference payload ++ rest) -> pos + zlen (user_information reference payload) <= limit ->
  aarq_loop (S fuel) uninit front s buffer pos limit
  = aarq_loop fuel uninit front
      (mkAarq (with_information (aq_self s) reference (ptr_add buffer (pos + zlen (user_information reference payload) - zlen payload)) (zlen payload))
        (aq_authValue s) (aq_authValueLen s) (aq_authMechanism s) (aq_authMechLen s) true)
      buffer (pos + zlen (user_information reference payload)) limit.
Proof.
  intros Hr Hp Hat He. pose proof (at_pos_bounds _ _ _ Hat) as [Hpos _]. unfold user_information in *.
  remember (ber_tlv 40 (ber_tlv 2 reference ++ ber_tlv 160 payload)) as c eqn:Hcc.
  assert (0 < zlen c < 65000) as Hz.
  { rewrite Hcc, (zlen_ber_tlv 40), zlen_app, zlen_tlv_short, zlen_ber_tlv by lia. pose proof (zlen_ber_length_bounds (zlen payload)).
    match goal with |- context [1 + zlen (ber_length ?k) + (2 + _ + _)] => pose proof (zlen_ber_length_bounds k) end. lia. }
  rewrite zlen_ber_tlv in *. acse_turn aarq_loop Hat Hx limit.
  rewrite (case_userInformation_at _ _ reference payload) by (rewrite <- ?Hcc; done || lia). cbn [mbind option_bind]. if_false. cbn [mbind option_bind].
  by replace (pos + (1 + zlen (ber_length (zlen c)) + zlen c)) with (pos + 1 + zlen (ber_length (zlen c)) + zlen c) by lia.
Qed.

(** Behind the last element, the authentication decides. *)
Lemma aarq_end fuel s limit :
  aarq_loop (S fuel) uninit front s buffer limit limit
  = '(accepted, self) ← checkAuthentication (aq_self s) (aq_authMechanism s) (aq_authMechLen s) (aq_authValue s) (aq_authValueLen s);
    Some (if negb accepted || negb (aq_userInfoValid s) then ACSE_ASSOCIATE_FAILED else ACSE_ASSOCIATE, self).
Proof.
  cbn [aarq_loop]. unfold aarq_turn. if_false.
  by destruct (checkAuthentication (aq_self s) (aq_authMechanism s) (aq_authMechLen s) (aq_authValue s) (aq_authValueLen s)) as [[]|].
Qed.
End Written.

(** Decoding an object identifier depends on its octets only. *)
Lemma decodeOID_loop_ext n : forall b1 b2 p1 p2 arc k,
  (forall i, 0 <= i < Z.of_nat n -> ld b1 (p1 + i) = ld b2 (p2 + i)) ->
  decodeOID_loop n b1 p1 arc k = decodeOID_loop n b2 p2 arc k.
Proof.
  induction n as [|n IH]; intros b1 b2 p1 p2 arc k Hld; [done|]. cbn [decodeOID_loop].
  assert (ld b1 p1 = ld b2 p2) as -> by (specialize (Hld 0 ltac:(lia)); by rewrite !Z.add_0_r in Hld).
  assert (forall arc k, decodeOID_loop n b1 (p1 + 1) arc k = decodeOID_loop n b2 (p2 + 1) arc k) as Hn.
  { intros. apply IH. intros i Hi. specialize (Hld (1 + i) ltac:(lia)). by rewrite !Z.add_assoc in Hld. }
  case_match; [|done]. destruct (ld arc k); [|done]. destruct (ld b2 p2); [|done]. cbn [mbind option_bind].
  case_match; destruct (st _ _ _); cbn [mbind option_bind]; done.
Qed.

Lemma at_pos_ld buffer pos bs i : at_pos buffer pos bs -> 0 <= i < zlen bs -> ld buffer (pos + i) = ld bs i.
Proof.
  intros (pre & post & -> & <-) Hi. pose proof (zlen_nonneg pre). unfold ld. if_true. if_true. unfold zlen in *.
  rewrite lookup_app_r by lia. rewrite lookup_app_l by lia. f_equal. lia.
Qed.

Lemma decodeOID_at buffer pos bs : at_pos buffer pos bs -> BerDecoder_decodeOID buffer pos (zlen bs) = BerDecoder_decodeOID bs 0 (zlen bs).
Proof.
  intros Hat. unfold BerDecoder_decodeOID. btest; [|done].
  pose proof (at_pos_ld _ _ _ 0 Hat ltac:(lia)) as H0. rewrite Z.add_0_r in H0. rewrite H0. destruct (ld bs 0) as [b|]; [|done]. cbn [mbind option_bind].
  rewrite (decodeOID_loop_ext _ buffer bs (pos + 1) (0 + 1)); [done|]. intros i Hi.
  replace (pos + 1 + i) with (pos + (1 + i)) by lia. rewrite (at_pos_ld _ _ _ (1 + i) Hat) by lia. done.
Qed.

(** The application reference of the client, as the server records it. *)
Definition calling_reference (self : AcseConnection) (side : IsoAddress) : IsoApplicationReference :=
  if 0 <? ia_apTitleLen side then
    mkIsoApplicationReference (default (mkItuObjectIdentifier [] 0) (BerDecoder_decodeOID (ap_title side) 0 (zlen (ap_title side)))) (ia_aeQualifier side)
  else ac_applicationReference self.

Section Request.
Context (buffer : list Z) (uninit : Z) (front : option Z).

Lemma aarq_remote fuel s pos side rest limit :
  address_ok side -> at_pos buffer pos (address_bytes 0xa2 0xa3 side ++ rest) -> pos + zlen (address_bytes 0xa2 0xa3 side) <= limit ->
  exists fuel', (fuel <= fuel')%nat /\
    aarq_loop (S (S fuel)) uninit front s buffer pos limit = aarq_loop fuel' uninit front s buffer (pos + zlen (address_bytes 0xa2 0xa3 side)) limit.
Proof.
  intros Hs Hat He. pose proof (zlen_ap_title _ Hs) as Hz. destruct Hs as (_ & _ & Hl & _). pose proof (zlen_ber_uint32 (u32 (ia_aeQualifier side))).
  unfold address_bytes in *. case_match; bdestr; [|exists (S (S fuel)); split; [lia|]; by rewrite (@zlen_nil Z), Z.add_0_r].
  exists fuel. split; [done|]. rewrite <- app_assoc in Hat. rewrite zlen_app in *.
  assert (zlen (ber_tlv 6 (ap_title side)) = 2 + zlen (ap_title side)) as H1 by (apply zlen_tlv_short; lia).
  assert (zlen (ber_tlv 2 (ber_uint32 (u32 (ia_aeQualifier side)))) = 2 + zlen (ber_uint32 (u32 (ia_aeQualifier side)))) as H2 by (apply zlen_tlv_short; lia).
  pose proof (zlen_nonneg (ber_tlv 163 (ber_tlv 2 (ber_uint32 (u32 (ia_aeQualifier side)))))).
  rewrite (aarq_skip _ _ _ _ _ _ 0xa2 (ber_tlv 6 (ap_title side)) _ _ ltac:(rewrite !elem_of_cons; auto) ltac:(lia) Hat) by lia. apply at_pos_app in Hat as [_ Hat].
  rewrite (aarq_skip _ _ _ _ _ _ 0xa3 (ber_tlv 2 (ber_uint32 (u32 (ia_aeQualifier side)))) _ _ ltac:(rewrite !elem_of_cons; auto) ltac:(lia) Hat) by lia. by rewrite Z.add_assoc.
Qed.

Lemma aarq_local fuel s pos side rest limit :
  address_ok side -> at_pos buffer pos (address_bytes 0xa6 0xa7 side ++ rest) -> pos + zlen (address_bytes 0xa6 0xa7 side) <= limit ->
  exists fuel', (fuel <= fuel')%nat /\
    aarq_loop (S (S fuel)) uninit front s buffer pos limit
    = aarq_loop fuel' uninit front (aq_with s (with_applicationReference (aq_self s) (calling_reference (aq_self s) side))) buffer
        (pos + zlen (address_bytes 0xa6 0xa7 side)) limit.
Proof.
  intros Hs Hat He. pose proof (zlen_ap_title _ Hs) as Hz. destruct Hs as (_ & _ & Hl & Hq). pose proof (zlen_ber_uint32 (u32 (ia_aeQualifier side))).
  pose proof (at_pos_bounds _ _ _ Hat) as [Hpos _].
  unfold address_bytes, calling_reference in *. case_match; bdestr.
  2: { exists (S (S fuel)). split; [lia|]. rewrite (@zlen_nil Z), Z.add_0_r. by destruct s as [[] ? ? ? ? ?]. }
  exists fuel. split; [done|]. rewrite <- app_assoc in Hat. rewrite zlen_app in *.
  assert (zlen (ber_tlv 6 (ap_title side)) = 2 + zlen (ap_title side)) as H1 by (apply zlen_tlv_short; lia).
  pose proof (zlen_nonneg (ber_tlv 167 (ber_tlv 2 (ber_uint32 (u32 (ia_aeQualifier side)))))).
  assert (at_pos buffer (pos + 4) (ap_title side)) as Hti.
  { apply at_pos_app in Hat as [Ha _]. rewrite tlv_header, H1, tlv_header, !ber_length_short in Ha by lia. cbn [app] in Ha.
    do 4 apply at_pos_cons in Ha as [_ Ha]. by replace (pos + 4) with (pos + 1 + 1 + 1 + 1) by lia. }
  destruct (decodeOID_total (ap_title side) 0 (zlen (ap_title side))) as [o Ho]; try lia.
  rewrite (aarq_title _ _ _ _ _ _ (ap_title side) _ _ o ltac:(lia) Hat) by (rewrite ?decodeOID_at; done || lia). apply at_pos_app in Hat as [_ Hat].
  rewrite (aarq_qualifier _ _ _ _ _ _ (ia_aeQualifier side) _ _ Hq Hat) by lia. rewrite Ho. by rewrite Z.add_assoc.
Qed.
End Request.

(** what the authenticator of the server is asked *)
Definition client_parameter (password : option (list Z)) (rest : list Z) : AcseAuthenticationParameter :=
  match password with
  | Some pw => mkAcseAuthenticationParameter ACSE_AUTH_PASSWORD (Some (pw ++ rest)) (zlen pw)
  | None => mkAcseAuthenticationParameter ACSE_AUTH_NONE None 0
  end.

(** the outcome of a well-formed request, by the decision of the authenticator *)
Definition association (self : AcseConnection) (parameter : AcseAuthenticationParameter) : AcseIndication * AcseConnection :=
  let self := with_securityToken self None in
  match ac_authenticator self with
  | Some authenticator =>
      let '(accepted, token, reference) := authenticator parameter None (ac_applicationReference self) in
      (if (accepted : bool) then ACSE_ASSOCIATE else ACSE_ASSOCIATE_FAILED, with_applicationReference (with_securityToken self token) reference)
  | None => (ACSE_ASSOCIATE, self)
  end.

Lemma checkAuthentication_password self m value n rest :
  same_bytes m 0 auth_mech_password_oid = Some true ->
  ('(accepted, c) ← checkAuthentication self (Some m) 3 (Some (value ++ rest)) n; Some (if negb accepted || negb true then ACSE_ASSOCIATE_FAILED else ACSE_ASSOCIATE, c))
  = Some (association self (mkAcseAuthenticationParameter ACSE_AUTH_PASSWORD (Some (value ++ rest)) n)).
Proof.
  intros Hm. unfold checkAuthentication, association, checkAuthMechanismName. cbn [ac_authenticator with_securityToken ac_tlsSocket].
  destruct (ac_authenticator self) as [auth|]; [|done]. rewrite Hm. cbn [mbind option_bind Z.eqb Pos.eqb]. unfold authenticateClient. cbn [ac_securityToken ac_applicationReference].
  destruct (auth _ _ _) as [[[] token] reference]; done.
Qed.

Lemma checkAuthentication_none self :
  ac_tlsSocket self = None ->
  ('(accepted, c) ← checkAuthentication self None 0 None 0; Some (if negb accepted || negb true then ACSE_ASSOCIATE_FAILED else ACSE_ASSOCIATE, c))
  = Some (association self (mkAcseAuthenticationParameter ACSE_AUTH_NONE None 0)).
Proof.
  intros Ht. unfold checkAuthentication, association, checkAuthMechanismName. cbn [ac_authenticator with_securityToken ac_tlsSocket].
  destruct (ac_authenticator self) as [auth|]; [|done]. rewrite Ht. cbn [mbind option_bind]. unfold authenticateClient. cbn [ac_securityToken ac_applicationReference].
  destruct (auth _ _ _) as [[[] token] reference]; done.
Qed.

Lemma user_information_suffix reference payload : exists pre, user_information reference payload = pre ++ payload.
Proof.
  unfold user_information. destruct (ber_tlv_suffix 160 payload [] payload eq_refl) as [p1 H1]. rewrite H1, app_assoc.
  destruct (ber_tlv_suffix 40 _ (ber_tlv 2 reference ++ p1) payload eq_refl) as [p2 H2]. rewrite H2. by eapply ber_tlv_suffix.
Qed.

Definition password_ok (password : option (list Z)) : Prop := match password with Some pw => 0 < zlen pw <= 1000 | None => True end.

(** the rest of a buffer from the position of known bytes on *)
Lemma ptr_add_at (bytes post : list Z) pre mid : bytes = pre ++ mid -> ptr_add (bytes ++ post) (zlen pre) = mid ++ post.
Proof. intros ->. unfold ptr_add. by rewrite zlen_to_nat, <- app_assoc, drop_app_length. Qed.

Lemma zlen_user_information reference payload :
  1 <= zlen reference <= 5 -> 0 < zlen payload <= 60000 -> zlen payload < zlen (user_information reference payload) <= zlen payload + 30.
Proof.
  intros Hr Hp. unfold user_information. rewrite (zlen_ber_tlv 190), (zlen_ber_tlv 40), zlen_app, zlen_tlv_short, zlen_ber_tlv by lia. pose proof (zlen_ber_length_bounds (zlen payload)).
  match goal with |- context [zlen (ber_length (1 + zlen (ber_length ?k) + ?m))] => pose proof (zlen_ber_length_bounds k); pose proof (zlen_ber_length_bounds (1 + zlen (ber_length k) + m)) end. lia.
Qed.

(** A request the library wrote is decided by the authenticator alone, which is
    given the password of the client; the user data is that of the client. *)
Lemma parse_aarq uninit front self p password payload post mx :
  address_ok (ip_remote p) -> address_ok (ip_local p) -> password_ok password -> 0 < zlen payload <= 60000 -> ac_tlsSocket self = None ->
  AcseConnection_parseMessage uninit front self (message_of (aarq_bytes p password payload) post mx)
  = Some (association
      (with_information (with_applicationReference self (calling_reference self (ip_local p))) [3] (payload ++ post) (zlen payload))
      (client_parameter password (user_information [3] payload ++ post))).
Proof.
  intros Hrem Hloc Hpw Hp Htls. set (ui := user_information [3] payload). set (pw := from_option password_bytes [] password).
  set (a1 := address_bytes 0xa2 0xa3 (ip_remote p)). set (a2 := address_bytes 0xa6 0xa7 (ip_local p)).
  set (content := context_name ++ a1 ++ a2 ++ pw ++ ui). set (bytes := aarq_bytes p password payload).
  assert (bytes = ber_tlv 0x60 content) as Hbytes by done.
  pose proof (zlen_user_information [3] payload ltac:(by split) Hp) as Hui. fold ui in Hui.
  destruct (address_size_spec 0xa2 0xa3 _ _ Hrem (qualifier_length_spec _ Hrem)) as [_ Hb1]. fold a1 in Hb1.
  destruct (address_size_spec 0xa6 0xa7 _ _ Hloc (qualifier_length_spec _ Hloc)) as [_ Hb2]. fold a2 in Hb2.
  assert (0 <= zlen pw <= 1020) as Hb3.
  { destruct password as [w|]; [|by split]. cbn in Hpw.
    apply (authentication_size_spec (Some (mkAcseAuthenticationParameter ACSE_AUTH_PASSWORD (Some w) (zlen w))) (Some w)).
    cbn. split_and!; try done; [lia | exists []; by rewrite app_nil_r]. }
  assert (zlen content = 9 + zlen a1 + zlen a2 + zlen pw + zlen ui) as Hc by (unfold content; rewrite !zlen_app; change (zlen context_name) with 9; lia).
  pose proof (zlen_ber_length_bounds (zlen content)). set (buffer := bytes ++ post).
  assert (at_pos buffer 0 (ber_tlv 0x60 content)) as Hat by (unfold buffer; rewrite Hbytes; apply at_pos_prefix).
  assert (zlen bytes = 1 + zlen (ber_length (zlen content)) + zlen content) as Hz by (by rewrite Hbytes, zlen_ber_tlv).
  destruct (element_at buffer uninit 0 (zlen bytes) 0x60 content Hat) as (Ht & Hd & Hat2); [lia | rewrite zlen_ber_tlv; lia|].
  set (pos := 0 + 1 + zlen (ber_length (zlen content))) in *.
  unfold AcseConnection_parseMessage, message_of. cbn [bb_size bb_buffer]. fold bytes. fold buffer. if_false. rewrite Ht. cbn [mbind option_bind].
  change (0 + 1) with 1 in Hd. rewrite Hd. cbn [mbind option_bind]. if_false. change (0x60 =? 0x60) with true. cbv iota.
  unfold parseAarqPdu. set (limit := zlen bytes) in *.
  assert (exists f, S (Z.to_nat (limit - pos)) = S (S (S (S (S (S (S (S (S (S f)))))))))) as [f ->] by (exists (Z.to_nat (limit - pos) - 9)%nat; lia).
  unfold content in Hat2.
  rewrite (aarq_skip _ _ _ _ _ pos 0xa1 (ber_tlv 6 appContextNameMms) _ _ ltac:(rewrite !elem_of_cons; auto) ltac:(done) Hat2) by (fold context_name; change (zlen context_name) with 9; lia).
  fold context_name. change (zlen context_name) with 9. apply at_pos_app in Hat2 as [_ Hat2]. change (zlen context_name) with 9 in Hat2.
  destruct (aarq_remote buffer uninit front (S (S (S (S (S (S (S f))))))) (mkAarq self None 0 None 0 false) (pos + 9) (ip_remote p) _ limit Hrem Hat2 ltac:(fold a1; lia)) as (f1 & Hf1 & ->).
  apply at_pos_app in Hat2 as [_ Hat2]. fold a1 in Hat2 |- *. destruct f1 as [|[|f1]]; [lia..|].
  destruct (aarq_local buffer uninit front f1 (mkAarq self None 0 None 0 false) (pos + 9 + zlen a1) (ip_local p) _ limit Hloc Hat2 ltac:(fold a2; lia)) as (f2 & Hf2 & ->).
  apply at_pos_app in Hat2 as [_ Hat2]. fold a2 in Hat2 |- *. cbn [aq_self aq_with aq_authValue aq_authValueLen aq_authMechanism aq_authMechLen aq_userInfoValid].
  set (self1 := with_applicationReference self _).
  assert (ptr_add buffer (limit - zlen payload) = payload ++ post) as Hdata.
  { destruct (user_information_suffix [3] payload) as [pre Hpre]. destruct (ber_tlv_suffix 0x60 content (context_name ++ a1 ++ a2 ++ pw ++ pre) payload) as [pre' Hpre'].
    { unfold content, ui. rewrite Hpre. by rewrite <- !app_assoc. }
    unfold buffer. rewrite Hbytes, Hpre'. apply ptr_add_tail. unfold limit. by rewrite Hbytes, Hpre'. }
  destruct password as [w|]; cbn [from_option password_ok client_parameter] in *.
  - destruct f2 as [|[|[|[|[|f2]]]]]; [lia..|].
    rewrite (aarq_password buffer uninit front _ _ _ w _ limit Hpw Hat2) by (unfold pw in *; lia). fold pw.
    assert (ptr_add buffer (pos + 9 + zlen a1 + zlen a2 + zlen pw - zlen w) = w ++ ui ++ post) as Hval.
    { destruct (ber_tlv_suffix 0x80 w [] w eq_refl) as [p1 H1]. destruct (ber_tlv_suffix 0xac _ _ _ H1) as [p2 H2].
      set (pre := (0x60 :: ber_length (zlen content)) ++ context_name ++ a1 ++ a2 ++ ber_tlv 0x8a [4; 0x80] ++ ber_tlv 0x8b auth_mech_password_oid ++ p2).
      assert (bytes = pre ++ w ++ ui) as Heq.
      { unfold pre. rewrite Hbytes, tlv_header. unfold content, pw, password_bytes. rewrite H2. by rewrite <- !app_assoc. }
      replace (pos + 9 + zlen a1 + zlen a2 + zlen pw - zlen w) with (zlen pre).
      - rewrite app_assoc. unfold buffer. by apply ptr_add_at.
      - assert (zlen bytes = zlen pre + zlen w + zlen ui) by (rewrite Heq, !zlen_app; lia). lia. }
    rewrite Hval. apply at_pos_app in Hat2 as [Hpwat Hat2]. rewrite <- (app_nil_r ui) in Hat2.
    rewrite (aarq_information buffer uninit front _ _ _ [3] payload [] limit ltac:(by split) Hp Hat2) by (fold ui; lia). fold ui.
    cbn [aq_self aq_authValue aq_authValueLen aq_authMechanism aq_authMechLen aq_userInfoValid].
    replace (pos + 9 + zlen a1 + zlen a2 + zlen pw + zlen ui) with limit by lia. rewrite aarq_end.
    cbn [aq_self aq_authValue aq_authValueLen aq_authMechanism aq_authMechLen aq_userInfoValid]. rewrite Hdata. apply checkAuthentication_password.
    unfold pw, password_bytes in Hpwat. apply at_pos_app in Hpwat as [_ Hpwat]. change (zlen (ber_tlv 0x8a [4; 0x80])) with 4 in Hpwat.
    apply at_pos_app in Hpwat as [Hm _]. change (ber_tlv 0x8b auth_mech_password_oid) with (0x8b :: 3 :: auth_mech_password_oid) in Hm.
    do 2 apply at_pos_cons in Hm as [_ Hm]. apply at_pos_ptr in Hm. unfold same_bytes.
    replace (pos + 9 + zlen a1 + zlen a2 + 6) with (pos + 9 + zlen a1 + zlen a2 + 4 + 1 + 1) by lia. by apply same_bytes_at.
  - destruct f2 as [|[|f2]]; [lia..|]. unfold pw in *. cbn [app] in Hat2. rewrite <- (app_nil_r ui) in Hat2. change (zlen (@nil Z)) with 0 in *.
    rewrite (aarq_information buffer uninit front _ _ _ [3] payload [] limit ltac:(by split) Hp Hat2) by (fold ui; lia). fold ui.
    cbn [aq_self aq_authValue aq_authValueLen aq_authMechanism aq_authMechLen aq_userInfoValid].
    replace (pos + 9 + zlen a1 + zlen a2 + zlen ui) with limit by lia. rewrite aarq_end.
    cbn [aq_self aq_authValue aq_authValueLen aq_authMechanism aq_authMechLen aq_userInfoValid]. rewrite Hdata. by apply checkAuthentication_none.
Qed.

(** A response the library wrote. *)
Lemma parse_aare uninit front self result reference payload post mx :
  0 <= result < 128 -> is_u32 reference -> 0 < zlen payload <= 60000 ->
  AcseConnection_parseMessage uninit front self (message_of (aare_bytes result reference payload) post mx)
  = Some (if result =? 0 then ACSE_ASSOCIATE else ACSE_ASSOCIATE_FAILED,
      with_acseUserData (with_nextReference self reference) (payload ++ post) (zlen payload)).
Proof.
  intros Hres Href Hp. pose proof (zlen_ber_uint32 reference) as Hr. set (ui := user_information (ber_uint32 reference) payload).
  set (fixed := context_name ++ ber_tlv 0xa2 (ber_tlv 0x02 [result]) ++ ber_tlv 0xa3 (ber_tlv 0xa1 (ber_tlv 0x02 [0]))).
  set (content := fixed ++ ui). set (bytes := aare_bytes result reference payload).
  assert (bytes = ber_tlv 0x61 content) as Hbytes by (unfold bytes, aare_bytes, content, fixed; by rewrite <- !app_assoc).
  pose proof (zlen_user_information (ber_uint32 reference) payload Hr Hp) as Hui. fold ui in Hui.
  assert (zlen content = 21 + zlen ui) as Hc by (unfold content; rewrite zlen_app; change (zlen fixed) with 21; lia).
  pose proof (zlen_ber_length_bounds (zlen content)). set (buffer := bytes ++ post).
  assert (at_pos buffer 0 (ber_tlv 0x61 content)) as Hat by (unfold buffer; rewrite Hbytes; apply at_pos_prefix).
  assert (zlen bytes = 1 + zlen (ber_length (zlen content)) + zlen content) as Hz by (by rewrite Hbytes, zlen_ber_tlv).
  destruct (element_at buffer uninit 0 (zlen bytes) 0x61 content Hat) as (Ht & Hd & Hat2); [lia | rewrite zlen_ber_tlv; lia|].
  set (pos := 0 + 1 + zlen (ber_length (zlen content))) in *.
  unfold AcseConnection_parseMessage, message_of. cbn [bb_size bb_buffer]. fold bytes. fold buffer. if_false. rewrite Ht. cbn [mbind option_bind].
  change (0 + 1) with 1 in Hd. rewrite Hd. cbn [mbind option_bind]. if_false. change (0x61 =? 0x60) with false. change (0x61 =? 0x61) with true. cbv iota.
  unfold content, fixed in Hat2. rewrite <- !app_assoc, <- (app_nil_r ui) in Hat2.
  rewrite (aare_at buffer uninit front self pos result (ber_uint32 reference) payload (zlen bytes) Hres Hr Hp Hat2) by (fold ui; lia).
  unfold with_information. replace (u32 (be_val (ber_uint32 reference))) with reference by (rewrite be_val_uint32 by done; symmetry; by apply u32_small).
  do 3 f_equal. destruct (user_information_suffix (ber_uint32 reference) payload) as [pre Hpre].
  destruct (ber_tlv_suffix 0x61 content (fixed ++ pre) payload) as [pre' Hpre'].
  { unfold content, ui. rewrite Hpre. by rewrite app_assoc. }
  unfold buffer. rewrite Hbytes, Hpre'. by apply ptr_add_tail.
Qed.

(** ** Requests that no server accepts

    With an authentication parameter that is not a password, seven bytes are counted
    for a mechanism and a value that are not written. *)

Definition requirements_bytes : list Z := ber_tlv 0x8a [0x04; 0].

Lemma encode_authentication_none a buffer pos : aa_mechanism a <> ACSE_AUTH_PASSWORD ->
  encode_authentication (Some a) buffer pos = puts requirements_bytes buffer pos.
Proof.
  intros Ha. change requirements_bytes with ((0x8a :: ber_length 2) ++ [0x04] ++ [0]). unfold encode_authentication.
  do 2 write_step. rewrite puts_one. by destruct (aa_mechanism a).
Qed.

Lemma request_without_password p buf mx payload a :
  chain_ok payload -> bc_length payload <= 60000 -> address_ok (ip_remote p) -> address_ok (ip_local p) ->
  aa_mechanism a <> ACSE_AUTH_PASSWORD -> 1200 <= zlen buf ->
  exists chain, AcseConnection_createAssociateRequestMessage p buf mx payload (Some a) = Some chain /\ chain_ok chain /\
    forall uninit front self post mx, AcseConnection_parseMessage uninit front self (message_of (chain_bytes chain) post mx) = Some (ACSE_ERROR, self).
Proof.
  intros Hp Hm Hrem Hloc Ha Hb.
  destruct (createAssociateRequest_gen p buf mx payload (Some a) requirements_bytes) as (Hsz & chain & Hc & Hok & Hbytes & _); try done.
  { intros. by apply encode_authentication_none. }
  exists chain. split; [done|]. split; [done|]. intros uninit front self post mx'.
  assert (authentication_size (Some a) = 11) as Has by (unfold authentication_size; by destruct (aa_mechanism a)).
  rewrite Has in Hbytes. change (zlen requirements_bytes) with 4 in Hbytes. set (content := aarq_content _ _ _) in *. set (n := zlen content + 11 - 4) in *.
  pose proof (zlen_nonneg content). pose proof (zlen_ber_length_bounds n). unfold AcseConnection_parseMessage, message_of. cbn [bb_size bb_buffer].
  assert (zlen (chain_bytes chain) = 1 + zlen (ber_length n) + zlen content) as Hz by (rewrite Hbytes, zlen_app, zlen_cons; lia).
  if_false. assert (at_pos (chain_bytes chain ++ post) 0 (0x60 :: ber_length n)) as Hat by (rewrite Hbytes, <- app_assoc; apply at_pos_prefix).
  apply at_pos_cons in Hat as [-> Hat]. cbn [mbind option_bind].
  destruct (decodeLength_too_long (chain_bytes chain ++ post) uninit 1 (zlen (chain_bytes chain)) n) as [l ->]; [unfold n; lia | done | unfold n in *; lia|]. done.
Qed.
