(* ===== verification/IsoConnection.v ===== *)
(** A connection of the ISO server:
    src/libiec61850/src/mms/iso_server/iso_connection.c.

    The connection puts the layers together: what the transport layer indicates is
    handed up through session, presentation and association control to the MMS
    server, and its answer is handed down. The MMS server above is the argument
    [application]: the installed listener, with its state.

    All parts of an answer lie in [sendBuffer] one behind the other, the payload
    first and each header behind the parts that are already there. A
    [BufferChain] holds the bytes of its part as they are when it is built; the
    areas are disjoint, so the later headers do not change them. *)

From S2P Require Import Prelude BerEncoder BerDecoder ByteBuffer IsoParameters Cotp IsoSession IsoPresentation Acse.
Open Scope Z_scope.

Definition CONFIG_MMS_MAXIMUM_PDU_SIZE : Z := 65000.
Definition RECEIVE_BUF_SIZE : Z := CONFIG_MMS_MAXIMUM_PDU_SIZE + 100.
Definition SEND_BUF_SIZE : Z := CONFIG_MMS_MAXIMUM_PDU_SIZE + 100.
Definition CONFIG_COTP_MAX_TPDU_SIZE : Z := 8192.

(** src/libiec61850/src/mms/inc_private/iso_server_private.h *)
Inductive IsoConnectionState :=
| ISO_CON_STATE_STOPPED
| ISO_CON_STATE_RUNNING
| ISO_CON_STATE_TERMINATED.

(** [MessageReceivedHandler] and [UserLayerTickHandler] with their parameter: the handler reads a
    request, writes the answer at the start of the send buffer and returns its
    size, zero for none. *)
Record Application := mkApplication {
  app_state : Type;
  msgRcvdHandler : app_state -> ByteBuffer -> list Z -> option (app_state * list Z * Z);
  tickHandler : app_state -> app_state
}.

Section Connection.
Context (application : Application).

(** The addresses, the semaphore, the handle set and the thread are left out. *)
Record IsoConnection := mkIsoConnection {
  ic_sendBuffer : list Z;
  ic_state : IsoConnectionState;
  ic_session : IsoSession;
  ic_presentation : IsoPresentation;
  ic_cotpConnection : CotpConnection;
  ic_acseConnection : AcseConnection;
  ic_application : app_state application
}.

Definition with_cotp (c : IsoConnection) (v : CotpConnection) : IsoConnection :=
  mkIsoConnection (ic_sendBuffer c) (ic_state c) (ic_session c) (ic_presentation c) v (ic_acseConnection c) (ic_application c).
Definition with_state (c : IsoConnection) (v : IsoConnectionState) : IsoConnection :=
  mkIsoConnection (ic_sendBuffer c) v (ic_session c) (ic_presentation c) (ic_cotpConnection c) (ic_acseConnection c) (ic_application c).
Definition with_session (c : IsoConnection) (v : IsoSession) : IsoConnection :=
  mkIsoConnection (ic_sendBuffer c) (ic_state c) v (ic_presentation c) (ic_cotpConnection c) (ic_acseConnection c) (ic_application c).
Definition with_presentation (c : IsoConnection) (v : IsoPresentation) : IsoConnection :=
  mkIsoConnection (ic_sendBuffer c) (ic_state c) (ic_session c) v (ic_cotpConnection c) (ic_acseConnection c) (ic_application c).
Definition with_acse (c : IsoConnection) (v : AcseConnection) : IsoConnection :=
  mkIsoConnection (ic_sendBuffer c) (ic_state c) (ic_session c) (ic_presentation c) (ic_cotpConnection c) v (ic_application c).
Definition with_answer (c : IsoConnection) (sendBuffer : list Z) (s : app_state application) : IsoConnection :=
  mkIsoConnection sendBuffer (ic_state c) (ic_session c) (ic_presentation c) (ic_cotpConnection c) (ic_acseConnection c) s.

Definition stopped (c : IsoConnection) : IsoConnection := with_state c ISO_CON_STATE_STOPPED.

(** [part->buffer = sendBuffer + offset; part->partMaxLength = SEND_BUF_SIZE - offset; create(part)] *)
Definition add_part (offset : Z) (create : list Z -> Z -> option BufferChain) (sendBuffer : list Z) : option (list Z * BufferChain) :=
  if (0 <=? offset) && (offset <=? zlen sendBuffer) then
    chain ← create (ptr_add sendBuffer offset) (SEND_BUF_SIZE - offset);
    Some (take (Z.to_nat offset) sendBuffer ++ bc_buffer chain, chain)
  else None.

(** [msgRcvdHandler(handlerParameter, request, &mmsResponseBuffer)]; the result is the
    size of the response *)
Definition call_handler (self : IsoConnection) (request : ByteBuffer) : option (Z * IsoConnection) :=
  '(s, sendBuffer, size) ← msgRcvdHandler application (ic_application self) request (ic_sendBuffer self);
  Some (size, with_answer self sendBuffer s).

Definition send_chain (self : IsoConnection) (chain : BufferChain) : option IsoConnection :=
  '(_, cotp) ← CotpConnection_sendDataMessage (ic_cotpConnection self) chain;
  Some (with_cotp self cotp).

(** the answer to an association request *)
Definition answer_associate (self : IsoConnection) (size : Z) : option IsoConnection :=
  let mmsBufferPart := BufferChain_init size size None (ic_sendBuffer self) in
  if 0 <? size then
    '(sendBuffer, acseBufferPart) ← add_part (bc_length mmsBufferPart) (fun buf mx =>
       AcseConnection_createAssociateResponseMessage (ic_acseConnection self) ACSE_RESULT_ACCEPT buf mx (Some mmsBufferPart)) (ic_sendBuffer self);
    '(sendBuffer, presentationBufferPart) ← add_part (bc_length acseBufferPart) (fun buf mx =>
       IsoPresentation_createCpaMessage (ic_presentation self) buf mx acseBufferPart) sendBuffer;
    '(sendBuffer, sessionBufferPart) ← add_part (bc_length presentationBufferPart) (fun buf mx =>
       IsoSession_createAcceptSpdu (ic_session self) buf mx presentationBufferPart) sendBuffer;
    send_chain (with_answer self sendBuffer (ic_application self)) sessionBufferPart
  else Some self.

(** the answer to a request *)
Definition answer_data (self : IsoConnection) (size : Z) : option IsoConnection :=
  if 0 <? size then
    let mmsBufferPart := BufferChain_init size size None (ic_sendBuffer self) in
    '(sendBuffer, presentationBufferPart) ← add_part (bc_length mmsBufferPart) (fun buf mx =>
       IsoPresentation_createUserData (ic_presentation self) buf mx mmsBufferPart) (ic_sendBuffer self);
    let sessionBufferPart := IsoSession_createDataSpdu (SEND_BUF_SIZE - bc_length presentationBufferPart) presentationBufferPart in
    send_chain (with_answer self sendBuffer (ic_application self)) sessionBufferPart
  else Some self.

(** the answer to a request to finish *)
Definition answer_finish (self : IsoConnection) : option IsoConnection :=
  '(sendBuffer, acseBufferPart) ← add_part 0 AcseConnection_createReleaseResponseMessage (ic_sendBuffer self);
  '(sendBuffer, presentationBufferPart) ← add_part (bc_length acseBufferPart) (fun buf mx =>
     IsoPresentation_createUserDataACSE (ic_presentation self) buf mx acseBufferPart) sendBuffer;
  '(sendBuffer, sessionBufferPart) ← add_part (bc_length presentationBufferPart) (fun buf mx =>
     IsoSession_createDisconnectSpdu buf mx presentationBufferPart) sendBuffer;
  send_chain (with_answer self sendBuffer (ic_application self)) sessionBufferPart.

(** the byte of [whole] in front of the place [rest] points to *)
Definition byte_before (whole rest : list Z) : option Z := ld whole (zlen whole - zlen rest - 1).

Definition case_connect (uninit : Z) (self : IsoConnection) (cotpPayload sessionUserData : ByteBuffer) : option IsoConnection :=
  '(ok, presentation) ← IsoPresentation_parseConnect (ic_presentation self) sessionUserData;
  let self := with_presentation self presentation in
  if ok =? 0 then Some (stopped self)
  else
    let acseBuffer := pr_nextPayload presentation in
    '(aIndication, acse) ← AcseConnection_parseMessage uninit (byte_before (bb_buffer cotpPayload) (bb_buffer acseBuffer))
                             (ic_acseConnection self) acseBuffer;
    let self := with_acse self acse in
    match aIndication with
    | ACSE_ASSOCIATE =>
        data ← ac_userDataBuffer acse;
        '(size, self) ← call_handler self (ByteBuffer_wrap data (ac_userDataBufferSize acse) (ac_userDataBufferSize acse));
        answer_associate self size
    | _ => Some (stopped self)
    end.

Definition case_data (self : IsoConnection) (sessionUserData : ByteBuffer) : option IsoConnection :=
  '(ok, presentation) ← IsoPresentation_parseUserData (ic_presentation self) sessionUserData;
  let self := with_presentation self presentation in
  if ok =? 0 then Some (stopped self)
  else if pr_nextContextId presentation =? pr_mmsContextId presentation then
    '(size, self) ← call_handler self (pr_nextPayload presentation);
    answer_data self size
  else Some self.

Definition case_finish (self : IsoConnection) (sessionUserData : ByteBuffer) : option IsoConnection :=
  '(ok, presentation) ← IsoPresentation_parseUserData (ic_presentation self) sessionUserData;
  let self := with_presentation self presentation in
  self ← (if ok =? 0 then Some self else answer_finish self);
  Some (stopped self).

(** [case COTP_DATA_INDICATION] *)
Definition handle_data_indication (uninit : Z) (self : IsoConnection) : option IsoConnection :=
  let cotpPayload := CotpConnection_getPayload (ic_cotpConnection self) in
  '(sIndication, session) ← IsoSession_parseMessage (ic_session self) cotpPayload;
  let self := with_session self session in
  let sessionUserData := IsoSession_getUserData session in
  self ← match sIndication with
         | SESSION_CONNECT => case_connect uninit self cotpPayload sessionUserData
         | SESSION_DATA => case_data self sessionUserData
         | SESSION_FINISH => case_finish self sessionUserData
         | _ => Some (stopped self)
         end;
  Some (with_cotp self (CotpConnection_resetPayload (ic_cotpConnection self))).

Definition IsoConnection_callTickHandler (self : IsoConnection) : option IsoConnection :=
  cotp ← CotpConnection_flushBuffer (ic_cotpConnection self);
  Some (mkIsoConnection (ic_sendBuffer self) (ic_state self) (ic_session self) (ic_presentation self) cotp (ic_acseConnection self)
          (tickHandler application (ic_application self))).

(** the part behind the wait for data *)
Definition handle_ready (uninit : Z) (self : IsoConnection) : option IsoConnection :=
  '(tpktState, cotp) ← CotpConnection_readToTpktBuffer (ic_cotpConnection self);
  let self := with_cotp self cotp in
  match tpktState with
  | TPKT_ERROR => Some (stopped self)
  | TPKT_WAITING => Some self
  | TPKT_PACKET_COMPLETE =>
      '(cotpIndication, cotp) ← CotpConnection_parseIncomingMessage (ic_cotpConnection self);
      let self := with_cotp self cotp in
      match cotpIndication with
      | COTP_MORE_FRAGMENTS_FOLLOW => Some self
      | COTP_CONNECT_INDICATION =>
          '(_, cotp) ← CotpConnection_sendConnectionResponseMessage (ic_cotpConnection self);
          Some (with_cotp self cotp)
      | COTP_DATA_INDICATION => handle_data_indication uninit self
      | _ => Some (stopped self)
      end
  end.

Definition IsoConnection_handleTcpConnection (uninit : Z) (self : IsoConnection) (isSingleThread : bool) : option IsoConnection :=
  if isSingleThread then handle_ready uninit self
  else
    self ← IsoConnection_callTickHandler self;
    let '(ready, socket) := Handleset_waitReady (ct_socket (ic_cotpConnection self)) in
    let self := with_cotp self (with_socket (ic_cotpConnection self) socket) in
    if ready <? 1 then Some self else handle_ready uninit self.

(** The thread of a connection: turns while it is running, for at most [fuel] of them;
    after the loop the connection is finalised. *)
Fixpoint handleTcpConnection (fuel : nat) (uninit : Z) (self : IsoConnection) : option IsoConnection :=
  match fuel with
  | O => Some self
  | S fuel =>
      match ic_state self with
      | ISO_CON_STATE_RUNNING =>
          self ← IsoConnection_handleTcpConnection uninit self false;
          handleTcpConnection fuel uninit self
      | _ => Some (with_state self ISO_CON_STATE_TERMINATED)
      end
  end.

Definition IsoConnection_create (socket : Socket) (authenticator : option AcseAuthenticator) (tlsSocket : option (option (list Z)))
    (listener : app_state application) : option IsoConnection :=
  let rcvBuffer := ByteBuffer_wrap (replicate (Z.to_nat RECEIVE_BUF_SIZE) 0) 0 RECEIVE_BUF_SIZE in
  let cotpBufSize := CONFIG_COTP_MAX_TPDU_SIZE + TPKT_RFC1006_HEADER_SIZE in
  let cotpBuffer := ByteBuffer_wrap (replicate (Z.to_nat cotpBufSize) 0) 0 cotpBufSize in
  let socketExtensionBufferSize := CONFIG_MMS_MAXIMUM_PDU_SIZE + 1000 in
  cotp ← CotpConnection_init socket rcvBuffer cotpBuffer (Some cotpBuffer)
           (Some (replicate (Z.to_nat socketExtensionBufferSize) 0)) socketExtensionBufferSize;
  let sel := mkPSelector 0 (replicate 16 0) in
  let presentation := IsoPresentation_init (mkIsoPresentation sel sel 0 0 0 (mkByteBuffer [] 0 0)) in
  Some (mkIsoConnection (replicate (Z.to_nat SEND_BUF_SIZE) 0) ISO_CON_STATE_RUNNING IsoSession_init presentation cotp
          (AcseConnection_init authenticator tlsSocket) listener).

Definition IsoConnection_sendMessage (self : IsoConnection) (message : ByteBuffer) : option (bool * IsoConnection) :=
  match ic_state self with
  | ISO_CON_STATE_STOPPED => Some (false, self)
  | _ =>
      let payloadBuffer := mkBufferChain (bb_size message) (bb_size message) (bb_size message) (bb_buffer message) None in
      '(sendBuffer, presentationBuffer) ← add_part 0 (fun buf mx => IsoPresentation_createUserData (ic_presentation self) buf mx payloadBuffer)
                                            (ic_sendBuffer self);
      let sessionBuffer := IsoSession_createDataSpdu 0 presentationBuffer in
      '(indication, cotp) ← CotpConnection_sendDataMessage (ic_cotpConnection self) sessionBuffer;
      Some (match indication with COTP_OK => true | _ => false end, with_cotp (with_answer self sendBuffer (ic_application self)) cotp)
  end.

(** in the configuration with one thread per server; with a thread per connection the thread
    does the second step *)
Definition IsoConnection_close (self : IsoConnection) : IsoConnection :=
  match ic_state self with
  | ISO_CON_STATE_TERMINATED => self
  | _ => with_state (stopped self) ISO_CON_STATE_TERMINATED
  end.

Definition IsoConnection_getState (self : IsoConnection) : IsoConnectionState := ic_state self.
Definition IsoConnection_getSecurityToken (self : IsoConnection) : option Z := ac_securityToken (ic_acseConnection self).
Definition IsoConnection_isRunning (self : IsoConnection) : bool :=
  match ic_state self with ISO_CON_STATE_RUNNING => true | _ => false end.
End Connection.
