(* ===== verification/IsoConnectionFacts.v ===== *)
(** The ISO server connection: what it does with a request that arrives, down to
    the packets of the answer, and what it does with arbitrary bytes. *)

From S2P Require Import Prelude BerEncoder BerDecoder ByteBuffer IsoParameters Cotp CotpSend CotpReceive IsoSession.
From S2P Require Import SessionFacts IsoPresentation PresentationFacts Acse AcseFacts IsoConnection.
Open Scope Z_scope.

(** * The layer above

    What the connection relies on: the answer depends on the bytes of the request, lies at
    the start of the send buffer, and is not longer than an MMS message may be. *)
Class MmsServer (app : Application) := {
  mms_answer : app_state app -> list Z -> app_state app * list Z;
  mms_answers : forall s request sendBuffer, byteBuffer_ok request -> zlen sendBuffer = SEND_BUF_SIZE ->
    let '(s', answer) := mms_answer s (byteBuffer_bytes request) in
    exists rest, msgRcvdHandler app s request sendBuffer = Some (s', answer ++ rest, zlen answer) /\
      zlen (answer ++ rest) = SEND_BUF_SIZE /\ zlen answer <= CONFIG_MMS_MAXIMUM_PDU_SIZE
}.

Section Server.
Context {app : Application} `{!MmsServer app}.

Abbreviation connection := (IsoConnection app).

(** The connection can send: its buffers have their sizes. *)
Definition server_ok (self : connection) : Prop :=
  cotp_ok (ic_cotpConnection _ self) /\ zlen (ic_sendBuffer _ self) = SEND_BUF_SIZE.

(** The bytes of a message in the data phase. *)
Definition data_message (ctx : Z) (payload : list Z) : list Z := dataSpdu ++ user_data ctx payload.

(** [p] of the packets of [message] are under way, all of them if the socket takes what it is given and there
    is room to hold back the rest. *)
Definition transmits (cotp cotp' : CotpConnection) (message : list Z) : Prop :=
  tx_frame cotp cotp' /\
  exists p, p `prefix_of` message_packets cotp message /\ tx_stream cotp' = tx_stream cotp ++ p /\
    (is_Some (ct_socketExtensionBuffer cotp) -> sends_well cotp ->
     extension_room cotp (zlen (message_packets cotp message)) -> p = message_packets cotp message).

Lemma send_chain_spec (self : connection) chain :
  cotp_ok (ic_cotpConnection _ self) -> chain_ok chain ->
  exists cotp, send_chain _ self chain = Some (with_cotp _ self cotp) /\ transmits (ic_cotpConnection _ self) cotp (chain_bytes chain).
Proof.
  intros Hc Hch. unfold send_chain. destruct (sendDataMessage_spec _ _ Hc Hch) as (ind & cotp & -> & _ & _ & Hf & (p & Hp & Hs & Hall) & Hok).
  cbn [mbind option_bind]. exists cotp. split; [done|]. split; [done|]. exists p. split_and!; try done. intros H1 H2 H3. by apply Hall, Hok.
Qed.

(** an area of the send buffer behind [n] bytes *)
Lemma add_part_spec n create sendBuffer bytes :
  0 <= n <= zlen sendBuffer ->
  makes (create (ptr_add sendBuffer n) (SEND_BUF_SIZE - n)) (ptr_add sendBuffer n) bytes ->
  exists sendBuffer' chain, add_part n create sendBuffer = Some (sendBuffer', chain) /\ chain_ok chain /\ chain_bytes chain = bytes /\
    zlen sendBuffer' = zlen sendBuffer /\ bc_length chain = zlen bytes.
Proof.
  intros Hn (chain & Hc & Hok & Hb & Hz). unfold add_part. if_true. rewrite Hc. cbn [mbind option_bind]. do 2 eexists. split; [done|].
  split; [done|]. split; [done|]. rewrite zlen_app, Hz, zlen_take by lia. unfold ptr_add. rewrite zlen_drop by lia. split; [lia|]. rewrite <- Hb. by apply chain_ok_length.
Qed.

Lemma ptr_add_room (sendBuffer : list Z) n k : 0 <= n -> n + k <= zlen sendBuffer -> 0 <= k -> k <= zlen (ptr_add sendBuffer n).
Proof. intros. unfold ptr_add. rewrite zlen_drop by lia. lia. Qed.

Lemma mms_part_spec answer rest :
  0 < zlen answer -> chain_ok (BufferChain_init (zlen answer) (zlen answer) None (answer ++ rest)) /\
    chain_bytes (BufferChain_init (zlen answer) (zlen answer) None (answer ++ rest)) = answer.
Proof. intros. by apply chain_ok_single. Qed.

(** The answer to a request is framed and sent. *)
Lemma answer_data_spec (self : connection) answer rest :
  cotp_ok (ic_cotpConnection _ self) -> ic_sendBuffer _ self = answer ++ rest -> zlen (answer ++ rest) = SEND_BUF_SIZE ->
  zlen answer <= CONFIG_MMS_MAXIMUM_PDU_SIZE ->
  exists self', answer_data _ self (zlen answer) = Some self' /\
    ic_application _ self' = ic_application _ self /\ ic_state _ self' = ic_state _ self /\
    ic_session _ self' = ic_session _ self /\ ic_presentation _ self' = ic_presentation _ self /\ ic_acseConnection _ self' = ic_acseConnection _ self /\
    if decide (answer = []) then ic_cotpConnection _ self' = ic_cotpConnection _ self
    else transmits (ic_cotpConnection _ self) (ic_cotpConnection _ self') (data_message (pr_mmsContextId (ic_presentation _ self)) answer).
Proof.
  intros Hc Hsb Hz Hmax. unfold answer_data. pose proof (zlen_nonneg answer). destruct (decide (answer = [])) as [->|Hne]; [by exists self|].
  assert (0 < zlen answer) as Hpos by (destruct answer; [done|]; rewrite zlen_cons; pose proof (zlen_nonneg answer); lia).
  if_true. destruct (mms_part_spec answer rest Hpos) as [Hok Hbytes]. rewrite Hsb. set (mms := BufferChain_init _ _ _ _) in *.
  assert (bc_length mms = zlen answer) as Hlen by done.
  destruct (add_part_spec (bc_length mms) (fun buf mx => IsoPresentation_createUserData (ic_presentation _ self) buf mx mms) (answer ++ rest)
    (user_data (pr_mmsContextId (ic_presentation _ self)) answer)) as (sb & chain & -> & Hok2 & Hb2 & _).
  - rewrite Hlen. unfold SEND_BUF_SIZE, CONFIG_MMS_MAXIMUM_PDU_SIZE in *. lia.
  - rewrite <- Hbytes. apply create_user_data_spec.
    + split; [done|]. rewrite Hlen. unfold CONFIG_MMS_MAXIMUM_PDU_SIZE in Hmax. lia.
    + unfold SEND_BUF_SIZE, CONFIG_MMS_MAXIMUM_PDU_SIZE in *. rewrite Hlen. unfold ptr_add. rewrite Hbytes, zlen_drop by lia. lia.
  - cbn [mbind option_bind]. destruct (dataSpdu_spec (SEND_BUF_SIZE - bc_length chain) chain Hok2) as [Hok3 Hb3].
    destruct (send_chain_spec (with_answer _ self sb (ic_application _ self)) _ Hc Hok3) as (cotp & -> & Ht).
    eexists. split; [done|]. cbn. split_and!; try done. unfold data_message. rewrite Hb3, Hb2 in Ht. exact Ht.
Qed.

(** ** A request *)

(** What the request does, by the answer of the layer above. *)
Definition serves (self self' : connection) (request : list Z) : Prop :=
  let '(s, answer) := mms_answer (ic_application _ self) request in
  ic_application _ self' = s /\ ic_state _ self' = ic_state _ self /\
  pr_mmsContextId (ic_presentation _ self') = pr_mmsContextId (ic_presentation _ self) /\
  bb_size (ct_payload (ic_cotpConnection _ self')) = 0 /\
  if decide (answer = []) then ic_cotpConnection _ self' = CotpConnection_resetPayload (ic_cotpConnection _ self)
  else exists cotp, transmits (ic_cotpConnection _ self) cotp (data_message (pr_mmsContextId (ic_presentation _ self)) answer) /\
    ic_cotpConnection _ self' = CotpConnection_resetPayload cotp.

Lemma payload_message payload message : byteBuffer_ok payload -> byteBuffer_bytes payload = message ->
  exists post, payload = message_of message post (bb_maxSize payload).
Proof.
  intros Hok Hb. exists (drop (Z.to_nat (bb_size payload)) (bb_buffer payload)). unfold message_of. rewrite <- Hb, zlen_byteBuffer_bytes by done.
  unfold byteBuffer_bytes. rewrite take_drop. by destruct payload.
Qed.

Lemma tx_stream_reset cotp : tx_stream (CotpConnection_resetPayload cotp) = tx_stream cotp.
Proof. by destruct cotp. Qed.

Lemma data_indication_spec uninit (self : connection) request :
  server_ok self -> byteBuffer_ok (ct_payload (ic_cotpConnection _ self)) -> 0 < zlen request <= CONFIG_MMS_MAXIMUM_PDU_SIZE ->
  byteBuffer_bytes (ct_payload (ic_cotpConnection _ self)) = data_message (pr_mmsContextId (ic_presentation _ self)) request ->
  exists self', handle_data_indication _ uninit self = Some self' /\ serves self self' request.
Proof.
  intros [Hcotp Hsb] Hok Hr Hbytes. unfold CONFIG_MMS_MAXIMUM_PDU_SIZE in *.
  destruct (payload_message _ _ Hok Hbytes) as [post Hpay]. unfold handle_data_indication, CotpConnection_getPayload. rewrite Hpay.
  set (ctx := pr_mmsContextId (ic_presentation _ self)) in *. unfold data_message.
  rewrite parse_data_spdu by (unfold user_data; rewrite zlen_ber_tlv; pose proof (zlen_ber_length_bounds (zlen (ber_tlv 48 (ber_tlv 2 [ctx] ++ ber_tlv 160 request))));
    pose proof (zlen_nonneg (ber_tlv 48 (ber_tlv 2 [ctx] ++ ber_tlv 160 request))); lia).
  cbn [mbind option_bind]. unfold IsoSession_getUserData. cbn [with_userData is_userData]. unfold case_data. cbn [ic_presentation with_session].
  rewrite parse_user_data by lia. cbn [mbind option_bind]. change (1 =? 0) with false. cbv iota. cbn [pr_nextContextId pr_mmsContextId with_nextPayload with_nextContextId pr_nextPayload].
  fold ctx. rewrite Z.eqb_refl. unfold call_handler. cbn [ic_application ic_sendBuffer with_presentation with_session].
  set (req := message_of request post (zlen request)).
  assert (byteBuffer_ok req) as Hreq by (unfold req, message_of, byteBuffer_ok; cbn; pose proof (zlen_nonneg post); zlia).
  assert (byteBuffer_bytes req = request) as Hreqb by (unfold req, message_of, byteBuffer_bytes; cbn; by rewrite zlen_to_nat, take_app_length).
  pose proof (mms_answers (ic_application _ self) req (ic_sendBuffer _ self) Hreq Hsb) as Hans. rewrite Hreqb in Hans.
  unfold serves. destruct (mms_answer (ic_application _ self) request) as [s answer]. destruct Hans as (rest & -> & Hz & Hmax). cbn [mbind option_bind].
  set (self1 := with_answer _ _ _ _).
  destruct (answer_data_spec self1 answer rest Hcotp eq_refl Hz Hmax) as (self2 & -> & H1 & H2 & H3 & H4 & H5 & H6). cbn [mbind option_bind].
  eexists. split; [done|]. cbn [ic_application ic_state with_cotp ic_cotpConnection ic_presentation]. rewrite H1, H2, H4. split_and!; try done.
  - by destruct (ic_cotpConnection _ self2).
  - destruct (decide (answer = [])) as [He|He].
    + by rewrite H6.
    + exists (ic_cotpConnection _ self2). split; [exact H6 | done].
Qed.

(** ** A request that arrives in pieces *)

(** [n] turns of the server *)
Fixpoint run (n : nat) (uninit : Z) (self : connection) : option connection :=
  match n with
  | O => Some self
  | S n => self ← IsoConnection_handleTcpConnection _ uninit self true; run n uninit self
  end.

Definition answer_packets (self : connection) (answer : list Z) : list Z :=
  if decide (answer = []) then []
  else message_packets (ic_cotpConnection _ self) (data_message (pr_mmsContextId (ic_presentation _ self)) answer).

Definition can_send (cotp : CotpConnection) (n : Z) : Prop :=
  is_Some (ct_socketExtensionBuffer cotp) /\ sends_well cotp /\ extension_room cotp n.

(** The request has been answered: the layer above has seen it once, the packets of its answer
    follow what has been sent, and [tail] is left to read. *)
Definition served (self self' : connection) (request tail : list Z) : Prop :=
  let '(s, answer) := mms_answer (ic_application _ self) request in
  ic_application _ self' = s /\ ic_state _ self' = ic_state _ self /\
  sk_arriving (ct_socket (ic_cotpConnection _ self')) = tail /\ bb_size (ct_payload (ic_cotpConnection _ self')) = 0 /\
  exists p, tx_stream (ic_cotpConnection _ self') = tx_stream (ic_cotpConnection _ self) ++ p /\
    p `prefix_of` answer_packets self answer /\
    (can_send (ic_cotpConnection _ self) (zlen (answer_packets self answer)) -> p = answer_packets self answer).

Lemma tx_part_same cotp cotp' : tx_part cotp' = tx_part cotp ->
  (cotp_ok cotp -> cotp_ok cotp') /\ tx_stream cotp' = tx_stream cotp /\
  (forall m, message_packets cotp' m = message_packets cotp m) /\ (forall n, can_send cotp n -> can_send cotp' n).
Proof.
  unfold tx_part. intros [= H1 H2 H3 H4 H5 H6 H7 H8 H9 H10 H11].
  assert (CotpConnection_getTpduSize cotp' = CotpConnection_getTpduSize cotp) as Ht by (unfold CotpConnection_getTpduSize; by rewrite H4).
  assert (extension_ok cotp -> extension_ok cotp') as He by (unfold extension_ok; by rewrite H6, H7, H8).
  split_and!.
  - intros (Hs & Hx & wb & Hwb & Hm & Hf). unfold cotp_ok. rewrite H4, H5, Ht. split; [done|]. split; [auto|]. by exists wb.
  - unfold tx_stream, extension_bytes. by rewrite H6, H8, H9.
  - intros m. unfold message_packets. by rewrite Ht.
  - intros n (Hi & Hw & Hr). unfold can_send, sends_well, extension_room in *. by rewrite H6, H7, H8, H10.
Qed.

Lemma handle_receive uninit (self : connection) state indication cotp :
  cotp_receive (ic_cotpConnection _ self) = Some (state, indication, cotp) ->
  IsoConnection_handleTcpConnection _ uninit self true =
  match state, indication with
  | TPKT_WAITING, _ => Some (with_cotp _ self cotp)
  | TPKT_PACKET_COMPLETE, Some COTP_MORE_FRAGMENTS_FOLLOW => Some (with_cotp _ self cotp)
  | TPKT_PACKET_COMPLETE, Some COTP_DATA_INDICATION => handle_data_indication _ uninit (with_cotp _ self cotp)
  | _, _ => IsoConnection_handleTcpConnection _ uninit self true
  end.
Proof.
  unfold cotp_receive, IsoConnection_handleTcpConnection, handle_ready. destruct (CotpConnection_readToTpktBuffer _) as [[[] c1]|]; cbn [mbind option_bind]; try done.
  - cbn [ic_cotpConnection with_cotp]. destruct (CotpConnection_parseIncomingMessage c1) as [[i c2]|]; cbn [mbind option_bind]; [|done].
    intros [= <- <- <-]. by destruct i.
  - by intros [= <- <- <-].
  - by intros [= <- <- <-].
Qed.

Lemma serves_served (self : connection) cotp self' request tail :
  tx_part cotp = tx_part (ic_cotpConnection _ self) -> sk_arriving (ct_socket cotp) = tail ->
  serves (with_cotp _ self cotp) self' request -> served self self' request tail.
Proof.
  intros Htx Har. destruct (tx_part_same _ _ Htx) as (_ & Hs & Hm & Hcan). unfold serves, served, answer_packets. cbn [ic_application with_cotp ic_state ic_presentation ic_cotpConnection].
  destruct (mms_answer (ic_application _ self) request) as [s answer]. intros (H1 & H2 & _ & H4 & H5). split; [done|]. split; [done|].
  destruct (decide (answer = [])) as [He|He].
  - rewrite H5 in *. split; [by destruct cotp|]. split; [done|]. exists []. rewrite tx_stream_reset, Hs, app_nil_r. done.
  - destruct H5 as (c2 & [Hf (p & Hp & Hst & Hall)] & ->). split; [rewrite <- Har, <- (tf_arriving _ _ Hf); by destruct c2|]. split; [by destruct c2|].
    exists p. rewrite tx_stream_reset, Hst, Hs. split; [done|]. rewrite Hm in Hp, Hall. split; [done|].
    intros Hc. destruct (Hcan _ Hc) as (? & ? & ?). by apply Hall.
Qed.

(** Whatever the pieces the packets of a message arrive in, after at most one turn per
    byte it is indicated. *)
Lemma run_to_indication uninit fuel : forall (self : connection) n size data got acc tail,
  rx_pending (ic_cotpConnection _ self) n size data got acc tail ->
  let rs := sk_recvResults (ct_socket (ic_cotpConnection _ self)) in
  positive rs -> (4 * fuel <= length rs)%nat -> zlen (sk_arriving (ct_socket (ic_cotpConnection _ self))) <= zlen tail + Z.of_nat fuel ->
  exists k cotp, (k < fuel)%nat /\ (forall self', handle_data_indication _ uninit (with_cotp _ self cotp) = Some self' -> run (S k) uninit self = Some self') /\
    byteBuffer_bytes (ct_payload cotp) = acc ++ data /\ byteBuffer_ok (ct_payload cotp) /\ sk_arriving (ct_socket cotp) = tail /\
    tx_part cotp = tx_part (ic_cotpConnection _ self).
Proof.
  induction fuel as [|fuel IH]; intros self n size data got acc tail Hp rs Hpos Hlen Harr.
  { exfalso. pose proof (pending_arriving _ _ _ _ _ _ _ Hp). lia. }
  destruct (receive_turn _ n size data got acc tail Hp) as ([[st ind] c1] & Hrec & Ht & (j & Hj & Hrs) & Hle & Hlt & Htx & _). cbn [snd] in *. fold rs in Hrs, Hlt.
  specialize (Hlt Hpos ltac:(lia)). pose proof (handle_receive uninit self st ind c1 Hrec) as Hh.
  assert (forall n' data' got' acc', rx_pending c1 n' size data' got' acc' tail -> acc' ++ data' = acc ++ data ->
    IsoConnection_handleTcpConnection _ uninit self true = Some (with_cotp _ self c1) ->
    exists k cotp, (k < S fuel)%nat /\ (forall self', handle_data_indication _ uninit (with_cotp _ self cotp) = Some self' -> run (S k) uninit self = Some self') /\
      byteBuffer_bytes (ct_payload cotp) = acc ++ data /\ byteBuffer_ok (ct_payload cotp) /\ sk_arriving (ct_socket cotp) = tail /\
      tx_part cotp = tx_part (ic_cotpConnection _ self)) as Hnext.
  { intros n' data' got' acc' Hp' Hm' Hh'.
    destruct (IH (with_cotp _ self c1) n' size data' got' acc' tail Hp') as (k & cotp & Hk & Hrun & Hb & Hok & Har & Htx').
    - cbn [with_cotp ic_cotpConnection]. rewrite Hrs. by apply Forall_drop.
    - cbn [with_cotp ic_cotpConnection]. rewrite Hrs, length_drop. lia.
    - cbn [with_cotp ic_cotpConnection]. lia.
    - exists (S k), cotp. split; [lia|]. split; [|split_and!; [by rewrite <- Hm' | done | done | by rewrite Htx']].
      intros self' Hd. change (run (S (S k)) uninit self) with (self ← IsoConnection_handleTcpConnection _ uninit self true; run (S k) uninit self).
      rewrite Hh'. cbn [mbind option_bind]. by apply Hrun. }
  destruct st; destruct ind as [[]|]; cbn [turn_result] in Ht; try done.
  - destruct Ht as (Hb & Hbok & Har & _). exists 0%nat, c1. split; [lia|]. split; [|split_and!; done].
    intros self' Hd. cbn [run]. rewrite Hh, Hd. done.
  - destruct Ht as [_ Hp']. eapply Hnext; [exact Hp' | | exact Hh]. by rewrite <- app_assoc, take_drop.
  - destruct Ht as [got' Hp']. by eapply Hnext.
Qed.

(** A request that arrives is served. *)
Lemma serve_request uninit fuel (self : connection) request n size data got acc tail :
  server_ok self -> rx_pending (ic_cotpConnection _ self) n size data got acc tail ->
  acc ++ data = data_message (pr_mmsContextId (ic_presentation _ self)) request -> 0 < zlen request <= CONFIG_MMS_MAXIMUM_PDU_SIZE ->
  let rs := sk_recvResults (ct_socket (ic_cotpConnection _ self)) in
  positive rs -> (4 * fuel <= length rs)%nat -> zlen (sk_arriving (ct_socket (ic_cotpConnection _ self))) <= zlen tail + Z.of_nat fuel ->
  exists k self', (k <= fuel)%nat /\ run k uninit self = Some self' /\ served self self' request tail.
Proof.
  intros Hok Hp Hmsg Hr rs Hpos Hlen Harr.
  destruct (run_to_indication uninit fuel self n size data got acc tail Hp Hpos Hlen Harr) as (k & cotp & Hk & Hrun & Hb & Hbok & Har & Htx).
  destruct (tx_part_same _ _ Htx) as (Hcok & _). pose proof Hok as [Hc Hsb].
  destruct (data_indication_spec uninit (with_cotp _ self cotp) request) as (self' & Hd & Hs); [split; [by apply Hcok | done] | done | done | exact (eq_trans Hb Hmsg)|].
  exists (S k), self'. split; [lia|]. split; [by apply Hrun|]. by eapply serves_served.
Qed.

(** ** Association *)

(** the answer to an association request *)
Definition accept_message (session : IsoSession) (ctx reference : Z) (answer : list Z) : list Z :=
  let pdu := cpa_pdu ctx (aare_bytes 0 reference answer) in
  spdu_header 14 (accept_items session) (zlen pdu) ++ pdu.

Lemma zlen_suffix_le (whole pre part : list Z) : whole = pre ++ part -> zlen part <= zlen whole.
Proof. intros ->. pose proof (zlen_nonneg pre). zlia. Qed.

Lemma answer_associate_spec (self : connection) answer rest :
  cotp_ok (ic_cotpConnection _ self) -> session_ok (ic_session _ self) ->
  ic_sendBuffer _ self = answer ++ rest -> zlen (answer ++ rest) = SEND_BUF_SIZE -> answer <> [] ->
  let message := accept_message (ic_session _ self) (pr_acseContextId (ic_presentation _ self)) (u32 (ac_nextReference (ic_acseConnection _ self))) answer in
  zlen message <= 257 ->
  exists self', answer_associate _ self (zlen answer) = Some self' /\
    ic_application _ self' = ic_application _ self /\ ic_state _ self' = ic_state _ self /\
    ic_presentation _ self' = ic_presentation _ self /\ transmits (ic_cotpConnection _ self) (ic_cotpConnection _ self') message.
Proof.
  intros Hc Hses Hsb Hz Hne message Hmax. pose proof Hses as (_ & _ & Hq & Ho).
  assert (0 < zlen answer) as Hpos by (destruct answer; [done|]; rewrite zlen_cons; pose proof (zlen_nonneg answer); lia).
  set (ctx := pr_acseContextId (ic_presentation _ self)) in *. set (reference := u32 (ac_nextReference (ic_acseConnection _ self))) in *.
  set (aare := aare_bytes 0 reference answer). set (pdu := cpa_pdu ctx aare).
  assert (zlen aare <= zlen pdu) as Hl1.
  { unfold pdu. destruct (cpa_parameters_suffix ctx aare) as [pre Hpre]. destruct (pdu_suffix _ _ _ Hpre) as [pre' Hsuf]. by eapply zlen_suffix_le. }
  assert (zlen answer <= zlen aare) as Hl2.
  { unfold aare, aare_bytes. destruct (user_information_suffix (ber_uint32 reference) answer) as [pre Hpre]. rewrite Hpre.
    eapply zlen_suffix_le. unfold ber_tlv at 1. rewrite !app_assoc, app_comm_cons. done. }
  assert (zlen message = 4 + zlen (items_bytes (accept_items (ic_session _ self))) + zlen pdu) as Hzm by (unfold message, accept_message, spdu_header; fold aare; fold pdu; zlia).
  pose proof (zlen_nonneg (items_bytes (accept_items (ic_session _ self)))) as Hib.
  unfold answer_associate. if_true. destruct (mms_part_spec answer rest Hpos) as [Hok Hbytes]. rewrite Hsb. set (mms := BufferChain_init _ _ _ _) in *.
  assert (bc_length mms = zlen answer) as Hlen by done. unfold SEND_BUF_SIZE, CONFIG_MMS_MAXIMUM_PDU_SIZE in *.
  destruct (add_part_spec (bc_length mms) (fun buf mx => AcseConnection_createAssociateResponseMessage (ic_acseConnection _ self) ACSE_RESULT_ACCEPT buf mx (Some mms))
    (answer ++ rest) aare) as (sb1 & c1 & -> & Hok1 & Hb1 & Hz1 & Hl1'); [lia | |].
  { pose proof (createAssociateResponse_spec (ic_acseConnection _ self) ACSE_RESULT_ACCEPT (ptr_add (answer ++ rest) (bc_length mms)) (SEND_BUF_SIZE - bc_length mms) mms Hok) as H1.
    rewrite Hbytes in H1. apply H1; [lia | apply ptr_add_room; lia]. }
  cbn [mbind option_bind].
  destruct (add_part_spec (bc_length c1) (fun buf mx => IsoPresentation_createCpaMessage (ic_presentation _ self) buf mx c1) sb1 pdu) as (sb2 & c2 & -> & Hok2 & Hb2 & Hz2 & Hl2'); [lia | |].
  { pose proof (createCpaMessage_spec (ic_presentation _ self) (ptr_add sb1 (bc_length c1)) (SEND_BUF_SIZE - bc_length c1) c1) as H1.
    rewrite Hb1 in H1. apply H1; [split; [done | lia] | apply ptr_add_room; lia]. }
  cbn [mbind option_bind].
  destruct (createAcceptSpdu_spec (ic_session _ self) (ptr_add sb2 (bc_length c2)) (SEND_BUF_SIZE - bc_length c2) c2 Hses Hok2) as (c3 & Hc3 & Hok3 & Hb3 & _); [lia | apply ptr_add_room; lia|].
  unfold add_part. if_true. rewrite Hc3. cbn [mbind option_bind].
  set (sb3 := take _ _ ++ _). destruct (send_chain_spec (with_answer _ self sb3 (ic_application _ self)) c3 Hc Hok3) as (cotp & -> & Ht).
  eexists. split; [done|]. cbn. split_and!; try done. rewrite Hb3, Hb2, Hl2' in Ht. exact Ht.
Qed.
(** a request to connect, through all layers *)
Definition connect_message (items : list spdu_item) (calling called : PSelector) (p : IsoConnectionParameters) (password : option (list Z))
    (init : list Z) : list Z :=
  let pdu := connect_pdu calling called 1 (aarq_bytes p password init) in
  spdu_header 13 items (zlen pdu) ++ pdu.

(** The authenticator decides by the password. *)
Definition decides (authenticator : AcseAuthenticator) (password : option (list Z)) (decision : bool) : Prop :=
  forall rest token reference, fst (fst (authenticator (client_parameter password rest) token reference)) = decision.

Lemma items_apply_ok items : forall s, session_ok s -> Forall item_ok items -> session_ok (fold_left item_apply items s).
Proof.
  induction items as [|i items IH]; intros s Hs Hi; [done|]. inversion Hi as [|? ? H1 H2]; subst. cbn [fold_left]. apply IH; [by apply item_apply_ok | done].
Qed.

Lemma association_decided self password rest authenticator decision :
  ac_authenticator self = Some authenticator -> decides authenticator password decision ->
  exists c, association self (client_parameter password rest) = (if decision then ACSE_ASSOCIATE else ACSE_ASSOCIATE_FAILED, c) /\
    ac_userDataBuffer c = ac_userDataBuffer self /\ ac_userDataBufferSize c = ac_userDataBufferSize self /\ ac_nextReference c = ac_nextReference self.
Proof.
  intros Ha Hd. unfold association. cbn [ac_authenticator with_securityToken ac_applicationReference]. rewrite Ha.
  specialize (Hd rest None (ac_applicationReference self)). destruct (authenticator _ _ _) as [[b token] reference]. cbn in Hd. subst b. by eexists.
Qed.

(** the sizes of the parts of a request to connect *)
Lemma connect_message_sizes items calling called p password init :
  zlen (connect_message items calling called p password init) <= 257 ->
  zlen init <= zlen (aarq_bytes p password init) <= 257 /\ zlen (connect_pdu calling called 1 (aarq_bytes p password init)) <= 257.
Proof.
  intros Hm. set (aarq := aarq_bytes p password init) in *. set (pdu := connect_pdu calling called 1 aarq) in *.
  assert (zlen pdu <= 257) as Hp.
  { revert Hm. unfold connect_message. fold aarq. fold pdu. unfold spdu_header. pose proof (zlen_nonneg (items_bytes items)). pose proof (zlen_nonneg pdu). zlia. }
  assert (zlen aarq <= zlen pdu) as H1.
  { unfold pdu. destruct (connect_parameters_suffix calling called 1 aarq) as [pre Hpre]. destruct (pdu_suffix _ _ _ Hpre) as [pre' Hsuf]. by eapply zlen_suffix_le. }
  assert (zlen init <= zlen aarq) as H2.
  { unfold aarq, aarq_bytes. destruct (user_information_suffix [3] init) as [pre Hpre]. rewrite Hpre.
    eapply zlen_suffix_le. unfold ber_tlv at 1. rewrite !app_assoc, app_comm_cons. done. }
  lia.
Qed.

(** What a request to connect does, by the decision of the authenticator. *)
Definition associates (self self' : connection) (init : list Z) (session : IsoSession) : Prop :=
  let '(s, answer) := mms_answer (ic_application _ self) init in
  ic_application _ self' = s /\ ic_state _ self' = ic_state _ self /\
  pr_acseContextId (ic_presentation _ self') = 1 /\ pr_mmsContextId (ic_presentation _ self') = 3 /\
  (answer <> [] -> zlen (accept_message session 1 3 answer) <= 257 ->
   exists cotp, transmits (ic_cotpConnection _ self) cotp (accept_message session 1 3 answer) /\ ic_cotpConnection _ self' = CotpConnection_resetPayload cotp).

Definition refuses (self self' : connection) : Prop :=
  ic_application _ self' = ic_application _ self /\ ic_state _ self' = ISO_CON_STATE_STOPPED /\
  tx_stream (ic_cotpConnection _ self') = tx_stream (ic_cotpConnection _ self).

Lemma connect_indication_spec uninit (self : connection) items calling called p password init authenticator decision :
  server_ok self -> session_ok (ic_session _ self) -> presentation_ok (ic_presentation _ self) -> Forall item_ok items ->
  pSelector_ok calling -> pSelector_ok called -> address_ok (ip_remote p) -> address_ok (ip_local p) -> password_ok password -> 0 < zlen init ->
  zlen (connect_message items calling called p password init) <= 257 ->
  ac_tlsSocket (ic_acseConnection _ self) = None -> ac_authenticator (ic_acseConnection _ self) = Some authenticator -> decides authenticator password decision ->
  byteBuffer_ok (ct_payload (ic_cotpConnection _ self)) ->
  byteBuffer_bytes (ct_payload (ic_cotpConnection _ self)) = connect_message items calling called p password init ->
  (forall s answer, mms_answer (ic_application _ self) init = (s, answer) -> answer <> [] ->
     zlen (accept_message (fold_left item_apply items (ic_session _ self)) 1 3 answer) <= 257) ->
  exists self', handle_data_indication _ uninit self = Some self' /\
    if decision then associates self self' init (fold_left item_apply items (ic_session _ self)) else refuses self self'.
Proof.
  intros [Hcotp Hsb] Hses Hpres Hitems Hcg Hcd Hrem Hloc Hpw Hinit Hmsg Htls Hauth Hdec Hok Hbytes Hfit.
  destruct (connect_message_sizes _ _ _ _ _ _ Hmsg) as [[Hs1 Hs2] Hs3].
  destruct (payload_message _ _ Hok Hbytes) as [post Hpay]. unfold handle_data_indication, CotpConnection_getPayload. rewrite Hpay.
  unfold connect_message. rewrite parse_spdu by (done || (rewrite !elem_of_cons; auto)). cbn [mbind option_bind]. change (spdu_indication 13) with SESSION_CONNECT. cbv iota.
  set (session := fold_left item_apply items (ic_session _ self)) in *. unfold IsoSession_getUserData. cbn [with_userData is_userData].
  unfold case_connect. cbn [ic_presentation with_session]. rewrite parse_connect_pdu by (done || (unfold is_byte; lia) || lia). cbn [mbind option_bind]. change (1 =? 0) with false. cbv iota.
  cbn [pr_nextPayload pres_connected ic_acseConnection with_presentation with_session].
  match goal with |- context [AcseConnection_parseMessage ?u ?f ?c (mkByteBuffer _ ?m _)] =>
    change (AcseConnection_parseMessage u f c _) with (AcseConnection_parseMessage u f c (message_of (aarq_bytes p password init) post m)) end.
  rewrite (parse_aarq _ _ _ p password init post) by (done || lia). cbn [mbind option_bind].
  match goal with |- context [association ?a (client_parameter password ?r)] =>
    destruct (association_decided a password r authenticator decision) as (acse & -> & Hdata & Hsize & Href); [done | done|] end.
  cbn [ac_userDataBuffer ac_userDataBufferSize ac_nextReference with_information with_acseUserData with_nextReference with_applicationReference] in Hdata, Hsize, Href.
  change (u32 (be_val [3])) with 3 in Href.
  destruct decision.
  2: { eexists. split; [done|]. unfold refuses. cbn. by rewrite tx_stream_reset. }
  rewrite Hdata, Hsize. cbn [mbind option_bind]. unfold call_handler. cbn [ic_application ic_sendBuffer with_acse with_presentation with_session].
  set (req := ByteBuffer_wrap (init ++ post) (zlen init) (zlen init)).
  assert (byteBuffer_ok req) as Hreq by (unfold req, ByteBuffer_wrap, byteBuffer_ok; cbn; pose proof (zlen_nonneg post); zlia).
  assert (byteBuffer_bytes req = init) as Hreqb by (unfold req, ByteBuffer_wrap, byteBuffer_bytes; cbn; by rewrite zlen_to_nat, take_app_length).
  pose proof (mms_answers (ic_application _ self) req (ic_sendBuffer _ self) Hreq Hsb) as Hans. rewrite Hreqb in Hans.
  unfold associates. destruct (mms_answer (ic_application _ self) init) as [s answer] eqn:Eans. destruct Hans as (rest & -> & Hz & Hmax). cbn [mbind option_bind].
  destruct (decide (answer = [])) as [He|He].
  { rewrite He. unfold answer_associate. change (0 <? zlen (@nil Z)) with false. cbv iota. cbn [mbind option_bind]. eexists. split; [done|]. cbn. split_and!; done. }
  set (self1 := with_answer _ _ _ _). assert (session_ok session) as Hses2 by (by apply items_apply_ok).
  destruct (answer_associate_spec self1 answer rest) as (self2 & -> & H1 & H2 & H3 & H4); try done.
  { cbn. rewrite Href. change (u32 3) with 3. exact (Hfit s answer eq_refl He). }
  cbn [mbind option_bind]. eexists. split; [done|]. cbn [ic_application ic_state with_cotp ic_cotpConnection ic_presentation]. rewrite H1, H2, H3. split_and!; try done.
  intros _ _. exists (ic_cotpConnection _ self2). split; [|done]. cbn in H4. rewrite Href in H4. exact H4.
Qed.
End Server.
