(* ===== verification/IsoClient.v ===== *)
(** The connection of an ISO client:
    src/libiec61850/src/mms/iso_client/iso_client_connection.c.

    A client connects in the background: each tick ([IsoClientConnection_handleConnection])
    takes one step of the state machine [intState], from the TCP connection over
    the handshake of the transport layer to the association, and then hands the
    messages that arrive to the callback. The MMS client above is the argument
    [callback] with its state; it gets the connection, for it may call it back.

    What the platform answers in a tick (the state of the TCP connection and the
    times that are read) is the argument [Tick]. The semaphore of the transmit
    buffer is the number of its permits; waiting for it with none left blocks, and
    the result is [None]. The other two semaphores make a tick and the access to
    [state] atomic, which calls in a sequence are. *)

From S2P Require Import Prelude BerEncoder BerDecoder ByteBuffer IsoParameters Cotp IsoSession IsoPresentation Acse IsoConnection.
Open Scope Z_scope.

Definition ISO_CLIENT_BUFFER_SIZE : Z := CONFIG_MMS_MAXIMUM_PDU_SIZE + 100.

Inductive ClientState := STATE_IDLE | STATE_CONNECTED | STATE_ERROR | STATE_CONNECTING.

Inductive eIsoClientInternalState :=
| INT_STATE_IDLE
| INT_STATE_TCP_CONNECTING
| INT_STATE_WAIT_FOR_COTP_CONNECT_RESP
| INT_STATE_WAIT_FOR_ACSE_RESP
| INT_STATE_WAIT_FOR_DATA_MSG
| INT_STATE_CLOSING_CONNECTION
| INT_STATE_CLOSE_ON_ERROR
| INT_STATE_ERROR.

Inductive IsoIndication :=
| ISO_IND_ASSOCIATION_SUCCESS
| ISO_IND_ASSOCIATION_FAILED
| ISO_IND_CLOSED
| ISO_IND_DATA
| ISO_IND_TICK.

(** src/libiec61850/hal/inc/hal_socket.h *)
Inductive SocketState := SOCKET_STATE_CONNECTING | SOCKET_STATE_FAILED | SOCKET_STATE_CONNECTED.

Record Tick := mkTick {
  tk_socketState : SocketState;
  tk_now : Z;
  tk_later : Z
}.

Section Client.
Context {app : Type}.

(** [cl_socket] is the handle of the socket, null after it was released; what
    the socket has done since the transport connection uses it is found there. The
    transport connection also holds the receive buffers, from the start. The
    transmit buffer is the start of [cl_sendBuffer]. *)
Record IsoClientConnection := mkIsoClientConnection {
  cl_parameters : IsoConnectionParameters;
  cl_intState : eIsoClientInternalState;
  cl_state : ClientState;
  cl_readTimeoutInMs : Z;
  cl_nextReadTimeout : Z;
  cl_socket : option Socket;
  cl_cotpConnection : CotpConnection;
  cl_presentation : IsoPresentation;
  cl_session : IsoSession;
  cl_acseConnection : AcseConnection;
  cl_sendBuffer : list Z;
  cl_transmitSize : Z;
  cl_transmitPermits : Z;
  cl_application : app
}.

(** assignments to members *)
Definition cl_with_states (c : IsoClientConnection) (i : eIsoClientInternalState) (s : ClientState) : IsoClientConnection :=
  mkIsoClientConnection (cl_parameters c) i s (cl_readTimeoutInMs c) (cl_nextReadTimeout c) (cl_socket c) (cl_cotpConnection c)
    (cl_presentation c) (cl_session c) (cl_acseConnection c) (cl_sendBuffer c) (cl_transmitSize c) (cl_transmitPermits c) (cl_application c).
Definition setIntState (c : IsoClientConnection) (i : eIsoClientInternalState) : IsoClientConnection := cl_with_states c i (cl_state c).
Definition setState (c : IsoClientConnection) (s : ClientState) : IsoClientConnection := cl_with_states c (cl_intState c) s.
Definition cl_with_timeouts (c : IsoClientConnection) (r n : Z) : IsoClientConnection :=
  mkIsoClientConnection (cl_parameters c) (cl_intState c) (cl_state c) r n (cl_socket c) (cl_cotpConnection c)
    (cl_presentation c) (cl_session c) (cl_acseConnection c) (cl_sendBuffer c) (cl_transmitSize c) (cl_transmitPermits c) (cl_application c).
Definition cl_with_socket (c : IsoClientConnection) (s : option Socket) : IsoClientConnection :=
  mkIsoClientConnection (cl_parameters c) (cl_intState c) (cl_state c) (cl_readTimeoutInMs c) (cl_nextReadTimeout c) s (cl_cotpConnection c)
    (cl_presentation c) (cl_session c) (cl_acseConnection c) (cl_sendBuffer c) (cl_transmitSize c) (cl_transmitPermits c) (cl_application c).
Definition cl_with_cotp (c : IsoClientConnection) (v : CotpConnection) : IsoClientConnection :=
  mkIsoClientConnection (cl_parameters c) (cl_intState c) (cl_state c) (cl_readTimeoutInMs c) (cl_nextReadTimeout c) (cl_socket c) v
    (cl_presentation c) (cl_session c) (cl_acseConnection c) (cl_sendBuffer c) (cl_transmitSize c) (cl_transmitPermits c) (cl_application c).
Definition cl_with_layers (c : IsoClientConnection) (p : IsoPresentation) (s : IsoSession) (a : AcseConnection) : IsoClientConnection :=
  mkIsoClientConnection (cl_parameters c) (cl_intState c) (cl_state c) (cl_readTimeoutInMs c) (cl_nextReadTimeout c) (cl_socket c)
    (cl_cotpConnection c) p s a (cl_sendBuffer c) (cl_transmitSize c) (cl_transmitPermits c) (cl_application c).
Definition cl_with_session (c : IsoClientConnection) (s : IsoSession) : IsoClientConnection :=
  cl_with_layers c (cl_presentation c) s (cl_acseConnection c).
Definition cl_with_presentation (c : IsoClientConnection) (p : IsoPresentation) : IsoClientConnection :=
  cl_with_layers c p (cl_session c) (cl_acseConnection c).
Definition cl_with_acse (c : IsoClientConnection) (a : AcseConnection) : IsoClientConnection :=
  cl_with_layers c (cl_presentation c) (cl_session c) a.
Definition cl_with_transmit (c : IsoClientConnection) (b : list Z) (n permits : Z) : IsoClientConnection :=
  mkIsoClientConnection (cl_parameters c) (cl_intState c) (cl_state c) (cl_readTimeoutInMs c) (cl_nextReadTimeout c) (cl_socket c)
    (cl_cotpConnection c) (cl_presentation c) (cl_session c) (cl_acseConnection c) b n permits (cl_application c).
Definition cl_with_sendBuffer (c : IsoClientConnection) (b : list Z) : IsoClientConnection :=
  cl_with_transmit c b (cl_transmitSize c) (cl_transmitPermits c).
Definition cl_with_application (c : IsoClientConnection) (s : app) : IsoClientConnection :=
  mkIsoClientConnection (cl_parameters c) (cl_intState c) (cl_state c) (cl_readTimeoutInMs c) (cl_nextReadTimeout c) (cl_socket c)
    (cl_cotpConnection c) (cl_presentation c) (cl_session c) (cl_acseConnection c) (cl_sendBuffer c) (cl_transmitSize c)
    (cl_transmitPermits c) s.

Definition IsoClientConnection_create (parameters : IsoConnectionParameters) (callbackParameter : app) : IsoClientConnection :=
  let rcvBuffer := ByteBuffer_wrap (replicate (Z.to_nat ISO_CLIENT_BUFFER_SIZE) 0) 0 ISO_CLIENT_BUFFER_SIZE in
  let cotpBufSize := CONFIG_COTP_MAX_TPDU_SIZE + TPKT_RFC1006_HEADER_SIZE in
  let cotpBuffer := ByteBuffer_wrap (replicate (Z.to_nat cotpBufSize) 0) 0 cotpBufSize in
  let tsel := mkTSelector 0 (replicate 4 0) in
  let psel := mkPSelector 0 (replicate 16 0) in
  let ssel := mkSSelector 0 (replicate 16 0) in
  mkIsoClientConnection parameters INT_STATE_IDLE STATE_IDLE 0 0 None
    (mkCotpConnection 0 0 0 (mkSocket [] [] [] []) (mkCotpOptions tsel tsel 0) false rcvBuffer (Some cotpBuffer) cotpBuffer 0 None 0 0)
    (mkIsoPresentation psel psel 0 0 0 (mkByteBuffer [] 0 0))
    (mkIsoSession ssel ssel 0 0 (mkByteBuffer [] 0 0)) (AcseConnection_init None None)
    (replicate (Z.to_nat ISO_CLIENT_BUFFER_SIZE) 0) 0 1 callbackParameter.

(** ** The transmit buffer *)

Definition IsoClientConnection_allocateTransmitBuffer (self : IsoClientConnection) : option IsoClientConnection :=
  if 0 <? cl_transmitPermits self then Some (cl_with_transmit self (cl_sendBuffer self) 0 (cl_transmitPermits self - 1)) else None.

Definition IsoClientConnection_releaseTransmitBuffer (self : IsoClientConnection) : IsoClientConnection :=
  cl_with_transmit self (cl_sendBuffer self) (cl_transmitSize self) (cl_transmitPermits self + 1).

(** ** Sending *)

(** [part->buffer = sendBuffer + offset], and the send buffer once the part has been written *)
Definition part_at (sendBuffer : list Z) (offset : Z) : option (list Z) :=
  if (0 <=? offset) && (offset <=? zlen sendBuffer) then Some (ptr_add sendBuffer offset) else None.
Definition part_written (sendBuffer : list Z) (offset : Z) (chain : BufferChain) : list Z :=
  take (Z.to_nat offset) sendBuffer ++ bc_buffer chain.

(** The transport layer uses the socket: it must not have been released. *)
Definition client_send (self : IsoClientConnection) (chain : BufferChain) : option (CotpIndication * IsoClientConnection) :=
  _ ← cl_socket self;
  '(indication, cotp) ← CotpConnection_sendDataMessage (cl_cotpConnection self) chain;
  Some (indication, cl_with_cotp self cotp).

(** Memory for the buffer that extends the socket is there. *)
Definition sendConnectionRequestMessage (self : IsoClientConnection) : option (bool * IsoClientConnection) :=
  let socketExtensionBufferSize := CONFIG_MMS_MAXIMUM_PDU_SIZE + 1000 in
  let cotp := cl_cotpConnection self in
  let socketExtensionBuffer := match ct_socketExtensionBuffer cotp with
    | Some buffer => buffer
    | None => replicate (Z.to_nat socketExtensionBufferSize) 0
    end in
  socket ← cl_socket self;
  cotp ← CotpConnection_init socket (ct_payload cotp) (ct_readBuffer cotp) (ct_writeBuffer cotp)
           (Some socketExtensionBuffer) socketExtensionBufferSize;
  '(cotpIndication, cotp) ← CotpConnection_sendConnectionRequestMessage cotp (cl_parameters self);
  Some (match cotpIndication with COTP_OK => true | _ => false end, cl_with_cotp self cotp).

(** [uninit] is [partMaxLength] of the session part, which is not set. *)
Definition sendAcseInitiateRequest (uninit : Z) (self : IsoClientConnection) : option IsoClientConnection :=
  let size := cl_transmitSize self in
  let acsePayload := BufferChain_init size size None (cl_sendBuffer self) in
  let acse := AcseConnection_init None None in
  let authParameter := ip_acseAuthParameter (cl_parameters self) in
  let sendBuffer := cl_sendBuffer self in
  buf ← part_at sendBuffer size;
  acseBuffer ← AcseConnection_createAssociateRequestMessage (cl_parameters self) buf (ISO_CLIENT_BUFFER_SIZE - bc_length acsePayload)
                 acsePayload authParameter;
  let sendBuffer := part_written sendBuffer size acseBuffer in
  buf ← part_at sendBuffer (bc_length acseBuffer);
  '(presentation, presentationBuffer) ← IsoPresentation_createConnectPdu (IsoPresentation_init (cl_presentation self)) (cl_parameters self) buf
     (ISO_CLIENT_BUFFER_SIZE - bc_length acseBuffer) acseBuffer;
  let sendBuffer := part_written sendBuffer (bc_length acseBuffer) presentationBuffer in
  buf ← part_at sendBuffer (bc_length presentationBuffer);
  '(session, sessionBuffer) ← IsoSession_createConnectSpdu IsoSession_init (cl_parameters self) buf uninit presentationBuffer;
  let sendBuffer := part_written sendBuffer (bc_length presentationBuffer) sessionBuffer in
  let self := cl_with_sendBuffer (cl_with_layers self presentation session acse) sendBuffer in
  '(_, self) ← client_send self sessionBuffer;
  Some (IsoClientConnection_releaseTransmitBuffer self).

(** [payloadBuffer] is usually the transmit buffer, at the start of the send buffer. *)
Definition IsoClientConnection_sendMessage (self : IsoClientConnection) (payloadBuffer : ByteBuffer) : option IsoClientConnection :=
  self ← match cl_state self with
         | STATE_CONNECTED =>
             let payload := BufferChain_init (bb_size payloadBuffer) (bb_size payloadBuffer) None (bb_buffer payloadBuffer) in
             buf ← part_at (cl_sendBuffer self) (bc_length payload);
             presentationBuffer ← IsoPresentation_createUserData (cl_presentation self) buf ISO_CLIENT_BUFFER_SIZE payload;
             let sendBuffer := part_written (cl_sendBuffer self) (bc_length payload) presentationBuffer in
             let sessionBuffer := IsoSession_createDataSpdu 0 presentationBuffer in
             '(_, self) ← client_send (cl_with_sendBuffer self sendBuffer) sessionBuffer;
             Some self
         | _ => Some self
         end;
  Some (IsoClientConnection_releaseTransmitBuffer self).

(** a message of three parts that are written behind each other *)
Definition send_parts (self : IsoClientConnection) (create1 : list Z -> Z -> option BufferChain)
    (create2 create3 : list Z -> Z -> BufferChain -> option BufferChain) : option IsoClientConnection :=
  self ← IsoClientConnection_allocateTransmitBuffer self;
  let sendBuffer := cl_sendBuffer self in
  acseBuffer ← create1 sendBuffer ISO_CLIENT_BUFFER_SIZE;
  let sendBuffer := part_written sendBuffer 0 acseBuffer in
  buf ← part_at sendBuffer (bc_length acseBuffer);
  presentationBuffer ← create2 buf (ISO_CLIENT_BUFFER_SIZE - bc_length acseBuffer) acseBuffer;
  let sendBuffer := part_written sendBuffer (bc_length acseBuffer) presentationBuffer in
  buf ← part_at sendBuffer (bc_length presentationBuffer);
  sessionBuffer ← create3 buf (ISO_CLIENT_BUFFER_SIZE - bc_length presentationBuffer) presentationBuffer;
  let sendBuffer := part_written sendBuffer (bc_length presentationBuffer) sessionBuffer in
  '(_, self) ← client_send (cl_with_sendBuffer self sendBuffer) sessionBuffer;
  Some (IsoClientConnection_releaseTransmitBuffer self).

Definition sendAbortMessage (self : IsoClientConnection) : option IsoClientConnection :=
  send_parts self (fun buf mx => AcseConnection_createAbortMessage buf mx false)
    (IsoPresentation_createAbortUserMessage (cl_presentation self)) IsoSession_createAbortSpdu.

Definition IsoClientConnection_abortAsync (self : IsoClientConnection) : option IsoClientConnection := sendAbortMessage self.

Definition IsoClientConnection_release (self : IsoClientConnection) : option IsoClientConnection :=
  send_parts self AcseConnection_createReleaseRequestMessage
    (IsoPresentation_createUserDataACSE (cl_presentation self)) IsoSession_createFinishSpdu.

(** ** The state machine *)

Definition releaseSocket (self : IsoClientConnection) : IsoClientConnection := cl_with_socket self None.

Context (callback : IsoIndication -> option ByteBuffer -> IsoClientConnection -> option (bool * IsoClientConnection)).

Definition tell (indication : IsoIndication) (self : IsoClientConnection) : option IsoClientConnection :=
  '(_, self) ← callback indication None self; Some self.

(** the value of [waits], of [nextState] and the connection *)
Definition ClientTurn : Type := bool * eIsoClientInternalState * IsoClientConnection.

Definition association_failed (self : IsoClientConnection) : option ClientTurn :=
  self ← tell ISO_IND_ASSOCIATION_FAILED self; Some (false, INT_STATE_CLOSE_ON_ERROR, self).

Definition connect_failed (self : IsoClientConnection) : option ClientTurn :=
  association_failed (IsoClientConnection_releaseTransmitBuffer self).

(** [self->nextReadTimeout = Hal_getTimeInMs() + self->readTimeoutInMs] *)
Definition restart_timeout (t : Tick) (self : IsoClientConnection) : IsoClientConnection :=
  cl_with_timeouts self (cl_readTimeoutInMs self) (u64 (tk_later t + cl_readTimeoutInMs self)).

Definition state_tcp_connecting (t : Tick) (self : IsoClientConnection) : option ClientTurn :=
  match tk_socketState t with
  | SOCKET_STATE_CONNECTED =>
      '(sent, self) ← sendConnectionRequestMessage self;
      if sent : bool then Some (false, INT_STATE_WAIT_FOR_COTP_CONNECT_RESP, restart_timeout t self) else connect_failed self
  | SOCKET_STATE_FAILED => connect_failed self
  | SOCKET_STATE_CONNECTING =>
      if cl_nextReadTimeout self <? tk_now t then connect_failed self else Some (true, cl_intState self, self)
  end.

(** [CotpConnection_readToTpktBuffer] and, for a complete packet, [CotpConnection_parseIncomingMessage];
    both use the socket *)
Definition client_receive (self : IsoClientConnection) : option (TpktState * option CotpIndication * IsoClientConnection) :=
  _ ← cl_socket self;
  '(packetState, cotp) ← CotpConnection_readToTpktBuffer (cl_cotpConnection self);
  match packetState with
  | TPKT_PACKET_COMPLETE =>
      '(cotpIndication, cotp) ← CotpConnection_parseIncomingMessage cotp;
      Some (packetState, Some cotpIndication, cl_with_cotp self cotp)
  | _ => Some (packetState, None, cl_with_cotp self cotp)
  end.

Definition state_wait_for_cotp (uninit : Z) (t : Tick) (self : IsoClientConnection) : option ClientTurn :=
  if cl_nextReadTimeout self <? tk_now t then connect_failed self
  else
    '(packetState, cotpIndication, self) ← client_receive self;
    match packetState, cotpIndication with
    | TPKT_PACKET_COMPLETE, Some COTP_CONNECT_INDICATION =>
        self ← sendAcseInitiateRequest uninit self;
        Some (false, INT_STATE_WAIT_FOR_ACSE_RESP, restart_timeout t self)
    | TPKT_WAITING, _ => Some (true, cl_intState self, self)
    | _, _ => connect_failed self
    end.

(** a message of the session layer that arrived while the association is pending *)
Definition associate_response (uninit : Z) (self : IsoClientConnection) : option ClientTurn :=
  let cotpPayload := CotpConnection_getPayload (cl_cotpConnection self) in
  '(sessionIndication, session) ← IsoSession_parseMessage (cl_session self) cotpPayload;
  let self := cl_with_session self session in
  match sessionIndication with
  | SESSION_CONNECT =>
      '(ok, presentation) ← IsoPresentation_parseAcceptMessage (cl_presentation self) (IsoSession_getUserData session);
      let self := cl_with_presentation self presentation in
      '(waits, nextState, self) ←
        (if ok =? 0 then association_failed self
         else
           '(acseIndication, acse) ← AcseConnection_parseMessage uninit
              (byte_before (bb_buffer cotpPayload) (bb_buffer (pr_nextPayload presentation))) (cl_acseConnection self) (pr_nextPayload presentation);
           let self := cl_with_acse self acse in
           match acseIndication with
           | ACSE_ASSOCIATE =>
               data ← ac_userDataBuffer acse;
               let receivePayloadBuffer := ByteBuffer_wrap data (ac_userDataBufferSize acse) (ac_userDataBufferSize acse) in
               let self := setState self STATE_CONNECTED in
               '(accepted, self) ← callback ISO_IND_ASSOCIATION_SUCCESS (Some receivePayloadBuffer) self;
               Some (false, if accepted : bool then INT_STATE_WAIT_FOR_DATA_MSG else INT_STATE_CLOSE_ON_ERROR, self)
           | _ => association_failed self
           end);
      Some (waits, nextState, cl_with_cotp self (CotpConnection_resetPayload (cl_cotpConnection self)))
  | _ => association_failed self
  end.

Definition state_wait_for_acse (uninit : Z) (t : Tick) (self : IsoClientConnection) : option ClientTurn :=
  if cl_nextReadTimeout self <? tk_now t then association_failed self
  else
    '(packetState, cotpIndication, self) ← client_receive self;
    match packetState, cotpIndication with
    | TPKT_PACKET_COMPLETE, Some COTP_DATA_INDICATION => associate_response uninit self
    | TPKT_WAITING, _ => Some (true, cl_intState self, self)
    | _, _ => association_failed self
    end.

Definition data_message_arrived (self : IsoClientConnection) : option ClientTurn :=
  '(sessionIndication, session) ← IsoSession_parseMessage (cl_session self) (CotpConnection_getPayload (cl_cotpConnection self));
  let self := cl_with_session self session in
  match sessionIndication with
  | SESSION_DATA =>
      '(ok, presentation) ← IsoPresentation_parseUserData (cl_presentation self) (IsoSession_getUserData session);
      let self := cl_with_presentation self presentation in
      if ok =? 0 then Some (false, INT_STATE_CLOSE_ON_ERROR, self)
      else
        '(_, self) ← callback ISO_IND_DATA (Some (pr_nextPayload presentation)) self;
        Some (false, INT_STATE_WAIT_FOR_DATA_MSG, cl_with_cotp self (CotpConnection_resetPayload (cl_cotpConnection self)))
  | _ => Some (false, INT_STATE_CLOSE_ON_ERROR, self)
  end.

Definition state_wait_for_data (self : IsoClientConnection) : option ClientTurn :=
  '(packetState, cotpIndication, self) ← client_receive self;
  match packetState, cotpIndication with
  | TPKT_ERROR, _ => Some (false, INT_STATE_CLOSE_ON_ERROR, self)
  | TPKT_PACKET_COMPLETE, Some COTP_MORE_FRAGMENTS_FOLLOW => Some (false, INT_STATE_WAIT_FOR_DATA_MSG, self)
  | TPKT_PACKET_COMPLETE, Some COTP_DISCONNECT_INDICATION => Some (false, INT_STATE_CLOSING_CONNECTION, self)
  | TPKT_PACKET_COMPLETE, Some COTP_DATA_INDICATION => data_message_arrived self
  | TPKT_PACKET_COMPLETE, _ => Some (false, INT_STATE_CLOSE_ON_ERROR, self)
  | TPKT_WAITING, _ => Some (true, INT_STATE_WAIT_FOR_DATA_MSG, self)
  end.

Definition state_close (newState : ClientState) (nextState : eIsoClientInternalState) (self : IsoClientConnection) : option ClientTurn :=
  self ← tell ISO_IND_CLOSED (setState self newState);
  Some (false, nextState, releaseSocket self).

(** [switch (currentState)] *)
Definition handle_state (uninit : Z) (t : Tick) (self : IsoClientConnection) : option ClientTurn :=
  match cl_intState self with
  | INT_STATE_IDLE | INT_STATE_ERROR => Some (true, cl_intState self, self)
  | INT_STATE_TCP_CONNECTING => state_tcp_connecting t self
  | INT_STATE_WAIT_FOR_COTP_CONNECT_RESP => state_wait_for_cotp uninit t self
  | INT_STATE_WAIT_FOR_ACSE_RESP => state_wait_for_acse uninit t self
  | INT_STATE_WAIT_FOR_DATA_MSG => state_wait_for_data self
  | INT_STATE_CLOSE_ON_ERROR => state_close STATE_ERROR INT_STATE_ERROR self
  | INT_STATE_CLOSING_CONNECTION => state_close STATE_IDLE INT_STATE_IDLE self
  end.

Definition IsoClientConnection_handleConnection (uninit : Z) (t : Tick) (self : IsoClientConnection)
  : option (bool * IsoClientConnection) :=
  '(waits, nextState, self) ← handle_state uninit t self;
  self ← tell ISO_IND_TICK self;
  Some (waits, setIntState self nextState).

(** The results of the platform: the socket [TcpSocket_create] makes, if any, the time,
    and whether the connection can be started. *)
Definition IsoClientConnection_associateAsync (self : IsoClientConnection) (newSocket : option Socket) (now : Z) (started : bool)
    (connectTimeoutInMs readTimeoutInMs : Z) : bool * IsoClientConnection :=
  let self := cl_with_socket self newSocket in
  match newSocket with
  | None => (false, self)
  | Some _ =>
      let self := cl_with_states self INT_STATE_TCP_CONNECTING STATE_CONNECTING in
      let self := cl_with_timeouts self readTimeoutInMs (u64 (now + connectTimeoutInMs)) in
      if started then (true, self)
      else (false, IsoClientConnection_releaseTransmitBuffer (cl_with_states (cl_with_socket self None) INT_STATE_ERROR STATE_ERROR))
  end.

Definition IsoClientConnection_close (uninit : Z) (t : Tick) (self : IsoClientConnection) : option IsoClientConnection :=
  match cl_intState self with
  | INT_STATE_IDLE | INT_STATE_ERROR | INT_STATE_CLOSE_ON_ERROR => Some self
  | _ =>
      '(_, self) ← IsoClientConnection_handleConnection uninit t (setIntState self INT_STATE_CLOSING_CONNECTION);
      Some (setState self STATE_IDLE)
  end.
End Client.
Arguments IsoClientConnection : clear implicits.
