(* ===== verification/IsoClientFacts.v ===== *)
(** The ISO client connection: what it sends, what it makes of the messages that
    arrive, and the invariants of its state machine. *)

From S2P Require Import Prelude BerEncoder BerDecoder ByteBuffer IsoParameters Cotp CotpSend CotpReceive CotpConnect.
From S2P Require Import IsoSession SessionFacts IsoPresentation PresentationFacts Acse AcseFacts IsoConnection IsoConnectionFacts IsoClient.
Open Scope Z_scope.

(** * The layer above

    What the connection tells the layer above changes the state of that layer only, by
    the indication and the bytes of the message; the callback does not call the connection
    back. Where mms_client_connection.c does call it from its callback (mmsIsoCallback
    releases the association when a conclude is answered, and allocates the transmit buffer
    and sends for the file services a server asks for), the theorems that assume this class
    do not apply. *)
Class MmsClient {app : Type} (callback : IsoIndication -> option ByteBuffer -> IsoClientConnection app -> option (bool * IsoClientConnection app)) := {
  client_reply : app -> IsoIndication -> option (list Z) -> bool * app;
  client_replies : forall indication payload self,
    match payload with Some b => byteBuffer_ok b | None => True end ->
    let '(accepted, s) := client_reply (cl_application self) indication (byteBuffer_bytes <$> payload) in
    callback indication payload self = Some (accepted, cl_with_application self s);
  client_frame : forall indication payload self accepted self',
    callback indication payload self = Some (accepted, self') -> exists s, self' = cl_with_application self s
}.

Section Facts.
Context {app : Type} {callback : IsoIndication -> option ByteBuffer -> IsoClientConnection app -> option (bool * IsoClientConnection app)}
  `{!MmsClient callback}.

Abbreviation client := (IsoClientConnection app).

Definition told (s : app) (indication : IsoIndication) : app := snd (client_reply s indication None).

Lemma tell_spec indication (self : client) :
  tell callback indication self = Some (cl_with_application self (told (cl_application self) indication)).
Proof.
  unfold tell, told. pose proof (client_replies indication None self I) as H. cbn in H. destruct (client_reply _ _ _) as [b s]. rewrite H. done.
Qed.

(** A turn that ends with [nextState]. *)
Definition ticked (self : client) (nextState : eIsoClientInternalState) : client :=
  setIntState (cl_with_application self (told (cl_application self) ISO_IND_TICK)) nextState.

Lemma handleConnection_turn uninit t (self : client) waits nextState self' :
  handle_state callback uninit t self = Some (waits, nextState, self') ->
  IsoClientConnection_handleConnection callback uninit t self = Some (waits, ticked self' nextState).
Proof.
  unfold IsoClientConnection_handleConnection. intros ->. cbn [mbind option_bind]. by rewrite tell_spec.
Qed.

(** ** Sending *)

(** The buffers have their sizes and the socket is there. *)
Definition client_ok (self : client) : Prop :=
  cotp_ok (cl_cotpConnection self) /\ zlen (cl_sendBuffer self) = ISO_CLIENT_BUFFER_SIZE /\ is_Some (cl_socket self).

Lemma client_send_spec (self : client) chain :
  is_Some (cl_socket self) -> cotp_ok (cl_cotpConnection self) -> chain_ok chain ->
  exists ind cotp, client_send self chain = Some (ind, cl_with_cotp self cotp) /\ transmits (cl_cotpConnection self) cotp (chain_bytes chain).
Proof.
  intros [s Hs] Hc Hch. destruct (sendDataMessage_spec _ _ Hc Hch) as (ind & cotp & Hsend & _ & _ & Hf & (p & Hp & Hst & Hall) & Hok).
  unfold client_send. rewrite Hs, Hsend. cbn [mbind option_bind]. exists ind, cotp. split; [done|]. split; [done|]. exists p. auto.
Qed.

Lemma part_at_spec (sendBuffer : list Z) offset : 0 <= offset <= zlen sendBuffer -> part_at sendBuffer offset = Some (ptr_add sendBuffer offset).
Proof. intros. unfold part_at. by if_true. Qed.

Lemma zlen_part_written sendBuffer offset chain :
  0 <= offset <= zlen sendBuffer -> zlen (bc_buffer chain) = zlen (ptr_add sendBuffer offset) -> zlen (part_written sendBuffer offset chain) = zlen sendBuffer.
Proof. intros Ho Hz. unfold part_written. rewrite zlen_app, Hz. unfold ptr_add. rewrite zlen_take, zlen_drop by lia. lia. Qed.

(** A request in the transmit buffer is sent as a message of the data phase, and the buffer is free again. *)
Lemma sendMessage_spec (self : client) request rest :
  client_ok self -> cl_state self = STATE_CONNECTED -> cl_sendBuffer self = request ++ rest ->
  0 < zlen request <= CONFIG_MMS_MAXIMUM_PDU_SIZE ->
  exists cotp sendBuffer, IsoClientConnection_sendMessage self (ByteBuffer_wrap (cl_sendBuffer self) (zlen request) ISO_CLIENT_BUFFER_SIZE)
      = Some (IsoClientConnection_releaseTransmitBuffer (cl_with_cotp (cl_with_sendBuffer self sendBuffer) cotp)) /\
    zlen sendBuffer = ISO_CLIENT_BUFFER_SIZE /\
    transmits (cl_cotpConnection self) cotp (data_message (pr_mmsContextId (cl_presentation self)) request).
Proof.
  intros (Hc & Hsb & Hs) Hst Hb Hr. unfold IsoClientConnection_sendMessage. rewrite Hst. unfold ByteBuffer_wrap. cbn [bb_size bb_buffer bc_length BufferChain_init].
  rewrite Hb in *. destruct (mms_part_spec request rest) as [Hok Hbytes]; [lia|]. set (mms := BufferChain_init _ _ _ _) in *.
  assert (bc_length mms = zlen request) as Hlen by done. unfold ISO_CLIENT_BUFFER_SIZE, CONFIG_MMS_MAXIMUM_PDU_SIZE in *.
  rewrite part_at_spec by lia. cbn [mbind option_bind].
  destruct (create_user_data_spec (pr_mmsContextId (cl_presentation self)) (ptr_add (request ++ rest) (zlen request)) (65000 + 100) mms) as (chain & Hcr & Hok2 & Hb2 & Hz2).
  { split; [done|]. lia. } { apply ptr_add_room; lia. }
  unfold IsoPresentation_createUserData. rewrite Hcr. cbn [mbind option_bind]. destruct (dataSpdu_spec 0 chain Hok2) as [Hok3 Hb3].
  set (sb := part_written _ _ _). destruct (client_send_spec (cl_with_sendBuffer self sb) _ Hs Hc Hok3) as (ind & cotp & -> & Ht).
  cbn [mbind option_bind]. exists cotp, sb. split; [done|]. split; [unfold sb; rewrite zlen_part_written; [done | lia | done]|].
  rewrite Hb3, Hb2, Hbytes in Ht. exact Ht.
Qed.

(** The request to connect. *)
Lemma sendAcseInitiateRequest_spec uninit (self : client) init rest password :
  let p := cl_parameters self in
  client_ok self -> cl_sendBuffer self = init ++ rest -> cl_transmitSize self = zlen init -> 0 < zlen init ->
  address_ok (ip_remote p) -> address_ok (ip_local p) -> auth_ok (ip_acseAuthParameter p) password ->
  pSelector_ok (ia_pSelector (ip_local p)) -> pSelector_ok (ia_pSelector (ip_remote p)) ->
  sSelector_ok (ia_sSelector (ip_local p)) -> sSelector_ok (ia_sSelector (ip_remote p)) ->
  let message := connect_message (connect_items IsoSession_init p) (ia_pSelector (ip_local p)) (ia_pSelector (ip_remote p)) p password init in
  zlen message <= 257 ->
  exists self', sendAcseInitiateRequest uninit self = Some self' /\
    transmits (cl_cotpConnection self) (cl_cotpConnection self') message /\ cl_transmitPermits self' = cl_transmitPermits self + 1 /\
    cl_application self' = cl_application self /\ cl_socket self' = cl_socket self /\ zlen (cl_sendBuffer self') = ISO_CLIENT_BUFFER_SIZE /\
    pr_acseContextId (cl_presentation self') = 1 /\ pr_mmsContextId (cl_presentation self') = 3 /\
    session_ok (cl_session self') /\ cl_readTimeoutInMs self' = cl_readTimeoutInMs self.
Proof.
  intros p (Hc & Hsb & Hs) Hb Hsz Hpos Hrem Hloc Hauth Hpl Hpr Hsl Hsr message Hmsg. destruct (connect_message_sizes _ _ _ _ _ _ Hmsg) as [[H1 H2] H3].
  unfold sendAcseInitiateRequest. rewrite Hsz, Hb. destruct (mms_part_spec init rest Hpos) as [Hok Hbytes]. set (mms := BufferChain_init _ _ _ _) in *.
  assert (bc_length mms = zlen init) as Hlen by done. rewrite Hb in Hsb. unfold ISO_CLIENT_BUFFER_SIZE, CONFIG_MMS_MAXIMUM_PDU_SIZE in *. fold p.
  rewrite part_at_spec by lia. cbn [mbind option_bind].
  destruct (createAssociateRequest_spec p (ptr_add (init ++ rest) (zlen init)) (65000 + 100 - bc_length mms) mms (ip_acseAuthParameter p) password)
    as (c1 & -> & Hok1 & Hb1 & Hz1); try done; [lia | apply ptr_add_room; lia|].
  cbn [mbind option_bind]. rewrite Hbytes in Hb1. destruct (chain_ok_length _ Hok1) as [Hl1 Hn1]. rewrite Hb1 in Hl1.
  set (sb1 := part_written _ _ _). assert (zlen sb1 = 65100) as Hz1' by (unfold sb1; rewrite zlen_part_written; [lia | lia | done]).
  rewrite part_at_spec by lia. cbn [mbind option_bind].
  destruct (createConnectPdu_spec (IsoPresentation_init (cl_presentation self)) p (ptr_add sb1 (bc_length c1)) (65000 + 100 - bc_length c1) c1)
    as (pres & c2 & Hcr2 & Hok2 & Hb2 & Hid1 & Hid2 & Hz2); try done; [split; [done | lia] | apply ptr_add_room; lia|].
  rewrite Hcr2. cbn [mbind option_bind]. rewrite Hb1 in Hb2. destruct (chain_ok_length _ Hok2) as [Hl2 Hn2]. rewrite Hb2 in Hl2.
  set (sb2 := part_written _ _ _). assert (zlen sb2 = 65100) as Hz2' by (unfold sb2; rewrite zlen_part_written; [lia | lia | done]).
  rewrite part_at_spec by lia. cbn [mbind option_bind].
  assert (2 + zlen (items_bytes (connect_items IsoSession_init p)) + bc_length c2 <= 255) as Hfit.
  { revert Hmsg. unfold message, connect_message, spdu_header. rewrite Hl2. zlia. }
  destruct (createConnectSpdu_spec IsoSession_init p (ptr_add sb2 (bc_length c2)) uninit c2) as (c3 & -> & Hok3 & Hb3 & Hz3);
    try done; [apply IsoSession_init_ok | apply ptr_add_room; lia|].
  cbn [mbind option_bind]. set (self1 := cl_with_sendBuffer _ _).
  destruct (client_send_spec self1 c3 Hs Hc Hok3) as (ind & cotp & -> & Ht). cbn [mbind option_bind]. eexists. split; [done|].
  rewrite Hb3, Hb2, Hl2 in Ht. cbn. split; [exact Ht|]. do 3 (split; [done|]). split; [rewrite zlen_part_written; [lia | lia | done]|].
  do 2 (split; [done|]). split; [|done]. destruct IsoSession_init_ok as (_ & _ & H4). split; [exact Hsl|]. split; [exact Hsr | exact H4].
Qed.

(** ** Receiving *)

Lemma client_receive_cotp (self : client) :
  is_Some (cl_socket self) ->
  client_receive self = '(state, indication, cotp) ← cotp_receive (cl_cotpConnection self); Some (state, indication, cl_with_cotp self cotp).
Proof.
  intros [s Hs]. unfold client_receive, cotp_receive. rewrite Hs. cbn [mbind option_bind].
  destruct (CotpConnection_readToTpktBuffer _) as [[st c]|]; [|done]. cbn [mbind option_bind]. destruct st; [|done|done].
  by destruct (CotpConnection_parseIncomingMessage c) as [[i c2]|].
Qed.

(** The answer of the layer above to a message that arrived. *)
Lemma callback_message (self : client) indication message post mx :
  0 <= mx - zlen message -> mx <= zlen (message ++ post) ->
  callback indication (Some (message_of message post mx)) self
  = Some (fst (client_reply (cl_application self) indication (Some message)),
          cl_with_application self (snd (client_reply (cl_application self) indication (Some message)))).
Proof.
  intros H1 H2. pose proof (client_replies indication (Some (message_of message post mx)) self) as H.
  assert (byteBuffer_bytes (message_of message post mx) = message) as Hb by (unfold byteBuffer_bytes, message_of; cbn; by rewrite zlen_to_nat, take_app_length).
  cbn [fmap option_fmap option_map] in H. rewrite Hb in H. destruct (client_reply _ _ _) as [b s]. apply H. unfold byteBuffer_ok, message_of. cbn. pose proof (zlen_nonneg message). lia.
Qed.

(** What a message of the data phase does. *)
Definition informs (self self' : client) (answer : list Z) : Prop :=
  cl_application self' = snd (client_reply (cl_application self) ISO_IND_DATA (Some answer)) /\
  cl_cotpConnection self' = CotpConnection_resetPayload (cl_cotpConnection self) /\
  cl_state self' = cl_state self /\ cl_socket self' = cl_socket self /\ cl_sendBuffer self' = cl_sendBuffer self /\
  cl_transmitPermits self' = cl_transmitPermits self /\ pr_mmsContextId (cl_presentation self') = pr_mmsContextId (cl_presentation self).

Lemma data_arrived_spec (self : client) ctx answer :
  byteBuffer_ok (ct_payload (cl_cotpConnection self)) -> 0 < zlen answer <= CONFIG_MMS_MAXIMUM_PDU_SIZE ->
  byteBuffer_bytes (ct_payload (cl_cotpConnection self)) = data_message ctx answer ->
  exists self', data_message_arrived callback self = Some (false, INT_STATE_WAIT_FOR_DATA_MSG, self') /\ informs self self' answer.
Proof.
  intros Hok Hr Hb. unfold CONFIG_MMS_MAXIMUM_PDU_SIZE in Hr. destruct (payload_message _ _ Hok Hb) as [post Hpay].
  unfold data_message_arrived, CotpConnection_getPayload. rewrite Hpay. unfold data_message.
  assert (0 < zlen (user_data ctx answer)) as Hu by (destruct (user_data_suffix ctx answer) as [pre ->]; pose proof (zlen_nonneg pre); zlia).
  rewrite parse_data_spdu by done. cbn [mbind option_bind]. unfold IsoSession_getUserData. cbn [is_userData with_userData].
  cbn [cl_presentation cl_with_session cl_with_layers]. rewrite parse_user_data by lia. cbn [mbind option_bind].
  change (1 =? 0) with false. cbv iota. cbn [pr_nextPayload with_nextPayload]. rewrite callback_message; [|lia | pose proof (zlen_nonneg post); zlia].
  cbn [mbind option_bind]. eexists. split; [done|]. by destruct self.
Qed.

(** [n] ticks, at the times and with the results of [ticks] *)
Fixpoint ticks_run (uninit : Z) (ticks : list Tick) (self : client) : option client :=
  match ticks with
  | [] => Some self
  | t :: ticks => '(_, self) ← IsoClientConnection_handleConnection callback uninit t self; ticks_run uninit ticks self
  end.

Definition on_tick (s : app) : app := told s ISO_IND_TICK.

(** The answer has been handed to the layer above, once, between ticks. *)
Definition informed (self self' : client) (answer tail : list Z) : Prop :=
  (exists j, cl_application self' = on_tick (snd (client_reply (Nat.iter j on_tick (cl_application self)) ISO_IND_DATA (Some answer)))) /\
  cl_intState self' = INT_STATE_WAIT_FOR_DATA_MSG /\ cl_state self' = cl_state self /\ cl_transmitPermits self' = cl_transmitPermits self /\
  sk_arriving (ct_socket (cl_cotpConnection self')) = tail /\ bb_size (ct_payload (cl_cotpConnection self')) = 0 /\
  tx_stream (cl_cotpConnection self') = tx_stream (cl_cotpConnection self).

Lemma iter_on_tick j s : on_tick (Nat.iter j on_tick s) = Nat.iter j on_tick (on_tick s).
Proof. apply (Nat.iter_succ_r j on_tick s). Qed.

Lemma wait_for_data uninit t (self : client) :
  cl_intState self = INT_STATE_WAIT_FOR_DATA_MSG -> handle_state callback uninit t self = state_wait_for_data callback self.
Proof. intros H. unfold handle_state. by rewrite H. Qed.

(** ** Waiting for a message *)

(** the connection after [j] ticks in which only packets arrived *)
Definition waited (self : client) (j : nat) (cotp : CotpConnection) : client :=
  cl_with_cotp (cl_with_application self (Nat.iter j on_tick (cl_application self))) cotp.

Lemma waited_zero (self : client) : waited self 0 (cl_cotpConnection self) = self.
Proof. by destruct self. Qed.

Lemma ticked_waited (self : client) j cotp : ticked (waited self j cotp) (cl_intState self) = waited self (S j) cotp.
Proof. by destruct self. Qed.

Lemma ticks_run_snoc uninit ticks t : forall (self : client) self1,
  ticks_run uninit ticks self = Some self1 ->
  ticks_run uninit (ticks ++ [t]) self = '(_, self) ← IsoClientConnection_handleConnection callback uninit t self1; Some self.
Proof.
  induction ticks as [|t' ticks IH]; cbn [Datatypes.app ticks_run]; intros self self1; [by intros [= ->]|].
  destruct (IsoClientConnection_handleConnection _ _ _ _) as [[w s2]|]; [|done]. cbn [mbind option_bind]. apply IH.
Qed.

(** A state of the machine that waits for a message: it stays in that state while packets are
    incomplete, and, if the message has several, between its packets. *)
Definition waits_in (uninit : Z) (self : client) (ticks : list Tick) (n : nat) : Prop :=
  (forall t j c c1, t ∈ ticks -> cotp_receive c = Some (TPKT_WAITING, None, c1) ->
     handle_state callback uninit t (waited self j c) = Some (true, cl_intState self, waited self j c1)) /\
  (forall t j c c1, t ∈ ticks -> n <> 1%nat -> cotp_receive c = Some (TPKT_PACKET_COMPLETE, Some COTP_MORE_FRAGMENTS_FOLLOW, c1) ->
     handle_state callback uninit t (waited self j c) = Some (false, cl_intState self, waited self j c1)).

(** The tick in which the last packet of the message is complete. *)
Definition message_complete (uninit : Z) (self : client) (ticks : list Tick) (from : nat) (cotp : CotpConnection) (message tail : list Z) : Prop :=
  exists k t c c1, ticks !! k = Some t /\ ticks_run uninit (take k ticks) (waited self from cotp) = Some (waited self (from + k) c) /\
    cotp_receive c = Some (TPKT_PACKET_COMPLETE, Some COTP_DATA_INDICATION, c1) /\
    byteBuffer_bytes (ct_payload c1) = message /\ byteBuffer_ok (ct_payload c1) /\ sk_arriving (ct_socket c1) = tail /\ tx_part c1 = tx_part cotp.

Lemma message_complete_next uninit self t ticks from cotp c1 waits message tail :
  handle_state callback uninit t (waited self from cotp) = Some (waits, cl_intState self, waited self from c1) -> tx_part c1 = tx_part cotp ->
  message_complete uninit self ticks (S from) c1 message tail -> message_complete uninit self (t :: ticks) from cotp message tail.
Proof.
  intros Hh Htx (k & t' & c & c2 & Hk & Hrun & H1 & H2 & H3 & H4 & H5). exists (S k), t', c, c2. split; [done|]. split; [|split_and!; try done; by rewrite H5].
  cbn [take ticks_run]. rewrite (handleConnection_turn _ _ _ _ _ _ Hh), ticked_waited. cbn [mbind option_bind]. rewrite Hrun. do 2 f_equal. lia.
Qed.

(** Whatever the pieces the packets of a message arrive in, after at most one tick per byte the
    last one is complete. *)
Lemma client_waits uninit self n0 all ticks : forall from cotp n size data got acc tail,
  waits_in uninit self all n0 -> ticks `suffix_of` all -> (n0 = 1%nat -> n = 1%nat) ->
  rx_pending cotp n size data got acc tail ->
  let rs := sk_recvResults (ct_socket cotp) in
  positive rs -> (4 * length ticks <= length rs)%nat -> zlen (sk_arriving (ct_socket cotp)) <= zlen tail + zlen ticks ->
  message_complete uninit self ticks from cotp (acc ++ data) tail.
Proof.
  induction ticks as [|t ticks IH]; intros from cotp n size data got acc tail Hw Hsuf Hn Hp rs Hpos Hlen Harr.
  { exfalso. pose proof (pending_arriving _ _ _ _ _ _ _ Hp). change (zlen (@nil Tick)) with 0 in Harr. lia. }
  rewrite zlen_cons in Harr. cbn [length] in Hlen.
  assert (t ∈ all) as Hin by (destruct Hsuf as [pre ->]; rewrite elem_of_app, elem_of_cons; auto).
  assert (ticks `suffix_of` all) as Hsuf' by (destruct Hsuf as [pre ->]; exists (pre ++ [t]); by rewrite <- app_assoc).
  destruct (receive_turn _ n size data got acc tail Hp) as ([[st ind] c1] & Hrec & Ht & (j & Hj & Hrs) & Hle & Hlt & Htx & _). cbn [snd] in *. fold rs in Hrs, Hlt.
  destruct Hw as [Hw1 Hw2]. specialize (Hlt Hpos ltac:(lia)).
  assert (positive (sk_recvResults (ct_socket c1)) /\ (4 * length ticks <= length (sk_recvResults (ct_socket c1)))%nat /\
    zlen (sk_arriving (ct_socket c1)) <= zlen tail + zlen ticks) as (Hpos' & Hlen' & Harr').
  { rewrite Hrs, length_drop. split; [by apply Forall_drop | lia]. }
  destruct st; destruct ind as [[]|]; cbn [turn_result] in Ht; try done.
  - destruct Ht as (Hb & Hbok & Har & _). exists 0%nat, t, cotp, c1. rewrite Nat.add_0_r. split_and!; done.
  - destruct Ht as [Hn1 Hp']. eapply (message_complete_next _ _ _ _ _ _ c1 false); [apply Hw2; [done | | done] | done |].
    + intros E. specialize (Hn E). lia.
    + rewrite <- (take_drop size data), app_assoc. eapply (IH _ _ (pred n)); try done. intros E. specialize (Hn E). lia.
  - destruct Ht as [got' Hp']. eapply (message_complete_next _ _ _ _ _ _ c1 true); [by apply Hw1 | done | by eapply IH].
Qed.

Lemma data_waits uninit (self : client) ticks n :
  cl_intState self = INT_STATE_WAIT_FOR_DATA_MSG -> is_Some (cl_socket self) -> waits_in uninit self ticks n.
Proof.
  intros Hint Hs.
  assert (forall t j c r, cotp_receive c = Some r -> handle_state callback uninit t (waited self j c) =
    match r with
    | (TPKT_WAITING, None, c1) => Some (true, cl_intState self, waited self j c1)
    | (TPKT_PACKET_COMPLETE, Some COTP_MORE_FRAGMENTS_FOLLOW, c1) => Some (false, cl_intState self, waited self j c1)
    | _ => handle_state callback uninit t (waited self j c)
    end) as H.
  { intros t j c [[st ind] c1] Hr. unfold handle_state, state_wait_for_data. cbn [cl_intState waited cl_with_cotp cl_with_application]. rewrite Hint.
    rewrite client_receive_cotp by done. cbn [cl_cotpConnection waited cl_with_cotp]. rewrite Hr. cbn [mbind option_bind]. by destruct st; destruct ind as [[]|]. }
  split; intros t j c c1 _; [intros Hr | intros _ Hr]; by rewrite (H t j c _ Hr).
Qed.

(** An answer that arrives in the data phase is handed to the layer above. *)
Lemma receive_answer uninit ctx ticks (self : client) answer n size data got acc tail :
  cl_intState self = INT_STATE_WAIT_FOR_DATA_MSG -> is_Some (cl_socket self) ->
  rx_pending (cl_cotpConnection self) n size data got acc tail ->
  acc ++ data = data_message ctx answer -> 0 < zlen answer <= CONFIG_MMS_MAXIMUM_PDU_SIZE ->
  let rs := sk_recvResults (ct_socket (cl_cotpConnection self)) in
  positive rs -> (4 * length ticks <= length rs)%nat -> zlen (sk_arriving (ct_socket (cl_cotpConnection self))) <= zlen tail + zlen ticks ->
  exists k self', (k <= length ticks)%nat /\ ticks_run uninit (take k ticks) self = Some self' /\ informed self self' answer tail.
Proof.
  intros Hint Hs Hp Hmsg Hr rs Hpos Hlen Harr. destruct (client_waits uninit self O ticks ticks 0 (cl_cotpConnection self) n size data got acc tail)
    as (k & t & c & c1 & Hk & Hrun & Hrec & Hb & Hbok & Har & Htx); try done; [by apply data_waits|].
  rewrite waited_zero in Hrun. destruct (tx_part_same _ _ Htx) as (_ & Hstream & _ & _).
  destruct (data_arrived_spec (waited self k c1) ctx answer Hbok Hr) as (self2 & Hd & H1 & H2 & H3 & H4 & H5 & H6 & H7); [by rewrite <- Hmsg|].
  exists (S k), (ticked self2 INT_STATE_WAIT_FOR_DATA_MSG). split; [apply lookup_lt_Some in Hk; lia|]. split.
  - rewrite (take_S_r _ _ t Hk), (ticks_run_snoc uninit _ t self _ Hrun).
    rewrite (handleConnection_turn uninit t _ false INT_STATE_WAIT_FOR_DATA_MSG self2); [done|].
    unfold handle_state, state_wait_for_data. cbn [cl_intState waited cl_with_cotp cl_with_application]. rewrite Hint.
    rewrite client_receive_cotp by done. cbn [cl_cotpConnection waited cl_with_cotp]. rewrite Hrec. cbn [mbind option_bind]. exact Hd.
  - cbn in H1, H2, H3, H6. unfold informed. cbn. rewrite H1, H2, H3, H6. split; [by exists k|]. rewrite tx_stream_reset, Hstream. split_and!; try done; by destruct c1.
Qed.

(** ** The association *)

(** What the answer of the server does: the layer above decides whether the connection is kept. *)
Definition accepted_by (s : app) (answer : list Z) : bool := fst (client_reply s ISO_IND_ASSOCIATION_SUCCESS (Some answer)).

Definition next_state (accepted : bool) : eIsoClientInternalState := if accepted then INT_STATE_WAIT_FOR_DATA_MSG else INT_STATE_CLOSE_ON_ERROR.

Lemma accept_message_sizes session ctx reference answer :
  zlen (accept_message session ctx reference answer) <= 257 ->
  zlen answer <= zlen (aare_bytes 0 reference answer) <= 257 /\ zlen (cpa_parameters ctx (aare_bytes 0 reference answer)) <= 257.
Proof.
  intros Hm. set (aare := aare_bytes 0 reference answer) in *.
  assert (zlen (cpa_pdu ctx aare) <= 257) as Hp.
  { revert Hm. unfold accept_message, spdu_header. fold aare. pose proof (zlen_nonneg (items_bytes (accept_items session))). pose proof (zlen_nonneg (cpa_pdu ctx aare)). zlia. }
  assert (zlen (cpa_parameters ctx aare) <= zlen (cpa_pdu ctx aare)) as H0.
  { unfold cpa_pdu, ber_tlv. rewrite !zlen_cons, !zlen_app, !zlen_cons, !zlen_app. pose proof (zlen_nonneg mode_selector).
    match goal with |- context [zlen (ber_length ?a) + (_ + (1 + (zlen (ber_length ?b) + _)))] => pose proof (zlen_nonneg (ber_length a)); pose proof (zlen_nonneg (ber_length b)) end. lia. }
  assert (zlen aare <= zlen (cpa_parameters ctx aare)) as H1 by (destruct (cpa_parameters_suffix ctx aare) as [pre Hpre]; by eapply zlen_suffix_le).
  assert (zlen answer <= zlen aare) as H2.
  { unfold aare, aare_bytes. destruct (user_information_suffix (ber_uint32 reference) answer) as [pre Hpre]. rewrite Hpre.
    eapply zlen_suffix_le. unfold ber_tlv at 1. rewrite !app_assoc, app_comm_cons. done. }
  lia.
Qed.

Definition associated (self self' : client) (answer : list Z) : Prop :=
  cl_application self' = snd (client_reply (cl_application self) ISO_IND_ASSOCIATION_SUCCESS (Some answer)) /\
  cl_cotpConnection self' = CotpConnection_resetPayload (cl_cotpConnection self) /\
  cl_state self' = STATE_CONNECTED /\ cl_socket self' = cl_socket self /\ cl_sendBuffer self' = cl_sendBuffer self /\
  cl_transmitPermits self' = cl_transmitPermits self /\ pr_mmsContextId (cl_presentation self') = pr_mmsContextId (cl_presentation self).

Lemma associate_response_spec uninit (self : client) session ctx reference answer :
  session_ok (cl_session self) -> session_ok session -> is_byte ctx -> is_u32 reference -> 0 < zlen answer ->
  zlen (accept_message session ctx reference answer) <= 257 ->
  byteBuffer_ok (ct_payload (cl_cotpConnection self)) ->
  byteBuffer_bytes (ct_payload (cl_cotpConnection self)) = accept_message session ctx reference answer ->
  exists self', associate_response callback uninit self = Some (false, next_state (accepted_by (cl_application self) answer), self') /\ associated self self' answer.
Proof.
  intros Hcs Hss Hctx Href Hans Hmsg Hok Hb. destruct (accept_message_sizes _ _ _ _ Hmsg) as [[Hs1 Hs2] Hs3].
  destruct (payload_message _ _ Hok Hb) as [post Hpay].
  assert (exists s1 mx, IsoSession_parseMessage (cl_session self) (ct_payload (cl_cotpConnection self)) = Some (SESSION_CONNECT, s1) /\
    is_userData s1 = message_of (cpa_pdu ctx (aare_bytes 0 reference answer)) post mx) as (s1 & mx1 & E1 & U1).
  { rewrite Hpay. unfold accept_message. eexists _, _. rewrite parse_spdu; [done | done | | rewrite !elem_of_cons; auto].
    destruct Hss as (? & ? & ? & ?). repeat apply List.Forall_cons; try apply List.Forall_nil; cbn [item_ok]; done. }
  assert (exists p1 mx, IsoPresentation_parseAcceptMessage (cl_presentation self) (is_userData s1) = Some (1, p1) /\
    pr_nextPayload p1 = message_of (aare_bytes 0 reference answer) post mx /\ pr_mmsContextId p1 = pr_mmsContextId (cl_presentation self)) as (p1 & mx2 & E2 & U2 & C2).
  { rewrite U1. eexists _, _. rewrite parse_cpa_pdu by (done || lia). split; [done|]. by split. }
  assert (forall front, exists a1, AcseConnection_parseMessage uninit front (cl_acseConnection self) (pr_nextPayload p1) = Some (ACSE_ASSOCIATE, a1) /\
    ac_userDataBuffer a1 = Some (answer ++ post) /\ ac_userDataBufferSize a1 = zlen answer) as E3.
  { intros front. rewrite U2. eexists. rewrite (parse_aare _ _ _ 0 reference answer post) by (done || lia). by split. }
  unfold associate_response, CotpConnection_getPayload. rewrite E1. cbn [mbind option_bind]. unfold IsoSession_getUserData.
  change (cl_presentation (cl_with_session self s1)) with (cl_presentation self). rewrite E2. cbn [mbind option_bind]. change (1 =? 0) with false. cbv iota.
  change (cl_acseConnection (cl_with_presentation (cl_with_session self s1) p1)) with (cl_acseConnection self).
  destruct (E3 (byte_before (bb_buffer (ct_payload (cl_cotpConnection self))) (bb_buffer (pr_nextPayload p1)))) as (a1 & -> & U3 & L3).
  cbn [mbind option_bind]. rewrite U3, L3. cbn [mbind option_bind].
  change (ByteBuffer_wrap (answer ++ post) (zlen answer) (zlen answer)) with (message_of answer post (zlen answer)).
  rewrite callback_message; [|lia | pose proof (zlen_nonneg post); zlia].
  eexists. split; [reflexivity|]. unfold associated. cbn. done.
Qed.

(** The ticks come before the timeout. *)
Definition in_time (self : client) (ticks : list Tick) : Prop := Forall (fun t => tk_now t <= cl_nextReadTimeout self) ticks.

Lemma acse_turn uninit t (self : client) j c r ticks :
  cl_intState self = INT_STATE_WAIT_FOR_ACSE_RESP -> is_Some (cl_socket self) -> in_time self ticks -> t ∈ ticks -> cotp_receive c = Some r ->
  handle_state callback uninit t (waited self j c) =
    match r with
    | (TPKT_WAITING, _, c1) => Some (true, cl_intState self, waited self j c1)
    | (TPKT_PACKET_COMPLETE, Some COTP_DATA_INDICATION, c1) => associate_response callback uninit (waited self j c1)
    | (_, _, c1) => association_failed callback (waited self j c1)
    end.
Proof.
  intros Hint Hs Ht Hin Hr. destruct r as [[st ind] c1]. unfold handle_state, state_wait_for_acse. cbn [cl_intState cl_nextReadTimeout waited cl_with_cotp cl_with_application]. rewrite Hint.
  apply list_elem_of_In in Hin. pose proof (proj1 (Forall_forall _ _) Ht _ Hin) as Hnow. cbv beta in Hnow. if_false.
  rewrite client_receive_cotp by done. cbn [cl_cotpConnection waited cl_with_cotp]. rewrite Hr. cbn [mbind option_bind]. destruct st; destruct ind as [[]|]; cbn [cl_intState cl_with_cotp cl_with_application waited]; rewrite ?Hint; done.
Qed.

(** The client is associated: the layer above has the answer of the server. *)
Definition established (self self' : client) (answer tail : list Z) : Prop :=
  (exists j, let s := Nat.iter j on_tick (cl_application self) in
     cl_application self' = on_tick (snd (client_reply s ISO_IND_ASSOCIATION_SUCCESS (Some answer))) /\
     cl_intState self' = next_state (accepted_by s answer)) /\
  cl_state self' = STATE_CONNECTED /\ cl_transmitPermits self' = cl_transmitPermits self /\
  pr_mmsContextId (cl_presentation self') = pr_mmsContextId (cl_presentation self) /\
  sk_arriving (ct_socket (cl_cotpConnection self')) = tail /\ bb_size (ct_payload (cl_cotpConnection self')) = 0 /\
  tx_stream (cl_cotpConnection self') = tx_stream (cl_cotpConnection self).

Lemma receive_association uninit ticks (self : client) session ctx reference answer size data got acc tail :
  cl_intState self = INT_STATE_WAIT_FOR_ACSE_RESP -> is_Some (cl_socket self) -> in_time self ticks ->
  session_ok (cl_session self) -> session_ok session -> is_byte ctx -> is_u32 reference -> 0 < zlen answer ->
  zlen (accept_message session ctx reference answer) <= 257 ->
  rx_pending (cl_cotpConnection self) 1 size data got acc tail -> acc ++ data = accept_message session ctx reference answer ->
  let rs := sk_recvResults (ct_socket (cl_cotpConnection self)) in
  positive rs -> (4 * length ticks <= length rs)%nat -> zlen (sk_arriving (ct_socket (cl_cotpConnection self))) <= zlen tail + zlen ticks ->
  exists k self', (k <= length ticks)%nat /\ ticks_run uninit (take k ticks) self = Some self' /\ established self self' answer tail.
Proof.
  intros Hint Hs Htime Hcs Hss Hctx Href Hans Hfit Hp Hmsg rs Hpos Hlen Harr.
  destruct (client_waits uninit self 1%nat ticks ticks 0 (cl_cotpConnection self) 1%nat size data got acc tail)
    as (k & t & c & c1 & Hk & Hrun & Hrec & Hb & Hbok & Har & Htx); try done.
  { split; intros t j c c1 Hin; [intros Hr | by intros Hn]. by rewrite (acse_turn _ _ _ _ _ _ ticks Hint Hs Htime Hin Hr). }
  rewrite waited_zero in Hrun. destruct (tx_part_same _ _ Htx) as (_ & Hstream & _ & _).
  destruct (associate_response_spec uninit (waited self k c1) session ctx reference answer) as (self2 & Hd & H1 & H2 & H3 & H4 & H5 & H6 & H7); try done.
  { by rewrite <- Hmsg. }
  eexists (S k), (ticked self2 _). split; [apply lookup_lt_Some in Hk; lia|]. split.
  - rewrite (take_S_r _ _ t Hk), (ticks_run_snoc uninit _ t self _ Hrun).
    erewrite (handleConnection_turn uninit t); [done|]. rewrite (acse_turn _ _ _ _ _ _ ticks Hint Hs Htime (list_elem_of_lookup_2 _ _ _ Hk) Hrec). exact Hd.
  - cbn in H1, H2, H3, H6, H7. unfold established. cbn. rewrite H1, H2, H3, H6, H7. split; [by exists k|]. rewrite tx_stream_reset, Hstream. split_and!; try done; by destruct c1.
Qed.

(** The tick in which the response of the transport layer arrives sends the request to connect. *)
Lemma client_requests uninit t (self : client) cotp init rest password :
  let p := cl_parameters self in
  cl_intState self = INT_STATE_WAIT_FOR_COTP_CONNECT_RESP -> tk_now t <= cl_nextReadTimeout self ->
  cotp_receive (cl_cotpConnection self) = Some (TPKT_PACKET_COMPLETE, Some COTP_CONNECT_INDICATION, cotp) ->
  client_ok (cl_with_cotp self cotp) -> cl_sendBuffer self = init ++ rest -> cl_transmitSize self = zlen init -> 0 < zlen init ->
  address_ok (ip_remote p) -> address_ok (ip_local p) -> auth_ok (ip_acseAuthParameter p) password ->
  pSelector_ok (ia_pSelector (ip_local p)) -> pSelector_ok (ia_pSelector (ip_remote p)) ->
  sSelector_ok (ia_sSelector (ip_local p)) -> sSelector_ok (ia_sSelector (ip_remote p)) ->
  let message := connect_message (connect_items IsoSession_init p) (ia_pSelector (ip_local p)) (ia_pSelector (ip_remote p)) p password init in
  zlen message <= 257 ->
  exists self', IsoClientConnection_handleConnection callback uninit t self = Some (false, self') /\
    transmits cotp (cl_cotpConnection self') message /\ cl_intState self' = INT_STATE_WAIT_FOR_ACSE_RESP /\
    cl_nextReadTimeout self' = u64 (tk_later t + cl_readTimeoutInMs self) /\ cl_transmitPermits self' = cl_transmitPermits self + 1 /\
    cl_application self' = on_tick (cl_application self) /\ is_Some (cl_socket self') /\
    pr_mmsContextId (cl_presentation self') = 3 /\ session_ok (cl_session self').
Proof.
  intros p Hint Htime Hrec Hok Hb Hsz Hpos Hrem Hloc Hauth Hpl Hpr Hsl Hsr message Hmsg.
  destruct (sendAcseInitiateRequest_spec uninit (cl_with_cotp self cotp) init rest password Hok Hb Hsz Hpos Hrem Hloc Hauth Hpl Hpr Hsl Hsr Hmsg)
    as (self1 & Hs & Ht & H1 & H2 & H3 & H4 & H5 & H6 & H7 & H8).
  pose proof Hok as (_ & _ & Hsock). cbn in H1, H2, H3, H8.
  erewrite handleConnection_turn.
  2: { unfold handle_state, state_wait_for_cotp. rewrite Hint. if_false. rewrite client_receive_cotp, Hrec by done. cbn [mbind option_bind]. rewrite Hs. cbn [mbind option_bind]. done. }
  eexists. split; [done|]. cbn. rewrite H8, H1, H2, H3. split_and!; done.
Qed.
End Facts.
