(* ===== verification/IsoClientState.v ===== *)
(** The state machine of the ISO client: the calls the layer above may make, in
    any order, and what they keep: the transmit buffer has one owner, and a
    connection that is up has a socket. *)

From stdpp Require Import relations.
From S2P Require Import Prelude BerEncoder BerDecoder ByteBuffer IsoParameters Cotp CotpSend CotpReceive IsoSession.
From S2P Require Import IsoPresentation Acse IsoConnection IsoConnectionFacts IsoClient IsoClientFacts.
Open Scope Z_scope.

(** The connection owns the transmit buffer from [IsoClientConnection_associateAsync] until the
    request to associate has been sent. *)
Definition connecting (i : eIsoClientInternalState) : bool :=
  match i with INT_STATE_TCP_CONNECTING | INT_STATE_WAIT_FOR_COTP_CONNECT_RESP => true | _ => false end.

Definition at_rest (i : eIsoClientInternalState) : bool :=
  match i with INT_STATE_IDLE | INT_STATE_ERROR => true | _ => false end.

(** The states in which [cl_state] can be [STATE_CONNECTED]. *)
Definition up (i : eIsoClientInternalState) : bool :=
  match i with INT_STATE_WAIT_FOR_DATA_MSG | INT_STATE_CLOSE_ON_ERROR | INT_STATE_CLOSING_CONNECTION => true | _ => false end.

Definition Z_of_bool (b : bool) : Z := if b then 1 else 0.

Section State.
Context {app : Type} {callback : IsoIndication -> option ByteBuffer -> IsoClientConnection app -> option (bool * IsoClientConnection app)}
  `{!MmsClient callback}.

Abbreviation client := (IsoClientConnection app).

(** The members the invariant is about. *)
Definition control (self : client) := (cl_state self, is_Some (cl_socket self), cl_transmitPermits self).

(** ** What the operations do to them *)

Lemma client_send_control (self : client) chain r self' :
  client_send self chain = Some (r, self') -> control self' = control self.
Proof.
  unfold client_send. destruct (cl_socket self) as [s|] eqn:E; [|done]. cbn [mbind option_bind].
  destruct (CotpConnection_sendDataMessage _ _) as [[i c]|]; [|done]. by intros [= <- <-].
Qed.

Lemma client_receive_control (self : client) st ind self' :
  client_receive self = Some (st, ind, self') -> control self' = control self.
Proof.
  unfold client_receive. destruct (cl_socket self) as [s|] eqn:E; [|done]. cbn [mbind option_bind].
  destruct (CotpConnection_readToTpktBuffer _) as [[[] c]|]; cbn [mbind option_bind]; [|by intros [= <- <- <-] | by intros [= <- <- <-] | done].
  destruct (CotpConnection_parseIncomingMessage c) as [[i c2]|]; [|done]. by intros [= <- <- <-].
Qed.

Lemma sendConnectionRequest_control (self : client) r self' :
  IsoClient.sendConnectionRequestMessage self = Some (r, self') -> control self' = control self.
Proof.
  unfold IsoClient.sendConnectionRequestMessage. destruct (cl_socket self) as [s|] eqn:E; [|done]. cbn [mbind option_bind].
  destruct (CotpConnection_init _ _ _ _ _ _) as [c|]; [|done]. cbn [mbind option_bind].
  destruct (CotpConnection_sendConnectionRequestMessage _ _) as [[i c2]|]; [|done]. by intros [= <- <-].
Qed.

(** [Some x ≫= f] and [None ≫= f] in a hypothesis, by cases on what is bound *)
Ltac bind_cases H := repeat match type of H with
  | (?o ≫= _) = _ => let E := fresh "E" in destruct o eqn:E; cbn [mbind option_bind] in H; [|discriminate H]
  | (let '(_, _) := ?p in _) = _ => destruct p
  end.

Lemma sendAcse_control uninit (self self' : client) :
  sendAcseInitiateRequest uninit self = Some self' -> control self' = (cl_state self, is_Some (cl_socket self), cl_transmitPermits self + 1).
Proof.
  unfold sendAcseInitiateRequest. intros H. bind_cases H. injection H as <-.
  match goal with Hs : client_send _ _ = _ |- _ => apply client_send_control in Hs; revert Hs end. unfold control. cbn. by intros [= -> -> ->].
Qed.

Lemma sendMessage_control (self : client) payload self' :
  IsoClientConnection_sendMessage self payload = Some self' -> control self' = (cl_state self, is_Some (cl_socket self), cl_transmitPermits self + 1).
Proof.
  unfold IsoClientConnection_sendMessage. intros H. destruct (cl_state self) eqn:Est; cbn [mbind option_bind] in H;
    [by injection H as <-; unfold control; cbn; rewrite Est | | by injection H as <-; unfold control; cbn; rewrite Est | by injection H as <-; unfold control; cbn; rewrite Est].
  bind_cases H. injection H as <-.
  match goal with Hs : _ ≫= _ = Some _ |- _ => bind_cases Hs; injection Hs as <- end.
  match goal with Hs : client_send _ _ = _ |- _ => apply client_send_control in Hs; revert Hs end. unfold control. cbn. rewrite Est. by intros [= -> -> ->].
Qed.

Lemma send_parts_control (self : client) c1 c2 c3 self' :
  send_parts self c1 c2 c3 = Some self' -> control self' = control self /\ 0 < cl_transmitPermits self.
Proof.
  unfold send_parts, IsoClientConnection_allocateTransmitBuffer. intros H. destruct (0 <? cl_transmitPermits self) eqn:Ep; [|done]. cbn [mbind option_bind] in H.
  bind_cases H. injection H as <-. match goal with Hs : client_send _ _ = _ |- _ => apply client_send_control in Hs; revert Hs end.
  unfold control. cbn. intros [= -> -> ->]. split; [|lia]. f_equal. lia.
Qed.

(** ** The invariant *)

(** [held]: the layer above owns the transmit buffer; [n]: the number of transmit buffers
    that the semaphore, the layer above and the connection share. *)
Record buffers_inv (n : Z) (held : bool) (self : client) : Prop := {
  ci_buffer : cl_transmitPermits self + Z_of_bool held + Z_of_bool (connecting (cl_intState self)) = n;
  ci_connected : cl_state self = STATE_CONNECTED -> up (cl_intState self) = true;
  ci_socket : is_Some (cl_socket self) <-> at_rest (cl_intState self) = false
}.

(** The transmit buffer is there. *)
Definition client_inv (held : bool) (self : client) : Prop := buffers_inv 1 held self.

Lemma association_failed_eq (self : client) :
  association_failed callback self = Some (false, INT_STATE_CLOSE_ON_ERROR, cl_with_application self (told (cl_application self) ISO_IND_ASSOCIATION_FAILED)).
Proof. unfold association_failed. by rewrite tell_spec. Qed.

Lemma connect_failed_eq (self : client) :
  connect_failed callback self
  = Some (false, INT_STATE_CLOSE_ON_ERROR, cl_with_application (IsoClientConnection_releaseTransmitBuffer self) (told (cl_application self) ISO_IND_ASSOCIATION_FAILED)).
Proof. unfold connect_failed. by rewrite association_failed_eq. Qed.

Lemma state_close_eq newState nextState (self : client) :
  state_close callback newState nextState self
  = Some (false, nextState, releaseSocket (cl_with_application (setState self newState) (told (cl_application self) ISO_IND_CLOSED))).
Proof. unfold state_close. by rewrite tell_spec. Qed.

(** What one turn of the machine does to the members of the invariant. *)
Definition turn_keeps (self : client) (r : @ClientTurn app) : Prop :=
  let '(_, next, self') := r in
  (cl_transmitPermits self' + Z_of_bool (connecting next) = cl_transmitPermits self + Z_of_bool (connecting (cl_intState self)) /\
   cl_transmitPermits self <= cl_transmitPermits self') /\
  (cl_state self' = STATE_CONNECTED -> up next = true) /\ (is_Some (cl_socket self') <-> at_rest next = false).

Lemma callback_control indication payload (self : client) r self' :
  callback indication payload self = Some (r, self') -> control self' = control self.
Proof. intros H. by destruct (client_frame indication payload self r self' H) as [s ->]. Qed.

Lemma control_eq (self self' : client) s :
  control self' = (s, is_Some (cl_socket self), cl_transmitPermits self) ->
  cl_state self' = s /\ (is_Some (cl_socket self') <-> is_Some (cl_socket self)) /\ cl_transmitPermits self' = cl_transmitPermits self.
Proof. unfold control. intros [= -> -> ->]. done. Qed.

(** A turn that leaves the permits and the socket alone. *)
Lemma turn_keeps_control (self self' : client) waits next s :
  control self' = (s, is_Some (cl_socket self), cl_transmitPermits self) ->
  (is_Some (cl_socket self) <-> at_rest (cl_intState self) = false) ->
  connecting next = connecting (cl_intState self) -> at_rest next = at_rest (cl_intState self) -> (s = STATE_CONNECTED -> up next = true) ->
  turn_keeps self (waits, next, self').
Proof.
  intros Hc Hs H1 H2 H3. destruct (control_eq _ _ _ Hc) as (E1 & E2 & E3). unfold turn_keeps. rewrite H1, H2, E1, E3, E2. done.
Qed.

Lemma turn_keeps_up (self : client) waits next (self' : client) :
  connecting (cl_intState self) = false /\ at_rest (cl_intState self) = false -> is_Some (cl_socket self) -> up next = true ->
  control self' = (cl_state self', is_Some (cl_socket self), cl_transmitPermits self) -> turn_keeps self (waits, next, self').
Proof.
  intros [H1 H2] Hs Hup Hc. eapply turn_keeps_control; [exact Hc | by rewrite H2 | | | done]; rewrite ?H1, ?H2; by destruct next.
Qed.

Lemma associate_response_keeps uninit (self : client) r :
  cl_intState self = INT_STATE_WAIT_FOR_ACSE_RESP -> is_Some (cl_socket self) ->
  associate_response callback uninit self = Some r -> turn_keeps self r.
Proof.
  intros Hint Hs. unfold associate_response. intros H. bind_cases H.
  pose proof (turn_keeps_up self) as Hk. rewrite Hint in Hk. pose proof (fun w n c => Hk w n c (conj eq_refl eq_refl) Hs) as Hk'. clear Hk. rename Hk' into Hk.
  destruct i; try (rewrite association_failed_eq in H; injection H as <-; by apply Hk).
  bind_cases H. injection H as <-. destruct (z =? 0).
  { rewrite association_failed_eq in E1. injection E1 as <- <- <-. by apply Hk. }
  bind_cases E1. destruct a; try (rewrite association_failed_eq in E1; injection E1 as <- <- <-; by apply Hk).
  bind_cases E1. injection E1 as <- <- <-. apply callback_control in E4. unfold control in E4. cbn in E4. injection E4 as H1 H2 H3.
  apply Hk; [by destruct b0|]. unfold control. cbn. by rewrite H2, H3.
Qed.

Lemma data_message_keeps (self : client) r :
  cl_intState self = INT_STATE_WAIT_FOR_DATA_MSG -> is_Some (cl_socket self) -> data_message_arrived callback self = Some r -> turn_keeps self r.
Proof.
  intros Hint Hs. unfold data_message_arrived. intros H. bind_cases H.
  pose proof (turn_keeps_up self) as Hk. rewrite Hint in Hk. pose proof (fun w n c => Hk w n c (conj eq_refl eq_refl) Hs) as Hk'. clear Hk. rename Hk' into Hk.
  destruct i; try (injection H as <-; by apply Hk).
  bind_cases H. destruct (z =? 0); [injection H as <-; by apply Hk|].
  bind_cases H. injection H as <-. apply callback_control in E1. unfold control in E1. cbn in E1. injection E1 as H1 H2 H3.
  apply Hk; [done|]. unfold control. cbn. by rewrite H2, H3.
Qed.

Lemma connect_failed_keeps (self self1 : client) r :
  connecting (cl_intState self) = true -> is_Some (cl_socket self) -> control self1 = control self ->
  connect_failed callback self1 = Some r -> turn_keeps self r.
Proof.
  rewrite connect_failed_eq. intros Hc Hs Hctl [= <-]. unfold control in Hctl. injection Hctl as H1 H2 H3. unfold turn_keeps. cbn.
  rewrite Hc, H1, H2, H3. cbn [Z_of_bool]. split; [lia | done].
Qed.

Lemma association_failed_keeps (self self1 : client) r :
  connecting (cl_intState self) = false /\ at_rest (cl_intState self) = false -> is_Some (cl_socket self) -> control self1 = control self ->
  association_failed callback self1 = Some r -> turn_keeps self r.
Proof.
  rewrite association_failed_eq. intros Hc Hs Hctl [= <-]. apply turn_keeps_up; try done. unfold control in *. cbn. by injection Hctl as -> -> ->.
Qed.

(** a state in which the connection goes on waiting *)
Lemma turn_keeps_same (self self' : client) waits :
  (cl_state self = STATE_CONNECTED -> up (cl_intState self) = true) -> (is_Some (cl_socket self) <-> at_rest (cl_intState self) = false) ->
  control self' = control self -> turn_keeps self (waits, cl_intState self, self').
Proof. intros Hst Hs Hc. unfold control in Hc. injection Hc as H1 H2 H3. unfold turn_keeps. by rewrite H1, H2, H3. Qed.

Lemma receive_intState (self : client) st ind self' : client_receive self = Some (st, ind, self') -> cl_intState self' = cl_intState self.
Proof.
  unfold client_receive. intros H. bind_cases H. destruct t; cbn [mbind option_bind] in H; [bind_cases H|..]; by injection H as <- <- <-.
Qed.

(** the same turn, seen from a connection that only differs in what has been received *)
Lemma turn_keeps_from (self self1 : client) r :
  cl_intState self1 = cl_intState self -> control self1 = control self -> turn_keeps self1 r -> turn_keeps self r.
Proof. destruct r as [[w n] c]. unfold turn_keeps, control. intros -> [= _ _ ->]. done. Qed.

Lemma tcp_connecting_keeps t (self : client) r :
  cl_intState self = INT_STATE_TCP_CONNECTING -> cl_state self <> STATE_CONNECTED -> is_Some (cl_socket self) ->
  state_tcp_connecting callback t self = Some r -> turn_keeps self r.
Proof.
  intros Hint Hst Hs. unfold state_tcp_connecting. destruct (tk_socketState t); intros H.
  - destruct (_ <? _); [by eapply connect_failed_keeps; [rewrite Hint | | | exact H]|]. injection H as <-. apply turn_keeps_same; rewrite ?Hint; done.
  - by eapply connect_failed_keeps; [rewrite Hint | | | exact H].
  - bind_cases H. apply sendConnectionRequest_control in E. destruct b; [|by eapply connect_failed_keeps; [rewrite Hint | | | exact H]].
    injection H as <-. unfold control in E. injection E as H1 H2 H3. unfold turn_keeps. cbn. rewrite Hint, H1, H2, H3. done.
Qed.

Lemma wait_for_cotp_keeps uninit t (self : client) r :
  cl_intState self = INT_STATE_WAIT_FOR_COTP_CONNECT_RESP -> cl_state self <> STATE_CONNECTED -> is_Some (cl_socket self) ->
  state_wait_for_cotp callback uninit t self = Some r -> turn_keeps self r.
Proof.
  intros Hint Hst Hs. unfold state_wait_for_cotp. destruct (_ <? _); intros H; [by eapply connect_failed_keeps; [rewrite Hint | | | exact H]|].
  bind_cases H. pose proof (receive_intState _ _ _ _ E) as Hi. apply client_receive_control in E.
  assert (forall r, connect_failed callback i = Some r -> turn_keeps self r) as Hf by (intros r'; apply connect_failed_keeps; [by rewrite Hint | done | done]).
  destruct t0; [|injection H as <-; rewrite Hi; apply turn_keeps_same; rewrite ?Hint; done | by apply Hf].
  destruct o as [[]|]; try (by apply Hf). bind_cases H. injection H as <-. apply sendAcse_control in E0.
  unfold control in E, E0. injection E as H1 H2 H3. injection E0 as H4 H5 H6. unfold turn_keeps. cbn. rewrite Hint, H4, H5, H6, H1, H2, H3. cbn. split; [lia | done].
Qed.

Lemma wait_for_acse_keeps uninit t (self : client) r :
  cl_intState self = INT_STATE_WAIT_FOR_ACSE_RESP -> cl_state self <> STATE_CONNECTED -> is_Some (cl_socket self) ->
  state_wait_for_acse callback uninit t self = Some r -> turn_keeps self r.
Proof.
  intros Hint Hst Hs. unfold state_wait_for_acse. destruct (_ <? _); intros H; [by eapply association_failed_keeps; [rewrite Hint | | | exact H]|].
  bind_cases H. pose proof (receive_intState _ _ _ _ E) as Hi. apply client_receive_control in E.
  assert (forall r, association_failed callback i = Some r -> turn_keeps self r) as Hf by (intros r'; apply association_failed_keeps; [by rewrite Hint | done | done]).
  destruct t0; [|injection H as <-; rewrite Hi; apply turn_keeps_same; rewrite ?Hint; done | by apply Hf].
  destruct o as [[]|]; try (by apply Hf). apply (turn_keeps_from self i); [done | done|].
  eapply associate_response_keeps; [by rewrite Hi | | exact H]. unfold control in E. injection E as _ E2 _. by rewrite E2.
Qed.

Lemma wait_for_data_keeps (self : client) r :
  cl_intState self = INT_STATE_WAIT_FOR_DATA_MSG -> is_Some (cl_socket self) -> state_wait_for_data callback self = Some r -> turn_keeps self r.
Proof.
  intros Hint Hs. unfold state_wait_for_data. intros H. bind_cases H. pose proof (receive_intState _ _ _ _ E) as Hi. apply client_receive_control in E.
  assert (forall w n, up n = true -> turn_keeps self (w, n, i)) as Hup.
  { intros w n Hn. apply turn_keeps_up; try done; [by rewrite Hint|]. unfold control in *. by injection E as -> -> ->. }
  destruct t; [|injection H as <-; by apply Hup | injection H as <-; by apply Hup].
  destruct o as [[]|]; try (injection H as <-; by apply Hup). apply (turn_keeps_from self i); [done | done|].
  eapply data_message_keeps; [by rewrite Hi | | exact H]. unfold control in E. injection E as _ E2 _. by rewrite E2.
Qed.

Lemma handle_state_keeps uninit t (self : client) r :
  (cl_state self = STATE_CONNECTED -> up (cl_intState self) = true) -> (is_Some (cl_socket self) <-> at_rest (cl_intState self) = false) ->
  handle_state callback uninit t self = Some r -> turn_keeps self r.
Proof.
  intros Hst Hs. unfold handle_state. destruct (cl_intState self) eqn:Hint; cbn [at_rest up] in *.
  - intros [= <-]. rewrite <- Hint. apply turn_keeps_same; rewrite ?Hint; done.
  - apply tcp_connecting_keeps; [done | by intros E; specialize (Hst E) | by apply Hs].
  - apply wait_for_cotp_keeps; [done | by intros E; specialize (Hst E) | by apply Hs].
  - apply wait_for_acse_keeps; [done | by intros E; specialize (Hst E) | by apply Hs].
  - apply wait_for_data_keeps; [done | by apply Hs].
  - rewrite state_close_eq. intros [= <-]. unfold turn_keeps. cbn. rewrite Hint. split; [done|]. split; [done|]. split; [by intros []|done].
  - rewrite state_close_eq. intros [= <-]. unfold turn_keeps. cbn. rewrite Hint. split; [done|]. split; [done|]. split; [by intros []|done].
  - intros [= <-]. rewrite <- Hint. apply turn_keeps_same; rewrite ?Hint; done.
Qed.

Lemma handleConnection_inv uninit t n held (self self' : client) waits :
  buffers_inv n held self -> IsoClientConnection_handleConnection callback uninit t self = Some (waits, self') ->
  buffers_inv n held self' /\ cl_transmitPermits self <= cl_transmitPermits self'.
Proof.
  intros [Hb Hc Hs] H. unfold IsoClientConnection_handleConnection in H. destruct (handle_state callback uninit t self) as [[[w i] c]|] eqn:E; [|done].
  cbn [mbind option_bind] in H. rewrite tell_spec in H. injection H as <- <-. destruct (handle_state_keeps uninit t self _ Hc Hs E) as ([H1 H1'] & H2 & H3).
  split; [constructor; cbn; [lia | done | done] | done].
Qed.

(** ** The calls

    The calls of the layer above and the ticks, in any order, with the owner of
    the transmit buffer ([held], the layer above) and whether the buffer was lost ([lost]): a
    close while the connection owns the buffer forgets it, and so does the start of a
    connection for which no socket can be created. The buffer is given back, sent and used
    to start a connection by its owner; no socket is created for a connection that has
    one. *)
Definition client_state : Type := bool * bool * client.

Inductive client_step (uninit : Z) : client_state -> client_state -> Prop :=
| step_allocate lost self self' :
    IsoClientConnection_allocateTransmitBuffer self = Some self' -> client_step uninit (false, lost, self) (true, lost, self')
| step_write lost self sendBuffer n :
    client_step uninit (true, lost, self) (true, lost, cl_with_transmit self sendBuffer n (cl_transmitPermits self))
| step_release lost self : client_step uninit (true, lost, self) (false, lost, IsoClientConnection_releaseTransmitBuffer self)
| step_send lost self message self' :
    IsoClientConnection_sendMessage self message = Some self' -> client_step uninit (true, lost, self) (false, lost, self')
| step_associate lost self socket now started connectTimeout readTimeout ok self' :
    IsoClientConnection_associateAsync self (Some socket) now started connectTimeout readTimeout = (ok, self') ->
    client_step uninit (true, lost, self) (false, lost, self')
| step_associate_no_socket lost self now started connectTimeout readTimeout ok self' :
    at_rest (cl_intState self) = true ->
    IsoClientConnection_associateAsync self None now started connectTimeout readTimeout = (ok, self') ->
    client_step uninit (true, lost, self) (false, true, self')
| step_tick held lost self t waits self' :
    IsoClientConnection_handleConnection callback uninit t self = Some (waits, self') -> client_step uninit (held, lost, self) (held, lost, self')
| step_close held lost self t self' :
    IsoClientConnection_close callback uninit t self = Some self' ->
    client_step uninit (held, lost, self) (held, lost || connecting (cl_intState self), self')
| step_abort held lost self self' :
    IsoClientConnection_abortAsync self = Some self' -> client_step uninit (held, lost, self) (held, lost, self')
| step_conclude held lost self self' :
    IsoClientConnection_release self = Some self' -> client_step uninit (held, lost, self) (held, lost, self').

(** What every state keeps. *)
Definition client_ok (x : client_state) : Prop :=
  let '(held, lost, self) := x in buffers_inv (1 - Z_of_bool lost) held self /\ 0 <= cl_transmitPermits self.

Lemma send_parts_intState (self : client) c1 c2 c3 self' : send_parts self c1 c2 c3 = Some self' -> cl_intState self' = cl_intState self.
Proof.
  unfold send_parts, IsoClientConnection_allocateTransmitBuffer. intros H. destruct (0 <? _); [|done]. cbn [mbind option_bind] in H. bind_cases H. injection H as <-.
  match goal with Hs : client_send _ _ = _ |- _ => revert Hs end. unfold client_send. cbn [cl_socket cl_with_sendBuffer cl_with_transmit]. destruct (cl_socket self); [|done].
  cbn [mbind option_bind]. destruct (CotpConnection_sendDataMessage _ _) as [[? ?]|]; [|done]. by intros [= <- <-].
Qed.

Lemma send_parts_inv n held (self : client) c1 c2 c3 self' :
  buffers_inv n held self -> send_parts self c1 c2 c3 = Some self' -> buffers_inv n held self' /\ cl_transmitPermits self' = cl_transmitPermits self.
Proof.
  intros [Hb Hc Hs] H. pose proof (send_parts_intState _ _ _ _ _ H) as Hi. destruct (send_parts_control _ _ _ _ _ H) as [Hctl _].
  unfold control in Hctl. injection Hctl as H1 H2 H3. split; [constructor; rewrite ?Hi, ?H1, ?H2, ?H3; done | done].
Qed.

Lemma sendMessage_intState (self : client) message self' : IsoClientConnection_sendMessage self message = Some self' -> cl_intState self' = cl_intState self.
Proof.
  unfold IsoClientConnection_sendMessage. intros H. destruct (cl_state self); cbn [mbind option_bind] in H; try (by injection H as <-).
  bind_cases H. injection H as <-. match goal with Hs : _ ≫= _ = Some _ |- _ => bind_cases Hs; injection Hs as <- end.
  match goal with Hs : client_send _ _ = _ |- _ => revert Hs end. unfold client_send. cbn [cl_socket cl_with_sendBuffer cl_with_transmit]. destruct (cl_socket self); [|done].
  cbn [mbind option_bind]. destruct (CotpConnection_sendDataMessage _ _) as [[? ?]|]; [|done]. by intros [= <- <-].
Qed.

(** A close forgets the buffer that the connection owns. *)
Lemma close_inv uninit n held (self self' : client) t :
  buffers_inv n held self -> IsoClientConnection_close callback uninit t self = Some self' ->
  buffers_inv (n - Z_of_bool (connecting (cl_intState self))) held self' /\ cl_transmitPermits self <= cl_transmitPermits self'.
Proof.
  intros [Hb Hc Hs] H. unfold IsoClientConnection_close in H.
  assert (at_rest (cl_intState self) = false -> ('(_, self0) ← IsoClientConnection_handleConnection callback uninit t (setIntState self INT_STATE_CLOSING_CONNECTION);
    Some (setState self0 STATE_IDLE)) = Some self' ->
    buffers_inv (n - Z_of_bool (connecting (cl_intState self))) held self' /\ cl_transmitPermits self <= cl_transmitPermits self') as Hclose.
  { intros Hr Hh. destruct (IsoClientConnection_handleConnection _ _ _ _) as [[w c]|] eqn:E; [|done]. injection Hh as <-.
    eapply (handleConnection_inv uninit t (n - Z_of_bool (connecting (cl_intState self))) held) in E as [[Hb' _ Hs'] Hp];
      [|constructor; cbn; [lia | done | rewrite Hs, Hr; done]].
    split; [constructor; cbn; done | done]. }
  destruct (cl_intState self) eqn:Hint; try (injection H as <-; split; [constructor; rewrite ?Hint; cbn [connecting Z_of_bool] in *; (done || lia) | done]);
    apply Hclose; done.
Qed.

Lemma client_step_ok uninit x y : client_step uninit x y -> client_ok x -> client_ok y.
Proof.
  destruct 1 as [lost self self' H|lost self b n|lost self|lost self m self' H|lost self sock now st ct rt ok self' H|lost self now st ct rt ok self' Hr H
    |held lost self t w self' H|held lost self t self' H|held lost self self' H|held lost self self' H];
    intros [Hinv Hp]; cbn [client_ok].
  - destruct Hinv as [Hb Hc Hs]. unfold IsoClientConnection_allocateTransmitBuffer in H. destruct (0 <? _) eqn:E; [|done]. injection H as <-.
    split; [constructor; cbn in *; [lia | done | done] | cbn; lia].
  - by destruct Hinv.
  - destruct Hinv as [Hb Hc Hs]. split; [constructor; cbn in *; [lia | done | done] | cbn; lia].
  - destruct Hinv as [Hb Hc Hs]. pose proof (sendMessage_intState _ _ _ H) as Hi. apply sendMessage_control in H. unfold control in H. injection H as H1 H2 H3.
    split; [constructor; rewrite ?Hi, ?H1, ?H2, ?H3; try done; cbn in *; lia | lia].
  - destruct Hinv as [Hb Hc Hs]. unfold IsoClientConnection_associateAsync in H.
    assert (connecting (cl_intState self) = false) as Hn by (destruct (connecting (cl_intState self)), lost; cbn in Hb; (done || lia)). rewrite Hn in Hb.
    destruct st; injection H as <- <-; (split; [constructor; cbn in *; try done; lia | cbn; lia]).
  - destruct Hinv as [Hb Hc Hs]. unfold IsoClientConnection_associateAsync in H. injection H as <- <-.
    assert (connecting (cl_intState self) = false) as Hn by (by destruct (cl_intState self)). rewrite Hn in Hb.
    split; [constructor; cbn in *; [rewrite Hn; destruct lost; cbn in *; lia | done | rewrite Hr; by split; [intros []|]] | done].
  - destruct (handleConnection_inv _ _ _ _ _ _ _ Hinv H) as [? ?]. split; [done | lia].
  - destruct (close_inv _ _ _ _ _ _ Hinv H) as [Hi' Hle]. destruct Hinv as [Hb _ _]. split; [|lia].
    replace (1 - Z_of_bool (lost || connecting (cl_intState self))) with (1 - Z_of_bool lost - Z_of_bool (connecting (cl_intState self))); [done|].
    destruct held, lost, (connecting (cl_intState self)); cbn in *; lia.
  - destruct (send_parts_inv _ _ _ _ _ _ _ Hinv H) as [? ->]. done.
  - destruct (send_parts_inv _ _ _ _ _ _ _ Hinv H) as [? ->]. done.
Qed.

Lemma client_reachable_ok uninit parameters s x :
  rtc (client_step uninit) (false, false, IsoClientConnection_create parameters s) x -> client_ok x.
Proof.
  intros H. assert (client_ok (false, false, IsoClientConnection_create parameters s)) as H0.
  { split; [constructor; cbn; [done | done | by split; [intros []|]] | done]. }
  induction H as [x|x y z Hxy _ IH]; [done|]. by apply IH, (client_step_ok uninit x y).
Qed.

(** ** Timeouts *)

(** The time is up in a state that waits for the peer. *)
Definition times_out (t : Tick) (self : client) : Prop :=
  cl_nextReadTimeout self < tk_now t /\
  match cl_intState self with
  | INT_STATE_TCP_CONNECTING => tk_socketState t = SOCKET_STATE_CONNECTING
  | INT_STATE_WAIT_FOR_COTP_CONNECT_RESP | INT_STATE_WAIT_FOR_ACSE_RESP => True
  | _ => False
  end.

Lemma timeout_spec uninit t t2 (self : client) :
  times_out t self ->
  exists self', ticks_run (callback := callback) uninit [t; t2] self = Some self' /\
    cl_intState self' = INT_STATE_ERROR /\ cl_state self' = STATE_ERROR /\ cl_socket self' = None /\
    cl_transmitPermits self' = cl_transmitPermits self + Z_of_bool (connecting (cl_intState self)) /\
    cl_application self' = on_tick (told (on_tick (told (cl_application self) ISO_IND_ASSOCIATION_FAILED)) ISO_IND_CLOSED).
Proof.
  intros [Hn Hst].
  assert (exists self1, handle_state callback uninit t self = Some (false, INT_STATE_CLOSE_ON_ERROR, self1) /\
    cl_transmitPermits self1 = cl_transmitPermits self + Z_of_bool (connecting (cl_intState self)) /\
    cl_application self1 = told (cl_application self) ISO_IND_ASSOCIATION_FAILED) as (self1 & Hh & Hp & Ha).
  { unfold handle_state. destruct (cl_intState self) eqn:Hint; try done.
    - unfold state_tcp_connecting. rewrite Hst. if_true. rewrite connect_failed_eq. by eexists.
    - unfold state_wait_for_cotp. if_true. rewrite connect_failed_eq. by eexists.
    - unfold state_wait_for_acse. if_true. rewrite association_failed_eq. eexists. split; [done|]. cbn. split; [lia | done]. }
  cbn [ticks_run]. rewrite (handleConnection_turn _ _ _ _ _ _ Hh). cbn [mbind option_bind].
  rewrite (handleConnection_turn (callback := callback) uninit t2 (ticked self1 INT_STATE_CLOSE_ON_ERROR) false INT_STATE_ERROR _ (state_close_eq STATE_ERROR INT_STATE_ERROR (ticked self1 INT_STATE_CLOSE_ON_ERROR))).
  cbn [mbind option_bind]. eexists. split; [done|]. cbn. by rewrite Hp, Ha.
Qed.

(** ** An answer of several packets *)

(** The client has given up: the layer above has been told. *)
Definition gives_up (self : client) (self' : client) : Prop :=
  cl_intState self' = INT_STATE_CLOSE_ON_ERROR /\ cl_state self' = cl_state self /\
  exists j, cl_application self' = on_tick (told (Nat.iter j on_tick (cl_application self)) ISO_IND_ASSOCIATION_FAILED).

Lemma fragments_fail uninit (self : client) n size data acc tail all ticks : forall from cotp got,
  cl_intState self = INT_STATE_WAIT_FOR_ACSE_RESP -> is_Some (cl_socket self) -> in_time self all -> ticks `suffix_of` all -> n <> 1%nat ->
  rx_pending cotp n size data got acc tail ->
  let rs := sk_recvResults (ct_socket cotp) in
  positive rs -> (4 * length ticks <= length rs)%nat -> zlen (sk_arriving (ct_socket cotp)) <= zlen tail + zlen ticks ->
  exists k self', (k <= length ticks)%nat /\ ticks_run (callback := callback) uninit (take k ticks) (waited self from cotp) = Some self' /\ gives_up self self'.
Proof.
  induction ticks as [|t ticks IH]; intros from cotp got Hint Hs Htime Hsuf Hn Hp rs Hpos Hlen Harr.
  { exfalso. pose proof (pending_arriving _ _ _ _ _ _ _ Hp). change (zlen (@nil Tick)) with 0 in Harr. lia. }
  rewrite zlen_cons in Harr. cbn [length] in Hlen |- *.
  assert (t ∈ all) as Hin by (destruct Hsuf as [pre ->]; rewrite elem_of_app, elem_of_cons; auto).
  assert (ticks `suffix_of` all) as Hsuf' by (destruct Hsuf as [pre ->]; exists (pre ++ [t]); by rewrite <- app_assoc).
  destruct (receive_turn _ n size data got acc tail Hp) as ([[st ind] c1] & Hrec & Ht & (j & Hj & Hrs) & Hle & Hlt & _ & _). cbn [snd] in *. fold rs in Hrs, Hlt.
  specialize (Hlt Hpos ltac:(lia)). pose proof (acse_turn (callback := callback) uninit t self from cotp _ all Hint Hs Htime Hin Hrec) as Hh.
  destruct st; destruct ind as [[]|]; cbn [turn_result] in Ht; try done.
  - by destruct Ht as (_ & _ & _ & _ & _ & Ht).
  - rewrite association_failed_eq in Hh. exists 1%nat. eexists. split; [lia|]. split; [cbn [take ticks_run]; rewrite (handleConnection_turn _ _ _ _ _ _ Hh); by rewrite take_0|].
    split; [done|]. split; [done|]. by exists from.
  - destruct Ht as [got' Hp']. destruct (IH (S from) c1 got') as (k & self' & Hk & Hrun & Hg); try done.
    + rewrite Hrs. by apply Forall_drop.
    + rewrite Hrs, length_drop. lia.
    + lia.
    + exists (S k), self'. split; [lia|]. split; [|done]. cbn [take ticks_run]. rewrite (handleConnection_turn _ _ _ _ _ _ Hh), ticked_waited. exact Hrun.
Qed.

(** ** Closing too early *)

Lemma rest_ticks uninit ticks : forall (self : client),
  at_rest (cl_intState self) = true ->
  exists self', ticks_run (callback := callback) uninit ticks self = Some self' /\ cl_transmitPermits self' = cl_transmitPermits self.
Proof.
  induction ticks as [|t ticks IH]; intros self Hr; [by exists self|]. cbn [ticks_run].
  rewrite (handleConnection_turn uninit t self true (cl_intState self) self) by (unfold handle_state; by destruct (cl_intState self)).
  cbn [mbind option_bind]. destruct (IH (ticked self (cl_intState self))) as (self' & H1 & H2); [done|]. exists self'. by rewrite H2.
Qed.

Lemma close_spec uninit t (self : client) :
  at_rest (cl_intState self) = false -> cl_intState self <> INT_STATE_CLOSE_ON_ERROR ->
  exists self', IsoClientConnection_close callback uninit t self = Some self' /\ cl_intState self' = INT_STATE_IDLE /\ cl_state self' = STATE_IDLE /\
    cl_socket self' = None /\ cl_transmitPermits self' = cl_transmitPermits self.
Proof.
  intros Hr Hc. unfold IsoClientConnection_close.
  rewrite (handleConnection_turn (callback := callback) uninit t (setIntState self INT_STATE_CLOSING_CONNECTION) false INT_STATE_IDLE _ (state_close_eq STATE_IDLE INT_STATE_IDLE _)).
  destruct (cl_intState self); try done; cbn [mbind option_bind]; (eexists; split; [reflexivity|]; done).
Qed.
End State.
