(* ===== verification/OsiExchange.v ===== *)
(** Client and server connected by a network: the association, and a request with
    its answer, through all the layers of both. The network carries the bytes
    one side has sent to the other, in pieces of any size. *)

From S2P Require Import Prelude BerEncoder BerDecoder ByteBuffer IsoParameters Cotp CotpSend CotpReceive CotpConnect.
From S2P Require Import IsoSession SessionFacts IsoPresentation PresentationFacts Acse AcseFacts IsoConnection IsoConnectionFacts IsoClient.
From S2P Require Import IsoClientFacts.
Open Scope Z_scope.

Lemma zlen_data_message ctx payload :
  0 < zlen payload <= CONFIG_MMS_MAXIMUM_PDU_SIZE -> zlen payload < zlen (data_message ctx payload) <= zlen payload + 24.
Proof.
  intros Hp. unfold data_message. destruct (mms_part_spec payload []) as [Hok Hb]; [lia|]. set (c := BufferChain_init _ _ _ _) in *.
  destruct (user_data_header_spec ctx c) as (Hu & Hz & Hn); [split; [done | cbn; unfold CONFIG_MMS_MAXIMUM_PDU_SIZE in *; lia]|].
  rewrite Hb in Hz. change (bc_length c) with (zlen payload) in Hn. rewrite zlen_app. change (zlen dataSpdu) with 4.
  destruct (user_data_suffix ctx payload) as [pre Hpre]. pose proof (zlen_suffix_le _ _ _ Hpre). lia.
Qed.

Section Exchange.
Context {sapp : Application} `{!MmsServer sapp}.
Context {capp : Type} {callback : IsoIndication -> option ByteBuffer -> IsoClientConnection capp -> option (bool * IsoClientConnection capp)}
  `{!MmsClient callback}.

Abbreviation server := (IsoConnection sapp).
Abbreviation client := (IsoClientConnection capp).

Definition server_arrives (self : server) (bytes results : list Z) : server := with_cotp _ self (arrives (ic_cotpConnection _ self) bytes results).
Definition client_arrives (self : client) (bytes results : list Z) : client := cl_with_cotp self (arrives (cl_cotpConnection self) bytes results).

Lemma mms_answer_bound s (request : list Z) : zlen (snd (mms_answer (app := sapp) s request)) <= CONFIG_MMS_MAXIMUM_PDU_SIZE.
Proof.
  set (b := mkByteBuffer request (zlen request) (zlen request)). pose proof (zlen_nonneg request).
  assert (byteBuffer_bytes b = request) as Hb by (unfold byteBuffer_bytes, b; cbn; by rewrite zlen_to_nat, firstn_all).
  pose proof (mms_answers s b (replicate (Z.to_nat SEND_BUF_SIZE) 0)) as H0. rewrite Hb in H0. destruct (mms_answer s request) as [s' answer]. cbn.
  destruct H0 as (rest & _ & _ & Hl); [unfold byteBuffer_ok, b; cbn; lia | unfold zlen; rewrite length_replicate; unfold SEND_BUF_SIZE, CONFIG_MMS_MAXIMUM_PDU_SIZE; lia | done].
Qed.

(** ** A request and its answer *)

(** Both sides are associated and wait; [request] is in the transmit buffer of the client. *)
Record exchange_ready (cl : client) (sv : server) (ctx : Z) (request : list Z) : Prop := {
  er_client : client_ok cl /\ cl_state cl = STATE_CONNECTED /\ cl_intState cl = INT_STATE_WAIT_FOR_DATA_MSG;
  er_server : server_ok sv;
  er_context : pr_mmsContextId (cl_presentation cl) = ctx /\ pr_mmsContextId (ic_presentation _ sv) = ctx;
  er_request : exists rest, cl_sendBuffer cl = request ++ rest;
  er_size : 0 < zlen request <= CONFIG_MMS_MAXIMUM_PDU_SIZE;
  er_room : can_send (cl_cotpConnection cl) (zlen (message_packets (cl_cotpConnection cl) (data_message ctx request)));
  er_server_idle : rx_idle (ic_cotpConnection _ sv) (CotpConnection_getTpduSize (cl_cotpConnection cl)) (zlen (data_message ctx request));
  er_client_idle : rx_idle (cl_cotpConnection cl) (CotpConnection_getTpduSize (ic_cotpConnection _ sv)) (CONFIG_MMS_MAXIMUM_PDU_SIZE + 24)
}.

(** The network delivers: the results of the socket are positive, and there are enough of them for one turn per byte. *)
Definition delivers (results : list Z) (turns : nat) (messageSize : Z) : Prop :=
  positive results /\ (4 * turns <= length results)%nat /\ 8 * messageSize <= Z.of_nat turns.

Lemma server_receives uninit fuel (sv : server) (sender : CotpConnection) ctx request results :
  server_ok sv -> pr_mmsContextId (ic_presentation _ sv) = ctx -> 0 < zlen request <= CONFIG_MMS_MAXIMUM_PDU_SIZE ->
  2 <= co_tpduSize (ct_options sender) <= 13 ->
  rx_idle (ic_cotpConnection _ sv) (CotpConnection_getTpduSize sender) (zlen (data_message ctx request)) ->
  delivers results fuel (zlen (data_message ctx request)) ->
  exists k sv', (k <= fuel)%nat /\ run k uninit (server_arrives sv (message_packets sender (data_message ctx request)) results) = Some sv' /\
    served sv sv' request [].
Proof.
  intros [Hc Hsb] Hctx Hr Ht Hidle (Hpos & Hlen & Hf). pose proof (zlen_data_message ctx request Hr) as Hz.
  set (sv1 := server_arrives _ _ _).
  assert (rx_ready (ic_cotpConnection _ sv1) (CotpConnection_getTpduSize sender) (zlen (data_message ctx request))) as Hready by (by apply arrives_ready).
  destruct (packets_pending sender (ic_cotpConnection _ sv1) (data_message ctx request) []) as [Hp Hz2];
    [done | lia | exact Hready | rewrite app_nil_r; apply arrives_socket|].
  assert (tx_part (ic_cotpConnection _ sv1) = tx_part (ic_cotpConnection _ sv)) as Htx by apply arrives_tx_part.
  destruct (tx_part_same _ _ Htx) as (Hcok & Hst & Hpk & Hcan).
  assert (sk_recvResults (ct_socket (ic_cotpConnection _ sv1)) = results) as Hrs by apply arrives_socket.
  assert (sk_arriving (ct_socket (ic_cotpConnection _ sv1)) = message_packets sender (data_message ctx request)) as Har by apply arrives_socket.
  destruct (serve_request uninit fuel sv1 request _ _ _ _ _ _ (conj (Hcok Hc) Hsb) Hp) as (k & sv' & Hk & Hrun & Hsv); try (by rewrite Hrs).
  - by rewrite <- Hctx.
  - done.
  - rewrite Har. change (zlen (@nil Z)) with 0. lia.
  - exists k, sv'. split; [done|]. split; [done|]. revert Hsv. unfold served, answer_packets. cbn [sv1 server_arrives with_cotp ic_application ic_state ic_presentation ic_cotpConnection].
    destruct (mms_answer _ _) as [s answer]. intros (H1 & H2 & H3 & H4 & p & H5 & H6 & H7). split_and!; try done. exists p.
    change (arrives (ic_cotpConnection sapp sv) (message_packets sender (data_message ctx request)) results) with (ic_cotpConnection _ sv1) in *.
    rewrite Hpk in H6, H7. rewrite <- Hst. split_and!; try done. intros Hcs. apply H7. by apply Hcan.
Qed.

Lemma client_receives uninit ticks (cl : client) (sender : CotpConnection) ctx answer results :
  is_Some (cl_socket cl) -> cl_intState cl = INT_STATE_WAIT_FOR_DATA_MSG -> 0 < zlen answer <= CONFIG_MMS_MAXIMUM_PDU_SIZE ->
  2 <= co_tpduSize (ct_options sender) <= 13 ->
  rx_idle (cl_cotpConnection cl) (CotpConnection_getTpduSize sender) (CONFIG_MMS_MAXIMUM_PDU_SIZE + 24) ->
  delivers results (length ticks) (zlen (data_message ctx answer)) ->
  exists k cl', (k <= length ticks)%nat /\
    ticks_run (callback := callback) uninit (take k ticks) (client_arrives cl (message_packets sender (data_message ctx answer)) results) = Some cl' /\
    informed cl cl' answer [].
Proof.
  intros Hs Hint Hr Ht Hidle (Hpos & Hlen & Hf). pose proof (zlen_data_message ctx answer Hr) as Hz. set (cl1 := client_arrives _ _ _).
  assert (rx_ready (cl_cotpConnection cl1) (CotpConnection_getTpduSize sender) (zlen (data_message ctx answer))) as Hready.
  { apply arrives_ready; [|done]. destruct Hidle as (I1 & I2 & I3 & I4 & I5 & I6 & I7). repeat (split; [done|]). lia. }
  destruct (packets_pending sender (cl_cotpConnection cl1) (data_message ctx answer) []) as [Hp Hz2];
    [done | lia | exact Hready | rewrite app_nil_r; apply arrives_socket|].
  destruct (tx_part_same _ _ (arrives_tx_part (cl_cotpConnection cl) (message_packets sender (data_message ctx answer)) results)) as (_ & Hst & _ & _).
  assert (sk_recvResults (ct_socket (cl_cotpConnection cl1)) = results) as Hrs by apply arrives_socket.
  assert (sk_arriving (ct_socket (cl_cotpConnection cl1)) = message_packets sender (data_message ctx answer)) as Har by apply arrives_socket.
  destruct (receive_answer (callback := callback) uninit ctx ticks cl1 answer _ _ _ _ _ _ Hint Hs Hp) as (k & cl' & Hk & Hrun & Hinf); try (by rewrite Hrs); [done | done | |].
  - rewrite Har. change (zlen (@nil Z)) with 0. unfold zlen in Hz2 |- *. unfold zlen in Hf. lia.
  - exists k, cl'. split; [done|]. split; [done|]. destruct Hinf as (H1 & H2 & H3 & H4 & H5 & H6 & H7). unfold informed. rewrite <- Hst. done.
Qed.

(** ** The association *)

(** What the server does with a request to connect that it accepts. *)
Definition accepts_association (sv sv' : server) (init : list Z) (session : IsoSession) : Prop :=
  let '(s, answer) := mms_answer (ic_application _ sv) init in
  ic_application _ sv' = s /\ ic_state _ sv' = ic_state _ sv /\ pr_mmsContextId (ic_presentation _ sv') = 3 /\
  (answer <> [] ->
   let packets := message_packets (ic_cotpConnection _ sv) (accept_message session 1 3 answer) in
   exists p, p `prefix_of` packets /\ tx_stream (ic_cotpConnection _ sv') = tx_stream (ic_cotpConnection _ sv) ++ p /\
     (can_send (ic_cotpConnection _ sv) (zlen packets) -> p = packets)).

(** A server that has not been associated, with the decision of its authenticator on the password. *)
Record decides_on (sv : server) (password : option (list Z)) (decision : bool) : Prop := {
  do_server : server_ok sv /\ session_ok (ic_session _ sv) /\ presentation_ok (ic_presentation _ sv);
  do_tls : ac_tlsSocket (ic_acseConnection _ sv) = None;
  do_authenticator : exists authenticator, ac_authenticator (ic_acseConnection _ sv) = Some authenticator /\ decides authenticator password decision
}.

(** The answer of the layer above to the request [init] fits into one message of the session layer. *)
Definition answer_fits (sv : server) (session : IsoSession) (init : list Z) : Prop :=
  snd (mms_answer (ic_application _ sv) init) <> [] ->
  zlen (accept_message session 1 3 (snd (mms_answer (ic_application _ sv) init))) <= 257.

Lemma server_associates uninit fuel (sv : server) (sender : CotpConnection) items calling called p password init decision results :
  let message := connect_message items calling called p password init in
  let session := fold_left item_apply items (ic_session _ sv) in
  decides_on sv password decision -> Forall item_ok items -> pSelector_ok calling -> pSelector_ok called ->
  address_ok (ip_remote p) -> address_ok (ip_local p) -> password_ok password -> 0 < zlen init -> zlen message <= 257 ->
  answer_fits sv session init -> 2 <= co_tpduSize (ct_options sender) <= 13 ->
  rx_idle (ic_cotpConnection _ sv) (CotpConnection_getTpduSize sender) (zlen message) -> delivers results fuel (zlen message) ->
  exists k sv', (k <= fuel)%nat /\ run k uninit (server_arrives sv (message_packets sender message) results) = Some sv' /\
    if decision then accepts_association sv sv' init session else refuses sv sv'.
Proof.
  intros message session [(Hok & Hses & Hpres) Htls (authenticator & Hauth & Hdec)] Hitems Hcg Hcd Hrem Hloc Hpw Hinit Hmsg Hfit Ht Hidle (Hpos & Hlen & Hf).
  pose proof Hok as [Hc Hsb]. set (sv1 := server_arrives _ _ _).
  assert (0 < zlen message) as Hm by (destruct (connect_message_sizes _ _ _ _ _ _ Hmsg) as [_ _]; unfold message, connect_message, spdu_header;
    pose proof (zlen_nonneg (items_bytes items)); pose proof (zlen_nonneg (connect_pdu calling called 1 (aarq_bytes p password init))); zlia).
  assert (rx_ready (ic_cotpConnection _ sv1) (CotpConnection_getTpduSize sender) (zlen message)) as Hready by (by apply arrives_ready).
  destruct (packets_pending sender (ic_cotpConnection _ sv1) message []) as [Hp Hz2]; [done | done | exact Hready | rewrite app_nil_r; apply arrives_socket|].
  destruct (arrives_socket (ic_cotpConnection _ sv) (message_packets sender message) results) as [Har Hrs].
  change (arrives (ic_cotpConnection sapp sv) (message_packets sender message) results) with (ic_cotpConnection _ sv1) in Har, Hrs.
  destruct (run_to_indication uninit fuel sv1 _ _ _ _ _ _ Hp) as (k & cotp & Hk & Hrun & Hb & Hbok & _ & Htx); try (by rewrite Hrs).
  { rewrite Har. change (zlen (@nil Z)) with 0. lia. }
  rewrite app_nil_l in Hb. assert (tx_part cotp = tx_part (ic_cotpConnection _ sv)) as Htx2 by (rewrite Htx; apply arrives_tx_part).
  destruct (tx_part_same _ _ Htx2) as (Hcok & Hst & Hpk & Hcan).
  destruct (connect_indication_spec uninit (with_cotp _ sv1 cotp) items calling called p password init authenticator decision) as (sv' & Hd & Hres); try done.
  { split; [by apply Hcok | done]. }
  { intros s answer Ha Hne. unfold answer_fits in Hfit. cbn in Ha. rewrite Ha in Hfit. by apply Hfit. }
  exists (S k), sv'. split; [lia|]. split; [by apply Hrun|]. destruct decision.
  - revert Hres. unfold associates, accepts_association, answer_fits in *. cbn [with_cotp sv1 server_arrives ic_application ic_state ic_cotpConnection ic_session].
    destruct (mms_answer _ _) as [s answer]. intros (H1 & H2 & _ & H3 & H4). split_and!; try done. intros Hne.
    destruct (H4 Hne (Hfit Hne)) as (c2 & [_ (q & Hq & Hqs & Hall)] & ->). rewrite Hpk in Hq, Hall. exists q. split; [done|].
    rewrite tx_stream_reset, Hqs, Hst. split; [done|]. intros Hcs. destruct (Hcan _ Hcs) as (? & ? & ?). by apply Hall.
  - revert Hres. unfold refuses. cbn. rewrite Hst. done.
Qed.

Lemma client_associated uninit ticks (cl : client) (sender : CotpConnection) session answer results :
  let message := accept_message session 1 3 answer in
  is_Some (cl_socket cl) -> cl_intState cl = INT_STATE_WAIT_FOR_ACSE_RESP -> in_time cl ticks -> session_ok (cl_session cl) -> session_ok session ->
  0 < zlen answer -> zlen message <= 257 -> 9 <= co_tpduSize (ct_options sender) <= 13 ->
  rx_idle (cl_cotpConnection cl) (CotpConnection_getTpduSize sender) 257 -> delivers results (length ticks) (zlen message) ->
  exists k cl', (k <= length ticks)%nat /\
    ticks_run (callback := callback) uninit (take k ticks) (client_arrives cl (message_packets sender message) results) = Some cl' /\
    established cl cl' answer [].
Proof.
  intros message Hs Hint Htime Hcs Hss Hans Hmsg Ht Hidle (Hpos & Hlen & Hf). set (cl1 := client_arrives _ _ _).
  destruct (accept_message_sizes _ _ _ _ Hmsg) as [[Hs1 _] _].
  assert (0 < zlen message) as Hm by (unfold message, accept_message, spdu_header; pose proof (zlen_nonneg (items_bytes (accept_items session)));
    pose proof (zlen_nonneg (cpa_pdu 1 (aare_bytes 0 3 answer))); zlia).
  assert (rx_ready (cl_cotpConnection cl1) (CotpConnection_getTpduSize sender) (zlen message)) as Hready.
  { apply arrives_ready; [|done]. destruct Hidle as (I1 & I2 & I3 & I4 & I5 & I6 & I7). repeat (split; [done|]). lia. }
  destruct (packets_pending sender (cl_cotpConnection cl1) message []) as [Hp Hz2]; [lia | done | exact Hready | rewrite app_nil_r; apply arrives_socket|].
  assert (packet_count (CotpConnection_getTpduSize sender - 3) (zlen message) = 1) as Hone.
  { unfold packet_count. assert (512 <= CotpConnection_getTpduSize sender).
    { unfold CotpConnection_getTpduSize. rewrite Z.shiftl_1_l. change 512 with (2 ^ 9). apply Z.pow_le_mono_r; lia. }
    by if_false. }
  rewrite Hone in Hp. change (Z.to_nat 1) with 1%nat in Hp.
  destruct (tx_part_same _ _ (arrives_tx_part (cl_cotpConnection cl) (message_packets sender message) results)) as (_ & Hst & _ & _).
  destruct (arrives_socket (cl_cotpConnection cl) (message_packets sender message) results) as [Har Hrs].
  change (arrives (cl_cotpConnection cl) (message_packets sender message) results) with (cl_cotpConnection cl1) in Har, Hrs.
  destruct (receive_association (callback := callback) uninit ticks cl1 session 1 3 answer (Z.to_nat (CotpConnection_getTpduSize sender - 3)) message [] [] []
    Hint Hs Htime Hcs Hss) as (k & cl' & Hk & Hrun & Hest); [done | done | done | exact Hmsg | exact Hp | done | by rewrite Hrs | by rewrite Hrs | |].
  - rewrite Har. change (zlen (@nil Z)) with 0. unfold zlen in Hz2, Hf |- *. lia.
  - exists k, cl'. split; [done|]. split; [done|]. destruct Hest as (H1 & H2 & H3 & H4 & H5 & H6 & H7). unfold established. rewrite <- Hst. done.
Qed.

Definition request_message (p : IsoConnectionParameters) (password : option (list Z)) (init : list Z) : list Z :=
  connect_message (connect_items IsoSession_init p) (ia_pSelector (ip_local p)) (ia_pSelector (ip_remote p)) p password init.

Definition parameters_ok (p : IsoConnectionParameters) (password : option (list Z)) : Prop :=
  address_ok (ip_remote p) /\ address_ok (ip_local p) /\ auth_ok (ip_acseAuthParameter p) password /\
  pSelector_ok (ia_pSelector (ip_local p)) /\ pSelector_ok (ia_pSelector (ip_remote p)) /\
  sSelector_ok (ia_sSelector (ip_local p)) /\ sSelector_ok (ia_sSelector (ip_remote p)) /\ password_ok password.

(** The client has started to connect: the response of the transport layer is complete in this tick,
    which leaves the transport connection [cotp], and the request [init] is in the transmit buffer. *)
Record association_ready (t : Tick) (cl : client) (cotp : CotpConnection) (password : option (list Z)) (init : list Z) : Prop := {
  ar_state : cl_intState cl = INT_STATE_WAIT_FOR_COTP_CONNECT_RESP /\ tk_now t <= cl_nextReadTimeout cl;
  ar_response : cotp_receive (cl_cotpConnection cl) = Some (TPKT_PACKET_COMPLETE, Some COTP_CONNECT_INDICATION, cotp);
  ar_client : client_ok (cl_with_cotp cl cotp);
  ar_parameters : parameters_ok (cl_parameters cl) password;
  ar_init : (exists rest, cl_sendBuffer cl = init ++ rest) /\ cl_transmitSize cl = zlen init /\ 0 < zlen init;
  ar_size : zlen (request_message (cl_parameters cl) password init) <= 257;
  ar_room : can_send cotp (zlen (message_packets cotp (request_message (cl_parameters cl) password init)))
}.

Lemma connect_items_ok p password : parameters_ok p password -> Forall item_ok (connect_items IsoSession_init p).
Proof.
  intros (_ & _ & _ & _ & _ & H1 & H2 & _). repeat apply List.Forall_cons; try apply List.Forall_nil; cbn; unfold is_byte; done || lia.
Qed.

Lemma transmits_all (cotp cotp' : CotpConnection) message :
  can_send cotp (zlen (message_packets cotp message)) -> transmits cotp cotp' message ->
  tx_frame cotp cotp' /\ tx_stream cotp' = tx_stream cotp ++ message_packets cotp message.
Proof. intros (H1 & H2 & H3) [Hf (p & _ & Hs & Hall)]. split; [done|]. by rewrite Hs, (Hall H1 H2 H3). Qed.
End Exchange.

(** ** A new transport connection *)

Definition fresh_buffer (n : Z) : ByteBuffer := ByteBuffer_wrap (replicate (Z.to_nat n) 0) 0 n.

(** what [CotpConnection_init] makes for both sides *)
Definition fresh_cotp (socket : Socket) : CotpConnection :=
  mkCotpConnection (-1) 1 (-1) socket (mkCotpOptions (mkTSelector 2 [0; 1; 0; 0]) (mkTSelector 2 [0; 1; 0; 0]) 13) false
    (fresh_buffer RECEIVE_BUF_SIZE) (Some (fresh_buffer 8196)) (fresh_buffer 8196) 0 (Some (replicate (Z.to_nat 66000) 0)) 66000 0.

Lemma fresh_cotp_init socket :
  CotpConnection_init socket (fresh_buffer RECEIVE_BUF_SIZE) (fresh_buffer 8196) (Some (fresh_buffer 8196)) (Some (replicate (Z.to_nat 66000) 0)) 66000
  = Some (fresh_cotp socket).
Proof. reflexivity. Qed.

Lemma zlen_fresh n (x : Z) : 0 <= n -> zlen (replicate (Z.to_nat n) x) = n.
Proof. intros. unfold zlen. rewrite length_replicate. lia. Qed.

Lemma fresh_cotp_ok socket : cotp_ok (fresh_cotp socket).
Proof.
  unfold cotp_ok, extension_ok, fresh_cotp. cbn [ct_options co_tpduSize ct_socketExtensionBuffer ct_socketExtensionBufferFill ct_socketExtensionBufferSize ct_writeBuffer].
  split; [lia|]. split; [rewrite zlen_fresh; lia|]. exists (fresh_buffer 8196). split; [done|]. unfold fresh_buffer, ByteBuffer_wrap. cbn [bb_maxSize bb_buffer]. rewrite zlen_fresh by lia.
  split; [lia|]. change (8192 + 4 <= 8196). lia.
Qed.

Lemma fresh_cotp_idle socket messageSize : messageSize <= RECEIVE_BUF_SIZE -> rx_idle (fresh_cotp socket) 8192 messageSize.
Proof.
  intros H. unfold rx_idle, fresh_cotp, fresh_buffer, ByteBuffer_wrap, byteBuffer_ok.
  cbn [ct_socketExtensionBufferFill ct_readBuffer ct_payload bb_maxSize bb_size bb_buffer]. unfold RECEIVE_BUF_SIZE, CONFIG_MMS_MAXIMUM_PDU_SIZE in *.
  rewrite !zlen_fresh by lia. lia.
Qed.

Lemma fresh_can_send socket n : Forall (fun r => 0 <= r) (sk_sendResults socket) -> n <= 66000 -> can_send (fresh_cotp socket) n.
Proof.
  intros Hr Hn. split; [by eexists|]. split; [exact Hr|]. unfold extension_room, fresh_cotp. cbn [ct_socketExtensionBuffer ct_socketExtensionBufferFill ct_socketExtensionBufferSize]. lia.
Qed.
