(* ===== verification/CFloat.v ===== *)
(** The C types [float] and [double] on their bit patterns.

    A floating point object is the integer its object representation denotes
    (IEEE 754 binary32 and binary64, as on every platform the library is built
    for). Arithmetic meaning is given by the Standard Library's [SpecFloat];
    conversions round to nearest, ties to even, and keep the sign and the
    leading payload bits of a NaN, which they make quiet. *)

From Stdlib Require Import SpecFloat.
From S2P Require Import Prelude.
Open Scope Z_scope.

(** A format: mantissa bits without the hidden one, exponent bits. *)
Record format := mkFormat { mant_width : Z; exp_width : Z }.
Definition binary32 : format := mkFormat 23 8.
Definition binary64 : format := mkFormat 52 11.

Definition f_prec (f : format) : Z := mant_width f + 1.
Definition f_emax (f : format) : Z := 2 ^ (exp_width f - 1).
Definition f_emin (f : format) : Z := 3 - f_emax f - f_prec f.

Definition sign_bit (f : format) (bits : Z) : bool := Z.testbit bits (mant_width f + exp_width f).
Definition exp_field (f : format) (bits : Z) : Z := (bits / 2 ^ mant_width f) mod 2 ^ exp_width f.
Definition mant_field (f : format) (bits : Z) : Z := bits mod 2 ^ mant_width f.

Definition decode (f : format) (bits : Z) : spec_float :=
  let s := sign_bit f bits in
  let e := exp_field f bits in
  let m := mant_field f bits in
  if e =? 0 then
    match m with Z.pos p => S754_finite s p (f_emin f) | _ => S754_zero s end
  else if e =? 2 ^ exp_width f - 1 then
    if m =? 0 then S754_infinity s else S754_nan
  else
    match m + 2 ^ mant_width f with
    | Z.pos p => S754_finite s p (e - 1 + f_emin f)
    | _ => S754_nan
    end.

Definition pack (f : format) (s : bool) (e m : Z) : Z :=
  (if s then 2 ^ (mant_width f + exp_width f) else 0) + e * 2 ^ mant_width f + m.

(** The canonical quiet NaN stands for [S754_nan]; the conversions below treat
    NaN operands before they get here. *)
Definition encode (f : format) (x : spec_float) : Z :=
  match x with
  | S754_zero s => pack f s 0 0
  | S754_infinity s => pack f s (2 ^ exp_width f - 1) 0
  | S754_nan => pack f false (2 ^ exp_width f - 1) (2 ^ (mant_width f - 1))
  | S754_finite s p e =>
      if Z.pos p <? 2 ^ mant_width f then pack f s 0 (Z.pos p)
      else pack f s (e - f_emin f + 1) (Z.pos p - 2 ^ mant_width f)
  end.

Definition is_nan (f : format) (bits : Z) : bool :=
  (exp_field f bits =? 2 ^ exp_width f - 1) && negb (mant_field f bits =? 0).

(** NaN payload: moved to the wider or narrower mantissa, made quiet. *)
Definition convert_nan (f g : format) (bits : Z) : Z :=
  let m := mant_field f bits in
  let m := if mant_width f <=? mant_width g
           then m * 2 ^ (mant_width g - mant_width f)
           else m / 2 ^ (mant_width f - mant_width g) in
  pack g (sign_bit f bits) (2 ^ exp_width g - 1) (Z.lor m (2 ^ (mant_width g - 1))).

Definition convert (f g : format) (bits : Z) : Z :=
  if is_nan f bits then convert_nan f g bits
  else
    match decode f bits with
    | S754_finite s p e => encode g (binary_round (f_prec g) (f_emax g) s p e)
    | x => encode g x
    end.

(** [(double) f] and [(float) d] *)
Definition float_to_double (bits : Z) : Z := convert binary32 binary64 bits.
Definition double_to_float (bits : Z) : Z := convert binary64 binary32 bits.

(** Comparisons of [double]s; a [float] operand is converted first. *)
Definition double_lt (a b : Z) : bool := SFltb (decode binary64 a) (decode binary64 b).
Definition double_gt (a b : Z) : bool := double_lt b a.
Definition float_eq (a b : Z) : bool := SFeqb (decode binary32 a) (decode binary32 b).
Definition float_ne (a b : Z) : bool := negb (float_eq a b).

(** The bit pattern of an integer constant such as [3500.0]. *)
Definition double_of_Z (z : Z) : Z := encode binary64 (binary_normalize 53 1024 z 0 false).
Definition float_of_Z (z : Z) : Z := encode binary32 (binary_normalize 24 128 z 0 false).

Example double_3500 : double_of_Z 3500 = 0x40AB580000000000.
Proof. reflexivity. Qed.
Example float_3500 : float_of_Z 3500 = 0x455AC000.
Proof. reflexivity. Qed.
Example widen_3500 : float_to_double (float_of_Z 3500) = double_of_Z 3500.
Proof. reflexivity. Qed.
Example narrow_third : double_to_float 0x3FD5555555555555 = 0x3EAAAAAB.
Proof. reflexivity. Qed.
Example narrow_overflow : double_to_float 0x47F0000000000000 = 0x7F800000.
Proof. reflexivity. Qed.
Example narrow_subnormal : double_to_float 0x36A0000000000000 = 0x00000001.
Proof. reflexivity. Qed.
Example widen_nan : float_to_double 0xFF800001 = 0xFFF8000020000000.
Proof. reflexivity. Qed.

Lemma mant_field_range f bits : 0 <= mant_width f -> 0 <= mant_field f bits < 2 ^ mant_width f.
Proof. intros. apply Z.mod_pos_bound, Z.pow_pos_nonneg; lia. Qed.
