(* ===== verification/MmsValue.v ===== *)
(** MMS data values: src/libiec61850/src/mms/iso_mms/common/mms_value.c.

    The tagged union [struct sMmsValue] is an inductive type with one
    constructor per type the library can build; a component of an array or a
    structure is [None] for a null pointer. A value is a tree: the code never
    shares components between values. The [deleteValue] flag, which only
    steers memory management, is left out, as are the functions that free
    memory. Allocation succeeds; the indeterminate bytes of a fresh block are
    represented by zeros, and the [buf] of a floating point value holds the
    [formatWidth / 8] bytes in use. A function that updates a value returns the
    new value. *)

From S2P Require Import Prelude BerEncoder BerDecoder BerInteger StringUtils CFloat.
Open Scope Z_scope.

(** * Data *)

Inductive MmsType :=
| MMS_ARRAY | MMS_STRUCTURE | MMS_BOOLEAN | MMS_BIT_STRING | MMS_INTEGER | MMS_UNSIGNED
| MMS_FLOAT | MMS_OCTET_STRING | MMS_VISIBLE_STRING | MMS_BINARY_TIME | MMS_STRING
| MMS_UTC_TIME | MMS_DATA_ACCESS_ERROR.

#[export] Instance MmsType_eq_dec : EqDecision MmsType.
Proof. solve_decision. Defined.

Unset Elimination Schemes.

Inductive MmsValue :=
| MmsArray (components : list (option MmsValue))
| MmsStructure (components : list (option MmsValue))
| MmsBoolean (boolean : bool)
| MmsBitString (size : Z) (buf : list Z)
| MmsInteger (integer : Asn1PrimitiveValue)
| MmsUnsigned (integer : Asn1PrimitiveValue)
| MmsFloat (exponentWidth formatWidth : Z) (buf : list Z)
| MmsOctetString (size maxSize : Z) (buf : list Z)
| MmsVisibleString (buf : option (list Z)) (size : Z)
| MmsBinaryTime (size : Z) (buf : list Z)
| MmsString (buf : option (list Z)) (size : Z)
| MmsUtcTime (utcTime : list Z)
| MmsDataAccessError (dataAccessError : Z).

Definition MmsValue_getType (self : MmsValue) : MmsType :=
  match self with
  | MmsArray _ => MMS_ARRAY
  | MmsStructure _ => MMS_STRUCTURE
  | MmsBoolean _ => MMS_BOOLEAN
  | MmsBitString _ _ => MMS_BIT_STRING
  | MmsInteger _ => MMS_INTEGER
  | MmsUnsigned _ => MMS_UNSIGNED
  | MmsFloat _ _ _ => MMS_FLOAT
  | MmsOctetString _ _ _ => MMS_OCTET_STRING
  | MmsVisibleString _ _ => MMS_VISIBLE_STRING
  | MmsBinaryTime _ _ => MMS_BINARY_TIME
  | MmsString _ _ => MMS_STRING
  | MmsUtcTime _ => MMS_UTC_TIME
  | MmsDataAccessError _ => MMS_DATA_ACCESS_ERROR
  end.

(** src/libiec61850/src/mms/inc/mms_types.h: the description of a type. *)
Inductive MmsVariableSpecification :=
| SpecArray (elementCount : Z) (elementTypeSpec : MmsVariableSpecification)
| SpecStructure (elements : list MmsVariableSpecification)
| SpecBoolean
| SpecBitString (bitString : Z)
| SpecInteger (integer : Z)
| SpecUnsigned (unsignedInteger : Z)
| SpecFloat (exponentWidth formatWidth : Z)
| SpecOctetString (octetString : Z)
| SpecVisibleString (visibleString : Z)
| SpecBinaryTime (binaryTime : Z)
| SpecString (mmsString : Z)
| SpecUtcTime
| SpecDataAccessError
| SpecOther.

Set Elimination Schemes.

(** * Construction *)

Definition bitSize_bytes (bitSize : Z) : Z :=
  Z.quot bitSize 8 + (if 0 <? Z.rem bitSize 8 then 1 else 0).

Definition bitStringByteSize (value : MmsValue) : option Z :=
  match value with MmsBitString size _ => Some (bitSize_bytes size) | _ => None end.

Definition MmsValue_newDataAccessError (accessError : Z) : MmsValue := MmsDataAccessError accessError.

Definition MmsValue_newBitString (bitSize : Z) : MmsValue :=
  let size := Z.abs bitSize in
  MmsBitString size (replicate (Z.to_nat (bitSize_bytes size)) 0).

(** [value] is the bit pattern of the C [float] or [double]. *)
Definition MmsValue_newFloat (value : Z) : MmsValue := MmsFloat 8 32 (le_bytes 4 value).
Definition MmsValue_newDouble (value : Z) : MmsValue := MmsFloat 11 64 (le_bytes 8 value).

Definition MmsValue_newIntegerFromInt8 (integer : Z) : option MmsValue :=
  v ← BerInteger_createFromInt32 integer; Some (MmsInteger v).
Definition MmsValue_newIntegerFromInt16 (integer : Z) : option MmsValue :=
  v ← BerInteger_createFromInt32 integer; Some (MmsInteger v).
Definition MmsValue_newIntegerFromInt32 (integer : Z) : option MmsValue :=
  v ← BerInteger_createFromInt32 integer; Some (MmsInteger v).
Definition MmsValue_newUnsignedFromUint32 (integer : Z) : option MmsValue :=
  v ← BerInteger_createFromUint32 integer; Some (MmsUnsigned v).
Definition MmsValue_newIntegerFromInt64 (integer : Z) : option MmsValue :=
  v ← BerInteger_createFromInt64 integer; Some (MmsInteger v).

Definition MmsValue_newInteger (size : Z) : MmsValue :=
  if size <=? 32 then MmsInteger BerInteger_createInt32 else MmsInteger BerInteger_createInt64.
Definition MmsValue_newUnsigned (size : Z) : MmsValue :=
  if size <=? 32 then MmsUnsigned BerInteger_createInt32 else MmsUnsigned BerInteger_createInt64.

Definition MmsValue_newBoolean (boolean : bool) : MmsValue := MmsBoolean boolean.

Definition MmsValue_newOctetString (size maxSize : Z) : MmsValue :=
  MmsOctetString (u16 size) maxSize (replicate (Z.to_nat (Z.abs maxSize)) 0).

Definition MmsValue_newBinaryTime (timeOfDay : bool) : MmsValue :=
  MmsBinaryTime (if timeOfDay then 4 else 6) (replicate 6 0).

Definition MmsValue_newUtcTime (timeval : Z) : MmsValue :=
  MmsUtcTime (be_bytes 4 timeval ++ replicate 4 0).

Definition MmsValue_createEmptyArray (size : Z) : MmsValue :=
  MmsArray (replicate (Z.to_nat size) None).
Definition MmsValue_createEmptyStructure (size : Z) : MmsValue :=
  MmsStructure (replicate (Z.to_nat size) None).

(** the type of a string value is [MMS_VISIBLE_STRING] or [MMS_STRING] *)
Definition string_value (visible : bool) (buf : option (list Z)) (size : Z) : MmsValue :=
  if visible then MmsVisibleString buf size else MmsString buf size.

(** The buffer and the size of a string value after it is set. *)
Definition setVisibleStringValue (buf : option (list Z)) (size : Z) (value : option (list Z))
  : option (option (list Z) * Z) :=
  match buf with
  | None => Some (None, size)
  | Some buf =>
      match value with
      | Some value =>
          newStringSize ← strlen value;
          let '(buf, size) :=
            if size <? newStringSize
            then (replicate (Z.to_nat (newStringSize + 1)) 0, s16 newStringSize) else (buf, size) in
          r ← StringUtils_copyStringMax (Some buf) (size + 1) value;
          Some (Some (default buf r), size)
      | None => buf ← st buf 0 0; Some (Some buf, size)
      end
  end.

Definition MmsValue_newString (visible : bool) (string : option (list Z)) : option MmsValue :=
  match string with
  | None => Some (string_value visible None 0)
  | Some s =>
      stringSize ← strlen s;
      '(buf, size) ← setVisibleStringValue (Some (replicate (Z.to_nat (stringSize + 1)) 0))
                       (s16 stringSize) string;
      Some (string_value visible buf size)
  end.

Definition MmsValue_newVisibleString (string : option (list Z)) : option MmsValue :=
  MmsValue_newString true string.
Definition MmsValue_newMmsString (string : option (list Z)) : option MmsValue :=
  MmsValue_newString false string.

Definition MmsValue_newStringWithSize (visible : bool) (size : Z) : option MmsValue :=
  buf ← st (replicate (Z.to_nat (size + 1)) 0) 0 0;
  Some (string_value visible (Some buf) (s16 size)).

Definition MmsValue_newVisibleStringWithSize (size : Z) : option MmsValue :=
  MmsValue_newStringWithSize true size.
Definition MmsValue_newMmsStringWithSize (size : Z) : option MmsValue :=
  MmsValue_newStringWithSize false size.

Definition MmsValue_newStringFromByteArray (visible : bool) (byteArray : list Z) (size : Z)
  : option MmsValue :=
  buf ← StringUtils_createStringFromBuffer byteArray size;
  Some (string_value visible (Some buf) (s16 size)).

Definition MmsValue_newVisibleStringFromByteArray (byteArray : list Z) (size : Z) : option MmsValue :=
  MmsValue_newStringFromByteArray true byteArray size.
Definition MmsValue_newMmsStringFromByteArray (byteArray : list Z) (size : Z) : option MmsValue :=
  MmsValue_newStringFromByteArray false byteArray size.

Definition MmsValue_setVisibleString (self : MmsValue) (string : option (list Z)) : option MmsValue :=
  match self with
  | MmsVisibleString buf size =>
      '(buf, size) ← setVisibleStringValue buf size string; Some (MmsVisibleString buf size)
  | _ => Some self
  end.

Definition MmsValue_setMmsString (self : MmsValue) (string : option (list Z)) : option MmsValue :=
  match self with
  | MmsString buf size =>
      '(buf, size) ← setVisibleStringValue buf size string; Some (MmsString buf size)
  | _ => Some self
  end.

(** the null result of an unsupported type is [Some None] *)
Fixpoint MmsValue_newDefaultValue (typeSpec : MmsVariableSpecification) : option (option MmsValue) :=
  match typeSpec with
  | SpecInteger n => Some (Some (MmsValue_newInteger n))
  | SpecUnsigned n => Some (Some (MmsValue_newUnsigned n))
  | SpecFloat exponentWidth formatWidth =>
      Some (Some (MmsFloat exponentWidth formatWidth (replicate (Z.to_nat (formatWidth / 8)) 0)))
  | SpecBitString n =>
      let bitSize := Z.abs n in
      Some (Some (MmsBitString bitSize (replicate (Z.to_nat (bitSize_bytes bitSize)) 0)))
  | SpecOctetString n =>
      Some (Some (MmsOctetString (if n <? 0 then 0 else u16 n) (Z.abs n)
                    (replicate (Z.to_nat (Z.abs n)) 0)))
  | SpecVisibleString n => v ← MmsValue_newVisibleStringWithSize (Z.abs n); Some (Some v)
  | SpecBoolean => Some (Some (MmsValue_newBoolean false))
  | SpecUtcTime => Some (Some (MmsUtcTime (replicate 8 0)))
  | SpecArray elementCount elementTypeSpec =>
      e ← MmsValue_newDefaultValue elementTypeSpec;
      match e with
      | Some e => Some (Some (MmsArray (replicate (Z.to_nat elementCount) (Some e))))
      | None => Some (if elementCount <=? 0 then Some (MmsArray []) else None)
      end
  | SpecStructure elements =>
      r ← (fix go (l : list MmsVariableSpecification) : option (option (list (option MmsValue))) :=
             match l with
             | [] => Some (Some [])
             | s :: l =>
                 v ← MmsValue_newDefaultValue s;
                 match v with
                 | None => Some None
                 | Some v => vs ← go l; Some (vs ← vs; Some (Some v :: vs))
                 end
             end) elements;
      Some (vs ← r; Some (MmsStructure vs))
  | SpecString n => v ← MmsValue_newMmsStringWithSize (Z.abs n); Some (Some v)
  | SpecBinaryTime n => Some (Some (MmsValue_newBinaryTime (n =? 4)))
  | SpecDataAccessError | SpecOther => Some None
  end.

(** * Access *)

Definition MmsValue_getArraySize (self : MmsValue) : option Z :=
  match self with
  | MmsArray components | MmsStructure components => Some (zlen components)
  | _ => None
  end.

(** [None] inside the result is the null pointer. *)
Definition MmsValue_getElement (complexValue : MmsValue) (index : Z) : option MmsValue :=
  match complexValue with
  | MmsArray components | MmsStructure components =>
      if (index <? 0) || (zlen components <=? index) then None
      else mjoin (components !! Z.to_nat index)
  | _ => None
  end.

Definition MmsValue_setElement (complexValue : MmsValue) (index : Z) (elementValue : option MmsValue)
  : MmsValue :=
  let set components :=
    if (index <? 0) || (zlen components <=? index) then components
    else <[Z.to_nat index := elementValue]> components in
  match complexValue with
  | MmsArray components => MmsArray (set components)
  | MmsStructure components => MmsStructure (set components)
  | _ => complexValue
  end.

Definition MmsValue_setBoolean (self : MmsValue) (boolValue : bool) : option MmsValue :=
  match self with MmsBoolean _ => Some (MmsBoolean boolValue) | _ => None end.
Definition MmsValue_getBoolean (self : MmsValue) : option bool :=
  match self with MmsBoolean b => Some b | _ => None end.

Definition MmsValue_getDataAccessError (self : MmsValue) : option Z :=
  match self with MmsDataAccessError e => Some e | _ => None end.

Definition MmsValue_toInt32 (self : MmsValue) : option Z :=
  match self with MmsInteger v | MmsUnsigned v => BerInteger_toInt32 v | _ => Some 0 end.
Definition MmsValue_toUint32 (self : MmsValue) : option Z :=
  match self with MmsInteger v | MmsUnsigned v => BerInteger_toUint32 v | _ => Some 0 end.
Definition MmsValue_toInt64 (self : MmsValue) : option Z :=
  match self with MmsInteger v | MmsUnsigned v => BerInteger_toInt64 v | _ => Some 0 end.

(** Set an integer of the given sign when [minSize] octets are available. *)
Definition set_signed (self : MmsValue) (minSize : Z)
    (f : Asn1PrimitiveValue -> option (Asn1PrimitiveValue * bool)) : option MmsValue :=
  match self with
  | MmsInteger v =>
      if minSize <=? Asn1PrimitiveValue_getMaxSize v
      then '(v, _) ← f v; Some (MmsInteger v) else Some self
  | _ => Some self
  end.
Definition set_unsigned (self : MmsValue) (minSize : Z)
    (f : Asn1PrimitiveValue -> option (Asn1PrimitiveValue * bool)) : option MmsValue :=
  match self with
  | MmsUnsigned v =>
      if minSize <=? Asn1PrimitiveValue_getMaxSize v
      then '(v, _) ← f v; Some (MmsUnsigned v) else Some self
  | _ => Some self
  end.

Definition MmsValue_setInt8 (self : MmsValue) (integer : Z) : option MmsValue :=
  set_signed self 1 (fun v => BerInteger_setInt32 v integer).
Definition MmsValue_setInt16 (self : MmsValue) (integer : Z) : option MmsValue :=
  set_signed self 2 (fun v => BerInteger_setInt32 v integer).
Definition MmsValue_setInt32 (self : MmsValue) (integer : Z) : option MmsValue :=
  set_signed self 4 (fun v => BerInteger_setInt32 v integer).
Definition MmsValue_setInt64 (self : MmsValue) (integer : Z) : option MmsValue :=
  set_signed self 8 (fun v => BerInteger_setInt64 v integer).
Definition MmsValue_setUint32 (self : MmsValue) (integer : Z) : option MmsValue :=
  set_unsigned self 4 (fun v => BerInteger_setUint32 v integer).
Definition MmsValue_setUint16 (self : MmsValue) (integer : Z) : option MmsValue :=
  set_unsigned self 2 (fun v => BerInteger_setUint16 v integer).
Definition MmsValue_setUint8 (self : MmsValue) (integer : Z) : option MmsValue :=
  set_unsigned self 1 (fun v => BerInteger_setUint8 v integer).

Definition MmsValue_setFloat (self : MmsValue) (newFloatValue : Z) : option MmsValue :=
  match self with
  | MmsFloat exponentWidth formatWidth buf =>
      if formatWidth =? 32 then
        buf ← st_range buf 0 (le_bytes 4 newFloatValue);
        Some (MmsFloat exponentWidth formatWidth buf)
      else if formatWidth =? 64 then
        buf ← st_range buf 0 (le_bytes 8 (float_to_double newFloatValue));
        Some (MmsFloat exponentWidth formatWidth buf)
      else Some self
  | _ => Some self
  end.

Definition MmsValue_setDouble (self : MmsValue) (newDoubleValue : Z) : option MmsValue :=
  match self with
  | MmsFloat exponentWidth formatWidth buf =>
      if formatWidth =? 32 then
        buf ← st_range buf 0 (le_bytes 4 (double_to_float newDoubleValue));
        Some (MmsFloat exponentWidth formatWidth buf)
      else if formatWidth =? 64 then
        buf ← st_range buf 0 (le_bytes 8 newDoubleValue);
        Some (MmsFloat exponentWidth formatWidth buf)
      else Some self
  | _ => Some self
  end.

Definition MmsValue_toFloat (self : MmsValue) : option Z :=
  match self with
  | MmsFloat _ formatWidth buf =>
      if formatWidth =? 32 then bs ← ld_range buf 0 4; Some (le_val bs)
      else if formatWidth =? 64 then bs ← ld_range buf 0 8; Some (double_to_float (le_val bs))
      else Some 0
  | _ => Some 0
  end.

Definition MmsValue_toDouble (self : MmsValue) : option Z :=
  match self with
  | MmsFloat _ formatWidth buf =>
      if formatWidth =? 32 then bs ← ld_range buf 0 4; Some (float_to_double (le_val bs))
      else if formatWidth =? 64 then bs ← ld_range buf 0 8; Some (le_val bs)
      else Some 0
  | _ => Some 0
  end.

Definition MmsValue_setOctetString (self : MmsValue) (buf : list Z) (size : Z) : option MmsValue :=
  match self with
  | MmsOctetString size0 maxSize buf0 =>
      if size <=? Z.abs maxSize then
        bs ← ld_range buf 0 size;
        buf0 ← st_range buf0 0 bs;
        Some (MmsOctetString (u16 size) maxSize buf0)
      else Some self
  | _ => None
  end.

Definition MmsValue_setOctetStringOctet (self : MmsValue) (octetPos value : Z) : option MmsValue :=
  match self with
  | MmsOctetString size maxSize buf =>
      if (0 <=? octetPos) && (octetPos <? Z.abs maxSize) then
        buf ← st buf octetPos value;
        Some (MmsOctetString (if size <=? octetPos then u16 (octetPos + 1) else size) maxSize buf)
      else Some self
  | _ => None
  end.

Definition MmsValue_getOctetStringOctet (self : MmsValue) (octetPos : Z) : option Z :=
  match self with
  | MmsOctetString size _ buf =>
      if (0 <=? octetPos) && (octetPos <? size) then ld buf octetPos else Some 0
  | _ => None
  end.

Definition MmsValue_getOctetStringSize (self : MmsValue) : option Z :=
  match self with MmsOctetString size _ _ => Some (u16 size) | _ => None end.
Definition MmsValue_getOctetStringMaxSize (self : MmsValue) : option Z :=
  match self with MmsOctetString _ maxSize _ => Some (u16 (Z.abs maxSize)) | _ => None end.

Definition MmsValue_toString (self : MmsValue) : option (list Z) :=
  match self with MmsVisibleString buf _ | MmsString buf _ => buf | _ => None end.
Definition MmsValue_getStringSize (self : MmsValue) : Z :=
  match self with MmsVisibleString _ size | MmsString _ size => size | _ => 0 end.

(** * Bit strings *)

Definition bit_set (size : Z) (buf : list Z) (bitPos : Z) (value : bool) : option (list Z) :=
  if bitPos <? size then
    let bytePos := Z.quot bitPos 8 in
    let bitPosInByte := 7 - Z.rem bitPos 8 in
    let bitMask := Z.shiftl 1 bitPosInByte in
    b ← ld buf bytePos;
    st buf bytePos (if value then u8 (Z.lor b bitMask) else u8 (Z.land b (Z.lnot bitMask)))
  else Some buf.

Definition bit_get (size : Z) (buf : list Z) (bitPos : Z) : option bool :=
  if bitPos <? size then
    let bytePos := Z.quot bitPos 8 in
    let bitPosInByte := 7 - Z.rem bitPos 8 in
    let bitMask := Z.shiftl 1 bitPosInByte in
    b ← ld buf bytePos;
    Some (0 <? Z.land b bitMask)
  else Some false.

Definition MmsValue_setBitStringBit (self : MmsValue) (bitPos : Z) (value : bool) : option MmsValue :=
  match self with
  | MmsBitString size buf => buf ← bit_set size buf bitPos value; Some (MmsBitString size buf)
  | _ => None
  end.

Definition MmsValue_getBitStringBit (self : MmsValue) (bitPos : Z) : option bool :=
  match self with MmsBitString size buf => bit_get size buf bitPos | _ => None end.

Definition MmsValue_getBitStringSize (self : MmsValue) : option Z :=
  match self with MmsBitString size _ => Some size | _ => None end.

(** the static [getBitStringByteSize] *)
Definition getBitStringByteSize (size : Z) : Z :=
  if Z.rem size 8 =? 0 then Z.quot size 8 else Z.quot size 8 + 1.

(** [for (i = 0; i < n; i++) buf[i] = v;] from index [i] on *)
Fixpoint fill_loop (n : nat) (i v : Z) (buf : list Z) : option (list Z) :=
  match n with
  | O => Some buf
  | S n => buf ← st buf i v; fill_loop n (i + 1) v buf
  end.

Definition MmsValue_deleteAllBitStringBits (self : MmsValue) : option MmsValue :=
  match self with
  | MmsBitString size buf =>
      buf ← fill_loop (Z.to_nat (getBitStringByteSize size)) 0 0 buf; Some (MmsBitString size buf)
  | _ => None
  end.

Definition MmsValue_setAllBitStringBits (self : MmsValue) : option MmsValue :=
  match self with
  | MmsBitString size buf =>
      let byteSize := getBitStringByteSize size in
      buf ← fill_loop (Z.to_nat byteSize) 0 0xff buf;
      let padding := byteSize * 8 - size in
      b ← ld buf (byteSize - 1);
      buf ← st buf (byteSize - 1) (Z.land b (paddingMask padding));
      Some (MmsBitString size buf)
  | _ => None
  end.

(** the bits of one octet: [while (currentByte != 0) ... currentByte >>= 1;] *)
Fixpoint countBits (fuel : nat) (currentByte : Z) : Z :=
  match fuel with
  | O => 0
  | S fuel =>
      if currentByte =? 0 then 0
      else (if Z.land currentByte 1 =? 1 then 1 else 0) + countBits fuel (Z.shiftr currentByte 1)
  end.

Fixpoint setBits_loop (n : nat) (i byteSize size : Z) (buf : list Z) (setBitsCount : Z)
  : option (list Z * Z) :=
  match n with
  | O => Some (buf, setBitsCount)
  | S n =>
      b ← ld buf i;
      buf ← (if i =? byteSize - 1
             then st buf i (Z.land b (paddingMask (byteSize * 8 - size))) else Some buf);
      currentByte ← ld buf i;
      setBits_loop n (i + 1) byteSize size buf (setBitsCount + countBits 8 currentByte)
  end.

(** The count; the padding bits are cleared on the way. *)
Definition MmsValue_getNumberOfSetBits (self : MmsValue) : option (MmsValue * Z) :=
  match self with
  | MmsBitString size buf =>
      let byteSize := getBitStringByteSize size in
      '(buf, setBitsCount) ← setBits_loop (Z.to_nat byteSize) 0 byteSize size buf 0;
      Some (MmsBitString size buf, setBitsCount)
  | _ => None
  end.

(** A shift by the width of [int] or more is undefined. *)
Definition shl1 (n : Z) : option Z := if (0 <=? n) && (n <? 32) then Some (Z.shiftl 1 n) else None.

Fixpoint asInteger_loop (n : nat) (bitPos size : Z) (buf : list Z) (value : Z) : option Z :=
  match n with
  | O => Some value
  | S n =>
      bit ← bit_get size buf bitPos;
      value ← (if bit : bool then m ← shl1 bitPos; Some (u32 (value + m)) else Some value);
      asInteger_loop n (bitPos + 1) size buf value
  end.

Definition MmsValue_getBitStringAsInteger (self : MmsValue) : option Z :=
  match self with
  | MmsBitString size buf => asInteger_loop (Z.to_nat size) 0 size buf 0
  | _ => None
  end.

Fixpoint fromInteger_loop (n : nat) (bitPos size : Z) (buf : list Z) (intValue : Z)
  : option (list Z) :=
  match n with
  | O => Some buf
  | S n =>
      buf ← bit_set size buf bitPos (Z.land intValue 1 =? 1);
      fromInteger_loop n (bitPos + 1) size buf (Z.shiftr intValue 1)
  end.

Definition MmsValue_setBitStringFromInteger (self : MmsValue) (intValue : Z) : option MmsValue :=
  match self with
  | MmsBitString size buf =>
      buf ← fromInteger_loop (Z.to_nat size) 0 size buf intValue; Some (MmsBitString size buf)
  | _ => None
  end.

Fixpoint asIntegerBE_loop (n : nat) (i size : Z) (buf : list Z) (value : Z) : option Z :=
  match n with
  | O => Some value
  | S n =>
      bit ← bit_get size buf (size - 1 - i);
      value ← (if bit : bool then m ← shl1 i; Some (u32 (value + m)) else Some value);
      asIntegerBE_loop n (i + 1) size buf value
  end.

Definition MmsValue_getBitStringAsIntegerBigEndian (self : MmsValue) : option Z :=
  match self with
  | MmsBitString size buf => asIntegerBE_loop (Z.to_nat size) 0 size buf 0
  | _ => None
  end.

Fixpoint fromIntegerBE_loop (n : nat) (i size : Z) (buf : list Z) (intValue : Z)
  : option (list Z) :=
  match n with
  | O => Some buf
  | S n =>
      buf ← bit_set size buf (size - 1 - i) (Z.land intValue 1 =? 1);
      fromIntegerBE_loop n (i + 1) size buf (Z.shiftr intValue 1)
  end.

Definition MmsValue_setBitStringFromIntegerBigEndian (self : MmsValue) (intValue : Z)
  : option MmsValue :=
  match self with
  | MmsBitString size buf =>
      buf ← fromIntegerBE_loop (Z.to_nat size) 0 size buf intValue; Some (MmsBitString size buf)
  | _ => None
  end.

(** * Time *)

(** [memcpyReverseByteOrder], src/libiec61850/src/common/conversions.c: [dst[i] = src[size - i - 1]] *)
Fixpoint memcpyReverse_loop (n : nat) (i size : Z) (dst src : list Z) : option (list Z) :=
  match n with
  | O => Some dst
  | S n =>
      b ← ld src (size - i - 1);
      dst ← st dst i b;
      memcpyReverse_loop n (i + 1) size dst src
  end.

Definition memcpyReverseByteOrder (dst src : list Z) (size : Z) : option (list Z) :=
  memcpyReverse_loop (Z.to_nat size) 0 size dst src.

Definition MmsValue_setUtcTime (self : MmsValue) (timeval : Z) : option MmsValue :=
  match self with
  | MmsUtcTime utcTime =>
      utcTime ← memcpyReverseByteOrder utcTime (le_bytes 4 timeval) 4; Some (MmsUtcTime utcTime)
  | _ => None
  end.

Definition setUtcTimeMs (self : MmsValue) (timeval timeQuality : Z) : option MmsValue :=
  match self with
  | MmsUtcTime utcTime =>
      let timeval32 := u32 (timeval / 1000) in
      valueArray ← memcpyReverseByteOrder utcTime (le_bytes 4 timeval32) 4;
      let remainder := u32 (timeval mod 1000) in
      let fractionOfSecond := u32 (u32 (remainder * 16777) + u32 (remainder * 216) / 1000) in
      valueArray ← st valueArray 4 (Z.land (Z.shiftr fractionOfSecond 16) 0xff);
      valueArray ← st valueArray 5 (Z.land (Z.shiftr fractionOfSecond 8) 0xff);
      valueArray ← st valueArray 6 (Z.land fractionOfSecond 0xff);
      valueArray ← st valueArray 7 timeQuality;
      Some (MmsUtcTime valueArray)
  | _ => None
  end.

Definition MmsValue_setUtcTimeMs (self : MmsValue) (timeval : Z) : option MmsValue :=
  setUtcTimeMs self timeval 0x0a.
Definition MmsValue_setUtcTimeMsEx (self : MmsValue) (timeval timeQuality : Z) : option MmsValue :=
  setUtcTimeMs self timeval timeQuality.

Definition MmsValue_setUtcTimeQuality (self : MmsValue) (timeQuality : Z) : option MmsValue :=
  match self with
  | MmsUtcTime utcTime => utcTime ← st utcTime 7 timeQuality; Some (MmsUtcTime utcTime)
  | _ => None
  end.
Definition MmsValue_getUtcTimeQuality (self : MmsValue) : option Z :=
  match self with MmsUtcTime utcTime => ld utcTime 7 | _ => None end.

(** [buffer] is [None] for a null pointer. *)
Definition MmsValue_setUtcTimeByBuffer (self : MmsValue) (buffer : option (list Z)) : option MmsValue :=
  match buffer with
  | None => Some self
  | Some buffer =>
      match self with
      | MmsUtcTime utcTime =>
          bs ← ld_range buffer 0 8;
          utcTime ← st_range utcTime 0 bs;
          Some (MmsUtcTime utcTime)
      | _ => None
      end
  end.

(** the bytes 4, 5 and 6: the 24 bit fraction of a second *)
Definition utc_fraction (valueArray : list Z) : option Z :=
  b4 ← ld valueArray 4; b5 ← ld valueArray 5; b6 ← ld valueArray 6;
  Some (Z.shiftl b4 16 + Z.shiftl b5 8 + b6).

Definition utc_seconds (valueArray : list Z) : option Z :=
  t ← memcpyReverseByteOrder (replicate 4 0) valueArray 4; Some (le_val t).

Definition MmsValue_getUtcTimeInMs (self : MmsValue) : option Z :=
  match self with
  | MmsUtcTime valueArray =>
      timeval32 ← utc_seconds valueArray;
      fractionOfSecond ← utc_fraction valueArray;
      let remainder := u32 fractionOfSecond / 16777 in
      Some (timeval32 * 1000 + remainder)
  | _ => None
  end.

(** the milliseconds and the microseconds of the second result *)
Definition MmsValue_getUtcTimeInMsWithUs (self : MmsValue) : option (Z * Z) :=
  match self with
  | MmsUtcTime valueArray =>
      timeval32 ← utc_seconds valueArray;
      fractionOfSecond ← utc_fraction valueArray;
      let remainder := fractionOfSecond * 1000000 / 0x1000000 in
      Some (timeval32 * 1000 + remainder / 1000, remainder mod 1000)
  | _ => None
  end.

Definition MmsValue_toUnixTimestamp (self : MmsValue) : option Z :=
  match self with
  | MmsUtcTime utcTime =>
      b3 ← ld utcTime 3; b2 ← ld utcTime 2; b1 ← ld utcTime 1; b0 ← ld utcTime 0;
      Some (le_val [b3; b2; b1; b0])
  | _ => None
  end.

Definition MmsValue_newUtcTimeByMsTime (timeval : Z) : option MmsValue :=
  MmsValue_setUtcTimeMs (MmsUtcTime (replicate 8 0)) timeval.

Definition MmsValue_setBinaryTime (self : MmsValue) (timestamp : Z) : option MmsValue :=
  match self with
  | MmsBinaryTime size buf =>
      let mmsTime := if 441763200000 <? timestamp then timestamp - 441763200000 else 0 in
      binaryTimeBuf ←
        (if size =? 6 then
           let daysDiff := u16 (mmsTime / 86400000) in
           let daysDiffBuf := le_bytes 2 daysDiff in
           d1 ← ld daysDiffBuf 1; d0 ← ld daysDiffBuf 0;
           buf ← st buf 4 d1; st buf 5 d0
         else Some buf);
      let msSinceMidnight := u32 (mmsTime mod 86400000) in
      let msSinceMidnightBuf := le_bytes 4 msSinceMidnight in
      m3 ← ld msSinceMidnightBuf 3; m2 ← ld msSinceMidnightBuf 2;
      m1 ← ld msSinceMidnightBuf 1; m0 ← ld msSinceMidnightBuf 0;
      buf ← st binaryTimeBuf 0 m3; buf ← st buf 1 m2; buf ← st buf 2 m1; buf ← st buf 3 m0;
      Some (MmsBinaryTime size buf)
  | _ => None
  end.

Definition MmsValue_getBinaryTimeAsUtcMs (self : MmsValue) : option Z :=
  match self with
  | MmsBinaryTime size binaryTimeBuf =>
      timestamp ←
        (if size =? 6 then
           b4 ← ld binaryTimeBuf 4; b5 ← ld binaryTimeBuf 5;
           let daysDiff := u16 (u16 (b4 * 256) + b5) in
           Some (daysDiff * 86400000 + 441763200000)
         else Some 0);
      b0 ← ld binaryTimeBuf 0; b1 ← ld binaryTimeBuf 1;
      b2 ← ld binaryTimeBuf 2; b3 ← ld binaryTimeBuf 3;
      let msSinceMidnight := u32 (u32 (u32 (u32 (Z.shiftl b0 24) + Z.shiftl b1 16) + Z.shiftl b2 8) + b3) in
      Some (u64 (timestamp + msSinceMidnight))
  | _ => None
  end.

(** * Comparison, update, copy *)

Section Components.
Context (equals : MmsValue -> MmsValue -> option bool).

(** the component loop of [MmsValue_equals] and [MmsValue_equalTypes]: a
    null component on either side makes the values differ *)
Fixpoint equals_components (xs ys : list (option MmsValue)) : option bool :=
  match xs, ys with
  | [], _ => Some true
  | x :: xs, y :: ys =>
      r ← match x, y with Some x, Some y => equals x y | _, _ => Some false end;
      if r : bool then equals_components xs ys else Some false
  | _ :: _, [] => None
  end.
End Components.

Fixpoint mms_equals (self otherValue : MmsValue) : option bool :=
  match self, otherValue with
  | MmsArray xs, MmsArray ys | MmsStructure xs, MmsStructure ys =>
      if zlen xs =? zlen ys then equals_components mms_equals xs ys else Some false
  | MmsBoolean a, MmsBoolean b => Some (Bool.eqb a b)
  | MmsFloat _ w a, MmsFloat _ _ b => memcmp_eq a b (w / 8)
  | MmsInteger a, MmsInteger b | MmsUnsigned a, MmsUnsigned b => Asn1PrimitivaValue_compare a b
  | MmsUtcTime a, MmsUtcTime b => memcmp_eq a b 8
  | MmsBitString n a, MmsBitString m b =>
      if n =? m then memcmp_eq a b (bitSize_bytes n) else Some false
  | MmsBinaryTime n a, MmsBinaryTime m b => if n =? m then memcmp_eq a b n else Some false
  | MmsOctetString n _ a, MmsOctetString m _ b => if n =? m then memcmp_eq a b n else Some false
  | MmsVisibleString a _, MmsVisibleString b _ | MmsString a _, MmsString b _ =>
      match a, b with
      | Some a, Some b => strcmp_eq a b
      | None, None => Some true
      | _, _ => Some false
      end
  | MmsDataAccessError a, MmsDataAccessError b => Some (a =? b)
  | _, _ => Some false
  end.

(** The null checks. *)
Definition MmsValue_equals (self otherValue : option MmsValue) : option bool :=
  match self, otherValue with Some x, Some y => mms_equals x y | _, _ => Some false end.

Fixpoint mms_equalTypes (self otherValue : MmsValue) : option bool :=
  match self, otherValue with
  | MmsArray xs, MmsArray ys | MmsStructure xs, MmsStructure ys =>
      if zlen xs =? zlen ys then equals_components mms_equalTypes xs ys else Some false
  | _, _ => Some (bool_decide (MmsValue_getType self = MmsValue_getType otherValue))
  end.

Definition MmsValue_equalTypes (self otherValue : option MmsValue) : option bool :=
  match self, otherValue with Some x, Some y => mms_equalTypes x y | _, _ => Some false end.

(** [for (i = 0; i < update.size; i++) if (i < self.size) ... else break;] *)
Fixpoint update_bits_loop (n : nat) (i selfSize updateSize : Z) (selfBuf updateBuf : list Z)
  : option (list Z) :=
  match n with
  | O => Some selfBuf
  | S n =>
      if i <? selfSize then
        bit ← bit_get updateSize updateBuf i;
        selfBuf ← bit_set selfSize selfBuf i bit;
        update_bits_loop n (i + 1) selfSize updateSize selfBuf updateBuf
      else Some selfBuf
  end.

Section UpdateComponents.
Context (update : MmsValue -> MmsValue -> option (MmsValue * bool)).

(** the loop of [updateStructuredComponent]: it stops at the first component
    that cannot be updated and keeps what it has updated before *)
Fixpoint update_components (selfValues updateValues : list (option MmsValue))
  : option (list (option MmsValue) * bool) :=
  match selfValues, updateValues with
  | [], _ => Some ([], true)
  | x :: xs, y :: ys =>
      '(x, ok) ← match x, y with
                 | Some x, Some y => '(x, ok) ← update x y; Some (Some x, ok)
                 | _, _ => Some (x, false)
                 end;
      if ok : bool then '(xs, ok) ← update_components xs ys; Some (x :: xs, ok)
      else Some (x :: xs, false)
  | _ :: _, [] => None
  end.
End UpdateComponents.

Fixpoint mms_update (self update : MmsValue) : option (MmsValue * bool) :=
  match self, update with
  | MmsStructure xs, MmsStructure ys =>
      if negb (zlen xs =? zlen ys) then Some (self, false)
      else '(xs, ok) ← update_components mms_update xs ys; Some (MmsStructure xs, ok)
  | MmsArray xs, MmsArray ys =>
      if negb (zlen xs =? zlen ys) then Some (self, false)
      else '(xs, ok) ← update_components mms_update xs ys; Some (MmsArray xs, ok)
  | MmsBoolean _, MmsBoolean b => Some (MmsBoolean b, true)
  | MmsFloat ew w buf, MmsFloat ew' w' buf' =>
      if w =? w' then
        bs ← ld_range buf' 0 (w / 8);
        buf ← st_range buf 0 bs;
        Some (MmsFloat ew' w buf, true)
      else Some (self, false)
  | MmsInteger a, MmsInteger b =>
      '(a, ok) ← BerInteger_setFromBerInteger a b; Some (MmsInteger a, ok)
  | MmsUnsigned a, MmsUnsigned b =>
      '(a, ok) ← BerInteger_setFromBerInteger a b; Some (MmsUnsigned a, ok)
  | MmsUtcTime a, MmsUtcTime b =>
      bs ← ld_range b 0 8; a ← st_range a 0 bs; Some (MmsUtcTime a, true)
  | MmsBitString n a, MmsBitString m b =>
      if n =? m then
        bs ← ld_range b 0 (bitSize_bytes n); a ← st_range a 0 bs; Some (MmsBitString n a, true)
      else a ← update_bits_loop (Z.to_nat m) 0 n m a b; Some (MmsBitString n a, true)
  | MmsOctetString n maxSize a, MmsOctetString size _ b =>
      let '(a, maxSize) :=
        if (maxSize <? 0) && (Z.abs maxSize <? size)
        then (replicate (Z.to_nat size) 0, - size) else (a, maxSize) in
      if size <=? Z.abs maxSize then
        bs ← ld_range b 0 size;
        a ← st_range a 0 bs;
        Some (MmsOctetString size maxSize a, true)
      else Some (MmsOctetString n maxSize a, false)
  | MmsVisibleString _ _, MmsVisibleString buf _ =>
      self ← MmsValue_setVisibleString self buf; Some (self, true)
  | MmsString _ _, MmsString buf _ => self ← MmsValue_setMmsString self buf; Some (self, true)
  | MmsBinaryTime _ a, MmsBinaryTime size b =>
      bs ← ld_range b 0 size; a ← st_range a 0 bs; Some (MmsBinaryTime size a, true)
  | _, _ => Some (self, false)
  end.

Definition MmsValue_update (self update : option MmsValue) : option (option MmsValue * bool) :=
  match self, update with
  | Some x, Some y => '(x, ok) ← mms_update x y; Some (Some x, ok)
  | _, _ => Some (self, false)
  end.

Section CloneComponents.
Context (clone : MmsValue -> option MmsValue).
Fixpoint clone_components (xs : list (option MmsValue)) : option (list (option MmsValue)) :=
  match xs with
  | [] => Some []
  | None :: xs => xs ← clone_components xs; Some (None :: xs)
  | Some x :: xs => x ← clone x; xs ← clone_components xs; Some (Some x :: xs)
  end.
End CloneComponents.

(** the string copy of [MmsValue_clone]: a null source is dereferenced *)
Definition clone_string (buf : option (list Z)) (size : Z) : option (option (list Z)) :=
  s ← buf;
  let newBuf := replicate (Z.to_nat (size + 1)) 0 in
  r ← StringUtils_copyStringMax (Some newBuf) (size + 1) s;
  Some (Some (default newBuf r)).

Fixpoint mms_clone (self : MmsValue) : option MmsValue :=
  match self with
  | MmsArray xs => xs ← clone_components mms_clone xs; Some (MmsArray xs)
  | MmsStructure xs => xs ← clone_components mms_clone xs; Some (MmsStructure xs)
  | MmsInteger v => v ← Asn1PrimitiveValue_clone v; Some (MmsInteger v)
  | MmsUnsigned v => v ← Asn1PrimitiveValue_clone v; Some (MmsUnsigned v)
  | MmsFloat ew w buf => buf ← ld_range buf 0 (w / 8); Some (MmsFloat ew w buf)
  | MmsBitString n buf => buf ← ld_range buf 0 (bitSize_bytes n); Some (MmsBitString n buf)
  | MmsBoolean b => Some (MmsBoolean b)
  | MmsOctetString size maxSize buf =>
      bs ← ld_range buf 0 size;
      newBuf ← st_range (replicate (Z.to_nat (Z.abs maxSize)) 0) 0 bs;
      Some (MmsOctetString size maxSize newBuf)
  | MmsUtcTime buf => buf ← ld_range buf 0 8; Some (MmsUtcTime buf)
  | MmsBinaryTime size buf => buf ← ld_range buf 0 6; Some (MmsBinaryTime size buf)
  | MmsVisibleString buf size => buf ← clone_string buf size; Some (MmsVisibleString buf size)
  | MmsString buf size => buf ← clone_string buf size; Some (MmsString buf size)
  | MmsDataAccessError e => Some (MmsDataAccessError e)
  end.

Definition MmsValue_clone (self : option MmsValue) : option (option MmsValue) :=
  match self with None => Some None | Some v => v ← mms_clone v; Some (Some v) end.
