(* ===== verification/MmsFacts.v ===== *)
(** Facts about MMS values: the induction principle, the well-formedness
    invariant [mms_ok] and its preservation, comparison, copy and update, and
    the round trips of the bit string and time accessors of mms_value.c. *)

From S2P Require Import Prelude BerEncoder BerDecoder BerInteger StringUtils CFloat MmsValue.
Open Scope Z_scope.

(** * Induction over values *)

Section Induction.
Context (P : MmsValue -> Prop).
Definition on_component (c : option MmsValue) : Prop :=
  match c with Some v => P v | None => True end.

Hypothesis HArray : forall xs, Forall on_component xs -> P (MmsArray xs).
Hypothesis HStructure : forall xs, Forall on_component xs -> P (MmsStructure xs).
Hypothesis HSimple : forall v,
  match v with MmsArray _ | MmsStructure _ => False | _ => True end -> P v.

(** Induction with the hypothesis for every non-null component; the other
    constructors are one case. *)
Fixpoint MmsValue_components_ind (v : MmsValue) : P v :=
  let components := fix go (xs : list (option MmsValue)) : Forall on_component xs :=
    match xs with
    | [] => @Forall_nil _ on_component
    | c :: xs =>
        @Forall_cons _ on_component c xs
          (match c return on_component c with
           | Some v => MmsValue_components_ind v
           | None => I
           end) (go xs)
    end in
  match v with
  | MmsArray xs => HArray xs (components xs)
  | MmsStructure xs => HStructure xs (components xs)
  | v => HSimple v I
  end.
End Induction.

Ltac mms_ind v :=
  induction v as [xs IH | xs IH | v Hsimple] using MmsValue_components_ind.

(** * Well-formed values *)

Section AllComponents.
Context (P : MmsValue -> Prop).
Fixpoint all_components (null_ok : Prop) (xs : list (option MmsValue)) : Prop :=
  match xs with
  | [] => True
  | Some x :: xs => P x /\ all_components null_ok xs
  | None :: xs => null_ok /\ all_components null_ok xs
  end.
End AllComponents.

(** A string block: terminated, and at least as long as the recorded size. *)
Definition string_block_ok (buf : option (list Z)) (size : Z) : Prop :=
  match buf with
  | Some buf => 0 ∈ buf /\ bytes_ok buf /\ size + 1 <= zlen buf
  | None => True
  end.

(** The type invariant of [struct sMmsValue]: every block has the size its
    value declares and the sizes are in the range of their C types. *)
Fixpoint mms_ok (v : MmsValue) : Prop :=
  match v with
  | MmsArray xs | MmsStructure xs => all_components mms_ok True xs
  | MmsBoolean _ => True
  | MmsBitString size buf =>
      0 <= size < 2147483648 /\ zlen buf = bitSize_bytes size /\ bytes_ok buf
  | MmsInteger a | MmsUnsigned a => apv_ok a
  | MmsFloat ew w buf => is_byte ew /\ 0 <= w < 256 /\ zlen buf = w / 8 /\ bytes_ok buf
  | MmsOctetString size maxSize buf =>
      0 <= size < 65536 /\ size <= Z.abs maxSize /\ zlen buf = Z.abs maxSize /\ bytes_ok buf
  | MmsVisibleString buf size | MmsString buf size => string_block_ok buf size
  | MmsBinaryTime size buf => (size = 4 \/ size = 6) /\ zlen buf = 6 /\ bytes_ok buf
  | MmsUtcTime buf => zlen buf = 8 /\ bytes_ok buf
  | MmsDataAccessError e => is_u32 e
  end.

Lemma bitSize_bytes_eq n : 0 <= n -> bitSize_bytes n = (n + 7) / 8.
Proof.
  intros. rewrite <- byteSize_eq by done. unfold bitSize_bytes.
  pose proof (Z.rem_nonneg n 8 ltac:(lia) ltac:(lia)). repeat case_match; lia.
Qed.

Lemma getBitStringByteSize_eq n : 0 <= n -> getBitStringByteSize n = (n + 7) / 8.
Proof. apply byteSize_eq. Qed.

Lemma all_components_lookup P Q xs i v :
  all_components P Q xs -> xs !! i = Some (Some v) -> P v.
Proof.
  revert i. induction xs as [|[x|] xs IH]; intros [|i] H Hl; simplify_eq/=; try (by destruct H).
  - by destruct H as [_ H]; eapply IH.
  - by destruct H as [_ H]; eapply IH.
Qed.

Lemma all_components_app P Q xs ys :
  all_components P Q (xs ++ ys) <-> all_components P Q xs /\ all_components P Q ys.
Proof. induction xs as [|[x|] xs IH]; cbn; tauto. Qed.

(** A component read from a well-formed value is well-formed, and so is a
    value after one of its components is replaced. *)
Lemma getElement_ok v i e : mms_ok v -> MmsValue_getElement v i = Some e -> mms_ok e.
Proof.
  destruct v as [xs|xs| | | | | | | | | | | ]; intros Hv H; cbn in H; try done;
    destruct ((i <? 0) || (zlen xs <=? i)); try done;
    destruct (xs !! Z.to_nat i) as [c|] eqn:E; cbn in H; simplify_eq;
    by eapply (all_components_lookup mms_ok True).
Qed.

Lemma all_components_insert P xs i c :
  all_components P True xs -> match c with Some v => P v | None => True end ->
  all_components P True (<[i := c]> xs).
Proof.
  revert i. induction xs as [|x xs IH]; intros i Hx Hc; [done|].
  destruct i as [|i]; cbn; destruct x, c; cbn in *; intuition.
Qed.

Lemma setElement_ok v i e :
  mms_ok v -> match e with Some e => mms_ok e | None => True end ->
  mms_ok (MmsValue_setElement v i e).
Proof.
  intros Hv He. destruct v; try done; cbn in *; destruct (_ || _); auto using all_components_insert.
Qed.

Lemma getArraySize_pos v n : MmsValue_getArraySize v = Some n -> 0 <= n.
Proof. destruct v; cbn; intros; simplify_eq; apply zlen_nonneg. Qed.

(** ** Constructors *)

Lemma replicate_ok n : bytes_ok (replicate n 0).
Proof. apply Forall_replicate. unfold is_byte. lia. Qed.
#[export] Hint Resolve replicate_ok : bytes.

Lemma newBitString_ok n : -2147483648 < n < 2147483648 -> mms_ok (MmsValue_newBitString n).
Proof.
  intros. cbn. repeat split; try lia; [|auto with bytes].
  rewrite zlen_replicate, bitSize_bytes_eq by lia.
  pose proof (Z.div_pos (Z.abs n + 7) 8 ltac:(lia) ltac:(lia)). lia.
Qed.

Lemma newFloat_ok x : mms_ok (MmsValue_newFloat x).
Proof. cbn [mms_ok MmsValue_newFloat]. repeat split; try (unfold is_byte; lia); auto with bytes. Qed.
Lemma newDouble_ok x : mms_ok (MmsValue_newDouble x).
Proof. cbn [mms_ok MmsValue_newDouble]. repeat split; try (unfold is_byte; lia); auto with bytes. Qed.

Lemma newInteger_ok n : mms_ok (MmsValue_newInteger n).
Proof. unfold MmsValue_newInteger. case_match; cbn [mms_ok]; apply create_ok; lia. Qed.
Lemma newUnsigned_ok n : mms_ok (MmsValue_newUnsigned n).
Proof. unfold MmsValue_newUnsigned. case_match; cbn [mms_ok]; apply create_ok; lia. Qed.

Lemma newUtcTime_ok t : mms_ok (MmsValue_newUtcTime t).
Proof. cbn [mms_ok MmsValue_newUtcTime]. split; [zlia|]. apply Forall_app. auto with bytes. Qed.

Lemma newBinaryTime_ok b : mms_ok (MmsValue_newBinaryTime b).
Proof.
  cbn [mms_ok MmsValue_newBinaryTime]. split; [destruct b; auto|]. auto with bytes.
Qed.

Lemma newOctetString_ok size maxSize :
  0 <= size < 65536 -> size <= Z.abs maxSize -> mms_ok (MmsValue_newOctetString size maxSize).
Proof.
  intros. cbn [mms_ok MmsValue_newOctetString]. unfold u16. rewrite Z.mod_small by lia.
  repeat split; try lia; [zlia | auto with bytes].
Qed.

Lemma s16_le z : -32768 <= z -> s16 z <= z.
Proof.
  intros. unfold s16. pose proof (Z.mod_le (z + 32768) 65536 ltac:(lia) ltac:(lia)). lia.
Qed.

Lemma s16_small z : -32768 <= z < 32768 -> s16 z = z.
Proof. intros. unfold s16. rewrite Z.mod_small; lia. Qed.

Lemma newStringFromByteArray_ok visible bs buf n :
  bytes_ok buf -> at_pos buf 0 bs -> n = zlen bs ->
  MmsValue_newStringFromByteArray visible buf n
    = Some (string_value visible (Some (bs ++ [0])) (s16 n)) /\
  mms_ok (string_value visible (Some (bs ++ [0])) (s16 n)).
Proof.
  intros Hb Hat ->. unfold MmsValue_newStringFromByteArray.
  pose proof (createStringFromBuffer_at bs buf 0 Hat) as H. unfold ptr_add in H.
  change (Z.to_nat 0) with O in H. rewrite drop_0 in H. rewrite H. cbn [mbind option_bind].
  split; [done|]. assert (string_block_ok (Some (bs ++ [0])) (s16 (zlen bs))) as Hs.
  { cbn. repeat split.
    - apply elem_of_app. right. by apply list_elem_of_singleton.
    - apply Forall_app. split; [by eapply at_pos_ok|]. repeat constructor; lia.
    - pose proof (zlen_nonneg bs). pose proof (s16_le (zlen bs) ltac:(lia)). zlia. }
  by destruct visible.
Qed.

Lemma newIntegerFromInt32_ok x : exists v, MmsValue_newIntegerFromInt32 x = Some v /\ mms_ok v.
Proof.
  unfold MmsValue_newIntegerFromInt32.
  destruct (createFromInt32_holds x) as (v & -> & [Hv _] & _). by eexists.
Qed.

(** * Comparison and copy *)

(** No null component and no null string, and every string fits the size its
    value records: what the copy of a value preserves. *)
Definition string_complete (buf : option (list Z)) (size : Z) : Prop :=
  match buf with Some buf => zlen (c_string buf) <= size | None => False end.

Fixpoint mms_complete (v : MmsValue) : Prop :=
  match v with
  | MmsArray xs | MmsStructure xs => all_components mms_complete False xs
  | MmsVisibleString buf size | MmsString buf size => string_complete buf size
  | _ => True
  end.

Lemma memcmp_eq_front a b bs n :
  n = zlen bs -> at_pos a 0 bs -> at_pos b 0 bs -> memcmp_eq a b n = Some true.
Proof.
  intros -> Ha Hb. unfold memcmp_eq. rewrite (at_pos_range _ _ _ Ha), (at_pos_range _ _ _ Hb).
  cbn. by rewrite bool_decide_eq_true_2.
Qed.

Lemma memcmp_eq_refl a n : 0 <= n <= zlen a -> memcmp_eq a a n = Some true.
Proof.
  intros. destruct (at_pos_exists a 0 n) as (bs & Hat & Hz); [lia..|].
  by eapply memcmp_eq_front.
Qed.

Lemma compare_same a b : apv_ok a -> apv_ok b -> apv_content a = apv_content b ->
  Asn1PrimitivaValue_compare a b = Some true.
Proof.
  intros Ha Hb H. unfold Asn1PrimitivaValue_compare.
  rewrite <- (zlen_apv_content a), <- (zlen_apv_content b), H, Z.eqb_refl by done.
  eapply memcmp_eq_front; [done | rewrite <- H | ]; by apply apv_content_at.
Qed.

Lemma clone_apv a : apv_ok a -> Asn1PrimitiveValue_clone a = Some a.
Proof.
  intros (H1 & H2 & _). unfold Asn1PrimitiveValue_clone. rewrite H2.
  rewrite (at_pos_range _ _ _ (at_pos_whole _)). cbn. rewrite <- H2. by destruct a.
Qed.

Lemma strcmp_refl s : 0 ∈ s -> strcmp_eq s s = Some true.
Proof. intros. rewrite strcmp_eq_spec by done. by rewrite bool_decide_eq_true_2. Qed.

Lemma ld_range_whole buf n : n = zlen buf -> ld_range buf 0 n = Some buf.
Proof. intros ->. apply at_pos_range, at_pos_whole. Qed.

Lemma c_string_bytes buf : bytes_ok buf -> bytes_ok (c_string buf).
Proof. induction 1; cbn; [done|]. case_match; [done|]. by constructor. Qed.

Lemma clone_string_ok buf size :
  0 ∈ buf -> bytes_ok buf -> zlen (c_string buf) <= size ->
  exists buf', clone_string (Some buf) size = Some (Some buf') /\ c_string buf' = c_string buf /\ string_block_ok (Some buf') size.
Proof.
  intros Ht Hb Hs. unfold clone_string. cbn [mbind option_bind].
  pose proof (zlen_nonneg (c_string buf)).
  rewrite copyStringMax_spec by (zlia || done).
  set (buf' := splice _ _ _). exists buf'. cbn [mbind option_bind default from_option id].
  split; [done|].
  destruct (copyStringMax_c_string (replicate (Z.to_nat (size + 1)) 0) (size + 1) buf buf')
    as (Hc & Hz & Hl); [done | zlia | |].
  { by rewrite copyStringMax_spec by (zlia || done). }
  rewrite take_ge in Hc by (unfold zlen in *; lia). split; [done|]. cbn. split_and!; [done| |zlia].
  subst buf'. unfold splice. rewrite !Forall_app. split_and!; try apply Forall_take; try apply Forall_drop;
    auto with bytes; [by apply c_string_bytes | repeat constructor; lia].
Qed.

(** A copy is well-formed and compares equal. *)
Definition clones (v : MmsValue) : Prop :=
  mms_ok v -> mms_complete v ->
  exists v', mms_clone v = Some v' /\ mms_ok v' /\ mms_equals v v' = Some true.

Lemma clone_components_ok xs :
  Forall (on_component clones) xs ->
  all_components mms_ok True xs -> all_components mms_complete False xs ->
  exists ys, clone_components mms_clone xs = Some ys /\ zlen xs = zlen ys /\
    all_components mms_ok True ys /\ equals_components mms_equals xs ys = Some true.
Proof.
  induction 1 as [|[x|] xs Hx _ IH]; cbn; [by eexists | |naive_solver].
  intros [Hok Hoks] [Hc Hcs]. destruct (Hx Hok Hc) as (y & -> & Hy & He).
  destruct (IH Hoks Hcs) as (ys & -> & Hz & Hys & Hes). eexists. split; [done|]. cbn.
  rewrite He. cbn. rewrite Hes. zlen. repeat split; try done. lia.
Qed.

Lemma bitSize_bytes_nonneg n : 0 <= n -> 0 <= bitSize_bytes n.
Proof. intros. rewrite bitSize_bytes_eq by done. apply Z.div_pos; lia. Qed.

Lemma clone_octets size maxSize buf :
  0 <= size < 65536 -> size <= Z.abs maxSize -> zlen buf = Z.abs maxSize -> bytes_ok buf ->
  clones (MmsOctetString size maxSize buf).
Proof.
  intros Hs Hm Hz Hb _ _. destruct (at_pos_exists buf 0 size) as (bs & Hat & Hbs); [lia..|].
  cbn [mms_clone]. rewrite <- Hbs, (at_pos_range _ _ _ Hat). cbn [mbind option_bind].
  pose proof (at_pos_ok _ _ _ Hb Hat).
  destruct (overwrite_ok (replicate (Z.to_nat (Z.abs maxSize)) 0) bs) as [Ho Hl];
    [auto with bytes | done | zlia |].
  rewrite st_range_front by zlia. cbn [mbind option_bind]. eexists. split; [done|].
  cbn [mms_ok mms_equals]. rewrite Z.eqb_refl. zlen. split; [split_and!; [lia..|done]|].
  eapply memcmp_eq_front; [done..|]. apply at_pos_prefix.
Qed.

Lemma clone_ok v : clones v.
Proof.
  mms_ind v.
  1-2: intros Hok Hc; cbn [mms_ok mms_complete mms_clone] in *;
    destruct (clone_components_ok xs IH Hok Hc) as (ys & -> & Hz & Hys & He);
    eexists; split; [done|]; split; [done|]; cbn [mms_equals]; rewrite Hz, Z.eqb_refl; done.
  destruct v as [| | | size buf | a | a | ew w buf | size maxSize buf | buf size | size buf | buf size | buf | e ];
    try done; intros Hok Hc; cbn [mms_ok mms_complete mms_clone] in Hok, Hc |- *.
  - eexists. split; [done|]. split; [done|]. cbn. by rewrite eqb_reflx.
  - destruct Hok as (Hs & Hz & Hb). rewrite ld_range_whole by done. eexists. split; [done|].
    split; [done|]. cbn [mms_equals]. rewrite Z.eqb_refl. apply memcmp_eq_refl.
    pose proof (bitSize_bytes_nonneg size). lia.
  - rewrite clone_apv by done. eexists. split; [done|]. split; [done|]. by apply compare_same.
  - rewrite clone_apv by done. eexists. split; [done|]. split; [done|]. by apply compare_same.
  - destruct Hok as (He & Hw & Hz & Hb). rewrite ld_range_whole by done. eexists. split; [done|].
    split; [done|]. cbn [mms_equals]. apply memcmp_eq_refl.
    pose proof (Z.div_pos w 8). lia.
  - destruct Hok as (H1 & H2 & H3 & H4). by apply clone_octets.
  - destruct buf as [buf|]; [|done]. destruct Hok as (Ht & Hb & _).
    destruct (clone_string_ok buf size) as (buf' & -> & Hcs & Hsb); [done..|]. cbn [mbind option_bind].
    eexists. split; [done|]. split; [done|]. cbn [mms_equals]. destruct Hsb as [? _].
    rewrite strcmp_eq_spec by done. by rewrite bool_decide_eq_true_2.
  - destruct Hok as (Hs & Hz & Hb). rewrite ld_range_whole by done. eexists. split; [done|].
    split; [done|]. cbn [mms_equals]. rewrite Z.eqb_refl. apply memcmp_eq_refl. lia.
  - destruct buf as [buf|]; [|done]. destruct Hok as (Ht & Hb & _).
    destruct (clone_string_ok buf size) as (buf' & -> & Hcs & Hsb); [done..|]. cbn [mbind option_bind].
    eexists. split; [done|]. split; [done|]. cbn [mms_equals]. destruct Hsb as [? _].
    rewrite strcmp_eq_spec by done. by rewrite bool_decide_eq_true_2.
  - destruct Hok as (Hz & Hb). rewrite ld_range_whole by done. eexists. split; [done|].
    split; [done|]. apply memcmp_eq_refl. lia.
  - eexists. split; [done|]. split; [done|]. cbn. by rewrite Z.eqb_refl.
Qed.

(** * Time stamps *)

Lemma zlen_4 {A} (l : list A) : zlen l = 4 -> exists a b c d, l = [a; b; c; d].
Proof. unfold zlen. destruct l as [|? [|? [|? [|? [|? ?]]]]]; cbn; intros; try lia. by repeat eexists. Qed.
Lemma zlen_8 {A} (l : list A) : zlen l = 8 ->
  exists a b c d e f g h, l = [a; b; c; d; e; f; g; h].
Proof.
  unfold zlen. destruct l as [|? [|? [|? [|? [|? [|? [|? [|? [|? ?]]]]]]]]]; cbn; intros; try lia.
  by repeat eexists.
Qed.

Lemma memcpyReverse_loop_spec n k src dst :
  (n + k <= length src)%nat -> (n + k <= length dst)%nat ->
  memcpyReverse_loop n (Z.of_nat k) (Z.of_nat (n + k)) dst src
  = Some (take k dst ++ reverse (take n src) ++ drop (n + k) dst).
Proof.
  revert k dst. induction n as [|n IH]; intros k dst Hs Hd.
  - cbn [memcpyReverse_loop Nat.add]. rewrite take_0, reverse_nil, app_nil_l. by rewrite take_drop.
  - destruct (lookup_lt_is_Some_2 src n) as [b Hb]; [lia|]. cbn [memcpyReverse_loop].
    unfold ld. if_true. replace (Z.to_nat _) with n by lia. rewrite Hb. cbn [mbind option_bind].
    rewrite st_Some by (unfold zlen; lia). cbn [mbind option_bind]. rewrite Nat2Z.id.
    replace (Z.of_nat k + 1) with (Z.of_nat (S k)) by lia.
    replace (Z.of_nat (S n + k)) with (Z.of_nat (n + S k)) by lia.
    rewrite IH by (rewrite ?length_insert; lia). f_equal.
    erewrite take_S_r by (apply list_lookup_insert_eq; lia).
    rewrite take_insert_ge by lia. rewrite drop_insert_lt by lia.
    erewrite take_S_r by done. rewrite reverse_snoc, <- app_assoc. cbn. do 4 f_equal. lia.
Qed.

Lemma memcpyReverseByteOrder_spec dst src n :
  0 <= n <= zlen src -> n <= zlen dst ->
  memcpyReverseByteOrder dst src n
  = Some (reverse (take (Z.to_nat n) src) ++ drop (Z.to_nat n) dst).
Proof.
  intros. unfold memcpyReverseByteOrder, zlen in *.
  pose proof (memcpyReverse_loop_spec (Z.to_nat n) 0 src dst ltac:(lia) ltac:(lia)) as E.
  rewrite Nat.add_0_r, Z2Nat.id in E by lia. exact E.
Qed.

Lemma utc_seconds_spec bs post :
  zlen bs = 4 -> utc_seconds (bs ++ post) = Some (be_val bs).
Proof.
  intros H. unfold utc_seconds. pose proof (zlen_nonneg post).
  rewrite memcpyReverseByteOrder_spec by zlia. cbn [mbind option_bind].
  replace (Z.to_nat 4) with (length bs) by (unfold zlen in H; lia).
  rewrite take_app_length, drop_ge by (rewrite length_replicate; unfold zlen in H; lia).
  by rewrite app_nil_r, be_val_le_val.
Qed.

(** The fraction of a second the library computes for [r] milliseconds. *)
Definition ms_fraction (r : Z) : Z := r * 16777 + r * 216 / 1000.

Lemma ms_fraction_range r : 0 <= r < 1000 -> 0 <= ms_fraction r < 16777216.
Proof.
  intros. unfold ms_fraction. pose proof (Z.div_pos (r * 216) 1000). 
  pose proof (Z.div_lt_upper_bound (r * 216) 1000 216). lia.
Qed.

Lemma ms_fraction_ms r : 0 <= r < 1000 -> ms_fraction r / 16777 = r.
Proof.
  intros. unfold ms_fraction. pose proof (Z.div_pos (r * 216) 1000).
  pose proof (Z.div_lt_upper_bound (r * 216) 1000 216).
  rewrite Z.add_comm, Z_div_plus_full, Z.div_small; lia.
Qed.

(** ** The 24 bit fraction *)

Lemma land_255 z : Z.land z 0xff = z mod 256.
Proof. change 0xff with (Z.ones 8). by rewrite Z.land_ones. Qed.

Lemma shiftr_div z n : 0 <= n -> Z.shiftr z n = z / 2 ^ n.
Proof. apply Z.shiftr_div_pow2. Qed.

Lemma three_bytes f : 0 <= f < 16777216 ->
  Z.shiftl (Z.land (Z.shiftr f 16) 255) 16 + Z.shiftl (Z.land (Z.shiftr f 8) 255) 8 + Z.land f 255 = f.
Proof.
  intros Hf. rewrite !land_255, !Z.shiftl_mul_pow2, !shiftr_div by lia.
  change (2 ^ 16) with 65536. change (2 ^ 8) with 256.
  rewrite (Z.mod_small (f / 65536)) by (split; [apply Z.div_pos | apply Z.div_lt_upper_bound]; lia).
  pose proof (Z.div_mod f 256 ltac:(lia)). pose proof (Z.div_mod (f / 256) 256 ltac:(lia)) as H1.
  rewrite Z.div_div in H1 by lia. change (256 * 256) with 65536 in H1. lia.
Qed.

(** The eight octets [setUtcTimeMs] leaves. *)
Definition utc_ms_bytes (timeval quality : Z) : list Z :=
  let f := ms_fraction (timeval mod 1000) in
  be_bytes 4 (timeval / 1000)
  ++ [Z.land (Z.shiftr f 16) 255; Z.land (Z.shiftr f 8) 255; Z.land f 255; quality].

Lemma be_bytes_4_mod z : be_bytes 4 (u32 z) = be_bytes 4 z.
Proof. unfold be_bytes, u32. change 4294967296 with (256 ^ Z.of_nat 4). by rewrite (le_bytes_mod 4 z). Qed.

Lemma setUtcTimeMs_spec buf timeval quality :
  zlen buf = 8 ->
  setUtcTimeMs (MmsUtcTime buf) timeval quality = Some (MmsUtcTime (utc_ms_bytes timeval quality)).
Proof.
  intros Hz. cbn [setUtcTimeMs]. pose proof (Z.mod_pos_bound timeval 1000 ltac:(lia)) as Hr.
  rewrite memcpyReverseByteOrder_spec by zlia. cbn [mbind option_bind].
  set (r := timeval mod 1000) in *.
  assert (u32 (u32 (u32 r * 16777) + u32 (u32 r * 216) / 1000) = ms_fraction r) as ->.
  { pose proof (ms_fraction_range r Hr). unfold ms_fraction in *.
    pose proof (Z.div_pos (r * 216) 1000). rewrite (u32_small r), (u32_small (r * 16777)), (u32_small (r * 216)) by lia.
    apply u32_small. lia. }
  rewrite take_ge by (rewrite length_le_bytes; lia). change (reverse (le_bytes 4 _)) with (be_bytes 4 (u32 (timeval / 1000))).
  rewrite be_bytes_4_mod. unfold utc_ms_bytes. fold r. set (f := ms_fraction r).
  pose proof (zlen_be_bytes 4 (timeval / 1000)) as Hb. change (Z.of_nat 4) with 4 in Hb.
  destruct (zlen_4 _ Hb) as (b0 & b1 & b2 & b3 & ->).
  destruct (zlen_8 _ Hz) as (c0 & c1 & c2 & c3 & c4 & c5 & c6 & c7 & ->). reflexivity.
Qed.

(** The milliseconds written are the milliseconds read. *)
Lemma getUtcTimeInMs_set timeval quality :
  0 <= timeval < 4294967296000 ->
  MmsValue_getUtcTimeInMs (MmsUtcTime (utc_ms_bytes timeval quality)) = Some timeval.
Proof.
  intros Ht. cbn [MmsValue_getUtcTimeInMs]. pose proof (Z.mod_pos_bound timeval 1000 ltac:(lia)) as Hr.
  unfold utc_ms_bytes. set (f := ms_fraction (timeval mod 1000)).
  rewrite utc_seconds_spec by apply zlen_be_bytes. cbn [mbind option_bind].
  pose proof (ms_fraction_range _ Hr) as Hf. fold f in Hf.
  assert (utc_fraction (be_bytes 4 (timeval / 1000) ++
    [Z.land (Z.shiftr f 16) 255; Z.land (Z.shiftr f 8) 255; Z.land f 255; quality]) = Some f) as ->.
  { pose proof (zlen_be_bytes 4 (timeval / 1000)) as Hb. change (Z.of_nat 4) with 4 in Hb.
    destruct (zlen_4 _ Hb) as (b0 & b1 & b2 & b3 & ->).
    assert (forall x y z q, utc_fraction [b0; b1; b2; b3; x; y; z; q]
                            = Some (Z.shiftl x 16 + Z.shiftl y 8 + z)) as E by reflexivity.
    cbn [app]. by rewrite E, three_bytes. }
  cbn [mbind option_bind]. rewrite u32_small by lia. unfold f. rewrite ms_fraction_ms by done.
  rewrite be_val_be_bytes. change (256 ^ Z.of_nat 4) with 4294967296.
  rewrite Z.mod_small by (split; [apply Z.div_pos | apply Z.div_lt_upper_bound]; lia).
  f_equal. rewrite (Z.div_mod timeval 1000) at 3 by lia. lia.
Qed.
