(* ===== verification/MmsData.v ===== *)
(** The BER encoding of MMS data:
    src/libiec61850/src/mms/iso_mms/server/mms_access_result.c.

    [MmsValue_encodeMmsData] has two modes, computing the encoded size and
    writing; each is a recursive function here. The decoder's recursion is
    bounded by the depth the C code allows, so the number of levels left is
    its structural argument. *)

From S2P Require Import Prelude BerEncoder BerDecoder BerInteger StringUtils CFloat MmsValue MmsFacts.
Open Scope Z_scope.

(** * Encoding *)

Section Components.
Context (f : MmsValue -> option Z) (w : MmsValue -> writer).

(** [for (i = 0; i < n; i++) size += f(components[i]);], a null component is
    dereferenced *)
Fixpoint sum_components (xs : list (option MmsValue)) : option Z :=
  match xs with
  | [] => Some 0
  | x :: xs => x ← x; n ← f x; m ← sum_components xs; Some (n + m)
  end.

Fixpoint write_components (xs : list (option MmsValue)) : writer := fun buffer bufPos =>
  match xs with
  | [] => Some (buffer, bufPos)
  | x :: xs =>
      x ← x; '(buffer, bufPos) ← w x buffer bufPos; write_components xs buffer bufPos
  end.
End Components.

(** [MmsValue_encodeMmsData(self, NULL, 0, false)]; the array and structure
    cases are [encodeArrayAccessResult] and [encodeStructuredAccessResult]. *)
Fixpoint encodedSize (self : MmsValue) : option Z :=
  match self with
  | MmsBoolean _ => Some 3
  | MmsStructure components =>
      componentsSize ← sum_components encodedSize components;
      Some (1 + componentsSize + BerEncoder_determineLengthSize componentsSize)
  | MmsArray components =>
      elementsSize ← sum_components encodedSize components;
      Some (1 + elementsSize + BerEncoder_determineLengthSize elementsSize)
  | MmsDataAccessError e => n ← BerEncoder_UInt32determineEncodedSize (u32 e); Some (2 + n)
  | MmsVisibleString buf _ => BerEncoder_determineEncodedStringSize buf
  | MmsUnsigned integer => Some (2 + apv_size integer)
  | MmsInteger integer => Some (2 + apv_size integer)
  | MmsUtcTime _ => Some 10
  | MmsBitString size _ => Some (BerEncoder_determineEncodedBitStringSize size)
  | MmsBinaryTime size _ => Some (2 + size)
  | MmsOctetString size _ _ => Some (1 + BerEncoder_determineLengthSize size + size)
  | MmsFloat _ formatWidth _ =>
      let floatSize := formatWidth / 8 + 1 in Some (floatSize + 2)
  | MmsString buf _ => BerEncoder_determineEncodedStringSize buf
  end.

(** [MmsValue_encodeMmsData(self, buffer, bufPos, true)] *)
Fixpoint encodeData (self : MmsValue) : writer := fun buffer bufPos =>
  match self with
  | MmsBoolean boolean => BerEncoder_encodeBoolean 0x83 boolean buffer bufPos
  | MmsStructure components =>
      componentsSize ← sum_components encodedSize components;
      '(buffer, bufPos) ← put 0xa2 buffer bufPos;
      '(buffer, bufPos) ← BerEncoder_encodeLength componentsSize buffer bufPos;
      write_components encodeData components buffer bufPos
  | MmsArray components =>
      elementsSize ← sum_components encodedSize components;
      '(buffer, bufPos) ← put 0xa1 buffer bufPos;
      '(buffer, bufPos) ← BerEncoder_encodeLength elementsSize buffer bufPos;
      write_components encodeData components buffer bufPos
  | MmsDataAccessError e =>
      length ← BerEncoder_UInt32determineEncodedSize (u32 e);
      '(buffer, bufPos) ← BerEncoder_encodeTL 0x80 length buffer bufPos;
      BerEncoder_encodeUInt32 (u32 e) buffer bufPos
  | MmsVisibleString buf _ => BerEncoder_encodeStringWithTag 0x8a buf buffer bufPos
  | MmsUnsigned integer => BerEncoder_encodeAsn1PrimitiveValue 0x86 integer buffer bufPos
  | MmsInteger integer => BerEncoder_encodeAsn1PrimitiveValue 0x85 integer buffer bufPos
  | MmsUtcTime utcTime => BerEncoder_encodeOctetString 0x91 utcTime 8 buffer bufPos
  | MmsBitString size buf => BerEncoder_encodeBitString 0x84 size buf buffer bufPos
  | MmsBinaryTime size buf => BerEncoder_encodeOctetString 0x8c buf size buffer bufPos
  | MmsOctetString size _ buf => BerEncoder_encodeOctetString 0x89 buf size buffer bufPos
  | MmsFloat exponentWidth formatWidth buf =>
      let floatSize := formatWidth / 8 + 1 in
      '(buffer, bufPos) ← BerEncoder_encodeTL 0x87 floatSize buffer bufPos;
      BerEncoder_encodeFloat buf formatWidth exponentWidth buffer bufPos
  | MmsString buf _ => BerEncoder_encodeStringWithTag 0x90 buf buffer bufPos
  end.

(** The C function: the buffer and the result, which is the new position when
    [encode] is set and the size otherwise. *)
Definition MmsValue_encodeMmsData (self : option MmsValue) (buffer : list Z) (bufPos : Z)
    (encode : bool) : option (list Z * Z) :=
  self ← self;
  if encode then encodeData self buffer bufPos
  else size ← encodedSize self; Some (buffer, size).

(** ** The largest encoding of a value or of the values of a type *)

Fixpoint MmsValue_getMaxEncodedSize (self : MmsValue) : option Z :=
  match self with
  | MmsStructure components | MmsArray components =>
      componentsSize ← sum_components MmsValue_getMaxEncodedSize components;
      Some (1 + componentsSize + BerEncoder_determineLengthSize componentsSize)
  | MmsBoolean _ => Some 3
  | MmsDataAccessError _ => Some 7
  | MmsVisibleString _ size | MmsString _ size =>
      let elementSize := Z.abs size in
      Some (1 + elementSize + BerEncoder_determineLengthSize elementSize)
  | MmsUnsigned integer | MmsInteger integer => Some (2 + apv_maxSize integer)
  | MmsUtcTime _ => Some 10
  | MmsBitString size _ => Some (BerEncoder_determineEncodedBitStringSize (Z.abs size))
  | MmsBinaryTime size _ => Some (2 + size)
  | MmsOctetString _ maxSize _ =>
      let elementSize := Z.abs maxSize in
      Some (1 + BerEncoder_determineLengthSize elementSize + elementSize)
  | MmsFloat _ formatWidth _ => let elementSize := formatWidth / 8 + 1 in Some (elementSize + 2)
  end.

Fixpoint MmsVariableSpecification_getMaxEncodedSize (self : MmsVariableSpecification) : Z :=
  match self with
  | SpecStructure elements =>
      let componentsSize :=
        (fix go (l : list MmsVariableSpecification) : Z :=
           match l with [] => 0 | s :: l => MmsVariableSpecification_getMaxEncodedSize s + go l end)
          elements in
      1 + componentsSize + BerEncoder_determineLengthSize componentsSize
  | SpecArray elementCount elementTypeSpec =>
      let elementSize := MmsVariableSpecification_getMaxEncodedSize elementTypeSpec * elementCount in
      1 + elementSize + BerEncoder_determineLengthSize elementSize
  | SpecBoolean => 3
  | SpecVisibleString n | SpecString n =>
      let elementSize := Z.abs n in 1 + elementSize + BerEncoder_determineLengthSize elementSize
  | SpecUnsigned n | SpecInteger n => 2 + Z.quot n 8 + 1
  | SpecUtcTime => 10
  | SpecBitString n => BerEncoder_determineEncodedBitStringSize (Z.abs n)
  | SpecBinaryTime n => 2 + n
  | SpecOctetString n =>
      let elementSize := Z.abs n in 1 + BerEncoder_determineLengthSize elementSize + elementSize
  | SpecFloat _ formatWidth => formatWidth / 8 + 1 + 2
  | SpecDataAccessError => 7
  | SpecOther => 0
  end.

(** * Decoding *)

(** the tags [getNumberOfElements] accepts *)
Definition element_tags : list Z :=
  [0x80; 0xa1; 0xa2; 0x83; 0x84; 0x85; 0x86; 0x87; 0x89; 0x8a; 0x8c; 0x91; 0x00].

Fixpoint numberOfElements_loop (fuel : nat) (buffer : list Z)
    (bufPos elementLength elementEndBufPos elementIndex : Z) : option Z :=
  match fuel with
  | O => None
  | S fuel =>
      if bufPos <? elementEndBufPos then
        tag ← ld buffer bufPos;
        '(bufPos, elementLength) ←
          BerDecoder_decodeLength buffer elementLength (bufPos + 1) elementEndBufPos;
        if bufPos <? 0 then Some (-1)
        else if negb (bool_decide (tag ∈ element_tags)) then Some (-1)
        else
          numberOfElements_loop fuel buffer (bufPos + elementLength) elementLength
            elementEndBufPos (elementIndex + 1)
      else Some elementIndex
  end.

(** Every element takes at least two bytes, so [elementLength] iterations and
    the final test suffice. *)
Definition getNumberOfElements (buffer : list Z) (bufPos elementLength : Z) : option Z :=
  numberOfElements_loop (S (Z.to_nat elementLength)) buffer bufPos elementLength
    (bufPos + elementLength) 0.

(** The integer cases: the content octets are copied as they are. *)
Definition decode_integer (create : Z -> MmsValue) (buffer : list Z) (bufPos dataLength : Z)
  : option (option MmsValue) :=
  if 8 <? dataLength then Some None
  else
    bs ← ld_range buffer bufPos dataLength;
    let copy v :=
      octets ← st_range (apv_octets v) 0 bs;
      Some (mkAsn1PrimitiveValue (u8 dataLength) (apv_maxSize v) octets) in
    match create (dataLength * 8) with
    | MmsInteger v => v ← copy v; Some (Some (MmsInteger v))
    | MmsUnsigned v => v ← copy v; Some (Some (MmsUnsigned v))
    | _ => None
    end.

Definition decode_bitString (buffer : list Z) (bufPos dataLength : Z) : option (option MmsValue) :=
  padding ← ld buffer bufPos;
  if 7 <? padding then Some None
  else
    let bitStringLength := 8 * (dataLength - 1) - padding in
    match MmsValue_newBitString bitStringLength with
    | MmsBitString size buf =>
        bs ← ld_range buffer (bufPos + 1) (dataLength - 1);
        buf ← st_range buf 0 bs;
        Some (Some (MmsBitString size buf))
    | _ => None
    end.

(** The outcome of one case of the switch: an error exit, or the value (null
    for the ones that leave it unset) with the position behind it. *)
Definition outcome : Type := option (option MmsValue * Z).

Definition decode_done (value : MmsValue) (bufPos : Z) : option outcome := Some (Some (Some value, bufPos)).

(** The primitive types. *)
Definition decode_primitive (buffer : list Z) (tag bufPos dataLength : Z) : option outcome :=
  let next := bufPos + dataLength in
  if tag =? 0x80 then
    e ← BerDecoder_decodeUint32 buffer dataLength bufPos;
    decode_done (MmsValue_newDataAccessError e) next
  else if tag =? 0x83 then
    b ← BerDecoder_decodeBoolean buffer bufPos; decode_done (MmsValue_newBoolean b) next
  else if tag =? 0x84 then
    r ← decode_bitString buffer bufPos dataLength; Some (v ← r; Some (Some v, next))
  else if tag =? 0x85 then
    r ← decode_integer MmsValue_newInteger buffer bufPos dataLength; Some (v ← r; Some (Some v, next))
  else if tag =? 0x86 then
    r ← decode_integer MmsValue_newUnsigned buffer bufPos dataLength; Some (v ← r; Some (Some v, next))
  else if tag =? 0x87 then
    if dataLength =? 9 then
      d ← BerDecoder_decodeDouble buffer bufPos; decode_done (MmsValue_newDouble d) next
    else if dataLength =? 5 then
      f ← BerDecoder_decodeFloat buffer bufPos; decode_done (MmsValue_newFloat f) next
    else Some (Some (None, next))
  else if tag =? 0x89 then
    bs ← ld_range buffer bufPos dataLength;
    match MmsValue_newOctetString dataLength dataLength with
    | MmsOctetString size maxSize buf =>
        buf ← st_range buf 0 bs; decode_done (MmsOctetString size maxSize buf) next
    | _ => None
    end
  else if tag =? 0x8a then
    v ← MmsValue_newVisibleStringFromByteArray (ptr_add buffer bufPos) dataLength; decode_done v next
  else if tag =? 0x8c then
    if (dataLength =? 4) || (dataLength =? 6) then
      bs ← ld_range buffer bufPos dataLength;
      match MmsValue_newBinaryTime (dataLength =? 4) with
      | MmsBinaryTime size buf => buf ← st_range buf 0 bs; decode_done (MmsBinaryTime size buf) next
      | _ => None
      end
    else Some (Some (None, next))
  else if tag =? 0x90 then
    v ← MmsValue_newMmsStringFromByteArray (ptr_add buffer bufPos) dataLength; decode_done v next
  else if tag =? 0x91 then
    if dataLength =? 8 then
      v ← MmsValue_setUtcTimeByBuffer (MmsValue_newUtcTime 0) (Some (ptr_add buffer bufPos));
      decode_done v next
    else Some None
  else if tag =? 0x00 then Some (Some (None, bufPos))
  else Some None.

Section Elements.
(** [decode bufPos bufferLength]: the recursive call on one element *)
Context (decode : Z -> Z -> option outcome) (buffer : list Z) (dataEndBufPos : Z).

(** The loop over the elements of an array or a structure; [None] inside the
    result is the error exit. *)
Fixpoint decode_elements (elementCount : nat) (bufPos elementLength : Z)
  : option (option (list (option MmsValue) * Z)) :=
  match elementCount with
  | O => Some (Some ([], bufPos))
  | S elementCount =>
      '(newBufPos, elementLength) ←
        BerDecoder_decodeLength buffer elementLength (bufPos + 1) dataEndBufPos;
      if newBufPos <? 0 then Some None
      else
        let elementBufLength := newBufPos - bufPos + elementLength in
        r ← decode bufPos (bufPos + elementBufLength);
        match r with
        | Some (Some elementValue, _) =>
            r ← decode_elements elementCount (newBufPos + elementLength) elementLength;
            Some ('(vs, p) ← r; Some (Some elementValue :: vs, p))
        | _ => Some None
        end
  end.
End Elements.

(** [levels] is [maxDepth - depth]. *)
Fixpoint MmsValue_decodeMmsDataRecursive (levels : nat) (buffer : list Z) (bufPos bufferLength : Z)
  : option outcome :=
  match levels with
  | O => Some None
  | S levels =>
      let dataEndBufPos := bufferLength in
      if bufferLength <? 1 then Some None
      else
        tag ← ld buffer bufPos;
        '(bufPos, dataLength) ← BerDecoder_decodeLength buffer 0 (bufPos + 1) dataEndBufPos;
        if bufPos <? 0 then Some None
        else if negb (tag =? 0) && negb (tag =? 0x8a) && negb (tag =? 0x90) && negb (tag =? 0x89)
                && (dataLength =? 0)
        then Some None
        else if (tag =? 0xa1) || (tag =? 0xa2) then
          elementCount ← getNumberOfElements buffer bufPos dataLength;
          if elementCount <? 0 then Some None
          else
            r ← decode_elements (MmsValue_decodeMmsDataRecursive levels buffer)
                  buffer dataEndBufPos (Z.to_nat elementCount) bufPos 0;
            Some ('(vs, p) ← r;
                  Some (Some (if tag =? 0xa1 then MmsArray vs else MmsStructure vs), p))
        else decode_primitive buffer tag bufPos dataLength
  end.

(** The value (null on an error) and [*endBufPos], which an error leaves alone. *)
Definition MmsValue_decodeMmsDataMaxRecursion (buffer : list Z) (bufPos bufferLength endBufPos maxDepth : Z)
  : option (option MmsValue * Z) :=
  r ← MmsValue_decodeMmsDataRecursive (Z.to_nat maxDepth) buffer bufPos bufferLength;
  Some (default (None, endBufPos) r).

Definition MmsValue_decodeMmsData (buffer : list Z) (bufPos bufferLength endBufPos : Z)
  : option (option MmsValue * Z) :=
  MmsValue_decodeMmsDataMaxRecursion buffer bufPos bufferLength endBufPos 25.

(** * The bytes of a value *)

(** The specification of the encoding: the bytes, as a function of the value. *)
Fixpoint mms_bytes (v : MmsValue) : list Z :=
  let components := fix go (xs : list (option MmsValue)) : list Z :=
    match xs with
    | [] => []
    | Some x :: xs => mms_bytes x ++ go xs
    | None :: xs => go xs
    end in
  match v with
  | MmsArray xs => ber_tlv 0xa1 (components xs)
  | MmsStructure xs => ber_tlv 0xa2 (components xs)
  | MmsBoolean b => ber_tlv 0x83 [if b then 1 else 0]
  | MmsBitString size buf => ber_tlv 0x84 (ber_bitstring size buf)
  | MmsInteger a => ber_tlv 0x85 (apv_content a)
  | MmsUnsigned a => ber_tlv 0x86 (apv_content a)
  | MmsFloat ew w buf => ber_tlv 0x87 (ew :: reverse (take (Z.to_nat (w / 8)) buf))
  | MmsOctetString size _ buf => ber_tlv 0x89 (take (Z.to_nat size) buf)
  | MmsVisibleString buf _ => ber_tlv 0x8a (ber_string buf)
  | MmsBinaryTime size buf => ber_tlv 0x8c (take (Z.to_nat size) buf)
  | MmsString buf _ => ber_tlv 0x90 (ber_string buf)
  | MmsUtcTime buf => ber_tlv 0x91 buf
  | MmsDataAccessError e => ber_tlv 0x80 (ber_uint32 e)
  end.

Definition components_bytes (xs : list (option MmsValue)) : list Z :=
  concat ((fun c => match c with Some v => mms_bytes v | None => [] end) <$> xs).

Lemma mms_bytes_array xs : mms_bytes (MmsArray xs) = ber_tlv 0xa1 (components_bytes xs).
Proof.
  cbn [mms_bytes]. f_equal. unfold components_bytes.
  induction xs as [|[x|] xs IH]; cbn; [done | by rewrite IH | done].
Qed.

Lemma mms_bytes_structure xs : mms_bytes (MmsStructure xs) = ber_tlv 0xa2 (components_bytes xs).
Proof.
  cbn [mms_bytes]. f_equal. unfold components_bytes.
  induction xs as [|[x|] xs IH]; cbn; [done | by rewrite IH | done].
Qed.

(** The values whose size the library computes correctly: no null component,
    no content of 65535 bytes, and no bit string of the sizes
    [BerEncoder_determineEncodedBitStringSize] gets wrong. *)
Fixpoint mms_sized (v : MmsValue) : Prop :=
  match v with
  | MmsArray xs | MmsStructure xs =>
      all_components mms_sized False xs /\ zlen (components_bytes xs) <> 65535
  | MmsBitString size _ => bits_size_ok size
  | MmsOctetString size _ _ => size <> 65535
  | MmsVisibleString buf _ | MmsString buf _ => zlen (ber_string buf) <> 65535
  | MmsInteger a | MmsUnsigned a => apv_size a < 128
  | _ => True
  end.

(** * Encoding writes the bytes *)

Definition size_correct (v : MmsValue) : Prop :=
  mms_ok v -> mms_sized v -> encodedSize v = Some (zlen (mms_bytes v)).

Lemma sum_components_spec xs :
  Forall (on_component size_correct) xs ->
  all_components mms_ok True xs -> all_components mms_sized False xs ->
  sum_components encodedSize xs = Some (zlen (components_bytes xs)).
Proof.
  induction 1 as [|[x|] xs Hx _ IH]; cbn [all_components]; [done| |naive_solver].
  intros [Hok Hoks] [Hs Hss]. cbn [sum_components]. cbn [mbind option_bind].
  rewrite (Hx Hok Hs), (IH Hoks Hss). cbn [mbind option_bind]. f_equal.
  unfold components_bytes. cbn. zlia.
Qed.

Lemma ber_length_1 n : 0 <= n < 128 -> zlen (ber_length n) = 1.
Proof. intros. by rewrite ber_length_short. Qed.

Lemma string_block_string_ok buf size : string_block_ok buf size -> string_ok buf.
Proof. destruct buf as [buf|]; cbn; [|done]. naive_solver. Qed.

Lemma div8_nonneg w : 0 <= w -> 0 <= w / 8.
Proof. intros. apply Z.div_pos; lia. Qed.

Lemma encodedSize_spec v : size_correct v.
Proof.
  mms_ind v.
  1-2: intros Hok [Hs Hn]; cbn [mms_ok encodedSize] in *;
    rewrite ?mms_bytes_array, ?mms_bytes_structure, (sum_components_spec xs IH Hok Hs);
    cbn [mbind option_bind]; pose proof (zlen_nonneg (components_bytes xs));
    rewrite zlen_ber_tlv, zlen_ber_length by done; f_equal; lia.
  destruct v as [| | b | size buf | a | a | ew w buf | size maxSize buf | buf size | size buf | buf size | buf | e ];
    try done; intros Hok Hs; cbn [mms_ok mms_sized encodedSize mms_bytes] in Hok, Hs |- *.
  - destruct Hok as (H1 & H2 & H3). rewrite bitSize_bytes_eq in H2 by lia. f_equal.
    rewrite (determineEncodedBitStringSize_spec size buf) by (done || lia). by rewrite !zlen_ber_tlv.
  - pose proof Hok as (? & _). rewrite zlen_ber_tlv, zlen_apv_content, ber_length_1 by (done || lia). f_equal; lia.
  - pose proof Hok as (? & _). rewrite zlen_ber_tlv, zlen_apv_content, ber_length_1 by (done || lia). f_equal; lia.
  - destruct Hok as (_ & Hw & Hz & _). pose proof (div8_nonneg w).
    assert (w / 8 < 32) by (apply Z.div_lt_upper_bound; lia).
    rewrite zlen_ber_tlv. zlen. rewrite zlen_take, ber_length_1 by lia. f_equal; lia.
  - destruct Hok as (H1 & H2 & H3 & _). rewrite zlen_ber_tlv, zlen_take, zlen_ber_length by lia. f_equal; lia.
  - apply string_block_string_ok in Hok. rewrite determineEncodedStringSize_spec by done. by rewrite !zlen_ber_tlv.
  - destruct Hok as (H1 & H2 & _). rewrite zlen_ber_tlv, zlen_take, ber_length_1 by lia. f_equal; lia.
  - apply string_block_string_ok in Hok. rewrite determineEncodedStringSize_spec by done. by rewrite !zlen_ber_tlv.
  - destruct Hok as [H1 _]. by rewrite zlen_ber_tlv, H1.
  - rewrite u32_small by done. rewrite UInt32determineEncodedSize_spec. cbn [mbind option_bind].
    pose proof (zlen_ber_uint32 e). rewrite zlen_ber_tlv, ber_length_1 by lia. f_equal; lia.
Qed.

Lemma tl_content_puts tag n content buffer bufPos :
  n = zlen content ->
  ('(buffer, bufPos) ← BerEncoder_encodeTL tag n buffer bufPos; puts content buffer bufPos)
  = puts (ber_tlv tag content) buffer bufPos.
Proof. intros ->. rewrite encodeTL_puts. change (ber_tlv tag content) with
  ((tag :: ber_length (zlen content)) ++ content). by rewrite puts_app. Qed.

Definition write_correct (v : MmsValue) : Prop :=
  mms_ok v -> mms_sized v ->
  forall buffer bufPos, encodeData v buffer bufPos = puts (mms_bytes v) buffer bufPos.

Lemma write_components_spec xs :
  Forall (on_component write_correct) xs ->
  all_components mms_ok True xs -> all_components mms_sized False xs ->
  forall buffer bufPos,
  write_components encodeData xs buffer bufPos = puts (components_bytes xs) buffer bufPos.
Proof.
  induction 1 as [|[x|] xs Hx _ IH]; cbn [all_components]; [done| |naive_solver].
  intros [Hok Hoks] [Hs Hss] buffer bufPos. cbn [write_components]. cbn [mbind option_bind].
  rewrite (Hx Hok Hs). unfold components_bytes. cbn [fmap list_fmap concat]. rewrite puts_app.
  destruct (puts _ _ _) as [[? ?]|]; cbn [mbind option_bind]; [|done]. by apply IH.
Qed.

Lemma put_length_puts tag n content buffer bufPos :
  n = zlen content ->
  ('(buffer, bufPos) ← put tag buffer bufPos;
   '(buffer, bufPos) ← BerEncoder_encodeLength n buffer bufPos; puts content buffer bufPos)
  = puts (ber_tlv tag content) buffer bufPos.
Proof.
  intros ->. unfold ber_tlv. cbn [puts]. destruct (put _ _ _) as [[? ?]|]; cbn [mbind option_bind]; [|done].
  by rewrite length_content_puts.
Qed.

Lemma encodeData_components tag xs buffer bufPos :
  Forall (on_component write_correct) xs ->
  all_components mms_ok True xs -> all_components mms_sized False xs ->
  (n ← sum_components encodedSize xs;
   '(buffer, bufPos) ← put tag buffer bufPos;
   '(buffer, bufPos) ← BerEncoder_encodeLength n buffer bufPos;
   write_components encodeData xs buffer bufPos)
  = puts (ber_tlv tag (components_bytes xs)) buffer bufPos.
Proof.
  intros Hw Hok Hs. rewrite sum_components_spec; [|clear|done..].
  - cbn [mbind option_bind]. rewrite <- (put_length_puts tag (zlen (components_bytes xs))) by done.
    destruct (put _ _ _) as [[? ?]|]; cbn [mbind option_bind]; [|done].
    destruct (BerEncoder_encodeLength _ _ _) as [[? ?]|]; cbn [mbind option_bind]; [|done].
    by apply write_components_spec.
  - apply Forall_true. intros [x|]; [apply encodedSize_spec | done].
Qed.

Lemma encodeData_puts v : write_correct v.
Proof.
  mms_ind v.
  1-2: intros Hok [Hs Hn] buffer bufPos; cbn [encodeData];
    rewrite ?mms_bytes_array, ?mms_bytes_structure; by apply encodeData_components.
  destruct v as [| | b | size buf | a | a | ew w buf | size maxSize buf | buf size | size buf | buf size | buf | e ];
    try done; intros Hok Hs buffer bufPos; cbn [mms_ok encodeData mms_bytes] in Hok |- *.
  - apply encodeBoolean_puts.
  - destruct Hok as (H1 & H2 & H3). rewrite bitSize_bytes_eq in H2 by lia. apply encodeBitString_puts; lia.
  - by apply encodeAsn1PrimitiveValue_puts.
  - by apply encodeAsn1PrimitiveValue_puts.
  - destruct Hok as (_ & Hw & Hz & _). pose proof (div8_nonneg w).
    rewrite <- (tl_content_puts 0x87 (w / 8 + 1)) by (zlen; rewrite zlen_take; lia).
    destruct (BerEncoder_encodeTL _ _ _ _) as [[? ?]|]; cbn [mbind option_bind]; [|done].
    apply encodeFloat_puts; lia.
  - apply encodeOctetString_puts. lia.
  - by eapply encodeStringWithTag_puts, string_block_string_ok.
  - apply encodeOctetString_puts. lia.
  - by eapply encodeStringWithTag_puts, string_block_string_ok.
  - destruct Hok as [H1 _]. rewrite encodeOctetString_puts by lia.
    by rewrite take_ge by (unfold zlen in H1; lia).
  - rewrite u32_small, UInt32determineEncodedSize_spec by done. cbn [mbind option_bind].
    rewrite <- (tl_content_puts 0x80 (zlen (ber_uint32 e))) by done.
    destruct (BerEncoder_encodeTL _ _ _ _) as [[? ?]|]; cbn [mbind option_bind]; [|done].
    apply encodeUInt32_puts.
Qed.

(** * Decoding one primitive element *)

(** The integer whose content octets are [bs], in a block of [maxSize]. *)
Definition apv_of (maxSize : Z) (bs : list Z) : Asn1PrimitiveValue :=
  mkAsn1PrimitiveValue (zlen bs) maxSize (bs ++ replicate (Z.to_nat maxSize - length bs) 0).

Definition int_maxSize (bs : list Z) : Z := if zlen bs <=? 4 then 5 else 9.

Definition bits_value (padding : Z) (bits : list Z) : MmsValue :=
  let size := Z.abs (8 * zlen bits - padding) in
  MmsBitString size (bits ++ replicate (Z.to_nat (bitSize_bytes size) - length bits) 0).

(** The value a content stands for: [None] is an error, [Some None] a null
    value that is not one. *)
Definition primitive_value (tag : Z) (bs : list Z) : option (option MmsValue) :=
  if tag =? 0x80 then Some (Some (MmsDataAccessError (u32 (be_val bs))))
  else if tag =? 0x83 then Some (Some (MmsBoolean (negb (default 0 (head bs) =? 0))))
  else if tag =? 0x84 then
    if 7 <? default 0 (head bs) then None else Some (Some (bits_value (default 0 (head bs)) (tail bs)))
  else if tag =? 0x85 then
    if 8 <? zlen bs then None else Some (Some (MmsInteger (apv_of (int_maxSize bs) bs)))
  else if tag =? 0x86 then
    if 8 <? zlen bs then None else Some (Some (MmsUnsigned (apv_of (int_maxSize bs) bs)))
  else if tag =? 0x87 then
    if zlen bs =? 9 then Some (Some (MmsValue_newDouble (be_val (tail bs))))
    else if zlen bs =? 5 then Some (Some (MmsValue_newFloat (be_val (tail bs))))
    else Some None
  else if tag =? 0x89 then Some (Some (MmsOctetString (u16 (zlen bs)) (zlen bs) bs))
  else if tag =? 0x8a then Some (Some (MmsVisibleString (Some (bs ++ [0])) (s16 (zlen bs))))
  else if tag =? 0x8c then
    if (zlen bs =? 4) || (zlen bs =? 6)
    then Some (Some (MmsBinaryTime (zlen bs) (bs ++ replicate (6 - length bs) 0))) else Some None
  else if tag =? 0x90 then Some (Some (MmsString (Some (bs ++ [0])) (s16 (zlen bs))))
  else if tag =? 0x91 then if zlen bs =? 8 then Some (Some (MmsUtcTime bs)) else None
  else if tag =? 0 then Some None
  else None.

(** the content may only be empty where the decoder lets it *)
Definition content_ok (tag : Z) (bs : list Z) : Prop :=
  bs <> [] \/ tag ∈ [0; 0x8a; 0x90; 0x89].

Lemma drop_replicate_app {A} (bs : list A) n (x : A) :
  drop (length bs) (replicate n x) = replicate (n - length bs) x.
Proof. apply drop_replicate. Qed.

Lemma bitSize_bytes_content n p : 0 <= p < 8 -> 1 <= n -> bitSize_bytes (Z.abs (8 * n - p)) = n.
Proof.
  intros. rewrite bitSize_bytes_eq, Z.abs_eq by lia.
  symmetry. apply (Z.div_unique _ _ _ (7 - p)); lia.
Qed.

Lemma bits_value_fits p (bits : list Z) :
  0 <= p < 8 -> zlen bits <= bitSize_bytes (Z.abs (8 * zlen bits - p)).
Proof.
  intros. pose proof (zlen_nonneg bits).
  destruct (Z.eq_dec (zlen bits) 0) as [->|]; [apply bitSize_bytes_nonneg; lia|].
  rewrite bitSize_bytes_content; lia.
Qed.

Lemma decode_bitString_spec buffer bufPos p bits :
  at_pos buffer bufPos (p :: bits) -> is_byte p ->
  decode_bitString buffer bufPos (zlen (p :: bits))
  = Some (if 7 <? p then None else Some (bits_value p bits)).
Proof.
  intros Hat Hp. apply at_pos_cons in Hat as [Hld Hat]. unfold decode_bitString. rewrite Hld.
  cbn [mbind option_bind]. btest; [done|]. unfold is_byte in Hp. cbn [MmsValue_newBitString].
  replace (zlen (p :: bits) - 1) with (zlen bits) by zlia.
  rewrite (at_pos_range _ _ _ Hat). cbn [mbind option_bind].
  pose proof (bits_value_fits p bits ltac:(lia)).
  rewrite st_range_front by zlia. cbn [mbind option_bind]. by rewrite drop_replicate_app.
Qed.

Lemma decode_integer_spec create (wrap : Asn1PrimitiveValue -> MmsValue) buffer bufPos bs :
  (create = MmsValue_newInteger /\ wrap = MmsInteger \/ create = MmsValue_newUnsigned /\ wrap = MmsUnsigned) ->
  at_pos buffer bufPos bs ->
  decode_integer create buffer bufPos (zlen bs)
  = Some (if 8 <? zlen bs then None else Some (wrap (apv_of (int_maxSize bs) bs))).
Proof.
  intros Hc Hat. unfold decode_integer. btest; [done|].
  rewrite (at_pos_range _ _ _ Hat). cbn [mbind option_bind]. pose proof (zlen_nonneg bs).
  unfold apv_of, int_maxSize.
  destruct Hc as [[-> ->]|[-> ->]]; unfold MmsValue_newInteger, MmsValue_newUnsigned;
    (replace (zlen bs * 8 <=? 32) with (zlen bs <=? 4) by lia); btest; cbv zeta;
    unfold BerInteger_createInt32, BerInteger_createInt64, Asn1PrimitiveValue_create; cbn [apv_octets apv_maxSize];
    rewrite st_range_front by zlia; cbn [mbind option_bind]; rewrite drop_replicate_app;
    unfold u8; rewrite (Z.mod_small (zlen bs)) by lia; done.
Qed.

Lemma decode_string_spec visible buffer bufPos bs :
  at_pos buffer bufPos bs ->
  MmsValue_newStringFromByteArray visible (ptr_add buffer bufPos) (zlen bs)
  = Some (string_value visible (Some (bs ++ [0])) (s16 (zlen bs))).
Proof.
  intros Hat. unfold MmsValue_newStringFromByteArray.
  by rewrite (createStringFromBuffer_at _ _ _ Hat).
Qed.

Lemma decode_utcTime_spec buffer bufPos bs :
  at_pos buffer bufPos bs -> zlen bs = 8 ->
  MmsValue_setUtcTimeByBuffer (MmsValue_newUtcTime 0) (Some (ptr_add buffer bufPos)) = Some (MmsUtcTime bs).
Proof.
  intros Hat Hz. pose proof (at_pos_range _ _ _ (at_pos_ptr _ _ _ Hat)) as Hr. rewrite Hz in Hr.
  unfold MmsValue_setUtcTimeByBuffer, MmsValue_newUtcTime. rewrite Hr. cbn [mbind option_bind].
  rewrite st_range_front by zlia. cbn [mbind option_bind]. rewrite drop_ge, app_nil_r; [done|].
  unfold zlen in Hz. rewrite length_app, length_replicate. unfold be_bytes.
  rewrite length_reverse, length_le_bytes. lia.
Qed.

Lemma head_cons_at buffer bufPos bs :
  at_pos buffer bufPos bs -> bs <> [] ->
  exists b l, bs = b :: l /\ ld buffer bufPos = Some b.
Proof. intros Hat. destruct bs as [|b l]; [done|]. apply at_pos_cons in Hat as [H _]. eauto. Qed.

Lemma decode_primitive_spec buffer tag bufPos bs :
  bytes_ok bs -> at_pos buffer bufPos bs -> content_ok tag bs ->
  decode_primitive buffer tag bufPos (zlen bs)
  = Some (v ← primitive_value tag bs;
          Some (v, if tag =? 0 then bufPos else bufPos + zlen bs)).
Proof.
  intros Hb Hat Hc. unfold decode_primitive, primitive_value, decode_done.
  assert (tag <> 0 -> tag <> 0x8a -> tag <> 0x90 -> tag <> 0x89 -> bs <> []) as Hne.
  { intros ???? ->. destruct Hc as [|Hc]; [done|]. rewrite !elem_of_cons in Hc.
    destruct Hc as [|[|[|[|Hc]]]]; try done. by apply not_elem_of_nil in Hc. }
  repeat match goal with
  | |- context [if tag =? ?k then _ else _] => destruct (Z.eqb_spec tag k); [subst tag|]
  end; cbv beta iota.
  all: try (destruct (head_cons_at buffer bufPos bs Hat) as (b & l & -> & Hld); [by apply Hne|]).
  - by rewrite (decodeUint32_spec (b :: l)).
  - unfold BerDecoder_decodeBoolean. by rewrite Hld.
  - apply Forall_cons_1 in Hb as [Hb _]. rewrite decode_bitString_spec by done. cbn. by case_match.
  - rewrite (decode_integer_spec _ MmsInteger) by auto. cbn [mbind option_bind]. by case_match.
  - rewrite (decode_integer_spec _ MmsUnsigned) by auto. cbn [mbind option_bind]. by case_match.
  - btest; [by rewrite (decodeDouble_spec b l) by (zlia || done)|].
    btest; [by rewrite (decodeFloat_spec b l) by (zlia || done)|done].
  - rewrite (at_pos_range _ _ _ Hat). cbn [mbind option_bind MmsValue_newOctetString].
    pose proof (zlen_nonneg bs). rewrite st_range_front by zlia. cbn [mbind option_bind].
    rewrite drop_replicate_app, Z.abs_eq, zlen_to_nat, Nat.sub_diag by lia. cbn [replicate].
    by rewrite app_nil_r.
  - unfold MmsValue_newVisibleStringFromByteArray. by rewrite decode_string_spec.
  - destruct (_ || _) eqn:E; [|done]. rewrite (at_pos_range _ _ _ Hat).
    cbn [mbind option_bind MmsValue_newBinaryTime].
    rewrite st_range_front by (zlen; lia). cbn [mbind option_bind].
    rewrite drop_replicate_app. do 5 f_equal. destruct (_ =? 4) eqn:E4; lia.
  - unfold MmsValue_newMmsStringFromByteArray. by rewrite decode_string_spec.
  - btest; [|done]. by rewrite (decode_utcTime_spec _ _ (b :: l)).
  - done.
  - done.
Qed.

(** Every value the decoder builds is well-formed. *)
Lemma bits_value_ok p bits :
  0 <= p < 8 -> bytes_ok bits -> zlen bits < 16777216 -> mms_ok (bits_value p bits).
Proof.
  intros Hp Hb Hz. unfold bits_value. cbn [mms_ok]. pose proof (zlen_nonneg bits).
  pose proof (bits_value_fits p bits Hp). repeat split; try lia.
  - zlen. unfold zlen in *. lia.
  - apply Forall_app. auto with bytes.
Qed.

Lemma apv_of_ok n bs : bytes_ok bs -> zlen bs <= n < 256 -> apv_ok (apv_of n bs).
Proof.
  intros Hb Hz. pose proof (zlen_nonneg bs). unfold apv_of, apv_ok. cbn. repeat split; try lia.
  - zlen. unfold zlen in *. lia.
  - apply Forall_app. auto with bytes.
Qed.

Lemma apv_of_content n bs : apv_content (apv_of n bs) = bs.
Proof. unfold apv_content, apv_of. cbn. by rewrite zlen_to_nat, take_app_length. Qed.

Lemma int_maxSize_ge bs : zlen bs <= 8 -> zlen bs <= int_maxSize bs < 256.
Proof. unfold int_maxSize. btest. Qed.

Lemma string_of_bytes_ok bs : bytes_ok bs -> string_block_ok (Some (bs ++ [0])) (s16 (zlen bs)).
Proof.
  intros Hb. cbn. repeat split.
  - apply elem_of_app. right. by apply list_elem_of_singleton.
  - apply Forall_app. split; [done|]. repeat constructor; lia.
  - pose proof (zlen_nonneg bs). pose proof (s16_le (zlen bs) ltac:(lia)). zlia.
Qed.

Lemma primitive_value_ok tag bs v :
  bytes_ok bs -> zlen bs < 16777216 -> content_ok tag bs ->
  primitive_value tag bs = Some (Some v) -> mms_ok v.
Proof.
  intros Hb Hz Hc. unfold primitive_value. pose proof (zlen_nonneg bs) as Hn.
  repeat match goal with
  | |- (if ?t then _ else _) = _ -> _ => destruct t eqn:?
  end; intros H; simplify_eq; bdestr.
  - cbn. unfold is_u32, u32. apply Z.mod_pos_bound. lia.
  - done.
  - apply bits_value_ok; [| destruct bs; [done|]; by apply Forall_cons_1 in Hb as [_ ?] |].
    + destruct bs as [|b bs]; cbn in *; [lia|]. apply Forall_cons_1 in Hb as [Hb _]. unfold is_byte in Hb. lia.
    + destruct bs; cbn [tail]; zlia.
  - apply apv_of_ok; [done | by apply int_maxSize_ge].
  - apply apv_of_ok; [done | by apply int_maxSize_ge].
  - apply newDouble_ok.
  - apply newFloat_ok.
  - cbn. unfold u16. pose proof (Z.mod_pos_bound (zlen bs) 65536 ltac:(lia)).
    pose proof (Z.mod_le (zlen bs) 65536 ltac:(lia) ltac:(lia)). repeat split; (lia || done).
  - by apply string_of_bytes_ok.
  - cbn. split; [lia|]. split; [zlen; unfold zlen in *; lia|]. apply Forall_app. auto with bytes.
  - by apply string_of_bytes_ok.
  - done.
Qed.

(** * The decoder is total *)

Section DecoderTotal.
Context (buffer : list Z).
Hypothesis Hok : bytes_ok buffer.
Hypothesis Hsmall : zlen buffer < 4194304.

Lemma numberOfElements_total fuel bufPos elementLength endPos index :
  0 <= bufPos -> endPos <= zlen buffer -> 0 <= index ->
  Z.max 0 (endPos - bufPos) < Z.of_nat fuel ->
  exists n, numberOfElements_loop fuel buffer bufPos elementLength endPos index = Some n /\
            (n = -1 \/ 0 <= n).
Proof.
  revert bufPos elementLength index. induction fuel as [|fuel IH];
    intros bufPos elementLength index Hp He Hi Hf; [lia|]. cbn [numberOfElements_loop].
  btest; [|eauto with lia].
  destruct (ld_is_Some buffer bufPos) as [tag ->]; [lia|]. cbn [mbind option_bind].
  destruct (decodeLength_total buffer endPos Hok He ltac:(lia) elementLength (bufPos + 1))
    as ([p l] & -> & Hr); [lia|]. cbn [mbind option_bind].
  unfold length_result in Hr. cbn in Hr. btest; [eauto|].
  destruct (negb _); [eauto|]. apply IH; lia.
Qed.

Lemma getNumberOfElements_total bufPos dataLength :
  0 <= bufPos -> 0 <= dataLength -> bufPos + dataLength <= zlen buffer ->
  exists n, getNumberOfElements buffer bufPos dataLength = Some n /\ (n = -1 \/ 0 <= n).
Proof. intros. apply numberOfElements_total; lia. Qed.

Definition outcome_ok (bufPos endPos : Z) (r : outcome) : Prop :=
  match r with
  | Some (v, p) => bufPos < p <= endPos /\ match v with Some v => mms_ok v | None => True end
  | None => True
  end.

Lemma decode_elements_total decode endPos n bufPos elementLength :
  (forall p e, 0 <= p < zlen buffer -> e <= zlen buffer ->
     exists r, decode p e = Some r /\ outcome_ok p e r) ->
  0 <= bufPos -> endPos <= zlen buffer ->
  exists r, decode_elements decode buffer endPos n bufPos elementLength = Some r /\
    match r with
    | Some (vs, p) => bufPos <= p <= Z.max bufPos endPos /\ all_components mms_ok True vs
    | None => True
    end.
Proof.
  intros Hdec. revert bufPos elementLength. induction n as [|n IH]; intros bufPos elementLength Hp He.
  { eexists. split; [done|]. cbn. lia. }
  cbn [decode_elements].
  destruct (decodeLength_total buffer endPos Hok He ltac:(lia) elementLength (bufPos + 1))
    as ([p l] & -> & Hr); [lia|]. cbn [mbind option_bind].
  unfold length_result in Hr. cbn in Hr. btest; [by eexists|].
  destruct (Hdec bufPos (bufPos + (p - bufPos + l))) as ([[[v|] q]|] & -> & Hv); [lia..| | |];
    cbn [mbind option_bind]; [|by eexists..].
  destruct (IH (p + l) l) as ([[vs p']|] & -> & Hvs); [lia..| |]; cbn [mbind option_bind]; [|by eexists].
  eexists. split; [done|]. destruct Hvs as [? ?]. destruct Hv as [? ?]. split; [lia|done].
Qed.

Lemma decodeRecursive_total levels bufPos bufferLength :
  0 <= bufPos < zlen buffer -> bufferLength <= zlen buffer ->
  exists r, MmsValue_decodeMmsDataRecursive levels buffer bufPos bufferLength = Some r /\
            outcome_ok bufPos bufferLength r.
Proof.
  revert bufPos bufferLength. induction levels as [|levels IH]; intros bufPos bufferLength Hp Hl.
  { eexists. by split. }
  cbn [MmsValue_decodeMmsDataRecursive]. btest; [by eexists|].
  destruct (ld_is_Some buffer bufPos) as [tag ->]; [lia|]. cbn [mbind option_bind].
  destruct (decodeLength_total buffer bufferLength Hok Hl ltac:(lia) 0 (bufPos + 1))
    as ([p l] & -> & Hr); [lia|]. cbn [mbind option_bind].
  unfold length_result in Hr. cbn in Hr. btest; [by eexists|].
  destruct (_ && (l =? 0)) eqn:Hempty; [by eexists|].
  destruct (_ || _) eqn:Htag.
  - destruct (getNumberOfElements_total p l) as (n & -> & Hn); [lia..|]. cbn [mbind option_bind].
    btest; [by eexists|].
    destruct (decode_elements_total (MmsValue_decodeMmsDataRecursive levels buffer) bufferLength
                (Z.to_nat n) p 0 IH) as ([[vs q]|] & -> & Hvs); [lia..| |];
      cbn [mbind option_bind]; [|by eexists].
    eexists. split; [done|]. destruct Hvs as [? ?]. cbn. split; [lia|]. by case_match.
  - destruct (at_pos_exists buffer p l) as (bs & Hat & Hz); [lia..|]. subst l.
    assert (bytes_ok bs) as Hbs by by eapply at_pos_ok.
    assert (content_ok tag bs) as Hc.
    { unfold content_ok. destruct bs as [|b bs]; [right | by left]. zlen. rewrite !elem_of_cons. lia. }
    rewrite decode_primitive_spec by done. eexists. split; [done|].
    destruct (primitive_value tag bs) as [[v|]|] eqn:Ev; cbn; [| |done].
    + split; [case_match; lia|]. eapply primitive_value_ok; [done| |done|done]. lia.
    + split; [case_match; lia | done].
Qed.
End DecoderTotal.

(** * Round trip *)

Definition mms_tag (v : MmsValue) : Z :=
  match v with
  | MmsArray _ => 0xa1 | MmsStructure _ => 0xa2 | MmsBoolean _ => 0x83 | MmsBitString _ _ => 0x84
  | MmsInteger _ => 0x85 | MmsUnsigned _ => 0x86 | MmsFloat _ _ _ => 0x87
  | MmsOctetString _ _ _ => 0x89 | MmsVisibleString _ _ => 0x8a | MmsBinaryTime _ _ => 0x8c
  | MmsString _ _ => 0x90 | MmsUtcTime _ => 0x91 | MmsDataAccessError _ => 0x80
  end.

Definition mms_content (v : MmsValue) : list Z :=
  match v with
  | MmsArray xs | MmsStructure xs => components_bytes xs
  | MmsBoolean b => [if b then 1 else 0]
  | MmsBitString size buf => ber_bitstring size buf
  | MmsInteger a | MmsUnsigned a => apv_content a
  | MmsFloat ew w buf => ew :: reverse (take (Z.to_nat (w / 8)) buf)
  | MmsOctetString size _ buf | MmsBinaryTime size buf => take (Z.to_nat size) buf
  | MmsVisibleString buf _ | MmsString buf _ => ber_string buf
  | MmsUtcTime buf => buf
  | MmsDataAccessError e => ber_uint32 e
  end.

Lemma mms_bytes_tlv v : mms_bytes v = ber_tlv (mms_tag v) (mms_content v).
Proof. destruct v; try done; [apply mms_bytes_array | apply mms_bytes_structure]. Qed.

(** The value that comes back: the content is the same, the spare room of the
    blocks is not transmitted, and a null string becomes an empty one. *)
Fixpoint decoded (v : MmsValue) : MmsValue :=
  match v with
  | MmsArray xs => MmsArray (option_map decoded <$> xs)
  | MmsStructure xs => MmsStructure (option_map decoded <$> xs)
  | MmsBoolean b => MmsBoolean b
  | MmsBitString size buf => MmsBitString size (ber_bits size buf)
  | MmsInteger a => MmsInteger (apv_of (int_maxSize (apv_content a)) (apv_content a))
  | MmsUnsigned a => MmsUnsigned (apv_of (int_maxSize (apv_content a)) (apv_content a))
  | MmsFloat _ w buf => MmsFloat (if w =? 64 then 11 else 8) w buf
  | MmsOctetString size _ buf => MmsOctetString size size (take (Z.to_nat size) buf)
  | MmsVisibleString buf _ =>
      MmsVisibleString (Some (ber_string buf ++ [0])) (s16 (zlen (ber_string buf)))
  | MmsBinaryTime size buf =>
      MmsBinaryTime size (take (Z.to_nat size) buf ++ replicate (6 - Z.to_nat size) 0)
  | MmsString buf _ => MmsString (Some (ber_string buf ++ [0])) (s16 (zlen (ber_string buf)))
  | MmsUtcTime buf => MmsUtcTime buf
  | MmsDataAccessError e => MmsDataAccessError e
  end.

(** What the decoder accepts of what the encoder writes: integers of one to
    eight octets, single and double floats, no empty array or structure, and
    no [MMS_STRING] inside of one. *)
Fixpoint decodable (v : MmsValue) : Prop :=
  zlen (mms_content v) < 16777216 /\
  match v with
  | MmsArray xs | MmsStructure xs =>
      xs <> [] /\ all_components decodable False xs /\
      all_components (fun c => mms_tag c ∈ element_tags) False xs
  | MmsInteger a | MmsUnsigned a => 1 <= apv_size a <= 8
  | MmsFloat _ w _ => w = 32 \/ w = 64
  | _ => True
  end.

Fixpoint mms_depth (v : MmsValue) : nat :=
  match v with
  | MmsArray xs | MmsStructure xs =>
      S ((fix go (l : list (option MmsValue)) : nat :=
            match l with
            | [] => O
            | Some x :: l => Nat.max (mms_depth x) (go l)
            | None :: l => go l
            end) xs)
  | _ => 1%nat
  end.

Definition components_depth (xs : list (option MmsValue)) : nat :=
  foldr (fun c n => match c with Some x => Nat.max (mms_depth x) n | None => n end) O xs.

Lemma mms_depth_components xs :
  mms_depth (MmsArray xs) = S (components_depth xs) /\
  mms_depth (MmsStructure xs) = S (components_depth xs).
Proof.
  cbn [mms_depth]. split; f_equal; induction xs as [|[x|] xs IH]; cbn; auto.
Qed.

Lemma land_byte x m : is_byte x -> is_byte (Z.land x m).
Proof.
  unfold is_byte. intros Hx. assert (Z.land x m = Z.land (Z.land x m) 255) as ->.
  { rewrite (Z.land_comm x m), <- Z.land_assoc, land_255, Z.mod_small by lia. done. }
  rewrite land_255. apply Z.mod_pos_bound. lia.
Qed.

Lemma ber_bits_ok size buf : bytes_ok buf -> bytes_ok (ber_bits size buf).
Proof.
  intros Hb. unfold ber_bits. apply Forall_alter; [by apply Forall_take|].
  intros x _ Hx. by apply land_byte.
Qed.

Lemma mms_content_ok v :
  mms_ok v -> match v with MmsArray _ | MmsStructure _ => False | _ => True end ->
  bytes_ok (mms_content v).
Proof.
  destruct v as [| | b | size buf | a | a | ew w buf | size maxSize buf | buf size | size buf | buf size | buf | e ];
    cbn [mms_ok mms_content]; intros Hok Hs; try done; clear Hs.
  - destruct b; repeat constructor; lia.
  - destruct Hok as (H1 & H2 & H3). constructor; [|by apply ber_bits_ok].
    pose proof (padding_range size ltac:(lia)). unfold is_byte. lia.
  - by apply apv_content_ok.
  - by apply apv_content_ok.
  - destruct Hok as (H1 & _ & _ & H4). constructor; [done|]. by apply Forall_reverse, Forall_take.
  - destruct Hok as (_ & _ & _ & H4). by apply Forall_take.
  - destruct buf; [|done]. destruct Hok as (_ & H & _). by apply c_string_bytes.
  - destruct Hok as (_ & _ & H4). by apply Forall_take.
  - destruct buf; [|done]. destruct Hok as (_ & H & _). by apply c_string_bytes.
  - by destruct Hok.
  - auto with bytes.
Qed.

(** The tag and the length of an element are read back. *)
Lemma tlv_head buffer pos tag content length endPos :
  at_pos buffer pos (ber_tlv tag content) -> zlen content < 16777216 ->
  pos + zlen (ber_tlv tag content) <= endPos ->
  let p := pos + 1 + zlen (ber_length (zlen content)) in
  ld buffer pos = Some tag /\
  BerDecoder_decodeLength buffer length (pos + 1) endPos = Some (p, zlen content) /\
  at_pos buffer p content /\ p + zlen content = pos + zlen (ber_tlv tag content).
Proof.
  intros Hat Hz He. rewrite zlen_ber_tlv in *. unfold ber_tlv in Hat.
  apply at_pos_cons in Hat as [Hld Hat]. apply at_pos_app in Hat as [Hlen Hat].
  pose proof (zlen_nonneg content). rewrite (decodeLength_definite _ _ _ _ (zlen content)) by (done || lia).
  split_and!; (done || lia).
Qed.

Lemma decodable_content v : decodable v -> zlen (mms_content v) < 16777216.
Proof. destruct v; by intros [H _]. Qed.

Lemma components_bytes_cons v xs : components_bytes (Some v :: xs) = mms_bytes v ++ components_bytes xs.
Proof. done. Qed.

(** the head of the first of several elements *)
Lemma component_head buffer pos v xs length endPos :
  at_pos buffer pos (components_bytes (Some v :: xs)) -> decodable v ->
  pos + zlen (components_bytes (Some v :: xs)) <= endPos ->
  let p := pos + 1 + zlen (ber_length (zlen (mms_content v))) in
  ld buffer pos = Some (mms_tag v) /\
  BerDecoder_decodeLength buffer length (pos + 1) endPos = Some (p, zlen (mms_content v)) /\
  pos < p /\ p + zlen (mms_content v) = pos + zlen (mms_bytes v) /\
  at_pos buffer pos (mms_bytes v) /\
  at_pos buffer (p + zlen (mms_content v)) (components_bytes xs).
Proof.
  intros Hat Hd He. rewrite components_bytes_cons in *. apply at_pos_app in Hat as [Hat Hats].
  pose proof (zlen_nonneg (components_bytes xs)). rewrite zlen_app in He. rewrite mms_bytes_tlv in *.
  destruct (tlv_head buffer pos _ _ length endPos Hat) as (H1 & H2 & H3 & H4);
    [by apply decodable_content | lia |]. cbv zeta. rewrite H4.
  pose proof (zlen_ber_length_bounds (zlen (mms_content v))). split_and!; (done || lia).
Qed.

Lemma numberOfElements_spec xs buffer pos fuel elementLength index :
  at_pos buffer pos (components_bytes xs) ->
  all_components decodable False xs ->
  all_components (fun c => mms_tag c ∈ element_tags) False xs ->
  (length xs < fuel)%nat ->
  numberOfElements_loop fuel buffer pos elementLength (pos + zlen (components_bytes xs)) index
  = Some (index + zlen xs).
Proof.
  revert pos fuel elementLength index.
  induction xs as [|[x|] xs IH]; intros pos fuel elementLength index Hat Hd Ht Hf;
    (destruct fuel as [|fuel]; [cbn in Hf; lia|]); cbn [numberOfElements_loop].
  - change (components_bytes []) with (@nil Z). rewrite zlen_nil. if_false. f_equal. zlia.
  - destruct Hd as [Hd Hds], Ht as [Ht Hts]. pose proof (at_pos_bounds _ _ _ Hat).
    destruct (component_head _ _ _ _ elementLength _ Hat Hd ltac:(done))
      as (Hld & Hlen & Hp & Hend & _ & Hats).
    rewrite components_bytes_cons, zlen_app in *.
    pose proof (zlen_nonneg (components_bytes xs)). pose proof (zlen_nonneg (mms_content x)).
    if_true. rewrite Hld. cbn [mbind option_bind]. rewrite Hlen. cbn [mbind option_bind].
    if_false. rewrite bool_decide_eq_true_2 by done. cbn [negb].
    rewrite Z.add_assoc, <- Hend. rewrite IH by (done || (cbn in Hf; lia)). f_equal. zlia.
  - by destruct Hd.
Qed.

Lemma zlen_mms_bytes v : 2 <= zlen (mms_bytes v).
Proof.
  rewrite mms_bytes_tlv, zlen_ber_tlv. pose proof (zlen_nonneg (mms_content v)).
  pose proof (zlen_ber_length_bounds (zlen (mms_content v))). lia.
Qed.

Lemma length_components xs : all_components decodable False xs -> 2 * zlen xs <= zlen (components_bytes xs).
Proof.
  induction xs as [|[x|] xs IH]; cbn [all_components]; [done| |naive_solver]. intros [_ Hd].
  rewrite components_bytes_cons. pose proof (zlen_mms_bytes x). specialize (IH Hd). zlia.
Qed.

Lemma getNumberOfElements_spec xs buffer pos :
  at_pos buffer pos (components_bytes xs) ->
  all_components decodable False xs ->
  all_components (fun c => mms_tag c ∈ element_tags) False xs ->
  getNumberOfElements buffer pos (zlen (components_bytes xs)) = Some (zlen xs).
Proof.
  intros Hat Hd Ht. pose proof (length_components xs Hd). unfold getNumberOfElements.
  rewrite numberOfElements_spec by (done || (unfold zlen in *; lia)). done.
Qed.

Lemma simple_value v :
  mms_ok v -> decodable v -> match v with MmsArray _ | MmsStructure _ => False | _ => True end ->
  primitive_value (mms_tag v) (mms_content v) = Some (Some (decoded v)) /\
  content_ok (mms_tag v) (mms_content v).
Proof.
  destruct v as [| | b | size buf | a | a | ew w buf | size maxSize buf | buf size | size buf | buf size | buf | e ];
    cbn [mms_ok decodable mms_content mms_tag decoded]; intros Hok [Hd Hd'] Hs; try done; clear Hs;
    unfold primitive_value; cbn [Z.eqb Pos.eqb].
  - split; [by destruct b | by left].
  - destruct Hok as (H1 & H2 & H3). rewrite bitSize_bytes_eq in H2 by lia.
    pose proof (padding_range size ltac:(lia)). split; [|by left]. unfold ber_bitstring.
    cbn [head hd_error default from_option id tail]. if_false. do 2 f_equal. unfold bits_value.
    pose proof (zlen_ber_bits size buf ltac:(lia) ltac:(lia)) as Hz. rewrite Hz.
    replace (Z.abs _) with size by lia.
    replace (Z.to_nat (bitSize_bytes size) - length (ber_bits size buf))%nat with O
      by (rewrite bitSize_bytes_eq by lia; unfold zlen in Hz; lia). by rewrite app_nil_r.
  - rewrite zlen_apv_content by done. if_false. split; [done|]. left. intros E.
    pose proof (zlen_apv_content a Hok) as Hz. rewrite E in Hz. zlia.
  - rewrite zlen_apv_content by done. if_false. split; [done|]. left. intros E.
    pose proof (zlen_apv_content a Hok) as Hz. rewrite E in Hz. zlia.
  - destruct Hok as (H1 & _ & H3 & H4). split; [|by left]. rewrite zlen_cons, zlen_reverse.
    pose proof (le_bytes_le_val buf H4) as Hle.
    rewrite take_ge in * by (unfold zlen in H3; lia). rewrite H3.
    destruct Hd' as [-> | ->]; cbn -[MmsValue_newFloat MmsValue_newDouble be_val];
      unfold MmsValue_newFloat, MmsValue_newDouble; rewrite be_val_reverse.
    + replace 4%nat with (length buf) by (unfold zlen in H3; cbn in H3; lia). by rewrite Hle.
    + replace 8%nat with (length buf) by (unfold zlen in H3; cbn in H3; lia). by rewrite Hle.
  - destruct Hok as (H1 & H2 & H3 & _). rewrite zlen_take by lia. unfold u16.
    rewrite Z.mod_small by lia. split; [done|]. right. rewrite !elem_of_cons. tauto.
  - split; [done|]. right. rewrite !elem_of_cons. tauto.
  - destruct Hok as (H1 & H2 & _). rewrite zlen_take by lia. if_true. rewrite length_take.
    split; [unfold zlen in H2; replace (Z.to_nat size `min` length buf)%nat with (Z.to_nat size) by lia; done|]. left. intros E.
    pose proof (zlen_take buf size ltac:(lia)) as Hz. rewrite E in Hz. zlia.
  - split; [done|]. right. rewrite !elem_of_cons. tauto.
  - destruct Hok as (H1 & _). rewrite H1. split; [done|]. left. intros ->. zlia.
  - split; [|left; intros E; pose proof (zlen_ber_uint32 e); rewrite E in *; zlia].
    rewrite be_val_uint32 by done. by rewrite u32_small.
Qed.

Definition decodes (v : MmsValue) : Prop :=
  mms_ok v -> decodable v ->
  forall levels buffer pos,
  at_pos buffer pos (mms_bytes v) -> (mms_depth v <= levels)%nat ->
  MmsValue_decodeMmsDataRecursive levels buffer pos (pos + zlen (mms_bytes v))
  = Some (Some (Some (decoded v), pos + zlen (mms_bytes v))).

(** The elements of an array or a structure are decoded one after the other. *)
Lemma decode_elements_spec xs levels buffer pos endPos length :
  Forall (on_component decodes) xs ->
  all_components mms_ok True xs -> all_components decodable False xs ->
  at_pos buffer pos (components_bytes xs) ->
  pos + zlen (components_bytes xs) <= endPos -> (components_depth xs <= levels)%nat ->
  decode_elements (MmsValue_decodeMmsDataRecursive levels buffer) buffer endPos
    (List.length xs) pos length
  = Some (Some (option_map decoded <$> xs, pos + zlen (components_bytes xs))).
Proof.
  intros HF. revert pos length. induction HF as [|[x|] xs Hx _ IH]; intros pos length Hok Hd Hat He Hl.
  - cbn. do 4 f_equal. change (components_bytes []) with (@nil Z). zlia.
  - destruct Hd as [Hd Hds], Hok as [Hok Hoks]. 
    change (components_depth (Some x :: xs)) with (Nat.max (mms_depth x) (components_depth xs)) in Hl.
    destruct (component_head _ _ _ _ length endPos Hat Hd He) as (Hld & Hlen & Hp & Hend & Hatx & Hats).
    pose proof (at_pos_bounds _ _ _ Hatx).
    cbn [List.length decode_elements]. rewrite Hlen. cbn [mbind option_bind]. if_false.
    set (p := pos + 1 + zlen (ber_length (zlen (mms_content x)))) in *.
    replace (pos + (p - pos + zlen (mms_content x))) with (pos + zlen (mms_bytes x)) by lia.
    rewrite (Hx Hok Hd) by (done || lia). cbn [mbind option_bind].
    rewrite components_bytes_cons, zlen_app in *.
    rewrite IH by (done || lia).
    cbn [mbind option_bind fmap list_fmap option_map]. do 3 f_equal. lia.
  - by destruct Hd.
Qed.

Lemma decode_components v xs tag levels buffer pos :
  v = MmsArray xs /\ tag = 0xa1 \/ v = MmsStructure xs /\ tag = 0xa2 ->
  Forall (on_component decodes) xs -> mms_ok v -> decodable v ->
  at_pos buffer pos (mms_bytes v) -> (mms_depth v <= levels)%nat ->
  MmsValue_decodeMmsDataRecursive levels buffer pos (pos + zlen (mms_bytes v))
  = Some (Some (Some (decoded v), pos + zlen (mms_bytes v))).
Proof.
  intros Hv HF Hok Hd Hat Hl. destruct (mms_depth_components xs) as [Ha Hs].
  assert (mms_tag v = tag /\ mms_content v = components_bytes xs /\ mms_depth v = S (components_depth xs) /\
    all_components mms_ok True xs /\ xs <> [] /\ all_components decodable False xs /\
    all_components (fun c => mms_tag c ∈ element_tags) False xs)
    as (Htag & Hcont & Hdep & Hoks & Hne & Hds & Hts).
  { destruct Hv as [[-> ->]|[-> ->]]; destruct Hd as (_ & ? & ? & ?); done. }
  pose proof (decodable_content v Hd) as Hsmall. rewrite mms_bytes_tlv in *. rewrite Hcont, Htag in *.
  destruct (tlv_head buffer pos tag _ 0 (pos + zlen (ber_tlv tag (components_bytes xs))) Hat)
    as (Hld & Hlen & Hatc & Hend); [done | lia |].
  pose proof (at_pos_bounds _ _ _ Hat). pose proof (length_components xs Hds).
  assert (0 < zlen xs) by (destruct xs; [done|]; zlen; pose proof (zlen_nonneg xs); lia).
  destruct levels as [|levels]; [lia|]. cbn [MmsValue_decodeMmsDataRecursive].
  rewrite zlen_ber_tlv in *. pose proof (zlen_ber_length_bounds (zlen (components_bytes xs))).
  if_false. rewrite Hld. cbn [mbind option_bind]. rewrite Hlen. cbn [mbind option_bind].
  if_false. replace (zlen (components_bytes xs) =? 0) with false by lia. rewrite andb_false_r.
  replace ((tag =? 0xa1) || (tag =? 0xa2)) with true by lia.
  rewrite getNumberOfElements_spec by done. cbn [mbind option_bind]. if_false.
  rewrite zlen_to_nat, (decode_elements_spec xs) by (done || lia). cbn [mbind option_bind].
  destruct Hv as [[-> ->]|[-> ->]]; cbn [Z.eqb Pos.eqb decoded]; do 3 f_equal; lia.
Qed.

Lemma decode_spec v : decodes v.
Proof.
  mms_ind v.
  - intros Hok Hd levels buffer pos. eapply decode_components; eauto.
  - intros Hok Hd levels buffer pos. eapply decode_components; eauto.
  - intros Hok Hd levels buffer pos Hat Hl. destruct (simple_value v Hok Hd Hsimple) as [Hv Hc].
    pose proof (mms_content_ok v Hok Hsimple) as Hb. pose proof (decodable_content v Hd).
    rewrite mms_bytes_tlv in *.
    destruct (tlv_head buffer pos _ _ 0 (pos + zlen (ber_tlv (mms_tag v) (mms_content v))) Hat)
      as (Hld & Hlen & Hatc & Hend); [done | lia |].
    pose proof (at_pos_bounds _ _ _ Hat). rewrite zlen_ber_tlv in *.
    pose proof (zlen_ber_length_bounds (zlen (mms_content v))). pose proof (zlen_nonneg (mms_content v)).
    destruct levels as [|levels]; [destruct v; cbn in Hl; lia|]. cbn [MmsValue_decodeMmsDataRecursive].
    if_false. rewrite Hld. cbn [mbind option_bind]. rewrite Hlen. cbn [mbind option_bind]. if_false.
    destruct (_ && (zlen (mms_content v) =? 0)) eqn:He.
    { exfalso. destruct Hc as [Hc|Hc]; [destruct (mms_content v); [done|zlen; pose proof (zlen_nonneg l); lia]|].
      rewrite !elem_of_cons in Hc. pose proof (not_elem_of_nil (mms_tag v)). naive_solver lia. }
    replace ((mms_tag v =? 0xa1) || (mms_tag v =? 0xa2)) with false by (by destruct v).
    rewrite decode_primitive_spec by done. rewrite Hv. cbn [mbind option_bind].
    replace (mms_tag v =? 0) with false by (by destruct v). do 3 f_equal. lia.
Qed.

(** ** The decoded value compares equal *)

(** the padding bits of every bit string are clear *)
Fixpoint padding_clear (v : MmsValue) : Prop :=
  match v with
  | MmsArray xs | MmsStructure xs => all_components padding_clear False xs
  | MmsBitString size buf => ber_bits size buf = buf
  | _ => True
  end.

Definition equals_decoded (v : MmsValue) : Prop :=
  mms_ok v -> mms_complete v -> padding_clear v -> mms_equals v (decoded v) = Some true.

Lemma equals_components_decoded xs :
  Forall (on_component equals_decoded) xs -> all_components mms_ok True xs ->
  all_components mms_complete False xs -> all_components padding_clear False xs ->
  equals_components mms_equals xs (option_map decoded <$> xs) = Some true.
Proof.
  induction 1 as [|[x|] xs Hx _ IH]; cbn [all_components]; [done| |naive_solver].
  intros [H1 H1s] [H2 H2s] [H3 H3s]. cbn. rewrite (Hx H1 H2 H3). cbn. by apply IH.
Qed.

Lemma take_at_pos (buf : list Z) n : at_pos buf 0 (take n buf).
Proof. exists [], (drop n buf). cbn. by rewrite take_drop. Qed.

Lemma strcmp_decoded buf : 0 ∈ buf -> strcmp_eq buf (c_string buf ++ [0]) = Some true.
Proof.
  intros Ht. rewrite strcmp_eq_spec; [|done|].
  - rewrite bool_decide_eq_true_2; [done|]. rewrite c_string_terminated; [done|]. apply c_string_no_zero.
  - apply elem_of_app. right. by apply list_elem_of_singleton.
Qed.

Lemma decoded_equals v : equals_decoded v.
Proof.
  mms_ind v.
  1-2: intros Hok Hc Hp; cbn [mms_ok mms_complete padding_clear mms_equals decoded] in *;
    rewrite zlen_fmap, Z.eqb_refl; by apply equals_components_decoded.
  destruct v as [| | b | size buf | a | a | ew w buf | size maxSize buf | buf size | size buf | buf size | buf | e ];
    try done; intros Hok Hc Hp; cbn [mms_ok mms_complete padding_clear mms_equals decoded] in Hok, Hc, Hp |- *.
  - by rewrite eqb_reflx.
  - destruct Hok as (H1 & H2 & H3). rewrite Z.eqb_refl, Hp. apply memcmp_eq_refl.
    pose proof (bitSize_bytes_nonneg size). lia.
  - unfold Asn1PrimitivaValue_compare. cbn [apv_size apv_octets apv_of]. rewrite zlen_apv_content, Z.eqb_refl by done.
    apply (memcmp_eq_front _ _ (apv_content a)); [symmetry; by apply zlen_apv_content | by apply apv_content_at | apply at_pos_prefix].
  - unfold Asn1PrimitivaValue_compare. cbn [apv_size apv_octets apv_of]. rewrite zlen_apv_content, Z.eqb_refl by done.
    apply (memcmp_eq_front _ _ (apv_content a)); [symmetry; by apply zlen_apv_content | by apply apv_content_at | apply at_pos_prefix].
  - destruct Hok as (_ & Hw & Hz & _). apply memcmp_eq_refl. pose proof (div8_nonneg w). lia.
  - destruct Hok as (H1 & H2 & H3 & _). rewrite Z.eqb_refl.
    apply (memcmp_eq_front _ _ (take (Z.to_nat size) buf)); [by rewrite zlen_take by lia | apply take_at_pos | apply at_pos_whole].
  - destruct buf as [buf|]; [|done]. destruct Hok as (Ht & _). by apply strcmp_decoded.
  - destruct Hok as (H1 & H2 & _). rewrite Z.eqb_refl.
    apply (memcmp_eq_front _ _ (take (Z.to_nat size) buf)); [by rewrite zlen_take by lia | apply take_at_pos | apply at_pos_prefix].
  - destruct buf as [buf|]; [|done]. destruct Hok as (Ht & _). by apply strcmp_decoded.
  - destruct Hok as (H1 & _). apply memcmp_eq_refl. lia.
  - by rewrite Z.eqb_refl.
Qed.

(** ** The maximum size bounds the encoded size *)

Lemma determineLengthSize_mono n m :
  0 <= n <= m -> BerEncoder_determineLengthSize n <= BerEncoder_determineLengthSize m.
Proof. intros. unfold BerEncoder_determineLengthSize. repeat case_match; lia. Qed.

Definition max_bounds (v : MmsValue) : Prop :=
  mms_ok v -> mms_complete v ->
  exists n m, encodedSize v = Some n /\ MmsValue_getMaxEncodedSize v = Some m /\ 0 <= n <= m.

Lemma sum_max_bounds xs :
  Forall (on_component max_bounds) xs -> all_components mms_ok True xs ->
  all_components mms_complete False xs ->
  exists n m, sum_components encodedSize xs = Some n /\
              sum_components MmsValue_getMaxEncodedSize xs = Some m /\ 0 <= n <= m.
Proof.
  induction 1 as [|[x|] xs Hx _ IH]; cbn [all_components]; [by exists 0, 0| |naive_solver].
  intros [H1 H1s] [H2 H2s]. destruct (Hx H1 H2) as (n & m & En & Em & ?).
  destruct (IH H1s H2s) as (n' & m' & En' & Em' & ?). exists (n + n'), (m + m').
  cbn. rewrite En, Em. cbn. rewrite En', Em'. cbn. split_and!; (done || lia).
Qed.

Lemma determineLengthSize_pos n : 1 <= BerEncoder_determineLengthSize n.
Proof. unfold BerEncoder_determineLengthSize. repeat case_match; lia. Qed.

Lemma string_max_bounds buf size :
  string_block_ok buf size -> string_complete buf size ->
  exists n, BerEncoder_determineEncodedStringSize buf = Some n /\
    0 <= n <= 1 + Z.abs size + BerEncoder_determineLengthSize (Z.abs size).
Proof.
  destruct buf as [buf|]; cbn [string_block_ok string_complete]; [|done]. intros (Ht & _ & _) Hs.
  unfold BerEncoder_determineEncodedStringSize. destruct (strlen_is_Some buf Ht) as [n Hn].
  rewrite Hn. cbn [mbind option_bind]. apply strlen_c_string in Hn as (-> & _).
  pose proof (zlen_nonneg (c_string buf)).
  pose proof (determineLengthSize_mono (zlen (c_string buf)) (Z.abs size) ltac:(lia)).
  pose proof (determineLengthSize_pos (zlen (c_string buf))). eexists. split; [done|]. lia.
Qed.

Lemma max_bounds_spec v : max_bounds v.
Proof.
  mms_ind v.
  1-2: intros Hok Hc; destruct (sum_max_bounds xs IH Hok Hc) as (n & m & En & Em & ?);
    cbn [encodedSize MmsValue_getMaxEncodedSize]; rewrite En, Em; cbn [mbind option_bind];
    pose proof (determineLengthSize_mono n m); pose proof (determineLengthSize_pos n);
    do 2 eexists; split_and!; (done || lia).
  destruct v as [| | b | size buf | a | a | ew w buf | size maxSize buf | buf size | size buf | buf size | buf | e ];
    try done; intros Hok Hc; cbn [mms_ok mms_complete] in Hok, Hc.
  all: try (destruct (string_max_bounds _ _ Hok Hc) as (n & En & ?);
    cbn [encodedSize MmsValue_getMaxEncodedSize]; rewrite En; do 2 eexists; split_and!; (done || lia)).
  all: cbn [encodedSize MmsValue_getMaxEncodedSize].
  - do 2 eexists. split_and!; (done || lia).
  - do 2 eexists. split; [done|]. split; [done|]. rewrite Z.abs_eq by lia. split; [|done].
    unfold BerEncoder_determineEncodedBitStringSize. rewrite byteSize_eq by lia.
    pose proof (Z.div_pos (size + 7) 8 ltac:(lia) ltac:(lia)).
    pose proof (determineLengthSize_pos (u32 ((size + 7) / 8))). lia.
  - destruct Hok as (? & _). do 2 eexists. split_and!; (done || lia).
  - destruct Hok as (? & _). do 2 eexists. split_and!; (done || lia).
  - destruct Hok as (_ & ? & _). pose proof (div8_nonneg w). do 2 eexists. split_and!; (done || lia).
  - pose proof (determineLengthSize_mono size (Z.abs maxSize)). pose proof (determineLengthSize_pos size).
    do 2 eexists. split_and!; (done || lia).
  - do 2 eexists. split_and!; (done || lia).
  - do 2 eexists. split_and!; (done || lia).
  - rewrite UInt32determineEncodedSize_spec. cbn [mbind option_bind].
    pose proof (zlen_ber_uint32 (u32 e)). do 2 eexists. split_and!; (done || lia).
Qed.
