(* ===== verification/GoosePublisher.v ===== *)
(** The GOOSE publisher: src/libiec61850/src/goose/goose_publisher.c.

    The state is [struct sGoosePublisher] for Ethernet GOOSE (the R-GOOSE
    members are compiled out). A data set, a [LinkedList] of values, is the
    list of its entries, [None] for a null one. The Ethernet layer is outside:
    the interface's MAC address and whether the socket could be opened are
    arguments of the constructor, and a frame handed to [Ethernet_sendPacket]
    is a result of [GoosePublisher_publish]. [Hal_getTimeInMs] is the argument
    [now]. *)

From S2P Require Import Prelude BerEncoder BerDecoder BerInteger StringUtils CFloat MmsValue MmsFacts MmsData.
Open Scope Z_scope.

Definition GOOSE_MAX_MESSAGE_SIZE : Z := 1518.

(** goose_publisher.h *)
Record CommParameters := mkCommParameters {
  cp_vlanPriority : Z;
  cp_vlanId : Z;
  cp_appId : Z;
  cp_dstAddress : list Z
}.

(** the defaults of config/stack_config.h *)
Definition defaultCommParameters : CommParameters :=
  mkCommParameters 4 0 0x1000 [0x01; 0x0c; 0xcd; 0x01; 0x00; 0x01].

Record GoosePublisher := mkGoosePublisher {
  gp_buffer : list Z;
  gp_ethernetSocket : bool;
  gp_lengthField : Z;
  gp_payloadStart : Z;
  gp_payloadLength : Z;
  gp_goID : option (list Z);
  gp_goCBRef : option (list Z);
  gp_dataSetRef : option (list Z);
  gp_confRev : Z;
  gp_stNum : Z;
  gp_sqNum : Z;
  gp_timeAllowedToLive : Z;
  gp_needsCommission : bool;
  gp_simulation : bool;
  gp_timestamp : MmsValue
}.

(** * Setters *)

Definition GoosePublisher_setGoID (self : GoosePublisher) (goID : option (list Z)) : option GoosePublisher :=
  let 'mkGoosePublisher b so lf ps pl _ cb ds cr st sq tl nc si ts := self in
  id ← StringUtils_copyString goID;
  Some (mkGoosePublisher b so lf ps pl id cb ds cr st sq tl nc si ts).

Definition GoosePublisher_setGoCbRef (self : GoosePublisher) (goCbRef : option (list Z)) : option GoosePublisher :=
  let 'mkGoosePublisher b so lf ps pl id _ ds cr st sq tl nc si ts := self in
  cb ← StringUtils_copyString goCbRef;
  Some (mkGoosePublisher b so lf ps pl id cb ds cr st sq tl nc si ts).

Definition GoosePublisher_setDataSetRef (self : GoosePublisher) (dataSetRef : option (list Z)) : option GoosePublisher :=
  let 'mkGoosePublisher b so lf ps pl id cb _ cr st sq tl nc si ts := self in
  ds ← StringUtils_copyString dataSetRef;
  Some (mkGoosePublisher b so lf ps pl id cb ds cr st sq tl nc si ts).

Definition GoosePublisher_setConfRev (self : GoosePublisher) (confRev : Z) : GoosePublisher :=
  let 'mkGoosePublisher b so lf ps pl id cb ds _ st sq tl nc si ts := self in
  mkGoosePublisher b so lf ps pl id cb ds confRev st sq tl nc si ts.

Definition GoosePublisher_setSimulation (self : GoosePublisher) (simulation : bool) : GoosePublisher :=
  let 'mkGoosePublisher b so lf ps pl id cb ds cr st sq tl nc _ ts := self in
  mkGoosePublisher b so lf ps pl id cb ds cr st sq tl nc simulation ts.

Definition GoosePublisher_setStNum (self : GoosePublisher) (stNum : Z) : GoosePublisher :=
  let 'mkGoosePublisher b so lf ps pl id cb ds cr _ sq tl nc si ts := self in
  mkGoosePublisher b so lf ps pl id cb ds cr stNum sq tl nc si ts.

Definition GoosePublisher_setSqNum (self : GoosePublisher) (sqNum : Z) : GoosePublisher :=
  let 'mkGoosePublisher b so lf ps pl id cb ds cr st _ tl nc si ts := self in
  mkGoosePublisher b so lf ps pl id cb ds cr st sqNum tl nc si ts.

Definition GoosePublisher_setNeedsCommission (self : GoosePublisher) (ndsCom : bool) : GoosePublisher :=
  let 'mkGoosePublisher b so lf ps pl id cb ds cr st sq tl _ si ts := self in
  mkGoosePublisher b so lf ps pl id cb ds cr st sq tl ndsCom si ts.

Definition GoosePublisher_setTimeAllowedToLive (self : GoosePublisher) (timeAllowedToLive : Z) : GoosePublisher :=
  let 'mkGoosePublisher b so lf ps pl id cb ds cr st sq _ nc si ts := self in
  mkGoosePublisher b so lf ps pl id cb ds cr st sq timeAllowedToLive nc si ts.

(** the assignments to the other members *)
Definition with_buffer (self : GoosePublisher) (buffer : list Z) : GoosePublisher :=
  let 'mkGoosePublisher _ so lf ps pl id cb ds cr st sq tl nc si ts := self in
  mkGoosePublisher buffer so lf ps pl id cb ds cr st sq tl nc si ts.
Definition with_payloadLength (self : GoosePublisher) (payloadLength : Z) : GoosePublisher :=
  let 'mkGoosePublisher b so lf ps _ id cb ds cr st sq tl nc si ts := self in
  mkGoosePublisher b so lf ps payloadLength id cb ds cr st sq tl nc si ts.
Definition with_timestamp (self : GoosePublisher) (timestamp : MmsValue) : GoosePublisher :=
  let 'mkGoosePublisher b so lf ps pl id cb ds cr st sq tl nc si _ := self in
  mkGoosePublisher b so lf ps pl id cb ds cr st sq tl nc si timestamp.

(** [stNum] is incremented, skips zero when it wraps, and [sqNum] restarts. *)
Definition GoosePublisher_increaseStNum (self : GoosePublisher) (now : Z) : option (GoosePublisher * Z) :=
  let currentTime := now in
  timestamp ← MmsValue_setUtcTimeMs (gp_timestamp self) currentTime;
  let self := with_timestamp self timestamp in
  let stNum := u32 (gp_stNum self + 1) in
  let stNum := if stNum =? 0 then 1 else stNum in
  Some (GoosePublisher_setSqNum (GoosePublisher_setStNum self stNum) 0, currentTime).

Definition GoosePublisher_reset (self : GoosePublisher) : GoosePublisher :=
  GoosePublisher_setStNum (GoosePublisher_setSqNum self 0) 1.

(** * Construction *)

(** [prepareGooseBuffer] on the zeroed structure of [GoosePublisher_createEx];
    the result is [None] when the socket cannot be opened. *)
Definition prepareGooseBuffer (parameters : option CommParameters) (srcAddr : list Z)
    (socketOpen useVlanTags : bool) (timestamp : MmsValue) : option (option GoosePublisher) :=
  let p := default defaultCommParameters parameters in
  if socketOpen then
    let buffer := replicate (Z.to_nat GOOSE_MAX_MESSAGE_SIZE) 0 in
    dst ← ld_range (cp_dstAddress p) 0 6;
    buffer ← st_range buffer 0 dst;
    src ← ld_range srcAddr 0 6;
    buffer ← st_range buffer 6 src;
    let bufPos := 12 in
    '(buffer, bufPos) ←
      (if useVlanTags then
         '(buffer, bufPos) ← put 0x81 buffer bufPos;
         '(buffer, bufPos) ← put 0x00 buffer bufPos;
         let tci1 := u8 (Z.shiftl (cp_vlanPriority p) 5) in
         let tci1 := u8 (tci1 + cp_vlanId p / 256) in
         let tci2 := u8 (cp_vlanId p mod 256) in
         '(buffer, bufPos) ← put tci1 buffer bufPos;
         put tci2 buffer bufPos
       else Some (buffer, bufPos));
    '(buffer, bufPos) ← put 0x88 buffer bufPos;
    '(buffer, bufPos) ← put 0xb8 buffer bufPos;
    '(buffer, bufPos) ← put (u8 (cp_appId p / 256)) buffer bufPos;
    '(buffer, bufPos) ← put (u8 (cp_appId p mod 256)) buffer bufPos;
    let lengthField := bufPos in
    '(buffer, bufPos) ← put 0x00 buffer bufPos;
    '(buffer, bufPos) ← put 0x08 buffer bufPos;
    '(buffer, bufPos) ← put 0x00 buffer bufPos;
    '(buffer, bufPos) ← put 0x00 buffer bufPos;
    '(buffer, bufPos) ← put 0x00 buffer bufPos;
    '(buffer, bufPos) ← put 0x00 buffer bufPos;
    let payloadStart := bufPos in
    Some (Some (mkGoosePublisher buffer true lengthField payloadStart 0 None None None
                  0 0 0 0 false false timestamp))
  else Some None.

Definition GoosePublisher_createEx (parameters : option CommParameters) (srcAddr : list Z)
    (socketOpen useVlanTag : bool) (now : Z) : option (option GoosePublisher) :=
  timestamp ← MmsValue_newUtcTimeByMsTime now;
  r ← prepareGooseBuffer parameters srcAddr socketOpen useVlanTag timestamp;
  Some (self ← r; Some (GoosePublisher_reset self)).

Definition GoosePublisher_create (parameters : option CommParameters) (srcAddr : list Z)
    (socketOpen : bool) (now : Z) : option (option GoosePublisher) :=
  GoosePublisher_createEx parameters srcAddr socketOpen true now.

(** * The payload *)

Definition effective_goID (self : GoosePublisher) : option (list Z) :=
  match gp_goID self with Some id => Some id | None => gp_goCBRef self end.

(** the size loop over the data set; null entries are skipped *)
Fixpoint dataSet_size (dataSetValues : list (option MmsValue)) (dataSetSize : Z) : option Z :=
  match dataSetValues with
  | [] => Some dataSetSize
  | Some dataSetEntry :: rest =>
      n ← encodedSize dataSetEntry; dataSet_size rest (u32 (dataSetSize + n))
  | None :: rest => dataSet_size rest dataSetSize
  end.

(** Step 1 up to the data set: the length of the fields in front of it. *)
Definition goosePdu_fieldsLength (self : GoosePublisher) (numberOfDataSetEntries : Z) : option Z :=
  let goosePduLength := 0 in
  n ← BerEncoder_determineEncodedStringSize (gp_goCBRef self);
  let goosePduLength := u32 (goosePduLength + n) in
  n ← BerEncoder_UInt32determineEncodedSize (gp_timeAllowedToLive self);
  let goosePduLength := u32 (goosePduLength + (2 + n)) in
  n ← BerEncoder_determineEncodedStringSize (gp_dataSetRef self);
  let goosePduLength := u32 (goosePduLength + n) in
  n ← BerEncoder_determineEncodedStringSize (effective_goID self);
  let goosePduLength := u32 (goosePduLength + n) in
  let goosePduLength := u32 (goosePduLength + (2 + 8)) in
  n ← BerEncoder_UInt32determineEncodedSize (gp_sqNum self);
  let goosePduLength := u32 (goosePduLength + (2 + n)) in
  n ← BerEncoder_UInt32determineEncodedSize (gp_stNum self);
  let goosePduLength := u32 (goosePduLength + (2 + n)) in
  n ← BerEncoder_UInt32determineEncodedSize (gp_confRev self);
  let goosePduLength := u32 (goosePduLength + (2 + n)) in
  let goosePduLength := u32 (goosePduLength + 6) in
  n ← BerEncoder_UInt32determineEncodedSize numberOfDataSetEntries;
  Some (u32 (goosePduLength + (2 + n))).

(** Step 2 up to the data set: the fields in front of it. *)
Definition encode_goosePduFields (self : GoosePublisher) (numberOfDataSetEntries : Z) : writer :=
  fun buffer bufPos =>
  '(buffer, bufPos) ← BerEncoder_encodeStringWithTag 0x80 (gp_goCBRef self) buffer bufPos;
  '(buffer, bufPos) ← BerEncoder_encodeUInt32WithTL 0x81 (gp_timeAllowedToLive self) buffer bufPos;
  '(buffer, bufPos) ← BerEncoder_encodeStringWithTag 0x82 (gp_dataSetRef self) buffer bufPos;
  '(buffer, bufPos) ← BerEncoder_encodeStringWithTag 0x83 (effective_goID self) buffer bufPos;
  '(buffer, bufPos) ←
    match gp_timestamp self with
    | MmsUtcTime utcTime => BerEncoder_encodeOctetString 0x84 utcTime 8 buffer bufPos
    | _ => None
    end;
  '(buffer, bufPos) ← BerEncoder_encodeUInt32WithTL 0x85 (gp_stNum self) buffer bufPos;
  '(buffer, bufPos) ← BerEncoder_encodeUInt32WithTL 0x86 (gp_sqNum self) buffer bufPos;
  '(buffer, bufPos) ← BerEncoder_encodeBoolean 0x87 (gp_simulation self) buffer bufPos;
  '(buffer, bufPos) ← BerEncoder_encodeUInt32WithTL 0x88 (gp_confRev self) buffer bufPos;
  '(buffer, bufPos) ← BerEncoder_encodeBoolean 0x89 (gp_needsCommission self) buffer bufPos;
  BerEncoder_encodeUInt32WithTL 0x8a numberOfDataSetEntries buffer bufPos.

(** the encoding loop over the data set *)
Fixpoint encode_dataSet (dataSetValues : list (option MmsValue)) : writer := fun buffer bufPos =>
  match dataSetValues with
  | [] => Some (buffer, bufPos)
  | Some dataSetEntry :: rest =>
      '(buffer, bufPos) ← encodeData dataSetEntry buffer bufPos;
      encode_dataSet rest buffer bufPos
  | None :: rest => encode_dataSet rest buffer bufPos
  end.

(** The payload length, or [-1] when the message does not fit. *)
Definition createGoosePayload (self : GoosePublisher) (dataSetValues : list (option MmsValue))
    (buffer : list Z) (maxPayloadSize : Z) : option (Z * list Z) :=
  let numberOfDataSetEntries := u32 (zlen dataSetValues) in
  goosePduLength ← goosePdu_fieldsLength self numberOfDataSetEntries;
  dataSetSize ← dataSet_size dataSetValues 0;
  let allDataSize := u32 (dataSetSize + BerEncoder_determineLengthSize dataSetSize + 1) in
  let goosePduLength := u32 (goosePduLength + allDataSize) in
  let payloadSize := u32 (1 + BerEncoder_determineLengthSize goosePduLength + goosePduLength) in
  if maxPayloadSize <? payloadSize then Some (-1, buffer)
  else
    let bufPos := 0 in
    '(buffer, bufPos) ← BerEncoder_encodeTL 0x61 goosePduLength buffer bufPos;
    '(buffer, bufPos) ← encode_goosePduFields self numberOfDataSetEntries buffer bufPos;
    '(buffer, bufPos) ← BerEncoder_encodeTL 0xab dataSetSize buffer bufPos;
    '(buffer, bufPos) ← encode_dataSet dataSetValues buffer bufPos;
    Some (bufPos, buffer).

(** * Publishing *)

(** [sqNum++], skipping zero when it wraps *)
Definition next_sqNum (sqNum : Z) : Z :=
  let sqNum := u32 (sqNum + 1) in if sqNum =? 0 then 1 else sqNum.

(** The new state, the return code and the frame that is sent. *)
Definition GoosePublisher_publish (self : GoosePublisher) (dataSet : list (option MmsValue))
  : option (GoosePublisher * Z * option (list Z)) :=
  let maxPayloadSize := u64 (GOOSE_MAX_MESSAGE_SIZE - gp_payloadStart self) in
  '(payloadLength, buffer) ←
    on_ptr (gp_buffer self) (gp_payloadStart self)
      (fun buffer => createGoosePayload self dataSet buffer maxPayloadSize);
  let self := with_payloadLength (with_buffer self buffer) payloadLength in
  if payloadLength =? -1 then Some (self, -1, None)
  else
    let self := GoosePublisher_setSqNum self (next_sqNum (gp_sqNum self)) in
    if gp_ethernetSocket self then
      let lengthIndex := gp_lengthField self in
      let gooseLength := payloadLength + 8 in
      buffer ← st (gp_buffer self) lengthIndex (u8 (gooseLength / 256));
      buffer ← st buffer (lengthIndex + 1) (Z.land gooseLength 0xff);
      let self := with_buffer self buffer in
      frame ← ld_range (gp_buffer self) 0 (gp_payloadStart self + gp_payloadLength self);
      Some (self, 0, Some frame)
    else Some (self, 0, None).

(** [msgBuf] and [*msgLen] after the call are the last two results. *)
Definition GoosePublisher_publishAndDump (self : GoosePublisher) (dataSet : list (option MmsValue))
    (msgBuf : list Z) (msgLen bufSize : Z)
  : option (GoosePublisher * Z * option (list Z) * list Z * Z) :=
  '(self, rc, sent) ← GoosePublisher_publish self dataSet;
  if rc =? 0 then
    let copied := gp_payloadStart self + gp_payloadLength self in
    let copied := if bufSize <? copied then bufSize else copied in
    bs ← ld_range (gp_buffer self) 0 copied;
    msgBuf ← st_range msgBuf 0 bs;
    Some (self, rc, sent, msgBuf, copied)
  else Some (self, rc, sent, msgBuf, msgLen).

(** * The bytes of a message *)

Definition utc_bytes (v : MmsValue) : list Z := match v with MmsUtcTime bs => bs | _ => [] end.

(** The fields in front of the data set, each with its tag. *)
Definition pdu_fields (self : GoosePublisher) (n : Z) : list (Z * list Z) :=
  [(0x80, ber_string (gp_goCBRef self));
   (0x81, ber_uint32 (gp_timeAllowedToLive self));
   (0x82, ber_string (gp_dataSetRef self));
   (0x83, ber_string (effective_goID self));
   (0x84, utc_bytes (gp_timestamp self));
   (0x85, ber_uint32 (gp_stNum self));
   (0x86, ber_uint32 (gp_sqNum self));
   (0x87, [if gp_simulation self then 1 else 0]);
   (0x88, ber_uint32 (gp_confRev self));
   (0x89, [if gp_needsCommission self then 1 else 0]);
   (0x8a, ber_uint32 n)].

Definition fields_bytes (fields : list (Z * list Z)) : list Z :=
  concat ((fun f => ber_tlv f.1 f.2) <$> fields).

Definition message_fields (self : GoosePublisher) (dataSet : list (option MmsValue)) : list (Z * list Z) :=
  pdu_fields self (zlen dataSet) ++ [(0xab, components_bytes dataSet)].

Definition goose_content (self : GoosePublisher) (dataSet : list (option MmsValue)) : list Z :=
  fields_bytes (message_fields self dataSet).

Definition goose_bytes (self : GoosePublisher) (dataSet : list (option MmsValue)) : list Z :=
  ber_tlv 0x61 (goose_content self dataSet).

(** The type invariant of the publisher. *)
Definition publisher_ok (self : GoosePublisher) : Prop :=
  zlen (gp_buffer self) = GOOSE_MAX_MESSAGE_SIZE /\
  0 <= gp_lengthField self /\ gp_lengthField self + 2 <= gp_payloadStart self <= GOOSE_MAX_MESSAGE_SIZE /\
  string_ok (gp_goID self) /\ string_ok (gp_goCBRef self) /\ string_ok (gp_dataSetRef self) /\
  is_u32 (gp_confRev self) /\ is_u32 (gp_stNum self) /\ is_u32 (gp_sqNum self) /\
  is_u32 (gp_timeAllowedToLive self) /\
  exists utcTime, gp_timestamp self = MmsUtcTime utcTime /\ zlen utcTime = 8 /\ bytes_ok utcTime.

(** A data set whose entries the library encodes with the size it computes, which is not
    every data set: see [mms_sized]. *)
Definition dataSet_ok (dataSet : list (option MmsValue)) : Prop :=
  all_components (fun v => mms_ok v /\ mms_sized v) True dataSet.

(** ** Step 2 writes the bytes *)

Lemma encode_dataSet_puts dataSet buffer bufPos :
  dataSet_ok dataSet -> encode_dataSet dataSet buffer bufPos = puts (components_bytes dataSet) buffer bufPos.
Proof.
  unfold dataSet_ok. revert buffer bufPos. induction dataSet as [|[x|] l IH]; intros buffer bufPos; cbn [all_components].
  - done.
  - intros [[Hok Hs] Hl]. cbn [encode_dataSet]. rewrite encodeData_puts, components_bytes_cons, puts_app by done.
    destruct (puts _ _ _) as [[? ?]|]; cbn [mbind option_bind]; [|done]. by apply IH.
  - intros [_ Hl]. by apply IH.
Qed.

Lemma string_ok_goID self : publisher_ok self -> string_ok (effective_goID self).
Proof. intros (_ & _ & _ & H1 & H2 & _). unfold effective_goID. by destruct (gp_goID self). Qed.

Lemma bind_puts {A} (bs : list Z) buffer bufPos (f : list Z -> Z -> option A) (g : list Z -> Z -> option A) :
  (forall buffer bufPos, f buffer bufPos = g buffer bufPos) ->
  ('(buffer, bufPos) ← puts bs buffer bufPos; f buffer bufPos)
  = '(buffer, bufPos) ← puts bs buffer bufPos; g buffer bufPos.
Proof. intros H. by destruct (puts bs buffer bufPos) as [[? ?]|]; cbn. Qed.

Lemma fields_bytes_cons t c fs : fields_bytes ((t, c) :: fs) = ber_tlv t c ++ fields_bytes fs.
Proof. done. Qed.

Lemma fields_bytes_app fs gs : fields_bytes (fs ++ gs) = fields_bytes fs ++ fields_bytes gs.
Proof. unfold fields_bytes. by rewrite fmap_app, concat_app. Qed.

Lemma encode_goosePduFields_puts self n buffer bufPos :
  publisher_ok self ->
  encode_goosePduFields self n buffer bufPos = puts (fields_bytes (pdu_fields self n)) buffer bufPos.
Proof.
  intros Hok. pose proof (string_ok_goID self Hok).
  destruct Hok as (_ & _ & _ & H1 & H2 & H3 & _ & _ & _ & _ & utcTime & Ht & Hz & _).
  unfold encode_goosePduFields, pdu_fields. rewrite Ht. cbn [utc_bytes].
  repeat first
   [ rewrite fields_bytes_cons, puts_app
   | rewrite encodeStringWithTag_puts by done; apply bind_puts; intros ? ?
   | rewrite encodeUInt32WithTL_puts; apply bind_puts; intros ? ?
   | rewrite encodeBoolean_puts; apply bind_puts; intros ? ?
   | rewrite encodeOctetString_puts by lia; rewrite take_ge by (unfold zlen in Hz; lia); apply bind_puts; intros ? ?].
  rewrite <- puts_app. change (fields_bytes []) with (@nil Z). rewrite app_nil_r. apply encodeUInt32WithTL_puts.
Qed.

(** ** Step 1 computes their length *)

Lemma dataSet_size_spec dataSet acc :
  dataSet_ok dataSet -> 0 <= acc -> acc + zlen (components_bytes dataSet) < 4294967296 ->
  dataSet_size dataSet acc = Some (acc + zlen (components_bytes dataSet)).
Proof.
  unfold dataSet_ok. revert acc. induction dataSet as [|[x|] l IH]; intros acc; cbn [all_components].
  - intros _ _ _. cbn. by rewrite Z.add_0_r.
  - intros [[Hok Hs] Hl] Ha Hb. cbn [dataSet_size]. rewrite encodedSize_spec by done. cbn [mbind option_bind].
    rewrite components_bytes_cons in *. zlen. pose proof (zlen_nonneg (mms_bytes x)).
    pose proof (zlen_nonneg (components_bytes l)). rewrite u32_small by lia.
    rewrite IH by (done || lia). f_equal. lia.
  - intros [_ Hl]. by apply IH.
Qed.

Lemma zlen_fields_bytes_cons t c fs :
  zlen (fields_bytes ((t, c) :: fs)) = zlen (ber_tlv t c) + zlen (fields_bytes fs).
Proof. rewrite fields_bytes_cons. zlia. Qed.

Lemma zlen_tlv_uint32 t v : zlen (ber_tlv t (ber_uint32 v)) = 2 + zlen (ber_uint32 v).
Proof. pose proof (zlen_ber_uint32 v). rewrite zlen_ber_tlv, ber_length_1; lia. Qed.

Lemma zlen_tlv_string t s : zlen (ber_tlv t s) = zlen (ber_tlv 0 s).
Proof. by rewrite !zlen_ber_tlv. Qed.

Lemma zlen_tlv_bool t (b : bool) : zlen (ber_tlv t [if b then 1 else 0]) = 3.
Proof. done. Qed.

Lemma goosePdu_fieldsLength_spec self n :
  publisher_ok self -> zlen (fields_bytes (pdu_fields self n)) < 65536 ->
  goosePdu_fieldsLength self n = Some (zlen (fields_bytes (pdu_fields self n))).
Proof.
  intros Hok. pose proof (string_ok_goID self Hok) as Hid.
  destruct Hok as (_ & _ & _ & H1 & H2 & H3 & _ & _ & _ & _ & utcTime & Ht & Hz & _).
  unfold pdu_fields. rewrite Ht. cbn [utc_bytes].
  rewrite !zlen_fields_bytes_cons, !zlen_tlv_uint32.
  change (zlen (fields_bytes [])) with 0. rewrite (zlen_tlv_string 0x80), (zlen_tlv_string 0x82), (zlen_tlv_string 0x83).
  rewrite (zlen_ber_tlv 0x84), Hz, ber_length_1, !zlen_tlv_bool by lia. intros Hlt.
  pose proof (zlen_ber_uint32 (gp_timeAllowedToLive self)). pose proof (zlen_ber_uint32 (gp_stNum self)).
  pose proof (zlen_ber_uint32 (gp_sqNum self)). pose proof (zlen_ber_uint32 (gp_confRev self)).
  pose proof (zlen_ber_uint32 n).
  pose proof (zlen_nonneg (ber_tlv 0 (ber_string (gp_goCBRef self)))).
  pose proof (zlen_nonneg (ber_tlv 0 (ber_string (gp_dataSetRef self)))).
  pose proof (zlen_nonneg (ber_tlv 0 (ber_string (effective_goID self)))).
  assert (forall s, zlen (ber_tlv 0 (ber_string s)) < 65536 -> zlen (ber_string s) <> 65535) as Hs.
  { intros s. rewrite zlen_ber_tlv. pose proof (zlen_ber_length_bounds (zlen (ber_string s))). lia. }
  unfold goosePdu_fieldsLength. rewrite !UInt32determineEncodedSize_spec.
  rewrite !determineEncodedStringSize_spec by (done || (apply Hs; lia)). cbn [mbind option_bind].
  rewrite !Z.add_0_l.
  repeat match goal with |- context [u32 ?x] =>
    lazymatch x with context [u32 _] => fail | _ => rewrite (u32_small x) by lia end end.
  f_equal. lia.
Qed.

Lemma goose_content_split self dataSet :
  goose_content self dataSet
  = fields_bytes (pdu_fields self (zlen dataSet)) ++ ber_tlv 0xab (components_bytes dataSet).
Proof.
  unfold goose_content, message_fields. rewrite fields_bytes_app, fields_bytes_cons.
  change (fields_bytes []) with (@nil Z). by rewrite app_nil_r.
Qed.

(** The payload is the message, and it is written only when it fits. *)
Lemma createGoosePayload_spec self dataSet buffer maxPayloadSize :
  publisher_ok self -> dataSet_ok dataSet -> zlen dataSet < 4294967296 ->
  zlen (goose_bytes self dataSet) < 65536 ->
  createGoosePayload self dataSet buffer maxPayloadSize
  = if maxPayloadSize <? zlen (goose_bytes self dataSet) then Some (-1, buffer)
    else '(buffer, bufPos) ← puts (goose_bytes self dataSet) buffer 0; Some (bufPos, buffer).
Proof.
  intros Hok Hds Hn Hlt. unfold createGoosePayload.
  pose proof (zlen_nonneg dataSet). rewrite (u32_small (zlen dataSet)) by lia.
  unfold goose_bytes in *. rewrite zlen_ber_tlv in *.
  pose proof (zlen_ber_length_bounds (zlen (goose_content self dataSet))) as Hl.
  rewrite goose_content_split, zlen_app, zlen_ber_tlv in *.
  set (F := fields_bytes _) in *. set (D := components_bytes dataSet) in *.
  pose proof (zlen_ber_length_bounds (zlen D)). pose proof (zlen_nonneg F). pose proof (zlen_nonneg D).
  rewrite goosePdu_fieldsLength_spec by (done || (fold F; lia)). cbn [mbind option_bind]. fold F.
  rewrite dataSet_size_spec by (done || (fold D; lia)). cbn [mbind option_bind]. fold D.
  rewrite Z.add_0_l, <- (zlen_ber_length (zlen D)) by lia.
  rewrite (u32_small (zlen D + _ + _)) by lia.
  replace (zlen F + (zlen D + zlen (ber_length (zlen D)) + 1))
    with (zlen F + (1 + zlen (ber_length (zlen D)) + zlen D)) by lia.
  set (N := zlen F + (1 + zlen (ber_length (zlen D)) + zlen D)) in *.
  rewrite (u32_small N) by lia. rewrite <- zlen_ber_length by lia. rewrite u32_small by lia.
  destruct (maxPayloadSize <? _); [done|].
  replace (ber_tlv 0x61 (F ++ ber_tlv 0xab D))
    with ((0x61 :: ber_length N) ++ F ++ (0xab :: ber_length (zlen D)) ++ D)
    by (unfold ber_tlv at 1; rewrite zlen_app, zlen_ber_tlv; done).
  rewrite encodeTL_puts, puts_app.
  destruct (puts _ buffer 0) as [[b p]|]; cbn [mbind option_bind]; [|done].
  rewrite encode_goosePduFields_puts, puts_app by done. fold F.
  destruct (puts F b p) as [[b' p']|]; cbn [mbind option_bind]; [|done].
  rewrite encodeTL_puts, puts_app.
  destruct (puts _ b' p') as [[b'' p'']|]; cbn [mbind option_bind]; [|done].
  by rewrite encode_dataSet_puts.
Qed.

(** ** Publishing *)

(** The Ethernet header in front of a payload of [n] bytes. *)
Definition frame_header (self : GoosePublisher) (n : Z) : list Z :=
  take (Z.to_nat (gp_payloadStart self))
    (<[Z.to_nat (gp_lengthField self + 1) := (n + 8) mod 256]>
      (<[Z.to_nat (gp_lengthField self) := (n + 8) / 256]> (gp_buffer self))).

(** Only the counter, the buffer and the recorded length may change. *)
Definition published (self self' : GoosePublisher) (payloadLength : Z) : Prop :=
  exists buffer,
  self' = with_payloadLength (with_buffer (GoosePublisher_setSqNum self (next_sqNum (gp_sqNum self))) buffer)
            payloadLength.

Lemma next_sqNum_range n : 1 <= next_sqNum n < 4294967296.
Proof.
  unfold next_sqNum, u32. pose proof (Z.mod_pos_bound (n + 1) 4294967296 ltac:(lia)). case_match; lia.
Qed.

Lemma publish_too_long self dataSet :
  publisher_ok self -> dataSet_ok dataSet -> zlen dataSet < 4294967296 ->
  zlen (goose_bytes self dataSet) < 65536 ->
  GOOSE_MAX_MESSAGE_SIZE - gp_payloadStart self < zlen (goose_bytes self dataSet) ->
  GoosePublisher_publish self dataSet = Some (with_payloadLength self (-1), -1, None).
Proof.
  intros Hok Hds Hn Hlt Hlong. unfold GoosePublisher_publish, on_ptr.
  pose proof Hok as (Hz & Hl & Hp & _). unfold GOOSE_MAX_MESSAGE_SIZE in *.
  if_true. unfold u64. rewrite Z.mod_small by lia.
  rewrite createGoosePayload_spec by done. if_true. cbn [mbind option_bind]. rewrite take_drop. by destruct self.
Qed.

Lemma insert_front {A} (l k : list A) i x :
  0 <= i < zlen l -> <[Z.to_nat i := x]> (l ++ k) = <[Z.to_nat i := x]> l ++ k.
Proof. intros. apply insert_app_l. unfold zlen in *. lia. Qed.

Lemma publish_fits self dataSet :
  publisher_ok self -> dataSet_ok dataSet -> zlen dataSet < 4294967296 ->
  zlen (goose_bytes self dataSet) <= GOOSE_MAX_MESSAGE_SIZE - gp_payloadStart self ->
  exists self', GoosePublisher_publish self dataSet
    = Some (self', 0, if gp_ethernetSocket self
                      then Some (frame_header self (zlen (goose_bytes self dataSet)) ++ goose_bytes self dataSet)
                      else None) /\
    published self self' (zlen (goose_bytes self dataSet)) /\ zlen (gp_buffer self') = zlen (gp_buffer self) /\
    (gp_ethernetSocket self = true ->
     take (Z.to_nat (gp_payloadStart self)) (gp_buffer self') = frame_header self (zlen (goose_bytes self dataSet))).
Proof.
  intros Hok Hds Hn Hfit. unfold GoosePublisher_publish, on_ptr.
  pose proof Hok as (Hz & Hl & Hp & _). unfold GOOSE_MAX_MESSAGE_SIZE in *.
  set (B := goose_bytes self dataSet) in *. pose proof (zlen_nonneg B).
  if_true. unfold u64. rewrite Z.mod_small by lia.
  rewrite createGoosePayload_spec by (done || (fold B; lia)). fold B. if_false.
  set (ps := gp_payloadStart self) in *. set (lf := gp_lengthField self) in *.
  assert (zlen (drop (Z.to_nat ps) (gp_buffer self)) = 1518 - ps) as Hd by (rewrite zlen_drop; lia).
  rewrite puts_fits by lia. cbn [mbind option_bind]. rewrite Z.add_0_l. if_false.
  unfold splice. change (Z.to_nat 0) with O. rewrite take_0, Nat.add_0_l, app_nil_l.
  set (rest := drop (length B) _). assert (zlen (B ++ rest) = 1518 - ps) as Hbr.
  { unfold rest, zlen in *. rewrite length_app, length_drop. lia. }
  set (front := take (Z.to_nat ps) (gp_buffer self)).
  assert (zlen front = ps) as Hf by (apply zlen_take; lia).
  destruct self as [b so lf' ps' pl id cb ds cr st sq tl nc si ts].
  cbn [with_payloadLength with_buffer GoosePublisher_setSqNum gp_ethernetSocket gp_buffer gp_lengthField
       gp_payloadStart gp_payloadLength gp_sqNum] in *. subst ps lf.
  destruct so; [|eexists; split; [done|]; split; [by eexists|]; cbn [gp_buffer]; split; [rewrite zlen_app, Hbr, Hf; lia | done]].
  rewrite st_Some by (zlen; lia). cbn [mbind option_bind].
  rewrite st_Some by (zlen; lia). cbn [mbind option_bind].
  rewrite !insert_front by (zlen; lia).
  set (hdr := <[Z.to_nat (lf' + 1) := _]> _). assert (zlen hdr = ps') as Hh by (unfold hdr; zlen; lia).
  rewrite app_assoc. rewrite (ld_range_Some _ 0) by (zlen; lia). change (Z.to_nat 0) with O. rewrite drop_0.
  replace (Z.to_nat (ps' + zlen B)) with (length (hdr ++ B)) by (rewrite length_app; unfold zlen in *; lia).
  rewrite take_app_length. cbn [mbind option_bind].
  assert (hdr = frame_header (mkGoosePublisher b true lf' ps' pl id cb ds cr st sq tl nc si ts) (zlen B)) as Hfh.
  { unfold hdr, frame_header, front. cbn. rewrite !take_insert_lt by lia.
    rewrite land_255. unfold u8. rewrite (Z.mod_small (_ / 256)); [done|].
    split; [apply Z.div_pos | apply Z.div_lt_upper_bound]; lia. }
  rewrite <- Hfh. eexists. split; [done|]. split; [by eexists|].
  cbn [gp_buffer with_buffer with_payloadLength GoosePublisher_setSqNum gp_sqNum]. split.
  - rewrite <- app_assoc, zlen_app, Hh, Hbr. lia.
  - intros _. rewrite <- app_assoc. replace (Z.to_nat ps') with (length hdr) by (unfold zlen in Hh; lia).
    by rewrite take_app_length.
Qed.

(** * The invariant *)

Lemma published_ok self self' n :
  publisher_ok self -> published self self' n -> zlen (gp_buffer self') = zlen (gp_buffer self) -> publisher_ok self'.
Proof.
  intros Hok (buffer & ->) Hz. unfold publisher_ok in *. destruct self. cbn in *. rewrite Hz.
  pose proof (next_sqNum_range gp_sqNum0). unfold is_u32 in *. destruct Hok as (? & ? & ? & ? & ? & ? & ? & ? & ? & ? & ?). split_and!; (done || lia).
Qed.

Lemma setUtcTimeMs_ok bs t :
  zlen bs = 8 -> exists bs', MmsValue_setUtcTimeMs (MmsUtcTime bs) t = Some (MmsUtcTime bs') /\
    bs' = utc_ms_bytes t 0x0a /\ zlen bs' = 8 /\ bytes_ok bs'.
Proof.
  intros Hz. unfold MmsValue_setUtcTimeMs. rewrite setUtcTimeMs_spec by done. eexists. split; [done|].
  split; [done|]. unfold utc_ms_bytes. split; [zlia|]. apply Forall_app. split; [auto with bytes|].
  repeat constructor; rewrite ?land_255; try (apply Z.mod_pos_bound; lia); lia.
Qed.

(** A new state: the counter moves on, the sequence restarts, the time stamp is
    the time of the change. *)
Lemma increaseStNum_spec self now :
  publisher_ok self ->
  exists self', GoosePublisher_increaseStNum self now = Some (self', now) /\ publisher_ok self' /\
    gp_stNum self' = (if gp_stNum self =? 4294967295 then 1 else gp_stNum self + 1) /\ gp_sqNum self' = 0 /\
    gp_timestamp self' = MmsUtcTime (utc_ms_bytes now 0x0a) /\
    self' = with_timestamp (GoosePublisher_setSqNum (GoosePublisher_setStNum self (gp_stNum self')) 0)
              (MmsUtcTime (utc_ms_bytes now 0x0a)).
Proof.
  intros Hok. pose proof Hok as (_ & _ & _ & _ & _ & _ & _ & Hst & _ & _ & utc & Hts & Hz & _).
  unfold GoosePublisher_increaseStNum. rewrite Hts.
  destruct (setUtcTimeMs_ok utc now Hz) as (bs & -> & Hbs & Hzb & Hbb). cbn [mbind option_bind]. subst bs.
  eexists. split; [done|]. destruct self. cbn in *. unfold is_u32 in Hst.
  assert ((if u32 (gp_stNum0 + 1) =? 0 then 1 else u32 (gp_stNum0 + 1))
    = if gp_stNum0 =? 4294967295 then 1 else gp_stNum0 + 1) as ->.
  { unfold u32. destruct (Z.eqb_spec gp_stNum0 4294967295) as [->|]; [done|]. rewrite Z.mod_small by lia. btest. }
  split_and!; try done. unfold publisher_ok in *. cbn -[utc_ms_bytes] in *. destruct Hok as (H1 & H2 & H3 & H4 & H5 & H6 & H7 & H8 & H9 & H10 & _).
  split_and!; try done; try lia; [unfold is_u32; destruct (Z.eqb_spec gp_stNum0 4294967295); lia | by eexists].
Qed.


(** * Construction *)

(** The bytes in front of the payload. *)
Definition header_bytes (p : CommParameters) (srcAddr : list Z) (useVlanTag : bool) : list Z :=
  take 6 (cp_dstAddress p) ++ take 6 srcAddr ++
  (if useVlanTag
   then [0x81; 0x00; u8 (u8 (Z.shiftl (cp_vlanPriority p) 5) + cp_vlanId p / 256); u8 (cp_vlanId p mod 256)]
   else []) ++
  [0x88; 0xb8; u8 (cp_appId p / 256); u8 (cp_appId p mod 256); 0x00; 0x08; 0x00; 0x00; 0x00; 0x00].

Lemma zlen_6 {A} (l : list A) : zlen l = 6 -> exists a b c d e f, l = [a; b; c; d; e; f].
Proof.
  unfold zlen. destruct l as [|? [|? [|? [|? [|? [|? [|? ?]]]]]]]; cbn; intros; try lia. by repeat eexists.
Qed.

Lemma prepareGooseBuffer_puts parameters srcAddr useVlanTag ts :
  let p := default defaultCommParameters parameters in
  6 <= zlen (cp_dstAddress p) -> 6 <= zlen srcAddr ->
  prepareGooseBuffer parameters srcAddr true useVlanTag ts
  = Some (Some (mkGoosePublisher (splice (replicate 1518 0) 0 (header_bytes p srcAddr useVlanTag)) true
      (if useVlanTag then 20 else 16) (if useVlanTag then 26 else 22) 0 None None None 0 0 0 0 false false ts)).
Proof.
  intros p Hd Hs. unfold prepareGooseBuffer. fold p.
  change (Z.to_nat GOOSE_MAX_MESSAGE_SIZE) with 1518%nat.
  rewrite !(ld_range_Some _ 0 6) by lia. change (Z.to_nat 0) with O. change (Z.to_nat 6) with 6%nat. rewrite !drop_0.
  cbn [mbind option_bind]. set (dst := take 6 (cp_dstAddress p)). set (src := take 6 srcAddr).
  assert (zlen dst = 6) as Hdz by (apply (zlen_take _ 6); lia). assert (zlen src = 6) as Hsz by (apply (zlen_take _ 6); lia).
  rewrite st_range_front by zlia. cbn [mbind option_bind].
  unfold header_bytes. fold dst src.
  destruct (zlen_6 _ Hdz) as (d0 & d1 & d2 & d3 & d4 & d5 & ->).
  destruct (zlen_6 _ Hsz) as (s0 & s1 & s2 & s3 & s4 & s5 & ->).
  destruct useVlanTag; reflexivity.
Qed.

(** A new publisher satisfies the invariant, with the state number one. *)
Lemma createEx_ok parameters srcAddr useVlanTag now :
  let p := default defaultCommParameters parameters in
  6 <= zlen (cp_dstAddress p) -> 6 <= zlen srcAddr ->
  exists self, GoosePublisher_createEx parameters srcAddr true useVlanTag now = Some (Some self) /\
    publisher_ok self /\ gp_stNum self = 1 /\ gp_sqNum self = 0 /\ gp_ethernetSocket self = true /\
    gp_lengthField self = (if useVlanTag then 20 else 16) /\ gp_payloadStart self = (if useVlanTag then 26 else 22) /\
    gp_goID self = None /\ gp_goCBRef self = None /\ gp_dataSetRef self = None /\
    take (Z.to_nat (gp_payloadStart self)) (gp_buffer self) = header_bytes p srcAddr useVlanTag.
Proof.
  intros p Hd Hs. unfold GoosePublisher_createEx, MmsValue_newUtcTimeByMsTime.
  destruct (setUtcTimeMs_ok (replicate 8 0) now) as (bs & -> & _ & Hzb & Hbb); [done|]. cbn [mbind option_bind].
  rewrite (prepareGooseBuffer_puts parameters srcAddr useVlanTag) by done. cbn [mbind option_bind]. fold p.
  assert (zlen (header_bytes p srcAddr useVlanTag) = if useVlanTag then 26 else 22) as Hh.
  { unfold header_bytes. rewrite !zlen_app. change 6%nat with (Z.to_nat 6). rewrite !zlen_take by lia.
    by destruct useVlanTag. }
  eexists. split; [done|]. unfold publisher_ok.
  cbn [GoosePublisher_reset GoosePublisher_setStNum GoosePublisher_setSqNum gp_buffer gp_lengthField gp_payloadStart
       gp_goID gp_goCBRef gp_dataSetRef gp_confRev gp_stNum gp_sqNum gp_timeAllowedToLive gp_timestamp gp_ethernetSocket].
  unfold GOOSE_MAX_MESSAGE_SIZE. split_and!; try done; try (unfold is_u32; lia).
  - rewrite zlen_splice; [done | lia |]. rewrite Hh, zlen_replicate. destruct useVlanTag; lia.
  - destruct useVlanTag; lia.
  - destruct useVlanTag; lia.
  - destruct useVlanTag; lia.
  - by exists bs.
  - unfold splice. change (Z.to_nat 0) with O. rewrite take_0, app_nil_l, Nat.add_0_l.
    rewrite <- Hh, zlen_to_nat. by rewrite take_app_length.
Qed.
