(* ===== verification/GooseSubscriber.v ===== *)
(** The GOOSE subscriber: src/libiec61850/src/goose/goose_subscriber.c, with
    [struct sGooseSubscriber] of goose_receiver_internal.h and the parse
    errors of goose_subscriber.h.

    Of the listener only its presence is kept: the receiver reports the
    subscriber it would call the listener for. [Hal_getTimeInMs] is the
    argument [now]. *)

From S2P Require Import Prelude BerEncoder BerDecoder BerInteger StringUtils CFloat MmsValue MmsFacts.
Open Scope Z_scope.

Inductive GooseParseError :=
| GOOSE_PARSE_ERROR_NO_ERROR
| GOOSE_PARSE_ERROR_UNKNOWN_TAG
| GOOSE_PARSE_ERROR_TAGDECODE
| GOOSE_PARSE_ERROR_SUBLEVEL
| GOOSE_PARSE_ERROR_OVERFLOW
| GOOSE_PARSE_ERROR_UNDERFLOW
| GOOSE_PARSE_ERROR_TYPE_MISMATCH
| GOOSE_PARSE_ERROR_LENGTH_MISMATCH
| GOOSE_PARSE_ERROR_INVALID_PADDING.

#[export] Instance GooseParseError_eq_dec : EqDecision GooseParseError.
Proof. solve_decision. Defined.

(** the content of the last message: the members a message replaces *)
Record MessageState := mkMessageState {
  ms_timeAllowedToLive : Z;
  ms_stNum : Z;
  ms_sqNum : Z;
  ms_confRev : Z;
  ms_timestamp : MmsValue;
  ms_simulation : bool;
  ms_ndsCom : bool;
  ms_invalidityTime : Z;
  ms_stateValid : bool;
  ms_parseError : GooseParseError;
  ms_dataSetValues : option MmsValue;
  ms_dataSetValuesSelfAllocated : bool
}.

(** the link layer members *)
Record LinkState := mkLinkState {
  ls_srcMac : list Z;
  ls_dstMac : list Z;
  ls_appId : Z;
  ls_dstMacSet : bool;
  ls_vlanSet : bool;
  ls_vlanId : Z;
  ls_vlanPrio : Z
}.

Record GooseSubscriber := mkGooseSubscriber {
  gs_goCBRef : list Z;
  gs_datSet : list Z;
  gs_goId : list Z;
  gs_goCBRefLen : Z;
  gs_message : MessageState;
  gs_link : LinkState;
  gs_isObserver : bool;
  gs_listener : bool
}.

Definition with_goCBRef (self : GooseSubscriber) (goCBRef : list Z) : GooseSubscriber :=
  let 'mkGooseSubscriber _ ds id n m l o li := self in mkGooseSubscriber goCBRef ds id n m l o li.
Definition with_datSet (self : GooseSubscriber) (datSet : list Z) : GooseSubscriber :=
  let 'mkGooseSubscriber cb _ id n m l o li := self in mkGooseSubscriber cb datSet id n m l o li.
Definition with_goId (self : GooseSubscriber) (goId : list Z) : GooseSubscriber :=
  let 'mkGooseSubscriber cb ds _ n m l o li := self in mkGooseSubscriber cb ds goId n m l o li.
Definition with_message (self : GooseSubscriber) (message : MessageState) : GooseSubscriber :=
  let 'mkGooseSubscriber cb ds id n _ l o li := self in mkGooseSubscriber cb ds id n message l o li.
Definition with_link (self : GooseSubscriber) (link : LinkState) : GooseSubscriber :=
  let 'mkGooseSubscriber cb ds id n m _ o li := self in mkGooseSubscriber cb ds id n m link o li.

Definition GooseSubscriber_create (goCbRef : list Z) (dataSetValues : option MmsValue)
  : option GooseSubscriber :=
  r ← StringUtils_copyStringMax (Some (replicate 130 0)) 130 goCbRef;
  goCBRefLen ← strlen goCbRef;
  Some (mkGooseSubscriber (default (replicate 130 0) r) (replicate 130 0) (replicate 130 0) goCBRefLen
          (mkMessageState 0 0 0 0 (MmsValue_newUtcTime 0) false false 0 false
             GOOSE_PARSE_ERROR_NO_ERROR dataSetValues
             (match dataSetValues with Some _ => false | None => true end))
          (mkLinkState (replicate 6 0) (replicate 6 0xff) (-1) false false 0 0)
          false false).

Definition GooseSubscriber_isValid (self : GooseSubscriber) (now : Z) : bool :=
  if negb (ms_stateValid (gs_message self)) then false
  else if ms_invalidityTime (gs_message self) <? now then false
  else true.

Definition GooseSubscriber_getParseError (self : GooseSubscriber) : GooseParseError :=
  ms_parseError (gs_message self).

Definition GooseSubscriber_setDstMac (self : GooseSubscriber) (dstMac : list Z) : option GooseSubscriber :=
  let 'mkLinkState sm dm ap _ vs vi vp := gs_link self in
  bs ← ld_range dstMac 0 6;
  dm ← st_range dm 0 bs;
  Some (with_link self (mkLinkState sm dm ap true vs vi vp)).

Definition GooseSubscriber_setAppId (self : GooseSubscriber) (appId : Z) : GooseSubscriber :=
  let 'mkLinkState sm dm _ ds vs vi vp := gs_link self in
  with_link self (mkLinkState sm dm appId ds vs vi vp).

Definition GooseSubscriber_setListener (self : GooseSubscriber) (listener : bool) : GooseSubscriber :=
  let 'mkGooseSubscriber cb ds id n m l o _ := self in mkGooseSubscriber cb ds id n m l o listener.

Definition GooseSubscriber_setObserver (self : GooseSubscriber) : GooseSubscriber :=
  let 'mkGooseSubscriber cb ds id n m l _ li := self in mkGooseSubscriber cb ds id n m l true li.

Definition GooseSubscriber_getAppId (self : GooseSubscriber) : Z := ls_appId (gs_link self).
Definition GooseSubscriber_getGoId (self : GooseSubscriber) : list Z := gs_goId self.
Definition GooseSubscriber_getGoCbRef (self : GooseSubscriber) : list Z := gs_goCBRef self.
Definition GooseSubscriber_getDataSet (self : GooseSubscriber) : list Z := gs_datSet self.
Definition GooseSubscriber_getSrcMac (self : GooseSubscriber) (buffer : list Z) : option (list Z) :=
  bs ← ld_range (ls_srcMac (gs_link self)) 0 6; st_range buffer 0 bs.
Definition GooseSubscriber_getDstMac (self : GooseSubscriber) (buffer : list Z) : option (list Z) :=
  bs ← ld_range (ls_dstMac (gs_link self)) 0 6; st_range buffer 0 bs.
Definition GooseSubscriber_getStNum (self : GooseSubscriber) : Z := ms_stNum (gs_message self).
Definition GooseSubscriber_getSqNum (self : GooseSubscriber) : Z := ms_sqNum (gs_message self).
Definition GooseSubscriber_isTest (self : GooseSubscriber) : bool := ms_simulation (gs_message self).
Definition GooseSubscriber_getConfRev (self : GooseSubscriber) : Z := ms_confRev (gs_message self).
Definition GooseSubscriber_needsCommission (self : GooseSubscriber) : bool := ms_ndsCom (gs_message self).
Definition GooseSubscriber_getTimeAllowedToLive (self : GooseSubscriber) : Z :=
  ms_timeAllowedToLive (gs_message self).
Definition GooseSubscriber_getTimestamp (self : GooseSubscriber) : option Z :=
  MmsValue_getUtcTimeInMs (ms_timestamp (gs_message self)).
Definition GooseSubscriber_getDataSetValues (self : GooseSubscriber) : option MmsValue :=
  ms_dataSetValues (gs_message self).
Definition GooseSubscriber_isVlanSet (self : GooseSubscriber) : bool := ls_vlanSet (gs_link self).
Definition GooseSubscriber_getVlanId (self : GooseSubscriber) : Z := ls_vlanId (gs_link self).
Definition GooseSubscriber_getVlanPrio (self : GooseSubscriber) : Z := ls_vlanPrio (gs_link self).

(** * The type invariant *)

Definition is_utc (v : MmsValue) : Prop := exists bs, v = MmsUtcTime bs /\ zlen bs = 8 /\ bytes_ok bs.

(** A data set the receiver can update: an array or a structure. *)
Definition dataset_ok (v : option MmsValue) : Prop :=
  match v with
  | Some v => mms_ok v /\ match v with MmsArray _ | MmsStructure _ => True | _ => False end
  | None => True
  end.

Definition message_ok (m : MessageState) : Prop :=
  is_u32 (ms_timeAllowedToLive m) /\ is_u32 (ms_stNum m) /\ is_u32 (ms_sqNum m) /\
  is_u32 (ms_confRev m) /\ is_utc (ms_timestamp m) /\ dataset_ok (ms_dataSetValues m).

(** The reference of a control block fits its member when it is compared. *)
Definition subscriber_ok (s : GooseSubscriber) : Prop :=
  zlen (gs_goCBRef s) = 130 /\ zlen (gs_datSet s) = 130 /\ zlen (gs_goId s) = 130 /\
  0 <= gs_goCBRefLen s <= 130 /\
  zlen (ls_srcMac (gs_link s)) = 6 /\ zlen (ls_dstMac (gs_link s)) = 6 /\ message_ok (gs_message s).

Lemma create_subscriber_ok goCbRef dataSetValues :
  0 ∈ goCbRef -> zlen (c_string goCbRef) <= 130 -> dataset_ok dataSetValues ->
  exists s, GooseSubscriber_create goCbRef dataSetValues = Some s /\ subscriber_ok s /\
    gs_goCBRefLen s = zlen (c_string goCbRef) /\
    c_string (gs_goCBRef s) = take 129 (c_string goCbRef).
Proof.
  intros Ht Hl Hd. unfold GooseSubscriber_create.
  rewrite copyStringMax_spec by (done || zlia). cbn [mbind option_bind].
  set (cb := splice _ _ _).
  destruct (copyStringMax_c_string (replicate 130 0) 130 goCbRef cb) as (Hc & _ & Hz);
    [done | zlia | by rewrite copyStringMax_spec by (done || zlia) |].
  destruct (strlen_is_Some goCbRef Ht) as [n Hn]. rewrite Hn. cbn [mbind option_bind].
  apply strlen_c_string in Hn as (-> & _). pose proof (zlen_nonneg (c_string goCbRef)).
  eexists. split; [done|].
  unfold subscriber_ok, message_ok. cbn [gs_goCBRef gs_datSet gs_goId gs_goCBRefLen gs_link gs_message
    ls_srcMac ls_dstMac ms_timeAllowedToLive ms_stNum ms_sqNum ms_confRev ms_timestamp ms_dataSetValues
    default from_option id].
  split_and!; try done; try (unfold is_u32; lia).
  eexists. split; [done|]. apply (newUtcTime_ok 0).
Qed.
