(* ===== verification/GooseReceiver.v ===== *)
(** The GOOSE receiver: src/libiec61850/src/goose/goose_receiver.c.

    The subscribers are the list [subscriberList]; a pointer to one is its
    index. A pointer into the message buffer is the rest of the block from
    there. The data set of a subscriber is updated in place by [parseAllData],
    also by a message that turns out to be malformed later. The Ethernet layer
    is outside: a received packet and the outcome of opening the socket are
    arguments, the calls that configure the socket are a result. *)

From S2P Require Import Prelude BerEncoder BerDecoder BerInteger StringUtils CFloat MmsValue MmsFacts MmsData GooseSubscriber.
Open Scope Z_scope.

Definition ETH_BUFFER_LENGTH : Z := 1518.
Definition ETH_P_GOOSE : Z := 0x88b8.

Record GooseReceiver := mkGooseReceiver {
  gr_running : bool;
  gr_stop : bool;
  gr_interfaceId : option (list Z);
  gr_buffer : list Z;
  gr_ethSocket : bool;
  gr_subscriberList : list GooseSubscriber;
  gr_thread : bool
}.

Definition with_subscribers (self : GooseReceiver) (subs : list GooseSubscriber) : GooseReceiver :=
  let 'mkGooseReceiver r s i b e _ t := self in mkGooseReceiver r s i b e subs t.

Definition GooseReceiver_createEx (buffer : list Z) : GooseReceiver :=
  mkGooseReceiver false false None buffer false [] false.

Definition GooseReceiver_create : GooseReceiver :=
  GooseReceiver_createEx (replicate (Z.to_nat ETH_BUFFER_LENGTH) 0).

Definition GooseReceiver_addSubscriber (self : GooseReceiver) (subscriber : GooseSubscriber) : GooseReceiver :=
  with_subscribers self (gr_subscriberList self ++ [subscriber]).

(** the subscriber to remove is named by its index *)
Definition GooseReceiver_removeSubscriber (self : GooseReceiver) (subscriber : nat) : GooseReceiver :=
  with_subscribers self (delete subscriber (gr_subscriberList self)).

Definition GooseReceiver_setInterfaceId (self : GooseReceiver) (interfaceId : option (list Z))
  : option GooseReceiver :=
  let 'mkGooseReceiver r s _ b e l t := self in
  i ← StringUtils_copyString interfaceId; Some (mkGooseReceiver r s i b e l t).

(** the characters of "eth0" and the terminating zero, config/stack_config.h *)
Definition CONFIG_ETHERNET_INTERFACE_ID : list Z := [101; 116; 104; 48; 0].

Definition GooseReceiver_getInterfaceId (self : GooseReceiver) : list Z :=
  match gr_interfaceId self with Some i => i | None => CONFIG_ETHERNET_INTERFACE_ID end.

(** * Updating a known data set *)

Abbreviation NO_ERROR := GOOSE_PARSE_ERROR_NO_ERROR.
Abbreviation TYPE_MISMATCH := GOOSE_PARSE_ERROR_TYPE_MISMATCH.
Abbreviation LENGTH_MISMATCH := GOOSE_PARSE_ERROR_LENGTH_MISMATCH.

(** the new buffer and size of a string value *)
Definition createNewStringFromBufferElement (bufferSrc : list Z) (elementLength : Z)
  : option (option (list Z) * Z) :=
  bs ← ld_range bufferSrc 0 elementLength;
  Some (Some (bs ++ [0]), s16 elementLength).

Definition parse_bitString (value : MmsValue) (buffer : list Z) (bufPos elementLength : Z)
  : option (MmsValue * GooseParseError) :=
  match value with
  | MmsBitString size buf =>
      padding ← ld buffer bufPos;
      if 7 <? padding then Some (value, GOOSE_PARSE_ERROR_INVALID_PADDING)
      else
        let bitStringLength := 8 * (elementLength - 1) - padding in
        if bitStringLength =? size then
          bs ← ld_range buffer (bufPos + 1) (elementLength - 1);
          buf ← st_range buf 0 bs;
          Some (MmsBitString size buf, NO_ERROR)
        else Some (value, LENGTH_MISMATCH)
  | _ => Some (value, TYPE_MISMATCH)
  end.

(** the size is set and the octets are copied when they fit *)
Definition parse_octets (v : Asn1PrimitiveValue) (buffer : list Z) (bufPos elementLength : Z)
  : option (Asn1PrimitiveValue * GooseParseError) :=
  if elementLength <=? apv_maxSize v then
    bs ← ld_range buffer bufPos elementLength;
    octets ← st_range (apv_octets v) 0 bs;
    Some (mkAsn1PrimitiveValue (u8 elementLength) (apv_maxSize v) octets, NO_ERROR)
  else Some (v, LENGTH_MISMATCH).

Definition parse_float (value : MmsValue) (buffer : list Z) (bufPos elementLength : Z)
  : option (MmsValue * GooseParseError) :=
  match value with
  | MmsFloat _ _ _ =>
      if elementLength =? 9 then
        d ← BerDecoder_decodeDouble buffer bufPos;
        value ← MmsValue_setDouble value d; Some (value, NO_ERROR)
      else if elementLength =? 5 then
        f ← BerDecoder_decodeFloat buffer bufPos;
        value ← MmsValue_setFloat value f; Some (value, NO_ERROR)
      else Some (value, LENGTH_MISMATCH)
  | _ => Some (value, TYPE_MISMATCH)
  end.

Definition parse_octetString (value : MmsValue) (buffer : list Z) (bufPos elementLength : Z)
  : option (MmsValue * GooseParseError) :=
  match value with
  | MmsOctetString _ maxSize buf =>
      bs ← ld_range buffer bufPos elementLength;
      if elementLength <=? Z.abs maxSize then
        buf ← st_range buf 0 bs;
        Some (MmsOctetString (u16 elementLength) maxSize buf, NO_ERROR)
      else Some (MmsOctetString (u16 elementLength) (- elementLength) bs, NO_ERROR)
  | _ => Some (value, TYPE_MISMATCH)
  end.

Definition parse_visibleString (value : MmsValue) (buffer : list Z) (bufPos elementLength : Z)
  : option (MmsValue * GooseParseError) :=
  match value with
  | MmsVisibleString (Some buf) size =>
      if elementLength <=? size then
        bs ← ld_range buffer bufPos elementLength;
        buf ← st_range buf 0 bs;
        buf ← st buf elementLength 0;
        Some (MmsVisibleString (Some buf) size, NO_ERROR)
      else
        '(buf, size) ← createNewStringFromBufferElement (ptr_add buffer bufPos) elementLength;
        Some (MmsVisibleString buf size, NO_ERROR)
  | MmsVisibleString None _ =>
      '(buf, size) ← createNewStringFromBufferElement (ptr_add buffer bufPos) elementLength;
      Some (MmsVisibleString buf size, NO_ERROR)
  | _ => Some (value, TYPE_MISMATCH)
  end.

Definition parse_binaryTime (value : MmsValue) (buffer : list Z) (bufPos elementLength : Z)
  : option (MmsValue * GooseParseError) :=
  match value with
  | MmsBinaryTime size buf =>
      if (elementLength =? 4) || (elementLength =? 6) then
        bs ← ld_range buffer bufPos elementLength;
        buf ← st_range buf 0 bs;
        Some (MmsBinaryTime size buf, NO_ERROR)
      else Some (value, NO_ERROR)
  | _ => Some (value, TYPE_MISMATCH)
  end.

Definition parse_utcTime (value : MmsValue) (buffer : list Z) (bufPos elementLength : Z)
  : option (MmsValue * GooseParseError) :=
  if elementLength =? 8 then
    match value with
    | MmsUtcTime _ =>
        value ← MmsValue_setUtcTimeByBuffer value (Some (ptr_add buffer bufPos)); Some (value, NO_ERROR)
    | _ => Some (value, TYPE_MISMATCH)
    end
  else Some (value, LENGTH_MISMATCH).

Section ParseAllData.
(** the recursive call on the components of an element *)
Context (parseAllData : MmsValue -> list Z -> Z -> option (MmsValue * GooseParseError)).

(** the switch over the tag of one element *)
Definition parse_element (tag : Z) (value : MmsValue) (buffer : list Z) (bufPos elementLength : Z)
  : option (MmsValue * GooseParseError) :=
  let sublevel :=
    '(value, pe) ← parseAllData value (ptr_add buffer bufPos) elementLength;
    Some (value, if decide (pe = NO_ERROR) then NO_ERROR else GOOSE_PARSE_ERROR_SUBLEVEL) in
  if tag =? 0x80 then Some (value, NO_ERROR)
  else if tag =? 0xa1 then
    match value with MmsArray _ => sublevel | _ => Some (value, TYPE_MISMATCH) end
  else if tag =? 0xa2 then
    match value with MmsStructure _ => sublevel | _ => Some (value, TYPE_MISMATCH) end
  else if tag =? 0x83 then
    match value with
    | MmsBoolean _ =>
        b ← BerDecoder_decodeBoolean buffer bufPos;
        value ← MmsValue_setBoolean value b; Some (value, NO_ERROR)
    | _ => Some (value, TYPE_MISMATCH)
    end
  else if tag =? 0x84 then parse_bitString value buffer bufPos elementLength
  else if tag =? 0x85 then
    match value with
    | MmsInteger v => '(v, pe) ← parse_octets v buffer bufPos elementLength; Some (MmsInteger v, pe)
    | _ => Some (value, TYPE_MISMATCH)
    end
  else if tag =? 0x86 then
    match value with
    | MmsUnsigned v => '(v, pe) ← parse_octets v buffer bufPos elementLength; Some (MmsUnsigned v, pe)
    | _ => Some (value, TYPE_MISMATCH)
    end
  else if tag =? 0x87 then parse_float value buffer bufPos elementLength
  else if tag =? 0x89 then parse_octetString value buffer bufPos elementLength
  else if tag =? 0x8a then parse_visibleString value buffer bufPos elementLength
  else if tag =? 0x8c then parse_binaryTime value buffer bufPos elementLength
  else if tag =? 0x91 then parse_utcTime value buffer bufPos elementLength
  else Some (value, GOOSE_PARSE_ERROR_UNKNOWN_TAG).

(** the loop over the components that are left *)
Fixpoint parse_components (components : list (option MmsValue)) (buffer : list Z)
    (bufPos allDataLength elementLength : Z) : option (list (option MmsValue) * GooseParseError) :=
  if bufPos <? allDataLength then
    tag ← ld buffer bufPos;
    match components with
    | [] => Some ([], GOOSE_PARSE_ERROR_OVERFLOW)
    | None :: _ => Some (components, TYPE_MISMATCH)
    | Some value :: rest =>
        '(bufPos, elementLength) ←
          BerDecoder_decodeLength buffer elementLength (bufPos + 1) allDataLength;
        if bufPos <? 0 then Some (components, GOOSE_PARSE_ERROR_TAGDECODE)
        else
          '(value, pe) ← parse_element tag value buffer bufPos elementLength;
          if decide (pe = NO_ERROR) then
            '(rest, pe) ← parse_components rest buffer (bufPos + elementLength) allDataLength
                            elementLength;
            Some (Some value :: rest, pe)
          else Some (Some value :: rest, pe)
    end
  else Some (components, match components with [] => NO_ERROR | _ => GOOSE_PARSE_ERROR_UNDERFLOW end).
End ParseAllData.

(** The updated data set and the error; a value that is neither an array nor a
    structure has no component count. *)
Fixpoint parseAllData (dataSetValues : MmsValue) (buffer : list Z) (allDataLength : Z)
  : option (MmsValue * GooseParseError) :=
  match dataSetValues with
  | MmsArray xs => '(xs, pe) ← parse_components parseAllData xs buffer 0 allDataLength 0; Some (MmsArray xs, pe)
  | MmsStructure xs =>
      '(xs, pe) ← parse_components parseAllData xs buffer 0 allDataLength 0; Some (MmsStructure xs, pe)
  | _ => None
  end.

(** * Building an unknown data set *)

Definition unknown_tags : list Z :=
  [0x80; 0xa1; 0xa2; 0x83; 0x84; 0x85; 0x86; 0x87; 0x89; 0x8a; 0x8c; 0x91].

(** the first pass: the number of elements, [None] inside for an error *)
Fixpoint countElements_loop (fuel : nat) (buffer : list Z) (bufPos elementLength allDataLength elementIndex : Z)
  : option (option Z) :=
  match fuel with
  | O => None
  | S fuel =>
      if bufPos <? allDataLength then
        tag ← ld buffer bufPos;
        '(bufPos, elementLength) ←
          BerDecoder_decodeLength buffer elementLength (bufPos + 1) allDataLength;
        if bufPos <? 0 then Some None
        else if negb (bool_decide (tag ∈ unknown_tags)) then Some None
        else countElements_loop fuel buffer (bufPos + elementLength) elementLength allDataLength
               (elementIndex + 1)
      else Some (Some elementIndex)
  end.

(** the primitive elements of the second pass; the results are an error, no
    value, or a value *)
Definition newPrimitiveValue (tag : Z) (buffer : list Z) (bufPos elementLength : Z)
  : option (option (option MmsValue)) :=
  if tag =? 0x83 then
    if 0 <? elementLength then
      b ← BerDecoder_decodeBoolean buffer bufPos; Some (Some (Some (MmsValue_newBoolean b)))
    else Some None
  else if tag =? 0x84 then
    if 1 <? elementLength then
      r ← decode_bitString buffer bufPos elementLength; Some (v ← r; Some (Some v))
    else Some None
  else if tag =? 0x85 then
    r ← decode_integer MmsValue_newInteger buffer bufPos elementLength; Some (v ← r; Some (Some v))
  else if tag =? 0x86 then
    r ← decode_integer MmsValue_newUnsigned buffer bufPos elementLength; Some (v ← r; Some (Some v))
  else if tag =? 0x87 then
    if elementLength =? 9 then
      d ← BerDecoder_decodeDouble buffer bufPos; Some (Some (Some (MmsValue_newDouble d)))
    else if elementLength =? 5 then
      f ← BerDecoder_decodeFloat buffer bufPos; Some (Some (Some (MmsValue_newFloat f)))
    else Some (Some None)
  else if tag =? 0x89 then
    bs ← ld_range buffer bufPos elementLength;
    match MmsValue_newOctetString elementLength elementLength with
    | MmsOctetString size maxSize buf =>
        buf ← st_range buf 0 bs; Some (Some (Some (MmsOctetString size maxSize buf)))
    | _ => None
    end
  else if tag =? 0x8a then
    v ← MmsValue_newVisibleStringFromByteArray (ptr_add buffer bufPos) elementLength;
    Some (Some (Some v))
  else if tag =? 0x8c then
    if (elementLength =? 4) || (elementLength =? 6) then
      bs ← ld_range buffer bufPos elementLength;
      match MmsValue_newBinaryTime (elementLength =? 4) with
      | MmsBinaryTime size buf => buf ← st_range buf 0 bs; Some (Some (Some (MmsBinaryTime size buf)))
      | _ => None
      end
    else Some (Some None)
  else if tag =? 0x91 then
    if elementLength =? 8 then
      v ← MmsValue_setUtcTimeByBuffer (MmsValue_newUtcTime 0) (Some (ptr_add buffer bufPos));
      Some (Some (Some v))
    else Some (Some None)
  else Some None.

Section UnknownElements.
(** the recursive call: [sub selfAllocated buffer length isStructure] *)
Context (sub : bool -> list Z -> Z -> bool -> option (bool * option MmsValue)).

(** the second pass; [dataSetValuesSelfAllocated] and the data set are the
    results, [None] inside for the error exit *)
Fixpoint fillElements_loop (fuel : nat) (selfAllocated : bool) (buffer : list Z)
    (bufPos elementLength allDataLength elementIndex : Z) (dataSetValues : MmsValue)
  : option (bool * option MmsValue) :=
  match fuel with
  | O => None
  | S fuel =>
      if bufPos <? allDataLength then
        tag ← ld buffer bufPos;
        '(bufPos, elementLength) ←
          BerDecoder_decodeLength buffer elementLength (bufPos + 1) allDataLength;
        if bufPos <? 0 then Some (selfAllocated, None)
        else
          '(selfAllocated, r) ←
            (if (tag =? 0xa1) || (tag =? 0xa2) then
               '(selfAllocated, v) ← sub selfAllocated (ptr_add buffer bufPos) elementLength (tag =? 0xa2);
               Some (selfAllocated, v ← v; Some (Some v))
             else r ← newPrimitiveValue tag buffer bufPos elementLength; Some (selfAllocated, r));
          match r with
          | None => Some (selfAllocated, None)
          | Some value =>
              let '(dataSetValues, elementIndex) :=
                match value with
                | Some value =>
                    (MmsValue_setElement dataSetValues elementIndex (Some value), elementIndex + 1)
                | None => (dataSetValues, elementIndex)
                end in
              fillElements_loop fuel selfAllocated buffer (bufPos + elementLength) elementLength
                allDataLength elementIndex dataSetValues
          end
      else Some (true, Some dataSetValues)
  end.
End UnknownElements.

(** [fuel] bounds the nesting, which the length of the data bounds. *)
Fixpoint parseAllDataUnknownValue (fuel : nat) (selfAllocated : bool) (buffer : list Z)
    (allDataLength : Z) (isStructure : bool) : option (bool * option MmsValue) :=
  match fuel with
  | O => None
  | S fuel =>
      let steps := S (Z.to_nat allDataLength) in
      r ← countElements_loop steps buffer 0 0 allDataLength 0;
      match r with
      | None => Some (selfAllocated, None)
      | Some elementIndex =>
          let dataSetValues :=
            if isStructure then MmsValue_createEmptyStructure elementIndex
            else MmsValue_createEmptyArray elementIndex in
          fillElements_loop (parseAllDataUnknownValue fuel) steps selfAllocated buffer 0 0
            allDataLength 0 dataSetValues
      end
  end.

(** * The message *)

(** the local variables of [parseGoosePayload] *)
Record PayloadFields := mkPayloadFields {
  pf_timeAllowedToLive : Z;
  pf_stNum : Z;
  pf_sqNum : Z;
  pf_confRev : Z;
  pf_simulation : bool;
  pf_ndsCom : bool;
  pf_matchingSubscriber : option nat;
  pf_timestampBufPos : option (list Z);
  pf_dataSetBufferAddress : option (list Z);
  pf_dataSetBufferLength : Z;
  pf_numberOfDatSetEntries : Z
}.

Definition initialFields : PayloadFields :=
  mkPayloadFields 0 0 0 0 false false None None None 0 0.

(** store a string of at most 129 bytes, terminated *)
Definition store_reference (member buffer : list Z) (bufPos elementLength : Z) : option (list Z) :=
  if 129 <? elementLength then Some member
  else
    bs ← ld_range buffer bufPos elementLength;
    member ← st_range member 0 bs;
    st member elementLength 0.

(** the search for the control block reference *)
Fixpoint find_subscriber (subs : list GooseSubscriber) (buffer : list Z) (bufPos elementLength : Z)
  : option (list GooseSubscriber * option nat) :=
  match subs with
  | [] => Some ([], None)
  | subscriber :: rest =>
      if gs_isObserver subscriber then
        goCBRef ← store_reference (gs_goCBRef subscriber) buffer bufPos elementLength;
        Some (with_goCBRef subscriber goCBRef :: rest, Some O)
      else
        matches ← (if gs_goCBRefLen subscriber =? elementLength then
                     bs ← ld_range buffer bufPos elementLength;
                     memcmp_eq (gs_goCBRef subscriber) bs elementLength
                   else Some false);
        if matches : bool then Some (subscriber :: rest, Some O)
        else
          '(rest, i) ← find_subscriber rest buffer bufPos elementLength;
          Some (subscriber :: rest, option_map S i)
  end.

(** update the matching subscriber, when there is one *)
Definition on_matching (subs : list GooseSubscriber) (matching : option nat)
    (f : GooseSubscriber -> option GooseSubscriber) : option (list GooseSubscriber) :=
  match matching with
  | None => Some subs
  | Some i => s ← subs !! i; s ← f s; Some (<[i := s]> subs)
  end.

(** the switch over the fields of the message; [None] inside is [return 0] *)
Definition payload_field (subs : list GooseSubscriber) (f : PayloadFields) (tag : Z)
    (buffer : list Z) (bufPos elementLength : Z)
  : option (list GooseSubscriber * option PayloadFields) :=
  let 'mkPayloadFields ttl stNum sqNum confRev sim nds m ts ds dsl n := f in
  if tag =? 0x80 then
    '(subs, i) ← find_subscriber subs buffer bufPos elementLength;
    let m := match i with Some _ => i | None => m end in
    match m with
    | None => Some (subs, None)
    | Some _ => Some (subs, Some (mkPayloadFields ttl stNum sqNum confRev sim nds m ts ds dsl n))
    end
  else if tag =? 0x81 then
    ttl ← BerDecoder_decodeUint32 buffer elementLength bufPos;
    Some (subs, Some (mkPayloadFields ttl stNum sqNum confRev sim nds m ts ds dsl n))
  else if tag =? 0x82 then
    subs ← on_matching subs m (fun s =>
      r ← store_reference (gs_datSet s) buffer bufPos elementLength; Some (with_datSet s r));
    Some (subs, Some f)
  else if tag =? 0x83 then
    subs ← on_matching subs m (fun s =>
      r ← store_reference (gs_goId s) buffer bufPos elementLength; Some (with_goId s r));
    Some (subs, Some f)
  else if tag =? 0x84 then
    Some (subs, Some (mkPayloadFields ttl stNum sqNum confRev sim nds m
                        (Some (ptr_add buffer bufPos)) ds dsl n))
  else if tag =? 0x85 then
    stNum ← BerDecoder_decodeUint32 buffer elementLength bufPos;
    Some (subs, Some (mkPayloadFields ttl stNum sqNum confRev sim nds m ts ds dsl n))
  else if tag =? 0x86 then
    sqNum ← BerDecoder_decodeUint32 buffer elementLength bufPos;
    Some (subs, Some (mkPayloadFields ttl stNum sqNum confRev sim nds m ts ds dsl n))
  else if tag =? 0x87 then
    sim ← BerDecoder_decodeBoolean buffer bufPos;
    Some (subs, Some (mkPayloadFields ttl stNum sqNum confRev sim nds m ts ds dsl n))
  else if tag =? 0x88 then
    confRev ← BerDecoder_decodeUint32 buffer elementLength bufPos;
    Some (subs, Some (mkPayloadFields ttl stNum sqNum confRev sim nds m ts ds dsl n))
  else if tag =? 0x89 then
    nds ← BerDecoder_decodeBoolean buffer bufPos;
    Some (subs, Some (mkPayloadFields ttl stNum sqNum confRev sim nds m ts ds dsl n))
  else if tag =? 0x8a then
    n ← BerDecoder_decodeUint32 buffer elementLength bufPos;
    Some (subs, Some (mkPayloadFields ttl stNum sqNum confRev sim nds m ts ds dsl n))
  else if tag =? 0xab then
    Some (subs, Some (mkPayloadFields ttl stNum sqNum confRev sim nds m ts
                        (Some (ptr_add buffer bufPos)) elementLength n))
  else Some (subs, Some f).

Fixpoint payload_loop (fuel : nat) (subs : list GooseSubscriber) (f : PayloadFields)
    (buffer : list Z) (bufPos gooseEnd apduLength : Z)
  : option (list GooseSubscriber * option PayloadFields) :=
  match fuel with
  | O => None
  | S fuel =>
      if bufPos <? gooseEnd then
        tag ← ld buffer bufPos;
        '(bufPos, elementLength) ← BerDecoder_decodeLength buffer 0 (bufPos + 1) apduLength;
        if bufPos <? 0 then Some (subs, None)
        else
          '(subs, r) ← payload_field subs f tag buffer bufPos elementLength;
          match r with
          | None => Some (subs, None)
          | Some f => payload_loop fuel subs f buffer (bufPos + elementLength) gooseEnd apduLength
          end
      else Some (subs, Some f)
  end.

(** The state of the matching subscriber after the message. *)
Definition message_update (isObserver : bool) (m : MessageState) (f : PayloadFields) (now : Z)
  : option MessageState :=
  let 'mkMessageState _ oldStNum oldSqNum oldConfRev timestamp _ _ _ _ parseError dataSetValues selfAllocated := m in
  let 'mkPayloadFields timeAllowedToLive stNum sqNum confRev simulation ndsCom _ ts ds dsl _ := f in
  let dataSetValues :=
    match dataSetValues with
    | Some _ => if selfAllocated && negb (oldConfRev =? confRev) then None else dataSetValues
    | None => None
    end in
  timestamp ←
    match ts with
    | Some t => MmsValue_setUtcTimeByBuffer timestamp (Some t)
    | None => MmsValue_setUtcTime timestamp 0
    end;
  let dataSetValues := if isObserver then None else dataSetValues in
  '(dataSetValues, selfAllocated, parseError, isValid) ←
    match dataSetValues with
    | None =>
        '(selfAllocated, v) ←
          parseAllDataUnknownValue (S (Z.to_nat dsl)) selfAllocated (default [] ds) dsl false;
        Some (v, selfAllocated, parseError, true)
    | Some d =>
        '(d, pe) ← parseAllData d (default [] ds) dsl;
        Some (Some d, selfAllocated, pe, bool_decide (pe = NO_ERROR))
    end;
  let isValid := if oldStNum =? stNum then if sqNum <=? oldSqNum then false else isValid else isValid in
  Some (mkMessageState timeAllowedToLive stNum sqNum confRev timestamp simulation ndsCom
          (u64 (now + timeAllowedToLive)) isValid parseError dataSetValues selfAllocated).

(** The return code, the subscribers, and the subscriber whose listener is
    called. *)
Definition parseGoosePayload (subs : list GooseSubscriber) (buffer : list Z) (apduLength now : Z)
  : option (Z * list GooseSubscriber * option nat) :=
  b ← ld buffer 0;
  if b =? 0x61 then
    '(bufPos, gooseLength) ← BerDecoder_decodeLength buffer 0 1 apduLength;
    if bufPos <? 0 then Some (0, subs, None)
    else
      let gooseEnd := bufPos + gooseLength in
      '(subs, r) ← payload_loop (S (Z.to_nat gooseLength)) subs initialFields buffer bufPos gooseEnd apduLength;
      match r with
      | None => Some (0, subs, None)
      | Some f =>
          match pf_matchingSubscriber f with
          | None => Some (0, subs, None)
          | Some i =>
              s ← subs !! i;
              m ← message_update (gs_isObserver s) (gs_message s) f now;
              let s := with_message s m in
              Some (1, <[i := s]> subs, if gs_listener s then Some i else None)
          end
      end
  else Some (-1, subs, None).

(** the search for an interested subscriber; an observer records the link
    layer data of the message *)
Fixpoint interested_subscriber (subs : list GooseSubscriber) (link : LinkState)
  : option (list GooseSubscriber * bool) :=
  match subs with
  | [] => Some ([], false)
  | subscriber :: rest =>
      let old := gs_link subscriber in
      if gs_isObserver subscriber then
        srcMac ← st_range (ls_srcMac old) 0 (ls_srcMac link);
        dstMac ← st_range (ls_dstMac old) 0 (ls_dstMac link);
        Some (with_link subscriber
                (mkLinkState srcMac dstMac (ls_appId link) (ls_dstMacSet old)
                   (ls_vlanSet link) (ls_vlanId link) (ls_vlanPrio link)) :: rest, true)
      else
        sameMac ← (if (ls_appId old =? -1) || (ls_appId old =? ls_appId link) then
                     if negb (ls_dstMacSet old) then Some true
                     else memcmp_eq (ls_dstMac old) (ls_dstMac link) 6
                   else Some false);
        if sameMac : bool then Some (subs, true)
        else '(rest, found) ← interested_subscriber rest link; Some (subscriber :: rest, found)
  end.

(** The VLAN tag: the position behind it, the header length and its content. *)
Definition vlan_tag (buffer : list Z) : option (Z * Z * bool * Z * Z) :=
  let bufPos := 12 in
  b0 ← ld buffer bufPos;
  isVlan ← (if b0 =? 0x81 then b1 ← ld buffer (bufPos + 1); Some (b1 =? 0x00) else Some false);
  if isVlan : bool then
    b2 ← ld buffer (bufPos + 2);
    b3 ← ld buffer (bufPos + 3);
    let priority := Z.land b2 (Z.shiftr 0xf8 5) in
    let vlanId := u16 (Z.shiftl (Z.land b2 0x07) 8 + b3) in
    Some (bufPos + 4, 14 + 4, true, vlanId, priority)
  else Some (bufPos, 14, false, 0, 0).

Definition parseGooseMessage (subs : list GooseSubscriber) (buffer : list Z) (numbytes now : Z)
  : option (list GooseSubscriber * option nat) :=
  if numbytes <? 22 then Some (subs, None)
  else
    '(bufPos, headerLength, vlanSet, vlanId, priority) ← vlan_tag buffer;
    if vlanSet && (numbytes <? 22 + 4) then Some (subs, None)
    else
      e0 ← ld buffer bufPos;
      if negb (e0 =? 0x88) then Some (subs, None)
      else
        e1 ← ld buffer (bufPos + 1);
        if negb (e1 =? 0xb8) then Some (subs, None)
        else
          srcMac ← ld_range buffer 6 6;
          dstMac ← ld_range buffer 0 6;
          a0 ← ld buffer (bufPos + 2);
          a1 ← ld buffer (bufPos + 3);
          let appId := u16 (u16 (a0 * 0x100) + a1) in
          l0 ← ld buffer (bufPos + 4);
          l1 ← ld buffer (bufPos + 5);
          let length := u16 (u16 (l0 * 0x100) + l1) in
          let bufPos := bufPos + 10 in
          let apduLength := length - 8 in
          if apduLength <? 0 then Some (subs, None)
          else if numbytes <? length + headerLength then Some (subs, None)
          else
            '(subs, subscriberFound) ←
              interested_subscriber subs (mkLinkState srcMac dstMac appId false vlanSet vlanId priority);
            if subscriberFound : bool then
              '(_, subs, notified) ← parseGoosePayload subs (ptr_add buffer bufPos) apduLength now;
              Some (subs, notified)
            else Some (subs, None).

(** * Running the receiver *)

Definition GooseReceiver_handleMessage (self : GooseReceiver) (buffer : list Z) (size now : Z)
  : option (GooseReceiver * option nat) :=
  '(subs, notified) ← parseGooseMessage (gr_subscriberList self) buffer size now;
  Some (with_subscribers self subs, notified).

(** [packet] is what [Ethernet_receivePacket] stores in the receive buffer. *)
Definition GooseReceiver_tick (self : GooseReceiver) (packet : list Z) (now : Z)
  : option (GooseReceiver * bool * option nat) :=
  if 0 <? zlen packet then
    buffer ← st_range (gr_buffer self) 0 packet;
    let 'mkGooseReceiver r s i _ e l t := self in
    let self := mkGooseReceiver r s i buffer e l t in
    '(self, notified) ← GooseReceiver_handleMessage self buffer (zlen packet) now;
    Some (self, true, notified)
  else Some (self, false, None).

(** The calls that configure the socket. *)
Inductive EthernetCall :=
| Ethernet_setProtocolFilter (etherType : Z)
| Ethernet_setMode (allMulticast : bool)
| Ethernet_addMulticastAddress (multicastAddress : list Z).

Definition GooseReceiver_startThreadless (self : GooseReceiver) (socketOpen : bool)
  : GooseReceiver * list EthernetCall :=
  let 'mkGooseReceiver _ s i b _ l t := self in
  if socketOpen then
    (mkGooseReceiver true s i b true l t,
     [Ethernet_setProtocolFilter ETH_P_GOOSE; Ethernet_setMode false] ++
     ((fun subscriber =>
         if negb (ls_dstMacSet (gs_link subscriber)) then Ethernet_setMode true
         else Ethernet_addMulticastAddress (ls_dstMac (gs_link subscriber))) <$> l))
  else (mkGooseReceiver false s i b false l t, []).

Definition GooseReceiver_stopThreadless (self : GooseReceiver) : GooseReceiver :=
  let 'mkGooseReceiver _ s i b e l t := self in mkGooseReceiver false s i b e l t.

Definition GooseReceiver_isRunning (self : GooseReceiver) : bool := gr_running self.
