(* ===== verification/GooseSafety.v ===== *)
(** Memory safety of the GOOSE receiver: whatever bytes arrive, parsing them
    terminates, reads and writes inside its blocks only and keeps the type
    invariant of the subscribers, provided the receive buffer extends eight
    bytes beyond the frame. (Without that room the code may read behind the
    buffer: a time stamp is read with its full eight bytes whatever length the
    message declares.) *)

From S2P Require Import Prelude BerEncoder BerDecoder BerInteger StringUtils CFloat MmsValue MmsFacts MmsData GooseSubscriber GooseReceiver.
Open Scope Z_scope.

(** * Updating a known data set *)

Lemma ptr_add_ok buffer i : bytes_ok buffer -> bytes_ok (ptr_add buffer i).
Proof. apply Forall_drop. Qed.
#[export] Hint Resolve ptr_add_ok : bytes.

Definition is_complex (v : MmsValue) : Prop :=
  match v with MmsArray _ | MmsStructure _ => True | _ => False end.

(** A parse step ends, with a well-formed value of the same type. *)
Definition parsed (v : MmsValue) (r : option (MmsValue * GooseParseError)) : Prop :=
  exists v' pe, r = Some (v', pe) /\ mms_ok v' /\ MmsValue_getType v' = MmsValue_getType v.

Lemma parsed_same v pe : mms_ok v -> parsed v (Some (v, pe)).
Proof. intros. by exists v, pe. Qed.

(** The content of an element lies inside the buffer. *)
Definition element_in (buffer : list Z) (bufPos elementLength : Z) : Prop :=
  bytes_ok buffer /\ 0 <= bufPos /\ 0 <= elementLength /\ bufPos + elementLength < zlen buffer /\
  zlen buffer < 4194304.

Lemma element_content buffer bufPos elementLength :
  element_in buffer bufPos elementLength ->
  exists bs, at_pos buffer bufPos bs /\ zlen bs = elementLength /\ bytes_ok bs.
Proof.
  intros (Hb & ? & ? & ? & ?). destruct (at_pos_exists buffer bufPos elementLength) as (bs & Hat & Hz); [lia..|].
  exists bs. split_and!; [done..|]. by eapply at_pos_ok.
Qed.

(** an overwritten block keeps its length and its bytes *)
Lemma st_range_ok buf bs :
  bytes_ok buf -> bytes_ok bs -> zlen bs <= zlen buf ->
  exists buf', st_range buf 0 bs = Some buf' /\ bytes_ok buf' /\ zlen buf' = zlen buf.
Proof.
  intros Hb Hbs Hz. rewrite st_range_front by done. eexists. split; [done|].
  by destruct (overwrite_ok buf bs Hb Hbs Hz).
Qed.

Lemma st_ok buf i v :
  bytes_ok buf -> is_byte v -> 0 <= i < zlen buf ->
  exists buf', st buf i v = Some buf' /\ bytes_ok buf' /\ zlen buf' = zlen buf /\ v ∈ buf'.
Proof.
  intros Hb Hv Hi. rewrite st_Some by done. eexists. split; [done|]. split; [by apply Forall_insert|].
  split; [apply zlen_insert|]. apply list_elem_of_insert. unfold zlen in *. lia.
Qed.

Section Element.
Context (buffer : list Z) (bufPos elementLength : Z).
Hypothesis Hin : element_in buffer bufPos elementLength.

Lemma parse_bitString_ok v : mms_ok v -> parsed v (parse_bitString v buffer bufPos elementLength).
Proof.
  intros Hv. destruct v as [| | |size buf| | | | | | | | | ]; try (by apply parsed_same).
  pose proof Hv as (Hs & Hz & Hb). destruct Hin as (Hbb & ? & ? & ? & ?). unfold parse_bitString.
  destruct (ld_is_Some buffer bufPos) as [p Hp]; [lia|]. rewrite Hp. cbn [mbind option_bind].
  pose proof (ld_byte _ _ _ Hbb Hp) as Hpb. unfold is_byte in Hpb.
  btest; [by apply parsed_same|]. btest; [|by apply parsed_same].
  destruct (at_pos_exists buffer (bufPos + 1) (elementLength - 1)) as (bs & Hat & Hbs); [lia..|].
  rewrite <- Hbs, (at_pos_range _ _ _ Hat). cbn [mbind option_bind].
  assert (zlen bs <= zlen buf).
  { rewrite Hz, Hbs. destruct (Z.eq_dec elementLength 1) as [->|]; [apply bitSize_bytes_nonneg; lia|].
    pose proof (bitSize_bytes_content (elementLength - 1) p). rewrite Z.abs_eq in * by lia. rewrite <- E0. lia. }
  destruct (st_range_ok buf bs) as (buf' & -> & ? & ?); [done | by eapply at_pos_ok | done |].
  cbn [mbind option_bind]. do 2 eexists. split; [done|]. split; [|done]. cbn. split_and!; (done || lia).
Qed.

Lemma parse_octets_ok a : apv_ok a ->
  exists a' pe, parse_octets a buffer bufPos elementLength = Some (a', pe) /\ apv_ok a'.
Proof.
  intros Ha. destruct (element_content _ _ _ Hin) as (bs & Hat & Hz & Hb). unfold parse_octets.
  pose proof Ha as (H1 & H2 & H3 & H4). pose proof Hin as (_ & _ & ? & _).
  btest; [|by do 2 eexists]. rewrite <- Hz, (at_pos_range _ _ _ Hat). cbn [mbind option_bind].
  rewrite st_range_front by lia. cbn [mbind option_bind]. do 2 eexists. split; [done|].
  unfold u8. rewrite Z.mod_small by lia.
  by destruct (overwrite_holds a bs (zlen bs) Ha Hb ltac:(lia) ltac:(done)).
Qed.

Lemma setFloat_bytes w (bs : list Z) ew buf :
  is_byte ew -> 0 <= w < 256 -> zlen buf = w / 8 -> bytes_ok buf -> bytes_ok bs -> zlen bs <= w / 8 ->
  parsed (MmsFloat ew w buf)
    (v ← (buf ← st_range buf 0 bs; Some (MmsFloat ew w buf)); Some (v, NO_ERROR)).
Proof.
  intros. destruct (st_range_ok buf bs) as (buf' & -> & ? & ?); [done | done | lia |].
  cbn [mbind option_bind]. do 2 eexists. split; [done|]. split; [|done]. cbn. split_and!; (done || lia).
Qed.

Lemma parse_float_ok v : mms_ok v -> parsed v (parse_float v buffer bufPos elementLength).
Proof.
  intros Hv. destruct v as [| | | | | |ew w buf| | | | | | ]; try (by apply parsed_same).
  pose proof Hv as (He & Hw & Hz & Hb). pose proof Hin as (Hbb & ? & ? & ? & ?). unfold parse_float.
  btest.
  - destruct (decodeDouble_total buffer bufPos) as [d ->]; [lia..|]. cbn [mbind option_bind MmsValue_setDouble].
    btest; [apply setFloat_bytes; try done; [auto with bytes | subst w; zlia]|].
    btest; [apply setFloat_bytes; try done; [auto with bytes | subst w; zlia]|]. by apply parsed_same.
  - btest; [|by apply parsed_same].
    destruct (decodeFloat_total buffer bufPos) as [d ->]; [lia..|]. cbn [mbind option_bind MmsValue_setFloat].
    btest; [apply setFloat_bytes; try done; [auto with bytes | subst w; zlia]|].
    btest; [apply setFloat_bytes; try done; [auto with bytes | subst w; zlia]|]. by apply parsed_same.
Qed.

Lemma parse_octetString_ok v : mms_ok v -> parsed v (parse_octetString v buffer bufPos elementLength).
Proof.
  intros Hv. destruct v as [| | | | | | |size maxSize buf| | | | | ]; try (by apply parsed_same).
  pose proof Hv as (H1 & H2 & H3 & H4). destruct (element_content _ _ _ Hin) as (bs & Hat & Hz & Hb).
  pose proof Hin as (_ & _ & ? & _). unfold parse_octetString.
  rewrite <- Hz, (at_pos_range _ _ _ Hat). cbn [mbind option_bind].
  pose proof (Z.mod_pos_bound (zlen bs) 65536 ltac:(lia)).
  pose proof (Z.mod_le (zlen bs) 65536 ltac:(lia) ltac:(lia)).
  btest.
  - destruct (st_range_ok buf bs) as (buf' & -> & ? & ?); [done | done | lia |]. cbn [mbind option_bind].
    do 2 eexists. split; [done|]. split; [|done]. cbn. unfold u16. split_and!; (done || lia).
  - do 2 eexists. split; [done|]. split; [|done]. cbn. unfold u16. split_and!; (done || lia).
Qed.

Lemma createNewString_ok :
  exists buf size, createNewStringFromBufferElement (ptr_add buffer bufPos) elementLength = Some (buf, size) /\
    string_block_ok buf size.
Proof.
  destruct (element_content _ _ _ Hin) as (bs & Hat & Hz & Hb). unfold createNewStringFromBufferElement.
  rewrite <- Hz, (at_pos_range _ _ _ (at_pos_ptr _ _ _ Hat)). cbn [mbind option_bind].
  do 2 eexists. split; [done|]. by apply string_of_bytes_ok.
Qed.

Lemma parse_visibleString_ok v : mms_ok v -> parsed v (parse_visibleString v buffer bufPos elementLength).
Proof.
  intros Hv. destruct v as [| | | | | | | |buf size| | | | ]; try (by apply parsed_same).
  destruct createNewString_ok as (nbuf & nsize & Hnew & Hnok). unfold parse_visibleString.
  destruct buf as [buf|]; [|rewrite Hnew; by do 2 eexists].
  btest; [|rewrite Hnew; by do 2 eexists].
  destruct Hv as (Ht & Hb & Hs). destruct (element_content _ _ _ Hin) as (bs & Hat & Hz & Hbs).
  pose proof Hin as (_ & _ & ? & _). rewrite <- Hz, (at_pos_range _ _ _ Hat). cbn [mbind option_bind].
  destruct (st_range_ok buf bs) as (buf' & -> & ? & ?); [done | done | lia |]. cbn [mbind option_bind].
  destruct (st_ok buf' (zlen bs) 0) as (buf'' & -> & ? & ? & ?); [done | unfold is_byte; lia | lia |].
  cbn [mbind option_bind]. do 2 eexists. split; [done|]. split; [|done]. cbn. split_and!; (done || lia).
Qed.

Lemma parse_binaryTime_ok v : mms_ok v -> parsed v (parse_binaryTime v buffer bufPos elementLength).
Proof.
  intros Hv. destruct v as [| | | | | | | | |size buf| | | ]; try (by apply parsed_same).
  pose proof Hv as (Hs & Hz & Hb). destruct (element_content _ _ _ Hin) as (bs & Hat & Hzb & Hbb).
  unfold parse_binaryTime. destruct (_ || _) eqn:E; [|by apply parsed_same].
  rewrite <- Hzb, (at_pos_range _ _ _ Hat). cbn [mbind option_bind].
  destruct (st_range_ok buf bs) as (buf' & -> & ? & ?); [done | done | lia |].
  cbn [mbind option_bind]. do 2 eexists. split; [done|]. split; [|done]. cbn. split_and!; (done || lia).
Qed.

Lemma parse_utcTime_ok v : mms_ok v -> parsed v (parse_utcTime v buffer bufPos elementLength).
Proof.
  intros Hv. unfold parse_utcTime. btest; [|by apply parsed_same].
  destruct v as [| | | | | | | | | | |buf| ]; try (by apply parsed_same).
  destruct Hv as [Hz Hb]. destruct (element_content _ _ _ Hin) as (bs & Hat & Hzb & Hbb).
  cbn [MmsValue_setUtcTimeByBuffer].
  pose proof (at_pos_range _ _ _ (at_pos_ptr _ _ _ Hat)) as Hr. rewrite Hzb, E in Hr. rewrite Hr.
  cbn [mbind option_bind]. destruct (st_range_ok buf bs) as (buf' & -> & ? & ?); [done | done | lia |].
  cbn [mbind option_bind]. do 2 eexists. split; [done|]. split; [|done]. cbn. split_and!; (done || lia).
Qed.
End Element.

(** ** The recursion *)

Definition parse_safe (v : MmsValue) : Prop :=
  mms_ok v -> is_complex v -> forall buffer allDataLength,
  bytes_ok buffer -> 0 <= allDataLength -> (0 < allDataLength -> allDataLength < zlen buffer) ->
  zlen buffer < 4194304 -> parsed v (parseAllData v buffer allDataLength).

Lemma parse_element_ok tag v buffer bufPos elementLength :
  parse_safe v -> element_in buffer bufPos elementLength -> mms_ok v ->
  parsed v (parse_element parseAllData tag v buffer bufPos elementLength).
Proof.
  intros Hsafe Hin Hv. unfold parse_element.
  assert (is_complex v -> parsed v ('(value, pe) ← parseAllData v (ptr_add buffer bufPos) elementLength;
    Some (value, if decide (pe = NO_ERROR) then NO_ERROR else GOOSE_PARSE_ERROR_SUBLEVEL))) as Hsub.
  { intros Hc. destruct Hin as (Hb & ? & ? & ? & ?).
    destruct (Hsafe Hv Hc (ptr_add buffer bufPos) elementLength) as (v' & pe & -> & ? & ?);
      [auto with bytes | done | rewrite zlen_ptr_add; lia | rewrite zlen_ptr_add; lia |].
    cbn [mbind option_bind]. by do 2 eexists. }
  btest; [by apply parsed_same|].
  btest; [destruct v; (by apply Hsub) || by apply parsed_same|].
  btest; [destruct v; (by apply Hsub) || by apply parsed_same|].
  btest.
  { destruct v; try by apply parsed_same. destruct Hin as (Hb & ? & ? & ? & ?).
    destruct (decodeBoolean_total buffer bufPos) as [b ->]; [lia|]. cbn. by do 2 eexists. }
  btest; [by apply parse_bitString_ok|].
  btest; [destruct v; try (by apply parsed_same);
    destruct (parse_octets_ok buffer bufPos elementLength Hin _ Hv) as (a' & pe & -> & ?); cbn; by do 2 eexists|].
  btest; [destruct v; try (by apply parsed_same);
    destruct (parse_octets_ok buffer bufPos elementLength Hin _ Hv) as (a' & pe & -> & ?); cbn; by do 2 eexists|].
  btest; [by apply parse_float_ok|].
  btest; [by apply parse_octetString_ok|].
  btest; [by apply parse_visibleString_ok|].
  btest; [by apply parse_binaryTime_ok|].
  btest; [by apply parse_utcTime_ok|].
  by apply parsed_same.
Qed.

Lemma parse_components_ok xs buffer bufPos allDataLength elementLength :
  Forall (on_component parse_safe) xs -> all_components mms_ok True xs ->
  bytes_ok buffer -> 0 <= bufPos -> 0 <= allDataLength ->
  (0 < allDataLength -> allDataLength < zlen buffer) -> zlen buffer < 4194304 ->
  exists ys pe, parse_components parseAllData xs buffer bufPos allDataLength elementLength = Some (ys, pe) /\
    all_components mms_ok True ys.
Proof.
  intros HF. revert bufPos elementLength.
  induction HF as [|c xs Hc _ IH]; intros bufPos elementLength Hok Hb Hp Ha Hz Hs; cbn [parse_components].
  - btest; [|by do 2 eexists]. destruct (ld_is_Some buffer bufPos) as [tag ->]; [lia|]. by do 2 eexists.
  - btest; [|by do 2 eexists]. destruct (ld_is_Some buffer bufPos) as [tag ->]; [lia|]. cbn [mbind option_bind].
    destruct c as [v|]; [|by do 2 eexists]. destruct Hok as [Hv Hoks].
    destruct (decodeLength_total buffer allDataLength Hb ltac:(lia) ltac:(lia) elementLength (bufPos + 1))
      as ([p l] & -> & Hr); [lia|]. cbn [mbind option_bind].
    unfold length_result in Hr. cbn in Hr. btest; [by do 2 eexists|].
    destruct (parse_element_ok tag v buffer p l Hc) as (v' & pe & -> & Hv' & _);
      [unfold element_in; split_and!; (done || lia) | done |].
    cbn [mbind option_bind]. destruct (decide (pe = NO_ERROR)); [|by do 2 eexists].
    destruct (IH (p + l) l Hoks) as (ys & pe' & -> & Hys); [done || lia..|]. cbn [mbind option_bind].
    by do 2 eexists.
Qed.

Lemma parseAllData_safe v : parse_safe v.
Proof.
  mms_ind v.
  1-2: intros Hok Hc buffer allDataLength Hb Ha Hz Hs; cbn [parseAllData];
    destruct (parse_components_ok xs buffer 0 allDataLength 0 IH) as (ys & pe & -> & Hys);
    [done || lia..|]; cbn [mbind option_bind]; by do 2 eexists.
  intros _ Hc. destruct v; done.
Qed.

(** * Building an unknown data set *)

Lemma countElements_total fuel buffer bufPos elementLength allDataLength index :
  bytes_ok buffer -> zlen buffer < 4194304 -> 0 <= bufPos -> allDataLength <= zlen buffer -> 0 <= index ->
  Z.max 0 (allDataLength - bufPos) < Z.of_nat fuel ->
  exists r, countElements_loop fuel buffer bufPos elementLength allDataLength index = Some r /\
            match r with Some n => 0 <= n | None => True end.
Proof.
  intros Hb Hs. revert bufPos elementLength index. induction fuel as [|fuel IH];
    intros bufPos elementLength index Hp He Hi Hf; [lia|]. cbn [countElements_loop].
  btest; [|by eexists].
  destruct (ld_is_Some buffer bufPos) as [tag ->]; [lia|]. cbn [mbind option_bind].
  destruct (decodeLength_total buffer allDataLength Hb He ltac:(lia) elementLength (bufPos + 1))
    as ([p l] & -> & Hr); [lia|]. cbn [mbind option_bind].
  unfold length_result in Hr. cbn in Hr. btest; [by eexists|].
  destruct (negb _); [by eexists|]. apply IH; lia.
Qed.

(** the primitive elements: an error, nothing or a well-formed value *)
Lemma newPrimitiveValue_ok tag buffer bufPos elementLength :
  bytes_ok buffer -> 0 <= bufPos -> 0 <= elementLength -> bufPos + elementLength <= zlen buffer ->
  zlen buffer < 4194304 ->
  exists r, newPrimitiveValue tag buffer bufPos elementLength = Some r /\
    match r with Some (Some v) => mms_ok v | _ => True end.
Proof.
  intros Hb Hp Hl Hz Hs. destruct (at_pos_exists buffer bufPos elementLength) as (bs & Hat & Hbs); [lia..|].
  assert (bytes_ok bs) as Hbb by by eapply at_pos_ok.
  assert (forall t, content_ok t bs -> t <> 0 -> forall v, primitive_value t bs = Some (Some v) -> mms_ok v) as Hpv.
  { intros t Hc _ v Hv. eapply primitive_value_ok; [done | lia | done | done]. }
  unfold newPrimitiveValue. subst elementLength.
  assert (0 < zlen bs -> bs <> []) as Hne by (intros ? ->; zlia).
  btest. { btest; [|by eexists]. destruct (decodeBoolean_total buffer bufPos) as [b ->]; [lia|]. by eexists. }
  btest.
  { btest; [|by eexists]. destruct bs as [|p bits]; [zlia|].
    rewrite decode_bitString_spec by (done || by apply Forall_inv in Hbb). cbn [mbind option_bind].
    eexists. split; [done|]. btest; [done|]. apply Forall_cons_1 in Hbb as [Hpb Hbits].
    unfold is_byte in Hpb. zlen. apply bits_value_ok; [lia | done | lia]. }
  btest. { rewrite (decode_integer_spec _ MmsInteger) by auto. cbn [mbind option_bind]. eexists. split; [done|].
    btest; [done|]. cbn. apply apv_of_ok; [done | by apply int_maxSize_ge]. }
  btest. { rewrite (decode_integer_spec _ MmsUnsigned) by auto. cbn [mbind option_bind]. eexists. split; [done|].
    btest; [done|]. cbn. apply apv_of_ok; [done | by apply int_maxSize_ge]. }
  btest.
  { btest; [destruct (decodeDouble_total buffer bufPos) as [d ->]; [lia..|]; eexists; split; [done|]; apply newDouble_ok|].
    btest; [destruct (decodeFloat_total buffer bufPos) as [d ->]; [lia..|]; eexists; split; [done|]; apply newFloat_ok|].
    by eexists. }
  btest.
  { rewrite (at_pos_range _ _ _ Hat). cbn [mbind option_bind MmsValue_newOctetString].
    rewrite st_range_front by zlia. cbn [mbind option_bind]. eexists. split; [done|].
    rewrite drop_replicate_app, Z.abs_eq, zlen_to_nat, Nat.sub_diag, app_nil_r by lia.
    apply (Hpv 0x89); [right; rewrite !elem_of_cons; tauto | done | done]. }
  btest.
  { unfold MmsValue_newVisibleStringFromByteArray. rewrite decode_string_spec by done.
    eexists. split; [done|]. by apply string_of_bytes_ok. }
  btest.
  { destruct (_ || _) eqn:Ebt; [|by eexists]. rewrite (at_pos_range _ _ _ Hat).
    cbn [mbind option_bind MmsValue_newBinaryTime]. rewrite st_range_front by (zlen; lia).
    cbn [mbind option_bind]. eexists. split; [done|]. rewrite drop_replicate_app. cbn [mms_ok].
    split; [destruct (zlen bs =? 4); auto|]. split; [zlen; unfold zlen in *; lia|]. apply Forall_app. auto with bytes. }
  btest; [|by eexists].
  btest; [|by eexists]. rewrite (decode_utcTime_spec _ _ bs) by done. eexists. split; [done|]. done.
Qed.

(** A data set under construction. *)
Definition unknown_result (r : bool * option MmsValue) : Prop :=
  match r.2 with Some v => mms_ok v /\ is_complex v | None => True end.

Definition unknown_safe (sub : bool -> list Z -> Z -> bool -> option (bool * option MmsValue)) (n : Z) : Prop :=
  forall selfAllocated buffer allDataLength isStructure,
  bytes_ok buffer -> zlen buffer < 4194304 -> 0 <= allDataLength <= zlen buffer -> allDataLength < n ->
  exists r, sub selfAllocated buffer allDataLength isStructure = Some r /\ unknown_result r.

Lemma setElement_complex v i e : is_complex v -> is_complex (MmsValue_setElement v i e).
Proof. by destruct v. Qed.

Lemma fillElements_ok sub fuel selfAllocated buffer bufPos elementLength allDataLength index v :
  unknown_safe sub allDataLength -> bytes_ok buffer -> zlen buffer < 4194304 ->
  0 <= bufPos -> allDataLength <= zlen buffer -> mms_ok v -> is_complex v ->
  Z.max 0 (allDataLength - bufPos) < Z.of_nat fuel ->
  exists r, fillElements_loop sub fuel selfAllocated buffer bufPos elementLength allDataLength index v = Some r /\
    unknown_result r.
Proof.
  intros Hsub Hb Hs. revert selfAllocated bufPos elementLength index v. induction fuel as [|fuel IH];
    intros selfAllocated bufPos elementLength index v Hp He Hv Hc Hf; [lia|]. cbn [fillElements_loop].
  btest; [|by eexists].
  destruct (ld_is_Some buffer bufPos) as [tag ->]; [lia|]. cbn [mbind option_bind].
  destruct (decodeLength_total buffer allDataLength Hb He ltac:(lia) elementLength (bufPos + 1))
    as ([p l] & -> & Hr); [lia|]. cbn [mbind option_bind].
  unfold length_result in Hr. cbn in Hr. btest; [by eexists|].
  destruct (_ || _).
  - destruct (Hsub selfAllocated (ptr_add buffer p) l (tag =? 0xa2)) as ([sa [e|]] & -> & He');
      [auto with bytes | rewrite zlen_ptr_add; lia | rewrite zlen_ptr_add; lia | lia | |];
      cbn [mbind option_bind]; [|by eexists].
    apply IH; [lia | lia | | by apply setElement_complex | lia]. apply setElement_ok; [done|]. by destruct He'.
  - destruct (newPrimitiveValue_ok tag buffer p l) as ([[e|]|] & -> & He'); [done || lia..| | |];
      cbn [mbind option_bind]; [| |by eexists].
    + apply IH; [lia | lia | by apply setElement_ok | by apply setElement_complex | lia].
    + apply IH; (done || lia).
Qed.

Lemma replicate_none_ok P n : all_components P True (replicate n None).
Proof. induction n; cbn; auto. Qed.

Lemma parseAllDataUnknownValue_safe fuel : unknown_safe (parseAllDataUnknownValue fuel) (Z.of_nat fuel).
Proof.
  induction fuel as [|fuel IH]; intros selfAllocated buffer n isStructure Hb Hs Hn Hf; [lia|].
  cbn [parseAllDataUnknownValue].
  destruct (countElements_total (S (Z.to_nat n)) buffer 0 0 n 0) as (r & -> & Hr); [done || lia..|].
  cbn [mbind option_bind]. destruct r as [k|]; [|by eexists].
  apply fillElements_ok; try done; try lia.
  - intros sa b l st ? ? ? ?. apply IH; (done || lia).
  - destruct isStructure; apply replicate_none_ok.
  - by destruct isStructure.
Qed.

(** * The fields of a message *)

Definition fields_ok (subs : list GooseSubscriber) (f : PayloadFields) : Prop :=
  is_u32 (pf_timeAllowedToLive f) /\ is_u32 (pf_stNum f) /\ is_u32 (pf_sqNum f) /\ is_u32 (pf_confRev f) /\
  match pf_matchingSubscriber f with Some i => (i < length subs)%nat | None => True end /\
  match pf_timestampBufPos f with Some t => bytes_ok t /\ 8 <= zlen t | None => True end /\
  match pf_dataSetBufferAddress f with
  | Some d => bytes_ok d /\ 0 <= pf_dataSetBufferLength f < zlen d /\ zlen d < 4194304
  | None => pf_dataSetBufferLength f = 0
  end.

Lemma store_reference_ok member buffer bufPos elementLength :
  zlen member = 130 -> element_in buffer bufPos elementLength ->
  exists member', store_reference member buffer bufPos elementLength = Some member' /\ zlen member' = 130.
Proof.
  intros Hm Hin. destruct (element_content _ _ _ Hin) as (bs & Hat & Hz & _). unfold store_reference.
  pose proof Hin as (_ & _ & ? & _). btest; [by eexists|].
  rewrite <- Hz, (at_pos_range _ _ _ Hat). cbn [mbind option_bind].
  rewrite st_range_front by lia. cbn [mbind option_bind].
  assert (zlen (bs ++ drop (length bs) member) = 130) as Hl.
  { unfold zlen in *. rewrite length_app, length_drop. lia. }
  rewrite st_Some by lia. eexists. split; [done|]. zlia.
Qed.

Lemma find_subscriber_ok subs buffer bufPos elementLength :
  Forall subscriber_ok subs -> element_in buffer bufPos elementLength ->
  exists subs' i, find_subscriber subs buffer bufPos elementLength = Some (subs', i) /\
    Forall subscriber_ok subs' /\ length subs' = length subs /\
    match i with Some i => (i < length subs)%nat | None => True end.
Proof.
  intros HF Hin. induction HF as [|s subs Hs HF IH]; cbn [find_subscriber]; [by do 2 eexists|].
  pose proof Hs as (Hcb & Hds & Hid & Hlen & Hrest). destruct (gs_isObserver s) eqn:Ho.
  - destruct (store_reference_ok (gs_goCBRef s) buffer bufPos elementLength Hcb Hin) as (cb & -> & Hz).
    cbn [mbind option_bind]. do 2 eexists. split; [done|]. split_and!; [|done|cbn; lia].
    constructor; [|done]. by destruct s.
  - assert (exists b, (if gs_goCBRefLen s =? elementLength
        then bs ← ld_range buffer bufPos elementLength; memcmp_eq (gs_goCBRef s) bs elementLength
        else Some false) = Some b) as [b ->].
    { btest; [|by eexists]. destruct (element_content _ _ _ Hin) as (bs & Hat & Hz & _).
      rewrite <- Hz, (at_pos_range _ _ _ Hat). cbn [mbind option_bind]. unfold memcmp_eq.
      rewrite (ld_range_Some (gs_goCBRef s)) by lia. cbn [mbind option_bind]. rewrite (ld_range_whole bs) by done. by eexists. }
    cbn [mbind option_bind]. destruct b.
    + do 2 eexists. split; [done|]. split_and!; [by constructor | done | cbn; lia].
    + destruct IH as (subs' & i & -> & HF' & Hl & Hi). cbn [mbind option_bind].
      do 2 eexists. split; [done|]. split_and!; [by constructor | cbn; lia | destruct i; cbn; lia].
Qed.

Lemma on_matching_ok subs m f :
  Forall subscriber_ok subs -> match m with Some i => (i < length subs)%nat | None => True end ->
  (forall s, subscriber_ok s -> exists s', f s = Some s' /\ subscriber_ok s') ->
  exists subs', on_matching subs m f = Some subs' /\ Forall subscriber_ok subs' /\ length subs' = length subs.
Proof.
  intros HF Hm Hf. destruct m as [i|]; [|by eexists]. cbn.
  destruct (lookup_lt_is_Some_2 subs i Hm) as [s Hs]. rewrite Hs. cbn [mbind option_bind].
  destruct (Hf s) as (s' & -> & Hs'); [by eapply Forall_lookup_1|]. cbn [mbind option_bind].
  eexists. split; [done|]. split; [by apply Forall_insert | apply length_insert].
Qed.

Lemma with_datSet_ok s r : subscriber_ok s -> zlen r = 130 -> subscriber_ok (with_datSet s r).
Proof. destruct s. unfold subscriber_ok. cbn. tauto. Qed.
Lemma with_goId_ok s r : subscriber_ok s -> zlen r = 130 -> subscriber_ok (with_goId s r).
Proof. destruct s. unfold subscriber_ok. cbn. tauto. Qed.
Lemma with_message_ok s m : subscriber_ok s -> message_ok m -> subscriber_ok (with_message s m).
Proof. destruct s. unfold subscriber_ok. cbn. tauto. Qed.

(** [buffer] extends eight bytes beyond the [n] bytes of the message. *)
Definition frame_in (buffer : list Z) (n : Z) : Prop :=
  bytes_ok buffer /\ n + 8 <= zlen buffer /\ zlen buffer < 4194304.

(** the fields keep their invariant when the list of subscribers is replaced *)
Lemma fields_ok_length subs subs' f : length subs' = length subs -> fields_ok subs f -> fields_ok subs' f.
Proof. intros Hl. unfold fields_ok. by rewrite Hl. Qed.

Lemma payload_field_ok subs f tag buffer bufPos elementLength apduLength :
  Forall subscriber_ok subs -> fields_ok subs f -> frame_in buffer apduLength ->
  0 <= bufPos -> 0 <= elementLength -> bufPos + elementLength <= apduLength ->
  exists subs' r, payload_field subs f tag buffer bufPos elementLength = Some (subs', r) /\
    Forall subscriber_ok subs' /\ match r with Some f => fields_ok subs' f | None => True end.
Proof.
  intros HF Hf (Hb & Hz & Hs) Hp Hl Ha.
  assert (element_in buffer bufPos elementLength) as Hin by (unfold element_in; split_and!; (done || lia)).
  destruct (decodeUint32_total buffer bufPos elementLength) as (u & Hu & Hur); [lia..|].
  destruct (decodeBoolean_total buffer bufPos) as [b Hbool]; [lia|].
  pose proof (zlen_ptr_add buffer bufPos ltac:(lia)) as Hptr.
  pose proof (ptr_add_ok buffer bufPos Hb) as Hptrb.
  destruct f as [ttl stNum sqNum confRev sim nds m ts ds dsl n]. unfold payload_field.
  rewrite Hu, Hbool. pose proof Hf as (H1 & H2 & H3 & H4 & H5 & H6 & H7).
  cbn [pf_timeAllowedToLive pf_stNum pf_sqNum pf_confRev pf_matchingSubscriber pf_timestampBufPos
       pf_dataSetBufferAddress pf_dataSetBufferLength] in *.
  btest.
  { destruct (find_subscriber_ok subs buffer bufPos elementLength HF Hin) as (subs' & i & -> & HF' & Hlen & Hi).
    cbn [mbind option_bind]. destruct i as [i|]; [|destruct m].
    - do 2 eexists. split; [done|]. split; [done|]. unfold fields_ok. cbn. rewrite Hlen. split_and!; done.
    - do 2 eexists. split; [done|]. split; [done|]. by eapply fields_ok_length.
    - by do 2 eexists. }
  btest; [by do 2 eexists|].
  btest.
  { destruct (on_matching_ok subs m (fun s => r ← store_reference (gs_datSet s) buffer bufPos elementLength;
      Some (with_datSet s r)) HF H5) as (subs' & -> & HF' & Hlen).
    { intros s Hok. destruct (store_reference_ok (gs_datSet s) buffer bufPos elementLength) as (r & -> & Hr);
        [by destruct Hok as (_ & ? & _) | done |]. eexists. split; [done|]. by apply with_datSet_ok. }
    do 2 eexists. split; [done|]. split; [done|]. by eapply fields_ok_length. }
  btest.
  { destruct (on_matching_ok subs m (fun s => r ← store_reference (gs_goId s) buffer bufPos elementLength;
      Some (with_goId s r)) HF H5) as (subs' & -> & HF' & Hlen).
    { intros s Hok. destruct (store_reference_ok (gs_goId s) buffer bufPos elementLength) as (r & -> & Hr);
        [by destruct Hok as (_ & _ & ? & _) | done |]. eexists. split; [done|]. by apply with_goId_ok. }
    do 2 eexists. split; [done|]. split; [done|]. by eapply fields_ok_length. }
  repeat (btest; [do 2 eexists; split; [done|]; split; [done|]; unfold fields_ok; cbn; split_and!; (done || lia)|]).
  by do 2 eexists.
Qed.

Lemma payload_loop_ok fuel subs f buffer bufPos gooseEnd apduLength :
  Forall subscriber_ok subs -> fields_ok subs f -> frame_in buffer apduLength ->
  0 <= bufPos -> gooseEnd <= apduLength -> Z.max 0 (gooseEnd - bufPos) < Z.of_nat fuel ->
  exists subs' r, payload_loop fuel subs f buffer bufPos gooseEnd apduLength = Some (subs', r) /\
    Forall subscriber_ok subs' /\ match r with Some f => fields_ok subs' f | None => True end.
Proof.
  intros HF Hf Hin. revert subs f HF Hf bufPos. induction fuel as [|fuel IH];
    intros subs f HF Hf bufPos Hp He Hfu; [lia|]. cbn [payload_loop]. btest; [|by do 2 eexists].
  pose proof Hin as (Hb & Hz & Hs).
  destruct (ld_is_Some buffer bufPos) as [tag ->]; [lia|]. cbn [mbind option_bind].
  destruct (decodeLength_total buffer apduLength Hb ltac:(lia) ltac:(lia) 0 (bufPos + 1))
    as ([p l] & -> & Hr); [lia|]. cbn [mbind option_bind].
  unfold length_result in Hr. cbn in Hr. btest; [by do 2 eexists|].
  destruct (payload_field_ok subs f tag buffer p l apduLength HF Hf Hin) as (subs' & r & -> & HF' & Hr'); [lia..|].
  cbn [mbind option_bind]. destruct r as [f'|]; [|by do 2 eexists]. apply IH; (done || lia).
Qed.

(** * The subscriber's state *)

Lemma setUtcTimeByBuffer_ok v t :
  is_utc v -> bytes_ok t -> 8 <= zlen t ->
  exists v', MmsValue_setUtcTimeByBuffer v (Some t) = Some v' /\ is_utc v'.
Proof.
  intros (bs & -> & Hz & Hb) Ht Hl. cbn. destruct (at_pos_exists t 0 8) as (c & Hat & Hc); [lia..|].
  rewrite <- Hc, (at_pos_range _ _ _ Hat). cbn [mbind option_bind].
  destruct (st_range_ok bs c) as (bs' & -> & ? & ?); [done | by eapply at_pos_ok | lia |].
  cbn [mbind option_bind]. eexists. split; [done|]. eexists. split; [done|]. split; [lia | done].
Qed.

Lemma setUtcTime_ok v t : is_utc v -> exists v', MmsValue_setUtcTime v t = Some v' /\ is_utc v'.
Proof.
  intros (bs & -> & Hz & Hb). cbn [MmsValue_setUtcTime]. rewrite memcpyReverseByteOrder_spec by zlia.
  cbn [mbind option_bind]. eexists. split; [done|]. eexists. split; [done|]. split.
  - zlen. unfold zlen in *. rewrite length_take, length_drop, length_le_bytes. lia.
  - apply Forall_app. split; [apply Forall_reverse, Forall_take; auto with bytes | by apply Forall_drop].
Qed.

Lemma is_complex_type v v' :
  MmsValue_getType v' = MmsValue_getType v -> is_complex v -> is_complex v'.
Proof. by destruct v, v'. Qed.

Lemma message_update_ok subs isObserver m f now :
  message_ok m -> fields_ok subs f ->
  exists m', message_update isObserver m f now = Some m' /\ message_ok m'.
Proof.
  intros (M1 & M2 & M3 & M4 & M5 & M6) (F1 & F2 & F3 & F4 & _ & F6 & F7).
  destruct m as [ttl0 st0 sq0 cr0 ts0 si0 nc0 inv0 val0 pe0 d0 sa0].
  destruct f as [ttl stNum sqNum confRev sim nds mi ts ds dsl n]. cbn in M1, M2, M3, M4, M5, M6, F1, F2, F3, F4, F6, F7.
  unfold message_update. cbv zeta.
  assert (exists t, match ts with Some t => MmsValue_setUtcTimeByBuffer ts0 (Some t)
    | None => MmsValue_setUtcTime ts0 0 end = Some t /\ is_utc t) as (t & -> & Ht).
  { destruct ts as [t|]; [destruct F6; by apply setUtcTimeByBuffer_ok | by apply setUtcTime_ok]. }
  cbn [mbind option_bind]. set (d := match d0 with Some _ => _ | None => _ end).
  assert (dataset_ok d) as Hd. { unfold d. destruct d0; [|done]. by destruct (sa0 && _). }
  assert (dataset_ok (if isObserver then None else d)) as Hd' by by destruct isObserver.
  assert (bytes_ok (default [] ds) /\ zlen (default [] ds) < 4194304 /\ 0 <= dsl <= zlen (default [] ds) /\
    (0 < dsl -> dsl < zlen (default [] ds))) as (B1 & B2 & B3 & B4).
  { destruct ds; cbn; [naive_solver lia|]. subst dsl. split_and!; (done || zlia). }
  destruct (if isObserver then None else d) as [v|]; cbn [mbind option_bind].
  - destruct Hd' as [Hv Hc]. destruct (parseAllData_safe v Hv Hc (default [] ds) dsl)
      as (v' & pe & -> & Hv' & Hty); [done || lia..|]. cbn [mbind option_bind]. eexists. split; [done|].
    unfold message_ok. cbn. split_and!; try done. by eapply is_complex_type.
  - destruct (parseAllDataUnknownValue_safe (S (Z.to_nat dsl)) sa0 (default [] ds) dsl false)
      as ([sa r] & -> & Hr); [done || lia..|]. cbn [mbind option_bind]. eexists. split; [done|].
    unfold message_ok. cbn. split_and!; done.
Qed.

(** * The whole message *)

Lemma initialFields_ok subs : fields_ok subs initialFields.
Proof. unfold fields_ok, is_u32. cbn. split_and!; (done || lia). Qed.

Lemma parseGoosePayload_ok subs buffer apduLength now :
  Forall subscriber_ok subs -> frame_in buffer apduLength -> 0 <= apduLength ->
  exists rc subs' notified, parseGoosePayload subs buffer apduLength now = Some (rc, subs', notified) /\
    Forall subscriber_ok subs'.
Proof.
  intros HF Hin Ha. pose proof Hin as (Hb & Hz & Hs). unfold parseGoosePayload.
  destruct (ld_is_Some buffer 0) as [b ->]; [lia|]. cbn [mbind option_bind]. btest; [|by do 3 eexists].
  destruct (decodeLength_total buffer apduLength Hb ltac:(lia) ltac:(lia) 0 1) as ([p l] & -> & Hr); [lia|].
  cbn [mbind option_bind]. unfold length_result in Hr. cbn in Hr. btest; [by do 3 eexists|].
  destruct (payload_loop_ok (S (Z.to_nat l)) subs initialFields buffer p (p + l) apduLength)
    as (subs' & r & -> & HF' & Hr'); [done | apply initialFields_ok | done | lia..|].
  cbn [mbind option_bind]. destruct r as [f|]; [|by do 3 eexists].
  destruct (pf_matchingSubscriber f) as [i|] eqn:Hi; [|by do 3 eexists].
  pose proof Hr' as (_ & _ & _ & _ & Hlt & _). rewrite Hi in Hlt.
  destruct (lookup_lt_is_Some_2 subs' i Hlt) as [s Hsi]. rewrite Hsi. cbn [mbind option_bind].
  pose proof (Forall_lookup_1 _ _ _ _ HF' Hsi) as Hok.
  destruct (message_update_ok subs' (gs_isObserver s) (gs_message s) f now) as (m & -> & Hm);
    [by destruct Hok as (_ & _ & _ & _ & _ & _ & ?) | done |].
  cbn [mbind option_bind]. do 3 eexists. split; [done|]. apply Forall_insert; [done|]. by apply with_message_ok.
Qed.

Lemma with_link_ok s l :
  subscriber_ok s -> zlen (ls_srcMac l) = 6 -> zlen (ls_dstMac l) = 6 -> subscriber_ok (with_link s l).
Proof. destruct s. unfold subscriber_ok. cbn. tauto. Qed.

Lemma st_range_zlen buf bs : zlen bs = zlen buf -> st_range buf 0 bs = Some bs.
Proof.
  intros Hz. rewrite st_range_front by lia. rewrite drop_ge, app_nil_r; [done|]. unfold zlen in Hz. lia.
Qed.

Lemma interested_subscriber_ok subs link :
  Forall subscriber_ok subs -> zlen (ls_srcMac link) = 6 -> zlen (ls_dstMac link) = 6 ->
  exists subs' found, interested_subscriber subs link = Some (subs', found) /\ Forall subscriber_ok subs'.
Proof.
  intros HF Hsrc Hdst. induction HF as [|s subs Hs HF IH]; cbn [interested_subscriber]; [by do 2 eexists|].
  pose proof Hs as (_ & _ & _ & _ & H1 & H2 & _). destruct (gs_isObserver s).
  - rewrite !st_range_zlen by congruence. cbn [mbind option_bind]. do 2 eexists. split; [done|].
    constructor; [|done]. by apply with_link_ok.
  - assert (exists b, (if (ls_appId (gs_link s) =? -1) || (ls_appId (gs_link s) =? ls_appId link)
        then if negb (ls_dstMacSet (gs_link s)) then Some true
             else memcmp_eq (ls_dstMac (gs_link s)) (ls_dstMac link) 6
        else Some false) = Some b) as [b ->].
    { destruct (_ || _); [|by eexists]. destruct (negb _); [by eexists|]. unfold memcmp_eq.
      rewrite (ld_range_whole (ls_dstMac (gs_link s))), (ld_range_whole (ls_dstMac link)) by done. by eexists. }
    cbn [mbind option_bind]. destruct b; [do 2 eexists; split; [done|]; by constructor|].
    destruct IH as (subs' & found & -> & HF'). cbn [mbind option_bind]. do 2 eexists. split; [done|]. by constructor.
Qed.

Lemma vlan_tag_ok buffer :
  bytes_ok buffer -> 16 <= zlen buffer ->
  exists bufPos h vs vi vp, vlan_tag buffer = Some (bufPos, h, vs, vi, vp) /\
    (bufPos = 12 /\ h = 14 /\ vs = false \/ bufPos = 16 /\ h = 18 /\ vs = true).
Proof.
  intros Hb Hz. unfold vlan_tag. destruct (ld_is_Some buffer 12) as [b0 ->]; [lia|]. cbn [mbind option_bind].
  assert (exists v, (if b0 =? 0x81 then b1 ← ld buffer (12 + 1); Some (b1 =? 0) else Some false) = Some v) as [v ->].
  { btest; [|by eexists]. destruct (ld_is_Some buffer (12 + 1)) as [b1 ->]; [lia|]. by eexists. }
  cbn [mbind option_bind]. destruct v.
  - destruct (ld_is_Some buffer (12 + 2)) as [b2 ->]; [lia|]. cbn [mbind option_bind].
    destruct (ld_is_Some buffer (12 + 3)) as [b3 ->]; [lia|]. cbn [mbind option_bind].
    do 5 eexists. split; [done|]. by right.
  - do 5 eexists. split; [done|]. by left.
Qed.

(** Parsing an arbitrary frame is defined and keeps the subscribers well-formed. *)
Lemma parseGooseMessage_ok subs buffer numbytes now :
  Forall subscriber_ok subs -> frame_in buffer numbytes ->
  exists subs' notified, parseGooseMessage subs buffer numbytes now = Some (subs', notified) /\
    Forall subscriber_ok subs'.
Proof.
  intros HF Hin. pose proof Hin as (Hb & Hz & Hs). unfold parseGooseMessage.
  btest; [by do 2 eexists|].
  destruct (vlan_tag_ok buffer Hb) as (p & h & vs & vi & vp & -> & Hp); [lia|]. cbn [mbind option_bind].
  destruct (vs && _) eqn:Hvs; [by do 2 eexists|].
  assert (p + 10 <= numbytes) by (destruct Hp as [(-> & -> & ->)|(-> & -> & ->)]; lia).
  assert (0 <= p) by lia.
  destruct (ld_is_Some buffer p) as [e0 ->]; [lia|]. cbn [mbind option_bind]. destruct (negb (e0 =? 0x88)); [by do 2 eexists|].
  destruct (ld_is_Some buffer (p + 1)) as [e1 ->]; [lia|]. cbn [mbind option_bind]. destruct (negb (e1 =? 0xb8)); [by do 2 eexists|].
  destruct (at_pos_exists buffer 6 6) as (src & Hsrc & Hsz); [lia..|].
  destruct (at_pos_exists buffer 0 6) as (dst & Hdst & Hdz); [lia..|].
  pose proof (at_pos_range _ _ _ Hsrc) as Hr1. pose proof (at_pos_range _ _ _ Hdst) as Hr2.
  rewrite Hsz in Hr1. rewrite Hdz in Hr2. rewrite Hr1, Hr2. cbn [mbind option_bind].
  destruct (ld_is_Some buffer (p + 2)) as [a0 ->]; [lia|]. cbn [mbind option_bind].
  destruct (ld_is_Some buffer (p + 3)) as [a1 ->]; [lia|]. cbn [mbind option_bind].
  destruct (ld_is_Some buffer (p + 4)) as [l0 ->]; [lia|]. cbn [mbind option_bind].
  destruct (ld_is_Some buffer (p + 5)) as [l1 ->]; [lia|]. cbn [mbind option_bind].
  set (len := u16 (u16 (l0 * 256) + l1)) in *.
  destruct (len - 8 <? 0) eqn:Hl; [by do 2 eexists|]. destruct (numbytes <? len + h) eqn:Hn; [by do 2 eexists|]. bdestr.
  destruct (interested_subscriber_ok subs (mkLinkState src dst (u16 (u16 (a0 * 256) + a1)) false vs vi vp) HF)
    as (subs' & found & -> & HF'); [done..|]. cbn [mbind option_bind].
  destruct found; [|by do 2 eexists].
  assert (p + 2 = h) by lia.
  destruct (parseGoosePayload_ok subs' (ptr_add buffer (p + 10)) (len - 8) now HF')
    as (rc & subs'' & notified & -> & HF''); [|lia|by do 2 eexists].
  split_and!; [auto with bytes | rewrite zlen_ptr_add; lia | rewrite zlen_ptr_add; lia].
Qed.
