(* ===== verification/GooseThread.v ===== *)
(** The receiver thread: [GooseReceiver_start], [gooseReceiverLoop] and
    [GooseReceiver_stop] of src/libiec61850/src/goose/goose_receiver.c.

    The loop runs in its own thread, the application stops it from another. A
    state holds the receiver both share and where each thread is; a step is one
    statement of either thread on the shared members, so a run is an
    interleaving. What arrives, and when, is left open: [wait] may report
    nothing, a failure or a packet. [Thread_destroy] joins the thread
    (hal/thread/linux/thread_linux.c), so it is enabled when the loop has ended.
    Members are read and written as the source orders them; the library has no
    lock around [stop] and [running]. *)

From stdpp Require Import relations.
From S2P Require Import Prelude BerEncoder BerDecoder BerInteger StringUtils CFloat MmsValue MmsFacts MmsData GooseSubscriber GooseReceiver GooseSafety.
Open Scope Z_scope.

Definition with_running (self : GooseReceiver) (running : bool) : GooseReceiver :=
  let 'mkGooseReceiver _ s i b e l t := self in mkGooseReceiver running s i b e l t.
Definition with_stop (self : GooseReceiver) (stop : bool) : GooseReceiver :=
  let 'mkGooseReceiver r _ i b e l t := self in mkGooseReceiver r stop i b e l t.
Definition with_thread (self : GooseReceiver) (thread : bool) : GooseReceiver :=
  let 'mkGooseReceiver r s i b e l _ := self in mkGooseReceiver r s i b e l thread.

(** [threadCreated] is the result of [Thread_create]; the loop runs when the
    thread exists. *)
Definition GooseReceiver_start (self : GooseReceiver) (socketOpen threadCreated : bool)
  : GooseReceiver * list EthernetCall :=
  let '(self, calls) := GooseReceiver_startThreadless self socketOpen in
  if gr_ethSocket self then (with_thread self threadCreated, calls) else (self, calls).

(** where the receiver thread is *)
Inductive LoopPc :=
| L_wait          (** EthernetHandleSet_waitReady *)
| L_tick          (** GooseReceiver_tick *)
| L_checkStop     (** if (self->stop) break *)
| L_readRunning   (** running = self->running; while (running) *)
| L_leave         (** GooseReceiver_stopThreadless *)
| L_done.

(** where the application is *)
Inductive MainPc :=
| M_working
| M_setStop       (** self->stop = true *)
| M_setRunning    (** self->running = false *)
| M_join          (** Thread_destroy *)
| M_clearStop     (** self->stop = false *)
| M_returned.

Record Threads := mkThreads {
  th_receiver : GooseReceiver;
  th_loop : LoopPc;
  th_main : MainPc
}.

(** a call of a listener is visible *)
Inductive Event := Quiet | ListenerCalled (subscriber : nat).

Definition tick_event (notified : option nat) : Event :=
  match notified with Some i => ListenerCalled i | None => Quiet end.

(** the statements of [gooseReceiverLoop] *)
Inductive loop_step : Threads -> Event -> Threads -> Prop :=
| step_idle self m : loop_step (mkThreads self L_wait m) Quiet (mkThreads self L_checkStop m)
| step_ready self m : loop_step (mkThreads self L_wait m) Quiet (mkThreads self L_tick m)
| step_tick self m packet now self' received notified :
    GooseReceiver_tick self packet now = Some (self', received, notified) ->
    loop_step (mkThreads self L_tick m) (tick_event notified) (mkThreads self' L_checkStop m)
| step_checkStop self m :
    loop_step (mkThreads self L_checkStop m) Quiet
      (mkThreads self (if gr_stop self then L_leave else L_readRunning) m)
| step_readRunning self m :
    loop_step (mkThreads self L_readRunning m) Quiet
      (mkThreads self (if gr_running self then L_wait else L_leave) m)
| step_leave self m :
    loop_step (mkThreads self L_leave m) Quiet (mkThreads (GooseReceiver_stopThreadless self) L_done m).

(** the statements of [GooseReceiver_stop] *)
Inductive stop_step : Threads -> Threads -> Prop :=
| step_call self l : stop_step (mkThreads self l M_working) (mkThreads self l M_setStop)
| step_setStop self l :
    stop_step (mkThreads self l M_setStop) (mkThreads (with_stop self true) l M_setRunning)
| step_setRunning self l :
    stop_step (mkThreads self l M_setRunning) (mkThreads (with_running self false) l M_join)
| step_join self l :
    (gr_thread self = true -> l = L_done) ->
    stop_step (mkThreads self l M_join) (mkThreads self l M_clearStop)
| step_clearStop self l :
    stop_step (mkThreads self l M_clearStop) (mkThreads (with_stop self false) l M_returned).

Inductive step : Threads -> Threads -> Prop :=
| step_loop t e t' : loop_step t e t' -> step t t'
| step_stop t t' : stop_step t t' -> step t t'.

(** whether [GooseReceiver_destroy] calls [GooseReceiver_stop] *)
Definition destroy_stops (self : GooseReceiver) : bool := gr_thread self && GooseReceiver_isRunning self.

(** after [GooseReceiver_start] with a socket and a thread *)
Definition started (self : GooseReceiver) : Threads :=
  mkThreads (GooseReceiver_start self true true).1 L_wait M_working.

(** * Invariants *)

(** What the shared members say at each place of [GooseReceiver_stop]. *)
Definition stop_inv (t : Threads) : Prop :=
  gr_thread (th_receiver t) = true /\
  match th_main t with
  | M_working | M_setStop => gr_stop (th_receiver t) = false
  | M_setRunning => gr_stop (th_receiver t) = true
  | M_join => gr_stop (th_receiver t) = true /\ gr_running (th_receiver t) = false
  | M_clearStop | M_returned => th_loop t = L_done /\ gr_running (th_receiver t) = false
  end.

Lemma tick_flags self packet now self' received notified :
  GooseReceiver_tick self packet now = Some (self', received, notified) ->
  gr_thread self' = gr_thread self /\ gr_stop self' = gr_stop self /\ gr_running self' = gr_running self.
Proof.
  unfold GooseReceiver_tick, GooseReceiver_handleMessage. destruct (0 <? zlen packet); [|by intros [= <- _ _]].
  destruct (st_range _ _ _); cbn [mbind option_bind]; [|done]. destruct self as [r0 s0 i0 b0 e0 l0 t0].
  cbn [gr_subscriberList]. destruct (parseGooseMessage _ _ _ _) as [[subs n]|]; cbn [mbind option_bind]; [|done].
  by intros [= <- _ _].
Qed.

Lemma stop_inv_step t t' : stop_inv t -> step t t' -> stop_inv t'.
Proof.
  intros Hinv Hs. destruct Hs as [t e t' Hs|t t' Hs].
  1: destruct Hs as [self m|self m|self m packet now self' received notified Htick|self m|self m|self m].
  7: destruct Hs as [self l|self l|self l|self l Hjoin|self l].
  all: unfold stop_inv in *; cbn [th_receiver th_loop th_main] in *.
  1-2, 4-5: destruct m; intuition congruence.
  - apply tick_flags in Htick as (-> & -> & ->). destruct m; intuition congruence.
  - destruct self as [r0 s0 i0 b0 e0 l0 t0], m; cbn in *; intuition congruence.
  - done.
  - destruct self; cbn in *; intuition congruence.
  - destruct self; cbn in *; intuition congruence.
  - intuition congruence.
  - destruct self; cbn in *; intuition congruence.
Qed.

Lemma stop_inv_started self : gr_stop self = false -> stop_inv (started self).
Proof. destruct self. cbn. intros ->. done. Qed.

Lemma stop_inv_reachable self t :
  gr_stop self = false -> rtc step (started self) t -> stop_inv t.
Proof.
  intros Hs Hr. pose proof (stop_inv_started self Hs) as Hinv.
  induction Hr as [t|t1 t2 t3 Hstep _ IH]; [done|]. apply IH. by eapply stop_inv_step.
Qed.

(** * Progress *)

(** statements of the loop left once both flags are set *)
Definition loop_left (l : LoopPc) : nat :=
  match l with L_wait => 4 | L_tick => 3 | L_checkStop => 2 | L_readRunning => 2 | L_leave => 1 | L_done => 0 end.

Lemma loop_decreases t e t' :
  gr_stop (th_receiver t) = true -> gr_running (th_receiver t) = false -> loop_step t e t' ->
  (loop_left (th_loop t') < loop_left (th_loop t))%nat.
Proof.
  intros Hs Hr Hstep. destruct Hstep; cbn [th_receiver th_loop] in *; rewrite ?Hs, ?Hr; cbn; lia.
Qed.

(** A packet of a length that leaves the receiver eight bytes of room. *)
Definition packet_ok (packet : list Z) : Prop := bytes_ok packet /\ zlen packet <= 1510.

Definition receiver_ok (self : GooseReceiver) : Prop :=
  Forall subscriber_ok (gr_subscriberList self) /\ bytes_ok (gr_buffer self) /\ zlen (gr_buffer self) = 1518.

Lemma tick_total self packet now :
  receiver_ok self -> packet_ok packet ->
  exists self' received notified, GooseReceiver_tick self packet now = Some (self', received, notified) /\ receiver_ok self'.
Proof.
  intros (Hs & Hb & Hz) (Hp & Hl). unfold GooseReceiver_tick.
  destruct (0 <? zlen packet); [|by do 3 eexists].
  destruct (st_range_ok (gr_buffer self) packet Hb Hp ltac:(lia)) as (buf & -> & Hbuf & Hzb). cbn [mbind option_bind].
  destruct self as [r s i b e l t]. cbn [gr_buffer gr_subscriberList] in *. unfold GooseReceiver_handleMessage. cbn [gr_subscriberList].
  destruct (parseGooseMessage_ok l buf (zlen packet) now Hs) as (subs & n & -> & Hsubs).
  { unfold frame_in. split_and!; [done | lia | lia]. }
  cbn [mbind option_bind]. do 3 eexists. split; [done|]. unfold receiver_ok. cbn. split_and!; [done | done | lia].
Qed.

(** Until it is done the loop has a statement to execute. *)
Lemma loop_progress t packet (now : Z) :
  receiver_ok (th_receiver t) -> packet_ok packet -> th_loop t <> L_done ->
  exists e t', loop_step t e t' /\ receiver_ok (th_receiver t') /\ th_main t' = th_main t.
Proof.
  intros Hr Hp Hd. destruct t as [self [] m]; cbn [th_receiver th_loop th_main] in *; try done.
  - do 2 eexists. split; [apply step_idle | done].
  - destruct (tick_total self packet now Hr Hp) as (self' & rc & n & Ht & Hr').
    do 2 eexists. split; [by eapply step_tick | done].
  - do 2 eexists. split; [apply step_checkStop | done].
  - do 2 eexists. split; [apply step_readRunning | done].
  - do 2 eexists. split; [apply step_leave|]. split; [|done]. by destruct self.
Qed.

(** Once the application waits for the thread, the loop ends. *)
Lemma loop_ends t :
  stop_inv t -> th_main t = M_join -> receiver_ok (th_receiver t) ->
  exists t', rtc step t t' /\ th_loop t' = L_done /\ th_main t' = M_join /\ stop_inv t'.
Proof.
  remember (loop_left (th_loop t)) as n eqn:Hn. revert t Hn. induction n as [n IH] using lt_wf_ind.
  intros t -> Hinv Hm Hr. pose proof Hinv as (_ & Hflags). rewrite Hm in Hflags. destruct Hflags as [Hs Hrun].
  assert (th_loop t = L_done \/ th_loop t <> L_done) as [Hd|Hd] by (destruct (th_loop t); (by left) || (by right)).
  { exists t. split; [apply rtc_refl | done]. }
  destruct (loop_progress t [] 0 Hr) as (e & t1 & Hstep & Hr1 & Hm1); [|done|].
  { split; [constructor | done]. }
  destruct (IH (loop_left (th_loop t1))) with (t := t1) as (t' & Hrt & Hdone); try done.
  - by eapply loop_decreases.
  - by eapply stop_inv_step; [|eapply step_loop].
  - by rewrite Hm1.
  - exists t'. split; [|done]. eapply rtc_l; [by eapply step_loop | done].
Qed.

(** Then [GooseReceiver_stop] returns. *)
Lemma stop_returns t :
  stop_inv t -> th_main t = M_join -> receiver_ok (th_receiver t) ->
  exists t', rtc step t t' /\ th_main t' = M_returned.
Proof.
  intros Hinv Hm Hr. destruct (loop_ends t Hinv Hm Hr) as ([self l m] & Hrun & Hl & Hm' & _). cbn in Hl, Hm'. subst l m.
  exists (mkThreads (with_stop self false) L_done M_returned). split; [|reflexivity]. transitivity (mkThreads self L_done M_join); [exact Hrun|].
  eapply rtc_l; [by apply step_stop, step_join|]. apply rtc_once, step_stop, step_clearStop.
Qed.

Lemma done_no_step t e t' : th_loop t = L_done -> ~ loop_step t e t'.
Proof. intros Hd Hs. by destruct Hs. Qed.
