(* ===== verification/GooseDataSet.v ===== *)
(** The data sets of GOOSE messages: what the receiver builds from, or writes
    into, its copy of the data set when it parses what the publisher encoded. *)

From S2P Require Import Prelude BerEncoder BerDecoder BerInteger StringUtils CFloat MmsValue MmsFacts MmsData GooseSubscriber GooseReceiver GooseSafety.
Open Scope Z_scope.

(** The values that the receiver can build: it has no case for the tags of an MMS string
    (0x90), which the publisher encodes, and of a data access error, and takes no empty bit
    string. *)
Fixpoint goose_value (v : MmsValue) : Prop :=
  match v with
  | MmsArray xs | MmsStructure xs => all_components goose_value False xs
  | MmsBitString n _ => 0 < n
  | MmsString _ _ | MmsDataAccessError _ => False
  | _ => True
  end.

Definition simple (v : MmsValue) : Prop :=
  match v with MmsArray _ | MmsStructure _ => False | _ => True end.

(** * A data set that is not known yet *)

Lemma newPrimitiveValue_spec v buffer pos :
  mms_ok v -> decodable v -> goose_value v -> simple v -> at_pos buffer pos (mms_content v) ->
  newPrimitiveValue (mms_tag v) buffer pos (zlen (mms_content v)) = Some (Some (Some (decoded v))).
Proof.
  intros Hok Hd Hg Hs Hat. destruct (simple_value v Hok Hd Hs) as [Hv Hc].
  pose proof (mms_content_ok v Hok Hs) as Hb.
  pose proof (decode_primitive_spec buffer (mms_tag v) pos (mms_content v) Hb Hat Hc) as Hdec.
  rewrite Hv in Hdec. cbn [mbind option_bind] in Hdec.
  destruct v as [| | b | size buf | a | a | ew w buf | size maxSize buf | buf size | size buf | buf size | buf | e ];
    try done; cbn [mms_tag] in *; unfold decode_primitive, decode_done in Hdec;
    unfold newPrimitiveValue; cbn [Z.eqb Pos.eqb] in Hdec |- *; cbv beta iota in Hdec |- *.
  - change (0 <? zlen (mms_content (MmsBoolean b))) with true. cbv iota.
    destruct (BerDecoder_decodeBoolean buffer pos); cbn in *; congruence.
  - replace (1 <? zlen (mms_content (MmsBitString size buf))) with true; [cbv iota|].
    + destruct (decode_bitString _ _ _) as [[?|]|]; cbn in *; congruence.
    + symmetry. apply Z.ltb_lt. cbn [mms_content]. unfold ber_bitstring. zlen.
      destruct Hok as (? & Hz & _). cbn in Hg. rewrite bitSize_bytes_eq in Hz by lia.
      rewrite zlen_ber_bits by lia. pose proof (Z.div_le_lower_bound (size + 7) 8 1). lia.
  - destruct (decode_integer _ _ _ _) as [[?|]|]; cbn in *; congruence.
  - destruct (decode_integer _ _ _ _) as [[?|]|]; cbn in *; congruence.
  - destruct (_ =? 9); [destruct (BerDecoder_decodeDouble _ _); cbn in *; congruence|].
    destruct (_ =? 5); [destruct (BerDecoder_decodeFloat _ _); cbn in *; congruence | done].
  - destruct (ld_range _ _ _); cbn [mbind option_bind] in *; [|done]. cbn [MmsValue_newOctetString] in *.
    destruct (st_range _ _ _); cbn in *; congruence.
  - destruct (MmsValue_newVisibleStringFromByteArray _ _); cbn in *; congruence.
  - destruct (_ || _); [|done]. destruct (ld_range _ _ _); cbn [mbind option_bind] in *; [|done].
    cbn [MmsValue_newBinaryTime] in *. destruct (st_range _ _ _); cbn in *; congruence.
  - destruct (_ =? 8); [|done].
    destruct (MmsValue_setUtcTimeByBuffer _ _); cbn in *; congruence.
Qed.

Lemma countElements_spec xs buffer pos fuel elementLength index :
  at_pos buffer pos (components_bytes xs) ->
  all_components decodable False xs -> all_components goose_value False xs ->
  (length xs < fuel)%nat ->
  countElements_loop fuel buffer pos elementLength (pos + zlen (components_bytes xs)) index
  = Some (Some (index + zlen xs)).
Proof.
  revert pos fuel elementLength index.
  induction xs as [|[x|] xs IH]; intros pos fuel elementLength index Hat Hd Hg Hf;
    (destruct fuel as [|fuel]; [cbn in Hf; lia|]); cbn [countElements_loop].
  - change (components_bytes []) with (@nil Z). rewrite zlen_nil. if_false. do 2 f_equal. zlia.
  - destruct Hd as [Hd Hds], Hg as [Hg Hgs]. pose proof (at_pos_bounds _ _ _ Hat).
    destruct (component_head _ _ _ _ elementLength _ Hat Hd ltac:(done))
      as (Hld & Hlen & Hp & Hend & _ & Hats).
    rewrite components_bytes_cons, zlen_app in *.
    pose proof (zlen_nonneg (components_bytes xs)). pose proof (zlen_nonneg (mms_content x)).
    if_true. rewrite Hld. cbn [mbind option_bind]. rewrite Hlen. cbn [mbind option_bind].
    if_false. rewrite bool_decide_eq_true_2 by (destruct x; cbn in Hg |- *; try done; unfold unknown_tags; rewrite !elem_of_cons; tauto).
    cbn [negb]. rewrite Z.add_assoc, <- Hend. rewrite IH by (done || (cbn in Hf; lia)). do 2 f_equal. zlia.
  - by destruct Hd.
Qed.

(** The receiver's copy: the decoded components. *)
Definition rebuilds (v : MmsValue) : Prop :=
  mms_ok v -> decodable v -> goose_value v ->
  match v with
  | MmsArray xs | MmsStructure xs =>
      forall fuel selfAllocated buffer,
      at_pos buffer 0 (components_bytes xs) -> (mms_depth v <= fuel)%nat ->
      parseAllDataUnknownValue fuel selfAllocated buffer (zlen (components_bytes xs))
        (match v with MmsStructure _ => true | _ => false end) = Some (true, Some (decoded v))
  | _ => True
  end.

(** the empty data set with the first components filled in *)
Definition partial (isStructure : bool) (done left : list (option MmsValue)) : MmsValue :=
  let vs := (option_map decoded <$> done) ++ replicate (length left) None in
  if isStructure then MmsStructure vs else MmsArray vs.

Lemma partial_step isStructure done x left :
  MmsValue_setElement (partial isStructure done (Some x :: left)) (zlen done) (Some (decoded x))
  = partial isStructure (done ++ [Some x]) left.
Proof.
  unfold partial. cbv zeta. set (D := option_map decoded <$> done).
  assert (length D = length done) as HD by apply length_fmap.
  assert (forall c, zlen (D ++ replicate (length (c :: left)) (@None MmsValue)) = zlen done + zlen left + 1) as Hz.
  { intros c. zlen. unfold zlen. rewrite HD. cbn. lia. }
  assert (<[Z.to_nat (zlen done) := Some (decoded x)]> (D ++ replicate (length (Some x :: left)) None)
    = (option_map decoded <$> (done ++ [Some x])) ++ replicate (length left) None) as Hins.
  { rewrite zlen_to_nat, <- HD, insert_app_r_alt by lia. rewrite Nat.sub_diag. cbn.
    rewrite fmap_app, <- app_assoc. done. }
  pose proof (zlen_nonneg done). pose proof (zlen_nonneg left).
  destruct isStructure; cbn [MmsValue_setElement]; rewrite Hz;
    replace ((zlen done <? 0) || _) with false by lia; by rewrite Hins.
Qed.

Lemma fillElements_spec xs : 
  Forall (on_component rebuilds) xs ->
  forall prev fuel steps selfAllocated isStructure buffer pos elementLength allDataLength,
  all_components mms_ok True xs -> all_components decodable False xs -> all_components goose_value False xs ->
  at_pos buffer pos (components_bytes xs) -> (components_depth xs <= fuel)%nat -> (length xs < steps)%nat ->
  allDataLength = pos + zlen (components_bytes xs) ->
  fillElements_loop (parseAllDataUnknownValue fuel) steps selfAllocated buffer pos elementLength
    allDataLength (zlen prev) (partial isStructure prev xs)
  = Some (true, Some (partial isStructure (prev ++ xs) [])).
Proof.
  induction 1 as [|[x|] xs Hx _ IH]; intros prev fuel steps selfAllocated isStructure buffer pos elementLength
    allDataLength Hok Hd Hg Hat Hl Hst ->; (destruct steps as [|steps]; [cbn in Hst; lia|]); cbn [fillElements_loop].
  - change (components_bytes []) with (@nil Z). rewrite zlen_nil. if_false. by rewrite app_nil_r.
  - destruct Hd as [Hd Hds], Hok as [Hok Hoks], Hg as [Hg Hgs]. pose proof (at_pos_bounds _ _ _ Hat).
    change (components_depth (Some x :: xs)) with (Nat.max (mms_depth x) (components_depth xs)) in Hl.
    destruct (component_head _ _ _ _ elementLength _ Hat Hd ltac:(done))
      as (Hld & Hlen & Hp & Hend & Hatx & Hats).
    rewrite components_bytes_cons, zlen_app in *.
    pose proof (zlen_nonneg (components_bytes xs)). pose proof (zlen_nonneg (mms_content x)).
    if_true. rewrite Hld. cbn [mbind option_bind]. rewrite Hlen. cbn [mbind option_bind]. if_false.
    set (p := pos + 1 + zlen (ber_length (zlen (mms_content x)))) in *.
    assert (at_pos buffer p (mms_content x)) as Hatc.
    { pose proof Hatx as Ha. rewrite mms_bytes_tlv in Ha. unfold ber_tlv in Ha.
      apply at_pos_cons in Ha as [_ Ha]. by apply at_pos_app in Ha as [_ Ha]. }
    assert (exists sa, (if (mms_tag x =? 0xa1) || (mms_tag x =? 0xa2) then
        '(selfAllocated, v) ← parseAllDataUnknownValue fuel selfAllocated (ptr_add buffer p) (zlen (mms_content x))
                                (mms_tag x =? 0xa2); Some (selfAllocated, v ← v; Some (Some v))
      else r ← newPrimitiveValue (mms_tag x) buffer p (zlen (mms_content x)); Some (selfAllocated, r))
      = Some (sa, Some (Some (decoded x)))) as [sa ->].
    { specialize (Hx Hok Hd Hg).
      destruct x; try (rewrite newPrimitiveValue_spec by done; by eexists);
        cbn [mms_tag Z.eqb Pos.eqb orb mms_content]; rewrite Hx by (done || by apply at_pos_ptr || lia); by eexists. }
    cbn [mbind option_bind]. rewrite partial_step.
    replace (zlen prev + 1) with (zlen (prev ++ [Some x])) by zlia.
    rewrite IH; [by rewrite <- app_assoc| try done; try lia ..]. cbn in Hst. lia.
  - by destruct Hd.
Qed.

Lemma rebuilds_components v xs (isStructure : bool) :
  v = (if isStructure then MmsStructure xs else MmsArray xs) ->
  Forall (on_component rebuilds) xs -> mms_ok v -> decodable v -> goose_value v ->
  forall fuel selfAllocated buffer,
  at_pos buffer 0 (components_bytes xs) -> (mms_depth v <= fuel)%nat ->
  parseAllDataUnknownValue fuel selfAllocated buffer (zlen (components_bytes xs)) isStructure
  = Some (true, Some (decoded v)).
Proof.
  intros Hv HF Hok Hd Hg fuel selfAllocated buffer Hat Hl.
  destruct (mms_depth_components xs) as [Ha Hs].
  assert (all_components mms_ok True xs /\ all_components decodable False xs /\
    all_components goose_value False xs /\ mms_depth v = S (components_depth xs)) as (Hoks & Hds & Hgs & Hdep).
  { subst v. destruct isStructure; destruct Hd as (_ & _ & ? & _); split_and!; done. }
  pose proof (length_components xs Hds). pose proof (zlen_nonneg xs).
  destruct fuel as [|fuel]; [lia|]. cbn [parseAllDataUnknownValue].
  pose proof (countElements_spec xs buffer 0 (S (Z.to_nat (zlen (components_bytes xs)))) 0 0 Hat Hds Hgs) as Hcount.
  rewrite Z.add_0_l in Hcount. rewrite Hcount by (unfold zlen in *; lia). cbn [mbind option_bind].
  rewrite Z.add_0_l.
  pose proof (fillElements_spec xs HF [] fuel (S (Z.to_nat (zlen (components_bytes xs)))) selfAllocated
    isStructure buffer 0 0 (zlen (components_bytes xs)) Hoks Hds Hgs Hat) as Hfill.
  unfold partial in Hfill. cbn [fmap list_fmap app length replicate] in Hfill. rewrite app_nil_r in Hfill.
  unfold MmsValue_createEmptyStructure, MmsValue_createEmptyArray. rewrite !zlen_to_nat in Hfill |- *.
  change (zlen (@nil (option MmsValue))) with 0 in Hfill. rewrite (zlen_to_nat xs). rewrite Hfill by (unfold zlen in *; lia). subst v. by destruct isStructure.
Qed.

Lemma rebuilds_all v : rebuilds v.
Proof.
  mms_ind v.
  - intros Hok Hd Hg fuel sa buffer. by apply (rebuilds_components (MmsArray xs) xs false).
  - intros Hok Hd Hg fuel sa buffer. by apply (rebuilds_components (MmsStructure xs) xs true).
  - intros _ _ _. by destruct v.
Qed.

(** * A data set that is known *)

Section AcceptsComponents.
Context (accepts : MmsValue -> MmsValue -> Prop).
Fixpoint accepts_components (xs ys : list (option MmsValue)) : Prop :=
  match xs, ys with
  | [], [] => True
  | Some x :: xs, Some y :: ys => accepts x y /\ accepts_components xs ys
  | _, _ => False
  end.
End AcceptsComponents.

(** The value [old] of the receiver has room for [new]. *)
Fixpoint accepts (old new : MmsValue) : Prop :=
  match old, new with
  | MmsArray xs, MmsArray ys | MmsStructure xs, MmsStructure ys => accepts_components accepts xs ys
  | MmsBoolean _, MmsBoolean _ => True
  | MmsBitString n _, MmsBitString m _ => n = m
  | MmsInteger a, MmsInteger b | MmsUnsigned a, MmsUnsigned b => apv_size b <= apv_maxSize a
  | MmsFloat _ w _, MmsFloat _ w' _ => w = w'
  | MmsOctetString _ _ _, MmsOctetString _ _ _ => True
  | MmsVisibleString _ _, MmsVisibleString _ _ => True
  | MmsBinaryTime n _, MmsBinaryTime m _ => n = m
  | MmsUtcTime _, MmsUtcTime _ => True
  | _, _ => False
  end.

(** What can be sent and compared afterwards. *)
Definition sendable (v : MmsValue) : Prop :=
  mms_ok v /\ decodable v /\ mms_complete v /\ padding_clear v.

(** The element was taken over: the stored value compares equal to the sent
    one and accepts whatever the old value accepted. *)
Definition taken (old new : MmsValue) (r : option (MmsValue * GooseParseError)) : Prop :=
  exists v, r = Some (v, NO_ERROR) /\ mms_ok v /\ mms_equals new v = Some true /\
    (forall new', accepts old new' -> accepts v new').

Lemma st_range_whole (buf bs : list Z) : zlen bs = zlen buf -> st_range buf 0 bs = Some bs.
Proof. apply st_range_zlen. Qed.

Section Taken.
Context (buffer : list Z) (pos : Z).

Lemma taken_bitString n a m b :
  mms_ok (MmsBitString n a) -> sendable (MmsBitString m b) -> n = m ->
  at_pos buffer pos (mms_content (MmsBitString m b)) ->
  taken (MmsBitString n a) (MmsBitString m b)
    (parse_bitString (MmsBitString n a) buffer pos (zlen (mms_content (MmsBitString m b)))).
Proof.
  intros Hold (Hnew & _ & _ & Hpad) <- Hat. destruct Hold as (Hn & Ha & Hab), Hnew as (_ & Hb & Hbb).
  cbn [mms_content padding_clear] in *. unfold ber_bitstring in *. rewrite Hpad in *.
  apply at_pos_cons in Hat as [Hld Hat]. unfold parse_bitString. rewrite Hld. cbn [mbind option_bind].
  pose proof (padding_range n ltac:(lia)). if_false. zlen. rewrite bitSize_bytes_eq in * by lia. rewrite Hb.
  replace (8 * (1 + (n + 7) / 8 - 1) - ((n + 7) / 8 * 8 - n) =? n) with true by lia.
  replace (1 + (n + 7) / 8 - 1) with (zlen b) by lia. rewrite (at_pos_range _ _ _ Hat).
  cbn [mbind option_bind]. rewrite st_range_whole by lia. cbn [mbind option_bind].
  eexists. split; [done|]. cbn [mms_ok mms_equals]. rewrite Z.eqb_refl, bitSize_bytes_eq by lia.
  split; [done|]. split; [|by intros []]. apply memcmp_eq_refl. pose proof (zlen_nonneg b). lia.
Qed.

Lemma taken_octets a b :
  apv_ok a -> apv_ok b -> apv_size b <= apv_maxSize a -> at_pos buffer pos (apv_content b) ->
  exists a', parse_octets a buffer pos (zlen (apv_content b)) = Some (a', NO_ERROR) /\ apv_ok a' /\
    apv_maxSize a' = apv_maxSize a /\ Asn1PrimitivaValue_compare b a' = Some true.
Proof.
  intros Ha Hb Hle Hat. pose proof (zlen_apv_content b Hb) as Hz. pose proof (zlen_nonneg (apv_content b)).
  unfold parse_octets. if_true. rewrite (at_pos_range _ _ _ Hat). cbn [mbind option_bind].
  pose proof Ha as (H1 & H2 & H3 & H4). rewrite st_range_front by lia. cbn [mbind option_bind].
  unfold u8. rewrite (Z.mod_small (zlen (apv_content b))) by lia.
  destruct (overwrite_holds a (apv_content b) (zlen (apv_content b))) as [Hok Hc];
    [done | by apply apv_content_ok | lia | done |].
  eexists. split; [done|]. split; [done|]. split; [done|]. by apply compare_same.
Qed.

Lemma taken_float ew w buf ew' buf' :
  mms_ok (MmsFloat ew w buf) -> sendable (MmsFloat ew' w buf') ->
  at_pos buffer pos (mms_content (MmsFloat ew' w buf')) ->
  taken (MmsFloat ew w buf) (MmsFloat ew' w buf')
    (parse_float (MmsFloat ew w buf) buffer pos (zlen (mms_content (MmsFloat ew' w buf')))).
Proof.
  intros (He & Hw & Hz & Hb) ((He' & _ & Hz' & Hb') & (_ & Hd) & _) Hat. cbn [mms_content] in *.
  pose proof (le_bytes_le_val buf' Hb') as Hle.
  rewrite take_ge in * by (unfold zlen in Hz'; lia). unfold parse_float. zlen. rewrite Hz'.
  assert (taken (MmsFloat ew w buf) (MmsFloat ew' w buf') (Some (MmsFloat ew w buf', NO_ERROR))) as Hgoal.
  { eexists. split; [done|]. split; [by cbn|]. split; [|by intros []].
    cbn [mms_equals]. apply memcmp_eq_refl. pose proof (zlen_nonneg buf'). lia. }
  destruct Hd as [-> | ->]; cbn in Hz, Hz'; cbn [Z.div Z.div_eucl Z.pos_div_eucl].
  - change (1 + _ =? 9) with false. change (1 + _ =? 5) with true. cbv iota.
    rewrite (decodeFloat_spec ew' (reverse buf')) by (zlen; done). cbn [mbind option_bind MmsValue_setFloat].
    change (32 =? 32) with true. cbv iota. rewrite be_val_reverse.
    replace 4%nat with (length buf') by (unfold zlen in Hz'; lia). rewrite Hle, st_range_whole by lia. done.
  - change (1 + _ =? 9) with true. cbv iota.
    rewrite (decodeDouble_spec ew' (reverse buf')) by (zlen; done). cbn [mbind option_bind MmsValue_setDouble].
    change (64 =? 32) with false. change (64 =? 64) with true. cbv iota. rewrite be_val_reverse.
    replace 8%nat with (length buf') by (unfold zlen in Hz'; lia). rewrite Hle, st_range_whole by lia. done.
Qed.

Lemma taken_octetString n m a n' m' b :
  mms_ok (MmsOctetString n m a) -> mms_ok (MmsOctetString n' m' b) ->
  at_pos buffer pos (mms_content (MmsOctetString n' m' b)) ->
  taken (MmsOctetString n m a) (MmsOctetString n' m' b)
    (parse_octetString (MmsOctetString n m a) buffer pos (zlen (mms_content (MmsOctetString n' m' b)))).
Proof.
  intros (H1 & H2 & H3 & H4) (G1 & G2 & G3 & G4) Hat. cbn [mms_content] in *. unfold parse_octetString.
  rewrite (at_pos_range _ _ _ Hat). cbn [mbind option_bind]. set (bs := take (Z.to_nat n') b) in *.
  assert (zlen bs = n') as Hz by (apply zlen_take; lia). rewrite Hz.
  assert (bytes_ok bs) by by apply Forall_take.
  unfold u16. rewrite (Z.mod_small n') by lia. btest.
  - destruct (overwrite_ok a bs) as [Ho Hl]; [done..|lia|]. rewrite st_range_front by lia.
    cbn [mbind option_bind]. eexists. split; [done|]. cbn [mms_ok mms_equals]. rewrite Z.eqb_refl.
    split; [split_and!; (done || lia)|]. split; [|by intros []].
    apply (memcmp_eq_front _ _ bs); [done | apply take_at_pos | apply at_pos_prefix].
  - eexists. split; [done|]. cbn [mms_ok mms_equals]. rewrite Z.eqb_refl.
    split; [split_and!; (done || lia)|]. split; [|by intros []].
    apply (memcmp_eq_front _ _ bs); [done | apply take_at_pos | apply at_pos_whole].
Qed.

Lemma taken_visibleString a n b m :
  mms_ok (MmsVisibleString a n) -> sendable (MmsVisibleString b m) ->
  at_pos buffer pos (mms_content (MmsVisibleString b m)) ->
  taken (MmsVisibleString a n) (MmsVisibleString b m)
    (parse_visibleString (MmsVisibleString a n) buffer pos (zlen (mms_content (MmsVisibleString b m)))).
Proof.
  intros Hold (Hnew & _ & Hc & _) Hat. destruct b as [b|]; [|done]. destruct Hnew as (Ht & Hb & _).
  cbn [mms_content ber_string] in *. set (s := c_string b) in *.
  assert (bytes_ok s) as Hs by by apply c_string_bytes. pose proof (zlen_nonneg s).
  assert (forall buf size, string_block_ok (Some buf) size -> c_string buf = s ->
    taken (MmsVisibleString a n) (MmsVisibleString (Some b) m) (Some (MmsVisibleString (Some buf) size, NO_ERROR))) as Hgoal.
  { intros buf size Hok Hcs. eexists. split; [done|]. split; [done|]. split; [|by intros []].
    cbn [mms_equals]. destruct Hok as [? _]. rewrite strcmp_eq_spec by done.
    by rewrite bool_decide_eq_true_2. }
  assert (exists buf size, createNewStringFromBufferElement (ptr_add buffer pos) (zlen s) = Some (Some buf, size)
    /\ string_block_ok (Some buf) size /\ c_string buf = s) as (nbuf & nsize & Hnew & Hnok & Hncs).
  { unfold createNewStringFromBufferElement. rewrite (at_pos_range _ _ _ (at_pos_ptr _ _ _ Hat)).
    cbn [mbind option_bind]. do 2 eexists. split; [done|]. split; [by apply string_of_bytes_ok|].
    apply c_string_terminated. apply c_string_no_zero. }
  unfold parse_visibleString. destruct a as [a|]; [|rewrite Hnew; by apply Hgoal].
  btest; [|rewrite Hnew; by apply Hgoal]. destruct Hold as (Hta & Hba & Hza).
  rewrite (at_pos_range _ _ _ Hat). cbn [mbind option_bind]. rewrite st_range_front by lia.
  cbn [mbind option_bind].
  assert (zlen (s ++ drop (length s) a) = zlen a) as Hl. { unfold zlen in *. rewrite length_app, length_drop. lia. }
  rewrite st_Some by lia. cbn [mbind option_bind]. rewrite zlen_to_nat, insert_app_r_alt, Nat.sub_diag by lia.
  destruct (drop (length s) a) as [|c rest] eqn:Hdrop; [zlia|]. cbn [insert list_insert]. apply Hgoal.
  - cbn. split_and!; [| |zlia].
    + apply elem_of_app. right. apply elem_of_cons. by left.
    + apply Forall_app. split; [done|]. constructor; [unfold is_byte; lia|].
      assert (bytes_ok (drop (length s) a)) as Hda by by apply Forall_drop. rewrite Hdrop in Hda. by apply Forall_inv_tail in Hda.
  - apply c_string_terminated, c_string_no_zero.
Qed.

Lemma taken_binaryTime n a m b :
  mms_ok (MmsBinaryTime n a) -> mms_ok (MmsBinaryTime m b) -> n = m ->
  at_pos buffer pos (mms_content (MmsBinaryTime m b)) ->
  taken (MmsBinaryTime n a) (MmsBinaryTime m b)
    (parse_binaryTime (MmsBinaryTime n a) buffer pos (zlen (mms_content (MmsBinaryTime m b)))).
Proof.
  intros (H1 & H2 & H3) (_ & G2 & G3) <- Hat. cbn [mms_content] in *. unfold parse_binaryTime.
  set (bs := take (Z.to_nat n) b) in *. assert (zlen bs = n) as Hz by (apply zlen_take; lia).
  replace ((zlen bs =? 4) || (zlen bs =? 6)) with true by lia.
  rewrite (at_pos_range _ _ _ Hat). cbn [mbind option_bind].
  destruct (overwrite_ok a bs) as [Ho Hl]; [done | by apply Forall_take | lia |]. rewrite st_range_front by lia.
  cbn [mbind option_bind]. eexists. split; [done|]. cbn [mms_ok mms_equals]. rewrite Z.eqb_refl.
  split; [split_and!; (done || lia)|]. split; [|by intros []].
  apply (memcmp_eq_front _ _ bs); [done | apply take_at_pos | apply at_pos_prefix].
Qed.

Lemma taken_utcTime a b :
  mms_ok (MmsUtcTime a) -> mms_ok (MmsUtcTime b) -> at_pos buffer pos b ->
  taken (MmsUtcTime a) (MmsUtcTime b) (parse_utcTime (MmsUtcTime a) buffer pos (zlen b)).
Proof.
  intros (H1 & H2) (G1 & G2) Hat. unfold parse_utcTime. rewrite G1. change (8 =? 8) with true. cbv iota.
  pose proof (at_pos_range _ _ _ (at_pos_ptr _ _ _ Hat)) as Hr. rewrite G1 in Hr.
  cbn [MmsValue_setUtcTimeByBuffer]. rewrite Hr. cbn [mbind option_bind]. rewrite st_range_whole by lia.
  cbn [mbind option_bind]. eexists. split; [done|]. split; [done|]. split; [|by intros []].
  apply memcmp_eq_refl. lia.
Qed.
End Taken.

Definition updates (old : MmsValue) : Prop :=
  mms_ok old -> is_complex old -> forall new buffer,
  accepts old new -> sendable new -> at_pos buffer 0 (mms_content new) ->
  taken old new (parseAllData old buffer (zlen (mms_content new))).

Lemma parse_element_taken old new buffer pos :
  updates old -> mms_ok old -> accepts old new -> sendable new ->
  at_pos buffer pos (mms_content new) ->
  taken old new (parse_element parseAllData (mms_tag new) old buffer pos (zlen (mms_content new))).
Proof.
  intros Hup Hold Hacc Hnew Hat. pose proof Hnew as (Hok & Hd & _).
  assert (is_complex old -> taken old new
    ('(value, pe) ← parseAllData old (ptr_add buffer pos) (zlen (mms_content new));
     Some (value, if decide (pe = NO_ERROR) then NO_ERROR else GOOSE_PARSE_ERROR_SUBLEVEL))) as Hsub.
  { intros Hc. destruct (Hup Hold Hc new (ptr_add buffer pos) Hacc Hnew) as (v & -> & Hv); [by apply at_pos_ptr|].
    cbn [mbind option_bind]. rewrite decide_True by done. by exists v. }
  unfold parse_element. destruct old, new; try done; cbn [mms_tag Z.eqb Pos.eqb].
  - by apply Hsub.
  - by apply Hsub.
  - cbn [mms_content] in Hat. rewrite (decodeBoolean_spec _ _ boolean0 [] Hat). cbn [mbind option_bind].
    eexists. split; [done|]. split; [done|]. split; [|by intros []]. cbn. by rewrite eqb_reflx.
  - by apply taken_bitString.
  - destruct (taken_octets buffer pos integer integer0) as (a & Ha & ? & Hm & ?); [done..|].
    cbn [mms_content]. rewrite Ha. cbn [mbind option_bind]. eexists. split; [done|]. split; [done|].
    split; [done|]. intros []; cbn; try done. by rewrite Hm.
  - destruct (taken_octets buffer pos integer integer0) as (a & Ha & ? & Hm & ?); [done..|].
    cbn [mms_content]. rewrite Ha. cbn [mbind option_bind]. eexists. split; [done|]. split; [done|].
    split; [done|]. intros []; cbn; try done. by rewrite Hm.
  - cbn in Hacc. subst. by apply taken_float.
  - by apply taken_octetString.
  - by apply taken_visibleString.
  - by apply taken_binaryTime.
  - by apply taken_utcTime.
Qed.

Lemma sendable_components xs :
  sendable (MmsArray xs) \/ sendable (MmsStructure xs) -> all_components sendable False xs.
Proof.
  assert (all_components mms_ok True xs -> all_components decodable False xs ->
    all_components mms_complete False xs -> all_components padding_clear False xs ->
    all_components sendable False xs) as H.
  { induction xs as [|[x|] xs IH]; cbn [all_components]; [done| |tauto].
    intros [] [] [] []. split; [done | by apply IH]. }
  intros [(H1 & (_ & _ & H2 & _) & H3 & H4)|(H1 & (_ & _ & H2 & _) & H3 & H4)]; by apply H.
Qed.

Lemma parse_components_taken xs :
  Forall (on_component updates) xs -> forall ys buffer pos allDataLength elementLength,
  all_components mms_ok True xs -> accepts_components accepts xs ys -> all_components sendable False ys ->
  at_pos buffer pos (components_bytes ys) -> allDataLength = pos + zlen (components_bytes ys) ->
  exists zs, parse_components parseAllData xs buffer pos allDataLength elementLength = Some (zs, NO_ERROR) /\
    all_components mms_ok True zs /\ equals_components mms_equals ys zs = Some true /\ zlen ys = zlen zs /\
    (forall ys', accepts_components accepts xs ys' -> accepts_components accepts zs ys').
Proof.
  induction 1 as [|[x|] xs Hx _ IH]; intros [|[y|] ys] buffer pos allDataLength elementLength Hok Hacc Hs Hat ->;
    try done; cbn [parse_components].
  - change (components_bytes []) with (@nil Z). rewrite zlen_nil. if_false. by exists [].
  - destruct Hok as [Hok Hoks], Hacc as [Hacc Haccs], Hs as [Hs Hss]. pose proof Hs as (_ & Hd & _).
    pose proof (at_pos_bounds _ _ _ Hat).
    destruct (component_head _ _ _ _ elementLength _ Hat Hd ltac:(done)) as (Hld & Hlen & Hp & Hend & Hatx & Hats).
    rewrite components_bytes_cons, zlen_app in *.
    pose proof (zlen_nonneg (components_bytes ys)). pose proof (zlen_nonneg (mms_content y)).
    if_true. rewrite Hld. cbn [mbind option_bind]. rewrite Hlen. cbn [mbind option_bind]. if_false.
    set (p := pos + 1 + zlen (ber_length (zlen (mms_content y)))) in *.
    assert (at_pos buffer p (mms_content y)) as Hatc.
    { pose proof Hatx as Ha. rewrite mms_bytes_tlv in Ha. unfold ber_tlv in Ha.
      apply at_pos_cons in Ha as [_ Ha]. by apply at_pos_app in Ha as [_ Ha]. }
    destruct (parse_element_taken x y buffer p Hx Hok Hacc Hs Hatc) as (v & -> & Hv & He & Ha).
    cbn [mbind option_bind]. rewrite decide_True by done.
    destruct (IH ys buffer (p + zlen (mms_content y)) (pos + (zlen (mms_bytes y) + zlen (components_bytes ys)))
      (zlen (mms_content y)) Hoks Haccs Hss Hats) as (zs & -> & Hzs & Hes & Hl & Hacs); [lia|].
    cbn [mbind option_bind]. eexists. split; [done|]. cbn. rewrite He. cbn. split_and!; try done; [zlia|].
    intros [|[y'|] ys']; try done. intros []. split; auto.
Qed.

Lemma updates_all v : updates v.
Proof.
  mms_ind v.
  1-2: intros Hok _ new buffer Hacc Hs Hat; destruct new as [ys|ys| | | | | | | | | | | ]; try done;
    cbn [mms_content parseAllData] in *;
    destruct (parse_components_taken xs IH ys buffer 0 (zlen (components_bytes ys)) 0)
      as (zs & -> & Hzs & Hes & Hl & Hacs); [done | done | apply sendable_components; auto | done | lia |];
    cbn [mbind option_bind]; eexists; split; [done|]; split; [done|]; cbn [mms_equals];
    rewrite Hl, Z.eqb_refl; split; [done|]; intros []; cbn; try done; apply Hacs.
  intros _ Hc. by destruct v.
Qed.

(** ** A data set that was built from a message has room for the next one *)

Lemma accepts_decoded v : mms_ok v -> decodable v -> goose_value v -> accepts (decoded v) v.
Proof.
  mms_ind v.
  1-2: intros Hok (_ & _ & Hd & _) Hg; cbn [mms_ok goose_value decoded accepts] in *;
    induction IH as [|[x|] xs Hx _ IHxs]; cbn in *; [done| |by destruct Hd];
    destruct Hok, Hd, Hg; split; auto.
  destruct v; try done; cbn [decoded accepts mms_ok decodable apv_maxSize apv_of]; intros Hok [_ Hd] _.
  - rewrite <- (zlen_apv_content integer) by done. apply int_maxSize_ge. rewrite zlen_apv_content by done. lia.
  - rewrite <- (zlen_apv_content integer) by done. apply int_maxSize_ge. rewrite zlen_apv_content by done. lia.
Qed.
