(* ===== verification/GooseRoundtrip.v ===== *)
(** From the publisher to the subscriber: the frame [GoosePublisher_publish]
    sends, handed to the receiver, updates the subscriber that listens to the
    control block with what was published. *)

From S2P Require Import Prelude BerEncoder BerDecoder BerInteger StringUtils CFloat MmsValue MmsFacts MmsData GoosePublisher GooseSubscriber GooseReceiver GooseSafety GooseDataSet.
Open Scope Z_scope.

(** * The subscriber *)

(** The subscriber is registered for the control block reference [ref]. *)
Definition listens (s : GooseSubscriber) (ref : list Z) : Prop :=
  gs_isObserver s = false /\ gs_goCBRefLen s = zlen ref /\ at_pos (gs_goCBRef s) 0 ref.

(** A subscriber in front of it that is registered for another one. *)
Definition ignores (ref : list Z) (s : GooseSubscriber) : Prop :=
  gs_isObserver s = false /\ subscriber_ok s /\
  (gs_goCBRefLen s = zlen ref -> exists other, at_pos (gs_goCBRef s) 0 other /\ zlen other = zlen ref /\ other <> ref).

Lemma find_subscriber_listens pre s post ref buffer pos :
  Forall (ignores ref) pre -> listens s ref -> at_pos buffer pos ref ->
  find_subscriber (pre ++ s :: post) buffer pos (zlen ref) = Some (pre ++ s :: post, Some (length pre)).
Proof.
  intros Hpre (Ho & Hlen & Href) Hat. induction Hpre as [|x pre (Hox & Hok & Hne) _ IH]; cbn [app find_subscriber].
  - rewrite Ho, Hlen, Z.eqb_refl, (at_pos_range _ _ _ Hat). cbn [mbind option_bind]. unfold memcmp_eq.
    rewrite (at_pos_range _ _ _ Href). cbn [mbind option_bind]. rewrite (ld_range_whole ref) by done.
    cbn [mbind option_bind]. by rewrite bool_decide_eq_true_2.
  - rewrite Hox. replace (if gs_goCBRefLen x =? zlen ref then _ else _) with (Some false).
    + cbn [mbind option_bind]. rewrite IH. done.
    + btest; [|done]. destruct (Hne E) as (other & Hao & Hzo & Hd). rewrite (at_pos_range _ _ _ Hat).
      cbn [mbind option_bind]. unfold memcmp_eq. rewrite <- Hzo at 1. rewrite (at_pos_range _ _ _ Hao).
      cbn [mbind option_bind]. rewrite (ld_range_whole ref) by done. cbn [mbind option_bind].
      by rewrite bool_decide_eq_false_2.
Qed.

(** Only the strings of the message were stored. *)
Definition same_core (s s' : GooseSubscriber) : Prop :=
  gs_message s' = gs_message s /\ gs_link s' = gs_link s /\ gs_isObserver s' = gs_isObserver s /\
  gs_listener s' = gs_listener s /\ gs_goCBRef s' = gs_goCBRef s /\ gs_goCBRefLen s' = gs_goCBRefLen s /\
  zlen (gs_datSet s') = 130 /\ zlen (gs_goId s') = 130.

Lemma store_reference_at member buffer pos bs :
  zlen member = 130 -> at_pos buffer pos bs ->
  exists member', store_reference member buffer pos (zlen bs) = Some member' /\ zlen member' = 130.
Proof.
  intros Hm Hat. unfold store_reference. pose proof (zlen_nonneg bs). btest; [by eexists|].
  rewrite (at_pos_range _ _ _ Hat). cbn [mbind option_bind].
  rewrite st_range_front by lia. cbn [mbind option_bind].
  assert (zlen (bs ++ drop (length bs) member) = 130) as Hl.
  { unfold zlen in *. rewrite length_app, length_drop. lia. }
  rewrite st_Some by lia. eexists. split; [done|]. zlia.
Qed.

Lemma insert_middle {A} (pre post : list A) x y : <[length pre := y]> (pre ++ x :: post) = pre ++ y :: post.
Proof. rewrite insert_app_r_alt by lia. by rewrite Nat.sub_diag. Qed.

Lemma on_matching_middle pre s post (f : GooseSubscriber -> option GooseSubscriber) s' :
  f s = Some s' -> on_matching (pre ++ s :: post) (Some (length pre)) f = Some (pre ++ s' :: post).
Proof.
  intros Hf. cbn. rewrite list_lookup_middle by done. cbn. rewrite Hf. cbn. by rewrite insert_middle.
Qed.

(** * The fields *)

(** One turn of the loop over the fields. *)
Lemma payload_loop_step fuel subs f buffer pos gooseEnd apduLength t c fs :
  at_pos buffer pos (fields_bytes ((t, c) :: fs)) ->
  zlen (fields_bytes ((t, c) :: fs)) < 65536 ->
  pos + zlen (fields_bytes ((t, c) :: fs)) = gooseEnd -> gooseEnd <= apduLength ->
  let p := pos + 1 + zlen (ber_length (zlen c)) in
  at_pos buffer p c /\ at_pos buffer (pos + zlen (ber_tlv t c)) (fields_bytes fs) /\
  payload_loop (S fuel) subs f buffer pos gooseEnd apduLength
  = ('(subs, r) ← payload_field subs f t buffer p (zlen c);
     match r with
     | None => Some (subs, None)
     | Some f => payload_loop fuel subs f buffer (pos + zlen (ber_tlv t c)) gooseEnd apduLength
     end).
Proof.
  intros Hat Hlt He Ha. rewrite fields_bytes_cons in *. apply at_pos_app in Hat as [Hat Hats].
  rewrite zlen_app in *. pose proof (zlen_nonneg (fields_bytes fs)). pose proof (zlen_nonneg c).
  destruct (tlv_head buffer pos t c 0 apduLength Hat) as (Hld & Hlen & Hatc & Hend).
  { rewrite zlen_ber_tlv in Hlt. pose proof (zlen_ber_length_bounds (zlen c)). lia. }
  { lia. }
  pose proof (at_pos_bounds _ _ _ Hat). split; [done|]. split; [done|]. cbn [payload_loop].
  rewrite zlen_ber_tlv in He. pose proof (zlen_ber_length_bounds (zlen c)).
  if_true. rewrite Hld. cbn [mbind option_bind]. rewrite Hlen. cbn [mbind option_bind]. if_false.
  by rewrite Hend.
Qed.

(** the local variables after the fields of a message *)
Definition message_locals (self : GoosePublisher) (n : Z) (i : nat) (t d : list Z) (dsl : Z) : PayloadFields :=
  mkPayloadFields (gp_timeAllowedToLive self) (gp_stNum self) (gp_sqNum self) (gp_confRev self)
    (gp_simulation self) (gp_needsCommission self) (Some i) (Some t) (Some d) dsl n.

Ltac field_step :=
  match goal with
  | H : at_pos ?buffer ?pos (fields_bytes ((?t, ?c) :: ?fs)) |- context [payload_loop (S ?fuel) ?subs ?f _ _ ?ge ?al] =>
      let Hc := fresh "Hc" in let Hn := fresh "Hn" in let Hs := fresh "Hs" in
      destruct (payload_loop_step fuel subs f buffer pos ge al t c fs H) as (Hc & Hn & Hs);
      [ rewrite ?zlen_fields_bytes_cons in *; lia
      | rewrite ?zlen_fields_bytes_cons in *; lia
      | lia | rewrite Hs; clear Hs H; pose proof (zlen_nonneg (ber_tlv t c));
        unfold payload_field at 1; cbn [Z.eqb Pos.eqb] ]
  end.

Lemma payload_fields_spec self dataSet pre s post buffer pos gooseEnd apduLength k :
  publisher_ok self -> zlen dataSet < 4294967296 ->
  Forall (ignores (ber_string (gp_goCBRef self))) pre -> listens s (ber_string (gp_goCBRef self)) -> subscriber_ok s ->
  at_pos buffer pos (goose_content self dataSet) -> zlen (goose_content self dataSet) < 65536 ->
  pos + zlen (goose_content self dataSet) = gooseEnd -> gooseEnd <= apduLength ->
  exists s' t d, payload_loop (13 + k) (pre ++ s :: post) initialFields buffer pos gooseEnd apduLength
    = Some (pre ++ s' :: post,
            Some (message_locals self (zlen dataSet) (length pre) t d (zlen (components_bytes dataSet)))) /\
    same_core s s' /\ at_pos t 0 (utc_bytes (gp_timestamp self)) /\ at_pos d 0 (components_bytes dataSet).
Proof.
  intros Hok Hn Hpre Hl Hs Hat Hlt He Ha. pose proof Hs as (Hz1 & Hz2 & Hz3 & _).
  destruct Hok as (_ & _ & _ & _ & _ & _ & Hcr & Hst & Hsq & Httl & _).
  unfold goose_content, message_fields, pdu_fields, initialFields in *. cbn [app] in *.
  pose proof (zlen_nonneg dataSet).
  cbn [Nat.add]. field_step.
  rewrite (find_subscriber_listens pre s post _ _ _ Hpre Hl Hc). cbn [mbind option_bind].
  field_step. rewrite (decodeUint32_uint32 _ _ _ _ Httl Hc0 eq_refl). cbn [mbind option_bind].
  field_step. destruct (store_reference_at (gs_datSet s) _ _ _ Hz2 Hc1) as (r1 & Hr1 & Hzr1).
  rewrite (on_matching_middle pre s post _ (with_datSet s r1)) by (rewrite Hr1; done). cbn [mbind option_bind].
  field_step. destruct (store_reference_at (gs_goId s) _ _ _ Hz3 Hc2) as (r2 & Hr2 & Hzr2).
  rewrite (on_matching_middle pre (with_datSet s r1) post _ (with_goId (with_datSet s r1) r2))
    by (replace (gs_goId (with_datSet s r1)) with (gs_goId s) by (by destruct s); rewrite Hr2; done).
  cbn [mbind option_bind].
  field_step. cbn [mbind option_bind].
  field_step. rewrite (decodeUint32_uint32 _ _ _ _ Hst Hc4 eq_refl). cbn [mbind option_bind].
  field_step. rewrite (decodeUint32_uint32 _ _ _ _ Hsq Hc5 eq_refl). cbn [mbind option_bind].
  field_step. rewrite (decodeBoolean_spec _ _ (gp_simulation self) [] Hc6). cbn [mbind option_bind].
  field_step. rewrite (decodeUint32_uint32 _ _ _ _ Hcr Hc7 eq_refl). cbn [mbind option_bind].
  field_step. rewrite (decodeBoolean_spec _ _ (gp_needsCommission self) [] Hc8). cbn [mbind option_bind].
  field_step. rewrite (decodeUint32_uint32 _ _ (zlen dataSet) _ ltac:(unfold is_u32; lia) Hc9 eq_refl). cbn [mbind option_bind].
  field_step. cbn [mbind option_bind].
  rewrite ?zlen_fields_bytes_cons in *. change (zlen (fields_bytes [])) with 0 in *.
  cbn [payload_loop]. if_false.
  eexists _, _, _. split; [done|]. split; [|split; by apply at_pos_ptr].
  destruct s. unfold same_core. cbn. split_and!; done.
Qed.

(** * The state of the subscriber *)

(** The subscriber's copy of the data set is rebuilt by the message, or it has
    room for it. *)
Definition ready (m : MessageState) (confRev : Z) (dataSet : list (option MmsValue)) : Prop :=
  match ms_dataSetValues m with
  | None => True
  | Some d =>
      ms_dataSetValuesSelfAllocated m = true /\ ms_confRev m <> confRev \/
      mms_ok d /\ accepts d (MmsArray dataSet)
  end.

(** The message of [self] with the entries [dataSet], received at [now] by a
    subscriber in the state [m], leaves the state [m']. *)
Definition delivered (self : GoosePublisher) (dataSet : list (option MmsValue)) (now : Z)
    (m m' : MessageState) : Prop :=
  ms_timeAllowedToLive m' = gp_timeAllowedToLive self /\ ms_stNum m' = gp_stNum self /\
  ms_sqNum m' = gp_sqNum self /\ ms_confRev m' = gp_confRev self /\ ms_timestamp m' = gp_timestamp self /\
  ms_simulation m' = gp_simulation self /\ ms_ndsCom m' = gp_needsCommission self /\
  ms_invalidityTime m' = u64 (now + gp_timeAllowedToLive self) /\
  ms_stateValid m' = negb ((ms_stNum m =? gp_stNum self) && (gp_sqNum self <=? ms_sqNum m)) /\
  exists d, ms_dataSetValues m' = Some d /\ mms_ok d /\ mms_equals (MmsArray dataSet) d = Some true.

(** Which data sets the copy has room for afterwards. *)
Definition stays_ready (m m' : MessageState) (dataSet : list (option MmsValue)) : Prop :=
  exists d, ms_dataSetValues m' = Some d /\ mms_ok d /\
  forall dataSet',
  (forall d0, ms_dataSetValues m = Some d0 -> accepts d0 (MmsArray dataSet) -> accepts d0 (MmsArray dataSet')) ->
  accepts (decoded (MmsArray dataSet)) (MmsArray dataSet') -> accepts d (MmsArray dataSet').

Lemma components_depth_le xs :
  Forall (on_component (fun v => decodable v -> (mms_depth v <= length (mms_bytes v))%nat)) xs ->
  all_components decodable False xs -> (components_depth xs <= length (components_bytes xs))%nat.
Proof.
  induction 1 as [|[x|] xs Hx _ IH]; cbn [all_components]; [done| |tauto]. intros [Hd Hds].
  change (components_depth (Some x :: xs)) with (Nat.max (mms_depth x) (components_depth xs)).
  rewrite components_bytes_cons, length_app. specialize (Hx Hd). specialize (IH Hds). lia.
Qed.

Lemma depth_le_bytes v : decodable v -> (mms_depth v <= length (mms_bytes v))%nat.
Proof.
  mms_ind v.
  1-2: intros (_ & _ & Hd & _); destruct (mms_depth_components xs) as [Ha Hs]; rewrite ?Ha, ?Hs;
    rewrite ?mms_bytes_array, ?mms_bytes_structure; pose proof (components_depth_le xs IH Hd);
    unfold ber_tlv; cbn [length]; rewrite length_app; lia.
  intros _. pose proof (zlen_mms_bytes v) as Hz. unfold zlen in Hz.
  assert (mms_depth v = 1%nat) by (by destruct v). lia.
Qed.

Lemma decoded_ok v : mms_ok v -> decodable v -> mms_ok (decoded v).
Proof.
  mms_ind v.
  1-2: intros Hok (_ & _ & Hd & _); cbn [mms_ok decoded] in *;
    induction IH as [|[x|] xs Hx _ IHxs]; cbn in *; [done| |by destruct Hd]; destruct Hok, Hd; split; auto.
  intros Hok Hd. destruct (simple_value v Hok Hd Hsimple) as [Hv Hc].
  eapply primitive_value_ok; [by apply mms_content_ok | by apply decodable_content | done | done].
Qed.

Lemma message_update_spec self dataSet m n i t d now :
  publisher_ok self -> sendable (MmsArray dataSet) -> goose_value (MmsArray dataSet) ->
  message_ok m -> ready m (gp_confRev self) dataSet ->
  at_pos t 0 (utc_bytes (gp_timestamp self)) -> at_pos d 0 (components_bytes dataSet) ->
  exists m', message_update false m (message_locals self n i t d (zlen (components_bytes dataSet))) now = Some m' /\
    delivered self dataSet now m m' /\ stays_ready m m' dataSet.
Proof.
  intros Hok Hs Hg (M1 & M2 & M3 & M4 & (tb & M5 & M5' & _) & M6) Hr Ht Hd.
  destruct Hok as (_ & _ & _ & _ & _ & _ & _ & _ & _ & _ & utc & Hutc & Hz & _). rewrite Hutc in Ht.
  cbn [utc_bytes] in Ht. destruct m as [ttl0 st0 sq0 cr0 ts0 si0 nc0 inv0 val0 pe0 d0 sa0].
  cbn [ms_timestamp] in M5. subst ts0. unfold message_update, message_locals. cbv zeta.
  pose proof (at_pos_range _ _ _ Ht) as Hrt. rewrite Hz in Hrt. cbn [MmsValue_setUtcTimeByBuffer].
  rewrite Hrt. cbn [mbind option_bind]. rewrite st_range_whole by lia. cbn [mbind option_bind].
  pose proof Hs as (Hmok & Hdec & Hcomp & Hpad).
  assert (parseAllDataUnknownValue (S (Z.to_nat (zlen (components_bytes dataSet)))) sa0 (default [] (Some d))
            (zlen (components_bytes dataSet)) false = Some (true, Some (decoded (MmsArray dataSet)))) as Hun.
  { apply (rebuilds_all (MmsArray dataSet) Hmok Hdec Hg); [done|].
    destruct (mms_depth_components dataSet) as [-> _]. apply le_n_S. rewrite zlen_to_nat.
    apply components_depth_le; [|by destruct Hdec as (_ & _ & ? & _)].
    apply Forall_true. intros [x|]; [exact (depth_le_bytes x) | done]. }
  assert (Hfin : forall sa pe (valid : bool) d', mms_ok d' -> mms_equals (MmsArray dataSet) d' = Some true -> valid = true ->
    (forall dataSet',
      (forall d1, d0 = Some d1 -> accepts d1 (MmsArray dataSet) -> accepts d1 (MmsArray dataSet')) ->
      accepts (decoded (MmsArray dataSet)) (MmsArray dataSet') -> accepts d' (MmsArray dataSet')) ->
    let m' := mkMessageState (gp_timeAllowedToLive self) (gp_stNum self) (gp_sqNum self) (gp_confRev self)
      (MmsUtcTime utc) (gp_simulation self) (gp_needsCommission self) (u64 (now + gp_timeAllowedToLive self))
      (if st0 =? gp_stNum self then if gp_sqNum self <=? sq0 then false else valid else valid) pe (Some d') sa in
    delivered self dataSet now (mkMessageState ttl0 st0 sq0 cr0 (MmsUtcTime tb) si0 nc0 inv0 val0 pe0 d0 sa0) m' /\
    stays_ready (mkMessageState ttl0 st0 sq0 cr0 (MmsUtcTime tb) si0 nc0 inv0 val0 pe0 d0 sa0) m' dataSet).
  { intros sa pe valid d' Hd' He -> Hacc. split; [|by exists d'].
    unfold delivered. cbn. split_and!; try done; [by destruct (_ =? _), (_ <=? _) | by exists d']. }
  assert (Hmsg : forall o, o = (match d0 with Some _ => if sa0 && negb (cr0 =? gp_confRev self) then None else d0
                     | None => None end) ->
    o = None \/ exists d1, o = Some d1 /\ d0 = Some d1 /\ mms_ok d1 /\ accepts d1 (MmsArray dataSet)).
  { intros o ->. unfold ready in Hr. cbn in Hr. destruct d0 as [d1|]; [|by left].
    destruct (sa0 && _) eqn:E; [by left|]. right. exists d1. destruct Hr as [[-> Hne]|[? ?]]; [lia|done]. }
  destruct (Hmsg _ eq_refl) as [->|(d1 & -> & Hd0 & Hok1 & Hacc1)].
  - rewrite Hun. cbn [mbind option_bind]. eexists. split; [done|]. apply Hfin; [by apply decoded_ok | by apply decoded_equals | done | auto].
  - destruct (updates_all d1) with (new := MmsArray dataSet) (buffer := default [] (Some d))
      as (d' & Hp & Hd' & He & Hkeep); [done | by destruct d1 | done | done | done |].
    cbn [mms_content] in Hp. rewrite Hp. cbn [mbind option_bind]. eexists. split; [done|].
    apply Hfin; [done | done | by apply bool_decide_eq_true_2 |]. intros dataSet' H0 _. apply Hkeep. by apply H0.
Qed.

(** The payload of a message updates the subscriber that listens to it. *)
Lemma parseGoosePayload_spec self dataSet pre s post buffer now :
  publisher_ok self -> zlen dataSet < 4294967296 -> sendable (MmsArray dataSet) -> goose_value (MmsArray dataSet) ->
  Forall (ignores (ber_string (gp_goCBRef self))) pre -> listens s (ber_string (gp_goCBRef self)) ->
  subscriber_ok s -> ready (gs_message s) (gp_confRev self) dataSet ->
  at_pos buffer 0 (goose_bytes self dataSet) -> zlen (goose_bytes self dataSet) < 65536 ->
  exists s' m', parseGoosePayload (pre ++ s :: post) buffer (zlen (goose_bytes self dataSet)) now
    = Some (1, pre ++ with_message s' m' :: post, if gs_listener s then Some (length pre) else None) /\
    same_core s s' /\ delivered self dataSet now (gs_message s) m' /\ stays_ready (gs_message s) m' dataSet.
Proof.
  intros Hok Hn Hs Hg Hpre Hl Hsub Hr Hat Hlt. pose proof Hl as (Hobs & _).
  unfold goose_bytes in *.
  destruct (tlv_head buffer 0 0x61 (goose_content self dataSet) 0 (zlen (ber_tlv 0x61 (goose_content self dataSet))))
    as (Hld & Hlen & Hatc & Hend); [done | | lia |].
  { rewrite zlen_ber_tlv in Hlt. pose proof (zlen_ber_length_bounds (zlen (goose_content self dataSet))). lia. }
  pose proof (zlen_ber_length_bounds (zlen (goose_content self dataSet))) as Hb.
  unfold parseGoosePayload. rewrite Hld. cbn [mbind option_bind]. change (0x61 =? 0x61) with true. cbv iota.
  rewrite Z.add_0_l in Hlen, Hatc. rewrite Hlen. cbn [mbind option_bind]. if_false.
  assert (13 <= S (Z.to_nat (zlen (goose_content self dataSet))))%nat as Hfuel.
  { rewrite goose_content_split. unfold pdu_fields. rewrite zlen_app, !zlen_fields_bytes_cons, !zlen_tlv_uint32, !zlen_tlv_bool.
    pose proof (zlen_ber_uint32 (gp_timeAllowedToLive self)). pose proof (zlen_ber_uint32 (gp_stNum self)).
    pose proof (zlen_ber_uint32 (gp_sqNum self)). pose proof (zlen_ber_uint32 (gp_confRev self)).
    pose proof (zlen_nonneg (ber_tlv 128 (ber_string (gp_goCBRef self)))).
    pose proof (zlen_nonneg (ber_tlv 130 (ber_string (gp_dataSetRef self)))).
    pose proof (zlen_nonneg (ber_tlv 131 (ber_string (effective_goID self)))).
    pose proof (zlen_nonneg (ber_tlv 132 (utc_bytes (gp_timestamp self)))).
    pose proof (zlen_nonneg (ber_tlv 171 (components_bytes dataSet))).
    pose proof (zlen_ber_uint32 (zlen dataSet)). pose proof (zlen_nonneg (fields_bytes [])). lia. }
  destruct (Nat.le_exists_sub _ _ Hfuel) as (k & Hk & _). rewrite Hk, Nat.add_comm.
  rewrite zlen_ber_tlv in *.
  destruct (payload_fields_spec self dataSet pre s post buffer
    (1 + zlen (ber_length (zlen (goose_content self dataSet))))
    (1 + zlen (ber_length (zlen (goose_content self dataSet))) + zlen (goose_content self dataSet))
    (1 + zlen (ber_length (zlen (goose_content self dataSet))) + zlen (goose_content self dataSet)) k)
    as (s' & t & d & -> & Hcore & Ht & Hd); [done.. | lia | done | lia |].
  cbn [mbind option_bind]. cbn [message_locals pf_matchingSubscriber].
  rewrite list_lookup_middle by done. cbn [mbind option_bind].
  pose proof Hcore as (Hm & _ & Ho & Hli & _). rewrite Hm, Ho, Hobs.
  destruct (message_update_spec self dataSet (gs_message s) (zlen dataSet) (length pre) t d now)
    as (m' & Hmu & Hdel & Hready); [done | done | done | by destruct Hsub as (_ & _ & _ & _ & _ & _ & ?) | done | done | done |].
  unfold message_locals in Hmu |- *. rewrite Hmu. cbn [mbind option_bind].
  exists s', m'. rewrite insert_middle. split; [|done].
  replace (gs_listener (with_message s' m')) with (gs_listener s) by (rewrite <- Hli; by destruct s'). done.
Qed.

(** * The Ethernet frame *)

(** The header [prepareGooseBuffer] lays out, up to the length field. *)
Definition framed (self : GoosePublisher) (dst src vlan : list Z) (appId : Z) : Prop :=
  zlen dst = 6 /\ zlen src = 6 /\ (vlan = [] \/ exists t1 t2, vlan = [0x81; 0x00; t1; t2]) /\
  0 <= appId < 65536 /\
  gp_lengthField self = zlen vlan + 16 /\ gp_payloadStart self = zlen vlan + 22 /\
  exists l0 l1, take (Z.to_nat (gp_payloadStart self)) (gp_buffer self)
    = dst ++ src ++ vlan ++ [0x88; 0xb8; appId / 256; appId mod 256; l0; l1; 0; 0; 0; 0].

Definition frame_bytes (dst src vlan : list Z) (appId : Z) (payload : list Z) : list Z :=
  dst ++ src ++ vlan ++ [0x88; 0xb8; appId / 256; appId mod 256;
                         (zlen payload + 8) / 256; (zlen payload + 8) mod 256; 0; 0; 0; 0] ++ payload.

Lemma insert_front_at {A} (l k : list A) x y i :
  i = zlen l -> <[Z.to_nat i := y]> (l ++ x :: k) = l ++ y :: k.
Proof. intros ->. rewrite zlen_to_nat, insert_app_r_alt by lia. by rewrite Nat.sub_diag. Qed.

Lemma frame_header_spec self dst src vlan appId payload :
  publisher_ok self -> framed self dst src vlan appId ->
  frame_header self (zlen payload) ++ payload = frame_bytes dst src vlan appId payload.
Proof.
  intros Hok (Hd & Hs & Hv & Ha & Hlf & Hps & l0 & l1 & Hhdr). destruct Hok as (Hz & _).
  pose proof (zlen_nonneg vlan). unfold frame_header. rewrite !take_insert_lt by lia. rewrite Hhdr.
  set (n := zlen payload + 8).
  replace (dst ++ src ++ vlan ++ [0x88; 0xb8; appId / 256; appId mod 256; l0; l1; 0; 0; 0; 0])
    with ((dst ++ src ++ vlan ++ [0x88; 0xb8; appId / 256; appId mod 256]) ++ l0 :: [l1; 0; 0; 0; 0])
    by (rewrite <- !app_assoc; done).
  rewrite insert_front_at by (zlen; lia).
  set (p := dst ++ src ++ vlan ++ [0x88; 0xb8; appId / 256; appId mod 256]).
  assert (zlen p = zlen vlan + 16) as Hp by (unfold p; zlen; lia).
  replace (p ++ n / 256 :: [l1; 0; 0; 0; 0]) with ((p ++ [n / 256]) ++ l1 :: [0; 0; 0; 0]) by (rewrite <- app_assoc; done).
  rewrite insert_front_at by (rewrite zlen_app, Hp, Hlf; zlen; lia).
  unfold frame_bytes, p. rewrite <- !app_assoc. done.
Qed.

(** ** Reading the header *)

(** The subscriber takes messages with the destination and application id. *)
Definition interested (link : LinkState) (dst : list Z) (appId : Z) : Prop :=
  (ls_appId link = -1 \/ ls_appId link = appId) /\ (ls_dstMacSet link = false \/ ls_dstMac link = dst).

Lemma interested_subscriber_spec pre s post ref link :
  Forall (ignores ref) pre -> gs_isObserver s = false -> zlen (ls_dstMac link) = 6 ->
  interested (gs_link s) (ls_dstMac link) (ls_appId link) ->
  interested_subscriber (pre ++ s :: post) link = Some (pre ++ s :: post, true).
Proof.
  intros Hpre Ho Hz (Ha & Hm). induction Hpre as [|x pre (Hox & Hok & _) _ IH]; cbn [app interested_subscriber].
  - rewrite Ho. replace (_ || _) with true by lia.
    destruct (ls_dstMacSet (gs_link s)); [|done]. destruct Hm as [Hm|Hm]; [done|]. cbn [negb]. rewrite Hm.
    rewrite memcmp_eq_refl by lia. done.
  - rewrite Hox. pose proof Hok as (_ & _ & _ & _ & _ & Hmac & _).
    assert (exists b, (if (ls_appId (gs_link x) =? -1) || (ls_appId (gs_link x) =? ls_appId link)
        then if negb (ls_dstMacSet (gs_link x)) then Some true
             else memcmp_eq (ls_dstMac (gs_link x)) (ls_dstMac link) 6
        else Some false) = Some b) as [b ->].
    { destruct (_ || _); [|by eexists]. destruct (negb _); [by eexists|]. unfold memcmp_eq.
      rewrite (ld_range_whole (ls_dstMac (gs_link x))), (ld_range_whole (ls_dstMac link)) by done. by eexists. }
    cbn [mbind option_bind]. destruct b; [done|]. rewrite IH. done.
Qed.

Lemma at_pos_range_n buf pos n bs : at_pos buf pos bs -> n = zlen bs -> ld_range buf pos n = Some bs.
Proof. intros Hat ->. by apply at_pos_range. Qed.

Lemma u16_bytes n : 0 <= n < 65536 -> u16 (u16 (n / 256 * 256) + n mod 256) = n.
Proof.
  intros. unfold u16. pose proof (Z.div_mod n 256 ltac:(lia)). pose proof (Z.mod_pos_bound n 256 ltac:(lia)).
  assert (0 <= n / 256) by (apply Z.div_pos; lia).
  rewrite (Z.mod_small (n / 256 * 256)) by lia. rewrite Z.mod_small; lia.
Qed.

(** The receiver recognizes the frame and parses its payload. *)
Lemma parse_frame subs dst src vlan appId payload slack now :
  zlen dst = 6 -> zlen src = 6 -> (vlan = [] \/ exists t1 t2, vlan = [0x81; 0x00; t1; t2]) ->
  0 <= appId < 65536 -> zlen payload < 65528 ->
  let frame := frame_bytes dst src vlan appId payload in
  exists link, ls_srcMac link = src /\ ls_dstMac link = dst /\ ls_appId link = appId /\
  parseGooseMessage subs (frame ++ slack) (zlen frame) now
  = ('(subs, found) ← interested_subscriber subs link;
     if found : bool then
       '(_, subs, notified) ← parseGoosePayload subs (payload ++ slack) (zlen payload) now;
       Some (subs, notified)
     else Some (subs, None)).
Proof.
  intros Hd Hs Hv Ha Hp. cbv zeta. pose proof (zlen_nonneg payload). pose proof (zlen_nonneg slack).
  destruct (zlen_6 _ Hd) as (d0 & d1 & d2 & d3 & d4 & d5 & ->).
  destruct (zlen_6 _ Hs) as (s0 & s1 & s2 & s3 & s4 & s5 & ->).
  set (n := zlen payload + 8).
  assert (u16 (u16 (n / 256 * 256) + n mod 256) = n) as Hn by (apply u16_bytes; lia).
  pose proof (u16_bytes appId Ha) as Happ.
  destruct Hv as [->|(t1 & t2 & ->)].
  - set (h := [d0; d1; d2; d3; d4; d5; s0; s1; s2; s3; s4; s5; 0x88; 0xb8; appId / 256; appId mod 256;
               n / 256; n mod 256; 0; 0; 0; 0]).
    change (frame_bytes _ _ _ _ _) with (h ++ payload). rewrite <- app_assoc.
    eexists (mkLinkState _ _ _ _ _ _ _). cbn [ls_srcMac ls_dstMac ls_appId]. split; [done|]. split; [done|]. split; [done|].
    unfold parseGooseMessage. replace (zlen (h ++ payload) <? 22) with false by (rewrite zlen_app; change (zlen h) with 22; lia).
    change (vlan_tag (h ++ payload ++ slack)) with (Some (12, 14, false, 0, 0)). cbn [mbind option_bind andb].
    change (ld (h ++ payload ++ slack) 12) with (Some 0x88). change (ld (h ++ payload ++ slack) (12 + 1)) with (Some 0xb8).
    cbn [mbind option_bind Z.eqb Pos.eqb negb].
    rewrite (at_pos_range_n _ 6 6 [s0; s1; s2; s3; s4; s5]) by
      (done || (exists [d0; d1; d2; d3; d4; d5], (drop 12 h ++ payload ++ slack); done)).
    rewrite (at_pos_range_n _ 0 6 [d0; d1; d2; d3; d4; d5]) by
      (done || (exists [], (drop 6 h ++ payload ++ slack); done)).
    cbn [mbind option_bind].
    change (ld (h ++ payload ++ slack) (12 + 2)) with (Some (appId / 256)).
    change (ld (h ++ payload ++ slack) (12 + 3)) with (Some (appId mod 256)).
    change (ld (h ++ payload ++ slack) (12 + 4)) with (Some (n / 256)).
    change (ld (h ++ payload ++ slack) (12 + 5)) with (Some (n mod 256)).
    cbn [mbind option_bind]. rewrite Happ, Hn. if_false.
    replace (zlen (h ++ payload) <? n + 14) with false by (rewrite zlen_app; change (zlen h) with 22; lia).
    replace (n - 8) with (zlen payload) by lia. done.
  - set (h := [d0; d1; d2; d3; d4; d5; s0; s1; s2; s3; s4; s5; 0x81; 0; t1; t2; 0x88; 0xb8; appId / 256; appId mod 256;
               n / 256; n mod 256; 0; 0; 0; 0]).
    change (frame_bytes _ _ _ _ _) with (h ++ payload). rewrite <- app_assoc.
    eexists (mkLinkState _ _ _ _ _ _ _). cbn [ls_srcMac ls_dstMac ls_appId]. split; [done|]. split; [done|]. split; [done|].
    unfold parseGooseMessage. replace (zlen (h ++ payload) <? 22) with false by (rewrite zlen_app; change (zlen h) with 26; lia).
    change (vlan_tag (h ++ payload ++ slack))
      with (Some (16, 18, true, u16 (Z.shiftl (Z.land t1 0x07) 8 + t2), Z.land t1 (Z.shiftr 0xf8 5))).
    cbn [mbind option_bind andb].
    replace (zlen (h ++ payload) <? 22 + 4) with false by (rewrite zlen_app; change (zlen h) with 26; lia).
    change (ld (h ++ payload ++ slack) 16) with (Some 0x88). change (ld (h ++ payload ++ slack) (16 + 1)) with (Some 0xb8).
    cbn [mbind option_bind Z.eqb Pos.eqb negb].
    rewrite (at_pos_range_n _ 6 6 [s0; s1; s2; s3; s4; s5]) by
      (done || (exists [d0; d1; d2; d3; d4; d5], (drop 12 h ++ payload ++ slack); done)).
    rewrite (at_pos_range_n _ 0 6 [d0; d1; d2; d3; d4; d5]) by
      (done || (exists [], (drop 6 h ++ payload ++ slack); done)).
    cbn [mbind option_bind].
    change (ld (h ++ payload ++ slack) (16 + 2)) with (Some (appId / 256)).
    change (ld (h ++ payload ++ slack) (16 + 3)) with (Some (appId mod 256)).
    change (ld (h ++ payload ++ slack) (16 + 4)) with (Some (n / 256)).
    change (ld (h ++ payload ++ slack) (16 + 5)) with (Some (n mod 256)).
    cbn [mbind option_bind]. rewrite Happ, Hn. if_false.
    replace (zlen (h ++ payload) <? n + 18) with false by (rewrite zlen_app; change (zlen h) with 26; lia).
    replace (n - 8) with (zlen payload) by lia. done.
Qed.

(** ** Construction and publishing keep the header *)

Lemma createEx_framed parameters srcAddr useVlanTag now self :
  let p := default defaultCommParameters parameters in
  6 <= zlen (cp_dstAddress p) -> 6 <= zlen srcAddr -> 0 <= cp_appId p < 65536 ->
  GoosePublisher_createEx parameters srcAddr true useVlanTag now = Some (Some self) ->
  exists vlan, framed self (take 6 (cp_dstAddress p)) (take 6 srcAddr) vlan (cp_appId p).
Proof.
  intros p Hd Hs Ha Hc. destruct (createEx_ok parameters srcAddr useVlanTag now Hd Hs)
    as (self' & Hc' & _ & _ & _ & _ & Hlf & Hps & _ & _ & _ & Hh).
  rewrite Hc' in Hc. injection Hc as <-. unfold header_bytes in Hh. fold p in Hh.
  pose proof (zlen_take (cp_dstAddress p) 6 ltac:(lia)) as Hz1. pose proof (zlen_take srcAddr 6 ltac:(lia)) as Hz2.
  assert (0 <= cp_appId p / 256 < 256) by (split; [apply Z.div_pos | apply Z.div_lt_upper_bound]; lia).
  pose proof (Z.mod_pos_bound (cp_appId p) 256 ltac:(lia)).
  rewrite (u8_small (cp_appId p / 256)), (u8_small (cp_appId p mod 256)) in Hh by done.
  exists (if useVlanTag then [0x81; 0x00; u8 (u8 (Z.shiftl (cp_vlanPriority p) 5) + cp_vlanId p / 256); u8 (cp_vlanId p mod 256)]
          else []).
  unfold framed. split; [done|]. split; [done|]. split; [destruct useVlanTag; eauto|]. split; [done|].
  split; [destruct useVlanTag; done|]. split; [destruct useVlanTag; done|]. by do 2 eexists.
Qed.

Lemma sendable_length dataSet : sendable (MmsArray dataSet) -> zlen dataSet < 4294967296.
Proof.
  intros (_ & (Hsz & _ & Hdec & _) & _). pose proof (length_components dataSet Hdec). cbn in Hsz. lia.
Qed.

(** Publishing sends the message behind the header and keeps the header. *)
Lemma publish_frame self dataSet dst src vlan appId :
  publisher_ok self -> framed self dst src vlan appId -> gp_ethernetSocket self = true ->
  dataSet_ok dataSet -> zlen dataSet < 4294967296 ->
  zlen (goose_bytes self dataSet) <= GOOSE_MAX_MESSAGE_SIZE - gp_payloadStart self ->
  exists self', GoosePublisher_publish self dataSet
    = Some (self', 0, Some (frame_bytes dst src vlan appId (goose_bytes self dataSet))) /\
    publisher_ok self' /\ framed self' dst src vlan appId /\
    published self self' (zlen (goose_bytes self dataSet)).
Proof.
  intros Hok Hf Hsock Hds Hn Hfit. pose proof Hf as (Hd & Hsrc & Hv & Ha & Hlf & Hps & l0 & l1 & Hhdr).
  destruct (publish_fits self dataSet Hok Hds Hn Hfit) as (self' & Hpub & Hp & Hz & Htake).
  rewrite Hsock in Hpub. rewrite (frame_header_spec self dst src vlan appId) in Hpub by done.
  exists self'. split; [done|]. split; [by eapply published_ok|]. split; [|done].
  pose proof (frame_header_spec self dst src vlan appId (goose_bytes self dataSet) Hok Hf) as Hfh.
  rewrite <- Htake in Hfh by done. unfold frame_bytes in Hfh. rewrite !app_assoc in Hfh. apply app_inv_tail in Hfh.
  destruct Hp as (buffer & ->). destruct self as [b so lf ps pl id cb ds cr st sq tl nc si ts].
  cbn [gp_buffer gp_lengthField gp_payloadStart with_payloadLength with_buffer GoosePublisher_setSqNum] in Hfh, Hlf, Hps.
  unfold framed. cbn [gp_buffer gp_lengthField gp_payloadStart with_payloadLength with_buffer GoosePublisher_setSqNum].
  do 6 (split; [done|]). do 2 eexists. rewrite Hfh. rewrite <- !app_assoc. done.
Qed.

(** The receiver delivers the frame to the subscriber that listens to it,
    whatever follows the frame in the receive buffer. *)
Lemma frame_delivered self dataSet dst src vlan appId pre s post slack now :
  publisher_ok self -> framed self dst src vlan appId ->
  sendable (MmsArray dataSet) -> goose_value (MmsArray dataSet) ->
  zlen (goose_bytes self dataSet) <= GOOSE_MAX_MESSAGE_SIZE - gp_payloadStart self ->
  Forall (ignores (ber_string (gp_goCBRef self))) pre -> listens s (ber_string (gp_goCBRef self)) -> subscriber_ok s ->
  interested (gs_link s) dst appId -> ready (gs_message s) (gp_confRev self) dataSet ->
  let frame := frame_bytes dst src vlan appId (goose_bytes self dataSet) in
  exists s' m',
    parseGooseMessage (pre ++ s :: post) (frame ++ slack) (zlen frame) now
    = Some (pre ++ with_message s' m' :: post, if gs_listener s then Some (length pre) else None) /\
    same_core s s' /\ delivered self dataSet now (gs_message s) m' /\ stays_ready (gs_message s) m' dataSet.
Proof.
  intros Hok (Hd & Hsrc & Hv & Ha & Hlf & Hps & _) Hs Hg Hfit Hpre Hl Hsub Hint Hr.
  assert (zlen dataSet < 4294967296) as Hn by (by apply sendable_length).
  unfold GOOSE_MAX_MESSAGE_SIZE in Hfit. pose proof (zlen_nonneg vlan).
  destruct (parse_frame (pre ++ s :: post) dst src vlan appId (goose_bytes self dataSet) slack now)
    as (link & Hls & Hld & Hla & Hparse); [done..|lia|]. cbv zeta.
  rewrite Hparse, (interested_subscriber_spec pre s post (ber_string (gp_goCBRef self)));
    [|done | by destruct Hl | by rewrite Hld | by rewrite Hld, Hla].
  cbn [mbind option_bind].
  destruct (parseGoosePayload_spec self dataSet pre s post (goose_bytes self dataSet ++ slack) now)
    as (s' & m' & -> & Hcore & Hdel & Hst); [done | done | done | done | done | done | done | done | apply at_pos_prefix | lia |].
  cbn [mbind option_bind]. by exists s', m'.
Qed.
