(* ===== verification/IecCommon.v ===== *)
(** The common data attribute types of IEC 61850:
    src/libiec61850/src/iec61850/common/iec61850_common.c with
    inc/iec61850_common.h: quality, double point position, functional constraint
    and time stamp. (The mapping of object references in the same file is modelled in
    ObjectReference.v.)

    A [Timestamp] is its eight bytes: seconds, fraction of a second, and the octet
    of the time quality. The functions get a pointer to it, so that the bytes may be
    followed by others: sampled values keep it inside a frame. *)

From S2P Require Import Prelude BerEncoder BerDecoder BerInteger StringUtils CFloat MmsValue MmsFacts.
Open Scope Z_scope.

(** * Quality *)

(** [typedef uint16_t Quality]; the flag is an [int]. *)
Definition Quality_getValidity (self : Z) : Z := Z.land self 0x3.

Definition Quality_setValidity (self validity : Z) : Z :=
  let self := u16 (Z.land self 0xfffc) in u16 (Z.lor self validity).

Definition Quality_isFlagSet (self flag : Z) : bool := 0 <? Z.land self flag.

Definition Quality_setFlag (self flag : Z) : Z := u16 (Z.lor self flag).

Definition Quality_unsetFlag (self flag : Z) : Z := u16 (Z.land self (Z.lnot flag)).

Definition Quality_fromMmsValue (mmsValue : MmsValue) : option Z :=
  v ← MmsValue_getBitStringAsInteger mmsValue; Some (u16 v).

Definition Quality_toMmsValue (self : Z) (mmsValue : option MmsValue) : option MmsValue :=
  let mmsValue := match mmsValue with Some v => v | None => MmsValue_newBitString 13 end in
  MmsValue_setBitStringFromInteger mmsValue self.

(** * Double point position *)

Inductive Dbpos :=
| DBPOS_INTERMEDIATE_STATE
| DBPOS_OFF
| DBPOS_ON
| DBPOS_BAD_STATE.

Definition Dbpos_int (dbpos : Dbpos) : Z :=
  match dbpos with DBPOS_INTERMEDIATE_STATE => 0 | DBPOS_OFF => 1 | DBPOS_ON => 2 | DBPOS_BAD_STATE => 3 end.

(** The result is cast to the enumeration, whatever it is: the value. *)
Definition Dbpos_fromMmsValue (mmsValue : MmsValue) : option Z :=
  MmsValue_getBitStringAsIntegerBigEndian mmsValue.

(** [None] inside is the null pointer. *)
Definition Dbpos_toMmsValue (mmsValue : option MmsValue) (dbpos : Dbpos) : option (option MmsValue) :=
  let set v := v ← MmsValue_setBitStringFromIntegerBigEndian v (Dbpos_int dbpos); Some (Some v) in
  match mmsValue with
  | None => set (MmsValue_newBitString 2)
  | Some v =>
      match v with
      | MmsBitString size _ => if negb (size =? 2) then Some None else set v
      | _ => Some None
      end
  end.

(** * Functional constraints *)

Inductive FunctionalConstraint :=
| IEC61850_FC_ST | IEC61850_FC_MX | IEC61850_FC_SP | IEC61850_FC_SV | IEC61850_FC_CF
| IEC61850_FC_DC | IEC61850_FC_SG | IEC61850_FC_SE | IEC61850_FC_SR | IEC61850_FC_OR
| IEC61850_FC_BL | IEC61850_FC_EX | IEC61850_FC_CO | IEC61850_FC_US | IEC61850_FC_MS
| IEC61850_FC_RP | IEC61850_FC_BR | IEC61850_FC_LG | IEC61850_FC_GO
| IEC61850_FC_ALL | IEC61850_FC_NONE.

#[export] Instance FunctionalConstraint_eq_dec : EqDecision FunctionalConstraint.
Proof. solve_decision. Defined.

(** the characters of the string literals, with their terminating zero *)
Definition FunctionalConstraint_toString (fc : FunctionalConstraint) : option (list Z) :=
  match fc with
  | IEC61850_FC_ST => Some [83; 84; 0]
  | IEC61850_FC_MX => Some [77; 88; 0]
  | IEC61850_FC_SP => Some [83; 80; 0]
  | IEC61850_FC_SV => Some [83; 86; 0]
  | IEC61850_FC_CF => Some [67; 70; 0]
  | IEC61850_FC_DC => Some [68; 67; 0]
  | IEC61850_FC_SG => Some [83; 71; 0]
  | IEC61850_FC_SE => Some [83; 69; 0]
  | IEC61850_FC_SR => Some [83; 82; 0]
  | IEC61850_FC_OR => Some [79; 82; 0]
  | IEC61850_FC_BL => Some [66; 76; 0]
  | IEC61850_FC_EX => Some [69; 88; 0]
  | IEC61850_FC_CO => Some [67; 79; 0]
  | IEC61850_FC_US => Some [85; 83; 0]
  | IEC61850_FC_MS => Some [77; 83; 0]
  | IEC61850_FC_RP => Some [82; 80; 0]
  | IEC61850_FC_BR => Some [66; 82; 0]
  | IEC61850_FC_LG => Some [76; 71; 0]
  | IEC61850_FC_GO => Some [71; 79; 0]
  | IEC61850_FC_ALL | IEC61850_FC_NONE => None
  end.

(** The second character is read only after one of the first characters. *)
Definition FunctionalConstraint_fromString (fcString : list Z) : option FunctionalConstraint :=
  c0 ← ld fcString 0;
  if c0 =? 83 (* S *) then
    c1 ← ld fcString 1;
    Some (if c1 =? 84 then IEC61850_FC_ST else if c1 =? 80 then IEC61850_FC_SP
          else if c1 =? 86 then IEC61850_FC_SV else if c1 =? 71 then IEC61850_FC_SG
          else if c1 =? 69 then IEC61850_FC_SE else if c1 =? 82 then IEC61850_FC_SR
          else IEC61850_FC_NONE)
  else if c0 =? 77 (* M *) then
    c1 ← ld fcString 1;
    Some (if c1 =? 88 then IEC61850_FC_MX else if c1 =? 83 then IEC61850_FC_MS else IEC61850_FC_NONE)
  else if c0 =? 67 (* C *) then
    c1 ← ld fcString 1;
    Some (if c1 =? 70 then IEC61850_FC_CF else if c1 =? 79 then IEC61850_FC_CO else IEC61850_FC_NONE)
  else if c0 =? 68 (* D *) then
    c1 ← ld fcString 1; Some (if c1 =? 67 then IEC61850_FC_DC else IEC61850_FC_NONE)
  else if c0 =? 79 (* O *) then
    c1 ← ld fcString 1; Some (if c1 =? 82 then IEC61850_FC_OR else IEC61850_FC_NONE)
  else if c0 =? 66 (* B *) then
    c1 ← ld fcString 1;
    Some (if c1 =? 76 then IEC61850_FC_BL else if c1 =? 82 then IEC61850_FC_BR else IEC61850_FC_NONE)
  else if c0 =? 69 (* E *) then
    c1 ← ld fcString 1; Some (if c1 =? 88 then IEC61850_FC_EX else IEC61850_FC_NONE)
  else if c0 =? 85 (* U *) then
    c1 ← ld fcString 1; Some (if c1 =? 83 then IEC61850_FC_US else IEC61850_FC_NONE)
  else if c0 =? 82 (* R *) then
    c1 ← ld fcString 1; Some (if c1 =? 80 then IEC61850_FC_RP else IEC61850_FC_NONE)
  else if c0 =? 76 (* L *) then
    c1 ← ld fcString 1; Some (if c1 =? 71 then IEC61850_FC_LG else IEC61850_FC_NONE)
  else if c0 =? 71 (* G *) then
    c1 ← ld fcString 1; Some (if c1 =? 79 then IEC61850_FC_GO else IEC61850_FC_NONE)
  else Some IEC61850_FC_NONE.

(** * Time stamps *)

Definition Timestamp_create : list Z := replicate 8 0.

Definition Timestamp_createFromByteArray (byteArray : list Z) : option (list Z) :=
  '(self, _) ← copy_loop 8 byteArray 0 Timestamp_create 0; Some self.

(** [self->val[7] = f(self->val[7])] *)
Definition on_flags (self : list Z) (f : Z -> Z) : option (list Z) := b ← ld self 7; st self 7 (u8 (f b)).

Definition flag_set (self : list Z) (mask : Z) : option bool := b ← ld self 7; Some (negb (Z.land b mask =? 0)).

Definition Timestamp_clearFlags (self : list Z) : option (list Z) := st self 7 0.

Definition Timestamp_isLeapSecondKnown (self : list Z) : option bool := flag_set self 0x80.
Definition Timestamp_setLeapSecondKnown (self : list Z) (value : bool) : option (list Z) :=
  on_flags self (fun b => if value then Z.lor b 0x80 else Z.land b 0x7f).

Definition Timestamp_hasClockFailure (self : list Z) : option bool := flag_set self 0x40.
Definition Timestamp_setClockFailure (self : list Z) (value : bool) : option (list Z) :=
  on_flags self (fun b => if value then Z.lor b 0x40 else Z.land b 0xbf).

Definition Timestamp_isClockNotSynchronized (self : list Z) : option bool := flag_set self 0x20.
Definition Timestamp_setClockNotSynchronized (self : list Z) (value : bool) : option (list Z) :=
  on_flags self (fun b => if value then Z.lor b 0x20 else Z.land b 0xdf).

Definition Timestamp_getSubsecondPrecision (self : list Z) : option Z := b ← ld self 7; Some (Z.land b 0x1f).

Definition Timestamp_setSubsecondPrecision (self : list Z) (subsecondPrecision : Z) : option (list Z) :=
  let ssp := u8 (Z.land subsecondPrecision 0x1f) in
  self ← on_flags self (fun b => Z.land b 0xe0);
  on_flags self (fun b => b + ssp).

(** the stores to [valueArray[0]] .. [valueArray[3]] *)
Definition store_seconds (timeval32 : Z) (self : list Z) : option (list Z) :=
  self ← st self 0 (Z.land (timeval32 / 0x1000000) 0xff);
  self ← st self 1 (Z.land (timeval32 / 0x10000) 0xff);
  self ← st self 2 (Z.land (timeval32 / 0x100) 0xff);
  st self 3 (Z.land timeval32 0xff).

(** the stores to [valueArray[4]] .. [valueArray[6]] *)
Definition Timestamp_setFractionOfSecondPart (self : list Z) (fractionOfSecond : Z) : option (list Z) :=
  self ← st self 4 (Z.land (Z.shiftr fractionOfSecond 16) 0xff);
  self ← st self 5 (Z.land (Z.shiftr fractionOfSecond 8) 0xff);
  st self 6 (Z.land fractionOfSecond 0xff).

Definition Timestamp_setTimeInSeconds (self : list Z) (secondsSinceEpoch : Z) : option (list Z) :=
  self ← store_seconds secondsSinceEpoch self;
  self ← st self 4 0; self ← st self 5 0; st self 6 0.

Definition Timestamp_setTimeInMilliseconds (self : list Z) (millisSinceEpoch : Z) : option (list Z) :=
  let timeval32 := u32 (millisSinceEpoch / 1000) in
  self ← store_seconds timeval32 self;
  let remainder := u32 (millisSinceEpoch mod 1000) in
  let fractionOfSecond := u32 (u32 (remainder * 16777) + u32 (remainder * 216) / 1000) in
  Timestamp_setFractionOfSecondPart self fractionOfSecond.

Definition Timestamp_setTimeInNanoseconds (self : list Z) (nsTime : Z) : option (list Z) :=
  let timeval32 := u32 (nsTime / 1000000000) in
  self ← store_seconds timeval32 self;
  let remainder := nsTime mod 1000000000 in
  let remainder := u64 (Z.shiftl remainder 24) in
  let remainder := remainder / 1000000000 in
  Timestamp_setFractionOfSecondPart self (u32 remainder).

(** [timeval32 = v[3]; timeval32 += v[2] * 0x100; ...]: the products are of type
    [int], and the last one overflows for the years from 2038 on. *)
Definition Timestamp_getTimeInSeconds (self : list Z) : option Z :=
  b3 ← ld self 3; b2 ← ld self 2; b1 ← ld self 1; b0 ← ld self 0;
  p ← chk_int (b0 * 0x1000000);
  Some (u32 (u32 (u32 (b3 + b2 * 0x100) + b1 * 0x10000) + p)).

Definition Timestamp_getFractionOfSecondPart (self : list Z) : option Z :=
  b4 ← ld self 4; b5 ← ld self 5; b6 ← ld self 6;
  Some (u32 (u32 (Z.shiftl b4 16 + Z.shiftl b5 8) + b6)).

Definition Timestamp_getTimeInMs (self : list Z) : option Z :=
  timeval32 ← Timestamp_getTimeInSeconds self;
  fractionOfSecond ← Timestamp_getFractionOfSecondPart self;
  let remainder := fractionOfSecond / 16777 in
  Some (u64 (timeval32 * 1000 + remainder)).

(** The fraction is put together from products instead of shifts, with the same
    value. *)
Definition Timestamp_getTimeInNs (self : list Z) : option Z :=
  timeval32 ← Timestamp_getTimeInSeconds self;
  b6 ← ld self 6; b5 ← ld self 5; b4 ← ld self 4;
  let fractionOfSecond := u32 (u32 (b6 + b5 * 0x100) + b4 * 0x10000) in
  let nsVal := Z.shiftr (u64 (fractionOfSecond * 1000000000)) 24 in
  Some (u64 (u64 (timeval32 * 1000000000) + nsVal)).

Definition Timestamp_setByMmsUtcTime (self : list Z) (mmsValue : MmsValue) : option (list Z) :=
  match mmsValue with
  | MmsUtcTime utcTime => bs ← ld_range utcTime 0 8; st_range self 0 bs
  | _ => Some self
  end.

(** The value passed in must be a UTC time: its member of the union is written. *)
Definition Timestamp_toMmsValue (self : list Z) (mmsValue : option MmsValue) : option MmsValue :=
  convertedValue ← match mmsValue with Some v => Some v | None => Some (MmsValue_newUtcTime 0) end;
  match convertedValue with
  | MmsUtcTime utcTime => bs ← ld_range self 0 8; utcTime ← st_range utcTime 0 bs; Some (MmsUtcTime utcTime)
  | _ => None
  end.

Definition Timestamp_fromMmsValue (self : option (list Z)) (mmsValue : MmsValue) : option (option (list Z)) :=
  match mmsValue with
  | MmsUtcTime utcTime =>
      let self := match self with Some self => self | None => Timestamp_create end in
      bs ← ld_range utcTime 0 8; self ← st_range self 0 bs; Some (Some self)
  | _ => Some None
  end.

(** * Facts on time stamps *)

(** the octets of a time stamp: seconds, fraction of a second, quality *)
Definition time_bytes (seconds fraction quality : Z) : list Z :=
  be_bytes 4 seconds ++ be_bytes 3 fraction ++ [quality].

Lemma zlen_time_bytes s f q : zlen (time_bytes s f q) = 8.
Proof. reflexivity. Qed.

Lemma be_bytes_4_eq z : be_bytes 4 z = [z / 0x1000000 mod 256; z / 0x10000 mod 256; z / 0x100 mod 256; z mod 256].
Proof.
  unfold be_bytes. cbn [le_bytes]. rewrite !Z.div_div by lia. reflexivity.
Qed.

Lemma be_bytes_3_eq z : be_bytes 3 z = [z / 0x10000 mod 256; z / 0x100 mod 256; z mod 256].
Proof. unfold be_bytes. cbn [le_bytes]. rewrite !Z.div_div by lia. reflexivity. Qed.

Lemma store_seconds_spec s c0 c1 c2 c3 rest :
  store_seconds s (c0 :: c1 :: c2 :: c3 :: rest) = Some (be_bytes 4 s ++ rest).
Proof.
  unfold store_seconds. rewrite !land_255, be_bytes_4_eq. pose proof (zlen_nonneg rest).
  rewrite st_Some by zlia. cbn [mbind option_bind]. rewrite st_Some by zlia. cbn [mbind option_bind].
  rewrite st_Some by zlia. cbn [mbind option_bind]. rewrite st_Some by zlia. reflexivity.
Qed.

Lemma setFraction_spec f s c4 c5 c6 rest :
  Timestamp_setFractionOfSecondPart (be_bytes 4 s ++ c4 :: c5 :: c6 :: rest) f = Some (be_bytes 4 s ++ be_bytes 3 f ++ rest).
Proof.
  unfold Timestamp_setFractionOfSecondPart. rewrite !land_255, !shiftr_div, be_bytes_4_eq, be_bytes_3_eq by lia.
  change (2 ^ 16) with 0x10000. change (2 ^ 8) with 0x100. pose proof (zlen_nonneg rest). cbn [app].
  rewrite st_Some by zlia. cbn [mbind option_bind]. rewrite st_Some by zlia. cbn [mbind option_bind].
  rewrite st_Some by zlia. reflexivity.
Qed.

Lemma getSeconds_spec s rest : 0 <= s < 2147483648 -> Timestamp_getTimeInSeconds (be_bytes 4 s ++ rest) = Some s.
Proof.
  intros Hs. unfold Timestamp_getTimeInSeconds. rewrite be_bytes_4_eq. unfold ld. cbn [app Z.leb Z.compare]. change (Z.to_nat 0) with 0%nat.
  change (Z.to_nat 3) with 3%nat. change (Z.to_nat 2) with 2%nat. change (Z.to_nat 1) with 1%nat. cbn [lookup list_lookup mbind option_bind].
  assert (s / 0x1000000 mod 256 * 0x1000000 < 2147483648 /\ 0 <= s / 0x1000000 mod 256) as [].
  { rewrite Z.mod_small by (split; [apply Z.div_pos | apply Z.div_lt_upper_bound]; lia).
    pose proof (Z.mul_div_le s 0x1000000). split; [lia | apply Z.div_pos; lia]. }
  unfold chk_int. if_true. cbn [mbind option_bind]. f_equal.
  pose proof (Z.mod_pos_bound s 256). pose proof (Z.mod_pos_bound (s / 0x100) 256). pose proof (Z.mod_pos_bound (s / 0x10000) 256).
  rewrite (u32_small (s mod 256 + _)) by lia. rewrite (u32_small (s mod 256 + _ + _)) by lia.
  pose proof (le_val_le_bytes 4 s) as Hv. cbn [le_bytes le_val] in Hv. rewrite !Z.div_div in Hv by lia.
  change (256 ^ Z.of_nat 4) with 4294967296 in Hv. rewrite (Z.mod_small s 4294967296) in Hv by lia.
  change (256 * 256) with 0x10000 in Hv. change (0x10000 * 256) with 0x1000000 in Hv. rewrite u32_small; lia.
Qed.

Lemma getFraction_spec s f rest :
  0 <= f < 16777216 -> Timestamp_getFractionOfSecondPart (be_bytes 4 s ++ be_bytes 3 f ++ rest) = Some f.
Proof.
  intros Hf. unfold Timestamp_getFractionOfSecondPart. rewrite be_bytes_4_eq, be_bytes_3_eq. cbn [app].
  unfold ld. cbn [Z.leb Z.compare]. change (Z.to_nat 4) with 4%nat. change (Z.to_nat 5) with 5%nat. change (Z.to_nat 6) with 6%nat.
  cbn [lookup list_lookup mbind option_bind]. f_equal.
  pose proof (three_bytes f Hf) as H1. rewrite !land_255, !shiftr_div in H1 by lia.
  change (2 ^ 16) with 0x10000 in H1. change (2 ^ 8) with 0x100 in H1.
  pose proof (Z.mod_pos_bound f 256). pose proof (Z.mod_pos_bound (f / 0x100) 256). pose proof (Z.mod_pos_bound (f / 0x10000) 256).
  rewrite !Z.shiftl_mul_pow2 in * by lia. change (2 ^ 16) with 0x10000 in *. change (2 ^ 8) with 0x100 in *.
  rewrite (u32_small (f / 0x10000 mod 256 * 0x10000 + _)) by lia. rewrite u32_small; lia.
Qed.

Lemma setTimeInMilliseconds_spec t c0 c1 c2 c3 c4 c5 c6 rest :
  Timestamp_setTimeInMilliseconds (c0 :: c1 :: c2 :: c3 :: c4 :: c5 :: c6 :: rest) t
  = Some (be_bytes 4 (t / 1000) ++ be_bytes 3 (ms_fraction (t mod 1000)) ++ rest).
Proof.
  unfold Timestamp_setTimeInMilliseconds. rewrite store_seconds_spec, be_bytes_4_mod. cbn [mbind option_bind].
  pose proof (Z.mod_pos_bound t 1000 ltac:(lia)) as Hr. rewrite setFraction_spec. do 4 f_equal.
  pose proof (ms_fraction_range _ Hr). unfold ms_fraction in *. pose proof (Z.div_pos (t mod 1000 * 216) 1000).
  rewrite (u32_small (t mod 1000)), (u32_small (t mod 1000 * 16777)), (u32_small (t mod 1000 * 216)) by lia. apply u32_small. lia.
Qed.

(** the fraction of a second for [r] nanoseconds *)
Definition ns_fraction (r : Z) : Z := r * 16777216 / 1000000000.

Lemma ns_fraction_range r : 0 <= r < 1000000000 -> 0 <= ns_fraction r < 16777216.
Proof. intros. unfold ns_fraction. split; [apply Z.div_pos | apply Z.div_lt_upper_bound]; lia. Qed.

Lemma setTimeInNanoseconds_spec t c0 c1 c2 c3 c4 c5 c6 rest :
  Timestamp_setTimeInNanoseconds (c0 :: c1 :: c2 :: c3 :: c4 :: c5 :: c6 :: rest) t
  = Some (be_bytes 4 (t / 1000000000) ++ be_bytes 3 (ns_fraction (t mod 1000000000)) ++ rest).
Proof.
  unfold Timestamp_setTimeInNanoseconds. rewrite store_seconds_spec, be_bytes_4_mod. cbn [mbind option_bind].
  pose proof (Z.mod_pos_bound t 1000000000 ltac:(lia)) as Hr. rewrite setFraction_spec. do 4 f_equal.
  rewrite Z.shiftl_mul_pow2 by lia. change (2 ^ 24) with 16777216. unfold u64. rewrite Z.mod_small by lia.
  fold (ns_fraction (t mod 1000000000)). apply u32_small. pose proof (ns_fraction_range _ Hr). lia.
Qed.

(** What is read back is the time that was set, rounded down to the resolution of
    the format, 2^-24 seconds, which is less than 60 nanoseconds. *)
Lemma getTimeInNs_spec s f rest :
  0 <= s < 2147483648 -> 0 <= f < 16777216 ->
  Timestamp_getTimeInNs (be_bytes 4 s ++ be_bytes 3 f ++ rest) = Some (s * 1000000000 + f * 1000000000 / 16777216).
Proof.
  intros Hs Hf. unfold Timestamp_getTimeInNs. rewrite getSeconds_spec by done. cbn [mbind option_bind].
  pose proof (getFraction_spec s f rest Hf) as H. unfold Timestamp_getFractionOfSecondPart in H.
  destruct (ld _ 4) as [b4|]; [|done]. destruct (ld _ 5) as [b5|]; [|done]. destruct (ld _ 6) as [b6|]; [|done].
  cbn [mbind option_bind] in *. injection H as H. rewrite !Z.shiftl_mul_pow2 in H by lia.
  assert (u32 (u32 (b6 + b5 * 0x100) + b4 * 0x10000) = f) as ->.
  { rewrite <- H. unfold u32. rewrite !Zplus_mod_idemp_l. f_equal. lia. }
  rewrite shiftr_div by lia. change (2 ^ 24) with 16777216. f_equal.
  assert (0 <= f * 1000000000 / 16777216 < 1000000000) by (split; [apply Z.div_pos | apply Z.div_lt_upper_bound]; lia).
  unfold u64. rewrite (Z.mod_small (f * _)), (Z.mod_small (s * _)) by lia. apply Z.mod_small. lia.
Qed.

Lemma ns_fraction_ns r : 0 <= r < 1000000000 -> r - 60 <= ns_fraction r * 1000000000 / 16777216 <= r.
Proof.
  intros Hr. unfold ns_fraction. pose proof (Z.mul_div_le (r * 16777216) 1000000000 ltac:(lia)) as H1.
  pose proof (Z.mod_pos_bound (r * 16777216) 1000000000 ltac:(lia)). pose proof (Z.div_mod (r * 16777216) 1000000000 ltac:(lia)).
  set (f := r * 16777216 / 1000000000) in *. split.
  - apply Z.div_le_lower_bound; lia.
  - apply Z.div_le_upper_bound; lia.
Qed.

(** the octet of the time quality with its precision replaced *)
Definition with_precision (q p : Z) : Z := u8 (u8 (Z.land q 0xe0) + u8 (Z.land p 0x1f)).

Lemma with_precision_byte q p : is_byte (with_precision q p).
Proof. unfold with_precision, u8, is_byte. apply Z.mod_pos_bound. lia. Qed.

Lemma set_precision p b0 b1 b2 b3 b4 b5 b6 q rest :
  Timestamp_setSubsecondPrecision (b0 :: b1 :: b2 :: b3 :: b4 :: b5 :: b6 :: q :: rest) p
  = Some (b0 :: b1 :: b2 :: b3 :: b4 :: b5 :: b6 :: with_precision q p :: rest).
Proof.
  unfold Timestamp_setSubsecondPrecision, on_flags. pose proof (zlen_nonneg rest).
  assert (forall q, ld (b0 :: b1 :: b2 :: b3 :: b4 :: b5 :: b6 :: q :: rest) 7 = Some q) as Hld by reflexivity.
  assert (forall q v, st (b0 :: b1 :: b2 :: b3 :: b4 :: b5 :: b6 :: q :: rest) 7 v = Some (b0 :: b1 :: b2 :: b3 :: b4 :: b5 :: b6 :: v :: rest)) as Hst
    by (intros; rewrite st_Some by zlia; reflexivity).
  rewrite Hld. cbn [mbind option_bind]. rewrite Hst. cbn [mbind option_bind]. rewrite Hld. cbn [mbind option_bind]. by rewrite Hst.
Qed.

Lemma fromString_toString fc s :
  FunctionalConstraint_toString fc = Some s -> FunctionalConstraint_fromString s = Some fc.
Proof. destruct fc; intros [= <-] || done; reflexivity. Qed.
