(* ===== verification/ObjectReference.v ===== *)
(** Object references and MMS names: the functions [MmsMapping_*] of
    src/libiec61850/src/iec61850/common/iec61850_common.c.

    The object reference ["LD/LN.DO.DA"] with the functional constraint [ST] is the
    MMS variable ["LN$ST$DO$DA"] of the domain ["LD"]. Strings are blocks of
    characters with a terminating zero; a pointer into a reference is its index. The
    result [None] inside is the null pointer. *)

From S2P Require Import Prelude BerEncoder BerDecoder BerInteger StringUtils CText CFloat MmsValue MmsFacts IecCommon.
Open Scope Z_scope.

(** * From references to names *)

(** [for (i = 0; i < objRefLength; i++) if (objectReference[i] == '/') break;] *)
Fixpoint find_slash (n : nat) (objectReference : list Z) (i : Z) : option Z :=
  match n with
  | O => Some i
  | S n => c ← ld objectReference i; if c =? 47 then Some i else find_slash n objectReference (i + 1)
  end.

Definition MmsMapping_getMmsDomainFromObjectReference (objectReference : list Z) (buffer : option (list Z))
  : option (option (list Z)) :=
  objRefLength ← strlen objectReference;
  if 129 <? objRefLength then Some None
  else
    i ← find_slash (Z.to_nat objRefLength) objectReference 0;
    if 64 <? i then Some None
    else if i =? objRefLength then Some None
    else
      let domainName := match buffer with None => replicate (Z.to_nat (i + 1)) 0 | Some buffer => buffer end in
      '(domainName, j) ← copy_loop (Z.to_nat i) objectReference 0 domainName 0;
      domainName ← st domainName j 0;
      Some (Some domainName).

(** the loop that replaces the separators; every turn consumes a character *)
Fixpoint name_loop (n : nat) (objectReference fcString : list Z) (sourceIndex : Z) (fcAdded : bool)
    (name : list Z) (destIndex : Z) : option (bool * list Z * Z) :=
  match n with
  | O => Some (fcAdded, name, destIndex)
  | S n =>
      c ← ld objectReference sourceIndex;
      if negb (c =? 46) then
        '(name, destIndex) ← put c name destIndex;
        name_loop n objectReference fcString (sourceIndex + 1) fcAdded name destIndex
      else if negb fcAdded then
        f0 ← ld fcString 0; f1 ← ld fcString 1;
        '(name, destIndex) ← puts [36; f0; f1; 36] name destIndex;
        name_loop n objectReference fcString (sourceIndex + 1) true name destIndex
      else
        '(name, destIndex) ← put 36 name destIndex;
        name_loop n objectReference fcString (sourceIndex + 1) fcAdded name destIndex
  end.

Definition MmsMapping_createMmsVariableNameFromObjectReference (objectReference : list Z) (fc : FunctionalConstraint)
    (buffer : option (list Z)) : option (option (list Z)) :=
  objRefLength ← strlen objectReference;
  if 129 <? objRefLength then Some None
  else
    i ← find_slash (Z.to_nat objRefLength) objectReference 0;
    if 64 <? i then Some None
    else
      let i := if i =? objRefLength then 0 else i + 1 in
      if decide (fc = IEC61850_FC_NONE) then
        let mmsVariableName := match buffer with None => replicate 65 0 | Some buffer => buffer end in
        StringUtils_copyStringMax (Some mmsVariableName) 65 (ptr_add objectReference i)
      else
        match FunctionalConstraint_toString fc with
        | None => Some None
        | Some fcString =>
            let namePartLength := objRefLength - i - 1 in
            if 61 <? namePartLength then Some None
            else
              let mmsVariableName :=
                match buffer with None => replicate (Z.to_nat (namePartLength + 5)) 0 | Some buffer => buffer end in
              '(fcAdded, name, destIndex) ←
                name_loop (Z.to_nat (objRefLength - i)) objectReference fcString i false mmsVariableName 0;
              '(name, destIndex) ←
                (if negb fcAdded then
                   f0 ← ld fcString 0; f1 ← ld fcString 1; puts [36; f0; f1] name destIndex
                 else Some (name, destIndex));
              name ← st name destIndex 0;
              Some (Some name)
        end.

(** * Access specifications *)

Record MmsVariableAccessSpecification := mkMmsVariableAccessSpecification {
  va_domainId : option (list Z);
  va_itemId : option (list Z);
  va_arrayIndex : Z;
  va_componentName : option (list Z)
}.

(** [strchr(s + i, c)]: the index in [s] *)
Definition strchr_from (s : list Z) (i c : Z) : option (option Z) :=
  r ← strchr (ptr_add s i) c; Some (option_map (Z.add i) r).

(** the array index and the component name behind the opening brace *)
Definition parse_index (objectReference : list Z) (itemIdEnd objRefLen : Z) (spec : MmsVariableAccessSpecification)
  : option MmsVariableAccessSpecification :=
  let indexStart := itemIdEnd + 1 in
  indexEnd ← strchr_from objectReference indexStart 41;
  indexEnd ← indexEnd;
  let indexLen := indexEnd - indexStart in
  index ← StringUtils_digitsToInt (ptr_add objectReference indexStart) indexLen;
  let componentNameLen := objRefLen - (indexEnd + 2) - 4 in
  componentName ←
    (if 0 <? componentNameLen then
       name ← StringUtils_createStringFromBuffer (ptr_add objectReference (indexEnd + 2)) componentNameLen;
       name ← StringUtils_replace name 46 36; Some (Some name)
     else Some None);
  Some (mkMmsVariableAccessSpecification (va_domainId spec) (va_itemId spec) index componentName).

Definition MmsMapping_ObjectReferenceToVariableAccessSpec (objectReference : list Z)
  : option (option MmsVariableAccessSpecification) :=
  domainIdEnd ← strchr objectReference 47;
  match domainIdEnd with
  | None => Some None
  | Some domainIdEnd =>
      let domainIdLen := domainIdEnd in
      if 64 <? domainIdLen then Some None
      else
        fcStart ← strchr objectReference 91;
        match fcStart with
        | None => Some None
        | Some fcStart =>
            fcEnd ← strchr_from objectReference fcStart 93;
            match fcEnd with
            | None => Some None
            | Some fcEnd =>
                if negb (fcEnd - fcStart =? 3) then Some None
                else
                  fc ← FunctionalConstraint_fromString (ptr_add objectReference (fcStart + 1));
                  domainId ← StringUtils_createStringFromBuffer objectReference domainIdLen;
                  indexBrace ← strchr_from objectReference domainIdEnd 40;
                  itemIdEnd ← match indexBrace with
                              | Some i => Some (Some i)
                              | None => strchr_from objectReference domainIdEnd 91
                              end;
                  objRefLen ← strlen objectReference;
                  let spec := mkMmsVariableAccessSpecification (Some domainId) None (-1) None in
                  match itemIdEnd with
                  | None => Some (Some spec)
                  | Some itemIdEnd =>
                      let itemIdLen := itemIdEnd - domainIdEnd - 1 in
                      item ← ld_range objectReference (domainIdEnd + 1) itemIdLen;
                      itemIdStr ← st_range (replicate 129 0) 0 item;
                      itemIdStr ← st itemIdStr itemIdLen 0;
                      itemId ← MmsMapping_createMmsVariableNameFromObjectReference itemIdStr fc None;
                      let spec := mkMmsVariableAccessSpecification (Some domainId) itemId (-1) None in
                      match indexBrace with
                      | None => Some (Some spec)
                      | Some _ => spec ← parse_index objectReference itemIdEnd objRefLen spec; Some (Some spec)
                      end
                  end
            end
        end
  end.

(** [while (value > 9)]; a value of type [int] has at most ten digits *)
Fixpoint digits_count (fuel : nat) (value numberOfDigits : Z) : Z :=
  match fuel with
  | O => numberOfDigits
  | S fuel => if 9 <? value then digits_count fuel (value / 10) (numberOfDigits + 1) else numberOfDigits
  end.
Definition getNumberOfDigits (value : Z) : Z := digits_count 10 value 1.

(** [*targetPos++ = (c == '$') ? '.' : c] for the [n] characters at [src + i] *)
Fixpoint copy_dots (n : nat) (src : list Z) (i : Z) : writer := fun buffer bufPos =>
  match n with
  | O => Some (buffer, bufPos)
  | S n =>
      c ← ld src i;
      '(buffer, bufPos) ← put (if c =? 36 then 46 else c) buffer bufPos;
      copy_dots n src (i + 1) buffer bufPos
  end.

Definition MmsMapping_varAccessSpecToObjectReference (varAccessSpec : MmsVariableAccessSpecification) : option (list Z) :=
  domainId ← va_domainId varAccessSpec;
  domainIdLen ← strlen domainId;
  itemId ← va_itemId varAccessSpec;
  separator ← strchr itemId 36;
  itemIdLen ← strlen itemId;
  componentPartLen ← match va_componentName varAccessSpec with Some c => strlen c | None => Some 0 end;
  let arrayIndex := va_arrayIndex varAccessSpec in
  let arrayIndexLen := if -1 <? arrayIndex then 2 + getNumberOfDigits arrayIndex else 0 in
  let newStringLen := (domainIdLen + 1) + (itemIdLen - 2) + arrayIndexLen + 4 + componentPartLen + 1 in
  let newString := replicate (Z.to_nat newStringLen) 0 in
  '(newString, targetPos) ← copy_loop (Z.to_nat domainIdLen) domainId 0 newString 0;
  '(newString, targetPos) ← put 47 newString targetPos;
  separator ← separator;
  '(newString, targetPos) ← copy_loop (Z.to_nat separator) itemId 0 newString targetPos;
  '(newString, targetPos) ← put 46 newString targetPos;
  '(newString, targetPos) ← copy_dots (Z.to_nat (itemIdLen - (separator + 4))) itemId (separator + 4) newString targetPos;
  '(newString, targetPos) ←
    (if -1 <? arrayIndex then
       '(newString, _) ← puts (40 :: print_d arrayIndex ++ [41; 0]) newString targetPos;
       Some (newString, targetPos + arrayIndexLen)
     else Some (newString, targetPos));
  '(newString, targetPos) ←
    match va_componentName varAccessSpec with
    | Some componentName =>
        '(newString, targetPos) ← put 46 newString targetPos;
        copy_dots (Z.to_nat componentPartLen) componentName 0 newString targetPos
    | None => Some (newString, targetPos)
    end;
  f0 ← ld itemId (separator + 1);
  f1 ← ld itemId (separator + 2);
  '(newString, targetPos) ← puts [91; f0; f1; 93; 0] newString targetPos;
  Some newString.

(** * The name of a reference *)

(** the separators are replaced, the first one by the functional constraint *)
Fixpoint name_octets (f0 f1 : Z) (fcAdded : bool) (s : list Z) : list Z :=
  match s with
  | [] => []
  | c :: s =>
      if c =? 46 then (if fcAdded then [36] else [36; f0; f1; 36]) ++ name_octets f0 f1 true s
      else c :: name_octets f0 f1 fcAdded s
  end.

Definition has_dot (s : list Z) : bool := existsb (Z.eqb 46) s.

Definition mms_name (f0 f1 : Z) (s : list Z) : list Z :=
  name_octets f0 f1 false s ++ (if has_dot s then [] else [36; f0; f1]).

Lemma zlen_name_octets f0 f1 b s :
  zlen (name_octets f0 f1 b s) = zlen s + (if negb b && has_dot s then 3 else 0).
Proof.
  revert b. induction s as [|c s IH]; intros b; [by destruct b|]. cbn [name_octets has_dot existsb].
  rewrite (Z.eqb_sym 46 c). destruct (c =? 46); cbn [orb].
  - destruct b; cbn [negb andb app]; rewrite !zlen_cons, IH; cbn [negb andb]; lia.
  - rewrite !zlen_cons, IH. unfold has_dot. lia.
Qed.

Lemma zlen_mms_name f0 f1 s : zlen (mms_name f0 f1 s) = zlen s + 3.
Proof. unfold mms_name. rewrite zlen_app, zlen_name_octets. cbn [negb andb]. destruct (has_dot s); zlen; lia. Qed.

Lemma has_dot_app s t : has_dot (s ++ t) = has_dot s || has_dot t.
Proof. apply existsb_app. Qed.

Lemma has_dot_no s : 46 ∉ s -> has_dot s = false.
Proof.
  unfold has_dot. induction s as [|c s IH]; intros H; [done|]. apply not_elem_of_cons in H as [H1 H2]. cbn [existsb]. rewrite IH by done.
  by replace (46 =? c) with false by lia.
Qed.

Lemma name_octets_plain f0 f1 b s : 46 ∉ s -> name_octets f0 f1 b s = s.
Proof.
  revert b. induction s as [|c s IH]; intros b H; [done|]. apply not_elem_of_cons in H as [H1 H2]. cbn [name_octets app].
  replace (c =? 46) with false by lia. by rewrite IH.
Qed.

Lemma name_octets_app f0 f1 s t : 46 ∉ s -> name_octets f0 f1 false (s ++ t) = s ++ name_octets f0 f1 false t.
Proof.
  induction s as [|c s IH]; intros H; [done|]. apply not_elem_of_cons in H as [H1 H2]. cbn [name_octets app].
  replace (c =? 46) with false by lia. by rewrite IH.
Qed.

(** the dots replaced *)
Definition dollars (s : list Z) : list Z := (fun c => if c =? 46 then 36 else c) <$> s.

Lemma name_octets_true f0 f1 s : name_octets f0 f1 true s = dollars s.
Proof. induction s as [|c s IH]; [done|]. cbn. by destruct (c =? 46); cbn; rewrite IH. Qed.

(** ** The code computes it *)

Lemma find_slash_spec s : forall pre post, 47 ∉ s -> find_slash (length s) (pre ++ s ++ post) (zlen pre) = Some (zlen pre + zlen s).
Proof.
  induction s as [|c s IH]; intros pre post H; [cbn; f_equal; zlia|]. apply not_elem_of_cons in H as [H1 H2]. cbn [find_slash length].
  assert (at_pos (pre ++ (c :: s) ++ post) (zlen pre) ((c :: s))) as Hat by by exists pre, post.
  apply at_pos_cons in Hat as [-> _]. cbn [mbind option_bind]. replace (c =? 47) with false by lia.
  specialize (IH (pre ++ [c]) post H2). rewrite zlen_app, <- app_assoc in IH. change (zlen [c]) with 1 in IH. cbn [app] in *. rewrite IH.
  f_equal. zlia.
Qed.

Lemma find_slash_here s post : 47 ∉ s -> forall n, (length s < n)%nat -> find_slash n (s ++ 47 :: post) 0 = Some (zlen s).
Proof.
  enough (forall n pre, 47 ∉ s -> (length s < n)%nat -> find_slash n (pre ++ s ++ 47 :: post) (zlen pre) = Some (zlen pre + zlen s)) as H.
  { intros Hs n Hn. exact (H n [] Hs Hn). }
  induction s as [|c s IH]; intros n pre Hs Hn; (destruct n as [|n]; [cbn in Hn; lia|]); cbn [find_slash].
  - assert (at_pos (pre ++ [] ++ 47 :: post) (zlen pre) (47 :: post)) as Hat by (exists pre, []; by rewrite app_nil_r).
    apply at_pos_cons in Hat as [-> _]. cbn. f_equal. zlia.
  - apply not_elem_of_cons in Hs as [H1 H2].
    assert (at_pos (pre ++ (c :: s) ++ 47 :: post) (zlen pre) (c :: s)) as Hat by by exists pre, (47 :: post).
    apply at_pos_cons in Hat as [-> _]. cbn [mbind option_bind]. replace (c =? 47) with false by lia.
    specialize (IH n (pre ++ [c]) H2 ltac:(cbn in Hn; lia)). rewrite zlen_app, <- app_assoc in IH. change (zlen [c]) with 1 in IH.
    cbn [app] in *. rewrite IH. f_equal. zlia.
Qed.

Lemma name_loop_spec f0 f1 fz s : forall ref pos fcAdded name destIndex,
  at_pos ref pos s ->
  name_loop (length s) ref (f0 :: f1 :: fz) pos fcAdded name destIndex
  = '(name, destIndex) ← puts (name_octets f0 f1 fcAdded s) name destIndex; Some (fcAdded || has_dot s, name, destIndex).
Proof.
  induction s as [|c s IH]; intros ref pos b name d Hat; [cbn; by rewrite orb_false_r|].
  apply at_pos_cons in Hat as [Hc Hat]. cbn [length name_loop has_dot existsb name_octets]. rewrite Hc. cbn [mbind option_bind]. rewrite (Z.eqb_sym 46 c).
  change (ld (f0 :: f1 :: fz) 0) with (Some f0). change (ld (f0 :: f1 :: fz) 1) with (Some f1).
  destruct (c =? 46) eqn:E; cbn [negb].
  - destruct b; cbn [negb mbind option_bind orb].
    + change ([36] ++ name_octets f0 f1 true s) with (36 :: name_octets f0 f1 true s). cbn [puts].
      destruct (put 36 name d) as [[n d']|]; cbn [mbind option_bind]; [|done]. by rewrite IH.
    + rewrite puts_app. destruct (puts [36; f0; f1; 36] name d) as [[n d']|]; cbn [mbind option_bind]; [|done].
      rewrite IH by done. by destruct (puts (name_octets f0 f1 true s) n d') as [[? ?]|].
  - cbn [puts]. destruct (put c name d) as [[n d']|]; cbn [mbind option_bind]; [|done]. by rewrite IH.
Qed.

(** The last part of the function, for the item [s] of a reference. *)
Lemma name_finish f0 f1 fz ref pos s name :
  at_pos ref pos s ->
  ('(fcAdded, name, destIndex) ← name_loop (length s) ref (f0 :: f1 :: fz) pos false name 0;
   '(name, destIndex) ← (if negb fcAdded then a ← ld (f0 :: f1 :: fz) 0; b ← ld (f0 :: f1 :: fz) 1; puts [36; a; b] name destIndex
                         else Some (name, destIndex));
   name ← st name destIndex 0; Some (Some name))
  = '(name, _) ← puts (mms_name f0 f1 s ++ [0]) name 0; Some (Some name).
Proof.
  intros Hat. rewrite (name_loop_spec _ _ _ _ _ _ _ _ _ Hat), puts_snoc. unfold mms_name. cbn [orb].
  change (ld (f0 :: f1 :: fz) 0) with (Some f0). change (ld (f0 :: f1 :: fz) 1) with (Some f1). cbn [mbind option_bind].
  rewrite puts_app. destruct (puts (name_octets f0 f1 false s) name 0) as [[n d]|]; cbn [mbind option_bind]; [|done].
  destruct (has_dot s); cbn [negb].
  - cbn [puts mbind option_bind]. unfold put. by destruct (st n d 0).
  - destruct (puts [36; f0; f1] n d) as [[n' d']|]; cbn [mbind option_bind]; [|done]. unfold put. by destruct (st n' d' 0).
Qed.

(** characters that may stand between the separators of a reference *)
Definition plain_char (c : Z) : Prop := c <> 0 /\ c <> 47 /\ c <> 91 /\ c <> 93 /\ c <> 40 /\ c <> 41 /\ c <> 36.
Abbreviation plain := (Forall plain_char).

Lemma plain_no s c : plain s -> ~ plain_char c -> c ∉ s.
Proof. intros H Hc Hin. apply Hc. by eapply list.Forall_forall in H. Qed.
Ltac not_plain := unfold plain_char; lia.

(** The name of the item of a reference, with or without the logical device in
    front, written into memory of any size: it fits exactly when there is room for
    three more characters than the item has, and the zero. *)
Lemma createName_spec fc f0 f1 front item post buffer :
  FunctionalConstraint_toString fc = Some [f0; f1; 0] ->
  (front = [] \/ exists ld, front = ld ++ [47] /\ plain ld /\ zlen ld <= 64) -> plain item ->
  zlen front + zlen item <= 129 -> zlen item <= 62 ->
  MmsMapping_createMmsVariableNameFromObjectReference (front ++ item ++ 0 :: post) fc buffer
  = '(name, _) ← puts (mms_name f0 f1 item ++ [0]) (default (replicate (Z.to_nat (zlen item + 4)) 0) buffer) 0; Some (Some name).
Proof.
  intros Hfc Hfront Hitem Hlen Hi. pose proof (plain_no _ 0 Hitem ltac:(not_plain)) as Hz. pose proof (plain_no _ 47 Hitem ltac:(not_plain)) as Hs.
  pose proof (zlen_nonneg front). pose proof (zlen_nonneg item). unfold MmsMapping_createMmsVariableNameFromObjectReference.
  assert (0 ∉ front ++ item) as Hz'.
  { apply not_elem_of_app. split; [|done]. destruct Hfront as [->|(ld & -> & Hp & _)]; [apply not_elem_of_nil|].
    apply not_elem_of_app. split; [exact (plain_no _ 0 Hp ltac:(not_plain)) | by apply not_elem_of_cons; split; [done | apply not_elem_of_nil]]. }
  rewrite app_assoc, strlen_terminated by done. cbn [mbind option_bind]. rewrite zlen_app, <- app_assoc. if_false.
  assert (exists j, find_slash (Z.to_nat (zlen front + zlen item)) (front ++ item ++ 0 :: post) 0 = Some j /\ j <= 64 /\
            (if j =? zlen front + zlen item then 0 else j + 1) = zlen front) as (j & -> & Hj & Hjf).
  { destruct Hfront as [->|(ld & -> & Hp & Hl)].
    - exists (zlen item). cbn [app]. rewrite zlen_nil, Z.add_0_l, zlen_to_nat. split; [|split; [lia | by rewrite Z.eqb_refl]].
      exact (find_slash_spec item [] (0 :: post) Hs).
    - exists (zlen ld). zlen. split; [|split; [lia|]].
      + rewrite <- app_assoc. cbn [app]. apply find_slash_here; [exact (plain_no _ 47 Hp ltac:(not_plain)) | unfold zlen; lia].
      + if_false. lia. }
  cbn [mbind option_bind]. rewrite Hjf. if_false. destruct (decide (fc = IEC61850_FC_NONE)) as [->|Hn]; [done|]. rewrite Hfc. if_false.
  replace (Z.to_nat (zlen front + zlen item - zlen front)) with (length item) by (unfold zlen; lia).
  replace (zlen front + zlen item - zlen front - 1 + 5) with (zlen item + 4) by lia.
  rewrite (name_finish f0 f1 [0] _ (zlen front) item) by (by exists front, (0 :: post)). by destruct buffer.
Qed.

(** * References and access specifications *)

Lemma strchr_here s c post : c ∉ s -> 0 ∉ s -> strchr (s ++ c :: post) c = Some (Some (zlen s)).
Proof.
  induction s as [|x s IH]; intros Hc Hz; [cbn; by rewrite Z.eqb_refl|].
  apply not_elem_of_cons in Hc as [? Hc]. apply not_elem_of_cons in Hz as [? Hz]. cbn [app strchr].
  replace (x =? c) with false by lia. replace (x =? 0) with false by lia. rewrite IH by done. cbn. do 2 f_equal. zlia.
Qed.

Lemma strchr_none s c post : c ∉ s -> 0 ∉ s -> c <> 0 -> strchr (s ++ 0 :: post) c = Some None.
Proof.
  induction s as [|x s IH]; intros Hc Hz H0.
  - cbn [app strchr]. by replace (0 =? c) with false by lia.
  - apply not_elem_of_cons in Hc as [? Hc]. apply not_elem_of_cons in Hz as [? Hz]. cbn [app strchr].
    replace (x =? c) with false by lia. replace (x =? 0) with false by lia. by rewrite IH.
Qed.

Lemma ptr_add_app l k : ptr_add (l ++ k) (zlen l) = k.
Proof. unfold ptr_add. by rewrite zlen_to_nat, drop_app_length. Qed.

Lemma toString_letters fc f0 f1 :
  FunctionalConstraint_toString fc = Some [f0; f1; 0] -> 65 <= f0 <= 90 /\ 65 <= f1 <= 90.
Proof. destruct fc; intros [= <- <-] || done; lia. Qed.

Lemma fromString_letters fc f0 f1 rest :
  FunctionalConstraint_toString fc = Some [f0; f1; 0] -> FunctionalConstraint_fromString (f0 :: f1 :: rest) = Some fc.
Proof. destruct fc; intros [= <- <-] || done; reflexivity. Qed.

(** ** Decimal numbers *)

Lemma digits_count_spec fuel : forall n k acc f2, 0 <= n < 10 ^ Z.of_nat (S fuel) -> 0 <= n < 10 ^ Z.of_nat f2 -> (0 < f2)%nat ->
  digits_count fuel n k + zlen acc = k - 1 + zlen (digits_loop f2 n acc).
Proof.
  induction fuel as [|fuel IH]; intros n k acc f2 Hn Hf H0; (destruct f2 as [|f2]; [lia|]); cbn [digits_count digits_loop].
  - change (10 ^ Z.of_nat 1) with 10 in Hn. rewrite Z.div_small by lia. cbn. zlia.
  - pose proof (Z.div_mod n 10 ltac:(lia)). pose proof (Z.mod_pos_bound n 10 ltac:(lia)). destruct (Z.ltb_spec 9 n) as [H9|H9].
    + assert (1 <= n / 10) by (apply Z.div_le_lower_bound; lia). if_false.
      rewrite Nat2Z.inj_succ, Z.pow_succ_r in Hn, Hf by lia.
      assert (0 < f2)%nat by (destruct f2; [change (10 ^ Z.of_nat 0) with 1 in Hf; lia | lia]).
      pose proof (IH (n / 10) (k + 1) ((48 + n mod 10) :: acc) f2) as E. rewrite zlen_cons in E.
      rewrite <- Z.sub_0_r at 1. enough (digits_count fuel (n / 10) (k + 1) + (1 + zlen acc) = k + 1 - 1 + zlen (digits_loop f2 (n / 10) ((48 + n mod 10) :: acc))) by lia.
      apply E; [split; [lia | apply Z.div_lt_upper_bound; lia] | split; [lia | apply Z.div_lt_upper_bound; lia] | done].
    + rewrite Z.div_small by lia. cbn. zlia.
Qed.

Lemma numberOfDigits_spec n : 0 <= n <= 2147483647 -> getNumberOfDigits n = zlen (digits n).
Proof.
  intros Hn. unfold getNumberOfDigits, digits. pose proof (digits_count_spec 10 n 1 [] (S (Z.to_nat (Z.log2 n)))) as H.
  change (zlen []) with 0 in H. rewrite Z.add_0_r in H. rewrite H; [lia | change (10 ^ Z.of_nat 11) with 100000000000; lia | | lia].
  split; [lia|]. pose proof (Z.log2_nonneg n). rewrite Nat2Z.inj_succ, Z2Nat.id by done.
  destruct (decide (n = 0)) as [->|Hne]; [done|]. apply Z.lt_le_trans with (2 ^ Z.succ (Z.log2 n)); [apply Z.log2_spec; lia|].
  apply Z.pow_le_mono_l. lia.
Qed.

Lemma digits_value_ge ds : forall v, Forall is_digit ds -> 0 <= v -> v <= digits_value v ds.
Proof.
  induction ds as [|d ds IH]; intros v Hd Hv; [cbn; lia|]. apply list.Forall_cons in Hd as [Hd Hds]. unfold is_digit in Hd.
  unfold digits_value in *. cbn [fold_left]. specialize (IH (v * 10 + (d - 48)) Hds ltac:(lia)). lia.
Qed.

Lemma chk_int_ok z : -2147483648 <= z <= 2147483647 -> chk_int z = Some z.
Proof. intros. unfold chk_int. by if_true. Qed.

Lemma digitsToInt_loop_spec ds : forall buf pos v, at_pos buf pos ds -> Forall is_digit ds -> 0 <= v -> digits_value v ds <= 2147483647 ->
  digitsToInt_loop (length ds) buf pos v = Some (digits_value v ds).
Proof.
  induction ds as [|d ds IH]; intros buf pos v Hat Hd Hv Hle; [done|]. apply at_pos_cons in Hat as [Hc Hat].
  apply list.Forall_cons in Hd as [Hd Hds]. unfold is_digit in Hd. cbn [length digitsToInt_loop]. rewrite Hc. cbn [mbind option_bind].
  change (digits_value (v * 10 + (d - 48)) ds <= 2147483647) in Hle.
  pose proof (digits_value_ge ds (v * 10 + (d - 48)) Hds ltac:(lia)). rewrite chk_int_ok by lia. cbn [mbind option_bind].
  assert (StringUtils_digitToInt d = d - 48) as ->.
  { unfold StringUtils_digitToInt, StringUtils_isDigit, char_val. if_true. by replace ((47 <? d) && (d <? 58)) with true by lia. }
  if_false. rewrite chk_int_ok by lia. cbn [mbind option_bind]. apply IH; done || lia.
Qed.

Lemma digitsToInt_digits n post : 0 <= n <= 2147483647 -> StringUtils_digitsToInt (digits n ++ post) (zlen (digits n)) = Some n.
Proof.
  intros Hn. destruct (digits_spec n ltac:(lia)) as (_ & Hd & Hv). unfold StringUtils_digitsToInt. rewrite zlen_to_nat.
  rewrite (digitsToInt_loop_spec (digits n)); [by rewrite Hv | apply at_pos_prefix | done | lia | lia].
Qed.

(** ** Written out

    A reference with logical device, logical node, the path below it, optionally an
    array index with a component, and the functional constraint. *)

Definition index_part (index : option (Z * list Z)) : list Z :=
  match index with
  | None => []
  | Some (n, []) => 40 :: digits n ++ [41]
  | Some (n, component) => 40 :: digits n ++ 41 :: 46 :: component
  end.

Definition reference (ld ln path : list Z) (index : option (Z * list Z)) (f0 f1 : Z) : list Z :=
  ld ++ 47 :: ln ++ 46 :: path ++ index_part index ++ [91; f0; f1; 93].

Definition reference_ok (ld ln path : list Z) (index : option (Z * list Z)) : Prop :=
  plain ld /\ zlen ld <= 64 /\ plain ln /\ 46 ∉ ln /\ plain path /\ zlen ln + 1 + zlen path <= 62 /\
  match index with None => True | Some (n, component) => 0 <= n <= 2147483647 /\ plain component end.

Definition access_spec (ld ln path : list Z) (index : option (Z * list Z)) (f0 f1 : Z) : MmsVariableAccessSpecification :=
  mkMmsVariableAccessSpecification (Some (ld ++ [0])) (Some (ln ++ 36 :: f0 :: f1 :: 36 :: dollars path ++ [0]))
    (match index with None => -1 | Some (n, _) => n end)
    (match index with Some (_, c :: component) => Some (dollars (c :: component) ++ [0]) | _ => None end).

Lemma mms_name_path f0 f1 ln path : 46 ∉ ln -> mms_name f0 f1 (ln ++ 46 :: path) = ln ++ 36 :: f0 :: f1 :: 36 :: dollars path.
Proof.
  intros H. unfold mms_name. rewrite has_dot_app. cbn [has_dot existsb Z.eqb]. rewrite orb_true_r, app_nil_r, name_octets_app by done.
  cbn [name_octets Z.eqb app]. cbv match. by rewrite name_octets_true.
Qed.

Lemma plain_app s t : plain s -> plain t -> plain (s ++ t).
Proof. apply Forall_app_2. Qed.

Lemma digit_no n c : 0 <= n -> ~ is_digit c -> c ∉ digits n.
Proof. intros Hn Hc Hin. apply Hc. destruct (digits_spec n Hn) as (_ & Hd & _). by eapply list.Forall_forall in Hd. Qed.

Ltac no_elem :=
  repeat match goal with
  | |- _ ∉ _ ++ _ => apply not_elem_of_app; split
  | |- _ ∉ _ :: _ => apply not_elem_of_cons; split; [lia|]
  | |- _ ∉ [] => apply not_elem_of_nil
  | |- _ ∉ digits _ => apply digit_no; [lia | unfold is_digit; lia]
  | H : Forall plain_char ?s |- _ ∉ ?s => apply (plain_no _ _ H); not_plain
  end.

Lemma index_part_no index c :
  match index with None => True | Some (n, component) => 0 <= n <= 2147483647 /\ plain component end ->
  (c = 0 \/ c = 91 \/ c = 47) -> c ∉ index_part index.
Proof.
  intros Hi Hc. destruct index as [[n [|x component]]|]; cbn [index_part]; [destruct Hi as [Hn Hp]..|]; destruct Hc as [->|[->| ->]]; no_elem.
Qed.

Lemma exact_block bs n : zlen bs = n -> puts bs (replicate (Z.to_nat n) 0) 0 = Some (bs, n).
Proof.
  intros Hn. pose proof (zlen_nonneg bs). rewrite puts_fits by zlia. do 2 f_equal; [|lia]. unfold splice. cbn [Z.to_nat take].
  rewrite take_0, drop_ge by (rewrite length_replicate; unfold zlen in *; lia). by rewrite app_nil_r.
Qed.

Lemma replace_dots s : 0 ∉ s -> StringUtils_replace (s ++ [0]) 46 36 = Some (dollars s ++ [0]).
Proof.
  intros H. unfold StringUtils_replace. rewrite strlen_terminated by done. cbn [mbind option_bind].
  by rewrite zlen_to_nat, take_app_length, drop_app_length.
Qed.

(** the index behind the item of the reference *)
Lemma parse_index_spec front n component f0 f1 d i :
  0 <= n <= 2147483647 -> plain component ->
  parse_index (front ++ index_part (Some (n, component)) ++ [91; f0; f1; 93; 0]) (zlen front)
    (zlen front + zlen (index_part (Some (n, component))) + 4) (mkMmsVariableAccessSpecification d i (-1) None)
  = Some (mkMmsVariableAccessSpecification d i n (match component with [] => None | _ => Some (dollars component ++ [0]) end)).
Proof.
  intros Hn Hp. set (rest := match component with [] => [] | _ => 46 :: component end).
  assert (index_part (Some (n, component)) = 40 :: digits n ++ 41 :: rest) as ->
    by (unfold rest; destruct component; cbn [index_part]; [done|]; by rewrite <- ?app_assoc).
  unfold parse_index, strchr_from. set (tail := [91; f0; f1; 93; 0]).
  replace (front ++ (40 :: digits n ++ 41 :: rest) ++ tail) with ((front ++ [40]) ++ digits n ++ 41 :: rest ++ tail)
    by (rewrite <- !app_assoc; cbn [app]; by rewrite <- !app_assoc).
  replace (zlen front + 1) with (zlen (front ++ [40])) by zlia. rewrite ptr_add_app, strchr_here by no_elem. cbn [mbind option_bind option_map].
  rewrite Z.add_simpl_l, digitsToInt_digits by done. cbn [mbind option_bind].
  replace (ptr_add _ (zlen (front ++ [40]) + zlen (digits n) + 2)) with (ptr_add (rest ++ tail) 1).
  2:{ replace ((front ++ [40]) ++ digits n ++ 41 :: rest ++ tail) with ((front ++ 40 :: digits n ++ [41]) ++ rest ++ tail)
        by (rewrite <- !app_assoc; cbn [app]; by rewrite <- !app_assoc).
      unfold ptr_add. replace (Z.to_nat (zlen (front ++ [40]) + zlen (digits n) + 2)) with (length (front ++ (40 :: digits n ++ [41])%Z) + 1)%nat.
      - by rewrite drop_app_add.
      - unfold zlen. rewrite !length_app. cbn [length]. rewrite length_app. cbn [length]. lia. }
  unfold rest. destruct component as [|c component].
  - replace (0 <? _) with false by (zlen; lia). done.
  - replace (zlen front + zlen (40 :: digits n ++ 41 :: 46 :: c :: component) + 4 - (zlen (front ++ [40]) + zlen (digits n) + 2) - 4)
      with (zlen (c :: component)) by (zlen; lia).
    pose proof (zlen_nonneg component). replace (0 <? zlen (c :: component)) with true by zlia.
    change (ptr_add ((46 :: c :: component) ++ tail) 1) with ((c :: component) ++ tail).
    pose proof (createStringFromBuffer_at (c :: component) ((c :: component) ++ tail) 0 (at_pos_prefix _ _)) as E.
    change (ptr_add ((c :: component) ++ tail) 0) with ((c :: component) ++ tail) in E. rewrite E. cbn [mbind option_bind].
    rewrite replace_dots by no_elem. done.
Qed.

(** ** From the reference to the specification *)

Ltac app_norm := repeat (rewrite <- app_assoc || (progress cbn [app])); reflexivity.

Lemma item_copy item :
  zlen item <= 128 ->
  exists post, st_range (replicate 129 0) 0 item = Some (item ++ 0 :: post) /\ st (item ++ 0 :: post) (zlen item) 0 = Some (item ++ 0 :: post).
Proof.
  intros H. exists (replicate (128 - length item) 0). pose proof (zlen_nonneg item). unfold st_range.
  replace ((0 <=? 0) && (0 + zlen item <=? zlen (replicate 129 0))) with true by (rewrite zlen_replicate; lia).
  split.
  - cbn [Z.to_nat take]. rewrite take_0. cbn [app]. rewrite Nat.add_0_l, drop_replicate.
    by replace (129 - length item)%nat with (S (128 - length item)) by (unfold zlen in *; lia).
  - rewrite st_Some by zlia. by rewrite zlen_to_nat, insert_app_r_alt, Nat.sub_diag by lia.
Qed.

Lemma toSpec_spec fc f0 f1 ld ln path index :
  FunctionalConstraint_toString fc = Some [f0; f1; 0] -> reference_ok ld ln path index ->
  MmsMapping_ObjectReferenceToVariableAccessSpec (reference ld ln path index f0 f1 ++ [0]) = Some (Some (access_spec ld ln path index f0 f1)).
Proof.
  intros Hfc (Hld & Hl & Hln & Hdot & Hpath & Hlen & Hidx). pose proof (toString_letters fc f0 f1 Hfc) as [Hf0 Hf1].
  set (item := ln ++ 46 :: path). assert (plain item) as Hitem.
  { apply plain_app; [done|]. constructor; [not_plain | done]. }
  assert (zlen item <= 62) as Hi by (unfold item; zlen; lia). pose proof (zlen_nonneg ld). pose proof (zlen_nonneg item).
  pose proof (index_part_no index 0 Hidx ltac:(lia)) as I0. pose proof (index_part_no index 91 Hidx ltac:(lia)) as I91.
  set (I := index_part index) in *.
  assert (reference ld ln path index f0 f1 ++ [0] = ld ++ 47 :: item ++ I ++ [91; f0; f1; 93; 0]) as Href.
  { unfold reference, item, I. app_norm. }
  rewrite Href. set (ref := ld ++ 47 :: item ++ I ++ [91; f0; f1; 93; 0]).
  assert (ref = (ld ++ 47 :: item ++ I) ++ 91 :: f0 :: f1 :: 93 :: [0]) as R1 by (unfold ref; app_norm).
  assert (ref = (ld ++ 47 :: item) ++ I ++ [91; f0; f1; 93; 0]) as R2 by (unfold ref; app_norm).
  assert (ref = (ld ++ [47]) ++ item ++ I ++ [91; f0; f1; 93; 0]) as R3 by (unfold ref; app_norm).
  unfold MmsMapping_ObjectReferenceToVariableAccessSpec, strchr_from.
  assert (strchr ref 47 = Some (Some (zlen ld))) as -> by (apply strchr_here; no_elem). cbn [mbind option_bind]. if_false.
  assert (strchr ref 91 = Some (Some (zlen (ld ++ 47 :: item ++ I)))) as -> by (rewrite R1; apply strchr_here; no_elem; done). cbn [mbind option_bind].
  assert (ptr_add ref (zlen (ld ++ 47 :: item ++ I)) = 91 :: f0 :: f1 :: 93 :: [0]) as -> by (rewrite R1; apply ptr_add_app). cbn [strchr]. replace (91 =? 93) with false by lia. replace (91 =? 0) with false by lia.
  replace (f0 =? 93) with false by lia. replace (f0 =? 0) with false by lia. replace (f1 =? 93) with false by lia. replace (f1 =? 0) with false by lia.
  replace (93 =? 93) with true by lia. cbn [mbind option_bind option_map]. if_false.
  assert (ptr_add ref (zlen (ld ++ 47 :: item ++ I) + 1) = f0 :: f1 :: [93; 0]) as ->.
  { replace ref with ((ld ++ 47 :: item ++ I ++ [91]) ++ f0 :: f1 :: [93; 0]) by (unfold ref; app_norm).
    replace (zlen (ld ++ 47 :: item ++ I) + 1) with (zlen (ld ++ 47 :: item ++ I ++ [91])) by (zlen; lia). apply ptr_add_app. }
  rewrite (fromString_letters fc) by done. cbn [mbind option_bind].
  assert (StringUtils_createStringFromBuffer ref (zlen ld) = Some (ld ++ [0])) as ->
    by exact (createStringFromBuffer_at ld ref 0 (at_pos_prefix _ _)). cbn [mbind option_bind].
  assert (ptr_add ref (zlen ld) = 47 :: item ++ I ++ [91; f0; f1; 93; 0]) as -> by apply ptr_add_app.
  assert (strlen ref = Some (zlen (ld ++ 47 :: item) + zlen I + 4)) as Hstr.
  { replace ref with ((ld ++ 47 :: item ++ I ++ [91; f0; f1; 93]) ++ [0]) by (unfold ref; app_norm).
    rewrite strlen_terminated by (rewrite ?app_comm_cons; no_elem; done). f_equal. zlen. lia. }
  destruct (item_copy item ltac:(lia)) as (post & Hcp & Hst).
  assert (ld_range ref (zlen ld + 1) (zlen item) = Some item) as Hitem_at.
  { apply at_pos_range. exists (ld ++ [47]), (I ++ [91; f0; f1; 93; 0]). split; [by rewrite R3 | zlia]. }
  assert (MmsMapping_createMmsVariableNameFromObjectReference (item ++ 0 :: post) fc None
            = Some (Some (ln ++ 36 :: f0 :: f1 :: 36 :: dollars path ++ [0]))) as Hname.
  { etransitivity; [apply (createName_spec fc f0 f1 [] item post None Hfc); auto; zlen; lia|]. cbn [default from_option].
    rewrite exact_block by (zlen; rewrite zlen_mms_name; lia). cbn [mbind option_bind]. unfold item. rewrite mms_name_path by done.
    rewrite <- app_assoc. done. }
  destruct index as [[n component]|].
  - destruct Hidx as [Hn Hc]. assert (exists rest, I = 40 :: rest) as [rest HI] by (unfold I; cbn [index_part]; destruct component; by eexists).
    rewrite HI. change (47 :: item ++ (40 :: rest) ++ [91; f0; f1; 93; 0]) with ((47 :: item) ++ 40 :: rest ++ [91; f0; f1; 93; 0]).
    rewrite strchr_here by no_elem. cbn [mbind option_bind option_map]. rewrite Hstr. cbn [mbind option_bind].
    replace (zlen ld + zlen (47 :: item) - zlen ld - 1) with (zlen item) by (zlen; lia). rewrite Hitem_at. cbn [mbind option_bind].
    rewrite Hcp. cbn [mbind option_bind]. rewrite Hst. cbn [mbind option_bind]. rewrite Hname. cbn [mbind option_bind].
    replace (zlen ld + zlen (47 :: item)) with (zlen (ld ++ 47 :: item)) by (zlen; lia). rewrite R2. unfold I.
    rewrite parse_index_spec by done. cbn [mbind option_bind]. unfold access_spec. by destruct component.
  - assert (I = []) as HI by done. rewrite HI.
    change (47 :: item ++ [] ++ [91; f0; f1; 93; 0]) with ((47 :: item) ++ 91 :: f0 :: f1 :: 93 :: [0]).
    assert (strchr ((47 :: item) ++ 91 :: f0 :: f1 :: 93 :: [0]) 40 = Some None) as ->.
    { replace ((47 :: item) ++ 91 :: f0 :: f1 :: 93 :: [0]) with (((47 :: item) ++ [91; f0; f1; 93]) ++ [0]) by app_norm.
      apply strchr_none; [no_elem; done | no_elem; done | lia]. }
    cbn [mbind option_bind option_map]. rewrite strchr_here by no_elem. cbn [mbind option_bind option_map]. rewrite Hstr. cbn [mbind option_bind].
    replace (zlen ld + zlen (47 :: item) - zlen ld - 1) with (zlen item) by (zlen; lia). rewrite Hitem_at. cbn [mbind option_bind].
    rewrite Hcp. cbn [mbind option_bind]. rewrite Hst. cbn [mbind option_bind]. rewrite Hname. done.
Qed.

(** ** From the specification to the reference *)

Lemma copy_dots_puts s : forall src i buffer bufPos, at_pos src i (dollars s) -> 36 ∉ s ->
  copy_dots (length s) src i buffer bufPos = puts s buffer bufPos.
Proof.
  induction s as [|c s IH]; intros src i buffer bufPos Hat Hs; [done|]. apply not_elem_of_cons in Hs as [H1 H2].
  apply at_pos_cons in Hat as [Hc Hat]. cbn [length copy_dots puts]. rewrite Hc. cbn [mbind option_bind].
  replace (if (if c =? 46 then 36 else c) =? 36 then 46 else if c =? 46 then 36 else c) with c
    by (destruct (Z.eqb_spec c 46) as [->|]; [done|]; by replace (c =? 36) with false by lia).
  destruct (put c buffer bufPos) as [[b p]|]; cbn [mbind option_bind]; [|done]. by apply IH.
Qed.

Lemma dollars_no_zero s : 0 ∉ s -> 0 ∉ dollars s.
Proof.
  intros H Hin. apply list_elem_of_fmap in Hin as (c & Hc & Hin). destruct (c =? 46); [done|]. by subst c.
Qed.

Lemma zlen_dollars s : zlen (dollars s) = zlen s.
Proof. apply zlen_fmap. Qed.

(** the next run of stores *)
Lemma puts_next P X B : zlen P + zlen X <= zlen B -> puts X (splice B 0 P) (zlen P) = Some (splice B 0 (P ++ X), zlen (P ++ X)).
Proof.
  intros H. pose proof (zlen_nonneg P). pose proof (zlen_nonneg X). rewrite puts_fits by (rewrite ?zlen_splice; lia).
  rewrite <- (Z.add_0_l (zlen P)) at 1. rewrite splice_splice by lia. by rewrite zlen_app.
Qed.

(** A store that is overwritten by the next one. *)
Lemma puts_over P z c k B :
  zlen P + 1 + zlen k <= zlen B -> puts (c :: k) (splice B 0 (P ++ [z])) (zlen P) = Some (splice B 0 (P ++ c :: k), zlen (P ++ c :: k)).
Proof.
  intros H. pose proof (zlen_nonneg P). pose proof (zlen_nonneg k).
  pose proof (puts_next P [z] B ltac:(zlen; lia)) as E. cbn [puts] in E. unfold put in E. set (b := splice B 0 P) in *.
  assert (zlen b = zlen B) by (apply zlen_splice; lia). rewrite (st_Some b) in E by lia. cbn [mbind option_bind] in E. injection E as E _. rewrite <- E.
  rewrite <- puts_next by (zlen; lia). cbn [puts]. unfold put. fold b. rewrite !st_Some by (rewrite ?zlen_insert; lia). cbn [mbind option_bind].
  by rewrite list_insert_insert_eq.
Qed.

Lemma copy_loop_string s post P B :
  zlen P + zlen s <= zlen B -> copy_loop (Z.to_nat (zlen s)) (s ++ post) 0 (splice B 0 P) (zlen P) = Some (splice B 0 (P ++ s), zlen (P ++ s)).
Proof.
  intros H. pose proof (zlen_nonneg s). pose proof (zlen_nonneg post). rewrite copy_loop_all by zlia.
  rewrite zlen_to_nat, take_app_length. by apply puts_next.
Qed.

Lemma splice_nothing B : splice B 0 [] = B.
Proof. unfold splice. done. Qed.

(** the array index and the component *)
Definition component_of (index : option (Z * list Z)) : option (list Z) :=
  match index with Some (_, c :: component) => Some (c :: component) | _ => None end.

Lemma index_part_eq index :
  index_part index = match index with Some (n, _) => 40 :: digits n ++ [41] | None => [] end
                     ++ match component_of index with Some c => 46 :: c | None => [] end.
Proof. destruct index as [[n [|c component]]|]; cbn [index_part component_of]; rewrite ?app_nil_r; try done. cbn [app]. by rewrite <- app_assoc. Qed.

Lemma fromSpec_spec f0 f1 ld ln path index :
  f0 <> 0 -> f1 <> 0 -> reference_ok ld ln path index ->
  exists post, MmsMapping_varAccessSpecToObjectReference (access_spec ld ln path index f0 f1) = Some (reference ld ln path index f0 f1 ++ 0 :: post).
Proof.
  intros Hf0 Hf1 (Hld & Hl & Hln & Hdot & Hpath & Hlen & Hidx). unfold MmsMapping_varAccessSpecToObjectReference, access_spec.
  cbn [va_domainId va_itemId va_componentName va_arrayIndex mbind option_bind].
  set (item := ln ++ 36 :: f0 :: f1 :: 36 :: dollars path).
  replace (ln ++ 36 :: f0 :: f1 :: 36 :: dollars path ++ [0]) with (item ++ [0]) by (unfold item; app_norm).
  rewrite (strlen_terminated ld) by no_elem. cbn [mbind option_bind].
  assert (strchr (item ++ [0]) 36 = Some (Some (zlen ln))) as ->.
  { unfold item. rewrite <- app_assoc. cbn [app]. apply strchr_here; no_elem. }
  cbn [mbind option_bind]. assert (0 ∉ dollars path) by (apply dollars_no_zero; no_elem).
  rewrite (strlen_terminated item) by (unfold item; no_elem; done). cbn [mbind option_bind].
  pose proof (zlen_nonneg ld). pose proof (zlen_nonneg ln). pose proof (zlen_nonneg path).
  assert (zlen item = zlen ln + 4 + zlen path) as Hitem by (unfold item; zlen; rewrite zlen_dollars; lia).
  set (I := match index with Some (n, _) => 40 :: digits n ++ [41] | None => [] end).
  set (C := match component_of index with Some c => 46 :: c | None => [] end).
  set (n := match index with Some (n, _) => n | None => -1 end). set (il := if -1 <? n then 2 + getNumberOfDigits n else 0).
  assert (il = zlen I) as Hil.
  { unfold il, n, I. destruct index as [[m component]|]; [|done]. destruct Hidx as [Hm _]. rewrite numberOfDigits_spec by done. btest. zlen. lia. }
  assert (match match index with Some (_, c :: component) => Some (dollars (c :: component) ++ [0]) | _ => None end with Some c => strlen c | None => Some 0 end
          = Some (zlen (default [] (component_of index)))) as ->.
  { destruct index as [[m [|c component]]|]; try done. destruct Hidx as [_ Hc]. cbn [component_of default from_option id].
    rewrite strlen_terminated by (apply dollars_no_zero; no_elem). by rewrite zlen_dollars. }
  cbn [mbind option_bind]. set (comp := default [] (component_of index)). pose proof (zlen_nonneg comp). pose proof (zlen_nonneg I).
  assert (zlen C <= zlen comp + 1) as HC by (unfold C, comp; destruct (component_of index); cbn [default from_option id]; zlen; lia).
  set (total := zlen ld + 1 + (zlen item - 2) + il + 4 + zlen comp + 1). set (B := replicate (Z.to_nat total) 0).
  assert (zlen B = zlen ld + zlen ln + zlen path + zlen I + zlen comp + 8) as HB by (unfold B, total; rewrite zlen_replicate; lia).
  pose proof (copy_loop_string ld [0] [] B ltac:(rewrite zlen_nil; lia)) as E. rewrite splice_nothing in E. cbn [app] in E.
  change (zlen []) with 0 in E. rewrite E. cbn [mbind option_bind]. clear E. rewrite <- puts_one, puts_next by (zlen; lia). cbn [mbind option_bind].
  replace (item ++ [0]) with (ln ++ 36 :: f0 :: f1 :: 36 :: dollars path ++ [0]) by (unfold item; app_norm).
  rewrite copy_loop_string by (zlen; lia). cbn [mbind option_bind]. rewrite <- puts_one, puts_next by (zlen; lia). cbn [mbind option_bind].
  replace (Z.to_nat (zlen item - (zlen ln + 4))) with (length path) by (unfold zlen in *; lia).
  rewrite copy_dots_puts; [|exists (ln ++ [36; f0; f1; 36]), [0]; split; [app_norm | zlen; lia] | no_elem].
  rewrite puts_next by (zlen; lia). cbn [mbind option_bind]. set (P := ((((ld ++ [47]) ++ ln) ++ [46]) ++ path)).
  assert (zlen P = zlen ld + zlen ln + zlen path + 2) as HP by (unfold P; zlen; lia).
  assert (exists S, (if -1 <? n then '(newString, _) ← puts (40 :: print_d n ++ [41; 0]) (splice B 0 P) (zlen P); Some (newString, zlen P + il)
                     else Some (splice B 0 P, zlen P)) = Some (S, zlen (P ++ I)) /\
                    forall c k, zlen (P ++ I) + 1 + zlen k <= zlen B -> puts (c :: k) S (zlen (P ++ I)) = Some (splice B 0 ((P ++ I) ++ c :: k), zlen ((P ++ I) ++ c :: k)))
    as (S & -> & HS).
  { unfold n, I in *. destruct index as [[m component]|].
    - destruct Hidx as [Hm _]. unfold n. if_true. unfold print_d. if_false.
      replace (40 :: digits m ++ [41; 0]) with ((40 :: digits m ++ [41]) ++ [0]) by app_norm. rewrite puts_next by (zlen; lia). cbn [mbind option_bind].
      rewrite app_assoc. eexists. split; [do 2 f_equal; rewrite Hil, zlen_app; lia|]. intros c k Hk. by apply puts_over.
    - exists (splice B 0 P). rewrite app_nil_r. split; [done|]. intros c k Hk. apply puts_next. zlen. lia. }
  cbn [mbind option_bind].
  assert (at_pos (ln ++ 36 :: f0 :: f1 :: 36 :: dollars path ++ [0]) (zlen ln + 1) [f0; f1]) as Hat
    by (exists (ln ++ [36]), (36 :: dollars path ++ [0]); split; [app_norm | zlen; lia]).
  apply at_pos_cons in Hat as [L0 Hat]. apply at_pos_cons in Hat as [L1 _]. replace (zlen ln + 1 + 1) with (zlen ln + 2) in L1 by lia.
  rewrite L0, L1. cbn [mbind option_bind].
  assert (zlen (P ++ I) = zlen P + zlen I) as HQ by zlia. set (Q := P ++ I) in *.
  assert (reference ld ln path index f0 f1 = Q ++ C ++ [91; f0; f1; 93]) as ->
    by (unfold reference, Q, P; rewrite index_part_eq; fold I; fold C; app_norm).
  assert (exists S', match match index with Some (_, c :: component) => Some (dollars (c :: component) ++ [0]) | _ => None end with
                    | Some componentName => '(newString, targetPos) ← put 46 S (zlen Q); copy_dots (Z.to_nat (zlen comp)) componentName 0 newString targetPos
                    | None => Some (S, zlen Q)
                    end = Some (S', zlen (Q ++ C)) /\
                    puts [91; f0; f1; 93; 0] S' (zlen (Q ++ C)) = Some (splice B 0 ((Q ++ C) ++ [91; f0; f1; 93; 0]), zlen ((Q ++ C) ++ [91; f0; f1; 93; 0])))
    as (S' & -> & HS').
  { unfold C, comp in *. destruct index as [[m [|c component]]|]; cbn [component_of default from_option id] in *; rewrite ?app_nil_r.
    - exists S. split; [done|]. apply HS. zlen. lia.
    - rewrite <- puts_one, HS by (zlen; lia). cbn [mbind option_bind]. rewrite zlen_to_nat. destruct Hidx as [_ Hc].
      rewrite copy_dots_puts; [|apply at_pos_prefix | no_elem]. rewrite puts_next by (zlen; lia). rewrite <- app_assoc.
      eexists. split; [done|]. apply puts_next. cbn [app]. zlen. lia.
    - exists S. split; [done|]. apply HS. zlen. lia. }
  cbn [mbind option_bind]. rewrite HS'. cbn [mbind option_bind]. eexists. f_equal. unfold splice. cbn [Z.to_nat take app]. rewrite take_0. cbn [app].
  app_norm.
Qed.
