(* ===== verification/SvPublisher.v ===== *)
(** The publisher of sampled values: src/libiec61850/src/sampled_values/sv_publisher.c.

    A publisher holds one block of memory, the frame it sends. The application adds
    ASDUs and the places for their values; [SVPublisher_setupComplete] lays the frame
    out once, and from then on every ASDU writes its values through pointers into the
    block of its publisher. So an ASDU is named by its index in the publisher's list,
    its pointers are positions in the publisher's buffer ([None] is the null
    pointer), and an operation on an ASDU takes the publisher and returns it.

    The state is that for Ethernet; the members for routable sampled values are
    compiled out. The interface's MAC address and whether the socket could be
    opened are arguments of the constructor, the frame handed to
    [Ethernet_sendPacket] is a result. *)

From S2P Require Import Prelude BerEncoder BerDecoder BerInteger StringUtils CFloat MmsValue MmsFacts MmsData GoosePublisher IecCommon.
Open Scope Z_scope.

Definition SV_MAX_MESSAGE_SIZE : Z := 1518.

Record SVPublisher_ASDU := mkSVPublisher_ASDU {
  as_svID : option (list Z);
  as_datset : option (list Z);
  as_dataSize : Z;
  as_hasRefrTm : bool;
  as_hasSmpRate : bool;
  as_hasSmpMod : bool;
  as_hasGmIdentity : bool;
  as_dataBuffer : option Z;
  as_smpSynch : Z;
  as_smpCnt : Z;
  as_smpCntLimit : Z;
  as_confRev : Z;
  as_gmIdentity : list Z;
  as_refrTm : option Z;
  as_smpMod : Z;
  as_smpRate : Z;
  as_smpCntBuf : option Z;
  as_smpSynchBuf : option Z
}.

(** [asduCount] is never assigned. *)
Record SVPublisher := mkSVPublisher {
  sv_buffer : list Z;
  sv_ethernetSocket : bool;
  sv_lengthField : Z;
  sv_payloadStart : Z;
  sv_payloadLength : Z;
  sv_asduCount : Z;
  sv_asduList : list SVPublisher_ASDU
}.

(** the assignments to single members *)
Definition sv_with_buffer (p : SVPublisher) (buffer : list Z) : SVPublisher :=
  let 'mkSVPublisher _ so lf ps pl n l := p in mkSVPublisher buffer so lf ps pl n l.
Definition sv_with_asduList (p : SVPublisher) (asduList : list SVPublisher_ASDU) : SVPublisher :=
  let 'mkSVPublisher b so lf ps pl n _ := p in mkSVPublisher b so lf ps pl n asduList.

Definition as_with_dataSize (a : SVPublisher_ASDU) (dataSize : Z) : SVPublisher_ASDU :=
  let 'mkSVPublisher_ASDU i d _ hr hs hm hg db ss sc sl cr gm rt sm sr cb sb := a in
  mkSVPublisher_ASDU i d dataSize hr hs hm hg db ss sc sl cr gm rt sm sr cb sb.
Definition as_with_smpCnt (a : SVPublisher_ASDU) (smpCnt : Z) : SVPublisher_ASDU :=
  let 'mkSVPublisher_ASDU i d n hr hs hm hg db ss _ sl cr gm rt sm sr cb sb := a in
  mkSVPublisher_ASDU i d n hr hs hm hg db ss smpCnt sl cr gm rt sm sr cb sb.
Definition as_with_smpSynch (a : SVPublisher_ASDU) (smpSynch : Z) : SVPublisher_ASDU :=
  let 'mkSVPublisher_ASDU i d n hr hs hm hg db _ sc sl cr gm rt sm sr cb sb := a in
  mkSVPublisher_ASDU i d n hr hs hm hg db smpSynch sc sl cr gm rt sm sr cb sb.
Definition as_with_hasRefrTm (a : SVPublisher_ASDU) : SVPublisher_ASDU :=
  let 'mkSVPublisher_ASDU i d n _ hs hm hg db ss sc sl cr gm rt sm sr cb sb := a in
  mkSVPublisher_ASDU i d n true hs hm hg db ss sc sl cr gm rt sm sr cb sb.
(** [smpCntBuf], [refrTm], [smpSynchBuf] and [_dataBuffer], set when the ASDU is laid out *)
Definition as_with_pointers (a : SVPublisher_ASDU) (smpCntBuf : option Z) (refrTm smpSynchBuf dataBuffer : option Z) : SVPublisher_ASDU :=
  let 'mkSVPublisher_ASDU i d n hr hs hm hg _ ss sc sl cr gm _ sm sr _ _ := a in
  mkSVPublisher_ASDU i d n hr hs hm hg dataBuffer ss sc sl cr gm refrTm sm sr smpCntBuf smpSynchBuf.

(** [f] on the ASDU with index [k] and the buffer of its publisher *)
Definition on_asdu (p : SVPublisher) (k : nat) (f : list Z -> SVPublisher_ASDU -> option (list Z * SVPublisher_ASDU)) : option SVPublisher :=
  a ← sv_asduList p !! k;
  '(buffer, a) ← f (sv_buffer p) a;
  Some (sv_with_asduList (sv_with_buffer p buffer) (<[k := a]> (sv_asduList p))).

(** for an operation that does not touch the buffer *)
Definition set_asdu (p : SVPublisher) (k : nat) (f : SVPublisher_ASDU -> SVPublisher_ASDU) : option SVPublisher :=
  on_asdu p k (fun buffer a => Some (buffer, f a)).

(** * Construction *)

Definition svDefaultCommParameters : CommParameters :=
  mkCommParameters 4 0 0x4000 [0x01; 0x0c; 0xcd; 0x01; 0x00; 0x01].

(** [preparePacketBuffer] on the zeroed structure of [SVPublisher_createEx]; [None]
    inside when the socket cannot be opened *)
Definition preparePacketBuffer (parameters : option CommParameters) (srcAddr : list Z) (socketOpen useVlanTags : bool)
  : option (option SVPublisher) :=
  let p := default svDefaultCommParameters parameters in
  if socketOpen then
    let buffer := replicate (Z.to_nat SV_MAX_MESSAGE_SIZE) 0 in
    dst ← ld_range (cp_dstAddress p) 0 6;
    buffer ← st_range buffer 0 dst;
    src ← ld_range srcAddr 0 6;
    buffer ← st_range buffer 6 src;
    let bufPos := 12 in
    '(buffer, bufPos) ←
      (if useVlanTags then
         let tci1 := u8 (Z.shiftl (cp_vlanPriority p) 5) in
         let tci1 := u8 (tci1 + cp_vlanId p / 256) in
         let tci2 := u8 (cp_vlanId p mod 256) in
         puts [0x81; 0x00; tci1; tci2] buffer bufPos
       else Some (buffer, bufPos));
    '(buffer, bufPos) ← puts [0x88; 0xba] buffer bufPos;
    '(buffer, bufPos) ← puts [u8 (cp_appId p / 256); u8 (cp_appId p mod 256)] buffer bufPos;
    let lengthField := bufPos in
    '(buffer, bufPos) ← puts [0x00; 0x08; 0x00; 0x00; 0x00; 0x00] buffer bufPos;
    let payloadStart := bufPos in
    Some (Some (mkSVPublisher buffer true lengthField payloadStart 0 0 []))
  else Some None.

Definition SVPublisher_createEx (parameters : option CommParameters) (srcAddr : list Z) (socketOpen useVlanTag : bool)
  : option (option SVPublisher) := preparePacketBuffer parameters srcAddr socketOpen useVlanTag.

Definition SVPublisher_create (parameters : option CommParameters) (srcAddr : list Z) (socketOpen : bool)
  : option (option SVPublisher) := SVPublisher_createEx parameters srcAddr socketOpen true.

(** The result is the publisher and the index of the new ASDU. *)
Definition SVPublisher_addASDU (self : SVPublisher) (svID datset : option (list Z)) (confRev : Z) : SVPublisher * nat :=
  let newAsdu := mkSVPublisher_ASDU svID datset 0 false false false false None 0 0 65535 confRev (replicate 8 0) None 0 0 None None in
  (sv_with_asduList self (sv_asduList self ++ [newAsdu]), length (sv_asduList self)).

(** * Layout *)

(** [encodeUInt16FixedSize] and its companions: the bytes of the value in memory,
    the last one first *)
Definition encodeUInt16FixedSize (value : Z) : writer := fun buffer bufPos =>
  let valueArray := le_bytes 2 value in
  v1 ← ld valueArray 1; v0 ← ld valueArray 0; puts [v1; v0] buffer bufPos.
Definition encodeUInt32FixedSize (value : Z) : writer := fun buffer bufPos =>
  let valueArray := le_bytes 4 value in
  v3 ← ld valueArray 3; v2 ← ld valueArray 2; v1 ← ld valueArray 1; v0 ← ld valueArray 0;
  puts [v3; v2; v1; v0] buffer bufPos.
Definition encodeInt32FixedSize (value : Z) : writer := fun buffer bufPos =>
  let valueArray := le_bytes 4 value in
  v3 ← ld valueArray 3; v2 ← ld valueArray 2; v1 ← ld valueArray 1; v0 ← ld valueArray 0;
  puts [v3; v2; v1; v0] buffer bufPos.
Definition encodeInt64FixedSize (value : Z) : writer := fun buffer bufPos =>
  let valueArray := le_bytes 8 value in
  v7 ← ld valueArray 7; v6 ← ld valueArray 6; v5 ← ld valueArray 5; v4 ← ld valueArray 4;
  v3 ← ld valueArray 3; v2 ← ld valueArray 2; v1 ← ld valueArray 1; v0 ← ld valueArray 0;
  puts [v7; v6; v5; v4; v3; v2; v1; v0] buffer bufPos.

Definition SVPublisher_ASDU_getEncodedSize (self : SVPublisher_ASDU) : option Z :=
  svID ← as_svID self;
  svIdLen ← strlen svID;
  let encodedSize := 1 + BerEncoder_determineLengthSize svIdLen + svIdLen in
  encodedSize ← match as_datset self with
                | Some datset => datSetLen ← strlen datset; Some (encodedSize + (1 + BerEncoder_determineLengthSize datSetLen + datSetLen))
                | None => Some encodedSize
                end;
  let encodedSize := encodedSize + 4 + 6 in
  let encodedSize := encodedSize + (if as_hasRefrTm self then 10 else 0) in
  let encodedSize := encodedSize + 3 in
  let encodedSize := encodedSize + (if as_hasSmpRate self then 4 else 0) in
  let encodedSize := encodedSize + (1 + BerEncoder_determineLengthSize (as_dataSize self)) + as_dataSize self in
  let encodedSize := encodedSize + (if as_hasSmpMod self then 4 else 0) in
  Some (encodedSize + (if as_hasGmIdentity self then 10 else 0)).

(** [buffer] is the payload; [origin] is its position in the publisher's buffer. The
    bytes of the time stamp and of the data are left as they are. *)
Definition SVPublisher_ASDU_encodeToBuffer (self : SVPublisher_ASDU) (origin : Z) (buffer : list Z) (bufPos : Z)
  : option (SVPublisher_ASDU * list Z * Z) :=
  encodedSize ← SVPublisher_ASDU_getEncodedSize self;
  '(buffer, bufPos) ← BerEncoder_encodeTL 0x30 encodedSize buffer bufPos;
  '(buffer, bufPos) ← BerEncoder_encodeStringWithTag 0x80 (as_svID self) buffer bufPos;
  '(buffer, bufPos) ← match as_datset self with
                      | Some datset => BerEncoder_encodeStringWithTag 0x81 (Some datset) buffer bufPos
                      | None => Some (buffer, bufPos)
                      end;
  '(buffer, bufPos) ← BerEncoder_encodeTL 0x82 2 buffer bufPos;
  let smpCntBuf := origin + bufPos in
  '(buffer, bufPos) ← encodeUInt16FixedSize (as_smpCnt self) buffer bufPos;
  '(buffer, bufPos) ← BerEncoder_encodeTL 0x83 4 buffer bufPos;
  '(buffer, bufPos) ← encodeUInt32FixedSize (as_confRev self) buffer bufPos;
  '(refrTm, buffer, bufPos) ←
    (if as_hasRefrTm self then
       '(buffer, bufPos) ← BerEncoder_encodeTL 0x84 8 buffer bufPos;
       Some (Some (origin + bufPos), buffer, bufPos + 8)
     else Some (as_refrTm self, buffer, bufPos));
  '(buffer, bufPos) ← BerEncoder_encodeTL 0x85 1 buffer bufPos;
  let smpSynchBuf := origin + bufPos in
  '(buffer, bufPos) ← put (as_smpSynch self) buffer bufPos;
  '(buffer, bufPos) ←
    (if as_hasSmpRate self then
       '(buffer, bufPos) ← BerEncoder_encodeTL 0x86 2 buffer bufPos;
       encodeUInt16FixedSize (as_smpRate self) buffer bufPos
     else Some (buffer, bufPos));
  '(buffer, bufPos) ← BerEncoder_encodeTL 0x87 (as_dataSize self) buffer bufPos;
  let dataBuffer := origin + bufPos in
  let bufPos := bufPos + as_dataSize self in
  '(buffer, bufPos) ←
    (if as_hasSmpMod self then
       '(buffer, bufPos) ← BerEncoder_encodeTL 0x88 2 buffer bufPos;
       encodeUInt16FixedSize (as_smpMod self) buffer bufPos
     else Some (buffer, bufPos));
  '(buffer, bufPos) ←
    (if as_hasGmIdentity self then BerEncoder_encodeOctetString 0x89 (as_gmIdentity self) 8 buffer bufPos
     else Some (buffer, bufPos));
  Some (as_with_pointers self (Some smpCntBuf) refrTm (Some smpSynchBuf) (Some dataBuffer), buffer, bufPos).

(** the first loop of [SVPublisher_setupComplete]: the length of all ASDUs *)
Fixpoint total_ASDULength (asdus : list SVPublisher_ASDU) (totalASDULength : Z) : option Z :=
  match asdus with
  | [] => Some totalASDULength
  | nextAsdu :: rest =>
      asduLength ← SVPublisher_ASDU_getEncodedSize nextAsdu;
      let asduLength := asduLength + BerEncoder_determineLengthSize asduLength + 1 in
      total_ASDULength rest (totalASDULength + asduLength)
  end.

(** its second loop *)
Fixpoint encode_asdus (asdus : list SVPublisher_ASDU) (origin : Z) (buffer : list Z) (bufPos : Z)
  : option (list SVPublisher_ASDU * list Z * Z) :=
  match asdus with
  | [] => Some ([], buffer, bufPos)
  | nextAsdu :: rest =>
      '(nextAsdu, buffer, bufPos) ← SVPublisher_ASDU_encodeToBuffer nextAsdu origin buffer bufPos;
      '(rest, buffer, bufPos) ← encode_asdus rest origin buffer bufPos;
      Some (nextAsdu :: rest, buffer, bufPos)
  end.

Definition SVPublisher_setupComplete (self : SVPublisher) : option SVPublisher :=
  let numberOfAsdu := zlen (sv_asduList self) in
  totalASDULength ← total_ASDULength (sv_asduList self) 0;
  let sequenceSize := 1 + BerEncoder_determineLengthSize totalASDULength + totalASDULength in
  n ← BerEncoder_UInt32determineEncodedSize (u32 numberOfAsdu);
  let innerSize := 2 + n + sequenceSize in
  '((asdus, payloadLength), buffer) ←
    on_ptr (sv_buffer self) (sv_payloadStart self) (fun buffer =>
      '(buffer, bufPos) ← BerEncoder_encodeTL 0x60 innerSize buffer 0;
      '(buffer, bufPos) ← BerEncoder_encodeUInt32WithTL 0x80 (u32 numberOfAsdu) buffer bufPos;
      '(buffer, bufPos) ← BerEncoder_encodeTL 0xa2 totalASDULength buffer bufPos;
      '(asdus, buffer, bufPos) ← encode_asdus (sv_asduList self) (sv_payloadStart self) buffer bufPos;
      Some ((asdus, bufPos), buffer));
  let msgLength := payloadLength + 8 in
  buffer ←
    (if negb (sv_lengthField self =? 0) then
       buffer ← st buffer (sv_lengthField self) (u8 (msgLength / 256));
       st buffer (sv_lengthField self + 1) (Z.land msgLength 0xff)
     else Some buffer);
  Some (mkSVPublisher buffer (sv_ethernetSocket self) (sv_lengthField self) (sv_payloadStart self) payloadLength
          (sv_asduCount self) asdus).

(** The frame that is sent. *)
Definition SVPublisher_publish (self : SVPublisher) : option (option (list Z)) :=
  if sv_ethernetSocket self then
    frame ← ld_range (sv_buffer self) 0 (sv_payloadStart self + sv_payloadLength self); Some (Some frame)
  else Some None.

(** * The values of an ASDU *)

Definition SVPublisher_ASDU_resetBuffer (p : SVPublisher) (k : nat) : option SVPublisher :=
  set_asdu p k (fun a => as_with_dataSize a 0).

(** the publisher and the index of the new value *)
Definition add_value (size : Z) (p : SVPublisher) (k : nat) : option (SVPublisher * Z) :=
  a ← sv_asduList p !! k;
  let index := as_dataSize a in
  p ← set_asdu p k (fun a => as_with_dataSize a (as_dataSize a + size));
  Some (p, index).
Definition SVPublisher_ASDU_addINT8 := add_value 1.
Definition SVPublisher_ASDU_addINT32 := add_value 4.
Definition SVPublisher_ASDU_addINT64 := add_value 8.
Definition SVPublisher_ASDU_addFLOAT := add_value 4.
Definition SVPublisher_ASDU_addFLOAT64 := add_value 8.
Definition SVPublisher_ASDU_addTimestamp := add_value 8.
Definition SVPublisher_ASDU_addQuality := add_value 4.

(** [write(self->_dataBuffer, index)] *)
Definition set_value (write : writer) (p : SVPublisher) (k : nat) (index : Z) : option SVPublisher :=
  on_asdu p k (fun buffer a =>
    dataBuffer ← as_dataBuffer a;
    '(buffer, _) ← write buffer (dataBuffer + index);
    Some (buffer, a)).

Definition SVPublisher_ASDU_setINT8 (p : SVPublisher) (k : nat) (index value : Z) : option SVPublisher :=
  set_value (put (u8 value)) p k index.
Definition SVPublisher_ASDU_setINT32 (p : SVPublisher) (k : nat) (index value : Z) : option SVPublisher :=
  set_value (encodeInt32FixedSize value) p k index.
Definition SVPublisher_ASDU_setINT64 (p : SVPublisher) (k : nat) (index value : Z) : option SVPublisher :=
  set_value (encodeInt64FixedSize value) p k index.

(** [value] is the bit pattern. *)
Definition SVPublisher_ASDU_setFLOAT (p : SVPublisher) (k : nat) (index value : Z) : option SVPublisher :=
  buf ← BerEncoder_revertByteOrder (le_bytes 4 value) 4;
  set_value (copy_loop 4 buf 0) p k index.
Definition SVPublisher_ASDU_setFLOAT64 (p : SVPublisher) (k : nat) (index value : Z) : option SVPublisher :=
  buf ← BerEncoder_revertByteOrder (le_bytes 8 value) 8;
  set_value (copy_loop 8 buf 0) p k index.
Definition SVPublisher_ASDU_setTimestamp (p : SVPublisher) (k : nat) (index : Z) (value : list Z) : option SVPublisher :=
  set_value (copy_loop 8 value 0) p k index.
Definition SVPublisher_ASDU_setQuality (p : SVPublisher) (k : nat) (index value : Z) : option SVPublisher :=
  set_value (puts [0; 0; u8 (value / 0x100); u8 (value mod 0x100)]) p k index.

(** * The other fields of an ASDU *)

Definition SVPublisher_ASDU_getSmpCnt (p : SVPublisher) (k : nat) : option Z := as_smpCnt <$> sv_asduList p !! k.

(** [self->smpCnt = value; if (self->smpCntBuf) encodeUInt16FixedSize(...)] *)
Definition store_smpCnt (value : Z) (buffer : list Z) (a : SVPublisher_ASDU) : option (list Z * SVPublisher_ASDU) :=
  let a := as_with_smpCnt a value in
  match as_smpCntBuf a with
  | Some smpCntBuf => '(buffer, _) ← encodeUInt16FixedSize (as_smpCnt a) buffer smpCntBuf; Some (buffer, a)
  | None => Some (buffer, a)
  end.

Definition SVPublisher_ASDU_setSmpCnt (p : SVPublisher) (k : nat) (value : Z) : option SVPublisher :=
  on_asdu p k (store_smpCnt value).

Definition SVPublisher_ASDU_setSmpCntWrap (p : SVPublisher) (k : nat) (value : Z) : option SVPublisher :=
  set_asdu p k (fun a =>
    let 'mkSVPublisher_ASDU i d n hr hs hm hg db ss sc _ cr gm rt sm sr cb sb := a in
    mkSVPublisher_ASDU i d n hr hs hm hg db ss sc value cr gm rt sm sr cb sb).

(** Division by zero is undefined. *)
Definition SVPublisher_ASDU_increaseSmpCnt (p : SVPublisher) (k : nat) : option SVPublisher :=
  on_asdu p k (fun buffer a =>
    if as_smpCntLimit a =? 0 then None
    else store_smpCnt (u16 (Z.rem (as_smpCnt a + 1) (as_smpCntLimit a))) buffer a).

Definition SVPublisher_ASDU_enableRefrTm (p : SVPublisher) (k : nat) : option SVPublisher := set_asdu p k as_with_hasRefrTm.

(** [self->hasRefrTm = true; if (self->refrTm) f(self->refrTm)] *)
Definition on_refrTm (f : list Z -> option (list Z)) (p : SVPublisher) (k : nat) : option SVPublisher :=
  on_asdu p k (fun buffer a =>
    let a := as_with_hasRefrTm a in
    match as_refrTm a with
    | Some refrTm => '(_, buffer) ← on_ptr buffer refrTm (fun t => t ← f t; Some (tt, t)); Some (buffer, a)
    | None => Some (buffer, a)
    end).

Definition SVPublisher_ASDU_setRefrTmNs (p : SVPublisher) (k : nat) (refrTmNs : Z) : option SVPublisher :=
  on_refrTm (fun t => t ← Timestamp_setTimeInNanoseconds t refrTmNs; Timestamp_setSubsecondPrecision t 20) p k.
Definition SVPublisher_ASDU_setRefrTm (p : SVPublisher) (k : nat) (refrTm : Z) : option SVPublisher :=
  on_refrTm (fun t => t ← Timestamp_setTimeInMilliseconds t refrTm; Timestamp_setSubsecondPrecision t 10) p k.
Definition SVPublisher_ASDU_setRefrTmByTimestamp (p : SVPublisher) (k : nat) (refrTm : list Z) : option SVPublisher :=
  on_refrTm (fun t => bs ← ld_range refrTm 0 8; st_range t 0 bs) p k.

Definition SVPublisher_ASDU_setSmpMod (p : SVPublisher) (k : nat) (smpMod : Z) : option SVPublisher :=
  set_asdu p k (fun a =>
    let 'mkSVPublisher_ASDU i d n hr hs _ hg db ss sc sl cr gm rt _ sr cb sb := a in
    mkSVPublisher_ASDU i d n hr hs true hg db ss sc sl cr gm rt smpMod sr cb sb).

Definition SVPublisher_ASDU_setSmpRate (p : SVPublisher) (k : nat) (smpRate : Z) : option SVPublisher :=
  set_asdu p k (fun a =>
    let 'mkSVPublisher_ASDU i d n hr _ hm hg db ss sc sl cr gm rt sm _ cb sb := a in
    mkSVPublisher_ASDU i d n hr true hm hg db ss sc sl cr gm rt sm smpRate cb sb).

(** The buffer is written without a test of the pointer. *)
Definition SVPublisher_ASDU_setSmpSynch (p : SVPublisher) (k : nat) (smpSynch : Z) : option SVPublisher :=
  on_asdu p k (fun buffer a =>
    let a := as_with_smpSynch a (u8 smpSynch) in
    smpSynchBuf ← as_smpSynchBuf a;
    buffer ← st buffer smpSynchBuf (as_smpSynch a);
    Some (buffer, a)).

Definition SVPublisher_ASDU_setGmIdentity (p : SVPublisher) (k : nat) (gmIdentity : list Z) : option SVPublisher :=
  gm ← ld_range gmIdentity 0 8;
  set_asdu p k (fun a =>
    let 'mkSVPublisher_ASDU i d n hr hs hm _ db ss sc sl cr _ rt sm sr cb sb := a in
    mkSVPublisher_ASDU i d n hr hs hm true db ss sc sl cr gm rt sm sr cb sb).
