(* ===== verification/SvSubscriber.v ===== *)
(** The receiver of sampled values: src/libiec61850/src/sampled_values/sv_subscriber.c.

    The receiver stores a packet in its one buffer and hands the ASDUs of it to the
    subscriber one after the other. An ASDU handed over is a record of pointers into
    that buffer: a pointer is a position in the buffer ([None] is the null pointer),
    and every function that parses or reads takes the buffer. The parser writes to
    the buffer too: it ends the two strings of an ASDU with a zero behind them.

    A call of a listener is a result: the subscriber, the ASDU, and the buffer as it
    is when the listener runs. The members for routable sampled values are compiled
    out; the output for debugging is switched off in config/stack_config.h. *)

From S2P Require Import Prelude BerEncoder BerDecoder BerInteger StringUtils CFloat MmsValue MmsFacts MmsData GooseSubscriber GooseReceiver IecCommon.
Open Scope Z_scope.

Definition SV_ETH_BUFFER_LENGTH : Z := 1518.
Definition ETH_P_SV : Z := 0x88ba.

(** [listener] is whether one is installed. *)
Record SVSubscriber := mkSVSubscriber {
  ss_ethAddr : list Z;
  ss_appId : Z;
  ss_listener : bool
}.

Record SVReceiver := mkSVReceiver {
  sr_running : bool;
  sr_stopped : bool;
  sr_checkDestAddr : bool;
  sr_interfaceId : option (list Z);
  sr_buffer : list Z;
  sr_ethSocket : bool;
  sr_subscriberList : list SVSubscriber;
  sr_thread : bool
}.

Record SVSubscriber_ASDU := mkSVSubscriber_ASDU {
  sa_svId : option Z;
  sa_datSet : option Z;
  sa_smpCnt : option Z;
  sa_confRev : option Z;
  sa_refrTm : option Z;
  sa_smpSynch : option Z;
  sa_smpMod : option Z;
  sa_smpRate : option Z;
  sa_dataBufferLength : Z;
  sa_dataBuffer : option Z
}.

(** a call of a listener *)
Record SVUpdate := mkSVUpdate {
  su_subscriber : nat;
  su_asdu : SVSubscriber_ASDU;
  su_buffer : list Z
}.

(** * The subscriber and the configuration of the receiver *)

Definition SVSubscriber_create (ethAddr : option (list Z)) (appID : Z) : option SVSubscriber :=
  let self := mkSVSubscriber (replicate 6 0) appID false in
  match ethAddr with
  | Some ethAddr =>
      bs ← ld_range ethAddr 0 6; addr ← st_range (ss_ethAddr self) 0 bs;
      Some (mkSVSubscriber addr (ss_appId self) (ss_listener self))
  | None => Some self
  end.

Definition SVSubscriber_setListener (self : SVSubscriber) (listener : bool) : SVSubscriber :=
  let 'mkSVSubscriber a i _ := self in mkSVSubscriber a i listener.

(** [memory] is what [GLOBAL_MALLOC] returns for the buffer. *)
Definition SVReceiver_create (memory : list Z) : SVReceiver :=
  mkSVReceiver false false false None memory false [] false.

Definition SVReceiver_setInterfaceId (self : SVReceiver) (interfaceId : option (list Z)) : option SVReceiver :=
  let 'mkSVReceiver r st c _ b e l t := self in
  i ← StringUtils_copyString interfaceId; Some (mkSVReceiver r st c i b e l t).

Definition SVReceiver_disableDestAddrCheck (self : SVReceiver) : SVReceiver :=
  let 'mkSVReceiver r st _ i b e l t := self in mkSVReceiver r st false i b e l t.
Definition SVReceiver_enableDestAddrCheck (self : SVReceiver) : SVReceiver :=
  let 'mkSVReceiver r st _ i b e l t := self in mkSVReceiver r st true i b e l t.

Definition SVReceiver_addSubscriber (self : SVReceiver) (subscriber : SVSubscriber) : SVReceiver :=
  let 'mkSVReceiver r st c i b e l t := self in mkSVReceiver r st c i b e (l ++ [subscriber]) t.

(** the subscriber to remove is named by its index *)
Definition SVReceiver_removeSubscriber (self : SVReceiver) (subscriber : nat) : SVReceiver :=
  let 'mkSVReceiver r st c i b e l t := self in mkSVReceiver r st c i b e (delete subscriber l) t.

(** * The message *)

(** the local variables of [parseASDU] *)
Record AsduFields := mkAsduFields {
  af_asdu : SVSubscriber_ASDU;
  af_svIdLength : Z;
  af_datSetLength : Z
}.

Definition noFields : AsduFields :=
  mkAsduFields (mkSVSubscriber_ASDU None None None None None None None None 0 None) 0 0.

(** the switch over the tag; [pointer] is [buffer + bufPos] *)
Definition asdu_field (f : AsduFields) (tag pointer elementLength : Z) : AsduFields :=
  let 'mkAsduFields (mkSVSubscriber_ASDU svId datSet smpCnt confRev refrTm smpSynch smpMod smpRate n dataBuffer as a) sl dl := f in
  let p := Some pointer in
  if tag =? 0x80 then mkAsduFields (mkSVSubscriber_ASDU p datSet smpCnt confRev refrTm smpSynch smpMod smpRate n dataBuffer) elementLength dl
  else if tag =? 0x81 then mkAsduFields (mkSVSubscriber_ASDU svId p smpCnt confRev refrTm smpSynch smpMod smpRate n dataBuffer) sl elementLength
  else if tag =? 0x82 then mkAsduFields (mkSVSubscriber_ASDU svId datSet p confRev refrTm smpSynch smpMod smpRate n dataBuffer) sl dl
  else if tag =? 0x83 then mkAsduFields (mkSVSubscriber_ASDU svId datSet smpCnt p refrTm smpSynch smpMod smpRate n dataBuffer) sl dl
  else if tag =? 0x84 then mkAsduFields (mkSVSubscriber_ASDU svId datSet smpCnt confRev p smpSynch smpMod smpRate n dataBuffer) sl dl
  else if tag =? 0x85 then mkAsduFields (mkSVSubscriber_ASDU svId datSet smpCnt confRev refrTm p smpMod smpRate n dataBuffer) sl dl
  else if tag =? 0x86 then mkAsduFields (mkSVSubscriber_ASDU svId datSet smpCnt confRev refrTm smpSynch smpMod p n dataBuffer) sl dl
  else if tag =? 0x87 then mkAsduFields (mkSVSubscriber_ASDU svId datSet smpCnt confRev refrTm smpSynch smpMod smpRate elementLength p) sl dl
  else if tag =? 0x88 then mkAsduFields (mkSVSubscriber_ASDU svId datSet smpCnt confRev refrTm smpSynch p smpRate n dataBuffer) sl dl
  else mkAsduFields a sl dl.

(** the loop of [parseASDU] on the block from [base]; [None] inside is the early
    return *)
Fixpoint asdu_loop (fuel : nat) (f : AsduFields) (buffer : list Z) (base bufPos length : Z) : option (option AsduFields) :=
  match fuel with
  | O => None
  | S fuel =>
      if bufPos <? length then
        tag ← ld (ptr_add buffer base) bufPos;
        '(bufPos, elementLength) ← BerDecoder_decodeLength (ptr_add buffer base) 0 (bufPos + 1) length;
        if bufPos <? 0 then Some None
        else asdu_loop fuel (asdu_field f tag (base + bufPos) elementLength) buffer base (bufPos + elementLength) length
      else Some (Some f)
  end.

(** [if (p != NULL) p[length] = 0] *)
Definition terminate (buffer : list Z) (p : option Z) (length : Z) : option (list Z) :=
  match p with Some p => st buffer (p + length) 0 | None => Some buffer end.

(** The buffer behind it and the calls of the listener; the message starts at [base]. *)
Definition parseASDU (subscriber : nat) (listener : bool) (buffer : list Z) (base length : Z)
  : option (list Z * list SVUpdate) :=
  r ← asdu_loop (S (Z.to_nat length)) noFields buffer base 0 length;
  match r with
  | None => Some (buffer, [])
  | Some f =>
      let asdu := af_asdu f in
      buffer ← terminate buffer (sa_svId asdu) (af_svIdLength f);
      buffer ← terminate buffer (sa_datSet asdu) (af_datSetLength f);
      Some (buffer, if listener then [mkSVUpdate subscriber asdu buffer] else [])
  end.

Fixpoint sequence_loop (fuel : nat) (subscriber : nat) (listener : bool) (buffer : list Z) (base bufPos length : Z)
  : option (list Z * list SVUpdate) :=
  match fuel with
  | O => None
  | S fuel =>
      if bufPos <? length then
        tag ← ld (ptr_add buffer base) bufPos;
        '(bufPos, elementLength) ← BerDecoder_decodeLength (ptr_add buffer base) 0 (bufPos + 1) length;
        if bufPos <? 0 then Some (buffer, [])
        else
          '(buffer, calls) ← (if tag =? 0x30 then parseASDU subscriber listener buffer (base + bufPos) elementLength
                              else Some (buffer, []));
          '(buffer, more) ← sequence_loop fuel subscriber listener buffer base (bufPos + elementLength) length;
          Some (buffer, calls ++ more)
      else Some (buffer, [])
  end.

Definition parseSequenceOfASDU (subscriber : nat) (listener : bool) (buffer : list Z) (base length : Z)
  : option (list Z * list SVUpdate) :=
  sequence_loop (S (Z.to_nat length)) subscriber listener buffer base 0 length.

Fixpoint sv_payload_loop (fuel : nat) (subscriber : nat) (listener : bool) (buffer : list Z) (base bufPos svEnd : Z)
  : option (list Z * list SVUpdate) :=
  match fuel with
  | O => None
  | S fuel =>
      if bufPos <? svEnd then
        tag ← ld (ptr_add buffer base) bufPos;
        '(bufPos, elementLength) ← BerDecoder_decodeLength (ptr_add buffer base) 0 (bufPos + 1) svEnd;
        if bufPos <? 0 then Some (buffer, [])
        else
          '(buffer, calls) ← (if tag =? 0xa2 then parseSequenceOfASDU subscriber listener buffer (base + bufPos) elementLength
                              else Some (buffer, []));
          '(buffer, more) ← sv_payload_loop fuel subscriber listener buffer base (bufPos + elementLength) svEnd;
          Some (buffer, calls ++ more)
      else Some (buffer, [])
  end.

Definition parseSVPayload (subscriber : nat) (listener : bool) (buffer : list Z) (base apduLength : Z)
  : option (list Z * list SVUpdate) :=
  b ← ld (ptr_add buffer base) 0;
  if b =? 0x60 then
    '(bufPos, elementLength) ← BerDecoder_decodeLength (ptr_add buffer base) 0 1 apduLength;
    if bufPos <? 0 then Some (buffer, [])
    else sv_payload_loop (S (Z.to_nat elementLength)) subscriber listener buffer base bufPos (bufPos + elementLength)
  else Some (buffer, []).

(** the search for the subscriber: the application identifier, and the destination
    address when it is checked, which needs the socket *)
Fixpoint matching_subscriber (subs : list SVSubscriber) (k : nat) (checkDestAddr ethSocket : bool) (appId : Z) (dstAddr : list Z)
  : option (option (nat * SVSubscriber)) :=
  match subs with
  | [] => Some None
  | subscriber :: rest =>
      found ← (if ss_appId subscriber =? appId then
                 if checkDestAddr then
                   if ethSocket then memcmp_eq dstAddr (ss_ethAddr subscriber) 6 else Some false
                 else Some true
               else Some false);
      if found : bool then Some (Some (k, subscriber))
      else matching_subscriber rest (S k) checkDestAddr ethSocket appId dstAddr
  end.

Definition handleSVApdu (self : SVReceiver) (appId base apduLength dstAddr : Z) : option (list Z * list SVUpdate) :=
  r ← matching_subscriber (sr_subscriberList self) 0 (sr_checkDestAddr self) (sr_ethSocket self) appId
        (ptr_add (sr_buffer self) dstAddr);
  match r with
  | Some (k, subscriber) => parseSVPayload k (ss_listener subscriber) (sr_buffer self) base apduLength
  | None => Some (sr_buffer self, [])
  end.

Definition parseSVMessage (self : SVReceiver) (numbytes : Z) : option (list Z * list SVUpdate) :=
  let buffer := sr_buffer self in
  if numbytes <? 22 then Some (buffer, [])
  else
    let dstAddr := 0 in
    let bufPos := 12 in
    let headerLength := 14 in
    b0 ← ld buffer bufPos;
    isVlan ← (if b0 =? 0x81 then b1 ← ld buffer (bufPos + 1); Some (b1 =? 0x00) else Some false);
    let '(bufPos, headerLength) := if isVlan : bool then (bufPos + 4, headerLength + 4) else (bufPos, headerLength) in
    e0 ← ld buffer bufPos;
    if negb (e0 =? 0x88) then Some (buffer, [])
    else
      e1 ← ld buffer (bufPos + 1);
      if negb (e1 =? 0xba) then Some (buffer, [])
      else
        a0 ← ld buffer (bufPos + 2);
        a1 ← ld buffer (bufPos + 3);
        let appId := u16 (u16 (a0 * 0x100) + a1) in
        l0 ← ld buffer (bufPos + 4);
        l1 ← ld buffer (bufPos + 5);
        let length := u16 (u16 (l0 * 0x100) + l1) in
        let bufPos := bufPos + 10 in
        let apduLength := length - 8 in
        if numbytes <? length + headerLength then Some (buffer, [])
        else handleSVApdu self appId bufPos apduLength dstAddr.

(** * Running the receiver *)

Definition sr_with_buffer (self : SVReceiver) (buffer : list Z) : SVReceiver :=
  let 'mkSVReceiver r st c i _ e l t := self in mkSVReceiver r st c i buffer e l t.

(** [packet] is what [Ethernet_receivePacket] stores in the buffer, at most
    [SV_ETH_BUFFER_LENGTH] bytes. *)
Definition SVReceiver_tick (self : SVReceiver) (packet : list Z) : option (SVReceiver * bool * list SVUpdate) :=
  if sr_ethSocket self then
    if 0 <? zlen packet then
      buffer ← st_range (sr_buffer self) 0 packet;
      let self := sr_with_buffer self buffer in
      '(buffer, calls) ← parseSVMessage self (zlen packet);
      Some (sr_with_buffer self buffer, true, calls)
    else Some (self, false, [])
  else Some (self, false, []).

Definition SVReceiver_startThreadless (self : SVReceiver) (socketOpen : bool) : SVReceiver * bool * list EthernetCall :=
  let 'mkSVReceiver r st c i b _ l t := self in
  if socketOpen then (mkSVReceiver true st c i b true l t, true, [Ethernet_setProtocolFilter ETH_P_SV])
  else (mkSVReceiver r st c i b false l t, false, []).

(** [threadCreated] is the result of [Thread_create]. *)
Definition SVReceiver_start (self : SVReceiver) (socketOpen threadCreated : bool) : SVReceiver * list EthernetCall :=
  let '(self, started, calls) := SVReceiver_startThreadless self socketOpen in
  if started : bool then
    let 'mkSVReceiver r st c i b e l _ := self in (mkSVReceiver r st c i b e l threadCreated, calls)
  else (self, calls).

Definition SVReceiver_isRunning (self : SVReceiver) : bool := sr_running self.

(** The socket is destroyed; the member keeps its value. The result is whether
    [Ethernet_destroySocket] is called. *)
Definition SVReceiver_stopThreadless (self : SVReceiver) : SVReceiver * bool :=
  let 'mkSVReceiver _ st c i b e l t := self in (mkSVReceiver false st c i b e l t, e).

(** The results are whether the thread is joined and whether the socket is destroyed. *)
Definition SVReceiver_stop (self : SVReceiver) : SVReceiver * bool * bool :=
  if sr_running self then
    let 'mkSVReceiver _ st c i b e l t := self in
    let '(self, destroyed) := SVReceiver_stopThreadless (mkSVReceiver false st c i b e l false) in
    (self, t, destroyed)
  else (self, false, false).

(** what [EthernetHandleSet_waitReady] reports *)
Inductive WaitReady := Wait_failure | Wait_nothing | Wait_packet (packet : list Z).

(** the loop of the thread: it ends when it finds [running] cleared, at the latest
    behind [events] *)
Fixpoint receiver_loop (self : SVReceiver) (events : list WaitReady) : option (SVReceiver * list SVUpdate) :=
  match events with
  | [] => Some (self, [])
  | event :: rest =>
      if sr_running self then
        '(self, calls) ← match event with
                         | Wait_packet packet => '(self, _, calls) ← SVReceiver_tick self packet; Some (self, calls)
                         | _ => Some (self, [])
                         end;
        '(self, more) ← receiver_loop self rest;
        Some (self, calls ++ more)
      else Some (self, [])
  end.

Definition sr_with_stopped (self : SVReceiver) (stopped : bool) : SVReceiver :=
  let 'mkSVReceiver r _ c i b e l t := self in mkSVReceiver r stopped c i b e l t.

Definition svReceiverLoop (self : SVReceiver) (events : list WaitReady) : option (SVReceiver * list SVUpdate) :=
  if sr_ethSocket self then
    '(self, calls) ← receiver_loop (sr_with_stopped self false) events;
    Some (sr_with_stopped self true, calls)
  else Some (sr_with_stopped self true, []).

(** * Reading an ASDU *)

Definition SVSubscriber_ASDU_getSmpSynch (self : SVSubscriber_ASDU) (buffer : list Z) : option Z :=
  p ← sa_smpSynch self; ld buffer p.

(** the two bytes of [retVal] are assigned in memory *)
Definition SVSubscriber_ASDU_getSmpCnt (self : SVSubscriber_ASDU) (buffer : list Z) : option Z :=
  p ← sa_smpCnt self;
  v0 ← ld buffer (p + 1); v1 ← ld buffer p;
  Some (le_val [v0; v1]).

Definition decodeUtcTimeToNsTime (buffer : list Z) : option Z :=
  b3 ← ld buffer 3; b2 ← ld buffer 2; b1 ← ld buffer 1; b0 ← ld buffer 0;
  p ← chk_int (b0 * 0x1000000);
  let timeval32 := u32 (u32 (u32 (b3 + b2 * 0x100) + b1 * 0x10000) + p) in
  b6 ← ld buffer 6; b5 ← ld buffer 5; b4 ← ld buffer 4;
  let fractionOfSecond := u32 (u32 (b6 + b5 * 0x100) + b4 * 0x10000) in
  let nsVal := Z.shiftr (u64 (fractionOfSecond * 1000000000)) 24 in
  Some (u64 (u64 (timeval32 * 1000000000) + nsVal)).

Definition SVSubscriber_ASDU_getRefrTmAsNs (self : SVSubscriber_ASDU) (buffer : list Z) : option Z :=
  match sa_refrTm self with Some p => decodeUtcTimeToNsTime (ptr_add buffer p) | None => Some 0 end.
Definition SVSubscriber_ASDU_getRefrTmAsMs (self : SVSubscriber_ASDU) (buffer : list Z) : option Z :=
  msTime ← match sa_refrTm self with Some p => decodeUtcTimeToNsTime (ptr_add buffer p) | None => Some 0 end;
  Some (msTime / 1000000).

Definition SVSubscriber_ASDU_hasRefrTm (self : SVSubscriber_ASDU) : bool := bool_decide (sa_refrTm self <> None).
Definition SVSubscriber_ASDU_hasDatSet (self : SVSubscriber_ASDU) : bool := bool_decide (sa_datSet self <> None).
Definition SVSubscriber_ASDU_hasSmpRate (self : SVSubscriber_ASDU) : bool := bool_decide (sa_smpRate self <> None).
Definition SVSubscriber_ASDU_hasSmpMod (self : SVSubscriber_ASDU) : bool := bool_decide (sa_smpMod self <> None).

(** A pointer to a string is the rest of the buffer from there. *)
Definition SVSubscriber_ASDU_getSvId (self : SVSubscriber_ASDU) (buffer : list Z) : option (list Z) :=
  ptr_add buffer <$> sa_svId self.
Definition SVSubscriber_ASDU_getDatSet (self : SVSubscriber_ASDU) (buffer : list Z) : option (list Z) :=
  ptr_add buffer <$> sa_datSet self.

(** [to[size - 1 - i] = from[i]] for [n] values of [i]; [from] is a position in the buffer *)
Fixpoint memcpy_reverse_loop (n : nat) (i size : Z) (to buffer : list Z) (from : Z) : option (list Z) :=
  match n with
  | O => Some to
  | S n => v ← ld buffer (from + i); to ← st to (size - 1 - i) v; memcpy_reverse_loop n (i + 1) size to buffer from
  end.
Definition memcpy_reverse (to buffer : list Z) (from : Z) (size : nat) : option (list Z) :=
  memcpy_reverse_loop size 0 (Z.of_nat size) to buffer from.

(** the value of [size] bytes at a pointer into the buffer, the first one the most
    significant: they are copied to a variable in reverse *)
Definition read_reverse (size : nat) (buffer : list Z) (p : Z) : option Z :=
  retVal ← memcpy_reverse (replicate size 0) buffer p size; Some (le_val retVal).

Definition SVSubscriber_ASDU_getConfRev (self : SVSubscriber_ASDU) (buffer : list Z) : option Z :=
  p ← sa_confRev self; read_reverse 4 buffer p.
Definition SVSubscriber_ASDU_getSmpMod (self : SVSubscriber_ASDU) (buffer : list Z) : option Z :=
  p ← sa_smpMod self; ld buffer p.
Definition SVSubscriber_ASDU_getSmpRate (self : SVSubscriber_ASDU) (buffer : list Z) : option Z :=
  p ← sa_smpRate self; read_reverse 2 buffer p.

Definition s8 (z : Z) : Z := (z + 128) mod 256 - 128.

Definition SVSubscriber_ASDU_getINT8 (self : SVSubscriber_ASDU) (buffer : list Z) (index : Z) : option Z :=
  p ← sa_dataBuffer self; v ← ld buffer (p + index); Some (s8 v).
Definition SVSubscriber_ASDU_getINT16 (self : SVSubscriber_ASDU) (buffer : list Z) (index : Z) : option Z :=
  p ← sa_dataBuffer self; v ← read_reverse 2 buffer (p + index); Some (s16 v).
Definition SVSubscriber_ASDU_getINT32 (self : SVSubscriber_ASDU) (buffer : list Z) (index : Z) : option Z :=
  p ← sa_dataBuffer self; v ← read_reverse 4 buffer (p + index); Some (s32 v).
Definition SVSubscriber_ASDU_getINT64 (self : SVSubscriber_ASDU) (buffer : list Z) (index : Z) : option Z :=
  p ← sa_dataBuffer self; v ← read_reverse 8 buffer (p + index); Some (s64 v).
Definition SVSubscriber_ASDU_getINT8U (self : SVSubscriber_ASDU) (buffer : list Z) (index : Z) : option Z :=
  p ← sa_dataBuffer self; ld buffer (p + index).
Definition SVSubscriber_ASDU_getINT16U (self : SVSubscriber_ASDU) (buffer : list Z) (index : Z) : option Z :=
  p ← sa_dataBuffer self; read_reverse 2 buffer (p + index).
Definition SVSubscriber_ASDU_getINT32U (self : SVSubscriber_ASDU) (buffer : list Z) (index : Z) : option Z :=
  p ← sa_dataBuffer self; read_reverse 4 buffer (p + index).
Definition SVSubscriber_ASDU_getINT64U (self : SVSubscriber_ASDU) (buffer : list Z) (index : Z) : option Z :=
  p ← sa_dataBuffer self; read_reverse 8 buffer (p + index).

(** The results are bit patterns. *)
Definition SVSubscriber_ASDU_getFLOAT32 (self : SVSubscriber_ASDU) (buffer : list Z) (index : Z) : option Z :=
  p ← sa_dataBuffer self; read_reverse 4 buffer (p + index).
Definition SVSubscriber_ASDU_getFLOAT64 (self : SVSubscriber_ASDU) (buffer : list Z) (index : Z) : option Z :=
  p ← sa_dataBuffer self; read_reverse 8 buffer (p + index).

Definition SVSubscriber_ASDU_getTimestamp (self : SVSubscriber_ASDU) (buffer : list Z) (index : Z) : option (list Z) :=
  p ← sa_dataBuffer self; ld_range buffer (p + index) 8.

Definition SVSubscriber_ASDU_getQuality (self : SVSubscriber_ASDU) (buffer : list Z) (index : Z) : option Z :=
  p ← sa_dataBuffer self;
  b3 ← ld buffer (p + index + 3); b2 ← ld buffer (p + index + 2);
  Some (u16 (b3 + b2 * 0x100)).

Definition SVSubscriber_ASDU_getDataSize (self : SVSubscriber_ASDU) : Z := sa_dataBufferLength self.
