(* ===== verification/SvSafety.v ===== *)
(** Memory safety of the receiver of sampled values, for arbitrary packets.

    Whatever a packet holds, the parser reads inside it, writes its two terminators
    at most one byte behind it, and hands out pointers into it. *)

From S2P Require Import Prelude BerEncoder BerDecoder BerInteger StringUtils CFloat MmsValue MmsFacts MmsData GooseSubscriber GooseReceiver GooseSafety IecCommon SvSubscriber.
Open Scope Z_scope.

(** the [length] bytes at [p] lie in the block of [n] bytes from [base] on *)
Definition ptr_in (base n : Z) (p : option Z) (length : Z) : Prop :=
  match p with Some p => base <= p /\ 0 <= length /\ p + length <= base + n | None => True end.

(** the pointers of an ASDU lie in a block, and so does its data *)
Definition asdu_in (base n : Z) (a : SVSubscriber_ASDU) : Prop :=
  ptr_in base n (sa_svId a) 0 /\ ptr_in base n (sa_datSet a) 0 /\ ptr_in base n (sa_smpCnt a) 0 /\
  ptr_in base n (sa_confRev a) 0 /\ ptr_in base n (sa_refrTm a) 0 /\ ptr_in base n (sa_smpSynch a) 0 /\
  ptr_in base n (sa_smpMod a) 0 /\ ptr_in base n (sa_smpRate a) 0 /\ ptr_in base n (sa_dataBuffer a) (sa_dataBufferLength a).

Definition fields_in (base n : Z) (f : AsduFields) : Prop :=
  asdu_in base n (af_asdu f) /\
  ptr_in base n (sa_svId (af_asdu f)) (af_svIdLength f) /\ ptr_in base n (sa_datSet (af_asdu f)) (af_datSetLength f).

Lemma asdu_field_in base n f tag p l :
  fields_in base n f -> base <= p -> 0 <= l -> p + l <= base + n -> fields_in base n (asdu_field f tag p l).
Proof.
  destruct f as [[] ? ?]. unfold fields_in, asdu_in, asdu_field. cbn. intros H Hb Hl Hp.
  repeat (btest; [cbn; unfold ptr_in in *; intuition lia|]). cbn. done.
Qed.

Lemma ptr_in_mono base n base' n' p l :
  base' <= base -> base + n <= base' + n' -> ptr_in base n p l -> ptr_in base' n' p l.
Proof. destruct p; cbn; intuition lia. Qed.

Lemma asdu_in_mono base n base' n' a :
  base' <= base -> base + n <= base' + n' -> asdu_in base n a -> asdu_in base' n' a.
Proof. unfold asdu_in. intros H1 H2 H. split_and!; apply (ptr_in_mono base n); intuition. Qed.

(** a block that can be parsed: it is inside the buffer, with at least a byte behind it *)
Definition block_in (buffer : list Z) (base n : Z) : Prop :=
  bytes_ok buffer /\ 0 <= base /\ 0 <= n /\ base + n < zlen buffer /\ zlen buffer < 4194304.

(** the element of a block at a position: an error of the length, or a content
    inside the block *)
Lemma element_of_block buffer base n pos :
  block_in buffer base n -> 0 <= pos < n ->
  exists tag p l, ld (ptr_add buffer base) pos = Some tag /\
    BerDecoder_decodeLength (ptr_add buffer base) 0 (pos + 1) n = Some (p, l) /\
    (p = -1 \/ pos + 1 < p /\ 0 <= l /\ p + l <= n).
Proof.
  intros (Hb & ? & ? & ? & ?) Hp. destruct (element_total (ptr_add buffer base) 0 pos n) as (tag & p & l & Ht & _ & Hd & Hr);
    [auto with bytes | lia | rewrite zlen_ptr_add; lia | lia|]. by exists tag, p, l.
Qed.

Lemma asdu_loop_in fuel f buffer base pos n :
  block_in buffer base n -> 0 <= pos <= n -> n - pos < Z.of_nat fuel -> fields_in base n f ->
  exists r, asdu_loop fuel f buffer base pos n = Some r /\ forall f', r = Some f' -> fields_in base n f'.
Proof.
  intros Hin. revert f pos. induction fuel as [|fuel IH]; intros f pos Hp Hf Hi; [lia|]. cbn [asdu_loop].
  destruct (pos <? n) eqn:E; bdestr; [|by eexists; split; [done|]; intros ? [= <-]].
  destruct (element_of_block buffer base n pos Hin) as (tag & p & l & -> & -> & Hr); [lia|]. cbn [mbind option_bind].
  destruct Hr as [->|(? & ? & ?)]; [by eexists|]. if_false. apply IH; [lia | lia |]. apply asdu_field_in; [done | lia..].
Qed.

Lemma terminate_in buffer base n p l :
  block_in buffer base n -> ptr_in base n p l ->
  exists buffer', terminate buffer p l = Some buffer' /\ zlen buffer' = zlen buffer /\ block_in buffer' base n.
Proof.
  intros (Hb & ? & ? & ? & ?) Hp. destruct p as [p|]; cbn in *; [|by exists buffer].
  destruct (st_ok buffer (p + l) 0) as (buffer' & -> & Hb' & Hz & _); [done | unfold is_byte; lia | lia|].
  exists buffer'. split; [done|]. split; [done|]. unfold block_in. rewrite Hz. done.
Qed.

Definition calls_in (base n : Z) (calls : list SVUpdate) : Prop := Forall (fun c => asdu_in base n (su_asdu c)) calls.

Lemma calls_in_nil base n : calls_in base n [].
Proof. constructor. Qed.
#[local] Hint Resolve calls_in_nil : core.

Lemma calls_in_mono base n base' n' calls :
  base' <= base -> base + n <= base' + n' -> calls_in base n calls -> calls_in base' n' calls.
Proof. intros H1 H2. unfold calls_in. rewrite !Forall_forall. intros H c Hc. apply (asdu_in_mono base n); auto. Qed.

(** a parser ends, with a buffer of the same length, and the pointers it hands out
    lie in the block *)
Definition parses_in (buffer : list Z) (base n : Z) (r : option (list Z * list SVUpdate)) : Prop :=
  exists buffer' calls, r = Some (buffer', calls) /\ zlen buffer' = zlen buffer /\ bytes_ok buffer' /\ calls_in base n calls.

Lemma parses_nothing buffer base n : bytes_ok buffer -> parses_in buffer base n (Some (buffer, [])).
Proof. intros. by exists buffer, []. Qed.
#[local] Hint Resolve parses_nothing : core.

Lemma parses_in_mono buffer base n base' n' r :
  base' <= base -> base + n <= base' + n' -> parses_in buffer base n r -> parses_in buffer base' n' r.
Proof.
  intros H1 H2 (buffer' & calls & -> & Hz & Hb & Hc). exists buffer', calls. split_and!; [done..|].
  by apply (calls_in_mono base n).
Qed.

Lemma block_in_sub buffer base n base' n' :
  block_in buffer base n -> base <= base' -> 0 <= n' -> base' + n' <= base + n -> block_in buffer base' n'.
Proof. unfold block_in. intuition lia. Qed.

Lemma block_in_zlen buffer buffer' base n :
  block_in buffer base n -> zlen buffer' = zlen buffer -> bytes_ok buffer' -> block_in buffer' base n.
Proof. unfold block_in. intros H -> ?. intuition. Qed.

Lemma parseASDU_in k listener buffer base n :
  block_in buffer base n -> parses_in buffer base n (parseASDU k listener buffer base n).
Proof.
  intros Hin. pose proof Hin as (Hb & _ & Hn & _ & _). unfold parseASDU.
  destruct (asdu_loop_in (S (Z.to_nat n)) noFields buffer base 0 n) as (r & -> & Hr); [done | lia | lia | by repeat split|].
  cbn [mbind option_bind]. destruct r as [f|]; [|auto]. destruct (Hr f eq_refl) as (Ha & Hs & Hd).
  destruct (terminate_in buffer base n _ _ Hin Hs) as (buffer1 & -> & Hz1 & Hin1). cbn [mbind option_bind].
  destruct (terminate_in buffer1 base n _ _ Hin1 Hd) as (buffer2 & -> & Hz2 & Hin2). cbn [mbind option_bind].
  exists buffer2, (if listener then [mkSVUpdate k (af_asdu f) buffer2] else []). split; [done|]. split; [congruence|].
  split; [apply Hin2|]. destruct listener; [apply Forall_singleton; exact Ha | constructor].
Qed.

(** the two loops over the elements of a block have the same shape: an element is
    parsed or skipped, and the rest follows *)
Section ElementLoop.
Context (loop : nat -> list Z -> Z -> Z -> option (list Z * list SVUpdate)).
Context (element : Z -> list Z -> Z -> Z -> option (list Z * list SVUpdate)).
Context (base n : Z).
Hypothesis loop_eq : forall fuel buffer pos,
  loop (S fuel) buffer pos n =
  if pos <? n then
    tag ← ld (ptr_add buffer base) pos;
    '(pos, l) ← BerDecoder_decodeLength (ptr_add buffer base) 0 (pos + 1) n;
    if pos <? 0 then Some (buffer, [])
    else
      '(buffer, calls) ← element tag buffer (base + pos) l;
      '(buffer, more) ← loop fuel buffer (pos + l) n;
      Some (buffer, calls ++ more)
  else Some (buffer, []).
Hypothesis element_in_block : forall tag buffer base' n',
  block_in buffer base' n' -> parses_in buffer base' n' (element tag buffer base' n').

Lemma element_loop_in fuel buffer pos :
  block_in buffer base n -> 0 <= pos <= n -> n - pos < Z.of_nat fuel -> parses_in buffer base n (loop fuel buffer pos n).
Proof.
  revert buffer pos. induction fuel as [|fuel IH]; intros buffer pos Hin Hp Hf; [lia|]. rewrite loop_eq.
  pose proof Hin as (Hb & _). destruct (pos <? n) eqn:E; bdestr; [|auto].
  destruct (element_of_block buffer base n pos Hin) as (tag & p & l & -> & -> & Hr); [lia|]. cbn [mbind option_bind].
  destruct Hr as [->|(? & ? & ?)]; [auto|]. if_false.
  destruct (element_in_block tag buffer (base + p) l) as (buffer1 & calls & -> & Hz1 & Hb1 & Hc1); [apply (block_in_sub _ base n); (done || lia)|].
  cbn [mbind option_bind]. destruct (IH buffer1 (p + l)) as (buffer2 & more & -> & Hz2 & Hb2 & Hc2); [by apply (block_in_zlen buffer) | lia | lia|].
  cbn [mbind option_bind]. exists buffer2, (calls ++ more). split; [done|]. split; [congruence|]. split; [done|].
  apply Forall_app. split; [|done]. apply (calls_in_mono (base + p) l); (done || lia).
Qed.
End ElementLoop.

Lemma parseSequence_in k listener buffer base n :
  block_in buffer base n -> parses_in buffer base n (parseSequenceOfASDU k listener buffer base n).
Proof.
  intros Hin. pose proof Hin as (_ & _ & Hn & _). unfold parseSequenceOfASDU.
  apply (element_loop_in (fun fuel buffer pos n => sequence_loop fuel k listener buffer base pos n)
    (fun tag buffer base n => if tag =? 0x30 then parseASDU k listener buffer base n else Some (buffer, []))); [done| |done|lia|lia].
  intros tag b base' n' Hi. btest; [by apply parseASDU_in | apply parses_nothing, Hi].
Qed.

Lemma sv_payload_loop_in fuel k listener buffer base pos n :
  block_in buffer base n -> 0 <= pos <= n -> n - pos < Z.of_nat fuel ->
  parses_in buffer base n (sv_payload_loop fuel k listener buffer base pos n).
Proof.
  intros Hin Hp Hf.
  apply (element_loop_in (fun fuel buffer pos n => sv_payload_loop fuel k listener buffer base pos n)
    (fun tag buffer base n => if tag =? 0xa2 then parseSequenceOfASDU k listener buffer base n else Some (buffer, []))); [done| |done..].
  intros tag b base' n' Hi. btest; [by apply parseSequence_in | apply parses_nothing, Hi].
Qed.

(** the payload, whose length a frame may give too small for its first byte *)
Lemma parseSVPayload_in k listener buffer base n :
  block_in buffer base (Z.max n 0) -> parses_in buffer base (Z.max n 0) (parseSVPayload k listener buffer base n).
Proof.
  intros Hin. pose proof Hin as (Hb & ? & _ & ? & ?). unfold parseSVPayload.
  destruct (ld_is_Some (ptr_add buffer base) 0) as [b ->]; [rewrite zlen_ptr_add; lia|]. cbn [mbind option_bind]. btest; [|auto].
  destruct (Z.le_gt_cases n 1) as [Hn|Hn].
  - unfold BerDecoder_decodeLength, BerDecoder_decodeLengthRecursive. if_true. cbn [mbind option_bind]. auto.
  - rewrite Z.max_l in * by lia. destruct (element_of_block buffer base n 0 Hin) as (tag & p & l & _ & Hd & Hr); [lia|].
    change (0 + 1) with 1 in Hd. rewrite Hd. cbn [mbind option_bind]. destruct Hr as [->|(? & ? & ?)]; [auto|]. if_false.
    apply (parses_in_mono _ base (p + l)); [lia..|]. apply sv_payload_loop_in; [|lia..]. apply (block_in_sub _ base n); (done || lia).
Qed.

(** * The receiver *)

Definition sv_receiver_ok (self : SVReceiver) : Prop :=
  bytes_ok (sr_buffer self) /\ zlen (sr_buffer self) = SV_ETH_BUFFER_LENGTH /\
  Forall (fun s => zlen (ss_ethAddr s) = 6) (sr_subscriberList self).

Lemma matching_subscriber_total subs k check sock appId dst :
  Forall (fun s => zlen (ss_ethAddr s) = 6) subs -> 6 <= zlen dst ->
  exists r, matching_subscriber subs k check sock appId dst = Some r.
Proof.
  intros HF Hd. revert k. induction HF as [|s subs Hs HF IH]; intros k; [by eexists|]. cbn [matching_subscriber].
  assert (exists b, (if ss_appId s =? appId then if check then if sock then memcmp_eq dst (ss_ethAddr s) 6 else Some false
     else Some true else Some false) = Some b) as [b ->].
  { destruct (_ =? appId); [|by eexists]. destruct check; [|by eexists]. destruct sock; [|by eexists].
    unfold memcmp_eq. rewrite !ld_range_Some by lia. by eexists. }
  cbn [mbind option_bind]. destruct b; [by eexists|]. apply IH.
Qed.

Lemma u16_nonneg z : 0 <= u16 z.
Proof. unfold u16. apply Z.mod_pos_bound. lia. Qed.

(** A packet shorter than the buffer is parsed inside it, whatever it holds. *)
Lemma parseSVMessage_in self n :
  sv_receiver_ok self -> 0 <= n < SV_ETH_BUFFER_LENGTH ->
  parses_in (sr_buffer self) 0 (Z.max n 26) (parseSVMessage self n).
Proof.
  intros (Hb & Hz & HF) Hn. unfold SV_ETH_BUFFER_LENGTH in *. unfold parseSVMessage. btest; [auto|].
  destruct (ld_is_Some (sr_buffer self) 12) as [b0 ->]; [lia|]. cbn [mbind option_bind].
  assert (exists v, (if b0 =? 0x81 then b1 ← ld (sr_buffer self) (12 + 1); Some (b1 =? 0) else Some false) = Some v) as [v ->].
  { btest; [|by eexists]. destruct (ld_is_Some (sr_buffer self) (12 + 1)) as [b1 ->]; [lia|]. by eexists. }
  cbn [mbind option_bind]. set (p := if v then 16 else 12). replace (if v then (12 + 4, 14 + 4) else (12, 14)) with (p, p + 2) by by destruct v.
  assert (12 <= p <= 16) by (unfold p; destruct v; lia). cbv zeta.
  destruct (ld_is_Some (sr_buffer self) p) as [e0 ->]; [lia|]. cbn [mbind option_bind]. destruct (negb _); [auto|].
  destruct (ld_is_Some (sr_buffer self) (p + 1)) as [e1 ->]; [lia|]. cbn [mbind option_bind]. destruct (negb _); [auto|].
  destruct (ld_is_Some (sr_buffer self) (p + 2)) as [a0 ->]; [lia|]. destruct (ld_is_Some (sr_buffer self) (p + 3)) as [a1 ->]; [lia|].
  destruct (ld_is_Some (sr_buffer self) (p + 4)) as [l0 ->]; [lia|]. destruct (ld_is_Some (sr_buffer self) (p + 5)) as [l1 ->]; [lia|].
  cbn [mbind option_bind]. pose proof (u16_nonneg (u16 (l0 * 256) + l1)) as Hl. set (len := u16 (u16 (l0 * 256) + l1)) in *.
  destruct (n <? len + (p + 2)) eqn:En; bdestr; [auto|]. unfold handleSVApdu.
  destruct (matching_subscriber_total (sr_subscriberList self) 0 (sr_checkDestAddr self) (sr_ethSocket self)
    (u16 (u16 (a0 * 256) + a1)) (ptr_add (sr_buffer self) 0) HF) as [r ->]; [rewrite zlen_ptr_add; lia|].
  cbn [mbind option_bind]. destruct r as [[k s]|]; [|auto].
  apply (parses_in_mono _ (p + 10) (Z.max (len - 8) 0)); [lia | lia|]. apply parseSVPayload_in. unfold block_in. split_and!; [done | lia..].
Qed.

Lemma SVReceiver_tick_in self packet :
  sv_receiver_ok self -> bytes_ok packet -> zlen packet < SV_ETH_BUFFER_LENGTH ->
  exists self' received calls, SVReceiver_tick self packet = Some (self', received, calls) /\
    sv_receiver_ok self' /\ calls_in 0 (Z.max (zlen packet) 26) calls.
Proof.
  intros Hok Hp Hz. pose proof Hok as (Hb & Hs & HF). unfold SVReceiver_tick. destruct (sr_ethSocket self); [|by exists self, false, []].
  btest; [|by exists self, false, []]. destruct (st_range_ok (sr_buffer self) packet Hb Hp) as (b & -> & Hb' & Hz'); [lia|].
  cbn [mbind option_bind]. set (self1 := sr_with_buffer self b).
  assert (sv_receiver_ok self1 /\ sr_buffer self1 = b) as [Hok1 Hb1]. { destruct self. cbn in *. unfold sv_receiver_ok. cbn. rewrite Hz'. done. }
  destruct (parseSVMessage_in self1 (zlen packet) Hok1) as (b2 & calls & -> & Hz2 & Hok2 & Hc); [lia|]. cbn [mbind option_bind].
  exists (sr_with_buffer self1 b2), true, calls. split; [done|]. split; [|done]. rewrite Hb1, Hz', Hs in Hz2. destruct self. cbn in *.
  unfold sv_receiver_ok. cbn. done.
Qed.

(** The thread survives any sequence of such packets. *)
Lemma receiver_loop_in self events :
  sv_receiver_ok self -> Forall (fun e => match e with Wait_packet p => bytes_ok p /\ zlen p < SV_ETH_BUFFER_LENGTH | _ => True end) events ->
  exists self' calls, receiver_loop self events = Some (self', calls) /\ sv_receiver_ok self' /\ calls_in 0 SV_ETH_BUFFER_LENGTH calls.
Proof.
  intros Hok HF. revert self Hok. induction HF as [|e events He HF IH]; intros self Hok; [by exists self, []|].
  cbn [receiver_loop]. destruct (sr_running self); [|by exists self, []].
  assert (exists self' calls, match e with Wait_packet packet => '(self, _, calls) ← SVReceiver_tick self packet; Some (self, calls)
    | _ => Some (self, []) end = Some (self', calls) /\ sv_receiver_ok self' /\ calls_in 0 SV_ETH_BUFFER_LENGTH calls) as (self1 & calls & -> & Hok1 & Hc1).
  { destruct e as [| |p]; [by exists self, []..|]. destruct (SVReceiver_tick_in self p Hok) as (self1 & r & calls & -> & Hok1 & Hc); [apply He..|].
    exists self1, calls. split; [done|]. split; [done|]. unfold SV_ETH_BUFFER_LENGTH in *. apply (calls_in_mono 0 (Z.max (zlen p) 26)); (done || lia). }
  cbn [mbind option_bind]. destruct (IH self1 Hok1) as (self2 & more & -> & Hok2 & Hc2). cbn [mbind option_bind].
  exists self2, (calls ++ more). split; [done|]. split; [done|]. by apply Forall_app.
Qed.
