(* ===== verification/SvLayout.v ===== *)
(** What a frame of sampled values holds, and that the publisher lays it out.

    [SvSample] is an ASDU as its values, without buffers and pointers;
    [sample_bytes] and [sv_apdu] are its encoding and that of a message. [asdu_rep]
    says that an ASDU of the publisher stands for a sample: its bytes lie in the
    publisher's buffer, and its pointers point to the fields that change. *)

From S2P Require Import Prelude BerEncoder BerDecoder BerInteger StringUtils CFloat MmsValue MmsFacts MmsData GoosePublisher GooseSafety IecCommon SvPublisher.
Open Scope Z_scope.

(** equality of lists up to association *)
Ltac list_norm := repeat (rewrite <- app_assoc || rewrite <- app_comm_cons); done.

(** * Samples *)

(** The fields of an ASDU as they are sent, and the limit of its sample counter, which
    stays with the publisher. *)
Record SvSample := mkSvSample {
  sp_svId : list Z;
  sp_datSet : option (list Z);
  sp_smpCnt : Z;
  sp_confRev : Z;
  sp_refrTm : option (list Z);
  sp_smpSynch : Z;
  sp_smpRate : option Z;
  sp_data : list Z;
  sp_smpMod : option Z;
  sp_gmIdentity : option (list Z);
  sp_smpCntLimit : Z
}.

Definition sp_with_smpCnt (s : SvSample) (smpCnt : Z) : SvSample :=
  let 'mkSvSample i d _ cr rt ss sr db sm gm sl := s in mkSvSample i d smpCnt cr rt ss sr db sm gm sl.
Definition sp_with_smpCntLimit (s : SvSample) (smpCntLimit : Z) : SvSample :=
  let 'mkSvSample i d sc cr rt ss sr db sm gm _ := s in mkSvSample i d sc cr rt ss sr db sm gm smpCntLimit.
Definition sp_with_refrTm (s : SvSample) (refrTm : list Z) : SvSample :=
  let 'mkSvSample i d sc cr _ ss sr db sm gm sl := s in mkSvSample i d sc cr (Some refrTm) ss sr db sm gm sl.
Definition sp_with_smpSynch (s : SvSample) (smpSynch : Z) : SvSample :=
  let 'mkSvSample i d sc cr rt _ sr db sm gm sl := s in mkSvSample i d sc cr rt smpSynch sr db sm gm sl.
Definition sp_with_data (s : SvSample) (data : list Z) : SvSample :=
  let 'mkSvSample i d sc cr rt ss sr _ sm gm sl := s in mkSvSample i d sc cr rt ss sr data sm gm sl.

Definition opt_field (tag : Z) (content : option (list Z)) : list (Z * list Z) :=
  match content with Some c => [(tag, c)] | None => [] end.

(** the fields in front of the sample counter, and the groups of fields between those
    that change *)
Definition fields_front (s : SvSample) : list (Z * list Z) := (0x80, sp_svId s) :: opt_field 0x81 (sp_datSet s).
Definition field_confRev (s : SvSample) : list (Z * list Z) := [(0x83, be_bytes 4 (sp_confRev s))].
Definition field_smpRate (s : SvSample) : list (Z * list Z) := opt_field 0x86 (be_bytes 2 <$> sp_smpRate s).
Definition fields_back (s : SvSample) : list (Z * list Z) :=
  opt_field 0x88 (be_bytes 2 <$> sp_smpMod s) ++ opt_field 0x89 (sp_gmIdentity s).

Definition sample_fields (s : SvSample) : list (Z * list Z) :=
  fields_front s ++ (0x82, be_bytes 2 (sp_smpCnt s)) :: field_confRev s ++ opt_field 0x84 (sp_refrTm s) ++
  (0x85, [sp_smpSynch s]) :: field_smpRate s ++ (0x87, sp_data s) :: fields_back s.

Definition sample_content (s : SvSample) : list Z := fields_bytes (sample_fields s).
Definition sample_bytes (s : SvSample) : list Z := ber_tlv 0x30 (sample_content s).
Definition samples_bytes (samples : list SvSample) : list Z := concat (sample_bytes <$> samples).

(** the message: the number of ASDUs and the ASDUs *)
Definition sv_content (samples : list SvSample) : list Z :=
  ber_tlv 0x80 (ber_uint32 (zlen samples)) ++ ber_tlv 0xa2 (samples_bytes samples).
Definition sv_apdu (samples : list SvSample) : list Z := ber_tlv 0x60 (sv_content samples).

Lemma samples_bytes_cons s samples : samples_bytes (s :: samples) = sample_bytes s ++ samples_bytes samples.
Proof. done. Qed.

(** * Where the fields are *)

Definition width (n : Z) : Z := 1 + zlen (ber_length n) + n.

Lemma width_pos n : 0 <= n -> 0 < width n.
Proof. unfold width. pose proof (zlen_ber_length_bounds n). lia. Qed.

Lemma zlen_tlv_width t c : zlen (ber_tlv t c) = width (zlen c).
Proof. apply zlen_ber_tlv. Qed.

Definition opt_width (o : option Z) : Z := match o with Some n => width n | None => 0 end.

Lemma zlen_opt_field t o : zlen (fields_bytes (opt_field t o)) = opt_width (zlen <$> o).
Proof. destruct o; cbn [opt_field fmap option_fmap option_map opt_width]; [|done]. rewrite zlen_fields_bytes_cons, zlen_tlv_width. change (zlen (fields_bytes [])) with 0. lia. Qed.

Lemma width_small n : 0 <= n < 128 -> width n = 2 + n.
Proof. intros. unfold width. rewrite ber_length_short by done. change (zlen [n]) with 1. lia. Qed.

Definition head_width (s : SvSample) : Z := 1 + zlen (ber_length (zlen (sample_content s))).
Definition front_width (s : SvSample) : Z := zlen (fields_bytes (fields_front s)).

(** the positions of the fields that change, from the start of the ASDU *)
Definition pos_smpCnt (s : SvSample) : Z := head_width s + front_width s + 2.
Definition pos_refrTm (s : SvSample) : Z := pos_smpCnt s + 10.
Definition pos_smpSynch (s : SvSample) : Z := pos_smpCnt s + 10 + (match sp_refrTm s with Some _ => 10 | None => 0 end).
Definition pos_data (s : SvSample) : Z :=
  pos_smpSynch s + 1 + (match sp_smpRate s with Some _ => 4 | None => 0 end) + 1 + zlen (ber_length (zlen (sp_data s))).

Definition sample_ok (s : SvSample) : Prop :=
  (forall t, sp_refrTm s = Some t -> zlen t = 8) /\ (forall t, sp_gmIdentity s = Some t -> zlen t = 8).

(** a field of an ASDU can be replaced by one of the same length *)
Lemma field_split pre t c post :
  exists x y, zlen x = 1 + zlen (ber_length (zlen (fields_bytes (pre ++ (t, c) :: post)))) + zlen (fields_bytes pre) + 1 + zlen (ber_length (zlen c)) /\
    forall c', zlen c' = zlen c -> ber_tlv 0x30 (fields_bytes (pre ++ (t, c') :: post)) = x ++ c' ++ y.
Proof.
  exists (0x30 :: ber_length (zlen (fields_bytes (pre ++ (t, c) :: post))) ++ fields_bytes pre ++ t :: ber_length (zlen c)), (fields_bytes post).
  split; [zlia|]. intros c' Hc. unfold ber_tlv at 1.
  assert (zlen (fields_bytes (pre ++ (t, c') :: post)) = zlen (fields_bytes (pre ++ (t, c) :: post))) as ->.
  { rewrite !fields_bytes_app, !fields_bytes_cons, !zlen_app, !zlen_ber_tlv, Hc. done. }
  rewrite !fields_bytes_app, !fields_bytes_cons. unfold ber_tlv. rewrite Hc. list_norm.
Qed.

(** the fields of a sample, with the prefix up to one of them named *)
Lemma sample_split s pre t c post n :
  sample_fields s = pre ++ (t, c) :: post -> n = head_width s + zlen (fields_bytes pre) + 1 + zlen (ber_length (zlen c)) ->
  exists x y, zlen x = n /\ forall s' c', sample_fields s' = pre ++ (t, c') :: post -> zlen c' = zlen c -> sample_bytes s' = x ++ c' ++ y.
Proof.
  intros Hs ->. destruct (field_split pre t c post) as (x & y & Hx & H). exists x, y. split.
  - rewrite Hx. unfold head_width, sample_content. rewrite Hs. lia.
  - intros s' c' Hs' Hc. unfold sample_bytes, sample_content. rewrite Hs'. by apply H.
Qed.

Lemma zlen_field t c : zlen (fields_bytes [(t, c)]) = width (zlen c).
Proof. rewrite zlen_fields_bytes_cons, zlen_tlv_width. change (zlen (fields_bytes [])) with 0. lia. Qed.

Lemma zlen_field_be n v t : zlen (fields_bytes [(t, be_bytes n v)]) = width (Z.of_nat n).
Proof. by rewrite zlen_field, zlen_be_bytes. Qed.

Lemma ber_length_one n : 0 <= n < 128 -> zlen (ber_length n) = 1.
Proof. intros. by rewrite ber_length_short. Qed.

(** simplify lengths of groups of fields *)
Ltac fields_len :=
  repeat first [rewrite fields_bytes_app | rewrite fields_bytes_cons | rewrite zlen_app | rewrite zlen_opt_field
    | rewrite zlen_tlv_width | rewrite zlen_be_bytes | rewrite zlen_cons | rewrite zlen_nil].

Lemma split_smpCnt s :
  exists x y, zlen x = pos_smpCnt s /\ forall v, sample_bytes (sp_with_smpCnt s v) = x ++ be_bytes 2 v ++ y.
Proof.
  destruct (sample_split s (fields_front s) 0x82 (be_bytes 2 (sp_smpCnt s))
    (field_confRev s ++ opt_field 0x84 (sp_refrTm s) ++ (0x85, [sp_smpSynch s]) :: field_smpRate s ++ (0x87, sp_data s) :: fields_back s)
    (pos_smpCnt s)) as (x & y & Hx & H); [done | unfold pos_smpCnt, front_width; rewrite zlen_be_bytes, ber_length_one; lia|].
  exists x, y. split; [done|]. intros v. apply H; [by destruct s | by rewrite !zlen_be_bytes].
Qed.

Lemma split_refrTm s t0 :
  sample_ok s -> sp_refrTm s = Some t0 ->
  exists x y, zlen x = pos_refrTm s /\ forall t, zlen t = 8 -> sample_bytes (sp_with_refrTm s t) = x ++ t ++ y.
Proof.
  intros [Hok _] Ht. pose proof (Hok _ Ht) as Hz.
  destruct (sample_split s (fields_front s ++ (0x82, be_bytes 2 (sp_smpCnt s)) :: field_confRev s) 0x84 t0
    ((0x85, [sp_smpSynch s]) :: field_smpRate s ++ (0x87, sp_data s) :: fields_back s)
    (pos_refrTm s)) as (x & y & Hx & H).
  - unfold sample_fields. rewrite Ht. cbn [opt_field]. list_norm.
  - unfold pos_refrTm, pos_smpCnt, front_width, field_confRev. rewrite Hz, ber_length_one by lia. fields_len.
    rewrite !width_small by lia. change (zlen (fields_bytes [])) with 0. lia.
  - exists x, y. split; [done|]. intros t Htz. apply H; [|lia]. unfold sample_fields. destruct s. cbn. list_norm.
Qed.

Lemma split_smpSynch s :
  sample_ok s -> exists x y, zlen x = pos_smpSynch s /\ forall v, sample_bytes (sp_with_smpSynch s v) = x ++ [v] ++ y.
Proof.
  intros [Hok _].
  destruct (sample_split s (fields_front s ++ (0x82, be_bytes 2 (sp_smpCnt s)) :: field_confRev s ++ opt_field 0x84 (sp_refrTm s)) 0x85 [sp_smpSynch s]
    (field_smpRate s ++ (0x87, sp_data s) :: fields_back s)
    (pos_smpSynch s)) as (x & y & Hx & H).
  - unfold sample_fields. list_norm.
  - unfold pos_smpSynch, pos_smpCnt, front_width, field_confRev. change (zlen [sp_smpSynch s]) with 1. rewrite ber_length_one by lia. fields_len.
    rewrite !width_small by lia. change (zlen (fields_bytes [])) with 0.
    destruct (sp_refrTm s) as [t|] eqn:Ht; cbn [fmap option_fmap option_map opt_width]; [|lia]. rewrite (Hok t eq_refl), width_small; lia.
  - exists x, y. split; [done|]. intros v. apply H; [|done]. unfold sample_fields. destruct s. cbn -[fields_front]. list_norm.
Qed.

Lemma split_data s :
  sample_ok s -> exists x y, zlen x = pos_data s /\ forall d, zlen d = zlen (sp_data s) -> sample_bytes (sp_with_data s d) = x ++ d ++ y.
Proof.
  intros [Hok _].
  destruct (sample_split s (fields_front s ++ (0x82, be_bytes 2 (sp_smpCnt s)) :: field_confRev s ++ opt_field 0x84 (sp_refrTm s) ++
      (0x85, [sp_smpSynch s]) :: field_smpRate s) 0x87 (sp_data s) (fields_back s)
    (pos_data s)) as (x & y & Hx & H).
  - unfold sample_fields. list_norm.
  - unfold pos_data, pos_smpSynch, pos_smpCnt, front_width, field_confRev, field_smpRate. fields_len.
    change (zlen (@nil Z)) with 0. rewrite !width_small by lia. change (zlen (fields_bytes [])) with 0.
    assert (opt_width (zlen <$> sp_refrTm s) = match sp_refrTm s with Some _ => 10 | None => 0 end) as ->.
    { destruct (sp_refrTm s) as [t|] eqn:Ht; cbn [fmap option_fmap option_map opt_width]; [|done]. by rewrite (Hok t eq_refl), width_small. }
    assert (opt_width (zlen <$> (be_bytes 2 <$> sp_smpRate s)) = match sp_smpRate s with Some _ => 4 | None => 0 end) as ->.
    { destruct (sp_smpRate s); cbn [fmap option_fmap option_map opt_width]; [|done]. by rewrite zlen_be_bytes, width_small. }
    lia.
  - exists x, y. split; [done|]. intros d Hd. apply H; [|done]. unfold sample_fields. destruct s. cbn -[fields_front].
    list_norm.
Qed.
