(* ===== verification/SvSetup.v ===== *)
(** [SVPublisher_setupComplete] lays out the frame: every ASDU stands for a sample,
    with its pointers to the fields that change. *)

From S2P Require Import Prelude BerEncoder BerDecoder BerInteger StringUtils CFloat MmsValue MmsFacts MmsData GoosePublisher GooseSafety IecCommon SvPublisher SvLayout.
Open Scope Z_scope.

(** * Blocks that are written piece by piece *)

Lemma put_step k l buffer pos :
  0 <= pos -> pos + zlen (l ++ k) <= zlen buffer ->
  puts k (splice buffer pos l) (pos + zlen l) = Some (splice buffer pos (l ++ k), pos + zlen (l ++ k)).
Proof.
  intros Hp Hf. rewrite zlen_app in *. pose proof (zlen_nonneg l). pose proof (zlen_nonneg k).
  rewrite puts_fits by (rewrite ?zlen_splice; lia). rewrite splice_splice by lia. do 2 f_equal. lia.
Qed.

(** what already lies behind the block belongs to it *)
Lemma skip_step g l buffer pos :
  0 <= pos -> at_pos buffer (pos + zlen l) g -> splice buffer pos l = splice buffer pos (l ++ g).
Proof.
  intros Hp (pre & post & -> & Hz). pose proof (zlen_nonneg l). unfold splice.
  assert (Z.to_nat pos + length l = length pre)%nat as Hl by (unfold zlen in *; lia).
  rewrite Hl, drop_app_length, length_app. rewrite Nat.add_assoc, Hl, <- !app_assoc. do 2 f_equal.
  by rewrite app_assoc, <- length_app, drop_app_length.
Qed.

Lemma splice_nil buffer pos : splice buffer pos [] = buffer.
Proof. unfold splice. cbn. by rewrite Nat.add_0_r, take_drop. Qed.

Lemma encodeUInt16_puts v buffer pos : encodeUInt16FixedSize v buffer pos = puts (be_bytes 2 v) buffer pos.
Proof. reflexivity. Qed.
Lemma encodeUInt32_fixed_puts v buffer pos : encodeUInt32FixedSize v buffer pos = puts (be_bytes 4 v) buffer pos.
Proof. reflexivity. Qed.
Lemma encodeInt32_fixed_puts v buffer pos : encodeInt32FixedSize v buffer pos = puts (be_bytes 4 v) buffer pos.
Proof. reflexivity. Qed.
Lemma encodeInt64_fixed_puts v buffer pos : encodeInt64FixedSize v buffer pos = puts (be_bytes 8 v) buffer pos.
Proof. reflexivity. Qed.

(** * One ASDU *)

(** an ASDU that can be laid out *)
Definition asdu_ok (a : SVPublisher_ASDU) : Prop :=
  (exists svID, as_svID a = Some svID /\ 0 ∈ svID) /\ string_ok (as_datset a) /\ 0 <= as_dataSize a /\ zlen (as_gmIdentity a) = 8.

Definition when {A} (b : bool) (x : A) : option A := if b then Some x else None.

(** the sample an ASDU stands for when [refrTm] and [data] lie in its gaps *)
Definition sample_of (a : SVPublisher_ASDU) (refrTm data : list Z) : SvSample :=
  mkSvSample (ber_string (as_svID a)) (c_string <$> as_datset a) (as_smpCnt a) (as_confRev a)
    (when (as_hasRefrTm a) refrTm) (as_smpSynch a) (when (as_hasSmpRate a) (as_smpRate a)) data
    (when (as_hasSmpMod a) (as_smpMod a)) (when (as_hasGmIdentity a) (as_gmIdentity a)) (as_smpCntLimit a).

(** its length does not depend on what lies in the gaps *)
Lemma zlen_sample_of a t d t' d' :
  zlen t = zlen t' -> zlen d = zlen d' -> zlen (sample_content (sample_of a t d)) = zlen (sample_content (sample_of a t' d')).
Proof.
  intros Ht Hd. unfold sample_content, sample_fields, fields_front, field_confRev, field_smpRate, fields_back, sample_of.
  cbn [sp_svId sp_datSet sp_smpCnt sp_confRev sp_refrTm sp_smpSynch sp_smpRate sp_data sp_smpMod sp_gmIdentity].
  fields_len. rewrite Hd. by destruct (as_hasRefrTm a); cbn [when fmap option_fmap option_map opt_width]; rewrite ?Ht.
Qed.

Lemma getEncodedSize_spec a t d :
  asdu_ok a -> zlen t = 8 -> zlen d = as_dataSize a -> zlen (sample_content (sample_of a t d)) < 65535 ->
  SVPublisher_ASDU_getEncodedSize a = Some (zlen (sample_content (sample_of a t d))).
Proof.
  intros ((svID & Hid & Hid0) & Hds & Hn & Hg) Ht Hd Hsize. unfold SVPublisher_ASDU_getEncodedSize.
  unfold sample_content, sample_fields, fields_front, field_confRev, field_smpRate, fields_back, sample_of in *.
  cbn [sp_svId sp_datSet sp_smpCnt sp_confRev sp_refrTm sp_smpSynch sp_smpRate sp_data sp_smpMod sp_gmIdentity] in *.
  rewrite Hid in *. cbn [mbind option_bind ber_string] in *. destruct (strlen_is_Some svID Hid0) as [n Hsl]. rewrite Hsl. cbn [mbind option_bind].
  apply strlen_c_string in Hsl as (-> & _ & _). revert Hsize. fields_len. change (zlen (fields_bytes [])) with 0. change (zlen []) with 0.
  rewrite (width_small (Z.of_nat 2)), (width_small (Z.of_nat 4)), (width_small (1 + 0)) by lia.
  assert (forall x, 0 <= x -> x < 65535 -> 1 + BerEncoder_determineLengthSize x + x = width x) as Hw.
  { intros. unfold width. rewrite zlen_ber_length; lia. }
  assert (opt_width (zlen <$> when (as_hasRefrTm a) t) = if as_hasRefrTm a then 10 else 0) as ->.
  { destruct (as_hasRefrTm a); [|done]. cbn [when fmap option_fmap option_map opt_width]. by rewrite Ht. }
  assert (opt_width (zlen <$> (be_bytes 2 <$> when (as_hasSmpRate a) (as_smpRate a))) = if as_hasSmpRate a then 4 else 0) as -> by (by destruct (as_hasSmpRate a)).
  assert (opt_width (zlen <$> (be_bytes 2 <$> when (as_hasSmpMod a) (as_smpMod a))) = if as_hasSmpMod a then 4 else 0) as -> by (by destruct (as_hasSmpMod a)).
  assert (opt_width (zlen <$> when (as_hasGmIdentity a) (as_gmIdentity a)) = if as_hasGmIdentity a then 10 else 0) as ->.
  { destruct (as_hasGmIdentity a); [|done]. cbn [when fmap option_fmap option_map opt_width]. by rewrite Hg. }
  rewrite Hd. intros Hsize. pose proof (zlen_nonneg (c_string svID)). pose proof (zlen_ber_length_bounds (zlen (c_string svID))).
  pose proof (zlen_ber_length_bounds (as_dataSize a)).
  assert (0 <= opt_width (zlen <$> (c_string <$> as_datset a))) as Hds0.
  { destruct (as_datset a) as [ds|]; [|done]. apply Z.lt_le_incl, width_pos, zlen_nonneg. }
  assert ((match as_datset a with
     | Some datset => datSetLen ← strlen datset; Some (1 + BerEncoder_determineLengthSize (zlen (c_string svID)) + zlen (c_string svID) +
         (1 + BerEncoder_determineLengthSize datSetLen + datSetLen))
     | None => Some (1 + BerEncoder_determineLengthSize (zlen (c_string svID)) + zlen (c_string svID)) end)
     = Some (width (zlen (c_string svID)) + opt_width (zlen <$> (c_string <$> as_datset a)))) as ->.
  { rewrite Hw by (unfold width in *; repeat case_match; lia).
    destruct (as_datset a) as [ds|]; cbn [fmap option_fmap option_map opt_width] in *; [|by rewrite Z.add_0_r].
    destruct (strlen_is_Some ds Hds) as [n Hsl]. rewrite Hsl. cbn [mbind option_bind]. apply strlen_c_string in Hsl as (-> & _ & _).
    pose proof (zlen_nonneg (c_string ds)). rewrite Hw; [done | done |]. unfold width in *. pose proof (zlen_ber_length_bounds (zlen (c_string ds))). repeat case_match; lia. }
  cbn [mbind option_bind]. rewrite <- (Hw (as_dataSize a)) by (unfold width in *; repeat case_match; lia).
  f_equal. repeat case_match; lia.
Qed.

(** the pointers of an ASDU that starts at [base] *)
Definition asdu_pointers (a : SVPublisher_ASDU) (base : Z) (s : SvSample) : SVPublisher_ASDU :=
  as_with_pointers a (Some (base + pos_smpCnt s))
    (match sp_refrTm s with Some _ => Some (base + pos_refrTm s) | None => as_refrTm a end)
    (Some (base + pos_smpSynch s)) (Some (base + pos_data s)).

(** the bytes of a sample in front of the gap for the time, and in front of that for the data *)
Definition bytes_before_time (s : SvSample) : list Z :=
  (0x30 :: ber_length (zlen (sample_content s))) ++ fields_bytes (fields_front s) ++
  ber_tlv 0x82 (be_bytes 2 (sp_smpCnt s)) ++ ber_tlv 0x83 (be_bytes 4 (sp_confRev s)).
Definition bytes_before_data (s : SvSample) : list Z :=
  bytes_before_time s ++ fields_bytes (opt_field 0x84 (sp_refrTm s)) ++ ber_tlv 0x85 [sp_smpSynch s] ++ fields_bytes (field_smpRate s) ++
  0x87 :: ber_length (zlen (sp_data s)).

Lemma sample_bytes_parts s : sample_bytes s = bytes_before_data s ++ sp_data s ++ fields_bytes (fields_back s).
Proof.
  unfold sample_bytes, bytes_before_data, bytes_before_time, sample_content. unfold ber_tlv at 1. unfold sample_fields at 2.
  unfold field_confRev. repeat first [rewrite fields_bytes_app | rewrite fields_bytes_cons]. change (fields_bytes []) with (@nil Z). rewrite app_nil_r.
  unfold ber_tlv. repeat (rewrite <- app_assoc || rewrite <- app_comm_cons). done.
Qed.

Lemma zlen_before_time s : zlen (bytes_before_time s) = pos_smpCnt s + 8.
Proof.
  unfold bytes_before_time, pos_smpCnt, head_width, front_width. rewrite !zlen_app, zlen_cons, !zlen_tlv_width, !zlen_be_bytes, !width_small by lia. lia.
Qed.

Lemma zlen_before_data s : sample_ok s -> zlen (bytes_before_data s) = pos_data s.
Proof.
  intros [Hok _]. unfold bytes_before_data, pos_data, pos_smpSynch, field_smpRate. rewrite !zlen_app, zlen_before_time, zlen_cons, !zlen_opt_field, zlen_tlv_width.
  change (zlen [sp_smpSynch s]) with 1. rewrite width_small by lia.
  assert (opt_width (zlen <$> sp_refrTm s) = match sp_refrTm s with Some _ => 10 | None => 0 end) as ->.
  { destruct (sp_refrTm s) as [t|] eqn:Ht; cbn [fmap option_fmap option_map opt_width]; [|done]. by rewrite (Hok t eq_refl), width_small. }
  assert (opt_width (zlen <$> (be_bytes 2 <$> sp_smpRate s)) = match sp_smpRate s with Some _ => 4 | None => 0 end) as -> by by destruct (sp_smpRate s).
  lia.
Qed.

Lemma sample_of_ok a t d : asdu_ok a -> zlen t = 8 -> sample_ok (sample_of a t d).
Proof.
  intros (_ & _ & _ & Hg) Ht. split; intros x; unfold sample_of; cbn [sp_refrTm sp_gmIdentity]; unfold when; case_match; intros [= <-]; done.
Qed.

Section EncodeASDU.
Context (a : SVPublisher_ASDU) (origin : Z) (buffer : list Z) (pos : Z) (t d : list Z).
Context (s : SvSample) (Hs : s = sample_of a t d).
Hypotheses (Hok : asdu_ok a) (Ht : zlen t = 8) (Hd : zlen d = as_dataSize a).
Hypotheses (Hpos : 0 <= pos) (Hfit : pos + zlen (sample_bytes s) <= zlen buffer) (Hsize : zlen (sample_content s) < 65535).
Hypothesis Htime : as_hasRefrTm a = true -> at_pos buffer (pos + pos_refrTm s) t.
Hypothesis Hdata : at_pos buffer (pos + pos_data s) d.

Lemma s_ok : sample_ok s.
Proof. rewrite Hs. by apply sample_of_ok. Qed.

(** the step fits because the whole sample does *)
Ltac fits :=
  repeat (cbn [app] in *; (rewrite zlen_app in * || rewrite zlen_cons in * || rewrite zlen_nil in * )); cbn [ber_string] in *;
  repeat match goal with
  | H : context [zlen ?l] |- _ => lazymatch goal with _ : 0 <= zlen l |- _ => fail | _ => pose proof (zlen_nonneg l) end
  end; lia.

(** one step of the encoder: the bytes are put behind those already there *)
Ltac enc_step :=
  first [rewrite encodeTL_puts | rewrite encodeStringWithTag_puts by done | rewrite encodeUInt16_puts | rewrite encodeUInt32_fixed_puts
        | rewrite <- puts_one];
  rewrite put_step; [cbn [mbind option_bind] | lia | fits].

(** the part in front of the time *)
Lemma encode_front :
  (encodedSize ← SVPublisher_ASDU_getEncodedSize a;
   '(buffer, bufPos) ← BerEncoder_encodeTL 0x30 encodedSize buffer pos;
   '(buffer, bufPos) ← BerEncoder_encodeStringWithTag 0x80 (as_svID a) buffer bufPos;
   '(buffer, bufPos) ← match as_datset a with
                       | Some datset => BerEncoder_encodeStringWithTag 0x81 (Some datset) buffer bufPos
                       | None => Some (buffer, bufPos)
                       end;
   '(buffer, bufPos) ← BerEncoder_encodeTL 0x82 2 buffer bufPos;
   let smpCntBuf := origin + bufPos in
   '(buffer, bufPos) ← encodeUInt16FixedSize (as_smpCnt a) buffer bufPos;
   '(buffer, bufPos) ← BerEncoder_encodeTL 0x83 4 buffer bufPos;
   '(buffer, bufPos) ← encodeUInt32FixedSize (as_confRev a) buffer bufPos;
   Some (smpCntBuf, buffer, bufPos))
  = Some (origin + (pos + pos_smpCnt s), splice buffer pos (bytes_before_time s), pos + zlen (bytes_before_time s)).
Proof.
  destruct Hok as ((svID & Hid & Hid0) & Hds & Hn & Hg).
  rewrite (getEncodedSize_spec a t d) by (rewrite <- ?Hs; done). rewrite <- Hs. cbn [mbind option_bind].
  assert (pos + zlen (bytes_before_time s) <= zlen buffer) as Hf.
  { rewrite sample_bytes_parts in Hfit. unfold bytes_before_data in Hfit. rewrite !zlen_app in Hfit.
    repeat match goal with |- context [zlen ?l] => idtac end.
    pose proof (zlen_nonneg (fields_bytes (opt_field 132 (sp_refrTm s)))). pose proof (zlen_nonneg (ber_tlv 133 [sp_smpSynch s])).
    pose proof (zlen_nonneg (fields_bytes (field_smpRate s))). pose proof (zlen_nonneg (135 :: ber_length (zlen (sp_data s)))).
    pose proof (zlen_nonneg (sp_data s)). pose proof (zlen_nonneg (fields_bytes (fields_back s))). lia. }
  rewrite <- (splice_nil buffer pos) at 1. replace pos with (pos + zlen (@nil Z)) at 2 by (rewrite zlen_nil; lia).
  assert (as_smpCnt a = sp_smpCnt s /\ as_confRev a = sp_confRev s /\ as_svID a = Some svID /\ sp_svId s = c_string svID /\ sp_datSet s = c_string <$> as_datset a) as (-> & -> & -> & Hsv & Hdse)
    by (subst s; unfold sample_of; rewrite Hid; done).
  assert (fields_bytes (fields_front s) = ber_tlv 0x80 (c_string svID) ++ match as_datset a with Some ds => ber_tlv 0x81 (c_string ds) | None => [] end) as Hfr.
  { unfold fields_front. rewrite fields_bytes_cons, Hsv, Hdse. f_equal. destruct (as_datset a); [|done]. cbn. by rewrite app_nil_r. }
  unfold bytes_before_time in *. rewrite Hfr in *. change (ber_tlv 0x82 (be_bytes 2 (sp_smpCnt s))) with ((0x82 :: ber_length 2) ++ be_bytes 2 (sp_smpCnt s)) in *.
  change (ber_tlv 0x83 (be_bytes 4 (sp_confRev s))) with ((0x83 :: ber_length 4) ++ be_bytes 4 (sp_confRev s)) in *.
  assert (pos_smpCnt s = zlen ((0x30 :: ber_length (zlen (sample_content s))) ++
     ber_tlv 0x80 (c_string svID) ++ match as_datset a with Some ds => ber_tlv 0x81 (c_string ds) | None => [] end ++ 0x82 :: ber_length 2)) as ->.
  { unfold pos_smpCnt, head_width, front_width. rewrite Hfr, !zlen_app. cbn [app]. rewrite !zlen_cons. rewrite (ber_length_one 2) by lia. lia. }
  clear Hfit Hfr. destruct (as_datset a) as [ds|].
  - repeat enc_step. cbn [ber_string]. do 2 f_equal; [f_equal|]; repeat (rewrite <- app_assoc || rewrite <- app_comm_cons); done.
  - repeat enc_step. cbn [ber_string]. do 2 f_equal; [f_equal|]; repeat (rewrite <- app_assoc || rewrite <- app_comm_cons); done.
Qed.

(** the part from the time to the head of the data *)
Lemma encode_middle :
  (let buffer := splice buffer pos (bytes_before_time s) in
   let bufPos := pos + zlen (bytes_before_time s) in
   '(refrTm, buffer, bufPos) ←
     (if as_hasRefrTm a then
        '(buffer, bufPos) ← BerEncoder_encodeTL 0x84 8 buffer bufPos;
        Some (Some (origin + bufPos), buffer, bufPos + 8)
      else Some (as_refrTm a, buffer, bufPos));
   '(buffer, bufPos) ← BerEncoder_encodeTL 0x85 1 buffer bufPos;
   let smpSynchBuf := origin + bufPos in
   '(buffer, bufPos) ← put (as_smpSynch a) buffer bufPos;
   '(buffer, bufPos) ←
     (if as_hasSmpRate a then
        '(buffer, bufPos) ← BerEncoder_encodeTL 0x86 2 buffer bufPos;
        encodeUInt16FixedSize (as_smpRate a) buffer bufPos
      else Some (buffer, bufPos));
   '(buffer, bufPos) ← BerEncoder_encodeTL 0x87 (as_dataSize a) buffer bufPos;
   Some (refrTm, smpSynchBuf, buffer, bufPos))
  = Some (match sp_refrTm s with Some _ => Some (origin + (pos + pos_refrTm s)) | None => as_refrTm a end,
          origin + (pos + pos_smpSynch s), splice buffer pos (bytes_before_data s), pos + zlen (bytes_before_data s)).
Proof.
  cbv zeta.
  assert (pos + zlen (bytes_before_data s) <= zlen buffer) as Hf by (rewrite sample_bytes_parts in Hfit; clear - Hfit; fits).
  pose proof (zlen_before_time s) as Hbt. unfold pos_smpSynch, pos_refrTm in *. unfold bytes_before_data, field_smpRate in *.
  assert (as_smpSynch a = sp_smpSynch s /\ as_dataSize a = zlen (sp_data s) /\ sp_refrTm s = when (as_hasRefrTm a) t /\
    sp_smpRate s = when (as_hasSmpRate a) (as_smpRate a)) as (-> & -> & Hrt & Hsr) by (subst s; unfold sample_of; done).
  rewrite Hrt, Hsr in *. change (ber_tlv 0x85 [sp_smpSynch s]) with ((0x85 :: ber_length 1) ++ [sp_smpSynch s]) in *.
  clear Hfit. set (l1 := bytes_before_time s) in *.
  assert (exists l2, fields_bytes (opt_field 0x84 (when (as_hasRefrTm a) t)) = l2 /\ zlen l2 = (if as_hasRefrTm a then 10 else 0) /\
    (if as_hasRefrTm a then
        '(buffer, bufPos) ← BerEncoder_encodeTL 0x84 8 (splice buffer pos l1) (pos + zlen l1);
        Some (Some (origin + bufPos), buffer, bufPos + 8)
      else Some (as_refrTm a, splice buffer pos l1, pos + zlen l1)) =
    Some (match when (as_hasRefrTm a) t with Some _ => Some (origin + (pos + (pos_smpCnt s + 10))) | None => as_refrTm a end,
      splice buffer pos (l1 ++ l2), pos + zlen (l1 ++ l2))) as (l2 & Hl2 & Hz2 & ->).
  { eexists. split; [done|]. destruct (as_hasRefrTm a); cbn [when opt_field].
    - cbn [when opt_field] in Hf. rewrite fields_bytes_cons in *. change (fields_bytes []) with (@nil Z) in *. rewrite app_nil_r in *.
      assert (ber_tlv 0x84 t = (0x84 :: ber_length 8) ++ t) as Hx by (unfold ber_tlv; by rewrite Ht). rewrite Hx in *.
      split; [rewrite zlen_app, Ht; done|]. enc_step. rewrite (app_assoc l1), (zlen_app (l1 ++ _) t), Ht.
      rewrite <- (skip_step t); [|lia | rewrite zlen_app, Hbt; change (zlen (132 :: ber_length 8)) with 2;
        replace (pos + (pos_smpCnt s + 8 + 2)) with (pos + (pos_smpCnt s + 10)) by lia; by apply Htime].
      replace (origin + (pos + zlen (l1 ++ 132 :: ber_length 8))) with (origin + (pos + (pos_smpCnt s + 10)))
        by (rewrite zlen_app, Hbt; change (zlen (132 :: ber_length 8)) with 2; lia).
      do 2 f_equal. lia.
    - split; [done|]. by rewrite app_nil_r. }
  rewrite Hl2 in *. cbn [mbind option_bind]. enc_step. enc_step.
  replace (origin + (pos + zlen ((l1 ++ l2) ++ 133 :: ber_length 1)))
    with (origin + (pos + (pos_smpCnt s + 10 + match when (as_hasRefrTm a) t with Some _ => 10 | None => 0 end)))
    by (rewrite !zlen_app, Hz2, Hbt; change (zlen (133 :: ber_length 1)) with 2; destruct (as_hasRefrTm a); cbn [when]; lia).
  destruct (as_hasSmpRate a); cbn [when fmap option_fmap option_map opt_field] in *.
  - rewrite fields_bytes_cons in *. change (fields_bytes []) with (@nil Z) in *. rewrite app_nil_r in *.
    change (ber_tlv 0x86 (be_bytes 2 (as_smpRate a))) with ((0x86 :: ber_length 2) ++ be_bytes 2 (as_smpRate a)) in *.
    enc_step. enc_step. enc_step. do 2 f_equal; [f_equal|]; repeat (rewrite <- app_assoc || rewrite <- app_comm_cons); done.
  - change (fields_bytes []) with (@nil Z) in *. cbn [mbind option_bind]. enc_step.
    do 2 f_equal; [f_equal|]; repeat (rewrite <- app_assoc || rewrite <- app_comm_cons); done.
Qed.

(** the part behind the data *)
Lemma encode_back :
  (let buffer := splice buffer pos (bytes_before_data s) in
   let bufPos := pos + zlen (bytes_before_data s) + as_dataSize a in
   '(buffer, bufPos) ←
     (if as_hasSmpMod a then
        '(buffer, bufPos) ← BerEncoder_encodeTL 0x88 2 buffer bufPos;
        encodeUInt16FixedSize (as_smpMod a) buffer bufPos
      else Some (buffer, bufPos));
   (if as_hasGmIdentity a then BerEncoder_encodeOctetString 0x89 (as_gmIdentity a) 8 buffer bufPos
    else Some (buffer, bufPos)))
  = Some (splice buffer pos (sample_bytes s), pos + zlen (sample_bytes s)).
Proof.
  cbv zeta. pose proof (zlen_before_data s s_ok) as Hbd. destruct Hok as (_ & _ & _ & Hg).
  rewrite sample_bytes_parts in *. unfold fields_back in *. set (l1 := bytes_before_data s) in *.
  assert (sp_data s = d /\ sp_smpMod s = when (as_hasSmpMod a) (as_smpMod a) /\ sp_gmIdentity s = when (as_hasGmIdentity a) (as_gmIdentity a)) as (Hdd & Hm & Hgm)
    by (subst s; unfold sample_of; done).
  rewrite Hdd, Hm, Hgm, fields_bytes_app in *. rewrite (skip_step d l1) by (rewrite ?Hbd; done).
  replace (pos + zlen l1 + as_dataSize a) with (pos + zlen (l1 ++ d)) by (rewrite zlen_app; lia).
  assert ((if as_hasSmpMod a then
        '(buffer, bufPos) ← BerEncoder_encodeTL 0x88 2 (splice buffer pos (l1 ++ d)) (pos + zlen (l1 ++ d));
        encodeUInt16FixedSize (as_smpMod a) buffer bufPos
      else Some (splice buffer pos (l1 ++ d), pos + zlen (l1 ++ d)))
    = Some (splice buffer pos ((l1 ++ d) ++ fields_bytes (opt_field 0x88 (be_bytes 2 <$> when (as_hasSmpMod a) (as_smpMod a)))),
        pos + zlen ((l1 ++ d) ++ fields_bytes (opt_field 0x88 (be_bytes 2 <$> when (as_hasSmpMod a) (as_smpMod a)))))) as ->.
  { destruct (as_hasSmpMod a); cbn [when fmap option_fmap option_map opt_field] in *; [|by rewrite app_nil_r].
    rewrite fields_bytes_cons in *. change (fields_bytes []) with (@nil Z) in *. rewrite app_nil_r in *.
    change (ber_tlv 0x88 (be_bytes 2 (as_smpMod a))) with ((0x88 :: ber_length 2) ++ be_bytes 2 (as_smpMod a)) in *.
    enc_step. enc_step. by rewrite <- !app_assoc. }
  cbn [mbind option_bind]. destruct (as_hasGmIdentity a); cbn [when fmap option_fmap option_map opt_field] in *.
  - rewrite encodeOctetString_puts by lia. rewrite take_ge by (unfold zlen in Hg; lia). rewrite fields_bytes_cons in *.
    change (fields_bytes []) with (@nil Z) in *. rewrite app_nil_r in *. rewrite put_step by (lia || fits). by rewrite <- !app_assoc.
  - change (fields_bytes []) with (@nil Z) in *. rewrite app_nil_r in *. by rewrite <- !app_assoc.
Qed.

Lemma encodeToBuffer_at :
  SVPublisher_ASDU_encodeToBuffer a origin buffer pos
  = Some (asdu_pointers a (origin + pos) s, splice buffer pos (sample_bytes s), pos + zlen (sample_bytes s)).
Proof.
  pose proof encode_front as H1. pose proof encode_middle as H2. pose proof encode_back as H3. cbv zeta in *.
  unfold SVPublisher_ASDU_encodeToBuffer. revert H1.
  destruct (SVPublisher_ASDU_getEncodedSize a); cbn [mbind option_bind]; [|done].
  repeat (match goal with |- (_ ← ?x; _) = _ -> _ => destruct x as [[? ?]|]; cbn [mbind option_bind]; [|done] end).
  intros [= -> -> ->]. revert H2.
  match goal with |- (_ ← ?x; _) = _ -> _ => destruct x as [[[? ?] ?]|]; cbn [mbind option_bind]; [|done] end.
  repeat (match goal with |- (_ ← ?x; _) = _ -> _ => destruct x as [[? ?]|]; cbn [mbind option_bind]; [|done] end).
  intros [= -> -> -> ->]. revert H3.
  match goal with |- (_ ← ?x; _) = _ -> _ => destruct x as [[? ?]|]; cbn [mbind option_bind]; [|done] end.
  intros ->. cbn [mbind option_bind]. unfold asdu_pointers. rewrite (zlen_before_data s s_ok).
  repeat rewrite <- ?(Z.add_assoc origin). done.
Qed.
End EncodeASDU.

(** * All ASDUs *)

(** a sample an ASDU can stand for: its fields, with something in the gaps *)
Definition sample_for (a : SVPublisher_ASDU) (s : SvSample) : Prop :=
  exists t d, s = sample_of a t d /\ zlen t = 8 /\ zlen d = as_dataSize a.

(** an ASDU before the layout *)
Definition asdu_new (a : SVPublisher_ASDU) : Prop := asdu_ok a /\ as_refrTm a = None.

Definition asdu_size (a : SVPublisher_ASDU) : Z :=
  zlen (sample_content (sample_of a (replicate 8 0) (replicate (Z.to_nat (as_dataSize a)) 0))).
Fixpoint asdus_size (asdus : list SVPublisher_ASDU) : Z :=
  match asdus with [] => 0 | a :: asdus => width (asdu_size a) + asdus_size asdus end.

Lemma sample_for_size a s : 0 <= as_dataSize a -> sample_for a s -> zlen (sample_content s) = asdu_size a.
Proof.
  intros Hn (t & d & -> & Ht & Hd). apply zlen_sample_of; [by rewrite Ht|]. rewrite Hd, zlen_replicate. lia.
Qed.

Lemma zlen_sample_bytes s : zlen (sample_bytes s) = width (zlen (sample_content s)).
Proof. apply zlen_tlv_width. Qed.

(** the pointers and the counters of an ASDU that stands for a sample *)
Definition asdu_ptrs (base : Z) (a : SVPublisher_ASDU) (s : SvSample) : Prop :=
  sample_ok s /\ as_smpCnt a = sp_smpCnt s /\ as_smpCntLimit a = sp_smpCntLimit s /\ as_smpSynch a = sp_smpSynch s /\
  as_smpCntBuf a = Some (base + pos_smpCnt s) /\
  as_refrTm a = (match sp_refrTm s with Some _ => Some (base + pos_refrTm s) | None => None end) /\
  as_smpSynchBuf a = Some (base + pos_smpSynch s) /\ as_dataBuffer a = Some (base + pos_data s).

Fixpoint asdus_ptrs (base : Z) (asdus : list SVPublisher_ASDU) (samples : list SvSample) : Prop :=
  match asdus, samples with
  | [], [] => True
  | a :: asdus, s :: samples => asdu_ptrs base a s /\ asdus_ptrs (base + zlen (sample_bytes s)) asdus samples
  | _, _ => False
  end.

Lemma asdu_size_nonneg a : 0 <= asdu_size a.
Proof. apply zlen_nonneg. Qed.

Lemma asdus_size_nonneg asdus : 0 <= asdus_size asdus.
Proof. induction asdus as [|a asdus IH]; cbn; [lia|]. pose proof (width_pos (asdu_size a) (asdu_size_nonneg a)). lia. Qed.

(** the gaps of an ASDU, where they lie in the buffer *)
Lemma gaps_exist a buffer pos :
  asdu_ok a -> 0 <= pos -> pos + width (asdu_size a) <= zlen buffer ->
  exists t d, zlen t = 8 /\ zlen d = as_dataSize a /\
    (as_hasRefrTm a = true -> at_pos buffer (pos + pos_refrTm (sample_of a t d)) t) /\ at_pos buffer (pos + pos_data (sample_of a t d)) d.
Proof.
  intros Hok Hp Hf. pose proof Hok as (_ & _ & Hn & Hg).
  assert (forall t d, zlen t = 8 -> zlen d = as_dataSize a -> sample_for a (sample_of a t d)) as Hfor by (intros t d ??; by exists t, d).
  set (s0 := sample_of a (replicate 8 0) (replicate (Z.to_nat (as_dataSize a)) 0)).
  assert (sample_for a s0) as Hf0 by (apply Hfor; [done | rewrite zlen_replicate; lia]).
  assert (sample_ok s0) as Hok0 by (by apply sample_of_ok).
  assert (pos + zlen (sample_bytes s0) <= zlen buffer) as Hfit by (rewrite zlen_sample_bytes, (sample_for_size a s0); done).
  assert (forall t d, zlen t = 8 -> zlen d = as_dataSize a ->
    pos_refrTm (sample_of a t d) = pos_refrTm s0 /\ pos_data (sample_of a t d) = pos_data s0) as Hpos.
  { intros t d Ht Hd. unfold pos_data, pos_smpSynch, pos_refrTm, pos_smpCnt, head_width.
    rewrite (sample_for_size a (sample_of a t d)), (sample_for_size a s0) by auto.
    change (sp_smpRate (sample_of a t d)) with (sp_smpRate s0). change (front_width (sample_of a t d)) with (front_width s0).
    change (sp_data (sample_of a t d)) with d. replace (zlen (sp_data s0)) with (zlen d) by (unfold s0; cbn; rewrite zlen_replicate; lia).
    replace (match sp_refrTm (sample_of a t d) with Some _ => 10 | None => 0 end) with (match sp_refrTm s0 with Some _ => 10 | None => 0 end); [done|].
    unfold s0, sample_of. cbn [sp_refrTm]. by destruct (as_hasRefrTm a). }
  pose proof (split_data s0 Hok0) as (x & y & Hx & Hsd). specialize (Hsd (sp_data s0) eq_refl). replace (sp_with_data s0 (sp_data s0)) with s0 in Hsd by done.
  assert (zlen (sp_data s0) = as_dataSize a) as Hd0 by (unfold s0; cbn; rewrite zlen_replicate; lia).
  rewrite Hsd, !zlen_app in Hfit. pose proof (zlen_nonneg x). pose proof (zlen_nonneg y).
  destruct (at_pos_exists buffer (pos + pos_data s0) (as_dataSize a)) as (d & Hat & Hd); [lia..|].
  destruct (as_hasRefrTm a) eqn:Ehr.
  - destruct (split_refrTm s0 (replicate 8 0) Hok0) as (x2 & y2 & Hx2 & Hst); [unfold s0, sample_of; cbn [sp_refrTm]; by rewrite Ehr|].
    specialize (Hst (replicate 8 0) eq_refl). replace (sp_with_refrTm s0 (replicate 8 0)) with s0 in Hst by (unfold s0, sample_of; cbn; by rewrite Ehr).
    assert (zlen (sample_bytes s0) = zlen x + zlen (sp_data s0) + zlen y) as Hz by (rewrite Hsd, !zlen_app; lia).
    rewrite Hst, !zlen_app in Hz. change (zlen (replicate 8 0)) with 8 in Hz. pose proof (zlen_nonneg x2). pose proof (zlen_nonneg y2).
    destruct (at_pos_exists buffer (pos + pos_refrTm s0) 8) as (t & Hat2 & Ht); [lia..|].
    exists t, d. destruct (Hpos t d Ht Hd) as [-> ->]. done.
  - exists (replicate 8 0), d. destruct (Hpos (replicate 8 0) d eq_refl Hd) as [-> ->]. done.
Qed.

Lemma encode_asdus_spec asdus origin buffer pos :
  Forall asdu_new asdus -> 0 <= pos -> pos + asdus_size asdus <= zlen buffer -> zlen buffer < 65535 ->
  exists samples asdus', Forall2 sample_for asdus samples /\
    encode_asdus asdus origin buffer pos = Some (asdus', splice buffer pos (samples_bytes samples), pos + zlen (samples_bytes samples)) /\
    asdus_ptrs (origin + pos) asdus' samples /\ zlen (samples_bytes samples) = asdus_size asdus.
Proof.
  intros HF. revert buffer pos. induction HF as [|a asdus [Hok Hrt] HF IH]; intros buffer pos Hp Hf Hb; cbn [asdus_size] in *.
  - exists [], []. split; [constructor|]. cbn [encode_asdus]. unfold samples_bytes. cbn. rewrite splice_nil, Z.add_0_r. done.
  - pose proof (width_pos (asdu_size a) (asdu_size_nonneg a)). pose proof (asdus_size_nonneg asdus).
    pose proof Hok as (_ & _ & Hn & _). destruct (gaps_exist a buffer pos Hok Hp) as (t & d & Ht & Hd & Hat1 & Hat2); [lia|].
    set (s := sample_of a t d) in *. assert (sample_for a s) as Hfor by (by exists t, d).
    pose proof (sample_for_size a s Hn Hfor) as Hsz. pose proof (zlen_sample_bytes s) as Hsb. rewrite Hsz in Hsb.
    assert (asdu_size a < 65535) by (unfold width in *; pose proof (zlen_ber_length_bounds (asdu_size a)); lia).
    cbn [encode_asdus]. rewrite (encodeToBuffer_at a origin buffer pos t d s) by (done || lia). cbn [mbind option_bind].
    destruct (IH (splice buffer pos (sample_bytes s)) (pos + zlen (sample_bytes s))) as (samples & asdus' & HF2 & -> & Hptr & Hz);
      [lia | rewrite zlen_splice; lia | rewrite zlen_splice; lia|].
    cbn [mbind option_bind]. exists (s :: samples), (asdu_pointers a (origin + pos) s :: asdus'). split; [by constructor|].
    rewrite samples_bytes_cons, zlen_app, splice_splice by lia. rewrite Hz, Hsb.
    split; [by rewrite Z.add_assoc|]. split; [|done]. cbn [asdus_ptrs]. split; [|by rewrite <- Z.add_assoc].
    pose proof (sample_of_ok a t d Hok Ht) as Hsok. unfold asdu_ptrs, asdu_pointers. destruct a as [i ds n hr hs hm hg db ss sc sl cr gm rt sm sr cb sb]. cbn [as_with_pointers as_smpCnt as_smpCntLimit as_smpSynch
      as_smpCntBuf as_refrTm as_smpSynchBuf as_dataBuffer] in *. rewrite Hrt. done.
Qed.

Lemma total_ASDULength_spec asdus acc :
  Forall asdu_new asdus -> asdus_size asdus < 65535 -> total_ASDULength asdus acc = Some (acc + asdus_size asdus).
Proof.
  intros HF. revert acc. induction HF as [|a asdus [Hok _] HF IH]; intros acc Hs; cbn [asdus_size total_ASDULength] in *; [f_equal; lia|].
  pose proof (width_pos (asdu_size a) (asdu_size_nonneg a)). pose proof (asdus_size_nonneg asdus). pose proof (asdu_size_nonneg a).
  pose proof (zlen_ber_length_bounds (asdu_size a)). pose proof Hok as (_ & _ & Hn & _).
  rewrite (getEncodedSize_spec a (replicate 8 0) (replicate (Z.to_nat (as_dataSize a)) 0));
    [|done | done | rewrite zlen_replicate; lia | fold (asdu_size a); unfold width in *; lia].
  fold (asdu_size a). cbn [mbind option_bind]. rewrite IH by lia. f_equal. unfold width in *. rewrite zlen_ber_length by lia. lia.
Qed.

(** * The frame *)

Definition sv_header (link : list Z) (appId length : Z) : list Z :=
  link ++ [0x88; 0xba; u8 (appId / 256); u8 (appId mod 256); u8 (length / 256); Z.land length 0xff; 0; 0; 0; 0].

Definition sv_frame (link : list Z) (appId : Z) (samples : list SvSample) : list Z :=
  sv_header link appId (zlen (sv_apdu samples) + 8) ++ sv_apdu samples.

(** the message up to the first ASDU *)
Definition apdu_head (count size : Z) : list Z :=
  let number := ber_tlv 0x80 (ber_uint32 count) in
  0x60 :: ber_length (zlen number + width size) ++ number ++ 0xa2 :: ber_length size.

Lemma sv_apdu_head samples :
  sv_apdu samples = apdu_head (zlen samples) (zlen (samples_bytes samples)) ++ samples_bytes samples.
Proof.
  unfold sv_apdu, sv_content, apdu_head. unfold ber_tlv at 1. rewrite zlen_app, (zlen_tlv_width 0xa2).
  change (ber_tlv 0xa2 (samples_bytes samples)) with (0xa2 :: ber_length (zlen (samples_bytes samples)) ++ samples_bytes samples). list_norm.
Qed.

Lemma zlen_sv_header link appId n : zlen (sv_header link appId n) = zlen link + 10.
Proof. unfold sv_header. by rewrite zlen_app. Qed.

(** a publisher before the layout: the head of the frame is in the buffer *)
Definition publisher_new (p : SVPublisher) (link : list Z) (appId : Z) : Prop :=
  zlen (sv_buffer p) = SV_MAX_MESSAGE_SIZE /\ sv_ethernetSocket p = true /\
  sv_lengthField p = zlen link + 4 /\ sv_payloadStart p = zlen link + 10 /\
  (exists n, at_pos (sv_buffer p) 0 (sv_header link appId n)) /\ Forall asdu_new (sv_asduList p).

(** a publisher that stands for samples: its buffer holds the frame *)
Definition publisher_rep (p : SVPublisher) (link : list Z) (appId : Z) (samples : list SvSample) : Prop :=
  zlen (sv_buffer p) = SV_MAX_MESSAGE_SIZE /\ sv_ethernetSocket p = true /\
  sv_payloadStart p = zlen link + 10 /\ sv_payloadLength p = zlen (sv_apdu samples) /\
  at_pos (sv_buffer p) 0 (sv_frame link appId samples) /\
  asdus_ptrs (zlen link + 10 + zlen (apdu_head (zlen samples) (zlen (samples_bytes samples)))) (sv_asduList p) samples.

(** the length of the frame *)
Definition frame_size (link : list Z) (asdus : list SVPublisher_ASDU) : Z :=
  zlen link + 10 + zlen (apdu_head (zlen asdus) (asdus_size asdus)) + asdus_size asdus.

Lemma Forall2_zlen {A B} (P : A -> B -> Prop) l k : Forall2 P l k -> zlen k = zlen l.
Proof. intros H. unfold zlen. by rewrite (Forall2_length H). Qed.

Section Setup.
Context (p : SVPublisher) (link : list Z) (appId : Z).
Hypotheses (Hnew : publisher_new p link appId) (Hfits : frame_size link (sv_asduList p) <= SV_MAX_MESSAGE_SIZE).

Let n := zlen (sv_asduList p).
Let size := asdus_size (sv_asduList p).

Lemma setup_sizes :
  0 <= n <= size /\ 0 <= size < 1518 /\ zlen (apdu_head n size) + size <= 1508 - zlen link.
Proof.
  unfold frame_size, SV_MAX_MESSAGE_SIZE in *. fold n size in Hfits. pose proof (asdus_size_nonneg (sv_asduList p)). fold size in H.
  pose proof (zlen_nonneg link). pose proof (zlen_nonneg (apdu_head n size)). split; [|split; lia].
  unfold n, size. split; [apply zlen_nonneg|]. clear. induction (sv_asduList p) as [|a l IH]; [done|]. rewrite zlen_cons. cbn [asdus_size].
  pose proof (width_pos (asdu_size a) (asdu_size_nonneg a)). lia.
Qed.

(** the payload, written through the pointer to its start *)
Lemma setup_payload payload :
  zlen payload = 1518 - (zlen link + 10) ->
  exists samples asdus', Forall2 sample_for (sv_asduList p) samples /\ zlen (samples_bytes samples) = size /\
    asdus_ptrs (zlen link + 10 + zlen (apdu_head n size)) asdus' samples /\
    ('(buffer, bufPos) ← BerEncoder_encodeTL 0x60 (2 + zlen (ber_uint32 n) + (1 + BerEncoder_determineLengthSize size + size)) payload 0;
     '(buffer, bufPos) ← BerEncoder_encodeUInt32WithTL 0x80 n buffer bufPos;
     '(buffer, bufPos) ← BerEncoder_encodeTL 0xa2 size buffer bufPos;
     '(asdus, buffer, bufPos) ← encode_asdus (sv_asduList p) (zlen link + 10) buffer bufPos;
     Some ((asdus, bufPos), buffer))
    = Some (asdus', zlen (sv_apdu samples), splice payload 0 (sv_apdu samples)).
Proof.
  intros Hp. destruct setup_sizes as (Hn & Hs & Ht). pose proof Hnew as (_ & _ & _ & _ & _ & HF).
  assert (2 + zlen (ber_uint32 n) + (1 + BerEncoder_determineLengthSize size + size) = zlen (ber_tlv 0x80 (ber_uint32 n)) + width size) as ->.
  { rewrite zlen_tlv_uint32. unfold width. rewrite zlen_ber_length by lia. lia. }
  set (l1 := 0x60 :: ber_length (zlen (ber_tlv 0x80 (ber_uint32 n)) + width size)).
  assert (apdu_head n size = l1 ++ ber_tlv 0x80 (ber_uint32 n) ++ 0xa2 :: ber_length size) as Hh by (unfold apdu_head, l1; list_norm).
  rewrite Hh in Ht. pose proof (zlen_nonneg link).
  assert (zlen l1 + zlen (ber_tlv 0x80 (ber_uint32 n)) + zlen (0xa2 :: ber_length size) + size <= 1508 - zlen link) as Ht' by (rewrite !zlen_app in Ht; lia).
  pose proof (zlen_nonneg l1). pose proof (zlen_nonneg (ber_tlv 0x80 (ber_uint32 n))). pose proof (zlen_nonneg (0xa2 :: ber_length size)).
  rewrite encodeTL_puts. fold l1. rewrite puts_fits by lia. cbn [mbind option_bind].
  rewrite encodeUInt32WithTL_puts, put_step by (rewrite ?zlen_app; lia). cbn [mbind option_bind].
  rewrite encodeTL_puts, put_step by (rewrite ?zlen_app; lia). cbn [mbind option_bind]. rewrite <- app_assoc, <- Hh.
  assert (0 + zlen (apdu_head n size) + size <= 1518 - (zlen link + 10)) as Hz by (unfold frame_size, SV_MAX_MESSAGE_SIZE in Hfits; fold n size in Hfits; lia).
  pose proof (zlen_nonneg (apdu_head n size)).
  destruct (encode_asdus_spec (sv_asduList p) (zlen link + 10) (splice payload 0 (apdu_head n size)) (0 + zlen (apdu_head n size)) HF)
    as (samples & asdus' & HF2 & -> & Hptr & Hsz); [lia | rewrite zlen_splice; fold size; lia | rewrite zlen_splice; lia|].
  cbn [mbind option_bind]. exists samples, asdus'. fold size in Hsz. split; [done|]. split; [done|]. split; [done|].
  rewrite sv_apdu_head, (Forall2_zlen _ _ _ HF2), Hsz. fold n. rewrite splice_splice by lia. rewrite zlen_app, Hsz. done.
Qed.

(** The layout succeeds and the publisher stands for samples with the fields that
    were configured. *)
Lemma setupComplete_spec :
  exists samples p', SVPublisher_setupComplete p = Some p' /\ Forall2 sample_for (sv_asduList p) samples /\ publisher_rep p' link appId samples.
Proof.
  pose proof Hnew as (Hz & Hsock & Hlf & Hps & (m & pre & rest & Hbuf & Hpre) & HF). destruct setup_sizes as (Hn & Hs & Ht). pose proof (zlen_nonneg link).
  assert (pre = []) as -> by (destruct pre; [done|]; rewrite zlen_cons in Hpre; pose proof (zlen_nonneg pre); lia). cbn [app] in Hbuf.
  assert (zlen rest = 1518 - (zlen link + 10)) as Hr by (rewrite Hbuf, zlen_app, zlen_sv_header in Hz; unfold SV_MAX_MESSAGE_SIZE in Hz; lia).
  unfold SVPublisher_setupComplete. rewrite total_ASDULength_spec by (done || fold size; lia). cbn [mbind option_bind]. fold size n. rewrite Z.add_0_l.
  rewrite u32_small, UInt32determineEncodedSize_spec by lia. cbn [mbind option_bind]. unfold on_ptr. rewrite Hps, Hz. unfold SV_MAX_MESSAGE_SIZE.
  pose proof (zlen_nonneg (apdu_head n size)). replace ((0 <=? zlen link + 10) && (zlen link + 10 <=? 1518)) with true by (symmetry; lia).
  assert (drop (Z.to_nat (zlen link + 10)) (sv_buffer p) = rest) as ->.
  { rewrite Hbuf, <- (zlen_sv_header link appId m), zlen_to_nat. by rewrite drop_app_length. }
  assert (take (Z.to_nat (zlen link + 10)) (sv_buffer p) = sv_header link appId m) as ->.
  { rewrite Hbuf, <- (zlen_sv_header link appId m), zlen_to_nat. by rewrite take_app_length. }
  destruct (setup_payload rest Hr) as (samples & asdus' & HF2 & Hsz & Hptr & ->). cbn [mbind option_bind]. rewrite Hlf. replace (zlen link + 4 =? 0) with false by lia. cbn [negb].
  pose proof (zlen_nonneg (sv_apdu samples)) as Ha0. assert (zlen (sv_apdu samples) < 1518) as Ha1.
  { rewrite sv_apdu_head, zlen_app, Hsz, (Forall2_zlen _ _ _ HF2). fold n. lia. }
  set (msg := zlen (sv_apdu samples) + 8) in *. set (tail := splice rest 0 (sv_apdu samples)).
  assert (forall x y,
    <[Z.to_nat (zlen link + 4 + 1) := y]> (<[Z.to_nat (zlen link + 4) := x]> (sv_header link appId m ++ tail))
    = (link ++ [0x88; 0xba; u8 (appId / 256); u8 (appId mod 256); x; y; 0; 0; 0; 0]) ++ tail) as Hins.
  { intros x y. unfold sv_header. rewrite <- !app_assoc.
    replace (Z.to_nat (zlen link + 4)) with (length link + 4)%nat by (unfold zlen; lia).
    replace (Z.to_nat (zlen link + 4 + 1)) with (length link + 5)%nat by (unfold zlen; lia). by rewrite !insert_app_r. }
  assert (zlen (sv_header link appId m ++ tail) = 1518) as Hzt.
  { rewrite zlen_app, zlen_sv_header. unfold tail. rewrite zlen_splice; [lia | lia |]. rewrite Hr, sv_apdu_head, zlen_app, Hsz, (Forall2_zlen _ _ _ HF2).
    fold n. unfold frame_size, SV_MAX_MESSAGE_SIZE in Hfits. fold n size in Hfits. lia. }
  fold msg. rewrite st_Some by lia. cbn [mbind option_bind]. rewrite st_Some by (rewrite zlen_insert; lia). rewrite (Hins (u8 (msg / 256)) (Z.land msg 255)). cbn [mbind option_bind].
  exists samples. eexists. split; [done|]. split; [done|]. unfold publisher_rep. cbn [sv_buffer sv_ethernetSocket sv_payloadStart sv_payloadLength sv_asduList].
  fold (sv_header link appId msg). split; [rewrite zlen_app, zlen_sv_header in Hzt |- *; exact Hzt|]. split; [done|]. split; [done|]. split; [done|].
  rewrite (Forall2_zlen _ _ _ HF2), Hsz. split; [|done]. unfold sv_frame, tail. fold msg. exists [], (drop (length (sv_apdu samples)) rest).
  split; [|done]. unfold splice. cbn [app]. rewrite <- app_assoc. done.
Qed.
End Setup.
