(* ===== verification/SvRefine.v ===== *)
(** The publisher of sampled values refines a list of samples.

    [SvWrite] is an operation of the application on an ASDU once the frame is laid
    out. [write_publisher] calls the function of the publisher, which stores through
    pointers into the frame; [write_sample] is its meaning for the sample. The two
    agree, and no other sample and no other part of the frame changes. *)

From S2P Require Import Prelude BerEncoder BerDecoder BerInteger StringUtils CFloat MmsValue MmsFacts MmsData GoosePublisher GooseSubscriber GooseReceiver GooseSafety GooseRoundtrip IecCommon SvPublisher SvLayout SvSetup.
Open Scope Z_scope.

(** * Replacing a part of the frame *)

Lemma at_pos_splice buf pos x m m' y :
  at_pos buf pos (x ++ m ++ y) -> zlen m' = zlen m -> at_pos (splice buf (pos + zlen x) m') pos (x ++ m' ++ y).
Proof.
  intros (pre & post & -> & <-) Hm. exists pre, post. split; [|done]. unfold splice.
  assert (Z.to_nat (zlen pre + zlen x) = length (pre ++ x)) as -> by (rewrite length_app; unfold zlen; lia).
  replace (pre ++ (x ++ m ++ y) ++ post) with ((pre ++ x) ++ m ++ y ++ post) by list_norm.
  rewrite take_app_length. replace (length (pre ++ x) + length m')%nat with (length ((pre ++ x) ++ m)) by (rewrite !length_app; unfold zlen in Hm; lia).
  rewrite (app_assoc (pre ++ x) m), drop_app_length. list_norm.
Qed.

Lemma samples_bytes_app l k : samples_bytes (l ++ k) = samples_bytes l ++ samples_bytes k.
Proof. unfold samples_bytes. by rewrite fmap_app, concat_app. Qed.

(** the ASDU of a sample, and what changing both takes *)
Lemma asdus_ptrs_lookup base asdus samples k s :
  asdus_ptrs base asdus samples -> samples !! k = Some s ->
  exists pre post a, samples = pre ++ s :: post /\ length pre = k /\ asdus !! k = Some a /\ asdu_ptrs (base + zlen (samples_bytes pre)) a s /\
    forall a' s', zlen (sample_bytes s') = zlen (sample_bytes s) -> asdu_ptrs (base + zlen (samples_bytes pre)) a' s' ->
      asdus_ptrs base (<[k := a']> asdus) (pre ++ s' :: post).
Proof.
  revert base asdus k. induction samples as [|s0 samples IH]; intros base asdus k Hp Hk; [done|].
  destruct asdus as [|a0 asdus]; [done|]. destruct Hp as [H0 Hp]. destruct k as [|k].
  - cbn in Hk. injection Hk as ->. exists [], samples, a0. rewrite Z.add_0_r. split_and!; [done..|]. intros a' s' Hz Ha. cbn. rewrite Hz. done.
  - destruct (IH _ _ _ Hp Hk) as (pre & post & a & -> & <- & Ha & Hptr & Hupd). exists (s0 :: pre), post, a.
    rewrite samples_bytes_cons, zlen_app, Z.add_assoc. split_and!; [done..|]. intros a' s' Hz Ha'. cbn. split; [done|]. auto.
Qed.

(** An operation that replaces bytes of one sample by as many others. *)
Lemma on_asdu_rep p link appId samples k s s' f x m m' y :
  publisher_rep p link appId samples -> samples !! k = Some s ->
  sample_bytes s = x ++ m ++ y -> sample_bytes s' = x ++ m' ++ y -> zlen m' = zlen m ->
  (forall b a, 0 <= b -> at_pos (sv_buffer p) b (sample_bytes s) -> asdu_ptrs b a s ->
     exists a', f (sv_buffer p) a = Some (splice (sv_buffer p) (b + zlen x) m', a') /\ asdu_ptrs b a' s') ->
  exists p', on_asdu p k f = Some p' /\ publisher_rep p' link appId (<[k := s']> samples).
Proof.
  intros (Hz & Hsock & Hps & Hpl & Hat & Hptrs) Hk Hs Hs' Hm Hf.
  destruct (asdus_ptrs_lookup _ _ _ _ _ Hptrs Hk) as (pre & post & a & -> & <- & Ha & Hptr & Hupd).
  assert (zlen (sample_bytes s') = zlen (sample_bytes s)) as Hzs by (rewrite Hs, Hs', !zlen_app; lia).
  assert (zlen (samples_bytes (pre ++ s' :: post)) = zlen (samples_bytes (pre ++ s :: post))) as Hzz
    by (rewrite !samples_bytes_app, !samples_bytes_cons, !zlen_app; lia).
  assert (zlen (pre ++ s' :: post) = zlen (pre ++ s :: post)) as Hc by (rewrite !zlen_app, !zlen_cons; done).
  set (head := sv_header link appId (zlen (sv_apdu (pre ++ s :: post)) + 8) ++ apdu_head (zlen (pre ++ s :: post)) (zlen (samples_bytes (pre ++ s :: post)))).
  assert (forall s0, zlen (sample_bytes s0) = zlen (sample_bytes s) ->
    sv_frame link appId (pre ++ s0 :: post) = (head ++ samples_bytes pre) ++ sample_bytes s0 ++ samples_bytes post) as Hframe.
  { intros s0 H0. unfold sv_frame, head. rewrite !sv_apdu_head.
    replace (zlen (samples_bytes (pre ++ s0 :: post))) with (zlen (samples_bytes (pre ++ s :: post))) by (rewrite !samples_bytes_app, !samples_bytes_cons, !zlen_app; lia).
    replace (zlen (pre ++ s0 :: post)) with (zlen (pre ++ s :: post)) by (by rewrite !zlen_app, !zlen_cons).
    assert (zlen (samples_bytes (pre ++ s0 :: post)) = zlen (samples_bytes (pre ++ s :: post))) as Hq by (rewrite !samples_bytes_app, !samples_bytes_cons, !zlen_app; lia).
    rewrite !(zlen_app (apdu_head _ _)), Hq. rewrite !(samples_bytes_app pre), !(samples_bytes_cons _ post). list_norm. }
  set (b := zlen link + 10 + zlen (apdu_head (zlen (pre ++ s :: post)) (zlen (samples_bytes (pre ++ s :: post)))) + zlen (samples_bytes pre)) in *.
  assert (b = zlen (head ++ samples_bytes pre)) as Hb by (unfold b, head; rewrite !zlen_app, zlen_sv_header; lia).
  rewrite (Hframe s) in Hat by done. pose proof Hat as Hat'. apply at_pos_app in Hat' as [_ Hat']. apply at_pos_app in Hat' as [Hats _]. rewrite Z.add_0_l, <- Hb in Hats.
  destruct (Hf b a) as (a' & Hfa & Ha'); [rewrite Hb; apply zlen_nonneg | done | done |].
  unfold on_asdu. rewrite Ha. cbn [mbind option_bind]. rewrite Hfa. cbn [mbind option_bind]. eexists. split; [done|].
  rewrite (insert_middle pre). destruct p as [buf sock lf ps pl cnt asdus]. cbn [sv_buffer sv_asduList sv_payloadStart sv_payloadLength sv_ethernetSocket] in *.
  unfold publisher_rep. cbn [sv_with_asduList sv_with_buffer sv_buffer sv_asduList sv_payloadStart sv_payloadLength sv_ethernetSocket].
  pose proof (at_pos_bounds _ _ _ Hats) as [_ Hbb]. rewrite Hs, !zlen_app in Hbb. pose proof (zlen_nonneg x). pose proof (zlen_nonneg y). pose proof (zlen_nonneg (head ++ samples_bytes pre)).
  split; [rewrite zlen_splice; (done || lia)|]. split; [done|]. split; [done|].
  split; [rewrite Hpl, !sv_apdu_head, Hc, Hzz, !(zlen_app (apdu_head _ _)), Hzz; done|].
  rewrite Hc, Hzz. split; [|by apply Hupd]. rewrite (Hframe s') by done. rewrite Hs in Hat. rewrite Hs'.
  replace (b + zlen x) with (0 + zlen ((head ++ samples_bytes pre) ++ x)) by (rewrite Hb, (zlen_app _ x); lia).
  replace ((head ++ samples_bytes pre) ++ (x ++ m' ++ y) ++ samples_bytes post) with (((head ++ samples_bytes pre) ++ x) ++ m' ++ (y ++ samples_bytes post)) by list_norm.
  apply (at_pos_splice _ _ _ m); [|done].
  replace (((head ++ samples_bytes pre) ++ x) ++ m ++ (y ++ samples_bytes post)) with ((head ++ samples_bytes pre) ++ (x ++ m ++ y) ++ samples_bytes post) by list_norm.
  exact Hat.
Qed.

(** * The writes *)

Inductive SvWrite :=
| W_INT8 (index value : Z)
| W_INT32 (index value : Z)
| W_INT64 (index value : Z)
| W_FLOAT (index value : Z)
| W_FLOAT64 (index value : Z)
| W_Timestamp (index : Z) (value : list Z)
| W_Quality (index value : Z)
| W_SmpCnt (value : Z)
| W_SmpCntWrap (value : Z)
| W_IncreaseSmpCnt
| W_RefrTmNs (refrTmNs : Z)
| W_RefrTm (refrTm : Z)
| W_RefrTmByTimestamp (refrTm : list Z)
| W_SmpSynch (smpSynch : Z).

Definition write_publisher (w : SvWrite) : SVPublisher -> nat -> option SVPublisher :=
  match w with
  | W_INT8 i v => fun p k => SVPublisher_ASDU_setINT8 p k i v
  | W_INT32 i v => fun p k => SVPublisher_ASDU_setINT32 p k i v
  | W_INT64 i v => fun p k => SVPublisher_ASDU_setINT64 p k i v
  | W_FLOAT i v => fun p k => SVPublisher_ASDU_setFLOAT p k i v
  | W_FLOAT64 i v => fun p k => SVPublisher_ASDU_setFLOAT64 p k i v
  | W_Timestamp i v => fun p k => SVPublisher_ASDU_setTimestamp p k i v
  | W_Quality i v => fun p k => SVPublisher_ASDU_setQuality p k i v
  | W_SmpCnt v => fun p k => SVPublisher_ASDU_setSmpCnt p k v
  | W_SmpCntWrap v => fun p k => SVPublisher_ASDU_setSmpCntWrap p k v
  | W_IncreaseSmpCnt => SVPublisher_ASDU_increaseSmpCnt
  | W_RefrTmNs t => fun p k => SVPublisher_ASDU_setRefrTmNs p k t
  | W_RefrTm t => fun p k => SVPublisher_ASDU_setRefrTm p k t
  | W_RefrTmByTimestamp t => fun p k => SVPublisher_ASDU_setRefrTmByTimestamp p k t
  | W_SmpSynch v => fun p k => SVPublisher_ASDU_setSmpSynch p k v
  end.

(** the octets a time is sent as; the flags of the quality octet stay *)
Definition ns_octets (t : list Z) (ns : Z) : list Z :=
  time_bytes (ns / 1000000000) (ns_fraction (ns mod 1000000000)) (with_precision (nth 7 t 0) 20).
Definition ms_octets (t : list Z) (ms : Z) : list Z :=
  time_bytes (ms / 1000) (ms_fraction (ms mod 1000)) (with_precision (nth 7 t 0) 10).

(** the octets a value of the data is sent as, and their index *)
Definition data_octets (w : SvWrite) : option (Z * list Z) :=
  match w with
  | W_INT8 i v => Some (i, be_bytes 1 v)
  | W_INT32 i v | W_FLOAT i v => Some (i, be_bytes 4 v)
  | W_INT64 i v | W_FLOAT64 i v => Some (i, be_bytes 8 v)
  | W_Timestamp i v => Some (i, take 8 v)
  | W_Quality i v => Some (i, [0; 0; u8 (v / 0x100); u8 (v mod 0x100)])
  | _ => None
  end.

Definition write_refrTm (f : list Z -> list Z) (s : SvSample) : SvSample :=
  match sp_refrTm s with Some t => sp_with_refrTm s (f t) | None => s end.

Definition write_sample (w : SvWrite) (s : SvSample) : SvSample :=
  match data_octets w with
  | Some (i, bs) => sp_with_data s (splice (sp_data s) i bs)
  | None =>
      match w with
      | W_SmpCnt v => sp_with_smpCnt s v
      | W_SmpCntWrap v => sp_with_smpCntLimit s v
      | W_IncreaseSmpCnt => sp_with_smpCnt s (u16 (Z.rem (sp_smpCnt s + 1) (sp_smpCntLimit s)))
      | W_RefrTmNs ns => write_refrTm (fun t => ns_octets t ns) s
      | W_RefrTm ms => write_refrTm (fun t => ms_octets t ms) s
      | W_RefrTmByTimestamp t' => write_refrTm (fun _ => take 8 t') s
      | W_SmpSynch v => sp_with_smpSynch s (u8 v)
      | _ => s
      end
  end.

(** the index lies in the data; the counter has a limit; a time stamp has its size *)
Definition write_ok (w : SvWrite) (s : SvSample) : Prop :=
  match w with
  | W_IncreaseSmpCnt => sp_smpCntLimit s <> 0
  | W_Timestamp _ v | W_RefrTmByTimestamp v => 8 <= zlen v
  | _ => True
  end /\
  match data_octets w with Some (i, bs) => 0 <= i /\ i + zlen bs <= zlen (sp_data s) | None => True end.

(** ** Values of the data *)

Lemma asdu_ptrs_data b a s d : zlen d = zlen (sp_data s) -> asdu_ptrs b a s -> asdu_ptrs b a (sp_with_data s d).
Proof.
  intros Hd (Hok & H1 & H2 & H3 & H4 & H5 & H6 & H7). destruct (split_data s Hok) as (x & y & _ & Hsp).
  assert (zlen (sample_content (sp_with_data s d)) = zlen (sample_content s)) as Hc.
  { unfold sample_content, sample_fields. destruct s. cbn -[fields_front] in *. fields_len. rewrite Hd. done. }
  unfold asdu_ptrs, pos_data, pos_smpSynch, pos_refrTm, pos_smpCnt, head_width in *. rewrite Hc.
  destruct s. cbn in *. rewrite Hd. done.
Qed.

Lemma splice_decompose d i bs :
  0 <= i -> i + zlen bs <= zlen d -> exists x m y, d = x ++ m ++ y /\ zlen x = i /\ zlen m = zlen bs /\ splice d i bs = x ++ bs ++ y.
Proof.
  intros Hi Hf. pose proof (zlen_nonneg bs). destruct (at_pos_exists d i (zlen bs)) as (m & (x & y & Hd & Hx) & Hm); [lia..|].
  exists x, m, y. split_and!; [done..|]. rewrite Hd. unfold splice.
  assert (Z.to_nat i = length x) as -> by (unfold zlen in Hx; lia). rewrite take_app_length.
  replace (length x + length bs)%nat with (length (x ++ m)) by (rewrite length_app; unfold zlen in Hm; lia).
  by rewrite (app_assoc x m y), drop_app_length.
Qed.

Lemma set_value_rep p link appId samples k s write i bs :
  publisher_rep p link appId samples -> samples !! k = Some s -> (forall buffer pos, write buffer pos = puts bs buffer pos) ->
  0 <= i -> i + zlen bs <= zlen (sp_data s) ->
  exists p', set_value write p k i = Some p' /\ publisher_rep p' link appId (<[k := sp_with_data s (splice (sp_data s) i bs)]> samples).
Proof.
  intros Hrep Hk Hw Hi Hf. pose proof Hrep as (Hz & _ & _ & _ & _ & Hptrs).
  destruct (asdus_ptrs_lookup _ _ _ _ _ Hptrs Hk) as (_ & _ & _ & _ & _ & _ & (Hok & _) & _).
  destruct (split_data s Hok) as (x & y & Hx & Hsp). destruct (splice_decompose (sp_data s) i bs Hi Hf) as (d1 & m & d2 & Hd & Hd1 & Hm & Hspl).
  assert (zlen (splice (sp_data s) i bs) = zlen (sp_data s)) as Hzd by (by apply zlen_splice).
  apply (on_asdu_rep p link appId samples k s _ _ (x ++ d1) m bs (d2 ++ y)); [done | done | | | done |].
  - pose proof (Hsp (sp_data s) eq_refl) as H. replace (sp_with_data s (sp_data s)) with s in H by (by destruct s). rewrite H, Hd. list_norm.
  - rewrite (Hsp _ Hzd), Hspl. list_norm.
  - intros b a Hb Hat Hptr. pose proof Hptr as (_ & _ & _ & _ & _ & _ & _ & Hdb). exists a. split; [|by apply asdu_ptrs_data].
    rewrite Hdb. cbn [mbind option_bind]. pose proof (at_pos_bounds _ _ _ Hat) as [_ Hbb].
    pose proof (Hsp (sp_data s) eq_refl) as H. replace (sp_with_data s (sp_data s)) with s in H by (by destruct s). rewrite H, !zlen_app in Hbb.
    pose proof (zlen_nonneg x). pose proof (zlen_nonneg y). rewrite Hw, puts_fits by lia. cbn [mbind option_bind]. rewrite zlen_app, Hx, Hd1.
    do 3 f_equal. lia.
Qed.

Lemma copy_loop_take n v buffer pos : Z.of_nat n <= zlen v -> copy_loop n v 0 buffer pos = puts (take n v) buffer pos.
Proof. intros H. pose proof (copy_loop_all v (Z.of_nat n) buffer pos) as Hc. rewrite Nat2Z.id in Hc. apply Hc. lia. Qed.

Lemma revert_le_bytes n v : BerEncoder_revertByteOrder (le_bytes n v) (Z.of_nat n) = Some (be_bytes n v).
Proof. rewrite <- (zlen_le_bytes n v). apply revertByteOrder_all. Qed.

Lemma write_data_rep p link appId samples k s w i bs :
  publisher_rep p link appId samples -> samples !! k = Some s -> write_ok w s -> data_octets w = Some (i, bs) ->
  exists p', write_publisher w p k = Some p' /\ publisher_rep p' link appId (<[k := write_sample w s]> samples).
Proof.
  intros Hrep Hk Hok Hw. unfold write_sample. pose proof Hok as [Hok1 Hok2]. rewrite Hw in *. destruct Hok2 as [Hi Hf].
  destruct w; cbn in Hw; simplify_eq; cbn [write_publisher].
  - apply set_value_rep; [done..|intros; by rewrite <- puts_one | done | done].
  - by apply set_value_rep.
  - by apply set_value_rep.
  - unfold SVPublisher_ASDU_setFLOAT. rewrite (revert_le_bytes 4). cbn [mbind option_bind]. apply set_value_rep; [done..| | done | done]. intros. by rewrite copy_loop_take.
  - unfold SVPublisher_ASDU_setFLOAT64. rewrite (revert_le_bytes 8). cbn [mbind option_bind]. apply set_value_rep; [done..| | done | done]. intros. by rewrite copy_loop_take.
  - unfold SVPublisher_ASDU_setTimestamp. apply set_value_rep; [done..| | done | done]. intros. by rewrite copy_loop_take.
  - by apply set_value_rep.
Qed.

(** ** The other fields *)

(** the sample a publisher stands for at an index is well-formed *)
Lemma rep_sample_ok p link appId samples k s : publisher_rep p link appId samples -> samples !! k = Some s -> sample_ok s.
Proof.
  intros (_ & _ & _ & _ & _ & Hptrs) Hk. by destruct (asdus_ptrs_lookup _ _ _ _ _ Hptrs Hk) as (_ & _ & _ & _ & _ & _ & (Hok & _) & _).
Qed.

Lemma asdu_ptrs_smpCnt b a s v : asdu_ptrs b a s -> asdu_ptrs b (as_with_smpCnt a v) (sp_with_smpCnt s v).
Proof.
  assert (zlen (sample_content (sp_with_smpCnt s v)) = zlen (sample_content s)) as Hc by (unfold sample_content, sample_fields; destruct s; cbn -[fields_front]; fields_len; done).
  unfold asdu_ptrs, pos_data, pos_smpSynch, pos_refrTm, pos_smpCnt, head_width. rewrite Hc. destruct s, a. cbn. tauto.
Qed.

Lemma asdu_ptrs_smpSynch b a s v : asdu_ptrs b a s -> asdu_ptrs b (as_with_smpSynch a v) (sp_with_smpSynch s v).
Proof.
  assert (zlen (sample_content (sp_with_smpSynch s v)) = zlen (sample_content s)) as Hc by (unfold sample_content, sample_fields; destruct s; cbn -[fields_front]; fields_len; done).
  unfold asdu_ptrs, pos_data, pos_smpSynch, pos_refrTm, pos_smpCnt, head_width. rewrite Hc. destruct s, a. cbn. tauto.
Qed.

Lemma asdu_ptrs_hasRefrTm b a s : asdu_ptrs b a s -> asdu_ptrs b (as_with_hasRefrTm a) s.
Proof. unfold asdu_ptrs. destruct a. cbn. tauto. Qed.

Lemma asdu_ptrs_refrTm b a s t t' : sp_refrTm s = Some t -> zlen t = 8 -> zlen t' = 8 -> asdu_ptrs b a s -> asdu_ptrs b a (sp_with_refrTm s t').
Proof.
  intros Hrt Ht Ht'.
  assert (zlen (sample_content (sp_with_refrTm s t')) = zlen (sample_content s)) as Hc.
  { unfold sample_content, sample_fields. rewrite Hrt. destruct s. cbn -[fields_front]. fields_len. cbn [fmap option_fmap option_map]. by rewrite Ht, Ht'. }
  unfold asdu_ptrs, sample_ok, pos_data, pos_smpSynch, pos_refrTm, pos_smpCnt, head_width. rewrite Hc, Hrt. destruct s. cbn.
  intros ((_ & Hg) & H). split; [|done]. split; [by intros ? [= <-] | done].
Qed.

Lemma store_smpCnt_rep p link appId samples k s v f :
  publisher_rep p link appId samples -> samples !! k = Some s ->
  (forall b a, asdu_ptrs b a s -> f (sv_buffer p) a = store_smpCnt v (sv_buffer p) a) ->
  exists p', on_asdu p k f = Some p' /\ publisher_rep p' link appId (<[k := sp_with_smpCnt s v]> samples).
Proof.
  intros Hrep Hk Hf. destruct (split_smpCnt s) as (x & y & Hx & Hsp). pose proof (Hsp (sp_smpCnt s)) as H.
  replace (sp_with_smpCnt s (sp_smpCnt s)) with s in H by (by destruct s).
  apply (on_asdu_rep p link appId samples k s _ _ x (be_bytes 2 (sp_smpCnt s)) (be_bytes 2 v) y); [done | done | done | done | by rewrite !zlen_be_bytes|].
  intros b a Hb Hat Hptr. exists (as_with_smpCnt a v). split; [|by apply asdu_ptrs_smpCnt]. rewrite (Hf b a Hptr). unfold store_smpCnt.
  pose proof Hptr as (_ & _ & _ & _ & Hcb & _). assert (as_smpCntBuf (as_with_smpCnt a v) = Some (b + pos_smpCnt s)) as -> by (by destruct a).
  assert (as_smpCnt (as_with_smpCnt a v) = v) as -> by (by destruct a). rewrite encodeUInt16_puts.
  pose proof (at_pos_bounds _ _ _ Hat) as [_ Hbb]. rewrite H, !zlen_app in Hbb. pose proof (zlen_nonneg x). pose proof (zlen_nonneg y).
  rewrite zlen_be_bytes in Hbb. rewrite puts_fits by (rewrite ?zlen_be_bytes; lia). cbn [mbind option_bind]. by rewrite Hx.
Qed.

Lemma smpSynch_rep p link appId samples k s v :
  publisher_rep p link appId samples -> samples !! k = Some s ->
  exists p', SVPublisher_ASDU_setSmpSynch p k v = Some p' /\ publisher_rep p' link appId (<[k := sp_with_smpSynch s (u8 v)]> samples).
Proof.
  intros Hrep Hk. destruct (split_smpSynch s (rep_sample_ok _ _ _ _ _ _ Hrep Hk)) as (x & y & Hx & Hsp). pose proof (Hsp (sp_smpSynch s)) as H.
  replace (sp_with_smpSynch s (sp_smpSynch s)) with s in H by (by destruct s).
  apply (on_asdu_rep p link appId samples k s _ _ x [sp_smpSynch s] [u8 v] y); [done..|].
  intros b a Hb Hat Hptr. exists (as_with_smpSynch a (u8 v)). split; [|by apply asdu_ptrs_smpSynch]. cbv beta zeta.
  pose proof Hptr as (_ & _ & _ & _ & _ & _ & Hsb & _). assert (as_smpSynchBuf (as_with_smpSynch a (u8 v)) = Some (b + pos_smpSynch s)) as -> by (by destruct a).
  assert (as_smpSynch (as_with_smpSynch a (u8 v)) = u8 v) as -> by (by destruct a). cbn [mbind option_bind].
  pose proof (at_pos_bounds _ _ _ Hat) as [_ Hbb]. rewrite H, !zlen_app, zlen_cons, zlen_nil in Hbb. pose proof (zlen_nonneg x). pose proof (zlen_nonneg y).
  pose proof (puts_fits [u8 v] (sv_buffer p) (b + pos_smpSynch s) ltac:(lia) ltac:(change (zlen [u8 v]) with 1; lia)) as Hput.
  cbn [puts] in Hput. unfold put in Hput. destruct (st (sv_buffer p) (b + pos_smpSynch s) (u8 v)) as [b'|]; [|done]. cbn [mbind option_bind] in *.
  injection Hput as ->. by rewrite Hx.
Qed.

Lemma refrTm_rep p link appId samples k s (f : list Z -> option (list Z)) (g : list Z -> list Z) :
  publisher_rep p link appId samples -> samples !! k = Some s ->
  (forall t rest, zlen t = 8 -> f (t ++ rest) = Some (g t ++ rest) /\ zlen (g t) = 8) ->
  exists p', on_refrTm f p k = Some p' /\ publisher_rep p' link appId (<[k := write_refrTm g s]> samples).
Proof.
  intros Hrep Hk Hf. pose proof (rep_sample_ok _ _ _ _ _ _ Hrep Hk) as Hok. unfold write_refrTm, on_refrTm. destruct (sp_refrTm s) as [t|] eqn:Ert.
  - destruct (split_refrTm s t Hok Ert) as (x & y & Hx & Hsp). pose proof (proj1 Hok _ Ert) as Ht. pose proof (Hsp t Ht) as H.
    replace (sp_with_refrTm s t) with s in H by (destruct s; cbn in *; by rewrite Ert). destruct (Hf t [] Ht) as [_ Hg].
    apply (on_asdu_rep p link appId samples k s _ _ x t (g t) y); [done | done | done | by apply Hsp | lia |].
    intros b a Hb Hat Hptr. exists (as_with_hasRefrTm a). split; [|apply asdu_ptrs_hasRefrTm; by apply (asdu_ptrs_refrTm _ _ _ t)]. cbv beta zeta.
    pose proof Hptr as (_ & _ & _ & _ & _ & Hr & _). rewrite Ert in Hr. assert (as_refrTm (as_with_hasRefrTm a) = Some (b + pos_refrTm s)) as -> by (by destruct a).
    rewrite H in Hat. apply at_pos_app in Hat as [_ Hat]. apply at_pos_app in Hat as [Hat _]. rewrite Hx in *.
    pose proof (at_pos_bounds _ _ _ Hat) as [H1 H2]. unfold on_ptr. if_true. destruct Hat as (pre & post & Hbuf & Hpre). rewrite Hbuf, <- Hpre, !zlen_to_nat.
    rewrite drop_app_length, take_app_length. destruct (Hf t post Ht) as [-> _]. cbn [mbind option_bind]. do 2 f_equal.
    unfold splice. rewrite zlen_to_nat, take_app_length. replace (length pre + length (g t))%nat with (length (pre ++ t)) by (rewrite length_app; unfold zlen in *; lia).
    by rewrite (app_assoc pre t post), drop_app_length.
  - apply (on_asdu_rep p link appId samples k s s _ [] [] [] (sample_bytes s)); [done..|].
    intros b a Hb Hat Hptr. exists (as_with_hasRefrTm a). split; [|by apply asdu_ptrs_hasRefrTm]. cbv beta zeta.
    pose proof Hptr as (_ & _ & _ & _ & _ & Hr & _). rewrite Ert in Hr. assert (as_refrTm (as_with_hasRefrTm a) = None) as -> by (by destruct a).
    by rewrite splice_nil.
Qed.

Lemma zlen_8_nth (t : list Z) : zlen t = 8 -> exists a b c d e f g h, t = [a; b; c; d; e; f; g; h].
Proof.
  unfold zlen. destruct t as [|? [|? [|? [|? [|? [|? [|? [|? [|? ?]]]]]]]]]; cbn; intros; try lia. by repeat eexists.
Qed.

Lemma ns_octets_spec ns t rest :
  zlen t = 8 -> (t ← Timestamp_setTimeInNanoseconds (t ++ rest) ns; Timestamp_setSubsecondPrecision t 20) = Some (ns_octets t ns ++ rest) /\ zlen (ns_octets t ns) = 8.
Proof.
  intros Ht. destruct (zlen_8_nth t Ht) as (a & b & c & d & e & f & g & h & ->). cbn [app]. rewrite setTimeInNanoseconds_spec. cbn [mbind option_bind].
  unfold ns_octets, time_bytes. rewrite be_bytes_4_eq, be_bytes_3_eq. cbn [app]. rewrite set_precision. done.
Qed.

Lemma ms_octets_spec ms t rest :
  zlen t = 8 -> (t ← Timestamp_setTimeInMilliseconds (t ++ rest) ms; Timestamp_setSubsecondPrecision t 10) = Some (ms_octets t ms ++ rest) /\ zlen (ms_octets t ms) = 8.
Proof.
  intros Ht. destruct (zlen_8_nth t Ht) as (a & b & c & d & e & f & g & h & ->). cbn [app]. rewrite setTimeInMilliseconds_spec. cbn [mbind option_bind].
  unfold ms_octets, time_bytes. rewrite be_bytes_4_eq, be_bytes_3_eq. cbn [app]. rewrite set_precision. done.
Qed.

(** Every write of the application is the write of the sample. *)
Lemma write_rep p link appId samples k s w :
  publisher_rep p link appId samples -> samples !! k = Some s -> write_ok w s ->
  exists p', write_publisher w p k = Some p' /\ publisher_rep p' link appId (<[k := write_sample w s]> samples).
Proof.
  intros Hrep Hk Hok. destruct (data_octets w) as [[i bs]|] eqn:Ew; [by apply (write_data_rep p link appId samples k s w i bs)|].
  unfold write_sample. rewrite Ew. destruct w; try done; cbn [write_publisher].
  - by apply store_smpCnt_rep.
  - apply (on_asdu_rep p link appId samples k s _ _ [] [] [] (sample_bytes s)); [done | done | done | by destruct s | done|].
    intros b a Hb Hat Hptr. eexists. rewrite splice_nil. split; [done|]. revert Hptr. unfold asdu_ptrs. destruct s, a. cbn. tauto.
  - apply store_smpCnt_rep; [done..|]. intros b a (_ & -> & -> & _). destruct Hok as [Hl _]. by replace (sp_smpCntLimit s =? 0) with false by lia.
  - apply refrTm_rep; [done..|]. intros. by apply ns_octets_spec.
  - apply refrTm_rep; [done..|]. intros. by apply ms_octets_spec.
  - destruct Hok as [Hz _]. apply refrTm_rep; [done..|]. intros t rest Ht. rewrite ld_range_Some by lia. cbn [mbind option_bind].
    change (Z.to_nat 0) with O. rewrite drop_0. change (Z.to_nat 8) with 8%nat. pose proof (zlen_take refrTm 8 ltac:(lia)) as H8. change (Z.to_nat 8) with 8%nat in H8.
    split; [|done]. pose proof (zlen_nonneg rest). rewrite st_range_front by (rewrite zlen_app; lia). f_equal. f_equal.
    replace (length (take 8 refrTm)) with (length t) by (unfold zlen in *; lia). by rewrite drop_app_length.
  - by apply smpSynch_rep.
Qed.
