(* ===== verification/SvRoundtrip.v ===== *)
(** Frames of the publisher at the receiver: every sample reaches the listener, once
    and in order, and reading it returns what was published. *)

From S2P Require Import Prelude BerEncoder BerDecoder BerInteger StringUtils CFloat MmsValue MmsFacts MmsData GoosePublisher GooseSubscriber GooseReceiver GooseSafety GooseRoundtrip IecCommon SvPublisher SvLayout SvSetup SvRefine SvSubscriber SvSafety.
Open Scope Z_scope.

(** * The parser on the fields of a sample *)

Lemma at_pos_ptr_off buf base pos bs :
  0 <= base -> 0 <= pos -> at_pos buf (base + pos) bs -> at_pos (ptr_add buf base) pos bs.
Proof.
  intros Hb Hp (pre & post & -> & Hz). unfold ptr_add. exists (drop (Z.to_nat base) pre), post.
  split; [|rewrite zlen_drop; lia]. rewrite drop_app_le; [done|]. unfold zlen in Hz. lia.
Qed.

(** what the loop makes of a run of fields that starts at [p] *)
Fixpoint fields_fold (f : AsduFields) (p : Z) (fs : list (Z * list Z)) : AsduFields :=
  match fs with
  | [] => f
  | (t, c) :: fs => fields_fold (asdu_field f t (p + 1 + zlen (ber_length (zlen c))) (zlen c)) (p + 1 + zlen (ber_length (zlen c)) + zlen c) fs
  end.

Lemma asdu_loop_fields fs : forall fuel f buffer base pos n,
  0 <= base -> 0 <= pos -> at_pos buffer (base + pos) (fields_bytes fs) -> n = pos + zlen (fields_bytes fs) -> n < 16777216 ->
  (length fs < fuel)%nat -> asdu_loop fuel f buffer base pos n = Some (Some (fields_fold f (base + pos) fs)).
Proof.
  induction fs as [|[t c] fs IH]; intros fuel f buffer base pos n Hb Hp Hat Hn Hs Hfuel; (destruct fuel as [|fuel]; [cbn in Hfuel; lia|]); cbn [asdu_loop].
  - change (zlen (fields_bytes [])) with 0 in Hn. by if_false.
  - rewrite zlen_fields_bytes_cons in Hn. pose proof (zlen_nonneg (fields_bytes fs)). pose proof (zlen_nonneg c). pose proof (zlen_ber_length_bounds (zlen c)).
    rewrite zlen_ber_tlv in Hn. if_true. rewrite fields_bytes_cons in Hat. pose proof Hat as Hat2. apply at_pos_app in Hat as [Hat _].
    apply at_pos_ptr_off in Hat; [|done..].
    destruct (element_at (ptr_add buffer base) 0 pos n t c Hat) as (-> & -> & _); [lia | rewrite zlen_ber_tlv; lia|]. cbn [mbind option_bind]. if_false.
    apply at_pos_app in Hat2 as [_ Hat2]. rewrite zlen_ber_tlv in Hat2. rewrite IH; [| lia | lia | | lia | lia | cbn in Hfuel; lia].
    + cbn [fields_fold]. rewrite !Z.add_assoc. done.
    + replace (base + (pos + 1 + zlen (ber_length (zlen c)) + zlen c)) with (base + pos + (1 + zlen (ber_length (zlen c)) + zlen c)) by lia. done.
Qed.

(** * A sample that was delivered *)

(** a pointer to the bytes [c], or null *)
Definition field_is (buffer : list Z) (p : option Z) (c : option (list Z)) : Prop :=
  match c with Some c => exists q, p = Some q /\ at_pos buffer q c | None => p = None end.

Definition asdu_is (buffer : list Z) (a : SVSubscriber_ASDU) (s : SvSample) : Prop :=
  field_is buffer (sa_svId a) (Some (sp_svId s ++ [0])) /\
  field_is buffer (sa_datSet a) ((fun d => d ++ [0]) <$> sp_datSet s) /\
  field_is buffer (sa_smpCnt a) (Some (be_bytes 2 (sp_smpCnt s))) /\
  field_is buffer (sa_confRev a) (Some (be_bytes 4 (sp_confRev s))) /\
  field_is buffer (sa_refrTm a) (sp_refrTm s) /\
  field_is buffer (sa_smpSynch a) (Some [sp_smpSynch s]) /\
  field_is buffer (sa_smpRate a) (be_bytes 2 <$> sp_smpRate s) /\
  field_is buffer (sa_smpMod a) (be_bytes 2 <$> sp_smpMod s) /\
  field_is buffer (sa_dataBuffer a) (Some (sp_data s)) /\ sa_dataBufferLength a = zlen (sp_data s).

(** a fold over fields with other tags keeps a member *)
Definition front_fields (s : SvSample) (base : Z) : AsduFields := fields_fold noFields base (fields_front s).

Definition back_fields (s : SvSample) : list (Z * list Z) :=
  field_confRev s ++ opt_field 0x84 (sp_refrTm s) ++ (0x85, [sp_smpSynch s]) :: field_smpRate s ++ (0x87, sp_data s) :: fields_back s.

Lemma sample_fields_parts s : sample_fields s = fields_front s ++ (0x82, be_bytes 2 (sp_smpCnt s)) :: back_fields s.
Proof. done. Qed.

Lemma fields_fold_app f p fs gs : fields_fold f p (fs ++ gs) = fields_fold (fields_fold f p fs) (p + zlen (fields_bytes fs)) gs.
Proof.
  revert f p. induction fs as [|[t c] fs IH]; intros f p; cbn [fields_fold app]; [by rewrite Z.add_0_r|].
  rewrite IH, zlen_fields_bytes_cons, zlen_ber_tlv. f_equal. lia.
Qed.

(** the fields from the revision of the configuration on *)
Lemma back_fields_is buffer s sv ds sc p sl dl :
  at_pos buffer p (fields_bytes (back_fields s)) ->
  exists a, fields_fold (mkAsduFields (mkSVSubscriber_ASDU sv ds sc None None None None None 0 None) sl dl) p (back_fields s) = mkAsduFields a sl dl /\
    sa_svId a = sv /\ sa_datSet a = ds /\ sa_smpCnt a = sc /\
    field_is buffer (sa_confRev a) (Some (be_bytes 4 (sp_confRev s))) /\
    field_is buffer (sa_refrTm a) (sp_refrTm s) /\
    field_is buffer (sa_smpSynch a) (Some [sp_smpSynch s]) /\
    field_is buffer (sa_smpRate a) (be_bytes 2 <$> sp_smpRate s) /\
    field_is buffer (sa_smpMod a) (be_bytes 2 <$> sp_smpMod s) /\
    field_is buffer (sa_dataBuffer a) (Some (sp_data s)) /\ sa_dataBufferLength a = zlen (sp_data s).
Proof.
  unfold back_fields, field_confRev, field_smpRate, fields_back. intros Hat.
  destruct (sp_refrTm s), (sp_smpRate s), (sp_smpMod s), (sp_gmIdentity s); cbn [opt_field fmap option_fmap option_map app] in *;
    (eexists; split; [cbn [fields_fold]; unfold asdu_field; cbn [Z.eqb Pos.eqb]; reflexivity|]);
    cbn [sa_svId sa_datSet sa_smpCnt sa_confRev sa_refrTm sa_smpSynch sa_smpRate sa_smpMod sa_dataBuffer sa_dataBufferLength];
    repeat (rewrite fields_bytes_cons in Hat; unfold ber_tlv in Hat; rewrite <- app_comm_cons, <- app_assoc in Hat;
      apply at_pos_cons in Hat as [_ Hat]; apply at_pos_app in Hat as [_ Hat];
      let H := fresh "Hc" in apply at_pos_app in Hat as [H Hat]);
    (split_and!; [done | done | done | ..]); cbn [field_is fmap option_fmap option_map]; first [reflexivity | eexists; split; [reflexivity | assumption]].
Qed.

Lemma st_at buf pos x b y v :
  at_pos buf pos (x ++ b :: y) ->
  exists buf', st buf (pos + zlen x) v = Some buf' /\ at_pos buf' pos (x ++ v :: y) /\ zlen buf' = zlen buf.
Proof.
  intros (pre & post & -> & <-). pose proof (zlen_nonneg pre). pose proof (zlen_nonneg x). pose proof (zlen_nonneg y). pose proof (zlen_nonneg post).
  rewrite st_Some by zlia. eexists. split; [done|]. split; [|by rewrite zlen_insert]. exists pre, post. split; [|done].
  replace (Z.to_nat (zlen pre + zlen x)) with (length (pre ++ x)) by (rewrite length_app; unfold zlen; lia).
  replace (pre ++ (x ++ b :: y) ++ post) with ((pre ++ x) ++ b :: y ++ post) by list_norm. rewrite insert_middle. list_norm.
Qed.

(** the bytes of a sample once its strings are terminated *)
Definition terminated_front (s : SvSample) : list Z :=
  (0x80 :: ber_length (zlen (sp_svId s))) ++ sp_svId s ++ [0] ++
  match sp_datSet s with Some d => ber_length (zlen d) ++ d ++ [0] | None => [] end.

(** the fields in front of the counter, and the two terminators *)
Lemma terminate_front buffer base s rest :
  at_pos buffer base (fields_bytes (fields_front s) ++ 0x82 :: rest) ->
  exists sv ds sl dl buffer' buffer'',
    fields_fold noFields base (fields_front s) = mkAsduFields (mkSVSubscriber_ASDU (Some sv) ds None None None None None None 0 None) sl dl /\
    terminate buffer (Some sv) sl = Some buffer' /\ terminate buffer' ds dl = Some buffer'' /\ zlen buffer'' = zlen buffer /\
    at_pos buffer'' base (terminated_front s ++ rest) /\ zlen (terminated_front s) = zlen (fields_bytes (fields_front s)) + 1 /\
    field_is buffer'' (Some sv) (Some (sp_svId s ++ [0])) /\ field_is buffer'' ds ((fun d => d ++ [0]) <$> sp_datSet s).
Proof.
  intros Hat. unfold fields_front, terminated_front in *. set (l1 := 0x80 :: ber_length (zlen (sp_svId s))).
  rewrite fields_bytes_cons in *. unfold ber_tlv in Hat |- *. rewrite app_comm_cons in *. fold l1 in Hat |- *.
  assert (base + 1 + zlen (ber_length (zlen (sp_svId s))) = base + zlen l1) as Hl1 by (unfold l1; rewrite zlen_cons; lia).
  destruct (sp_datSet s) as [d|]; cbn [opt_field fields_fold fmap option_fmap option_map field_is] in Hat |- *.
  - set (l2 := ber_length (zlen d)). rewrite fields_bytes_cons in *. change (fields_bytes []) with (@nil Z) in *.
    unfold ber_tlv in Hat |- *. fold l2 in Hat |- *. unfold asdu_field. cbn [Z.eqb Pos.eqb noFields]. do 4 eexists.
    rewrite (app_nil_r (129 :: l2 ++ d)) in *.
    assert (at_pos buffer base ((l1 ++ sp_svId s) ++ 129 :: l2 ++ d ++ 130 :: rest)) as Hat1 by (revert Hat; by repeat (rewrite <- app_assoc || rewrite <- app_comm_cons)).
    destruct (st_at buffer base _ _ _ 0 Hat1) as (b1 & Hst1 & Hat2 & Hz1).
    assert (at_pos b1 base ((l1 ++ sp_svId s ++ 0 :: l2 ++ d) ++ 130 :: rest)) as Hat3 by (revert Hat2; by repeat (rewrite <- app_assoc || rewrite <- app_comm_cons)).
    destruct (st_at b1 base _ _ _ 0 Hat3) as (b2 & Hst2 & Hat4 & Hz2). exists b1, b2. split; [done|]. cbn [terminate]. fold l2. rewrite Hl1.
    split; [by rewrite <- Hst1, zlen_app, Z.add_assoc|].
    split; [rewrite <- Hst2; f_equal; rewrite !zlen_app, zlen_cons, zlen_app; lia|]. split; [congruence|].
    split; [revert Hat4; cbn [app]; by repeat (rewrite <- app_assoc || rewrite <- app_comm_cons)|]. split; [cbn [app]; zlen; lia|].
    assert (at_pos b2 base (l1 ++ (sp_svId s ++ [0]) ++ l2 ++ (d ++ [0]) ++ rest)) as Hat5 by (revert Hat4; cbn [app]; by repeat (rewrite <- app_assoc || rewrite <- app_comm_cons)).
    apply at_pos_app in Hat5 as [_ Hat5]. apply at_pos_app in Hat5 as [Ha Hat5]. apply at_pos_app in Hat5 as [_ Hat5]. apply at_pos_app in Hat5 as [Hb _].
    split; [by eexists|]. eexists. split; [done|]. revert Hb. rewrite zlen_app, zlen_cons, zlen_nil.
    by replace (base + zlen l1 + (zlen (sp_svId s) + (1 + 0)) + zlen l2) with (base + zlen l1 + zlen (sp_svId s) + 1 + zlen l2) by lia.
  - change (fields_bytes []) with (@nil Z) in *. unfold asdu_field. cbn [Z.eqb Pos.eqb noFields]. do 4 eexists. rewrite !app_nil_r in *.
    destruct (st_at buffer base _ _ _ 0 Hat) as (b1 & Hst1 & Hat2 & Hz1). exists b1, b1. split; [done|]. cbn [terminate]. rewrite Hl1.
    split; [by rewrite <- Hst1, zlen_app, Z.add_assoc|]. split; [done|]. split; [done|].
    split; [revert Hat2; cbn [app]; by repeat (rewrite <- app_assoc || rewrite <- app_comm_cons)|]. split; [zlen; lia|]. split; [|done].
    eexists. split; [done|]. assert (at_pos b1 base (l1 ++ (sp_svId s ++ [0]) ++ rest)) as Hat3 by (revert Hat2; cbn [app]; by repeat (rewrite <- app_assoc || rewrite <- app_comm_cons)).
    apply at_pos_app in Hat3 as [_ Hat3]. by apply at_pos_app in Hat3 as [Ha _].
Qed.

Lemma parseASDU_sample k buffer base s rest :
  0 <= base -> at_pos buffer base (sample_content s ++ rest) -> zlen (sample_content s) < 16777216 ->
  exists buffer' a, parseASDU k true buffer base (zlen (sample_content s)) = Some (buffer', [mkSVUpdate k a buffer']) /\
    asdu_is buffer' a s /\ zlen buffer' = zlen buffer /\ at_pos buffer' (base + zlen (sample_content s)) rest.
Proof.
  intros Hb Hat Hs. pose proof Hat as Hat0. apply at_pos_app in Hat0 as [Hat0 _]. unfold parseASDU.
  rewrite (asdu_loop_fields (sample_fields s)); [|lia | lia | by rewrite Z.add_0_r | done | done |].
  2: { assert (forall fs, (length fs <= length (fields_bytes fs))%nat) as Hl.
       { intros fs. induction fs as [|[t c] fs IH]; [done|]. rewrite fields_bytes_cons, length_app. unfold ber_tlv. cbn. lia. }
       specialize (Hl (sample_fields s)). unfold sample_content, zlen. lia. }
  cbn [mbind option_bind]. rewrite Z.add_0_r. set (c := be_bytes 2 (sp_smpCnt s)).
  assert (sample_content s = fields_bytes (fields_front s) ++ 0x82 :: 2 :: c ++ fields_bytes (back_fields s)) as Hc.
  { unfold sample_content. rewrite sample_fields_parts, fields_bytes_app, fields_bytes_cons. fold c. unfold ber_tlv. change (ber_length (zlen c)) with [2]. list_norm. }
  rewrite Hc in Hat. rewrite sample_fields_parts, fields_fold_app. fold c.
  assert (at_pos buffer base (fields_bytes (fields_front s) ++ 130 :: 2 :: c ++ fields_bytes (back_fields s) ++ rest)) as Hat1
    by (revert Hat; by repeat (rewrite <- app_assoc || rewrite <- app_comm_cons)).
  destruct (terminate_front buffer base s _ Hat1) as (sv & ds & sl & dl & b1 & b2 & Hfold & Ht1 & Ht2 & Hz & Hat2 & Hzt & Hsv & Hds).
  rewrite Hfold. cbn [fields_fold]. unfold asdu_field. cbn [Z.eqb Pos.eqb]. change (zlen (ber_length (zlen c))) with 1. change (zlen c) with 2.
  set (q := base + zlen (fields_bytes (fields_front s))) in *.
  apply at_pos_app in Hat2 as [_ Hat2]. rewrite Hzt in Hat2. apply at_pos_cons in Hat2 as [_ Hat2]. apply at_pos_app in Hat2 as [Hcnt Hat2].
  apply at_pos_app in Hat2 as [Hback Hrest]. change (zlen c) with 2 in Hback, Hrest.
  replace (base + (zlen (fields_bytes (fields_front s)) + 1) + 1 + 2) with (q + 1 + 1 + 2) in Hback, Hrest by (unfold q; lia).
  replace (base + (zlen (fields_bytes (fields_front s)) + 1) + 1) with (q + 1 + 1) in Hcnt by (unfold q; lia).
  destruct (back_fields_is b2 s (Some sv) ds (Some (q + 1 + 1)) (q + 1 + 1 + 2) sl dl Hback) as (a & -> & Ha1 & Ha2 & Ha3 & Ha).
  cbn [af_asdu af_svIdLength af_datSetLength]. rewrite Ha1, Ha2, Ht1. cbn [mbind option_bind]. rewrite Ht2. cbn [mbind option_bind].
  exists b2, a. split; [done|]. split; [unfold asdu_is; rewrite Ha1, Ha2, Ha3; split_and!; try done; try (by eexists); apply Ha|].
  split; [done|]. replace (base + zlen (sample_content s)) with (q + 1 + 1 + 2 + zlen (fields_bytes (back_fields s))); [done|].
  rewrite Hc, zlen_app, !zlen_cons, zlen_app. change (zlen c) with 2. unfold q. lia.
Qed.

(** * The message *)

(** the calls of the listener for a list of samples *)
Definition delivered_samples (k : nat) (calls : list SVUpdate) (samples : list SvSample) : Prop :=
  Forall2 (fun u s => su_subscriber u = k /\ asdu_is (su_buffer u) (su_asdu u) s) calls samples.

Lemma sequence_loop_samples k samples : forall fuel buffer base pos n,
  0 <= base -> 0 <= pos -> at_pos buffer (base + pos) (samples_bytes samples) -> n = pos + zlen (samples_bytes samples) -> n < 16777216 ->
  (length samples < fuel)%nat ->
  exists buffer' calls, sequence_loop fuel k true buffer base pos n = Some (buffer', calls) /\ delivered_samples k calls samples /\ zlen buffer' = zlen buffer.
Proof.
  induction samples as [|s samples IH]; intros fuel buffer base pos n Hb Hp Hat Hn Hs Hfuel; (destruct fuel as [|fuel]; [cbn in Hfuel; lia|]); cbn [sequence_loop].
  - change (zlen (samples_bytes [])) with 0 in Hn. if_false. exists buffer, []. split; [done|]. split; [constructor | done].
  - rewrite samples_bytes_cons, zlen_app in Hn. rewrite samples_bytes_cons in Hat. pose proof (zlen_nonneg (samples_bytes samples)).
    unfold sample_bytes in Hn. rewrite zlen_ber_tlv in Hn. pose proof (zlen_ber_length_bounds (zlen (sample_content s))). pose proof (zlen_nonneg (sample_content s)).
    if_true. pose proof Hat as Hat1. apply at_pos_app in Hat1 as [Hat1 _]. apply at_pos_ptr_off in Hat1; [|done..].
    destruct (element_at (ptr_add buffer base) 0 pos n 0x30 (sample_content s) Hat1) as (-> & -> & _); [lia | rewrite zlen_ber_tlv; lia|].
    cbn [mbind option_bind]. if_false. cbn [Z.eqb Pos.eqb]. set (start := pos + 1 + zlen (ber_length (zlen (sample_content s)))).
    assert (at_pos buffer (base + start) (sample_content s ++ samples_bytes samples)) as Hat2.
    { unfold sample_bytes, ber_tlv in Hat. rewrite <- app_comm_cons, <- app_assoc in Hat. apply at_pos_cons in Hat as [_ Hat]. apply at_pos_app in Hat as [_ Hat].
      by replace (base + start) with (base + pos + 1 + zlen (ber_length (zlen (sample_content s)))) by (unfold start; lia). }
    destruct (parseASDU_sample k buffer (base + start) s (samples_bytes samples)) as (b1 & a & -> & Ha & Hz1 & Hat3); [unfold start; lia | done | lia|].
    cbn [mbind option_bind]. rewrite <- Z.add_assoc in Hat3.
    destruct (IH fuel b1 base (start + zlen (sample_content s)) n) as (b2 & calls & -> & Hd & Hz2); [done | unfold start; lia | done | unfold start; lia | done | cbn in Hfuel; lia|].
    cbn [mbind option_bind]. exists b2, (mkSVUpdate k a b1 :: calls). split; [done|]. split; [by constructor | congruence].
Qed.

Lemma samples_bytes_count samples : (length samples <= length (samples_bytes samples))%nat.
Proof. induction samples as [|s samples IH]; [done|]. rewrite samples_bytes_cons, length_app. unfold sample_bytes, ber_tlv. cbn. lia. Qed.

Lemma parseSVPayload_samples k buffer base samples n :
  0 <= base -> at_pos buffer base (sv_apdu samples) -> n = zlen (sv_apdu samples) -> n < 16777216 ->
  exists buffer' calls, parseSVPayload k true buffer base n = Some (buffer', calls) /\ delivered_samples k calls samples /\ zlen buffer' = zlen buffer.
Proof.
  intros Hb Hat Hn Hs. unfold parseSVPayload. pose proof Hat as Hat1. apply at_pos_ptr in Hat1.
  unfold sv_apdu in Hn, Hat. set (c := sv_content samples) in *. pose proof (zlen_nonneg c). rewrite zlen_ber_tlv in Hn. pose proof (zlen_ber_length_bounds (zlen c)).
  destruct (element_at (ptr_add buffer base) 0 0 n 0x60 c Hat1) as (-> & Hd60 & _); [lia | rewrite zlen_ber_tlv; lia|].
  change (0 + 1) with 1 in Hd60. cbn [mbind option_bind Z.eqb Pos.eqb]. rewrite Hd60. cbn [mbind option_bind]. if_false.
  set (start := 1 + zlen (ber_length (zlen c))).
  assert (at_pos buffer (base + start) c) as Hatc.
  { unfold ber_tlv in Hat. apply at_pos_cons in Hat as [_ Hat]. apply at_pos_app in Hat as [_ Hat].
    by replace (base + start) with (base + 1 + zlen (ber_length (zlen c))) by (unfold start; lia). }
  assert (zlen c = zlen (ber_tlv 0x80 (ber_uint32 (zlen samples))) + zlen (ber_tlv 0xa2 (samples_bytes samples))) as Hc by (unfold c, sv_content; by rewrite zlen_app).
  pose proof (zlen_ber_uint32 (zlen samples)) as Hu. rewrite zlen_tlv_uint32 in Hc. set (u := ber_uint32 (zlen samples)) in *. rewrite zlen_ber_tlv in Hc.
  set (sb := samples_bytes samples) in *. pose proof (zlen_nonneg sb). pose proof (zlen_ber_length_bounds (zlen sb)).
  assert (exists fuel, Z.to_nat (zlen c) = S (S fuel)) as [fuel ->] by (exists (Z.to_nat (zlen c) - 2)%nat; lia). cbn [sv_payload_loop]. if_true.
  unfold c, sv_content in Hatc. fold u sb in Hatc. apply at_pos_app in Hatc as [Hat80 Hata2]. rewrite (zlen_ber_tlv 0x80), ber_length_one in Hata2 by lia.
  destruct (element_at (ptr_add buffer base) 0 start (start + zlen c) 0x80 u) as (-> & -> & _);
    [apply at_pos_ptr_off; [done | unfold start; lia | done] | lia | rewrite zlen_ber_tlv, ber_length_one; lia|].
  cbn [mbind option_bind Z.eqb Pos.eqb]. rewrite ber_length_one by lia. if_false. cbn [mbind option_bind]. set (p2 := start + 1 + 1 + zlen u).
  replace (base + start + (1 + 1 + zlen u)) with (base + p2) in Hata2 by (unfold p2; lia). if_true.
  destruct (element_at (ptr_add buffer base) 0 p2 (start + zlen c) 0xa2 sb) as (-> & -> & _);
    [apply at_pos_ptr_off; [done | unfold p2, start; lia | done] | lia | rewrite zlen_ber_tlv; unfold p2; lia|].
  cbn [mbind option_bind Z.eqb Pos.eqb]. if_false. set (p3 := p2 + 1 + zlen (ber_length (zlen sb))).
  assert (at_pos buffer (base + p3) sb) as Hsb.
  { unfold ber_tlv in Hata2. apply at_pos_cons in Hata2 as [_ Hata2]. apply at_pos_app in Hata2 as [_ Hata2].
    by replace (base + p3) with (base + p2 + 1 + zlen (ber_length (zlen sb))) by (unfold p3; lia). }
  unfold parseSequenceOfASDU. pose proof (samples_bytes_count samples). fold sb in H3.
  destruct (sequence_loop_samples k samples (S (Z.to_nat (zlen sb))) buffer (base + p3) 0 (zlen sb)) as (b1 & calls & -> & Hd & Hz);
    [unfold p3, p2, start; lia | lia | by rewrite Z.add_0_r | done | lia | unfold zlen; lia|].
  cbn [mbind option_bind]. exists b1, calls. split; [|done].
  assert (start + zlen c = p3 + zlen sb) as -> by (unfold p3, p2; lia). if_false.
  cbn [mbind option_bind app]. by rewrite app_nil_r.
Qed.

(** the link layer: addresses and, for most publishers, a VLAN tag *)
Definition link_ok (link dst : list Z) : Prop :=
  exists src vlan, link = dst ++ src ++ vlan /\ zlen dst = 6 /\ zlen src = 6 /\ (vlan = [] \/ exists t1 t2, vlan = [0x81; 0x00; t1; t2]).

(** the message is for the subscriber *)
Definition sv_interested (check : bool) (appId : Z) (dst : list Z) (s : SVSubscriber) : Prop :=
  ss_appId s = appId /\ (check = true -> ss_ethAddr s = dst).

Lemma matching_subscriber_spec pre s post k check appId dst rest :
  Forall (fun s => zlen (ss_ethAddr s) = 6) (pre ++ s :: post) -> Forall (fun s => ~ sv_interested check appId dst s) pre ->
  sv_interested check appId dst s -> zlen dst = 6 ->
  matching_subscriber (pre ++ s :: post) k check true appId (dst ++ rest) = Some (Some ((k + length pre)%nat, s)).
Proof.
  intros HF Hpre [Hid Haddr] Hd. revert k HF. pose proof (zlen_nonneg rest).
  assert (forall a, zlen a = 6 -> memcmp_eq (dst ++ rest) a 6 = Some (bool_decide (a = dst))) as Hm.
  { intros a Ha. unfold memcmp_eq. rewrite !ld_range_Some by (rewrite ?zlen_app; lia). cbn [mbind option_bind].
    change (Z.to_nat 0) with O. change (Z.to_nat 6) with 6%nat. rewrite !drop_0, take_app_le, !take_ge by (unfold zlen in *; lia). f_equal.
    apply bool_decide_ext. naive_solver. }
  induction Hpre as [|s0 pre Hn Hpre IH]; intros k HF; cbn [app matching_subscriber].
  - rewrite Hid, Z.eqb_refl. destruct check; cbn [mbind option_bind length]; [|by rewrite Nat.add_0_r].
    apply Forall_cons_1 in HF as [Hz _]. rewrite Hm by done. rewrite bool_decide_true by auto. cbn [mbind option_bind]. by rewrite Nat.add_0_r.
  - apply Forall_cons_1 in HF as [Hz HF].
    assert ((if ss_appId s0 =? appId then if check then memcmp_eq (dst ++ rest) (ss_ethAddr s0) 6 else Some true else Some false) = Some false) as ->.
    { destruct (ss_appId s0 =? appId) eqn:E; bdestr; [|done]. destruct check; [|by destruct Hn]. rewrite Hm by done. f_equal. apply bool_decide_false.
      intros Ha. apply Hn. by split. }
    cbn [mbind option_bind]. rewrite IH by done. cbn [length]. do 3 f_equal. lia.
Qed.

Lemma land_255_mod n : Z.land n 0xff = n mod 256.
Proof. exact (Z.land_ones n 8 ltac:(lia)). Qed.

(** where the receiver finds the application identifier, the length and the message *)
Lemma parseSVMessage_frame self link dst appId n body rest :
  link_ok link dst -> 0 <= appId < 65536 -> 8 <= n < 65536 -> n = zlen body + 8 ->
  sr_buffer self = sv_header link appId n ++ body ++ rest ->
  parseSVMessage self (zlen link + 2 + n) = handleSVApdu self appId (zlen link + 10) (zlen body) 0.
Proof.
  intros (src & vlan & -> & Hd & Hsr & Hv) Hid Hn Hb Hbuf. unfold parseSVMessage. rewrite Hbuf. unfold sv_header. rewrite land_255_mod, !zlen_app, Hd, Hsr.
  unfold u8. rewrite (Z.mod_small (appId / 256)), (Z.mod_small (n / 256)), Z.mod_mod by (first [lia | split; [apply Z.div_pos | apply Z.div_lt_upper_bound]; lia]).
  destruct (zlen_6 _ Hd) as (d0 & d1 & d2 & d3 & d4 & d5 & ->). destruct (zlen_6 _ Hsr) as (s0 & s1 & s2 & s3 & s4 & s5 & ->).
  replace (6 + (6 + zlen vlan) + 2 + n <? 22) with false by (pose proof (zlen_nonneg vlan); lia).
  assert (n - 8 = zlen body) as Hl by lia. pose proof (u16_bytes appId Hid) as Hu1. pose proof (u16_bytes n ltac:(lia)) as Hu2.
  set (tail := body ++ rest) in *.
  assert (forall l i (x : Z), l !! Z.to_nat i = Some x -> 0 <= i -> ld (l ++ tail) i = Some x) as Hld.
  { intros l i x Hx Hi. assert (Z.to_nat i < length l)%nat by (by apply lookup_lt_Some in Hx). unfold ld. if_true. by rewrite lookup_app_l. }
  destruct Hv as [->|(t1 & t2 & ->)]; cbn [app].
  - change (d0 :: d1 :: d2 :: d3 :: d4 :: d5 :: s0 :: s1 :: s2 :: s3 :: s4 :: s5 :: 136 :: 186 :: appId / 256 :: appId mod 256 :: n / 256 :: n mod 256 :: 0 :: 0 :: 0 :: 0 :: tail)
      with ([d0; d1; d2; d3; d4; d5; s0; s1; s2; s3; s4; s5; 136; 186; appId / 256; appId mod 256; n / 256; n mod 256; 0; 0; 0; 0] ++ tail).
    rewrite (Hld _ 12 136) by (reflexivity || lia). cbn [mbind option_bind Z.eqb Pos.eqb]. cbv beta iota zeta. change (12 + 1) with 13. change (12 + 2) with 14. change (12 + 3) with 15.
    change (12 + 4) with 16. change (12 + 5) with 17. rewrite (Hld _ 12 136), (Hld _ 13 186), (Hld _ 14 (appId / 256)), (Hld _ 15 (appId mod 256)), (Hld _ 16 (n / 256)), (Hld _ 17 (n mod 256)) by (reflexivity || lia).
    cbn [mbind option_bind Z.eqb Pos.eqb negb]. rewrite Hu1, Hu2, Hl. change (zlen []) with 0. by replace (6 + (6 + 0) + 2 + n <? n + 14) with false by lia.
  - change (d0 :: d1 :: d2 :: d3 :: d4 :: d5 :: s0 :: s1 :: s2 :: s3 :: s4 :: s5 :: 129 :: 0 :: t1 :: t2 :: 136 :: 186 :: appId / 256 :: appId mod 256 :: n / 256 :: n mod 256 :: 0 :: 0 :: 0 :: 0 :: tail)
      with ([d0; d1; d2; d3; d4; d5; s0; s1; s2; s3; s4; s5; 129; 0; t1; t2; 136; 186; appId / 256; appId mod 256; n / 256; n mod 256; 0; 0; 0; 0] ++ tail).
    change (12 + 1) with 13. rewrite (Hld _ 12 129) by (reflexivity || lia). cbn [mbind option_bind Z.eqb Pos.eqb].
    rewrite (Hld _ 13 0) by (reflexivity || lia). cbn [mbind option_bind Z.eqb Pos.eqb]. cbv beta iota zeta. change (12 + 4) with 16. change (14 + 4) with 18.
    change (16 + 1) with 17. change (16 + 2) with 18. change (16 + 3) with 19. change (16 + 4) with 20. change (16 + 5) with 21.
    rewrite (Hld _ 16 136), (Hld _ 17 186), (Hld _ 18 (appId / 256)), (Hld _ 19 (appId mod 256)), (Hld _ 20 (n / 256)), (Hld _ 21 (n mod 256)) by (reflexivity || lia).
    cbn [mbind option_bind Z.eqb Pos.eqb negb]. rewrite Hu1, Hu2, Hl. change (zlen [129; 0; t1; t2]) with 4. by replace (6 + (6 + 4) + 2 + n <? n + 18) with false by lia.
Qed.

(** A frame of the publisher reaches the listener of the subscriber it is for. *)
Lemma frame_received self link dst appId samples pre s post :
  link_ok link dst -> 0 <= appId < 65536 -> zlen (sv_frame link appId samples) <= SV_ETH_BUFFER_LENGTH ->
  zlen (sr_buffer self) = SV_ETH_BUFFER_LENGTH -> sr_ethSocket self = true ->
  sr_subscriberList self = pre ++ s :: post -> Forall (fun s => zlen (ss_ethAddr s) = 6) (sr_subscriberList self) ->
  Forall (fun s => ~ sv_interested (sr_checkDestAddr self) appId dst s) pre -> sv_interested (sr_checkDestAddr self) appId dst s -> ss_listener s = true ->
  exists self' calls, SVReceiver_tick self (sv_frame link appId samples) = Some (self', true, calls) /\ delivered_samples (length pre) calls samples.
Proof.
  intros Hlink Hid Hfit Hz Hsock Hsubs HF Hpre Hs Hlis. unfold SV_ETH_BUFFER_LENGTH in *. unfold SVReceiver_tick. rewrite Hsock.
  set (body := sv_apdu samples) in *. unfold sv_frame in *. fold body in Hfit |- *. rewrite zlen_app, zlen_sv_header in Hfit. pose proof (zlen_nonneg body). pose proof (zlen_nonneg link).
  replace (0 <? zlen _) with true by (rewrite zlen_app, zlen_sv_header; symmetry; lia).
  rewrite st_range_front by (rewrite zlen_app, zlen_sv_header; lia). cbn [mbind option_bind]. set (rest := drop _ _). set (self1 := sr_with_buffer self _).
  replace (zlen (sv_header link appId (zlen body + 8) ++ body)) with (zlen link + 2 + (zlen body + 8)) by (rewrite zlen_app, zlen_sv_header; lia).
  assert (sr_buffer self1 = sv_header link appId (zlen body + 8) ++ body ++ rest) as Hb1 by (unfold self1; destruct self; cbn; by rewrite <- app_assoc).
  rewrite (parseSVMessage_frame self1 link dst appId (zlen body + 8) body rest) by (done || lia).
  unfold handleSVApdu. assert (sr_subscriberList self1 = pre ++ s :: post /\ sr_checkDestAddr self1 = sr_checkDestAddr self /\ sr_ethSocket self1 = true) as (-> & -> & ->)
    by (unfold self1; destruct self; done).
  pose proof Hlink as (src & vlan & Hl & Hd & _).
  assert (ptr_add (sr_buffer self1) 0 = dst ++ (src ++ vlan) ++ drop (length link) (sr_buffer self1)) as ->.
  { unfold ptr_add. change (Z.to_nat 0) with O. rewrite drop_0, Hb1. unfold sv_header. rewrite <- !app_assoc, drop_app_length, Hl. list_norm. }
  rewrite Hsubs in HF. rewrite (matching_subscriber_spec pre s post 0 _ appId dst _ HF Hpre Hs Hd). cbn [mbind option_bind]. rewrite Nat.add_0_l, Hlis.
  destruct (parseSVPayload_samples (length pre) (sr_buffer self1) (zlen link + 10) samples (zlen body)) as (b2 & calls & -> & Hdel & _); [lia | | done | lia|].
  - rewrite Hb1. exists (sv_header link appId (zlen body + 8)), rest. split; [done | apply zlen_sv_header].
  - cbn [mbind option_bind]. by eexists _, calls.
Qed.
