(* ===== verification/SvRead.v ===== *)
(** Reading a delivered ASDU: what the access functions of the subscriber return for
    an ASDU that stands for a sample. *)

From S2P Require Import Prelude BerEncoder BerDecoder BerInteger StringUtils CFloat MmsValue MmsFacts MmsData GoosePublisher GooseSubscriber GooseReceiver GooseSafety GooseRoundtrip IecCommon SvPublisher SvLayout SvSetup SvRefine SvSubscriber SvSafety SvRoundtrip.
Open Scope Z_scope.

(** * Copies in reverse *)

Lemma sv_field_ld buf pos x b y : at_pos buf pos (x ++ b :: y) -> ld buf (pos + zlen x) = Some b.
Proof. intros Hat. apply at_pos_app in Hat as [_ Hat]. by apply at_pos_cons in Hat as [H _]. Qed.

Lemma memcpy_reverse_loop_spec todo : forall ready free buffer p,
  at_pos buffer p (ready ++ todo) -> length free = length todo ->
  memcpy_reverse_loop (length todo) (zlen ready) (zlen (ready ++ todo)) (free ++ reverse ready) buffer p = Some (reverse (ready ++ todo)).
Proof.
  induction todo as [|v todo IH]; intros ready free buffer p Hat Hl; cbn [length memcpy_reverse_loop].
  - apply nil_length_inv in Hl as ->. by rewrite app_nil_r.
  - rewrite (sv_field_ld _ _ _ _ _ Hat). cbn [mbind option_bind].
    destruct (exists_last (l := free)) as (free' & x & ->); [by intros ->|]. rewrite length_app in Hl. cbn in Hl.
    rewrite !zlen_app, zlen_cons. pose proof (zlen_nonneg ready). pose proof (zlen_nonneg todo).
    replace (zlen ready + (1 + zlen todo) - 1 - zlen ready) with (zlen free') by (unfold zlen in *; lia).
    rewrite st_Some by (pose proof (zlen_nonneg free'); zlen; lia). cbn [mbind option_bind].
    rewrite zlen_to_nat, <- app_assoc. cbn [app]. rewrite insert_middle.
    replace (free' ++ v :: reverse ready) with (free' ++ reverse (ready ++ [v])) by (by rewrite reverse_snoc).
    replace (zlen ready + 1) with (zlen (ready ++ [v])) by (by rewrite zlen_app). 
    replace (zlen ready + (1 + zlen todo)) with (zlen ((ready ++ [v]) ++ todo)) by (zlen; lia).
    rewrite IH; [by rewrite <- app_assoc | by rewrite <- app_assoc | lia].
Qed.

(** The bytes at a pointer, the most significant one first. *)
Lemma read_reverse_spec n buffer p bs : at_pos buffer p bs -> length bs = n -> read_reverse n buffer p = Some (be_val bs).
Proof.
  intros Hat <-. unfold read_reverse, memcpy_reverse.
  pose proof (memcpy_reverse_loop_spec bs [] (replicate (length bs) 0) buffer p Hat (length_replicate _ _)) as H. cbn [app] in H.
  rewrite reverse_nil, app_nil_r in H. change (zlen []) with 0 in H. unfold zlen in H. rewrite H. cbn [mbind option_bind]. by rewrite be_val_le_val.
Qed.

Lemma read_be_bytes n buffer p v :
  at_pos buffer p (be_bytes n v) -> 0 <= v < 256 ^ Z.of_nat n -> read_reverse n buffer p = Some v.
Proof.
  intros Hat Hv. rewrite (read_reverse_spec n _ _ _ Hat) by (unfold be_bytes; by rewrite length_reverse, length_le_bytes).
  f_equal. rewrite be_val_be_bytes. by apply Z.mod_small.
Qed.

(** the bytes of the data from an index on *)
Lemma at_pos_slice buffer p d i bs : at_pos buffer p d -> at_pos d i bs -> at_pos buffer (p + i) bs.
Proof.
  intros (pre & post & -> & <-) (x & y & -> & <-). exists (pre ++ x), (y ++ post). split; [list_norm | by rewrite zlen_app].
Qed.

(** * The fields *)

(** the ranges of the types of the fields; strings hold no zero *)
Definition sample_typed (s : SvSample) : Prop :=
  0 ∉ sp_svId s /\ (forall d, sp_datSet s = Some d -> 0 ∉ d) /\ 0 <= sp_smpCnt s < 65536 /\ 0 <= sp_confRev s < 4294967296 /\
  (forall r, sp_smpRate s = Some r -> 0 <= r < 65536) /\ (forall m, sp_smpMod s = Some m -> 0 <= m < 256).

(** what the application reads from an ASDU is the sample, field by field *)
Definition sample_read (u : SVUpdate) (s : SvSample) : Prop :=
  let a := su_asdu u in let b := su_buffer u in
  (c_string <$> SVSubscriber_ASDU_getSvId a b) = Some (sp_svId s) /\
  (c_string <$> SVSubscriber_ASDU_getDatSet a b) = sp_datSet s /\
  SVSubscriber_ASDU_getSmpCnt a b = Some (sp_smpCnt s) /\
  SVSubscriber_ASDU_getConfRev a b = Some (sp_confRev s) /\
  SVSubscriber_ASDU_getSmpSynch a b = Some (sp_smpSynch s) /\
  SVSubscriber_ASDU_hasRefrTm a = bool_decide (sp_refrTm s <> None) /\
  (forall t, sp_refrTm s = Some t -> exists p, sa_refrTm a = Some p /\ at_pos b p t) /\
  SVSubscriber_ASDU_hasSmpRate a = bool_decide (sp_smpRate s <> None) /\
  (forall r, sp_smpRate s = Some r -> SVSubscriber_ASDU_getSmpRate a b = Some r) /\
  SVSubscriber_ASDU_getDataSize a = zlen (sp_data s) /\
  exists p, sa_dataBuffer a = Some p /\ at_pos b p (sp_data s).

Lemma field_is_none b p c : field_is b p c -> bool_decide (p <> None) = bool_decide (c <> None).
Proof.
  destruct c as [c|]; cbn [field_is]; [intros (q & -> & _)|intros ->]; apply bool_decide_ext; naive_solver.
Qed.

Lemma c_string_at b q s : at_pos b q (s ++ [0]) -> 0 ∉ s -> c_string (ptr_add b q) = s.
Proof.
  intros Hat Hs. apply at_pos_ptr in Hat as (pre & post & -> & Hz). destruct pre; [|rewrite zlen_cons in Hz; pose proof (zlen_nonneg pre); lia].
  cbn [app]. rewrite <- app_assoc. by apply c_string_terminated.
Qed.

Lemma asdu_is_read u s : asdu_is (su_buffer u) (su_asdu u) s -> sample_typed s -> sample_read u s.
Proof.
  intros (Hsv & Hds & Hsc & Hcr & Hrt & Hss & Hsr & Hsm & Hdb & Hdl) (Tsv & Tds & Tsc & Tcr & Tsr & Tsm). unfold sample_read.
  destruct Hsv as (p1 & E1 & A1), Hsc as (p2 & E2 & A2), Hcr as (p3 & E3 & A3), Hss as (p4 & E4 & A4), Hdb as (p5 & E5 & A5).
  unfold SVSubscriber_ASDU_getSvId, SVSubscriber_ASDU_getDatSet, SVSubscriber_ASDU_getSmpCnt, SVSubscriber_ASDU_getConfRev, SVSubscriber_ASDU_getSmpSynch,
    SVSubscriber_ASDU_hasRefrTm, SVSubscriber_ASDU_hasSmpRate, SVSubscriber_ASDU_getSmpRate, SVSubscriber_ASDU_getDataSize.
  rewrite E1, E2, E3, E4. cbn [fmap option_fmap option_map mbind option_bind]. rewrite (field_is_none _ _ _ Hrt), (field_is_none _ _ _ Hsr).
  split; [by rewrite (c_string_at _ _ _ A1)|]. split.
  { destruct (sp_datSet s) as [d|]; cbn in Hds |- *; [destruct Hds as (q & -> & Aq) | by rewrite Hds]. cbn. by rewrite (c_string_at _ _ _ Aq) by auto. }
  split. { unfold be_bytes in A2. cbn in A2. apply at_pos_cons in A2 as [L1 A2]. apply at_pos_cons in A2 as [L2 _]. rewrite L1, L2. cbn [mbind option_bind le_val].
    f_equal. pose proof (le_val_le_bytes 2 (sp_smpCnt s)) as H. cbn in H. rewrite H. by apply Z.mod_small. }
  split; [by apply read_be_bytes|]. split; [by apply at_pos_cons in A4 as [L _]|]. split; [done|].
  split. { intros t Ht. rewrite Ht in Hrt. exact Hrt. }
  split; [by destruct (sp_smpRate s)|]. split; [|split; [done | by exists p5]].
  intros r Hr. rewrite Hr in Hsr. destruct Hsr as (q & -> & Aq). cbn [mbind option_bind]. apply read_be_bytes; [done|]. by apply Tsr.
Qed.

(** * Values of the data *)

(** reading the value a write of the data stored *)
Definition read_back (w : SvWrite) (a : SVSubscriber_ASDU) (b : list Z) : option (list Z) :=
  let one (r : option Z) := (fun v => [v]) <$> r in
  match w with
  | W_INT8 i _ => one (SVSubscriber_ASDU_getINT8 a b i)
  | W_INT32 i _ => one (SVSubscriber_ASDU_getINT32 a b i)
  | W_INT64 i _ => one (SVSubscriber_ASDU_getINT64 a b i)
  | W_FLOAT i _ => one (SVSubscriber_ASDU_getFLOAT32 a b i)
  | W_FLOAT64 i _ => one (SVSubscriber_ASDU_getFLOAT64 a b i)
  | W_Timestamp i _ => SVSubscriber_ASDU_getTimestamp a b i
  | W_Quality i _ => one (SVSubscriber_ASDU_getQuality a b i)
  | _ => None
  end.

(** the value that was written, when it is one of its type *)
Definition written (w : SvWrite) (v : list Z) : Prop :=
  match w with
  | W_INT8 _ x => v = [x] /\ -128 <= x < 128
  | W_INT32 _ x => v = [x] /\ is_s32 x
  | W_INT64 _ x => v = [x] /\ -9223372036854775808 <= x < 9223372036854775808
  | W_FLOAT _ x => v = [x] /\ 0 <= x < 4294967296
  | W_FLOAT64 _ x => v = [x] /\ 0 <= x < 18446744073709551616
  | W_Timestamp _ t => v = t /\ zlen t = 8
  | W_Quality _ x => v = [x] /\ 0 <= x < 65536
  | _ => False
  end.

Lemma read_signed n buffer p v :
  at_pos buffer p (be_bytes n v) -> read_reverse n buffer p = Some (v mod 256 ^ Z.of_nat n).
Proof.
  intros Hat. rewrite (read_reverse_spec n _ _ _ Hat) by (unfold be_bytes; by rewrite length_reverse, length_le_bytes). by rewrite be_val_be_bytes.
Qed.

Lemma wrap_signed m v : 0 < m -> - m <= v < m -> (v mod (2 * m) + m) mod (2 * m) - m = v.
Proof. intros Hm Hv. rewrite Zplus_mod_idemp_l, Z.mod_small; lia. Qed.

Lemma read_back_written w v s u :
  asdu_is (su_buffer u) (su_asdu u) (write_sample w s) -> write_ok w s -> written w v ->
  read_back w (su_asdu u) (su_buffer u) = Some v.
Proof.
  intros Hasdu Hok Hw. destruct Hasdu as (_ & _ & _ & _ & _ & _ & _ & _ & (p & Hp & Hat) & _).
  assert (exists i bs, data_octets w = Some (i, bs) /\ 0 <= i /\ i + zlen bs <= zlen (sp_data s)) as (i & bs & Hd & Hi & Hf).
  { destruct Hok as [_ Hok]. destruct w; try done; cbn [data_octets] in *; (do 2 eexists; split; [done|exact Hok]). }
  assert (at_pos (su_buffer u) (p + i) bs) as Hbs.
  { unfold write_sample in Hat. rewrite Hd in Hat. apply (at_pos_slice _ _ (splice (sp_data s) i bs)); [by destruct s | by apply splice_at]. }
  clear Hat. destruct w; cbn [data_octets] in Hd; simplify_eq; cbn [written read_back] in *; try done; destruct Hw as [-> Hw].
  - unfold SVSubscriber_ASDU_getINT8. rewrite Hp. cbn [mbind option_bind]. unfold be_bytes in Hbs. cbn in Hbs. apply at_pos_cons in Hbs as [-> _]. cbn.
    do 2 f_equal. unfold s8. pose proof (wrap_signed 128 value ltac:(lia) Hw). cbn in *. done.
  - unfold SVSubscriber_ASDU_getINT32. rewrite Hp. cbn [mbind option_bind]. rewrite (read_signed 4 _ _ _ Hbs). cbn [mbind option_bind fmap option_fmap option_map].
    do 2 f_equal. exact (wrap_signed 2147483648 value ltac:(lia) Hw).
  - unfold SVSubscriber_ASDU_getINT64. rewrite Hp. cbn [mbind option_bind]. rewrite (read_signed 8 _ _ _ Hbs). cbn [mbind option_bind fmap option_fmap option_map].
    do 2 f_equal. exact (wrap_signed 9223372036854775808 value ltac:(lia) Hw).
  - unfold SVSubscriber_ASDU_getFLOAT32. rewrite Hp. cbn [mbind option_bind]. by rewrite (read_be_bytes 4 _ _ _ Hbs).
  - unfold SVSubscriber_ASDU_getFLOAT64. rewrite Hp. cbn [mbind option_bind]. by rewrite (read_be_bytes 8 _ _ _ Hbs).
  - unfold SVSubscriber_ASDU_getTimestamp. rewrite Hp. cbn [mbind option_bind]. rewrite take_ge in Hbs by (unfold zlen in Hw; lia).
    rewrite <- Hw. by apply at_pos_range.
  - unfold SVSubscriber_ASDU_getQuality. rewrite Hp. cbn [mbind option_bind].
    pose proof (sv_field_ld _ _ [0; 0; u8 (value / 256)] _ [] Hbs) as L3. pose proof (sv_field_ld _ _ [0; 0] _ [u8 (value mod 256)] Hbs) as L2.
    change (zlen [0; 0; u8 (value / 256)]) with 3 in L3. change (zlen [0; 0]) with 2 in L2. rewrite L3. cbn [mbind option_bind]. rewrite L2. cbn [mbind option_bind fmap option_fmap option_map].
    do 2 f_equal. unfold u8. pose proof (Z.div_mod value 256 ltac:(lia)). pose proof (Z.mod_pos_bound value 256 ltac:(lia)).
    assert (0 <= value / 256 < 256) by (split; [apply Z.div_pos | apply Z.div_lt_upper_bound]; lia).
    rewrite !Z.mod_small by lia. unfold u16. rewrite Z.mod_small; lia.
Qed.

(** * The time *)

(** The receiver has the decoder of [Timestamp_getTimeInNs]. *)
Lemma decodeUtcTime_spec s f q rest :
  0 <= s < 2147483648 -> 0 <= f < 16777216 ->
  decodeUtcTimeToNsTime (time_bytes s f q ++ rest) = Some (s * 1000000000 + f * 1000000000 / 16777216).
Proof.
  intros Hs Hf. unfold time_bytes. rewrite <- !app_assoc. rewrite <- (getTimeInNs_spec s f ([q] ++ rest) Hs Hf).
  unfold decodeUtcTimeToNsTime, Timestamp_getTimeInNs, Timestamp_getTimeInSeconds. rewrite be_bytes_4_eq, be_bytes_3_eq. cbn [app].
  repeat (match goal with |- context [ld ?l ?i] => destruct (ld l i); cbn [mbind option_bind]; [|done] end). by destruct (chk_int _).
Qed.

(** A time set in nanoseconds is read back less than 60 nanoseconds early, in the
    years before 2038. *)
Lemma refrTm_ns u s t ns :
  asdu_is (su_buffer u) (su_asdu u) (write_sample (W_RefrTmNs ns) s) -> sp_refrTm s = Some t -> 0 <= ns < 2147483648000000000 ->
  exists r, SVSubscriber_ASDU_getRefrTmAsNs (su_asdu u) (su_buffer u) = Some r /\ ns - 60 <= r <= ns.
Proof.
  intros (_ & _ & _ & _ & Hrt & _) Ht Hns. unfold write_sample in Hrt. cbn [data_octets] in Hrt. unfold write_refrTm in Hrt. rewrite Ht in Hrt.
  replace (sp_refrTm (sp_with_refrTm s (ns_octets t ns))) with (Some (ns_octets t ns)) in Hrt by (by destruct s). destruct Hrt as (p & Hp & Hat).
  unfold SVSubscriber_ASDU_getRefrTmAsNs. rewrite Hp. apply at_pos_ptr in Hat as (pre & post & -> & Hz).
  destruct pre; [|rewrite zlen_cons in Hz; pose proof (zlen_nonneg pre); lia]. cbn [app].
  pose proof (Z.mod_pos_bound ns 1000000000 ltac:(lia)) as Hm. pose proof (Z.div_mod ns 1000000000 ltac:(lia)).
  assert (0 <= ns / 1000000000 < 2147483648) by (split; [apply Z.div_pos | apply Z.div_lt_upper_bound]; lia).
  unfold ns_octets. rewrite decodeUtcTime_spec by (try done; by apply ns_fraction_range). eexists. split; [done|].
  pose proof (ns_fraction_ns _ Hm). lia.
Qed.
