(* ===== verification/SvBounds.v ===== *)
(** How far the layout of the frame writes: the length of the message it computes is
    that of the frame, also when the frame does not fit into the buffer. *)

From S2P Require Import Prelude BerEncoder BerDecoder BerInteger StringUtils CFloat MmsValue MmsFacts MmsData GoosePublisher GooseSafety IecCommon SvPublisher SvLayout SvSetup.
Open Scope Z_scope.

(** a writer that, when it succeeds, moves on by [n] and keeps the length of the buffer *)
Definition advances (w : writer) (n : Z) : Prop :=
  forall b p b' p', w b p = Some (b', p') -> p' = p + n /\ zlen b' = zlen b.

Lemma puts_advances bs : advances (puts bs) (zlen bs).
Proof. intros b p b' p' H. by apply puts_inv in H. Qed.

Lemma advances_ext w w' n : (forall b p, w b p = w' b p) -> advances w' n -> advances w n.
Proof. intros H Hw b p b' p'. rewrite H. apply Hw. Qed.

Lemma advances_puts w bs n : (forall b p, w b p = puts bs b p) -> zlen bs = n -> advances w n.
Proof. intros H <-. by apply (advances_ext _ (puts bs)); [|apply puts_advances]. Qed.

Lemma encodeTL_advances tag n : 0 <= n -> n <> 65535 -> advances (BerEncoder_encodeTL tag n) (1 + BerEncoder_determineLengthSize n).
Proof. intros. apply (advances_puts _ (tag :: ber_length n)); [apply encodeTL_puts|]. rewrite zlen_cons, zlen_ber_length; done. Qed.

Lemma encodeString_advances tag s :
  string_ok s -> zlen (ber_string s) <> 65535 ->
  advances (BerEncoder_encodeStringWithTag tag s) (width (zlen (ber_string s))).
Proof. intros. apply (advances_puts _ (ber_tlv tag (ber_string s))); [intros; by apply encodeStringWithTag_puts | apply zlen_tlv_width]. Qed.

Lemma optional_u16_advances (has : bool) tag v :
  advances (fun b p => if has then '(b, p) ← BerEncoder_encodeTL tag 2 b p; encodeUInt16FixedSize v b p else Some (b, p)) (if has then 4 else 0).
Proof.
  destruct has; [|intros ? ? ? ? [= <- <-]; split; [lia | done]]. apply (advances_puts _ ((tag :: ber_length 2) ++ be_bytes 2 v)); [|done].
  intros. rewrite puts_app, encodeTL_puts. by apply bind_puts.
Qed.

(** follow one step of a chain of writers *)
Ltac advance H lem :=
  match type of H with
  | context [?w ?b ?p ≫= _] =>
      let E := fresh "E" in let b' := fresh "b" in let p' := fresh "p" in
      destruct (w b p) as [[b' p']|] eqn:E; cbn [mbind option_bind] in H; [|done];
      apply lem in E; destruct E as [-> ?]
  end.

Lemma encodeToBuffer_advances a origin b p a' b' p' :
  asdu_ok a -> asdu_size a < 65535 ->
  SVPublisher_ASDU_encodeToBuffer a origin b p = Some (a', b', p') -> p' = p + width (asdu_size a) /\ zlen b' = zlen b.
Proof.
  intros Hok Hs H. pose proof Hok as ((svID & Hid & Hid0) & Hds & Hn & Hg). pose proof (asdu_size_nonneg a) as Hsn.
  pose proof (getEncodedSize_spec a (replicate 8 0) (replicate (Z.to_nat (as_dataSize a)) 0) Hok eq_refl ltac:(rewrite zlen_replicate; lia) Hs) as Hsize.
  fold (asdu_size a) in Hsize. unfold SVPublisher_ASDU_encodeToBuffer in H. rewrite Hsize in H. cbn [mbind option_bind] in H.
  unfold SVPublisher_ASDU_getEncodedSize in Hsize. rewrite Hid in *. cbn [mbind option_bind] in Hsize.
  destruct (strlen_is_Some svID Hid0) as [n Hsl]. rewrite Hsl in Hsize. cbn [mbind option_bind] in Hsize. apply strlen_c_string in Hsl as (-> & _ & _).
  pose proof (zlen_nonneg (c_string svID)) as Hc0.
  assert (exists m, match as_datset a with Some ds => strlen ds = Some m | None => m = 0 end /\ 0 <= m) as (m & Hm & Hm0).
  { destruct (as_datset a) as [ds|]; [|by exists 0]. destruct (strlen_is_Some ds Hds) as [m Hm]. exists m. split; [done|]. apply strlen_c_string in Hm as (-> & _). apply zlen_nonneg. }
  assert (asdu_size a = (1 + BerEncoder_determineLengthSize (zlen (c_string svID)) + zlen (c_string svID)) +
    (match as_datset a with Some _ => 1 + BerEncoder_determineLengthSize m + m | None => 0 end) + 4 + 6 + (if as_hasRefrTm a then 10 else 0) + 3 +
    (if as_hasSmpRate a then 4 else 0) + (1 + BerEncoder_determineLengthSize (as_dataSize a)) + as_dataSize a + (if as_hasSmpMod a then 4 else 0) +
    (if as_hasGmIdentity a then 10 else 0)) as Hz.
  { destruct (as_datset a) as [ds|]; [rewrite Hm in Hsize|]; cbn [mbind option_bind] in Hsize; injection Hsize as <-; lia. }
  assert (forall x, 0 <= BerEncoder_determineLengthSize x) as Hdl by (intros x; unfold BerEncoder_determineLengthSize; repeat case_match; lia).
  pose proof (Hdl (zlen (c_string svID))). pose proof (Hdl m). pose proof (Hdl (as_dataSize a)).
  set (o1 := match as_datset a with Some _ => 1 + BerEncoder_determineLengthSize m + m | None => 0 end) in *.
  set (o2 := if as_hasRefrTm a then 10 else 0) in *. set (o3 := if as_hasSmpRate a then 4 else 0) in *.
  set (o4 := if as_hasSmpMod a then 4 else 0) in *. set (o5 := if as_hasGmIdentity a then 10 else 0) in *.
  assert (0 <= o1) by (unfold o1; destruct (as_datset a); lia). assert (0 <= o2) by (unfold o2; destruct (as_hasRefrTm a); lia).
  assert (0 <= o3) by (unfold o3; destruct (as_hasSmpRate a); lia). assert (0 <= o4) by (unfold o4; destruct (as_hasSmpMod a); lia).
  assert (0 <= o5) by (unfold o5; destruct (as_hasGmIdentity a); lia).
  assert (advances (fun b p => match as_datset a with Some ds => BerEncoder_encodeStringWithTag 0x81 (Some ds) b p | None => Some (b, p) end) o1) as Hadv1.
  { unfold o1 in *. destruct (as_datset a) as [ds|]; [|intros ? ? ? ? [= <- <-]; split; [lia | done]]. apply strlen_c_string in Hm as (-> & _).
    pose proof (encodeString_advances 0x81 (Some ds) Hds) as Hx. cbn [ber_string] in Hx. unfold width in Hx. rewrite zlen_ber_length in Hx by lia. apply Hx. lia. }
  assert (advances (fun b p => if as_hasSmpRate a then '(b, p) ← BerEncoder_encodeTL 0x86 2 b p; encodeUInt16FixedSize (as_smpRate a) b p else Some (b, p)) o3) as Hadv3
    by apply optional_u16_advances.
  assert (advances (fun b p => if as_hasSmpMod a then '(b, p) ← BerEncoder_encodeTL 0x88 2 b p; encodeUInt16FixedSize (as_smpMod a) b p else Some (b, p)) o4) as Hadv4
    by apply optional_u16_advances.
  assert (advances (fun b p => if as_hasGmIdentity a then BerEncoder_encodeOctetString 0x89 (as_gmIdentity a) 8 b p else Some (b, p)) o5) as Hadv5.
  { unfold o5. destruct (as_hasGmIdentity a); [|intros ? ? ? ? [= <- <-]; split; [lia | done]].
    apply (advances_puts _ (ber_tlv 0x89 (take (Z.to_nat 8) (as_gmIdentity a)))); [intros; apply encodeOctetString_puts; lia|].
    rewrite zlen_tlv_width, zlen_take by lia. done. }
  advance H (encodeTL_advances 0x30 (asdu_size a) ltac:(lia) ltac:(lia)).
  advance H (encodeString_advances 0x80 (Some svID) Hid0 ltac:(cbn [ber_string]; lia)).
  match type of H with context [?x ≫= _] => destruct x as [[c1 q1]|] eqn:F1; cbn [mbind option_bind] in H; [|done] end. apply Hadv1 in F1 as [-> ?].
  advance H (encodeTL_advances 0x82 2 ltac:(lia) ltac:(lia)).
  advance H (advances_puts (encodeUInt16FixedSize (as_smpCnt a)) (be_bytes 2 (as_smpCnt a)) 2 (encodeUInt16_puts _) eq_refl).
  advance H (encodeTL_advances 0x83 4 ltac:(lia) ltac:(lia)).
  advance H (advances_puts (encodeUInt32FixedSize (as_confRev a)) (be_bytes 4 (as_confRev a)) 4 (encodeUInt32_fixed_puts _) eq_refl).
  match type of H with context [?x ≫= _] => destruct x as [[[r2 c2] q2]|] eqn:F2; cbn [mbind option_bind] in H; [|done] end.
  assert (q2 = p + (1 + BerEncoder_determineLengthSize (asdu_size a)) + width (zlen (c_string svID)) + o1 + (1 + BerEncoder_determineLengthSize 2) + 2 +
    (1 + BerEncoder_determineLengthSize 4) + 4 + o2 /\ zlen c2 = zlen b) as [-> ?].
  { unfold o2. destruct (as_hasRefrTm a); [|injection F2 as <- <- <-; split; [lia | congruence]].
    advance F2 (encodeTL_advances 0x84 8 ltac:(lia) ltac:(lia)). injection F2 as <- <- <-. change (BerEncoder_determineLengthSize 8) with 1. split; [lia | congruence]. }
  advance H (encodeTL_advances 0x85 1 ltac:(lia) ltac:(lia)).
  advance H (advances_puts (put (as_smpSynch a)) [as_smpSynch a] 1 (fun b p => eq_sym (puts_one _ b p)) eq_refl).
  match type of H with context [?x ≫= _] => destruct x as [[c10 q10]|] eqn:F10; cbn [mbind option_bind] in H; [|done] end. apply Hadv3 in F10 as [-> ?].
  advance H (encodeTL_advances 0x87 (as_dataSize a) ltac:(lia) ltac:(lia)).
  match type of H with context [?x ≫= _] => destruct x as [[c12 q12]|] eqn:F12; cbn [mbind option_bind] in H; [|done] end. apply Hadv4 in F12 as [-> ?].
  match type of H with context [?x ≫= _] => destruct x as [[c13 q13]|] eqn:F13; cbn [mbind option_bind] in H; [|done] end. apply Hadv5 in F13 as [-> ?].
  injection H as <- <- <-. cbn [ber_string]. unfold width. rewrite !zlen_ber_length by lia. change (BerEncoder_determineLengthSize 2) with 1.
  change (BerEncoder_determineLengthSize 4) with 1. change (BerEncoder_determineLengthSize 1) with 1. split; [lia | congruence].
Qed.

Lemma encode_asdus_advances asdus origin : forall b p asdus' b' p',
  Forall asdu_new asdus -> asdus_size asdus < 65535 ->
  encode_asdus asdus origin b p = Some (asdus', b', p') -> p' = p + asdus_size asdus /\ zlen b' = zlen b.
Proof.
  induction asdus as [|a asdus IH]; intros b p asdus' b' p' HF Hs H; cbn [encode_asdus asdus_size] in *; [injection H as <- <- <-; split; [lia | done]|].
  apply Forall_cons_1 in HF as [[Hok _] HF]. pose proof (asdus_size_nonneg asdus). pose proof (asdu_size_nonneg a).
  pose proof (width_pos (asdu_size a) (asdu_size_nonneg a)). pose proof (zlen_ber_length_bounds (asdu_size a)).
  destruct (SVPublisher_ASDU_encodeToBuffer a origin b p) as [[[a1 b1] p1]|] eqn:E1; [|done]. cbn [mbind option_bind] in H.
  apply encodeToBuffer_advances in E1 as [-> Hz1]; [|done | unfold width in *; lia].
  destruct (encode_asdus asdus origin b1 _) as [[[l2 b2] p2]|] eqn:E2; [|done]. cbn [mbind option_bind] in H. apply IH in E2 as [-> Hz2]; [|done | lia].
  injection H as <- <- <-. split; [lia | congruence].
Qed.

Lemma st_zlen {A} (b : list A) i v b' : st b i v = Some b' -> zlen b' = zlen b.
Proof. intros H. apply st_inv in H as [_ ->]. apply zlen_insert. Qed.

(** The length the layout computes. *)
Lemma setupComplete_length p link appId p' :
  publisher_new p link appId -> frame_size link (sv_asduList p) < 65535 -> SVPublisher_setupComplete p = Some p' ->
  sv_payloadStart p' + sv_payloadLength p' = frame_size link (sv_asduList p) /\ zlen (sv_buffer p') = SV_MAX_MESSAGE_SIZE /\
  sv_ethernetSocket p' = sv_ethernetSocket p.
Proof.
  intros (Hz & _ & _ & Hps & _ & HF) Hs H. unfold SVPublisher_setupComplete in H. unfold frame_size in *.
  set (n := zlen (sv_asduList p)) in *. set (size := asdus_size (sv_asduList p)) in *. pose proof (asdus_size_nonneg (sv_asduList p)) as Hs0. fold size in Hs0.
  pose proof (zlen_nonneg link). pose proof (zlen_nonneg (apdu_head n size)). pose proof (zlen_nonneg (sv_asduList p)) as Hn0. fold n in Hn0.
  assert (n <= size) as Hns.
  { unfold n, size. clear. induction (sv_asduList p) as [|a l IH]; [done|]. rewrite zlen_cons. cbn [asdus_size]. pose proof (width_pos (asdu_size a) (asdu_size_nonneg a)). lia. }
  rewrite total_ASDULength_spec in H by (done || fold size; lia). cbn [mbind option_bind] in H. fold size in H. rewrite Z.add_0_l in H.
  rewrite u32_small, UInt32determineEncodedSize_spec in H by lia. cbn [mbind option_bind] in H.
  set (number := ber_tlv 0x80 (ber_uint32 n)). assert (zlen number = 2 + zlen (ber_uint32 n)) as Hnum by apply zlen_tlv_uint32.
  assert (zlen (apdu_head n size) = (1 + zlen (ber_length (zlen number + width size))) + zlen number + (1 + zlen (ber_length size))) as Hhead.
  { unfold apdu_head. fold number. rewrite zlen_cons, !zlen_app, zlen_cons. lia. }
  assert (2 + zlen (ber_uint32 n) + (1 + BerEncoder_determineLengthSize size + size) = zlen number + width size) as Hin
    by (rewrite Hnum; unfold width; rewrite zlen_ber_length; lia).
  rewrite Hin in H. pose proof (zlen_ber_length_bounds (zlen number + width size)). pose proof (zlen_ber_length_bounds size). pose proof (zlen_ber_uint32 n).
  unfold on_ptr in H. destruct ((0 <=? _) && _) eqn:Eb; [|done]. bdestr. rewrite Hps in H, Hb0. clear Hb.
  advance H (encodeTL_advances 0x60 (zlen number + width size) ltac:(unfold width; lia) ltac:(unfold width; lia)).
  advance H (advances_puts (BerEncoder_encodeUInt32WithTL 0x80 n) number _ (encodeUInt32WithTL_puts 0x80 n) eq_refl).
  advance H (encodeTL_advances 0xa2 size ltac:(lia) ltac:(lia)).
  destruct (encode_asdus (sv_asduList p) (zlen link + 10) _ _) as [[[l2 b2] p2]|] eqn:E2; [|done]. cbn [mbind option_bind] in H.
  apply encode_asdus_advances in E2 as [-> Hz2]; [|done | fold size; lia]. fold size in H.
  assert (zlen (take (Z.to_nat (zlen link + 10)) (sv_buffer p) ++ b2) = SV_MAX_MESSAGE_SIZE) as Hlen.
  { rewrite zlen_app, zlen_take by lia. rewrite zlen_drop in * by lia. lia. }
  match type of H with context [?x ≫= _] => destruct x as [b3|] eqn:E3; [|done] end. cbn [mbind option_bind] in H. injection H as <-.
  cbn [sv_payloadStart sv_payloadLength sv_buffer sv_ethernetSocket]. rewrite <- !zlen_ber_length by (unfold width; lia). split; [lia|]. split; [|done].
  rewrite <- Hlen. destruct (negb _); [|by injection E3 as <-].
  destruct (st _ (sv_lengthField p) _) as [b4|] eqn:E4; [|done]. cbn [mbind option_bind] in E3. apply st_zlen in E3, E4. congruence.
Qed.

(** A frame that does not fit: the layout writes behind the buffer, or the message that
    is sent reaches behind it. *)
Lemma setup_overflow p link appId :
  publisher_new p link appId -> SV_MAX_MESSAGE_SIZE < frame_size link (sv_asduList p) < 65535 ->
  (p' ← SVPublisher_setupComplete p; SVPublisher_publish p') = None.
Proof.
  intros Hnew Hs. destruct (SVPublisher_setupComplete p) as [p'|] eqn:E; [|done]. cbn [mbind option_bind].
  destruct (setupComplete_length p link appId p' Hnew) as (Hl & Hz & Hsock); [lia | done|]. destruct Hnew as (_ & Hs1 & _). unfold SVPublisher_publish. rewrite Hsock, Hs1, Hl.
  unfold ld_range. rewrite Hz. replace (_ && _) with false; [done|]. symmetry. apply andb_false_intro2. apply Z.leb_gt. lia.
Qed.
