(* ===== verification/Containers.v ===== *)
(** Containers: src/libiec61850/src/common/linked_list.c, map.c, string_map.c,
    simple_allocator.c and mem_alloc_linked_list.c.

    Lists and maps are cells linked by pointers that functions change in place, and the
    data are pointers too. So there is an explicit heap: a finite map from addresses to
    cells. A pointer is an address, [None] the null pointer. A function takes the heap
    and returns it; [None] is undefined behaviour: a pointer that is null, freed or of
    another type is dereferenced, or a cell is freed twice. What [GLOBAL_MALLOC] returns
    is an argument, [None] when there is no memory left. A loop takes the size of the
    heap as fuel: a list without a cycle has no more cells. *)

From stdpp Require Import gmap.
From S2P Require Import Prelude BerEncoder.
Open Scope Z_scope.

Inductive Cell :=
| Node (data next : option nat)      (** struct sLinkedList *)
| MapEntry (key value : option nat)  (** struct sMapEntry *)
| Str (s : list Z)                   (** a string *)
| Object.                            (** anything else a pointer is for *)

Abbreviation heap := (gmap nat Cell).

(** [GLOBAL_FREEMEM(p)]: the null pointer is allowed *)
Definition free (h : heap) (p : option nat) : option heap :=
  match p with
  | Some a => _ ← h !! a; Some (delete a h)
  | None => Some h
  end.

Definition node (h : heap) (p : option nat) : option (option nat * option nat) :=
  a ← p; match h !! a with Some (Node d n) => Some (d, n) | _ => None end.

(** [p->next = next] *)
Definition set_next (h : heap) (p next : option nat) : option heap :=
  a ← p; '(d, _) ← node h p; Some (<[a := Node d next]> h).

Definition fuel_of (h : heap) : nat := S (size h).

(** * Linked lists *)

Definition LinkedList_getNext (h : heap) (self : option nat) : option (option nat) := '(_, n) ← node h self; Some n.
Definition LinkedList_getData (h : heap) (self : option nat) : option (option nat) := '(d, _) ← node h self; Some d.

Fixpoint getLast_loop (fuel : nat) (h : heap) (self : option nat) : option (option nat) :=
  match fuel with
  | O => None
  | S fuel =>
      next ← LinkedList_getNext h self;
      match next with Some _ => getLast_loop fuel h next | None => Some self end
  end.
Definition LinkedList_getLastElement (h : heap) (self : option nat) : option (option nat) := getLast_loop (fuel_of h) h self.

Definition LinkedList_create (memory : option nat) (h : heap) : option nat * heap :=
  match memory with Some a => (Some a, <[a := Node None None]> h) | None => (None, h) end.

(** the loop of [LinkedList_destroyDeep]: the data that [valueDeleteFunction] is called
    with, and the heap without the list; the function itself is [delete_value] *)
Fixpoint destroyDeep_loop (fuel : nat) (delete_value : heap -> option nat -> option heap) (h : heap) (currentElement : option nat) : option heap :=
  match fuel with
  | O => None
  | S fuel =>
      '(data, nextElement) ← node h currentElement;
      h ← match data with Some _ => delete_value h data | None => Some h end;
      h ← free h currentElement;
      match nextElement with Some _ => destroyDeep_loop fuel delete_value h nextElement | None => Some h end
  end.
Definition LinkedList_destroyDeep (h : heap) (self : option nat) (valueDeleteFunction : heap -> option nat -> option heap) : option heap :=
  match self with Some _ => destroyDeep_loop (fuel_of h) valueDeleteFunction h self | None => Some h end.

Definition LinkedList_destroy (h : heap) (self : option nat) : option heap := LinkedList_destroyDeep h self free.

Fixpoint destroyStatic_loop (fuel : nat) (h : heap) (currentElement : option nat) : option heap :=
  match fuel with
  | O => None
  | S fuel =>
      '(_, nextElement) ← node h currentElement;
      h ← free h currentElement;
      match nextElement with Some _ => destroyStatic_loop fuel h nextElement | None => Some h end
  end.
Definition LinkedList_destroyStatic (h : heap) (self : option nat) : option heap :=
  match self with Some _ => destroyStatic_loop (fuel_of h) h self | None => Some h end.

Fixpoint size_loop (fuel : nat) (h : heap) (nextElement : option nat) (size : Z) : option Z :=
  match fuel with
  | O => None
  | S fuel =>
      next ← LinkedList_getNext h nextElement;
      match next with Some _ => size_loop fuel h next (size + 1) | None => Some size end
  end.
Definition LinkedList_size (h : heap) (self : option nat) : option Z := size_loop (fuel_of h) h self 0.

Definition LinkedList_add (memory : option nat) (h : heap) (self data : option nat) : option heap :=
  let '(newElement, h) := LinkedList_create memory h in
  match newElement with
  | Some a =>
      let h := <[a := Node data None]> h in
      listEnd ← LinkedList_getLastElement h self;
      set_next h listEnd newElement
  | None => Some h
  end.

Fixpoint contains_loop (fuel : nat) (h : heap) (currentElement data : option nat) : option bool :=
  match fuel with
  | O => None
  | S fuel =>
      match currentElement with
      | None => Some false
      | Some _ =>
          '(d, next) ← node h currentElement;
          if decide (d = data) then Some true else contains_loop fuel h next data
      end
  end.
Definition LinkedList_contains (h : heap) (self data : option nat) : option bool :=
  currentElement ← LinkedList_getNext h self; contains_loop (fuel_of h) h currentElement data.

Fixpoint remove_loop (fuel : nat) (h : heap) (lastElement currentElement data : option nat) : option (heap * bool) :=
  match fuel with
  | O => None
  | S fuel =>
      match currentElement with
      | None => Some (h, false)
      | Some _ =>
          '(d, next) ← node h currentElement;
          if decide (d = data) then
            h ← set_next h lastElement next;
            h ← free h currentElement;
            Some (h, true)
          else remove_loop fuel h currentElement next data
      end
  end.
Definition LinkedList_remove (h : heap) (self data : option nat) : option (heap * bool) :=
  currentElement ← LinkedList_getNext h self; remove_loop (fuel_of h) h self currentElement data.

Definition LinkedList_insertAfter (memory : option nat) (h : heap) (self data : option nat) : option (heap * option nat) :=
  let '(newElement, h) := LinkedList_create memory h in
  match newElement with
  | Some a =>
      next ← LinkedList_getNext h self;
      let h := <[a := Node data next]> h in
      h ← set_next h self newElement;
      Some (h, newElement)
  | None => Some (h, newElement)
  end.

(** the loop runs at most [index] times *)
Fixpoint get_loop (n : nat) (h : heap) (element : option nat) : option (option nat) :=
  match n with
  | O => Some element
  | S n =>
      element ← LinkedList_getNext h element;
      match element with None => Some None | Some _ => get_loop n h element end
  end.
Definition LinkedList_get (h : heap) (self : option nat) (index : Z) : option (option nat) :=
  element ← LinkedList_getNext h self; get_loop (Z.to_nat index) h element.

(** the strings that are printed *)
Fixpoint print_loop (fuel : nat) (h : heap) (element : option nat) : option (list (list Z)) :=
  match fuel with
  | O => None
  | S fuel =>
      element ← LinkedList_getNext h element;
      match element with
      | None => Some []
      | Some _ =>
          d ← LinkedList_getData h element; a ← d;
          match h !! a with
          | Some (Str s) => rest ← print_loop fuel h element; Some (c_string s :: rest)
          | _ => None
          end
      end
  end.
Definition LinkedList_printStringList (h : heap) (self : option nat) : option (list (list Z)) := print_loop (fuel_of h) h self.

(** * Maps *)

(** the two functions that compare keys *)
Inductive KeyCompare := comparePointerKeys | strcmpKeys.

Record Map := mkMap { mp_entries : option nat; mp_compareKeys : KeyCompare }.

(** [map->compareKeys(key1, key2) == 0] *)
Definition same_key (h : heap) (c : KeyCompare) (key1 key2 : option nat) : option bool :=
  match c with
  | comparePointerKeys => Some (bool_decide (key2 = key1))
  | strcmpKeys =>
      a1 ← key1; a2 ← key2;
      match h !! a1, h !! a2 with Some (Str s1), Some (Str s2) => Some (bool_decide (c_string s1 = c_string s2)) | _, _ => None end
  end.

Definition Map_create (memory : option nat) (h : heap) : Map * heap :=
  let '(entries, h) := LinkedList_create memory h in (mkMap entries comparePointerKeys, h).

Definition StringMap_create (memory : option nat) (h : heap) : Map * heap :=
  let '(map, h) := Map_create memory h in (mkMap (mp_entries map) strcmpKeys, h).

Definition Map_size (h : heap) (map : Map) : option Z := LinkedList_size h (mp_entries map).

Definition entry (h : heap) (p : option nat) : option (option nat * option nat) :=
  a ← p; match h !! a with Some (MapEntry k v) => Some (k, v) | _ => None end.

(** [memory1] is the entry, [memory2] the element of the list; the entry is not checked *)
Definition Map_addEntry (memory1 memory2 : option nat) (h : heap) (map : Map) (key value : option nat) : option (heap * option nat) :=
  a ← memory1;
  let h := <[a := MapEntry key value]> h in
  h ← LinkedList_add memory2 h (mp_entries map) (Some a);
  '(k, _) ← entry h (Some a);
  Some (h, k).

Fixpoint removeEntry_loop (fuel : nat) (h : heap) (c : KeyCompare) (element lastElement key : option nat) (deleteKey : bool)
  : option (heap * option nat) :=
  match fuel with
  | O => None
  | S fuel =>
      element ← LinkedList_getNext h element;
      match element with
      | None => Some (h, None)
      | Some _ =>
          '(data, next) ← node h element;
          '(k, v) ← entry h data;
          same ← same_key h c key k;
          if same : bool then
            h ← set_next h lastElement next;
            h ← (if deleteKey then free h k else Some h);
            h ← free h data;
            h ← free h element;
            Some (h, v)
          else removeEntry_loop fuel h c element element key deleteKey
      end
  end.
Definition Map_removeEntry (h : heap) (map : Map) (key : option nat) (deleteKey : bool) : option (heap * option nat) :=
  removeEntry_loop (fuel_of h) h (mp_compareKeys map) (mp_entries map) (mp_entries map) key deleteKey.

Fixpoint getEntry_loop (fuel : nat) (h : heap) (c : KeyCompare) (element key : option nat) : option (option nat) :=
  match fuel with
  | O => None
  | S fuel =>
      element ← LinkedList_getNext h element;
      match element with
      | None => Some None
      | Some _ =>
          data ← LinkedList_getData h element;
          '(k, v) ← entry h data;
          same ← same_key h c key k;
          if same : bool then Some v else getEntry_loop fuel h c element key
      end
  end.
Definition Map_getEntry (h : heap) (map : Map) (key : option nat) : option (option nat) :=
  getEntry_loop (fuel_of h) h (mp_compareKeys map) (mp_entries map) key.

(** the loops of the three functions that delete a map; what happens to the value of an
    entry is [delete_value] *)
Fixpoint delete_loop (fuel : nat) (delete_value : heap -> option nat -> option heap) (h : heap) (element : option nat) (deleteKey : bool) : option heap :=
  match fuel with
  | O => None
  | S fuel =>
      element ← LinkedList_getNext h element;
      match element with
      | None => Some h
      | Some _ =>
          data ← LinkedList_getData h element;
          '(k, v) ← entry h data;
          h ← (if deleteKey then free h k else Some h);
          h ← delete_value h v;
          delete_loop fuel delete_value h element deleteKey
      end
  end.

Definition Map_delete (h : heap) (map : Map) (deleteKey : bool) : option heap :=
  h ← delete_loop (fuel_of h) free h (mp_entries map) deleteKey;
  LinkedList_destroy h (mp_entries map).
Definition Map_deleteStatic (h : heap) (map : Map) (deleteKey : bool) : option heap :=
  h ← (if deleteKey then delete_loop (fuel_of h) (fun h _ => Some h) h (mp_entries map) true else Some h);
  LinkedList_destroy h (mp_entries map).
Definition Map_deleteDeep (h : heap) (map : option Map) (deleteKey : bool) (valueDeleteFunction : heap -> option nat -> option heap) : option heap :=
  match map with
  | Some map =>
      h ← delete_loop (fuel_of h) valueDeleteFunction h (mp_entries map) deleteKey;
      LinkedList_destroy h (mp_entries map)
  | None => Some h
  end.

(** * The allocator for a block of memory *)

(** A pointer is an offset in the block. *)
Record MemoryAllocator := mkMemoryAllocator { ma_currentPtr : Z; ma_size : Z }.

Definition MemoryAllocator_init (size : Z) : MemoryAllocator := mkMemoryAllocator 0 size.

(** [CONFIG_IEC61850_FORCE_MEMORY_ALIGNMENT] is 1; pointers have 8 bytes. The
    arithmetic is of the unsigned type of [sizeof]. *)
Definition MemoryAllocator_getAlignedSize (size : Z) : Z :=
  if 0 <? u64 size mod 8 then s32 (u64 (8 * (u64 (size + 8 - 1) / 8))) else size.

Definition MemoryAllocator_allocate (self : MemoryAllocator) (size : Z) : MemoryAllocator * option Z :=
  let size := MemoryAllocator_getAlignedSize size in
  if ma_currentPtr self + size <=? ma_size self then
    (mkMemoryAllocator (ma_currentPtr self + size) (ma_size self), Some (ma_currentPtr self))
  else (self, None).

(** ** Lists in the block of an allocator *)

(** The first cell has the member [ma] too, 24 bytes; it is the argument [ma]. An
    address is the offset of a cell in the block. *)
Definition MemAllocLinkedList_create (ma : MemoryAllocator) (h : heap) : MemoryAllocator * heap * option nat :=
  let '(ma, self) := MemoryAllocator_allocate ma 24 in
  match self with
  | None => (ma, h, None)
  | Some p => (ma, <[Z.to_nat p := Node None None]> h, Some (Z.to_nat p))
  end.

Definition MemAllocLinkedList_add (ma : MemoryAllocator) (h : heap) (self data : option nat) : option (MemoryAllocator * heap * option nat) :=
  let '(ma, newElement) := MemoryAllocator_allocate ma 16 in
  match newElement with
  | None => Some (ma, h, None)
  | Some p =>
      let a := Z.to_nat p in
      let h := <[a := Node data None]> h in
      listEnd ← LinkedList_getLastElement h self;
      h ← set_next h listEnd (Some a);
      Some (ma, h, Some a)
  end.
