(* ===== verification/ContainerFacts.v ===== *)
(** Linked lists refine sequences.

    [chain h p cells] says that the cells of a list, each an address and its data, are
    linked from the pointer [p]; [linked h self cells] that [self] is a list with these
    elements. The operations are those of the sequence of the data, and they leave the
    rest of the heap alone. *)

From S2P Require Import Prelude BerEncoder Containers.
From stdpp Require Import list gmap fin_sets.
Open Scope Z_scope.

Fixpoint chain (h : heap) (p : option nat) (cells : list (nat * option nat)) : Prop :=
  match cells with
  | [] => p = None
  | (a, d) :: cells => p = Some a /\ exists n, h !! a = Some (Node d n) /\ chain h n cells
  end.

Definition linked (h : heap) (self : nat) (cells : list (nat * option nat)) : Prop :=
  NoDup (self :: cells.*1) /\ exists d0 n, h !! self = Some (Node d0 n) /\ chain h n cells.

(** * Chains *)

Lemma chain_frame h h' p cells :
  chain h p cells -> (forall a, a ∈ cells.*1 -> h' !! a = h !! a) -> chain h' p cells.
Proof.
  revert p. induction cells as [|[a d] cells IH]; intros p Hc Hf; cbn in *; [done|].
  destruct Hc as (-> & n & Ha & Hc). split; [done|]. exists n. split; [by rewrite Hf by left|]. apply IH; [done|]. intros b Hb. apply Hf. by right.
Qed.

Lemma chain_node h p cells a : chain h p cells -> a ∈ cells.*1 -> exists d n, h !! a = Some (Node d n).
Proof.
  revert p. induction cells as [|[b d] cells IH]; intros p Hc Ha; cbn [chain fmap list_fmap] in *; [by apply not_elem_of_nil in Ha|].
  destruct Hc as (-> & n & Hb & Hc). apply elem_of_cons in Ha as [->|Ha]; [by eexists _, _ | by eapply IH].
Qed.

Lemma chain_in h p cells a : chain h p cells -> a ∈ cells.*1 -> is_Some (h !! a).
Proof. intros Hc Ha. destruct (chain_node _ _ _ _ Hc Ha) as (d & n & H). by eexists. Qed.

(** a list without a cycle has no more cells than the heap *)
Lemma chain_size (h : heap) (l : list nat) : NoDup l -> (forall a, a ∈ l -> is_Some (h !! a)) -> (length l <= size h)%nat.
Proof.
  intros Hn Hin. rewrite <- (size_dom (D := gset nat) h), <- (size_list_to_set (C := gset nat) l) by done. apply subseteq_size. intros a Ha.
  rewrite elem_of_list_to_set in Ha. apply elem_of_dom. auto.
Qed.

Lemma linked_size h self cells : linked h self cells -> (S (length cells) <= size h)%nat.
Proof.
  intros (Hn & d0 & n & Hs & Hc). pose proof (chain_size h (self :: cells.*1) Hn) as H. cbn in H. rewrite length_fmap in H. apply H.
  intros a Ha. apply elem_of_cons in Ha as [->|Ha]; [by eexists | by eapply chain_in].
Qed.

Lemma node_Some h a d n : h !! a = Some (Node d n) -> node h (Some a) = Some (d, n).
Proof. intros H. unfold node. cbn. by rewrite H. Qed.

Lemma getNext_Some h a d n : h !! a = Some (Node d n) -> LinkedList_getNext h (Some a) = Some n.
Proof. intros H. unfold LinkedList_getNext. by rewrite (node_Some _ _ _ _ H). Qed.

Lemma set_next_Some h a d n n' : h !! a = Some (Node d n) -> set_next h (Some a) n' = Some (<[a := Node d n']> h).
Proof. intros H. unfold set_next. by rewrite (node_Some _ _ _ _ H). Qed.

(** the address of the last element, the list itself when there is none *)
Fixpoint last_addr (self : nat) (cells : list (nat * option nat)) : nat :=
  match cells with [] => self | (a, _) :: cells => last_addr a cells end.

Lemma last_addr_in self cells : last_addr self cells ∈ self :: cells.*1.
Proof. revert self. induction cells as [|[a d] cells IH]; intros self; cbn; [by left|]. right. apply IH. Qed.

Lemma getLast_loop_spec cells : forall fuel h self d0 n,
  h !! self = Some (Node d0 n) -> chain h n cells -> (length cells < fuel)%nat ->
  getLast_loop fuel h (Some self) = Some (Some (last_addr self cells)) /\ exists d, h !! last_addr self cells = Some (Node d None).
Proof.
  induction cells as [|[a d] cells IH]; intros fuel h self d0 n Hs Hc Hf; (destruct fuel as [|fuel]; [cbn in Hf; lia|]); cbn [getLast_loop];
    rewrite (getNext_Some _ _ _ _ Hs); cbn [mbind option_bind].
  - cbn in Hc. subst n. split; [done|]. by exists d0.
  - destruct Hc as (-> & m & Ha & Hc). cbn [last_addr]. apply (IH fuel h a d m Ha Hc). cbn in Hf. lia.
Qed.

(** changing the last link *)
Lemma chain_snoc h cells : forall self d0 n a d,
  h !! self = Some (Node d0 n) -> chain h n cells -> NoDup (self :: cells.*1) -> a ∉ self :: cells.*1 -> h !! a = Some (Node d None) ->
  exists e n', h !! last_addr self cells = Some (Node e None) /\
    let h' := <[last_addr self cells := Node e (Some a)]> h in
    h' !! self = Some (Node d0 n') /\ chain h' n' (cells ++ [(a, d)]).
Proof.
  induction cells as [|[b e] cells IH]; intros self d0 n a d Hs Hc Hn Ha Hd.
  - cbn in Hc. subst n. exists d0, (Some a). split; [done|]. cbn [last_addr app chain]. cbv zeta. rewrite lookup_insert_eq. split; [done|]. split; [done|].
    exists None. split; [|done]. rewrite lookup_insert_ne; [done|]. intros ->. apply Ha. by left.
  - destruct Hc as (-> & m & Hb & Hc). apply NoDup_cons in Hn as [Hn1 Hn]. cbn [last_addr].
    destruct (IH b e m a d Hb Hc Hn) as (e' & n' & Hl & Hs' & Hc'); [intros H; apply Ha; by right | done|].
    exists e', (Some b). split; [done|]. cbn zeta in *. split.
    + rewrite lookup_insert_ne; [done|]. intros Heq. apply Hn1. rewrite <- Heq. apply last_addr_in.
    + cbn [app chain]. split; [done|]. by exists n'.
Qed.

(** * The operations *)

Lemma create_linked a h : h !! a = None -> linked (LinkedList_create (Some a) h).2 a [].
Proof. intros Ha. cbn [LinkedList_create snd]. split; [apply NoDup_singleton|]. exists None, None. by rewrite lookup_insert_eq. Qed.

Section List.
Context (h : heap) (self : nat) (cells : list (nat * option nat)).
Hypothesis Hl : linked h self cells.

Lemma size_spec : LinkedList_size h (Some self) = Some (zlen cells).
Proof.
  pose proof (linked_size _ _ _ Hl) as Hs. destruct Hl as (_ & d0 & n & Hself & Hc). unfold LinkedList_size, fuel_of.
  assert (forall cells fuel self d0 n acc, h !! self = Some (Node d0 n) -> chain h n cells -> (length cells < fuel)%nat ->
    size_loop fuel h (Some self) acc = Some (acc + zlen cells)) as Hgen.
  { clear. induction cells as [|[a d] cells IH]; intros fuel self d0 n acc Hs Hc Hf; (destruct fuel as [|fuel]; [cbn in Hf; lia|]); cbn [size_loop];
      rewrite (getNext_Some _ _ _ _ Hs); cbn [mbind option_bind]; cbn in Hc.
    - subst n. f_equal. unfold zlen. cbn. lia.
    - destruct Hc as (-> & m & Ha & Hc). rewrite (IH fuel a d m) by (done || cbn in Hf; lia). f_equal. rewrite zlen_cons. lia. }
  by rewrite (Hgen cells _ self d0 n 0) by (done || lia).
Qed.

Lemma contains_spec data : LinkedList_contains h (Some self) data = Some (bool_decide (data ∈ cells.*2)).
Proof.
  pose proof (linked_size _ _ _ Hl) as Hs. destruct Hl as (_ & d0 & n & Hself & Hc). unfold LinkedList_contains, fuel_of.
  rewrite (getNext_Some _ _ _ _ Hself). cbn [mbind option_bind].
  assert (forall cells fuel n, chain h n cells -> (length cells < fuel)%nat -> contains_loop fuel h n data = Some (bool_decide (data ∈ cells.*2))) as Hgen.
  { clear. induction cells as [|[a d] cells IH]; intros fuel n Hc Hf; (destruct fuel as [|fuel]; [cbn in Hf; lia|]); cbn [contains_loop]; cbn in Hc.
    - subst n. by rewrite bool_decide_false by (by apply not_elem_of_nil).
    - destruct Hc as (-> & m & Ha & Hc). rewrite (node_Some _ _ _ _ Ha). cbn [mbind option_bind]. cbn [fmap list_fmap snd]. destruct (decide (d = data)) as [->|Hne].
      + by rewrite bool_decide_true by left.
      + rewrite (IH fuel m) by (done || cbn in Hf; lia). f_equal. apply bool_decide_ext. rewrite elem_of_cons. naive_solver. }
  apply Hgen; [done | lia].
Qed.

(** the new element is at the end; the rest of the heap is as before *)
Lemma add_spec a data :
  h !! a = None ->
  exists h', LinkedList_add (Some a) h (Some self) data = Some h' /\ linked h' self (cells ++ [(a, data)]) /\
    forall b, b ∉ self :: cells.*1 -> b <> a -> h' !! b = h !! b.
Proof.
  intros Ha. pose proof (linked_size _ _ _ Hl) as Hs. pose proof Hl as (Hn & d0 & n & Hself & Hc). unfold LinkedList_add, LinkedList_create, LinkedList_getLastElement.
  rewrite insert_insert_eq. set (h1 := <[a := Node data None]> h).
  assert (a ∉ self :: cells.*1) as Hfresh.
  { intros H. apply elem_of_cons in H as [->|H]; [congruence|]. destruct (chain_in _ _ _ _ Hc H). congruence. }
  assert (h1 !! self = Some (Node d0 n)) as Hs1. { unfold h1. rewrite lookup_insert_ne; [done|]. intros ->. apply Hfresh. by left. }
  assert (chain h1 n cells) as Hc1. { apply (chain_frame h); [done|]. intros b Hb. unfold h1. rewrite lookup_insert_ne; [done|]. intros ->. apply Hfresh. by right. }
  destruct (getLast_loop_spec cells (fuel_of h1) h1 self d0 n Hs1 Hc1) as [-> _].
  { unfold fuel_of, h1. rewrite map_size_insert_None by done. lia. }
  cbn [mbind option_bind]. destruct (chain_snoc h1 cells self d0 n a data Hs1 Hc1 Hn Hfresh) as (e & n' & Hlast & Hself' & Hc'); [unfold h1; by rewrite lookup_insert_eq|].
  rewrite (set_next_Some _ _ _ _ _ Hlast). eexists. split; [done|]. split.
  - split; [|by exists d0, n']. rewrite fmap_app, app_comm_cons. apply NoDup_app. split; [done|]. split; [|apply NoDup_singleton].
    intros x Hx Hx2. apply list_elem_of_singleton in Hx2 as ->. done.
  - intros b Hb Hba. rewrite lookup_insert_ne; [unfold h1; by rewrite lookup_insert_ne|]. intros Heq. apply Hb. rewrite <- Heq. apply last_addr_in.
Qed.
End List.

(** ** Removing *)

Lemma remove_loop_found c1 : forall fuel h prev d0 n a data c2,
  h !! prev = Some (Node d0 n) -> chain h n (c1 ++ (a, data) :: c2) -> NoDup (prev :: (c1 ++ (a, data) :: c2).*1) -> data ∉ c1.*2 -> (length c1 < fuel)%nat ->
  exists h', remove_loop fuel h (Some prev) n data = Some (h', true) /\
    (exists n', h' !! prev = Some (Node d0 n') /\ chain h' n' (c1 ++ c2)) /\ h' !! a = None /\
    (forall b, b ∉ prev :: c1.*1 -> b <> a -> h' !! b = h !! b).
Proof.
  induction c1 as [|[b d] c1 IH]; intros fuel h prev d0 n a data c2 Hp Hc Hn Hd Hf; (destruct fuel as [|fuel]; [cbn in Hf; lia|]).
  - cbn [app] in *. destruct Hc as (-> & m & Ha & Hc). cbn [remove_loop]. rewrite (node_Some _ _ _ _ Ha). cbn [mbind option_bind]. rewrite decide_True by done.
    rewrite (set_next_Some _ _ _ _ _ Hp). cbn [mbind option_bind free]. apply NoDup_cons in Hn as [Hn1 Hn]. cbn [fmap list_fmap fst] in Hn1, Hn. apply NoDup_cons in Hn as [Hn2 _].
    assert (a <> prev) as Hne by (intros ->; apply Hn1; by left).
    rewrite lookup_insert_ne, Ha by done. cbn [mbind option_bind]. eexists. split; [done|]. split.
    + exists m. rewrite lookup_delete_ne, lookup_insert_eq by done. split; [done|]. apply (chain_frame h); [done|]. intros x Hx.
      rewrite lookup_delete_ne by (intros ->; done). apply lookup_insert_ne. intros ->. apply Hn1. by right.
    + split; [apply lookup_delete_eq|]. intros x Hx Hxa. rewrite lookup_delete_ne by done. apply lookup_insert_ne. intros ->. apply Hx. by left.
  - cbn [app] in *. destruct Hc as (-> & m & Hb & Hc). cbn [remove_loop]. rewrite (node_Some _ _ _ _ Hb). cbn [mbind option_bind].
    cbn [fmap list_fmap fst snd] in *. apply not_elem_of_cons in Hd as [Hdne Hd]. rewrite decide_False by done.
    apply NoDup_cons in Hn as [Hn1 Hn]. destruct (IH fuel h b d m a data c2 Hb Hc Hn Hd) as (h' & -> & (n' & Hb' & Hc') & Ha' & Hfr); [cbn in Hf; lia|].
    assert (prev ∉ b :: c1.*1 /\ prev <> a) as [Hp1 Hp2].
    { apply not_elem_of_cons in Hn1 as [? Hn1]. rewrite fmap_app in Hn1. cbn in Hn1. apply not_elem_of_app in Hn1 as [? Hn1]. apply not_elem_of_cons in Hn1 as [? _]. set_solver. }
    exists h'. split; [done|]. split.
    + exists (Some b). rewrite Hfr by done. split; [done|]. cbn [chain]. split; [done|]. by exists n'.
    + split; [done|]. intros x Hx Hxa. apply Hfr; [|done]. apply not_elem_of_cons in Hx as [_ Hx]. done.
Qed.

Lemma remove_loop_missing cells : forall fuel h prev n data,
  chain h n cells -> data ∉ cells.*2 -> (length cells < fuel)%nat -> remove_loop fuel h prev n data = Some (h, false).
Proof.
  induction cells as [|[b d] cells IH]; intros fuel h prev n data Hc Hd Hf; (destruct fuel as [|fuel]; [cbn in Hf; lia|]); cbn [remove_loop]; cbn [chain] in Hc.
  - by subst n.
  - destruct Hc as (-> & m & Hb & Hc). rewrite (node_Some _ _ _ _ Hb). cbn [mbind option_bind]. cbn [fmap list_fmap snd] in Hd. apply not_elem_of_cons in Hd as [Hdne Hd].
    rewrite decide_False by done. apply IH; [done | done | cbn in Hf; lia].
Qed.

(** the first element with the data goes, and its cell is freed *)
Lemma remove_spec h self c1 a data c2 :
  linked h self (c1 ++ (a, data) :: c2) -> data ∉ c1.*2 ->
  exists h', LinkedList_remove h (Some self) data = Some (h', true) /\ linked h' self (c1 ++ c2) /\ h' !! a = None /\
    forall b, b ∉ self :: c1.*1 -> b <> a -> h' !! b = h !! b.
Proof.
  intros Hl Hd. pose proof (linked_size _ _ _ Hl) as Hs. rewrite length_app in Hs. destruct Hl as (Hn & d0 & n & Hself & Hc).
  unfold LinkedList_remove, fuel_of. rewrite (getNext_Some _ _ _ _ Hself). cbn [mbind option_bind].
  destruct (remove_loop_found c1 (S (size h)) h self d0 n a data c2 Hself Hc Hn Hd) as (h' & -> & (n' & Hs' & Hc') & Ha & Hfr); [lia|].
  exists h'. split; [done|]. split; [|done]. split; [|by exists d0, n']. revert Hn. rewrite !fmap_app. cbn [fmap list_fmap fst].
  rewrite !NoDup_cons, !NoDup_app, NoDup_cons, !not_elem_of_app, not_elem_of_cons. intros ((? & ? & ?) & ? & Hdis & ? & ?). split_and!; try done. intros x Hx Hx2. apply (Hdis x Hx). by right.
Qed.

Lemma remove_missing h self cells data :
  linked h self cells -> data ∉ cells.*2 -> LinkedList_remove h (Some self) data = Some (h, false).
Proof.
  intros Hl Hd. pose proof (linked_size _ _ _ Hl) as Hs. destruct Hl as (Hn & d0 & n & Hself & Hc). unfold LinkedList_remove, fuel_of.
  rewrite (getNext_Some _ _ _ _ Hself). cbn [mbind option_bind]. apply (remove_loop_missing cells); [done | done | lia].
Qed.

(** ** Access by index *)

Lemma get_loop_spec cells : forall k h a d n,
  h !! a = Some (Node d n) -> chain h n cells ->
  get_loop k h (Some a) = Some (((a, d) :: cells).*1 !! k).
Proof.
  induction cells as [|[b e] cells IH]; intros [|k] h a d n Ha Hc; cbn [get_loop]; try done; rewrite (getNext_Some _ _ _ _ Ha); cbn [mbind option_bind chain] in *.
  - by subst n.
  - destruct Hc as (-> & m & Hb & Hc). by rewrite (IH k h b e m Hb Hc).
Qed.

(** The element with the index, or null behind the end; an empty list has no first
    element to step from, so that every index but zero dereferences null. *)
Lemma get_spec h self cells index :
  linked h self cells -> 0 <= index ->
  LinkedList_get h (Some self) index =
  if decide (cells = [] /\ index <> 0) then None else Some (cells.*1 !! Z.to_nat index).
Proof.
  intros (_ & d0 & n & Hself & Hc) Hi. unfold LinkedList_get. rewrite (getNext_Some _ _ _ _ Hself). cbn [mbind option_bind].
  destruct cells as [|[a d] cells]; cbn [chain] in Hc.
  - subst n. destruct (decide _) as [[_ H]|H].
    + replace (Z.to_nat index) with (S (Z.to_nat (index - 1))) by lia. done.
    + assert (index = 0) as -> by (destruct (decide (index = 0)); [done | by destruct H]). done.
  - destruct Hc as (-> & m & Ha & Hc). rewrite decide_False by (by intros []). by apply (get_loop_spec cells _ h a d m).
Qed.

(** ** Inserting behind an element *)

Lemma insert_chain c1 : forall h prev d0 n e d c2 m new data,
  h !! prev = Some (Node d0 n) -> chain h n (c1 ++ (e, d) :: c2) -> NoDup (prev :: (c1 ++ (e, d) :: c2).*1) -> h !! e = Some (Node d m) ->
  new ∉ prev :: (c1 ++ (e, d) :: c2).*1 ->
  let h' := <[e := Node d (Some new)]> (<[new := Node data m]> h) in
  h' !! prev = Some (Node d0 n) /\ chain h' n (c1 ++ (e, d) :: (new, data) :: c2).
Proof.
  intros h prev d0 n e d c2 m new data Hp Hc Hn He Hnew. cbv zeta. split.
  - rewrite !lookup_insert_ne; [done | |].
    + intros ->. apply Hnew. by left.
    + intros ->. apply NoDup_cons in Hn as [Hn _]. apply Hn. rewrite fmap_app. set_solver.
  - apply NoDup_cons in Hn as [_ Hn]. apply not_elem_of_cons in Hnew as [_ Hnew]. clear Hp. revert n Hc Hn Hnew.
    induction c1 as [|[b x] c1 IH]; intros n Hc Hn Hnew; cbn [app chain] in *.
    + destruct Hc as (-> & m' & He' & Hc). rewrite He in He'. injection He' as <-. split; [done|]. exists (Some new). rewrite lookup_insert_eq. split; [done|]. split; [done|].
      cbn [fmap list_fmap fst] in *. apply NoDup_cons in Hn as [Hn _]. apply not_elem_of_cons in Hnew as [Hne Hnew].
      exists m. rewrite lookup_insert_ne, lookup_insert_eq by done. split; [done|]. apply (chain_frame h); [done|]. intros y Hy. rewrite !lookup_insert_ne; [done | |]; intros ->; done.
    + destruct Hc as (-> & m' & Hb & Hc). cbn [fmap list_fmap fst] in *. apply NoDup_cons in Hn as [Hn1 Hn]. apply not_elem_of_cons in Hnew as [Hne Hnew]. split; [done|]. exists m'.
      rewrite !lookup_insert_ne; [split; [done|]; by apply IH | done |]. intros ->. apply Hn1. rewrite fmap_app. set_solver.
Qed.

(** ** Destroying *)

Lemma destroyStatic_loop_spec cells : forall fuel h self d0 n,
  h !! self = Some (Node d0 n) -> chain h n cells -> NoDup (self :: cells.*1) -> (length cells < fuel)%nat ->
  exists h', destroyStatic_loop fuel h (Some self) = Some h' /\
    forall b, h' !! b = if decide (b ∈ self :: cells.*1) then None else h !! b.
Proof.
  induction cells as [|[a d] cells IH]; intros fuel h self d0 n Hs Hc Hn Hf; (destruct fuel as [|fuel]; [cbn in Hf; lia|]); cbn [destroyStatic_loop];
    rewrite (node_Some _ _ _ _ Hs); cbn [mbind option_bind free]; rewrite Hs; cbn [mbind option_bind]; cbn [chain] in Hc.
  - subst n. eexists. split; [done|]. intros b. destruct (decide _) as [H|H].
    + apply elem_of_cons in H as [->|H]; [apply lookup_delete_eq | by apply not_elem_of_nil in H].
    + apply lookup_delete_ne. intros ->. apply H. by left.
  - destruct Hc as (-> & m & Ha & Hc). cbn [fmap list_fmap fst] in *. apply NoDup_cons in Hn as [Hn1 Hn].
    destruct (IH fuel (delete self h) a d m) as (h' & -> & Hh'); [| | done | cbn in Hf; lia |].
    + rewrite lookup_delete_ne; [done|]. intros ->. apply Hn1. by left.
    + apply (chain_frame h); [done|]. intros b Hb. apply lookup_delete_ne. intros ->. apply Hn1. by right.
    + exists h'. split; [done|]. intros b. rewrite Hh'. destruct (decide (b = self)) as [->|Hne].
      * rewrite decide_False by done. rewrite decide_True by by left. apply lookup_delete_eq.
      * destruct (decide (b ∈ a :: cells.*1)) as [Hb|Hb]; [by rewrite decide_True by by right|]. rewrite decide_False; [by apply lookup_delete_ne|].
        intros H. apply elem_of_cons in H as [|]; done.
Qed.

Lemma destroyStatic_spec h self cells :
  linked h self cells ->
  exists h', LinkedList_destroyStatic h (Some self) = Some h' /\ forall b, h' !! b = if decide (b ∈ self :: cells.*1) then None else h !! b.
Proof.
  intros Hl. pose proof (linked_size _ _ _ Hl) as Hs. destruct Hl as (Hn & d0 & n & Hself & Hc). unfold LinkedList_destroyStatic, fuel_of.
  apply (destroyStatic_loop_spec cells _ _ _ d0 n); (done || lia).
Qed.

(** * Maps *)

(** an entry of a map: the cell of the list, the cell of the entry, key and value *)
Record MapItem := mkMapItem { mi_cell : nat; mi_entry : nat; mi_key : option nat; mi_value : option nat }.

Definition item_cell (i : MapItem) : nat * option nat := (mi_cell i, Some (mi_entry i)).

Definition map_rep (h : heap) (map : Map) (items : list MapItem) : Prop :=
  exists self, mp_entries map = Some self /\ linked h self (item_cell <$> items) /\
    Forall (fun i => h !! mi_entry i = Some (MapEntry (mi_key i) (mi_value i))) items /\ NoDup (mi_entry <$> items).

(** the key can be compared with those of the map *)
Definition keys_ok (h : heap) (c : KeyCompare) (key : option nat) (items : list MapItem) : Prop :=
  Forall (fun i => is_Some (same_key h c key (mi_key i))) items.

Definition matches (h : heap) (c : KeyCompare) (key : option nat) (i : MapItem) : Prop := same_key h c key (mi_key i) = Some true.
#[export] Instance matches_dec h c key i : Decision (matches h c key i).
Proof. unfold matches. apply _. Defined.

(** the first entry with the key *)
Fixpoint map_find (h : heap) (c : KeyCompare) (key : option nat) (items : list MapItem) : option MapItem :=
  match items with
  | [] => None
  | i :: items => if decide (matches h c key i) then Some i else map_find h c key items
  end.

Lemma map_find_app h c key l1 l2 :
  map_find h c key (l1 ++ l2) = match map_find h c key l1 with Some i => Some i | None => map_find h c key l2 end.
Proof. induction l1 as [|i l1 IH]; cbn; [done|]. by destruct (decide _). Qed.

Lemma same_key_match h c key i : is_Some (same_key h c key (mi_key i)) -> same_key h c key (mi_key i) = Some (bool_decide (matches h c key i)).
Proof.
  intros [b Hb]. rewrite Hb. unfold matches. f_equal. symmetry. destruct b; [by apply bool_decide_eq_true | apply bool_decide_eq_false]. congruence.
Qed.

Lemma entry_Some h e k v : h !! e = Some (MapEntry k v) -> entry h (Some e) = Some (k, v).
Proof. intros H. unfold entry. cbn. by rewrite H. Qed.

Lemma getEntry_loop_spec c key items : forall fuel h self d0 n,
  h !! self = Some (Node d0 n) -> chain h n (item_cell <$> items) -> Forall (fun i => h !! mi_entry i = Some (MapEntry (mi_key i) (mi_value i))) items ->
  keys_ok h c key items -> (length items < fuel)%nat ->
  getEntry_loop fuel h c (Some self) key = Some (i ← map_find h c key items; mi_value i).
Proof.
  induction items as [|i items IH]; intros fuel h self d0 n Hs Hc HF Hk Hf; (destruct fuel as [|fuel]; [cbn in Hf; lia|]); cbn [getEntry_loop];
    rewrite (getNext_Some _ _ _ _ Hs); cbn [mbind option_bind]; cbn [fmap list_fmap chain] in Hc.
  - by subst n.
  - destruct Hc as (-> & m & Ha & Hc). apply Forall_cons in HF as [He HF]. apply Forall_cons in Hk as [Hk1 Hk].
    unfold LinkedList_getData. rewrite (node_Some _ _ _ _ Ha). cbn [mbind option_bind]. rewrite (entry_Some _ _ _ _ He). cbn [mbind option_bind].
    rewrite (same_key_match _ _ _ _ Hk1). cbn [mbind option_bind map_find]. destruct (decide (matches h c key i)) as [Hm|Hm].
    + by rewrite bool_decide_true.
    + rewrite bool_decide_false by done. apply (IH fuel h (mi_cell i) (Some (mi_entry i)) m); (done || cbn in Hf; lia).
Qed.

(** The value of the first entry with the key. *)
Lemma getEntry_spec h map items key :
  map_rep h map items -> keys_ok h (mp_compareKeys map) key items ->
  Map_getEntry h map key = Some (i ← map_find h (mp_compareKeys map) key items; mi_value i).
Proof.
  intros (self & Hm & Hl & HF & _) Hk. pose proof (linked_size _ _ _ Hl) as Hs. rewrite length_fmap in Hs. destruct Hl as (_ & d0 & n & Hself & Hc).
  unfold Map_getEntry, fuel_of. rewrite Hm. apply (getEntry_loop_spec _ _ items _ _ _ d0 n); (done || lia).
Qed.

(** a new entry is behind the others; strings stay where they are *)
Lemma addEntry_spec h map items a1 a2 key value :
  map_rep h map items -> h !! a1 = None -> h !! a2 = None -> a1 <> a2 ->
  exists h', Map_addEntry (Some a1) (Some a2) h map key value = Some (h', key) /\ map_rep h' map (items ++ [mkMapItem a2 a1 key value]) /\
    forall b s, h !! b = Some (Str s) -> h' !! b = Some (Str s).
Proof.
  intros (self & Hm & Hl & HF & Hnd) Ha1 Ha2 Hne. unfold Map_addEntry. cbn [mbind option_bind]. rewrite Hm.
  set (h1 := <[a1 := MapEntry key value]> h).
  assert (forall b x, h !! b = Some x -> h1 !! b = Some x) as Hmono by (intros b x Hb; unfold h1; rewrite lookup_insert_ne; [done | congruence]).
  assert (linked h1 self (item_cell <$> items)) as Hl1.
  { destruct Hl as (Hn & d0 & n & Hs & Hc). split; [done|]. exists d0, n. split; [by apply Hmono|]. apply (chain_frame h); [done|].
    intros b Hb. destruct (chain_in _ _ _ _ Hc Hb) as [x Hx]. rewrite Hx. by apply Hmono. }
  assert (forall b, is_Some (h !! b) -> (forall d n, h !! b <> Some (Node d n)) -> b ∉ self :: (item_cell <$> items).*1) as Hnode.
  { intros b [x Hx] Hnn Hb. destruct Hl as (_ & d0 & n & Hs & Hc). apply elem_of_cons in Hb as [->|Hb]; [by apply (Hnn d0 n)|].
    destruct (chain_node _ _ _ _ Hc Hb) as (d & m & Hd). by apply (Hnn d m). }
  destruct (add_spec h1 self _ Hl1 a2 (Some a1)) as (h' & -> & Hl' & Hfr); [unfold h1; by rewrite lookup_insert_ne|]. cbn [mbind option_bind].
  assert (forall b x, h !! b = Some x -> (forall d n, x <> Node d n) -> h' !! b = Some x) as Hkeep.
  { intros b x Hb Hx. rewrite Hfr; [by apply Hmono | apply Hnode; [by eexists | congruence] | congruence]. }
  assert (h' !! a1 = Some (MapEntry key value)) as He.
  { rewrite Hfr; [unfold h1; apply lookup_insert_eq | | done]. intros Hb. destruct Hl as (_ & d0 & n & Hs & Hc). apply elem_of_cons in Hb as [->|Hb]; [congruence|].
    destruct (chain_in _ _ _ _ Hc Hb). congruence. }
  rewrite (entry_Some _ _ _ _ He). cbn [mbind option_bind]. exists h'. split; [done|]. split; [|intros b s Hb; by apply Hkeep].
  exists self. split; [done|]. rewrite fmap_app. split; [done|]. split.
  - apply Forall_app. split; [|by apply Forall_singleton]. eapply Forall_impl; [exact HF|]. intros i Hi. cbn. by apply Hkeep.
  - rewrite fmap_app. apply NoDup_app. split; [done|]. split; [|apply NoDup_singleton]. intros x Hx Hx2. apply list_elem_of_singleton in Hx2 as ->. cbn in Hx.
    apply list_elem_of_fmap in Hx as (i & Hi & Hin). rewrite Forall_forall in HF. specialize (HF i Hin). rewrite <- Hi in HF. congruence.
Qed.

(** ** Removing an entry *)

Lemma removeEntry_loop_spec c key l1 : forall fuel h prev d0 n i l2,
  h !! prev = Some (Node d0 n) -> chain h n (item_cell <$> l1 ++ i :: l2) -> NoDup (prev :: (item_cell <$> l1 ++ i :: l2).*1) ->
  Forall (fun i => h !! mi_entry i = Some (MapEntry (mi_key i) (mi_value i))) (l1 ++ i :: l2) -> keys_ok h c key (l1 ++ i :: l2) ->
  Forall (fun j => ~ matches h c key j) l1 -> matches h c key i -> (length l1 < fuel)%nat ->
  exists h', removeEntry_loop fuel h c (Some prev) (Some prev) key false = Some (h', mi_value i) /\
    (exists n', h' !! prev = Some (Node d0 n') /\ chain h' n' (item_cell <$> l1 ++ l2)) /\ h' !! mi_cell i = None /\ h' !! mi_entry i = None /\
    (forall b, b ∉ prev :: (item_cell <$> l1).*1 -> b <> mi_cell i -> b <> mi_entry i -> h' !! b = h !! b).
Proof.
  induction l1 as [|j l1 IH]; intros fuel h prev d0 n i l2 Hp Hc Hn HF Hk Hno Hi Hf; (destruct fuel as [|fuel]; [cbn in Hf; lia|]); cbn [removeEntry_loop];
    rewrite (getNext_Some _ _ _ _ Hp); cbn [mbind option_bind]; cbn [app fmap list_fmap chain] in *.
  - destruct Hc as (-> & m & Ha & Hc). apply Forall_cons in HF as [He HF]. apply Forall_cons in Hk as [Hk1 _]. rewrite (node_Some _ _ _ _ Ha). cbn [mbind option_bind].
    rewrite (entry_Some _ _ _ _ He). cbn [mbind option_bind]. rewrite (same_key_match _ _ _ _ Hk1), bool_decide_true by done. cbn [mbind option_bind].
    rewrite (set_next_Some _ _ _ _ _ Hp). cbn [mbind option_bind free]. apply NoDup_cons in Hn as [Hn1 Hn]. cbn [item_cell fst] in Hn1, Hn. apply NoDup_cons in Hn as [Hn2 _].
    assert (mi_cell i <> prev) by (intros E; apply Hn1; rewrite <- E; by left). assert (mi_entry i <> prev) by congruence. assert (mi_entry i <> mi_cell i) by congruence.
    rewrite lookup_insert_ne, He by done. cbn [mbind option_bind]. rewrite lookup_delete_ne, lookup_insert_ne, Ha by done. cbn [mbind option_bind].
    eexists. split; [done|]. split.
    + exists m. rewrite !lookup_delete_ne, lookup_insert_eq by done. split; [done|]. apply (chain_frame h); [done|]. intros x Hx.
      destruct (chain_in _ _ _ _ Hc Hx) as [y Hy]. rewrite lookup_delete_ne by (intros E; apply Hn2; by rewrite E).
      rewrite lookup_delete_ne; [apply lookup_insert_ne; intros ->; apply Hn1; by right|]. intros E.
      destruct (chain_node _ _ _ _ Hc Hx) as (d & n & Hx').
      rewrite <- E in Hx'. congruence.
    + split; [apply lookup_delete_eq|]. split; [rewrite lookup_delete_ne by done; apply lookup_delete_eq|]. intros b Hb Hb1 Hb2. rewrite !lookup_delete_ne by done.
      apply lookup_insert_ne. intros ->. apply Hb. by left.
  - destruct Hc as (-> & m & Ha & Hc). apply Forall_cons in HF as [He HF]. apply Forall_cons in Hk as [Hk1 Hk]. apply Forall_cons in Hno as [Hno1 Hno].
    rewrite (node_Some _ _ _ _ Ha). cbn [mbind option_bind]. rewrite (entry_Some _ _ _ _ He). cbn [mbind option_bind].
    rewrite (same_key_match _ _ _ _ Hk1), bool_decide_false by done. cbn [mbind option_bind]. apply NoDup_cons in Hn as [Hn1 Hn]. cbn [item_cell fst] in Hn1, Hn.
    destruct (IH fuel h (mi_cell j) (Some (mi_entry j)) m i l2 Ha Hc Hn HF Hk Hno Hi) as (h' & -> & (n' & Hj & Hc') & H1 & H2 & Hfr); [cbn in Hf; lia|].
    exists h'. split; [done|].
    assert (prev ∉ mi_cell j :: (item_cell <$> l1).*1 /\ prev <> mi_cell i) as [Hp1 Hp2].
    { apply not_elem_of_cons in Hn1 as [E1 Hn1]. rewrite !fmap_app in Hn1. cbn in Hn1. apply not_elem_of_app in Hn1 as [E2 Hn1]. apply not_elem_of_cons in Hn1 as [E3 _].
      split; [by apply not_elem_of_cons | done]. }
    assert (prev <> mi_entry i) as Hp3.
    { intros ->. apply Forall_app in HF as [_ HF]. apply Forall_cons in HF as [HF _]. congruence. }
    split; [|split; [done|]; split; [done|]; intros b Hb; apply Hfr; apply not_elem_of_cons in Hb as [_ Hb]; done].
    exists (Some (mi_cell j)). rewrite Hfr by done. split; [done|]. cbn. split; [done|]. by exists n'.
Qed.

(** The first entry with the key goes, its cells are freed, and its value is returned. *)
Lemma removeEntry_spec h map l1 i l2 key :
  map_rep h map (l1 ++ i :: l2) -> keys_ok h (mp_compareKeys map) key (l1 ++ i :: l2) ->
  Forall (fun j => ~ matches h (mp_compareKeys map) key j) l1 -> matches h (mp_compareKeys map) key i ->
  exists h', Map_removeEntry h map key false = Some (h', mi_value i) /\ map_rep h' map (l1 ++ l2) /\ h' !! mi_cell i = None /\ h' !! mi_entry i = None.
Proof.
  intros (self & Hm & Hl & HF & Hnd) Hk Hno Hi. pose proof (linked_size _ _ _ Hl) as Hs. rewrite length_fmap, length_app in Hs. destruct Hl as (Hn & d0 & n & Hself & Hc).
  unfold Map_removeEntry, fuel_of. rewrite Hm.
  destruct (removeEntry_loop_spec _ key l1 (S (size h)) h self d0 n i l2 Hself Hc Hn HF Hk Hno Hi) as (h' & -> & (n' & Hs' & Hc') & H1 & H2 & Hfr); [lia|].
  exists h'. split; [done|]. split; [|done]. exists self. split; [done|]. split; [|split].
  - split; [|by exists d0, n']. revert Hn. rewrite !fmap_app. cbn [fmap list_fmap fst item_cell].
    rewrite !NoDup_cons, !NoDup_app, NoDup_cons, !not_elem_of_app, not_elem_of_cons. intros ((? & ? & ?) & ? & Hdis & ? & ?). split_and!; try done. intros x Hx Hx2. apply (Hdis x Hx). by right.
  - assert (forall j, j ∈ l1 ++ l2 -> j ∈ l1 ++ i :: l2) as Hsub by (intros j; rewrite !elem_of_app, elem_of_cons; tauto).
    apply Forall_forall. intros j Hj. rewrite Forall_forall in HF. specialize (HF j (Hsub j Hj)). rewrite Hfr; [done | | |].
    + intros Hin. assert (exists d m, h !! mi_entry j = Some (Node d m)) as (d & m & Hx); [|congruence].
      apply elem_of_cons in Hin as [->|Hin]; [by eexists _, _|]. apply (chain_node _ _ _ _ Hc). rewrite !fmap_app. apply elem_of_app. by left.
    + intros E. assert (exists d m, h !! mi_cell i = Some (Node d m)) as (d & m & Hx); [|rewrite E in HF; congruence].
      apply (chain_node _ _ _ _ Hc). rewrite !fmap_app. apply elem_of_app. right. by left.
    + intros E. rewrite !fmap_app in Hnd. cbn in Hnd. apply NoDup_app in Hnd as (_ & Hdis & Hnd). apply NoDup_cons in Hnd as [Hnd _].
      apply elem_of_app in Hj as [Hj|Hj].
      * apply (Hdis (mi_entry j)); [by apply list_elem_of_fmap_2 | rewrite E; by left].
      * apply Hnd. rewrite <- E. by apply list_elem_of_fmap_2.
  - revert Hnd. rewrite !fmap_app. cbn [fmap list_fmap]. rewrite !NoDup_app, NoDup_cons. intros (? & Hdis & ? & ?). split_and!; try done. intros x Hx Hx2. apply (Hdis x Hx). by right.
Qed.

(** * The allocator *)

Lemma alignedSize_spec size : 0 <= size < 2147483640 ->
  let n := MemoryAllocator_getAlignedSize size in size <= n < size + 8 /\ n mod 8 = 0.
Proof.
  intros Hs. unfold MemoryAllocator_getAlignedSize, u64. rewrite (Z.mod_small size) by lia. cbv zeta. pose proof (Z.mod_pos_bound size 8 ltac:(lia)). pose proof (Z.div_mod size 8 ltac:(lia)).
  destruct (0 <? size mod 8) eqn:E; bdestr; [|lia]. rewrite (Z.mod_small (size + 8 - 1)) by lia.
  assert ((size + 8 - 1) / 8 = size / 8 + 1) as ->. { symmetry. apply Z.div_unique with (r := size mod 8 - 1); lia. }
  rewrite (Z.mod_small (8 * _)) by lia. unfold s32. rewrite Z.mod_small by lia.
  replace (8 * (size / 8 + 1) + 2147483648 - 2147483648) with ((size / 8 + 1) * 8) by lia. rewrite Z.mod_mul by lia. lia.
Qed.
