(* ===== verification/MmsTypeSpec.v ===== *)
(** Descriptions of types with their names, and variables by name:
    src/libiec61850/src/mms/iso_mms/common/mms_type_spec.c, and the look-up of a
    variable of a domain in src/libiec61850/src/mms/iso_mms/server/mms_domain.c.

    A name is a path of names separated by dollar signs. *)

From S2P Require Import Prelude BerEncoder BerDecoder BerInteger StringUtils CText CFloat MmsValue MmsFacts.
Open Scope Z_scope.

Unset Elimination Schemes.

(** [struct sMmsVariableSpecification] with the name; the type of [TypeSimple] is
    neither an array nor a structure. *)
Inductive MmsTypeSpec :=
| TypeArray (name : option (list Z)) (elementCount : Z) (elementTypeSpec : MmsTypeSpec)
| TypeStructure (name : option (list Z)) (elements : list MmsTypeSpec)
| TypeSimple (name : option (list Z)) (type : MmsVariableSpecification).

Set Elimination Schemes.

Definition type_name (self : MmsTypeSpec) : option (list Z) :=
  match self with TypeArray name _ _ | TypeStructure name _ | TypeSimple name _ => name end.

(** the description without the names *)
Fixpoint unnamed (self : MmsTypeSpec) : MmsVariableSpecification :=
  match self with
  | TypeArray _ elementCount elementTypeSpec => SpecArray elementCount (unnamed elementTypeSpec)
  | TypeStructure _ elements => SpecStructure (unnamed <$> elements)
  | TypeSimple _ type => type
  end.

(** * Names *)

(** [strncmp(s, t, n) == 0] *)
Fixpoint strncmp_eq (s t : list Z) (n : nat) : option bool :=
  match n with
  | O => Some true
  | S n =>
      match s, t with
      | a :: s, b :: t => if a =? b then if a =? 0 then Some true else strncmp_eq s t n else Some false
      | _, _ => None
      end
  end.

Fixpoint directChildStrLen (childId : list Z) : option Z :=
  match childId with
  | [] => None
  | c :: childId =>
      if c =? 0 then Some 0
      else if (c =? 36) || (c =? 46) then Some 0
      else n ← directChildStrLen childId; Some (n + 1)
  end.

(** [strlen(name) == len && strncmp(name, nameId, len) == 0] *)
Definition name_is (name nameId : list Z) (len : Z) : option bool :=
  n ← strlen name;
  if n =? len then strncmp_eq name nameId (Z.to_nat len) else Some false.

(** * Values by name *)

(** the loops over the elements of a structure, with the recursive call as an argument *)
Section Loops.
Context (getChildValue : MmsTypeSpec -> option MmsValue -> list Z -> option (option MmsValue)).
Fixpoint child_value (childId : list Z) (childLen childIdLen : Z) (elements : list MmsTypeSpec) (components : list (option MmsValue))
  : option (option MmsValue) :=
  match elements, components with
  | element :: elements, component :: components =>
      name ← type_name element;
      found ← name_is name childId childLen;
      if found : bool then
        if childLen =? childIdLen then Some component
        else getChildValue element component (ptr_add childId (childLen + 1))
      else child_value childId childLen childIdLen elements components
  | _, _ => Some None
  end.

Context (isValueOfType : MmsVariableSpecification -> option MmsValue -> option bool).
Fixpoint components_typed (elements : list MmsVariableSpecification) (components : list (option MmsValue)) : option bool :=
  match elements, components with
  | element :: elements, component :: components =>
      same ← isValueOfType element component;
      if same : bool then components_typed elements components else Some false
  | _, _ => Some true
  end.
Fixpoint elements_typed (elementTypeSpec : MmsVariableSpecification) (components : list (option MmsValue)) : option bool :=
  match components with
  | component :: components =>
      same ← isValueOfType elementTypeSpec component;
      if same : bool then elements_typed elementTypeSpec components else Some false
  | [] => Some true
  end.

Context (getNamedVariable : MmsTypeSpec -> list Z -> option (option MmsTypeSpec)).
Fixpoint named_element (nameId : list Z) (separator : Z) (elements : list MmsTypeSpec) : option (option MmsTypeSpec) :=
  match elements with
  | element :: elements =>
      name ← type_name element;
      found ← name_is name nameId separator;
      if found : bool then
        match element with
        | TypeSimple _ _ => Some None
        | _ => getNamedVariable element (ptr_add nameId (separator + 1))
        end
      else named_element nameId separator elements
  | [] => Some None
  end.
End Loops.

(** A null value is dereferenced. *)
Fixpoint MmsVariableSpecification_getChildValue (typeSpec : MmsTypeSpec) (value : option MmsValue) (childId : list Z) : option (option MmsValue) :=
  value ← value;
  match typeSpec, value with
  | TypeStructure _ elements, MmsStructure components =>
      childIdLen ← strlen childId;
      childLen ← directChildStrLen childId;
      if negb (zlen elements =? zlen components) then Some None
      else child_value MmsVariableSpecification_getChildValue childId childLen childIdLen elements components
  | _, _ => Some None
  end.

Definition MmsValue_getSubElement (self : option MmsValue) (varSpec : option MmsTypeSpec) (mmsPath : list Z) : option (option MmsValue) :=
  varSpec ← varSpec; MmsVariableSpecification_getChildValue varSpec self mmsPath.

Fixpoint MmsVariableSpecification_isValueOfType (self : MmsVariableSpecification) (value : option MmsValue) : option bool :=
  value ← value;
  match self, value with
  | SpecStructure elements, MmsStructure components =>
      if negb (zlen elements =? zlen components) then Some false
      else components_typed MmsVariableSpecification_isValueOfType elements components
  | SpecArray elementCount elementTypeSpec, MmsArray components =>
      if negb (elementCount =? zlen components) then Some false
      else elements_typed MmsVariableSpecification_isValueOfType elementTypeSpec components
  | SpecBitString n, MmsBitString size _ => Some ((n =? size) || (n <? 0))
  | SpecFloat exponentWidth formatWidth, MmsFloat ew fw _ => Some ((exponentWidth =? ew) && (formatWidth =? fw))
  | SpecBinaryTime n, MmsBinaryTime size _ => Some (n =? size)
  | SpecBoolean, MmsBoolean _ | SpecInteger _, MmsInteger _ | SpecUnsigned _, MmsUnsigned _
  | SpecOctetString _, MmsOctetString _ _ _ | SpecVisibleString _, MmsVisibleString _ _ | SpecString _, MmsString _ _
  | SpecUtcTime, MmsUtcTime _ | SpecDataAccessError, MmsDataAccessError _ => Some true
  | _, _ => Some false
  end.

(** * Types by name *)

(** [typeSpec.structure.elementCount] of a simple type: the first member of the union *)
Definition simple_count (type : MmsVariableSpecification) : Z :=
  match type with
  | SpecBitString n | SpecInteger n | SpecUnsigned n | SpecOctetString n | SpecVisibleString n | SpecBinaryTime n | SpecString n => n
  | SpecFloat exponentWidth formatWidth => exponentWidth + 256 * formatWidth
  | _ => 0
  end.

(** the first variable with a name for which [is_name] holds *)
Fixpoint named_variable (namedVariables : list MmsTypeSpec) (is_name : list Z -> option bool) : option (option MmsTypeSpec) :=
  match namedVariables with
  | [] => Some None
  | variable :: namedVariables =>
      name ← type_name variable;
      same ← is_name name;
      if same : bool then Some (Some variable) else named_variable namedVariables is_name
  end.

(** The elements of a simple type, if it seems to have any, are a null pointer. *)
Fixpoint MmsVariableSpecification_getNamedVariableRecursive (variable : MmsTypeSpec) (nameId : list Z) : option (option MmsTypeSpec) :=
  match variable with
  | TypeArray _ _ elementTypeSpec => MmsVariableSpecification_getNamedVariableRecursive elementTypeSpec nameId
  | TypeStructure _ elements =>
      separator ← strchr nameId 36;
      match separator with
      | None => named_variable elements (fun name => strcmp_eq name nameId)
      | Some separator => named_element MmsVariableSpecification_getNamedVariableRecursive nameId separator elements
      end
  | TypeSimple _ type =>
      separator ← strchr nameId 36;
      match separator with
      | None => Some None
      | Some _ => if 0 <? simple_count type then None else Some None
      end
  end.

(** the variables of the domain, or a null pointer *)
Definition MmsDomain_getNamedVariable (namedVariables : option (list MmsTypeSpec)) (nameId : list Z) : option (option MmsTypeSpec) :=
  match namedVariables with
  | None => Some None
  | Some namedVariables =>
      separator ← strchr nameId 36;
      match separator with
      | None => named_variable namedVariables (fun name => strcmp_eq name nameId)
      | Some separator =>
          namedVariable ← named_variable namedVariables (fun name => name_is name nameId separator);
          match namedVariable with
          | Some namedVariable => MmsVariableSpecification_getNamedVariableRecursive namedVariable (ptr_add nameId (separator + 1))
          | None => Some None
          end
      end
  end.

(** * Parts of a description *)

Definition MmsVariableSpecification_getName (self : MmsTypeSpec) : option (list Z) := type_name self.

Definition MmsVariableSpecification_getSize (self : MmsTypeSpec) : Z :=
  match self with
  | TypeStructure _ elements => zlen elements
  | TypeArray _ elementCount _ => elementCount
  | TypeSimple _ (SpecInteger n) | TypeSimple _ (SpecUnsigned n) | TypeSimple _ (SpecBitString n) | TypeSimple _ (SpecBinaryTime n)
  | TypeSimple _ (SpecOctetString n) | TypeSimple _ (SpecVisibleString n) | TypeSimple _ (SpecString n) => n
  | TypeSimple _ (SpecFloat _ formatWidth) => formatWidth
  | TypeSimple _ _ => -1
  end.

(** the copies of the names; [None] for a null pointer *)
Definition MmsVariableSpecification_getStructureElements (self : MmsTypeSpec) : option (option (list (option (list Z)))) :=
  match self with
  | TypeStructure _ elements => names ← mapM (fun e => StringUtils_copyString (type_name e)) elements; Some (Some names)
  | _ => Some None
  end.

Definition MmsVariableSpecification_getChildSpecificationByIndex (self : MmsTypeSpec) (index : Z) : option MmsTypeSpec :=
  match self with
  | TypeStructure _ elements => if (zlen elements <=? index) || (index <? 0) then None else elements !! Z.to_nat index
  | _ => None
  end.

Fixpoint child_by_name (elements : list MmsTypeSpec) (name : list Z) (i : Z) : option (option (Z * MmsTypeSpec)) :=
  match elements with
  | [] => Some None
  | element :: elements =>
      element_name ← type_name element;
      same ← strcmp_eq element_name name;
      if same : bool then Some (Some (i, element)) else child_by_name elements name (i + 1)
  end.
(** the index and the element *)
Definition MmsVariableSpecification_getChildSpecificationByName (self : MmsTypeSpec) (name : list Z) : option (option (Z * MmsTypeSpec)) :=
  match self with
  | TypeStructure _ elements => child_by_name elements name 0
  | _ => Some None
  end.

Definition MmsVariableSpecification_getArrayElementSpecification (self : MmsTypeSpec) : option MmsTypeSpec :=
  match self with TypeArray _ _ elementTypeSpec => Some elementTypeSpec | _ => None end.

Definition MmsVariableSpecification_getExponentWidth (self : MmsTypeSpec) : Z :=
  match self with TypeSimple _ (SpecFloat exponentWidth _) => exponentWidth | _ => -1 end.

(** * Facts *)

Section Induction.
Context (P : MmsTypeSpec -> Prop).
Hypothesis HArray : forall name n e, P e -> P (TypeArray name n e).
Hypothesis HStructure : forall name es, Forall P es -> P (TypeStructure name es).
Hypothesis HSimple : forall name t, P (TypeSimple name t).
Fixpoint MmsTypeSpec_elements_ind (t : MmsTypeSpec) : P t :=
  match t with
  | TypeArray name n e => HArray name n e (MmsTypeSpec_elements_ind e)
  | TypeStructure name es =>
      HStructure name es ((fix go (l : list MmsTypeSpec) : Forall P l :=
        match l with [] => @Forall_nil _ P | e :: l => @Forall_cons _ P e l (MmsTypeSpec_elements_ind e) (go l) end) es)
  | TypeSimple name ty => HSimple name ty
  end.
End Induction.

(** ** Names *)

Lemma strlen_cons_inv c s n : strlen (c :: s) = Some n -> (c = 0 /\ n = 0) \/ (c <> 0 /\ exists m, strlen s = Some m /\ n = m + 1).
Proof. cbn. destruct (Z.eqb_spec c 0); [intros [= <-]; by left|]. intros (m & Hm & [= <-])%bind_Some. right. eauto. Qed.
Lemma strlen_nonneg s n : strlen s = Some n -> 0 <= n.
Proof. intros H. apply strlen_c_string in H as (-> & _). apply zlen_nonneg. Qed.

(** a path without a dot: the first name ends at the first dollar sign, or with the path *)
Lemma directChild_strchr s n : strlen s = Some n -> 46 ∉ c_string s ->
  exists k, strchr s 36 = Some k /\ directChildStrLen s = Some (default n k) /\ match k with Some k => 0 <= k < n | None => True end.
Proof.
  revert n. induction s as [|c s IH]; intros n Hn Hd; [done|]. pose proof (strlen_nonneg _ _ Hn).
  apply strlen_cons_inv in Hn as [[-> ->]|(Hc & m & Hm & ->)]; [by exists None|]. cbn in Hd |- *.
  rewrite (proj2 (Z.eqb_neq c 0)) in Hd |- * by done. apply not_elem_of_cons in Hd as [H46 Hd].
  rewrite (proj2 (Z.eqb_neq c 46)) by done. pose proof (strlen_nonneg _ _ Hm).
  destruct (Z.eqb_spec c 36); cbn [orb]; [exists (Some 0); cbn; split_and!; done || lia|]. destruct (IH m Hm Hd) as (k & -> & -> & Hk).
  exists (option_map (Z.add 1) k). cbn. destruct k as [k|]; cbn; split_and!; try done; try lia. f_equal. lia.
Qed.

(** the comparison of two names *)
Lemma name_is_strcmp a s n b : strlen s = Some n -> name_is a s n = Some b -> strcmp_eq a s = Some b.
Proof.
  unfold name_is. intros Hn (m & Hm & H)%bind_Some. rewrite <- H. clear H. revert m s n Hm Hn.
  induction a as [|c a IH]; intros m s n Hm Hn; [done|]. destruct s as [|d s]; [done|].
  pose proof (strlen_nonneg _ _ Hm). pose proof (strlen_nonneg _ _ Hn).
  apply strlen_cons_inv in Hm as [[-> ->]|(Hc & m' & Hm & ->)]; apply strlen_cons_inv in Hn as [[-> ->]|(Hd & n' & Hn & ->)].
  - done.
  - pose proof (strlen_nonneg _ _ Hn). rewrite (proj2 (Z.eqb_neq 0 _)) by lia. cbn [strcmp_eq]. by rewrite (proj2 (Z.eqb_neq 0 d)).
  - pose proof (strlen_nonneg _ _ Hm). rewrite (proj2 (Z.eqb_neq _ 0)) by lia. cbn [strcmp_eq]. by rewrite (proj2 (Z.eqb_neq c 0)).
  - pose proof (strlen_nonneg _ _ Hn). cbn [strcmp_eq]. rewrite (IH m' s n') by done.
    replace (Z.to_nat (n' + 1)) with (S (Z.to_nat n')) by lia. cbn [strncmp_eq]. rewrite (proj2 (Z.eqb_neq c 0)) by done.
    destruct (Z.eqb_spec c d), (Z.eqb_spec m' n'), (Z.eqb_spec (m' + 1) (n' + 1)); lia || done.
Qed.

Lemma c_string_drop s n k : strlen s = Some n -> (Z.of_nat k <= n) -> c_string (drop k s) = drop k (c_string s).
Proof.
  revert s n. induction k as [|k IH]; intros s n Hn Hk; [done|]. destruct s as [|c s]; [done|].
  apply strlen_cons_inv in Hn as [[-> ->]|(Hc & m & Hm & ->)]; [lia|]. cbn. rewrite (proj2 (Z.eqb_neq c 0)) by done. apply (IH s m Hm). lia.
Qed.
Lemma dot_free_rest s n k : strlen s = Some n -> 0 <= k < n -> 46 ∉ c_string s -> 46 ∉ c_string (ptr_add s (k + 1)).
Proof.
  intros Hn Hk Hd H. apply Hd. unfold ptr_add in H. rewrite (c_string_drop s n) in H by (done || lia).
  rewrite <- (take_drop (Z.to_nat (k + 1)) (c_string s)). apply elem_of_app. by right.
Qed.

(** ** Types of values *)

Notation typed t v := (MmsVariableSpecification_isValueOfType (unnamed t) v = Some true).

(** what the values by name and the types by name have in common *)
Definition child_typed (t : MmsTypeSpec) : Prop := forall v path v',
  typed t (Some v) -> 46 ∉ c_string path ->
  MmsVariableSpecification_getChildValue t (Some v) path = Some (Some v') ->
  exists t', MmsVariableSpecification_getNamedVariableRecursive t path = Some (Some t') /\ typed t' (Some v').

Lemma components_typed_cons e es c cs :
  components_typed MmsVariableSpecification_isValueOfType (e :: es) (c :: cs) = Some true ->
  MmsVariableSpecification_isValueOfType e c = Some true /\ components_typed MmsVariableSpecification_isValueOfType es cs = Some true.
Proof. cbn. intros ([] & H & H')%bind_Some; done. Qed.

(** the last name of a path *)
Lemma child_last es path n v' : strlen path = Some n -> forall cs,
  components_typed MmsVariableSpecification_isValueOfType (unnamed <$> es) cs = Some true ->
  child_value MmsVariableSpecification_getChildValue path n n es cs = Some (Some v') ->
  exists t', named_variable es (fun name => strcmp_eq name path) = Some (Some t') /\ typed t' (Some v').
Proof.
  intros Hn. induction es as [|e es IH]; intros [|c cs] Ht E; try done. cbn in E.
  apply bind_Some in E as (name & Hname & E). apply bind_Some in E as (b & Hb & E).
  rewrite fmap_cons in Ht. apply components_typed_cons in Ht as [He Ht]. cbn. rewrite Hname. cbn. rewrite (name_is_strcmp _ _ _ _ Hn Hb).
  cbn. destruct b; [|by apply IH with cs]. rewrite Z.eqb_refl in E. injection E as ->. by exists e.
Qed.

(** a name before the last one *)
Lemma child_inner es path n k v' : strlen path = Some n -> 0 <= k < n -> 46 ∉ c_string path -> Forall child_typed es -> forall cs,
  components_typed MmsVariableSpecification_isValueOfType (unnamed <$> es) cs = Some true ->
  child_value MmsVariableSpecification_getChildValue path k n es cs = Some (Some v') ->
  exists t', named_element MmsVariableSpecification_getNamedVariableRecursive path k es = Some (Some t') /\ typed t' (Some v').
Proof.
  intros Hn Hk Hd IHes. induction IHes as [|e es IHe _ IH]; intros [|c cs] Ht E; try done. cbn in E.
  apply bind_Some in E as (name & Hname & E). apply bind_Some in E as (b & Hb & E).
  rewrite fmap_cons in Ht. apply components_typed_cons in Ht as [He Ht]. cbn [named_element]. rewrite Hname. cbn [mbind option_bind]. rewrite Hb.
  cbn [mbind option_bind]. destruct b; [|by apply IH with cs]. rewrite (proj2 (Z.eqb_neq k n)) in E by lia. destruct c as [c|].
  - destruct (IHe _ _ _ He (dot_free_rest _ _ _ Hn Hk Hd) E) as (t' & Ht' & Hty).
    destruct e as [nm m e|nm es'|nm ty]; [by exists t'..|]. by destruct ty.
  - by destruct e.
Qed.

Lemma child_typed_all t : child_typed t.
Proof.
  induction t as [nm m e IH|nm es IH|nm ty] using MmsTypeSpec_elements_ind; intros v path v' Ht Hd E; [done| |done].
  destruct v; try done. cbn in Ht, E. rewrite zlen_fmap in Ht. apply bind_Some in E as (n & Hn & E). apply bind_Some in E as (k & Hk & E).
  destruct (zlen es =? zlen components) eqn:Hl; cbn [negb] in *; [|done].
  destruct (directChild_strchr path n Hn Hd) as (sep & Hsep & Hdc & Hr). rewrite Hdc in Hk. injection Hk as <-.
  cbn [MmsVariableSpecification_getNamedVariableRecursive]. rewrite Hsep. cbn [mbind option_bind].
  destruct sep as [k|]; cbn [default from_option id] in E; [by eapply child_inner|by eapply child_last].
Qed.

(** ** Paths with dots

    The values by name take dots for separators as well, the types by name do not: the
    same path with dollar signs for the dots. *)
Definition dollars (path : list Z) : list Z := (fun c => if c =? 46 then 36 else c) <$> path.

Lemma strlen_dollars s : strlen (dollars s) = strlen s.
Proof.
  induction s as [|c s IH]; [done|]. unfold dollars in *. rewrite fmap_cons. cbn [strlen]. rewrite IH. by destruct (Z.eqb_spec c 46) as [->|].
Qed.
Lemma directChild_dollars s : directChildStrLen (dollars s) = directChildStrLen s.
Proof.
  induction s as [|c s IH]; [done|]. unfold dollars in *. rewrite fmap_cons. cbn [directChildStrLen]. rewrite IH.
  destruct (Z.eqb_spec c 46) as [->|]; [done|]. by rewrite (proj2 (Z.eqb_neq c 46)).
Qed.

(** the first name has no dot *)
Lemma strncmp_dollars s : forall k a, directChildStrLen s = Some k -> strncmp_eq a (dollars s) (Z.to_nat k) = strncmp_eq a s (Z.to_nat k).
Proof.
  induction s as [|c s IH]; intros k a Hk; [done|]. cbn in Hk. destruct (c =? 0) eqn:E0; [by injection Hk as <-; destruct a|].
  destruct (c =? 36) eqn:E36, (c =? 46) eqn:E46; cbn [orb] in Hk; try (by injection Hk as <-; destruct a).
  apply bind_Some in Hk as (n & Hn & [= <-]). assert (0 <= n) as H0.
  { clear -Hn. revert n Hn. induction s as [|c s IH]; intros n; [done|]. cbn. repeat case_match; try (intros [= <-]; lia).
    intros (m & Hm & [= <-])%bind_Some. specialize (IH m Hm). lia. }
  replace (Z.to_nat (n + 1)) with (S (Z.to_nat n)) by lia. destruct a as [|x a]; [done|]. cbn. rewrite E46. fold (dollars s). by rewrite (IH n a Hn).
Qed.

Lemma child_value_dollars path k n es : directChildStrLen path = Some k ->
  Forall (fun t => forall v path, MmsVariableSpecification_getChildValue t v (dollars path) = MmsVariableSpecification_getChildValue t v path) es -> forall cs,
  child_value MmsVariableSpecification_getChildValue (dollars path) k n es cs = child_value MmsVariableSpecification_getChildValue path k n es cs.
Proof.
  intros Hk. induction 1 as [|e es He _ IH]; intros [|c cs]; try done. cbn [child_value]. destruct (type_name e) as [name|]; [|done]. cbn [mbind option_bind].
  unfold name_is. destruct (strlen name) as [m|]; [|done]. cbn [mbind option_bind]. rewrite (strncmp_dollars _ _ name Hk), IH.
  assert (ptr_add (dollars path) (k + 1) = dollars (ptr_add path (k + 1))) as -> by (symmetry; apply fmap_drop). by rewrite He.
Qed.

Lemma getChildValue_dollars t : forall v path,
  MmsVariableSpecification_getChildValue t v (dollars path) = MmsVariableSpecification_getChildValue t v path.
Proof.
  induction t as [nm m e IH|nm es IH|nm ty] using MmsTypeSpec_elements_ind; intros [v|] path; try done. destruct v; try done.
  cbn [MmsVariableSpecification_getChildValue mbind option_bind]. rewrite strlen_dollars, directChild_dollars.
  destruct (strlen path) as [n|]; [|done]. destruct (directChildStrLen path) as [k|] eqn:Hk; [|done]. cbn [mbind option_bind]. case_match; [done|].
  by apply child_value_dollars.
Qed.

Lemma dollars_dot_free s : 46 ∉ c_string (dollars s).
Proof.
  induction s as [|c s IH]; [apply not_elem_of_nil|]. unfold dollars in *. rewrite fmap_cons. cbn [c_string]. case_match; [apply not_elem_of_nil|].
  apply not_elem_of_cons. split; [|exact IH]. destruct (Z.eqb_spec c 46); [done | congruence].
Qed.

(** ** Default values *)

Section SpecInduction.
Context (P : MmsVariableSpecification -> Prop).
Hypothesis HArray : forall n e, P e -> P (SpecArray n e).
Hypothesis HStructure : forall es, Forall P es -> P (SpecStructure es).
Hypothesis HSimple : forall t, match t with SpecArray _ _ | SpecStructure _ => False | _ => True end -> P t.
Fixpoint spec_elements_ind (t : MmsVariableSpecification) : P t :=
  match t with
  | SpecArray n e => HArray n e (spec_elements_ind e)
  | SpecStructure es =>
      HStructure es ((fix go (l : list MmsVariableSpecification) : Forall P l :=
        match l with [] => @Forall_nil _ P | e :: l => @Forall_cons _ P e l (spec_elements_ind e) (go l) end) es)
  | t => HSimple t I
  end.
End SpecInduction.

(** counts are not negative, and a time of day takes four or six octets *)
Fixpoint spec_ok (t : MmsVariableSpecification) : Prop :=
  match t with
  | SpecArray n e => 0 <= n /\ spec_ok e
  | SpecStructure es => (fix go l := match l with [] => True | e :: l => spec_ok e /\ go l end) es
  | SpecBinaryTime n => n = 4 \/ n = 6
  | _ => True
  end.

Definition default_typed_at (t : MmsVariableSpecification) : Prop := forall v,
  spec_ok t -> MmsValue_newDefaultValue t = Some (Some v) -> MmsVariableSpecification_isValueOfType t (Some v) = Some true.

Lemma elements_typed_replicate e v n : MmsVariableSpecification_isValueOfType e (Some v) = Some true ->
  elements_typed MmsVariableSpecification_isValueOfType e (replicate n (Some v)) = Some true.
Proof. intros H. induction n as [|n IH]; [done|]. cbn [replicate elements_typed]. rewrite H. exact IH. Qed.

Lemma default_components es vs : Forall default_typed_at es ->
  (fix go l := match l with [] => True | e :: l => spec_ok e /\ go l end) es ->
  (fix go (l : list MmsVariableSpecification) : option (option (list (option MmsValue))) :=
     match l with
     | [] => Some (Some [])
     | s :: l =>
         v ← MmsValue_newDefaultValue s;
         match v with
         | None => Some None
         | Some v => vs ← go l; Some (vs ← vs; Some (Some v :: vs))
         end
     end) es = Some (Some vs) ->
  zlen vs = zlen es /\ components_typed MmsVariableSpecification_isValueOfType es vs = Some true.
Proof.
  intros Hes. revert vs. induction Hes as [|e es He _ IH]; intros vs Hok E; [by injection E as <-|].
  destruct Hok as [Hoke Hok]. apply bind_Some in E as (v & Ev & E). destruct v as [v|]; [|done].
  apply bind_Some in E as (vs0 & Evs & E). destruct vs0 as [vs0|]; [|done]. cbn in E. injection E as <-.
  destruct (IH vs0 Hok Evs) as [Hl Ht]. rewrite !zlen_cons, Hl. split; [done|]. cbn [components_typed]. rewrite (He v Hoke Ev). exact Ht.
Qed.

Lemma default_typed t : default_typed_at t.
Proof.
  induction t as [n e IH|es IH|t Hs] using spec_elements_ind; intros v Hok E; cbn in E.
  - destruct Hok as [Hn Hok]. apply bind_Some in E as (ev & Eev & E). destruct ev as [ev|].
    + injection E as <-. cbn. rewrite zlen_replicate, Z2Nat.id, Z.eqb_refl by lia. cbn. by apply elements_typed_replicate, IH.
    + destruct (Z.leb_spec n 0); [|done]. injection E as <-. cbn. by replace n with 0 by lia.
  - apply bind_Some in E as (vs & Evs & E). destruct vs as [vs|]; [|done]. cbn in E. injection E as <-.
    destruct (default_components es vs IH Hok Evs) as [Hl Ht]. cbn. by rewrite Hl, Z.eqb_refl.
  - destruct t; try done; cbn [MmsValue_newDefaultValue] in E;
      try (apply bind_Some in E as (s & Es & E); apply bind_Some in Es as (buf & _ & Es); injection Es as <-); injection E as <-;
      cbn -[Z.eqb Z.ltb]; unfold MmsValue_newInteger, MmsValue_newUnsigned; repeat case_match; try done.
    + destruct (Z.ltb_spec bitString 0); [by rewrite orb_true_r|]. by rewrite Z.abs_eq, Z.eqb_refl by done.
    + by rewrite !Z.eqb_refl.
    + by destruct Hok as [-> | ->].
    + by destruct Hok as [-> | ->].
Qed.
