(* ===== verification/Control.v ===== *)
(** Control objects of the IEC 61850 server:
    src/libiec61850/src/iec61850/server/mms_mapping/control.c.

    A control object is a record; the functions on it are written in a monad that
    carries the object and the rest of the server they touch: the time of the next
    check, the clock, the connected clients, and the events that leave the component
    (messages, calls of the handlers of the application, updates of attributes). The
    clock gives a value for every reading. Pointers to connections are numbers. The
    values [oper], [sbo], [sbow] and [cancel] are components of the value of the
    object, kept as their indexes. The handlers are an argument; what they may change is the
    error and the additional cause, with [ControlAction_setError] and
    [ControlAction_setAddCause]. The calls of the component are taken one after the other.
    The events [E_Selected] and [E_Unselected] stand where the code prints that the
    object was selected or unselected; [E_Track] is the update of a tracking object
    with its service and error, whose other fields are left out. *)

From Stdlib Require Import String.
From S2P Require Import Prelude BerEncoder BerDecoder BerInteger StringUtils CText CFloat MmsValue MmsFacts IecCommon ObjectReference MmsTypeSpec.
Open Scope Z_scope.

(** * Data *)

Inductive ControlState :=
| STATE_UNSELECTED | STATE_READY | STATE_WAIT_FOR_ACTIVATION_TIME | STATE_PERFORM_TEST
| STATE_WAIT_FOR_EXECUTION | STATE_OPERATE | STATE_WAIT_FOR_SELECT.

#[export] Instance ControlState_eq_dec : EqDecision ControlState.
Proof. solve_decision. Defined.

Inductive ControlModel :=
| CONTROL_MODEL_STATUS_ONLY | CONTROL_MODEL_DIRECT_NORMAL | CONTROL_MODEL_SBO_NORMAL
| CONTROL_MODEL_DIRECT_ENHANCED | CONTROL_MODEL_SBO_ENHANCED.

#[export] Instance ControlModel_eq_dec : EqDecision ControlModel.
Proof. solve_decision. Defined.

(** [(ctlModel == 2) || (ctlModel == 4)] *)
Definition is_sbo (m : ControlModel) : bool :=
  match m with CONTROL_MODEL_SBO_NORMAL | CONTROL_MODEL_SBO_ENHANCED => true | _ => false end.
(** [(ctlModel == 4) || (ctlModel == 3)] *)
Definition is_enhanced (m : ControlModel) : bool :=
  match m with CONTROL_MODEL_DIRECT_ENHANCED | CONTROL_MODEL_SBO_ENHANCED => true | _ => false end.

Inductive CheckHandlerResult :=
| CONTROL_ACCEPTED | CONTROL_WAITING_FOR_SELECT | CONTROL_HARDWARE_FAULT | CONTROL_TEMPORARILY_UNAVAILABLE
| CONTROL_OBJECT_ACCESS_DENIED | CONTROL_OBJECT_UNDEFINED | CONTROL_VALUE_INVALID.

(** [(MmsDataAccessError) checkResult] *)
Definition check_int (r : CheckHandlerResult) : Z :=
  match r with
  | CONTROL_ACCEPTED => -1 | CONTROL_WAITING_FOR_SELECT => 0 | CONTROL_HARDWARE_FAULT => 1
  | CONTROL_TEMPORARILY_UNAVAILABLE => 2 | CONTROL_OBJECT_ACCESS_DENIED => 3
  | CONTROL_OBJECT_UNDEFINED => 4 | CONTROL_VALUE_INVALID => 11
  end.

Inductive ControlHandlerResult := CONTROL_RESULT_FAILED | CONTROL_RESULT_OK | CONTROL_RESULT_WAITING.

Inductive SelectStateChangedReason :=
| SELECT_STATE_REASON_SELECTED | SELECT_STATE_REASON_CANCELED | SELECT_STATE_REASON_TIMEOUT
| SELECT_STATE_REASON_OPERATED | SELECT_STATE_REASON_OPERATE_FAILED | SELECT_STATE_REASON_DISCONNECTED.

Definition DATA_ACCESS_ERROR_NO_RESPONSE : Z := -2.
Definition DATA_ACCESS_ERROR_SUCCESS : Z := -1.
Definition DATA_ACCESS_ERROR_TEMPORARILY_UNAVAILABLE : Z := 2.
Definition DATA_ACCESS_ERROR_OBJECT_ACCESS_DENIED : Z := 3.

Definition CONTROL_ERROR_NO_ERROR : Z := 0.
Definition ADD_CAUSE_UNKNOWN : Z := 0.
Definition ADD_CAUSE_SELECT_FAILED : Z := 3.
Definition ADD_CAUSE_BLOCKED_BY_INTERLOCKING : Z := 10.
Definition ADD_CAUSE_BLOCKED_BY_SYNCHROCHECK : Z := 11.
Definition ADD_CAUSE_COMMAND_ALREADY_IN_EXECUTION : Z := 12.
Definition ADD_CAUSE_OBJECT_NOT_SELECTED : Z := 18.
Definition ADD_CAUSE_OBJECT_ALREADY_SELECTED : Z := 19.
Definition ADD_CAUSE_INCONSISTENT_PARAMETERS : Z := 26.
Definition ADD_CAUSE_LOCKED_BY_OTHER_CLIENT : Z := 27.

Definition PENDING_EVENT_SELECTED : Z := 1.
Definition PENDING_EVENT_UNSELECTED : Z := 2.
Definition PENDING_EVENT_OP_RCVD_TRUE : Z := 4.
Definition PENDING_EVENT_OP_RCVD_FALSE : Z := 8.
Definition PENDING_EVENT_OP_OK_TRUE : Z := 16.
Definition PENDING_EVENT_OP_OK_FALSE : Z := 32.

Definition IEC61850_SERVICE_TYPE_UNKOWN : Z := 0.
Definition IEC61850_SERVICE_TYPE_SELECT : Z := 43.
Definition IEC61850_SERVICE_TYPE_SELECT_WITH_VALUES : Z := 44.
Definition IEC61850_SERVICE_TYPE_CANCEL : Z := 45.
Definition IEC61850_SERVICE_TYPE_OPERATE : Z := 46.
Definition IEC61850_SERVICE_TYPE_COMMAND_TERMINATION : Z := 47.
Definition IEC61850_SERVICE_TYPE_TIME_ACTIVATED_OPERATE : Z := 48.

Definition CONFIG_CONTROL_DEFAULT_SBO_TIMEOUT : Z := 15000.

(** a domain: its address and its name *)
Record MmsDomain := mkMmsDomain { md_address : nat; md_domainName : list Z }.

(** [stSeld], [opRcvd] and [opOk] say whether the attribute exists; [tOpOk] is its value. *)
Record ControlObject := mkControlObject {
  co_mmsDomain : MmsDomain;
  co_lnName : list Z;
  co_name : list Z;
  co_state : ControlState;
  co_ctlModel : ControlModel;
  co_pendingEvents : Z;
  co_testMode : bool;
  co_interlockCheck : bool;
  co_synchroCheck : bool;
  co_timeActivatedOperate : bool;
  co_isSelect : bool;
  co_addCauseValue : Z;
  co_errorValue : Z;
  co_mmsValue : option MmsValue;
  co_oper : option Z;
  co_sbo : option Z;
  co_sbow : option Z;
  co_cancel : option Z;
  co_ctlVal : option MmsValue;
  co_ctlNum : option MmsValue;
  co_origin : option MmsValue;
  co_T : list Z;
  co_ctlNumSt : option MmsValue;
  co_originSt : option MmsValue;
  co_stSeld : bool;
  co_opRcvd : bool;
  co_opOk : bool;
  co_tOpOk : option MmsValue;
  co_error : option MmsValue;
  co_addCause : option MmsValue;
  co_selectTime : Z;
  co_selectTimeout : Z;
  co_sboClass : option MmsValue;
  co_sboTimeout : option MmsValue;
  co_operateTime : Z;
  co_mmsConnection : option nat;
  co_operateInvokeId : Z;
  co_typeSpec : option MmsTypeSpec
}.

(** the assignments to single members; [co_with_elements] sets the components of the value *)
Definition co_with_elements (oper sbo sbow cancel : option Z) (co : ControlObject) : ControlObject :=
  let 'mkControlObject x0 x1 x2 x3 x4 x5 x6 x7 x8 x9 x10 x11 x12 x13 _ _ _ _ x18 x19 x20 x21 x22 x23 x24 x25 x26 x27 x28 x29 x30 x31 x32 x33 x34 x35 x36 x37 := co in
  mkControlObject x0 x1 x2 x3 x4 x5 x6 x7 x8 x9 x10 x11 x12 x13 oper sbo sbow cancel x18 x19 x20 x21 x22 x23 x24 x25 x26 x27 x28 x29 x30 x31 x32 x33 x34 x35 x36 x37.
Definition co_with_state (state : ControlState) (co : ControlObject) : ControlObject :=
  let 'mkControlObject x0 x1 x2 _ x4 x5 x6 x7 x8 x9 x10 x11 x12 x13 x14 x15 x16 x17 x18 x19 x20 x21 x22 x23 x24 x25 x26 x27 x28 x29 x30 x31 x32 x33 x34 x35 x36 x37 := co in
  mkControlObject x0 x1 x2 state x4 x5 x6 x7 x8 x9 x10 x11 x12 x13 x14 x15 x16 x17 x18 x19 x20 x21 x22 x23 x24 x25 x26 x27 x28 x29 x30 x31 x32 x33 x34 x35 x36 x37.
Definition co_with_ctlModel (ctlModel : ControlModel) (co : ControlObject) : ControlObject :=
  let 'mkControlObject x0 x1 x2 x3 _ x5 x6 x7 x8 x9 x10 x11 x12 x13 x14 x15 x16 x17 x18 x19 x20 x21 x22 x23 x24 x25 x26 x27 x28 x29 x30 x31 x32 x33 x34 x35 x36 x37 := co in
  mkControlObject x0 x1 x2 x3 ctlModel x5 x6 x7 x8 x9 x10 x11 x12 x13 x14 x15 x16 x17 x18 x19 x20 x21 x22 x23 x24 x25 x26 x27 x28 x29 x30 x31 x32 x33 x34 x35 x36 x37.
Definition co_with_pendingEvents (pendingEvents : Z) (co : ControlObject) : ControlObject :=
  let 'mkControlObject x0 x1 x2 x3 x4 _ x6 x7 x8 x9 x10 x11 x12 x13 x14 x15 x16 x17 x18 x19 x20 x21 x22 x23 x24 x25 x26 x27 x28 x29 x30 x31 x32 x33 x34 x35 x36 x37 := co in
  mkControlObject x0 x1 x2 x3 x4 pendingEvents x6 x7 x8 x9 x10 x11 x12 x13 x14 x15 x16 x17 x18 x19 x20 x21 x22 x23 x24 x25 x26 x27 x28 x29 x30 x31 x32 x33 x34 x35 x36 x37.
Definition co_with_testMode (testMode : bool) (co : ControlObject) : ControlObject :=
  let 'mkControlObject x0 x1 x2 x3 x4 x5 _ x7 x8 x9 x10 x11 x12 x13 x14 x15 x16 x17 x18 x19 x20 x21 x22 x23 x24 x25 x26 x27 x28 x29 x30 x31 x32 x33 x34 x35 x36 x37 := co in
  mkControlObject x0 x1 x2 x3 x4 x5 testMode x7 x8 x9 x10 x11 x12 x13 x14 x15 x16 x17 x18 x19 x20 x21 x22 x23 x24 x25 x26 x27 x28 x29 x30 x31 x32 x33 x34 x35 x36 x37.
Definition co_with_checks (synchroCheck : bool) (interlockCheck : bool) (co : ControlObject) : ControlObject :=
  let 'mkControlObject x0 x1 x2 x3 x4 x5 x6 _ _ x9 x10 x11 x12 x13 x14 x15 x16 x17 x18 x19 x20 x21 x22 x23 x24 x25 x26 x27 x28 x29 x30 x31 x32 x33 x34 x35 x36 x37 := co in
  mkControlObject x0 x1 x2 x3 x4 x5 x6 interlockCheck synchroCheck x9 x10 x11 x12 x13 x14 x15 x16 x17 x18 x19 x20 x21 x22 x23 x24 x25 x26 x27 x28 x29 x30 x31 x32 x33 x34 x35 x36 x37.
Definition co_with_timeActivated (timeActivatedOperate : bool) (co : ControlObject) : ControlObject :=
  let 'mkControlObject x0 x1 x2 x3 x4 x5 x6 x7 x8 _ x10 x11 x12 x13 x14 x15 x16 x17 x18 x19 x20 x21 x22 x23 x24 x25 x26 x27 x28 x29 x30 x31 x32 x33 x34 x35 x36 x37 := co in
  mkControlObject x0 x1 x2 x3 x4 x5 x6 x7 x8 timeActivatedOperate x10 x11 x12 x13 x14 x15 x16 x17 x18 x19 x20 x21 x22 x23 x24 x25 x26 x27 x28 x29 x30 x31 x32 x33 x34 x35 x36 x37.
Definition co_with_isSelect (isSelect : bool) (co : ControlObject) : ControlObject :=
  let 'mkControlObject x0 x1 x2 x3 x4 x5 x6 x7 x8 x9 _ x11 x12 x13 x14 x15 x16 x17 x18 x19 x20 x21 x22 x23 x24 x25 x26 x27 x28 x29 x30 x31 x32 x33 x34 x35 x36 x37 := co in
  mkControlObject x0 x1 x2 x3 x4 x5 x6 x7 x8 x9 isSelect x11 x12 x13 x14 x15 x16 x17 x18 x19 x20 x21 x22 x23 x24 x25 x26 x27 x28 x29 x30 x31 x32 x33 x34 x35 x36 x37.
Definition co_with_addCauseValue (addCauseValue : Z) (co : ControlObject) : ControlObject :=
  let 'mkControlObject x0 x1 x2 x3 x4 x5 x6 x7 x8 x9 x10 _ x12 x13 x14 x15 x16 x17 x18 x19 x20 x21 x22 x23 x24 x25 x26 x27 x28 x29 x30 x31 x32 x33 x34 x35 x36 x37 := co in
  mkControlObject x0 x1 x2 x3 x4 x5 x6 x7 x8 x9 x10 addCauseValue x12 x13 x14 x15 x16 x17 x18 x19 x20 x21 x22 x23 x24 x25 x26 x27 x28 x29 x30 x31 x32 x33 x34 x35 x36 x37.
Definition co_with_errorValue (errorValue : Z) (co : ControlObject) : ControlObject :=
  let 'mkControlObject x0 x1 x2 x3 x4 x5 x6 x7 x8 x9 x10 x11 _ x13 x14 x15 x16 x17 x18 x19 x20 x21 x22 x23 x24 x25 x26 x27 x28 x29 x30 x31 x32 x33 x34 x35 x36 x37 := co in
  mkControlObject x0 x1 x2 x3 x4 x5 x6 x7 x8 x9 x10 x11 errorValue x13 x14 x15 x16 x17 x18 x19 x20 x21 x22 x23 x24 x25 x26 x27 x28 x29 x30 x31 x32 x33 x34 x35 x36 x37.
Definition co_with_mmsValue (mmsValue : option MmsValue) (co : ControlObject) : ControlObject :=
  let 'mkControlObject x0 x1 x2 x3 x4 x5 x6 x7 x8 x9 x10 x11 x12 _ x14 x15 x16 x17 x18 x19 x20 x21 x22 x23 x24 x25 x26 x27 x28 x29 x30 x31 x32 x33 x34 x35 x36 x37 := co in
  mkControlObject x0 x1 x2 x3 x4 x5 x6 x7 x8 x9 x10 x11 x12 mmsValue x14 x15 x16 x17 x18 x19 x20 x21 x22 x23 x24 x25 x26 x27 x28 x29 x30 x31 x32 x33 x34 x35 x36 x37.
Definition co_with_parameters (ctlVal : option MmsValue) (ctlNum : option MmsValue) (origin : option MmsValue) (co : ControlObject) : ControlObject :=
  let 'mkControlObject x0 x1 x2 x3 x4 x5 x6 x7 x8 x9 x10 x11 x12 x13 x14 x15 x16 x17 _ _ _ x21 x22 x23 x24 x25 x26 x27 x28 x29 x30 x31 x32 x33 x34 x35 x36 x37 := co in
  mkControlObject x0 x1 x2 x3 x4 x5 x6 x7 x8 x9 x10 x11 x12 x13 x14 x15 x16 x17 ctlVal ctlNum origin x21 x22 x23 x24 x25 x26 x27 x28 x29 x30 x31 x32 x33 x34 x35 x36 x37.
Definition co_with_T (T : list Z) (co : ControlObject) : ControlObject :=
  let 'mkControlObject x0 x1 x2 x3 x4 x5 x6 x7 x8 x9 x10 x11 x12 x13 x14 x15 x16 x17 x18 x19 x20 _ x22 x23 x24 x25 x26 x27 x28 x29 x30 x31 x32 x33 x34 x35 x36 x37 := co in
  mkControlObject x0 x1 x2 x3 x4 x5 x6 x7 x8 x9 x10 x11 x12 x13 x14 x15 x16 x17 x18 x19 x20 T x22 x23 x24 x25 x26 x27 x28 x29 x30 x31 x32 x33 x34 x35 x36 x37.
Definition co_with_status (ctlNumSt : option MmsValue) (originSt : option MmsValue) (co : ControlObject) : ControlObject :=
  let 'mkControlObject x0 x1 x2 x3 x4 x5 x6 x7 x8 x9 x10 x11 x12 x13 x14 x15 x16 x17 x18 x19 x20 x21 _ _ x24 x25 x26 x27 x28 x29 x30 x31 x32 x33 x34 x35 x36 x37 := co in
  mkControlObject x0 x1 x2 x3 x4 x5 x6 x7 x8 x9 x10 x11 x12 x13 x14 x15 x16 x17 x18 x19 x20 x21 ctlNumSt originSt x24 x25 x26 x27 x28 x29 x30 x31 x32 x33 x34 x35 x36 x37.
Definition co_with_tOpOk (tOpOk : option MmsValue) (co : ControlObject) : ControlObject :=
  let 'mkControlObject x0 x1 x2 x3 x4 x5 x6 x7 x8 x9 x10 x11 x12 x13 x14 x15 x16 x17 x18 x19 x20 x21 x22 x23 x24 x25 x26 _ x28 x29 x30 x31 x32 x33 x34 x35 x36 x37 := co in
  mkControlObject x0 x1 x2 x3 x4 x5 x6 x7 x8 x9 x10 x11 x12 x13 x14 x15 x16 x17 x18 x19 x20 x21 x22 x23 x24 x25 x26 tOpOk x28 x29 x30 x31 x32 x33 x34 x35 x36 x37.
Definition co_with_error (error : option MmsValue) (co : ControlObject) : ControlObject :=
  let 'mkControlObject x0 x1 x2 x3 x4 x5 x6 x7 x8 x9 x10 x11 x12 x13 x14 x15 x16 x17 x18 x19 x20 x21 x22 x23 x24 x25 x26 x27 _ x29 x30 x31 x32 x33 x34 x35 x36 x37 := co in
  mkControlObject x0 x1 x2 x3 x4 x5 x6 x7 x8 x9 x10 x11 x12 x13 x14 x15 x16 x17 x18 x19 x20 x21 x22 x23 x24 x25 x26 x27 error x29 x30 x31 x32 x33 x34 x35 x36 x37.
Definition co_with_addCause (addCause : option MmsValue) (co : ControlObject) : ControlObject :=
  let 'mkControlObject x0 x1 x2 x3 x4 x5 x6 x7 x8 x9 x10 x11 x12 x13 x14 x15 x16 x17 x18 x19 x20 x21 x22 x23 x24 x25 x26 x27 x28 _ x30 x31 x32 x33 x34 x35 x36 x37 := co in
  mkControlObject x0 x1 x2 x3 x4 x5 x6 x7 x8 x9 x10 x11 x12 x13 x14 x15 x16 x17 x18 x19 x20 x21 x22 x23 x24 x25 x26 x27 x28 addCause x30 x31 x32 x33 x34 x35 x36 x37.
Definition co_with_selectTime (selectTime : Z) (co : ControlObject) : ControlObject :=
  let 'mkControlObject x0 x1 x2 x3 x4 x5 x6 x7 x8 x9 x10 x11 x12 x13 x14 x15 x16 x17 x18 x19 x20 x21 x22 x23 x24 x25 x26 x27 x28 x29 _ x31 x32 x33 x34 x35 x36 x37 := co in
  mkControlObject x0 x1 x2 x3 x4 x5 x6 x7 x8 x9 x10 x11 x12 x13 x14 x15 x16 x17 x18 x19 x20 x21 x22 x23 x24 x25 x26 x27 x28 x29 selectTime x31 x32 x33 x34 x35 x36 x37.
Definition co_with_selectTimeout (selectTimeout : Z) (co : ControlObject) : ControlObject :=
  let 'mkControlObject x0 x1 x2 x3 x4 x5 x6 x7 x8 x9 x10 x11 x12 x13 x14 x15 x16 x17 x18 x19 x20 x21 x22 x23 x24 x25 x26 x27 x28 x29 x30 _ x32 x33 x34 x35 x36 x37 := co in
  mkControlObject x0 x1 x2 x3 x4 x5 x6 x7 x8 x9 x10 x11 x12 x13 x14 x15 x16 x17 x18 x19 x20 x21 x22 x23 x24 x25 x26 x27 x28 x29 x30 selectTimeout x32 x33 x34 x35 x36 x37.
Definition co_with_operateTime (operateTime : Z) (co : ControlObject) : ControlObject :=
  let 'mkControlObject x0 x1 x2 x3 x4 x5 x6 x7 x8 x9 x10 x11 x12 x13 x14 x15 x16 x17 x18 x19 x20 x21 x22 x23 x24 x25 x26 x27 x28 x29 x30 x31 x32 x33 _ x35 x36 x37 := co in
  mkControlObject x0 x1 x2 x3 x4 x5 x6 x7 x8 x9 x10 x11 x12 x13 x14 x15 x16 x17 x18 x19 x20 x21 x22 x23 x24 x25 x26 x27 x28 x29 x30 x31 x32 x33 operateTime x35 x36 x37.
Definition co_with_mmsConnection (mmsConnection : option nat) (co : ControlObject) : ControlObject :=
  let 'mkControlObject x0 x1 x2 x3 x4 x5 x6 x7 x8 x9 x10 x11 x12 x13 x14 x15 x16 x17 x18 x19 x20 x21 x22 x23 x24 x25 x26 x27 x28 x29 x30 x31 x32 x33 x34 _ x36 x37 := co in
  mkControlObject x0 x1 x2 x3 x4 x5 x6 x7 x8 x9 x10 x11 x12 x13 x14 x15 x16 x17 x18 x19 x20 x21 x22 x23 x24 x25 x26 x27 x28 x29 x30 x31 x32 x33 x34 mmsConnection x36 x37.
Definition co_with_operateInvokeId (operateInvokeId : Z) (co : ControlObject) : ControlObject :=
  let 'mkControlObject x0 x1 x2 x3 x4 x5 x6 x7 x8 x9 x10 x11 x12 x13 x14 x15 x16 x17 x18 x19 x20 x21 x22 x23 x24 x25 x26 x27 x28 x29 x30 x31 x32 x33 x34 x35 _ x37 := co in
  mkControlObject x0 x1 x2 x3 x4 x5 x6 x7 x8 x9 x10 x11 x12 x13 x14 x15 x16 x17 x18 x19 x20 x21 x22 x23 x24 x25 x26 x27 x28 x29 x30 x31 x32 x33 x34 x35 operateInvokeId x37.

Inductive ControlEvent :=
| E_Selected (connection : option nat)
| E_Unselected (reason : SelectStateChangedReason)
| E_SelectStateChanged (isSelected : bool) (reason : SelectStateChangedReason)
| E_Check (ctlVal : option MmsValue) (test interlockCheck isSelect : bool)
| E_WaitForExecution (ctlVal : option MmsValue) (test synchroCheck : bool)
| E_Operate (connection : option nat) (ctlVal : option MmsValue) (test : bool)
| E_ReadResponse (connection : option nat) (invokeId : Z) (value : option MmsValue)
| E_WriteResponse (connection : option nat) (invokeId indication : Z) (handlerMode : bool)
| E_LastApplError (connection : option nat) (lastApplError : MmsValue) (handlerMode : bool)
| E_InformationReport (connection : option nat) (variables : list (option (list Z) * list Z)) (values : list (option MmsValue))
| E_TaskStart (connection : nat)
| E_TaskExit (connection : nat)
| E_Track (serviceType serviceError : Z)
| E_StSeld (value : bool)
| E_OpRcvd (value : bool)
| E_OpOk (value : bool).

(** what a handler returns, and the error and cause it sets *)
Record Answer (A : Type) := mkAnswer { an_result : A; an_error : option Z; an_addCause : option Z }.
Arguments mkAnswer {A}. Arguments an_result {A}. Arguments an_error {A}. Arguments an_addCause {A}.

(** the handlers of the application; [None] is a handler that is not installed *)
Record ControlApplication := mkControlApplication {
  checkHandler : option (ControlObject -> option MmsValue -> bool -> bool -> Answer CheckHandlerResult);
  waitForExecutionHandler : option (ControlObject -> option MmsValue -> bool -> bool -> Answer ControlHandlerResult);
  operateHandler : option (ControlObject -> option MmsValue -> bool -> Answer ControlHandlerResult);
  selectStateChangedHandler : bool
}.

(** the part of [MmsMapping] and of the server around a control object *)
Record World := mkWorld {
  w_nextControlTimeout : Z;
  w_clock : nat -> Z;
  w_reads : nat;
  w_clients : list nat;
  w_timeQuality : Z;
  w_events : list ControlEvent
}.

(** * The monad *)

Definition ctl (A : Type) : Type := ControlObject -> World -> option (A * ControlObject * World).

#[export] Instance ctl_ret : MRet ctl := fun A a co w => Some (a, co, w).
#[export] Instance ctl_bind : MBind ctl := fun A B k m co w =>
  match m co w with Some (a, co, w) => k a co w | None => None end.

Definition get : ctl ControlObject := fun co w => Some (co, co, w).
Definition modify (f : ControlObject -> ControlObject) : ctl unit := fun co w => Some (tt, f co, w).
(** an operation that is undefined at [None] *)
Definition lift {A} (o : option A) : ctl A := fun co w => match o with Some a => Some (a, co, w) | None => None end.
Definition emit (e : ControlEvent) : ctl unit := fun co w =>
  Some (tt, co, mkWorld (w_nextControlTimeout w) (w_clock w) (w_reads w) (w_clients w) (w_timeQuality w) (w_events w ++ [e])).
Definition Hal_getTimeInMs : ctl Z := fun co w =>
  Some (w_clock w (w_reads w), co,
        mkWorld (w_nextControlTimeout w) (w_clock w) (S (w_reads w)) (w_clients w) (w_timeQuality w) (w_events w)).
Definition set_nextControlTimeout (timeout : Z) : ctl unit := fun co w =>
  Some (tt, co, mkWorld timeout (w_clock w) (w_reads w) (w_clients w) (w_timeQuality w) (w_events w)).
Definition get_world : ctl World := fun co w => Some (w, co, w).

(** * The parameters of a request *)

(** the component at [i7] of a structure of seven, or at [i6] of one of six *)
Definition element_7_6 (operParameters : MmsValue) (i7 i6 : Z) : option MmsValue :=
  match operParameters with
  | MmsStructure components =>
      if zlen components =? 7 then MmsValue_getElement operParameters i7
      else if zlen components =? 6 then MmsValue_getElement operParameters i6
      else None
  | _ => None
  end.
(** the component at [i6] of a structure of six, or at [i5] of one of five *)
Definition element_6_5 (operParameters : MmsValue) (i6 i5 : Z) : option MmsValue :=
  match operParameters with
  | MmsStructure components =>
      if zlen components =? 6 then MmsValue_getElement operParameters i6
      else if zlen components =? 5 then MmsValue_getElement operParameters i5
      else None
  | _ => None
  end.
Definition only_time (v : option MmsValue) : option MmsValue :=
  match v with Some (MmsUtcTime _ as t) | Some (MmsBinaryTime _ _ as t) => Some t | _ => None end.

Definition getOperParameterCtlNum (operParameters : MmsValue) : option MmsValue := element_7_6 operParameters 3 2.
Definition getCancelParameterCtlNum (operParameters : MmsValue) : option MmsValue := element_6_5 operParameters 3 2.
Definition getCancelParameterOrigin (operParameters : MmsValue) : option MmsValue := element_6_5 operParameters 2 1.
Definition getOperParameterTest (operParameters : MmsValue) : option MmsValue := element_7_6 operParameters 5 4.
Definition getOperParameterCheck (operParameters : MmsValue) : option MmsValue := element_7_6 operParameters 6 5.
Definition getOperParameterOrigin (operParameters : MmsValue) : option MmsValue := element_7_6 operParameters 2 1.
Definition getOperParameterTime (operParameters : MmsValue) : option MmsValue := only_time (element_7_6 operParameters 4 3).
Definition getOperParameterOperTime (operParameters : MmsValue) : option MmsValue :=
  match operParameters with
  | MmsStructure components => if zlen components =? 7 then MmsValue_getElement operParameters 1 else None
  | _ => None
  end.
Definition getCtlVal (operParameters : MmsValue) : option MmsValue :=
  match operParameters with
  | MmsStructure components => if 5 <? zlen components then MmsValue_getElement operParameters 0 else None
  | _ => None
  end.

(** The type of a null pointer is read. *)
Definition checkValidityOfOriginParameter (origin : option MmsValue) : option bool :=
  origin ← origin;
  match origin with
  | MmsStructure components =>
      if negb (zlen components =? 2) then Some false
      else
        orIdent ← MmsValue_getElement origin 1;
        match orIdent with
        | MmsOctetString _ _ _ =>
            size ← MmsValue_getOctetStringSize orIdent;
            if 64 <? size then Some false
            else
              orCat ← MmsValue_getElement origin 0;
              match orCat with
              | MmsInteger _ =>
                  orCatIntValue ← MmsValue_toInt32 orCat;
                  Some (negb ((orCatIntValue <? 0) || (8 <? orCatIntValue)))
              | _ => Some false
              end
        | _ => Some false
        end
  | _ => Some false
  end.

(** [default] is DATA_ACCESS_ERROR_UNKNOWN, which no result reaches. *)
Definition convertCheckHandlerResultToServiceError (controlHandlerResult : CheckHandlerResult) : Z :=
  match controlHandlerResult with
  | CONTROL_HARDWARE_FAULT => 12
  | CONTROL_TEMPORARILY_UNAVAILABLE => 2
  | CONTROL_OBJECT_ACCESS_DENIED => 3
  | CONTROL_OBJECT_UNDEFINED => 1
  | CONTROL_VALUE_INVALID => 6
  | CONTROL_WAITING_FOR_SELECT | CONTROL_ACCEPTED => 0
  end.

Definition private_IedServer_convertMmsDataAccessErrorToServiceError (mmsError : Z) : Z :=
  if mmsError =? -1 then 0
  else if mmsError =? 2 then 8
  else if mmsError =? 3 then 3
  else if mmsError =? 11 then 5
  else if (mmsError =? 7) || (mmsError =? 8) then 6
  else if mmsError =? 10 then 1
  else 12.

(** * The values of the object *)

(** the component of the value of the object that [index] names *)
Definition object_element (co : ControlObject) (index : option Z) : option MmsValue :=
  i ← index; v ← co_mmsValue co; MmsValue_getElement v i.
Definition set_object_element (index : option Z) (element : option MmsValue) (co : ControlObject) : ControlObject :=
  match index, co_mmsValue co with
  | Some i, Some v => co_with_mmsValue (Some (MmsValue_setElement v i element)) co
  | _, _ => co
  end.

(** [MmsValue_update(controlObject->oper, value)]: a null pointer is left alone *)
Definition update_element (index : ControlObject -> option Z) (value : MmsValue) : ctl unit :=
  co ← get;
  '(element, _) ← lift (MmsValue_update (object_element co (index co)) (Some value));
  modify (set_object_element (index co) element).

Definition ControlAction_setError (error : Z) : ctl unit := modify (co_with_errorValue (error mod 4)).
Definition ControlAction_setAddCause (addCause : Z) : ctl unit := modify (co_with_addCauseValue (addCause mod 64)).

(** the call of a handler, which may set the error and the additional cause *)
Definition call_control_handler {A} (e : ControlEvent) (answer : ControlObject -> Answer A) : ctl A :=
  co ← get;
  emit e;;
  let a := answer co in
  match an_error a with Some error => ControlAction_setError error | None => mret tt end;;
  match an_addCause a with Some addCause => ControlAction_setAddCause addCause | None => mret tt end;;
  mret (an_result a).

(** * Selection and time-outs *)

Definition updateNextControlTimeout (timeout : Z) : ctl unit :=
  w ← get_world; if timeout <? w_nextControlTimeout w then set_nextControlTimeout timeout else mret tt.

Definition setState (newState : ControlState) : ctl unit := modify (co_with_state newState).
Definition getState : ctl ControlState := co ← get; mret (co_state co).

Definition add_pending (event : Z) : ctl unit :=
  modify (fun co => co_with_pendingEvents (u8 (Z.lor (co_pendingEvents co) event)) co).

Definition setStSeld (value : bool) : ctl unit :=
  co ← get;
  if co_stSeld co then add_pending (if value then PENDING_EVENT_SELECTED else PENDING_EVENT_UNSELECTED) else mret tt.

Definition setOpRcvd (value : bool) : ctl unit :=
  co ← get;
  if co_opRcvd co then add_pending (if value then PENDING_EVENT_OP_RCVD_TRUE else PENDING_EVENT_OP_RCVD_FALSE) else mret tt.

Definition setOpOk (value : bool) (currentTimeInMs : Z) : ctl unit :=
  co ← get; w ← get_world;
  if co_opOk co then
    if value then
      match co_tOpOk co with
      | Some timestamp =>
          timestamp ← lift (MmsValue_setUtcTimeMsEx timestamp currentTimeInMs (w_timeQuality w));
          modify (co_with_tOpOk (Some timestamp))
      | None => mret tt
      end;;
      add_pending PENDING_EVENT_OP_OK_TRUE
    else add_pending PENDING_EVENT_OP_OK_FALSE
  else mret tt.

Definition updateSboTimeoutValue : ctl unit :=
  co ← get;
  match co_sboTimeout co with
  | Some sboTimeout => v ← lift (MmsValue_toInt32 sboTimeout); modify (co_with_selectTimeout (u32 v))
  | None => modify (co_with_selectTimeout CONFIG_CONTROL_DEFAULT_SBO_TIMEOUT)
  end.

Definition isSboClassOperateOnce (co : ControlObject) : option bool :=
  match co_sboClass co with
  | Some sboClass => v ← MmsValue_toInt32 sboClass; Some (negb (v =? 1))
  | None => Some true
  end.

(** [private_IedServer_getClientConnectionByHandle]: whether there is such a client *)
Definition connected (w : World) (connection : option nat) : option nat :=
  c ← connection; if decide (c ∈ w_clients w) then Some c else None.

Definition initiateControlTask : ctl unit :=
  co ← get; w ← get_world;
  match connected w (co_mmsConnection co) with Some c => emit (E_TaskStart c) | None => mret tt end.
Definition exitControlTask : ctl unit :=
  co ← get; w ← get_world;
  match connected w (co_mmsConnection co) with Some c => emit (E_TaskExit c) | None => mret tt end.

(** without a value of the control object nothing is tracked; whether the server has a
    tracking object is left open *)
Definition updateGenericTrackingObjectValues (serviceType errVal : Z) : ctl unit :=
  co ← get; match co_ctlVal co with Some _ => emit (E_Track serviceType errVal) | None => mret tt end.

Definition resetAddCause : ctl unit :=
  modify (co_with_addCauseValue ADD_CAUSE_UNKNOWN);;
  co ← get;
  addCause ← lift (co_addCause co);
  addCause ← lift (MmsValue_setInt32 addCause (co_addCauseValue co));
  modify (co_with_addCause (Some addCause)).

Section WithApplication.
Context (app : ControlApplication).

Definition selectObject (selectTime : Z) (connection : option nat) : ctl unit :=
  emit (E_Selected connection);;
  updateSboTimeoutValue;;
  modify (co_with_selectTime selectTime);;
  modify (co_with_mmsConnection connection);;
  setStSeld true;;
  setState STATE_READY;;
  updateNextControlTimeout selectTime;;
  if selectStateChangedHandler app then emit (E_SelectStateChanged true SELECT_STATE_REASON_SELECTED) else mret tt.

Definition unselectObject (reason : SelectStateChangedReason) : ctl unit :=
  state ← getState;
  if decide (state = STATE_UNSELECTED) then mret tt
  else
    setState STATE_UNSELECTED;;
    setStSeld false;;
    set_nextControlTimeout 0;;
    (if selectStateChangedHandler app then emit (E_SelectStateChanged false reason) else mret tt);;
    emit (E_Unselected reason).

Definition checkSelectTimeout (currentTime : Z) : ctl unit :=
  co ← get;
  if is_sbo (co_ctlModel co) && bool_decide (co_state co = STATE_READY) && (0 <? co_selectTimeout co) then
    if u64 (co_selectTime co + co_selectTimeout co) <? currentTime then unselectObject SELECT_STATE_REASON_TIMEOUT
    else updateNextControlTimeout (u64 (co_selectTime co + co_selectTimeout co))
  else mret tt.

Definition abortControlOperation (unconditional : bool) (reason : SelectStateChangedReason) : ctl unit :=
  co ← get;
  (if is_sbo (co_ctlModel co) then
     if unconditional then unselectObject reason
     else
       once ← lift (isSboClassOperateOnce co);
       if once : bool then unselectObject reason else setState STATE_READY
   else setState STATE_READY);;
  exitControlTask.

Definition operateControl (value : option MmsValue) (currentTime : Z) (testCondition : bool) : ctl ControlHandlerResult :=
  modify (co_with_selectTime currentTime);;
  modify (co_with_errorValue CONTROL_ERROR_NO_ERROR);;
  modify (co_with_addCauseValue ADD_CAUSE_UNKNOWN);;
  co ← get;
  match operateHandler app with
  | Some operateHandler => call_control_handler (E_Operate (co_mmsConnection co) value testCondition) (fun co => operateHandler co value testCondition)
  | None => mret CONTROL_RESULT_OK
  end.

(** the call of the check handler, which is not tested for null here *)
Definition call_checkHandler (ctlVal : option MmsValue) (test interlock : bool) : ctl CheckHandlerResult :=
  checkHandler ← lift (checkHandler app);
  co ← get;
  call_control_handler (E_Check ctlVal test interlock (co_isSelect co)) (fun co => checkHandler co ctlVal test interlock).
(** [checkResult = CONTROL_ACCEPTED; if (checkHandler != NULL) checkResult = ...] *)
Definition perform_check (ctlVal : option MmsValue) (test interlock : bool) : ctl CheckHandlerResult :=
  match checkHandler app with
  | Some _ => call_checkHandler ctlVal test interlock
  | None => mret CONTROL_ACCEPTED
  end.

(** * Messages *)

(** the structure LastApplError *)
Definition last_appl_error (ctlObj : list Z) (error origin ctlNum addCause : option MmsValue) : MmsValue :=
  MmsStructure [Some (MmsVisibleString (Some ctlObj) 130); error; origin; ctlNum; addCause].

Definition set_errors (error addCause : Z) : ctl unit :=
  co ← get;
  e ← lift (co_error co);
  e ← lift (MmsValue_setInt32 e error);
  modify (co_with_error (Some e));;
  a ← lift (co_addCause co);
  a ← lift (MmsValue_setInt32 a addCause);
  modify (co_with_addCause (Some a)).

Definition ControlObject_sendLastApplError (connection : option nat) (ctlVariable : list Z) (error addCause : Z)
    (ctlNum origin : option MmsValue) (handlerMode : bool) : ctl unit :=
  co ← get;
  ctlObj ← lift (StringUtils_createStringInBuffer (replicate 130 0) 130
    [md_domainName (co_mmsDomain co); c_literal "/"; co_lnName co; c_literal "$CO$"; co_name co; c_literal "$"; ctlVariable]);
  set_errors error addCause;;
  co ← get;
  emit (E_LastApplError connection (last_appl_error ctlObj (co_error co) origin ctlNum (co_addCause co)) handlerMode);;
  modify (co_with_addCauseValue addCause).

Definition oper_itemId (co : ControlObject) (size : Z) : option (list Z) :=
  StringUtils_createStringInBuffer (replicate (Z.to_nat size) 0) size [co_lnName co; c_literal "$CO$"; co_name co; c_literal "$Oper"].

Definition ControlObject_sendCommandTerminationPositive : ctl unit :=
  co ← get;
  itemId ← lift (oper_itemId co 68);
  emit (E_InformationReport (co_mmsConnection co) [(Some (md_domainName (co_mmsDomain co)), itemId)] [object_element co (co_oper co)]).

Definition ControlObject_sendCommandTerminationNegative : ctl unit :=
  co ← get;
  ctlObj ← lift (StringUtils_createStringInBuffer (replicate 130 0) 130
    [md_domainName (co_mmsDomain co); c_literal "/"; co_lnName co; c_literal "$CO$"; co_name co; c_literal "$Oper"]);
  set_errors (co_errorValue co) (co_addCauseValue co);;
  co ← get;
  itemId ← lift (oper_itemId co 130);
  emit (E_InformationReport (co_mmsConnection co)
          [(None, c_literal "LastApplError"); (Some (md_domainName (co_mmsDomain co)), itemId)]
          [Some (last_appl_error ctlObj (co_error co) (co_origin co) (co_ctlNum co) (co_addCause co)); object_element co (co_oper co)]).

(** * The state machine *)

(** the select that waits for the application, of the normal and of the enhanced model *)
Definition select_answered (checkHandlerResult : CheckHandlerResult) : ctl unit :=
  co ← get;
  match co_ctlModel co with
  | CONTROL_MODEL_SBO_NORMAL =>
      value ←
        match checkHandlerResult with
        | CONTROL_ACCEPTED =>
            now ← Hal_getTimeInMs;
            selectObject now (co_mmsConnection co);;
            updateGenericTrackingObjectValues IEC61850_SERVICE_TYPE_SELECT 0;;
            mret (object_element co (co_sbo co))
        | _ =>
            setState STATE_UNSELECTED;;
            updateGenericTrackingObjectValues IEC61850_SERVICE_TYPE_SELECT (convertCheckHandlerResultToServiceError checkHandlerResult);;
            mret (Some (MmsVisibleString None 0))
        end;
      emit (E_ReadResponse (co_mmsConnection co) (co_operateInvokeId co) value)
  | CONTROL_MODEL_SBO_ENHANCED =>
      match checkHandlerResult with
      | CONTROL_ACCEPTED =>
          now ← Hal_getTimeInMs;
          selectObject now (co_mmsConnection co);;
          '(ctlNumSt, _) ← lift (MmsValue_update (co_ctlNumSt co) (co_ctlNum co));
          '(originSt, _) ← lift (MmsValue_update (co_originSt co) (co_origin co));
          modify (co_with_status ctlNumSt originSt);;
          emit (E_WriteResponse (co_mmsConnection co) (co_operateInvokeId co) DATA_ACCESS_ERROR_SUCCESS false);;
          updateGenericTrackingObjectValues IEC61850_SERVICE_TYPE_SELECT_WITH_VALUES 0
      | _ =>
          setState STATE_UNSELECTED;;
          ControlObject_sendLastApplError (co_mmsConnection co) (c_literal "SBOw") (co_errorValue co) (co_addCauseValue co)
            (co_ctlNum co) (co_origin co) false;;
          emit (E_WriteResponse (co_mmsConnection co) (co_operateInvokeId co) (check_int checkHandlerResult) false);;
          updateGenericTrackingObjectValues IEC61850_SERVICE_TYPE_SELECT_WITH_VALUES
            (convertCheckHandlerResultToServiceError checkHandlerResult);;
          resetAddCause
      end
  | _ => setState STATE_WAIT_FOR_SELECT
  end.

Definition state_wait_for_select : ctl unit :=
  modify (co_with_isSelect true);;
  modify (co_with_errorValue 0);;
  modify (co_with_addCauseValue ADD_CAUSE_SELECT_FAILED);;
  co ← get;
  checkHandlerResult ← call_checkHandler (co_ctlVal co) (co_testMode co) (co_interlockCheck co);
  modify (co_with_isSelect false);;
  match checkHandlerResult with
  | CONTROL_WAITING_FOR_SELECT => now ← Hal_getTimeInMs; updateNextControlTimeout (u64 (now + 100))
  | _ => select_answered checkHandlerResult
  end.

Definition state_operate (currentTimeInMs : Z) : ctl unit :=
  currentTime ← Hal_getTimeInMs;
  co ← get;
  result ← operateControl (co_ctlVal co) currentTime (co_testMode co);
  match result with
  | CONTROL_RESULT_WAITING => updateNextControlTimeout (u64 (currentTimeInMs + 10))
  | _ =>
      match result with
      | CONTROL_RESULT_OK =>
          (if is_enhanced (co_ctlModel co) then
             ControlObject_sendCommandTerminationPositive;;
             updateGenericTrackingObjectValues IEC61850_SERVICE_TYPE_COMMAND_TERMINATION 0
           else mret tt);;
          abortControlOperation false SELECT_STATE_REASON_OPERATED
      | _ =>
          (if is_enhanced (co_ctlModel co) then ControlObject_sendCommandTerminationNegative else mret tt);;
          updateGenericTrackingObjectValues IEC61850_SERVICE_TYPE_COMMAND_TERMINATION 12;;
          abortControlOperation false SELECT_STATE_REASON_OPERATE_FAILED
      end;;
      exitControlTask;;
      setOpOk false currentTimeInMs;;
      resetAddCause
  end.

(** the time of operation in [oper] is cleared *)
Definition clear_operTm : ctl unit :=
  co ← get; w ← get_world;
  oper ← lift (object_element co (co_oper co));
  operTm ← lift (getOperParameterOperTime oper);
  operTm ← lift (MmsValue_setUtcTime operTm 0);
  operTm ← lift (MmsValue_setUtcTimeQuality operTm (w_timeQuality w));
  modify (set_object_element (co_oper co) (Some (MmsValue_setElement oper 1 (Some operTm)))).

Definition state_wait_for_execution (isTimeActivatedControl : bool) (currentTimeInMs : Z) : ctl unit :=
  modify (co_with_errorValue CONTROL_ERROR_NO_ERROR);;
  modify (co_with_addCauseValue ADD_CAUSE_BLOCKED_BY_SYNCHROCHECK);;
  co ← get;
  dynamicCheckResult ←
    match waitForExecutionHandler app with
    | Some handler =>
        call_control_handler (E_WaitForExecution (co_ctlVal co) (co_testMode co) (co_synchroCheck co))
          (fun co => handler co (co_ctlVal co) (co_testMode co) (co_synchroCheck co))
    | None => mret CONTROL_RESULT_OK
    end;
  match dynamicCheckResult with
  | CONTROL_RESULT_FAILED =>
      co ← get;
      (if negb (co_errorValue co =? CONTROL_ERROR_NO_ERROR) || negb (co_addCauseValue co =? ADD_CAUSE_UNKNOWN) then
         ControlObject_sendLastApplError (co_mmsConnection co) (c_literal "Oper") (co_errorValue co) (co_addCauseValue co)
           (co_ctlNum co) (co_origin co) false
       else mret tt);;
      (if isTimeActivatedControl then updateGenericTrackingObjectValues IEC61850_SERVICE_TYPE_TIME_ACTIVATED_OPERATE 4
       else
         emit (E_WriteResponse (co_mmsConnection co) (co_operateInvokeId co) DATA_ACCESS_ERROR_OBJECT_ACCESS_DENIED true);;
         updateGenericTrackingObjectValues IEC61850_SERVICE_TYPE_OPERATE 4);;
      resetAddCause;;
      abortControlOperation false SELECT_STATE_REASON_OPERATE_FAILED;;
      exitControlTask
  | CONTROL_RESULT_OK =>
      co ← get;
      (if isTimeActivatedControl then
         ControlObject_sendCommandTerminationPositive;;
         updateGenericTrackingObjectValues IEC61850_SERVICE_TYPE_COMMAND_TERMINATION 0;;
         clear_operTm
       else
         emit (E_WriteResponse (co_mmsConnection co) (co_operateInvokeId co) DATA_ACCESS_ERROR_SUCCESS true);;
         updateGenericTrackingObjectValues IEC61850_SERVICE_TYPE_OPERATE 0);;
      setState STATE_OPERATE;;
      setOpOk true currentTimeInMs;;
      state_operate currentTimeInMs
  | CONTROL_RESULT_WAITING => now ← Hal_getTimeInMs; updateNextControlTimeout (u64 (now + 10))
  end.

Definition executeControlTask (currentTimeInMs : Z) : ctl unit :=
  state ← getState;
  match state with
  | STATE_WAIT_FOR_SELECT => state_wait_for_select
  | STATE_WAIT_FOR_ACTIVATION_TIME => state_wait_for_execution true currentTimeInMs
  | STATE_WAIT_FOR_EXECUTION => state_wait_for_execution false currentTimeInMs
  | STATE_OPERATE => state_operate currentTimeInMs
  | _ => mret tt
  end.

(** * The requests *)

(** The updates of the three parameters and of their copies in the status. *)
Definition updateControlParameters (ctlVal ctlNum origin : option MmsValue) (synchroCheck interlockCheck : bool) : ctl unit :=
  co ← get;
  '(ctlVal', _) ← lift (MmsValue_update (co_ctlVal co) ctlVal);
  '(ctlNum', _) ← lift (MmsValue_update (co_ctlNum co) ctlNum);
  '(origin', _) ← lift (MmsValue_update (co_origin co) origin);
  modify (co_with_parameters ctlVal' ctlNum' origin');;
  modify (co_with_checks synchroCheck interlockCheck);;
  '(ctlNumSt, _) ← lift (MmsValue_update (co_ctlNumSt co) ctlNum);
  '(originSt, _) ← lift (MmsValue_update (co_originSt co) origin);
  modify (co_with_status ctlNumSt originSt).

(** [Timestamp_fromMmsValue(&(controlObject->T), t)] *)
Definition store_T (t : MmsValue) : ctl unit :=
  co ← get;
  r ← lift (Timestamp_fromMmsValue (Some (co_T co)) t);
  match r with Some T => modify (co_with_T T) | None => mret tt end.

(** What a request leaves: the indication and the service error. *)
Definition answer (indication : Z) : ctl (Z * Z) := mret (indication, 0).

(** [sendLastApplError] without an error, followed by the indication *)
Definition refuse (connection : option nat) (ctlVariable : list Z) (addCause : Z) (ctlNum origin : option MmsValue) (indication : Z)
  : ctl (Z * Z) :=
  ControlObject_sendLastApplError connection ctlVariable CONTROL_ERROR_NO_ERROR addCause ctlNum origin true;;
  answer indication.

(** the select of an object that was not selected *)
Definition select_unselected (ctlVal ctlNum origin check test : option MmsValue) (currentTime : Z) (connection : option nat) (invokeId : Z)
  : ctl (Z * Z) :=
  interlockCheck ← lift (c ← check; MmsValue_getBitStringBit c 1);
  synchroCheck ← lift (c ← check; MmsValue_getBitStringBit c 0);
  testCondition ← lift (t ← test; MmsValue_getBoolean t);
  modify (co_with_addCauseValue ADD_CAUSE_SELECT_FAILED);;
  updateControlParameters ctlVal ctlNum origin synchroCheck interlockCheck;;
  modify (co_with_testMode testCondition);;
  checkResult ←
    match checkHandler app with
    | Some _ =>
        modify (co_with_isSelect true);;
        modify (co_with_mmsConnection connection);;
        r ← call_checkHandler ctlVal testCondition interlockCheck;
        modify (co_with_isSelect false);;
        mret r
    | None => mret CONTROL_ACCEPTED
    end;
  match checkResult with
  | CONTROL_ACCEPTED => selectObject currentTime connection;; answer DATA_ACCESS_ERROR_SUCCESS
  | CONTROL_WAITING_FOR_SELECT =>
      modify (co_with_mmsConnection connection);;
      modify (co_with_operateInvokeId invokeId);;
      co ← get;
      '(ctlVal', _) ← lift (MmsValue_update (co_ctlVal co) ctlVal);
      '(ctlNum', _) ← lift (MmsValue_update (co_ctlNum co) ctlNum);
      '(origin', _) ← lift (MmsValue_update (co_origin co) origin);
      modify (co_with_parameters ctlVal' ctlNum' origin');;
      setState STATE_WAIT_FOR_SELECT;;
      now ← Hal_getTimeInMs;
      updateNextControlTimeout (u64 (now + 100));;
      answer DATA_ACCESS_ERROR_NO_RESPONSE
  | _ =>
      co ← get;
      ControlObject_sendLastApplError connection (c_literal "SBOw") (co_errorValue co) (co_addCauseValue co) ctlNum origin true;;
      modify (co_with_mmsConnection None);;
      answer (check_int checkResult)
  end.

(** The state is read before the time-out of the selection is checked. *)
Definition write_SBOw (value : MmsValue) (connection : option nat) (invokeId : Z) : ctl (Z * Z) :=
  co ← get;
  match co_ctlModel co with
  | CONTROL_MODEL_SBO_ENHANCED =>
      update_element co_sbow value;;
      match getCtlVal value with
      | Some ctlVal =>
          let ctlNum := getOperParameterCtlNum value in
          let origin := getOperParameterOrigin value in
          let check := getOperParameterCheck value in
          let test := getOperParameterTest value in
          valid ← lift (checkValidityOfOriginParameter origin);
          if negb valid then
            refuse connection (c_literal "SBOw") ADD_CAUSE_SELECT_FAILED ctlNum origin DATA_ACCESS_ERROR_OBJECT_ACCESS_DENIED
          else
            match getOperParameterTime value with Some t => store_T t | None => mret tt end;;
            state ← getState;
            currentTime ← Hal_getTimeInMs;
            checkSelectTimeout currentTime;;
            match state with
            | STATE_UNSELECTED => select_unselected (Some ctlVal) ctlNum origin check test currentTime connection invokeId
            | STATE_OPERATE | STATE_WAIT_FOR_EXECUTION =>
                refuse connection (c_literal "SBOw") ADD_CAUSE_COMMAND_ALREADY_IN_EXECUTION ctlNum origin DATA_ACCESS_ERROR_TEMPORARILY_UNAVAILABLE
            | _ =>
                refuse connection (c_literal "SBOw") ADD_CAUSE_OBJECT_ALREADY_SELECTED ctlNum origin DATA_ACCESS_ERROR_TEMPORARILY_UNAVAILABLE
            end
      | None => answer DATA_ACCESS_ERROR_OBJECT_ACCESS_DENIED
      end
  | _ => answer DATA_ACCESS_ERROR_OBJECT_ACCESS_DENIED
  end.

(** an operation for a later time; the indication so far is [indication] *)
Definition time_activated (value ctlVal : MmsValue) (testCondition synchroCheck interlockCheck : bool) (currentTime : Z)
    (connection : option nat) (indication : Z) : ctl Z :=
  match getOperParameterOperTime value with
  | None => modify (co_with_operateTime 0);; mret indication
  | Some operTm =>
      operateTime ← lift (MmsValue_getUtcTimeInMs operTm);
      modify (co_with_operateTime operateTime);;
      if currentTime <? operateTime then
        modify (co_with_timeActivated true);;
        modify (co_with_checks synchroCheck interlockCheck);;
        modify (co_with_mmsConnection connection);;
        checkResult ← perform_check (Some ctlVal) testCondition interlockCheck;
        match checkResult with
        | CONTROL_ACCEPTED =>
            initiateControlTask;;
            setState STATE_WAIT_FOR_ACTIVATION_TIME;;
            updateNextControlTimeout operateTime;;
            mret DATA_ACCESS_ERROR_SUCCESS
        | _ => mret (check_int checkResult)
        end
      else mret indication
  end.

(** an operation at once: the tests, and the hand-over to the periodic task *)
Definition operate_now (ctlVal ctlNum origin : MmsValue) (testCondition interlockCheck : bool) (currentTime : Z)
    (connection : option nat) (invokeId : Z) : ctl Z :=
  setOpRcvd true;;
  modify (co_with_errorValue CONTROL_ERROR_NO_ERROR);;
  modify (co_with_addCauseValue ADD_CAUSE_UNKNOWN);;
  modify (co_with_mmsConnection connection);;
  checkResult ← perform_check (Some ctlVal) testCondition interlockCheck;
  match checkResult with
  | CONTROL_ACCEPTED =>
      modify (co_with_mmsConnection connection);;
      modify (co_with_operateInvokeId invokeId);;
      setState STATE_WAIT_FOR_EXECUTION;;
      setOpRcvd false;;
      initiateControlTask;;
      updateNextControlTimeout currentTime;;
      mret DATA_ACCESS_ERROR_NO_RESPONSE
  | _ =>
      setOpRcvd false;;
      abortControlOperation false SELECT_STATE_REASON_OPERATE_FAILED;;
      co ← get;
      ControlObject_sendLastApplError connection (c_literal "Oper") (co_errorValue co) (co_addCauseValue co) (Some ctlNum) (Some origin) true;;
      mret (check_int checkResult)
  end.

(** a conjunction of comparisons, which stops at the first that fails *)
Fixpoint all_equal (values : list (MmsValue * option MmsValue)) : option bool :=
  match values with
  | [] => Some true
  | (v, stored) :: values => same ← MmsValue_equals (Some v) stored; if same : bool then all_equal values else Some false
  end.

(** [Oper] for an object in the state READY *)
Definition operate_ready (value ctlVal test ctlNum origin check : MmsValue) (currentTime : Z) (connection : option nat) (invokeId : Z)
  : ctl (Z * Z) :=
  interlockCheck ← lift (MmsValue_getBitStringBit check 1);
  synchroCheck ← lift (MmsValue_getBitStringBit check 0);
  testCondition ← lift (MmsValue_getBoolean test);
  co ← get;
  if is_sbo (co_ctlModel co) && negb (bool_decide (co_mmsConnection co = connection)) then
    refuse connection (c_literal "Oper") ADD_CAUSE_LOCKED_BY_OTHER_CLIENT (Some ctlNum) (Some origin) DATA_ACCESS_ERROR_TEMPORARILY_UNAVAILABLE
  else
    same ←
      match co_ctlModel co with
      | CONTROL_MODEL_SBO_ENHANCED =>
          same_values ← lift (all_equal [(ctlVal, co_ctlVal co); (origin, co_origin co); (ctlNum, co_ctlNum co)]);
          mret (same_values && Bool.eqb (co_interlockCheck co) interlockCheck && Bool.eqb (co_synchroCheck co) synchroCheck
                && Bool.eqb (co_testMode co) testCondition)
      | _ => mret true
      end;
    if negb same then
      ControlObject_sendLastApplError connection (c_literal "Oper") CONTROL_ERROR_NO_ERROR ADD_CAUSE_INCONSISTENT_PARAMETERS
        (Some ctlNum) (Some origin) true;;
      unselectObject SELECT_STATE_REASON_OPERATE_FAILED;;
      answer DATA_ACCESS_ERROR_OBJECT_ACCESS_DENIED
    else
      modify (co_with_testMode testCondition);;
      updateControlParameters (Some ctlVal) (Some ctlNum) (Some origin) synchroCheck interlockCheck;;
      indication ← time_activated value ctlVal testCondition synchroCheck interlockCheck currentTime connection DATA_ACCESS_ERROR_OBJECT_ACCESS_DENIED;
      update_element co_oper value;;
      co ← get;
      if co_timeActivatedOperate co then answer indication
      else
        indication ← operate_now ctlVal ctlNum origin testCondition interlockCheck currentTime connection invokeId;
        answer indication.

Definition write_Oper (value : MmsValue) (connection : option nat) (invokeId : Z) : ctl (Z * Z) :=
  match getCtlVal value, getOperParameterTest value, getOperParameterCtlNum value, getOperParameterOrigin value,
        getOperParameterCheck value, getOperParameterTime value with
  | Some ctlVal, Some test, Some ctlNum, Some origin, Some check, Some timeParameter =>
      store_T timeParameter;;
      valid ← lift (checkValidityOfOriginParameter (Some origin));
      co ← get;
      if negb valid then
        ControlObject_sendLastApplError connection (c_literal "Oper") CONTROL_ERROR_NO_ERROR ADD_CAUSE_INCONSISTENT_PARAMETERS
          (Some ctlNum) (Some origin) true;;
        (if is_sbo (co_ctlModel co) then unselectObject SELECT_STATE_REASON_OPERATE_FAILED else mret tt);;
        answer DATA_ACCESS_ERROR_OBJECT_ACCESS_DENIED
      else
        currentTime ← Hal_getTimeInMs;
        checkSelectTimeout currentTime;;
        state ← getState;
        match state with
        | STATE_WAIT_FOR_ACTIVATION_TIME | STATE_OPERATE | STATE_WAIT_FOR_EXECUTION =>
            refuse connection (c_literal "Oper") ADD_CAUSE_COMMAND_ALREADY_IN_EXECUTION (Some ctlNum) (Some origin) DATA_ACCESS_ERROR_TEMPORARILY_UNAVAILABLE
        | STATE_READY => operate_ready value ctlVal test ctlNum origin check currentTime connection invokeId
        | STATE_UNSELECTED =>
            ControlObject_sendLastApplError connection (c_literal "Oper") CONTROL_ERROR_NO_ERROR ADD_CAUSE_OBJECT_NOT_SELECTED
              (Some ctlNum) (Some origin) true;;
            mret (DATA_ACCESS_ERROR_OBJECT_ACCESS_DENIED, 9)
        | _ => answer DATA_ACCESS_ERROR_OBJECT_ACCESS_DENIED
        end
  | _, _, _, _, _, _ => answer DATA_ACCESS_ERROR_OBJECT_ACCESS_DENIED
  end.

(** the end of [Cancel]: an operation that waits for its time is aborted *)
Definition cancel_time_activated (indication : Z) : ctl (Z * Z) :=
  co ← get;
  if co_timeActivatedOperate co then
    modify (co_with_timeActivated false);;
    abortControlOperation false SELECT_STATE_REASON_CANCELED;;
    answer DATA_ACCESS_ERROR_SUCCESS
  else answer indication.

Definition write_Cancel (value : MmsValue) (connection : option nat) : ctl (Z * Z) :=
  state ← getState;
  let ctlNum := getCancelParameterCtlNum value in
  let origin := getCancelParameterOrigin value in
  match ctlNum, origin with
  | Some _, Some _ =>
      match state with
      | STATE_OPERATE | STATE_WAIT_FOR_EXECUTION =>
          refuse connection (c_literal "Cancel") ADD_CAUSE_COMMAND_ALREADY_IN_EXECUTION ctlNum origin DATA_ACCESS_ERROR_TEMPORARILY_UNAVAILABLE
      | _ =>
          co ← get;
          if is_sbo (co_ctlModel co) then
            if decide (state = STATE_UNSELECTED) then cancel_time_activated DATA_ACCESS_ERROR_SUCCESS
            else if decide (co_mmsConnection co = connection) then
              unselectObject SELECT_STATE_REASON_CANCELED;;
              answer DATA_ACCESS_ERROR_SUCCESS
            else
              ControlObject_sendLastApplError connection (c_literal "Cancel") CONTROL_ERROR_NO_ERROR ADD_CAUSE_LOCKED_BY_OTHER_CLIENT ctlNum origin true;;
              cancel_time_activated DATA_ACCESS_ERROR_TEMPORARILY_UNAVAILABLE
          else cancel_time_activated DATA_ACCESS_ERROR_OBJECT_ACCESS_DENIED
      end
  | _, _ => answer DATA_ACCESS_ERROR_OBJECT_ACCESS_DENIED
  end.

(** the end of [Control_writeAccessControlObject] *)
Definition finish_request (serviceType : Z) (result : Z * Z) : ctl Z :=
  let '(indication, serviceError) := result in
  (if serviceError =? 0 then
     if indication =? DATA_ACCESS_ERROR_NO_RESPONSE then mret tt
     else updateGenericTrackingObjectValues serviceType (private_IedServer_convertMmsDataAccessErrorToServiceError indication)
   else updateGenericTrackingObjectValues serviceType serviceError);;
  resetAddCause;;
  mret indication.

(** the request for an object that was found *)
Definition write_object (varName : list Z) (value : MmsValue) (connection : option nat) (invokeId : Z) : ctl Z :=
  co ← get;
  match co_ctlModel co with
  | CONTROL_MODEL_STATUS_ONLY => finish_request IEC61850_SERVICE_TYPE_UNKOWN (DATA_ACCESS_ERROR_OBJECT_ACCESS_DENIED, 0)
  | _ =>
      is_SBOw ← lift (strcmp_eq varName (c_literal "SBOw"));
      is_Oper ← lift (strcmp_eq varName (c_literal "Oper"));
      is_Cancel ← lift (strcmp_eq varName (c_literal "Cancel"));
      if is_SBOw : bool then
        r ← write_SBOw value connection invokeId; finish_request IEC61850_SERVICE_TYPE_SELECT_WITH_VALUES r
      else if is_Oper : bool then
        r ← write_Oper value connection invokeId; finish_request IEC61850_SERVICE_TYPE_OPERATE r
      else if is_Cancel : bool then
        r ← write_Cancel value connection; finish_request IEC61850_SERVICE_TYPE_CANCEL r
      else finish_request IEC61850_SERVICE_TYPE_UNKOWN (DATA_ACCESS_ERROR_OBJECT_ACCESS_DENIED, 0)
  end.

(** the read of [SBO]: a select of the normal model when it is a direct access *)
Definition read_SBO (connection : option nat) (invokeId : Z) (isDirectAccess : bool) : ctl (option MmsValue) :=
  let emptyString := Some (MmsVisibleString None 0) in
  co ← get;
  match co_ctlModel co with
  | CONTROL_MODEL_SBO_NORMAL =>
      currentTime ← Hal_getTimeInMs;
      if isDirectAccess then
        checkSelectTimeout currentTime;;
        state ← getState;
        if decide (state = STATE_UNSELECTED) then
          modify (co_with_addCauseValue ADD_CAUSE_UNKNOWN);;
          modify (co_with_mmsConnection connection);;
          checkResult ←
            match checkHandler app with
            | Some _ =>
                modify (co_with_isSelect true);;
                r ← call_checkHandler None false false;
                modify (co_with_isSelect false);;
                mret r
            | None => mret CONTROL_ACCEPTED
            end;
          match checkResult with
          | CONTROL_ACCEPTED =>
              selectObject currentTime connection;;
              updateGenericTrackingObjectValues IEC61850_SERVICE_TYPE_SELECT 0;;
              mret (object_element co (co_sbo co))
          | CONTROL_WAITING_FOR_SELECT =>
              modify (co_with_mmsConnection connection);;
              modify (co_with_operateInvokeId invokeId);;
              setState STATE_WAIT_FOR_SELECT;;
              mret (Some (MmsDataAccessError DATA_ACCESS_ERROR_NO_RESPONSE))
          | _ =>
              updateGenericTrackingObjectValues IEC61850_SERVICE_TYPE_SELECT (convertCheckHandlerResultToServiceError checkResult);;
              mret emptyString
          end
        else mret emptyString
      else mret emptyString
  | _ => mret emptyString
  end.

(** the read of an object that was found *)
Definition read_object (varName : option (list Z)) (connection : option nat) (invokeId : Z)
    (isDirectAccess : bool) : ctl (option MmsValue) :=
  co ← get;
  match varName with
  | None => mret (co_mmsValue co)
  | Some varName =>
      is_Oper ← lift (strcmp_eq varName (c_literal "Oper"));
      is_SBOw ← lift (strcmp_eq varName (c_literal "SBOw"));
      is_SBO ← lift (strcmp_eq varName (c_literal "SBO"));
      is_Cancel ← lift (strcmp_eq varName (c_literal "Cancel"));
      if is_Oper : bool then mret (object_element co (co_oper co))
      else if is_SBOw : bool then mret (object_element co (co_sbow co))
      else if is_SBO : bool then read_SBO connection invokeId isDirectAccess
      else if is_Cancel : bool then mret (object_element co (co_cancel co))
      else lift (MmsValue_getSubElement (co_mmsValue co) (co_typeSpec co) varName)
  end.

(** * The periodic task *)

(** one pending event: the attribute is updated and the event is cleared *)
Definition handle_pending (event : Z) (exists_ : ControlObject -> bool) (e : ControlEvent) : ctl unit :=
  co ← get;
  if Z.land (co_pendingEvents co) event =? 0 then mret tt
  else
    (if exists_ co then emit e else mret tt);;
    modify (fun co => co_with_pendingEvents (Z.land (co_pendingEvents co) (Z.lnot event)) co).

Definition ControlObject_handlePendingEvents : ctl unit :=
  co ← get;
  if 0 <? co_pendingEvents co then
    handle_pending PENDING_EVENT_SELECTED co_stSeld (E_StSeld true);;
    handle_pending PENDING_EVENT_UNSELECTED co_stSeld (E_StSeld false);;
    handle_pending PENDING_EVENT_OP_RCVD_TRUE co_opRcvd (E_OpRcvd true);;
    handle_pending PENDING_EVENT_OP_RCVD_FALSE co_opRcvd (E_OpRcvd false);;
    handle_pending PENDING_EVENT_OP_OK_TRUE co_opOk (E_OpOk true);;
    handle_pending PENDING_EVENT_OP_OK_FALSE co_opOk (E_OpOk false)
  else mret tt.

(** an operation whose time has come *)
Definition activation_time_reached (currentTimeInMs : Z) : ctl unit :=
  setOpRcvd true;;
  modify (co_with_timeActivated false);;
  checkResult ←
    match checkHandler app with
    | Some _ =>
        modify (co_with_errorValue CONTROL_ERROR_NO_ERROR);;
        modify (co_with_addCauseValue ADD_CAUSE_BLOCKED_BY_INTERLOCKING);;
        co ← get;
        call_checkHandler (co_ctlVal co) (co_testMode co) (co_interlockCheck co)
    | None => mret CONTROL_ACCEPTED
    end;
  match checkResult with
  | CONTROL_ACCEPTED => setOpRcvd false;; executeControlTask currentTimeInMs
  | _ =>
      co ← get;
      ControlObject_sendLastApplError (co_mmsConnection co) (c_literal "Oper") (co_errorValue co) (co_addCauseValue co)
        (co_ctlNum co) (co_origin co) false;;
      updateGenericTrackingObjectValues IEC61850_SERVICE_TYPE_TIME_ACTIVATED_OPERATE (convertCheckHandlerResultToServiceError checkResult);;
      setOpRcvd false;;
      abortControlOperation false SELECT_STATE_REASON_OPERATE_FAILED;;
      resetAddCause
  end.

(** one object in the loop of [Control_processControlActions] *)
Definition process_object (currentTimeInMs : Z) : ctl unit :=
  co ← get;
  if bool_decide (co_state co = STATE_READY) &&
     match co_ctlModel co with CONTROL_MODEL_DIRECT_NORMAL | CONTROL_MODEL_DIRECT_ENHANCED => true | _ => false end
  then mret tt
  else
    match co_state co with
    | STATE_UNSELECTED => mret tt
    | STATE_WAIT_FOR_ACTIVATION_TIME =>
        if co_operateTime co <=? currentTimeInMs then activation_time_reached currentTimeInMs
        else updateNextControlTimeout (co_operateTime co)
    | STATE_READY => checkSelectTimeout currentTimeInMs
    | _ => executeControlTask currentTimeInMs
    end;;
    ControlObject_handlePendingEvents.

Definition ControlObject_unselect (connection : option nat) : ctl bool :=
  co ← get;
  if decide (co_mmsConnection co = connection) then
    abortControlOperation true SELECT_STATE_REASON_DISCONNECTED;; mret true
  else mret false.

(** The attribute [ctlModel] of the data model is updated as well, which is left out. *)
Definition ControlObject_updateControlModel (value : ControlModel) : ctl unit :=
  modify (co_with_ctlModel value);;
  setState (if is_sbo value then STATE_UNSELECTED else STATE_READY).

End WithApplication.

(** * Creation *)

(** [CALLOC] leaves the state UNSELECTED and the model STATUS_ONLY. *)
Definition ControlObject_create (domain : MmsDomain) (lnName name : list Z) (operSpec : MmsTypeSpec) : option ControlObject :=
  name ← mjoin (StringUtils_copyString (Some name));
  let default_of (component : string) :=
    spec ← MmsVariableSpecification_getChildSpecificationByName operSpec (c_literal component);
    match spec with Some (_, spec) => MmsValue_newDefaultValue (unnamed spec) | None => Some None end in
  ctlVal ← default_of "ctlVal"%string;
  origin ← default_of "origin"%string;
  Some (mkControlObject domain lnName name STATE_UNSELECTED CONTROL_MODEL_STATUS_ONLY 0 false false false false false 0 0
          None None None None None ctlVal (Some (MmsValue_newUnsigned 8)) origin (replicate 8 0) None None
          false false false None None None 0 0 None None 0 None 0 None).

Definition ControlObject_setMmsValue (value : MmsValue) (co : ControlObject) : ControlObject := co_with_mmsValue (Some value) co.
Definition ControlObject_setTypeSpec (typeSpec : MmsTypeSpec) (co : ControlObject) : ControlObject :=
  let 'mkControlObject x0 x1 x2 x3 x4 x5 x6 x7 x8 x9 x10 x11 x12 x13 x14 x15 x16 x17 x18 x19 x20 x21 x22 x23 x24 x25 x26 x27 x28 x29 x30 x31 x32 x33 x34 x35 x36 _ := co in
  mkControlObject x0 x1 x2 x3 x4 x5 x6 x7 x8 x9 x10 x11 x12 x13 x14 x15 x16 x17 x18 x19 x20 x21 x22 x23 x24 x25 x26 x27 x28 x29 x30 x31 x32 x33 x34 x35 x36 (Some typeSpec).

Definition IEC61850_BOOLEAN : Z := 0.
Definition IEC61850_TIMESTAMP : Z := 22.

Definition control_model_of (ctlModelVal : Z) : ControlModel :=
  if ctlModelVal =? 0 then CONTROL_MODEL_STATUS_ONLY
  else if ctlModelVal =? 2 then CONTROL_MODEL_SBO_NORMAL
  else if ctlModelVal =? 3 then CONTROL_MODEL_DIRECT_ENHANCED
  else if ctlModelVal =? 4 then CONTROL_MODEL_SBO_ENHANCED
  else CONTROL_MODEL_DIRECT_NORMAL.

(** [cache] is [MmsServer_getValueFromCache] for the domain of the object, [attribute]
    the type and the value of the attribute that [IedModel_getModelNodeByObjectReference]
    finds. The class of the object for tracking is left out. *)
Definition ControlObject_initialize (cache : list Z -> option MmsValue) (attribute : list Z -> option (Z * MmsValue)) (co : ControlObject)
  : option ControlObject :=
  let name strs := StringUtils_createStringInBuffer (replicate 130 0) 130 strs in
  let cached (fc last : string) := s ← name [co_lnName co; c_literal fc; co_name co; c_literal last]; Some (cache s) in
  let node (last : string) := s ← name [md_domainName (co_mmsDomain co); c_literal "/"; co_lnName co; c_literal "."; co_name co; c_literal last]; Some (attribute s) in
  let has type a := match a with Some (t, _) => t =? type | None => false end in
  ctlModel ← cached "$CF$"%string "$ctlModel"%string;
  sboClass ← cached "$CF$"%string "$sboClass"%string;
  ctlNumSt ← cached "$ST$"%string "$ctlNum"%string;
  ctlNumSt ← match ctlNumSt with Some v => Some (Some v) | None => cached "$MX$"%string "$ctlNum"%string end;
  originSt ← cached "$ST$"%string "$origin"%string;
  originSt ← match originSt with Some v => Some (Some v) | None => cached "$MX$"%string "$origin"%string end;
  sboTimeout ← cached "$CF$"%string "$sboTimeout"%string;
  selectTimeout ← match sboTimeout with Some v => t ← MmsValue_toInt32 v; Some (u32 t) | None => Some CONFIG_CONTROL_DEFAULT_SBO_TIMEOUT end;
  reference ← name [md_domainName (co_mmsDomain co); c_literal "/"; co_lnName co; c_literal "$CO$"; co_name co];
  co ← match object_element co (co_sbo co) with
       | Some sbo => sbo ← MmsValue_setVisibleString sbo (Some reference); Some (set_object_element (co_sbo co) (Some sbo) co)
       | None => Some co
       end;
  stSeld ← node ".stSeld"%string; opRcvd ← node ".opRcvd"%string; opOk ← node ".opOk"%string; tOpOk ← node ".tOpOk"%string;
  error ← MmsValue_newIntegerFromInt32 0;
  addCause ← MmsValue_newIntegerFromInt32 0;
  '(model, state) ←
    match ctlModel with
    | Some ctlModel =>
        v ← MmsValue_toInt32 ctlModel;
        let model := control_model_of v in
        Some (model, if is_sbo model then STATE_UNSELECTED else STATE_READY)
    | None => Some (co_ctlModel co, co_state co)
    end;
  let 'mkControlObject x0 x1 x2 _ _ x5 x6 x7 x8 x9 x10 x11 x12 x13 x14 x15 x16 x17 x18 x19 x20 x21 _ _ _ _ _ _ _ _ x30 _ _ _ x34 x35 x36 x37 := co in
  Some (mkControlObject x0 x1 x2 state model x5 x6 x7 x8 x9 x10 x11 x12 x13 x14 x15 x16 x17 x18 x19 x20 x21 ctlNumSt originSt
          (has IEC61850_BOOLEAN stSeld) (has IEC61850_BOOLEAN opRcvd) (has IEC61850_BOOLEAN opOk)
          (if has IEC61850_TIMESTAMP tOpOk then snd <$> tOpOk else None) (Some error) (Some addCause)
          x30 selectTimeout sboClass sboTimeout x34 x35 x36 x37).

(** * Names *)

(** [name] is the position of a name in [buffer]. *)
Definition MmsMapping_getNextNameElement (buffer : list Z) (name : Z) : option (option Z) :=
  separator ← strchr_from buffer name 36;
  match separator with
  | None => Some None
  | Some separator => c ← ld buffer (separator + 1); Some (if c =? 0 then None else Some (separator + 1))
  end.

Fixpoint doesElementEquals (element name : list Z) : option bool :=
  match name, element with
  | n :: name, e :: element =>
      if n =? 0 then Some ((e =? 0) || (e =? 36))
      else if e =? 0 then Some false
      else if negb (e =? n) then Some false
      else doesElementEquals element name
  | _, _ => None
  end.

(** The comparisons with the four services stop at the first that succeeds. *)
Definition is_service (element : list Z) : option bool :=
  foldr (fun name rest => b ← doesElementEquals element (c_literal name); if b : bool then Some true else rest)
    (Some false) ["Oper"; "SBO"; "SBOw"; "Cancel"]%string.

(** the loop over the elements of the name *)
Fixpoint find_service (fuel : nat) (variableId : list Z) (varName : Z) : option (option Z) :=
  match fuel with
  | O => None
  | S fuel =>
      found ← is_service (ptr_add variableId varName);
      if found : bool then Some (Some varName)
      else
        nextVarName ← MmsMapping_getNextNameElement variableId varName;
        match nextVarName with
        | Some varName => find_service fuel variableId varName
        | None => Some None
        end
  end.

Record ControlName := mkControlName { cn_lnName : list Z; cn_objectName : list Z; cn_varName : option (list Z) }.

(** the parts of the name of a variable, which is copied to a buffer of [size] bytes;
    [None] inside when it has no logical node or no object *)
Definition parse_control_name (size : Z) (variableIdOrig : list Z) : option (option ControlName) :=
  variableId ← mjoin (StringUtils_copyStringMax (Some (replicate (Z.to_nat size) 0)) size variableIdOrig);
  separator ← strchr variableId 36;
  match separator with
  | None => Some None
  | Some separator =>
      variableId ← st variableId separator 0;
      objectName ← MmsMapping_getNextNameElement variableId (separator + 1);
      match objectName with
      | None => Some None
      | Some objectName =>
          varName ← MmsMapping_getNextNameElement variableId objectName;
          varName ← match varName with
                    | Some varName => find_service (S (length variableId)) variableId varName
                    | None => Some None
                    end;
          variableId ← match varName with Some varName => st variableId (varName - 1) 0 | None => Some variableId end;
          Some (Some (mkControlName variableId (ptr_add variableId objectName) (option_map (ptr_add variableId) varName)))
      end
  end.

(** * The control objects of a server *)

(** [mm_log] has the events of all objects, each with the index of its object. *)
Record MmsMapping := mkMmsMapping { mm_controlObjects : list ControlObject; mm_world : World; mm_log : list (nat * ControlEvent) }.

Definition w_with_events (w : World) (events : list ControlEvent) : World :=
  mkWorld (w_nextControlTimeout w) (w_clock w) (w_reads w) (w_clients w) (w_timeQuality w) events.

(** [m] on the object with index [k]; its events go to the log *)
Definition on_control {A} (self : MmsMapping) (k : nat) (m : ctl A) : option (A * MmsMapping) :=
  co ← mm_controlObjects self !! k;
  '(a, co, w) ← m co (w_with_events (mm_world self) []);
  Some (a, mkMmsMapping (<[k := co]> (mm_controlObjects self)) (w_with_events w []) (mm_log self ++ (pair k <$> w_events w))).

(** [m] on [n] objects in turn, from the one with index [k] on *)
Fixpoint for_each (m : ctl unit) (n k : nat) (self : MmsMapping) : option MmsMapping :=
  match n with
  | O => Some self
  | S n => '(_, self) ← on_control self k m; for_each m n (S k) self
  end.

Fixpoint lookup_loop (objects : list ControlObject) (k : nat) (domain : nat) (lnName objectName : list Z) : option (option nat) :=
  match objects with
  | [] => Some None
  | controlObject :: objects =>
      found ←
        (if Nat.eqb (md_address (co_mmsDomain controlObject)) domain then
           same ← strcmp_eq (co_lnName controlObject) lnName;
           if same : bool then strcmp_eq (co_name controlObject) objectName else Some false
         else Some false);
      if found : bool then Some (Some k) else lookup_loop objects (S k) domain lnName objectName
  end.
Definition Control_lookupControlObject (self : MmsMapping) (domain : nat) (lnName objectName : list Z) : option (option nat) :=
  lookup_loop (mm_controlObjects self) 0 domain lnName objectName.

Definition Control_writeAccessControlObject (app : ControlApplication) (self : MmsMapping) (domain : nat) (variableIdOrig : list Z) (value : MmsValue)
    (connection : option nat) (invokeId : Z) : option (Z * MmsMapping) :=
  name ← parse_control_name 65 variableIdOrig;
  match name with
  | Some (mkControlName lnName objectName (Some varName)) =>
      k ← Control_lookupControlObject self domain lnName objectName;
      match k with
      | Some k => on_control self k (write_object app varName value connection invokeId)
      | None => Some (DATA_ACCESS_ERROR_OBJECT_ACCESS_DENIED, self)
      end
  | _ => Some (DATA_ACCESS_ERROR_OBJECT_ACCESS_DENIED, self)
  end.

Definition Control_readAccessControlObject (app : ControlApplication) (self : MmsMapping) (domain : nat)
    (variableIdOrig : list Z) (connection : option nat) (invokeId : Z) (isDirectAccess : bool) : option (option MmsValue * MmsMapping) :=
  name ← parse_control_name 129 variableIdOrig;
  match name with
  | Some (mkControlName lnName objectName varName) =>
      k ← Control_lookupControlObject self domain lnName objectName;
      match k with
      | Some k => on_control self k (read_object app varName connection invokeId isDirectAccess)
      | None => Some (None, self)
      end
  | None => Some (None, self)
  end.

Definition w_with_nextControlTimeout (w : World) (timeout : Z) : World :=
  mkWorld timeout (w_clock w) (w_reads w) (w_clients w) (w_timeQuality w) (w_events w).
Definition w_with_clients (w : World) (clients : list nat) : World :=
  mkWorld (w_nextControlTimeout w) (w_clock w) (w_reads w) clients (w_timeQuality w) (w_events w).

Definition with_world (self : MmsMapping) (w : World) : MmsMapping := mkMmsMapping (mm_controlObjects self) w (mm_log self).

Definition Control_processControlActions (app : ControlApplication) (self : MmsMapping) (currentTimeInMs : Z) : option MmsMapping :=
  if w_nextControlTimeout (mm_world self) <=? currentTimeInMs then
    for_each (process_object app currentTimeInMs) (length (mm_controlObjects self)) 0
      (with_world self (w_with_nextControlTimeout (mm_world self) 0xFFFFFFFFFFFFFFFF))
  else Some self.

Definition unselectControlsForConnection (app : ControlApplication) (self : MmsMapping) (connection : nat) : option MmsMapping :=
  for_each (_ ← ControlObject_unselect app (Some connection); mret tt) (length (mm_controlObjects self)) 0 self.

(** the parts of [mmsConnectionHandler] for controls: the client is removed before its
    controls are unselected *)
Definition connection_closed (app : ControlApplication) (self : MmsMapping) (connection : nat) : option MmsMapping :=
  unselectControlsForConnection app
    (with_world self (w_with_clients (mm_world self) (base.filter (fun c => c <> connection) (w_clients (mm_world self))))) connection.
Definition connection_opened (self : MmsMapping) (connection : nat) : MmsMapping :=
  with_world self (w_with_clients (mm_world self) (w_clients (mm_world self) ++ [connection])).

(** * The view of the application *)

Definition ControlAction_getOrCat (co : ControlObject) : option Z :=
  match co_origin co with
  | Some origin => match MmsValue_getElement origin 0 with Some orCat => MmsValue_toInt32 orCat | None => Some 0 end
  | None => Some 0
  end.
Definition ControlAction_getOrIdent (co : ControlObject) : option (list Z) :=
  origin ← co_origin co;
  orIdent ← MmsValue_getElement origin 1;
  match orIdent with MmsOctetString size _ buf => Some (take (Z.to_nat size) buf) | _ => None end.
Definition ControlAction_getCtlNum (co : ControlObject) : option Z :=
  match co_ctlNum co with Some ctlNum => MmsValue_toInt32 ctlNum | None => Some (-1) end.
Definition ControlAction_getSynchroCheck (co : ControlObject) : bool := co_synchroCheck co.
Definition ControlAction_getInterlockCheck (co : ControlObject) : bool := co_interlockCheck co.
Definition ControlAction_isSelect (co : ControlObject) : bool := co_isSelect co.
Definition ControlAction_getClientConnection (w : World) (co : ControlObject) : option nat := connected w (co_mmsConnection co).
Definition ControlAction_getControlTime (co : ControlObject) : Z := co_operateTime co.
Definition ControlAction_getT (co : ControlObject) : list Z := co_T co.
