(* ===== verification/ControlSetup.v ===== *)
(** The control objects of a data model: the function [createControlObjects] of
    src/libiec61850/src/iec61850/server/impl/ied_server.c, which goes through the
    components of a logical node with the functional constraint CO. *)

From Stdlib Require Import String.
From S2P Require Import Prelude BerEncoder BerDecoder BerInteger StringUtils CText CFloat MmsValue MmsFacts IecCommon ObjectReference MmsTypeSpec Control.
Open Scope Z_scope.

(** the components of a control object: the index and type of Oper, the indexes of the others *)
Record CoElements := mkCoElements { ce_oper : option (Z * MmsTypeSpec); ce_cancel : option Z; ce_sbow : option Z; ce_sbo : option Z }.

(** the loop over the components; an unknown one ends it *)
Fixpoint co_elements (elements : list MmsTypeSpec) (j : Z) (ce : CoElements) : option CoElements :=
  match elements with
  | [] => Some ce
  | coElementSpec :: elements =>
      name ← type_name coElementSpec;
      is_Oper ← strcmp_eq name (c_literal "Oper");
      is_Cancel ← strcmp_eq name (c_literal "Cancel");
      is_SBOw ← strcmp_eq name (c_literal "SBOw");
      is_SBO ← strcmp_eq name (c_literal "SBO");
      if is_Oper : bool then co_elements elements (j + 1) (mkCoElements (Some (j, coElementSpec)) (ce_cancel ce) (ce_sbow ce) (ce_sbo ce))
      else if is_Cancel : bool then co_elements elements (j + 1) (mkCoElements (ce_oper ce) (Some j) (ce_sbow ce) (ce_sbo ce))
      else if is_SBOw : bool then co_elements elements (j + 1) (mkCoElements (ce_oper ce) (ce_cancel ce) (Some j) (ce_sbo ce))
      else if is_SBO : bool then co_elements elements (j + 1) (mkCoElements (ce_oper ce) (ce_cancel ce) (ce_sbow ce) (Some j))
      else Some ce
  end.

(** the object for a structure with Oper; [None] inside when there is no default value *)
Definition create_control (domain : MmsDomain) (lnName objectName : list Z) (coSpec operSpec : MmsTypeSpec) (operIndex : Z) (ce : CoElements)
  : option (option ControlObject) :=
  controlObject ← ControlObject_create domain lnName objectName operSpec;
  structure ← MmsValue_newDefaultValue (unnamed coSpec);
  match structure with
  | None => Some None
  | Some structure =>
      Some (Some (co_with_elements (Some operIndex) (ce_sbo ce) (ce_sbow ce) (ce_cancel ce)
        (ControlObject_setTypeSpec coSpec (ControlObject_setMmsValue structure controlObject))))
  end.

(** the loop over the structures, with the recursive call as an argument; the objects that
    are added, and whether all went well *)
Section Loop.
Context (createControlObjects : MmsTypeSpec -> list Z -> option (bool * list ControlObject)).
Context (domain : MmsDomain) (lnName : list Z) (namePrefix : option (list Z)).

Fixpoint create_loop (elements : list MmsTypeSpec) : option (bool * list ControlObject) :=
  match elements with
  | [] => Some (true, [])
  | TypeStructure name coElements as coSpec :: elements =>
      objectName ← match namePrefix with
                   | Some namePrefix => StringUtils_concatString (Some (replicate 65 0)) 65 namePrefix (c_literal "$")
                   | None => Some (replicate 65 0)
                   end;
      ce ← co_elements coElements 0 (mkCoElements None None None None);
      name ← name;
      objectName ← StringUtils_appendString objectName 65 name;
      match ce_oper ce with
      | Some (operIndex, operSpec) =>
          controlObject ← create_control domain lnName objectName coSpec operSpec operIndex ce;
          match controlObject with
          | None => Some (false, [])
          | Some controlObject => '(success, objects) ← create_loop elements; Some (success, controlObject :: objects)
          end
      | None =>
          '(success, inner) ← createControlObjects coSpec objectName;
          if success : bool then '(success, objects) ← create_loop elements; Some (success, inner ++ objects)
          else Some (false, inner)
      end
  | _ :: elements => create_loop elements
  end.
End Loop.

Fixpoint createControlObjects (domain : MmsDomain) (lnName : list Z) (typeSpec : MmsTypeSpec) (namePrefix : option (list Z))
  : option (bool * list ControlObject) :=
  match typeSpec with
  | TypeStructure _ elements =>
      create_loop (fun coSpec objectName => createControlObjects domain lnName coSpec (Some objectName)) domain lnName namePrefix elements
  | _ => Some (true, [])
  end.
