(* ===== verification/ControlFacts.v ===== *)
(** Facts on control objects: a small program logic for the monad of Control.

    What the properties follow is a view of an object: its state, its connection, and the
    client that selected it according to the events so far ([owner]). Most steps are
    [neutral]: they leave the view alone. [triple] is a Hoare triple on views for objects
    of the select-before-operate models that are operated once per selection. *)

From S2P Require Import Prelude BerEncoder BerDecoder BerInteger StringUtils CText CFloat MmsValue MmsFacts IecCommon ObjectReference MmsTypeSpec Control.
Open Scope Z_scope.

(** * The monitor

    The outer [None] is a violation: an operation of a client that had not selected the
    object. Otherwise the client that has, if any. *)

Definition monitor_step (o : option (option (option nat))) (e : ControlEvent) : option (option (option nat)) :=
  owner ← o;
  match e with
  | E_Selected connection => Some (Some connection)
  | E_Unselected _ => Some None
  | E_Operate connection _ _ => if decide (owner = Some connection) then Some owner else None
  | _ => Some owner
  end.
Definition monitor (start : option (option (option nat))) (events : list ControlEvent) : option (option (option nat)) :=
  foldl monitor_step start events.

Lemma monitor_app start es e : monitor start (es ++ [e]) = monitor_step (monitor start es) e.
Proof. unfold monitor. by rewrite foldl_app. Qed.

Definition neutral_event (e : ControlEvent) : Prop :=
  match e with E_Selected _ | E_Unselected _ | E_Operate _ _ _ => False | _ => True end.

Lemma monitor_neutral start es e : neutral_event e -> monitor start (es ++ [e]) = monitor start es.
Proof. intros H. rewrite monitor_app. by destruct (monitor start es), e. Qed.

(** * Views *)

Record View := mkView { v_state : ControlState; v_connection : option nat; v_owner : option (option (option nat)) }.

Definition view (start : option (option (option nat))) (co : ControlObject) (w : World) : View :=
  mkView (co_state co) (co_mmsConnection co) (monitor start (w_events w)).

(** what no request changes *)
Definition fixed (co : ControlObject) : ControlModel * option MmsValue := (co_ctlModel co, co_sboClass co).

Definition sbo_once (co : ControlObject) : Prop :=
  is_sbo (co_ctlModel co) = true /\ isSboClassOperateOnce co = Some true.

Lemma sbo_once_fixed co co' : fixed co' = fixed co -> sbo_once co -> sbo_once co'.
Proof. unfold fixed, sbo_once, isSboClassOperateOnce. intros [= -> ->]. done. Qed.

(** the clock goes on, and the next check is not put off *)
Definition calm (w w' : World) : Prop :=
  w_clock w' = w_clock w /\ w_nextControlTimeout w' <= Z.max 0 (w_nextControlTimeout w).

(** a step that leaves the view and the time of the selection alone *)
Definition leaves_alone (start : option (option (option nat))) (co : ControlObject) (w : World) (co' : ControlObject) (w' : World) : Prop :=
  fixed co' = fixed co /\ view start co' w' = view start co w /\
  co_selectTime co' = co_selectTime co /\ co_selectTimeout co' = co_selectTimeout co /\ calm w w'.

Lemma leaves_alone_trans start co w co1 w1 co2 w2 :
  leaves_alone start co w co1 w1 -> leaves_alone start co1 w1 co2 w2 -> leaves_alone start co w co2 w2.
Proof.
  unfold leaves_alone, calm. intros (F1 & V1 & S1 & T1 & C1 & N1) (F2 & V2 & S2 & T2 & C2 & N2).
  split_and!; [congruence..|lia].
Qed.

Lemma leaves_alone_world start co w w' :
  w_clock w' = w_clock w -> w_nextControlTimeout w' <= Z.max 0 (w_nextControlTimeout w) ->
  monitor start (w_events w') = monitor start (w_events w) -> leaves_alone start co w co w'.
Proof. unfold leaves_alone, calm, view. intros -> ? ->. done. Qed.

Definition neutral {A} (m : ctl A) : Prop := forall start co w a co' w', m co w = Some (a, co', w') -> leaves_alone start co w co' w'.
(** the same without the time of the selection *)
Definition quiet {A} (m : ctl A) : Prop := forall start co w a co' w',
  m co w = Some (a, co', w') -> fixed co' = fixed co /\ view start co' w' = view start co w.

Definition triple {A} (P : View -> Prop) (m : ctl A) (Q : A -> View -> Prop) : Prop := forall start co w a co' w',
  m co w = Some (a, co', w') -> sbo_once co -> P (view start co w) -> fixed co' = fixed co /\ Q a (view start co' w').

(** * The rules *)

Lemma bind_inv {A B} (m : ctl A) (k : A -> ctl B) co w r :
  (m ≫= k) co w = Some r -> exists a co1 w1, m co w = Some (a, co1, w1) /\ k a co1 w1 = Some r.
Proof. unfold mbind, ctl_bind. destruct (m co w) as [[[a co1] w1]|]; [|done]. eauto 6. Qed.

Create HintDb ctl discriminated.
Create HintDb ctl_spec discriminated.

Lemma neutral_bind {A B} (m : ctl A) (k : A -> ctl B) : neutral m -> (forall a, neutral (k a)) -> neutral (m ≫= k).
Proof.
  intros Hm Hk st co w b co' w' (a & co1 & w1 & E1 & E2)%bind_inv.
  eapply leaves_alone_trans; [by eapply Hm|by eapply Hk].
Qed.

Lemma neutral_ret {A} (a : A) : neutral (mret a).
Proof. intros st co w b co' w' [= <- <- <-]. apply leaves_alone_world; [done|lia|done]. Qed.

Lemma neutral_get : neutral get.
Proof. intros st co w b co' w' [= <- <- <-]. apply leaves_alone_world; [done|lia|done]. Qed.
Lemma neutral_get_world : neutral get_world.
Proof. intros st co w b co' w' [= <- <- <-]. apply leaves_alone_world; [done|lia|done]. Qed.
Lemma neutral_lift {A} (o : option A) : neutral (lift o).
Proof.
  intros st co w b co' w'. unfold lift. destruct o; [|done]. intros [= <- <- <-]. apply leaves_alone_world; [done|lia|done].
Qed.
Lemma neutral_time : neutral Hal_getTimeInMs.
Proof. intros st co w b co' w' [= <- <- <-]. apply leaves_alone_world; [done|cbn; lia|done]. Qed.
Lemma neutral_set_timeout : neutral (set_nextControlTimeout 0).
Proof. intros st co w b co' w' [= <- <- <-]. apply leaves_alone_world; [done|cbn; lia|done]. Qed.

Lemma neutral_emit e : neutral_event e -> neutral (emit e).
Proof.
  intros He st co w b co' w' [= <- <- <-]. apply leaves_alone_world; [done|cbn; lia|]. by apply monitor_neutral.
Qed.

(** an assignment to other members *)
Lemma neutral_modify f :
  (forall co, fixed (f co) = fixed co /\ co_state (f co) = co_state co /\ co_mmsConnection (f co) = co_mmsConnection co /\
     co_selectTime (f co) = co_selectTime co /\ co_selectTimeout (f co) = co_selectTimeout co) -> neutral (modify f).
Proof.
  intros H st co w b co' w' [= <- <- <-]. destruct (H co) as (H1 & H2 & H3 & H4 & H5). unfold leaves_alone, view, calm.
  rewrite H1, H2, H3, H4, H5. split_and!; [done..|lia].
Qed.

Lemma neutral_if {A} (b : bool) (m1 m2 : ctl A) : neutral m1 -> neutral m2 -> neutral (if b then m1 else m2).
Proof. by destruct b. Qed.

#[export] Hint Resolve neutral_ret neutral_get neutral_get_world neutral_lift neutral_time neutral_set_timeout : ctl.
#[export] Hint Extern 1 (neutral (emit _)) => (apply neutral_emit; exact I) : ctl.
#[export] Hint Extern 1 (neutral (modify _)) =>
  (apply neutral_modify; let co := fresh in intros co; try unfold set_object_element; repeat case_match; by destruct co) : ctl.

(** takes a program apart along its binds, branches and matches *)
Ltac neutral :=
  repeat first
    [ progress intros
    | match goal with |- neutral (mbind _ _) => apply neutral_bind end
    | match goal with |- neutral (match ?x with _ => _ end) => destruct x end
    | solve [eauto 2 with ctl] ].

Lemma neutral_add_pending e : neutral (add_pending e).
Proof. unfold add_pending. neutral. Qed.
Lemma neutral_updateNext t : neutral (updateNextControlTimeout t).
Proof.
  intros st co w b co' w'. unfold updateNextControlTimeout. intros (w0 & co1 & w1 & [= <- <- <-] & E)%bind_inv.
  destruct (t <? w_nextControlTimeout w) eqn:Et; [|by eapply neutral_ret]. injection E as <- <- <-.
  apply leaves_alone_world; [done|cbn; lia|done].
Qed.
#[export] Hint Resolve neutral_add_pending neutral_updateNext : ctl.

Lemma neutral_setStSeld b : neutral (setStSeld b).
Proof. unfold setStSeld. neutral. Qed.
Lemma neutral_setOpRcvd b : neutral (setOpRcvd b).
Proof. unfold setOpRcvd. neutral. Qed.
Lemma neutral_setOpOk b t : neutral (setOpOk b t).
Proof. unfold setOpOk. neutral. Qed.
Lemma neutral_quiet {A} (m : ctl A) : neutral m -> quiet m.
Proof. intros Hm st co w a co' w' E. by destruct (Hm st _ _ _ _ _ E) as (? & ? & _). Qed.
Lemma quiet_bind {A B} (m : ctl A) (k : A -> ctl B) : quiet m -> (forall a, quiet (k a)) -> quiet (m ≫= k).
Proof.
  intros Hm Hk st co w b co' w' (a & co1 & w1 & E1 & E2)%bind_inv.
  destruct (Hm st _ _ _ _ _ E1) as [F1 V1]. destruct (Hk _ st _ _ _ _ _ E2) as [F2 V2]. split; congruence.
Qed.
Lemma quiet_selectTime t : quiet (modify (co_with_selectTime t)).
Proof. intros st [] w b co' w' [= <- <- <-]. done. Qed.
Lemma quiet_selectTimeout t : quiet (modify (co_with_selectTimeout t)).
Proof. intros st [] w b co' w' [= <- <- <-]. done. Qed.
Lemma quiet_updateSboTimeout : quiet updateSboTimeoutValue.
Proof.
  unfold updateSboTimeoutValue. apply quiet_bind; [apply neutral_quiet; neutral|]. intros co. case_match; [|apply quiet_selectTimeout].
  apply quiet_bind; [apply neutral_quiet; neutral|]. intros v. apply quiet_selectTimeout.
Qed.
Lemma neutral_initiateControlTask : neutral initiateControlTask.
Proof. unfold initiateControlTask. neutral. Qed.
Lemma neutral_exitControlTask : neutral exitControlTask.
Proof. unfold exitControlTask. neutral. Qed.
Lemma neutral_track s e : neutral (updateGenericTrackingObjectValues s e).
Proof. unfold updateGenericTrackingObjectValues. neutral. Qed.
Lemma neutral_resetAddCause : neutral resetAddCause.
Proof. unfold resetAddCause. neutral. Qed.
Lemma neutral_setError e : neutral (ControlAction_setError e).
Proof. unfold ControlAction_setError. neutral. Qed.
Lemma neutral_setAddCause e : neutral (ControlAction_setAddCause e).
Proof. unfold ControlAction_setAddCause. neutral. Qed.
#[export] Hint Resolve neutral_setStSeld neutral_setOpRcvd neutral_setOpOk  neutral_initiateControlTask
  neutral_exitControlTask neutral_track neutral_resetAddCause neutral_setError neutral_setAddCause : ctl.

Lemma neutral_call_handler {A} e (answer : ControlObject -> Answer A) : neutral_event e -> neutral (call_control_handler e answer).
Proof. intros He. unfold call_control_handler. neutral. by apply neutral_emit. Qed.
#[export] Hint Extern 1 (neutral (call_control_handler _ _)) => (apply neutral_call_handler; exact I) : ctl.

Lemma neutral_call_check app v t i : neutral (call_checkHandler app v t i).
Proof. unfold call_checkHandler. neutral. Qed.
Lemma neutral_perform_check app v t i : neutral (perform_check app v t i).
Proof. unfold perform_check. pose proof neutral_call_check. neutral. Qed.
Lemma neutral_update_element i v : neutral (update_element i v).
Proof. unfold update_element. neutral. Qed.
Lemma neutral_set_errors e a : neutral (set_errors e a).
Proof. unfold set_errors. neutral. Qed.
#[export] Hint Resolve neutral_call_check neutral_perform_check neutral_update_element neutral_set_errors : ctl.
Lemma neutral_sendLastApplError c v e a n o h : neutral (ControlObject_sendLastApplError c v e a n o h).
Proof. unfold ControlObject_sendLastApplError. neutral. Qed.
Lemma neutral_termination_positive : neutral ControlObject_sendCommandTerminationPositive.
Proof. unfold ControlObject_sendCommandTerminationPositive. neutral. Qed.
Lemma neutral_termination_negative : neutral ControlObject_sendCommandTerminationNegative.
Proof. unfold ControlObject_sendCommandTerminationNegative. neutral. Qed.
Lemma neutral_clear_operTm : neutral clear_operTm.
Proof. unfold clear_operTm. neutral. Qed.
Lemma neutral_parameters v n o s i : neutral (updateControlParameters v n o s i).
Proof. unfold updateControlParameters. neutral. Qed.
Lemma neutral_store_T t : neutral (store_T t).
Proof. unfold store_T. neutral. Qed.
#[export] Hint Resolve neutral_sendLastApplError neutral_termination_positive neutral_termination_negative neutral_clear_operTm
  neutral_parameters neutral_store_T : ctl.
Lemma neutral_refuse c v a n o i : neutral (refuse c v a n o i).
Proof. unfold refuse, answer. neutral. Qed.
Lemma neutral_finish_request s r : neutral (finish_request s r).
Proof. unfold finish_request. neutral. Qed.
Lemma neutral_handle_pending e x ev : neutral_event ev -> neutral (handle_pending e x ev).
Proof. intros H. unfold handle_pending. neutral. by apply neutral_emit. Qed.
Lemma neutral_handlePendingEvents : neutral ControlObject_handlePendingEvents.
Proof. unfold ControlObject_handlePendingEvents. neutral; by apply neutral_handle_pending. Qed.
#[export] Hint Resolve neutral_refuse neutral_finish_request neutral_handlePendingEvents : ctl.

(** * Triples *)

Lemma t_quiet {A} (m : ctl A) P : quiet m -> triple P m (fun _ => P).
Proof. intros Hm st co w a co' w' E _ HP. destruct (Hm st _ _ _ _ _ E) as [F V]. by rewrite V. Qed.
Lemma t_neutral {A} (m : ctl A) P : neutral m -> triple P m (fun _ => P).
Proof. intros Hm. by apply t_quiet, neutral_quiet. Qed.

Lemma t_bind {A B} (m : ctl A) (k : A -> ctl B) P Q R :
  triple P m Q -> (forall a, triple (Q a) (k a) R) -> triple P (m ≫= k) R.
Proof.
  intros Hm Hk st co w b co' w' (a & co1 & w1 & E1 & E2)%bind_inv Ho HP.
  destruct (Hm st _ _ _ _ _ E1 Ho HP) as [F1 H1]. destruct (Hk a st _ _ _ _ _ E2) as [F2 H2]; [by eapply sbo_once_fixed|done|].
  split; congruence.
Qed.

Lemma t_seq {A B} (m : ctl A) (k : A -> ctl B) P R : neutral m -> (forall a, triple P (k a) R) -> triple P (m ≫= k) R.
Proof. intros Hm Hk. eapply t_bind; [by apply t_neutral|done]. Qed.

Lemma t_conseq {A} (m : ctl A) (P P' : View -> Prop) (Q Q' : A -> View -> Prop) :
  triple P' m Q' -> (forall v, P v -> P' v) -> (forall a v, Q' a v -> Q a v) -> triple P m Q.
Proof. intros Hm HP HQ st co w a co' w' E Ho H. destruct (Hm st _ _ _ _ _ E Ho (HP _ H)). auto. Qed.

Lemma t_pre {A} (m : ctl A) (P P' : View -> Prop) Q : triple P' m Q -> (forall v, P v -> P' v) -> triple P m Q.
Proof. intros Hm HP. by eapply t_conseq. Qed.

Lemma t_ret {A} (a : A) (Q : A -> View -> Prop) : triple (Q a) (mret a) Q.
Proof. intros st co w b co' w' [= <- <- <-] _ H. done. Qed.

(** what is read from the object is what the view shows *)
Lemma t_get {B} (k : ControlObject -> ctl B) P Q :
  (forall co, sbo_once co -> triple (fun v => P v /\ co_state co = v_state v /\ co_mmsConnection co = v_connection v) (k co) Q) ->
  triple P (get ≫= k) Q.
Proof.
  intros Hk st co w b co' w' (a & co1 & w1 & [= <- <- <-] & E2)%bind_inv Ho HP.
  by apply (Hk co Ho st _ _ _ _ _ E2).
Qed.

Lemma t_getState {B} (k : ControlState -> ctl B) P Q :
  (forall s, triple (fun v => P v /\ v_state v = s) (k s) Q) -> triple P (getState ≫= k) Q.
Proof.
  intros Hk st co w b co' w' (a & co1 & w1 & E1 & E2)%bind_inv Ho HP. injection E1 as <- <- <-.
  by apply (Hk _ st _ _ _ _ _ E2).
Qed.

Lemma t_lift {A B} (o : option A) (k : A -> ctl B) P Q : (forall a, o = Some a -> triple P (k a) Q) -> triple P (lift o ≫= k) Q.
Proof.
  intros Hk st co w b co' w' (a & co1 & w1 & E1 & E2)%bind_inv. unfold lift in E1. destruct o; [|done]. injection E1 as <- <- <-.
  by apply (Hk _ eq_refl st _ _ _ _ _ E2).
Qed.

Lemma t_setState s P : triple P (setState s) (fun _ v => exists s0, P (mkView s0 (v_connection v) (v_owner v)) /\ v_state v = s).
Proof. intros st [] w b co' w' [= <- <- <-] _ HP. split; [done|]. eexists. split; [exact HP|done]. Qed.

Lemma t_connection c P :
  triple P (modify (co_with_mmsConnection c)) (fun _ v => exists c0, P (mkView (v_state v) c0 (v_owner v)) /\ v_connection v = c).
Proof. intros st [] w b co' w' [= <- <- <-] _ HP. split; [done|]. eexists. split; [exact HP|done]. Qed.

Lemma t_emit e P : triple P (emit e) (fun _ v => exists o, P (mkView (v_state v) (v_connection v) o) /\ v_owner v = monitor_step o e).
Proof.
  intros st co w b co' w' [= <- <- <-] _ HP. split; [done|]. eexists. split; [exact HP|]. cbn. apply monitor_app.
Qed.

(** * The invariant of the select-before-operate models

    An object that is not selected has no owner; otherwise the owner is its connection. *)
Definition inv (v : View) : Prop :=
  v_owner v = Some (match v_state v with STATE_UNSELECTED | STATE_WAIT_FOR_SELECT => None | _ => Some (v_connection v) end).
(** no violation so far *)
Definition lawful (v : View) : Prop := is_Some (v_owner v).
Definition keeps {A} (m : ctl A) : Prop := triple inv m (fun _ => inv).

Lemma inv_lawful v : inv v -> lawful v.
Proof. unfold inv, lawful. by intros ->. Qed.

Lemma keeps_neutral {A} (m : ctl A) : neutral m -> keeps m.
Proof. apply t_neutral. Qed.

Section WithApplication.
Context (app : ControlApplication).

Lemma t_selectObject t c : triple lawful (selectObject app t c) (fun _ v => inv v /\ v_state v = STATE_READY).
Proof.
  unfold selectObject. eapply t_bind; [apply t_emit|]. intros []. cbn beta.
  eapply t_bind; [apply t_quiet, quiet_updateSboTimeout|]. intros []. eapply t_bind; [apply t_quiet, quiet_selectTime|]. intros [].
  eapply t_bind; [apply t_connection|]. intros []. apply t_seq; [auto with ctl|]. intros [].
  eapply t_bind; [apply t_setState|]. intros []. cbn.
  eapply t_conseq; [apply t_neutral; neutral| |].
  - intros v H. exact H.
  - intros [] [s c1 o] (s0 & (c0 & (o' & Hl & Ho) & Hc) & Hs). unfold inv. cbn in *. subst. destruct Hl as [x Hx]. cbn in Hx. by rewrite Hx.
Qed.

Lemma t_unselectObject r : triple inv (unselectObject app r) (fun _ v => inv v /\ v_state v = STATE_UNSELECTED).
Proof.
  unfold unselectObject. apply t_getState. intros s. case_decide.
  - eapply t_conseq; [apply (t_ret tt (fun _ v => inv v /\ v_state v = STATE_UNSELECTED))| |done]. intros v [Hv Hs]. by rewrite Hs.
  - eapply t_bind; [apply t_setState|]. intros []. apply t_seq; [auto with ctl|]. intros []. apply t_seq; [auto with ctl|]. intros [].
    apply t_seq; [neutral|]. intros []. eapply t_conseq; [apply t_emit|intros v Hv; exact Hv|].
    intros [] [s1 c1 o1] (o & (s0 & [Hi Hs0] & Hs1) & Ho). unfold inv in *. cbn in *. by subst.
Qed.

Lemma keeps_bind {A B} (m : ctl A) (k : A -> ctl B) : keeps m -> (forall a, keeps (k a)) -> keeps (m ≫= k).
Proof. apply t_bind. Qed.
Lemma keeps_unselect r : keeps (unselectObject app r).
Proof. eapply t_conseq; [apply t_unselectObject|done|]. by intros _ v [? _]. Qed.
Lemma keeps_select t c : keeps (selectObject app t c).
Proof. eapply t_conseq; [apply t_selectObject|apply inv_lawful|]. by intros _ v [? _]. Qed.

Lemma keeps_get {B} (k : ControlObject -> ctl B) : (forall co, keeps (k co)) -> keeps (get ≫= k).
Proof. intros Hk. apply t_get. intros co _. eapply t_conseq; [apply Hk| |done]. by intros v [? _]. Qed.

Lemma keeps_checkSelectTimeout t : keeps (checkSelectTimeout app t).
Proof.
  unfold checkSelectTimeout. apply keeps_get. intros co. repeat case_match; try (apply keeps_neutral; by neutral). apply keeps_unselect.
Qed.

(** With one operation per selection the end of an operation is the end of the selection. *)
Lemma keeps_abort u r : keeps (abortControlOperation app u r).
Proof.
  unfold abortControlOperation. apply t_get. intros co [Hs Ho]. rewrite Hs, Ho.
  apply t_bind with (Q := fun _ => inv); [|intros []; apply keeps_neutral; by neutral].
  apply t_pre with (P' := inv); [|by intros v [? _]].
  destruct u; [apply keeps_unselect|]. apply t_lift. intros b [= <-]. apply keeps_unselect.
Qed.

#[local] Hint Resolve keeps_unselect keeps_select keeps_checkSelectTimeout keeps_abort : ctl.

Ltac keeps :=
  repeat first
    [ progress intros
    | solve [eauto 2 with ctl]
    | solve [apply keeps_neutral; neutral]
    | match goal with |- keeps (mbind _ _) => apply keeps_bind end
    | match goal with |- keeps (match ?x with _ => _ end) => destruct x end ].

(** * The state machine *)

Definition operating (s : ControlState) : Prop :=
  match s with STATE_WAIT_FOR_ACTIVATION_TIME | STATE_WAIT_FOR_EXECUTION | STATE_OPERATE => True | _ => False end.
Definition operable (v : View) : Prop := inv v /\ operating (v_state v).

Lemma t_operateControl value t test :
  triple operable (operateControl app value t test) (fun _ => inv).
Proof.
  unfold operateControl. eapply t_bind; [apply t_quiet, quiet_selectTime|]. intros []. do 2 (apply t_seq; [auto with ctl|]; intros []).
  apply t_get. intros co _. destruct (operateHandler app) as [h|]; [|eapply t_conseq; [apply t_neutral; neutral|intros v H; exact H|by intros _ v [[? _] _]]].
  unfold call_control_handler. apply t_seq; [auto with ctl|]. intros co1.
  eapply t_bind; [apply t_emit|]. intros [].
  eapply t_conseq; [apply t_neutral; neutral|intros v H; exact H|].
  intros r [s c o] (o0 & ([Hi Hs] & Hs1 & Hc) & Ho). unfold inv in *. cbn in *. subst o. rewrite Hi, Hc.
  by destruct s; try done; cbn; rewrite decide_True.
Qed.

Lemma t_state_operate t : triple operable (state_operate app t) (fun _ => inv).
Proof.
  unfold state_operate. apply t_seq; [auto with ctl|]. intros now. apply t_get. intros co _.
  eapply t_bind; [eapply t_conseq; [apply t_operateControl|by intros v [? _]|done]|].
  intros r. match goal with |- triple _ ?m _ => change (keeps m) end. keeps.
Qed.

Definition idle (s : ControlState) : Prop := s = STATE_UNSELECTED \/ s = STATE_WAIT_FOR_SELECT.

(** between states in which the object is selected, and between those in which it is not *)
Lemma t_setState_class s : triple (fun v => inv v /\ (idle (v_state v) <-> idle s)) (setState s) (fun _ v => inv v /\ v_state v = s).
Proof.
  eapply t_conseq; [apply t_setState|intros v H; exact H|]. unfold inv, idle. intros [] [s1 c1 o1] (s0 & [Hi Hc] & Hs). cbn in *. subst.
  split; [|done]. destruct s0, s; cbn; try done; exfalso; intuition congruence.
Qed.

Lemma t_state_wait_for_execution b t : triple operable (state_wait_for_execution app b t) (fun _ => inv).
Proof.
  unfold state_wait_for_execution. do 2 (apply t_seq; [auto with ctl|]; intros []). apply t_seq; [auto with ctl|]. intros co.
  apply t_seq; [neutral|]. intros r. destruct r.
  - apply t_pre with (P' := inv); [|by intros v [? _]]. match goal with |- triple _ ?m _ => change (keeps m) end. keeps.
  - apply t_seq; [auto with ctl|]. intros co1. apply t_seq; [neutral|]. intros [].
    eapply t_bind; [eapply t_pre; [apply t_setState_class|]|intros []; apply t_seq; [auto with ctl|]; intros []; eapply t_pre; [apply t_state_operate|]].
    + intros v [Hi Ho]. split; [done|]. revert Ho. unfold idle. destruct (v_state v); cbn; intuition congruence.
    + intros v [Hi Hs]. split; [done|]. by rewrite Hs.
  - apply t_pre with (P' := inv); [|by intros v [? _]]. apply keeps_neutral. neutral.
Qed.

Lemma t_select_answered r : triple (fun v => inv v /\ v_state v = STATE_WAIT_FOR_SELECT) (select_answered app r) (fun _ => inv).
Proof.
  assert (Huns : triple (fun v => inv v /\ v_state v = STATE_WAIT_FOR_SELECT) (setState STATE_UNSELECTED) (fun _ => inv)).
  { eapply t_conseq; [apply t_setState_class| |by intros ? v [? _]]. intros v [? ->]. split; [done|]. unfold idle. tauto. }
  assert (Hsel : forall t c, triple (fun v => inv v /\ v_state v = STATE_WAIT_FOR_SELECT) (selectObject app t c) (fun _ => inv)).
  { intros t c. eapply t_pre; [apply keeps_select|]. by intros v [? _]. }
  unfold select_answered. apply t_get. intros co _.
  apply t_pre with (P' := fun v => inv v /\ v_state v = STATE_WAIT_FOR_SELECT); [|by intros v [? _]].
  destruct (co_ctlModel co).
  1,2,4: eapply t_conseq; [apply t_setState_class| |by intros ? v [? _]]; intros v [? ->]; split; [done|]; unfold idle; tauto.
  - apply t_bind with (Q := fun _ => inv); [|intros a; apply keeps_neutral; neutral].
    destruct r; first [apply t_seq; [auto with ctl|]; intros t; eapply t_bind; [apply Hsel|] | eapply t_bind; [apply Huns|]];
      intros []; apply keeps_neutral; neutral.
  - destruct r; first [apply t_seq; [auto with ctl|]; intros t; eapply t_bind; [apply Hsel|] | eapply t_bind; [apply Huns|]];
      intros []; apply keeps_neutral; neutral.
Qed.

Lemma t_state_wait_for_select : triple (fun v => inv v /\ v_state v = STATE_WAIT_FOR_SELECT) (state_wait_for_select app) (fun _ => inv).
Proof.
  unfold state_wait_for_select. do 3 (apply t_seq; [auto with ctl|]; intros []). apply t_seq; [auto with ctl|]. intros co.
  apply t_seq; [auto with ctl|]. intros r. apply t_seq; [auto with ctl|]. intros [].
  destruct r; try apply t_select_answered. eapply t_pre; [apply keeps_neutral; neutral|]. by intros v [? _].
Qed.

Lemma keeps_executeControlTask t : keeps (executeControlTask app t).
Proof.
  unfold executeControlTask. apply t_getState. intros s.
  destruct s; try (eapply t_pre; [solve [apply keeps_neutral; neutral]|by intros v [? _]]);
    first [eapply t_pre; [apply t_state_wait_for_execution|] | eapply t_pre; [apply t_state_operate|] | apply t_state_wait_for_select];
    intros v [Hi Hs]; split; try done; by rewrite Hs.
Qed.

(** * The requests *)

Definition in_state (s : ControlState) (v : View) : Prop := inv v /\ v_state v = s.
(** selected by [c], ready or waiting for its time *)
Definition selected_by (c : option nat) (v : View) : Prop := inv v /\ ~ idle (v_state v) /\ v_connection v = c.

Lemma t_connection_idle c : triple (in_state STATE_UNSELECTED) (modify (co_with_mmsConnection c)) (fun _ => in_state STATE_UNSELECTED).
Proof.
  eapply t_conseq; [apply t_connection|intros v H; exact H|]. unfold in_state, inv. intros [] [s c1 o] (c0 & [Hi Hs] & Hc). cbn in *. by subst.
Qed.

Lemma t_connection_same c : triple (selected_by c) (modify (co_with_mmsConnection c)) (fun _ => selected_by c).
Proof.
  eapply t_conseq; [apply t_connection|intros v H; exact H|]. unfold selected_by, inv. intros [] [s c1 o] (c0 & (Hi & Hs & Hc0) & Hc). cbn in *. by subst.
Qed.

Lemma t_setState_selected c s : ~ idle s -> triple (selected_by c) (setState s) (fun _ => selected_by c).
Proof.
  intros Hs. eapply t_conseq; [apply t_setState|intros v H; exact H|].
  unfold selected_by, inv. intros [] [s1 c1 o] (s0 & (Hi & Hs0 & Hc) & Hs1). cbn in *. subst. split_and!; try done.
  unfold idle in *. destruct s0, s; cbn; try done; exfalso; intuition congruence.
Qed.

Lemma selected_inv c v : selected_by c v -> inv v.
Proof. by intros [? _]. Qed.
Lemma in_state_inv s v : in_state s v -> inv v.
Proof. by intros [? _]. Qed.

Lemma t_checkSelectTimeout_unselected t : triple (in_state STATE_UNSELECTED) (checkSelectTimeout app t) (fun _ => in_state STATE_UNSELECTED).
Proof.
  unfold checkSelectTimeout. apply t_get. intros co _. destruct (decide (co_state co = STATE_READY)) as [Hr|Hr].
  - intros st co1 w a co' w' _ _ [[_ Hs] [Hs' _]]. exfalso. congruence.
  - rewrite (bool_decide_false _ Hr), andb_false_r. cbn [andb]. eapply t_pre; [apply t_neutral; neutral|]. by intros v [? _].
Qed.

Lemma t_select_unselected v n o c t now conn i :
  triple (in_state STATE_UNSELECTED) (select_unselected app v n o c t now conn i) (fun _ => inv).
Proof.
  unfold select_unselected. do 3 (apply t_seq; [auto with ctl|]; intros ?). do 3 (apply t_seq; [auto with ctl|]; intros []).
  apply t_bind with (Q := fun _ => in_state STATE_UNSELECTED).
  { destruct (checkHandler app); [|apply t_neutral; neutral]. apply t_seq; [auto with ctl|]. intros [].
    eapply t_bind; [apply t_connection_idle|]. intros []. apply t_neutral. neutral. }
  intros r. destruct r.
  2: { eapply t_bind; [apply t_connection_idle|]. intros []. apply t_seq; [auto with ctl|]. intros []. apply t_seq; [auto with ctl|]. intros co.
       do 3 (apply t_seq; [auto with ctl|]; intros [? ?]). apply t_seq; [auto with ctl|]. intros [].
       eapply t_bind; [eapply t_pre; [apply t_setState_class|]|intros []; eapply t_conseq; [apply t_neutral; neutral|intros v0 H; exact H|by intros ? v0 [? _]]].
       intros v0 [? ->]. split; [done|]. unfold idle. tauto. }
  1: { eapply t_bind; [eapply t_pre; [apply t_selectObject|intros v0 [? _]; by apply inv_lawful]|]. intros [].
       eapply t_conseq; [apply t_neutral; neutral|intros v0 H; exact H|by intros ? v0 [? _]]. }
  all: apply t_seq; [auto with ctl|]; intros co; apply t_seq; [auto with ctl|]; intros [];
    eapply t_bind; [apply t_connection_idle|]; intros []; (eapply t_conseq; [apply t_neutral; neutral|intros v0 H; exact H|by intros ? v0 [? _]]).
Qed.

Lemma keeps_write_SBOw value c i : keeps (write_SBOw app value c i).
Proof.
  unfold write_SBOw. apply keeps_get. intros co. destruct (co_ctlModel co); try (apply keeps_neutral; by neutral).
  apply keeps_bind; [apply keeps_neutral; neutral|]. intros []. destruct (getCtlVal value) as [v|]; [|apply keeps_neutral; neutral].
  apply keeps_bind; [apply keeps_neutral; neutral|]. intros valid. destruct valid; cbn [negb]; [|apply keeps_neutral; neutral].
  apply keeps_bind; [apply keeps_neutral; neutral|]. intros []. apply t_getState. intros s. apply t_seq; [auto with ctl|]. intros now.
  destruct s; [|eapply t_pre; [apply keeps_bind; [apply keeps_checkSelectTimeout|intros []; apply keeps_neutral; neutral]|by intros v0 [? _]]..].
  eapply t_bind; [apply t_checkSelectTimeout_unselected|]. intros []. apply t_select_unselected.
Qed.

Lemma t_time_activated value v test sc ic now c ind :
  triple (selected_by c) (time_activated app value v test sc ic now c ind) (fun _ => selected_by c).
Proof.
  unfold time_activated. destruct (getOperParameterOperTime value) as [t|]; [|apply t_neutral; neutral].
  apply t_seq; [auto with ctl|]. intros ot. apply t_seq; [auto with ctl|]. intros []. destruct (now <? ot); [|apply t_neutral; neutral].
  do 2 (apply t_seq; [auto with ctl|]; intros []). eapply t_bind; [apply t_connection_same|]. intros [].
  apply t_seq; [auto with ctl|]. intros r. destruct r; try (apply t_neutral; by neutral).
  apply t_seq; [auto with ctl|]. intros []. eapply t_bind; [apply t_setState_selected; unfold idle; intuition congruence|].
  intros []. apply t_neutral. neutral.
Qed.

Lemma t_operate_now v n o test ic now c i : triple (selected_by c) (operate_now app v n o test ic now c i) (fun _ => inv).
Proof.
  unfold operate_now. do 3 (apply t_seq; [auto with ctl|]; intros []). eapply t_bind; [apply t_connection_same|]. intros [].
  apply t_seq; [auto with ctl|]. intros r.
  destruct r.
  1: { eapply t_bind; [apply t_connection_same|]. intros []. apply t_seq; [auto with ctl|]. intros [].
       eapply t_bind; [apply t_setState_selected; unfold idle; intuition congruence|]. intros [].
       eapply t_conseq; [apply t_neutral; neutral|intros v0 H; exact H|intros ? v0; apply selected_inv]. }
  all: apply t_pre with (P' := inv); [|apply selected_inv]; match goal with |- triple _ ?m _ => change (keeps m) end; keeps.
Qed.

Lemma t_operate_ready value v test n o check now c i :
  triple (in_state STATE_READY) (operate_ready app value v test n o check now c i) (fun _ => inv).
Proof.
  unfold operate_ready. do 3 (apply t_seq; [auto with ctl|]; intros ?). apply t_get. intros co [Hsbo _]. rewrite Hsbo. cbn [andb].
  destruct (decide (co_mmsConnection co = c)) as [Hc|Hc].
  2: { rewrite bool_decide_false by done. cbn [negb]. eapply t_pre; [apply keeps_neutral; neutral|]. by intros v0 [[? _] _]. }
  rewrite bool_decide_true by done. cbn [negb]. apply t_pre with (P' := selected_by c).
  2: { intros v0 ([Hi Hs] & Hs' & Hc'). unfold selected_by, idle. rewrite Hs. split_and!; try done; intuition congruence. }
  apply t_seq; [neutral|]. intros same. destruct same; cbn [negb].
  2: { apply t_pre with (P' := inv); [|apply selected_inv]. match goal with |- triple _ ?m _ => change (keeps m) end. keeps. }
  do 2 (apply t_seq; [auto with ctl|]; intros []). eapply t_bind; [apply t_time_activated|]. intros ind.
  apply t_seq; [auto with ctl|]. intros []. apply t_seq; [auto with ctl|]. intros co1.
  destruct (co_timeActivatedOperate co1).
  - eapply t_conseq; [apply t_neutral; unfold answer; neutral|intros v0 H; exact H|intros ? v0; apply selected_inv].
  - eapply t_bind; [apply t_operate_now|]. intros ind1. apply keeps_neutral. unfold answer. neutral.
Qed.

Lemma keeps_write_Oper value c i : keeps (write_Oper app value c i).
Proof.
  unfold write_Oper. repeat case_match; try (apply keeps_neutral; unfold answer; by neutral).
  apply keeps_bind; [apply keeps_neutral; neutral|]. intros []. apply keeps_bind; [apply keeps_neutral; neutral|]. intros valid.
  apply keeps_get. intros co. destruct valid; cbn [negb].
  2: { apply keeps_bind; [apply keeps_neutral; neutral|]. intros []. apply keeps_bind; [|intros []; apply keeps_neutral; unfold answer; neutral].
       destruct (is_sbo _); [apply keeps_unselect|apply keeps_neutral; neutral]. }
  apply keeps_bind; [apply keeps_neutral; neutral|]. intros now. apply keeps_bind; [apply keeps_checkSelectTimeout|]. intros [].
  apply t_getState. intros s. destruct s;
    try (eapply t_pre; [solve [apply keeps_neutral; unfold answer; neutral]|by intros v0 [? _]]). apply t_operate_ready.
Qed.

Lemma keeps_cancel_time_activated ind : keeps (cancel_time_activated app ind).
Proof.
  unfold cancel_time_activated. apply keeps_get. intros co. destruct (co_timeActivatedOperate co); [|apply keeps_neutral; unfold answer; neutral].
  apply keeps_bind; [apply keeps_neutral; neutral|]. intros []. apply keeps_bind; [apply keeps_abort|]. intros [].
  apply keeps_neutral. unfold answer. neutral.
Qed.

Lemma keeps_write_Cancel value c : keeps (write_Cancel app value c).
Proof.
  unfold write_Cancel. apply keeps_bind; [apply keeps_neutral; unfold getState; neutral|]. intros s.
  pose proof keeps_cancel_time_activated as Hc. pose proof keeps_unselect as Hu.
  destruct (getCancelParameterCtlNum value), (getCancelParameterOrigin value); try (apply keeps_neutral; unfold answer; by neutral).
  destruct s; first [solve [apply keeps_neutral; neutral] | apply keeps_get; intros co; destruct (is_sbo _); [|apply Hc]];
    (case_decide; [done || apply Hc|] || idtac); try apply Hc;
    (case_decide; (apply keeps_bind; [first [apply Hu | apply keeps_neutral; by neutral]|intros []; first [apply Hc | apply keeps_neutral; unfold answer; by neutral]])).
Qed.

#[local] Hint Resolve keeps_write_SBOw keeps_write_Oper keeps_write_Cancel : ctl.

Lemma keeps_write_object name value c i : keeps (write_object app name value c i).
Proof.
  unfold write_object.
  apply keeps_get. intros co. destruct (co_ctlModel co); keeps.
Qed.

Lemma keeps_read_SBO c i d : keeps (read_SBO app c i d).
Proof.
  unfold read_SBO. apply keeps_get. intros co. destruct (co_ctlModel co); try (apply keeps_neutral; by neutral).
  apply keeps_bind; [apply keeps_neutral; neutral|]. intros now. destruct d; [|apply keeps_neutral; neutral].
  apply keeps_bind; [apply keeps_checkSelectTimeout|]. intros []. apply t_getState. intros s. case_decide as Hs.
  2: { eapply t_pre; [apply keeps_neutral; neutral|]. by intros v [? _]. }
  apply t_pre with (P' := in_state STATE_UNSELECTED). 2: { intros v [Hi Hv]. split; congruence. }
  apply t_seq; [auto with ctl|]. intros []. eapply t_bind; [apply t_connection_idle|]. intros [].
  apply t_seq; [neutral|]. intros r. destruct r.
  1: { eapply t_bind; [eapply t_pre; [apply t_selectObject|intros v0 [? _]; by apply inv_lawful]|]. intros [].
       eapply t_conseq; [apply t_neutral; neutral|intros v0 H; exact H|by intros ? v0 [? _]]. }
  1: { eapply t_bind; [apply t_connection_idle|]. intros []. apply t_seq; [auto with ctl|]. intros [].
       eapply t_bind; [eapply t_pre; [apply t_setState_class|]|intros []; eapply t_conseq; [apply t_neutral; neutral|intros v0 H; exact H|by intros ? v0 [? _]]].
       intros v0 [? ->]. split; [done|]. unfold idle. tauto. }
  all: eapply t_pre; [apply keeps_neutral; neutral|by intros v0 [? _]].
Qed.

#[local] Hint Resolve keeps_read_SBO : ctl.
Lemma keeps_read_object name c i d : keeps (read_object app name c i d).
Proof. unfold read_object. apply keeps_get. intros co. keeps. Qed.

(** * The periodic task *)

#[local] Hint Resolve keeps_executeControlTask : ctl.

Lemma keeps_activation t : keeps (activation_time_reached app t).
Proof.
  unfold activation_time_reached. do 2 (apply keeps_bind; [apply keeps_neutral; neutral|]; intros []).
  apply keeps_bind; [apply keeps_neutral; neutral|]. intros r. keeps.
Qed.

#[local] Hint Resolve keeps_activation : ctl.

Lemma keeps_process_object t : keeps (process_object app t).
Proof.
  unfold process_object. apply keeps_get. intros co. case_match; [apply keeps_neutral; neutral|].
  apply keeps_bind; [|intros []; apply keeps_neutral; neutral].
  keeps.
Qed.

Lemma keeps_ControlObject_unselect c : keeps (ControlObject_unselect app c).
Proof.
  unfold ControlObject_unselect. apply keeps_get. intros co. case_decide; [|apply keeps_neutral; neutral].
  apply keeps_bind; [apply keeps_abort|]. intros []. apply keeps_neutral. neutral.
Qed.

End WithApplication.
