(* ===== verification/ControlServer.v ===== *)
(** The control objects of a server under calls in any order: requests of any clients,
    the periodic task, connections that open and close. Each call comes with the handlers
    of the application at that time. *)

From S2P Require Import Prelude BerEncoder BerDecoder BerInteger StringUtils CText CFloat MmsValue MmsFacts IecCommon ObjectReference MmsTypeSpec Control ControlFacts.
Open Scope Z_scope.

Inductive ServerCall :=
| Server_write (domain : nat) (variableId : list Z) (value : MmsValue) (connection : nat) (invokeId : Z)
| Server_read (domain : nat) (variableId : list Z) (connection : nat) (invokeId : Z) (isDirectAccess : bool)
| Server_process (currentTimeInMs : Z)
| Server_opened (connection : nat)
| Server_closed (connection : nat).

Section Server.

(** the answer to a request, if there is one, and the server behind it *)
Definition server_call (app : ControlApplication) (self : MmsMapping) (call : ServerCall) : option MmsMapping :=
  match call with
  | Server_write domain variableId value connection invokeId =>
      snd <$> Control_writeAccessControlObject app self domain variableId value (Some connection) invokeId
  | Server_read domain variableId connection invokeId isDirectAccess =>
      snd <$> Control_readAccessControlObject app self domain variableId (Some connection) invokeId isDirectAccess
  | Server_process currentTimeInMs => Control_processControlActions app self currentTimeInMs
  | Server_opened connection => Some (connection_opened self connection)
  | Server_closed connection => connection_closed app self connection
  end.

Fixpoint server_run (self : MmsMapping) (calls : list (ControlApplication * ServerCall)) : option MmsMapping :=
  match calls with
  | [] => Some self
  | (app, call) :: calls => self ← server_call app self call; server_run self calls
  end.

(** the events of the object with index [k] *)
Definition events_of (k : nat) (log : list (nat * ControlEvent)) : list ControlEvent :=
  snd <$> base.filter (fun e => e.1 = k) log.

Lemma events_of_app k l1 l2 : events_of k (l1 ++ l2) = events_of k l1 ++ events_of k l2.
Proof. unfold events_of. by rewrite list.filter_app, fmap_app. Qed.
Lemma events_of_same k es : events_of k (pair k <$> es) = es.
Proof.
  unfold events_of. induction es as [|e es IH]; [done|]. rewrite fmap_cons, filter_cons_True, fmap_cons by done. by rewrite IH.
Qed.
Lemma events_of_other k j es : j <> k -> events_of k (pair j <$> es) = [].
Proof. intros Hj. unfold events_of. induction es as [|e es IH]; [done|]. by rewrite fmap_cons, filter_cons_False. Qed.

(** * Ownership

    What the log says of the object with index [k] agrees with its state. *)
Definition owned (k : nat) (self : MmsMapping) : Prop :=
  exists co, mm_controlObjects self !! k = Some co /\ sbo_once co /\
    inv (mkView (co_state co) (co_mmsConnection co) (monitor (Some None) (events_of k (mm_log self)))).

Lemma monitor_split start es1 es2 : monitor start (es1 ++ es2) = monitor (monitor start es1) es2.
Proof. unfold monitor. apply foldl_app. Qed.

Lemma owned_on_control {A} k j (m : ctl A) self a self' :
  keeps m -> on_control self j m = Some (a, self') -> owned k self -> owned k self'.
Proof.
  intros Hm. unfold on_control. intros (co & Hco & E)%bind_Some (co0 & Hk & Ho & Hi).
  destruct (m co (w_with_events (mm_world self) [])) as [[[a1 co1] w1]|] eqn:Em; [|done]. cbn in E. injection E as <- <-.
  destruct (decide (j = k)) as [->|Hj].
  - assert (co = co0) as -> by congruence. exists co1. cbn [mm_controlObjects mm_log].
    destruct (Hm (monitor (Some None) (events_of k (mm_log self))) _ _ _ _ _ Em Ho Hi) as [F V].
    rewrite list_lookup_insert_eq by (by eapply lookup_lt_Some). split_and!; [done|by eapply sbo_once_fixed|].
    rewrite events_of_app, events_of_same, monitor_split. exact V.
  - exists co0. cbn [mm_controlObjects mm_log]. rewrite list_lookup_insert_ne by done. split_and!; try done.
    by rewrite events_of_app, events_of_other, app_nil_r.
Qed.

Lemma owned_world k self w : owned k self -> owned k (with_world self w).
Proof. done. Qed.

Lemma owned_for_each m n : keeps m -> forall k j self self', for_each m n j self = Some self' -> owned k self -> owned k self'.
Proof.
  intros Hm. induction n as [|n IH]; intros k j self self' E Ho; cbn in E; [by injection E as <-|].
  apply bind_Some in E as ([a self1] & E1 & E2). eapply IH; [exact E2|]. by eapply owned_on_control.
Qed.

Lemma owned_call k app self call self' : server_call app self call = Some self' -> owned k self -> owned k self'.
Proof.
  intros E Ho. destruct call; cbn in E.
  - apply fmap_Some in E as ([i s1] & E & ->). unfold Control_writeAccessControlObject in E.
    apply bind_Some in E as (name & _ & E). repeat case_match; simplify_eq/=; try done.
    apply bind_Some in E as (k0 & _ & E). case_match; [|by injection E as <- <-].
    eapply owned_on_control; [apply keeps_write_object|exact E|done].
  - apply fmap_Some in E as ([i s1] & E & ->). unfold Control_readAccessControlObject in E.
    apply bind_Some in E as (name & _ & E). repeat case_match; simplify_eq/=; try done.
    apply bind_Some in E as (k0 & _ & E). case_match; [|by injection E as <- <-].
    eapply owned_on_control; [apply keeps_read_object|exact E|done].
  - unfold Control_processControlActions in E. case_match; [|by injection E as <-].
    eapply owned_for_each; [apply keeps_process_object|exact E|by apply owned_world].
  - by injection E as <-.
  - eapply owned_for_each; [|exact E|by apply owned_world]. apply keeps_bind; [apply keeps_ControlObject_unselect|].
    intros b. apply keeps_neutral. neutral.
Qed.

Lemma owned_run k calls : forall self self', server_run self calls = Some self' -> owned k self -> owned k self'.
Proof.
  induction calls as [|[app call] calls IH]; intros self self' E Ho; cbn in E; [by injection E as <-|].
  apply bind_Some in E as (s1 & E1 & E2). eapply IH; [exact E2|]. by eapply owned_call.
Qed.

End Server.

(** an event that changes who has selected the object *)
Definition selection_event (e : ControlEvent) : Prop := match e with E_Selected _ | E_Unselected _ => True | _ => False end.

Lemma monitor_owner es c : monitor (Some None) es = Some (Some c) ->
  exists pre mid, es = pre ++ E_Selected c :: mid /\ Forall (fun e => ~ selection_event e) mid.
Proof.
  induction es as [|e es IH] using rev_ind; [done|]. rewrite monitor_app. intros H.
  destruct (monitor (Some None) es) as [o|] eqn:Eo; [|done].
  destruct e; cbn in H; try done; try (destruct (decide _); [|done]);
    try (injection H as ->; destruct IH as (pre & mid & -> & Hm); [done|]; eexists pre, (mid ++ [_]);
         rewrite <- (assoc_L (++)); split; [reflexivity|]; apply Forall_app; split; [done|]; repeat constructor; cbn; tauto).
  - injection H as ->. exists es, []. done.
Qed.

Lemma monitor_operate pre c v test post o :
  monitor (Some None) (pre ++ E_Operate c v test :: post) = Some o -> monitor (Some None) pre = Some (Some c).
Proof.
  rewrite monitor_split. cbn. destruct (monitor (Some None) pre) as [x|] eqn:Ex; cbn.
  - destruct (decide (x = Some c)) as [->|]; [done|]. intros H. exfalso. revert H.
    assert (forall l, monitor None l = None) as -> by (induction l; done). done.
  - intros H. exfalso. revert H. assert (forall l, monitor None l = None) as -> by (induction l; done). done.
Qed.
