(* ===== verification/ControlTimeout.v ===== *)
(** The time-out of selections: for an object that is operated once per selection, the
    next check of the periodic task is never later than the end of the selection
    ([scheduled]), whatever calls are made. *)

From S2P Require Import Prelude BerEncoder BerDecoder BerInteger StringUtils CText CFloat MmsValue MmsFacts IecCommon ObjectReference MmsTypeSpec Control ControlFacts ControlServer.
Open Scope Z_scope.

(** the end of the selection, and whether there is one *)
Definition deadline (co : ControlObject) : Z := u64 (co_selectTime co + co_selectTimeout co).
Definition selected (co : ControlObject) : Prop := co_state co = STATE_READY /\ 0 < co_selectTimeout co.

Definition scheduled (co : ControlObject) (w : World) : Prop := selected co -> w_nextControlTimeout w <= deadline co.

Definition time_ok (t : Z) : Prop := 0 <= t < 2 ^ 63.
Definition clock_ok (w : World) : Prop := forall n, time_ok (w_clock w n).

(** a triple on the object and its surroundings *)
Definition timed {A} (P : ControlObject -> World -> Prop) (m : ctl A) (Q : A -> ControlObject -> World -> Prop) : Prop :=
  forall co w a co' w', m co w = Some (a, co', w') -> sbo_once co -> clock_ok w -> P co w ->
    fixed co' = fixed co /\ clock_ok w' /\ Q a co' w'.
Definition keeps_scheduled {A} (m : ctl A) : Prop := timed scheduled m (fun _ => scheduled).
(** predicates that neutral steps keep *)
Definition stable (P : ControlObject -> World -> Prop) : Prop :=
  forall co w co' w', leaves_alone None co w co' w' -> P co w -> P co' w'.

Definition busy (co : ControlObject) (w : World) : Prop := co_state co <> STATE_READY.

Lemma u64_nonneg z : 0 <= u64 z.
Proof. unfold u64. apply Z.mod_pos_bound. lia. Qed.

Lemma stable_scheduled : stable scheduled.
Proof.
  intros co w co' w' (_ & [= Hs _ _] & Ht & Hto & _ & Hn). unfold scheduled, selected, deadline. rewrite Hs, Ht, Hto.
  intros H Hsel. specialize (H Hsel). pose proof (u64_nonneg (co_selectTime co + co_selectTimeout co)). lia.
Qed.
Lemma stable_busy : stable busy.
Proof. intros co w co' w' (_ & [= Hs _ _] & _). unfold busy. by rewrite Hs. Qed.
Lemma busy_scheduled co w : busy co w -> scheduled co w.
Proof. intros Hb [Hs _]. done. Qed.

Lemma tm_neutral {A} (m : ctl A) P : stable P -> neutral m -> timed P m (fun _ => P).
Proof.
  intros HP Hm co w a co' w' E _ Hc H. pose proof (Hm None _ _ _ _ _ E) as L. split_and!; [by destruct L| |by eapply HP].
  destruct L as (_ & _ & _ & _ & Hclock & _). intros n. rewrite Hclock. apply Hc.
Qed.
Lemma tm_bind {A B} (m : ctl A) (k : A -> ctl B) P Q R : timed P m Q -> (forall a, timed (Q a) (k a) R) -> timed P (m ≫= k) R.
Proof.
  intros Hm Hk co w b co' w' (a & co1 & w1 & E1 & E2)%bind_inv Ho Hc HP.
  destruct (Hm _ _ _ _ _ E1 Ho Hc HP) as (F1 & C1 & H1). destruct (Hk a _ _ _ _ _ E2) as (F2 & C2 & H2); [by eapply sbo_once_fixed|done..|].
  split_and!; [congruence|done..].
Qed.
Lemma tm_seq {A B} (m : ctl A) (k : A -> ctl B) P R : stable P -> neutral m -> (forall a, timed P (k a) R) -> timed P (m ≫= k) R.
Proof. intros HP Hm Hk. eapply tm_bind; [by apply tm_neutral|done]. Qed.
Lemma tm_pre {A} (m : ctl A) (P P' : ControlObject -> World -> Prop) Q : timed P' m Q -> (forall co w, P co w -> P' co w) -> timed P m Q.
Proof. intros Hm HP co w a co' w' E Ho Hc H. eauto. Qed.
Lemma tm_post {A} (m : ctl A) P (Q Q' : A -> ControlObject -> World -> Prop) :
  timed P m Q' -> (forall a co w, Q' a co w -> Q a co w) -> timed P m Q.
Proof. intros Hm HQ co w a co' w' E Ho Hc H. destruct (Hm _ _ _ _ _ E Ho Hc H) as (? & ? & ?). auto. Qed.
Lemma tm_get {B} (k : ControlObject -> ctl B) P Q :
  (forall co0, sbo_once co0 -> timed (fun co w => P co w /\ co = co0) (k co0) Q) -> timed P (get ≫= k) Q.
Proof. intros Hk co w b co' w' (a & co1 & w1 & [= <- <- <-] & E)%bind_inv Ho Hc HP. by apply (Hk co Ho _ _ _ _ _ E). Qed.
Lemma tm_getState {B} (k : ControlState -> ctl B) P Q :
  (forall s, timed (fun co w => P co w /\ co_state co = s) (k s) Q) -> timed P (getState ≫= k) Q.
Proof.
  intros Hk co w b co' w' (a & co1 & w1 & E1 & E)%bind_inv Ho Hc HP. injection E1 as <- <- <-. by apply (Hk _ _ _ _ _ _ E).
Qed.
Lemma tm_time {B} (k : Z -> ctl B) P Q : stable P -> (forall t, time_ok t -> timed P (k t) Q) -> timed P (Hal_getTimeInMs ≫= k) Q.
Proof.
  intros HP Hk co w b co' w' (a & co1 & w1 & E1 & E)%bind_inv Ho Hc H.
  pose proof (neutral_time None _ _ _ _ _ E1) as L. injection E1 as <- <- <-. apply (Hk _ (Hc _) _ _ _ _ _ E); [done|done|].
  by eapply HP.
Qed.
Lemma tm_setState s P : s <> STATE_READY -> timed P (setState s) (fun _ => busy).
Proof. intros Hs co w b co' w' E Ho Hc HP. injection E as <- <- <-. by destruct co. Qed.

Lemma keeps_neutral_scheduled {A} (m : ctl A) : neutral m -> keeps_scheduled m.
Proof. apply tm_neutral, stable_scheduled. Qed.
Lemma keeps_scheduled_bind {A B} (m : ctl A) (k : A -> ctl B) : keeps_scheduled m -> (forall a, keeps_scheduled (k a)) -> keeps_scheduled (m ≫= k).
Proof. apply tm_bind. Qed.
Lemma keeps_scheduled_setState s : s <> STATE_READY -> keeps_scheduled (setState s).
Proof. intros Hs. eapply tm_post; [by apply tm_setState|]. intros ? co w. apply busy_scheduled. Qed.

Lemma keeps_scheduled_connection c : keeps_scheduled (modify (co_with_mmsConnection c)).
Proof. intros co w b co' w' E Ho Hc H. injection E as <- <- <-. by destruct co. Qed.

Lemma keeps_scheduled_emit e : keeps_scheduled (emit e).
Proof. intros co w b co' w' E Ho Hc H. by injection E as <- <- <-. Qed.

Lemma keeps_scheduled_get {B} (k : ControlObject -> ctl B) : (forall co, keeps_scheduled (k co)) -> keeps_scheduled (get ≫= k).
Proof. intros Hk. apply tm_get. intros co _. eapply tm_pre; [apply Hk|]. by intros co1 w [? _]. Qed.
Lemma keeps_scheduled_time {B} (k : Z -> ctl B) : (forall t, time_ok t -> keeps_scheduled (k t)) -> keeps_scheduled (Hal_getTimeInMs ≫= k).
Proof. intros Hk. apply tm_time; [apply stable_scheduled|done]. Qed.

Create HintDb sched discriminated.
#[export] Hint Resolve keeps_scheduled_connection keeps_scheduled_emit : sched.
#[export] Hint Extern 1 (keeps_scheduled (setState _)) => (apply keeps_scheduled_setState; done) : sched.

Ltac scheduled :=
  repeat first
    [ progress intros
    | solve [eauto 2 with sched]
    | solve [apply keeps_neutral_scheduled; neutral]
    | match goal with |- keeps_scheduled (mbind _ Hal_getTimeInMs) => apply keeps_scheduled_time end
    | match goal with |- keeps_scheduled (mbind _ _) => apply keeps_scheduled_bind end
    | match goal with |- keeps_scheduled (match ?x with _ => _ end) => destruct x end ].

Section WithApplication.
Context (app : ControlApplication).

Lemma tm_unselectObject r P : timed P (unselectObject app r) (fun _ => busy).
Proof.
  unfold unselectObject. apply tm_getState. intros s. case_decide as Hs.
  - apply tm_pre with (P' := busy); [apply tm_neutral; [apply stable_busy|neutral]|]. intros co w [_ Hc]. unfold busy. by rewrite Hc, Hs.
  - eapply tm_bind; [by apply tm_setState|]. intros []. do 2 (apply tm_seq; [apply stable_busy|neutral|]; intros []).
    apply tm_seq; [apply stable_busy|neutral|]. intros []. intros co w b co' w' E Ho Hc H. by injection E as <- <- <-.
Qed.
Lemma keeps_scheduled_unselect r : keeps_scheduled (unselectObject app r).
Proof. eapply tm_post; [apply tm_unselectObject|]. intros ? co w. apply busy_scheduled. Qed.

(** A selection starts now, and the next check is not later. *)
Definition starting (t : Z) (co : ControlObject) (w : World) : Prop := co_selectTime co = t /\ 0 <= co_selectTimeout co < 2 ^ 32.

Lemma stable_starting t : stable (starting t).
Proof. intros co w co' w' (_ & _ & Ht & Hto & _). unfold starting. by rewrite Ht, Hto. Qed.

Lemma tm_updateSboTimeout P : timed P updateSboTimeoutValue (fun _ co w => 0 <= co_selectTimeout co < 2 ^ 32).
Proof.
  unfold updateSboTimeoutValue. apply tm_get. intros co0 _.
  assert (forall t, 0 <= t < 2 ^ 32 -> timed (fun co w => P co w /\ co = co0) (modify (co_with_selectTimeout t)) (fun _ co w => 0 <= co_selectTimeout co < 2 ^ 32)) as H.
  { intros t Ht co w b co' w' E Ho Hc HP. injection E as <- <- <-. by destruct co. }
  case_match; [|apply H; unfold CONFIG_CONTROL_DEFAULT_SBO_TIMEOUT; lia].
  intros co w b co' w' (v & co1 & w1 & E1 & E2)%bind_inv. unfold lift in E1. destruct (MmsValue_toInt32 _) as [z|]; [|done]. injection E1 as <- <- <-.
  apply (H _) in E2; [exact E2|]. unfold u32. pose proof (Z.mod_pos_bound z 4294967296). lia.
Qed.

Lemma tm_selectObject t c P : time_ok t -> timed P (selectObject app t c) (fun _ => scheduled).
Proof.
  intros Ht. unfold selectObject. apply tm_bind with (Q := fun _ _ _ => True).
  { intros co w b co' w' E Ho Hc HP. by injection E as <- <- <-. }
  intros []. eapply tm_bind; [apply tm_updateSboTimeout|]. intros []. apply tm_bind with (Q := fun _ => starting t).
  { intros co w b co' w' E Ho Hc HP. injection E as <- <- <-. by destruct co. }
  intros []. apply tm_bind with (Q := fun _ => starting t).
  { intros co w b co' w' E Ho Hc HP. injection E as <- <- <-. by destruct co. }
  intros []. apply tm_seq; [apply stable_starting|neutral|]. intros []. apply tm_bind with (Q := fun _ => starting t).
  { intros co w b co' w' E Ho Hc HP. injection E as <- <- <-. by destruct co. }
  intros []. apply tm_bind with (Q := fun _ => scheduled); [|intros []; apply keeps_neutral_scheduled; neutral].
  intros co w b co' w' E Ho Hc [Hst Hto]. pose proof (neutral_updateNext _ None _ _ _ _ _ E) as L.
  assert (w_nextControlTimeout w' <= t /\ co' = co) as [Hn ->].
  { unfold updateNextControlTimeout in E. apply bind_inv in E as (w0 & co1 & w1 & [= <- <- <-] & E).
    destruct (t <? w_nextControlTimeout w) eqn:Et; injection E as <- <- <-; cbn; split; lia || done. }
  split_and!; [done| |].
  - destruct L as (_ & _ & _ & _ & Hclock & _). intros n. rewrite Hclock. apply Hc.
  - intros _. unfold deadline, u64. unfold time_ok in Ht. rewrite Hst, Z.mod_small by lia. lia.
Qed.

Lemma keeps_scheduled_select t c : time_ok t -> keeps_scheduled (selectObject app t c).
Proof. intros Ht. by apply tm_selectObject. Qed.
#[local] Hint Resolve keeps_scheduled_unselect keeps_scheduled_select : sched.

(** The check itself sees to the next one. *)
Lemma tm_checkSelectTimeout t : timed (fun _ _ => True) (checkSelectTimeout app t) (fun _ => scheduled).
Proof.
  unfold checkSelectTimeout. apply tm_get. intros co0 [Hsbo _]. rewrite Hsbo. cbn [andb].
  destruct (decide (co_state co0 = STATE_READY)) as [Hs|Hs].
  2: { rewrite bool_decide_false by done. cbn [andb]. eapply tm_pre; [apply keeps_neutral_scheduled; neutral|]. intros co w [_ ->]. by apply busy_scheduled. }
  rewrite bool_decide_true by done. cbn [andb]. destruct (Z.ltb_spec 0 (co_selectTimeout co0)).
  2: { eapply tm_pre; [apply keeps_neutral_scheduled; neutral|]. intros co w [_ ->] [_ ?]. lia. }
  destruct (_ <? t).
  - eapply tm_post; [apply tm_unselectObject|]. intros ? co w. apply busy_scheduled.
  - intros co w b co' w' E Ho Hc [_ ->]. pose proof (neutral_updateNext _ None _ _ _ _ _ E) as L.
    unfold updateNextControlTimeout in E. apply bind_inv in E as (w0 & co1 & w1 & [= <- <- <-] & E).
    split_and!; [by destruct L| |].
    + destruct L as (_ & _ & _ & _ & Hclock & _). intros n. rewrite Hclock. apply Hc.
    + intros _. unfold deadline. destruct (Z.ltb_spec (u64 (co_selectTime co0 + co_selectTimeout co0)) (w_nextControlTimeout w));
        injection E as <- <- <-; cbn; lia.
Qed.
Lemma keeps_scheduled_checkSelectTimeout t : keeps_scheduled (checkSelectTimeout app t).
Proof. eapply tm_pre; [apply tm_checkSelectTimeout|done]. Qed.
#[local] Hint Resolve keeps_scheduled_checkSelectTimeout : sched.

Lemma tm_abort u r P : timed P (abortControlOperation app u r) (fun _ => scheduled).
Proof.
  unfold abortControlOperation. apply tm_get. intros co [Hs Ho]. rewrite Hs, Ho.
  apply tm_bind with (Q := fun _ => busy).
  - destruct u; [apply tm_unselectObject|]. intros co1 w b co' w' E. apply bind_inv in E as (b0 & co2 & w2 & [= <- <- <-] & E).
    intros Ho1 Hc1 HP1. exact (tm_unselectObject r (fun _ _ => True) _ _ _ _ _ E Ho1 Hc1 I).
  - intros []. apply tm_pre with (P' := scheduled); [|apply busy_scheduled]. apply keeps_neutral_scheduled. neutral.
Qed.
Lemma keeps_scheduled_abort u r : keeps_scheduled (abortControlOperation app u r).
Proof. apply tm_abort. Qed.
#[local] Hint Resolve keeps_scheduled_abort : sched.

(** * The state machine *)

Ltac to_scheduled := apply tm_pre with (P' := scheduled); [|first [apply busy_scheduled | by intros ? ? [? _]]];
  match goal with |- timed _ ?m _ => change (keeps_scheduled m) end.

Lemma tm_state_operate t : timed busy (state_operate app t) (fun _ => scheduled).
Proof.
  unfold state_operate. apply tm_time; [apply stable_busy|]. intros now Hnow. apply tm_seq; [apply stable_busy|neutral|]. intros co.
  apply tm_bind with (Q := fun _ => busy).
  - unfold operateControl. apply tm_bind with (Q := fun _ => busy).
    { intros co1 w b co' w' E Ho Hc H. injection E as <- <- <-. by destruct co1. }
    intros []. do 2 (apply tm_seq; [apply stable_busy|neutral|]; intros []). apply tm_seq; [apply stable_busy|neutral|]. intros co1.
    destruct (operateHandler app); [|apply tm_neutral; [apply stable_busy|neutral]].
    unfold call_control_handler. apply tm_seq; [apply stable_busy|neutral|]. intros co2. apply tm_bind with (Q := fun _ => busy).
    { intros co3 w b co' w' E Ho Hc H. by injection E as <- <- <-. }
    intros []. apply tm_neutral; [apply stable_busy|neutral].
  - intros r. to_scheduled. scheduled.
Qed.

Lemma tm_state_wait_for_execution b t : timed busy (state_wait_for_execution app b t) (fun _ => scheduled).
Proof.
  unfold state_wait_for_execution. do 2 (apply tm_seq; [apply stable_busy|neutral|]; intros []).
  apply tm_seq; [apply stable_busy|neutral|]. intros co. apply tm_seq; [apply stable_busy|neutral|]. intros r. destruct r; [to_scheduled; scheduled| |to_scheduled; scheduled].
  apply tm_seq; [apply stable_busy|neutral|]. intros co1. apply tm_seq; [apply stable_busy|neutral|]. intros [].
  eapply tm_bind; [by apply tm_setState|]. intros []. apply tm_seq; [apply stable_busy|neutral|]. intros []. apply tm_state_operate.
Qed.

Lemma keeps_scheduled_select_answered r : keeps_scheduled (select_answered app r).
Proof.
  unfold select_answered. scheduled.
Qed.
#[local] Hint Resolve keeps_scheduled_select_answered : sched.

Lemma keeps_scheduled_wait_for_select : keeps_scheduled (state_wait_for_select app).
Proof. unfold state_wait_for_select. scheduled. Qed.

Lemma keeps_scheduled_executeControlTask t : keeps_scheduled (executeControlTask app t).
Proof.
  unfold executeControlTask. apply tm_getState. intros s.
  destruct s; try (eapply tm_pre; [solve [apply keeps_neutral_scheduled; neutral]|by intros ? ? [? _]]);
    first [eapply tm_pre; [apply tm_state_wait_for_execution|] | eapply tm_pre; [apply tm_state_operate|] | eapply tm_pre; [apply keeps_scheduled_wait_for_select|]];
    intros co w [Hi Hs]; try done; unfold busy; by rewrite Hs.
Qed.
#[local] Hint Resolve keeps_scheduled_executeControlTask : sched.

(** * The requests *)

Lemma keeps_scheduled_select_unselected v n o c t now conn i : time_ok now -> keeps_scheduled (select_unselected app v n o c t now conn i).
Proof. intros Hnow. unfold select_unselected. scheduled. Qed.
#[local] Hint Resolve keeps_scheduled_select_unselected : sched.

Lemma keeps_scheduled_write_SBOw value c i : keeps_scheduled (write_SBOw app value c i).
Proof.
  unfold write_SBOw, getState, answer. scheduled.
Qed.

Lemma keeps_scheduled_time_activated value v test sc ic now c ind : keeps_scheduled (time_activated app value v test sc ic now c ind).
Proof. unfold time_activated. scheduled. Qed.
Lemma keeps_scheduled_operate_now v n o test ic now c i : keeps_scheduled (operate_now app v n o test ic now c i).
Proof. unfold operate_now. scheduled. Qed.
#[local] Hint Resolve keeps_scheduled_time_activated keeps_scheduled_operate_now : sched.
Lemma keeps_scheduled_operate_ready value v test n o check now c i : keeps_scheduled (operate_ready app value v test n o check now c i).
Proof. unfold operate_ready, answer. scheduled. Qed.
#[local] Hint Resolve keeps_scheduled_operate_ready : sched.
Lemma keeps_scheduled_write_Oper value c i : keeps_scheduled (write_Oper app value c i).
Proof. unfold write_Oper, answer, getState. scheduled. Qed.
Lemma keeps_scheduled_cancel_time_activated ind : keeps_scheduled (cancel_time_activated app ind).
Proof. unfold cancel_time_activated, answer. scheduled. Qed.
#[local] Hint Resolve keeps_scheduled_cancel_time_activated : sched.
Lemma keeps_scheduled_write_Cancel value c : keeps_scheduled (write_Cancel app value c).
Proof. unfold write_Cancel, answer, getState. scheduled. Qed.
#[local] Hint Resolve keeps_scheduled_write_SBOw keeps_scheduled_write_Oper keeps_scheduled_write_Cancel : sched.
Lemma keeps_scheduled_write_object name value c i : keeps_scheduled (write_object app name value c i).
Proof. unfold write_object. scheduled. Qed.

Lemma keeps_scheduled_read_SBO c i d : keeps_scheduled (read_SBO app c i d).
Proof.
  unfold read_SBO, getState. scheduled.
Qed.
#[local] Hint Resolve keeps_scheduled_read_SBO : sched.
Lemma keeps_scheduled_read_object name c i d : keeps_scheduled (read_object app name c i d).
Proof. unfold read_object. scheduled. Qed.
Lemma keeps_scheduled_closed c : keeps_scheduled (ControlObject_unselect app c).
Proof. unfold ControlObject_unselect. scheduled. Qed.

(** The periodic task looks at every object and sees to its next check. *)
Lemma tm_process_object t : timed (fun _ _ => True) (process_object app t) (fun _ => scheduled).
Proof.
  unfold process_object. apply tm_get. intros co0 [Hsbo _].
  assert ((bool_decide (co_state co0 = STATE_READY) &&
     match co_ctlModel co0 with CONTROL_MODEL_DIRECT_NORMAL | CONTROL_MODEL_DIRECT_ENHANCED => true | _ => false end) = false) as ->.
  { by destruct (co_ctlModel co0), (bool_decide _). }
  apply tm_bind with (Q := fun _ => scheduled); [|intros []; apply keeps_neutral_scheduled; neutral].
  destruct (co_state co0) eqn:Hs.
  2: { eapply tm_pre; [apply tm_checkSelectTimeout|done]. }
  all: apply tm_pre with (P' := scheduled); [|intros co w [_ ->]; apply busy_scheduled; unfold busy; by rewrite Hs];
    match goal with |- timed _ ?m _ => change (keeps_scheduled m) end; unfold activation_time_reached; scheduled.
Qed.
End WithApplication.

(** * The other objects

    No call on one object puts off the next check for the others. *)
Definition calms {A} (m : ctl A) : Prop := forall co w a co' w', m co w = Some (a, co', w') -> calm w w'.

Lemma calm_trans w w1 w2 : calm w w1 -> calm w1 w2 -> calm w w2.
Proof. unfold calm. intros [? ?] [? ?]. split; [congruence|lia]. Qed.
Lemma calms_neutral {A} (m : ctl A) : neutral m -> calms m.
Proof. intros Hm co w a co' w' E. by destruct (Hm None _ _ _ _ _ E) as (_ & _ & _ & _ & ?). Qed.
Lemma calms_bind {A B} (m : ctl A) (k : A -> ctl B) : calms m -> (forall a, calms (k a)) -> calms (m ≫= k).
Proof. intros Hm Hk co w b co' w' (a & co1 & w1 & E1 & E2)%bind_inv. eapply calm_trans; [by eapply Hm|by eapply Hk]. Qed.
Lemma calms_modify f : calms (modify f).
Proof. intros co w b co' w' [= <- <- <-]. split; [done|lia]. Qed.
Lemma calms_emit e : calms (emit e).
Proof. intros co w b co' w' [= <- <- <-]. split; [done|cbn; lia]. Qed.

Create HintDb calms discriminated.
#[export] Hint Resolve calms_modify calms_emit : calms.
Ltac calms :=
  repeat first
    [ progress intros
    | solve [eauto 2 with calms]
    | solve [apply calms_neutral; neutral]
    | match goal with |- calms (mbind _ _) => apply calms_bind end
    | match goal with |- calms (match ?x with _ => _ end) => destruct x end ].

Section Calm.
Context (app : ControlApplication).

Lemma calms_setState s : calms (setState s).
Proof. apply calms_modify. Qed.
Lemma calms_call_handler {A} e (answer : ControlObject -> Answer A) : calms (call_control_handler e answer).
Proof. unfold call_control_handler. calms. Qed.
Lemma calms_unselect r : calms (unselectObject app r).
Proof. unfold unselectObject, getState, setState. calms. Qed.
Lemma calms_select t c : calms (selectObject app t c).
Proof. unfold selectObject, setState, updateSboTimeoutValue. calms. Qed.
#[local] Hint Resolve calms_setState calms_call_handler calms_unselect calms_select : calms.
Lemma calms_checkSelectTimeout t : calms (checkSelectTimeout app t).
Proof. unfold checkSelectTimeout. calms. Qed.
Lemma calms_abort u r : calms (abortControlOperation app u r).
Proof. unfold abortControlOperation. calms. Qed.
#[local] Hint Resolve calms_checkSelectTimeout calms_abort : calms.
Lemma calms_executeControlTask t : calms (executeControlTask app t).
Proof.
  unfold executeControlTask, getState, state_wait_for_select, select_answered, state_wait_for_execution, state_operate, operateControl. calms.
Qed.
#[local] Hint Resolve calms_executeControlTask : calms.
Lemma calms_process_object t : calms (process_object app t).
Proof. unfold process_object, activation_time_reached. calms. Qed.
Lemma calms_write_SBOw value c i : calms (write_SBOw app value c i).
Proof. unfold write_SBOw, select_unselected, getState, answer. calms. Qed.
Lemma calms_write_Oper value c i : calms (write_Oper app value c i).
Proof. unfold write_Oper, operate_ready, time_activated, operate_now, getState, answer. calms. Qed.
Lemma calms_write_Cancel value c : calms (write_Cancel app value c).
Proof. unfold write_Cancel, cancel_time_activated, getState, answer. calms. Qed.
#[local] Hint Resolve calms_write_SBOw calms_write_Oper calms_write_Cancel : calms.
Lemma calms_write_object name value c i : calms (write_object app name value c i).
Proof. unfold write_object. calms. Qed.
Lemma calms_read_object name c i d : calms (read_object app name c i d).
Proof. unfold read_object, read_SBO, getState. calms. Qed.
Lemma calms_closed c : calms (ControlObject_unselect app c).
Proof. unfold ControlObject_unselect. calms. Qed.
End Calm.

(** * One object of the server *)

Lemma scheduled_calm co w w' : calm w w' -> scheduled co w -> scheduled co w'.
Proof.
  intros [_ Hn] H Hs. specialize (H Hs). pose proof (u64_nonneg (co_selectTime co + co_selectTimeout co)). unfold deadline in *. lia.
Qed.
Lemma clock_ok_calm w w' : calm w w' -> clock_ok w -> clock_ok w'.
Proof. intros [Hc _] H n. rewrite Hc. apply H. Qed.

Lemma on_control_inv {A} (m : ctl A) self k a self' : on_control self k m = Some (a, self') ->
  exists co co' w', mm_controlObjects self !! k = Some co /\ m co (w_with_events (mm_world self) []) = Some (a, co', w') /\
    self' = mkMmsMapping (<[k := co']> (mm_controlObjects self)) (w_with_events w' []) (mm_log self ++ (pair k <$> w_events w')).
Proof.
  unfold on_control. intros (co & Hco & E)%bind_Some. destruct (m co _) as [[[a1 co1] w1]|] eqn:Em; [|done]. cbn in E. injection E as <- <-.
  by exists co, co1, w1.
Qed.

(** the object with index [k] is operated once per selection and satisfies [P] *)
Definition object_at (P : ControlObject -> World -> Prop) (k : nat) (self : MmsMapping) : Prop :=
  exists co, mm_controlObjects self !! k = Some co /\ sbo_once co /\ clock_ok (mm_world self) /\ P co (mm_world self).
(** predicates that hold for an object as long as steps of other objects do not put off the next check *)
Definition calm_stable (P : ControlObject -> World -> Prop) : Prop := forall co w w', calm w w' -> P co w -> P co w'.

Lemma object_at_same {A} P Q (m : ctl A) self k a self' :
  timed P m (fun _ => Q) -> calm_stable P -> calm_stable Q ->
  on_control self k m = Some (a, self') -> object_at P k self -> object_at Q k self'.
Proof.
  intros Hm HP HQ (co & co' & w' & Hco & Em & ->)%on_control_inv (co0 & Hk & Ho & Hc & H). assert (co0 = co) as -> by congruence.
  destruct (Hm _ _ _ _ _ Em Ho) as (F & C & Hq).
  { exact Hc. }
  { apply (HP _ (mm_world self)); [|done]. split; [done|]. cbn. lia. }
  exists co'. cbn [mm_controlObjects mm_world]. rewrite list_lookup_insert_eq by (by eapply lookup_lt_Some).
  split_and!; [done|by eapply sbo_once_fixed|exact C|]. apply (HQ _ w'); [|done]. split; [done|]. cbn. lia.
Qed.

Lemma object_at_other {A} P (m : ctl A) self j k a self' :
  calms m -> calm_stable P -> j <> k -> on_control self j m = Some (a, self') -> object_at P k self -> object_at P k self'.
Proof.
  intros Hm HP Hj (co & co' & w' & Hco & Em & ->)%on_control_inv (co0 & Hk & Ho & Hc & H). pose proof (Hm _ _ _ _ _ Em) as Hcalm.
  exists co0. cbn [mm_controlObjects mm_world]. rewrite list_lookup_insert_ne by done. split_and!; [done..| |].
  - by apply (clock_ok_calm _ _ Hcalm).
  - apply (HP _ (mm_world self)); [exact Hcalm|done].
Qed.

Lemma object_at_on {A} P (m : ctl A) self j k a self' :
  timed P m (fun _ => P) -> calms m -> calm_stable P -> on_control self j m = Some (a, self') -> object_at P k self -> object_at P k self'.
Proof.
  intros Hm Hc HP E. destruct (decide (j = k)) as [->|Hj]; [by eapply object_at_same|by eapply object_at_other].
Qed.

Lemma object_at_for_each P (m : ctl unit) n : timed P m (fun _ => P) -> calms m -> calm_stable P ->
  forall j k self self', for_each m n j self = Some self' -> object_at P k self -> object_at P k self'.
Proof.
  intros Hm Hc HP. induction n as [|n IH]; intros j k self self' E H; cbn in E; [by injection E as <-|].
  apply bind_Some in E as ([a s1] & E1 & E2). eapply IH; [exact E2|]. by eapply object_at_on.
Qed.
Lemma object_at_beyond P (m : ctl unit) n : calms m -> calm_stable P ->
  forall j k self self', (k < j)%nat -> for_each m n j self = Some self' -> object_at P k self -> object_at P k self'.
Proof.
  intros Hc HP. induction n as [|n IH]; intros j k self self' Hj E H; cbn in E; [by injection E as <-|].
  apply bind_Some in E as ([a s1] & E1 & E2). eapply IH; [|exact E2|]; [lia|]. eapply object_at_other; [..|exact E1|exact H]; try done. lia.
Qed.
(** A loop over the objects that reaches [k] establishes what its step establishes. *)
Lemma object_at_reached P Q (m : ctl unit) n : timed P m (fun _ => Q) -> calms m -> calm_stable P -> calm_stable Q ->
  forall j k self self', (j <= k < j + n)%nat -> for_each m n j self = Some self' -> object_at P k self -> object_at Q k self'.
Proof.
  intros Hm Hc HP HQ. induction n as [|n IH]; intros j k self self' Hj E H; cbn in E; [lia|].
  apply bind_Some in E as ([a s1] & E1 & E2). destruct (decide (j = k)) as [->|Hne].
  - eapply object_at_beyond; [done|done| |exact E2|]; [lia|]. by eapply object_at_same.
  - eapply IH; [|exact E2|]; [lia|]. by eapply object_at_other.
Qed.

Lemma calm_stable_scheduled : calm_stable scheduled.
Proof. intros co w w'. apply scheduled_calm. Qed.

Section Run.

Lemma scheduled_process k app self now self' :
  Control_processControlActions app self now = Some self' -> object_at scheduled k self -> object_at scheduled k self'.
Proof.
  unfold Control_processControlActions. case_match; [|by intros [= <-]]. intros E (co & Hk & Ho & Hc & _).
  eapply object_at_reached; [apply tm_process_object|apply calms_process_object|done|apply calm_stable_scheduled| |exact E|].
  - apply lookup_lt_Some in Hk. lia.
  - by exists co.
Qed.

Lemma scheduled_call k app self call self' :
  server_call app self call = Some self' -> object_at scheduled k self -> object_at scheduled k self'.
Proof.
  intros E H. destruct call; cbn in E.
  - apply fmap_Some in E as ([i s1] & E & ->). unfold Control_writeAccessControlObject in E.
    apply bind_Some in E as (name & _ & E). repeat case_match; simplify_eq/=; try done.
    apply bind_Some in E as (k0 & _ & E). case_match; [|by injection E as <- <-].
    eapply object_at_on; [apply keeps_scheduled_write_object|apply calms_write_object|apply calm_stable_scheduled|exact E|done].
  - apply fmap_Some in E as ([i s1] & E & ->). unfold Control_readAccessControlObject in E.
    apply bind_Some in E as (name & _ & E). repeat case_match; simplify_eq/=; try done.
    apply bind_Some in E as (k0 & _ & E). case_match; [|by injection E as <- <-].
    eapply object_at_on; [apply keeps_scheduled_read_object|apply calms_read_object|apply calm_stable_scheduled|exact E|done].
  - by eapply scheduled_process.
  - by injection E as <-.
  - eapply object_at_for_each; [| |apply calm_stable_scheduled|exact E|exact H].
    + apply tm_bind with (Q := fun _ => scheduled); [apply keeps_scheduled_closed|]. intros b. apply keeps_neutral_scheduled. neutral.
    + apply calms_bind; [apply calms_closed|]. intros b. apply calms_neutral. neutral.
Qed.

Lemma scheduled_run k calls : forall self self',
  server_run self calls = Some self' -> object_at scheduled k self -> object_at scheduled k self'.
Proof.
  induction calls as [|[app call] calls IH]; intros self self' E Ho; cbn in E; [by injection E as <-|].
  apply bind_Some in E as (s1 & E1 & E2). eapply IH; [exact E2|]. by eapply scheduled_call.
Qed.
End Run.

(** * The end of a selection *)

Definition expired (now : Z) (co : ControlObject) (w : World) : Prop := selected co /\ deadline co < now.
Definition unselected (co : ControlObject) (w : World) : Prop := co_state co = STATE_UNSELECTED.

Lemma tm_unselect_expired app r P : timed P (unselectObject app r) (fun _ => unselected).
Proof.
  assert (stable unselected) as Hst by (intros co w co' w' (_ & [= Hs _ _] & _); unfold unselected; by rewrite Hs).
  unfold unselectObject. apply tm_getState. intros s. case_decide as Hs.
  - apply tm_pre with (P' := unselected); [apply tm_neutral; [done|neutral]|]. intros co w [_ Hc]. unfold unselected. by rewrite Hc.
  - apply tm_bind with (Q := fun _ => unselected).
    { intros co w b co' w' E Ho Hc HP. injection E as <- <- <-. by destruct co. }
    intros []. do 3 (apply tm_seq; [done|neutral|]; intros []). intros co w b co' w' E Ho Hc H. by injection E as <- <- <-.
Qed.

Lemma tm_process_expired app now : timed (expired now) (process_object app now) (fun _ => unselected).
Proof.
  unfold process_object. apply tm_get. intros co0 [Hsbo _].
  intros co w b co' w' E Ho Hc [[[Hs Ht] Hd] ->]. revert E Ho Hc. rewrite Hs.
  assert (match co_ctlModel co0 with CONTROL_MODEL_DIRECT_NORMAL | CONTROL_MODEL_DIRECT_ENHANCED => true | _ => false end = false) as ->
    by (by destruct (co_ctlModel co0)).
  cbn [andb bool_decide decide decide_rel ControlState_eq_dec]. rewrite andb_false_r. intros E Ho Hc.
  refine (tm_bind _ _ (fun co w => co = co0) (fun _ => unselected) (fun _ => unselected) _ _ _ _ _ _ _ E Ho Hc eq_refl).
  - unfold checkSelectTimeout. apply tm_get. intros co1 _. intros co2 w2 b2 co3 w3 E2 Ho2 Hc2 [-> <-]. revert E2. rewrite Hsbo, Hs.
    rewrite bool_decide_true by done. cbn [andb]. rewrite (proj2 (Z.ltb_lt _ _) Ht). unfold deadline in Hd. rewrite (proj2 (Z.ltb_lt _ _) Hd).
    intros E2. by eapply (tm_unselect_expired app _ (fun _ _ => True)).
  - intros []. apply tm_neutral; [|neutral]. intros co1 w1 co2 w2 (_ & [= Hs2 _ _] & _). unfold unselected. by rewrite Hs2.
Qed.

Lemma process_expired k app self now self' :
  Control_processControlActions app self now = Some self' -> object_at scheduled k self -> object_at (expired now) k self ->
  object_at unselected k self'.
Proof.
  intros E (co & Hk & _ & _ & Hsch) (co1 & Hk1 & Ho & Hc & Hsel & Hd). assert (co1 = co) as -> by congruence.
  unfold Control_processControlActions in E. specialize (Hsch Hsel). rewrite (proj2 (Z.leb_le _ _)) in E by lia.
  eapply object_at_reached; [apply tm_process_expired|apply calms_process_object|by intros ? ? ? _|by intros ? ? ? _| |exact E|].
  - apply lookup_lt_Some in Hk. lia.
  - by exists co.
Qed.
