(* ===== verification/MmsUpdate.v ===== *)
(** The operations on MMS values are defined on well-formed values, and an update with a
    value of the same type keeps the type. *)

From S2P Require Import Prelude BerEncoder BerDecoder BerInteger StringUtils CText CFloat MmsValue MmsFacts MmsData GoosePublisher GooseSubscriber GooseReceiver GooseSafety MmsTypeSpec.
Open Scope Z_scope.

(** * Blocks *)

Lemma memcmp_defined a b n : 0 <= n -> n <= zlen a -> n <= zlen b -> is_Some (memcmp_eq a b n).
Proof. intros. unfold memcmp_eq. rewrite !ld_range_Some by lia. by eexists. Qed.

Lemma ld_range_ok buf n : bytes_ok buf -> 0 <= n <= zlen buf -> exists bs, ld_range buf 0 n = Some bs /\ bytes_ok bs /\ zlen bs = n.
Proof.
  intros Hb Hn. rewrite ld_range_Some by lia. eexists. split; [done|]. split; [by apply Forall_take, Forall_drop|].
  rewrite drop_0. unfold zlen in *. rewrite length_take. lia.
Qed.

(** a copy of the first [n] bytes of one block to the front of another *)
Lemma copy_front_ok a b n : bytes_ok a -> bytes_ok b -> 0 <= n <= zlen a -> n <= zlen b ->
  exists bs a', ld_range b 0 n = Some bs /\ st_range a 0 bs = Some a' /\ bytes_ok a' /\ zlen a' = zlen a.
Proof.
  intros Ha Hb Hn Hnb. destruct (ld_range_ok b n) as (bs & Hbs & Hok & Hz); [done|lia|].
  destruct (st_range_ok a bs) as (a' & ? & ? & ?); [done|done|lia|]. by exists bs, a'.
Qed.

Lemma bitSize_covers size i : 0 <= i < size -> 0 <= Z.quot i 8 < bitSize_bytes size.
Proof. intros H. rewrite bitSize_bytes_eq by lia. rewrite Z.quot_div_nonneg by lia. split; [apply Z.div_pos; lia|]. apply Z.div_lt_upper_bound; [lia|]. pose proof (Z.div_mod (size + 7) 8). pose proof (Z.mod_pos_bound (size + 7) 8). lia. Qed.

Lemma bit_get_defined size buf i : zlen buf = bitSize_bytes size -> 0 <= i -> is_Some (bit_get size buf i).
Proof.
  intros Hz Hi. unfold bit_get. destruct (Z.ltb_spec i size); [|by eexists].
  destruct (ld_is_Some buf (Z.quot i 8)) as [b ->]; [rewrite Hz; by apply bitSize_covers|]. by eexists.
Qed.
Lemma bit_set_ok size buf i v : bytes_ok buf -> zlen buf = bitSize_bytes size -> 0 <= i ->
  exists buf', bit_set size buf i v = Some buf' /\ bytes_ok buf' /\ zlen buf' = zlen buf.
Proof.
  intros Hb Hz Hi. unfold bit_set. destruct (Z.ltb_spec i size); [|by exists buf].
  pose proof (bitSize_covers size i ltac:(lia)). destruct (ld_is_Some buf (Z.quot i 8)) as [b ->]; [lia|]. cbn [mbind option_bind].
  set (x := if v then _ else _). assert (is_byte x) by (subst x; destruct v; unfold u8, is_byte; apply Z.mod_pos_bound; lia).
  destruct (st_ok buf (Z.quot i 8) x) as (buf' & ? & ? & ? & _); [done..|lia|]. by exists buf'.
Qed.

Lemma update_bits_ok n : forall i size m a b, bytes_ok a -> zlen a = bitSize_bytes size -> zlen b = bitSize_bytes m -> 0 <= i ->
  exists a', update_bits_loop n i size m a b = Some a' /\ bytes_ok a' /\ zlen a' = zlen a.
Proof.
  induction n as [|n IH]; intros i size m a b Ha Hz Hzb Hi; cbn; [by exists a|]. destruct (i <? size); [|by exists a].
  destruct (bit_get_defined m b i Hzb Hi) as [v ->]. cbn. destruct (bit_set_ok size a i v Ha Hz Hi) as (a1 & -> & Ha1 & Hz1). cbn.
  destruct (IH (i + 1) size m a1 b) as (a' & -> & ? & ?); [done|lia|done|lia|]. exists a'. split_and!; [done..|lia].
Qed.

(** * Integers *)

Lemma setFromBerInteger_ok a b : apv_ok a -> apv_ok b -> exists a' ok, BerInteger_setFromBerInteger a b = Some (a', ok) /\ apv_ok a'.
Proof.
  intros Ha Hb. unfold BerInteger_setFromBerInteger. destruct (Z.leb_spec (apv_size b) (apv_maxSize a)); [|by eexists a, false].
  pose proof Ha as (H1 & H2 & H3 & H4). pose proof Hb as (H5 & H6 & H7 & H8).
  destruct (copy_front_ok (apv_octets a) (apv_octets b) (apv_size b)) as (bs & a' & -> & Hst & ? & ?); [done|done|lia|lia|].
  cbn. rewrite Hst. cbn. do 2 eexists. split; [done|]. split_and!; cbn; try done; lia.
Qed.

Lemma compare_defined a b : apv_ok a -> apv_ok b -> is_Some (Asn1PrimitivaValue_compare a b).
Proof.
  intros (H1 & H2 & _) (H5 & H6 & _). unfold Asn1PrimitivaValue_compare. destruct (Z.eqb_spec (apv_size a) (apv_size b)); [|by eexists].
  apply memcmp_defined; lia.
Qed.

Lemma setInt32_ok v z : mms_ok v -> exists v', MmsValue_setInt32 v z = Some v' /\ mms_ok v'.
Proof.
  intros Hv. unfold MmsValue_setInt32, set_signed. destruct v; try (by eexists). destruct (4 <=? _); [|by eexists].
  destruct (setIntegerValue_spec integer (le_bytes 4 z) 4) as (a & E & _ & H); [exact Hv|auto with bytes|done|done|].
  unfold BerInteger_setInt32. rewrite E. cbn. eexists. split; [done|]. cbn. destruct (_ <=? _); [by destruct H|by subst].
Qed.

(** * Strings *)

Lemma copyStringMax_ok dest n str : bytes_ok dest -> 0 ∈ dest -> 0 ∈ str -> bytes_ok str -> n <= zlen dest ->
  exists r, StringUtils_copyStringMax (Some dest) n str = Some r /\ bytes_ok (default dest r) /\ 0 ∈ default dest r /\ zlen (default dest r) = zlen dest.
Proof.
  intros Hd Hd0 Ht Hs Hn. destruct (decide (n < 1)) as [Hlt|Hge].
  - exists None. split; [|done]. unfold StringUtils_copyStringMax. by rewrite (proj2 (Z.ltb_lt n 1)).
  - pose proof (copyStringMax_spec dest n str Ht ltac:(lia)) as E.
    destruct (copyStringMax_c_string dest n str _ Ht ltac:(lia) E) as (_ & H0 & Hz). eexists. split; [exact E|]. cbn. split_and!; [|done..].
    unfold splice. apply Forall_app. split; [by apply Forall_take|]. apply Forall_app. split; [|by apply Forall_drop].
    apply Forall_app. split; [by apply Forall_take, c_string_bytes|]. repeat constructor; unfold is_byte; lia.
Qed.

Lemma setString_ok buf size value : string_block_ok buf size -> match value with Some value => 0 ∈ value /\ bytes_ok value | None => True end ->
  exists buf' size', setVisibleStringValue buf size value = Some (buf', size') /\ string_block_ok buf' size'.
Proof.
  intros Hblock Hv. unfold setVisibleStringValue. destruct buf as [buf|]; [|by do 2 eexists]. destruct Hblock as (Ht & Hb & Hz).
  destruct value as [value|].
  - destruct Hv as [Hvt Hvb]. destruct (strlen_is_Some value Hvt) as [n Hn]. rewrite Hn. cbn [mbind option_bind].
    pose proof (strlen_nonneg _ _ Hn). destruct (Z.ltb_spec size n).
    + set (nb := replicate (Z.to_nat (n + 1)) 0). assert (zlen nb = n + 1) by (subst nb; rewrite zlen_replicate; lia).
      pose proof (s16_le n ltac:(lia)). assert (0 ∈ nb) by (subst nb; apply elem_of_replicate; lia).
      destruct (copyStringMax_ok nb (s16 n + 1) value) as (r & -> & ? & ? & ?); [apply replicate_ok|done|done|done|lia|].
      cbn. do 2 eexists. split; [done|]. cbn. split_and!; [done..|lia].
    + destruct (copyStringMax_ok buf (size + 1) value) as (r & -> & ? & ? & ?); [done|done|done|done|lia|].
      cbn. do 2 eexists. split; [done|]. cbn. split_and!; [done..|lia].
  - destruct (st_ok buf 0 0) as (buf' & -> & ? & ? & ?); [done|unfold is_byte; lia| |].
    { destruct buf; [by apply not_elem_of_nil in Ht|]. rewrite zlen_cons. pose proof (zlen_nonneg buf). lia. }
    cbn. do 2 eexists. split; [done|]. cbn. split_and!; [done..|lia].
Qed.

(** * Values *)

Definition updates_ok (a : MmsValue) : Prop := forall b, mms_ok a -> mms_ok b -> exists a' ok, mms_update a b = Some (a', ok) /\ mms_ok a'.

Lemma update_components_ok xs ys : Forall (on_component updates_ok) xs -> zlen xs = zlen ys -> all_components mms_ok True xs -> all_components mms_ok True ys ->
  exists xs' ok, update_components mms_update xs ys = Some (xs', ok) /\ all_components mms_ok True xs'.
Proof.
  intros Hxs. revert ys. induction Hxs as [|x xs Hx Hxs IH]; intros ys Hl Hox Hoy; [by do 2 eexists|].
  destruct ys as [|y ys]; [rewrite zlen_cons, zlen_nil in Hl; pose proof (zlen_nonneg xs); lia|]. rewrite !zlen_cons in Hl.
  cbn [update_components]. destruct x as [x|]; cbn [all_components] in Hox; destruct Hox as [Ho Hox].
  - destruct y as [y|]; cbn [all_components] in Hoy; destruct Hoy as [Hy Hoy].
    + destruct (Hx y Ho Hy) as (x' & ok & -> & Hx'). cbn. destruct ok; [|do 2 eexists; by split].
      destruct (IH ys ltac:(lia) Hox Hoy) as (xs' & ok & -> & ?). do 2 eexists. by split.
    + do 2 eexists. by split.
  - do 2 eexists. by split.
Qed.

Lemma update_ok a : updates_ok a.
Proof.
  mms_ind a; intros b Ha Hb.
  1, 2: destruct b; try (by do 2 eexists); cbn [mms_update]; destruct (Z.eqb_spec (zlen xs) (zlen components)); cbn [negb]; [|by do 2 eexists];
    destruct (update_components_ok xs components IH) as (xs' & ok & -> & ?); [done..|]; by do 2 eexists.
  destruct a, b; try done; cbn [mms_update]; try (by do 2 eexists).
  - destruct Ha as (H1 & H2 & H3), Hb as (H4 & H5 & H6). destruct (Z.eqb_spec size size0) as [->|].
    + destruct (copy_front_ok buf buf0 (bitSize_bytes size0)) as (bs & a' & -> & Hst & ? & ?); [done|done| |lia|].
      { split; [apply bitSize_bytes_nonneg|]; lia. }
      cbn. rewrite Hst. do 2 eexists. split; [done|]. cbn. split_and!; [lia..|lia|done].
    + destruct (update_bits_ok (Z.to_nat size0) 0 size size0 buf buf0) as (a' & -> & ? & ?); [done..|]. do 2 eexists. split; [done|].
      cbn. split_and!; [lia..|lia|done].
  - destruct (setFromBerInteger_ok integer integer0 Ha Hb) as (a' & ok & -> & ?). by do 2 eexists.
  - destruct (setFromBerInteger_ok integer integer0 Ha Hb) as (a' & ok & -> & ?). by do 2 eexists.
  - destruct Ha as (H1 & H2 & H3 & H4), Hb as (H5 & H6 & H7 & H8). destruct (Z.eqb_spec formatWidth formatWidth0) as [->|]; [|by do 2 eexists].
    destruct (copy_front_ok buf buf0 (formatWidth0 / 8)) as (bs & a' & -> & Hst & ? & ?); [done|done| |lia|].
    { pose proof (Z.div_pos formatWidth0 8). lia. }
    cbn. rewrite Hst. do 2 eexists. split; [done|]. cbn. split_and!; (done || lia).
  - destruct Ha as (H1 & H2 & H3 & H4), Hb as (H5 & H6 & H7 & H8).
    destruct ((maxSize <? 0) && (Z.abs maxSize <? size0)) eqn:Ec.
    + apply andb_prop in Ec as [Ec1 Ec2]. apply Z.ltb_lt in Ec1, Ec2. rewrite (proj2 (Z.leb_le _ _)) by lia.
      destruct (copy_front_ok (replicate (Z.to_nat size0) 0) buf0 size0) as (bs & a' & -> & Hst & ? & Hz); [apply replicate_ok|done|rewrite zlen_replicate; lia|lia|].
      cbn. rewrite Hst. do 2 eexists. split; [done|]. rewrite zlen_replicate in Hz. cbn. split_and!; (done || lia).
    + destruct (Z.leb_spec size0 (Z.abs maxSize)); [|do 2 eexists; split; [done|]; cbn; split_and!; (done || lia)].
      destruct (copy_front_ok buf buf0 size0) as (bs & a' & -> & Hst & ? & ?); [done|done|lia|lia|].
      cbn. rewrite Hst. do 2 eexists. split; [done|]. cbn. split_and!; (done || lia).
  - destruct (setString_ok buf size buf0) as (b' & z' & E & ?); [done|by destruct buf0; [destruct Hb as (? & ? & ?)|]|].
    cbn. rewrite E. by do 2 eexists.
  - destruct Ha as (H1 & H2 & H3), Hb as (H4 & H5 & H6).
    destruct (copy_front_ok buf buf0 size0) as (bs & a' & -> & Hst & ? & ?); [done|done|lia|lia|].
    cbn. rewrite Hst. do 2 eexists. split; [done|]. cbn. split_and!; (done || lia).
  - destruct (setString_ok buf size buf0) as (b' & z' & E & ?); [done|by destruct buf0; [destruct Hb as (? & ? & ?)|]|].
    cbn. rewrite E. by do 2 eexists.
  - destruct Ha as (H1 & H2), Hb as (H4 & H5).
    destruct (copy_front_ok utcTime utcTime0 8) as (bs & a' & -> & Hst & ? & ?); [done|done|lia|lia|].
    cbn. rewrite Hst. do 2 eexists. split; [done|]. cbn. split_and!; (done || lia).
Qed.

(** The type is kept when both values have it. *)
Definition update_keeps_type (s : MmsVariableSpecification) : Prop := forall a b a' ok,
  MmsVariableSpecification_isValueOfType s (Some a) = Some true -> MmsVariableSpecification_isValueOfType s (Some b) = Some true ->
  mms_update a b = Some (a', ok) -> MmsVariableSpecification_isValueOfType s (Some a') = Some true.

Lemma update_components_typed es : Forall update_keeps_type es -> forall xs ys xs' ok,
  components_typed MmsVariableSpecification_isValueOfType es xs = Some true -> components_typed MmsVariableSpecification_isValueOfType es ys = Some true ->
  zlen es = zlen xs -> zlen xs = zlen ys ->
  update_components mms_update xs ys = Some (xs', ok) ->
  zlen xs' = zlen xs /\ components_typed MmsVariableSpecification_isValueOfType es xs' = Some true.
Proof.
  induction 1 as [|e es He _ IH]; intros xs ys xs' ok Hx Hy Hl1 Hl2 E.
  - destruct xs; [|rewrite zlen_cons, zlen_nil in Hl1; pose proof (zlen_nonneg xs); lia]. cbn in E. by injection E as <- <-.
  - destruct xs as [|x xs]; [rewrite zlen_cons, zlen_nil in Hl1; pose proof (zlen_nonneg es); lia|].
    destruct ys as [|y ys]; [rewrite (zlen_cons x), zlen_nil in Hl2; pose proof (zlen_nonneg xs); lia|].
    apply components_typed_cons in Hx as [Hx Hxs], Hy as [Hy Hys]. rewrite !zlen_cons in *. cbn [update_components] in E.
    destruct x as [x|]; [|by destruct e]. destruct y as [y|]; [|by destruct e].
    destruct (mms_update x y) as [[x' okx]|] eqn:Ex; [|done]. cbn in E.
    destruct okx; cbn in E.
    + destruct (update_components mms_update xs ys) as [[xs1 ok1]|] eqn:Exs; [|done]. cbn in E. injection E as <- <-.
      destruct (IH xs ys xs1 ok1) as [Hz Ht]; [done|done|lia|lia|done|]. rewrite zlen_cons, Hz. split; [done|].
      cbn [components_typed]. by rewrite (He _ _ _ _ Hx Hy Ex).
    + injection E as <- <-. rewrite zlen_cons. split; [done|]. cbn [components_typed]. by rewrite (He _ _ _ _ Hx Hy Ex).
Qed.

Lemma update_elements_typed e : update_keeps_type e -> forall xs ys xs' ok,
  elements_typed MmsVariableSpecification_isValueOfType e xs = Some true -> elements_typed MmsVariableSpecification_isValueOfType e ys = Some true ->
  update_components mms_update xs ys = Some (xs', ok) ->
  zlen xs' = zlen xs /\ elements_typed MmsVariableSpecification_isValueOfType e xs' = Some true.
Proof.
  intros He. induction xs as [|x xs IH]; intros ys xs' ok Hx Hy E; [by injection E as <- <-|]. destruct ys as [|y ys]; [done|].
  cbn [elements_typed] in Hx, Hy. apply bind_Some in Hx as ([] & Hx & Hxs); [|done]. apply bind_Some in Hy as ([] & Hy & Hys); [|done].
  cbn [update_components] in E. destruct x as [x|]; [|by destruct e]. destruct y as [y|]; [|by destruct e].
  destruct (mms_update x y) as [[x' okx]|] eqn:Ex; [|done]. cbn in E. destruct okx; cbn in E.
  - destruct (update_components mms_update xs ys) as [[xs1 ok1]|] eqn:Exs; [|done]. cbn in E. injection E as <- <-.
    destruct (IH ys xs1 ok1) as [Hz Ht]; [done..|]. rewrite !zlen_cons, Hz. split; [done|].
    cbn [elements_typed]. by rewrite (He _ _ _ _ Hx Hy Ex).
  - injection E as <- <-. rewrite !zlen_cons. split; [done|]. cbn [elements_typed]. by rewrite (He _ _ _ _ Hx Hy Ex).
Qed.

Lemma update_typed s : update_keeps_type s.
Proof.
  induction s as [n e IH|es IH|s Hs] using spec_elements_ind; intros a b a' ok Ha Hb E.
  - destruct a, b; try done. cbn in Ha, Hb, E. destruct (Z.eqb_spec n (zlen components)) as [->|]; [|done].
    destruct (Z.eqb_spec (zlen components) (zlen components0)) as [Hl|]; [|done]. cbn [negb] in *.
    destruct (update_components mms_update components components0) as [[xs' ok']|] eqn:Eu; [|done]. cbn in E. injection E as <- <-.
    destruct (update_elements_typed e IH _ _ _ _ Ha Hb Eu) as [Hz Ht]. cbn. by rewrite Hz, Z.eqb_refl.
  - destruct a, b; try done. cbn in Ha, Hb, E. destruct (Z.eqb_spec (zlen es) (zlen components)) as [Hl1|]; [|done].
    destruct (Z.eqb_spec (zlen es) (zlen components0)) as [Hl2|]; [|done]. cbn [negb] in *. rewrite <- Hl1, Hl2, Z.eqb_refl in E. cbn [negb] in E.
    destruct (update_components mms_update components components0) as [[xs' ok']|] eqn:Eu; [|done]. cbn in E. injection E as <- <-.
    destruct (update_components_typed es IH _ _ _ _ Ha Hb ltac:(lia) ltac:(lia) Eu) as [Hz Ht]. cbn. by rewrite Hz, <- Hl1, Z.eqb_refl.
  - destruct s, a; try done; destruct b; try done; cbn [mms_update] in E.
    + by injection E as <- <-.
    + destruct (size =? size0); repeat apply bind_Some in E as (? & _ & E); by injection E as <- <-.
    + apply bind_Some in E as ([? ?] & _ & E). by injection E as <- <-.
    + apply bind_Some in E as ([? ?] & _ & E). by injection E as <- <-.
    + destruct (Z.eqb_spec formatWidth0 formatWidth1) as [->|]; [|by injection E as <- <-].
      repeat apply bind_Some in E as (? & _ & E). injection E as <- <-. exact Hb.
    + destruct (_ && _); destruct (_ <=? _); repeat apply bind_Some in E as (? & _ & E); by injection E as <- <-.
    + apply bind_Some in E as (? & E1 & E). injection E as <- <-. apply bind_Some in E1 as ([? ?] & _ & E1). by injection E1 as <-.
    + repeat apply bind_Some in E as (? & _ & E). injection E as <- <-. exact Hb.
    + apply bind_Some in E as (? & E1 & E). injection E as <- <-. apply bind_Some in E1 as ([? ?] & _ & E1). by injection E1 as <-.
    + repeat apply bind_Some in E as (? & _ & E). by injection E as <- <-.
    + by injection E as <- <-.
Qed.

(** Values of one type are comparable. *)
Definition equals_defined_at (s : MmsVariableSpecification) : Prop := forall a b, mms_ok a -> mms_ok b ->
  MmsVariableSpecification_isValueOfType s (Some a) = Some true -> MmsVariableSpecification_isValueOfType s (Some b) = Some true ->
  is_Some (mms_equals a b).

Lemma equals_components_defined es : Forall equals_defined_at es -> forall xs ys, all_components mms_ok True xs -> all_components mms_ok True ys ->
  components_typed MmsVariableSpecification_isValueOfType es xs = Some true -> components_typed MmsVariableSpecification_isValueOfType es ys = Some true ->
  zlen es = zlen xs -> zlen xs = zlen ys -> is_Some (equals_components mms_equals xs ys).
Proof.
  induction 1 as [|e es He _ IH]; intros xs ys Hox Hoy Hx Hy Hl1 Hl2.
  - destruct xs; [by eexists|rewrite zlen_cons, zlen_nil in Hl1; pose proof (zlen_nonneg xs); lia].
  - destruct xs as [|x xs]; [by eexists|]. destruct ys as [|y ys]; [rewrite (zlen_cons x), zlen_nil in Hl2; pose proof (zlen_nonneg xs); lia|].
    apply components_typed_cons in Hx as [Hx Hxs], Hy as [Hy Hys]. rewrite !zlen_cons in *. cbn [equals_components].
    destruct x as [x|]; [|by destruct e]. destruct y as [y|]; [|by destruct e]. destruct Hox as [Hox Hoxs], Hoy as [Hoy Hoys].
    destruct (He x y Hox Hoy Hx Hy) as [r ->]. cbn. destruct r; [|by eexists]. apply IH; (done || lia).
Qed.
Lemma equals_elements_defined e : equals_defined_at e -> forall xs ys, all_components mms_ok True xs -> all_components mms_ok True ys ->
  elements_typed MmsVariableSpecification_isValueOfType e xs = Some true -> elements_typed MmsVariableSpecification_isValueOfType e ys = Some true ->
  zlen xs = zlen ys -> is_Some (equals_components mms_equals xs ys).
Proof.
  intros He. induction xs as [|x xs IH]; intros ys Hox Hoy Hx Hy Hl; [by eexists|].
  destruct ys as [|y ys]; [rewrite zlen_cons, zlen_nil in Hl; pose proof (zlen_nonneg xs); lia|]. rewrite !zlen_cons in Hl.
  cbn [elements_typed] in Hx, Hy. apply bind_Some in Hx as ([] & Hx & Hxs); [|done]. apply bind_Some in Hy as ([] & Hy & Hys); [|done].
  cbn [equals_components]. destruct x as [x|]; [|by destruct e]. destruct y as [y|]; [|by destruct e]. destruct Hox as [Hox Hoxs], Hoy as [Hoy Hoys].
  destruct (He x y Hox Hoy Hx Hy) as [r ->]. cbn. destruct r; [|by eexists]. apply IH; (done || lia).
Qed.

Lemma equals_defined s : equals_defined_at s.
Proof.
  induction s as [n e IH|es IH|s Hs] using spec_elements_ind; intros a b Hoa Hob Ha Hb.
  - destruct a, b; try done. cbn in Ha, Hb |- *. destruct (Z.eqb_spec n (zlen components)) as [->|]; [|done].
    destruct (Z.eqb_spec (zlen components) (zlen components0)) as [Hl|]; [|done]. cbn [negb] in *. by eapply equals_elements_defined.
  - destruct a, b; try done. cbn in Ha, Hb |- *. destruct (Z.eqb_spec (zlen es) (zlen components)) as [Hl1|]; [|done].
    destruct (Z.eqb_spec (zlen es) (zlen components0)) as [Hl2|]; [|done]. cbn [negb] in *. rewrite <- Hl1, Hl2, Z.eqb_refl.
    eapply equals_components_defined; try done; lia.
  - destruct s, a; try done; destruct b; try done; cbn [mms_equals]; try (by eexists).
    + destruct Hoa as (H1 & H2 & H3), Hob as (H4 & H5 & H6). destruct (Z.eqb_spec size size0) as [->|]; [|by eexists].
      apply memcmp_defined; [apply bitSize_bytes_nonneg; lia|lia|lia].
    + by apply compare_defined.
    + by apply compare_defined.
    + cbn in Ha, Hb. injection Ha as Ha. injection Hb as Hb. apply andb_prop in Ha as [_ Ha], Hb as [_ Hb]. apply Z.eqb_eq in Ha, Hb. subst.
      destruct Hoa as (H1 & H2 & H3 & H4), Hob as (H5 & H6 & H7 & H8). apply memcmp_defined; [apply Z.div_pos; lia|lia|lia].
    + destruct Hoa as (H1 & H2 & H3 & H4), Hob as (H5 & H6 & H7 & H8). destruct (Z.eqb_spec size size0) as [->|]; [|by eexists]. apply memcmp_defined; lia.
    + destruct buf as [buf|], buf0 as [buf0|]; try (by eexists). destruct Hoa as (? & _), Hob as (? & _). rewrite strcmp_eq_spec by done. by eexists.
    + destruct Hoa as (H1 & H2 & H3), Hob as (H5 & H6 & H7). destruct (Z.eqb_spec size size0) as [->|]; [|by eexists]. apply memcmp_defined; lia.
    + destruct buf as [buf|], buf0 as [buf0|]; try (by eexists). destruct Hoa as (? & _), Hob as (? & _). rewrite strcmp_eq_spec by done. by eexists.
    + destruct Hoa as (H1 & H2), Hob as (H5 & H6). apply memcmp_defined; lia.
Qed.
