(* ===== verification/ControlSafety.v ===== *)
(** Control objects do not crash: on well-formed objects ([wf]) every operation is defined
    and keeps them well formed, for requests whose values have the type of the object. *)

From Stdlib Require Import String.
From S2P Require Import Prelude BerEncoder BerDecoder BerInteger StringUtils CText CFloat MmsValue MmsFacts IecCommon ObjectReference GooseSafety MmsTypeSpec MmsUpdate Control ControlFacts ControlServer.
Open Scope Z_scope.

Notation typed s v := (MmsVariableSpecification_isValueOfType s (Some v) = Some true).

(** * Strings *)

Lemma find_end_defined n : forall dest i, 0 <= i -> i + Z.of_nat n <= zlen dest ->
  exists k, appendString_find n dest i = Some k /\ i <= k <= i + Z.of_nat n.
Proof.
  induction n as [|n IH]; intros dest i Hi Hl; cbn; [exists i; split; [done|lia]|].
  destruct (ld_is_Some dest i) as [c ->]; [lia|]. cbn. destruct (c =? 0); [exists i; split; [done|lia]|].
  destruct (IH dest (i + 1)) as (k & -> & ?); [lia..|]. exists k. split; [done|lia].
Qed.
Lemma append_copy_defined n : forall dest i str, 0 <= i -> i + Z.of_nat n <= zlen dest -> 0 ∈ str ->
  exists dest' k, appendString_copy n dest i str = Some (dest', k) /\ zlen dest' = zlen dest /\ i <= k <= i + Z.of_nat n.
Proof.
  induction n as [|n IH]; intros dest i str Hi Hl Ht; cbn; [do 2 eexists; split; [done|]; split; [done|lia]|].
  destruct str as [|c str]; [by apply not_elem_of_nil in Ht|]. destruct (Z.eqb_spec c 0) as [->|Hc]; [do 2 eexists; split; [done|]; split; [done|lia]|].
  rewrite st_Some by lia. cbn. destruct (IH (<[Z.to_nat i := c]> dest) (i + 1) str) as (d & k & -> & Hz & ?); [lia|rewrite zlen_insert; lia| |].
  { apply elem_of_cons in Ht as [?|?]; [lia|done]. }
  do 2 eexists. split; [done|]. rewrite Hz, zlen_insert. split; [done|lia].
Qed.
Lemma appendString_defined dest n str : 0 <= n <= zlen dest -> 0 ∈ str ->
  exists dest', StringUtils_appendString dest n str = Some dest' /\ zlen dest' = zlen dest.
Proof.
  intros Hn Ht. unfold StringUtils_appendString.
  destruct (find_end_defined (Z.to_nat n) dest 0) as (i & -> & Hi); [lia..|]. cbn.
  assert (forall d : list Z, zlen d = zlen dest -> exists d', (if 0 <? n then st d (n - 1) 0 else Some d) = Some d' /\ zlen d' = zlen dest) as Hend.
  { intros d Hd. destruct (Z.ltb_spec 0 n); [|by exists d]. rewrite st_Some by lia. eexists. split; [done|]. by rewrite zlen_insert. }
  destruct (Z.eqb_spec i n); [by apply Hend|].
  destruct (append_copy_defined (Z.to_nat (n - i)) dest i str) as (d & k & -> & Hd & Hk); [lia|lia|done|]. cbn.
  destruct (Z.eqb_spec k n); [by apply Hend|]. rewrite st_Some by lia. eexists. split; [done|]. by rewrite zlen_insert.
Qed.
Lemma createStringInBuffer_defined n strs : 0 <= n -> Forall (fun s => 0 ∈ s) strs ->
  is_Some (StringUtils_createStringInBuffer (replicate (Z.to_nat n) 0) n strs).
Proof.
  intros Hn Hs. unfold StringUtils_createStringInBuffer. destruct (Z.ltb_spec 0 n); [|by eexists].
  rewrite st_Some by (rewrite zlen_replicate; lia). cbn.
  assert (n = zlen (<[Z.to_nat 0 := 0]> (replicate (Z.to_nat n) 0))) as Hz by (rewrite zlen_insert, zlen_replicate; lia).
  revert Hz. generalize (<[Z.to_nat 0 := 0]> (replicate (Z.to_nat n) 0)). induction Hs as [|s strs Hs _ IH]; intros d Hz; cbn [foldl]; [by eexists|].
  cbn [mbind option_bind]. destruct (appendString_defined d n s) as (d' & -> & Hd'); [lia|done|]. apply IH. lia.
Qed.

Lemma literal_terminated s : 0 ∈ c_literal s.
Proof. unfold c_literal. apply elem_of_app. right. by apply list_elem_of_singleton. Qed.

(** * Values *)

Lemma components_typed_Forall2 es xs : zlen es = zlen xs -> components_typed MmsVariableSpecification_isValueOfType es xs = Some true ->
  Forall2 (fun e x => exists v, x = Some v /\ typed e v) es xs.
Proof.
  revert xs. induction es as [|e es IH]; intros [|x xs] Hl H; rewrite ?zlen_cons, ?zlen_nil in Hl.
  - constructor.
  - pose proof (zlen_nonneg xs). lia.
  - pose proof (zlen_nonneg es). lia.
  - apply components_typed_cons in H as [Hx Hxs]. constructor; [|apply IH; [lia|done]]. destruct x as [x|]; [by exists x|by destruct e].
Qed.
Lemma Forall2_components_typed es xs : Forall2 (fun e x => exists v, x = Some v /\ typed e v) es xs ->
  zlen es = zlen xs /\ components_typed MmsVariableSpecification_isValueOfType es xs = Some true.
Proof.
  induction 1 as [|e x es xs (v & -> & Hv) _ [Hl IH]]; [done|]. rewrite !zlen_cons. split; [lia|]. cbn [components_typed]. by rewrite Hv.
Qed.
Lemma structure_typed es v : typed (SpecStructure es) v ->
  exists xs, v = MmsStructure xs /\ Forall2 (fun e x => exists v, x = Some v /\ typed e v) es xs.
Proof.
  destruct v; try done. cbn. destruct (Z.eqb_spec (zlen es) (zlen components)); [|done]. intros H. eexists. split; [done|].
  by apply components_typed_Forall2.
Qed.
Lemma structure_typed_2 es xs : Forall2 (fun e x => exists v, x = Some v /\ typed e v) es xs -> typed (SpecStructure es) (MmsStructure xs).
Proof. intros H. apply Forall2_components_typed in H as [Hl H]. cbn. by rewrite Hl, Z.eqb_refl. Qed.

(** the component of a structure with a known type *)
Lemma element_typed es v i e : typed (SpecStructure es) v -> mms_ok v -> 0 <= i -> es !! Z.to_nat i = Some e ->
  exists x, MmsValue_getElement v i = Some x /\ typed e x /\ mms_ok x.
Proof.
  intros Hv Hok Hi He. destruct (structure_typed es v Hv) as (xs & -> & H).
  destruct (Forall2_lookup_l _ _ _ _ _ H He) as (y & Hy & x & -> & Hx).
  assert (MmsValue_getElement (MmsStructure xs) i = Some x) as E.
  { cbn. apply lookup_lt_Some in Hy as Hlt. unfold zlen. rewrite (proj2 (Z.ltb_ge i 0)), (proj2 (Z.leb_gt _ i)) by lia. cbn. by rewrite Hy. }
  exists x. split_and!; [done|done|]. by eapply getElement_ok.
Qed.
Lemma setElement_typed es v i e x : typed (SpecStructure es) v -> 0 <= i -> es !! Z.to_nat i = Some e -> typed e x ->
  typed (SpecStructure es) (MmsValue_setElement v i (Some x)).
Proof.
  intros Hv Hi He Hx. destruct (structure_typed es v Hv) as (xs & -> & H). cbn [MmsValue_setElement]. apply structure_typed_2.
  destruct (_ || _); [done|]. replace es with (<[Z.to_nat i := e]> es) by (by apply list_insert_id). apply Forall2_insert; [done|]. by exists x.
Qed.

Lemma getUtcTimeInMs_defined v : mms_ok v -> typed SpecUtcTime v -> is_Some (MmsValue_getUtcTimeInMs v).
Proof.
  destruct v; try done. intros [Hz _] _. destruct (zlen_8 _ Hz) as (c0 & c1 & c2 & c3 & c4 & c5 & c6 & c7 & ->). by eexists.
Qed.
Lemma setUtcTime_typed v t : mms_ok v -> typed SpecUtcTime v -> exists v', MmsValue_setUtcTime v t = Some v' /\ mms_ok v' /\ typed SpecUtcTime v'.
Proof.
  destruct v; try done. intros [Hz Hb] _. cbn [MmsValue_setUtcTime]. rewrite memcpyReverseByteOrder_spec by (zlia || done). cbn [mbind option_bind].
  eexists. split; [done|]. split; [|done]. cbn [mms_ok]. rewrite take_ge by (rewrite length_le_bytes; lia). split.
  - rewrite zlen_app, zlen_reverse, zlen_drop by lia. zlia.
  - apply Forall_app. split; [apply Forall_reverse; auto with bytes|by apply Forall_drop].
Qed.
Lemma setUtcTimeQuality_typed v q : is_byte q -> mms_ok v -> typed SpecUtcTime v -> exists v', MmsValue_setUtcTimeQuality v q = Some v' /\ mms_ok v' /\ typed SpecUtcTime v'.
Proof.
  destruct v; try done. intros Hq [Hz Hb] _. cbn. destruct (st_ok utcTime 7 q) as (b & -> & ? & ? & _); [done|done|lia|].
  cbn. eexists. split; [done|]. split; [|done]. cbn. split; [lia|done].
Qed.

(** ** Names *)

Lemma strlen_terminates s n : strlen s = Some n -> 0 ∈ s.
Proof.
  revert n. induction s as [|c s IH]; intros n H; [done|]. apply strlen_cons_inv in H as [[-> _]|(_ & m & Hm & _)]; [by left|]. right. by eapply IH.
Qed.
Lemma directChild_bound s n : strlen s = Some n -> exists k, directChildStrLen s = Some k /\ 0 <= k <= n /\ (k < n -> 0 ∈ ptr_add s (k + 1)).
Proof.
  revert n. induction s as [|c s IH]; intros n Hn; [done|]. pose proof (strlen_nonneg _ _ Hn).
  apply strlen_cons_inv in Hn as [[-> ->]|(Hc & m & Hm & ->)]; [exists 0; cbn; split_and!; done || lia|]. cbn.
  rewrite (proj2 (Z.eqb_neq c 0)) by done. destruct (_ || _).
  - exists 0. split_and!; [done|lia..|]. intros _. by eapply strlen_terminates.
  - destruct (IH m Hm) as (k & -> & Hk & Hr). exists (k + 1). split_and!; [done|lia..|]. intros Hl.
    unfold ptr_add in *. replace (Z.to_nat (k + 1 + 1)) with (S (Z.to_nat (k + 1))) by lia. cbn. apply Hr. lia.
Qed.
Lemma strncmp_defined s t n : 0 ∈ s -> 0 ∈ t -> is_Some (strncmp_eq s t n).
Proof.
  revert s t. induction n as [|n IH]; intros s t Hs Ht; [by destruct s; eexists|]. destruct s as [|a s]; [by apply not_elem_of_nil in Hs|].
  destruct t as [|b t]; [by apply not_elem_of_nil in Ht|]. cbn. destruct (Z.eqb_spec a b) as [->|]; [|by eexists].
  destruct (Z.eqb_spec b 0); [by eexists|]. apply elem_of_cons in Hs as [?|?]; [lia|]. apply elem_of_cons in Ht as [?|?]; [lia|]. by apply IH.
Qed.

(** * Well-formed objects *)

(** the types of the parameters of a control object ([ct_timed] is whether it has an operTm),
    the type of the object, and the indexes of Oper and SBOw in it *)
Record CtlTypes := mkCtlTypes {
  ct_ctlVal : MmsVariableSpecification; ct_timed : bool; ct_orCat : Z; ct_orIdent : Z; ct_ctlNum : MmsVariableSpecification;
  ct_time : MmsVariableSpecification; ct_check : Z;
  ct_object : MmsTypeSpec; ct_operIndex : Z; ct_sbowIndex : option Z }.

Definition ct_origin (ct : CtlTypes) : MmsVariableSpecification := SpecStructure [SpecInteger (ct_orCat ct); SpecOctetString (ct_orIdent ct)].
(** the types of Oper and SBOw *)
Definition oper_specs (ct : CtlTypes) : list MmsVariableSpecification :=
  ct_ctlVal ct :: (if ct_timed ct then [SpecUtcTime] else []) ++ [ct_origin ct; ct_ctlNum ct; ct_time ct; SpecBoolean; SpecBitString (ct_check ct)].

(** a value, if there is one *)
Definition fine (v : option MmsValue) : Prop := match v with Some v => mms_ok v | None => True end.
Definition holds_type (s : MmsVariableSpecification) (v : option MmsValue) : Prop :=
  match v with Some v => mms_ok v /\ typed s v | None => True end.
Definition readable (v : option MmsValue) : Prop := match v with Some v => is_Some (MmsValue_toInt32 v) | None => True end.
Definition integer_object (v : option MmsValue) : Prop := exists x, v = Some x /\ mms_ok x.

(** every description below has a name *)
Fixpoint well_named (t : MmsTypeSpec) : Prop :=
  match t with
  | TypeStructure _ es => (fix go l := match l with [] => True | e :: l => (exists n, type_name e = Some n /\ 0 ∈ n) /\ well_named e /\ go l end) es
  | _ => True
  end.

(** the type of the object describes its components Oper and SBOw *)
Definition types_ok (ct : CtlTypes) : Prop :=
  well_named (ct_object ct) /\
  exists elements, unnamed (ct_object ct) = SpecStructure elements /\
    Forall (fun i => 0 <= i /\ elements !! Z.to_nat i = Some (SpecStructure (oper_specs ct))) (ct_operIndex ct :: option_list (ct_sbowIndex ct)).

Lemma child_defined t : well_named t -> forall v path, typed (unnamed t) v -> 0 ∈ path -> is_Some (MmsVariableSpecification_getChildValue t (Some v) path).
Proof.
  induction t as [nm m e IH|nm es IH|nm ty] using MmsTypeSpec_elements_ind; intros Hw v path Ht Hp; [by destruct v; eexists| |by destruct v; eexists].
  destruct v; try done. cbn in Ht |- *. rewrite zlen_fmap in Ht. destruct (strlen_is_Some path Hp) as [n Hn]. rewrite Hn. cbn [mbind option_bind].
  destruct (directChild_bound path n Hn) as (k & -> & Hk & Hrest). cbn [mbind option_bind].
  destruct (zlen es =? zlen components); cbn [negb] in *; [|by eexists].
  revert components Ht. induction IH as [|e es He _ IHes]; intros cs Ht; [by eexists|]. destruct cs as [|c cs]; [by eexists|].
  destruct Hw as ((name & Hname & Hn0) & He' & Hw). rewrite fmap_cons in Ht. apply components_typed_cons in Ht as [Hc Ht].
  cbn [child_value]. rewrite Hname. cbn [mbind option_bind]. unfold name_is. destruct (strlen_is_Some name Hn0) as [l ->]. cbn [mbind option_bind].
  assert (is_Some (if l =? k then strncmp_eq name path (Z.to_nat k) else Some false)) as [b ->]
    by (destruct (l =? k); [by apply strncmp_defined|by eexists]).
  cbn [mbind option_bind]. destruct b; [|by apply IHes]. destruct (Z.eqb_spec k n); [by eexists|].
  destruct c as [c|]; [|by destruct e as [| |? []]]. apply He; [done..|]. apply Hrest. lia.
Qed.

Definition value_ok (ct : CtlTypes) (value : option MmsValue) : Prop :=
  exists v, value = Some v /\ mms_ok v /\ typed (unnamed (ct_object ct)) v.

Section Safety.
(** the types, the names, and whether the application has a check handler *)
Context (ct : CtlTypes) (domain : MmsDomain) (lnName name : list Z) (has_check : bool).
Hypothesis Hct : types_ok ct.
Hypothesis Hdomain : 0 ∈ md_domainName domain.
Hypothesis HlnName : 0 ∈ lnName.
Hypothesis Hname : 0 ∈ name.

Record wf (co : ControlObject) : Prop := mkWf {
  wf_names : (co_mmsDomain co, co_lnName co, co_name co) = (domain, lnName, name);
  wf_error : integer_object (co_error co);
  wf_addCause : integer_object (co_addCause co);
  wf_T : zlen (co_T co) = 8;
  wf_ctlVal : holds_type (ct_ctlVal ct) (co_ctlVal co);
  wf_ctlNum : holds_type (ct_ctlNum ct) (co_ctlNum co);
  wf_origin : holds_type (ct_origin ct) (co_origin co);
  wf_ctlNumSt : fine (co_ctlNumSt co);
  wf_originSt : fine (co_originSt co);
  wf_tOpOk : holds_type SpecUtcTime (co_tOpOk co);
  wf_sboClass : readable (co_sboClass co);
  wf_sboTimeout : readable (co_sboTimeout co);
  wf_typeSpec : co_typeSpec co = Some (ct_object ct);
  wf_indexes : co_oper co = Some (ct_operIndex ct) /\ co_sbow co = ct_sbowIndex ct;
  wf_value : value_ok ct (co_mmsValue co);
  wf_select : co_state co = STATE_WAIT_FOR_SELECT -> has_check = true;
  wf_activation : co_state co = STATE_WAIT_FOR_ACTIVATION_TIME -> ct_timed ct = true
}.

(** defined on well-formed objects, which stay well formed *)
Definition safe {A} (m : ctl A) : Prop := forall co w, wf co -> is_byte (w_timeQuality w) ->
  exists a co' w', m co w = Some (a, co', w') /\ wf co' /\ w_timeQuality w' = w_timeQuality w.

Lemma safe_ret {A} (a : A) : safe (mret a).
Proof. intros co w H _. by exists a, co, w. Qed.
Lemma safe_bind {A B} (m : ctl A) (k : A -> ctl B) : safe m -> (forall a, safe (k a)) -> safe (m ≫= k).
Proof.
  intros Hm Hk co w H Hq. destruct (Hm co w H Hq) as (a & co1 & w1 & E1 & H1 & Hw1). destruct (Hk a co1 w1 H1) as (b & co2 & w2 & E2 & H2 & Hw2); [by rewrite Hw1|].
  exists b, co2, w2. unfold mbind, ctl_bind. rewrite E1. split_and!; [done..|congruence].
Qed.
Lemma safe_get {B} (k : ControlObject -> ctl B) : (forall co, wf co -> safe (k co)) -> safe (get ≫= k).
Proof. intros Hk co w H Hq. exact (Hk co H co w H Hq). Qed.
Lemma safe_getState {B} (k : ControlState -> ctl B) :
  (forall s, (s = STATE_WAIT_FOR_SELECT -> has_check = true) -> (s = STATE_WAIT_FOR_ACTIVATION_TIME -> ct_timed ct = true) -> safe (k s)) -> safe (getState ≫= k).
Proof. intros Hk co w H Hq. exact (Hk (co_state co) (wf_select co H) (wf_activation co H) co w H Hq). Qed.
Lemma safe_world {B} (k : World -> ctl B) : (forall w, is_byte (w_timeQuality w) -> safe (k w)) -> safe (get_world ≫= k).
Proof. intros Hk co w H Hq. exact (Hk w Hq co w H Hq). Qed.
Lemma safe_modify f : (forall co, wf co -> wf (f co)) -> safe (modify f).
Proof. intros Hf co w H _. exists tt, (f co), w. auto. Qed.
Lemma safe_lift {A} (o : option A) : is_Some o -> safe (lift o).
Proof. intros [a ->] co w H _. by exists a, co, w. Qed.
Lemma safe_lift_bind {A B} (o : option A) (k : A -> ctl B) a : o = Some a -> safe (k a) -> safe (lift o ≫= k).
Proof. intros -> Hk co w H Hq. exact (Hk co w H Hq). Qed.
Lemma safe_emit e : safe (emit e).
Proof. intros co w H _. by do 3 eexists. Qed.
Lemma safe_time : safe Hal_getTimeInMs.
Proof. intros co w H _. by do 3 eexists. Qed.
Lemma safe_set_timeout t : safe (set_nextControlTimeout t).
Proof. intros co w H _. by do 3 eexists. Qed.
Lemma safe_setState s : (s = STATE_WAIT_FOR_SELECT -> has_check = true) -> (s = STATE_WAIT_FOR_ACTIVATION_TIME -> ct_timed ct = true) -> safe (setState s).
Proof. intros H1 H2. apply safe_modify. intros co H. destruct co, H; cbn in *; by constructor. Qed.

Create HintDb csafe discriminated.
Ltac keep_wf := let co := fresh in let H := fresh in intros co H; destruct co, H; cbn in *; by constructor.
#[local] Hint Resolve safe_ret safe_emit safe_time safe_set_timeout : csafe.
#[local] Hint Extern 1 (safe (setState _)) => (apply safe_setState; done) : csafe.
#[local] Hint Extern 1 (safe (modify _)) => (apply safe_modify; keep_wf) : csafe.

Ltac safe :=
  repeat first
    [ progress intros
    | solve [eauto 2 with csafe]
    | match goal with |- safe (mbind _ get) => apply safe_get end
    | match goal with |- safe (mbind _ getState) => apply safe_getState end
    | match goal with |- safe (mbind _ get_world) => apply safe_world end
    | match goal with |- safe (mbind _ (lift _)) => fail 1 | |- safe (mbind _ _) => apply safe_bind end
    | match goal with |- safe (match ?x with _ => _ end) => destruct x end ].

Lemma safe_updateNext t : safe (updateNextControlTimeout t).
Proof. unfold updateNextControlTimeout. safe. Qed.
Lemma safe_add_pending e : safe (add_pending e).
Proof. unfold add_pending. safe. Qed.
#[local] Hint Resolve safe_updateNext safe_add_pending : csafe.
Lemma safe_setStSeld v : safe (setStSeld v).
Proof. unfold setStSeld. safe. Qed.
Lemma safe_setOpRcvd v : safe (setOpRcvd v).
Proof. unfold setOpRcvd. safe. Qed.
Lemma safe_call_handler {A} e (f : ControlObject -> Answer A) : safe (call_control_handler e f).
Proof. unfold call_control_handler, ControlAction_setError, ControlAction_setAddCause. safe. Qed.
Lemma safe_tracking s e : safe (updateGenericTrackingObjectValues s e).
Proof. unfold updateGenericTrackingObjectValues. safe. Qed.
Lemma safe_initiate : safe initiateControlTask.
Proof. unfold initiateControlTask. safe. Qed.
Lemma safe_exit : safe exitControlTask.
Proof. unfold exitControlTask. safe. Qed.
#[local] Hint Resolve safe_setStSeld safe_setOpRcvd safe_call_handler safe_tracking safe_initiate safe_exit : csafe.

Lemma safe_lifted {A B} (o : option A) (k : A -> ctl B) : (exists a, o = Some a /\ safe (k a)) -> safe (lift o ≫= k).
Proof. intros (a & -> & Hk). by eapply safe_lift_bind. Qed.

(** ** Values *)

Lemma update_holds s v u : holds_type s v -> holds_type s u -> exists v' ok, MmsValue_update v u = Some (v', ok) /\ holds_type s v'.
Proof.
  intros Hv Hu. destruct v as [v|], u as [u|]; try by do 2 eexists. destruct Hv as [Hv Htv], Hu as [Hu Htu].
  destruct (update_ok v u Hv Hu) as (v' & ok & E & Hv'). cbn. rewrite E. cbn. do 2 eexists. split; [done|]. split; [done|]. by apply (update_typed s v u v' ok).
Qed.
Lemma update_fine v u : fine v -> fine u -> exists v' ok, MmsValue_update v u = Some (v', ok) /\ fine v'.
Proof.
  intros Hv Hu. destruct v as [v|], u as [u|]; try by do 2 eexists.
  destruct (update_ok v u Hv Hu) as (v' & ok & E & Hv'). cbn. rewrite E. by do 2 eexists.
Qed.
Lemma holds_fine s v : holds_type s v -> fine v.
Proof. destruct v; [by intros []|done]. Qed.

Lemma set_integer v z : integer_object v -> exists x y, v = Some x /\ MmsValue_setInt32 x z = Some y /\ integer_object (Some y).
Proof. intros (x & -> & Hx). destruct (setInt32_ok x z Hx) as (y & Hy & Hok). exists x, y. split_and!; [done..|]. by exists y. Qed.


Lemma setUtcTimeMsEx_ok v t q : is_byte q -> holds_type SpecUtcTime (Some v) ->
  exists v', MmsValue_setUtcTimeMsEx v t q = Some v' /\ holds_type SpecUtcTime (Some v').
Proof.
  intros Hq [Hv Ht]. destruct v; try done. destruct Hv as [Hz _]. unfold MmsValue_setUtcTimeMsEx. rewrite setUtcTimeMs_spec by done.
  eexists. split; [done|]. split; [|done]. cbn [mms_ok]. unfold utc_ms_bytes. split; [zlia|]. apply Forall_app. split; [auto with bytes|].
  repeat constructor; rewrite ?land_255; try (apply Z.mod_pos_bound; lia); apply Hq.
Qed.

(** ** Steps *)

(** an assignment that keeps the object well formed *)
Ltac assigned := apply safe_modify; let co := fresh in let H := fresh in intros co H; destruct co, H; cbn in *; by constructor.

Lemma safe_setOpOk v t : safe (setOpOk v t).
Proof.
  unfold setOpOk. apply safe_get. intros co Hco. apply safe_world. intros w Hw. destruct (co_opOk co); [|safe]. destruct v; [|safe].
  apply safe_bind; [|safe]. pose proof (wf_tOpOk co Hco) as Ht. destruct (co_tOpOk co) as [x|]; [|safe].
  destruct (setUtcTimeMsEx_ok x t (w_timeQuality w)) as (y & -> & Hy); [done..|]. eapply safe_lift_bind; [done|]. assigned.
Qed.
Lemma safe_updateSboTimeout : safe updateSboTimeoutValue.
Proof.
  unfold updateSboTimeoutValue. apply safe_get. intros co Hco. pose proof (wf_sboTimeout co Hco) as Ht.
  destruct (co_sboTimeout co) as [x|]; [|safe]. destruct Ht as [z ->]. eapply safe_lift_bind; [done|]. safe.
Qed.
Lemma isSboClass_defined co : wf co -> is_Some (isSboClassOperateOnce co).
Proof.
  intros Hco. pose proof (wf_sboClass co Hco) as H. unfold isSboClassOperateOnce. destruct (co_sboClass co); [|by eexists].
  destruct H as [z ->]. by eexists.
Qed.
Lemma safe_resetAddCause : safe resetAddCause.
Proof.
  unfold resetAddCause. apply safe_bind; [safe|]. intros _. apply safe_get. intros co Hco.
  destruct (set_integer _ (co_addCauseValue co) (wf_addCause co Hco)) as (x & y & -> & Hy & Hi).
  eapply safe_lift_bind; [done|]. eapply safe_lift_bind; [exact Hy|]. assigned.
Qed.
Lemma safe_set_errors e a : safe (set_errors e a).
Proof.
  unfold set_errors. apply safe_get. intros co Hco.
  destruct (set_integer _ e (wf_error co Hco)) as (x & y & -> & Hy & Hi).
  destruct (set_integer _ a (wf_addCause co Hco)) as (x' & y' & -> & Hy' & Hi').
  eapply safe_lift_bind; [done|]. eapply safe_lift_bind; [exact Hy|]. apply safe_bind; [assigned|]. intros _.
  eapply safe_lift_bind; [done|]. eapply safe_lift_bind; [exact Hy'|]. assigned.
Qed.
#[local] Hint Resolve safe_setOpOk safe_updateSboTimeout safe_resetAddCause safe_set_errors : csafe.

(** the names of the object in a buffer *)
Lemma safe_string {B} co n (strs : ControlObject -> list (list Z)) (k : list Z -> ctl B) : wf co -> 0 <= n -> Forall (fun s => 0 ∈ s) (strs co) ->
  (forall s, safe (k s)) -> safe (lift (StringUtils_createStringInBuffer (replicate (Z.to_nat n) 0) n (strs co)) ≫= k).
Proof. intros Hco Hn Hs Hk. destruct (createStringInBuffer_defined n (strs co) Hn Hs) as [s E]. by eapply safe_lift_bind. Qed.
Lemma names_terminated co : wf co -> 0 ∈ md_domainName (co_mmsDomain co) /\ 0 ∈ co_lnName co /\ 0 ∈ co_name co.
Proof. intros Hco. by injection (wf_names co Hco) as -> -> ->. Qed.
Ltac strings Hco := let H1 := fresh in let H2 := fresh in let H3 := fresh in
  destruct (names_terminated _ Hco) as (H1 & H2 & H3); repeat constructor; (done || apply literal_terminated).

Lemma safe_sendLastApplError c v e a n o h : 0 ∈ v -> safe (ControlObject_sendLastApplError c v e a n o h).
Proof.
  intros Hv. unfold ControlObject_sendLastApplError. apply safe_get. intros co Hco. change 130%nat with (Z.to_nat 130).
  eapply (safe_string co 130 (fun co => _)); [done|done|strings Hco|]. safe.
Qed.
Lemma safe_oper_itemId {B} co n (k : list Z -> ctl B) : wf co -> 0 <= n -> (forall s, safe (k s)) -> safe (lift (oper_itemId co n) ≫= k).
Proof. intros Hco Hn Hk. eapply (safe_string co n (fun co => _)); [done|done|strings Hco|done]. Qed.
Lemma safe_termination_positive : safe ControlObject_sendCommandTerminationPositive.
Proof. unfold ControlObject_sendCommandTerminationPositive. apply safe_get. intros co Hco. apply safe_oper_itemId; [done..|]. safe. Qed.
Lemma safe_termination_negative : safe ControlObject_sendCommandTerminationNegative.
Proof.
  unfold ControlObject_sendCommandTerminationNegative. apply safe_get. intros co Hco. change 130%nat with (Z.to_nat 130).
  eapply (safe_string co 130 (fun co => _)); [done|done|strings Hco|]. intros s. apply safe_bind; [safe|]. intros _.
  apply safe_get. intros co' Hco'. apply safe_oper_itemId; [done..|]. safe.
Qed.
#[local] Hint Resolve safe_termination_positive safe_termination_negative : csafe.
#[local] Hint Extern 1 (safe (ControlObject_sendLastApplError _ _ _ _ _ _ _)) => (apply safe_sendLastApplError, literal_terminated) : csafe.

(** the steps that depend on the application *)
Context (app : ControlApplication).
Hypothesis Hcheck : has_check = true <-> is_Some (checkHandler app).

Lemma safe_select t c : safe (selectObject app t c).
Proof. unfold selectObject. safe. Qed.
Lemma safe_unselect r : safe (unselectObject app r).
Proof. unfold unselectObject. safe. Qed.
#[local] Hint Resolve safe_select safe_unselect : csafe.
Lemma safe_checkSelectTimeout t : safe (checkSelectTimeout app t).
Proof. unfold checkSelectTimeout. safe. Qed.
Lemma safe_abort u r : safe (abortControlOperation app u r).
Proof.
  unfold abortControlOperation. apply safe_get. intros co Hco. apply safe_bind; [|safe].
  destruct (is_sbo _); [|safe]. destruct u; [safe|]. destruct (isSboClass_defined co Hco) as [b ->]. eapply safe_lift_bind; [done|]. safe.
Qed.
Lemma safe_operateControl v t b : safe (operateControl app v t b).
Proof. unfold operateControl. safe. Qed.
#[local] Hint Resolve safe_checkSelectTimeout safe_abort safe_operateControl : csafe.
Lemma safe_call_check v t i : has_check = true -> safe (call_checkHandler app v t i).
Proof. intros [h E]%Hcheck. unfold call_checkHandler. rewrite E. eapply safe_lift_bind; [done|]. safe. Qed.
Lemma safe_perform_check v t i : safe (perform_check app v t i).
Proof. unfold perform_check. case_eq (checkHandler app); [|safe]. intros h E. apply safe_call_check, Hcheck. by rewrite E. Qed.
#[local] Hint Resolve safe_perform_check : csafe.

(** ** The components of the object *)

Notation request := (SpecStructure (oper_specs ct)).
Definition holds_request (i : Z) : Prop := i ∈ ct_operIndex ct :: option_list (ct_sbowIndex ct).

Lemma object_component co i : wf co -> holds_request i -> exists x, object_element co (Some i) = Some x /\ mms_ok x /\ typed request x.
Proof.
  intros Hco Hi. destruct (wf_value co Hco) as (v & Hv & Hok & Ht). destruct Hct as (_ & es & Hes & Hall).
  rewrite List.Forall_forall in Hall. destruct (Hall i) as [H0 Hl]; [by apply list_elem_of_In|]. rewrite Hes in Ht.
  unfold object_element. rewrite Hv. cbn [mbind option_bind]. destruct (element_typed es v i request Ht Hok H0 Hl) as (x & ? & ? & ?). by exists x.
Qed.
Lemma wf_set_component i x : holds_request i -> mms_ok x -> typed request x -> forall co, wf co -> wf (set_object_element (Some i) (Some x) co).
Proof.
  intros Hi Hx Htx co Hco. destruct (wf_value co Hco) as (v & Hv & Hok & Ht). destruct Hct as (_ & es & Hes & Hall).
  rewrite List.Forall_forall in Hall. destruct (Hall i) as [H0 Hl]; [by apply list_elem_of_In|].
  assert (value_ok ct (Some (MmsValue_setElement v i (Some x)))) as Hval.
  { eexists. split; [done|]. split; [by apply setElement_ok|]. rewrite Hes in Ht |- *. by eapply setElement_typed. }
  unfold set_object_element. rewrite Hv. destruct co, Hco; cbn in *; by constructor.
Qed.

Lemma safe_update_element (index : ControlObject -> option Z) v : mms_ok v -> typed request v ->
  (forall co, wf co -> match index co with Some i => holds_request i | None => True end) -> safe (update_element index v).
Proof.
  intros Hv Ht Hi. unfold update_element. apply safe_get. intros co Hco. pose proof (Hi co Hco) as Hidx.
  destruct (index co) as [i|]; [|eapply safe_lift_bind; [done|]; apply safe_modify; by intros].
  destruct (object_component co i Hco Hidx) as (x & -> & Hx & Htx).
  destruct (update_holds request (Some x) (Some v)) as (y & ok & E & Hy); [done..|].
  eapply safe_lift_bind; [exact E|]. cbn. apply safe_modify. destruct y as [y|]; [|by cbn in E; apply bind_Some in E as ([] & _ & [=])].
  destruct Hy. by apply wf_set_component.
Qed.

Lemma safe_clear_operTm : ct_timed ct = true -> safe clear_operTm.
Proof.
  intros Htimed. unfold clear_operTm. apply safe_get. intros co Hco. apply safe_world. intros w Hw.
  assert (holds_request (ct_operIndex ct)) as Hi by by left. destruct (wf_indexes co Hco) as [-> _].
  destruct (object_component co _ Hco Hi) as (x & -> & Hx & Htx). eapply safe_lift_bind; [done|].
  assert (oper_specs ct !! Z.to_nat 1 = Some SpecUtcTime) as Hl by (unfold oper_specs; by rewrite Htimed).
  destruct (element_typed _ _ 1 _ Htx Hx ltac:(done) Hl) as (t & Et & Ht & Htok).
  assert (getOperParameterOperTime x = Some t) as ->.
  { destruct (structure_typed _ _ Htx) as (xs & -> & H2). unfold getOperParameterOperTime. apply Forall2_length in H2.
    unfold oper_specs in H2. rewrite Htimed in H2. unfold zlen. rewrite <- H2. exact Et. }
  eapply safe_lift_bind; [done|]. destruct (setUtcTime_typed t 0 Htok Ht) as (t1 & -> & H1 & Ht1). eapply safe_lift_bind; [done|].
  destruct (setUtcTimeQuality_typed t1 (w_timeQuality w) Hw H1 Ht1) as (t2 & -> & H2 & Ht2). eapply safe_lift_bind; [done|].
  apply safe_modify. apply wf_set_component; [done|by apply setElement_ok|by eapply setElement_typed].
Qed.

(** ** The state machine *)

Lemma safe_status (k : option MmsValue -> option MmsValue -> ctl unit) co n o : wf co -> fine n -> fine o -> (forall a b, fine a -> fine b -> safe (k a b)) ->
  safe ('(ctlNumSt, _) ← lift (MmsValue_update (co_ctlNumSt co) n); '(originSt, _) ← lift (MmsValue_update (co_originSt co) o); k ctlNumSt originSt).
Proof.
  intros Hco Hn Ho Hk. destruct (update_fine _ n (wf_ctlNumSt co Hco) Hn) as (a & ? & -> & Ha). eapply safe_lift_bind; [done|]. cbn.
  destruct (update_fine _ o (wf_originSt co Hco) Ho) as (b & ? & -> & Hb). eapply safe_lift_bind; [done|]. by apply Hk.
Qed.
Lemma safe_with_status a b : fine a -> fine b -> safe (modify (co_with_status a b)).
Proof. intros Ha Hb. assigned. Qed.
#[local] Hint Resolve safe_with_status : csafe.

Lemma safe_select_answered r : has_check = true -> safe (select_answered app r).
Proof.
  intros Hc. unfold select_answered. apply safe_get. intros co Hco. destruct (co_ctlModel co); [safe..|].
  destruct r; [|safe..]. do 2 (apply safe_bind; [safe|]; intros ?).
  apply (safe_status (fun a b => modify (co_with_status a b);; _)); [done|apply (holds_fine (ct_ctlNum ct)), Hco|apply (holds_fine (ct_origin ct)), Hco|].
  intros n o Hn Ho. apply safe_bind; [auto with csafe|]. safe.
Qed.
Lemma safe_wait_for_select : has_check = true -> safe (state_wait_for_select app).
Proof. intros Hc. pose proof safe_select_answered. pose proof safe_call_check. unfold state_wait_for_select. safe. Qed.
Lemma safe_state_operate t : safe (state_operate app t).
Proof. unfold state_operate. safe. Qed.
#[local] Hint Resolve safe_state_operate : csafe.
Lemma safe_wait_for_execution b t : (b = true -> ct_timed ct = true) -> safe (state_wait_for_execution app b t).
Proof.
  intros Hb. pose proof safe_clear_operTm. unfold state_wait_for_execution. do 2 (apply safe_bind; [safe|]; intros _). apply safe_get. intros co Hco.
  apply safe_bind; [safe|]. intros []; [safe| |safe]. destruct b; [specialize (Hb eq_refl)|]; safe.
Qed.
Lemma safe_executeControlTask t : safe (executeControlTask app t).
Proof.
  unfold executeControlTask. apply safe_getState. intros s H1 H2.
  destruct s; eauto using safe_ret, safe_wait_for_select, safe_state_operate, safe_wait_for_execution.
  by apply safe_wait_for_execution.
Qed.
#[local] Hint Resolve safe_executeControlTask : csafe.

(** ** The periodic task *)

Lemma safe_handle_pending e x ev : safe (handle_pending e x ev).
Proof. unfold handle_pending. safe. Qed.
Lemma safe_handlePendingEvents : safe ControlObject_handlePendingEvents.
Proof. pose proof safe_handle_pending. unfold ControlObject_handlePendingEvents. safe. Qed.
Lemma safe_activation t : safe (activation_time_reached app t).
Proof.
  unfold activation_time_reached. do 2 (apply safe_bind; [safe|]; intros _).
  apply safe_bind; [|safe]. case_eq (checkHandler app); [|safe]. intros h E.
  assert (has_check = true) by (apply Hcheck; by rewrite E). pose proof safe_call_check. safe.
Qed.
#[local] Hint Resolve safe_handlePendingEvents safe_activation : csafe.
Lemma safe_process_object t : safe (process_object app t).
Proof. unfold process_object. safe. Qed.
Lemma safe_ControlObject_unselect c : safe (ControlObject_unselect app c).
Proof. unfold ControlObject_unselect. safe. Qed.

(** ** The parameters of a request *)

Definition request_ok (value : MmsValue) : Prop :=
  mms_ok value /\ typed request value /\ match getOperParameterOrigin value with Some origin => readable (MmsValue_getElement origin 0) | None => True end.

Record Parameters (value ctlVal origin ctlNum time test check : MmsValue) : Prop := mkParameters {
  p_ctlVal : getCtlVal value = Some ctlVal /\ holds_type (ct_ctlVal ct) (Some ctlVal);
  p_origin : getOperParameterOrigin value = Some origin /\ holds_type (ct_origin ct) (Some origin);
  p_ctlNum : getOperParameterCtlNum value = Some ctlNum /\ holds_type (ct_ctlNum ct) (Some ctlNum);
  p_time : getOperParameterTime value = only_time (Some time) /\ mms_ok time;
  p_test : getOperParameterTest value = Some test /\ holds_type SpecBoolean (Some test);
  p_check : getOperParameterCheck value = Some check /\ holds_type (SpecBitString (ct_check ct)) (Some check);
  p_operTm : match getOperParameterOperTime value with Some t => ct_timed ct = true /\ holds_type SpecUtcTime (Some t) | None => True end
}.

Lemma request_parameters value : mms_ok value -> typed request value ->
  exists ctlVal origin ctlNum time test check, Parameters value ctlVal origin ctlNum time test check.
Proof.
  intros Hok Ht. destruct (structure_typed _ _ Ht) as (xs & -> & H). unfold oper_specs in H. cbn in Hok.
  destruct (ct_timed ct) eqn:Etimed; cbn [Datatypes.app] in H;
    repeat match goal with H : Forall2 _ (_ :: _) _ |- _ => inversion H; clear H; subst | H : Forall2 _ [] _ |- _ => inversion H; clear H; subst end;
    repeat match goal with H : exists _, _ |- _ => destruct H as (? & -> & ?) end; cbn in Hok; destruct_and! Hok;
    do 6 eexists; by constructor.
Qed.

Lemma origin_valid origin : holds_type (ct_origin ct) (Some origin) -> readable (MmsValue_getElement origin 0) ->
  is_Some (checkValidityOfOriginParameter (Some origin)).
Proof.
  intros [Hok Ht] Hr. destruct (structure_typed _ _ Ht) as (xs & -> & H).
  repeat match goal with H : Forall2 _ (_ :: _) _ |- _ => inversion H; clear H; subst | H : Forall2 _ [] _ |- _ => inversion H; clear H; subst end.
  repeat match goal with H : exists _, _ |- _ => destruct H as (? & -> & ?) end.
  match goal with H : typed (SpecInteger _) ?a |- _ => destruct a; try done end.
  match goal with H : typed (SpecOctetString _) ?b |- _ => destruct b; try done end.
  change (is_Some (BerInteger_toInt32 integer)) in Hr. destruct Hr as [z Hz].
  change (is_Some (if 64 <? u16 size then Some false else x ← BerInteger_toInt32 integer; Some (negb ((x <? 0) || (8 <? x))))).
  destruct (64 <? _); [by eexists|]. rewrite Hz. by eexists.
Qed.

Lemma safe_store_parameters {B} v n o (k : option MmsValue -> option MmsValue -> option MmsValue -> ctl B) co : wf co ->
  holds_type (ct_ctlVal ct) v -> holds_type (ct_ctlNum ct) n -> holds_type (ct_origin ct) o ->
  (forall v n o, safe (modify (co_with_parameters v n o)) -> safe (k v n o)) ->
  safe ('(v, _) ← lift (MmsValue_update (co_ctlVal co) v); '(n, _) ← lift (MmsValue_update (co_ctlNum co) n); '(o, _) ← lift (MmsValue_update (co_origin co) o); k v n o).
Proof.
  intros Hco Hv Hn Ho Hk.
  destruct (update_holds _ _ v (wf_ctlVal co Hco) Hv) as (v' & ? & -> & Hv'). eapply safe_lift_bind; [done|].
  destruct (update_holds _ _ n (wf_ctlNum co Hco) Hn) as (n' & ? & -> & Hn'). eapply safe_lift_bind; [done|].
  destruct (update_holds _ _ o (wf_origin co Hco) Ho) as (o' & ? & -> & Ho'). eapply safe_lift_bind; [done|]. cbn.
  apply Hk. assigned.
Qed.
Lemma safe_parameters v n o s i : holds_type (ct_ctlVal ct) v -> holds_type (ct_ctlNum ct) n -> holds_type (ct_origin ct) o -> safe (updateControlParameters v n o s i).
Proof.
  intros Hv Hn Ho. unfold updateControlParameters. apply safe_get. intros co Hco.
  apply (safe_store_parameters v n o (fun v' n' o' => modify (co_with_parameters v' n' o');; _)); [done..|].
  intros v' n' o' Hs. apply safe_bind; [done|]. intros _. apply safe_bind; [safe|]. intros _.
  apply (safe_status (fun a b => modify (co_with_status a b))); [done|by eapply holds_fine..|]. apply safe_with_status.
Qed.
Lemma safe_store_T t : mms_ok t -> safe (store_T t).
Proof.
  intros Ht. unfold store_T. apply safe_get. intros co Hco. pose proof (wf_T co Hco) as HT. destruct t; try (eapply safe_lift_bind; [done|]; apply safe_ret).
  destruct Ht as [Hz _]. destruct (zlen_8 _ Hz) as (a0 & a1 & a2 & a3 & a4 & a5 & a6 & a7 & ->).
  destruct (zlen_8 _ HT) as (c0 & c1 & c2 & c3 & c4 & c5 & c6 & c7 & ->). eapply safe_lift_bind; [done|]. cbn. assigned.
Qed.

(** ** Requests *)

Lemma safe_refuse c v a n o i : 0 ∈ v -> safe (refuse c v a n o i).
Proof. intros Hv. pose proof (fun c e a n o h => safe_sendLastApplError c v e a n o h Hv). unfold refuse, answer. safe. Qed.
Lemma safe_answer i : safe (answer i).
Proof. apply safe_ret. Qed.
Lemma safe_finish_request s r : safe (finish_request s r).
Proof. unfold finish_request. safe. Qed.
#[local] Hint Extern 1 (safe (refuse _ _ _ _ _ _)) => (apply safe_refuse, literal_terminated) : csafe.
#[local] Hint Resolve safe_answer safe_finish_request : csafe.

Lemma safe_ret_bind {A B} (a : A) (k : A -> ctl B) : safe (k a) -> safe (mret a ≫= k).
Proof. intros H. exact H. Qed.
(** what follows the call of the check handler, which may wait only when there is one *)
Lemma safe_checked {B} (m : ctl CheckHandlerResult) (k : CheckHandlerResult -> ctl B) :
  (has_check = true -> safe m) -> (forall r, (r = CONTROL_WAITING_FOR_SELECT -> has_check = true) -> safe (k r)) ->
  safe (match checkHandler app with Some _ => m | None => mret CONTROL_ACCEPTED end ≫= k).
Proof.
  intros Hm Hk. case_eq (checkHandler app).
  - intros h E. assert (has_check = true) as Hc by (apply Hcheck; by rewrite E). apply safe_bind; [by apply Hm|]. intros r. by apply Hk.
  - intros _. apply safe_ret_bind. by apply Hk.
Qed.

Lemma bit_defined s v i : holds_type (SpecBitString s) (Some v) -> 0 <= i -> is_Some (MmsValue_getBitStringBit v i).
Proof. intros [Hv Ht] Hi. destruct v; try done. destruct Hv as (_ & Hz & _). by apply bit_get_defined. Qed.
Lemma boolean_defined v : holds_type SpecBoolean (Some v) -> is_Some (MmsValue_getBoolean v).
Proof. intros [Hv Ht]. destruct v; done || by eexists. Qed.

Lemma safe_select_unselected v n o check test t c i :
  holds_type (ct_ctlVal ct) v -> holds_type (ct_ctlNum ct) n -> holds_type (ct_origin ct) o ->
  holds_type (SpecBitString (ct_check ct)) (Some check) -> holds_type SpecBoolean (Some test) ->
  safe (select_unselected app v n o (Some check) (Some test) t c i).
Proof.
  intros Hv Hn Ho Hch Hte. unfold select_unselected. cbn [mbind option_bind].
  destruct (bit_defined _ check 1 Hch ltac:(done)) as [b1 ->]. eapply safe_lift_bind; [done|].
  destruct (bit_defined _ check 0 Hch ltac:(done)) as [b0 ->]. eapply safe_lift_bind; [done|].
  destruct (boolean_defined test Hte) as [b ->]. eapply safe_lift_bind; [done|].
  apply safe_bind; [safe|]. intros _. apply safe_bind; [by apply safe_parameters|]. intros _. apply safe_bind; [safe|]. intros _.
  apply safe_checked; [intros Hc; pose proof safe_call_check; safe|]. intros r Hr. destruct r; [safe| |safe..]. specialize (Hr eq_refl).
  do 2 (apply safe_bind; [safe|]; intros _). apply safe_get. intros co Hco.
  apply (safe_store_parameters v n o (fun v' n' o' => modify (co_with_parameters v' n' o');; _)); [done..|]. intros v' n' o' Hs. safe.
Qed.

Lemma safe_write_SBOw value c i : request_ok value -> safe (write_SBOw app value c i).
Proof.
  intros (Hok & Ht & Hr). destruct (request_parameters value Hok Ht) as (ctlVal & origin & ctlNum & time & test & check & P).
  destruct P as [[E1 H1] [E2 H2] [E3 H3] [E4 H4] [E5 H5] [E6 H6] _]. rewrite E2 in Hr.
  unfold write_SBOw. apply safe_get. intros co Hco. destruct (co_ctlModel co); [safe..|].
  apply safe_bind; [apply safe_update_element; [done..|]|].
  { intros co' Hco'. destruct (wf_indexes co' Hco') as [_ ->]. destruct (ct_sbowIndex ct) eqn:E; [|done]. unfold holds_request. rewrite E. by right; left. }
  intros _. rewrite E1, E2, E3, E4, E5, E6. destruct (origin_valid origin H2 Hr) as [b ->]. eapply safe_lift_bind; [done|].
  destruct (negb b); [safe|]. apply safe_bind; [|intros _].
  { destruct time; try apply safe_ret; by apply safe_store_T. }
  pose proof (safe_select_unselected (Some ctlVal) (Some ctlNum) (Some origin) check test). safe.
Qed.

Lemma safe_time_activated value v b s i t c r : (match getOperParameterOperTime value with Some t => ct_timed ct = true /\ holds_type SpecUtcTime (Some t) | None => True end) ->
  safe (time_activated app value v b s i t c r).
Proof.
  intros H. unfold time_activated. destruct (getOperParameterOperTime value) as [tm|]; [|safe]. destruct H as [Htimed [Hok Ht]].
  destruct (getUtcTimeInMs_defined tm Hok Ht) as [z ->]. eapply safe_lift_bind; [done|]. safe.
Qed.
Lemma safe_operate_now v n o b i t c k : safe (operate_now app v n o b i t c k).
Proof. unfold operate_now. safe. Qed.

Lemma equal_defined s v stored : holds_type s (Some v) -> holds_type s stored -> is_Some (MmsValue_equals (Some v) stored).
Proof. intros [Hv Ht] Hs. destruct stored as [x|]; [|by eexists]. destruct Hs. by apply (equals_defined s). Qed.

Lemma all_equal_defined co v n o : wf co -> holds_type (ct_ctlVal ct) (Some v) -> holds_type (ct_ctlNum ct) (Some n) -> holds_type (ct_origin ct) (Some o) ->
  is_Some (all_equal [(v, co_ctlVal co); (o, co_origin co); (n, co_ctlNum co)]).
Proof.
  intros Hco Hv Hn Ho. cbn [all_equal]. destruct (equal_defined _ v _ Hv (wf_ctlVal co Hco)) as [[] ->]; [|by eexists]. cbn [mbind option_bind].
  destruct (equal_defined _ o _ Ho (wf_origin co Hco)) as [[] ->]; [|by eexists]. cbn [mbind option_bind].
  destruct (equal_defined _ n _ Hn (wf_ctlNum co Hco)) as [[] ->]; by eexists.
Qed.

Lemma safe_operate_ready value v time test n o check t c k :
  mms_ok value -> typed request value -> Parameters value v o n time test check -> safe (operate_ready app value v test n o check t c k).
Proof.
  intros Hok Ht [[_ Hv] [_ Ho] [_ Hn] _ [_ Hte] [_ Hch] Htm]. unfold operate_ready.
  destruct (bit_defined _ check 1 Hch ltac:(done)) as [b1 ->]. eapply safe_lift_bind; [done|].
  destruct (bit_defined _ check 0 Hch ltac:(done)) as [b0 ->]. eapply safe_lift_bind; [done|].
  destruct (boolean_defined test Hte) as [b ->]. eapply safe_lift_bind; [done|].
  apply safe_get. intros co Hco. destruct (_ && negb _); [safe|]. apply safe_bind; [|intros same].
  { destruct (co_ctlModel co); try apply safe_ret. destruct (all_equal_defined co v n o Hco Hv Hn Ho) as [e ->]. eapply safe_lift_bind; [done|]. safe. }
  destruct (negb same); [safe|]. apply safe_bind; [safe|]. intros _. apply safe_bind; [by apply safe_parameters|]. intros _.
  apply safe_bind; [by apply safe_time_activated|]. intros r. apply safe_bind; [apply safe_update_element; [done..|]|].
  { intros co' Hco'. destruct (wf_indexes co' Hco') as [-> _]. by left. }
  intros _. pose proof safe_operate_now. safe.
Qed.

Lemma safe_write_Oper value c i : request_ok value -> safe (write_Oper app value c i).
Proof.
  intros (Hok & Ht & Hr). destruct (request_parameters value Hok Ht) as (ctlVal & origin & ctlNum & time & test & check & P).
  pose proof (safe_operate_ready value ctlVal time test ctlNum origin check) as Hready.
  pose proof P as [[E1 H1] [E2 H2] [E3 H3] [E4 H4] [E5 H5] [E6 H6] _]. rewrite E2 in Hr.
  unfold write_Oper. rewrite E1, E2, E3, E4, E5, E6. destruct (only_time (Some time)) as [tp|] eqn:Etp; [|safe].
  assert (mms_ok tp) by (destruct time; try done; by injection Etp as <-).
  apply safe_bind; [by apply safe_store_T|]. intros _. destruct (origin_valid origin H2 Hr) as [b ->]. eapply safe_lift_bind; [done|].
  assert (forall t, safe (operate_ready app value ctlVal test ctlNum origin check t c i)) by auto. safe.
Qed.

Lemma safe_cancel_time_activated i : safe (cancel_time_activated app i).
Proof. unfold cancel_time_activated. safe. Qed.
Lemma safe_write_Cancel value c : safe (write_Cancel app value c).
Proof. pose proof safe_cancel_time_activated. unfold write_Cancel. safe. Qed.

Lemma safe_compared {B} s lit (k : bool -> ctl B) : 0 ∈ s -> (forall b : bool, (b = true -> c_string s = c_string (c_literal lit)) -> safe (k b)) ->
  safe (lift (strcmp_eq s (c_literal lit)) ≫= k).
Proof. intros Hs Hk. rewrite strcmp_eq_spec by (done || apply literal_terminated). eapply safe_lift_bind; [done|]. apply Hk. apply bool_decide_eq_true. Qed.

(** a write to Oper or SBOw has a value of their type *)
Definition write_ok (varName : list Z) (value : MmsValue) : Prop :=
  0 ∈ varName /\ (c_string varName = c_string (c_literal "Oper"%string) \/ c_string varName = c_string (c_literal "SBOw"%string) -> request_ok value).

Lemma safe_write_object varName value c i : write_ok varName value -> safe (write_object app varName value c i).
Proof.
  intros [Hv Hr]. unfold write_object. apply safe_get. intros co Hco. pose proof safe_write_Cancel.
  destruct (co_ctlModel co); [safe|..]; (apply safe_compared; [done|]; intros b1 Hb1; apply safe_compared; [done|]; intros b2 Hb2;
    apply safe_compared; [done|]; intros b3 _; destruct b1; [|destruct b2; [|safe]]);
    (apply safe_bind; [|intros r; apply safe_finish_request]; (apply safe_write_SBOw || apply safe_write_Oper); apply Hr; auto).
Qed.

Lemma safe_read_SBO c i d : safe (read_SBO app c i d).
Proof.
  unfold read_SBO. apply safe_get. intros co Hco. destruct (co_ctlModel co); try apply safe_ret.
  apply safe_bind; [safe|]. intros t. destruct d; [|safe]. apply safe_bind; [safe|]. intros _. apply safe_getState. intros s _ _.
  destruct (decide _); [|safe]. do 2 (apply safe_bind; [safe|]; intros _).
  apply safe_checked; [intros Hc; pose proof safe_call_check; safe|]. intros r Hr. destruct r; [safe| |safe..]. specialize (Hr eq_refl). safe.
Qed.

Lemma safe_read_object varName c i d : match varName with Some s => 0 ∈ s | None => True end -> safe (read_object app varName c i d).
Proof.
  intros Hv. unfold read_object. apply safe_get. intros co Hco. destruct varName as [s|]; [|safe]. pose proof safe_read_SBO.
  do 4 (apply safe_compared; [done|]; intros ? _). do 4 (case_match; [safe|]).
  apply safe_lift. destruct (wf_value co Hco) as (v & -> & _ & Ht). rewrite (wf_typeSpec co Hco). destruct Hct as [Hn _]. by apply child_defined.
Qed.

End Safety.
