(* ===== verification/ControlServerSafety.v ===== *)
(** A server with control objects does not crash: the names of variables are taken apart
    inside their buffers, and a server whose objects are well formed stays so under
    requests with values of the types of the objects ([server_ok], [call_ok]). *)

From Stdlib Require Import String.
From S2P Require Import Prelude BerEncoder BerDecoder BerInteger StringUtils CText CFloat MmsValue MmsFacts IecCommon ObjectReference MmsTypeSpec Control ControlFacts ControlServer ControlSafety.
Open Scope Z_scope.

(** * Names *)

(** a terminator at or behind an index *)
Definition ends_after (s : list Z) (i : Z) : Prop := 0 <= i /\ 0 ∈ ptr_add s i.

Lemma ends_after_lookup s i : ends_after s i <-> 0 <= i /\ exists m, (Z.to_nat i <= m)%nat /\ s !! m = Some 0.
Proof.
  unfold ends_after, ptr_add. rewrite list_elem_of_lookup. split; intros (Hi & m & H); (split; [done|]).
  - rewrite lookup_drop in H. exists (Z.to_nat i + m)%nat. split; [lia|done].
  - destruct H as [Hm H]. exists (m - Z.to_nat i)%nat. rewrite lookup_drop. by replace (Z.to_nat i + (m - Z.to_nat i))%nat with m by lia.
Qed.
Lemma ends_after_bound s i : ends_after s i -> 0 <= i < zlen s.
Proof. rewrite ends_after_lookup. intros (Hi & m & Hm & H). apply lookup_lt_Some in H. unfold zlen. lia. Qed.
Lemma ends_after_insert s i j : ends_after s i -> ends_after (<[j := 0]> s) i.
Proof.
  rewrite !ends_after_lookup. intros (Hi & m & Hm & H). split; [done|]. exists m. split; [done|].
  destruct (decide (m = j)) as [->|]; [|by rewrite list_lookup_insert_ne by done]. apply list_lookup_insert_eq. by eapply lookup_lt_Some.
Qed.
Lemma ends_after_le s i j : ends_after s j -> 0 <= i <= j -> ends_after s i.
Proof. rewrite !ends_after_lookup. intros (Hj & m & Hm & H) Hi. split; [lia|]. exists m. split; [lia|done]. Qed.

Lemma strchr_ends s c : c <> 0 -> 0 ∈ s -> exists r, strchr s c = Some r /\ match r with Some k => ends_after s (k + 1) /\ 0 <= k | None => True end.
Proof.
  intros Hc. induction s as [|x s IH]; intros Hs; [by apply not_elem_of_nil in Hs|]. cbn. destruct (Z.eqb_spec x c) as [->|].
  - eexists. split; [done|]. split; [|done]. split; [done|]. apply elem_of_cons in Hs as [?|Hs]; [lia|exact Hs].
  - destruct (Z.eqb_spec x 0); [by exists None|]. apply elem_of_cons in Hs as [?|Hs]; [lia|]. destruct (IH Hs) as (r & -> & Hr). eexists. split; [done|].
    destruct r as [k|]; [|done]. cbn. destruct Hr as [[_ Hr] Hk]. split; [|lia]. split; [lia|]. unfold ptr_add in *.
    by replace (Z.to_nat (1 + k + 1)) with (S (Z.to_nat (k + 1))) by lia.
Qed.
Lemma ends_after_add s i k : 0 <= i -> ends_after (ptr_add s i) k -> ends_after s (i + k).
Proof.
  unfold ends_after, ptr_add. intros Hi [Hk H]. split; [lia|]. by rewrite drop_drop, <- Z2Nat.inj_add in H by lia.
Qed.

(** the next part of a name lies further on, inside the name *)
Lemma nextNameElement_ends buffer i : ends_after buffer i ->
  exists r, MmsMapping_getNextNameElement buffer i = Some r /\ match r with Some k => i < k /\ ends_after buffer k | None => True end.
Proof.
  intros [Hi H]. unfold MmsMapping_getNextNameElement, strchr_from. destruct (strchr_ends _ 36 ltac:(done) H) as (r & -> & Hr). cbn [mbind option_bind].
  destruct r as [k|]; cbn; [|by eexists]. destruct Hr as [Hr Hk]. apply ends_after_add in Hr; [|done].
  rewrite Z.add_assoc in Hr. destruct (ld_is_Some buffer (i + k + 1)) as [c ->]; [by apply ends_after_bound|]. cbn.
  destruct (c =? 0); eexists; (split; [done|]); [done|]. split; [lia|done].
Qed.

Lemma doesElementEquals_defined element name : 0 ∈ element -> 0 ∈ name -> is_Some (doesElementEquals element name).
Proof.
  revert element. induction name as [|n name IH]; intros [|e element] He Hn; try (by apply not_elem_of_nil in He || by apply not_elem_of_nil in Hn).
  cbn. destruct (Z.eqb_spec n 0); [by eexists|]. destruct (Z.eqb_spec e 0); [by eexists|]. destruct (e =? n); [|by eexists]. cbn.
  apply elem_of_cons in He as [?|?]; [lia|]. apply elem_of_cons in Hn as [?|?]; [lia|]. by apply IH.
Qed.
Lemma is_service_defined element : 0 ∈ element -> is_Some (is_service element).
Proof.
  intros He. unfold is_service. generalize ["Oper"%string; "SBO"%string; "SBOw"%string; "Cancel"%string]. intros names.
  induction names as [|n names [b IH]]; [by eexists|]. cbn.
  destruct (doesElementEquals_defined element (c_literal n) He (literal_terminated n)) as [b' ->]. cbn. destruct b'; [by eexists|]. by eexists.
Qed.

Lemma find_service_ends fuel : forall variableId i, ends_after variableId i -> zlen variableId - i < Z.of_nat fuel ->
  exists r, find_service fuel variableId i = Some r /\ match r with Some k => i <= k /\ ends_after variableId k | None => True end.
Proof.
  induction fuel as [|fuel IH]; intros vid i Hi Hf; [apply ends_after_bound in Hi; lia|]. cbn [find_service].
  destruct (is_service_defined (ptr_add vid i)) as [b ->]; [by destruct Hi|]. cbn. destruct b; [exists (Some i); split_and!; done || lia|].
  destruct (nextNameElement_ends vid i Hi) as (r & -> & Hr). cbn. destruct r as [k|]; [|by exists None]. destruct Hr as [Hk Hend].
  destruct (IH vid k Hend ltac:(lia)) as (r & -> & Hr). exists r. split; [done|]. destruct r; [|done]. split; [lia|tauto].
Qed.

Definition name_ok (n : ControlName) : Prop :=
  0 ∈ cn_lnName n /\ 0 ∈ cn_objectName n /\ match cn_varName n with Some s => 0 ∈ s | None => True end.

Lemma parse_control_name_defined size variableId : 1 <= size -> 0 ∈ variableId ->
  exists r, parse_control_name size variableId = Some r /\ match r with Some n => name_ok n | None => True end.
Proof.
  intros Hs Hv. unfold parse_control_name.
  assert (zlen (replicate (Z.to_nat size) 0) = size) as Hz by (rewrite zlen_replicate; lia).
  pose proof (copyStringMax_spec (replicate (Z.to_nat size) 0) size variableId Hv ltac:(lia)) as E.
  destruct (copyStringMax_c_string (replicate (Z.to_nat size) 0) size _ _ Hv ltac:(lia) E) as (_ & H0 & _). rewrite E. cbn [mjoin option_join mbind option_bind].
  clear E Hz Hv. revert H0. generalize (splice (replicate (Z.to_nat size) 0) 0 (take (Z.to_nat (size - 1)) (c_string variableId) ++ [0])). intros vid H0.
  destruct (strchr_ends vid 36 ltac:(done) H0) as (r & -> & Hr). cbn [mbind option_bind]. destruct r as [sep|]; [|by exists None]. destruct Hr as [Hr Hsep].
  rewrite st_Some by (apply ends_after_bound in Hr; lia). cbn [mbind option_bind]. apply (ends_after_insert _ _ (Z.to_nat sep)) in Hr.
  revert Hr. generalize (<[Z.to_nat sep := 0]> vid). clear H0 vid. intros vid Hr.
  destruct (nextNameElement_ends vid (sep + 1) Hr) as (r & -> & Hobj). cbn [mbind option_bind]. destruct r as [obj|]; [|by exists None]. destruct Hobj as [Hlt Hobj].
  destruct (nextNameElement_ends vid obj Hobj) as (r & -> & Hvar). cbn [mbind option_bind].
  assert (exists r', match r with Some varName => find_service (S (length vid)) vid varName | None => Some None end = Some r' /\
    match r' with Some k => obj < k /\ ends_after vid k | None => True end) as (r' & -> & Hr').
  { destruct r as [k|]; [|by exists None]. destruct Hvar as [Hk Hk']. pose proof (ends_after_bound _ _ Hk').
    destruct (find_service_ends (S (length vid)) vid k Hk') as (r' & -> & H'); [unfold zlen; lia|]. exists r'. split; [done|]. destruct r'; [|done]. split; [lia|tauto]. }
  cbn [mbind option_bind]. assert (0 ∈ vid) as Hvid by (pose proof (ends_after_le vid 0 _ Hr ltac:(lia)) as [_ H]; exact H).
  destruct r' as [k|]; cbn [mbind option_bind option_map].
  - destruct Hr' as [Hk Hend]. rewrite st_Some by (apply ends_after_bound in Hend; lia). cbn [mbind option_bind]. eexists. split; [done|].
    split_and!; cbn; [|by apply ends_after_insert..]. apply (ends_after_insert vid 0). by split.
  - eexists. split; [done|]. split_and!; cbn; [done|by destruct Hobj|done].
Qed.

(** * Servers *)

(** what is known of an object: its types and its names *)
Record Known := mkKnown { kn_types : CtlTypes; kn_domain : MmsDomain; kn_lnName : list Z; kn_name : list Z }.

Definition known_ok (kn : Known) : Prop :=
  types_ok (kn_types kn) /\ 0 ∈ md_domainName (kn_domain kn) /\ 0 ∈ kn_lnName kn /\ 0 ∈ kn_name kn.
Definition object_ok (has_check : bool) (kn : Known) (co : ControlObject) : Prop :=
  known_ok kn /\ wf (kn_types kn) (kn_domain kn) (kn_lnName kn) (kn_name kn) has_check co.

Definition server_ok (has_check : bool) (objects : list Known) (self : MmsMapping) : Prop :=
  Forall2 (object_ok has_check) objects (mm_controlObjects self) /\ is_byte (w_timeQuality (mm_world self)).

(** the object has the name of the request *)
Definition designates (domain : nat) (n : ControlName) (kn : Known) : Prop :=
  md_address (kn_domain kn) = domain /\ c_string (kn_lnName kn) = c_string (cn_lnName n) /\ c_string (kn_name kn) = c_string (cn_objectName n).

(** names are C strings, and what is written to Oper or SBOw of an object has their type *)
Definition call_ok (objects : list Known) (call : ServerCall) : Prop :=
  match call with
  | Server_write domain variableId value _ _ => 0 ∈ variableId /\
      forall n varName kn, parse_control_name 65 variableId = Some (Some n) -> cn_varName n = Some varName -> kn ∈ objects -> designates domain n kn ->
        c_string varName = c_string (c_literal "Oper"%string) \/ c_string varName = c_string (c_literal "SBOw"%string) -> request_ok (kn_types kn) value
  | Server_read _ variableId _ _ _ => 0 ∈ variableId
  | _ => True
  end.

Section Server.
Context (has_check : bool) (objects : list Known).

Definition safe_for {A} (m : ctl A) (kn : Known) : Prop := safe (kn_types kn) (kn_domain kn) (kn_lnName kn) (kn_name kn) has_check m.

Lemma on_control_ok {A} self k kn (m : ctl A) : server_ok has_check objects self -> objects !! k = Some kn -> (known_ok kn -> safe_for m kn) ->
  exists a self', on_control self k m = Some (a, self') /\ server_ok has_check objects self' /\ length (mm_controlObjects self') = length (mm_controlObjects self).
Proof.
  intros [Ho Hq] Hk Hm. destruct (Forall2_lookup_l _ _ _ _ _ Ho Hk) as (co & Hco & Hkn & Hwf).
  destruct (Hm Hkn co (w_with_events (mm_world self) []) Hwf Hq) as (a & co' & w' & E & Hwf' & Hw'). unfold on_control. rewrite Hco. cbn [mbind option_bind].
  rewrite E. cbn. do 2 eexists. split; [done|]. split; [|cbn; by rewrite length_insert]. split; cbn; [|by rewrite Hw'].
  rewrite <- (list_insert_id objects k kn Hk). by apply Forall2_insert.
Qed.

Lemma for_each_ok (m : ctl unit) n : (forall kn, known_ok kn -> safe_for m kn) -> forall k self, server_ok has_check objects self -> (k + n)%nat = length (mm_controlObjects self) ->
  exists self', for_each m n k self = Some self' /\ server_ok has_check objects self'.
Proof.
  intros Hm. induction n as [|n IH]; intros k self Hs Hl; cbn [for_each]; [by exists self|].
  destruct (lookup_lt_is_Some_2 objects k) as [kn Hk]; [destruct Hs as [Ho _]; apply Forall2_length in Ho; lia|].
  destruct (on_control_ok self k kn m Hs Hk (Hm kn)) as (a & self1 & -> & Hs1 & Hl1). cbn [mbind option_bind]. apply IH; [done|lia].
Qed.

Lemma lookup_loop_ok cos kns domain n : Forall2 (object_ok has_check) kns cos -> name_ok n -> forall j,
  exists r, lookup_loop cos j domain (cn_lnName n) (cn_objectName n) = Some r /\
    match r with Some k => exists i kn, k = (j + i)%nat /\ kns !! i = Some kn /\ designates domain n kn | None => True end.
Proof.
  intros H (Hln & Hon & _). induction H as [|kn co kns cos [(_ & _ & Hkln & Hkn) Hwf] _ IH]; intros j; [by exists None|]. cbn [lookup_loop].
  injection (wf_names _ _ _ _ _ _ Hwf) as -> -> ->. destruct (IH (S j)) as (r & Er & Hr).
  assert (match r with Some k => exists i kn0, k = (j + i)%nat /\ (kn :: kns) !! i = Some kn0 /\ designates domain n kn0 | None => True end) as Hrest.
  { destruct r as [k|]; [|done]. destruct Hr as (i & kn0 & -> & Hi & Hd). exists (S i), kn0. split; [lia|done]. }
  rewrite !strcmp_eq_spec by done. destruct (Nat.eqb_spec (md_address (kn_domain kn)) domain); [|by exists r]. cbn [mbind option_bind].
  case_bool_decide; [|by exists r]. cbn [mbind option_bind]. case_bool_decide; [|by exists r].
  exists (Some j). split; [done|]. exists 0%nat, kn. split; [lia|done].
Qed.

Context (app : ControlApplication).
Hypothesis Hcheck : has_check = true <-> is_Some (checkHandler app).

Lemma server_call_ok self call : server_ok has_check objects self -> call_ok objects call ->
  exists self', server_call app self call = Some self' /\ server_ok has_check objects self'.
Proof.
  intros Hs Hc. assert (forall w, w_timeQuality w = w_timeQuality (mm_world self) -> server_ok has_check objects (with_world self w)) as Hworld.
  { intros w Hw. destruct Hs as [Ho Hq]. split; [done|]. cbn. by rewrite Hw. }
  destruct call as [domain vid value c i|domain vid c i d|t|c|c]; cbn [server_call].
  - destruct Hc as [Hv Hc]. unfold Control_writeAccessControlObject. destruct (parse_control_name_defined 65 vid ltac:(done) Hv) as (r & E & Hn). rewrite E in Hc |- *.
    cbn [mbind option_bind]. destruct r as [[ln on [varName|]]|]; try (by exists self).
    destruct (lookup_loop_ok _ objects domain _ (proj1 Hs) Hn 0) as (k & Ek & Hk). unfold Control_lookupControlObject. cbn [cn_lnName cn_objectName] in Ek. rewrite Ek.
    cbn [mbind option_bind]. destruct k as [k|]; [|by exists self]. destruct Hk as (j & kn & -> & Hj & Hd). change (0 + j)%nat with j.
    destruct (on_control_ok self j kn (write_object app varName value (Some c) i) Hs Hj) as (a & self' & -> & Hs' & _); [|by exists self'].
    intros (Hct & H1 & H2 & H3). apply safe_write_object; [done..|]. split; [by destruct Hn as (_ & _ & ?)|].
    apply (Hc _ varName kn eq_refl eq_refl); [by eapply list_elem_of_lookup_2|done].
  - unfold Control_readAccessControlObject. destruct (parse_control_name_defined 129 vid ltac:(done) Hc) as (r & -> & Hn).
    cbn [mbind option_bind]. destruct r as [[ln on varName]|]; [|by exists self].
    destruct (lookup_loop_ok _ objects domain _ (proj1 Hs) Hn 0) as (k & Ek & Hk). unfold Control_lookupControlObject. cbn [cn_lnName cn_objectName] in Ek. rewrite Ek.
    cbn [mbind option_bind]. destruct k as [k|]; [|by exists self]. destruct Hk as (j & kn & -> & Hj & Hd). change (0 + j)%nat with j.
    destruct (on_control_ok self j kn (read_object app varName (Some c) i d) Hs Hj) as (a & self' & -> & Hs' & _); [|by exists self'].
    intros (Hct & H1 & H2 & H3). apply safe_read_object; [done..|]. by destruct Hn as (_ & _ & ?).
  - unfold Control_processControlActions. case_match; [|by exists self]. apply for_each_ok; [|by apply Hworld|done].
    intros kn (Hct & H1 & H2 & H3). by apply safe_process_object.
  - eexists. split; [done|]. by apply Hworld.
  - apply for_each_ok; [|by apply Hworld|done]. intros kn (Hct & H1 & H2 & H3). apply safe_bind; [by apply safe_ControlObject_unselect|].
    intros b. apply safe_ret.
Qed.
End Server.
