(* ===== verification/ReportBuffer.v ===== *)
(** The report buffer of the IEC 61850 server: the ring of reports in a memory block of
    src/libiec61850/src/iec61850/server/mms_mapping/reporting.c.

    The block is a list of bytes at an address; a report in it is a
    [ReportBufferEntry] followed by its data. The structure is read and written through its
    bytes, as compiled for 64-bit processors of little endian order: the identifier at 0,
    the time at 8, the length (30 bits) and the flags (2 bits) at 16 and the address of the
    next report at 24. The null pointer is the address 0. The calls of the component are
    taken one after the other, so that the locks of the multi-threaded build are left out. *)

From S2P Require Import Prelude BerEncoder BerDecoder BerInteger StringUtils CText CFloat MmsValue MmsFacts MmsData Containers.
Open Scope Z_scope.

(** * Data *)

Record ReportBuffer := mkReportBuffer {
  rb_memoryBlock : Z;
  rb_memory : list Z;
  rb_memoryBlockSize : Z;
  rb_reportsCount : Z;
  rb_oldestReport : Z;
  rb_lastEnqueuedReport : Z;
  rb_nextToTransmit : Z;
  rb_isOverflow : bool
}.

Definition rb_with_memory (memory : list Z) (b : ReportBuffer) : ReportBuffer :=
  let 'mkReportBuffer x0 _ x2 x3 x4 x5 x6 x7 := b in mkReportBuffer x0 memory x2 x3 x4 x5 x6 x7.
Definition rb_with_count (reportsCount : Z) (b : ReportBuffer) : ReportBuffer :=
  let 'mkReportBuffer x0 x1 x2 _ x4 x5 x6 x7 := b in mkReportBuffer x0 x1 x2 reportsCount x4 x5 x6 x7.
Definition rb_with_oldest (oldestReport : Z) (b : ReportBuffer) : ReportBuffer :=
  let 'mkReportBuffer x0 x1 x2 x3 _ x5 x6 x7 := b in mkReportBuffer x0 x1 x2 x3 oldestReport x5 x6 x7.
Definition rb_with_last (lastEnqueuedReport : Z) (b : ReportBuffer) : ReportBuffer :=
  let 'mkReportBuffer x0 x1 x2 x3 x4 _ x6 x7 := b in mkReportBuffer x0 x1 x2 x3 x4 lastEnqueuedReport x6 x7.
Definition rb_with_next (nextToTransmit : Z) (b : ReportBuffer) : ReportBuffer :=
  let 'mkReportBuffer x0 x1 x2 x3 x4 x5 _ x7 := b in mkReportBuffer x0 x1 x2 x3 x4 x5 nextToTransmit x7.
Definition rb_with_overflow (isOverflow : bool) (b : ReportBuffer) : ReportBuffer :=
  let 'mkReportBuffer x0 x1 x2 x3 x4 x5 x6 _ := b in mkReportBuffer x0 x1 x2 x3 x4 x5 x6 isOverflow.

(** [block] is what [GLOBAL_MALLOC] returns: the address and the bytes found there. *)
Definition ReportBuffer_create (bufferSize : Z) (block : option (Z * list Z)) : option ReportBuffer :=
  '(address, memory) ← block;
  Some (mkReportBuffer address memory bufferSize 0 0 0 0 true).

(** * Reports in the block *)

Definition SIZEOF_REPORT_BUFFER_ENTRY : Z := 32.

(** the [n] bytes at [offset] of the structure at the address [entry] *)
Definition entry_field (b : ReportBuffer) (entry offset n : Z) : option (list Z) :=
  ld_range (rb_memory b) (entry - rb_memoryBlock b + offset) n.
Definition set_entry_field (b : ReportBuffer) (entry offset : Z) (bytes : list Z) : option ReportBuffer :=
  memory ← st_range (rb_memory b) (entry - rb_memoryBlock b + offset) bytes; Some (rb_with_memory memory b).

Definition entry_entryId (b : ReportBuffer) (entry : Z) : option (list Z) := entry_field b entry 0 8.
Definition entry_timeOfEntry (b : ReportBuffer) (entry : Z) : option Z := bs ← entry_field b entry 8 8; Some (le_val bs).
Definition entry_bits (b : ReportBuffer) (entry : Z) : option Z := bs ← entry_field b entry 16 4; Some (le_val bs).
Definition entry_next (b : ReportBuffer) (entry : Z) : option Z := bs ← entry_field b entry 24 8; Some (le_val bs).

(** a signed field of 30 bits *)
Definition s30 (z : Z) : Z := (z + 536870912) mod 1073741824 - 536870912.
Definition entry_entryLength (b : ReportBuffer) (entry : Z) : option Z := bits ← entry_bits b entry; Some (s30 bits).
Definition entry_flags (b : ReportBuffer) (entry : Z) : option Z := bits ← entry_bits b entry; Some (bits / 1073741824).

Definition set_entryId (b : ReportBuffer) (entry : Z) (id : list Z) : option ReportBuffer := set_entry_field b entry 0 id.
Definition set_timeOfEntry (b : ReportBuffer) (entry timeOfEntry : Z) : option ReportBuffer :=
  set_entry_field b entry 8 (le_bytes 8 timeOfEntry).
Definition set_entry_next (b : ReportBuffer) (entry next : Z) : option ReportBuffer := set_entry_field b entry 24 (le_bytes 8 next).
Definition set_flags (b : ReportBuffer) (entry flags : Z) : option ReportBuffer :=
  bits ← entry_bits b entry; set_entry_field b entry 16 (le_bytes 4 (bits mod 1073741824 + 1073741824 * flags)).
Definition set_entryLength (b : ReportBuffer) (entry length : Z) : option ReportBuffer :=
  bits ← entry_bits b entry; set_entry_field b entry 16 (le_bytes 4 (bits / 1073741824 * 1073741824 + length mod 1073741824)).

(** * Removing reports *)

(** the removal of one general interrogation report, with the result for [lastReport] *)
Definition remove_GI (b : ReportBuffer) (currentReport lastReport : Z) : option (ReportBuffer * Z) :=
  next ← entry_next b currentReport;
  '(b, lastReport) ←
    (if currentReport =? rb_oldestReport b then Some (rb_with_oldest next b, lastReport)
     else if negb (lastReport =? 0) then b ← set_entry_next b lastReport next; Some (b, lastReport)
     else Some (b, currentReport));
  let b := rb_with_count (rb_reportsCount b - 1) b in
  b ← (if rb_nextToTransmit b =? currentReport then next ← entry_next b currentReport; Some (rb_with_next next b) else Some b);
  let b := if rb_lastEnqueuedReport b =? currentReport
           then if negb (lastReport =? 0) then rb_with_last lastReport b else rb_with_last (rb_oldestReport b) b
           else b in
  Some (b, lastReport).

Fixpoint removeGI_loop (fuel : nat) (b : ReportBuffer) (currentReport lastReport : Z) : option ReportBuffer :=
  match fuel with
  | O => None
  | S fuel =>
      if currentReport =? 0 then Some b
      else
        flags ← entry_flags b currentReport;
        '(b, lastReport) ← (if negb (Z.land flags 2 =? 0) then remove_GI b currentReport lastReport else Some (b, currentReport));
        next ← entry_next b currentReport;
        removeGI_loop fuel b next lastReport
  end.

(** There are fewer reports than bytes. *)
Definition removeAllGIReportsFromReportBuffer (b : ReportBuffer) : option ReportBuffer :=
  b ← removeGI_loop (S (length (rb_memory b))) b (rb_oldestReport b) 0;
  Some (if rb_oldestReport b =? 0 then rb_with_last 0 b else b).

(** the oldest report makes room for a new one; whether one that was not sent is lost *)
Definition remove_oldest (b : ReportBuffer) (overflow : bool) : option (ReportBuffer * bool) :=
  next ← entry_next b (rb_oldestReport b);
  let '(b, overflow) := if rb_nextToTransmit b =? rb_oldestReport b then (rb_with_overflow true (rb_with_next next b), true) else (b, overflow) in
  Some (rb_with_count (rb_reportsCount b - 1) (rb_with_oldest next b), overflow).

(** the loops that remove reports while [cond] holds for the oldest one, up to the last *)
Fixpoint remove_while (fuel : nat) (cond : Z -> bool) (b : ReportBuffer) (overflow : bool) : option (ReportBuffer * bool) :=
  match fuel with
  | O => None
  | S fuel =>
      if cond (rb_oldestReport b) && negb (rb_oldestReport b =? 0) then
        '(b, overflow) ← remove_oldest b overflow; remove_while fuel cond b overflow
      else Some (b, overflow)
  end.
Definition remove_reports (cond : Z -> bool) (b : ReportBuffer) (overflow : bool) : option (ReportBuffer * bool) :=
  remove_while (S (length (rb_memory b))) cond b overflow.

(** * The place of a new report *)

(** the end of the last report *)
Definition behind_last (b : ReportBuffer) : option Z :=
  entryLength ← entry_entryLength b (rb_lastEnqueuedReport b); Some (rb_lastEnqueuedReport b + entryLength).

Definition behind_block (b : ReportBuffer) (entryBufPos bufferEntrySize : Z) : bool :=
  rb_memoryBlock b + rb_memoryBlockSize b <? entryBufPos + bufferEntrySize.

(** the address of the new report, and whether a report that was not sent is lost; the
    assertions of the code are undefined when they fail *)
Definition place_report (b : ReportBuffer) (bufferEntrySize : Z) : option (ReportBuffer * Z * bool) :=
  if rb_lastEnqueuedReport b =? 0 then
    let entryBufPos := rb_memoryBlock b in
    Some (rb_with_next entryBufPos (rb_with_oldest entryBufPos b), entryBufPos, false)
  else if rb_oldestReport b =? 0 then None
  else if rb_lastEnqueuedReport b =? rb_oldestReport b then
    if negb (rb_reportsCount b =? 1) then None
    else
      entryBufPos ← behind_last b;
      if behind_block b entryBufPos bufferEntrySize then
        let entryBufPos := rb_memoryBlock b in
        let b := rb_with_oldest entryBufPos (rb_with_count 0 b) in
        b ← set_entry_next b (rb_oldestReport b) 0;
        Some (rb_with_next 0 b, entryBufPos, false)
      else
        let b := if rb_nextToTransmit b =? rb_oldestReport b then rb_with_next (rb_lastEnqueuedReport b) b else b in
        let b := rb_with_oldest (rb_lastEnqueuedReport b) b in
        b ← set_entry_next b (rb_oldestReport b) entryBufPos;
        Some (b, entryBufPos, false)
  else if rb_oldestReport b <? rb_lastEnqueuedReport b then
    entryBufPos ← behind_last b;
    '(b, entryBufPos, overflow) ←
      (if behind_block b entryBufPos bufferEntrySize then
         let entryBufPos := rb_memoryBlock b in
         '(b, overflow) ← remove_reports (fun oldest => oldest <? entryBufPos + bufferEntrySize) b false;
         b ← (if rb_oldestReport b =? 0 then set_entry_next (rb_with_oldest entryBufPos b) entryBufPos 0 else Some b);
         Some (b, entryBufPos, overflow)
       else Some (b, entryBufPos, false));
    b ← set_entry_next b (rb_lastEnqueuedReport b) entryBufPos;
    Some (b, entryBufPos, overflow)
  else
    entryBufPos ← behind_last b;
    '(b, entryBufPos, overflow) ←
      (if behind_block b entryBufPos bufferEntrySize then
         let entryBufPos := rb_memoryBlock b in
         '(b, overflow) ← remove_reports (fun oldest => rb_memoryBlock b <? oldest) b false;
         '(b, overflow) ← remove_reports (fun oldest => oldest <? entryBufPos + bufferEntrySize) b overflow;
         Some (b, entryBufPos, overflow)
       else
         '(b, overflow) ← remove_reports (fun oldest => (oldest <? entryBufPos + bufferEntrySize) && negb (oldest =? rb_memoryBlock b)) b false;
         Some (b, entryBufPos, overflow));
    b ← set_entry_next b (rb_lastEnqueuedReport b) entryBufPos;
    Some (b, entryBufPos, overflow).
