(* ===== verification/Reporting.v ===== *)
(** Reports of the IEC 61850 server: how updates of values, general interrogations and the
    integrity period make reports and how these enter and leave the report buffer, in
    src/libiec61850/src/iec61850/server/mms_mapping/reporting.c.

    The clock gives a value for every reading; the events for the application are
    collected. The members of a report control block that only its attributes concern are
    left out. *)

From S2P Require Import Prelude BerEncoder BerDecoder BerInteger StringUtils CText CFloat MmsValue MmsFacts MmsData Containers ReportBuffer.
Open Scope Z_scope.

(** * Data *)

Definition REPORT_CONTROL_NONE : Z := 0.
Definition REPORT_CONTROL_VALUE_UPDATE : Z := 1.
Definition REPORT_CONTROL_VALUE_CHANGED : Z := 2.
Definition REPORT_CONTROL_QUALITY_CHANGED : Z := 4.
Definition REPORT_CONTROL_NOT_UPDATED : Z := 8.
Definition TRG_OPT_INTEGRITY : Z := 8.
Definition TRG_OPT_GI : Z := 16.
Definition DATA_ACCESS_ERROR_OBJECT_VALUE_INVALID : Z := 11.

(** the events for the application *)
Inductive IedServer_RCBEventType :=
  | RCB_EVENT_GET_PARAMETER | RCB_EVENT_SET_PARAMETER | RCB_EVENT_UNRESERVED | RCB_EVENT_RESERVED | RCB_EVENT_ENABLE | RCB_EVENT_DISABLE
  | RCB_EVENT_GI | RCB_EVENT_PURGEBUF | RCB_EVENT_OVERFLOW | RCB_EVENT_REPORT_CREATED.

(** the values of the entries, [None] for an entry without a value *)
Record DataSet := mkDataSet { ds_elementCount : Z; ds_fcdas : list (option MmsValue) }.

Record ReportControl := mkReportControl {
  rc_buffered : bool;
  rc_enabled : bool;
  rc_isBuffering : bool;
  rc_rcbValues : MmsValue;
  rc_inclusionField : MmsValue;
  rc_dataSet : DataSet;
  rc_bufferedDataSetValues : list (option MmsValue);
  rc_valueReferences : list (option MmsValue);
  rc_gi : bool;
  rc_sqNum : Z;
  rc_intgPd : Z;
  rc_bufTm : Z;
  rc_nextIntgReportTime : Z;
  rc_lastEntryId : Z;
  rc_triggerOps : Z;
  rc_inclusionFlags : list Z;
  rc_triggered : bool;
  rc_reportTime : Z;
  rc_isResync : bool;
  rc_reportBuffer : ReportBuffer;
  rc_timeOfEntry : MmsValue;
  rc_eventHandler : bool;
  rc_syncIntegrityReportTimes : bool
}.

(** the assignments to single members *)
Definition rc_with_rcbValues (rcbValues : MmsValue) (rc : ReportControl) : ReportControl :=
  let 'mkReportControl x0 x1 x2 _ x4 x5 x6 x7 x8 x9 x10 x11 x12 x13 x14 x15 x16 x17 x18 x19 x20 x21 x22 := rc in
  mkReportControl x0 x1 x2 rcbValues x4 x5 x6 x7 x8 x9 x10 x11 x12 x13 x14 x15 x16 x17 x18 x19 x20 x21 x22.
Definition rc_with_bufferedDataSetValues (bufferedDataSetValues : list (option MmsValue)) (rc : ReportControl) : ReportControl :=
  let 'mkReportControl x0 x1 x2 x3 x4 x5 _ x7 x8 x9 x10 x11 x12 x13 x14 x15 x16 x17 x18 x19 x20 x21 x22 := rc in
  mkReportControl x0 x1 x2 x3 x4 x5 bufferedDataSetValues x7 x8 x9 x10 x11 x12 x13 x14 x15 x16 x17 x18 x19 x20 x21 x22.
Definition rc_with_gi (gi : bool) (rc : ReportControl) : ReportControl :=
  let 'mkReportControl x0 x1 x2 x3 x4 x5 x6 x7 _ x9 x10 x11 x12 x13 x14 x15 x16 x17 x18 x19 x20 x21 x22 := rc in
  mkReportControl x0 x1 x2 x3 x4 x5 x6 x7 gi x9 x10 x11 x12 x13 x14 x15 x16 x17 x18 x19 x20 x21 x22.
Definition rc_with_sqNum (sqNum : Z) (rc : ReportControl) : ReportControl :=
  let 'mkReportControl x0 x1 x2 x3 x4 x5 x6 x7 x8 _ x10 x11 x12 x13 x14 x15 x16 x17 x18 x19 x20 x21 x22 := rc in
  mkReportControl x0 x1 x2 x3 x4 x5 x6 x7 x8 sqNum x10 x11 x12 x13 x14 x15 x16 x17 x18 x19 x20 x21 x22.
Definition rc_with_nextIntgReportTime (nextIntgReportTime : Z) (rc : ReportControl) : ReportControl :=
  let 'mkReportControl x0 x1 x2 x3 x4 x5 x6 x7 x8 x9 x10 x11 _ x13 x14 x15 x16 x17 x18 x19 x20 x21 x22 := rc in
  mkReportControl x0 x1 x2 x3 x4 x5 x6 x7 x8 x9 x10 x11 nextIntgReportTime x13 x14 x15 x16 x17 x18 x19 x20 x21 x22.
Definition rc_with_lastEntryId (lastEntryId : Z) (rc : ReportControl) : ReportControl :=
  let 'mkReportControl x0 x1 x2 x3 x4 x5 x6 x7 x8 x9 x10 x11 x12 _ x14 x15 x16 x17 x18 x19 x20 x21 x22 := rc in
  mkReportControl x0 x1 x2 x3 x4 x5 x6 x7 x8 x9 x10 x11 x12 lastEntryId x14 x15 x16 x17 x18 x19 x20 x21 x22.
Definition rc_with_inclusionFlags (inclusionFlags : list Z) (rc : ReportControl) : ReportControl :=
  let 'mkReportControl x0 x1 x2 x3 x4 x5 x6 x7 x8 x9 x10 x11 x12 x13 x14 _ x16 x17 x18 x19 x20 x21 x22 := rc in
  mkReportControl x0 x1 x2 x3 x4 x5 x6 x7 x8 x9 x10 x11 x12 x13 x14 inclusionFlags x16 x17 x18 x19 x20 x21 x22.
Definition rc_with_triggered (triggered : bool) (rc : ReportControl) : ReportControl :=
  let 'mkReportControl x0 x1 x2 x3 x4 x5 x6 x7 x8 x9 x10 x11 x12 x13 x14 x15 _ x17 x18 x19 x20 x21 x22 := rc in
  mkReportControl x0 x1 x2 x3 x4 x5 x6 x7 x8 x9 x10 x11 x12 x13 x14 x15 triggered x17 x18 x19 x20 x21 x22.
Definition rc_with_reportTime (reportTime : Z) (rc : ReportControl) : ReportControl :=
  let 'mkReportControl x0 x1 x2 x3 x4 x5 x6 x7 x8 x9 x10 x11 x12 x13 x14 x15 x16 _ x18 x19 x20 x21 x22 := rc in
  mkReportControl x0 x1 x2 x3 x4 x5 x6 x7 x8 x9 x10 x11 x12 x13 x14 x15 x16 reportTime x18 x19 x20 x21 x22.
Definition rc_with_isResync (isResync : bool) (rc : ReportControl) : ReportControl :=
  let 'mkReportControl x0 x1 x2 x3 x4 x5 x6 x7 x8 x9 x10 x11 x12 x13 x14 x15 x16 x17 _ x19 x20 x21 x22 := rc in
  mkReportControl x0 x1 x2 x3 x4 x5 x6 x7 x8 x9 x10 x11 x12 x13 x14 x15 x16 x17 isResync x19 x20 x21 x22.
Definition rc_with_reportBuffer (reportBuffer : ReportBuffer) (rc : ReportControl) : ReportControl :=
  let 'mkReportControl x0 x1 x2 x3 x4 x5 x6 x7 x8 x9 x10 x11 x12 x13 x14 x15 x16 x17 x18 _ x20 x21 x22 := rc in
  mkReportControl x0 x1 x2 x3 x4 x5 x6 x7 x8 x9 x10 x11 x12 x13 x14 x15 x16 x17 x18 reportBuffer x20 x21 x22.
Definition rc_with_timeOfEntry (timeOfEntry : MmsValue) (rc : ReportControl) : ReportControl :=
  let 'mkReportControl x0 x1 x2 x3 x4 x5 x6 x7 x8 x9 x10 x11 x12 x13 x14 x15 x16 x17 x18 x19 _ x21 x22 := rc in
  mkReportControl x0 x1 x2 x3 x4 x5 x6 x7 x8 x9 x10 x11 x12 x13 x14 x15 x16 x17 x18 x19 timeOfEntry x21 x22.

(** the clock, with the number of its readings so far, and the events for the application *)
Record ReportEnv := mkReportEnv { re_clock : nat -> Z; re_reads : nat; re_events : list IedServer_RCBEventType }.
Definition Hal_time (env : ReportEnv) : Z * ReportEnv :=
  (re_clock env (re_reads env), mkReportEnv (re_clock env) (S (re_reads env)) (re_events env)).
Definition rcbEventHandler (events : list IedServer_RCBEventType) (env : ReportEnv) : ReportEnv :=
  mkReportEnv (re_clock env) (re_reads env) (re_events env ++ events).

(** * The data of a report *)

(** a missing value is sent as an error *)
Definition entry_value (value : option MmsValue) : MmsValue :=
  match value with Some value => value | None => MmsDataAccessError DATA_ACCESS_ERROR_OBJECT_VALUE_INVALID end.

Definition encoded_size (value : option MmsValue) : option Z := '(_, size) ← MmsValue_encodeMmsData value [] 0 false; Some size.

(** the size of the first [n] entries of a data set, which may not be shorter *)
Fixpoint dataSet_block_size (n : nat) (fcdas : list (option MmsValue)) : option Z :=
  match n with
  | O => Some 0
  | S n =>
      match fcdas with
      | [] => None
      | value :: fcdas => size ← encoded_size (Some (entry_value value)); rest ← dataSet_block_size n fcdas; Some (size + rest)
      end
  end.

(** the sizes of the values and of the reasons of the entries that are included, from entry [i] on *)
Fixpoint events_block_size (n : nat) (i : Z) (flags : list Z) (values : list (option MmsValue)) : option (Z * Z) :=
  match n with
  | O => Some (0, 0)
  | S n =>
      flag ← ld flags i;
      if flag =? REPORT_CONTROL_NONE then events_block_size n (i + 1) flags values
      else
        value ← ld values i;
        size ← encoded_size value;
        '(data, reasons) ← events_block_size n (i + 1) flags values;
        Some (size + data, 1 + reasons)
  end.

(** [entryBufPos += MmsValue_encodeMmsData(value, entryBufPos, 0, true)] *)
Definition encode_entry (value : option MmsValue) (memory : list Z) (pos : Z) : option (list Z * Z) :=
  '(n, memory) ← on_ptr memory pos (fun sub => '(sub, n) ← MmsValue_encodeMmsData value sub 0 true; Some (n, sub));
  Some (memory, pos + n).

Fixpoint encode_dataSet_entries (n : nat) (fcdas : list (option MmsValue)) (memory : list Z) (pos : Z) : option (list Z * Z) :=
  match n with
  | O => Some (memory, pos)
  | S n =>
      match fcdas with
      | [] => None
      | value :: fcdas => '(memory, pos) ← encode_entry (Some (entry_value value)) memory pos; encode_dataSet_entries n fcdas memory pos
      end
  end.

(** the values that are included, each with its bit in the bit string of [size] bits at [inclusion] *)
Fixpoint encode_events (n : nat) (i : Z) (flags : list Z) (values : list (option MmsValue)) (size inclusion : Z) (memory : list Z) (pos : Z)
  : option (list Z * Z) :=
  match n with
  | O => Some (memory, pos)
  | S n =>
      flag ← ld flags i;
      if flag =? REPORT_CONTROL_NONE then encode_events n (i + 1) flags values size inclusion memory pos
      else
        '(_, memory) ← on_ptr memory inclusion (fun sub => sub ← bit_set size sub i true; Some (tt, sub));
        value ← ld values i;
        '(memory, pos) ← encode_entry value memory pos;
        encode_events n (i + 1) flags values size inclusion memory pos
  end.

Fixpoint encode_reasons (n : nat) (i : Z) (flags : list Z) (memory : list Z) (pos : Z) : option (list Z * Z) :=
  match n with
  | O => Some (memory, pos)
  | S n =>
      flag ← ld flags i;
      if flag =? REPORT_CONTROL_NONE then encode_reasons n (i + 1) flags memory pos
      else '(memory, pos) ← put (u8 flag) memory pos; encode_reasons n (i + 1) flags memory pos
  end.

(** [memcpy(entryBufPos, &dataBlockSize, sizeof(int))] *)
Definition encode_LEN (dataBlockSize : Z) (memory : list Z) (pos : Z) : option (list Z * Z) :=
  memory ← st_range memory pos (le_bytes 4 dataBlockSize); Some (memory, pos + 4).

(** what follows the structure of the report: the values of the data set, or the bit
    string, the values and the reasons of the events *)
Definition encode_report (rc : ReportControl) (all : bool) (size inclusionFieldSize dataBlockSize : Z) (memory : list Z) (pos : Z)
  : option (list Z * Z) :=
  if all then
    '(memory, pos) ← encode_LEN dataBlockSize memory pos;
    encode_dataSet_entries (Z.to_nat size) (ds_fcdas (rc_dataSet rc)) memory pos
  else
    let inclusion := pos in
    memory ← st_range memory pos (replicate (Z.to_nat inclusionFieldSize) 0);
    '(memory, pos) ← encode_LEN dataBlockSize memory (pos + inclusionFieldSize);
    '(memory, pos) ← encode_events (Z.to_nat size) 0 (rc_inclusionFlags rc) (rc_bufferedDataSetValues rc) size inclusion memory pos;
    encode_reasons (Z.to_nat size) 0 (rc_inclusionFlags rc) memory pos.

(** * Enqueueing *)

Definition clearInclusionFlags (rc : ReportControl) : option ReportControl :=
  flags ← fill_loop (Z.to_nat (ds_elementCount (rc_dataSet rc))) 0 REPORT_CONTROL_NONE (rc_inclusionFlags rc);
  Some (rc_with_inclusionFlags flags rc).

Definition updateTimeOfEntry (rc : ReportControl) (currentTime : Z) : option ReportControl :=
  timeOfEntry ← MmsValue_setBinaryTime (rc_timeOfEntry rc) currentTime; Some (rc_with_timeOfEntry timeOfEntry rc).

(** the identifier of a new report of a buffered control block *)
Definition next_entryId (timeOfEntry lastEntryId : Z) : Z := if timeOfEntry <=? lastEntryId then u64 (lastEntryId + 1) else timeOfEntry.

Definition assign_entryId (rc : ReportControl) (b : ReportBuffer) (entry timeOfEntry : Z) : option (ReportControl * ReportBuffer) :=
  if rc_buffered rc then
    let entryId := next_entryId timeOfEntry (rc_lastEntryId rc) in
    old ← entry_entryId b entry;
    id ← memcpyReverseByteOrder old (le_bytes 8 entryId) 8;
    b ← set_entryId b entry id;
    rc ← (if rc_enabled rc then Some rc
          else
            entryIdValue ← MmsValue_getElement (rc_rcbValues rc) 11;
            entryIdValue ← MmsValue_setOctetString entryIdValue id 8;
            Some (rc_with_rcbValues (MmsValue_setElement (rc_rcbValues rc) 11 (Some entryIdValue)) rc));
    Some (rc_with_lastEntryId entryId rc, b)
  else Some (rc, b).

(** [memoryBlockSize] and the size of the report, aligned parts and all *)
Definition report_sizes (rc : ReportControl) (all : bool) (size inclusionFieldSize : Z) : option (Z * Z) :=
  let header := MemoryAllocator_getAlignedSize SIZEOF_REPORT_BUFFER_ENTRY in
  if all then
    dataBlockSize ← dataSet_block_size (Z.to_nat size) (ds_fcdas (rc_dataSet rc));
    Some (dataBlockSize, header + MemoryAllocator_getAlignedSize (4 + dataBlockSize))
  else
    '(dataBlockSize, reasonForInclusionSize) ← events_block_size (Z.to_nat size) 0 (rc_inclusionFlags rc) (rc_bufferedDataSetValues rc);
    Some (dataBlockSize, header + inclusionFieldSize + MemoryAllocator_getAlignedSize (4 + dataBlockSize + reasonForInclusionSize)).

(** the report at the address [entry], its place being found *)
Definition write_report (rc : ReportControl) (b : ReportBuffer) (entry : Z) (isIntegrity isGI : bool) (timeOfEntry size inclusionFieldSize dataBlockSize bufferEntrySize : Z)
  : option (ReportControl * ReportBuffer) :=
  b ← set_entry_next (rb_with_last entry b) entry 0;
  let b := rb_with_count (rb_reportsCount b + 1) b in
  b ← set_timeOfEntry b entry timeOfEntry;
  '(rc, b) ← assign_entryId rc b entry timeOfEntry;
  b ← set_flags b entry (if isIntegrity then 1 else if isGI then 2 else 0);
  b ← set_entryLength b entry bufferEntrySize;
  '(memory, _) ← encode_report rc (isIntegrity || isGI) size inclusionFieldSize dataBlockSize (rb_memory b)
                   (entry - rb_memoryBlock b + MemoryAllocator_getAlignedSize SIZEOF_REPORT_BUFFER_ENTRY);
  Some (rc, rb_with_memory memory b).

Definition store_report (rc : ReportControl) (isIntegrity isGI : bool) (timeOfEntry size inclusionFieldSize dataBlockSize bufferEntrySize : Z)
  : option (ReportControl * bool) :=
  b ← (if rc_buffered rc && isGI then removeAllGIReportsFromReportBuffer (rc_reportBuffer rc) else Some (rc_reportBuffer rc));
  '(b, entry, overflow) ← place_report b bufferEntrySize;
  '(rc, b) ← write_report rc b entry isIntegrity isGI timeOfEntry size inclusionFieldSize dataBlockSize bufferEntrySize;
  rc ← clearInclusionFlags rc;
  let b := if rb_nextToTransmit b =? 0 then rb_with_next (rb_lastEnqueuedReport b) b else b in
  let b := if rb_oldestReport b =? 0 then rb_with_oldest (rb_lastEnqueuedReport b) b else b in
  Some (rc_with_reportBuffer b rc, overflow).

Definition enqueueReport (isIntegrity isGI : bool) (timeOfEntry : Z) (rc : ReportControl) (env : ReportEnv) : option (ReportControl * ReportEnv) :=
  let '(now, env) := Hal_time env in
  rc ← updateTimeOfEntry rc now;
  size ← MmsValue_getBitStringSize (rc_inclusionField rc);
  byteSize ← bitStringByteSize (rc_inclusionField rc);
  let inclusionFieldSize := MemoryAllocator_getAlignedSize byteSize in
  '(dataBlockSize, bufferEntrySize) ← report_sizes rc (isIntegrity || isGI) size inclusionFieldSize;
  '(rc, overflow) ←
    (if rb_memoryBlockSize (rc_reportBuffer rc) <? bufferEntrySize then Some (rc, false)
     else store_report rc isIntegrity isGI timeOfEntry size inclusionFieldSize dataBlockSize bufferEntrySize);
  Some (rc, if rc_eventHandler rc then rcbEventHandler ((if overflow : bool then [RCB_EVENT_OVERFLOW] else []) ++ [RCB_EVENT_REPORT_CREATED]) env else env).

(** * Other operations of the buffer *)

Definition purgeBuf (rc : ReportControl) : ReportControl :=
  let b := rc_reportBuffer rc in
  rc_with_reportBuffer (rb_with_count 0 (rb_with_next 0 (rb_with_oldest 0 (rb_with_last 0 b)))) (rc_with_triggered false rc).

(** a client that asks for the reports after the one with an identifier *)
Fixpoint entryId_loop (fuel : nat) (rc : ReportControl) (id : list Z) (entry : Z) : option (ReportControl * bool) :=
  match fuel with
  | O => None
  | S fuel =>
      if entry =? 0 then Some (rc, false)
      else
        entryId ← entry_entryId (rc_reportBuffer rc) entry;
        same ← memcmp_eq entryId id 8;
        next ← entry_next (rc_reportBuffer rc) entry;
        if same : bool then Some (rc_with_isResync true (rc_with_reportBuffer (rb_with_next next (rc_reportBuffer rc)) rc), true)
        else entryId_loop fuel rc id next
  end.
Definition checkReportBufferForEntryID (rc : ReportControl) (value : MmsValue) : option (ReportControl * bool) :=
  match value with
  | MmsOctetString _ _ buf => entryId_loop (S (length (rb_memory (rc_reportBuffer rc)))) rc buf (rb_oldestReport (rc_reportBuffer rc))
  | _ => None
  end.

(** the end of [sendNextReportEntrySegment] for a report that was sent or skipped as a
    whole: the next one is due; the attribute SqNum is left out *)
Definition report_done (rc : ReportControl) : option ReportControl :=
  let b := rc_reportBuffer rc in
  next ← entry_next b (rb_nextToTransmit b);
  if rb_nextToTransmit b =? next then None
  else
    let sqNum := u16 (rc_sqNum rc + 1) in
    let sqNum := if negb (rc_buffered rc) && (sqNum =? 256) then 0 else sqNum in
    Some (rc_with_sqNum sqNum (rc_with_reportBuffer (rb_with_overflow false (rb_with_next next b)) rc)).

(** * Events *)

Definition getNextRoundedStartTime (currentTime intgPd : Z) : option Z :=
  if intgPd =? 0 then None
  else
    let modTime := currentTime mod intgPd in
    let delta := if negb (modTime =? 0) then intgPd - modTime else intgPd in
    Some (u64 (currentTime + delta)).

(** [nextIntgReportTime] after a change of the system time *)
Definition check_time_change (currentTimeInMs : Z) (rc : ReportControl) : option ReportControl :=
  if (rc_nextIntgReportTime rc <? currentTimeInMs) || (u64 (currentTimeInMs + rc_intgPd rc) <? rc_nextIntgReportTime rc) then
    t ← (if rc_syncIntegrityReportTimes rc then getNextRoundedStartTime currentTimeInMs (rc_intgPd rc)
         else Some (u64 (currentTimeInMs + rc_intgPd rc)));
    Some (rc_with_nextIntgReportTime t rc)
  else Some rc.

Definition process_gi (currentTimeInMs : Z) (rc : ReportControl) (env : ReportEnv) : option (ReportControl * ReportEnv) :=
  if negb (Z.land (rc_triggerOps rc) TRG_OPT_GI =? 0) && rc_gi rc then
    '(rc, env) ← (if rc_triggered rc then enqueueReport false false currentTimeInMs (rc_with_triggered false rc) env else Some (rc, env));
    '(rc, env) ← enqueueReport false true currentTimeInMs rc env;
    Some (rc_with_triggered false (rc_with_gi false rc), env)
  else Some (rc, env).

Definition process_integrity (currentTimeInMs : Z) (rc : ReportControl) (env : ReportEnv) : option (ReportControl * ReportEnv) :=
  if negb (Z.land (rc_triggerOps rc) TRG_OPT_INTEGRITY =? 0) && (0 <? rc_intgPd rc) then
    if rc_nextIntgReportTime rc <=? currentTimeInMs then
      '(rc, env) ← (if rc_triggered rc then '(rc, env) ← enqueueReport false false currentTimeInMs rc env; Some (rc_with_triggered false rc, env)
                    else Some (rc, env));
      t ← (if rc_syncIntegrityReportTimes rc then getNextRoundedStartTime currentTimeInMs (rc_intgPd rc)
           else Some (u64 (rc_nextIntgReportTime rc + rc_intgPd rc)));
      rc ← check_time_change currentTimeInMs (rc_with_nextIntgReportTime t rc);
      '(rc, env) ← enqueueReport true false currentTimeInMs rc env;
      Some (rc_with_triggered false rc, env)
    else rc ← check_time_change currentTimeInMs rc; Some (rc, env)
  else Some (rc, env).

Definition processEventsForReport (currentTimeInMs : Z) (rc : ReportControl) (env : ReportEnv) : option (ReportControl * ReportEnv) :=
  if rc_enabled rc || rc_isBuffering rc then
    '(rc, env) ← process_gi currentTimeInMs rc env;
    '(rc, env) ← process_integrity currentTimeInMs rc env;
    if rc_triggered rc && (rc_reportTime rc <=? currentTimeInMs) then
      '(rc, env) ← enqueueReport false false currentTimeInMs rc env; Some (rc_with_triggered false rc, env)
    else Some (rc, env)
  else Some (rc, env).

Definition copySingleValueToReportBuffer (rc : ReportControl) (dataSetEntryIndex : Z) : option ReportControl :=
  buffered ← ld (rc_bufferedDataSetValues rc) dataSetEntryIndex;
  reference ← ld (rc_valueReferences rc) dataSetEntryIndex;
  value ← (match buffered with
           | None => MmsValue_clone reference
           | Some _ => '(value, _) ← MmsValue_update buffered reference; Some value
           end);
  values ← st (rc_bufferedDataSetValues rc) dataSetEntryIndex value;
  Some (rc_with_bufferedDataSetValues values rc).

Fixpoint copyValues_loop (n : nat) (i : Z) (rc : ReportControl) : option ReportControl :=
  match n with
  | O => Some rc
  | S n =>
      flag ← ld (rc_inclusionFlags rc) i;
      rc ← (if negb (Z.land flag REPORT_CONTROL_NOT_UPDATED =? 0) then
              rc ← copySingleValueToReportBuffer rc i;
              flags ← st (rc_inclusionFlags rc) i (u8 (Z.land flag (Z.lnot REPORT_CONTROL_NOT_UPDATED)));
              Some (rc_with_inclusionFlags flags rc)
            else Some rc);
      copyValues_loop n (i + 1) rc
  end.
Definition copyValuesToReportBuffer (rc : ReportControl) : option ReportControl :=
  copyValues_loop (Z.to_nat (ds_elementCount (rc_dataSet rc))) 0 rc.

(** one report control block of [Reporting_processReportEventsAfterUnlock] *)
Definition process_after_unlock (currentTime : Z) (rc : ReportControl) (env : ReportEnv) : option (ReportControl * ReportEnv) :=
  if (rc_enabled rc || rc_isBuffering rc) && rc_triggered rc then
    rc ← copyValuesToReportBuffer rc; processEventsForReport currentTime rc env
  else Some (rc, env).

Definition ReportControl_valueUpdated (dataSetEntryIndex flag : Z) (modelLocked : bool) (rc : ReportControl) (env : ReportEnv)
  : option (ReportControl * ReportEnv) :=
  pending ← ld (rc_inclusionFlags rc) dataSetEntryIndex;
  '(rc, env) ←
    (if negb (Z.land pending flag =? 0) then
       let '(now, env) := Hal_time env in
       let rc := rc_with_reportTime now rc in
       rc ← (if modelLocked then copyValuesToReportBuffer rc else Some rc);
       processEventsForReport (rc_reportTime rc) rc env
     else Some (rc, env));
  rc ←
    (if modelLocked then
       pending ← ld (rc_inclusionFlags rc) dataSetEntryIndex;
       flags ← st (rc_inclusionFlags rc) dataSetEntryIndex (u8 (Z.lor (Z.lor pending flag) REPORT_CONTROL_NOT_UPDATED));
       Some (rc_with_inclusionFlags flags rc)
     else
       flags ← st (rc_inclusionFlags rc) dataSetEntryIndex (u8 flag);
       copySingleValueToReportBuffer (rc_with_inclusionFlags flags rc) dataSetEntryIndex);
  '(rc, env) ←
    (if rc_triggered rc then Some (rc, env)
     else
       let '(now, env) := Hal_time env in
       rc ← updateTimeOfEntry rc now;
       Some (rc_with_reportTime (u64 (now + rc_bufTm rc)) rc, env));
  Some (rc_with_triggered true rc, env).
