(* ===== verification/ReportRing.v ===== *)
(** The reports in a report buffer as a sequence: [chain] follows the addresses in the
    memory, [ring] says how the reports lie in the block, [rep] relates a buffer to the
    reports that were sent and those that wait. Wherever [place_report] puts a new report,
    it lies in the block and apart from the reports that stay, and only the oldest reports
    make room for it. *)

From S2P Require Import Prelude BerEncoder BerDecoder BerInteger StringUtils CText CFloat MmsValue MmsFacts MmsData Containers ReportBuffer.
Open Scope Z_scope.

(** * Memory *)

(** [memory'] differs from [memory] only from [lo] to [hi] *)
Definition touches (lo hi : Z) (memory memory' : list Z) : Prop :=
  zlen memory' = zlen memory /\
  forall a n, 0 <= n -> a + n <= lo \/ hi <= a -> ld_range memory' a n = ld_range memory a n.

Lemma touches_refl lo hi m : touches lo hi m m.
Proof. done. Qed.
Lemma touches_trans lo hi m1 m2 m3 : touches lo hi m1 m2 -> touches lo hi m2 m3 -> touches lo hi m1 m3.
Proof. intros [Hz1 H1] [Hz2 H2]. split; [congruence|]. intros a n Hn Ha. by rewrite H2, H1. Qed.
Lemma touches_wider lo hi lo' hi' m m' : touches lo hi m m' -> lo' <= lo -> hi <= hi' -> touches lo' hi' m m'.
Proof. intros [Hz H] Hl Hh. split; [done|]. intros a n Hn Ha. apply H; [done|lia]. Qed.

Lemma touches_splice m a bs : 0 <= a -> a + zlen bs <= zlen m -> touches a (a + zlen bs) m (splice m a bs).
Proof.
  intros Ha Hb. assert (zlen (splice m a bs) = zlen m) as Hz by (by apply zlen_splice). split; [done|].
  intros p n Hn Hp. unfold ld_range. rewrite Hz. destruct ((0 <=? p) && (0 <=? n) && (p + n <=? zlen m)) eqn:E; [|done]. bdestr. f_equal.
  unfold splice. unfold zlen in *. destruct Hp as [Hp|Hp].
  - rewrite drop_app_le by (rewrite length_take; lia). rewrite take_app_le by (rewrite length_drop, length_take; lia).
    rewrite skipn_firstn_comm, take_take. f_equal. lia.
  - rewrite drop_app_ge by (rewrite length_take; lia). rewrite length_take. rewrite drop_app_ge by lia. rewrite drop_drop. do 2 f_equal. lia.
Qed.
Lemma st_range_touches m a bs : 0 <= a -> a + zlen bs <= zlen m ->
  exists m', st_range m a bs = Some m' /\ touches a (a + zlen bs) m m' /\ ld_range m' a (zlen bs) = Some bs.
Proof.
  intros Ha Hb. exists (splice m a bs). pose proof (zlen_nonneg bs).
  assert (st_range m a bs = Some (splice m a bs)) as -> by (unfold st_range, splice; by if_true).
  split; [done|]. split; [by apply touches_splice|]. rewrite ld_range_Some by (rewrite ?zlen_splice by lia; lia). f_equal.
  rewrite drop_splice by lia. rewrite take_app_length'; [done|unfold zlen; lia].
Qed.

(** * Reports *)

(** [rp_pos] is the offset in the block; [rp_data] follows the structure *)
Record Report := mkReport { rp_pos : Z; rp_len : Z; rp_id : list Z; rp_time : Z; rp_flags : Z; rp_data : list Z }.

Definition rp_end (r : Report) : Z := rp_pos r + rp_len r.
Definition is_GI (r : Report) : bool := negb (Z.land (rp_flags r) 2 =? 0).

(** the report and its link to the next in the memory *)
Record holds (m : list Z) (r : Report) (next : Z) : Prop := mkHolds {
  h_id : ld_range m (rp_pos r) 8 = Some (rp_id r);
  h_time : ld_range m (rp_pos r + 8) 8 = Some (le_bytes 8 (rp_time r));
  h_bits : ld_range m (rp_pos r + 16) 4 = Some (le_bytes 4 (rp_len r + 1073741824 * rp_flags r));
  h_next : ld_range m (rp_pos r + 24) 8 = Some (le_bytes 8 next);
  h_data : ld_range m (rp_pos r + 32) (zlen (rp_data r)) = Some (rp_data r)
}.

Definition report_ok (r : Report) : Prop :=
  32 + zlen (rp_data r) <= rp_len r < 536870912 /\ 0 <= rp_flags r < 4.

Lemma holds_touches lo hi m m' r next : touches lo hi m m' -> report_ok r -> rp_end r <= lo \/ hi <= rp_pos r -> holds m r next -> holds m' r next.
Proof.
  intros [_ Ht] [Hlen _] Hd [H1 H2 H3 H4 H5]. pose proof (zlen_nonneg (rp_data r)). unfold rp_end in Hd.
  constructor; rewrite Ht by lia; done.
Qed.
Lemma holds_link m m' r next next' : touches (rp_pos r + 24) (rp_pos r + 32) m m' -> ld_range m' (rp_pos r + 24) 8 = Some (le_bytes 8 next') ->
  holds m r next -> holds m' r next'.
Proof.
  intros [_ Ht] Hn [H1 H2 H3 _ H5]. pose proof (zlen_nonneg (rp_data r)). constructor; try done; rewrite Ht by lia; done.
Qed.

Section Block.
Context (base size : Z).
Hypothesis Hbase : 0 < base.
Hypothesis Hend : base + size < 18446744073709551616.

Definition address (r : Report) : Z := base + rp_pos r.

(** the links from the address [p] through the reports to the address [e] *)
Fixpoint chain (m : list Z) (rs : list Report) (p e : Z) : Prop :=
  match rs with
  | [] => p = e
  | r :: rs => p = address r /\ exists next, holds m r next /\ 0 <= next < 18446744073709551616 /\ chain m rs next e
  end.

Lemma chain_app m rs1 rs2 p e : chain m (rs1 ++ rs2) p e <-> exists q, chain m rs1 p q /\ chain m rs2 q e.
Proof.
  revert p. induction rs1 as [|r rs1 IH]; intros p; cbn.
  - split; [intros H; by exists p|]. by intros (q & -> & H).
  - split.
    + intros (-> & next & Hr & Hn & H). apply IH in H as (q & H1 & H2). exists q. split; [|done]. split; [done|]. by exists next.
    + intros (q & (-> & next & Hr & Hn & H1) & H2). split; [done|]. exists next. split_and!; [done|lia..|]. apply IH. by exists q.
Qed.

Lemma chain_touches lo hi m m' rs p e : touches lo hi m m' -> Forall report_ok rs -> Forall (fun r => rp_end r <= lo \/ hi <= rp_pos r) rs ->
  chain m rs p e -> chain m' rs p e.
Proof.
  intros Ht. revert p. induction rs as [|r rs IH]; intros p Hok Hd H; [done|]. apply Forall_cons_1 in Hok as [Hr Hok]. apply Forall_cons_1 in Hd as [Hdr Hd].
  destruct H as (-> & next & Hh & Hn & H). split; [done|]. exists next. split_and!; [by eapply holds_touches|lia..|]. by apply IH.
Qed.

(** the last link is set *)
Lemma chain_link m m' rs r p e e' : touches (rp_pos r + 24) (rp_pos r + 32) m m' -> ld_range m' (rp_pos r + 24) 8 = Some (le_bytes 8 e') ->
  0 <= e' < 18446744073709551616 -> report_ok r -> Forall report_ok rs -> Forall (fun r0 => rp_end r0 <= rp_pos r \/ rp_end r <= rp_pos r0) rs ->
  chain m (rs ++ [r]) p e -> chain m' (rs ++ [r]) p e'.
Proof.
  intros Ht Hl He Hr Hok Hd H. apply chain_app in H as (q & H1 & H2). destruct H2 as (-> & next & Hh & _ & _).
  apply chain_app. exists (address r). split.
  - eapply chain_touches; [exact Ht|done| |exact H1]. eapply List.Forall_impl; [|exact Hd]. intros r0 H0. unfold rp_end in *. destruct Hr as [Hlen _].
    pose proof (zlen_nonneg (rp_data r)). lia.
  - split; [done|]. exists e'. split_and!; [by eapply holds_link|lia|lia|done].
Qed.

(** * Geometry *)

(** reports one after the other from [lo] to [hi] *)
Fixpoint asc (lo hi : Z) (rs : list Report) : Prop :=
  match rs with [] => lo <= hi | r :: rs => lo <= rp_pos r /\ report_ok r /\ asc (rp_end r) hi rs end.

Lemma rp_len_pos r : report_ok r -> rp_pos r + 32 <= rp_end r.
Proof. intros [H _]. pose proof (zlen_nonneg (rp_data r)). unfold rp_end. lia. Qed.

Lemma asc_le lo hi rs : asc lo hi rs -> lo <= hi.
Proof. revert lo. induction rs as [|r rs IH]; intros lo H; cbn in H; [done|]. destruct H as (H1 & H2 & H3). apply IH in H3. pose proof (rp_len_pos r H2). lia. Qed.
Lemma asc_wider lo hi lo' hi' rs : asc lo hi rs -> lo' <= lo -> hi <= hi' -> asc lo' hi' rs.
Proof.
  revert lo lo'. induction rs as [|r rs IH]; intros lo lo' H Hl Hh; cbn in *; [lia|]. destruct H as (H1 & H2 & H3). split_and!; [lia|done|]. by eapply IH.
Qed.
Lemma asc_all lo hi rs : asc lo hi rs -> Forall (fun r => lo <= rp_pos r /\ rp_end r <= hi /\ report_ok r) rs.
Proof.
  revert lo. induction rs as [|r rs IH]; intros lo H; [done|]. destruct H as (H1 & H2 & H3). apply List.Forall_cons; [pose proof (asc_le _ _ _ H3); done|].
  eapply List.Forall_impl; [|exact (IH _ H3)]. intros r0 (? & ? & ?). pose proof (rp_len_pos r H2). split_and!; [lia|done..].
Qed.
Lemma asc_app lo hi rs1 rs2 : asc lo hi (rs1 ++ rs2) <-> exists m, asc lo m rs1 /\ asc m hi rs2.
Proof.
  revert lo. induction rs1 as [|r rs1 IH]; intros lo; cbn.
  - split; [intros H; exists lo; split; [lia|done]|]. intros (m & Hm & H). eapply asc_wider; [exact H|lia..].
  - rewrite IH. split; [intros (H1 & H2 & m & H3 & H4); by exists m|]. intros (m & (H1 & H2 & H3) & H4). by split_and!; [..|exists m].
Qed.
Lemma asc_single lo hi r : asc lo hi [r] <-> lo <= rp_pos r /\ report_ok r /\ rp_end r <= hi.
Proof. done. Qed.
Lemma asc_sublist lo hi rs rs' : sublist rs' rs -> asc lo hi rs -> asc lo hi rs'.
Proof.
  intros Hs. revert lo. induction Hs as [|r l1 l2 _ IH|r l1 l2 _ IH]; intros lo H; [done| |]; destruct H as (H1 & H2 & H3).
  - split_and!; [done..|]. by apply IH.
  - pose proof (rp_len_pos r H2). eapply asc_wider; [by apply IH|lia..].
Qed.

(** in one run from the oldest on, or in an upper run with the oldest and a lower one *)
Definition ring (rs : list Report) : Prop :=
  asc 0 size rs \/ exists upper lower m, rs = upper ++ lower /\ asc m size upper /\ asc 0 m lower.

Definition apart (r1 r2 : Report) : Prop := rp_end r1 <= rp_pos r2 \/ rp_end r2 <= rp_pos r1.

Lemma asc_apart lo hi rs : asc lo hi rs -> ForallOrdPairs apart rs.
Proof.
  revert lo. induction rs as [|r rs IH]; intros lo H; [constructor|]. destruct H as (H1 & H2 & H3). constructor; [|by eapply IH].
  eapply List.Forall_impl; [|exact (asc_all _ _ _ H3)]. intros r0 (? & _). by left.
Qed.

Lemma pairs_app (P : Report -> Report -> Prop) rs1 rs2 :
  ForallOrdPairs P (rs1 ++ rs2) <-> ForallOrdPairs P rs1 /\ ForallOrdPairs P rs2 /\ Forall (fun r1 => Forall (P r1) rs2) rs1.
Proof.
  induction rs1 as [|r rs1 IH]; cbn.
  - split; [intros H; split_and!; [constructor|done|constructor]|tauto].
  - split.
    + inversion 1 as [|? ? Hr Ho]; subst. apply Forall_app in Hr as [Hr1 Hr2]. apply IH in Ho as (H1 & H2 & H3). split_and!; [by constructor|done|by constructor].
    + intros (H1 & H2 & H3). inversion H1 as [|? ? Hr Ho]; subst. inversion H3 as [|? ? Hr2 H4]; subst. constructor; [by apply Forall_app|]. apply IH. done.
Qed.
Lemma forall_sublist (P : Report -> Prop) rs rs' : sublist rs' rs -> Forall P rs -> Forall P rs'.
Proof. induction 1 as [|r l1 l2 _ IH|r l1 l2 _ IH]; intros H; [done| |]; inversion H; subst; [constructor|]; auto. Qed.
Lemma pairs_sublist (P : Report -> Report -> Prop) rs rs' : sublist rs' rs -> ForallOrdPairs P rs -> ForallOrdPairs P rs'.
Proof.
  induction 1 as [|r l1 l2 Hs IH|r l1 l2 _ IH]; intros H; [done| |]; inversion H as [|? ? Hr Ho]; subst; [|by apply IH].
  constructor; [|by apply IH]. by eapply forall_sublist.
Qed.

Lemma ring_all rs : ring rs -> Forall (fun r => 0 <= rp_pos r /\ rp_end r <= size /\ report_ok r) rs.
Proof.
  intros [H|(u & l & m & -> & Hu & Hl)]; [exact (asc_all _ _ _ H)|]. pose proof (asc_le _ _ _ Hu). pose proof (asc_le _ _ _ Hl).
  apply Forall_app. split; (eapply List.Forall_impl; [|by eapply asc_all]); intros r (? & ? & ?); split_and!; done || lia.
Qed.
Lemma ring_apart rs : ring rs -> ForallOrdPairs apart rs.
Proof.
  intros [H|(u & l & m & -> & Hu & Hl)]; [by eapply asc_apart|]. apply pairs_app. split_and!; [by eapply asc_apart..|].
  eapply List.Forall_impl; [|exact (asc_all _ _ _ Hu)]. intros r (Hr & _). eapply List.Forall_impl; [|exact (asc_all _ _ _ Hl)].
  intros r' (_ & Hr' & _). right. lia.
Qed.
Lemma ring_sublist rs rs' : sublist rs' rs -> ring rs -> ring rs'.
Proof.
  intros Hs [H|(u & l & m & -> & Hu & Hl)]; [left; by eapply asc_sublist|]. right. apply sublist_app_r in Hs as (u' & l' & -> & H1 & H2).
  exists u', l', m. split_and!; [done|by eapply asc_sublist..].
Qed.
Lemma asc_length lo hi rs : asc lo hi rs -> 32 * zlen rs <= hi - lo.
Proof.
  revert lo. induction rs as [|r rs IH]; intros lo H; cbn in H; [change (zlen (@nil Report)) with 0; lia|]. destruct H as (H1 & H2 & H3). apply IH in H3. pose proof (rp_len_pos r H2).
  rewrite zlen_cons. lia.
Qed.
Lemma ring_length rs : ring rs -> 32 * zlen rs <= size.
Proof.
  intros [H|(u & l & m & -> & Hu & Hl)]; [apply asc_length in H; lia|]. apply asc_length in Hu, Hl. rewrite zlen_app. lia.
Qed.

(** * Queues *)

(** the reports that were sent and those that wait, oldest first *)
Record queue (b : ReportBuffer) (sent pending : list Report) : Prop := mkQueue {
  q_block : rb_memoryBlock b = base /\ rb_memoryBlockSize b = size /\ zlen (rb_memory b) = size;
  q_chain : chain (rb_memory b) (sent ++ pending) (rb_oldestReport b) 0;
  q_next : rb_nextToTransmit b = match pending with [] => 0 | r :: _ => address r end;
  q_count : rb_reportsCount b = zlen (sent ++ pending);
  q_ring : ring (sent ++ pending)
}.

Lemma entry_next_holds b r next : rb_memoryBlock b = base -> holds (rb_memory b) r next -> 0 <= next < 18446744073709551616 -> entry_next b (address r) = Some next.
Proof.
  intros Hb H Hn. unfold entry_next, entry_field, address. rewrite Hb. replace (base + rp_pos r - base + 24) with (rp_pos r + 24) by lia.
  rewrite (h_next _ _ _ H). cbn [mbind option_bind]. f_equal. rewrite le_val_le_bytes. apply Z.mod_small. exact Hn.
Qed.
Lemma entry_bits_holds b r next : rb_memoryBlock b = base -> report_ok r -> holds (rb_memory b) r next ->
  entry_entryLength b (address r) = Some (rp_len r) /\ entry_flags b (address r) = Some (rp_flags r).
Proof.
  intros Hb [Hl Hf] H. pose proof (zlen_nonneg (rp_data r)). unfold entry_entryLength, entry_flags, entry_bits, entry_field, address. rewrite Hb.
  replace (base + rp_pos r - base + 16) with (rp_pos r + 16) by lia. rewrite (h_bits _ _ _ H). cbn [mbind option_bind].
  rewrite le_val_le_bytes. change (256 ^ Z.of_nat 4) with 4294967296. rewrite Z.mod_small by lia. unfold s30. split; f_equal.
  - replace (rp_len r + 1073741824 * rp_flags r + 536870912) with (rp_len r + 536870912 + rp_flags r * 1073741824) by lia.
    rewrite Z.mod_add, Z.mod_small by lia. lia.
  - replace (rp_len r + 1073741824 * rp_flags r) with (rp_len r + rp_flags r * 1073741824) by lia. rewrite Z.div_add, Z.div_small by lia. lia.
Qed.

(** the addresses of reports are not null, and different *)
Lemma address_pos r rs : ring rs -> r ∈ rs -> 0 < address r < 18446744073709551616.
Proof.
  intros H Hr. pose proof (ring_all _ H) as Ha. rewrite List.Forall_forall in Ha. apply list_elem_of_In in Hr. destruct (Ha r Hr) as (? & ? & Hok).
  pose proof (rp_len_pos r Hok). unfold address. lia.
Qed.
Lemma address_ne r rs r' : ring (r :: rs) -> r' ∈ rs -> address r' <> address r.
Proof.
  intros H Hr. pose proof (ring_apart _ H) as Ha. pose proof (ring_all _ H) as Hok. inversion Ha as [|? ? Hr0 _]; subst. inversion Hok as [|? ? (_ & _ & Hr1) Hrs]; subst.
  rewrite List.Forall_forall in Hr0, Hrs. apply list_elem_of_In in Hr. specialize (Hr0 r' Hr). destruct (Hrs r' Hr) as (_ & _ & Hr2).
  pose proof (rp_len_pos r Hr1). pose proof (rp_len_pos r' Hr2). unfold apart, address in *. lia.
Qed.

Lemma remove_oldest_spec b sent pending r rs ov : queue b sent pending -> sent ++ pending = r :: rs ->
  let lost := match sent with [] => true | _ => false end in
  exists b', remove_oldest b ov = Some (b', ov || lost) /\ queue b' (drop 1 sent) (drop (1 - length sent) pending) /\
    rb_memory b' = rb_memory b /\ rb_lastEnqueuedReport b' = rb_lastEnqueuedReport b /\ rb_isOverflow b' = rb_isOverflow b || lost.
Proof.
  intros [Hb Hc Hn Hcount Hr] Eq lost. rewrite Eq in Hc, Hcount, Hr. destruct Hc as (Ho & next & Hh & Hnext & Hc).
  unfold remove_oldest. rewrite Ho, (entry_next_holds b r next) by (done || tauto). cbn [mbind option_bind].
  assert (drop 1 sent ++ drop (1 - length sent) pending = rs) as Hrs by (destruct sent; cbn in Eq |- *; [destruct pending|]; simplify_eq/=; by rewrite ?drop_0).
  assert (rb_nextToTransmit b =? address r = lost) as ->.
  { subst lost. rewrite Hn. destruct sent as [|r0 sent]; cbn in Eq; [subst pending; apply Z.eqb_refl|]. injection Eq as -> Eq. apply Z.eqb_neq.
    pose proof (address_pos r _ Hr ltac:(by left)). destruct pending as [|p pending]; [lia|]. apply (address_ne r rs); [done|]. subst rs. apply elem_of_app. right. by left. }
  assert (ring rs) as Hring by (eapply ring_sublist; [by apply sublist_cons|exact Hr]).
  assert (zlen rs = zlen (r :: rs) - 1) as Hz by (rewrite zlen_cons; lia).
  rewrite <- Hrs in Hc, Hring. rewrite (orb_comm ov), (orb_comm (rb_isOverflow b)).
  destruct sent as [|r0 sent]; subst lost; cbn [orb]; eexists; (split; [reflexivity|]); (split; [|by destruct b]); destruct b; constructor; cbn in *; try done; try (rewrite Hrs; lia).
  - destruct pending as [|p pending]; [done|]. injection Eq as -> ->. cbn in Hc |- *. rewrite drop_0 in Hc |- *. destruct rs; [done|]. by destruct Hc.
Qed.

(** whether the removal of the [k] oldest reports loses one that was not sent *)
Definition loses (k : nat) (sent : list Report) : bool := (length sent <? k)%nat.

(** the queue after the removal of the [k] oldest reports *)
Record removed (k : nat) (b b' : ReportBuffer) (sent pending : list Report) : Prop := mkRemoved {
  rm_queue : queue b' (drop k sent) (drop (k - length sent) pending);
  rm_memory : rb_memory b' = rb_memory b;
  rm_last : rb_lastEnqueuedReport b' = rb_lastEnqueuedReport b;
  rm_overflow : rb_isOverflow b' = rb_isOverflow b || loses k sent
}.

Lemma drop_both {A} k (l1 l2 : list A) : drop k l1 ++ drop (k - length l1) l2 = drop k (l1 ++ l2).
Proof. by rewrite drop_app. Qed.

Lemma remove_while_spec cond fuel : forall b sent pending ov, queue b sent pending -> (length (sent ++ pending) < fuel)%nat ->
  exists k b', remove_while fuel cond b ov = Some (b', ov || loses k sent) /\ removed k b b' sent pending /\
    Forall (fun r => cond (address r) = true) (take k (sent ++ pending)) /\
    match drop k (sent ++ pending) with [] => True | r :: _ => cond (address r) = false end.
Proof.
  induction fuel as [|fuel IH]; intros b sent pending ov Hq Hf; [lia|]. cbn [remove_while].
  assert (removed 0 b b sent pending) as H0.
  { constructor; [by rewrite drop_0|done..|]. unfold loses. by rewrite orb_false_r. }
  pose proof (q_chain _ _ _ Hq) as Hc. destruct (sent ++ pending) as [|r rs] eqn:Eq.
  - cbn in Hc. rewrite Hc, andb_false_r. exists 0%nat, b. unfold loses. rewrite orb_false_r. split_and!; done.
  - destruct Hc as [Ho _]. pose proof (q_ring _ _ _ Hq) as Hring. rewrite Eq in Hring. pose proof (address_pos r _ Hring ltac:(by left)).
    rewrite Ho, (proj2 (Z.eqb_neq (address r) 0)), andb_true_r by lia. destruct (cond (address r)) eqn:Ec.
    2: { exists 0%nat, b. unfold loses. rewrite orb_false_r. split_and!; done. }
    destruct (remove_oldest_spec b sent pending r rs ov Hq Eq) as (b1 & -> & Hq1 & Hm1 & Hl1 & Ho1). cbn [mbind option_bind].
    assert (drop 1 sent ++ drop (1 - length sent) pending = rs) as Hd1 by (rewrite drop_both, Eq; apply drop_0).
    destruct (IH b1 _ _ (ov || match sent with [] => true | _ => false end) Hq1) as (k & b' & -> & [Hq' Hm' Hl' Ho'] & Hall & Hstop).
    { rewrite Hd1. cbn in Hf. lia. }
    rewrite Hd1 in Hall, Hstop. exists (S k), b'.
    assert (match sent with [] => true | _ => false end || loses k (drop 1 sent) = loses (S k) sent) as Hlost.
    { unfold loses. destruct sent as [|r0 sent]; cbn; [done|]. by rewrite drop_0. }
    rewrite <- orb_assoc, Hlost. split_and!; [done| |by constructor|done].
    rewrite !drop_drop in Hq'. constructor; [|congruence..|by rewrite Ho', Ho1, <- orb_assoc, Hlost].
    replace (S k - length sent)%nat with (1 - length sent + (k - length (drop 1 sent)))%nat by (rewrite length_drop; lia). exact Hq'.
Qed.
Lemma remove_reports_spec cond b sent pending ov : queue b sent pending ->
  exists k b', remove_reports cond b ov = Some (b', ov || loses k sent) /\ removed k b b' sent pending /\
    Forall (fun r => cond (address r) = true) (take k (sent ++ pending)) /\
    match drop k (sent ++ pending) with [] => True | r :: _ => cond (address r) = false end.
Proof.
  intros Hq. apply remove_while_spec; [done|]. pose proof (ring_length _ (q_ring _ _ _ Hq)) as Hl. destruct (q_block _ _ _ Hq) as (_ & _ & Hz).
  pose proof (zlen_nonneg (sent ++ pending)). unfold zlen in *. lia.
Qed.

(** * Removing reports from the middle *)

Definition head_address (rs : list Report) : Z := match rs with [] => 0 | r :: _ => address r end.
Definition last_address (rs : list Report) : Z := head_address (reverse rs).

Lemma chain_head m rs p : chain m rs p 0 -> p = head_address rs.
Proof. destruct rs; [done|]. by intros [-> _]. Qed.
Lemma last_address_snoc rs r : last_address (rs ++ [r]) = address r.
Proof. unfold last_address. by rewrite reverse_snoc. Qed.

Lemma set_entry_next_spec b r v : rb_memoryBlock b = base -> 0 <= rp_pos r -> rp_pos r + 32 <= zlen (rb_memory b) ->
  exists m', set_entry_next b (address r) v = Some (rb_with_memory m' b) /\ touches (rp_pos r + 24) (rp_pos r + 32) (rb_memory b) m' /\
    ld_range m' (rp_pos r + 24) 8 = Some (le_bytes 8 v).
Proof.
  intros Hb Hp Hz. unfold set_entry_next, set_entry_field, address. rewrite Hb. replace (base + rp_pos r - base + 24) with (rp_pos r + 24) by lia.
  destruct (st_range_touches (rb_memory b) (rp_pos r + 24) (le_bytes 8 v)) as (m' & -> & Ht & Hl); [lia|rewrite zlen_le_bytes; lia|].
  rewrite zlen_le_bytes in Ht, Hl. exists m'. split; [done|]. split; [|exact Hl]. eapply touches_wider; [exact Ht|lia..].
Qed.

(** the link of the last report before [r], with the reports around it *)
Lemma unlink m m' K l r rs p next : ring (K ++ l :: r :: rs) -> chain m (K ++ l :: r :: rs) p 0 -> chain m rs next 0 ->
  touches (rp_pos l + 24) (rp_pos l + 32) m m' -> ld_range m' (rp_pos l + 24) 8 = Some (le_bytes 8 next) -> 0 <= next < 18446744073709551616 ->
  chain m' (K ++ l :: rs) p 0 /\ (forall n, holds m r n -> holds m' r n).
Proof.
  intros Hring Hc Hrs Ht Hl Hn. pose proof (ring_apart _ Hring) as Ha. pose proof (ring_all _ Hring) as Hok.
  apply pairs_app in Ha as (_ & Ha & Hx). inversion Ha as [|? ? Hlr _]; subst. inversion Hlr as [|? ? Hlr1 Hlrs]; subst.
  apply Forall_app in Hok as [HokK Hok]. inversion Hok as [|? ? (_ & _ & Hokl) Hok1]; subst. inversion Hok1 as [|? ? (_ & _ & Hokr) Hok2]; subst.
  pose proof (rp_len_pos l Hokl). split.
  - replace (K ++ l :: rs) with ((K ++ [l]) ++ rs) by (by rewrite <- app_assoc). apply chain_app. exists next. split.
    + replace (K ++ l :: r :: rs) with ((K ++ [l]) ++ r :: rs) in Hc by (by rewrite <- app_assoc). apply chain_app in Hc as (q & Hc & _).
      eapply chain_link; [exact Ht|exact Hl|done|done| | |exact Hc].
      * eapply List.Forall_impl; [|exact HokK]. tauto.
      * eapply List.Forall_impl; [|exact Hx]. intros r0 H0. inversion H0; subst. unfold apart in *. lia.
    + eapply chain_touches; [exact Ht| | |exact Hrs].
      * eapply List.Forall_impl; [|exact Hok2]. tauto.
      * eapply List.Forall_impl; [|exact Hlrs]. intros r0 H0. unfold apart in H0. lia.
  - intros n. eapply holds_touches; [exact Ht|done|]. unfold apart in Hlr1. lia.
Qed.

(** the buffer holds the reports in [rs]; [next] is the next to send *)
Record linked (b : ReportBuffer) (rs : list Report) (next : Z) : Prop := mkLinked {
  ln_block : rb_memoryBlock b = base /\ rb_memoryBlockSize b = size /\ zlen (rb_memory b) = size;
  ln_chain : chain (rb_memory b) rs (rb_oldestReport b) 0;
  ln_ring : ring rs;
  ln_last : rb_lastEnqueuedReport b = last_address rs;
  ln_count : rb_reportsCount b = zlen rs;
  ln_next : rb_nextToTransmit b = next
}.

Lemma ring_remove K r rs : ring (K ++ r :: rs) -> ring (K ++ rs).
Proof. apply ring_sublist. apply sublist_app; [done|]. by apply sublist_cons. Qed.
Lemma zlen_remove K (r : Report) rs : zlen (K ++ rs) = zlen (K ++ r :: rs) - 1.
Proof. rewrite !zlen_app, zlen_cons. lia. Qed.

(** the oldest report is [r] exactly if none is kept before it *)
Lemma oldest_is K r rs m p : ring (K ++ r :: rs) -> chain m (K ++ r :: rs) p 0 -> (address r =? p) = match K with [] => true | _ => false end.
Proof.
  intros Hring Hc. destruct K as [|k K]; cbn in Hc; destruct Hc as [-> _]; [apply Z.eqb_refl|]. apply Z.eqb_neq.
  apply (address_ne k (K ++ r :: rs)); [done|]. apply elem_of_app. right. by left.
Qed.
Lemma last_is K r rs : ring (K ++ r :: rs) -> (last_address (K ++ r :: rs) =? address r) = match rs with [] => true | _ => false end.
Proof.
  intros Hring. destruct rs as [|r' rs _] using rev_ind; [rewrite last_address_snoc; apply Z.eqb_refl|].
  replace (K ++ r :: rs ++ [r']) with ((K ++ r :: rs) ++ [r']) by (by rewrite <- app_assoc). rewrite last_address_snoc.
  apply ring_sublist with (rs' := r :: rs ++ [r']) in Hring; [|by apply sublist_inserts_l].
  destruct (rs ++ [r']) eqn:E; [by destruct rs|]. rewrite <- E in *. apply Z.eqb_neq. apply (address_ne r (rs ++ [r'])); [done|]. apply elem_of_app. right. by left.
Qed.

(** the first step: the report is taken out of the chain *)
Lemma unlink_spec b K r rs next : linked b (K ++ r :: rs) next ->
  exists b1, (if address r =? rb_oldestReport b then Some (rb_with_oldest (head_address rs) b, last_address K)
     else if negb (last_address K =? 0) then b ← set_entry_next b (last_address K) (head_address rs); Some (b, last_address K)
     else Some (b, address r)) = Some (b1, last_address K) /\
    (rb_memoryBlock b1 = base /\ rb_memoryBlockSize b1 = size /\ zlen (rb_memory b1) = size) /\
    chain (rb_memory b1) (K ++ rs) (rb_oldestReport b1) 0 /\ (forall n, holds (rb_memory b) r n -> holds (rb_memory b1) r n) /\
    rb_lastEnqueuedReport b1 = rb_lastEnqueuedReport b /\ rb_reportsCount b1 = rb_reportsCount b /\ rb_nextToTransmit b1 = rb_nextToTransmit b /\
    rb_isOverflow b1 = rb_isOverflow b.
Proof.
  intros [Hb Hc Hring _ _ _]. rewrite (oldest_is _ _ _ _ _ Hring Hc).
  pose proof Hc as Hsplit. apply chain_app in Hsplit as (q & HK & (-> & nx & Hr & Hnx & Hrs)). pose proof (chain_head _ _ _ Hrs) as ->.
  destruct Hb as (Hb1 & Hb2 & Hz). destruct K as [|k K _] using rev_ind; [eexists; split; [done|]; destruct b; cbn in *; by split_and!|].
  destruct (K ++ [k]) as [|k0 K0] eqn:E; [by destruct K|]. rewrite <- E. rewrite last_address_snoc.
  assert ((K ++ [k]) ++ r :: rs = K ++ k :: r :: rs) as Eapp by (by rewrite <- app_assoc). rewrite <- E, Eapp in Hring, Hc.
  pose proof (address_pos k _ Hring ltac:(apply elem_of_app; right; by left)). rewrite (proj2 (Z.eqb_neq (address k) 0)) by lia. cbn [negb].
  pose proof (ring_all _ Hring) as Hall. rewrite List.Forall_forall in Hall. destruct (Hall k) as (Hk0 & Hk1 & Hok); [apply in_or_app; right; by left|].
  pose proof (rp_len_pos k Hok).
  destruct (set_entry_next_spec b k (head_address rs)) as (m' & -> & Ht & Hl); [done|lia|lia|]. cbn [mbind option_bind].
  destruct (unlink (rb_memory b) m' K k r rs (rb_oldestReport b) (head_address rs)) as [Hc' Hh]; [done..|].
  eexists. split; [done|]. rewrite <- app_assoc. destruct Ht as [Hz' _]. destruct b; cbn in *. split_and!; done || congruence.
Qed.

Lemma remove_GI_spec b K r rs next : linked b (K ++ r :: rs) next ->
  exists b', remove_GI b (address r) (last_address K) = Some (b', last_address K) /\
    linked b' (K ++ rs) (if next =? address r then head_address rs else next) /\ rb_isOverflow b' = rb_isOverflow b /\
    (forall n, holds (rb_memory b) r n -> holds (rb_memory b') r n).
Proof.
  intros Hl. destruct (unlink_spec _ _ _ _ _ Hl) as (b1 & E1 & (Hb1 & Hb2 & Hz) & Hc1 & Hh & L1 & C1 & N1 & O1). destruct Hl as [(Hb & _ & _) Hc Hring Hlast Hcount Hnext].
  pose proof (ring_remove _ _ _ Hring) as Hring'. pose proof (last_is _ _ _ Hring) as Elast.
  pose proof Hc as Hsplit. apply chain_app in Hsplit as (q & HK & (-> & nx & Hr & Hnx & Hrs)). pose proof (chain_head _ _ _ Hrs) as ->.
  unfold remove_GI. rewrite (entry_next_holds b r _ Hb Hr Hnx). cbn [mbind option_bind]. rewrite E1. cbn [mbind option_bind]. clear E1.
  assert (entry_next (rb_with_count (rb_reportsCount b1 - 1) b1) (address r) = Some (head_address rs)) as Hen.
  { apply entry_next_holds; [by destruct b1| |done]. destruct b1. by apply Hh. }
  assert (rb_nextToTransmit (rb_with_count (rb_reportsCount b1 - 1) b1) = next) as -> by (destruct b1; cbn in *; congruence).
  set (b2 := rb_with_count (rb_reportsCount b1 - 1) b1) in *.
  assert (exists b3, (if next =? address r then n ← entry_next b2 (address r); Some (rb_with_next n b2) else Some b2) = Some b3 /\
    rb_nextToTransmit b3 = (if next =? address r then head_address rs else next) /\ rb_with_next 0 b3 = rb_with_next 0 b2) as (b3 & -> & N3 & B3).
  { rewrite Hen. destruct (next =? address r); eexists; (split; [done|]); subst b2; destruct b1; cbn in *; by split; congruence. }
  cbn [mbind option_bind].
  assert (rb_lastEnqueuedReport b3 = last_address (K ++ r :: rs)) as L3 by (subst b2; destruct b1, b3; cbn in *; congruence).
  rewrite L3, Elast.
  assert (linked (rb_with_last (last_address (K ++ rs)) b3) (K ++ rs) (if next =? address r then head_address rs else next) /\ rb_isOverflow b3 = rb_isOverflow b /\
    rb_memory b3 = rb_memory b1 /\ rb_oldestReport b3 = head_address (K ++ rs)) as (Hlinked & O3 & M3 & Hold).
  { rewrite <- (chain_head _ _ _ Hc1). subst b2. destruct b1, b3; cbn in *. injection B3 as <- <- <- -> <- <- <-.
    split; [|by split_and!]. constructor; cbn; try done. rewrite (zlen_remove K r rs). lia. }
  rewrite <- M3 in Hh. destruct rs as [|r' rs].
  - rewrite app_nil_r in *. assert ((if negb (last_address K =? 0) then rb_with_last (last_address K) b3 else rb_with_last (rb_oldestReport b3) b3) = rb_with_last (last_address K) b3) as ->.
    { destruct (Z.eqb_spec (last_address K) 0) as [E0|]; [|done]. cbn [negb]. rewrite Hold, E0. destruct K as [|k K _] using rev_ind; [done|].
      rewrite last_address_snoc in E0. pose proof (address_pos k _ Hring' ltac:(apply elem_of_app; right; by left)). lia. }
    eexists. split; [done|]. split; [done|]. destruct b3. by split.
  - eexists. split; [done|]. split; [|by split]. destruct Hlinked as [H1 H2 H3 H4 H5 H6]. destruct b3; cbn in *. constructor; cbn; try done.
    rewrite L3. destruct (r' :: rs) as [|x l _] eqn:E using rev_ind; [done|]. rewrite (app_comm_cons l [x] r), !app_assoc. by rewrite !last_address_snoc.
Qed.

(** ** All of them *)

Definition kept (rs : list Report) : list Report := base.filter (fun r => is_GI r = false) rs.

Lemma kept_cons r rs : kept (r :: rs) = if is_GI r then kept rs else r :: kept rs.
Proof. unfold kept. rewrite filter_cons. by destruct (is_GI r). Qed.
Lemma kept_app rs1 rs2 : kept (rs1 ++ rs2) = kept rs1 ++ kept rs2.
Proof. apply list.filter_app. Qed.

(** one turn of the loop *)
Lemma removeGI_turn fuel b K r rs next : linked b (K ++ r :: rs) next ->
  exists b', rb_isOverflow b' = rb_isOverflow b /\
    if is_GI r then linked b' (K ++ rs) (if next =? address r then head_address rs else next) /\
                    removeGI_loop (S fuel) b (address r) (last_address K) = removeGI_loop fuel b' (head_address rs) (last_address K)
    else linked b' ((K ++ [r]) ++ rs) next /\ removeGI_loop (S fuel) b (address r) (last_address K) = removeGI_loop fuel b' (head_address rs) (last_address (K ++ [r])).
Proof.
  intros Hl. pose proof Hl as [(Hb & _ & _) Hc Hring _ _ _]. pose proof (address_pos r _ Hring ltac:(apply elem_of_app; right; by left)).
  pose proof Hc as Hsplit. apply chain_app in Hsplit as (q & HK & (-> & nx & Hr & Hnx & Hrs)). pose proof (chain_head _ _ _ Hrs) as ->.
  assert (report_ok r) as Hok.
  { pose proof (ring_all _ Hring) as Hall. rewrite List.Forall_forall in Hall. apply (Hall r). apply in_or_app. right. by left. }
  cbn [removeGI_loop]. rewrite (proj2 (Z.eqb_neq (address r) 0)) by lia. destruct (entry_bits_holds b r _ Hb Hok Hr) as [_ ->]. cbn [mbind option_bind].
  change (negb (Z.land (rp_flags r) 2 =? 0)) with (is_GI r). destruct (is_GI r).
  - destruct (remove_GI_spec b K r rs next Hl) as (b' & -> & Hl' & Ho & Hh). cbn [mbind option_bind].
    rewrite (entry_next_holds b' r (head_address rs)) by (apply Hl' || auto). by exists b'.
  - cbn [mbind option_bind]. rewrite (entry_next_holds b r _ Hb Hr Hnx). cbn [mbind option_bind]. exists b. rewrite last_address_snoc, <- app_assoc. by split_and!.
Qed.

(** the reports behind the next to send *)
Lemma removeGI_pending rs : forall fuel b K Ks Kp, linked b (K ++ rs) (head_address (Kp ++ rs)) -> K = Ks ++ Kp -> (length rs < fuel)%nat ->
  exists b', removeGI_loop fuel b (head_address rs) (last_address K) = Some b' /\ linked b' (K ++ kept rs) (head_address (Kp ++ kept rs)) /\
    rb_isOverflow b' = rb_isOverflow b.
Proof.
  induction rs as [|r rs IH]; intros fuel b K Ks Kp Hl HK Hf; (destruct fuel as [|fuel]; [lia|]); [by exists b|].
  destruct (removeGI_turn fuel b K r rs _ Hl) as (b1 & Ho & H1). rewrite kept_cons. cbn [head_address]. cbn in Hf. destruct (is_GI r).
  - destruct H1 as [Hl1 ->]. rewrite <- Ho. apply (IH fuel b1 K Ks Kp); [|done|lia].
    assert ((if head_address (Kp ++ r :: rs) =? address r then head_address rs else head_address (Kp ++ r :: rs)) = head_address (Kp ++ rs)) as <-; [|done].
    destruct Kp as [|k Kp]; [cbn; by rewrite Z.eqb_refl|]. cbn. destruct (Z.eqb_spec (address k) (address r)) as [E|]; [|done]. exfalso. symmetry in E. revert E.
    apply (address_ne k (Kp ++ r :: rs)); [|apply elem_of_app; right; by left]. subst K. pose proof (ln_ring _ _ _ Hl) as Hring. rewrite <- app_assoc in Hring.
    eapply ring_sublist; [|exact Hring]. by apply sublist_inserts_l.
  - destruct H1 as [Hl1 ->]. rewrite <- Ho. destruct (IH fuel b1 (K ++ [r]) Ks (Kp ++ [r])) as (b' & -> & Hl' & Ho'); [by rewrite <- (app_assoc Kp)|by rewrite HK, app_assoc|lia|].
    exists b'. rewrite <- !app_assoc in Hl'. done.
Qed.

Lemma removeGI_sent rs pending : forall fuel b K, linked b (K ++ rs ++ pending) (head_address pending) -> (length (rs ++ pending) < fuel)%nat ->
  exists b', removeGI_loop fuel b (head_address (rs ++ pending)) (last_address K) = Some b' /\
    linked b' (K ++ kept rs ++ kept pending) (head_address (kept pending)) /\ rb_isOverflow b' = rb_isOverflow b.
Proof.
  induction rs as [|r rs IH]; intros fuel b K Hl Hf; [by apply (removeGI_pending pending fuel b K K [] Hl); [rewrite app_nil_r|]|].
  destruct fuel as [|fuel]; [lia|]. cbn [app] in *. destruct (removeGI_turn fuel b K r (rs ++ pending) _ Hl) as (b1 & Ho & H1). rewrite kept_cons. cbn [head_address]. cbn in Hf.
  destruct (is_GI r).
  - destruct H1 as [Hl1 ->]. rewrite <- Ho. apply (IH fuel b1 K); [|lia].
    destruct (Z.eqb_spec (head_address pending) (address r)) as [E|]; [|done]. exfalso. revert E. pose proof (ln_ring _ _ _ Hl) as Hring.
    pose proof (address_pos r _ Hring ltac:(apply elem_of_app; right; by left)). destruct pending as [|p pending]; [cbn; lia|]. cbn.
    apply (address_ne r (rs ++ p :: pending)); [|apply elem_of_app; right; by left]. eapply ring_sublist; [|exact Hring]. by apply sublist_inserts_l.
  - destruct H1 as [Hl1 ->]. rewrite <- Ho. destruct (IH fuel b1 (K ++ [r])) as (b' & -> & Hl' & Ho'); [done|lia|].
    exists b'. rewrite <- !app_assoc in Hl'. done.
Qed.

(** * Buffers *)

(** a buffer with the reports that were sent and those that wait *)
Definition rep (b : ReportBuffer) (sent pending : list Report) : Prop := linked b (sent ++ pending) (head_address pending).

Lemma removeAllGI_spec b sent pending : rep b sent pending ->
  exists b', removeAllGIReportsFromReportBuffer b = Some b' /\ rep b' (kept sent) (kept pending) /\ rb_isOverflow b' = rb_isOverflow b.
Proof.
  intros Hl. pose proof (ring_length _ (ln_ring _ _ _ Hl)) as Hlen. destruct (ln_block _ _ _ Hl) as (_ & _ & Hz).
  unfold removeAllGIReportsFromReportBuffer. rewrite (chain_head _ _ _ (ln_chain _ _ _ Hl)).
  destruct (removeGI_sent sent pending (S (length (rb_memory b))) b [] Hl) as (b' & E & Hl' & Ho).
  { pose proof (zlen_nonneg (sent ++ pending)). unfold zlen in *. lia. }
  change (last_address []) with 0 in E. rewrite E. cbn [mbind option_bind]. cbn [app] in Hl'. exists b'. split_and!; [|done|done]. f_equal.
  destruct (Z.eqb_spec (rb_oldestReport b') 0) as [E0|]; [|done]. destruct Hl' as [_ Hc Hring Hlast _ _]. rewrite (chain_head _ _ _ Hc) in E0.
  destruct (kept sent ++ kept pending) as [|r rs]; [|cbn in E0; pose proof (address_pos r _ Hring ltac:(by left)); lia]. change (last_address []) with 0 in Hlast. destruct b'; cbn in *. by subst.
Qed.
Lemma rep_queue b sent pending : rep b sent pending -> queue b sent pending.
Proof. intros [H1 H2 H3 H4 H5 H6]. constructor; done. Qed.
End Block.

(** * The place of a new report *)

Section Place.
Context (base size : Z).
Hypothesis Hbase : 0 < base.
Hypothesis Hend : base + size < 18446744073709551616.

Notation address := (address base).
Notation chain := (chain base).
Notation ring := (ring size).
Notation queue := (queue base size).
Notation rep := (rep base size).
Notation last_address := (last_address base).

(** the reports [rs] stay, and one of [n] bytes can be written at [pos] behind them *)
Record placed (b : ReportBuffer) (pos n : Z) (rs : list Report) : Prop := mkPlaced {
  pl_block : rb_memoryBlock b = base /\ rb_memoryBlockSize b = size /\ zlen (rb_memory b) = size;
  pl_bounds : 0 <= pos /\ pos + n <= size;
  pl_chain : match rs with [] => rb_oldestReport b = base + pos \/ rb_oldestReport b = 0 | _ => chain (rb_memory b) rs (rb_oldestReport b) (base + pos) end;
  pl_ring : forall r, rp_pos r = pos -> rp_len r = n -> report_ok r -> ring (rs ++ [r]);
  pl_count : rb_reportsCount b = zlen rs
}.

Definition next_ok (b : ReportBuffer) (pos : Z) (pending : list Report) : Prop :=
  match pending with [] => rb_nextToTransmit b = base + pos \/ rb_nextToTransmit b = 0 | r :: _ => rb_nextToTransmit b = address r end.

(** * Suffixes *)

Lemma asc_from lo hi rs r rest : asc lo hi rs -> (exists k, drop k rs = r :: rest) -> asc (rp_pos r) hi (r :: rest).
Proof.
  intros H [k Hk]. assert (asc lo hi (r :: rest)) as (_ & Hr & Hrest); [|split_and!; [lia|done..]].
  rewrite <- Hk. eapply asc_sublist; [apply sublist_drop|done].
Qed.
Lemma asc_snoc lo hi rs r : asc lo (rp_pos r) rs -> report_ok r -> rp_end r <= hi -> asc lo hi (rs ++ [r]).
Proof. intros H Hr Hh. apply asc_app. exists (rp_pos r). split; [done|]. split_and!; [lia|done..]. Qed.
Lemma ring_two upper lower m : asc m size upper -> asc 0 m lower -> ring (upper ++ lower).
Proof. intros. right. by exists upper, lower, m. Qed.

(** the last report stays, or none *)
Lemma drop_snoc {A} k (l : list A) x : drop k (l ++ [x]) = [] \/ exists l', drop k (l ++ [x]) = l' ++ [x].
Proof.
  rewrite drop_app. destruct (k - length l)%nat eqn:E; [right; exists (drop k l); by rewrite drop_0|]. left.
  rewrite drop_ge by lia. cbn. by rewrite drop_nil.
Qed.

Lemma in_block rs r : ring rs -> r ∈ rs -> 0 <= rp_pos r /\ rp_pos r + 32 <= rp_end r /\ rp_end r <= size /\ report_ok r.
Proof.
  intros H Hr. pose proof (ring_all _ _ H) as Hall. rewrite List.Forall_forall in Hall. apply list_elem_of_In in Hr. destruct (Hall r Hr) as (? & ? & Hok).
  pose proof (rp_len_pos r Hok). tauto.
Qed.

(** the link of the last report, which may have been removed *)
Lemma relink b rs l pos : rb_memoryBlock b = base -> zlen (rb_memory b) = size -> 0 <= rp_pos l -> rp_pos l + 32 <= size -> 0 <= pos < size ->
  ring rs -> (rs = [] \/ (exists rs', rs = rs' ++ [l]) /\ chain (rb_memory b) rs (rb_oldestReport b) 0) ->
  exists m', set_entry_next b (address l) (base + pos) = Some (rb_with_memory m' b) /\ zlen m' = size /\
    (rs <> [] -> chain m' rs (rb_oldestReport b) (base + pos)).
Proof.
  intros Hb Hz Hl0 Hl1 Hp Hring Hrs. destruct (set_entry_next_spec base b l (base + pos)) as (m' & -> & Ht & Hld); [done|done|lia|].
  exists m'. split; [done|]. split; [destruct Ht; congruence|]. intros Hne. destruct Hrs as [|[[rs' ->] Hc]]; [done|].
  destruct (in_block _ l Hring) as (_ & _ & _ & Hok); [apply elem_of_app; right; by left|].
  pose proof (ring_all _ _ Hring) as Hall. apply Forall_app in Hall as [Hall _]. pose proof (ring_apart _ _ Hring) as Ha. apply pairs_app in Ha as (_ & _ & Ha).
  eapply chain_link; [exact Ht|exact Hld|lia|done| | |exact Hc].
  - eapply List.Forall_impl; [|exact Hall]. tauto.
  - eapply List.Forall_impl; [|exact Ha]. intros r0 H0. inversion H0; subst. done.
Qed.

(** * The cases *)

Definition place_result (b : ReportBuffer) (n : Z) (sent pending : list Report) (r : option (ReportBuffer * Z * bool)) : Prop :=
  exists k b' pos ov, r = Some (b', base + pos, ov) /\ placed b' pos n (drop k (sent ++ pending)) /\
    next_ok b' pos (drop (k - length sent) pending) /\ rb_isOverflow b' = rb_isOverflow b || ov /\
    ov = loses k sent && negb (length (sent ++ pending) =? 1)%nat /\
    (asc 0 (size - n) (sent ++ pending) -> k = 0%nat).

Lemma asc_last lo hi rs l : asc lo hi (rs ++ [l]) -> rp_end l <= hi.
Proof. intros H. pose proof (asc_all _ _ _ H) as Hall. apply Forall_app in Hall as [_ Hall]. inversion Hall; subst. tauto. Qed.

Lemma behind_last_spec b rs l : rb_memoryBlock b = base -> rb_lastEnqueuedReport b = address l -> ring (rs ++ [l]) ->
  chain (rb_memory b) (rs ++ [l]) (rb_oldestReport b) 0 -> behind_last b = Some (base + rp_end l).
Proof.
  intros Hb Hl Hring Hc. destruct (in_block _ l Hring) as (_ & _ & _ & Hok); [apply elem_of_app; right; by left|].
  apply chain_app in Hc as (q & _ & (_ & next & Hh & _)). unfold behind_last. rewrite Hl. destruct (entry_bits_holds base b l next Hb Hok Hh) as [-> _].
  cbn. f_equal. unfold address, rp_end. lia.
Qed.

Lemma ring_one r : 0 <= rp_pos r -> rp_end r <= size -> report_ok r -> ring [r].
Proof. intros. left. by split_and!. Qed.
Lemma asc_of_one x : ring [x] -> asc 0 size [x].
Proof. intros H. destruct (in_block _ x H) as (? & ? & ? & ?); [by left|]. by split_and!. Qed.

(** an empty buffer *)
Lemma place_empty b n : rep b [] [] -> 32 <= n <= size -> place_result b n [] [] (place_report b n).
Proof.
  intros [Hb Hc Hr Hl Hcount Hn] Hsz. unfold place_report. rewrite Hl. cbn [Z.eqb]. exists 0%nat. do 3 eexists. replace (rb_memoryBlock b) with (base + 0) by (destruct Hb; lia).
  split; [done|]. split; [|split; [destruct b; by left|destruct b; rewrite orb_false_r; by split_and!]]. destruct b; cbn in *. constructor; cbn; try done; [lia|by left|].
  intros r Hp Hlen Hok. apply ring_one; unfold rp_end; done || lia.
Qed.

(** a single report *)
Lemma place_single b n sent pending x : rep b sent pending -> sent ++ pending = [x] -> 32 <= n <= size -> place_result b n sent pending (place_report b n).
Proof.
  intros [Hb Hc Hr Hl Hcount Hn] Eq Hsz. pose proof Hb as (Hb1 & Hb2 & Hz). rewrite Eq in *. destruct (in_block _ x Hr) as (Hx0 & Hx1 & Hx2 & Hok); [by left|].
  pose proof (address_pos base size Hbase Hend x _ Hr ltac:(by left)) as Hax. change (last_address [x]) with (address x) in Hl.
  pose proof (chain_head base _ _ _ Hc) as Ho. cbn in Ho.
  unfold place_report. rewrite Hl, Ho, Hcount, Z.eqb_refl, (proj2 (Z.eqb_neq (address x) 0)) by lia. change (zlen [x]) with 1. cbn [Z.eqb negb].
  rewrite (behind_last_spec b [] x Hb1 Hl Hr Hc). cbn [mbind option_bind]. unfold behind_block. rewrite Hb1, Hb2. destruct (Z.ltb_spec (base + size) (base + rp_end x + n)).
  - set (b0 := rb_with_oldest base (rb_with_count 0 b)).
    destruct (st_range_touches (rb_memory b) 24 (le_bytes 8 0)) as (m' & Est & [Hz' _] & _); [lia|rewrite zlen_le_bytes; lia|].
    assert (set_entry_next b0 (rb_oldestReport b0) 0 = Some (rb_with_memory m' b0)) as ->.
    { unfold set_entry_next, set_entry_field, b0. destruct b; cbn in *. rewrite Hb1. replace (base - base + 24) with 24 by lia. by rewrite Est. }
    cbn [mbind option_bind]. exists 1%nat. do 3 eexists. replace base with (base + 0) at 1 by lia. split; [done|]. rewrite Eq. split; [|split_and!].
    + subst b0. destruct b; cbn in *. constructor; cbn; [split_and!; done || congruence|lia|left; lia| |done]. intros r Hp Hlen Hokr. apply ring_one; unfold rp_end; done || lia.
    + subst b0. assert (drop (1 - length sent) pending = []) as -> by (destruct sent as [|? []], pending as [|? []]; done). destruct b. by right.
    + subst b0. destruct b. by rewrite orb_false_r.
    + by rewrite andb_false_r.
    + intros Hfit. apply (asc_last 0 (size - n) []) in Hfit. lia.
  - assert ((if rb_nextToTransmit b =? address x then rb_with_next (address x) b else b) = b) as ->.
    { destruct (Z.eqb_spec (rb_nextToTransmit b) (address x)) as [E|]; [|done]. destruct b; cbn in *. by rewrite E. }
    assert (rb_with_oldest (rb_lastEnqueuedReport b) b = b) as -> by (destruct b; cbn in *; congruence). rewrite Ho.
    destruct (relink b [x] x (rp_end x)) as (m' & -> & Hz' & Hc'); [done|done|done|lia|lia|done|right; split; [by exists []|done]|].
    cbn [mbind option_bind]. exists 0%nat. do 3 eexists. split; [done|]. rewrite Eq, drop_0. split; [|split_and!].
    + specialize (Hc' ltac:(done)). destruct b; cbn in *. constructor; cbn; [by split_and!|lia|done| |done].
      intros r Hp Hlen Hokr. left. apply (asc_snoc 0 size [x]); [|done|unfold rp_end; lia]. split_and!; [lia|done|cbn; lia].
    + rewrite drop_0. destruct pending; [right; by destruct b|by destruct b].
    + destruct b. by rewrite orb_false_r.
    + by rewrite andb_false_r.
    + done.
Qed.

Lemma ring_cases rs : ring rs -> asc 0 size rs \/
  exists upper lower m, rs = upper ++ lower /\ upper <> [] /\ lower <> [] /\ asc m size upper /\ asc 0 m lower.
Proof.
  intros [H|(u & l & m & -> & Hu & Hl)]; [by left|]. pose proof (asc_le _ _ _ Hu). pose proof (asc_le _ _ _ Hl). destruct u as [|x u].
  - left. eapply asc_wider; [exact Hl|lia..].
  - destruct l as [|y l]; [|right; by exists (x :: u), (y :: l), m]. left. rewrite app_nil_r. eapply asc_wider; [exact Hu|lia..].
Qed.

(** the new report is linked behind those that stay *)
Lemma place_link b rs l pos n rest pending : rb_memoryBlock b = base -> rb_memoryBlockSize b = size -> zlen (rb_memory b) = size ->
  rb_lastEnqueuedReport b = address l -> ring (rs ++ [l]) -> (exists k, rest = drop k (rs ++ [l])) ->
  match rest with [] => rb_oldestReport b = base + pos \/ rb_oldestReport b = 0 | _ => chain (rb_memory b) rest (rb_oldestReport b) 0 end ->
  rb_reportsCount b = zlen rest -> rb_nextToTransmit b = head_address base pending -> 32 <= n -> 0 <= pos -> pos + n <= size ->
  (forall r, rp_pos r = pos -> rp_len r = n -> report_ok r -> ring (rest ++ [r])) ->
  exists b', set_entry_next b (rb_lastEnqueuedReport b) (base + pos) = Some b' /\ placed b' pos n rest /\ next_ok b' pos pending /\ rb_isOverflow b' = rb_isOverflow b.
Proof.
  intros Hb1 Hb2 Hz Hlast Hring [k Hk] Hc Hcount Hnext Hn Hp Hpn Hnew. rewrite Hlast.
  destruct (in_block _ l Hring) as (Hl0 & Hl1 & Hl2 & _); [apply elem_of_app; right; by left|].
  assert (ring rest) as Hrest by (rewrite Hk; eapply ring_sublist; [apply sublist_drop|done]).
  destruct (relink b rest l pos) as (m' & -> & Hz' & Hc'); [done|done|done|lia|lia|done| |].
  { destruct (drop_snoc k rs l) as [E|[rs' E]]; rewrite E in Hk; subst rest; [by left|]. right. split; [by exists rs'|]. by destruct rs'. }
  eexists. split; [done|]. split_and!; [|destruct pending, b; cbn in *; (done || by right)|by destruct b].
  destruct b; cbn in *. constructor; cbn; try done. destruct rest; [done|]. by apply Hc'.
Qed.

(** reports in one run, the last one above the oldest *)
Lemma place_above b n sent pending rs l : rep b sent pending -> sent ++ pending = rs ++ [l] -> rs <> [] -> asc 0 size (rs ++ [l]) -> 32 <= n <= size ->
  place_result b n sent pending (place_report b n).
Proof.
  intros Hrep Eq Hne Hasc Hsz. pose proof (rep_queue _ _ _ _ _ Hrep) as Hq. destruct Hrep as [Hb Hc Hr Hl Hcount Hn]. pose proof Hb as (Hb1 & Hb2 & Hz). rewrite Eq in *.
  unfold place_result. rewrite Eq, length_app. replace (length rs + length [l] =? 1)%nat with false by (symmetry; apply Nat.eqb_neq; cbn; destruct rs; [done|cbn; lia]).
  rewrite last_address_snoc in Hl. pose proof (chain_head base _ _ _ Hc) as Ho.
  destruct (in_block _ l Hr) as (Hl0 & Hl1 & Hl2 & Hokl); [apply elem_of_app; right; by left|].
  pose proof (address_pos base size Hbase Hend l _ Hr ltac:(apply elem_of_app; right; by left)) as Hal.
  assert (0 < rb_oldestReport b < address l) as Hlt.
  { rewrite Ho. destruct rs as [|h rs]; [done|]. cbn in Hasc |- *. destruct Hasc as (Hh & Hokh & Hasc). apply asc_app in Hasc as (m & Hm & (Hml & _ & _)).
    pose proof (asc_le _ _ _ Hm). pose proof (rp_len_pos h Hokh). unfold address. lia. }
  unfold place_report. rewrite Hl, (proj2 (Z.eqb_neq (address l) 0)), (proj2 (Z.eqb_neq (rb_oldestReport b) 0)), (proj2 (Z.eqb_neq (address l) (rb_oldestReport b))), (proj2 (Z.ltb_lt (rb_oldestReport b) (address l))) by lia.
  rewrite (behind_last_spec b rs l) by done. cbn [mbind option_bind]. unfold behind_block. rewrite Hb1, Hb2.
  destruct (Z.ltb_spec (base + size) (base + rp_end l + n)).
  - destruct (remove_reports_spec base size Hbase Hend (fun oldest => oldest <? base + n) b sent pending false Hq) as (k & b1 & -> & [Hq1 Hm1 Hl1' Ho1] & _ & Hstop).
    rewrite Eq in Hstop. destruct Hq1 as [Hbk Hc1 Hn1 Hcount1 Hr1]. rewrite drop_both, Eq in *. destruct Hbk as (Hbk1 & Hbk2 & Hbk3). cbn [mbind option_bind orb].
    pose proof (chain_head base _ _ _ Hc1) as Hold1.
    assert (exists b2, (if rb_oldestReport b1 =? 0 then set_entry_next (rb_with_oldest base b1) base 0 else Some b1) = Some b2 /\
      (rb_memoryBlock b2 = base /\ rb_memoryBlockSize b2 = size /\ zlen (rb_memory b2) = size) /\ rb_lastEnqueuedReport b2 = rb_lastEnqueuedReport b1 /\
      rb_reportsCount b2 = rb_reportsCount b1 /\ rb_nextToTransmit b2 = rb_nextToTransmit b1 /\ rb_isOverflow b2 = rb_isOverflow b1 /\
      match drop k (rs ++ [l]) with [] => rb_oldestReport b2 = base + 0 \/ rb_oldestReport b2 = 0 | _ => chain (rb_memory b2) (drop k (rs ++ [l])) (rb_oldestReport b2) 0 end)
      as (b2 & -> & (H2a & H2b & H2c) & H2d & H2e & H2f & H2g & H2h).
    { destruct (drop k (rs ++ [l])) as [|h rest] eqn:Ed.
      - rewrite Hold1. cbn [head_address Z.eqb]. destruct (st_range_touches (rb_memory b1) 24 (le_bytes 8 0)) as (m' & Est & [Hz' _] & _); [lia|rewrite zlen_le_bytes; lia|].
        exists (rb_with_memory m' (rb_with_oldest base b1)). unfold set_entry_next, set_entry_field. destruct b1; cbn in *. rewrite Hbk1. replace (base - base + 24) with 24 by lia. rewrite Est.
        split_and!; try done; [congruence|left; lia].
      - exists b1. pose proof (address_pos base size Hbase Hend h _ Hr1 ltac:(by left)). rewrite Hold1 at 1. cbn [head_address]. rewrite (proj2 (Z.eqb_neq (address h) 0)) by lia. by split_and!. }
    cbn [mbind option_bind].
    destruct (place_link b2 rs l 0 n (drop k (rs ++ [l])) (drop (k - length sent) pending)) as (b' & E & Hp & Hno & Hov);
      [done|done|done|congruence|done|by exists k|done|congruence|rewrite H2f, Hn1; by destruct (drop _ pending)|lia..| |].
    { intros r Hp Hlen Hokr. destruct (drop k (rs ++ [l])) as [|h rest] eqn:Ed; [apply ring_one; unfold rp_end; done || lia|].
      apply Z.ltb_ge in Hstop. apply (ring_two (h :: rest) [r] n); [|split_and!; [lia|done|unfold rp_end; cbn; lia]].
      eapply asc_wider; [eapply asc_from; [exact Hasc|by exists k]| |lia]. unfold address in Hstop. lia. }
    rewrite Z.add_0_r in E. rewrite E. cbn [mbind option_bind]. exists k, b', 0, (loses k sent). rewrite Z.add_0_r.
    split_and!; [done|done|done|congruence|by rewrite andb_true_r|]. intros Hfit. apply asc_last in Hfit. lia.
  - destruct (place_link b rs l (rp_end l) n (rs ++ [l]) pending) as (b' & E & Hp & Hno & Hov); [done|done|done|done|done|by exists 0%nat|by destruct rs|done|done|lia..| |].
    { intros r Hp Hlen Hokr. left. apply asc_snoc; [|done|unfold rp_end; lia]. apply asc_app in Hasc as (m & Hm & (Hml & _ & _)). apply asc_app. exists m. split; [done|]. split_and!; [done|done|cbn; lia]. }
    cbn [mbind option_bind]. rewrite E. cbn [mbind option_bind]. exists 0%nat, b', (rp_end l), false. rewrite !drop_0, orb_false_r. by split_and!.
Qed.

(** suffixes of two runs *)
Lemma drop_two {A} k (u l : list A) : (exists u', u' <> [] /\ drop k (u ++ l) = u' ++ l /\ u' = drop k u) \/ (exists j, drop k (u ++ l) = drop j l).
Proof.
  rewrite drop_app. destruct (drop k u) as [|x u'] eqn:E; [right; by exists (k - length u)%nat|]. left. exists (x :: u').
  assert (k < length u)%nat by (destruct (decide (k < length u)%nat); [done|]; rewrite drop_ge in E by lia; done).
  replace (k - length u)%nat with 0%nat by lia. by rewrite drop_0.
Qed.

Lemma drop_head {A} k (l : list A) x rest : x :: rest = drop k l -> x ∈ l.
Proof. intros H. rewrite <- (take_drop k l), <- H. apply elem_of_app. right. by left. Qed.

(** the run that stays after a wrap: it lies above the new report *)
Lemma lower_rest lower m k h rest n r : asc 0 m lower -> m <= size -> drop k lower = h :: rest -> n <= rp_pos h ->
  rp_pos r = 0 -> rp_len r = n -> report_ok r -> ring ((h :: rest) ++ [r]).
Proof.
  intros Hl Hm Hd Hn Hp Hlen Hok. apply (ring_two (h :: rest) [r] n); [|split_and!; [lia|done|unfold rp_end; cbn; lia]].
  eapply asc_wider; [eapply asc_from; [exact Hl|by exists k]|lia..].
Qed.

Lemma loses_add k1 k2 sent : loses k1 sent || loses k2 (drop k1 sent) = loses (k1 + k2) sent.
Proof. unfold loses. rewrite length_drop. apply eq_true_iff_eq. rewrite orb_true_iff, !Nat.ltb_lt. lia. Qed.

Lemma removed_trans k1 k2 b b1 b2 sent pending : removed base size k1 b b1 sent pending ->
  removed base size k2 b1 b2 (drop k1 sent) (drop (k1 - length sent) pending) -> removed base size (k1 + k2) b b2 sent pending.
Proof.
  intros [Hq1 Hm1 Hl1 Ho1] [Hq2 Hm2 Hl2 Ho2]. constructor; [|congruence..|by rewrite Ho2, Ho1, <- orb_assoc, loses_add].
  rewrite !drop_drop in Hq2. replace (k1 + k2 - length sent)%nat with (k1 - length sent + (k2 - length (drop k1 sent)))%nat by (rewrite length_drop; lia). exact Hq2.
Qed.

(** the two ways of making room below the oldest report: at the start of the block, and
    behind the last report *)
Section Room.
Context (upper lower : list Report) (l : Report) (m n : Z).
Hypothesis Hu : asc m size upper.
Hypothesis Hlo : asc 0 m (lower ++ [l]).

Lemma upper_high x : x ∈ upper -> m <= rp_pos x.
Proof. intros Hx. pose proof (asc_all _ _ _ Hu) as Hall. rewrite List.Forall_forall in Hall. apply (Hall x). by apply list_elem_of_In. Qed.
Lemma last_low : rp_pos l + 32 <= rp_end l /\ rp_end l <= m /\ 0 <= rp_pos l /\ report_ok l /\ asc 0 (rp_end l) (lower ++ [l]).
Proof.
  pose proof Hlo as H. apply asc_app in H as (m1 & Hm1 & (Ha & Hb & Hc)). pose proof (asc_le _ _ _ Hm1). cbn in Hc. pose proof (rp_len_pos l Hb).
  split_and!; try done; try lia. apply asc_app. exists m1. split; [done|]. split_and!; done || (cbn; lia).
Qed.

Lemma room_at_start k1 k2 r : n <= size ->
  match drop k1 (upper ++ lower ++ [l]) with [] => True | h :: _ => rp_pos h <= 0 end ->
  match drop (k1 + k2) (upper ++ lower ++ [l]) with [] => True | h :: _ => n <= rp_pos h end ->
  rp_pos r = 0 -> rp_len r = n -> report_ok r -> ring (drop (k1 + k2) (upper ++ lower ++ [l]) ++ [r]).
Proof.
  intros Hsz H1 H2 Hp Hlen Hok. rewrite <- drop_drop in *. destruct last_low as (? & ? & ? & _). pose proof (asc_le _ _ _ Hu).
  destruct (drop_two k1 upper (lower ++ [l])) as [(u' & Hne & E & Eu)|[j E]]; rewrite E in *.
  - exfalso. destruct u' as [|h u']; [done|]. cbn in H1. pose proof (upper_high h (drop_head _ _ _ _ Eu)). lia.
  - rewrite drop_drop in *. destruct (drop (j + k2) (lower ++ [l])) as [|h rest] eqn:Ed; [apply ring_one; unfold rp_end; done || lia|].
    by eapply (lower_rest (lower ++ [l]) m).
Qed.
Lemma room_behind k r : rp_end l + n <= size ->
  match drop k (upper ++ lower ++ [l]) with [] => True | h :: _ => rp_end l + n <= rp_pos h \/ rp_pos h = 0 end ->
  rp_pos r = rp_end l -> rp_len r = n -> report_ok r -> ring (drop k (upper ++ lower ++ [l]) ++ [r]).
Proof.
  intros Hsz H1 Hp Hlen Hok. destruct last_low as (? & ? & ? & _ & Hasc). assert (rp_end r = rp_end l + n) as He by (unfold rp_end in *; lia).
  destruct (drop_two k upper (lower ++ [l])) as [(u' & Hne & E & Eu)|[j E]]; rewrite E in *.
  - destruct u' as [|h u']; [done|]. cbn in H1. pose proof (upper_high h (drop_head _ _ _ _ Eu)).
    rewrite <- (assoc_L (++)). apply (ring_two (h :: u') ((lower ++ [l]) ++ [r]) (rp_end r)).
    + eapply asc_wider; [eapply asc_from; [exact Hu|by exists k]|lia..].
    + apply asc_snoc; [by rewrite Hp|done|lia].
  - left. apply asc_snoc; [|done|lia]. rewrite Hp. eapply asc_sublist; [apply sublist_drop|done].
Qed.
End Room.

(** what the two ways of making room leave: the reports, and the new one behind them *)
Lemma place_below b n sent pending upper lower l m : rep b sent pending -> sent ++ pending = upper ++ lower ++ [l] -> upper <> [] ->
  asc m size upper -> asc 0 m (lower ++ [l]) -> 32 <= n <= size -> place_result b n sent pending (place_report b n).
Proof.
  intros Hrep Eq Hne Hu Hlo Hsz. pose proof (rep_queue _ _ _ _ _ Hrep) as Hq. destruct Hrep as [Hb Hc Hr Hl Hcount Hn]. pose proof Hb as (Hb1 & Hb2 & Hz). rewrite Eq in *.
  unfold place_result. rewrite Eq, !length_app. replace (length upper + (length lower + length [l]) =? 1)%nat with false by (symmetry; apply Nat.eqb_neq; cbn; destruct upper; [done|cbn; lia]).
  rewrite app_assoc in *. rewrite last_address_snoc in Hl. pose proof (chain_head base _ _ _ Hc) as Ho. pose proof (asc_le _ _ _ Hu) as Hms.
  pose proof (address_pos base size Hbase Hend l _ Hr ltac:(apply elem_of_app; right; by left)) as Hal.
  destruct (last_low lower l m Hlo) as (Hl1 & Hl2 & Hl0 & Hokl & _). pose proof (upper_high upper m Hu) as Hupper.
  assert (address l < rb_oldestReport b) as Hlt.
  { rewrite Ho. destruct upper as [|h upper]; [done|]. cbn. pose proof (Hupper h ltac:(by left)). unfold address. lia. }
  unfold place_report. rewrite Hl, (proj2 (Z.eqb_neq (address l) 0)), (proj2 (Z.eqb_neq (rb_oldestReport b) 0)), (proj2 (Z.eqb_neq (address l) (rb_oldestReport b))), (proj2 (Z.ltb_ge (rb_oldestReport b) (address l))) by lia.
  rewrite (behind_last_spec b (upper ++ lower) l) by done. cbn [mbind option_bind]. unfold behind_block. rewrite Hb1, Hb2.
  assert (exists k b1 pos, (if base + size <? base + rp_end l + n then
       '(b, overflow) ← remove_reports (fun oldest => base <? oldest) b false;
       '(b, overflow) ← remove_reports (fun oldest => oldest <? base + n) b overflow; Some (b, base, overflow)
     else '(b, overflow) ← remove_reports (fun oldest => (oldest <? base + rp_end l + n) && negb (oldest =? base)) b false; Some (b, base + rp_end l, overflow)) =
     Some (b1, base + pos, loses k sent) /\ removed base size k b b1 sent pending /\ 0 <= pos /\ pos + n <= size /\
     forall r, rp_pos r = pos -> rp_len r = n -> report_ok r -> ring (drop k ((upper ++ lower) ++ [l]) ++ [r])) as (k & b1 & pos & -> & Hrm & Hp0 & Hp1 & Hnew).
  { destruct (Z.ltb_spec (base + size) (base + rp_end l + n)).
    - destruct (remove_reports_spec base size Hbase Hend (fun oldest => base <? oldest) b sent pending false Hq) as (k1 & b1 & -> & Hrm1 & _ & Hs1). cbn [mbind option_bind orb].
      destruct (remove_reports_spec base size Hbase Hend (fun oldest => oldest <? base + n) b1 _ _ (loses k1 sent) (rm_queue _ _ _ _ _ _ _ Hrm1)) as (k2 & b2 & -> & Hrm2 & _ & Hs2).
      cbn [mbind option_bind]. rewrite drop_both, drop_drop in Hs2. rewrite Eq, <- (assoc_L (++)) in Hs1, Hs2. rewrite loses_add. exists (k1 + k2)%nat, b2, 0. rewrite Z.add_0_r.
      split_and!; [done|by eapply removed_trans|lia|lia|]. intros r. rewrite <- (assoc_L (++)). apply (room_at_start upper lower l m n Hu Hlo); [lia| |].
      + destruct (drop k1 _); [done|]. apply Z.ltb_ge in Hs1. unfold address in Hs1. lia.
      + destruct (drop (k1 + k2) _); [done|]. apply Z.ltb_ge in Hs2. unfold address in Hs2. lia.
    - destruct (remove_reports_spec base size Hbase Hend (fun oldest => (oldest <? base + rp_end l + n) && negb (oldest =? base)) b sent pending false Hq) as (k & b1 & -> & Hrm & _ & Hs).
      cbn [mbind option_bind orb]. rewrite Eq, <- (assoc_L (++)) in Hs. exists k, b1, (rp_end l). split_and!; [done|done|lia|lia|]. intros r. rewrite <- (assoc_L (++)).
      apply (room_behind upper lower l m n Hu Hlo); [lia|]. destruct (drop k _); [done|]. unfold address in Hs. lia. }
  cbn [mbind option_bind]. destruct Hrm as [[(Hbk1 & Hbk2 & Hbk3) Hc1 Hn1 Hcount1 Hr1] Hm1 Hl1' Ho1]. rewrite drop_both, Eq in *.
  destruct (place_link b1 (upper ++ lower) l pos n (drop k ((upper ++ lower) ++ [l])) (drop (k - length sent) pending)) as (b' & E & Hp & Hno & Hov);
    [done|done|done|congruence|done|by exists k| |done|rewrite Hn1; by destruct (drop _ pending)|lia|done|done|done|].
  { destruct (drop k ((upper ++ lower) ++ [l])); [by right|done]. }
  rewrite E. cbn [mbind option_bind]. exists k, b', pos, (loses k sent). split_and!; [done|done|done|congruence|by rewrite andb_true_r|].
  intros Hfit. exfalso. destruct upper as [|h upper]; [done|]. cbn in Hfit. destruct Hfit as (_ & Hh & Hfit). pose proof (Hupper h ltac:(by left)). apply asc_app in Hfit as (m2 & Hm2 & (Hml & _)).
  pose proof (asc_le _ _ _ Hm2). pose proof (rp_len_pos h Hh). lia.
Qed.

Lemma place_spec b n sent pending : rep b sent pending -> 32 <= n <= size -> place_result b n sent pending (place_report b n).
Proof.
  intros Hrep Hn. pose proof (ln_ring _ _ _ _ _ Hrep) as Hring. destruct (sent ++ pending) as [|l rs _] eqn:Eq using rev_ind.
  - apply app_eq_nil in Eq as [-> ->]. by apply place_empty.
  - destruct rs as [|x rs]; [by eapply place_single|]. destruct (ring_cases _ Hring) as [Hasc|(u & lo & m & E & Hu & Hlo & Hau & Hal)].
    + by eapply place_above.
    + destruct lo as [|l' lo _] using rev_ind; [done|]. eapply (place_below b n sent pending u lo l' m); [done|congruence|done..].
Qed.
End Place.
