(* ===== verification/ReportWrite.v ===== *)
(** What a new report holds: [encode_report] and [write_report] put the values of the data
    set, or the values and reasons of the events, behind the structure of the report at the
    place that was found, and assign its identifier. *)

From S2P Require Import Prelude BerEncoder BerDecoder BerInteger StringUtils CText CFloat MmsValue MmsFacts MmsData Containers ContainerFacts ReportBuffer Reporting ReportRing.
Open Scope Z_scope.

(** * Bits *)

Lemma land_bit b k : 0 <= k -> (0 <? Z.land b (Z.shiftl 1 k)) = Z.testbit b k.
Proof.
  intros Hk. rewrite Z.shiftl_1_l. destruct (Z.testbit b k) eqn:E.
  - apply Z.ltb_lt. assert (Z.testbit (Z.land b (2 ^ k)) k = true) as H by (by rewrite Z.land_spec, E, Z.pow2_bits_true).
    assert (0 <= Z.land b (2 ^ k)) by (apply Z.land_nonneg; right; apply Z.pow_nonneg; lia).
    destruct (Z.eq_dec (Z.land b (2 ^ k)) 0) as [E0|]; [|lia]. rewrite E0, Z.bits_0 in H. done.
  - apply Z.ltb_ge. replace (Z.land b (2 ^ k)) with 0; [lia|]. symmetry. apply Z.bits_inj'. intros j Hj. rewrite Z.land_spec, Z.bits_0, Z.pow2_bits_eqb by done.
    destruct (Z.eqb_spec k j) as [<-|]; [by rewrite E|apply andb_false_r].
Qed.
Lemma u8_bit x k : 0 <= k < 8 -> Z.testbit (u8 x) k = Z.testbit x k.
Proof. intros Hk. unfold u8. change 256 with (2 ^ 8). apply Z.mod_pow2_bits_low. lia. Qed.

Lemma quot_rem_8 i : 0 <= i -> Z.quot i 8 = i / 8 /\ Z.rem i 8 = i mod 8.
Proof. intros. rewrite Z.quot_div_nonneg, Z.rem_mod_nonneg by lia. done. Qed.

(** the bit that is set, and only that one *)
Lemma bit_set_get size buf i : 0 <= i < size -> size <= 8 * zlen buf ->
  exists buf', bit_set size buf i true = Some buf' /\ zlen buf' = zlen buf /\
    forall j, 0 <= j < size -> bit_get size buf' j = (if decide (j = i) then Some true else bit_get size buf j).
Proof.
  intros Hi Hz. unfold bit_set, bit_get. destruct (quot_rem_8 i ltac:(lia)) as [-> ->]. rewrite (proj2 (Z.ltb_lt i size)) by lia.
  assert (0 <= i / 8 < zlen buf) as Hb by (split; [apply Z.div_pos; lia|apply Z.div_lt_upper_bound; lia]).
  destruct (ld_is_Some buf (i / 8) Hb) as [b Eb]. rewrite Eb. cbn [mbind option_bind]. rewrite st_Some by done. eexists. split; [done|]. split; [apply zlen_insert|].
  intros j Hj. destruct (quot_rem_8 j ltac:(lia)) as [-> ->]. rewrite (proj2 (Z.ltb_lt j size)) by lia.
  pose proof (Z.mod_pos_bound i 8 ltac:(lia)). pose proof (Z.mod_pos_bound j 8 ltac:(lia)). pose proof (Z.div_pos j 8 ltac:(lia) ltac:(lia)).
  assert (forall x, ld (<[Z.to_nat (i / 8) := x]> buf) (j / 8) = if decide (j / 8 = i / 8) then Some x else ld buf (j / 8)) as Hld.
  { intros x. unfold ld. rewrite (proj2 (Z.leb_le 0 (j / 8))) by lia. destruct (decide (j / 8 = i / 8)) as [->|Hne].
    - apply list_lookup_insert_eq. unfold zlen in Hb. lia.
    - apply list_lookup_insert_ne. lia. }
  rewrite Hld. destruct (decide (j / 8 = i / 8)) as [E8|E8].
  - cbn [mbind option_bind]. rewrite E8, Eb. cbn [mbind option_bind]. rewrite !land_bit, u8_bit, Z.lor_spec by lia. rewrite Z.shiftl_1_l, Z.pow2_bits_eqb by lia.
    pose proof (Z.div_mod i 8 ltac:(lia)). pose proof (Z.div_mod j 8 ltac:(lia)). destruct (decide (j = i)) as [->|Hji].
    + by rewrite Z.eqb_refl, orb_true_r.
    + rewrite (proj2 (Z.eqb_neq _ _)) by lia. by rewrite orb_false_r.
  - rewrite decide_False by (by intros ->). done.
Qed.

Lemma bit_set_app size inc rest i inc' : 0 <= i < size -> size <= 8 * zlen inc -> bit_set size inc i true = Some inc' -> bit_set size (inc ++ rest) i true = Some (inc' ++ rest).
Proof.
  intros Hi Hz. unfold bit_set. destruct (quot_rem_8 i ltac:(lia)) as [-> ->]. rewrite (proj2 (Z.ltb_lt i size)) by lia.
  assert (0 <= i / 8 < zlen inc) as Hb by (split; [apply Z.div_pos; lia|apply Z.div_lt_upper_bound; lia]).
  assert (ld (inc ++ rest) (i / 8) = ld inc (i / 8)) as ->.
  { unfold ld. rewrite (proj2 (Z.leb_le 0 (i / 8))) by lia. apply lookup_app_l. unfold zlen in Hb. lia. }
  destruct (ld inc (i / 8)) as [b|]; [|done]. cbn [mbind option_bind]. rewrite !st_Some by (rewrite ?zlen_app; pose proof (zlen_nonneg rest); lia).
  intros [= <-]. f_equal. apply insert_app_l. unfold zlen in Hb. lia.
Qed.

Lemma on_ptr_app {A} (m X : list Z) (f : list Z -> option (A * list Z)) : on_ptr (m ++ X) (zlen m) f = ('(r, sub) ← f X; Some (r, m ++ sub)).
Proof.
  unfold on_ptr. pose proof (zlen_nonneg m). pose proof (zlen_nonneg X). rewrite zlen_app, (proj2 (Z.leb_le 0 (zlen m))), (proj2 (Z.leb_le (zlen m) _)) by lia. cbn [andb].
  unfold zlen. rewrite Nat2Z.id, drop_app_length. destruct (f X) as [[r sub]|]; [|done]. cbn [mbind option_bind]. by rewrite take_app_length.
Qed.
Lemma splice_behind (m X bs : list Z) : splice (m ++ X) (zlen m) bs = m ++ bs ++ drop (length bs) X.
Proof. unfold splice, zlen. rewrite Nat2Z.id, take_app_length. do 2 f_equal. rewrite <- drop_drop. by rewrite drop_app_length. Qed.

(** * The values *)

Definition value_sized (v : MmsValue) : Prop := mms_ok v /\ mms_sized v.

Lemma encoded_size_spec v : value_sized v -> encoded_size (Some v) = Some (zlen (mms_bytes v)).
Proof. intros [Hok Hs]. unfold encoded_size. cbn. by rewrite encodedSize_spec. Qed.

Lemma encode_entry_spec v m pos : value_sized v -> 0 <= pos -> pos + zlen (mms_bytes v) <= zlen m ->
  encode_entry (Some v) m pos = Some (splice m pos (mms_bytes v), pos + zlen (mms_bytes v)).
Proof.
  intros [Hok Hs] Hp Hf. pose proof (zlen_nonneg (mms_bytes v)). unfold encode_entry, on_ptr. rewrite (proj2 (Z.leb_le 0 pos)), (proj2 (Z.leb_le pos (zlen m))) by lia.
  cbn [andb MmsValue_encodeMmsData mbind option_bind]. rewrite encodeData_puts by done. rewrite puts_fits by (rewrite ?zlen_drop by lia; lia).
  cbn [mbind option_bind]. rewrite Z.add_0_l. do 3 f_equal. unfold splice. cbn [Z.to_nat Nat.add take app]. by rewrite drop_drop.
Qed.

(** ** The whole data set *)

Lemma splice_empty (m : list Z) pos : splice m pos [] = m.
Proof. unfold splice. cbn [app length]. by rewrite Nat.add_0_r, take_drop. Qed.

Definition dataSet_bytes (n : nat) (fcdas : list (option MmsValue)) : list Z := concat ((fun v => mms_bytes (entry_value v)) <$> take n fcdas).

Lemma dataSet_bytes_cons n v fcdas : dataSet_bytes (S n) (v :: fcdas) = mms_bytes (entry_value v) ++ dataSet_bytes n fcdas.
Proof. done. Qed.

Lemma dataSet_block_spec n : forall fcdas, (n <= length fcdas)%nat -> Forall (fun v => value_sized (entry_value v)) fcdas ->
  dataSet_block_size n fcdas = Some (zlen (dataSet_bytes n fcdas)).
Proof.
  induction n as [|n IH]; intros fcdas Hl Hok; [done|]. destruct fcdas as [|v fcdas]; [cbn in Hl; lia|]. inversion Hok; subst. cbn [dataSet_block_size].
  rewrite encoded_size_spec by done. cbn [mbind option_bind]. rewrite IH by (done || (cbn in Hl; lia)). cbn [mbind option_bind]. by rewrite dataSet_bytes_cons, zlen_app.
Qed.
Lemma encode_dataSet_spec n : forall fcdas m pos, (n <= length fcdas)%nat -> Forall (fun v => value_sized (entry_value v)) fcdas ->
  0 <= pos -> pos + zlen (dataSet_bytes n fcdas) <= zlen m ->
  encode_dataSet_entries n fcdas m pos = Some (splice m pos (dataSet_bytes n fcdas), pos + zlen (dataSet_bytes n fcdas)).
Proof.
  induction n as [|n IH]; intros fcdas m pos Hl Hok Hp Hf.
  - change (dataSet_bytes 0 fcdas) with (@nil Z). cbn [encode_dataSet_entries]. by rewrite splice_empty, Z.add_0_r.
  - destruct fcdas as [|v fcdas]; [cbn in Hl; lia|]. inversion Hok; subst. cbn [encode_dataSet_entries]. rewrite dataSet_bytes_cons, zlen_app in *.
    pose proof (zlen_nonneg (mms_bytes (entry_value v))). pose proof (zlen_nonneg (dataSet_bytes n fcdas)). rewrite encode_entry_spec by (done || lia). cbn [mbind option_bind].
    rewrite IH; [|cbn in Hl; lia|done|lia|rewrite zlen_splice by lia; lia]. rewrite splice_splice by lia. do 2 f_equal. lia.
Qed.

(** ** Events *)

(** the entries from [i] on that have a reason, with their reasons and values *)
Fixpoint included (n : nat) (i : Z) (flags : list Z) (values : list (option MmsValue)) : list (Z * MmsValue) :=
  match n with
  | O => []
  | S n =>
      match ld flags i, ld values i with
      | Some flag, Some (Some v) => if flag =? REPORT_CONTROL_NONE then included n (i + 1) flags values else (flag, v) :: included n (i + 1) flags values
      | _, _ => included n (i + 1) flags values
      end
  end.
Definition events_data (l : list (Z * MmsValue)) : list Z := concat ((fun e => mms_bytes e.2) <$> l).
Definition events_reasons (l : list (Z * MmsValue)) : list Z := (fun e => u8 e.1) <$> l.

Lemma events_data_cons flag v l : events_data ((flag, v) :: l) = mms_bytes v ++ events_data l.
Proof. done. Qed.

(** every entry with a reason has a value *)
Definition events_ok (size : Z) (flags : list Z) (values : list (option MmsValue)) : Prop :=
  forall i, 0 <= i < size -> exists flag, ld flags i = Some flag /\ (flag <> REPORT_CONTROL_NONE -> exists v, ld values i = Some (Some v) /\ value_sized v).

Section Events.
Context (size : Z) (flags : list Z) (values : list (option MmsValue)).
Hypothesis Hev : events_ok size flags values.

Lemma included_step n i : 0 <= i < size -> exists flag, ld flags i = Some flag /\
  ((flag = REPORT_CONTROL_NONE /\ included (S n) i flags values = included n (i + 1) flags values) \/
   (flag <> REPORT_CONTROL_NONE /\ exists v, ld values i = Some (Some v) /\ value_sized v /\ included (S n) i flags values = (flag, v) :: included n (i + 1) flags values)).
Proof.
  intros Hi. destruct (Hev i Hi) as (flag & Ef & Hv). exists flag. split; [done|]. destruct (Z.eq_dec flag REPORT_CONTROL_NONE) as [->|Hne].
  - left. split; [done|]. cbn [included]. rewrite Ef. destruct (ld values i) as [[v|]|]; done.
  - right. split; [done|]. destruct (Hv Hne) as (v & Ev & Hok). exists v. split_and!; [done..|]. cbn [included]. rewrite Ef, Ev. by rewrite (proj2 (Z.eqb_neq flag _)).
Qed.

Lemma events_size_spec n : forall i, 0 <= i -> i + Z.of_nat n <= size ->
  events_block_size n i flags values = Some (zlen (events_data (included n i flags values)), zlen (events_reasons (included n i flags values))).
Proof.
  induction n as [|n IH]; intros i Hi Hn; [done|]. destruct (included_step n i ltac:(lia)) as (flag & Ef & [[-> ->]|(Hne & v & Ev & Hok & ->)]); cbn [events_block_size]; rewrite Ef; cbn [mbind option_bind].
  - apply IH; lia.
  - rewrite (proj2 (Z.eqb_neq flag _)) by done. rewrite Ev. cbn [mbind option_bind]. rewrite encoded_size_spec by done. cbn [mbind option_bind]. rewrite IH by lia. cbn [mbind option_bind].
    unfold events_data, events_reasons. rewrite !fmap_cons. cbn [concat snd fst]. by rewrite zlen_app, zlen_cons, Z.add_comm with (n := 1).
Qed.

(** the bits from [i] on are set for the entries that are included *)
Definition inclusion_bits (n : nat) (i : Z) (inc inc' : list Z) : Prop :=
  zlen inc' = zlen inc /\
  forall j, 0 <= j < size -> bit_get size inc' j =
    if decide (i <= j < i + Z.of_nat n /\ ld flags j <> Some REPORT_CONTROL_NONE) then Some true else bit_get size inc j.

Lemma inclusion_bits_skip n i inc inc' : ld flags i = Some REPORT_CONTROL_NONE -> inclusion_bits n (i + 1) inc inc' -> inclusion_bits (S n) i inc inc'.
Proof.
  intros Ef [Hz H]. split; [done|]. intros j Hj. rewrite H by done. apply decide_ext. destruct (Z.eq_dec j i) as [->|]; [rewrite Ef; split; [lia|tauto]|].
  split; (intros [? ?]; split; [lia|done]).
Qed.
Lemma inclusion_bits_step n i inc inc1 inc' flag : 0 <= i < size -> ld flags i = Some flag -> flag <> REPORT_CONTROL_NONE -> zlen inc1 = zlen inc ->
  (forall j, 0 <= j < size -> bit_get size inc1 j = (if decide (j = i) then Some true else bit_get size inc j)) ->
  inclusion_bits n (i + 1) inc1 inc' -> inclusion_bits (S n) i inc inc'.
Proof.
  intros Hi Ef Hne Hz1 H1 [Hz H]. split; [congruence|]. intros j Hj. rewrite H, H1 by done. destruct (Z.eq_dec j i) as [->|Hji].
  - destruct (decide (i <= i < i + Z.of_nat (S n) /\ _)) as [_|Hn]; [|destruct Hn; rewrite Ef; split; [lia|congruence]].
    destruct (decide (i = i)); [|done]. by destruct (decide _).
  - destruct (decide (j = i)); [done|]. apply decide_ext. split; (intros [? ?]; split; [lia|done]).
Qed.

(** the memory is in front of the bit string, the bit string, and what follows *)
Lemma encode_events_spec n : forall i A inc B T, 0 <= i -> i + Z.of_nat n <= size -> size <= 8 * zlen inc -> zlen (events_data (included n i flags values)) <= zlen T ->
  exists inc', inclusion_bits n i inc inc' /\
    encode_events n i flags values size (zlen A) (A ++ inc ++ B ++ T) (zlen (A ++ inc ++ B)) =
      Some (A ++ inc' ++ B ++ events_data (included n i flags values) ++ drop (length (events_data (included n i flags values))) T,
            zlen (A ++ inc ++ B) + zlen (events_data (included n i flags values))).
Proof.
  induction n as [|n IH]; intros i A inc B T Hi Hn Hinc HT.
  - exists inc. split; [split; [done|]; intros j Hj; by rewrite decide_False by lia|]. change (events_data (included 0 i flags values)) with (@nil Z). cbn [encode_events app length].
    by rewrite drop_0, Z.add_0_r.
  - destruct (included_step n i ltac:(lia)) as (flag & Ef & [[-> Es]|(Hne & v & Ev & Hok & Es)]); rewrite Es in *; cbn [encode_events]; rewrite Ef; cbn [mbind option_bind].
    + destruct (IH (i + 1) A inc B T) as (inc' & Hb & E); [lia|lia|done|done|]. exists inc'. split; [by apply inclusion_bits_skip|exact E].
    + rewrite events_data_cons in *. rewrite zlen_app in HT.
      rewrite (proj2 (Z.eqb_neq flag _)) by done. destruct (bit_set_get size inc i) as (inc1 & E1 & Hz1 & Hg1); [lia|lia|].
      rewrite on_ptr_app, (bit_set_app size inc _ i inc1 ltac:(lia) Hinc E1). cbn [mbind option_bind]. rewrite Ev. cbn [mbind option_bind].
      pose proof (zlen_nonneg (mms_bytes v)). pose proof (zlen_nonneg (events_data (included n (i + 1) flags values))).
      assert (zlen (A ++ inc ++ B) = zlen (A ++ inc1 ++ B)) as -> by (rewrite !zlen_app; lia).
      replace (A ++ inc1 ++ B ++ T) with ((A ++ inc1 ++ B) ++ T) by (by rewrite <- !app_assoc).
      pose proof (zlen_nonneg (A ++ inc1 ++ B)). rewrite encode_entry_spec by (done || lia || (rewrite (zlen_app _ T); lia)). rewrite splice_behind. cbn [mbind option_bind].
      destruct (IH (i + 1) A inc1 (B ++ mms_bytes v) (drop (length (mms_bytes v)) T)) as (inc' & Hb & E); [lia|lia|by rewrite Hz1|unfold zlen in *; rewrite length_drop; lia|].
      exists inc'. split; [eapply inclusion_bits_step; [|exact Ef|exact Hne|exact Hz1|exact Hg1|exact Hb]; lia|]. replace ((A ++ inc1 ++ B) ++ mms_bytes v ++ drop (length (mms_bytes v)) T) with (A ++ inc1 ++ (B ++ mms_bytes v) ++ drop (length (mms_bytes v)) T) by (by rewrite <- !app_assoc).
      replace (zlen (A ++ inc1 ++ B) + zlen (mms_bytes v)) with (zlen (A ++ inc1 ++ B ++ mms_bytes v)) by (rewrite !zlen_app; lia). rewrite E.
      f_equal. f_equal; [|rewrite !zlen_app; lia]. rewrite drop_drop, length_app, <- !app_assoc. done.
Qed.

Lemma encode_reasons_spec n : forall i m pos, 0 <= i -> i + Z.of_nat n <= size -> 0 <= pos -> pos + zlen (events_reasons (included n i flags values)) <= zlen m ->
  encode_reasons n i flags m pos = Some (splice m pos (events_reasons (included n i flags values)), pos + zlen (events_reasons (included n i flags values))).
Proof.
  induction n as [|n IH]; intros i m pos Hi Hn Hp Hf.
  - change (events_reasons (included 0 i flags values)) with (@nil Z). cbn [encode_reasons]. by rewrite splice_empty, Z.add_0_r.
  - destruct (included_step n i ltac:(lia)) as (flag & Ef & [[-> Es]|(Hne & v & Ev & Hok & Es)]); rewrite Es in *; cbn [encode_reasons]; rewrite Ef; cbn [mbind option_bind].
    + apply IH; done || lia.
    + unfold events_reasons in *. rewrite fmap_cons in *. cbn [fst] in *. rewrite zlen_cons in *. pose proof (zlen_nonneg ((fun e : Z * MmsValue => u8 e.1) <$> included n (i + 1) flags values)).
      rewrite (proj2 (Z.eqb_neq flag _)) by done. pose proof (puts_fits [u8 flag] m pos Hp ltac:(change (zlen [u8 flag]) with 1; lia)) as Hput. cbn [puts] in Hput.
      destruct (put (u8 flag) m pos) as [[m1 p1]|]; [|done]. cbn [mbind option_bind] in *. injection Hput as -> ->. change (zlen [u8 flag]) with 1.
      rewrite IH by (done || lia || (rewrite ?zlen_splice; change (zlen [u8 flag]) with 1; lia)). change 1 with (zlen [u8 flag]) at 1. rewrite splice_splice by (change (zlen [u8 flag]) with 1; lia).
      do 2 f_equal. lia.
Qed.
End Events.


(** * Control blocks *)

(** an attribute EntryID with room for an identifier *)
Definition entryId_ok (v : option MmsValue) : Prop := match v with Some (MmsOctetString _ maxSize buf) => zlen buf = Z.abs maxSize /\ 8 <= zlen buf | _ => False end.

(** the data set and what follows its length agree; the sizes fit the fields for them *)
Record control_ok (rc : ReportControl) (size : Z) : Prop := mkControlOk {
  co_size : 0 <= size < 16777216;
  co_field : exists buf, rc_inclusionField rc = MmsBitString size buf;
  co_count : ds_elementCount (rc_dataSet rc) = size /\ zlen (ds_fcdas (rc_dataSet rc)) = size /\ zlen (rc_inclusionFlags rc) = size;
  co_fcdas : Forall (fun v => value_sized (entry_value v)) (ds_fcdas (rc_dataSet rc));
  co_fcdas_size : zlen (dataSet_bytes (Z.to_nat size) (ds_fcdas (rc_dataSet rc))) < 268435456;
  co_events : events_ok size (rc_inclusionFlags rc) (rc_bufferedDataSetValues rc);
  co_events_size : zlen (events_data (included (Z.to_nat size) 0 (rc_inclusionFlags rc) (rc_bufferedDataSetValues rc))) < 268435456;
  co_time : exists n buf, rc_timeOfEntry rc = MmsBinaryTime n buf /\ zlen buf = 6;
  co_entryId : rc_buffered rc = true -> rc_enabled rc = false -> entryId_ok (MmsValue_getElement (rc_rcbValues rc) 11)
}.

Lemma included_length n i flags values : zlen (included n i flags values) <= Z.of_nat n.
Proof.
  revert i. induction n as [|n IH]; intros i; cbn [included]; [done|]. pose proof (IH (i + 1)).
  destruct (ld flags i); [destruct (ld values i) as [[v|]|]; [destruct (_ =? _)|..]|]; rewrite ?zlen_cons; lia.
Qed.

(** * The data *)

(** the bytes behind the structure of a report *)
Definition report_content (rc : ReportControl) (all : bool) (size : Z) (content : list Z) : Prop :=
  if all then
    let data := dataSet_bytes (Z.to_nat size) (ds_fcdas (rc_dataSet rc)) in content = le_bytes 4 (zlen data) ++ data
  else
    let events := included (Z.to_nat size) 0 (rc_inclusionFlags rc) (rc_bufferedDataSetValues rc) in
    exists inclusion, content = inclusion ++ le_bytes 4 (zlen (events_data events)) ++ events_data events ++ events_reasons events /\
      zlen inclusion = MemoryAllocator_getAlignedSize (bitSize_bytes size) /\
      forall j, 0 <= j < size -> bit_get size inclusion j = Some (bool_decide (ld (rc_inclusionFlags rc) j <> Some REPORT_CONTROL_NONE)).

Lemma zero_bits size n j : 0 <= j < size -> size <= 8 * Z.of_nat n -> bit_get size (replicate n 0) j = Some false.
Proof.
  intros Hj Hn. unfold bit_get. rewrite (proj2 (Z.ltb_lt j size)) by lia. destruct (quot_rem_8 j ltac:(lia)) as [-> ->].
  assert (0 <= j / 8 < Z.of_nat n) as Hb by (split; [apply Z.div_pos; lia|apply Z.div_lt_upper_bound; lia]).
  unfold ld. rewrite (proj2 (Z.leb_le 0 (j / 8))), lookup_replicate_2 by lia. cbn [mbind option_bind]. by rewrite Z.land_0_l.
Qed.

Lemma field_size size : 0 <= size < 16777216 -> let n := MemoryAllocator_getAlignedSize (bitSize_bytes size) in 0 <= n <= 2097160 /\ size <= 8 * n.
Proof.
  intros Hs. rewrite bitSize_bytes_eq by lia. pose proof (Z.div_mod (size + 7) 8 ltac:(lia)). pose proof (Z.mod_pos_bound (size + 7) 8 ltac:(lia)).
  destruct (alignedSize_spec ((size + 7) / 8)) as [Ha _]; [lia|]. cbv zeta. lia.
Qed.

Section Content.
Context (rc : ReportControl) (size : Z).
Hypothesis Hok : control_ok rc size.
Notation ifs := (MemoryAllocator_getAlignedSize (bitSize_bytes size)).
Notation dataSet := (dataSet_bytes (Z.to_nat size) (ds_fcdas (rc_dataSet rc))).
Notation events := (included (Z.to_nat size) 0 (rc_inclusionFlags rc) (rc_bufferedDataSetValues rc)).

Lemma reasons_length : zlen (events_reasons events) <= size.
Proof. unfold events_reasons, zlen. rewrite length_fmap. pose proof (included_length (Z.to_nat size) 0 (rc_inclusionFlags rc) (rc_bufferedDataSetValues rc)). destruct (co_size _ _ Hok). unfold zlen in *. lia. Qed.

Lemma report_sizes_spec all : exists dataBlockSize n, report_sizes rc all size ifs = Some (dataBlockSize, n) /\ 32 <= n < 536870912 /\
  dataBlockSize = (if all then zlen dataSet else zlen (events_data events)) /\
  n >= 32 + (if all then 4 + zlen dataSet else ifs + 4 + zlen (events_data events) + zlen (events_reasons events)).
Proof.
  pose proof reasons_length. destruct Hok as [Hs _ (Hc & Hf & Hl) Hd Hds He Hes _ _]. destruct (field_size size Hs) as [Hi _]. pose proof (zlen_nonneg dataSet). pose proof (zlen_nonneg (events_data events)).
  pose proof (zlen_nonneg (events_reasons events)).
  unfold report_sizes. change (MemoryAllocator_getAlignedSize SIZEOF_REPORT_BUFFER_ENTRY) with 32. destruct all.
  - rewrite dataSet_block_spec; [|unfold zlen in Hf; lia|done]. cbn [mbind option_bind]. do 2 eexists. split; [done|]. destruct (alignedSize_spec (4 + zlen dataSet)) as [Ha _]; [lia|]. lia.
  - rewrite (events_size_spec size) by (done || lia). cbn [mbind option_bind]. do 2 eexists. split; [done|].
    destruct (alignedSize_spec (4 + zlen (events_data events) + zlen (events_reasons events))) as [Ha _]; [lia|]. lia.
Qed.

Lemma encode_LEN_spec v (m : list Z) pos : 0 <= pos -> pos + 4 <= zlen m -> encode_LEN v m pos = Some (splice m pos (le_bytes 4 v), pos + 4).
Proof. intros Hp Hz. unfold encode_LEN. pose proof (zlen_le_bytes 4 v) as Hl. unfold st_range. rewrite Hl. change (Z.of_nat 4) with 4. if_true. done. Qed.

Lemma encode_all_spec n m pos : 0 <= pos -> pos + (n - 32) <= zlen m -> 32 + (4 + zlen dataSet) <= n ->
  encode_report rc true size ifs (zlen dataSet) m pos = Some (splice m pos (le_bytes 4 (zlen dataSet) ++ dataSet), pos + (4 + zlen dataSet)).
Proof.
  intros Hp Hz Hn. destruct Hok as [Hs _ (Hc & Hf & Hl) Hd Hds _ _ _ _]. pose proof (zlen_nonneg dataSet). unfold encode_report. rewrite encode_LEN_spec by lia. cbn [mbind option_bind].
  pose proof (zlen_le_bytes 4 (zlen dataSet)) as H4. change (Z.of_nat 4) with 4 in H4.
  rewrite encode_dataSet_spec; [|unfold zlen in Hf; lia|done|lia|rewrite zlen_splice by lia; lia]. replace (pos + 4) with (pos + zlen (le_bytes 4 (zlen dataSet))) by lia.
  rewrite splice_splice by lia. f_equal. f_equal. lia.
Qed.

Lemma encode_changes_spec n m pos : 0 <= pos -> pos + (n - 32) <= zlen m -> 32 + (ifs + 4 + zlen (events_data events) + zlen (events_reasons events)) <= n ->
  exists content, report_content rc false size content /\ zlen content = ifs + 4 + zlen (events_data events) + zlen (events_reasons events) /\
    encode_report rc false size ifs (zlen (events_data events)) m pos = Some (splice m pos content, pos + zlen content).
Proof.
  intros Hp Hz Hn. destruct Hok as [Hs _ (Hc & Hf & Hl) _ _ He Hes _ _]. destruct (field_size size Hs) as [Hi Hbits]. pose proof (zlen_nonneg (events_data events)).
  pose proof (zlen_nonneg (events_reasons events)). set (z := replicate (Z.to_nat ifs) 0).
  assert (zlen z = ifs) as Hzz by (unfold z, zlen; rewrite length_replicate; lia).
  pose proof (zlen_le_bytes 4 (zlen (events_data events))) as H4. change (Z.of_nat 4) with 4 in H4. set (L := le_bytes 4 (zlen (events_data events))) in *.
  unfold encode_report. fold z. unfold st_range. rewrite Hzz. if_true. cbn [mbind option_bind]. fold (splice m pos z).
  rewrite encode_LEN_spec by (rewrite ?zlen_splice by lia; lia). fold L. cbn [mbind option_bind]. replace (pos + ifs) with (pos + zlen z) by lia. rewrite splice_splice by lia.
  set (P := take (Z.to_nat pos) m). set (T := drop (Z.to_nat pos + length (z ++ L)) m).
  assert (zlen P = pos) as HP by (unfold P, zlen in *; rewrite length_take; lia).
  assert (zlen T = zlen m - pos - ifs - 4) as HT by (unfold T, zlen in *; rewrite length_drop, length_app; lia).
  assert (splice m pos (z ++ L) = P ++ z ++ L ++ T) as -> by (unfold splice; fold P T; by rewrite <- (app_assoc z)).
  replace (pos + zlen z + 4) with (zlen (P ++ z ++ L)) by (rewrite !zlen_app; lia).
  destruct (encode_events_spec size (rc_inclusionFlags rc) (rc_bufferedDataSetValues rc) He (Z.to_nat size) 0 P z L T) as (inc & [Hiz Hinc] & Eev); [lia..|]. rewrite HP in Eev. rewrite Eev. cbn [mbind option_bind].
  set (D := events_data events) in *. set (R := events_reasons events) in *. set (T' := drop (length D) T).
  assert (zlen T' = zlen T - zlen D) as HT' by (unfold T', zlen in *; rewrite length_drop; lia).
  replace (P ++ inc ++ L ++ D ++ T') with ((P ++ inc ++ L ++ D) ++ T') by (by rewrite <- !app_assoc).
  replace (zlen (P ++ z ++ L) + zlen D) with (zlen (P ++ inc ++ L ++ D)) by (rewrite !zlen_app; lia).
  rewrite (encode_reasons_spec size _ _ He) by (try (rewrite (zlen_app _ T'); fold R); lia || apply zlen_nonneg). fold R. rewrite splice_behind.
  exists (inc ++ L ++ D ++ R). split; [|split; [rewrite !zlen_app; lia|]].
  - exists inc. split; [done|]. split; [lia|]. intros j Hj. rewrite Hinc by done. unfold z. rewrite zero_bits by lia. case_bool_decide as Hd; destruct (decide _) as [[? ?]|Hn']; try done.
    exfalso. apply Hn'. split; [lia|done].
  - f_equal. f_equal; [|rewrite !zlen_app; lia]. unfold splice. fold P. rewrite <- !app_assoc. do 5 f_equal. unfold T', T. rewrite !drop_drop. f_equal. rewrite !length_app. unfold zlen in *. lia.
Qed.

Lemma encode_report_spec all dataBlockSize n m pos : report_sizes rc all size ifs = Some (dataBlockSize, n) -> 0 <= pos -> pos + (n - 32) <= zlen m ->
  exists content p, report_content rc all size content /\ 32 + zlen content <= n /\ encode_report rc all size ifs dataBlockSize m pos = Some (splice m pos content, p).
Proof.
  intros E Hp Hz. destruct (report_sizes_spec all) as (d & n' & E' & Hn & Hd & Hge). rewrite E' in E. injection E as <- <-. destruct all; subst d.
  - rewrite (encode_all_spec n') by lia. eexists _, _. split_and!; [done| |done]. pose proof (zlen_le_bytes 4 (zlen dataSet)). rewrite zlen_app. lia.
  - destruct (encode_changes_spec n' m pos) as (c & Hc & Hcz & ->); [lia..|]. eexists c, _. split_and!; [done|lia|done].
Qed.
End Content.

(** * The attributes of the control block *)

Lemma setBinaryTime_spec n buf t : zlen buf = 6 -> exists buf', MmsValue_setBinaryTime (MmsBinaryTime n buf) t = Some (MmsBinaryTime n buf') /\ zlen buf' = 6.
Proof.
  intros Hz. destruct buf as [|b0 [|b1 [|b2 [|b3 [|b4 [|b5 [|]]]]]]]; unfold zlen in Hz; cbn in Hz; try lia. unfold MmsValue_setBinaryTime.
  destruct (n =? 6); cbn; by eexists.
Qed.
Lemma updateTimeOfEntry_spec rc size now : control_ok rc size -> exists v, updateTimeOfEntry rc now = Some (rc_with_timeOfEntry v rc) /\ control_ok (rc_with_timeOfEntry v rc) size.
Proof.
  intros [H1 H2 H3 H4 H5 H6 H7 (n & buf & E & Hz) H9]. unfold updateTimeOfEntry. destruct (setBinaryTime_spec n buf now Hz) as (buf' & E' & Hz'). rewrite E, E'. cbn [mbind option_bind].
  eexists. split; [done|]. destruct rc; constructor; cbn in *; try done. by exists n, buf'.
Qed.

Lemma fill_loop_spec v n : forall i buf, 0 <= i -> i + Z.of_nat n <= zlen buf ->
  exists buf', fill_loop n i v buf = Some buf' /\ zlen buf' = zlen buf /\ forall j, i <= j < i + Z.of_nat n -> ld buf' j = Some v.
Proof.
  assert (forall n i buf, 0 <= i -> i + Z.of_nat n <= zlen buf -> exists buf', fill_loop n i v buf = Some buf' /\ zlen buf' = zlen buf /\
    (forall j, i <= j < i + Z.of_nat n -> ld buf' j = Some v) /\ forall j, j < i -> ld buf' j = ld buf j) as H.
  { clear n. intros n. induction n as [|n IH]; intros i buf Hi Hn; [exists buf; split_and!; done || lia|]. cbn [fill_loop]. rewrite st_Some by lia. cbn [mbind option_bind].
    destruct (IH (i + 1) (<[Z.to_nat i := v]> buf)) as (buf' & -> & Hz & Hin & Hout); [lia|rewrite zlen_insert; lia|]. exists buf'. rewrite zlen_insert in Hz.
    assert (forall j, j <= i -> ld buf' j = if decide (j = i) then Some v else ld buf j) as Hld.
    { intros j Hj. rewrite Hout by lia. unfold ld. destruct (decide (j = i)) as [->|]; [rewrite (proj2 (Z.leb_le 0 i)) by lia; apply list_lookup_insert_eq; unfold zlen in Hn; lia|].
      destruct (Z.leb_spec 0 j); [|done]. apply list_lookup_insert_ne. lia. }
    split_and!; [done|done| |].
    - intros j Hj. destruct (Z.eq_dec j i) as [->|]; [rewrite Hld, decide_True by lia; done|apply Hin; lia].
    - intros j Hj. rewrite Hld, decide_False by lia. done. }
  intros i buf Hi Hn. destruct (H n i buf Hi Hn) as (buf' & ? & ? & ? & _). by exists buf'.
Qed.
Lemma clear_empty size n i flags values : (forall j, 0 <= j < size -> ld flags j = Some REPORT_CONTROL_NONE) -> 0 <= i -> i + Z.of_nat n <= size -> included n i flags values = [].
Proof.
  intros H. revert i. induction n as [|n IH]; intros i Hi Hn; [done|]. cbn [included]. rewrite H by lia. rewrite IH by lia. destruct (ld values i) as [[v|]|]; done.
Qed.
Lemma clearInclusionFlags_spec rc size : control_ok rc size -> exists flags, clearInclusionFlags rc = Some (rc_with_inclusionFlags flags rc) /\
  control_ok (rc_with_inclusionFlags flags rc) size /\ forall j, 0 <= j < size -> ld flags j = Some REPORT_CONTROL_NONE.
Proof.
  intros [H1 H2 (H3a & H3b & H3c) H4 H5 H6 H7 H8 H9]. unfold clearInclusionFlags. rewrite H3a.
  destruct (fill_loop_spec REPORT_CONTROL_NONE (Z.to_nat size) 0 (rc_inclusionFlags rc)) as (flags & -> & Hz & Hin); [lia|lia|]. cbn [mbind option_bind].
  assert (forall j, 0 <= j < size -> ld flags j = Some REPORT_CONTROL_NONE) as Hall by (intros j Hj; apply Hin; lia).
  exists flags. split; [done|]. split; [|done]. destruct rc; constructor; cbn in *; try done.
  - split_and!; done || congruence.
  - intros i Hi. exists REPORT_CONTROL_NONE. split; [by apply Hall|done].
  - rewrite (clear_empty size) by (done || lia). done.
Qed.

Lemma set_get_element v i e : is_Some (MmsValue_getElement v i) -> MmsValue_getElement (MmsValue_setElement v i (Some e)) i = Some e.
Proof.
  intros H. destruct v; try (by destruct H); cbn in *; destruct ((i <? 0) || (zlen components <=? i)) eqn:E; try (by destruct H); rewrite zlen_insert, E;
    rewrite list_lookup_insert_eq; [done|unfold zlen in E; bdestr; lia|done|unfold zlen in E; bdestr; lia].
Qed.

(** * The structure *)

Section Write.
Context (base : Z).

Lemma set_field_spec b pos offset bs : rb_memoryBlock b = base -> 0 <= pos -> 0 <= offset -> pos + offset + zlen bs <= zlen (rb_memory b) ->
  exists m', set_entry_field b (base + pos) offset bs = Some (rb_with_memory m' b) /\ touches (pos + offset) (pos + offset + zlen bs) (rb_memory b) m' /\
    ld_range m' (pos + offset) (zlen bs) = Some bs.
Proof.
  intros Hb Hp Ho Hz. unfold set_entry_field. rewrite Hb. replace (base + pos - base + offset) with (pos + offset) by lia.
  destruct (st_range_touches (rb_memory b) (pos + offset) bs) as (m' & -> & Ht & Hl); [lia|lia|]. by exists m'.
Qed.

Lemma set_bits_spec b pos flags len : rb_memoryBlock b = base -> 0 <= pos -> pos + 32 <= zlen (rb_memory b) -> 0 <= flags < 4 -> 0 <= len < 1073741824 ->
  exists m', (b ← set_flags b (base + pos) flags; set_entryLength b (base + pos) len) = Some (rb_with_memory m' b) /\ touches (pos + 16) (pos + 20) (rb_memory b) m' /\
    ld_range m' (pos + 16) 4 = Some (le_bytes 4 (len + 1073741824 * flags)).
Proof.
  intros Hb Hp Hz Hf Hl. unfold set_flags, entry_bits, entry_field. rewrite Hb. replace (base + pos - base + 16) with (pos + 16) by lia.
  rewrite ld_range_Some by lia. cbn [mbind option_bind]. set (bits := le_val _).
  destruct (set_field_spec b pos 16 (le_bytes 4 (bits mod 1073741824 + 1073741824 * flags))) as (m1 & -> & Ht1 & Hl1); [done|lia|lia|rewrite zlen_le_bytes; lia|].
  rewrite zlen_le_bytes in Ht1, Hl1. change (Z.of_nat 4) with 4 in *. cbn [mbind option_bind]. unfold set_entryLength, entry_bits, entry_field.
  assert (rb_memoryBlock (rb_with_memory m1 b) = base /\ rb_memory (rb_with_memory m1 b) = m1) as [Hb1 Hm1] by (by destruct b).
  rewrite Hb1, Hm1. replace (base + pos - base + 16) with (pos + 16) by lia. rewrite Hl1. cbn [mbind option_bind]. rewrite le_val_le_bytes. change (256 ^ Z.of_nat 4) with 4294967296.
  pose proof (Z.mod_pos_bound bits 1073741824 ltac:(lia)) as Hbits. rewrite (Z.mod_small (_ + _)) by lia. replace (bits mod 1073741824 + 1073741824 * flags) with (flags * 1073741824 + bits mod 1073741824) by lia.
  rewrite Z.div_add_l, (Z.div_small (bits mod _)), Z.add_0_r by lia.
  rewrite (Z.mod_small len) by lia. replace (flags * 1073741824 + len) with (len + 1073741824 * flags) by lia. destruct Ht1 as [Hz1 Ht1].
  destruct (set_field_spec (rb_with_memory m1 b) pos 16 (le_bytes 4 (len + 1073741824 * flags))) as (m2 & -> & Ht2 & Hl2); [done|lia|lia|rewrite zlen_le_bytes, Hm1; lia|].
  rewrite zlen_le_bytes in Ht2, Hl2. rewrite Hm1 in Ht2. change (Z.of_nat 4) with 4 in *. exists m2. split; [by destruct b|]. split; [|done].
  replace (pos + 20) with (pos + 16 + 4) by lia. eapply touches_trans; [split; [exact Hz1|exact Ht1]|done].
Qed.

(** the identifier of a report of a buffered control block is the time, or the successor of the last identifier *)
Definition entryId_spec (rc rc' : ReportControl) (time : Z) (id : list Z) : Prop :=
  if rc_buffered rc then rc_lastEntryId rc' = next_entryId time (rc_lastEntryId rc) /\ id = reverse (le_bytes 8 (rc_lastEntryId rc')) else rc_lastEntryId rc' = rc_lastEntryId rc.

Definition with_entryId (v : MmsValue) (e : Z) (rc : ReportControl) : ReportControl := rc_with_lastEntryId e (rc_with_rcbValues v rc).

Lemma with_entryId_ok rc size v e : control_ok rc size -> (rc_buffered rc = true -> rc_enabled rc = false -> entryId_ok (MmsValue_getElement v 11)) -> control_ok (with_entryId v e rc) size.
Proof. intros [H1 H2 H3 H4 H5 H6 H7 H8 H9] Hv. destruct rc; constructor; done. Qed.

Lemma setOctetString_id n mx buf id : zlen buf = Z.abs mx -> 8 <= zlen buf -> zlen id = 8 ->
  exists buf', MmsValue_setOctetString (MmsOctetString n mx buf) id 8 = Some (MmsOctetString 8 mx buf') /\ zlen buf' = zlen buf.
Proof.
  intros Hz H8 Hid. unfold MmsValue_setOctetString. rewrite (proj2 (Z.leb_le 8 (Z.abs mx))) by lia. rewrite ld_range_whole by done. cbn [mbind option_bind].
  destruct (st_range_touches buf 0 id) as (buf' & -> & [Hz' _] & _); [lia|lia|]. by exists buf'.
Qed.

Lemma assign_entryId_spec rc size b pos time : control_ok rc size -> rb_memoryBlock b = base -> 0 <= pos -> pos + 32 <= zlen (rb_memory b) ->
  exists v e m' id, assign_entryId rc b (base + pos) time = Some (with_entryId v e rc, rb_with_memory m' b) /\ control_ok (with_entryId v e rc) size /\
    touches pos (pos + 8) (rb_memory b) m' /\ ld_range m' pos 8 = Some id /\ entryId_spec rc (with_entryId v e rc) time id.
Proof.
  intros Hok Hb Hp Hz. unfold assign_entryId, entryId_spec. destruct (rc_buffered rc) eqn:Ebuf.
  2: { exists (rc_rcbValues rc), (rc_lastEntryId rc), (rb_memory b). eexists. rewrite ld_range_Some by lia. assert (with_entryId (rc_rcbValues rc) (rc_lastEntryId rc) rc = rc) as -> by (by destruct rc).
       split_and!; [by destruct b|done|done|done|done]. }
  unfold entry_entryId, entry_field. rewrite Hb. replace (base + pos - base + 0) with pos by lia. rewrite ld_range_Some by lia. cbn [mbind option_bind].
  set (e := next_entryId time (rc_lastEntryId rc)). assert (zlen (le_bytes 8 e) = 8) as H8 by (by rewrite zlen_le_bytes).
  rewrite memcpyReverseByteOrder_spec; [|lia|unfold zlen in *; rewrite length_take, length_drop; lia]. cbn [mbind option_bind].
  rewrite (take_ge (le_bytes 8 e)) by (unfold zlen in H8; lia). rewrite drop_ge, app_nil_r by (rewrite length_take; lia). set (id := reverse (le_bytes 8 e)).
  assert (zlen id = 8) as Hid by (unfold id, zlen in *; rewrite length_reverse; lia).
  destruct (set_field_spec b pos 0 id) as (m' & Em & Ht & Hl); [done|lia|lia|lia|]. unfold set_entryId. rewrite Em. cbn [mbind option_bind]. rewrite Z.add_0_r, Hid in *.
  assert (exists v, (if rc_enabled rc then Some rc else entryIdValue ← MmsValue_getElement (rc_rcbValues rc) 11; entryIdValue ← MmsValue_setOctetString entryIdValue id 8;
      Some (rc_with_rcbValues (MmsValue_setElement (rc_rcbValues rc) 11 (Some entryIdValue)) rc)) = Some (rc_with_rcbValues v rc) /\
      (rc_buffered rc = true -> rc_enabled rc = false -> entryId_ok (MmsValue_getElement v 11))) as (v & -> & Hv).
  { pose proof (co_entryId _ _ Hok Ebuf) as Hent. destruct (rc_enabled rc) eqn:Een; [exists (rc_rcbValues rc); split; [by destruct rc|done]|]. specialize (Hent ltac:(done)).
    destruct (MmsValue_getElement (rc_rcbValues rc) 11) as [[]|] eqn:Eg; try done. destruct Hent as [He1 He2]. cbn [mbind option_bind].
    destruct (setOctetString_id size0 maxSize buf id) as (buf' & -> & Hz'); [done|done|done|]. cbn [mbind option_bind]. eexists. split; [done|]. intros _ _.
    rewrite set_get_element by (by rewrite Eg). cbn. lia. }
  cbn [mbind option_bind]. exists v, e, m', id. split_and!; [done|by apply with_entryId_ok|done|done|by destruct rc|by destruct rc].
Qed.

Definition report_flags (isIntegrity isGI : bool) : Z := if isIntegrity then 1 else if isGI then 2 else 0.

Lemma content_with_entryId rc v e all size content : report_content (with_entryId v e rc) all size content = report_content rc all size content.
Proof. by destruct rc. Qed.

Lemma write_report_spec rc size b pos isIntegrity isGI time dataBlockSize n : control_ok rc size -> rb_memoryBlock b = base -> 0 <= pos -> pos + n <= zlen (rb_memory b) ->
  report_sizes rc (isIntegrity || isGI) size (MemoryAllocator_getAlignedSize (bitSize_bytes size)) = Some (dataBlockSize, n) ->
  exists v e m' r,
    write_report rc b (base + pos) isIntegrity isGI time size (MemoryAllocator_getAlignedSize (bitSize_bytes size)) dataBlockSize n =
      Some (with_entryId v e rc, rb_with_memory m' (rb_with_count (rb_reportsCount b + 1) (rb_with_last (base + pos) b))) /\
    control_ok (with_entryId v e rc) size /\ touches pos (pos + n) (rb_memory b) m' /\ holds m' r 0 /\ report_ok r /\
    rp_pos r = pos /\ rp_len r = n /\ rp_time r = time /\ rp_flags r = report_flags isIntegrity isGI /\
    entryId_spec rc (with_entryId v e rc) time (rp_id r) /\ report_content rc (isIntegrity || isGI) size (rp_data r).
Proof.
  intros Hok Hb Hp Hz Esz. destruct (report_sizes_spec rc size Hok (isIntegrity || isGI)) as (d & n' & E' & Hn & _ & _). rewrite Esz in E'. injection E' as <- <-.
  set (b0 := rb_with_count (rb_reportsCount b + 1) (rb_with_last (base + pos) b)). unfold write_report, set_entry_next.
  destruct (set_field_spec (rb_with_last (base + pos) b) pos 24 (le_bytes 8 0)) as (m1 & -> & Ht1 & Hl1); [by destruct b|lia|lia|rewrite zlen_le_bytes; destruct b; cbn in *; lia|].
  cbn [mbind option_bind]. replace (rb_with_count _ (rb_with_memory m1 _)) with (rb_with_memory m1 b0) by (subst b0; by destruct b).
  assert (rb_memory (rb_with_last (base + pos) b) = rb_memory b) as Em by (by destruct b). rewrite Em, zlen_le_bytes in *. change (Z.of_nat 8) with 8 in *. destruct Ht1 as [Hz1 Ht1].
  assert (forall m, rb_memoryBlock (rb_with_memory m b0) = base /\ rb_memory (rb_with_memory m b0) = m) as Hb0 by (intros m; subst b0; by destruct b).
  destruct (set_field_spec (rb_with_memory m1 b0) pos 8 (le_bytes 8 time)) as (m2 & E2 & Ht2 & Hl2); [apply Hb0|lia|lia|rewrite zlen_le_bytes, (proj2 (Hb0 _)); lia|].
  unfold set_timeOfEntry. rewrite E2. cbn [mbind option_bind]. rewrite (proj2 (Hb0 _)), zlen_le_bytes in *. change (Z.of_nat 8) with 8 in *. destruct Ht2 as [Hz2 Ht2].
  assert (forall m m', rb_with_memory m (rb_with_memory m' b0) = rb_with_memory m b0) as Hmm by (intros; by destruct b0). rewrite Hmm.
  destruct (assign_entryId_spec rc size (rb_with_memory m2 b0) pos time Hok) as (v & e & m3 & id & -> & Hok3 & [Hz3 Ht3] & Hid & Hspec); [apply Hb0|lia|rewrite (proj2 (Hb0 _)); lia|].
  cbn [mbind option_bind]. rewrite Hmm, (proj2 (Hb0 _)) in *.
  destruct (set_bits_spec (rb_with_memory m3 b0) pos (report_flags isIntegrity isGI) n) as (m4 & E4 & Ht4 & Hl4); [apply Hb0|lia|rewrite (proj2 (Hb0 _)); lia|by destruct isIntegrity, isGI|lia|].
  unfold report_flags in E4 at 1. destruct (set_flags (rb_with_memory m3 b0) _ _) as [b4|]; [|done]. cbn [mbind option_bind] in E4 |- *. rewrite E4. cbn [mbind option_bind].
  rewrite Hmm, (proj1 (Hb0 _)), (proj2 (Hb0 _)) in *. rewrite (proj2 (Hb0 m3)) in Ht4. destruct Ht4 as [Hz4 Ht4]. change (MemoryAllocator_getAlignedSize SIZEOF_REPORT_BUFFER_ENTRY) with 32. replace (base + pos - base + 32) with (pos + 32) by lia.
  destruct (encode_report_spec (with_entryId v e rc) size Hok3 (isIntegrity || isGI) dataBlockSize n m4 (pos + 32)) as (content & p & Hc & Hcz & ->); [rewrite <- Esz; by destruct rc|lia|lia|].
  cbn [mbind option_bind]. rewrite Hmm. rewrite content_with_entryId in Hc. pose proof (zlen_nonneg content).
  destruct (touches_splice m4 (pos + 32) content) as [Hz5 Ht5]; [lia|lia|].
  exists v, e, (splice m4 (pos + 32) content), (mkReport pos n id time (report_flags isIntegrity isGI) content). split_and!; try done.
  - split; [congruence|]. intros a k Hk Ha. rewrite Ht5, Ht4, Ht3, Ht2, Ht1 by lia. done.
  - constructor; cbn [rp_pos rp_id rp_time rp_len rp_flags rp_data].
    + rewrite Ht5, Ht4 by lia. done.
    + rewrite Ht5, Ht4, Ht3 by lia. done.
    + rewrite Ht5 by lia. done.
    + rewrite Ht5, Ht4, Ht3, Ht2 by lia. done.
    + rewrite ld_range_Some by lia. rewrite drop_splice by lia. f_equal. apply take_app_length'. unfold zlen. lia.
  - split; cbn; [lia|by destruct isIntegrity, isGI].
Qed.
End Write.
