(* ===== verification/ReportQueue.v ===== *)
(** [enqueueReport] as an operation on the sequence of the reports: the general
    interrogation reports leave a buffer that gets a new one, some of the oldest reports
    make room, the others stay as they are and the new report follows them. Whatever is requested and
    due, [processEventsForReport] returns, and the buffer stays a sequence of reports. *)

From S2P Require Import Prelude BerEncoder BerDecoder BerInteger StringUtils CText CFloat MmsValue MmsFacts MmsData Containers ContainerFacts ReportBuffer Reporting ReportRing ReportWrite.
Open Scope Z_scope.

Section Queue.
Context (base bsize : Z).
Hypothesis Hbase : 0 < base.
Hypothesis Hend : base + bsize < 18446744073709551616.
Notation rep := (rep base bsize).
Notation address := (address base).

(** the report that is written at the place of [place_report] follows the others *)
Lemma placed_written b pos n rs pending r m' : placed base bsize b pos n rs -> next_ok base b pos pending -> (exists sent, rs = sent ++ pending) ->
  rp_pos r = pos -> rp_len r = n -> report_ok r -> touches pos (pos + n) (rb_memory b) m' -> holds m' r 0 ->
  let b1 := rb_with_memory m' (rb_with_count (rb_reportsCount b + 1) (rb_with_last (base + pos) b)) in
  let b2 := if rb_nextToTransmit b1 =? 0 then rb_with_next (rb_lastEnqueuedReport b1) b1 else b1 in
  let b3 := if rb_oldestReport b2 =? 0 then rb_with_oldest (rb_lastEnqueuedReport b2) b2 else b2 in
  linked base bsize b3 (rs ++ [r]) (head_address base (pending ++ [r])) /\ rb_isOverflow b3 = rb_isOverflow b.
Proof.
  intros [(Hb1 & Hb2 & Hz) (Hp & Hpn) Hc Hring Hcount] Hnext [sent Hsent] Hrp Hrl Hok [Hzm Ht] Hh b1 b2 b3.
  specialize (Hring r Hrp Hrl Hok). pose proof (address_pos base bsize Hbase Hend r _ Hring ltac:(apply elem_of_app; right; by left)) as Har.
  assert (base + pos = address r) as Hpos by (unfold ReportRing.address; lia).
  assert (rb_nextToTransmit b2 = head_address base (pending ++ [r]) /\ rb_oldestReport b2 = rb_oldestReport b /\ rb_memory b2 = m' /\ rb_memoryBlock b2 = base /\ rb_memoryBlockSize b2 = bsize /\
    rb_lastEnqueuedReport b2 = address r /\ rb_reportsCount b2 = zlen rs + 1 /\ rb_isOverflow b2 = rb_isOverflow b) as (N2 & O2 & M2 & B2 & S2 & L2 & C2 & V2).
  { subst b2 b1. destruct pending as [|p pending]; cbn [app head_address next_ok] in *.
    - destruct Hnext as [Hnext|Hnext], b; cbn in *; rewrite Hnext, ?(proj2 (Z.eqb_neq (base + pos) 0)) by lia; cbn; split_and!; congruence.
    - pose proof (address_pos base bsize Hbase Hend p _ Hring ltac:(rewrite Hsent; apply elem_of_app; left; apply elem_of_app; right; by left)).
      destruct b; cbn in *. rewrite Hnext, (proj2 (Z.eqb_neq (address p) 0)) by lia. cbn. split_and!; congruence. }
  assert (rb_oldestReport b3 = head_address base (rs ++ [r]) /\ rb_with_oldest 0 b3 = rb_with_oldest 0 b2) as [O3 E3].
  { subst b3. clearbody b2. rewrite O2. destruct rs as [|h rs]; cbn [app head_address].
    - destruct Hc as [Hc|Hc]; rewrite Hc, ?(proj2 (Z.eqb_neq (base + pos) 0)) by lia; cbn [Z.eqb]; (split; [|by destruct b2]); destruct b2; cbn in *; congruence.
    - pose proof (address_pos base bsize Hbase Hend h _ Hring ltac:(by left)). destruct Hc as [Hc _]. rewrite Hc, (proj2 (Z.eqb_neq (address h) 0)) by lia. split; [congruence|done]. }
  assert (chain base m' (rs ++ [r]) (head_address base (rs ++ [r])) 0) as Hchain.
  { apply chain_app. exists (address r). split; [|split; [done|]; exists 0; split_and!; done || lia]. destruct rs as [|h rs]; [done|]. cbn [head_address app].
    assert (chain base m' (h :: rs) (rb_oldestReport b) (address r)) as Hc'; [|destruct Hc' as [E Hc']; split; done].
    rewrite <- Hpos. eapply (chain_touches base pos (pos + n) (rb_memory b)); [split; done| | |exact Hc].
    - pose proof (ring_all _ _ Hring) as Hall. apply Forall_app in Hall as [Hall _]. eapply List.Forall_impl; [|exact Hall]. tauto.
    - pose proof (ring_apart _ _ Hring) as Ha. apply pairs_app in Ha as (_ & _ & Ha). eapply List.Forall_impl; [|exact Ha]. intros r0 H0. apply Forall_cons_1 in H0 as [H1 _]. unfold apart, rp_end in *. lia. }
  clearbody b3 b2. destruct b2, b3; cbn in *. injection E3 as -> -> -> -> -> -> ->. split; [|done]. constructor; cbn; try done; [split_and!; congruence|congruence|rewrite last_address_snoc; congruence|rewrite zlen_app; exact C2].
Qed.

(** the reports that stay before a new one is placed *)
Definition staying (rc : ReportControl) (isGI : bool) (rs : list Report) : list Report := if rc_buffered rc && isGI then kept rs else rs.

Lemma staying_app rc isGI rs1 rs2 : staying rc isGI (rs1 ++ rs2) = staying rc isGI rs1 ++ staying rc isGI rs2.
Proof. unfold staying. destruct (_ && _); [apply kept_app|done]. Qed.

(** what a new report is *)
Record new_report (rc rc' : ReportControl) (size : Z) (isIntegrity isGI : bool) (time : Z) (r : Report) : Prop := mkNewReport {
  nr_time : rp_time r = time;
  nr_flags : rp_flags r = report_flags isIntegrity isGI;
  nr_id : entryId_spec rc rc' time (rp_id r);
  nr_data : report_content rc (isIntegrity || isGI) size (rp_data r)
}.

(** the buffer with the new report, and whether a report that waits is lost; [n] is its size *)
Record enqueued (rc rc' : ReportControl) (size n : Z) (isIntegrity isGI : bool) (time : Z) (sent pending : list Report) (overflow : bool) (k : nat) (r : Report) : Prop := mkEnqueued {
  en_rep : rep (rc_reportBuffer rc') (drop k (staying rc isGI sent)) (drop (k - length (staying rc isGI sent)) (staying rc isGI pending) ++ [r]);
  en_new : new_report rc rc' size isIntegrity isGI time r /\ rp_len r = n;
  en_overflow : overflow = loses k (staying rc isGI sent) && negb (length (staying rc isGI (sent ++ pending)) =? 1)%nat;
  en_isOverflow : rb_isOverflow (rc_reportBuffer rc') = rb_isOverflow (rc_reportBuffer rc) || overflow;
  en_room : asc 0 (bsize - n) (staying rc isGI (sent ++ pending)) -> k = 0%nat;
  en_flags : forall j, 0 <= j < size -> ld (rc_inclusionFlags rc') j = Some REPORT_CONTROL_NONE
}.

Lemma store_report_spec rc size isIntegrity isGI time dataBlockSize n sent pending : control_ok rc size -> rep (rc_reportBuffer rc) sent pending ->
  report_sizes rc (isIntegrity || isGI) size (MemoryAllocator_getAlignedSize (bitSize_bytes size)) = Some (dataBlockSize, n) -> n <= bsize ->
  exists v e flags b' overflow k r, let rc' := rc_with_reportBuffer b' (rc_with_inclusionFlags flags (with_entryId v e rc)) in
    store_report rc isIntegrity isGI time size (MemoryAllocator_getAlignedSize (bitSize_bytes size)) dataBlockSize n = Some (rc', overflow) /\
    control_ok rc' size /\ enqueued rc rc' size n isIntegrity isGI time sent pending overflow k r.
Proof.
  intros Hok Hrep Esz Hn. destruct (report_sizes_spec rc size Hok (isIntegrity || isGI)) as (d & n' & E' & Hnn & _ & _). rewrite Esz in E'. injection E' as <- <-.
  unfold store_report.
  assert (exists b, (if rc_buffered rc && isGI then removeAllGIReportsFromReportBuffer (rc_reportBuffer rc) else Some (rc_reportBuffer rc)) = Some b /\
    rep b (staying rc isGI sent) (staying rc isGI pending) /\ rb_isOverflow b = rb_isOverflow (rc_reportBuffer rc)) as (b & -> & Hrepb & Hovb).
  { unfold staying. destruct (rc_buffered rc && isGI); [by apply removeAllGI_spec|by exists (rc_reportBuffer rc)]. }
  cbn [mbind option_bind].
  destruct (place_spec base bsize Hbase Hend b n _ _ Hrepb ltac:(lia)) as (k & b1 & pos & ov & -> & Hpl & Hno & Hov1 & Hov & Hfit). cbn [mbind option_bind].
  pose proof (pl_block _ _ _ _ _ _ Hpl) as (Hb1 & Hb2 & Hz). pose proof (pl_bounds _ _ _ _ _ _ Hpl) as (Hp & Hpn).
  destruct (write_report_spec base rc size b1 pos isIntegrity isGI time dataBlockSize n Hok Hb1 Hp ltac:(lia) Esz)
    as (v & e & m' & r & -> & Hok' & Ht & Hh & Hokr & Rp & Rl & Rt & Rf & Rid & Rc). cbn [mbind option_bind].
  destruct (clearInclusionFlags_spec (with_entryId v e rc) size Hok') as (flags & -> & Hokf & Hclear). cbn [mbind option_bind].
  destruct (placed_written b1 pos n _ _ r m' Hpl Hno) as [Hlinked Hov3]; [|done..|].
  { exists (drop k (staying rc isGI sent)). by rewrite drop_both. }
  cbv zeta in Hlinked, Hov3. eexists v, e, flags, _, ov, k, r. split; [reflexivity|]. split.
  - destruct Hokf as [H1 H2 H3 H4 H5 H6 H7 H8 H9]. destruct rc; constructor; done.
  - constructor.
    + unfold ReportRing.rep. rewrite app_assoc, drop_both. destruct rc; exact Hlinked.
    + split; [|done]. constructor; [done|done|by destruct rc|done].
    + by rewrite staying_app.
    + rewrite Hov1, Hovb in Hov3. destruct rc; exact Hov3.
    + rewrite staying_app. exact Hfit.
    + destruct rc; exact Hclear.
Qed.

(** what [enqueueReport] may change of a control block *)
Definition enqueue_frame (rc rc' : ReportControl) : Prop :=
  exists v e flags b t, rc' = rc_with_reportBuffer b (rc_with_inclusionFlags flags (with_entryId v e (rc_with_timeOfEntry t rc))).

(** the result for a report of [n] bytes, of which the first disjunct is too large *)
Definition enqueue_result (rc rc' : ReportControl) (size n : Z) (isIntegrity isGI : bool) (time : Z) (sent pending : list Report) (events : list IedServer_RCBEventType) : Prop :=
  (bsize < n /\ rc_reportBuffer rc' = rc_reportBuffer rc /\ rc_inclusionFlags rc' = rc_inclusionFlags rc /\ events = [RCB_EVENT_REPORT_CREATED]) \/
  (n <= bsize /\ exists overflow k r, enqueued rc rc' size n isIntegrity isGI time sent pending overflow k r /\
     events = (if overflow : bool then [RCB_EVENT_OVERFLOW] else []) ++ [RCB_EVENT_REPORT_CREATED]).

Lemma enqueueReport_spec rc size isIntegrity isGI time env sent pending : control_ok rc size -> rep (rc_reportBuffer rc) sent pending ->
  exists dataBlockSize n rc' events,
    report_sizes rc (isIntegrity || isGI) size (MemoryAllocator_getAlignedSize (bitSize_bytes size)) = Some (dataBlockSize, n) /\
    enqueueReport isIntegrity isGI time rc env = Some (rc', if rc_eventHandler rc then rcbEventHandler events (snd (Hal_time env)) else snd (Hal_time env)) /\
    control_ok rc' size /\ enqueue_frame rc rc' /\ enqueue_result rc rc' size n isIntegrity isGI time sent pending events.
Proof.
  intros Hok Hrep. destruct (report_sizes_spec rc size Hok (isIntegrity || isGI)) as (d & n & Esz & Hn & _). exists d, n. unfold enqueueReport.
  destruct (Hal_time env) as [now env1]. cbn [snd]. destruct (updateTimeOfEntry_spec rc size now Hok) as (t & -> & Hok1). cbn [mbind option_bind].
  destruct (co_field _ _ Hok1) as [buf ->]. cbn [MmsValue_getBitStringSize bitStringByteSize mbind option_bind].
  assert (report_sizes (rc_with_timeOfEntry t rc) (isIntegrity || isGI) size (MemoryAllocator_getAlignedSize (bitSize_bytes size)) = Some (d, n)) as Esz1 by (rewrite <- Esz; by destruct rc).
  rewrite Esz1. cbn [mbind option_bind]. replace (rc_reportBuffer (rc_with_timeOfEntry t rc)) with (rc_reportBuffer rc) by (by destruct rc).
  destruct (ln_block _ _ _ _ _ Hrep) as (_ & -> & _). destruct (Z.ltb_spec bsize n).
  - cbn [mbind option_bind]. do 2 eexists. split; [done|]. split; [by destruct rc|]. split; [done|]. split; [|left; by destruct rc].
    exists (rc_rcbValues rc), (rc_lastEntryId rc), (rc_inclusionFlags rc), (rc_reportBuffer rc), t. by destruct rc.
  - destruct (store_report_spec (rc_with_timeOfEntry t rc) size isIntegrity isGI time d n sent pending Hok1) as (v & e & flags & b' & ov & k & r & -> & Hok2 & Hen); [by destruct rc|done|done|].
    cbn [mbind option_bind]. do 2 eexists. split; [done|]. split; [by destruct rc|]. split; [done|]. split; [by exists v, e, flags, b', t|].
    right. split; [done|]. exists ov, k, r. split; [|done]. destruct Hen as [H1 [[H2a H2b H2c H2d] H2] H3 H4 H5 H6]. destruct rc; constructor; done.
Qed.

(** * The other operations *)

Lemma purge_spec rc sent pending : rep (rc_reportBuffer rc) sent pending -> rep (rc_reportBuffer (purgeBuf rc)) [] [].
Proof.
  intros [Hb _ _ _ _ _]. unfold purgeBuf. destruct rc, rc_reportBuffer; cbn in *. constructor; cbn; try done. left. destruct Hb as (_ & _ & Hz). cbn. pose proof (zlen_nonneg rb_memory). lia.
Qed.

Lemma done_spec rc sent r pending : rep (rc_reportBuffer rc) sent (r :: pending) ->
  exists rc', report_done rc = Some rc' /\ rep (rc_reportBuffer rc') (sent ++ [r]) pending /\ rb_isOverflow (rc_reportBuffer rc') = false /\ rb_memory (rc_reportBuffer rc') = rb_memory (rc_reportBuffer rc).
Proof.
  intros Hrep. pose proof Hrep as [(Hb & Hbs & Hz) Hc Hring Hl Hcount Hn]. apply chain_app in Hc as (q & Hc1 & (Hq & next & Hh & Hnext & Hc2)).
  pose proof (chain_head base _ _ _ Hc2) as ->. unfold report_done. rewrite Hn. cbn [head_address]. rewrite (entry_next_holds base _ r _ Hb Hh Hnext). cbn [mbind option_bind].
  pose proof (address_pos base bsize Hbase Hend r _ Hring ltac:(apply elem_of_app; right; by left)) as Har.
  replace (address r =? head_address base pending) with false.
  2: { symmetry. apply Z.eqb_neq. destruct pending as [|p pending]; cbn [head_address]; [lia|]. intros E. symmetry in E. revert E. apply (address_ne base bsize r (p :: pending)); [|by left].
       eapply ring_sublist; [|exact Hring]. by apply sublist_inserts_l. }
  eexists. split; [done|]. destruct rc, rc_reportBuffer; cbn in *. split; [|done].
  unfold ReportRing.rep in *. rewrite <- app_assoc. destruct Hrep. constructor; done.
Qed.


(** the reports behind the first one with an identifier *)
Fixpoint after_id (id : list Z) (rs : list Report) : option (list Report * list Report) :=
  match rs with
  | [] => None
  | r :: rs => if decide (rp_id r = id) then Some ([r], rs) else '(before, after) ← after_id id rs; Some (r :: before, after)
  end.
Lemma after_id_app id rs before after : after_id id rs = Some (before, after) -> rs = before ++ after.
Proof.
  revert before. induction rs as [|r rs IH]; intros before; cbn; [done|]. destruct (decide _); [intros [= <- <-]; done|].
  destruct (after_id id rs) as [[b a]|]; [|done]. cbn. intros [= <- <-]. cbn. f_equal. by apply IH.
Qed.

Lemma entry_id_holds b r next : rb_memoryBlock b = base -> holds (rb_memory b) r next -> entry_entryId b (address r) = Some (rp_id r) /\ zlen (rp_id r) = 8.
Proof.
  intros Hb [H _ _ _ _]. unfold entry_entryId, entry_field, ReportRing.address. rewrite Hb. replace (base + rp_pos r - base + 0) with (rp_pos r) by lia. split; [done|].
  by destruct (ld_range_zlen _ _ _ _ H).
Qed.

Lemma memcmp_id a id : zlen a = 8 -> 8 <= zlen id -> memcmp_eq a id 8 = Some (bool_decide (a = take 8 id)).
Proof. intros Ha Hid. unfold memcmp_eq. rewrite (ld_range_whole a 8) by lia. rewrite (ld_range_Some id) by lia. cbn [mbind option_bind Z.to_nat drop]. rewrite drop_0. done. Qed.

Lemma entryId_loop_spec id rc rs : forall fuel p, 8 <= zlen id -> rb_memoryBlock (rc_reportBuffer rc) = base -> (length rs < fuel)%nat ->
  chain base (rb_memory (rc_reportBuffer rc)) rs p 0 -> Forall (fun r => 0 < address r) rs ->
  entryId_loop fuel rc id p =
    match after_id (take 8 id) rs with
    | Some (_, after) => Some (rc_with_isResync true (rc_with_reportBuffer (rb_with_next (head_address base after) (rc_reportBuffer rc)) rc), true)
    | None => Some (rc, false)
    end.
Proof.
  induction rs as [|r rs IH]; intros fuel p Hid Hb Hf Hc Hpos; (destruct fuel as [|fuel]; [lia|]); cbn [entryId_loop after_id].
  - cbn in Hc. by subst p.
  - destruct Hc as (-> & next & Hh & Hn & Hc). apply Forall_cons_1 in Hpos as [Hr Hpos]. rewrite (proj2 (Z.eqb_neq (address r) 0)) by lia.
    destruct (entry_id_holds _ _ _ Hb Hh) as [-> Hz]. cbn [mbind option_bind]. rewrite memcmp_id by done. cbn [mbind option_bind].
    rewrite (entry_next_holds base _ r next Hb Hh Hn). cbn [mbind option_bind]. case_bool_decide; destruct (decide (rp_id r = take 8 id)); try done.
    + by rewrite (chain_head base _ _ _ Hc).
    + cbn in Hf. rewrite IH by (done || lia). destruct (after_id (take 8 id) rs) as [[before after]|]; done.
Qed.

Lemma check_entryId_spec rc sent pending n mx id : rep (rc_reportBuffer rc) sent pending -> 8 <= zlen id ->
  match after_id (take 8 id) (sent ++ pending) with
  | Some (before, after) => exists rc', checkReportBufferForEntryID rc (MmsOctetString n mx id) = Some (rc', true) /\ rep (rc_reportBuffer rc') before after /\ rc_isResync rc' = true
  | None => checkReportBufferForEntryID rc (MmsOctetString n mx id) = Some (rc, false)
  end.
Proof.
  intros Hrep Hid. pose proof Hrep as [(Hb & Hbs & Hz) Hc Hring Hl Hcount Hn]. unfold checkReportBufferForEntryID. pose proof (ring_length _ _ Hring) as Hlen.
  rewrite (entryId_loop_spec id rc (sent ++ pending)); [|done|done|unfold zlen in *; lia|done|].
  2: { apply List.Forall_forall. intros r Hr. eapply (address_pos base bsize Hbase Hend r _ Hring). by apply list_elem_of_In. }
  destruct (after_id (take 8 id) (sent ++ pending)) as [[before after]|] eqn:E; [|done]. apply after_id_app in E. eexists. split; [done|]. unfold ReportRing.rep in *. rewrite E in Hrep. split; [|by destruct rc].
  destruct Hrep. destruct rc, rc_reportBuffer; cbn in *. constructor; cbn; done.
Qed.
End Queue.

(** * Processing *)

Section Process.
Context (base bsize size : Z).
Hypothesis Hbase : 0 < base.
Hypothesis Hend : base + bsize < 18446744073709551616.

(** a control block whose buffer is a sequence of reports *)
Definition report_state (rc : ReportControl) : Prop := control_ok rc size /\ exists sent pending, rep base bsize (rc_reportBuffer rc) sent pending.

(** members that [enqueueReport] does not write *)
Definition request (rc : ReportControl) := (rc_triggered rc, rc_gi rc, rc_reportTime rc, rc_triggerOps rc, rc_intgPd rc, rc_enabled rc, rc_isBuffering rc).

Lemma enqueue_keeps rc isIntegrity isGI t env : report_state rc ->
  exists rc' env', enqueueReport isIntegrity isGI t rc env = Some (rc', env') /\ report_state rc' /\ request rc' = request rc.
Proof.
  intros [Hok (sent & pending & Hrep)]. destruct (enqueueReport_spec base bsize Hbase Hend rc size isIntegrity isGI t env sent pending Hok Hrep) as (d & n & rc' & ev & _ & -> & Hok' & Hframe & Hres).
  do 2 eexists. split; [done|]. split; [|destruct Hframe as (v & e & flags & b & tm & ->); by destruct rc]. split; [done|]. destruct Hres as [(_ & -> & _)|(_ & ov & k & r & [Hrep' _ _ _ _ _] & _)]; eauto.
Qed.

(** assignments to members outside the buffer and the data *)
Lemma state_triggered v rc : report_state rc -> report_state (rc_with_triggered v rc).
Proof. intros [[] Hrep]. by destruct rc. Qed.
Lemma state_gi v rc : report_state rc -> report_state (rc_with_gi v rc).
Proof. intros [[] Hrep]. by destruct rc. Qed.
Lemma state_nextIntg v rc : report_state rc -> report_state (rc_with_nextIntgReportTime v rc).
Proof. intros [[] Hrep]. by destruct rc. Qed.

Lemma process_gi_keeps t rc env : report_state rc -> exists rc' env', process_gi t rc env = Some (rc', env') /\ report_state rc' /\
  (rc_triggered rc' = true -> rc_triggered rc = true) /\ (Z.land (rc_triggerOps rc) TRG_OPT_GI <> 0 -> rc_gi rc' = false) /\
  rc_reportTime rc' = rc_reportTime rc /\ rc_intgPd rc' = rc_intgPd rc.
Proof.
  intros Hs. unfold process_gi. destruct (negb (Z.land (rc_triggerOps rc) TRG_OPT_GI =? 0) && rc_gi rc) eqn:E.
  - assert (exists rc1 env1, (if rc_triggered rc then enqueueReport false false t (rc_with_triggered false rc) env else Some (rc, env)) = Some (rc1, env1) /\ report_state rc1 /\
      rc_reportTime rc1 = rc_reportTime rc /\ rc_intgPd rc1 = rc_intgPd rc) as (rc1 & env1 & -> & Hs1 & Ht1 & Hi1).
    { destruct (rc_triggered rc); [|by exists rc, env]. destruct (enqueue_keeps _ false false t env (state_triggered false rc Hs)) as (rc1 & env1 & -> & Hs1 & Hr1).
      exists rc1, env1. split_and!; try done; unfold request in Hr1; destruct rc; cbn in *; congruence. }
    cbn [mbind option_bind]. destruct (enqueue_keeps rc1 false true t env1 Hs1) as (rc2 & env2 & -> & Hs2 & Hr2). cbn [mbind option_bind]. do 2 eexists. split; [done|].
    unfold request in Hr2. split; [by apply state_triggered, state_gi|]. destruct rc2; cbn in *. split_and!; congruence || done.
  - exists rc, env. split_and!; try done. intros Hgi. apply Z.eqb_neq in Hgi. rewrite Hgi in E. exact E.
Qed.

Lemma rounded_defined t p : 0 < p -> is_Some (getNextRoundedStartTime t p).
Proof. intros Hp. unfold getNextRoundedStartTime. rewrite (proj2 (Z.eqb_neq p 0)) by lia. by eexists. Qed.
Lemma time_change_keeps t rc : report_state rc -> 0 < rc_intgPd rc -> exists rc', check_time_change t rc = Some rc' /\ report_state rc' /\ request rc' = request rc.
Proof.
  intros Hs Hp. unfold check_time_change. destruct (_ || _); [|by exists rc]. destruct (rounded_defined t (rc_intgPd rc) Hp) as [x ->].
  destruct (rc_syncIntegrityReportTimes rc); cbn [mbind option_bind]; eexists; (split; [done|]); (split; [by apply state_nextIntg|by destruct rc]).
Qed.

Lemma process_integrity_keeps t rc env : report_state rc -> exists rc' env', process_integrity t rc env = Some (rc', env') /\ report_state rc' /\
  (rc_triggered rc' = true -> rc_triggered rc = true) /\ rc_gi rc' = rc_gi rc /\ rc_reportTime rc' = rc_reportTime rc.
Proof.
  intros Hs. unfold process_integrity. destruct (negb (Z.land (rc_triggerOps rc) TRG_OPT_INTEGRITY =? 0) && (0 <? rc_intgPd rc)) eqn:E; [|by exists rc, env].
  assert (0 < rc_intgPd rc) as Hp by (apply andb_true_iff in E as [_ E]; by apply Z.ltb_lt). destruct (rc_nextIntgReportTime rc <=? t).
  - assert (exists rc1 env1, (if rc_triggered rc then '(rc, env) ← enqueueReport false false t rc env; Some (rc_with_triggered false rc, env) else Some (rc, env)) = Some (rc1, env1) /\
      report_state rc1 /\ rc_gi rc1 = rc_gi rc /\ rc_reportTime rc1 = rc_reportTime rc /\ rc_intgPd rc1 = rc_intgPd rc) as (rc1 & env1 & -> & Hs1 & Hg1 & Ht1 & Hi1).
    { destruct (rc_triggered rc); [|by exists rc, env]. destruct (enqueue_keeps rc false false t env Hs) as (rc1 & env1 & -> & Hs1 & Hr1). cbn [mbind option_bind]. do 2 eexists. split; [done|].
      unfold request in Hr1. split; [by apply state_triggered|]. destruct rc1; cbn in *. split_and!; congruence. }
    cbn [mbind option_bind]. destruct (rounded_defined t (rc_intgPd rc1) ltac:(lia)) as [x ->].
    set (y := if rc_syncIntegrityReportTimes rc1 then Some x else _). assert (is_Some y) as [z ->] by (subst y; destruct (rc_syncIntegrityReportTimes rc1); by eexists). cbn [mbind option_bind].
    destruct (time_change_keeps t (rc_with_nextIntgReportTime z rc1)) as (rc2 & -> & Hs2 & Hr2); [by apply state_nextIntg|destruct rc1; cbn in *; lia|]. cbn [mbind option_bind].
    destruct (enqueue_keeps rc2 true false t env1 Hs2) as (rc3 & env3 & -> & Hs3 & Hr3). cbn [mbind option_bind]. do 2 eexists. split; [done|]. split; [by apply state_triggered|].
    unfold request in Hr2, Hr3. destruct rc1, rc3; cbn in *. split_and!; congruence || done.
  - destruct (time_change_keeps t rc Hs Hp) as (rc1 & -> & Hs1 & Hr1). cbn [mbind option_bind]. exists rc1, env. split; [done|]. split; [done|]. unfold request in Hr1. split_and!; congruence.
Qed.

Lemma process_keeps t rc env : report_state rc -> exists rc' env', processEventsForReport t rc env = Some (rc', env') /\ report_state rc' /\
  (rc_enabled rc || rc_isBuffering rc = true ->
     (rc_triggered rc' = true -> t < rc_reportTime rc') /\ (Z.land (rc_triggerOps rc) TRG_OPT_GI <> 0 -> rc_gi rc' = false)).
Proof.
  intros Hs. unfold processEventsForReport. destruct (rc_enabled rc || rc_isBuffering rc); [|by exists rc, env].
  destruct (process_gi_keeps t rc env Hs) as (rc1 & env1 & -> & Hs1 & _ & Hg1 & _). cbn [mbind option_bind].
  destruct (process_integrity_keeps t rc1 env1 Hs1) as (rc2 & env2 & -> & Hs2 & _ & Hg2 & _). cbn [mbind option_bind].
  destruct (rc_triggered rc2 && (rc_reportTime rc2 <=? t)) eqn:E.
  - destruct (enqueue_keeps rc2 false false t env2 Hs2) as (rc3 & env3 & -> & Hs3 & Hr3). cbn [mbind option_bind]. do 2 eexists. split; [done|]. split; [by apply state_triggered|].
    intros _. unfold request in Hr3. destruct rc3; cbn in *. split; [done|]. intros Hgi. specialize (Hg1 Hgi). congruence.
  - exists rc2, env2. split; [done|]. split; [done|]. intros _. split; [|intros Hgi; specialize (Hg1 Hgi); congruence]. intros Htr. rewrite Htr in E. cbn in E. by apply Z.leb_gt.
Qed.
End Process.
