(* ===== verification/ProtectionIed.v ===== *)
(** The protection IED: src/libiec61850/examples/goose_publisher/goose_publisher_example.c.

    One turn of the main loop reads the simulated measurements, applies the
    protection logic, detects a change of state and publishes the data set.
    The file /tmp/gui_data.txt is outside: an input is [None] when it cannot be
    opened and otherwise the values [fscanf] assigned, in order (it stops at
    the first field that does not match, so fewer than seven may be assigned;
    the four integers come first, then three [float]s as bit patterns). The
    time to sleep is a result. *)

From Stdlib Require Import String Ascii.
From S2P Require Import Prelude BerEncoder BerDecoder BerInteger StringUtils CText CFloat MmsValue MmsFacts MmsData GoosePublisher GooseSubscriber GooseReceiver GooseSafety GooseDataSet GooseRoundtrip.
Open Scope Z_scope.

(** the values of one turn *)
Record Snapshot := mkSnapshot {
  sn_trip : Z;
  sn_close : Z;
  sn_fault_type : Z;
  sn_prot_elem : Z;
  sn_current : Z;
  sn_voltage : Z;
  sn_freq : Z
}.

(** [1250.5], [10500.0] and [49.8] as [float]s *)
Definition default_current : Z := double_to_float 0x40938A0000000000.
Definition default_voltage : Z := float_of_Z 10500.
Definition default_freq : Z := double_to_float 0x4048E66666666666.

(** the variables after [fscanf] *)
Definition read_gui (input : option (list Z)) : Snapshot :=
  let field i d := default d ((default [] input) !! i) in
  mkSnapshot (field 0%nat 0) (field 1%nat 0) (field 2%nat 0) (field 3%nat 50)
    (field 4%nat default_current) (field 5%nat default_voltage) (field 6%nat default_freq).

(** comparison of a [float] with a [double] constant *)
Definition above (x : Z) (limit : Z) : bool := double_gt (float_to_double x) (double_of_Z limit).
Definition below (x : Z) (limit : Z) : bool := double_lt (float_to_double x) (double_of_Z limit).

(** The protection functions, in the order of the code: each overrides the
    ones before. The results are [protection_trip], [detected_fault] and
    [protection_element]. *)
Definition protection_logic (fault_type current voltage freq : Z) : bool * Z * Z :=
  let '(protection_trip, detected_fault, protection_element) := (false, 0, 50) in
  let '(protection_trip, detected_fault, protection_element) :=
    if above current 3500 then (true, 1, 50)
    else (protection_trip, detected_fault, protection_element) in
  let '(protection_trip, detected_fault, protection_element) :=
    if below voltage 8000 || above voltage 14000
    then (true, 2, if below voltage 8000 then 27 else 59)
    else (protection_trip, detected_fault, protection_element) in
  let '(protection_trip, detected_fault, protection_element) :=
    if below freq 49 || above freq 51 then (true, 3, 81)
    else (protection_trip, detected_fault, protection_element) in
  if 0 <? fault_type then
    let protection_element := if fault_type =? 2 then 87 else protection_element in
    let protection_element := if fault_type =? 3 then 21 else protection_element in
    (true, fault_type, protection_element)
  else (protection_trip, detected_fault, protection_element).

Definition protect (s : Snapshot) : Snapshot :=
  let 'mkSnapshot trip close fault_type prot_elem current voltage freq := s in
  let '(protection_trip, detected_fault, protection_element) :=
    protection_logic fault_type current voltage freq in
  if protection_trip : bool
  then mkSnapshot 1 close detected_fault protection_element current voltage freq
  else s.

(** the test for a change of state *)
Definition differs (s prev : Snapshot) : bool :=
  negb (sn_trip s =? sn_trip prev) || negb (sn_close s =? sn_close prev) ||
  negb (sn_fault_type s =? sn_fault_type prev) || negb (sn_prot_elem s =? sn_prot_elem prev) ||
  float_ne (sn_current s) (sn_current prev) || float_ne (sn_voltage s) (sn_voltage prev) ||
  float_ne (sn_freq s) (sn_freq prev).

(** the entries of the data set *)
Definition data_set (s : Snapshot) : option (list (option MmsValue)) :=
  fault ← MmsValue_newIntegerFromInt32 (sn_fault_type s);
  elem ← MmsValue_newIntegerFromInt32 (sn_prot_elem s);
  Some [Some (MmsValue_newBoolean (negb (sn_trip s =? 0)));
        Some (MmsValue_newBoolean (negb (sn_close s =? 0)));
        Some fault;
        Some elem;
        Some (MmsValue_newFloat (sn_current s));
        Some (MmsValue_newFloat (sn_voltage s));
        Some (MmsValue_newFloat (sn_freq s))].

(** * The program *)

Record IedState := mkIedState {
  ied_publisher : GoosePublisher;
  ied_prev : Snapshot;
  ied_first_publish : bool
}.

Definition goCbRef_literal : list Z := c_literal "simpleIOGenericIO/LLN0$GO$gcbAnalogValues".
Definition dataSetRef_literal : list Z := c_literal "simpleIOGenericIO/LLN0$AnalogValues".
Definition ied_dstAddress : list Z := [0x01; 0x0c; 0xcd; 0x01; 0x00; 0x01].
Definition gooseCommParameters : CommParameters := mkCommParameters 4 0 1000 ied_dstAddress.

(** [main] up to the loop; [None] inside when no publisher can be created *)
Definition ied_setup (srcAddr : list Z) (socketOpen : bool) (now : Z) : option (option IedState) :=
  r ← GoosePublisher_create (Some gooseCommParameters) srcAddr socketOpen now;
  match r with
  | None => Some None
  | Some publisher =>
      publisher ← GoosePublisher_setGoCbRef publisher (Some goCbRef_literal);
      let publisher := GoosePublisher_setConfRev publisher 1 in
      publisher ← GoosePublisher_setDataSetRef publisher (Some dataSetRef_literal);
      let publisher := GoosePublisher_setTimeAllowedToLive publisher 500 in
      let minus_one := float_of_Z (-1) in
      Some (Some (mkIedState publisher (mkSnapshot (-1) (-1) (-1) (-1) minus_one minus_one minus_one) true))
  end.

(** One turn of the loop: the new state, the frame sent and the milliseconds
    slept. [state_changed] is zero at the start of every turn. *)
Definition ied_step (st : IedState) (input : option (list Z)) (now : Z)
  : option (IedState * option (list Z) * Z) :=
  let s := protect (read_gui input) in
  let state_changed := negb (ied_first_publish st) && differs s (ied_prev st) in
  publisher ← (if state_changed
               then '(publisher, _) ← GoosePublisher_increaseStNum (ied_publisher st) now; Some publisher
               else Some (ied_publisher st));
  dataSetValues ← data_set s;
  '(publisher, _, sent) ← GoosePublisher_publish publisher dataSetValues;
  Some (mkIedState publisher s false, sent, if state_changed then 4 else 1000).

(** * The protection decision *)

(** A measurement is outside its band. *)
Definition violation (current voltage freq : Z) : bool :=
  above current 3500 || (below voltage 8000 || above voltage 14000) || (below freq 49 || above freq 51).

Lemma protection_logic_trip fault_type current voltage freq :
  (protection_logic fault_type current voltage freq).1.1
  = violation current voltage freq || (0 <? fault_type).
Proof.
  unfold protection_logic, violation.
  destruct (above current 3500), (below voltage 8000 || above voltage 14000), (below freq 49 || above freq 51),
    (0 <? fault_type); reflexivity.
Qed.

Lemma protect_trip s :
  negb (sn_trip (protect s) =? 0)
  = violation (sn_current s) (sn_voltage s) (sn_freq s) || (0 <? sn_fault_type s) || negb (sn_trip s =? 0).
Proof.
  destruct s as [trip close fault elem current voltage freq].
  unfold protect. cbn [sn_trip sn_current sn_voltage sn_freq sn_fault_type].
  pose proof (protection_logic_trip fault current voltage freq) as H.
  destruct (protection_logic fault current voltage freq) as [[pt df] pe]. cbn in H. rewrite <- H.
  destruct pt; reflexivity.
Qed.

(** The measurements and the close command pass through. *)
Lemma protect_measurements s :
  sn_close (protect s) = sn_close s /\ sn_current (protect s) = sn_current s /\
  sn_voltage (protect s) = sn_voltage s /\ sn_freq (protect s) = sn_freq s.
Proof.
  destruct s as [trip close fault elem current voltage freq].
  unfold protect. cbn [sn_close sn_current sn_voltage sn_freq].
  destruct (protection_logic fault current voltage freq) as [[[] df] pe]; done.
Qed.

(** ** NaN measurements *)

Lemma decode_nan f bits : is_nan f bits = true -> 0 <= mant_width f -> 0 < exp_width f -> decode f bits = SpecFloat.S754_nan.
Proof.
  intros H Hm He. unfold is_nan in H. apply andb_prop in H as [H1 H2]. unfold decode.
  assert (1 < 2 ^ exp_width f) by (apply Z.pow_gt_1; lia).
  replace (exp_field f bits =? 0) with false by lia. rewrite H1. by destruct (mant_field f bits =? 0).
Qed.

Lemma float_ne_nan a b : is_nan binary32 a = true -> float_ne a b = true.
Proof. intros H. unfold float_ne, float_eq. rewrite (decode_nan binary32 a H) by (cbn; lia). done. Qed.

(** * The data set *)

Definition snapshot_ok (s : Snapshot) : Prop :=
  is_s32 (sn_fault_type s) /\ is_s32 (sn_prot_elem s) /\
  is_u32 (sn_current s) /\ is_u32 (sn_voltage s) /\ is_u32 (sn_freq s).

(** the values [fscanf] can assign *)
Definition input_ok (input : option (list Z)) : Prop :=
  forall i x, default [] input !! i = Some x -> if (i <? 4)%nat then is_s32 x else is_u32 x.

Lemma field_range (P : Z -> Prop) (l : list Z) i d : P d -> (forall x, l !! i = Some x -> P x) -> P (default d (l !! i)).
Proof. intros Hd H. destruct (l !! i); cbn; auto. Qed.

Lemma read_gui_ok input : input_ok input -> snapshot_ok (read_gui input).
Proof.
  intros H. unfold snapshot_ok, read_gui. cbn [sn_fault_type sn_prot_elem sn_current sn_voltage sn_freq].
  split_and!.
  - apply (field_range is_s32); [unfold is_s32; lia|]. intros x Hx. apply (H 2%nat x Hx).
  - apply (field_range is_s32); [unfold is_s32; lia|]. intros x Hx. apply (H 3%nat x Hx).
  - apply (field_range is_u32); [vm_compute; split; congruence|]. intros x Hx. apply (H 4%nat x Hx).
  - apply (field_range is_u32); [vm_compute; split; congruence|]. intros x Hx. apply (H 5%nat x Hx).
  - apply (field_range is_u32); [vm_compute; split; congruence|]. intros x Hx. apply (H 6%nat x Hx).
Qed.

Lemma protect_ok s : snapshot_ok s -> snapshot_ok (protect s).
Proof.
  destruct s as [trip close fault elem current voltage freq]. unfold snapshot_ok, protect, protection_logic.
  intros (H1 & H2 & H3 & H4 & H5). cbn in *. unfold is_s32 in *.
  repeat match goal with |- context [if ?b then _ else _] => destruct b eqn:? end; cbn; split_and!; (done || lia).
Qed.

(** A data set of the application: its shape and the values in it. *)
Definition app_data (s : Snapshot) (dataSet : list (option MmsValue)) : Prop :=
  exists fault elem, 
  dataSet = [Some (MmsBoolean (negb (sn_trip s =? 0))); Some (MmsBoolean (negb (sn_close s =? 0)));
             Some (MmsInteger fault); Some (MmsInteger elem);
             Some (MmsValue_newFloat (sn_current s)); Some (MmsValue_newFloat (sn_voltage s));
             Some (MmsValue_newFloat (sn_freq s))] /\
  apv_holds fault (ber_int32 (sn_fault_type s)) /\ apv_holds elem (ber_int32 (sn_prot_elem s)).

Lemma data_set_spec s : exists dataSet, data_set s = Some dataSet /\ app_data s dataSet.
Proof.
  unfold data_set, MmsValue_newIntegerFromInt32.
  destruct (createFromInt32_holds (sn_fault_type s)) as (f & -> & Hf & _).
  destruct (createFromInt32_holds (sn_prot_elem s)) as (e & -> & He & _). cbn [mbind option_bind].
  eexists. split; [done|]. by exists f, e.
Qed.

Lemma int32_size a v : apv_holds a (ber_int32 v) -> apv_ok a /\ 1 <= apv_size a <= 4.
Proof.
  intros [Ha Hc]. pose proof (zlen_ber_int32 v). rewrite <- Hc, zlen_apv_content in * by done. done.
Qed.

Lemma newFloat_fields x : is_u32 x ->
  mms_ok (MmsValue_newFloat x) /\ decodable (MmsValue_newFloat x) /\ zlen (mms_bytes (MmsValue_newFloat x)) = 7.
Proof.
  intros Hx. split; [apply newFloat_ok|]. split; [cbn; split; [done | auto]|]. done.
Qed.

Lemma app_data_sendable s dataSet :
  snapshot_ok s -> app_data s dataSet ->
  dataSet_ok dataSet /\ sendable (MmsArray dataSet) /\ goose_value (MmsArray dataSet) /\
  zlen (components_bytes dataSet) <= 39.
Proof.
  intros (_ & _ & H3 & H4 & H5) (f & e & -> & Hf & He).
  destruct (int32_size _ _ Hf) as [Hfok Hfs], (int32_size _ _ He) as [Heok Hes].
  destruct (newFloat_fields _ H3) as (F1 & F1' & F1z), (newFloat_fields _ H4) as (F2 & F2' & F2z),
    (newFloat_fields _ H5) as (F3 & F3' & F3z).
  pose proof (zlen_apv_content f Hfok) as Zf. pose proof (zlen_apv_content e Heok) as Ze.
  assert (zlen (components_bytes [Some (MmsBoolean (negb (sn_trip s =? 0))); Some (MmsBoolean (negb (sn_close s =? 0)));
             Some (MmsInteger f); Some (MmsInteger e);
             Some (MmsValue_newFloat (sn_current s)); Some (MmsValue_newFloat (sn_voltage s));
             Some (MmsValue_newFloat (sn_freq s))]) <= 39) as Hz.
  { rewrite !components_bytes_cons, !zlen_app, F1z, F2z, F3z. cbn [mms_bytes].
    rewrite !zlen_tlv_bool, !zlen_ber_tlv, Zf, Ze, !ber_length_1 by lia.
    change (zlen (components_bytes [])) with 0. lia. }
  split; [|split; [|split]]; [| | |done].
  - unfold dataSet_ok. cbn [all_components]. split_and!; try done; cbn [mms_sized]; lia.
  - unfold sendable. split_and!.
    + cbn [mms_ok all_components]. split_and!; done.
    + cbn [decodable]. split; [cbn [mms_content]; lia|]. split; [done|].
      split; cbn [all_components]; split_and!; try done; try (cbn; lia);
        try (unfold element_tags; rewrite !elem_of_cons; cbn; tauto).
      all: cbn [decodable mms_content]; split; lia.
    + cbn. split_and!; done.
    + cbn. split_and!; done.
  - cbn. split_and!; done.
Qed.

(** * The invariant of the loop *)

Definition ied_vlan : list Z := [0x81; 0x00; 0x80; 0x00].

(** The publisher as [main] configured it. *)
Definition ied_ok (src : list Z) (self : GoosePublisher) : Prop :=
  publisher_ok self /\ framed self ied_dstAddress src ied_vlan 1000 /\ gp_ethernetSocket self = true /\
  gp_goID self = None /\ gp_goCBRef self = Some goCbRef_literal /\ gp_dataSetRef self = Some dataSetRef_literal /\
  gp_confRev self = 1 /\ gp_timeAllowedToLive self = 500.

Lemma ied_setup_ok srcAddr now :
  zlen srcAddr = 6 ->
  exists st, ied_setup srcAddr true now = Some (Some st) /\ ied_ok srcAddr (ied_publisher st) /\
    ied_first_publish st = true /\ gp_stNum (ied_publisher st) = 1 /\ gp_sqNum (ied_publisher st) = 0.
Proof.
  intros Hs. unfold ied_setup, GoosePublisher_create.
  destruct (createEx_ok (Some gooseCommParameters) srcAddr true now) as (self & Hc & Hok & Hst & Hsq & Hso & Hlf & Hps & Hid & _ & _ & Hh);
    [done | lia |].
  rewrite Hc. cbn [mbind option_bind].
  destruct self as [b so lf ps pl id cb ds cr st sq tl nc si ts].
  unfold GoosePublisher_setGoCbRef.
  replace (StringUtils_copyString (Some goCbRef_literal)) with (Some (Some goCbRef_literal)) by reflexivity.
  cbn [mbind option_bind GoosePublisher_setConfRev]. unfold GoosePublisher_setDataSetRef.
  replace (StringUtils_copyString (Some dataSetRef_literal)) with (Some (Some dataSetRef_literal)) by reflexivity.
  cbn [mbind option_bind GoosePublisher_setTimeAllowedToLive].
  eexists. split; [done|]. cbn [ied_publisher ied_first_publish gp_stNum gp_sqNum] in *.
  split; [|done]. unfold ied_ok, publisher_ok, framed in *.
  cbn [gp_buffer gp_ethernetSocket gp_lengthField gp_payloadStart gp_goID gp_goCBRef gp_dataSetRef gp_confRev gp_stNum gp_sqNum
       gp_timeAllowedToLive gp_timestamp] in *.
  destruct Hok as (H1 & H2 & H3 & H4 & _ & _ & _ & H8 & H9 & _ & H11).
  assert (forall s, string_ok (Some (c_literal s))) as Hlit.
  { intros s. unfold c_literal. cbn. apply elem_of_app. right. by apply list_elem_of_singleton. }
  split_and!; try done; try (unfold is_u32; lia); try apply Hlit.
  - right. by do 2 eexists.
  - exists 0, 8. rewrite Hh. unfold header_bytes. rewrite (take_ge srcAddr) by (unfold zlen in Hs; lia). done.
Qed.

(** Every message of the application fits the frame. *)
Lemma ied_message_fits src self s dataSet :
  ied_ok src self -> snapshot_ok s -> app_data s dataSet ->
  zlen (goose_bytes self dataSet) <= GOOSE_MAX_MESSAGE_SIZE - gp_payloadStart self.
Proof.
  intros (Hok & (_ & _ & _ & _ & _ & Hps & _) & _ & Hid & Hcb & Hds & _ & _) Hs Ha.
  destruct (app_data_sendable s dataSet Hs Ha) as (_ & _ & _ & Hz).
  destruct Hok as (_ & _ & _ & _ & _ & _ & _ & _ & _ & _ & utc & Hts & Hutc & _).
  assert (zlen (components_bytes dataSet) < 128) by lia. pose proof (zlen_nonneg (components_bytes dataSet)).
  unfold goose_bytes. rewrite zlen_ber_tlv, goose_content_split, zlen_app, zlen_ber_tlv.
  pose proof (zlen_ber_length_bounds (zlen (components_bytes dataSet))).
  pose proof (zlen_ber_length_bounds (zlen (fields_bytes (pdu_fields self (zlen dataSet))) +
    (1 + zlen (ber_length (zlen (components_bytes dataSet))) + zlen (components_bytes dataSet)))).
  assert (zlen (fields_bytes (pdu_fields self (zlen dataSet))) <= 200); [|rewrite Hps; change (zlen ied_vlan) with 4; unfold GOOSE_MAX_MESSAGE_SIZE; lia].
  unfold pdu_fields, effective_goID. rewrite Hid, Hcb, Hds, Hts. cbn [utc_bytes].
  rewrite !zlen_fields_bytes_cons, !zlen_tlv_uint32, !zlen_tlv_bool, (zlen_ber_tlv 0x84), Hutc, (ber_length_1 8) by lia.
  change (zlen (fields_bytes [])) with 0.
  change (zlen (ber_tlv 0x80 (ber_string (Some goCbRef_literal)))) with 43.
  change (zlen (ber_tlv 0x83 (ber_string (Some goCbRef_literal)))) with 43.
  change (zlen (ber_tlv 0x82 (ber_string (Some dataSetRef_literal)))) with 37.
  pose proof (zlen_ber_uint32 (gp_timeAllowedToLive self)). pose proof (zlen_ber_uint32 (gp_stNum self)).
  pose proof (zlen_ber_uint32 (gp_sqNum self)). pose proof (zlen_ber_uint32 (gp_confRev self)).
  pose proof (zlen_ber_uint32 (zlen dataSet)). lia.
Qed.

(** The state number and the sequence number of the message of a turn. *)
Definition turn_numbers (changed : bool) (self : GoosePublisher) : Z * Z :=
  if changed then (if gp_stNum self =? 4294967295 then 1 else gp_stNum self + 1, 0)
  else (gp_stNum self, gp_sqNum self).

Definition state_changes (st : IedState) (s : Snapshot) : bool :=
  negb (ied_first_publish st) && differs s (ied_prev st).

Lemma ied_step_spec src st input now :
  ied_ok src (ied_publisher st) -> input_ok input ->
  let s := protect (read_gui input) in let changed := state_changes st s in
  exists self dataSet st',
  ied_step st input now
    = Some (st', Some (frame_bytes ied_dstAddress src ied_vlan 1000 (goose_bytes self dataSet)),
            if changed then 4 else 1000) /\
  ied_ok src self /\ snapshot_ok s /\ app_data s dataSet /\
  (gp_stNum self, gp_sqNum self) = turn_numbers changed (ied_publisher st) /\
  ied_ok src (ied_publisher st') /\ ied_prev st' = s /\ ied_first_publish st' = false /\
  gp_stNum (ied_publisher st') = gp_stNum self /\ gp_sqNum (ied_publisher st') = next_sqNum (gp_sqNum self).
Proof.
  intros Hok Hin s changed. pose proof (protect_ok _ (read_gui_ok _ Hin)) as Hs. fold s in Hs.
  assert (exists self, (if changed
      then '(publisher, _) ← GoosePublisher_increaseStNum (ied_publisher st) now; Some publisher
      else Some (ied_publisher st)) = Some self /\ ied_ok src self /\
    (gp_stNum self, gp_sqNum self) = turn_numbers changed (ied_publisher st)) as (self & Hinc & Hself & Hnum).
  { unfold turn_numbers. destruct changed; [|by eexists].
    destruct Hok as (Hp & Hf & Hrest).
    destruct (increaseStNum_spec (ied_publisher st) now Hp) as (self & -> & Hp' & Hst & Hsq & _ & Heq).
    exists self. split; [done|]. split; [|by rewrite Hst, Hsq]. split; [done|]. rewrite Heq.
    destruct (ied_publisher st). split; [exact Hf | exact Hrest]. }
  unfold ied_step. fold s. change (negb _ && _) with changed. rewrite Hinc. cbn [mbind option_bind].
  destruct (data_set_spec s) as (dataSet & Hd & Ha). rewrite Hd. cbn [mbind option_bind].
  pose proof (ied_message_fits src self s dataSet Hself Hs Ha) as Hfit.
  destruct (app_data_sendable s dataSet Hs Ha) as (Hdok & Hsend & _).
  pose proof Hself as (Hp & Hf & Hso & Hid & Hcb & Hds & Hcr & Httl).
  destruct (publish_frame self dataSet _ _ _ _ Hp Hf Hso Hdok (sendable_length _ Hsend) Hfit)
    as (self' & Hpub & Hp' & Hf' & buffer & Heq).
  rewrite Hpub. cbn [mbind option_bind]. exists self, dataSet. eexists. split; [done|].
  cbn [ied_publisher ied_prev ied_first_publish]. subst self'. split_and!; try done; by destruct self.
Qed.

(** ** A NaN is outside no band *)

Lemma pack64_nan s m : 0 < m < 2 ^ 52 -> is_nan binary64 (pack binary64 s 2047 m) = true.
Proof.
  intros Hm. unfold is_nan, exp_field, mant_field, pack.
  change (mant_width binary64) with 52. change (exp_width binary64) with 11. change (2 ^ (52 + 11)) with (2048 * 2 ^ 52).
  replace ((if s then 2048 * 2 ^ 52 else 0) + 2047 * 2 ^ 52 + m) with (m + ((if s then 2048 else 0) + 2047) * 2 ^ 52)
    by (destruct s; lia).
  change (2 ^ 52) with 4503599627370496 in *. rewrite Z_mod_plus_full, Z_div_plus_full by lia.
  rewrite (Z.div_small m), (Z.mod_small m) by lia.
  replace (m =? 0) with false by lia. by destruct s.
Qed.

Lemma widened_nan x : is_nan binary32 x = true -> decode binary64 (float_to_double x) = SpecFloat.S754_nan.
Proof.
  intros H. unfold float_to_double, convert. rewrite H. apply decode_nan; [|cbn; lia..].
  unfold convert_nan. change (mant_width binary32 <=? mant_width binary64) with true. cbv iota.
  change (mant_width binary64 - mant_width binary32) with 29. change (2 ^ exp_width binary64 - 1) with 2047.
  change (mant_width binary64 - 1) with 51.
  pose proof (mant_field_range binary32 x ltac:(cbn; lia)) as Hm. change (mant_width binary32) with 23 in Hm.
  set (m := mant_field binary32 x * 2 ^ 29) in *. apply pack64_nan.
  assert (0 <= m < 2 ^ 52) as Hm' by (unfold m; change (2 ^ 52) with (2 ^ 23 * 2 ^ 29); lia).
  assert (0 <= Z.lor m (2 ^ 51)) as H0 by (apply Z.lor_nonneg; lia).
  assert (Z.lor m (2 ^ 51) <> 0) by (intros [_ E]%Z.lor_eq_0_iff; lia).
  split; [lia|]. apply Z.log2_lt_pow2; [lia|]. rewrite Z.log2_lor by lia.
  rewrite Z.log2_pow2 by lia. apply Z.max_lub_lt; [|lia].
  destruct (Z.eq_dec m 0) as [->|]; [cbn; lia|]. apply Z.log2_lt_pow2; lia.
Qed.

Lemma above_nan x limit : is_nan binary32 x = true -> above x limit = false.
Proof.
  intros H. unfold above, double_gt, double_lt. rewrite widened_nan by done.
  by destruct (decode binary64 (double_of_Z limit)) as [[]|[]| |[] ? ?].
Qed.

Lemma below_nan x limit : is_nan binary32 x = true -> below x limit = false.
Proof.
  intros H. unfold below, double_lt. rewrite widened_nan by done.
  by destruct (decode binary64 (double_of_Z limit)) as [[]|[]| |[] ? ?].
Qed.
