(* ===== verification/BreakerIed.v ===== *)
(** The circuit breaker IED: src/libiec61850/examples/goose_subscriber/goose_subscriber_example.c.

    The listener reads the data set of the last message and writes one line of
    text, which the breaker's user interface polls, into a shared file. The
    file system is the state of that one file; the results of the system calls
    are arguments. What is printed on the terminal is the record [Display]. *)

From Stdlib Require Import SpecFloat String.
From S2P Require Import Prelude BerEncoder BerDecoder BerInteger StringUtils CText CFloat MmsValue MmsFacts MmsData GoosePublisher GooseSubscriber GooseReceiver GooseSafety GooseDataSet GooseRoundtrip ProtectionIed.
Open Scope Z_scope.

(** * Text output *)

(** [p * 2 ^ e * 10 ^ prec] to the nearest integer, ties to even *)
Definition round_scaled (p : positive) (e prec : Z) : Z :=
  let q := Z.pos p * 10 ^ prec in
  if 0 <=? e then q * 2 ^ e
  else
    let d := 2 ^ (- e) in
    let n := q / d in
    let r := q mod d in
    if (d <? 2 * r) || ((2 * r =? d) && Z.odd n) then n + 1 else n.

(** the last [k] digits of [n] *)
Fixpoint low_digits (k : nat) (n : Z) (acc : list Z) : list Z :=
  match k with
  | O => acc
  | S k => low_digits k (n / 10) ((48 + n mod 10) :: acc)
  end.

Definition print_scaled (prec : nat) (n : Z) : list Z :=
  digits (n / 10 ^ Z.of_nat prec) ++ match prec with O => [] | _ => 46 :: low_digits prec n [] end.

(** [%.<prec>f] of a [double] *)
Definition print_f (prec : nat) (bits : Z) : list Z :=
  (if sign_bit binary64 bits then [45] else []) ++
  match decode binary64 bits with
  | S754_nan => [110; 97; 110]
  | S754_infinity _ => [105; 110; 102]
  | S754_zero _ => print_scaled prec 0
  | S754_finite _ p e => print_scaled prec (round_scaled p e (Z.of_nat prec))
  end.

Example print_1250 : print_f 1 (float_to_double default_current) = [49; 50; 53; 48; 46; 53].
Proof. reflexivity. Qed.
Example print_half_even : print_f 0 0x4004000000000000 = [50] /\ print_f 0 0x400C000000000000 = [52].
Proof. split; reflexivity. Qed.

(** the values of a data set, as the listener reads them *)
Record Command := mkCommand {
  tripCommand : bool;
  closeCommand : bool;
  faultType : Z;
  protElement : Z;
  faultCurrent : Z;
  faultVoltage : Z;
  frequency : Z
}.

(** [%d,%d,%d,%d,%.1f,%.0f,%.1f]; a [float] argument is promoted to [double] *)
Definition command_text (c : Command) : list Z :=
  print_d (if tripCommand c then 1 else 0) ++ [44] ++
  print_d (if closeCommand c then 1 else 0) ++ [44] ++
  print_d (faultType c) ++ [44] ++
  print_d (protElement c) ++ [44] ++
  print_f 1 (float_to_double (faultCurrent c)) ++ [44] ++
  print_f 0 (float_to_double (faultVoltage c)) ++ [44] ++
  print_f 1 (float_to_double (frequency c)).

(** [snprintf(buffer, size, ...)] of the text: the result and the buffer *)
Definition snprintf (buffer : list Z) (size : Z) (text : list Z) : Z * list Z :=
  let s := take (Z.to_nat (size - 1)) text ++ [0] in (zlen text, s ++ drop (length s) buffer).

(** * The owner of the shared file *)

Record File := mkFile { f_content : list Z; f_uid : Z; f_gid : Z; f_mode : Z }.

Record Ownership := mkOwnership {
  ownershipInitialized : bool;
  haveTargetUid : bool;
  targetUid : Z;
  haveTargetGid : bool;
  targetGid : Z
}.

(** the static variables *)
Definition initialOwnership : Ownership := mkOwnership false false 0 false 0.

(** [stat] succeeds when the file exists. *)
Definition adoptExistingOwnership (o : Ownership) (shared : option File) : Ownership :=
  let 'mkOwnership i hu u hg g := o in
  if hu && hg then o
  else
    match shared with
    | None => o
    | Some f => mkOwnership i true (if hu then u else f_uid f) true (if hg then g else f_gid f)
    end.

(** one environment variable: the identifier it gives, if any *)
Definition parse_owner (env : list Z) : option (option Z) :=
  '(parsed, endPtr) ← strtol env;
  c ← env !! endPtr;
  Some (if negb (endPtr =? 0)%nat && (c =? 0) && (0 <=? parsed) then Some (u32 parsed) else None).

Definition initFileOwnership (o : Ownership) (uidEnv gidEnv : option (list Z)) (shared : option File)
  : option Ownership :=
  let 'mkOwnership i hu u hg g := o in
  if i then Some o
  else
    uid ← match uidEnv with Some env => parse_owner env | None => Some None end;
    let '(hu, u) := match uid with Some uid => (true, uid) | None => (hu, u) end in
    gid ← match gidEnv with Some env => parse_owner env | None => Some None end;
    let '(hg, g) := match gid with Some gid => (true, gid) | None => (hg, g) end in
    let o := mkOwnership true hu u hg g in
    Some (if negb hu || negb hg then adoptExistingOwnership o shared else o).

(** * Writing the shared file *)

(** what one call of [write] does *)
Inductive WriteResult := Wrote (chunk : Z) | Interrupted | WriteFailed.

(** the results of the system calls; the temporary file belongs to the
    effective user of the process *)
Record SystemCalls := mkSystemCalls {
  sc_mkstemp : bool;
  sc_euid : Z;
  sc_egid : Z;
  sc_fchmod : bool;
  sc_fchown : bool;
  sc_writes : list WriteResult;
  sc_rename : bool;
  sc_chown : bool;
  sc_chmod : bool
}.

(** [while (totalWritten < toWrite)]: the content of the temporary file, [None]
    inside on an error; [None] when the results end before the loop does *)
Fixpoint write_loop (results : list WriteResult) (buffer : list Z) (toWrite totalWritten : Z) (content : list Z)
  : option (option (list Z)) :=
  if totalWritten <? toWrite then
    match results with
    | [] => None
    | Wrote chunk :: results =>
        write_loop results buffer toWrite (totalWritten + chunk)
          (content ++ take (Z.to_nat chunk) (drop (Z.to_nat totalWritten) buffer))
    | Interrupted :: results => write_loop results buffer toWrite totalWritten content
    | WriteFailed :: _ => Some None
    end
  else Some (Some content).

(** [(uid_t) -1] leaves the owner as it is. *)
Definition chown (f : File) (uid gid : Z) : File :=
  let 'mkFile c u g m := f in
  mkFile c (if uid =? 4294967295 then u else uid) (if gid =? 4294967295 then g else gid) m.
Definition chmod (f : File) (mode : Z) : File := let 'mkFile c u g _ := f in mkFile c u g mode.
Definition with_content (f : File) (content : list Z) : File :=
  let 'mkFile _ u g m := f in mkFile content u g m.

Definition GOOSE_FILE_MODE : Z := 436.

(** [chown] to the target owner, when there is one and the call succeeds *)
Definition set_owner (o : Ownership) (ok : bool) (f : File) : File :=
  if haveTargetUid o || haveTargetGid o then
    let uid := if haveTargetUid o then targetUid o else 4294967295 in
    let gid := if haveTargetGid o then targetGid o else 4294967295 in
    if ok then chown f uid gid else f
  else f.
Definition set_mode (ok : bool) (f : File) : File := if ok then chmod f GOOSE_FILE_MODE else f.

Definition writeSharedDataset (o : Ownership) (shared : option File) (c : Command) (sys : SystemCalls)
  : option (Ownership * option File) :=
  let '(written, buffer) := snprintf (replicate 128 0) 128 (command_text c) in
  if written <? 0 then Some (o, shared)
  else
    bufferLen ← strlen buffer;
    let o := adoptExistingOwnership o shared in
    if sc_mkstemp sys then
      let temp := mkFile [] (sc_euid sys) (sc_egid sys) 384 in
      let temp := set_owner o (sc_fchown sys) (set_mode (sc_fchmod sys) temp) in
      r ← write_loop (sc_writes sys) buffer bufferLen 0 [];
      match r with
      | None => Some (o, shared)
      | Some content =>
          if sc_rename sys then
            let shared := set_owner o (sc_chown sys) (with_content temp content) in
            Some (o, Some (set_mode (sc_chmod sys) shared))
          else Some (o, shared)
      end
    else Some (o, shared).

(** * The listener *)

Record Display := mkDisplay {
  di_stNum : Z;
  di_sqNum : Z;
  di_ttl : Z;
  di_seconds : Z;
  di_millis : Z;
  di_valid : bool
}.

(** the elements of the data set; a null or unsuitable element is undefined *)
Definition read_command (values : MmsValue) : option Command :=
  e ← MmsValue_getElement values 0; tripCommand ← MmsValue_getBoolean e;
  e ← MmsValue_getElement values 1; closeCommand ← MmsValue_getBoolean e;
  e ← MmsValue_getElement values 2; faultType ← MmsValue_toInt32 e;
  e ← MmsValue_getElement values 3; protElement ← MmsValue_toInt32 e;
  e ← MmsValue_getElement values 4; faultCurrent ← MmsValue_toFloat e;
  e ← MmsValue_getElement values 5; faultVoltage ← MmsValue_toFloat e;
  e ← MmsValue_getElement values 6; frequency ← MmsValue_toFloat e;
  Some (mkCommand tripCommand closeCommand faultType protElement faultCurrent faultVoltage frequency).

Record Breaker := mkBreaker {
  br_owner : Ownership;
  br_shared : option File;
  br_uidEnv : option (list Z);
  br_gidEnv : option (list Z)
}.

Definition gooseListener (b : Breaker) (subscriber : GooseSubscriber) (now : Z) (sys : SystemCalls)
  : option (Breaker * Display) :=
  let 'mkBreaker o shared uidEnv gidEnv := b in
  o ← initFileOwnership o uidEnv gidEnv shared;
  timestamp ← GooseSubscriber_getTimestamp subscriber;
  let display :=
    mkDisplay (GooseSubscriber_getStNum subscriber) (GooseSubscriber_getSqNum subscriber)
      (GooseSubscriber_getTimeAllowedToLive subscriber) (u32 (timestamp / 1000)) (u32 (timestamp mod 1000))
      (GooseSubscriber_isValid subscriber now) in
  match GooseSubscriber_getDataSetValues subscriber with
  | None => Some (mkBreaker o shared uidEnv gidEnv, display)
  | Some values =>
      n ← MmsValue_getArraySize values;
      if 7 <=? n then
        c ← read_command values;
        '(o, shared) ← writeSharedDataset o shared c sys;
        Some (mkBreaker o shared uidEnv gidEnv, display)
      else Some (mkBreaker o shared uidEnv gidEnv, display)
  end.

(** * The program *)

(** [main] up to [GooseReceiver_start]; [interface] is [argv[1]] *)
Definition breaker_setup (interface : option (list Z)) : option GooseReceiver :=
  let receiver := GooseReceiver_create in
  receiver ← GooseReceiver_setInterfaceId receiver (Some (default (c_literal "eth0") interface));
  subscriber ← GooseSubscriber_create (c_literal "simpleIOGenericIO/LLN0$GO$gcbAnalogValues") None;
  subscriber ← GooseSubscriber_setDstMac subscriber [0x01; 0x0c; 0xcd; 0x01; 0x00; 0x01];
  let subscriber := GooseSubscriber_setAppId subscriber 1000 in
  let subscriber := GooseSubscriber_setListener subscriber true in
  Some (GooseReceiver_addSubscriber receiver subscriber).

(** One packet: the receiver handles it and calls the listener. *)
Definition breaker_receive (receiver : GooseReceiver) (b : Breaker) (packet : list Z) (now : Z) (sys : SystemCalls)
  : option (GooseReceiver * Breaker * option Display) :=
  '(receiver, _, notified) ← GooseReceiver_tick receiver packet now;
  match notified with
  | None => Some (receiver, b, None)
  | Some i =>
      subscriber ← gr_subscriberList receiver !! i;
      '(b, display) ← gooseListener b subscriber now sys;
      Some (receiver, b, Some display)
  end.

(** * The text *)

Lemma low_digits_ok k n acc : Forall is_digit acc -> Forall is_digit (low_digits k n acc).
Proof.
  revert n acc. induction k as [|k IH]; intros n acc H; cbn [low_digits]; [done|].
  pose proof (Z.mod_pos_bound n 10 ltac:(lia)). apply IH. constructor; [unfold is_digit; lia | done].
Qed.

(** a printing character *)
Definition printed (c : Z) : Prop := 0 < c < 128.

Lemma digits_printed l : Forall is_digit l -> Forall printed l.
Proof. apply Forall_impl. unfold is_digit, printed. lia. Qed.

Lemma print_d_printed z : Forall printed (print_d z).
Proof.
  unfold print_d, digits. case_match; [constructor; [unfold printed; lia|]|];
    by apply digits_printed, digits_loop_ok.
Qed.

Lemma print_scaled_printed prec n : Forall printed (print_scaled prec n).
Proof.
  unfold print_scaled, digits. apply Forall_app. split; [by apply digits_printed, digits_loop_ok|].
  destruct prec; [done|]. constructor; [unfold printed; lia|]. by apply digits_printed, low_digits_ok.
Qed.

Lemma print_f_printed prec bits : Forall printed (print_f prec bits).
Proof.
  unfold print_f. apply Forall_app. split.
  - case_match; repeat constructor; unfold printed; lia.
  - case_match; try apply print_scaled_printed; repeat constructor; unfold printed; lia.
Qed.

Lemma command_text_printed c : Forall printed (command_text c).
Proof.
  unfold command_text. rewrite !Forall_app.
  split_and!; try apply print_d_printed; try apply print_f_printed; repeat constructor; unfold printed; lia.
Qed.

(** What the buffer holds: the text, cut to 127 characters. *)
Definition shared_line (c : Command) : list Z := take 127 (command_text c).

Lemma shared_line_no_zero c : 0 ∉ shared_line c.
Proof.
  intros H. apply list_elem_of_lookup in H as [i Hi].
  pose proof (Forall_lookup_1 printed _ i 0 (Forall_take printed 127 _ (command_text_printed c)) Hi) as Hp.
  unfold printed in Hp. lia.
Qed.

Lemma snprintf_line c :
  exists post, snprintf (replicate 128 0) 128 (command_text c) = (zlen (command_text c), shared_line c ++ 0 :: post).
Proof. eexists. unfold snprintf. change (Z.to_nat (128 - 1)) with 127%nat. rewrite <- app_assoc. done. Qed.

(** * The file is replaced as a whole *)

(** [write] takes no more than it is given. *)
Fixpoint writes_ok (results : list WriteResult) (remaining : Z) : Prop :=
  match results with
  | [] => True
  | Wrote chunk :: results => 0 <= chunk <= remaining /\ writes_ok results (remaining - chunk)
  | Interrupted :: results => writes_ok results remaining
  | WriteFailed :: results => writes_ok results remaining
  end.

(** The results take everything before one fails. *)
Fixpoint writes_all (results : list WriteResult) (remaining : Z) : bool :=
  if remaining <=? 0 then true
  else
    match results with
    | [] => false
    | Wrote chunk :: results => writes_all results (remaining - chunk)
    | Interrupted :: results => writes_all results remaining
    | WriteFailed :: _ => false
    end.

(** The results are enough for the loop to end: they take everything, or one fails. *)
Fixpoint writes_end (results : list WriteResult) (remaining : Z) : bool :=
  if remaining <=? 0 then true
  else
    match results with
    | [] => false
    | Wrote chunk :: results => writes_end results (remaining - chunk)
    | Interrupted :: results => writes_end results remaining
    | WriteFailed :: _ => true
    end.

Lemma take_more (buffer : list Z) i n : 0 <= i -> 0 <= n ->
  take (Z.to_nat i) buffer ++ take (Z.to_nat n) (drop (Z.to_nat i) buffer) = take (Z.to_nat (i + n)) buffer.
Proof. intros. rewrite Z2Nat.inj_add by done. by rewrite take_take_drop. Qed.

Lemma write_loop_spec results buffer toWrite totalWritten :
  0 <= totalWritten <= toWrite -> writes_ok results (toWrite - totalWritten) ->
  forall r, write_loop results buffer toWrite totalWritten (take (Z.to_nat totalWritten) buffer) = Some r ->
  r = None \/ r = Some (take (Z.to_nat toWrite) buffer).
Proof.
  revert totalWritten. induction results as [|[chunk| |] results IH]; intros totalWritten Ht Hok r; cbn [write_loop writes_ok] in *;
    (btest; [|intros [= <-]; right; do 3 f_equal; lia]); [done| |by apply IH|intros [= <-]; by left].
  destruct Hok as [Hc Hok]. rewrite take_more by lia. apply IH; [lia|].
  by replace (toWrite - (totalWritten + chunk)) with (toWrite - totalWritten - chunk) by lia.
Qed.

Lemma write_loop_end results buffer toWrite totalWritten content :
  writes_end results (toWrite - totalWritten) = true ->
  exists r, write_loop results buffer toWrite totalWritten content = Some r /\
    (is_Some r <-> writes_all results (toWrite - totalWritten) = true).
Proof.
  revert totalWritten content. induction results as [|[chunk| |] results IH]; intros totalWritten content; cbn [write_loop writes_all writes_end];
    (destruct (toWrite - totalWritten <=? 0) eqn:E; [if_false; intros _; eexists; split; [done|]; split; [done | by eexists] | if_true]); try done.
  - replace (toWrite - totalWritten - chunk) with (toWrite - (totalWritten + chunk)) by lia. apply IH.
  - apply IH.
  - intros _. exists None. split; [done|]. split; [by intros [] | done].
Qed.

Lemma finished_content o (fchown fchmod : bool) f content :
  f_content (set_mode fchmod (set_owner o fchown (with_content f content))) = content.
Proof.
  unfold set_mode, set_owner, chmod, chown, with_content. repeat case_match; by simplify_eq.
Qed.

(** The steps on the text that is written. *)
Lemma writeSharedDataset_eq o shared c sys :
  exists post o' file, (forall content, f_content (file content) = content) /\
  writeSharedDataset o shared c sys
  = if sc_mkstemp sys then
      r ← write_loop (sc_writes sys) (shared_line c ++ 0 :: post) (zlen (shared_line c)) 0 [];
      Some (o', match r with Some content => if sc_rename sys then Some (file content) else shared | None => shared end)
    else Some (o', shared).
Proof.
  unfold writeSharedDataset. destruct (snprintf_line c) as (post & ->).
  replace (_ <? 0) with false by (pose proof (zlen_nonneg (command_text c)); lia).
  rewrite (strlen_terminated _ _ (shared_line_no_zero c)). cbn [mbind option_bind].
  eexists post, _, (fun content => set_mode _ (set_owner _ _ (with_content _ content))).
  split; [intros; apply finished_content|]. destruct (sc_mkstemp sys); [|done].
  destruct (write_loop _ _ _ _ _) as [[content|]|]; cbn [mbind option_bind]; try done. by destruct (sc_rename sys).
Qed.

(** The shared file keeps its content or has the whole new line. *)
Lemma writeSharedDataset_atomic o shared c sys o' shared' :
  writes_ok (sc_writes sys) (zlen (shared_line c)) ->
  writeSharedDataset o shared c sys = Some (o', shared') ->
  shared' = shared \/ exists f, shared' = Some f /\ f_content f = shared_line c.
Proof.
  intros Hok. destruct (writeSharedDataset_eq o shared c sys) as (post & o1 & file & Hf & ->).
  destruct (sc_mkstemp sys); [|intros [= <- <-]; by left].
  destruct (write_loop _ _ _ _ _) as [r|] eqn:E; cbn [mbind option_bind]; [|done]. intros [= <- <-].
  apply (write_loop_spec _ _ (zlen (shared_line c)) 0) in E as [->| ->];
    [by left | | split; [done | apply zlen_nonneg] | by rewrite Z.sub_0_r].
  rewrite zlen_to_nat, take_app_length. destruct (sc_rename sys); [right; by eexists | by left].
Qed.

(** The system calls answer: [write] takes no more than it is given, and is called
    until a line of [n] bytes is written or a call fails. *)
Definition calls_answered (sys : SystemCalls) (n : Z) : Prop :=
  writes_ok (sc_writes sys) n /\ (sc_mkstemp sys = true -> writes_end (sc_writes sys) n = true).

(** They succeed: a line of [n] bytes is written and renamed. *)
Definition calls_succeed (sys : SystemCalls) (n : Z) : bool :=
  sc_mkstemp sys && writes_all (sc_writes sys) n && sc_rename sys.

(** The file has the new line if they do, and stays as it was otherwise. *)
Definition file_written (sys : SystemCalls) (c : Command) (shared shared' : option File) : Prop :=
  if calls_succeed sys (zlen (shared_line c)) then exists f, shared' = Some f /\ f_content f = shared_line c
  else shared' = shared.

Lemma writeSharedDataset_written o shared c sys :
  calls_answered sys (zlen (shared_line c)) ->
  exists o' shared', writeSharedDataset o shared c sys = Some (o', shared') /\ file_written sys c shared shared'.
Proof.
  intros [Hok Hend]. unfold file_written, calls_succeed. destruct (writeSharedDataset_eq o shared c sys) as (post & o1 & file & Hf & ->).
  destruct (sc_mkstemp sys); [|by exists o1, shared]. specialize (Hend eq_refl).
  destruct (write_loop_end (sc_writes sys) (shared_line c ++ 0 :: post) (zlen (shared_line c)) 0 []) as (r & E & Hr); [by rewrite Z.sub_0_r|].
  rewrite E. rewrite Z.sub_0_r in Hr. cbn [mbind option_bind andb]. do 2 eexists. split; [done|].
  apply (write_loop_spec _ _ (zlen (shared_line c)) 0) in E as [->| ->]; [| | split; [done | apply zlen_nonneg] | by rewrite Z.sub_0_r].
  - destruct (writes_all (sc_writes sys) (zlen (shared_line c))); [|done]. by destruct Hr as [_ [? ?]].
  - destruct Hr as [-> _]; [|by eexists]. rewrite zlen_to_nat, take_app_length. cbn [andb]. destruct (sc_rename sys); [by eexists | done].
Qed.

(** * The owner *)

Definition env_ok (env : option (list Z)) : Prop := match env with Some s => 0 ∈ s | None => True end.

Lemma parse_owner_total env : 0 ∈ env -> exists r, parse_owner env = Some r.
Proof.
  intros H. unfold parse_owner. destruct (strtol_total env H) as (v & k & -> & Hk). cbn [mbind option_bind].
  destruct (lookup_lt_is_Some_2 env k Hk) as [c ->]. by eexists.
Qed.

Lemma initFileOwnership_total o uidEnv gidEnv shared :
  env_ok uidEnv -> env_ok gidEnv -> exists o', initFileOwnership o uidEnv gidEnv shared = Some o'.
Proof.
  intros Hu Hg. destruct o as [i hu u hg g]. unfold initFileOwnership. destruct i; [by eexists|].
  assert (exists r, match uidEnv with Some env => parse_owner env | None => Some None end = Some r) as [ru ->]
    by (destruct uidEnv; [by apply parse_owner_total | by eexists]).
  assert (exists r, match gidEnv with Some env => parse_owner env | None => Some None end = Some r) as [rg ->]
    by (destruct gidEnv; [by apply parse_owner_total | by eexists]).
  cbn [mbind option_bind]. destruct ru, rg; by eexists.
Qed.

(** * The length of the line *)

Lemma low_digits_length k n acc : zlen (low_digits k n acc) = Z.of_nat k + zlen acc.
Proof. revert n acc. induction k as [|k IH]; intros n acc; cbn [low_digits]; [done|]. rewrite IH. zlen. lia. Qed.

Lemma print_d_length z : is_s32 z -> zlen (print_d z) <= 11.
Proof.
  unfold is_s32. intros Hz. unfold print_d. case_match; bdestr.
  - zlen. pose proof (digits_length 10 (- z) ltac:(lia) ltac:(change (10 ^ Z.of_nat 10) with 10000000000; lia)). lia.
  - pose proof (digits_length 10 z ltac:(lia) ltac:(change (10 ^ Z.of_nat 10) with 10000000000; lia)). lia.
Qed.

(** A magnitude below [2 ^ 64], or no number. *)
Definition moderate (bits : Z) : bool :=
  match decode binary64 bits with
  | S754_finite _ p e => if 0 <=? e then Z.pos p * 2 ^ e <? 2 ^ 64 else Z.pos p <? 2 ^ 64 * 2 ^ (- e)
  | _ => true
  end.

Lemma round_scaled_bound p e prec :
  (if 0 <=? e then Z.pos p * 2 ^ e <? 2 ^ 64 else Z.pos p <? 2 ^ 64 * 2 ^ (- e)) = true -> 0 <= prec ->
  0 <= round_scaled p e prec <= 2 ^ 64 * 10 ^ prec.
Proof.
  intros H Hprec. unfold round_scaled. pose proof (Z.pow_pos_nonneg 10 prec ltac:(lia) Hprec).
  destruct (Z.leb_spec 0 e) as [He|He]; bdestr.
  - pose proof (Z.pow_pos_nonneg 2 e ltac:(lia) He). nia.
  - pose proof (Z.pow_pos_nonneg 2 (- e) ltac:(lia) ltac:(lia)) as Hd. set (d := 2 ^ (- e)) in *.
    set (q := Z.pos p * 10 ^ prec). assert (0 <= q < 2 ^ 64 * 10 ^ prec * d) by (unfold q; nia).
    assert (q / d < 2 ^ 64 * 10 ^ prec) by (apply Z.div_lt_upper_bound; lia).
    assert (0 <= q / d) by (apply Z.div_pos; lia). cbv zeta. case_match; lia.
Qed.

Lemma print_scaled_length prec n : 0 <= n <= 2 ^ 64 * 10 ^ Z.of_nat prec ->
  zlen (print_scaled prec n) <= 20 + (if (prec =? 0)%nat then 0 else 1 + Z.of_nat prec).
Proof.
  intros Hn. unfold print_scaled. rewrite zlen_app. pose proof (Z.pow_pos_nonneg 10 (Z.of_nat prec) ltac:(lia) ltac:(lia)).
  assert (0 <= n / 10 ^ Z.of_nat prec < 10 ^ Z.of_nat 20).
  { split; [apply Z.div_pos; lia|]. apply Z.div_lt_upper_bound; [lia|].
    change (10 ^ Z.of_nat 20) with 100000000000000000000. lia. }
  pose proof (digits_length 20 (n / 10 ^ Z.of_nat prec) ltac:(lia) ltac:(done)).
  destruct prec as [|prec]; [cbn -[digits Z.pow Z.div]; zlen; lia|]. cbn [Nat.eqb]. rewrite zlen_cons, low_digits_length, zlen_nil. lia.
Qed.

Lemma print_f_length prec bits : moderate bits = true ->
  zlen (print_f prec bits) <= 21 + (if (prec =? 0)%nat then 0 else 1 + Z.of_nat prec).
Proof.
  intros H. unfold print_f, moderate in *. rewrite zlen_app.
  assert (zlen (if sign_bit binary64 bits then [45] else []) <= 1) by (destruct (sign_bit binary64 bits); zlen; lia).
  destruct (decode binary64 bits) as [s|s| |s p e].
  - pose proof (print_scaled_length prec 0). pose proof (Z.pow_pos_nonneg 10 (Z.of_nat prec) ltac:(lia) ltac:(lia)). lia.
  - destruct (prec =? 0)%nat; zlen; lia.
  - destruct (prec =? 0)%nat; zlen; lia.
  - pose proof (print_scaled_length prec _ (round_scaled_bound p e (Z.of_nat prec) H ltac:(lia))). lia.
Qed.

Lemma command_text_length c :
  is_s32 (faultType c) -> is_s32 (protElement c) ->
  moderate (float_to_double (faultCurrent c)) = true -> moderate (float_to_double (faultVoltage c)) = true ->
  moderate (float_to_double (frequency c)) = true -> zlen (command_text c) <= 97.
Proof.
  intros H1 H2 H3 H4 H5. unfold command_text. rewrite !zlen_app.
  pose proof (print_d_length _ H1). pose proof (print_d_length _ H2).
  pose proof (print_f_length 1 _ H3). pose proof (print_f_length 0 _ H4). pose proof (print_f_length 1 _ H5).
  assert (forall b : bool, zlen (print_d (if b then 1 else 0)) = 1) as Hb by (by intros []).
  rewrite !Hb. cbn [Nat.eqb] in *. zlen. lia.
Qed.
