(* ===== verification/Substation.v ===== *)
(** The substation: the protection IED and the breaker IED on one network.

    A turn of the system is a turn of the publisher's loop; the frame is
    received by the breaker or lost. Time, inputs and the results of the
    breaker's system calls are part of the turn. *)

From Stdlib Require Import String.
From S2P Require Import Prelude BerEncoder BerDecoder BerInteger StringUtils CText CFloat MmsValue MmsFacts MmsData GoosePublisher GooseSubscriber GooseReceiver GooseSafety GooseDataSet GooseRoundtrip ProtectionIed BreakerIed.
Open Scope Z_scope.

Record Turn := mkTurn {
  tu_input : option (list Z);
  tu_now : Z;
  tu_lost : bool;
  tu_calls : SystemCalls
}.

Record Substation := mkSubstation {
  sb_ied : IedState;
  sb_receiver : GooseReceiver;
  sb_breaker : Breaker
}.

Definition substation_setup (srcAddr : list Z) (now : Z) (interface : option (list Z))
    (shared : option File) (uidEnv gidEnv : option (list Z)) : option (option Substation) :=
  r ← ied_setup srcAddr true now;
  receiver ← breaker_setup interface;
  Some (ied ← r; Some (mkSubstation ied receiver (mkBreaker initialOwnership shared uidEnv gidEnv))).

Definition substation_turn (sb : Substation) (t : Turn) : option (Substation * option Display) :=
  let 'mkSubstation ied receiver b := sb in
  '(ied, frame, _) ← ied_step ied (tu_input t) (tu_now t);
  match frame with
  | None => Some (mkSubstation ied receiver b, None)
  | Some frame =>
      if tu_lost t then Some (mkSubstation ied receiver b, None)
      else
        '(receiver, b, display) ← breaker_receive receiver b frame (tu_now t) (tu_calls t);
        Some (mkSubstation ied receiver b, display)
  end.

(** the turns one after the other, with what the breaker displays *)
Fixpoint substation_run (sb : Substation) (turns : list Turn) : option (Substation * list (option Display)) :=
  match turns with
  | [] => Some (sb, [])
  | t :: turns =>
      '(sb, display) ← substation_turn sb t;
      '(sb, displays) ← substation_run sb turns;
      Some (sb, display :: displays)
  end.

(** * What the listener reads *)

(** the commands that belong to the values of a turn *)
Definition command_of (s : Snapshot) : Command :=
  mkCommand (negb (sn_trip s =? 0)) (negb (sn_close s =? 0)) (sn_fault_type s) (sn_prot_elem s)
    (sn_current s) (sn_voltage s) (sn_freq s).

Lemma compare_true a b : apv_ok a -> apv_ok b -> Asn1PrimitivaValue_compare a b = Some true ->
  apv_content a = apv_content b.
Proof.
  intros Ha Hb. unfold Asn1PrimitivaValue_compare, memcmp_eq. btest; [|done].
  pose proof (apv_content_at a Ha) as Hata. pose proof (apv_content_at b Hb) as Hatb.
  pose proof (zlen_apv_content a Ha) as Hza. pose proof (zlen_apv_content b Hb) as Hzb.
  rewrite (at_pos_range_n _ _ _ _ Hata) by lia. cbn [mbind option_bind].
  rewrite (at_pos_range_n _ _ _ _ Hatb) by lia. cbn [mbind option_bind].
  intros [= H]. by apply bool_decide_eq_true in H.
Qed.

Lemma toInt32_held a b v : is_s32 v -> apv_holds a (ber_int32 v) -> apv_ok b ->
  Asn1PrimitivaValue_compare a b = Some true -> BerInteger_toInt32 b = Some v.
Proof.
  intros Hv [Ha Hc] Hb He. apply compare_true in He; [|done..].
  pose proof (zlen_ber_int32 v). rewrite <- Hc, He, zlen_apv_content in H by done.
  rewrite toInt32_spec by (done || lia). rewrite <- He, Hc, sbe_val_int32 by done.
  unfold s32, is_s32 in *. f_equal. rewrite Z.mod_small; lia.
Qed.

Lemma toFloat_held ew buf x : is_u32 x -> zlen buf = 4 ->
  mms_equals (MmsValue_newFloat x) (MmsFloat ew 32 buf) = Some true ->
  MmsValue_toFloat (MmsFloat ew 32 buf) = Some x.
Proof.
  intros Hx Hz. cbn [mms_equals MmsValue_newFloat MmsValue_toFloat]. change (32 / 8) with 4. change (32 =? 32) with true. cbv iota.
  unfold memcmp_eq. rewrite (ld_range_whole buf), (ld_range_whole (le_bytes 4 x)) by (done || zlia).
  cbn [mbind option_bind]. intros [= H]. apply bool_decide_eq_true in H.
  change (le_bytes 4 x = buf) in H. rewrite <- H, le_val_le_bytes.
  f_equal. apply Z.mod_small. exact Hx.
Qed.

(** An element of a data set that was updated. *)
Definition holds_element (y x : MmsValue) : Prop :=
  accepts x y /\ mms_equals y x = Some true /\ mms_ok x.

Lemma updated_lookup ys i y : forall xs,
  all_components mms_ok True xs -> accepts_components accepts xs ys -> equals_components mms_equals ys xs = Some true ->
  ys !! i = Some (Some y) -> exists x, xs !! i = Some (Some x) /\ holds_element y x.
Proof.
  revert i. induction ys as [|[z|] ys IH]; intros i [|[x|] xs] Hok Hacc Heq Hi; try done.
  destruct Hok as [Hx Hok], Hacc as [Ha Hacc]. cbn [equals_components] in Heq.
  destruct (mms_equals z x) as [[]|] eqn:E; cbn [mbind option_bind] in Heq; try done.
  destruct i as [|i]; [injection Hi as <-; by exists x|]. by apply (IH i xs).
Qed.

Lemma updated_element ys d i y :
  mms_ok d -> accepts d (MmsArray ys) -> mms_equals (MmsArray ys) d = Some true ->
  0 <= i -> ys !! Z.to_nat i = Some (Some y) -> exists x, MmsValue_getElement d i = Some x /\ holds_element y x.
Proof.
  intros Hok Hacc Heq Hp Hi. destruct d as [xs| | | | | | | | | | | |]; try done. cbn [accepts mms_ok mms_equals] in *.
  destruct (zlen ys =? zlen xs) eqn:E; [|done].
  destruct (updated_lookup ys (Z.to_nat i) y xs Hok Hacc Heq Hi) as (x & Hx & Hh). exists x. split; [|done].
  cbn [MmsValue_getElement]. rewrite Hx.
  replace (_ || _) with false; [done|]. apply lookup_lt_Some in Hx. unfold zlen. lia.
Qed.

Lemma updated_size ys d : accepts d (MmsArray ys) -> mms_equals (MmsArray ys) d = Some true ->
  MmsValue_getArraySize d = Some (zlen ys).
Proof.
  intros Hacc Heq. destruct d as [xs| | | | | | | | | | | |]; try done. cbn in *.
  destruct (zlen ys =? zlen xs) eqn:E; [|done]. f_equal. lia.
Qed.

Lemma read_boolean b x : holds_element (MmsBoolean b) x -> MmsValue_getBoolean x = Some b.
Proof. intros (Ha & He & _). destruct x; try done. cbn in *. injection He as He. by apply eqb_prop in He as ->. Qed.

Lemma read_int32 a v x : is_s32 v -> apv_holds a (ber_int32 v) -> holds_element (MmsInteger a) x ->
  MmsValue_toInt32 x = Some v.
Proof. intros Hv Hh (Ha & He & Hx). destruct x; try done. by apply (toInt32_held a). Qed.

Lemma read_float v x : is_u32 v -> holds_element (MmsValue_newFloat v) x -> MmsValue_toFloat x = Some v.
Proof.
  intros Hv (Ha & He & Hx). destruct x as [| | | | | |ew w buf| | | | | |]; try done. cbn [accepts MmsValue_newFloat] in Ha.
  subst w. apply toFloat_held; [done | | done]. destruct Hx as (_ & _ & -> & _). done.
Qed.

(** The data set of the breaker holds the values that were sent. *)
Lemma read_command_spec s dataSet d :
  snapshot_ok s -> app_data s dataSet -> mms_ok d -> accepts d (MmsArray dataSet) ->
  mms_equals (MmsArray dataSet) d = Some true ->
  MmsValue_getArraySize d = Some 7 /\ read_command d = Some (command_of s).
Proof.
  intros (H1 & H2 & H3 & H4 & H5) (f & e & -> & Hf & He) Hok Hacc Heq.
  split; [by apply updated_size in Heq as -> |]. unfold read_command.
  pose proof (fun i y => updated_element _ d i y Hok Hacc Heq) as Hel.
  destruct (Hel 0 _ ltac:(lia) eq_refl) as (x0 & -> & X0). destruct (Hel 1 _ ltac:(lia) eq_refl) as (x1 & -> & X1).
  destruct (Hel 2 _ ltac:(lia) eq_refl) as (x2 & -> & X2). destruct (Hel 3 _ ltac:(lia) eq_refl) as (x3 & -> & X3).
  destruct (Hel 4 _ ltac:(lia) eq_refl) as (x4 & -> & X4). destruct (Hel 5 _ ltac:(lia) eq_refl) as (x5 & -> & X5).
  destruct (Hel 6 _ ltac:(lia) eq_refl) as (x6 & -> & X6). cbn [mbind option_bind].
  rewrite (read_boolean _ _ X0), (read_boolean _ _ X1), (read_int32 f _ _ H1 Hf X2), (read_int32 e _ _ H2 He X3),
    (read_float _ _ H3 X4), (read_float _ _ H4 X5), (read_float _ _ H5 X6). done.
Qed.

(** * The breaker follows the messages *)

(** The subscriber's copy has room for every message of the application. *)
Definition app_ready (m : MessageState) : Prop :=
  match ms_dataSetValues m with
  | None => True
  | Some d => mms_ok d /\ forall s dataSet, snapshot_ok s -> app_data s dataSet -> accepts d (MmsArray dataSet)
  end.

(** The receiver as [main] set it up, with the messages it has seen. *)
Definition breaker_ok (receiver : GooseReceiver) (s : GooseSubscriber) : Prop :=
  gr_subscriberList receiver = [s] /\ zlen (gr_buffer receiver) = 1518 /\
  listens s (c_string goCbRef_literal) /\ subscriber_ok s /\ interested (gs_link s) ied_dstAddress 1000 /\
  gs_listener s = true /\ app_ready (gs_message s).

Lemma breaker_setup_ok interface :
  0 ∈ default (c_literal "eth0") interface ->
  exists receiver s, breaker_setup interface = Some receiver /\ breaker_ok receiver s /\
    ms_stNum (gs_message s) = 0.
Proof.
  intros Hi. unfold breaker_setup, GooseReceiver_setInterfaceId, GooseReceiver_create, GooseReceiver_createEx.
  destruct (copyString_c_string (default (c_literal "eth0") interface) Hi) as (i & -> & _). cbn [mbind option_bind].
  change (c_literal "simpleIOGenericIO/LLN0$GO$gcbAnalogValues") with goCbRef_literal.
  assert (0 ∈ goCbRef_literal) by (unfold goCbRef_literal, c_literal; apply elem_of_app; right; by apply list_elem_of_singleton).
  destruct (create_subscriber_ok goCbRef_literal None) as (s & Hs & (S1 & S2 & S3 & S4 & S5 & S6 & S7) & Hlen & Hc);
    [done | by vm_compute | done |].
  rewrite Hs. cbn [mbind option_bind]. assert (gs_goCBRef s = c_string goCbRef_literal ++ replicate 89 0 /\
    gs_isObserver s = false /\ ms_dataSetValues (gs_message s) = None /\ ms_stNum (gs_message s) = 0) as (H1 & H2 & H3 & H4).
  { vm_compute in Hs. injection Hs as <-. split_and!; reflexivity. }
  destruct s as [cb ds id n m [sm dm ap dms vs vi vp] o li].
  cbn [gs_goCBRef gs_datSet gs_goId gs_goCBRefLen gs_message gs_link gs_isObserver ls_srcMac ls_dstMac] in *.
  unfold GooseSubscriber_setDstMac. cbn [gs_link]. rewrite ld_range_whole by done. cbn [mbind option_bind].
  rewrite st_range_whole by done. cbn [mbind option_bind with_link GooseSubscriber_setAppId gs_link GooseSubscriber_setListener].
  eexists _, _. split; [done|]. unfold breaker_ok, listens, subscriber_ok, interested, app_ready.
  split; [split; [reflexivity|]|];
  cbn [gr_subscriberList gr_buffer GooseReceiver_addSubscriber with_subscribers app gs_goCBRef gs_datSet gs_goId gs_goCBRefLen gs_message gs_link
    gs_isObserver gs_listener ls_srcMac ls_dstMac ls_appId ls_dstMacSet]; [|done].
  rewrite H3. split_and!; try done; try lia; try (by right).
  rewrite H1. apply at_pos_prefix.
Qed.

(** Messages of the application have the same shape. *)
Lemma app_accepts s dataSet s' dataSet' :
  snapshot_ok s -> app_data s dataSet -> snapshot_ok s' -> app_data s' dataSet' ->
  accepts (decoded (MmsArray dataSet)) (MmsArray dataSet').
Proof.
  intros Hs (f & e & -> & Hf & He) Hs' (f' & e' & -> & Hf' & He').
  destruct (int32_size _ _ Hf) as [Hfok Hfs], (int32_size _ _ He) as [Heok Hes].
  destruct (int32_size _ _ Hf') as [_ Hfs'], (int32_size _ _ He') as [_ Hes'].
  cbn [decoded fmap list_fmap option_map accepts accepts_components MmsValue_newFloat apv_maxSize apv_of].
  unfold int_maxSize. rewrite !zlen_apv_content by done. split_and!; try done; btest.
Qed.

Lemma app_stays_ready m m' s dataSet :
  snapshot_ok s -> app_data s dataSet -> app_ready m -> stays_ready m m' dataSet -> app_ready m'.
Proof.
  intros Hs Ha Hm (d & Hd & Hok & Hk). unfold app_ready. rewrite Hd. split; [done|].
  intros s' dataSet' Hs' Ha'. apply Hk; [|by apply (app_accepts s dataSet s' dataSet')].
  intros d0 H0 _. unfold app_ready in Hm. rewrite H0 in Hm. destruct Hm as [_ Hm]. by apply (Hm s').
Qed.

Lemma app_ready_ready m confRev s dataSet :
  snapshot_ok s -> app_data s dataSet -> app_ready m -> ready m confRev dataSet.
Proof. unfold app_ready, ready. destruct (ms_dataSetValues m) as [d|]; [|done]. intros Hs Ha [Hok H]. right. split; [done|]. by apply (H s). Qed.

Lemma delivered_message_ok self dataSet now m m' d :
  publisher_ok self -> delivered self dataSet now m m' ->
  ms_dataSetValues m' = Some d -> mms_ok d -> is_complex d -> message_ok m'.
Proof.
  intros (_ & _ & _ & _ & _ & _ & Hcr & Hst & Hsq & Httl & utc & Hts & Hz & Hb) (H1 & H2 & H3 & H4 & H5 & _) Hd Hok Hc.
  unfold message_ok. rewrite H1, H2, H3, H4, H5, Hd. split_and!; try done. rewrite Hts. by eexists.
Qed.

(** The receiver takes a message of the protection IED. *)
Lemma breaker_tick src self s dataSet receiver sub now :
  ied_ok src self -> snapshot_ok s -> app_data s dataSet -> breaker_ok receiver sub ->
  let frame := frame_bytes ied_dstAddress src ied_vlan 1000 (goose_bytes self dataSet) in
  exists receiver' sub', GooseReceiver_tick receiver frame now = Some (receiver', true, Some 0%nat) /\
    breaker_ok receiver' sub' /\ delivered self dataSet now (gs_message sub) (gs_message sub') /\
    exists d, ms_dataSetValues (gs_message sub') = Some d /\ mms_ok d /\ accepts d (MmsArray dataSet).
Proof.
  intros Hied Hs Ha (Hl & Hz & Hlis & Hsub & Hint & Hlst & Hready). cbv zeta.
  pose proof (ied_message_fits src self s dataSet Hied Hs Ha) as Hfit.
  destruct (app_data_sendable s dataSet Hs Ha) as (_ & Hsend & Hg & _).
  pose proof Hied as (Hp & Hf & _ & _ & Hcb & _). pose proof Hf as (_ & Hsrc & _ & _ & _ & Hps & _).
  set (frame := frame_bytes _ _ _ _ _). 
  assert (zlen frame = 26 + zlen (goose_bytes self dataSet)) as Hfz.
  { unfold frame, frame_bytes. rewrite !zlen_app, Hsrc. change (zlen ied_dstAddress) with 6. change (zlen ied_vlan) with 4. zlen. lia. }
  pose proof (zlen_nonneg (goose_bytes self dataSet)). change (zlen ied_vlan) with 4 in Hps. unfold GOOSE_MAX_MESSAGE_SIZE in Hfit.
  unfold GooseReceiver_tick. if_true. rewrite st_range_front by lia. cbn [mbind option_bind].
  destruct receiver as [r st i b eth l th]. cbn [gr_subscriberList gr_buffer] in *. subst l.
  unfold GooseReceiver_handleMessage. cbn [gr_subscriberList].
  destruct (frame_delivered self dataSet ied_dstAddress src ied_vlan 1000 [] sub [] (drop (length frame) b) now)
    as (s' & m' & Hparse & Hcore & Hdel & Hst); try done.
  { by rewrite Hcb. }
  { by apply (app_ready_ready _ _ s). }
  cbn [app] in Hparse. fold frame in Hparse. rewrite Hparse. cbn [mbind option_bind length]. rewrite Hlst.
  eexists _, (with_message s' m'). split; [done|].
  pose proof Hst as (d & Hd & Hdok & Hk).
  assert (accepts d (MmsArray dataSet)) as Hacc by (apply Hk; [done | by apply (app_accepts s dataSet s dataSet)]).
  destruct Hcore as (C1 & C2 & C3 & C4 & C5 & C6 & C7 & C8). destruct Hsub as (S1 & S2 & S3 & S4 & S5 & S6 & S7).
  assert (app_ready m') by (by apply (app_stays_ready (gs_message sub) m' s dataSet)).
  assert (message_ok m') by (apply (delivered_message_ok self dataSet now (gs_message sub) m' d); try done; by destruct d).
  destruct s' as [cb2 ds2 id2 n2 m2 l2 o2 li2]. cbn [with_message gs_message gs_link gs_isObserver gs_listener gs_goCBRef gs_goCBRefLen gs_datSet gs_goId] in *. subst.
  split; [|split; [done | by exists d]].
  unfold breaker_ok, listens, subscriber_ok in *. cbn [with_message gs_message gs_link gs_isObserver gs_listener gs_goCBRef gs_goCBRefLen gs_datSet gs_goId
    gr_subscriberList with_subscribers gr_buffer].
  split_and!; try done; try tauto. unfold zlen in *. rewrite length_app, length_drop. lia.
Qed.

(** * A turn *)

Lemma getUtcTimeInMs_total v : is_utc v -> exists t, MmsValue_getUtcTimeInMs v = Some t.
Proof.
  intros (bs & -> & Hz & _). cbn [MmsValue_getUtcTimeInMs].
  destruct (zlen_8 _ Hz) as (a & b & c & d & e & f & g & h & ->).
  pose proof (utc_seconds_spec [a; b; c; d] [e; f; g; h] eq_refl) as E. cbn [app] in E. rewrite E. by eexists.
Qed.

(** The listener writes what the message says, valid or not. *)
Lemma gooseListener_spec o shared uidEnv gidEnv sub d s dataSet now sys :
  env_ok uidEnv -> env_ok gidEnv -> subscriber_ok sub ->
  ms_dataSetValues (gs_message sub) = Some d -> mms_ok d -> accepts d (MmsArray dataSet) ->
  mms_equals (MmsArray dataSet) d = Some true -> snapshot_ok s -> app_data s dataSet ->
  calls_answered sys (zlen (shared_line (command_of s))) ->
  exists o' shared' display, gooseListener (mkBreaker o shared uidEnv gidEnv) sub now sys
    = Some (mkBreaker o' shared' uidEnv gidEnv, display) /\ file_written sys (command_of s) shared shared' /\
    di_stNum display = ms_stNum (gs_message sub) /\ di_sqNum display = ms_sqNum (gs_message sub) /\
    di_valid display = GooseSubscriber_isValid sub now.
Proof.
  intros Hu Hg Hsub Hd Hok Hacc Heq Hs Ha Hc. unfold gooseListener.
  destruct (initFileOwnership_total o uidEnv gidEnv shared Hu Hg) as [o1 ->]. cbn [mbind option_bind].
  destruct Hsub as (_ & _ & _ & _ & _ & _ & Hm). destruct Hm as (_ & _ & _ & _ & Hts & _).
  unfold GooseSubscriber_getTimestamp, GooseSubscriber_getDataSetValues.
  destruct (getUtcTimeInMs_total _ Hts) as [t ->]. rewrite Hd. cbn [mbind option_bind].
  destruct (read_command_spec s dataSet d Hs Ha Hok Hacc Heq) as [-> ->]. cbn [mbind option_bind].
  change (7 <=? 7) with true. cbv iota.
  destruct (writeSharedDataset_written o1 shared (command_of s) sys Hc) as (o' & f & -> & Hf). cbn [mbind option_bind].
  exists o', f. eexists. by split_and!.
Qed.

(** The values the protection IED computes in a turn. *)
Definition turn_values (t : Turn) : Snapshot := protect (read_gui (tu_input t)).

(** A turn: any input and any frame lost; the system calls made for a frame that
    arrives may fail, but answer. *)
Definition turn_ok (t : Turn) : Prop :=
  input_ok (tu_input t) /\
  (tu_lost t = false -> calls_answered (tu_calls t) (zlen (shared_line (command_of (turn_values t))))).

(** The frame of the turn arrives and the breaker's system calls succeed. *)
Definition turn_shown (t : Turn) : bool :=
  negb (tu_lost t) && calls_succeed (tu_calls t) (zlen (shared_line (command_of (turn_values t)))).

Definition substation_ok (src : list Z) (sb : Substation) (sub : GooseSubscriber) : Prop :=
  ied_ok src (ied_publisher (sb_ied sb)) /\ breaker_ok (sb_receiver sb) sub /\
  env_ok (br_uidEnv (sb_breaker sb)) /\ env_ok (br_gidEnv (sb_breaker sb)).

(** After [k] turns the next message is newer than the last one received. *)
Definition fresh (k : Z) (sb : Substation) (sub : GooseSubscriber) : Prop :=
  let p := ied_publisher (sb_ied sb) in let m := gs_message sub in
  1 <= gp_stNum p <= k + 1 /\ 0 <= gp_sqNum p <= k /\
  (ms_stNum m < gp_stNum p \/ ms_stNum m = gp_stNum p /\ ms_sqNum m < gp_sqNum p).

Lemma next_sqNum_small n : 0 <= n < 4294967295 -> next_sqNum n = n + 1.
Proof. intros. unfold next_sqNum. rewrite u32_small by lia. by if_false. Qed.

(** The numbers of the message of a turn are newer as well. *)
Lemma fresh_turn k sb sub changed self : 
  fresh k sb sub -> k < 4294967294 ->
  (gp_stNum self, gp_sqNum self) = turn_numbers changed (ied_publisher (sb_ied sb)) ->
  1 <= gp_stNum self <= k + 2 /\ 0 <= gp_sqNum self <= k /\
  (ms_stNum (gs_message sub) < gp_stNum self \/
   ms_stNum (gs_message sub) = gp_stNum self /\ ms_sqNum (gs_message sub) < gp_sqNum self).
Proof.
  intros (H1 & H2 & H3) Hk. unfold turn_numbers. destruct changed; intros [= -> ->]; [|lia].
  replace (_ =? 4294967295) with false by lia. lia.
Qed.

(** The file after the turn. *)
Definition file_follows (t : Turn) (shared shared' : option File) : Prop :=
  if turn_shown t then exists f, shared' = Some f /\ f_content f = shared_line (command_of (turn_values t))
  else shared' = shared.

Lemma delivered_valid self dataSet now m sub' :
  delivered self dataSet now m (gs_message sub') -> gp_timeAllowedToLive self = 500 ->
  (ms_stNum m < gp_stNum self \/ ms_stNum m = gp_stNum self /\ ms_sqNum m < gp_sqNum self) ->
  0 <= now < 9223372036854775808 -> GooseSubscriber_isValid sub' now = true.
Proof.
  intros (_ & _ & _ & _ & _ & _ & _ & Hinv & Hval & _) Httl Hf Hnow. unfold GooseSubscriber_isValid.
  rewrite Hval, Hinv, Httl. unfold u64. rewrite Z.mod_small by lia.
  replace (_ && _) with false by lia. cbn [negb]. by if_false.
Qed.

Lemma substation_turn_spec src sb sub t :
  substation_ok src sb sub -> turn_ok t ->
  exists sb' display sub', substation_turn sb t = Some (sb', display) /\ substation_ok src sb' sub' /\
    file_follows t (br_shared (sb_breaker sb)) (br_shared (sb_breaker sb')) /\
    (if tu_lost t then display = None else exists d, display = Some d) /\
    forall k, fresh k sb sub -> k < 4294967294 -> fresh (k + 1) sb' sub' /\
      (0 <= tu_now t < 9223372036854775808 -> forall d, display = Some d -> di_valid d = true).
Proof.
  intros (Hied & Hbr & Hu & Hg) (Hin & Hsys). destruct sb as [ied receiver [o shared uidEnv gidEnv]].
  cbn [sb_ied sb_receiver sb_breaker br_uidEnv br_gidEnv br_shared] in *.
  destruct (ied_step_spec src ied (tu_input t) (tu_now t) Hied Hin)
    as (self & dataSet & ied' & Hstep & Hself & Hs & Ha & Hnum & Hied' & _ & _ & Hst & Hsq).
  fold (turn_values t) in *. unfold substation_turn. rewrite Hstep. cbn [mbind option_bind].
  assert (Hnext : forall k, fresh k (mkSubstation ied receiver (mkBreaker o shared uidEnv gidEnv)) sub -> k < 4294967294 ->
    1 <= gp_stNum (ied_publisher ied') <= k + 2 /\ gp_sqNum (ied_publisher ied') = gp_sqNum self + 1 /\ 0 <= gp_sqNum self <= k /\
    (ms_stNum (gs_message sub) < gp_stNum self \/
     ms_stNum (gs_message sub) = gp_stNum self /\ ms_sqNum (gs_message sub) < gp_sqNum self)).
  { intros k Hf Hk. destruct (fresh_turn k _ sub _ self Hf Hk Hnum) as (F1 & F2 & F3).
    rewrite Hst, Hsq, next_sqNum_small by lia. split_and!; (done || lia). }
  unfold file_follows, turn_shown. destruct (tu_lost t).
  { exists (mkSubstation ied' receiver (mkBreaker o shared uidEnv gidEnv)), None, sub. split_and!; try done.
    intros k Hf Hk. destruct (Hnext k Hf Hk) as (F1 & F2 & F3 & F4). split; [|done].
    unfold fresh. cbn [sb_ied]. rewrite Hst in *. lia. }
  destruct (breaker_tick src self (turn_values t) dataSet receiver sub (tu_now t) Hself Hs Ha Hbr)
    as (receiver' & sub' & Htick & Hbr' & Hdel & d & Hd & Hdok & Hacc).
  unfold breaker_receive. rewrite Htick. cbn [mbind option_bind].
  pose proof Hbr' as (Hl & _ & _ & Hsub' & _). rewrite Hl. cbn [lookup list_lookup mbind option_bind].
  pose proof Hdel as (_ & D2 & D3 & _ & _ & _ & _ & _ & _ & d' & Hd' & _ & Heq). rewrite Hd in Hd'. injection Hd' as <-.
  destruct (gooseListener_spec o shared uidEnv gidEnv sub' d (turn_values t) dataSet (tu_now t) (tu_calls t))
    as (o' & f & display & -> & Hf & _ & _ & Hv); try done; [by apply Hsys|]. cbn [mbind option_bind].
  eexists _, _, sub'. split; [done|]. split; [done|]. split; [exact Hf|]. split; [by eexists|].
  intros k Hfr Hk. destruct (Hnext k Hfr Hk) as (F1 & F2 & F3 & F4). split.
  - unfold fresh. cbn [sb_ied]. rewrite D2, D3, Hst in *. lia.
  - intros Hnow ? [= <-]. rewrite Hv. destruct Hself as (_ & _ & _ & _ & _ & _ & _ & Httl).
    by apply (delivered_valid self dataSet (tu_now t) (gs_message sub) sub').
Qed.

(** * Runs *)

(** the last turn whose frame arrived and whose system calls succeeded *)
Definition last_shown (turns : list Turn) (before : option Turn) : option Turn :=
  fold_left (fun last t => if turn_shown t then Some t else last) turns before.

(** The shared file shows the values of the turn, or is the one from the start. *)
Definition file_shows (t : option Turn) (initial shared : option File) : Prop :=
  match t with
  | None => shared = initial
  | Some t => exists f, shared = Some f /\ f_content f = shared_line (command_of (turn_values t))
  end.

Lemma substation_run_spec src initial turns sb sub before :
  substation_ok src sb sub -> Forall turn_ok turns ->
  file_shows before initial (br_shared (sb_breaker sb)) ->
  exists sb' displays sub', substation_run sb turns = Some (sb', displays) /\ substation_ok src sb' sub' /\
    file_shows (last_shown turns before) initial (br_shared (sb_breaker sb')).
Proof.
  intros Hok Ht. revert sb sub before Hok. induction Ht as [|t turns Ht _ IH]; intros sb sub before Hok Hf.
  - exists sb, [], sub. done.
  - destruct (substation_turn_spec src sb sub t Hok Ht) as (sb1 & di & sub1 & Hturn & Hok1 & Hfile & _).
    cbn [substation_run]. rewrite Hturn. cbn [mbind option_bind].
    destruct (IH sb1 sub1 (if turn_shown t then Some t else before) Hok1) as (sb' & dis & sub' & -> & Hok' & Hf').
    { unfold file_follows in Hfile. destruct (turn_shown t); [done | by rewrite Hfile]. }
    exists sb', (di :: dis), sub'. done.
Qed.

Lemma substation_run_valid src turns k sb sub :
  substation_ok src sb sub -> fresh k sb sub -> k + zlen turns <= 4294967294 ->
  Forall (fun t => turn_ok t /\ 0 <= tu_now t < 9223372036854775808) turns ->
  exists sb' displays, substation_run sb turns = Some (sb', displays) /\
    Forall2 (fun t display => if tu_lost t then display = None
                              else exists d, display = Some d /\ di_valid d = true) turns displays.
Proof.
  intros Hok Hfr Hk Ht. revert sb sub k Hok Hfr Hk. induction Ht as [|t turns [Ht Hnow] _ IH]; intros sb sub k Hok Hfr Hk.
  - by exists sb, [].
  - zlen. pose proof (zlen_nonneg turns).
    destruct (substation_turn_spec src sb sub t Hok Ht) as (sb1 & di & sub1 & Hturn & Hok1 & _ & Hdi & Hfr1).
    destruct (Hfr1 k Hfr ltac:(lia)) as [Hfr' Hval]. cbn [substation_run]. rewrite Hturn. cbn [mbind option_bind].
    destruct (IH sb1 sub1 (k + 1) Hok1 Hfr' ltac:(lia)) as (sb' & dis & -> & HF). cbn [mbind option_bind].
    exists sb', (di :: dis). split; [done|]. constructor; [|done].
    destruct (tu_lost t); [done|]. destruct Hdi as [d ->]. exists d. split; [done|]. by apply Hval.
Qed.

Lemma substation_setup_ok srcAddr now interface shared uidEnv gidEnv :
  zlen srcAddr = 6 -> env_ok interface -> env_ok uidEnv -> env_ok gidEnv ->
  exists sb sub, substation_setup srcAddr now interface shared uidEnv gidEnv = Some (Some sb) /\
    substation_ok srcAddr sb sub /\ fresh 0 sb sub /\ br_shared (sb_breaker sb) = shared.
Proof.
  intros Hs Hi Hu Hg. unfold substation_setup.
  destruct (ied_setup_ok srcAddr now Hs) as (ied & -> & Hied & _ & Hst & Hsq). cbn [mbind option_bind].
  destruct (breaker_setup_ok interface) as (receiver & sub & -> & Hbr & Hst0).
  { destruct interface; [done|]. apply elem_of_app. right. by apply list_elem_of_singleton. }
  cbn [mbind option_bind]. eexists _, sub. split; [done|]. split; [done|]. split; [|done].
  unfold fresh. cbn [sb_ied]. rewrite Hst, Hsq, Hst0. lia.
Qed.
