(* ===== verification/BerProperties.v ===== *)
(** What the BER layer promises: length fields, integers, bit strings and the
    string helpers, each over the whole range of its arguments, with the
    arguments at which the size functions disagree with the encoders. *)

From S2P Require Import Prelude BerEncoder BerDecoder BerInteger StringUtils.
Open Scope Z_scope.

(** decoding a length field of arbitrary bytes terminates and stays inside
    the buffer: the result is the error position, or a position behind the
    field and a length whose bytes lie before the limit. *)
Theorem decodeLength_safe buffer length bufPos maxBufPos :
  bytes_ok buffer -> 0 <= bufPos -> maxBufPos <= zlen buffer < 4194304 ->
  exists newPos n, BerDecoder_decodeLength buffer length bufPos maxBufPos = Some (newPos, n) /\
    (newPos = -1 \/ bufPos < newPos /\ 0 <= n /\ newPos + n <= maxBufPos).
Proof.
  intros Hb Hp [Hl Hs]. destruct (decodeLength_total buffer maxBufPos Hb Hl ltac:(lia) length bufPos Hp) as ([p n] & H & Hr).
  by exists p, n.
Qed.

Lemma decodeLength_safe_witness :
  exists newPos n, BerDecoder_decodeLength [0x80; 0x04; 0x01; 0x00; 0x00] 0 0 5 = Some (newPos, n) /\
    (newPos = -1 \/ 0 < newPos /\ 0 <= n /\ newPos + n <= 5).
Proof.
  apply (decodeLength_safe [0x80; 0x04; 0x01; 0x00; 0x00] 0 0 5);
    [bytes_concrete | lia | zlia].
Defined.

(** A length below 2^24 that [BerEncoder_encodeLength] writes is the length
    [BerDecoder_decodeLength] reads, and both advance by the same number of bytes. *)
Theorem length_roundtrip n buffer bufPos buffer' newPos maxBufPos length :
  0 <= n < 16777216 -> 0 <= bufPos -> newPos + n <= maxBufPos ->
  BerEncoder_encodeLength n buffer bufPos = Some (buffer', newPos) ->
  BerDecoder_decodeLength buffer' length bufPos maxBufPos = Some (newPos, n).
Proof.
  intros Hn Hp Hm. rewrite encodeLength_puts. pose proof (zlen_ber_length_bounds n).
  destruct (Z.le_gt_cases (bufPos + zlen (ber_length n)) (zlen buffer)) as [Hf|Hf].
  - rewrite puts_fits by done. intros [= <- <-]. apply decodeLength_definite; [done | by apply splice_at | lia].
  - destruct (Z.le_gt_cases bufPos (zlen buffer)).
    + by rewrite puts_overflow by lia.
    + destruct (ber_length n) as [|b bs]; [zlia|]. cbn [puts]. unfold put, st.
      by replace ((0 <=? bufPos) && (bufPos <? zlen buffer)) with false by lia.
Qed.

Lemma length_roundtrip_witness :
  BerEncoder_encodeLength 300 [0; 0; 0] 0 = Some ([0x82; 1; 44], 3) /\
  BerDecoder_decodeLength [0x82; 1; 44] 0 0 400 = Some (3, 300).
Proof.
  split; [reflexivity|]. apply (length_roundtrip 300 [0; 0; 0] 0 [0x82; 1; 44] 3 400 0); [lia | lia | lia | reflexivity].
Defined.

(** C15: [BerEncoder_determineLengthSize] is the number of bytes
    [BerEncoder_encodeLength] writes, for every length except 65535, where it is
    one too small. *)
Theorem determineLengthSize_exact n buffer bufPos :
  0 <= n -> 0 <= bufPos -> bufPos + 4 <= zlen buffer ->
  exists buffer' newPos, BerEncoder_encodeLength n buffer bufPos = Some (buffer', newPos) /\
    newPos = bufPos + BerEncoder_determineLengthSize n + (if n =? 65535 then 1 else 0).
Proof.
  intros Hn Hp Hf. rewrite encodeLength_puts. pose proof (zlen_ber_length_bounds n).
  rewrite puts_fits by lia. do 2 eexists. split; [done|].
  destruct (Z.eqb_spec n 65535) as [->|Hne].
  - change (zlen (ber_length 65535)) with 4. change (BerEncoder_determineLengthSize 65535) with 3. lia.
  - rewrite <- zlen_ber_length by done. lia.
Qed.

Lemma determineLengthSize_exact_witness :
  exists buffer' newPos, BerEncoder_encodeLength 65535 [0; 0; 0; 0] 0 = Some (buffer', newPos) /\
    newPos = 0 + BerEncoder_determineLengthSize 65535 + 1.
Proof. apply (determineLengthSize_exact 65535 [0; 0; 0; 0] 0); [lia | lia | zlia]. Defined.

(** [BerEncoder_compressInteger] yields the shortest two's complement octets
    of the same value: it keeps the value, never grows, and no leading octet of
    the result is redundant. *)
Theorem compressInteger_minimal octets :
  bytes_ok octets -> octets <> [] ->
  exists octets' n, BerEncoder_compressInteger octets (zlen octets) = Some (octets', n) /\
    1 <= n <= zlen octets /\ zlen octets' = zlen octets /\
    sbe_val (take (Z.to_nat n) octets') = sbe_val octets /\
    forall b0 b1 rest, take (Z.to_nat n) octets' = b0 :: b1 :: rest ->
    ~ (b0 = 0 /\ b1 < 128) /\ ~ (b0 = 255 /\ 128 <= b1).
Proof.
  intros Hb Hne. rewrite compressInteger_spec by done. do 2 eexists. split; [done|].
  pose proof (zlen_ber_minimal octets). pose proof (zlen_ber_minimal_pos octets Hne).
  split; [lia|]. rewrite zlen_to_nat, take_app_length. split.
  - unfold zlen in *. rewrite length_app, length_drop. lia.
  - split; [by apply sbe_val_minimal|]. intros b0 b1 rest Hm. by apply (ber_minimal_shortest octets b0 b1 rest).
Qed.

Lemma compressInteger_minimal_witness :
  exists octets' n, BerEncoder_compressInteger [0; 0; 200] 3 = Some (octets', n) /\
    1 <= n <= 3 /\ zlen octets' = 3 /\ sbe_val (take (Z.to_nat n) octets') = 200 /\
    forall b0 b1 rest, take (Z.to_nat n) octets' = b0 :: b1 :: rest ->
    ~ (b0 = 0 /\ b1 < 128) /\ ~ (b0 = 255 /\ 128 <= b1).
Proof. apply (compressInteger_minimal [0; 0; 200]); [bytes_concrete | done]. Defined.

(** An unsigned 32 bit value that [BerEncoder_encodeUInt32] writes is the
    value [BerDecoder_decodeUint32] reads from the same octets, and
    [BerEncoder_UInt32determineEncodedSize] is their number. *)
Theorem uint32_roundtrip value buffer bufPos buffer' newPos :
  is_u32 value -> 0 <= bufPos -> bufPos + 5 <= zlen buffer ->
  BerEncoder_encodeUInt32 value buffer bufPos = Some (buffer', newPos) ->
  BerDecoder_decodeUint32 buffer' (newPos - bufPos) bufPos = Some value /\
  BerEncoder_UInt32determineEncodedSize value = Some (newPos - bufPos).
Proof.
  intros Hv Hp Hf. rewrite encodeUInt32_puts. pose proof (zlen_ber_uint32 value).
  rewrite puts_fits by lia. intros [= <- <-]. replace (bufPos + _ - bufPos) with (zlen (ber_uint32 value)) by lia.
  split; [|apply UInt32determineEncodedSize_spec].
  apply (decodeUint32_uint32 _ _ value); [done | apply splice_at; lia | done].
Qed.

Lemma uint32_roundtrip_witness :
  BerEncoder_encodeUInt32 200 [9; 9; 9; 9; 9] 0 = Some ([0; 200; 9; 9; 9], 2) /\
  BerDecoder_decodeUint32 [0; 200; 9; 9; 9] 2 0 = Some 200 /\ BerEncoder_UInt32determineEncodedSize 200 = Some 2.
Proof.
  split; [reflexivity|].
  apply (uint32_roundtrip 200 [9; 9; 9; 9; 9] 0 [0; 200; 9; 9; 9] 2); [unfold is_u32; lia | lia | zlia | reflexivity].
Defined.

(** An integer object made from a 32 bit signed value gives the value back,
    signed and unsigned. *)
Theorem berInteger_int32_roundtrip value :
  is_s32 value ->
  exists v, BerInteger_createFromInt32 value = Some v /\ BerInteger_toInt32 v = Some value /\
    BerInteger_toInt64 v = Some value /\ 1 <= apv_size v <= 4.
Proof.
  intros Hv. destruct (createFromInt32_holds value) as (v & -> & [Hok Hc] & _). exists v. split; [done|].
  pose proof (zlen_ber_int32 value) as Hz. rewrite <- Hc, zlen_apv_content in Hz by done.
  rewrite toInt32_spec, toInt64_spec by (done || lia). rewrite Hc, sbe_val_int32 by done.
  unfold is_s32, s32, s64 in *. rewrite !Z.mod_small by lia. split_and!; try lia; f_equal; lia.
Qed.

Lemma berInteger_int32_roundtrip_witness :
  exists v, BerInteger_createFromInt32 (-2147483648) = Some v /\ BerInteger_toInt32 v = Some (-2147483648) /\
    BerInteger_toInt64 v = Some (-2147483648) /\ 1 <= apv_size v <= 4.
Proof. apply (berInteger_int32_roundtrip (-2147483648)). unfold is_s32. lia. Defined.

(** [BerEncoder_Int32determineEncodedSize] gives five bytes for every
    negative value, although [BerEncoder_encodeInt32] writes at most four. *)
Theorem int32_size_overestimates value buffer bufPos :
  -2147483648 <= value < 0 -> 0 <= bufPos -> bufPos + 4 <= zlen buffer ->
  BerEncoder_Int32determineEncodedSize value = Some 5 /\
  exists buffer' newPos, BerEncoder_encodeInt32 [0; 0; 0; 0] value buffer bufPos = Some (buffer', newPos) /\
    newPos <= bufPos + 4.
Proof.
  intros Hv Hp Hf. split.
  - unfold BerEncoder_Int32determineEncodedSize. rewrite uint32_valueBuffer_spec. cbn [mbind option_bind].
    rewrite <- (zlen_zero_be_bytes value) at 1. rewrite compressInteger_spec by auto with bytes. cbn [mbind option_bind].
    pose proof (be_bytes_ok 4 value) as Hb. pose proof (sbe_val_int32 value ltac:(unfold is_s32; lia)) as Hsv.
    destruct (be_bytes_4_cons value) as (b & bs & E). rewrite E in *.
    assert (128 <= b) as Hb128.
    { unfold ber_int32 in Hsv. rewrite sbe_val_minimal, E in Hsv by (rewrite E; done). rewrite sbe_val_cons in Hsv by done.
      apply Forall_cons_1 in Hb as [Hb Hbs]. destruct (Z.ltb_spec b 128); [|lia].
      pose proof (be_val_bound bs Hbs). unfold is_byte in Hb. pose proof (pow256_pos (length bs)). unfold zlen in *. nia. }
    rewrite ber_minimal_step. replace (_ || _) with false by lia. rewrite <- E. zlen. done.
  - rewrite encodeInt32_puts by done. pose proof (zlen_ber_int32 value). rewrite puts_fits by lia.
    do 2 eexists. split; [done|]. lia.
Qed.

Lemma int32_size_overestimates_witness :
  BerEncoder_Int32determineEncodedSize (-1) = Some 5 /\
  exists buffer' newPos, BerEncoder_encodeInt32 [0; 0; 0; 0] (-1) [0; 0; 0; 0] 0 = Some (buffer', newPos) /\
    newPos <= 0 + 4.
Proof. apply (int32_size_overestimates (-1) [0; 0; 0; 0] 0); [lia | lia | zlia]. Defined.

(** [BerEncoder_determineEncodedBitStringSize] is the number of bytes
    [BerEncoder_encodeBitString] writes, unless the bits fill 127, 255, 65534 or
    65535 bytes; then it is one too small: it takes the size of the length field
    of the bits without the octet that counts the padding. *)
Theorem bitString_size_exact tag size bits buffer bufPos :
  0 <= size < 8388608 -> (size + 7) / 8 <= zlen bits -> 0 <= bufPos ->
  bufPos + BerEncoder_determineEncodedBitStringSize size + 1 <= zlen buffer ->
  exists buffer' newPos, BerEncoder_encodeBitString tag size bits buffer bufPos = Some (buffer', newPos) /\
    newPos = bufPos + BerEncoder_determineEncodedBitStringSize size +
             (if bool_decide ((size + 7) / 8 ∈ [127; 255; 65534; 65535]) then 1 else 0).
Proof.
  intros Hs Hb Hp Hf. rewrite encodeBitString_puts by lia.
  assert (zlen (ber_tlv tag (ber_bitstring size bits)) = BerEncoder_determineEncodedBitStringSize size +
    (if bool_decide ((size + 7) / 8 ∈ [127; 255; 65534; 65535]) then 1 else 0)) as Hz.
  { rewrite zlen_ber_tlv. unfold ber_bitstring. zlen. rewrite zlen_ber_bits by lia.
    unfold BerEncoder_determineEncodedBitStringSize. rewrite byteSize_eq by lia.
    assert (0 <= (size + 7) / 8 < 1048577) by (split; [apply Z.div_pos; lia | apply Z.div_lt_upper_bound; lia]).
    rewrite u32_small by lia. set (k := (size + 7) / 8) in *.
    destruct (decide (k ∈ [127; 255; 65534; 65535])) as [Hin|Hin].
    - rewrite bool_decide_eq_true_2 by done. rewrite !elem_of_cons in Hin.
      destruct Hin as [->|[->|[->|[->|Hin]]]]; try done. by apply not_elem_of_nil in Hin.
    - rewrite bool_decide_eq_false_2 by done. rewrite !not_elem_of_cons in Hin.
      rewrite zlen_ber_length by lia. unfold BerEncoder_determineLengthSize. repeat btest; lia. }
  pose proof (zlen_nonneg (ber_tlv tag (ber_bitstring size bits))).
  rewrite puts_fits by (destruct (bool_decide _); lia). do 2 eexists. split; [done|]. lia.
Qed.

Lemma bitString_size_exact_witness :
  exists buffer' newPos, BerEncoder_encodeBitString 0x84 9 [0xff; 0xff] [0; 0; 0; 0; 0; 0] 0 = Some (buffer', newPos) /\
    newPos = 0 + BerEncoder_determineEncodedBitStringSize 9 + 0.
Proof. apply (bitString_size_exact 0x84 9 [0xff; 0xff] [0; 0; 0; 0; 0; 0] 0);
  [lia | by vm_compute | lia | by vm_compute].
Defined.

(** [StringUtils_copyStringMax] never writes beyond the size it is given,
    always terminates the copy, and the copy is the source cut to one less than
    that size. *)
Theorem copyStringMax_bounded dest n str :
  0 ∈ str -> 1 <= n <= zlen dest ->
  exists dest', StringUtils_copyStringMax (Some dest) n str = Some (Some dest') /\
    drop (Z.to_nat n) dest' = drop (Z.to_nat n) dest /\ 0 ∈ take (Z.to_nat n) dest' /\
    c_string dest' = take (Z.to_nat (n - 1)) (c_string str).
Proof.
  intros Hs Hn. rewrite copyStringMax_spec by done. eexists. split; [done|].
  destruct (copyStringMax_c_string dest n str _ Hs Hn (copyStringMax_spec dest n str Hs Hn)) as (Hc & _ & _).
  set (s := take (Z.to_nat (n - 1)) (c_string str) ++ [0]) in *.
  assert (length s <= Z.to_nat n)%nat as Hl.
  { unfold s. rewrite length_app, length_take. cbn. lia. }
  unfold splice. change (Z.to_nat 0) with O. rewrite take_0, app_nil_l, Nat.add_0_l.
  split; [rewrite drop_app_ge by done; rewrite drop_drop; f_equal; lia|]. split; [|done].
  rewrite take_app_ge by done. apply elem_of_app. left. unfold s. apply elem_of_app. right. by apply list_elem_of_singleton.
Qed.

Lemma copyStringMax_bounded_witness :
  exists dest', StringUtils_copyStringMax (Some [7; 7; 7; 7]) 3 [65; 66; 67; 0] = Some (Some dest') /\
    drop 3 dest' = [7] /\ 0 ∈ take 3 dest' /\ c_string dest' = [65; 66].
Proof.
  apply (copyStringMax_bounded [7; 7; 7; 7] 3 [65; 66; 67; 0]); [|zlia].
  do 3 right. left.
Defined.
