(* ===== verification/MmsProperties.v ===== *)
(** What the MMS values and their codec promise. *)

From S2P Require Import Prelude BerEncoder BerDecoder BerInteger StringUtils CFloat MmsValue MmsFacts MmsData.
Open Scope Z_scope.

(** C7: a value written by the encoder is read back by the decoder: the encoder
    advances by exactly the size it computed beforehand, and the decoder,
    started at the same place, ends at the same position with a value that
    compares equal. The value is one that the library computes the size of correctly
    ([mms_sized]: no null component, no content of 65535 bytes, no bit string of 127, 255,
    65534 or 65535 octets, integers below 128 octets), that the decoder takes ([decodable]: integers of one to eight
    octets, floats of 32 or 64 bits, no empty array or structure, no MMS string or other
    unlisted type inside of one, contents below 2^24 bytes, at most 25 levels), and that can
    be compared afterwards ([mms_complete]: no string is null or longer than its recorded
    size; [padding_clear]: the unused bits of bit strings are clear). *)
Theorem mms_encode_decode v buffer bufPos endBufPos :
  mms_ok v -> mms_sized v -> decodable v -> mms_complete v -> padding_clear v -> (mms_depth v <= 25)%nat ->
  0 <= bufPos -> bufPos + zlen (mms_bytes v) <= zlen buffer ->
  exists buffer' size v', MmsValue_encodeMmsData (Some v) buffer bufPos false = Some (buffer, size) /\
    MmsValue_encodeMmsData (Some v) buffer bufPos true = Some (buffer', bufPos + size) /\
    MmsValue_decodeMmsData buffer' bufPos (bufPos + size) endBufPos = Some (Some v', bufPos + size) /\
    mms_equals v v' = Some true.
Proof.
  intros Hok Hs Hd Hc Hpad Hdep Hp Hf.
  exists (splice buffer bufPos (mms_bytes v)), (zlen (mms_bytes v)), (decoded v). unfold MmsValue_encodeMmsData.
  cbn [mbind option_bind]. rewrite encodedSize_spec by done. split; [done|].
  rewrite encodeData_puts, puts_fits by done. split; [done|].
  split; [|by apply decoded_equals]. unfold MmsValue_decodeMmsData, MmsValue_decodeMmsDataMaxRecursion.
  rewrite (decode_spec v Hok Hd) by (by apply splice_at || done). done.
Qed.

(** a structure of a boolean, a float and a string *)
Definition sample : MmsValue :=
  MmsStructure [Some (MmsBoolean true); Some (MmsValue_newFloat 0x449C5000);
                Some (MmsVisibleString (Some [104; 105; 0]) 2)].

Lemma sample_ok : mms_ok sample /\ mms_sized sample /\ decodable sample /\ mms_complete sample /\ padding_clear sample.
Proof.
  split_and!.
  - cbn. split_and!; try done; try lia; try bytes_concrete; unfold is_byte; try lia.
    do 2 right. left.
  - cbn. split_and!; (done || by vm_compute).
  - cbn [decodable sample all_components mms_tag MmsValue_newFloat]. split_and!; try done; try (by vm_compute); try (by left);
      unfold element_tags; rewrite !elem_of_cons; tauto.
  - cbn. split_and!; try done; by vm_compute.
  - cbn. done.
Qed.

Lemma mms_encode_decode_witness :
  exists buffer' size v', MmsValue_encodeMmsData (Some sample) (replicate 40 0) 5 false = Some (replicate 40 0, size) /\
    MmsValue_encodeMmsData (Some sample) (replicate 40 0) 5 true = Some (buffer', 5 + size) /\
    MmsValue_decodeMmsData buffer' 5 (5 + size) 0 = Some (Some v', 5 + size) /\
    mms_equals sample v' = Some true.
Proof.
  destruct sample_ok as (H1 & H2 & H3 & H4 & H5).
  apply (mms_encode_decode sample (replicate 40 0) 5 0 H1 H2 H3 H4 H5); [cbn; lia | lia | by vm_compute].
Defined.

(** C8: the decoder of MMS data is total and memory safe: on arbitrary bytes it
    ends, reads inside the buffer only, and returns no value or a well-formed
    one; the position it reports lies in the buffer or is the one of the caller. *)
Theorem mms_decode_safe buffer bufPos bufferLength endBufPos maxDepth :
  bytes_ok buffer -> zlen buffer < 4194304 -> 0 <= bufPos < zlen buffer -> bufferLength <= zlen buffer ->
  exists r p, MmsValue_decodeMmsDataMaxRecursion buffer bufPos bufferLength endBufPos maxDepth = Some (r, p) /\
    (p = endBufPos \/ bufPos < p <= bufferLength) /\ match r with Some v => mms_ok v | None => True end.
Proof.
  intros Hb Hz Hp Hl. unfold MmsValue_decodeMmsDataMaxRecursion.
  destruct (decodeRecursive_total buffer Hb Hz (Z.to_nat maxDepth) bufPos bufferLength Hp Hl) as (r & -> & Hr).
  cbn [mbind option_bind]. destruct r as [[v p]|]; [|exists None, endBufPos; auto].
  exists v, p. split; [done|]. unfold outcome_ok in Hr. destruct Hr. split; [auto | done].
Qed.

Lemma mms_decode_safe_witness :
  exists r p, MmsValue_decodeMmsDataMaxRecursion [0xa2; 0x80; 0x83; 0x05; 0x00; 0x00] 0 6 0 25 = Some (r, p) /\
    (p = 0 \/ 0 < p <= 6) /\ match r with Some v => mms_ok v | None => True end.
Proof.
  apply (mms_decode_safe [0xa2; 0x80; 0x83; 0x05; 0x00; 0x00] 0 6 0 25); [bytes_concrete | zlia | zlia | zlia].
Defined.

(** [MmsValue_getMaxEncodedSize] bounds the encoded size of the value. *)
Theorem maxEncodedSize_bounds v :
  mms_ok v -> mms_complete v ->
  exists n m, MmsValue_encodeMmsData (Some v) [] 0 false = Some ([], n) /\
    MmsValue_getMaxEncodedSize v = Some m /\ 0 <= n <= m.
Proof.
  intros Hok Hc. destruct (max_bounds_spec v Hok Hc) as (n & m & Hn & Hm & Hle). exists n, m.
  unfold MmsValue_encodeMmsData. cbn [mbind option_bind]. rewrite Hn. done.
Qed.

Lemma maxEncodedSize_bounds_witness :
  exists n m, MmsValue_encodeMmsData (Some sample) [] 0 false = Some ([], n) /\
    MmsValue_getMaxEncodedSize sample = Some m /\ 0 <= n <= m.
Proof. apply (maxEncodedSize_bounds sample); apply sample_ok. Defined.

(** [MmsValue_clone] makes a well-formed copy that compares equal. *)
Theorem clone_equals v :
  mms_ok v -> mms_complete v ->
  exists v', MmsValue_clone (Some v) = Some (Some v') /\ mms_ok v' /\ MmsValue_equals (Some v) (Some v') = Some true.
Proof.
  intros Hok Hc. destruct (clone_ok v Hok Hc) as (v' & Hv & Hok' & He). exists v'.
  cbn [MmsValue_clone]. rewrite Hv. done.
Qed.

Lemma clone_equals_witness :
  exists v', MmsValue_clone (Some sample) = Some (Some v') /\ mms_ok v' /\ MmsValue_equals (Some sample) (Some v') = Some true.
Proof. apply (clone_equals sample); apply sample_ok. Defined.

(** a time stamp set from milliseconds since the epoch gives the same
    milliseconds back, up to the last second of the 32 bit seconds counter. *)
Theorem utcTime_ms_roundtrip old t :
  zlen old = 8 -> 0 <= t < 4294967296000 ->
  exists v, MmsValue_setUtcTimeMs (MmsUtcTime old) t = Some v /\ MmsValue_getUtcTimeInMs v = Some t.
Proof.
  intros Hz Ht. unfold MmsValue_setUtcTimeMs. rewrite setUtcTimeMs_spec by done. eexists. split; [done|].
  by apply getUtcTimeInMs_set.
Qed.

Lemma utcTime_ms_roundtrip_witness :
  exists v, MmsValue_setUtcTimeMs (MmsUtcTime (replicate 8 0)) 1700000000123 = Some v /\
    MmsValue_getUtcTimeInMs v = Some 1700000000123.
Proof. apply (utcTime_ms_roundtrip (replicate 8 0) 1700000000123); [reflexivity | lia]. Defined.

(** A structure that holds an MMS string can be encoded but not decoded: the
    check of the element tags rejects the tag the encoder writes. *)
Theorem mmsString_not_decodable :
  let v := MmsStructure [Some (MmsString (Some [104; 105; 0]) 2)] in
  exists buffer, MmsValue_encodeMmsData (Some v) (replicate 6 0) 0 true = Some (buffer, 6) /\
    MmsValue_decodeMmsData buffer 0 6 (-7) = Some (None, -7).
Proof. exists [0xa2; 0x04; 0x90; 0x02; 104; 105]. split; reflexivity. Qed.
