(* ===== verification/GooseProperties.v ===== *)
(** What the GOOSE publisher and the GOOSE receiver promise. *)

From stdpp Require Import relations.
From S2P Require Import Prelude BerEncoder BerDecoder BerInteger StringUtils CFloat MmsValue MmsFacts MmsData GoosePublisher GooseSubscriber GooseReceiver GooseSafety GooseThread GooseDataSet GooseRoundtrip.
Open Scope Z_scope.

(** * Delivery *)

(** C2: what is published is delivered: the frame [GoosePublisher_publish] sends
    for a data set that fits, handed to the receiver with any bytes behind it in
    the receive buffer, updates the subscriber registered for the control block
    with the counters, the time stamp, the flags and a data set that compares
    equal, and calls its listener; all other subscribers are left alone. The values
    of the data set are such as the receiver takes ([goose_value], [sendable]: no null
    entry, MMS string, data access error or empty bit string, array or structure, integers
    of one to eight octets, floats of 32 or 64 bits, clear padding bits) and as the library
    computes the size of ([dataSet_ok]); the subscriber has no data set yet, one that a new
    configuration revision makes it rebuild, or one with room for the values ([ready]). *)
Theorem publish_delivers self dataSet dst src vlan appId pre s post slack now :
  publisher_ok self -> framed self dst src vlan appId -> gp_ethernetSocket self = true ->
  dataSet_ok dataSet -> sendable (MmsArray dataSet) -> goose_value (MmsArray dataSet) ->
  zlen (goose_bytes self dataSet) <= GOOSE_MAX_MESSAGE_SIZE - gp_payloadStart self ->
  Forall (ignores (ber_string (gp_goCBRef self))) pre -> listens s (ber_string (gp_goCBRef self)) -> subscriber_ok s ->
  interested (gs_link s) dst appId -> ready (gs_message s) (gp_confRev self) dataSet ->
  exists self' frame s' m', GoosePublisher_publish self dataSet = Some (self', 0, Some frame) /\
    publisher_ok self' /\ framed self' dst src vlan appId /\
    parseGooseMessage (pre ++ s :: post) (frame ++ slack) (zlen frame) now
    = Some (pre ++ with_message s' m' :: post, if gs_listener s then Some (length pre) else None) /\
    delivered self dataSet now (gs_message s) m'.
Proof.
  intros Hok Hf Hso Hds Hs Hg Hfit Hpre Hl Hsub Hint Hr.
  destruct (publish_frame self dataSet dst src vlan appId Hok Hf Hso Hds (sendable_length _ Hs) Hfit)
    as (self' & Hpub & Hok' & Hf' & _).
  destruct (frame_delivered self dataSet dst src vlan appId pre s post slack now Hok Hf Hs Hg Hfit Hpre Hl Hsub Hint Hr)
    as (s' & m' & Hparse & _ & Hdel & _).
  by exists self', (frame_bytes dst src vlan appId (goose_bytes self dataSet)), s', m'.
Qed.

(** ** A publisher and a subscriber for the witnesses *)

Definition demo_dst : list Z := [0x01; 0x0c; 0xcd; 0x01; 0x00; 0x01].
Definition demo_src : list Z := [0x02; 0; 0; 0; 0; 9].
Definition demo_publisher : GoosePublisher :=
  mkGoosePublisher
    ((demo_dst ++ demo_src ++ [0x88; 0xb8; 3; 232; 0; 8; 0; 0; 0; 0]) ++ replicate 1496 0)
    true 16 22 0 None (Some [65; 0]) (Some [66; 0]) 1 1 0 500 false false (MmsUtcTime [1; 2; 3; 4; 5; 6; 7; 8]).
Definition demo_subscriber : GooseSubscriber :=
  mkGooseSubscriber (65 :: replicate 129 0) (replicate 130 0) (replicate 130 0) 1
    (mkMessageState 0 0 0 0 (MmsUtcTime (replicate 8 0)) false false 0 false GOOSE_PARSE_ERROR_NO_ERROR None true)
    (mkLinkState (replicate 6 0) (replicate 6 0xff) (-1) false false 0 0) false true.
Definition demo_dataSet : list (option MmsValue) := [Some (MmsBoolean true)].

Lemma elem_of_here {A} (x : A) l : x ∈ x :: l.
Proof. left. Qed.

Lemma demo_publisher_ok : publisher_ok demo_publisher /\ framed demo_publisher demo_dst demo_src [] 1000.
Proof.
  split; unfold publisher_ok, framed, demo_publisher;
    cbn [gp_buffer gp_lengthField gp_payloadStart gp_goID gp_goCBRef gp_dataSetRef gp_confRev gp_stNum gp_sqNum gp_timeAllowedToLive gp_timestamp].
  - split_and!; try done; try (unfold is_u32, GOOSE_MAX_MESSAGE_SIZE; lia).
    + right. apply elem_of_here.
    + right. apply elem_of_here.
    + eexists. split; [done|]. split; [done|]. bytes_concrete.
  - split_and!; try done; [by left|]. exists 0, 8. reflexivity.
Qed.

Lemma demo_subscriber_ok : subscriber_ok demo_subscriber /\ listens demo_subscriber [65].
Proof.
  split.
  - unfold subscriber_ok, message_ok, demo_subscriber.
    cbn [gs_goCBRef gs_datSet gs_goId gs_goCBRefLen gs_link gs_message ls_srcMac ls_dstMac ms_timeAllowedToLive ms_stNum
         ms_sqNum ms_confRev ms_timestamp ms_dataSetValues].
    split_and!; try done; try (unfold is_u32; lia). eexists. split; [done|]. split; [done|].
    repeat (apply List.Forall_cons; [unfold is_byte; lia|]). apply List.Forall_nil.
  - split_and!; [done | done |]. by exists [], (replicate 129 0).
Qed.

Lemma demo_dataSet_ok : dataSet_ok demo_dataSet /\ sendable (MmsArray demo_dataSet) /\ goose_value (MmsArray demo_dataSet).
Proof.
  split_and!; try done. unfold sendable. split_and!; try done.
  cbn [decodable all_components demo_dataSet mms_tag]. split_and!; try done; try (by vm_compute).
  unfold element_tags. rewrite !elem_of_cons. tauto.
Qed.

Lemma publish_delivers_witness :
  exists self' frame s' m', GoosePublisher_publish demo_publisher demo_dataSet = Some (self', 0, Some frame) /\
    publisher_ok self' /\ framed self' demo_dst demo_src [] 1000 /\
    parseGooseMessage ([] ++ demo_subscriber :: []) (frame ++ []) (zlen frame) 1000
    = Some ([] ++ with_message s' m' :: [], Some 0%nat) /\
    delivered demo_publisher demo_dataSet 1000 (gs_message demo_subscriber) m'.
Proof.
  destruct demo_publisher_ok as [P1 P2], demo_subscriber_ok as [S1 S2], demo_dataSet_ok as (D1 & D2 & D3).
  apply (publish_delivers demo_publisher demo_dataSet demo_dst demo_src [] 1000 [] demo_subscriber [] [] 1000 P1 P2 eq_refl D1 D2 D3);
    [by vm_compute | constructor | done | done | split; by left | done].
Defined.

(** C5: publishing is all or nothing: a message longer than the room behind the
    header is not sent and leaves everything but the recorded length as it was;
    any other message is sent as header and payload, with the length field of
    the header filled in, the buffer keeps its header, and only the sequence
    number moves on. This holds for data sets whose values the library computes
    the size of correctly ([dataSet_ok], with [mms_sized]: no null component inside a
    value, no content of 65535 bytes, no bit string of 127, 255, 65534 or 65535 octets,
    integers below 128 octets) and messages below 65536 bytes;
    [missized_publish_overruns] shows what a bit string of 127 octets can do. *)
Theorem publish_all_or_nothing self dataSet dst src vlan appId :
  publisher_ok self -> framed self dst src vlan appId -> gp_ethernetSocket self = true ->
  dataSet_ok dataSet -> zlen dataSet < 4294967296 -> zlen (goose_bytes self dataSet) < 65536 ->
  if GOOSE_MAX_MESSAGE_SIZE - gp_payloadStart self <? zlen (goose_bytes self dataSet)
  then GoosePublisher_publish self dataSet = Some (with_payloadLength self (-1), -1, None)
  else exists buffer, let n := zlen (goose_bytes self dataSet) in
    let self' := with_payloadLength (with_buffer (GoosePublisher_setSqNum self (next_sqNum (gp_sqNum self))) buffer) n in
    GoosePublisher_publish self dataSet
    = Some (self', 0, Some (frame_bytes dst src vlan appId (goose_bytes self dataSet))) /\
    publisher_ok self' /\ framed self' dst src vlan appId.
Proof.
  intros Hok Hf Hso Hds Hn Hz. destruct (_ <? _) eqn:E; bdestr; [by apply publish_too_long|].
  destruct (publish_frame self dataSet dst src vlan appId Hok Hf Hso Hds Hn E) as (self' & Hpub & Hok' & Hf' & buffer & ->).
  by exists buffer.
Qed.

Lemma publish_all_or_nothing_witness :
  exists buffer, let n := zlen (goose_bytes demo_publisher demo_dataSet) in
    let self' := with_payloadLength (with_buffer (GoosePublisher_setSqNum demo_publisher 1) buffer) n in
    GoosePublisher_publish demo_publisher demo_dataSet
    = Some (self', 0, Some (frame_bytes demo_dst demo_src [] 1000 (goose_bytes demo_publisher demo_dataSet))) /\
    publisher_ok self' /\ framed self' demo_dst demo_src [] 1000.
Proof.
  destruct demo_publisher_ok as [P1 P2], demo_dataSet_ok as (D1 & D2 & D3).
  apply (publish_all_or_nothing demo_publisher demo_dataSet demo_dst demo_src [] 1000 P1 P2 eq_refl D1); by vm_compute.
Defined.

(** C6: the payload never leaves its buffer: [createGoosePayload] either writes
    nothing and returns -1, or writes exactly the message at the front of the
    buffer and returns its length; what lies behind the message is unchanged. This
    holds for data sets whose values the library computes the size of correctly
    ([dataSet_ok], with [mms_sized] as above) and messages below 65536 bytes; [missized_payload_overruns] shows that it
    fails for a bit string of 127 octets. *)
Theorem createGoosePayload_bounded self dataSet buffer maxPayloadSize :
  publisher_ok self -> dataSet_ok dataSet -> zlen dataSet < 4294967296 ->
  zlen (goose_bytes self dataSet) < 65536 -> maxPayloadSize <= zlen buffer ->
  createGoosePayload self dataSet buffer maxPayloadSize
  = Some (if maxPayloadSize <? zlen (goose_bytes self dataSet) then (-1, buffer)
          else (zlen (goose_bytes self dataSet),
                goose_bytes self dataSet ++ drop (length (goose_bytes self dataSet)) buffer)).
Proof.
  intros Hok Hds Hn Hz Hm. rewrite createGoosePayload_spec by done. destruct (_ <? _) eqn:E; [done|]. bdestr.
  rewrite puts_fits by lia. done.
Qed.

Lemma createGoosePayload_bounded_witness :
  createGoosePayload demo_publisher demo_dataSet (replicate 60 7) 60
  = Some (if 60 <? zlen (goose_bytes demo_publisher demo_dataSet) then (-1, replicate 60 7)
          else (zlen (goose_bytes demo_publisher demo_dataSet),
                goose_bytes demo_publisher demo_dataSet ++
                drop (length (goose_bytes demo_publisher demo_dataSet)) (replicate 60 7))).
Proof.
  destruct demo_publisher_ok as [P1 P2], demo_dataSet_ok as (D1 & D2 & D3).
  apply (createGoosePayload_bounded demo_publisher demo_dataSet (replicate 60 7) 60 P1 D1); by vm_compute.
Defined.

(** ** Values whose size the library computes wrongly

    A bit string of 127 octets takes one byte more than the publisher counts. *)
Definition missized_bits : MmsValue := MmsBitString 1016 (replicate 127 0).
Definition large_octets : MmsValue := MmsOctetString 1313 1313 (replicate 1313 0).

(** The message of 178 bytes passes the test against a room of 177 and is written behind it. *)
Example missized_payload_overruns :
  zlen (goose_bytes demo_publisher [Some missized_bits]) = 178 /\
  createGoosePayload demo_publisher [Some missized_bits] (replicate 177 0) 177 = None.
Proof. split; vm_compute; reflexivity. Qed.

(** The buffer of the publisher has room for 1496 bytes behind the header. *)
Example missized_publish_overruns :
  zlen (goose_bytes demo_publisher [Some large_octets; Some missized_bits]) = 1497 /\
  GoosePublisher_publish demo_publisher [Some large_octets; Some missized_bits] = None.
Proof. split; vm_compute; reflexivity. Qed.

(** Construction establishes the publisher's invariant: with a socket the
    new publisher has the Ethernet header of the parameters in front of its
    payload, state number one and sequence number zero. *)
Theorem create_publisher_ok parameters srcAddr useVlanTag now :
  6 <= zlen (cp_dstAddress parameters) -> 6 <= zlen srcAddr -> 0 <= cp_appId parameters < 65536 ->
  exists self vlan, GoosePublisher_createEx (Some parameters) srcAddr true useVlanTag now = Some (Some self) /\
    publisher_ok self /\ framed self (take 6 (cp_dstAddress parameters)) (take 6 srcAddr) vlan (cp_appId parameters) /\
    gp_stNum self = 1 /\ gp_sqNum self = 0.
Proof.
  intros Hd Hs Ha.
  destruct (createEx_ok (Some parameters) srcAddr useVlanTag now Hd Hs) as (self & Hc & Hok & Hst & Hsq & _).
  destruct (createEx_framed (Some parameters) srcAddr useVlanTag now self Hd Hs Ha Hc) as (vlan & Hf).
  by exists self, vlan.
Qed.

Lemma create_publisher_ok_witness :
  exists self vlan, GoosePublisher_createEx (Some (mkCommParameters 4 0 1000 demo_dst)) demo_src true true 5 = Some (Some self) /\
    publisher_ok self /\ framed self (take 6 demo_dst) (take 6 demo_src) vlan 1000 /\
    gp_stNum self = 1 /\ gp_sqNum self = 0.
Proof.
  apply (create_publisher_ok (mkCommParameters 4 0 1000 demo_dst) demo_src true 5); [by vm_compute | by vm_compute | cbn; lia].
Defined.

(** * The receiver *)

(** C3: the receiver is memory safe: whatever bytes arrive, parsing them ends,
    touches only the memory it owns and keeps the invariant of all subscribers,
    provided the receive buffer extends eight bytes beyond the frame. *)
Theorem receiver_memory_safe self buffer numbytes now :
  Forall subscriber_ok (gr_subscriberList self) -> bytes_ok buffer ->
  numbytes + 8 <= zlen buffer < 4194304 ->
  exists self' notified, GooseReceiver_handleMessage self buffer numbytes now = Some (self', notified) /\
    Forall subscriber_ok (gr_subscriberList self').
Proof.
  intros Hs Hb Hz. unfold GooseReceiver_handleMessage.
  destruct (parseGooseMessage_ok (gr_subscriberList self) buffer numbytes now Hs) as (subs & notified & -> & Hok).
  { unfold frame_in. split_and!; [done | lia | lia]. }
  cbn [mbind option_bind]. eexists _, _. split; [done|]. by destruct self.
Qed.

(** a frame whose time stamp field is empty and ends the message *)
Definition short_frame : list Z :=
  demo_dst ++ demo_src ++ [0x88; 0xb8; 3; 232; 0; 15; 0; 0; 0; 0] ++ [0x61; 5; 0x80; 1; 65; 0x84; 0].

Lemma receiver_memory_safe_witness :
  exists self' notified,
    GooseReceiver_handleMessage (mkGooseReceiver true false None [] true [demo_subscriber] false)
      (short_frame ++ replicate 8 0) 29 0 = Some (self', notified) /\
    Forall subscriber_ok (gr_subscriberList self').
Proof.
  apply (receiver_memory_safe (mkGooseReceiver true false None [] true [demo_subscriber] false) (short_frame ++ replicate 8 0) 29 0).
  - apply List.Forall_cons; [apply demo_subscriber_ok | apply List.Forall_nil].
  - cbn. bytes_concrete.
  - change (zlen (short_frame ++ replicate 8 0)) with 37. lia.
Defined.

(** The eight bytes are needed: a message whose last field is an empty time
    stamp makes the receiver read behind a buffer that ends with the frame,
    because the time stamp is copied with its full size. *)
Theorem receiver_reads_behind_frame :
  parseGooseMessage [demo_subscriber] short_frame (zlen short_frame) 0 = None /\
  exists r, parseGooseMessage [demo_subscriber] (short_frame ++ replicate 8 0) (zlen short_frame) 0 = Some r.
Proof.
  split; [vm_compute; reflexivity|].
  destruct (parseGooseMessage [demo_subscriber] (short_frame ++ replicate 8 0) (zlen short_frame) 0) as [r|] eqn:E; [by exists r|].
  vm_compute in E. discriminate E.
Qed.

(** A VLAN tag is recognised with its identifier, but the priority reported
    is the three low bits of the first octet (part of the identifier), not the
    three high bits that carry the priority: the mask is shifted instead of the
    octet. *)
Theorem vlan_priority_wrong dst src t1 t2 rest :
  zlen dst = 6 -> zlen src = 6 -> is_byte t1 -> is_byte t2 ->
  vlan_tag (dst ++ src ++ [0x81; 0x00; t1; t2] ++ rest)
  = Some (16, 18, true, t1 mod 8 * 256 + t2, t1 mod 8).
Proof.
  intros Hd Hs H1 H2. destruct (zlen_6 _ Hd) as (d0 & d1 & d2 & d3 & d4 & d5 & ->).
  destruct (zlen_6 _ Hs) as (s0 & s1 & s2 & s3 & s4 & s5 & ->).
  change (vlan_tag _) with (Some (16, 18, true, u16 (Z.shiftl (Z.land t1 0x07) 8 + t2), Z.land t1 (Z.shiftr 0xf8 5))).
  change (Z.shiftr 0xf8 5) with 7. change 7 with (Z.ones 3). rewrite Z.land_ones by lia. change (2 ^ 3) with 8.
  rewrite Z.shiftl_mul_pow2 by lia. change (2 ^ 8) with 256. pose proof (Z.mod_pos_bound t1 8 ltac:(lia)).
  unfold u16, is_byte in *. by rewrite Z.mod_small by lia.
Qed.

Lemma vlan_priority_wrong_witness :
  vlan_tag (demo_dst ++ demo_src ++ [0x81; 0x00; 0x80; 0x05] ++ [])
  = Some (16, 18, true, 0x80 mod 8 * 256 + 0x05, 0x80 mod 8).
Proof. apply (vlan_priority_wrong demo_dst demo_src 0x80 0x05 []); (reflexivity || (unfold is_byte; lia)). Defined.

(** The first message of a control block whose data set cannot be parsed is
    still reported as valid and without parse error, and there is no data set. *)
Theorem first_parse_failure_valid :
  let frame := demo_dst ++ demo_src ++ [0x88; 0xb8; 3; 232; 0; 30; 0; 0; 0; 0] ++
    [0x61; 20; 0x80; 1; 65; 0x84; 8; 1; 2; 3; 4; 5; 6; 7; 8; 0x85; 1; 1; 0xab; 2; 0xff; 0] in
  exists s, parseGooseMessage [demo_subscriber] frame (zlen frame) 1000 = Some ([s], Some 0%nat) /\
    GooseSubscriber_isValid s 1000 = true /\ GooseSubscriber_getParseError s = GOOSE_PARSE_ERROR_NO_ERROR /\
    GooseSubscriber_getDataSetValues s = None.
Proof.
  cbv zeta. destruct (parseGooseMessage _ _ _ _) as [[[|s []] n]|] eqn:E; vm_compute in E; try discriminate E.
  injection E as <- <-. eexists. split; [reflexivity|]. by vm_compute.
Qed.



(** * Data sets *)

(** C10: a known data set is updated in place: when the subscriber's values have
    room for the values sent (same shape and types, and values that can be read back:
    [sendable]), [parseAllData] reports no error, the updated values are well-formed, compare equal to the sent ones
    and still have room for whatever they had room for before. *)
Theorem known_dataSet_updated old xs buffer pos :
  mms_ok old -> accepts old (MmsArray xs) -> sendable (MmsArray xs) ->
  at_pos buffer pos (components_bytes xs) ->
  exists v, parseAllData old (ptr_add buffer pos) (zlen (components_bytes xs)) = Some (v, GOOSE_PARSE_ERROR_NO_ERROR) /\
    mms_ok v /\ mms_equals (MmsArray xs) v = Some true /\
    forall new, accepts old new -> accepts v new.
Proof.
  intros Hok Hacc Hs Hat. assert (is_complex old) as Hc by (by destruct old).
  exact (updates_all old Hok Hc (MmsArray xs) _ Hacc Hs (at_pos_ptr _ _ _ Hat)).
Qed.

(** a data set of a number and a flag, and the subscriber's copy of it *)
Definition pair_new : list (option MmsValue) :=
  [Some (MmsInteger (mkAsn1PrimitiveValue 1 5 [7; 0; 0; 0; 0])); Some (MmsBoolean true)].
Definition pair_old : MmsValue :=
  MmsArray [Some (MmsInteger (mkAsn1PrimitiveValue 2 5 [1; 2; 0; 0; 0])); Some (MmsBoolean false)].

Lemma small_apv_ok n a b : 0 <= n <= 5 -> is_byte a -> is_byte b ->
  apv_ok (mkAsn1PrimitiveValue n 5 [a; b; 0; 0; 0]).
Proof. intros Hn Ha Hb. unfold apv_ok. cbn. unfold is_byte in *. split_and!; try done; try lia. bytes_concrete. Qed.

Lemma pair_ok : mms_ok pair_old /\ sendable (MmsArray pair_new) /\ goose_value (MmsArray pair_new).
Proof.
  assert (apv_ok (mkAsn1PrimitiveValue 2 5 [1; 2; 0; 0; 0])) by (apply small_apv_ok; unfold is_byte; lia).
  assert (apv_ok (mkAsn1PrimitiveValue 1 5 [7; 0; 0; 0; 0])) by (apply small_apv_ok; unfold is_byte; lia).
  split; [done|]. split; [|done]. unfold sendable. split; [done|]. split; [|done].
  cbn [decodable all_components pair_new mms_tag apv_size]. split_and!; try done; try lia; try (by vm_compute);
    unfold element_tags; rewrite !elem_of_cons; tauto.
Qed.

Lemma known_dataSet_updated_witness :
  exists v, parseAllData pair_old (ptr_add [0x85; 1; 7; 0x83; 1; 1] 0) 6 = Some (v, GOOSE_PARSE_ERROR_NO_ERROR) /\
    mms_ok v /\ mms_equals (MmsArray pair_new) v = Some true /\
    forall new, accepts pair_old new -> accepts v new.
Proof.
  destruct pair_ok as (H1 & H2 & _).
  apply (known_dataSet_updated pair_old pair_new [0x85; 1; 7; 0x83; 1; 1] 0 H1); [by cbn | done | by exists [], []].
Defined.

(** C11: a data set that is not known yet is built from the message: the value
    [parseAllDataUnknownValue] allocates is well-formed, compares equal to the
    values sent and has room for the next message of the same kind. The values are such
    as the receiver takes ([goose_value], [sendable]: no null entry, MMS string, data access
    error or empty bit string, array or structure, integers of one to eight octets, floats
    of 32 or 64 bits, clear padding bits); [mmsString_not_received] shows that an MMS string
    is not taken. The fuel is the one the receiver's parser uses, the number of bytes. *)
Theorem unknown_dataSet_built xs buffer pos selfAllocated :
  sendable (MmsArray xs) -> goose_value (MmsArray xs) -> at_pos buffer pos (components_bytes xs) ->
  exists v, parseAllDataUnknownValue (S (Z.to_nat (zlen (components_bytes xs)))) selfAllocated
      (ptr_add buffer pos) (zlen (components_bytes xs)) false = Some (true, Some v) /\
    mms_ok v /\ mms_equals (MmsArray xs) v = Some true /\ accepts v (MmsArray xs).
Proof.
  intros (Hok & Hd & Hc & Hp) Hg Hat. exists (decoded (MmsArray xs)). split; [|split_and!].
  - apply (rebuilds_all (MmsArray xs) Hok Hd Hg); [by apply at_pos_ptr|].
    destruct (mms_depth_components xs) as [-> _]. apply le_n_S. rewrite zlen_to_nat.
    apply components_depth_le; [|by destruct Hd as (_ & _ & ? & _)].
    apply Forall_true. intros [x|]; [exact (depth_le_bytes x) | done].
  - by apply decoded_ok.
  - by apply decoded_equals.
  - by apply accepts_decoded.
Qed.

Lemma unknown_dataSet_built_witness :
  exists v, parseAllDataUnknownValue 7 false (ptr_add [0x85; 1; 7; 0x83; 1; 1] 0) 6 false = Some (true, Some v) /\
    mms_ok v /\ mms_equals (MmsArray pair_new) v = Some true /\ accepts v (MmsArray pair_new).
Proof.
  destruct pair_ok as (_ & H2 & H3).
  apply (unknown_dataSet_built pair_new [0x85; 1; 7; 0x83; 1; 1] 0 false H2 H3). by exists [], [].
Defined.

(** A data set with an MMS string, which the publisher encodes under the tag 0x90, is not
    built: the receiver has no case for the tag. *)
Example mmsString_not_received :
  mms_bytes (MmsString (Some [65; 66; 0]) 2) = [0x90; 2; 65; 66] /\
  parseAllDataUnknownValue 5 false [0x90; 2; 65; 66] 4 false = Some (false, None).
Proof. split; vm_compute; reflexivity. Qed.

(** C12: the counters of the publisher follow the standard: a new state
    increments the state number, restarts the sequence number and stamps the
    time of the change; publishing increments the sequence number; both skip
    zero when they wrap. *)
Theorem publisher_counters self dataSet now :
  publisher_ok self -> dataSet_ok dataSet -> zlen dataSet < 4294967296 ->
  zlen (goose_bytes self dataSet) <= GOOSE_MAX_MESSAGE_SIZE - gp_payloadStart self ->
  0 <= now < 4294967296000 ->
  exists self1 self2 sent, GoosePublisher_increaseStNum self now = Some (self1, now) /\
    gp_stNum self1 = (if gp_stNum self =? 4294967295 then 1 else gp_stNum self + 1) /\ gp_sqNum self1 = 0 /\
    MmsValue_getUtcTimeInMs (gp_timestamp self1) = Some now /\
    GoosePublisher_publish self dataSet = Some (self2, 0, sent) /\
    gp_stNum self2 = gp_stNum self /\
    gp_sqNum self2 = (if gp_sqNum self =? 4294967295 then 1 else gp_sqNum self + 1).
Proof.
  intros Hok Hds Hn Hfit Hnow. destruct (increaseStNum_spec self now Hok) as (self1 & H1 & _ & Hst & Hsq & Hts & _).
  destruct (publish_fits self dataSet Hok Hds Hn Hfit) as (self2 & H2 & (buffer & ->) & _ & _).
  do 3 eexists. split; [done|]. split; [done|]. split; [done|]. split; [rewrite Hts; by apply getUtcTimeInMs_set|].
  split; [done|]. destruct Hok as (_ & _ & _ & _ & _ & _ & _ & _ & Hs & _). destruct self as [b so lf ps pl id cb ds cr st sq tl nc si ts].
  cbn in *. split; [done|]. unfold next_sqNum, is_u32 in *. destruct (Z.eqb_spec sq 4294967295) as [->|Hne]; [done|].
  rewrite u32_small by lia. by if_false.
Qed.

Lemma publisher_counters_witness :
  exists self1 self2 sent, GoosePublisher_increaseStNum demo_publisher 1000 = Some (self1, 1000) /\
    gp_stNum self1 = 2 /\ gp_sqNum self1 = 0 /\ MmsValue_getUtcTimeInMs (gp_timestamp self1) = Some 1000 /\
    GoosePublisher_publish demo_publisher demo_dataSet = Some (self2, 0, sent) /\
    gp_stNum self2 = 1 /\ gp_sqNum self2 = 1.
Proof.
  destruct demo_publisher_ok as [P1 P2], demo_dataSet_ok as (D1 & D2 & D3).
  apply (publisher_counters demo_publisher demo_dataSet 1000 P1 D1); [by vm_compute | by vm_compute | lia].
Defined.

(** C26: [GooseReceiver_stop] is a barrier, however its statements interleave
    with those of the receiver thread. When it has returned, the thread has ended
    and calls no listener any more, and [GooseReceiver_destroy] does not join the
    thread again; while it waits every statement of the loop brings the loop
    nearer to its end, and it can return. *)
Theorem stop_is_barrier self t :
  gr_stop self = false -> rtc step (started self) t ->
  (th_main t = M_returned ->
     (forall e t', ~ loop_step t e t') /\ destroy_stops (th_receiver t) = false /\
     GooseReceiver_isRunning (th_receiver t) = false) /\
  (th_main t = M_join ->
     (forall e t', loop_step t e t' -> (loop_left (th_loop t') < loop_left (th_loop t))%nat) /\
     (receiver_ok (th_receiver t) -> exists t', rtc step t t' /\ th_main t' = M_returned)).
Proof.
  intros Hs Hr. pose proof (stop_inv_reachable self t Hs Hr) as Hinv. pose proof Hinv as [Hth Hflags].
  split; intros Hm; rewrite Hm in Hflags.
  - destruct Hflags as [Hd Hrun]. unfold destroy_stops, GooseReceiver_isRunning. rewrite Hrun, andb_false_r.
    split; [|done]. intros e t'. by apply done_no_step.
  - destruct Hflags as [Hstop Hrun]. split; [|by apply stop_returns].
    intros e t'. by apply loop_decreases.
Qed.

(** a fresh receiver, its thread waiting, the application joining it *)
Definition joining : Threads :=
  mkThreads (with_running (with_stop (GooseReceiver_start GooseReceiver_create true true).1 true) false) L_wait M_join.

Lemma stop_is_barrier_witness :
  (forall e t', loop_step joining e t' -> (loop_left (th_loop t') < loop_left (th_loop joining))%nat) /\
  exists t', rtc step joining t' /\ th_main t' = M_returned.
Proof.
  destruct (stop_is_barrier GooseReceiver_create joining) as [_ H]; [reflexivity | |].
  - eapply rtc_l; [apply step_stop, step_call|]. eapply rtc_l; [apply step_stop, step_setStop|].
    apply rtc_once, step_stop, step_setRunning.
  - destruct (H eq_refl) as [H1 H2]. split; [exact H1|]. apply H2.
    unfold receiver_ok. split; [constructor|]. split; [by apply Forall_replicate | reflexivity].
Defined.
