(* ===== verification/SubstationProperties.v ===== *)
(** What the protection IED, the breaker IED and the substation made of both
    promise. *)

From Stdlib Require Import String.
From S2P Require Import Prelude BerEncoder BerDecoder BerInteger StringUtils CText CFloat MmsValue MmsFacts MmsData GoosePublisher GooseSubscriber GooseReceiver GooseSafety GooseDataSet GooseRoundtrip ProtectionIed BreakerIed Substation.
Open Scope Z_scope.

(** * The substation *)

(** C1: the decision of the protection IED reaches the breaker: from the start of
    both programs, over any sequence of inputs (measurements that are floats, flags that
    are ints), of lost frames and of failing system calls, both run on, and the shared file
    of the breaker has the line with the trip and close commands, fault data and
    measurements that the protection logic computed in the last turn whose frame arrived
    and whose file operations succeeded (the file from the start when there was none). The
    line is what fits the breaker's text buffer: its first 127 characters. Every call of
    [write] answers, with no more bytes than it was given. *)
Theorem trip_reaches_breaker srcAddr now interface shared uidEnv gidEnv turns :
  zlen srcAddr = 6 -> env_ok interface -> env_ok uidEnv -> env_ok gidEnv -> Forall turn_ok turns ->
  exists sb sb' displays, substation_setup srcAddr now interface shared uidEnv gidEnv = Some (Some sb) /\
    substation_run sb turns = Some (sb', displays) /\
    match last_shown turns None with
    | None => br_shared (sb_breaker sb') = shared
    | Some t => exists f, br_shared (sb_breaker sb') = Some f /\
        f_content f = take 127 (command_text (command_of (protect (read_gui (tu_input t)))))
    end.
Proof.
  intros Hs Hi Hu Hg Ht.
  destruct (substation_setup_ok srcAddr now interface shared uidEnv gidEnv Hs Hi Hu Hg) as (sb & sub & Hset & Hok & _ & Hsh).
  destruct (substation_run_spec srcAddr shared turns sb sub None Hok Ht Hsh) as (sb' & displays & sub' & Hrun & _ & Hf).
  by exists sb, sb', displays.
Qed.

(** an over-current input, with system calls that succeed *)
Definition demo_input : option (list Z) := Some [0; 0; 0; 50; float_of_Z 4000; float_of_Z 10500; float_of_Z 50].
Definition demo_calls : SystemCalls :=
  mkSystemCalls true 0 0 true true [Interrupted; Wrote 5; Wrote 21] true true true.
Definition demo_turn : Turn := mkTurn demo_input 1000 false demo_calls.

Lemma demo_input_ok : input_ok demo_input.
Proof.
  intros i x. do 7 (destruct i as [|i]; [intros [= <-]; vm_compute; split; congruence|]). done.
Qed.

(** the same input, with a disk that is full after five bytes *)
Definition demo_full_turn : Turn :=
  mkTurn demo_input 2000 false (mkSystemCalls true 0 0 true true [Wrote 5; WriteFailed] true true true).

Lemma demo_turn_ok : turn_ok demo_turn.
Proof.
  split; [apply demo_input_ok|]. intros _.
  change (zlen (shared_line (command_of (turn_values demo_turn)))) with 26.
  unfold calls_answered. cbn. split_and!; (done || lia).
Qed.

Lemma demo_full_turn_ok : turn_ok demo_full_turn.
Proof.
  split; [apply demo_input_ok|]. intros _.
  change (zlen (shared_line (command_of (turn_values demo_full_turn)))) with 26.
  unfold calls_answered. cbn. split_and!; (done || lia).
Qed.

Lemma trip_reaches_breaker_witness :
  exists sb sb' displays, substation_setup [2; 0; 0; 0; 0; 9] 0 None None None None = Some (Some sb) /\
    substation_run sb [demo_turn; demo_full_turn] = Some (sb', displays) /\
    exists f, br_shared (sb_breaker sb') = Some f /\
      f_content f = take 127 (command_text (command_of (protect (read_gui demo_input)))).
Proof.
  apply (trip_reaches_breaker [2; 0; 0; 0; 0; 9] 0 None None None None [demo_turn; demo_full_turn]); try done.
  apply List.Forall_cons; [apply demo_turn_ok|]. apply List.Forall_cons; [apply demo_full_turn_ok | apply List.Forall_nil].
Defined.

(** C4: no false alarms: as long as the counters have not wrapped, every message
    that arrives is shown as valid, whatever was lost in between. *)
Theorem messages_stay_valid srcAddr now interface shared uidEnv gidEnv turns :
  zlen srcAddr = 6 -> env_ok interface -> env_ok uidEnv -> env_ok gidEnv ->
  Forall (fun t => turn_ok t /\ 0 <= tu_now t < 9223372036854775808) turns -> zlen turns <= 4294967294 ->
  exists sb sb' displays, substation_setup srcAddr now interface shared uidEnv gidEnv = Some (Some sb) /\
    substation_run sb turns = Some (sb', displays) /\
    Forall2 (fun t display => if tu_lost t then display = None
                              else exists d, display = Some d /\ di_valid d = true) turns displays.
Proof.
  intros Hs Hi Hu Hg Ht Hn.
  destruct (substation_setup_ok srcAddr now interface shared uidEnv gidEnv Hs Hi Hu Hg) as (sb & sub & Hset & Hok & Hfr & _).
  destruct (substation_run_valid srcAddr turns 0 sb sub Hok Hfr ltac:(lia) Ht) as (sb' & displays & Hrun & HF).
  by exists sb, sb', displays.
Qed.

Lemma messages_stay_valid_witness :
  exists sb sb' displays, substation_setup [2; 0; 0; 0; 0; 9] 0 None None None None = Some (Some sb) /\
    substation_run sb [demo_turn] = Some (sb', displays) /\
    Forall2 (fun t display => if tu_lost t then display = None
                              else exists d, display = Some d /\ di_valid d = true) [demo_turn] displays.
Proof.
  apply (messages_stay_valid [2; 0; 0; 0; 0; 9] 0 None None None None [demo_turn]); try done.
  apply List.Forall_cons; [split; [apply demo_turn_ok | cbn; lia] | apply List.Forall_nil].
Defined.

(** the heartbeat is slower than the messages live: in a turn without a
    change the protection IED sleeps a second, while the message it sent allows
    half a second, so the breaker's subscriber turns invalid before the next
    message of an undisturbed system. *)
Theorem heartbeat_outlives_message src st input now receiver sub :
  ied_ok src (ied_publisher st) -> input_ok input -> breaker_ok receiver sub ->
  state_changes st (protect (read_gui input)) = false -> 0 <= now < 9223372036854775808 ->
  exists st' frame receiver' sub', ied_step st input now = Some (st', Some frame, 1000) /\
    GooseReceiver_tick receiver frame now = Some (receiver', true, Some 0%nat) /\
    gr_subscriberList receiver' = [sub'] /\
    forall t, now + 500 < t -> GooseSubscriber_isValid sub' t = false.
Proof.
  intros Hied Hin Hbr Hch Hnow.
  destruct (ied_step_spec src st input now Hied Hin) as (self & dataSet & st' & Hstep & Hself & Hs & Ha & _).
  destruct (breaker_tick src self _ dataSet receiver sub now Hself Hs Ha Hbr) as (receiver' & sub' & Htick & Hbr' & Hdel & _).
  rewrite Hch in Hstep. eexists st', _, receiver', sub'. split; [done|]. split; [done|].
  split; [by destruct Hbr'|]. intros t Ht. unfold GooseSubscriber_isValid.
  destruct Hdel as (_ & _ & _ & _ & _ & _ & _ & Hinv & _). destruct Hself as (_ & _ & _ & _ & _ & _ & _ & Httl).
  rewrite Hinv, Httl. unfold u64. rewrite Z.mod_small by lia. destruct (negb _); [done|]. by if_true.
Qed.

Lemma demo_setup :
  exists st receiver sub, ied_setup [2; 0; 0; 0; 0; 9] true 0 = Some (Some st) /\
    ied_ok [2; 0; 0; 0; 0; 9] (ied_publisher st) /\ ied_first_publish st = true /\ gp_stNum (ied_publisher st) = 1 /\
    breaker_setup None = Some receiver /\ breaker_ok receiver sub.
Proof.
  destruct (ied_setup_ok [2; 0; 0; 0; 0; 9] 0 eq_refl) as (st & H1 & H2 & H3 & H4 & _).
  destruct (breaker_setup_ok None) as (receiver & sub & H5 & H6 & _).
  { apply elem_of_app. right. by apply list_elem_of_singleton. }
  exists st, receiver, sub. done.
Qed.

Lemma heartbeat_outlives_message_witness :
  exists st receiver st' frame receiver' sub', ied_step st demo_input 7 = Some (st', Some frame, 1000) /\
    GooseReceiver_tick receiver frame 7 = Some (receiver', true, Some 0%nat) /\
    gr_subscriberList receiver' = [sub'] /\
    forall t, 7 + 500 < t -> GooseSubscriber_isValid sub' t = false.
Proof.
  destruct demo_setup as (st & receiver & sub & _ & H2 & H3 & _ & _ & H6). exists st, receiver.
  apply (heartbeat_outlives_message [2; 0; 0; 0; 0; 9] st demo_input 7 receiver sub H2 demo_input_ok H6);
    [unfold state_changes; rewrite H3; reflexivity | lia].
Defined.

(** * The protection IED *)

(** the trip decision: the trip flag that is published is set exactly when a
    measurement is outside its band, a fault type was entered, or a trip was
    entered by hand; measurements and the close command pass through. *)
Theorem trip_decision s :
  negb (sn_trip (protect s) =? 0)
  = above (sn_current s) 3500 || (below (sn_voltage s) 8000 || above (sn_voltage s) 14000) ||
    (below (sn_freq s) 49 || above (sn_freq s) 51) || (0 <? sn_fault_type s) || negb (sn_trip s =? 0) /\
  sn_close (protect s) = sn_close s /\ sn_current (protect s) = sn_current s /\
  sn_voltage (protect s) = sn_voltage s /\ sn_freq (protect s) = sn_freq s.
Proof. split; [apply protect_trip | apply protect_measurements]. Qed.

(** The classification of a fault: an entered fault type wins over the
    frequency, the frequency over the voltage, the voltage over the current; the
    reported protection element follows the same order, except that an entered
    fault type other than 2 and 3 keeps the element of the measurements. *)
Theorem fault_classification s :
  let freq_out := below (sn_freq s) 49 || above (sn_freq s) 51 in
  let volt_out := below (sn_voltage s) 8000 || above (sn_voltage s) 14000 in
  let over_current := above (sn_current s) 3500 in
  sn_fault_type (protect s)
  = (if 0 <? sn_fault_type s then sn_fault_type s
     else if freq_out then 3 else if volt_out then 2 else if over_current then 1 else sn_fault_type s) /\
  sn_prot_elem (protect s)
  = (if sn_fault_type s =? 2 then 87 else if sn_fault_type s =? 3 then 21
     else if freq_out then 81
     else if volt_out then (if below (sn_voltage s) 8000 then 27 else 59)
     else if over_current || (0 <? sn_fault_type s) then 50 else sn_prot_elem s).
Proof.
  destruct s as [trip close fault elem current voltage freq]. unfold protect, protection_logic.
  cbn [sn_fault_type sn_prot_elem sn_freq sn_voltage sn_current].
  destruct (above current 3500), (below voltage 8000 || above voltage 14000), (below freq 49 || above freq 51);
    destruct (Z.ltb_spec 0 fault); cbn [sn_fault_type sn_prot_elem orb];
    split; try done; repeat btest; done.
Qed.

(** the numbering of the messages: in every turn after the first, a change of
    the values is announced with the next state number, sequence number zero and
    a retransmission after 4 ms; without a change the state number stays and the
    sequence number counts on. The set-up of the publisher is kept. *)
Theorem turn_numbering src st input now :
  ied_ok src (ied_publisher st) -> input_ok input -> ied_first_publish st = false ->
  let s := protect (read_gui input) in let changed := differs s (ied_prev st) in
  exists st' frame, ied_step st input now = Some (st', Some frame, if changed then 4 else 1000) /\
    ied_ok src (ied_publisher st') /\ ied_prev st' = s /\
    (gp_stNum (ied_publisher st'), gp_sqNum (ied_publisher st'))
    = if changed
      then (if gp_stNum (ied_publisher st) =? 4294967295 then 1 else gp_stNum (ied_publisher st) + 1, 1)
      else (gp_stNum (ied_publisher st), next_sqNum (gp_sqNum (ied_publisher st))).
Proof.
  intros Hied Hin Hfirst s changed.
  destruct (ied_step_spec src st input now Hied Hin)
    as (self & dataSet & st' & Hstep & _ & _ & _ & Hnum & Hied' & Hprev & _ & Hst & Hsq).
  unfold state_changes in Hstep, Hnum. rewrite Hfirst in Hstep, Hnum. cbn [negb andb] in Hstep, Hnum.
  fold s in Hstep, Hnum, Hprev. fold changed in Hstep, Hnum.
  eexists st', _. split; [done|]. split; [done|]. split; [done|]. rewrite Hst, Hsq.
  unfold turn_numbers in Hnum. destruct changed; injection Hnum as -> ->; done.
Qed.

Lemma demo_second :
  exists st, ied_ok [2; 0; 0; 0; 0; 9] (ied_publisher st) /\ ied_first_publish st = false /\
    ied_prev st = protect (read_gui None).
Proof.
  destruct demo_setup as (st & _ & _ & _ & H2 & _).
  destruct (ied_step_spec [2; 0; 0; 0; 0; 9] st None 5 H2) as (self & dataSet & st' & _ & _ & _ & _ & _ & Hok & Hp & Hf & _).
  { intros i x. cbn. by rewrite lookup_nil. }
  exists st'. split; [exact Hok|]. split; [exact Hf | exact Hp].
Qed.

Lemma turn_numbering_witness :
  exists st st' frame, ied_step st demo_input 9 = Some (st', Some frame, 4) /\
    ied_ok [2; 0; 0; 0; 0; 9] (ied_publisher st') /\ ied_prev st' = protect (read_gui demo_input) /\
    (gp_stNum (ied_publisher st'), gp_sqNum (ied_publisher st'))
    = (if gp_stNum (ied_publisher st) =? 4294967295 then 1 else gp_stNum (ied_publisher st) + 1, 1).
Proof.
  destruct demo_second as (st & H1 & H2 & H3). exists st.
  pose proof (turn_numbering [2; 0; 0; 0; 0; 9] st demo_input 9 H1 demo_input_ok H2) as H. cbv zeta in H.
  rewrite H3 in H. change (differs (protect (read_gui demo_input)) (protect (read_gui None))) with true in H. exact H.
Defined.

(** A current that is not a number never trips the over-current function and
    floods the network: every turn counts as a change, even when the input is
    the same, so the state number grows with every message, 4 ms apart. *)
Theorem nan_floods src st input now :
  ied_ok src (ied_publisher st) -> input_ok input -> ied_first_publish st = false ->
  is_nan binary32 (sn_current (read_gui input)) = true ->
  above (sn_current (read_gui input)) 3500 = false /\
  exists st' frame, ied_step st input now = Some (st', Some frame, 4) /\
    gp_stNum (ied_publisher st') = (if gp_stNum (ied_publisher st) =? 4294967295 then 1 else gp_stNum (ied_publisher st) + 1) /\
    ied_first_publish st' = false.
Proof.
  intros Hied Hin Hfirst Hnan. split; [by apply above_nan|].
  destruct (ied_step_spec src st input now Hied Hin)
    as (self & dataSet & st' & Hstep & _ & _ & _ & Hnum & _ & _ & Hf & Hst & _).
  assert (state_changes st (protect (read_gui input)) = true) as Hch.
  { unfold state_changes, differs. rewrite Hfirst. destruct (protect_measurements (read_gui input)) as (_ & -> & _).
    rewrite (float_ne_nan (sn_current (read_gui input))) by done. by rewrite orb_true_r. }
  rewrite Hch in *. eexists st', _. split; [done|]. split; [|done]. rewrite Hst.
  unfold turn_numbers in Hnum. by injection Hnum as -> _.
Qed.

Definition nan_input : option (list Z) := Some [0; 0; 0; 50; 0x7fc00000].

Lemma nan_floods_witness :
  exists st st' frame, above 0x7fc00000 3500 = false /\ ied_step st nan_input 9 = Some (st', Some frame, 4) /\
    gp_stNum (ied_publisher st') = (if gp_stNum (ied_publisher st) =? 4294967295 then 1 else gp_stNum (ied_publisher st) + 1) /\
    ied_first_publish st' = false.
Proof.
  destruct demo_second as (st & H1 & H2 & _). exists st.
  destruct (nan_floods [2; 0; 0; 0; 0; 9] st nan_input 9 H1) as (Ha & st' & frame & H); [|done|reflexivity|].
  - intros i x. do 5 (destruct i as [|i]; [intros [= <-]; vm_compute; split; congruence|]). done.
  - by exists st', frame.
Defined.

(** * The breaker IED *)

(** C23: the shared file is replaced as a whole: whichever system calls fail or
    are interrupted, a reader finds the old file or the complete new line, never
    a part of it, provided [write] takes no more bytes than it is given. *)
Theorem shared_file_atomic o shared c sys o' shared' :
  writes_ok (sc_writes sys) (zlen (shared_line c)) ->
  writeSharedDataset o shared c sys = Some (o', shared') ->
  shared' = shared \/ exists f, shared' = Some f /\ f_content f = shared_line c.
Proof. apply writeSharedDataset_atomic. Qed.

Definition demo_command : Command := mkCommand true false 1 50 (float_of_Z 4000) (float_of_Z 10500) (float_of_Z 50).

Lemma shared_file_atomic_witness :
  let sys := mkSystemCalls true 0 0 true true [Wrote 5; WriteFailed] true true true in
  exists o' shared', writeSharedDataset initialOwnership None demo_command sys = Some (o', shared') /\
    (shared' = None \/ exists f, shared' = Some f /\ f_content f = shared_line demo_command).
Proof.
  intros sys. exists initialOwnership, None. split; [reflexivity|].
  apply (shared_file_atomic initialOwnership None demo_command sys initialOwnership None); [vm_compute; split; [split; congruence | done] | reflexivity].
Defined.

(** The line is complete, and made of printing characters, when the
    magnitudes of the measurements are below 2^64. *)
Theorem shared_line_complete c :
  is_s32 (faultType c) -> is_s32 (protElement c) ->
  moderate (float_to_double (faultCurrent c)) = true -> moderate (float_to_double (faultVoltage c)) = true ->
  moderate (float_to_double (frequency c)) = true ->
  shared_line c = command_text c /\ Forall printed (shared_line c).
Proof.
  intros H1 H2 H3 H4 H5. pose proof (command_text_length c H1 H2 H3 H4 H5) as Hz.
  assert (shared_line c = command_text c) as E by (apply take_ge; unfold zlen in Hz; lia).
  split; [done|]. rewrite E. apply command_text_printed.
Qed.

Lemma shared_line_complete_witness :
  shared_line demo_command = command_text demo_command /\ Forall printed (shared_line demo_command).
Proof.
  apply (shared_line_complete demo_command); (reflexivity || (vm_compute; split; congruence)).
Defined.

(** The line is cut for larger finite measurements: the buffer of 128 bytes
    is too small for three of the largest [float]s, and the cut line, which ends
    inside the frequency, is what gets written. *)
Theorem shared_line_cut :
  let c := mkCommand true false 0 0 0xff7fffff 0xff7fffff 0x7f7fffff in
  zlen (command_text c) = 133 /\ zlen (shared_line c) = 127 /\ command_text c <> shared_line c.
Proof. vm_compute. split; [done|]. split; [done|]. discriminate. Qed.

(** the state of a subscriber whose last message is not valid *)
Definition invalidated (m : MessageState) : MessageState :=
  let 'mkMessageState ttl st sq cr ts si nc inv _ pe d sa := m in mkMessageState ttl st sq cr ts si nc inv false pe d sa.

(** The breaker acts on invalid messages: what the listener writes to the
    shared file does not depend on the validity of the message, which it only
    displays. *)
Theorem listener_ignores_validity b s now sys :
  (fst <$> gooseListener b (with_message s (invalidated (gs_message s))) now sys) = (fst <$> gooseListener b s now sys).
Proof.
  destruct s as [cb ds id n [ttl st sq cr ts si nc inv va pe d sa] l o li], b as [ow shared uidEnv gidEnv].
  unfold gooseListener, GooseSubscriber_getTimestamp, GooseSubscriber_getDataSetValues.
  cbn [with_message invalidated gs_message ms_timestamp ms_dataSetValues].
  destruct (initFileOwnership _ _ _ _); cbn [mbind option_bind]; [|done].
  destruct (MmsValue_getUtcTimeInMs ts); cbn [mbind option_bind]; [|done].
  destruct d as [d|]; [|done]. destruct (MmsValue_getArraySize d); cbn [mbind option_bind]; [|done].
  destruct (7 <=? _); [|done]. destruct (read_command d); cbn [mbind option_bind]; [|done].
  by destruct (writeSharedDataset _ _ _ _) as [[? ?]|].
Qed.

(** a first message for the breaker whose last data set entry is a
    floating point value of one byte *)
Definition crafted_frame : list Z :=
  ied_dstAddress ++ [2; 0; 0; 0; 0; 9; 0x88; 0xb8; 3; 232; 0; 97; 0; 0; 0; 0] ++
  [0x61; 87] ++ (0x80 :: 41 :: c_string goCbRef_literal) ++ [0x84; 8; 0; 0; 0; 0; 0; 0; 0; 0; 0x85; 1; 1] ++
  [0xab; 29; 0x83; 1; 1; 0x83; 1; 0; 0x85; 1; 0; 0x85; 1; 50;
   0x87; 5; 8; 0; 0; 0; 0; 0x87; 5; 8; 0; 0; 0; 0; 0x87; 1; 8].

(** C25: one crafted message crashes the breaker IED: the receiver accepts it and
    calls the listener with a data set of seven elements, the last of which is
    the null pointer the listener dereferences. *)
Theorem crafted_message_crashes :
  exists receiver, breaker_setup None = Some receiver /\
    (exists receiver', GooseReceiver_tick receiver crafted_frame 1000 = Some (receiver', true, Some 0%nat)) /\
    forall shared sys, breaker_receive receiver (mkBreaker initialOwnership shared None None) crafted_frame 1000 sys = None.
Proof.
  destruct (breaker_setup None) as [receiver|] eqn:E; [|vm_compute in E; discriminate E].
  exists receiver. split; [done|]. vm_compute in E. injection E as <-. split.
  - destruct (GooseReceiver_tick _ crafted_frame 1000) as [[[r b] n]|] eqn:T; vm_compute in T; [|discriminate T].
    injection T as <- <- <-. by eexists.
  - intros shared sys. by vm_compute.
Qed.
