(* ===== verification/CotpProperties.v ===== *)
(** What the transport layer promises: messages arrive as they were sent, the
    handshake agrees on the options, and arbitrary bytes from the network are
    harmless; with the packets for which it keeps none of this. *)

From S2P Require Import Prelude BerEncoder BerDecoder CText BerOid ByteBuffer IsoParameters Cotp CotpSend CotpReceive CotpConnect.
Open Scope Z_scope.

(** C14: a message sent over a connection whose socket takes what it is given
    leaves as packets of the agreed size, and a receiver that gets these packets,
    in whatever pieces, indicates exactly the bytes of the message and leaves what
    follows them; with one turn per byte that is to arrive it does so for sure. *)
Theorem cotp_transfer sender payload :
  cotp_ok sender -> chain_ok payload -> is_Some (ct_socketExtensionBuffer sender) -> sends_well sender ->
  extension_room sender (zlen (message_packets sender (chain_bytes payload))) ->
  exists sender' p, CotpConnection_sendDataMessage sender payload = Some (COTP_OK, sender') /\
    tx_stream sender' = tx_stream sender ++ p /\
    forall receiver tail fuel, rx_ready receiver (CotpConnection_getTpduSize sender) (bc_length payload) ->
      sk_arriving (ct_socket receiver) = p ++ tail ->
      exists r receiver', receive_message fuel receiver = Some (r, receiver') /\
        (r = Pending \/ r = Delivered COTP_DATA_INDICATION /\ received receiver' (chain_bytes payload) tail) /\
        (positive (sk_recvResults (ct_socket receiver)) -> (4 * fuel <= length (sk_recvResults (ct_socket receiver)))%nat ->
         8 * bc_length payload <= Z.of_nat fuel -> r = Delivered COTP_DATA_INDICATION).
Proof.
  intros Hok Hch Hi Hw Hroom. destruct (chain_ok_length _ Hch) as [Hlen Hpos].
  destruct (sendDataMessage_spec sender payload Hok Hch) as (ind & sender' & Hs & _ & _ & _ & (p & _ & Hst & Hp) & Hall).
  rewrite (Hall Hi Hw Hroom) in *. rewrite (Hp eq_refl) in Hst. exists sender', (message_packets sender (chain_bytes payload)).
  split; [done|]. split; [done|]. intros receiver tail fuel Hready Har. rewrite Hlen in Hready |- *.
  destruct (packets_pending sender receiver (chain_bytes payload) tail) as [Hpend Hz]; [apply Hok | lia | done | done|].
  destruct (receive_message_spec fuel receiver _ _ _ _ _ _ Hpend) as (r & receiver' & Hr & Hres & Hlive).
  exists r, receiver'. split; [done|]. split; [exact Hres|]. intros Hpo Hl Hf. apply Hlive; try done. rewrite Har, zlen_app. lia.
Qed.

(** a connection as [CotpConnection_init] makes it *)
Definition example_connection (socket : Socket) (tpduSize : Z) : CotpConnection :=
  let buffer := ByteBuffer_wrap (replicate 300 0) 0 300 in
  let tsel := mkTSelector 2 [0; 1; 0; 0] in
  mkCotpConnection (-1) 1 (-1) socket (mkCotpOptions tsel tsel tpduSize) false buffer (Some buffer) buffer 0 (Some (replicate 500 0)) 500 0.

Lemma example_connection_init socket :
  let buffer := ByteBuffer_wrap (replicate 300 0) 0 300 in
  CotpConnection_init socket buffer buffer (Some buffer) (Some (replicate 500 0)) 500 = Some (example_connection socket 13).
Proof. reflexivity. Qed.

Lemma cotp_transfer_witness :
  let payload := BufferChain_init 10 10 None [1; 2; 3; 4; 5; 6; 7; 8; 9; 10] in
  let sender := example_connection (mkSocket [] [5; 0; 100] [] []) 3 in
  exists sender' p, CotpConnection_sendDataMessage sender payload = Some (COTP_OK, sender') /\
    tx_stream sender' = tx_stream sender ++ p /\
    forall receiver tail fuel, rx_ready receiver (CotpConnection_getTpduSize sender) (bc_length payload) ->
      sk_arriving (ct_socket receiver) = p ++ tail ->
      exists r receiver', receive_message fuel receiver = Some (r, receiver') /\
        (r = Pending \/ r = Delivered COTP_DATA_INDICATION /\ received receiver' (chain_bytes payload) tail) /\
        (positive (sk_recvResults (ct_socket receiver)) -> (4 * fuel <= length (sk_recvResults (ct_socket receiver)))%nat ->
         8 * bc_length payload <= Z.of_nat fuel -> r = Delivered COTP_DATA_INDICATION).
Proof.
  apply cotp_transfer.
  - split; [cbn; lia|]. split; [vm_compute; repeat split; congruence|]. eexists. split; [reflexivity|]. vm_compute. repeat split; congruence.
  - vm_compute. repeat split; congruence.
  - by eexists.
  - repeat constructor; lia.
  - vm_compute. congruence.
Defined.

(** A message of ten bytes in packets of at most five, that arrives three bytes at a time. *)
Example cotp_transfer_example :
  let payload := BufferChain_init 10 10 None [1; 2; 3; 4; 5; 6; 7; 8; 9; 10] in
  match CotpConnection_sendDataMessage (example_connection (mkSocket [] [100; 100; 100] [] []) 3) payload with
  | Some (COTP_OK, sender) =>
      (fun r => byteBuffer_bytes (ct_payload (snd r))) <$>
        receive_message 80 (example_connection (mkSocket [] [] (sk_sent (ct_socket sender)) (replicate 320 3)) 3)
  | _ => None
  end = Some [1; 2; 3; 4; 5; 6; 7; 8; 9; 10].
Proof. vm_compute. reflexivity. Qed.

(** A packet lies in the read buffer. *)
Definition holds_packet (self : CotpConnection) (packet : list Z) : Prop :=
  holds (bb_buffer (ct_readBuffer self)) packet /\ bb_size (ct_readBuffer self) = zlen packet.

Lemma after_connect_ready self remoteRef class o :
  connect_ready self -> connect_ready (after_connect self remoteRef class o).
Proof. destruct self. intros ((wb & H) & ?). split; [by exists wb | done]. Qed.

(** the handshake. The request of a client that can send names its
    reference and its options; the server that reads it has them then, and its
    response is read by the client: both agree on the size of the packets. What
    the client keeps as the reference of its peer is its own. *)
Theorem cotp_handshake client p :
  connect_ready client -> options_present (request_options client p) ->
  exists client1 request, CotpConnection_sendConnectionRequestMessage client p = Some (COTP_OK, client1) /\
    tx_stream client1 = tx_stream client ++ request /\
    forall server, connect_ready server -> options_ok (ct_options server) -> holds_packet server request ->
    exists server1 server2 answer, CotpConnection_parseIncomingMessage server = Some (COTP_CONNECT_INDICATION, server1) /\
      CotpConnection_sendConnectionResponseMessage server1 = Some (COTP_OK, server2) /\
      CotpConnection_getRemoteRef server2 = CotpConnection_getLocalRef client /\
      same_options (request_options client p) (ct_options server2) /\ tx_stream server2 = tx_stream server ++ answer /\
      forall client2, ct_options client2 = ct_options client1 -> holds_packet client2 answer ->
      exists client3, CotpConnection_parseIncomingMessage client2 = Some (COTP_CONNECT_INDICATION, client3) /\
        CotpConnection_getTpduSize client3 = CotpConnection_getTpduSize server2 /\
        CotpConnection_getRemoteRef client3 = CotpConnection_getLocalRef client.
Proof.
  intros Hc Hp. destruct (sendConnectionRequest_spec client p Hc (proj1 Hp)) as (client1 & Hreq & Hf1 & Hst1).
  exists client1. eexists. split; [exact Hreq|]. split; [exact Hst1|]. intros server Hs Hso [Hh Hsz].
  assert (0 <= ct_localRef client < 65536) as Hr by apply Hc.
  destruct (parse_connect_packet server 0xe0 0 (ct_localRef client) 0 (request_options client p)) as (o & Hparse & Hsame & Ho); [by left | lia | done | done | done | done | done|].
  cbv [Z.eqb Pos.eqb] in Hparse. set (server1 := after_connect _ _ _ _) in Hparse.
  destruct (sendConnectionResponse_spec server1) as (server2 & Hresp & Hf2 & Hst2).
  { by apply after_connect_ready. } { unfold server1. by destruct server. } { unfold server1. destruct server. cbn. lia. } { unfold server1. destruct server. cbn. lia. }
  assert (ct_options server2 = o) as Ho2 by (rewrite (tf_options _ _ Hf2); unfold server1; by destruct server).
  exists server1, server2, (connect_packet 0xd0 (ct_remoteRef server1) (ct_localRef server1) (ct_protocolClass server1) (ct_options server1)).
  split; [exact Hparse|]. split; [exact Hresp|].
  split; [unfold CotpConnection_getRemoteRef; rewrite (tf_remoteRef _ _ Hf2); unfold server1; by destruct server|].
  split; [by rewrite Ho2|]. split; [rewrite Hst2; f_equal; unfold server1; by destruct server|].
  intros client2 Hco [Hh2 Hsz2]. pose proof (tf_options _ _ Hf1) as Ho1. rewrite ct_options_with in Ho1.
  assert (0 <= ct_localRef server1 < 65536) as Hr1 by (pose proof (after_connect_ready server (ct_localRef client) 0 o Hs) as Hcr; apply Hcr).
  assert (ct_options server1 = o) as Hos1 by (unfold server1; by destruct server). rewrite Hos1 in *.
  assert (ct_remoteRef server1 = ct_localRef client) as Hrr by (unfold server1; by destruct server). rewrite Hrr in *.
  destruct (parse_connect_packet client2 0xd0 (ct_localRef client) (ct_localRef server1) (ct_protocolClass server1) o)
    as (o3 & Hparse3 & Hsame3 & Ho3); [by right | done | done | done | done | rewrite Hco, Ho1; apply Hp | |].
  { destruct Hp as (_ & H1 & H2 & H3). destruct Hsame as (E1 & E2 & _ & E3 & _). split; [done|]. rewrite E1, E2, E3. done. }
  eexists. split; [exact Hparse3|]. split; [|cbv [Z.eqb Pos.eqb]; by destruct client2].
  unfold CotpConnection_getTpduSize. rewrite Ho2. replace (ct_options (after_connect client2 _ _ o3)) with o3 by (by destruct client2).
  by rewrite (proj1 Hsame3).
Qed.

Lemma cotp_handshake_witness :
  let client := example_connection (mkSocket [] [100] [] []) 13 in
  let tsel := mkTSelector 2 [0; 1; 0; 0] in
  let side := mkIsoAddress (replicate 10 0) 0 0 (mkPSelector 0 (replicate 16 0)) (mkSSelector 0 (replicate 16 0)) tsel in
  let p := mkIsoConnectionParameters None None 102 None 0 side side in
  exists client1 request, CotpConnection_sendConnectionRequestMessage client p = Some (COTP_OK, client1) /\
    tx_stream client1 = tx_stream client ++ request /\
    forall server, connect_ready server -> options_ok (ct_options server) -> holds_packet server request ->
    exists server1 server2 answer, CotpConnection_parseIncomingMessage server = Some (COTP_CONNECT_INDICATION, server1) /\
      CotpConnection_sendConnectionResponseMessage server1 = Some (COTP_OK, server2) /\
      CotpConnection_getRemoteRef server2 = CotpConnection_getLocalRef client /\
      same_options (request_options client p) (ct_options server2) /\ tx_stream server2 = tx_stream server ++ answer /\
      forall client2, ct_options client2 = ct_options client1 -> holds_packet client2 answer ->
      exists client3, CotpConnection_parseIncomingMessage client2 = Some (COTP_CONNECT_INDICATION, client3) /\
        CotpConnection_getTpduSize client3 = CotpConnection_getTpduSize server2 /\
        CotpConnection_getRemoteRef client3 = CotpConnection_getLocalRef client.
Proof.
  intros client tsel side p. apply (cotp_handshake client p).
  - split; [|split; [|split; [|split; [|split]]]].
    + eexists. split; [reflexivity|]. vm_compute. split; congruence.
    + vm_compute. repeat split; congruence.
    + vm_compute. congruence.
    + by eexists.
    + repeat constructor; lia.
    + cbn. lia.
  - assert (selector_ok tsel) by (split; [done|]; split; [bytes_concrete | cbn; lia]).
    unfold options_present, options_ok. cbn. split_and!; try done; lia.
Defined.

(** C21: whatever bytes arrive, in whatever pieces and with whatever errors of the
    socket, reading a packet and parsing it keep to the buffers of the connection
    (with a read buffer of at least 261 bytes, [rx_safe]) and keep the connection usable;
    the exception are the connect requests and connect
    confirms in whose options the parser comes to a TPDU size option with an exponent of
    31 or more, where it shifts a one out of an [int]. *)
Theorem cotp_receive_safe self :
  rx_safe self ->
  exists state self', CotpConnection_readToTpktBuffer self = Some (state, self') /\ rx_safe self' /\
    (state = TPKT_PACKET_COMPLETE ->
     (exists b, packet_asks_size self' b /\ 31 <= b /\ CotpConnection_parseIncomingMessage self' = None) \/
     (exists indication self'', CotpConnection_parseIncomingMessage self' = Some (indication, self'') /\ rx_safe self'' /\
        bb_size (ct_readBuffer self'') = 0)).
Proof.
  intros Hs. destruct (readToTpktBuffer_total self Hs) as (st & self' & Hr & Hs' & Hc). exists st, self'. split_and!; try done.
  intros Hst. apply parseIncomingMessage_total; auto.
Qed.

Lemma example_rx_safe arriving results : bytes_ok arriving -> rx_safe (example_connection (mkSocket [] [] arriving results) 13).
Proof.
  intros Ha. assert (bytes_ok (replicate 300 0)) by (apply Forall_replicate; split; lia).
  assert (selector_ok (mkTSelector 2 [0; 1; 0; 0])) by (split; [done|]; split; [bytes_concrete | cbn; lia]).
  constructor; [vm_compute; repeat split; congruence | | vm_compute; repeat split; congruence | vm_compute; split; congruence
    | vm_compute; split; congruence | |done].
  - split_and!; [done | done | cbn; lia | cbn; lia].
  - vm_compute. intros Hc. by destruct Hc.
Qed.

(** a data packet whose payload looks like an option *)
Lemma cotp_receive_safe_witness :
  let self := example_connection (mkSocket [] [] [3; 0; 0; 10; 2; 0xf0; 0x80; 0xc0; 1; 0xff] (replicate 10 10)) 13 in
  exists self' indication self'', CotpConnection_readToTpktBuffer self = Some (TPKT_PACKET_COMPLETE, self') /\
    CotpConnection_parseIncomingMessage self' = Some (indication, self'') /\ rx_safe self'' /\ bb_size (ct_readBuffer self'') = 0.
Proof.
  intros self. destruct (cotp_receive_safe self) as (state & self' & Hr & _ & Hp); [apply example_rx_safe; bytes_concrete|].
  assert (state = TPKT_PACKET_COMPLETE) as Hst by (vm_compute in Hr; congruence). subst state.
  destruct (Hp eq_refl) as [(b & _ & _ & Hn)|(indication & self'' & Hi)]; [|by exists self', indication, self''].
  exfalso. vm_compute in Hr. injection Hr as <-. vm_compute in Hn. discriminate Hn.
Defined.

(** a peer may ask for packets of one or two bytes, and the connection takes
    that size; it then reports the success of sending without sending a single byte. *)
Theorem tiny_tpdu_sends_nothing self payload ext :
  co_tpduSize (ct_options self) = 0 \/ co_tpduSize (ct_options self) = 1 ->
  ct_socketExtensionBuffer self = Some ext -> ct_socketExtensionBufferFill self = 0 -> 3 <= ct_socketExtensionBufferSize self ->
  is_Some (ct_writeBuffer self) -> 2 <= bc_length payload ->
  CotpConnection_sendDataMessage self payload = Some (COTP_OK, self).
Proof.
  intros Hsz Hext Hfill Hsize [wb Hwb] Hlen. unfold CotpConnection_sendDataMessage, flushBuffer. rewrite Hfill. cbn [mbind option_bind]. cbn [negb Z.ltb Z.compare].
  assert (exists d, CotpConnection_getTpduSize self - COTP_DATA_HEADER_SIZE = - d /\ (d = 1 \/ d = 2)) as (d & -> & Hd).
  { unfold CotpConnection_getTpduSize, COTP_DATA_HEADER_SIZE. destruct Hsz as [-> | ->]; [by exists 2; auto | by exists 1; auto]. }
  if_true. cbn [mbind option_bind negb]. rewrite Hext, Hfill, Z.sub_0_r, Hwb. cbn [mbind option_bind]. unfold COTP_DATA_HEADER_SIZE.
  rewrite Z.quot_opp_r by lia. rewrite Z.rem_opp_r by lia.
  assert (Z.quot (bc_length payload) d * d + Z.rem (bc_length payload) d = bc_length payload) as Hq by (pose proof (Z.quot_rem' (bc_length payload) d); lia).
  pose proof (Z.rem_bound_pos (bc_length payload) d ltac:(lia) ltac:(lia)) as Hb. set (q := Z.quot _ _) in *. set (r := Z.rem _ _) in *.
  assert (- q + (if r =? 0 then 0 else 1) <= 0) as Hn by (destruct (r =? 0) eqn:E; [apply Z.eqb_eq in E | apply Z.eqb_neq in E]; destruct Hd as [-> | ->]; lia).
  assert ((ct_socketExtensionBufferSize self <? (- q + (if r =? 0 then 0 else 1)) * (3 + 4) + bc_length payload) = false) as ->.
  { apply Z.ltb_ge. destruct (r =? 0) eqn:E; [apply Z.eqb_eq in E | apply Z.eqb_neq in E]; destruct Hd as [-> | ->]; lia. }
  replace (Z.to_nat _) with O by lia. done.
Qed.

Lemma tiny_tpdu_sends_nothing_witness :
  let self := example_connection (mkSocket [] [] [] []) 1 in
  CotpConnection_sendDataMessage self (BufferChain_init 2 2 None [1; 2]) = Some (COTP_OK, self).
Proof.
  intros self. apply (tiny_tpdu_sends_nothing self _ (replicate 500 0)); [by right | done | done | vm_compute; congruence | by eexists | vm_compute; congruence].
Defined.

(** A peer's packet that asks for the size. *)
Example tiny_tpdu_accepted :
  let self := example_connection (mkSocket [] [] [3; 0; 0; 14; 9; 0xe0; 0; 0; 0; 1; 0; 0xc0; 1; 1] (replicate 10 14)) 13 in
  ('(_, self) ← CotpConnection_readToTpktBuffer self;
   '(indication, self) ← CotpConnection_parseIncomingMessage self;
   Some (indication, co_tpduSize (ct_options self))) = Some (COTP_CONNECT_INDICATION, 1).
Proof. vm_compute. reflexivity. Qed.

(** An object identifier with a first octet below 256, arcs below 2^16 and at
    most ten components, that is written by the encoder from its text, is read by
    the decoder as the same components. *)
Theorem oid_roundtrip a b arcs buffer maxBufLen :
  0 <= a -> 0 <= b < 40 -> a * 40 + b < 256 -> Forall arc_ok arcs -> (length arcs <= 8)%nat ->
  zlen (oid_octets a b arcs) <= maxBufLen <= zlen buffer ->
  exists buffer' n, BerEncoder_encodeOIDToBuffer (oid_text a b arcs) buffer maxBufLen = Some (buffer', n) /\
    BerDecoder_decodeOID buffer' 0 n = Some (mkItuObjectIdentifier (padded (a :: b :: arcs)) (2 + zlen arcs)).
Proof.
  intros Ha Hb Hab Harcs Hn Hmx. rewrite encodeOID_spec by (done || lia). eexists _, _. split; [done|].
  apply decodeOID_octets; try done. apply splice_at; lia.
Qed.

Lemma oid_roundtrip_witness :
  exists buffer' n, BerEncoder_encodeOIDToBuffer (oid_text 1 1 [1; 999; 1]) (replicate 10 0) 10 = Some (buffer', n) /\
    BerDecoder_decodeOID buffer' 0 n = Some (mkItuObjectIdentifier (padded [1; 1; 1; 999; 1]) 5).
Proof.
  apply (oid_roundtrip 1 1 [1; 999; 1] (replicate 10 0) 10); try lia; [repeat constructor; unfold arc_ok; lia | cbn; lia | vm_compute; split; congruence].
Defined.

(** An arc that is zero is stored without a test of the room: the identifier
    1.1.0.0.0.0.0.0.0.0.0.0 is written behind the ten bytes of the AP title of a
    connection's parameters. *)
Theorem oid_overflow :
  BerEncoder_encodeOIDToBuffer (oid_text 1 1 (replicate 10 0)) (replicate 10 0) 10 = None /\
  IsoConnectionParameters_setRemoteApTitle IsoConnectionParameters_create (Some (oid_text 1 1 (replicate 10 0))) 12 = None /\
  is_Some (IsoConnectionParameters_setRemoteApTitle IsoConnectionParameters_create (Some (oid_text 1 1 (replicate 9 0))) 12).
Proof. split; [reflexivity|]. split; [reflexivity|]. vm_compute. by eexists. Qed.
