(* ===== verification/LayerProperties.v ===== *)
(** What the session, presentation and association control layers promise, each
    on its own: their parsers are safe on arbitrary bytes, and read what their own
    encoders write; with the messages for which association control is not. *)

From stdpp Require Import relations.
From S2P Require Import Prelude BerEncoder BerDecoder ByteBuffer IsoParameters IsoSession SessionFacts IsoPresentation PresentationFacts.
From S2P Require Import Acse AcseFacts.
Open Scope Z_scope.

(** a session message of arbitrary bytes, in a buffer with the 519 bytes that the
    length octets can reach, is parsed without leaving the buffer; when a message
    with user data is indicated, the user data starts in the message and ends with it. *)
Theorem session_parse_safe self message :
  session_ok self -> byteBuffer_ok message -> bytes_ok (bb_buffer message) -> 519 <= zlen (bb_buffer message) ->
  exists indication self', IsoSession_parseMessage self message = Some (indication, self') /\ session_ok self' /\
    (indication = SESSION_CONNECT \/ indication = SESSION_DATA \/ indication = SESSION_FINISH \/ indication = SESSION_DISCONNECT ->
     user_data_in message (IsoSession_getUserData self')).
Proof. apply parseMessage_total. Qed.

Lemma session_parse_safe_witness :
  let message := mkByteBuffer ([13; 200; 51; 20; 193] ++ replicate 595 7) 600 5 in
  exists indication self', IsoSession_parseMessage IsoSession_init message = Some (indication, self') /\ session_ok self' /\
    (indication = SESSION_CONNECT \/ indication = SESSION_DATA \/ indication = SESSION_FINISH \/ indication = SESSION_DISCONNECT ->
     user_data_in message (IsoSession_getUserData self')).
Proof.
  intros message. apply (session_parse_safe IsoSession_init message).
  - apply IsoSession_init_ok.
  - vm_compute. repeat split; congruence.
  - apply Forall_app_2; [bytes_concrete | apply Forall_replicate; split; lia].
  - vm_compute. congruence.
Defined.

(** A CONNECT message as the client writes it is read by the server with the
    selectors, the session requirement and the user data that were written. *)
Theorem session_roundtrip self server p buf mx payload post mx' :
  session_ok self -> session_ok server -> sSelector_ok (ia_sSelector (ip_local p)) -> sSelector_ok (ia_sSelector (ip_remote p)) ->
  chain_ok payload -> 2 + zlen (items_bytes (connect_items self p)) + bc_length payload <= 255 -> 76 <= zlen buf ->
  exists self' chain server', IsoSession_createConnectSpdu self p buf mx payload = Some (self', chain) /\
    IsoSession_parseMessage server (message_of (chain_bytes chain) post mx') = Some (SESSION_CONNECT, server') /\
    is_sessionRequirement server' = is_sessionRequirement self /\
    sSelector_octets (is_callingSessionSelector server') = sSelector_octets (ia_sSelector (ip_local p)) /\
    sSelector_octets (is_calledSessionSelector server') = sSelector_octets (ia_sSelector (ip_remote p)) /\
    byteBuffer_bytes (IsoSession_getUserData server') = chain_bytes payload.
Proof.
  intros Hs Hsv Hl Hr Hp Hmax Hb. destruct (createConnectSpdu_spec self p buf mx payload Hs Hl Hr Hp Hmax Hb) as (chain & Hc & _ & Hbytes & _).
  destruct (chain_ok_length _ Hp) as [Hlen _]. pose proof Hs as (_ & _ & Hq & _). pose proof Hsv as (Hcg & Hcd & _).
  assert (Forall item_ok (connect_items self p)) as Hi by (repeat apply List.Forall_cons; try apply List.Forall_nil; cbn [item_ok]; unfold is_byte; done || lia).
  eexists _, chain, _. split; [exact Hc|]. rewrite Hbytes, Hlen. split; [apply parse_spdu; [done | done | rewrite !elem_of_cons; auto]|].
  cbn. split; [done|]. split; [by apply set_octets_same|]. split; [by apply set_octets_same|].
  unfold IsoSession_getUserData, with_userData, byteBuffer_bytes, message_of. cbn. by rewrite zlen_to_nat, take_app_length.
Qed.

Lemma session_roundtrip_witness :
  let payload := BufferChain_init 3 3 None [1; 2; 3] in
  exists self' chain server', IsoSession_createConnectSpdu IsoSession_init IsoConnectionParameters_create (replicate 100 0) 100 payload = Some (self', chain) /\
    IsoSession_parseMessage IsoSession_init (message_of (chain_bytes chain) [] 100) = Some (SESSION_CONNECT, server') /\
    is_sessionRequirement server' = 2 /\
    sSelector_octets (is_callingSessionSelector server') = [] /\ sSelector_octets (is_calledSessionSelector server') = [] /\
    byteBuffer_bytes (IsoSession_getUserData server') = [1; 2; 3].
Proof.
  intros payload. assert (sSelector_ok (mkSSelector 0 (replicate 16 0))) as Hs by (split; [done|]; split; [bytes_concrete | cbn; lia]).
  apply (session_roundtrip IsoSession_init IsoSession_init IsoConnectionParameters_create (replicate 100 0) 100 payload [] 100);
    [apply IsoSession_init_ok | apply IsoSession_init_ok | exact Hs | exact Hs | vm_compute; repeat split; congruence | vm_compute; congruence | vm_compute; congruence].
Defined.

(** the presentation layer reads arbitrary bytes, in a buffer with two bytes
    behind them, without leaving it, and keeps its selectors and context identifiers
    in their range; a request to connect and user data that it accepts have a payload
    inside the message. *)
Theorem presentation_parse_safe self message :
  presentation_ok self -> byteBuffer_ok message -> bytes_ok (bb_buffer message) -> bb_size message + 2 <= zlen (bb_buffer message) ->
  bb_size message < 4194304 ->
  payload_flag (bb_buffer message) (bb_size message) (IsoPresentation_parseConnect self message) /\
  flag_result (IsoPresentation_parseAcceptMessage self message) /\
  payload_flag (bb_buffer message) (bb_size message) (IsoPresentation_parseUserData self message).
Proof. intros. split; [by apply parseConnect_total|]. split; [by apply parseAcceptMessage_total | by apply parseUserData_total]. Qed.

Definition example_presentation : IsoPresentation :=
  mkIsoPresentation (mkPSelector 0 (replicate 16 0)) (mkPSelector 0 (replicate 16 0)) 0 0 0 (mkByteBuffer [] 0 0).

Lemma example_presentation_ok : presentation_ok example_presentation.
Proof.
  assert (pSelector_ok (mkPSelector 0 (replicate 16 0))) as Hp by (split; [done|]; split; [bytes_concrete | cbn; lia]).
  split; [exact Hp|]. split; [exact Hp|]. unfold is_byte. cbn. lia.
Qed.

Lemma presentation_parse_safe_witness :
  let message := mkByteBuffer [0x31; 0x80; 0xa2; 3; 0x81; 20; 9; 0; 0; 0] 10 8 in
  payload_flag (bb_buffer message) (bb_size message) (IsoPresentation_parseConnect example_presentation message) /\
  flag_result (IsoPresentation_parseAcceptMessage example_presentation message) /\
  payload_flag (bb_buffer message) (bb_size message) (IsoPresentation_parseUserData example_presentation message).
Proof.
  intros message. apply (presentation_parse_safe example_presentation message);
    [apply example_presentation_ok | vm_compute; repeat split; congruence | bytes_concrete | vm_compute; congruence | vm_compute; congruence].
Defined.

(** C19: association control reads arbitrary bytes (fewer than 4 MiB), in a buffer with
    two bytes behind them, without leaving it, and an association it indicates has its user data
    inside the message; the exception are the messages in which the parser, which starts
    behind their header, comes to user information that makes its loop take the position
    -1. The exception is exact: where the byte in front of the buffer cannot be read,
    parsing such a message has no result. *)
Theorem acse_parse_safe uninit front self message :
  byteBuffer_ok message -> bytes_ok (bb_buffer message) -> bb_size message + 2 <= zlen (bb_buffer message) -> bb_size message < 4194304 ->
  let leaving := message_leaves (bb_buffer message) (bb_size message) uninit front self in
  (leaving \/
   exists indication self', AcseConnection_parseMessage uninit front self message = Some (indication, self') /\
     (indication = ACSE_ASSOCIATE -> acse_data_in (bb_buffer message) (bb_size message) self')) /\
  (leaving -> AcseConnection_parseMessage uninit None self message = None).
Proof.
  intros Hm Hb Hz Hs leaving. split; [|intros Hl; by eapply message_leaves_undefined].
  destruct (parseMessage_acse_total uninit front self message) as [Hl|([i c] & -> & Hc)]; try done; [by left|]. right. by exists i, c.
Qed.

Lemma acse_parse_safe_witness :
  let message := mkByteBuffer [0x60; 12; 0xbe; 10; 0x28; 8; 2; 1; 3; 0xa0; 3; 7; 7; 7; 0; 0] 16 14 in
  exists indication self', AcseConnection_parseMessage 0 None (AcseConnection_init None None) message = Some (indication, self') /\
    indication = ACSE_ASSOCIATE /\ acse_data_in (bb_buffer message) (bb_size message) self'.
Proof.
  intros message.
  destruct (acse_parse_safe 0 None (AcseConnection_init None None) message) as [[Hl|(i & c & Hr & Hc)] Hx];
    [vm_compute; repeat split; congruence | bytes_concrete | vm_compute; congruence | vm_compute; congruence | |].
  - specialize (Hx Hl). vm_compute in Hx. discriminate Hx.
  - exists i, c. assert (i = ACSE_ASSOCIATE) as Hi by (vm_compute in Hr; congruence). split; [exact Hr|]. split; [exact Hi | exact (Hc Hi)].
Defined.

(** an association request of 99 bytes whose last element has a length field that is cut off *)
Definition hang_message : list Z := [0x60; 97; 0xbe; 95; 0x28; 93; 0x05; 89] ++ replicate 89 0 ++ [0x02; 0x81].

(** C18: such a message exists, and the parser never returns from it: the loop over
    the user information, which starts behind the header of the message, reaches a state
    from which it comes back to the same state, by way of the position -1. *)
Theorem acse_parser_hangs self :
  let buffer := hang_message ++ replicate 100 0 in
  let next := turns 0 (Some 0x63) buffer 99 in
  AcseConnection_parseMessage 0 (Some 0x63) self (mkByteBuffer buffer 199 99) = None /\
  exists s, rtc next (mkUserInformation 6 self false false) s /\ tc next s s /\
    exists s', next s s' /\ ui_bufPos s' = -1.
Proof.
  intros buffer next. split; [reflexivity|]. exists (mkUserInformation 97 self false false).
  assert (next (mkUserInformation 97 self false false) (mkUserInformation (-1) self false false)) as H1 by reflexivity.
  assert (next (mkUserInformation (-1) self false false) (mkUserInformation 97 self false false)) as H2 by reflexivity.
  split; [apply rtc_once; reflexivity|]. split; [by eapply tc_l; [exact H1 | apply tc_once]|]. by eexists.
Qed.

(** a client that sets an authentication parameter without a password sends a
    request to associate that counts bytes which it does not write: it is rejected by
    every server, whatever its authenticator. *)
Theorem request_without_password_rejected p buf mx payload a :
  chain_ok payload -> bc_length payload <= 60000 -> address_ok (ip_remote p) -> address_ok (ip_local p) ->
  aa_mechanism a <> ACSE_AUTH_PASSWORD -> 1200 <= zlen buf ->
  exists chain, AcseConnection_createAssociateRequestMessage p buf mx payload (Some a) = Some chain /\
    forall uninit front server post mx, AcseConnection_parseMessage uninit front server (message_of (chain_bytes chain) post mx) = Some (ACSE_ERROR, server).
Proof.
  intros H1 H2 H3 H4 H5 H6. destruct (request_without_password p buf mx payload a H1 H2 H3 H4 H5 H6) as (chain & Hc & _ & Hp). by exists chain.
Qed.

Lemma request_without_password_rejected_witness :
  let payload := BufferChain_init 3 3 None [1; 2; 3] in
  exists chain, AcseConnection_createAssociateRequestMessage IsoConnectionParameters_create (replicate 1200 0) 1200 payload (Some AcseAuthenticationParameter_create) = Some chain /\
    forall uninit front server post mx, AcseConnection_parseMessage uninit front server (message_of (chain_bytes chain) post mx) = Some (ACSE_ERROR, server).
Proof.
  intros payload. assert (address_ok emptyAddress) as Ha by (split; [done|]; split; [bytes_concrete|]; cbn; unfold is_s32; lia).
  apply (request_without_password_rejected IsoConnectionParameters_create (replicate 1200 0) 1200 payload AcseAuthenticationParameter_create);
    [vm_compute; repeat split; congruence | vm_compute; congruence | exact Ha | exact Ha | done | vm_compute; congruence].
Defined.
