(* ===== verification/OsiProperties.v ===== *)
(** What the OSI stack promises end to end: an association is made as the
    authenticator of the server decides, and a request reaches the MMS server and
    its answer the MMS client, whatever the pieces they arrive in; with what the
    server does for a peer that never associated. *)

From S2P Require Import Prelude BerEncoder BerDecoder ByteBuffer IsoParameters Cotp CotpSend CotpReceive CotpConnect.
From S2P Require Import IsoSession SessionFacts IsoPresentation PresentationFacts Acse AcseFacts IsoConnection IsoConnectionFacts IsoClient.
From S2P Require Import IsoClientFacts OsiExchange.
Open Scope Z_scope.

(** ** The layers above, for the examples *)

(** a server that sends every request back and keeps a log of the requests *)
Definition echo : Application := {|
  app_state := list (list Z);
  msgRcvdHandler := fun s request sendBuffer =>
    let bytes := byteBuffer_bytes request in
    if zlen bytes <=? CONFIG_MMS_MAXIMUM_PDU_SIZE then Some (s ++ [bytes], bytes ++ drop (length bytes) sendBuffer, zlen bytes)
    else Some (s, sendBuffer, 0);
  tickHandler := fun s => s
|}.

#[export] Instance echo_server : MmsServer echo.
Proof.
  refine {| mms_answer := fun (s : app_state echo) request =>
    if zlen request <=? CONFIG_MMS_MAXIMUM_PDU_SIZE then (s ++ [request], request) else (s, []) |}.
  intros s request sendBuffer Hok Hz. destruct (zlen (byteBuffer_bytes request) <=? CONFIG_MMS_MAXIMUM_PDU_SIZE) eqn:E; cbn; rewrite E.
  - apply Z.leb_le in E. eexists. split; [done|]. split; [|done]. unfold zlen in *. rewrite length_app, length_drop. unfold SEND_BUF_SIZE, CONFIG_MMS_MAXIMUM_PDU_SIZE in *. lia.
  - exists sendBuffer. split; [done|]. split; [done|]. unfold CONFIG_MMS_MAXIMUM_PDU_SIZE. change (zlen (@nil Z)) with 0. lia.
Defined.

(** a client that keeps a log of what it is told *)
Definition log_callback (indication : IsoIndication) (payload : option ByteBuffer) (self : IsoClientConnection (list (IsoIndication * option (list Z))))
  : option (bool * IsoClientConnection (list (IsoIndication * option (list Z)))) :=
  Some (true, cl_with_application self (cl_application self ++ [(indication, byteBuffer_bytes <$> payload)])).

#[export] Instance log_client : MmsClient log_callback.
Proof.
  refine {| client_reply := fun s indication payload => (true, s ++ [(indication, payload)]) |}.
  - done.
  - intros indication payload self accepted self' [= <- <-]. by eexists.
Defined.

(** C13: a request that the client sends reaches the MMS server once and
    unchanged, and the answer of the MMS server reaches the MMS client once and
    unchanged, through every layer of both stacks and in whatever pieces the network
    delivers the packets; the client's transmit buffer is free again. *)
Theorem iso_exchange {sapp : Application} `{!MmsServer sapp} {capp : Type}
    {callback : IsoIndication -> option ByteBuffer -> IsoClientConnection capp -> option (bool * IsoClientConnection capp)} `{!MmsClient callback}
    uninit (cl : IsoClientConnection capp) (sv : IsoConnection sapp) ctx request :
  exchange_ready cl sv ctx request ->
  exists cl1 p, IsoClientConnection_sendMessage cl (ByteBuffer_wrap (cl_sendBuffer cl) (zlen request) ISO_CLIENT_BUFFER_SIZE) = Some cl1 /\
    tx_stream (cl_cotpConnection cl1) = tx_stream (cl_cotpConnection cl) ++ p /\ cl_transmitPermits cl1 = cl_transmitPermits cl + 1 /\
    forall fuel results, delivers results fuel (zlen (data_message ctx request)) ->
    exists k sv1, run k uninit (server_arrives sv p results) = Some sv1 /\
      let '(s, answer) := mms_answer (ic_application _ sv) request in
      ic_application _ sv1 = s /\ ic_state _ sv1 = ic_state _ sv /\
      (answer <> [] -> can_send (ic_cotpConnection _ sv) (zlen (answer_packets sv answer)) ->
       exists q, tx_stream (ic_cotpConnection _ sv1) = tx_stream (ic_cotpConnection _ sv) ++ q /\
       forall ticks results, ct_socketExtensionBufferFill (cl_cotpConnection cl1) = 0 -> delivers results (length ticks) (zlen (data_message ctx answer)) ->
       exists k cl2, ticks_run (callback := callback) uninit (take k ticks) (client_arrives cl1 q results) = Some cl2 /\ informed cl1 cl2 answer []).
Proof.
  intros [(Hcl & Hst & Hint) Hsv [Hc1 Hc2] [rest Hreq] Hsz Hroom Hidle1 Hidle2]. pose proof Hcl as (Hcok & _ & Hsock).
  destruct (sendMessage_spec cl request rest Hcl Hst Hreq Hsz) as (cotp & sb & Hsend & _ & Htr). rewrite Hc1 in Htr.
  destruct (transmits_all _ _ _ Hroom Htr) as [Hf Hstr]. eexists _, _. split; [exact Hsend|]. split; [exact Hstr|]. split; [done|].
  intros fuel results Hdel. destruct (server_receives uninit fuel sv (cl_cotpConnection cl) ctx request results Hsv Hc2 Hsz) as (k & sv1 & _ & Hrun & Hserved); try done; [apply Hcok|].
  exists k, sv1. split; [exact Hrun|]. pose proof (mms_answer_bound (sapp := sapp) (ic_application _ sv) request) as Hb.
  unfold served in Hserved. destruct (mms_answer _ _) as [s answer]. destruct Hserved as (H1 & H2 & _ & _ & q & Hq & _ & Hall). split; [done|]. split; [done|].
  intros Hne Hcan. exists q. split; [done|]. rewrite (Hall Hcan). intros ticks results2 Hfill Hdel2. unfold answer_packets. rewrite decide_False by done. rewrite Hc2.
  destruct Hsv as [Hsvok _].
  assert (0 < zlen answer <= CONFIG_MMS_MAXIMUM_PDU_SIZE) as Ha by (cbn in Hb; split; [destruct answer; [done|]; rewrite zlen_cons; pose proof (zlen_nonneg answer); lia | done]).
  destruct (client_receives (callback := callback) uninit ticks (IsoClientConnection_releaseTransmitBuffer (cl_with_cotp (cl_with_sendBuffer cl sb) cotp)) (ic_cotpConnection _ sv) ctx answer results2) as (k2 & cl2 & _ & Hrun2 & Hinf);
    [done | done | done | apply Hsvok | | done | by exists k2, cl2].
  eapply tx_frame_idle; [exact Hf | exact Hfill | exact Hidle2].
Qed.

(** two sides that are associated; the request is in the transmit buffer *)
Definition example_request : list Z := [0xa0; 3; 2; 1; 1].

Definition example_server (socket : Socket) : IsoConnection echo :=
  mkIsoConnection echo (replicate (Z.to_nat SEND_BUF_SIZE) 0) ISO_CON_STATE_RUNNING IsoSession_init
    (mkIsoPresentation (mkPSelector 0 (replicate 16 0)) (mkPSelector 0 (replicate 16 0)) 0 1 3 (mkByteBuffer [] 0 0))
    (fresh_cotp socket) (AcseConnection_init None None) [].

Definition example_client (socket : Socket) : IsoClientConnection (list (IsoIndication * option (list Z))) :=
  mkIsoClientConnection IsoConnectionParameters_create INT_STATE_WAIT_FOR_DATA_MSG STATE_CONNECTED 5000 0 (Some socket) (fresh_cotp socket)
    (mkIsoPresentation (mkPSelector 0 (replicate 16 0)) (mkPSelector 0 (replicate 16 0)) 0 1 3 (mkByteBuffer [] 0 0))
    IsoSession_init (AcseConnection_init None None)
    (example_request ++ replicate (Z.to_nat (ISO_CLIENT_BUFFER_SIZE - 5)) 0) 5 0 [].

Lemma example_exchange_ready socket1 socket2 :
  Forall (fun r => 0 <= r) (sk_sendResults socket1) ->
  exchange_ready (example_client socket1) (example_server socket2) 3 example_request.
Proof.
  intros Hr.
  assert (zlen (message_packets (fresh_cotp socket1) (data_message 3 example_request)) <= 100) as Hz by (vm_compute; congruence).
  constructor.
  - split; [|done]. split; [apply fresh_cotp_ok|]. split; [|by eexists]. unfold example_client. cbn [cl_sendBuffer]. rewrite zlen_app.
    rewrite zlen_fresh by (unfold ISO_CLIENT_BUFFER_SIZE, CONFIG_MMS_MAXIMUM_PDU_SIZE; lia). change (zlen example_request) with 5. lia.
  - split; [apply fresh_cotp_ok|]. apply zlen_fresh. unfold SEND_BUF_SIZE, CONFIG_MMS_MAXIMUM_PDU_SIZE. lia.
  - done.
  - by eexists.
  - unfold CONFIG_MMS_MAXIMUM_PDU_SIZE. change (zlen example_request) with 5. lia.
  - apply fresh_can_send; [done|]. change (cl_cotpConnection (example_client socket1)) with (fresh_cotp socket1). lia.
  - apply fresh_cotp_idle. assert (zlen (data_message 3 example_request) <= 100) by (vm_compute; congruence). unfold RECEIVE_BUF_SIZE, CONFIG_MMS_MAXIMUM_PDU_SIZE. lia.
  - apply fresh_cotp_idle. unfold RECEIVE_BUF_SIZE, CONFIG_MMS_MAXIMUM_PDU_SIZE. lia.
Qed.

Lemma example_delivers n turns messageSize : (4 * turns <= n)%nat -> 8 * messageSize <= Z.of_nat turns -> delivers (replicate n 1) turns messageSize.
Proof. intros H1 H2. split; [apply Forall_replicate; lia|]. by rewrite length_replicate. Qed.

Lemma iso_exchange_witness :
  let cl := example_client (mkSocket [] [100] [] []) in
  let sv := example_server (mkSocket [] [100] [] []) in
  exists cl1 p k sv1, IsoClientConnection_sendMessage cl (ByteBuffer_wrap (cl_sendBuffer cl) (zlen example_request) ISO_CLIENT_BUFFER_SIZE) = Some cl1 /\
    tx_stream (cl_cotpConnection cl1) = tx_stream (cl_cotpConnection cl) ++ p /\
    run k 0 (server_arrives sv p (replicate 1000 1)) = Some sv1 /\ ic_application _ sv1 = [example_request].
Proof.
  intros cl sv.
  destruct (iso_exchange (callback := log_callback) 0 cl sv 3 example_request) as (cl1 & p & H1 & H2 & _ & H3); [apply example_exchange_ready; repeat constructor; lia|].
  destruct (H3 250%nat (replicate 1000 1)) as (k & sv1 & Hrun & Happ & _); [apply example_delivers; [lia | vm_compute; congruence]|].
  exists cl1, p, k, sv1. split; [exact H1|]. split; [exact H2|]. split; [exact Hrun | exact Happ].
Defined.

(** C16: the association. The tick in which the client has the response of the
    transport layer sends the request to connect. A server that gets it, in whatever
    pieces, asks its authenticator about the password of the client: refused, it stops
    the connection and sends nothing; accepted, it hands the request of the MMS client to
    the MMS server and sends the answer, and the client that gets the answer in time
    is connected and hands it to the MMS client. *)
Theorem association_established {sapp : Application} `{!MmsServer sapp} {capp : Type}
    {callback : IsoIndication -> option ByteBuffer -> IsoClientConnection capp -> option (bool * IsoClientConnection capp)} `{!MmsClient callback}
    uninit t (cl : IsoClientConnection capp) cotp (sv : IsoConnection sapp) password init decision :
  let message := request_message (cl_parameters cl) password init in
  let session := fold_left item_apply (connect_items IsoSession_init (cl_parameters cl)) (ic_session _ sv) in
  association_ready t cl cotp password init -> decides_on sv password decision -> answer_fits sv session init ->
  9 <= co_tpduSize (ct_options (ic_cotpConnection _ sv)) <= 13 ->
  rx_idle (ic_cotpConnection _ sv) (CotpConnection_getTpduSize cotp) 257 ->
  rx_idle cotp (CotpConnection_getTpduSize (ic_cotpConnection _ sv)) 257 ->
  exists cl1 p, IsoClientConnection_handleConnection callback uninit t cl = Some (false, cl1) /\
    tx_stream (cl_cotpConnection cl1) = tx_stream cotp ++ p /\ cl_transmitPermits cl1 = cl_transmitPermits cl + 1 /\
    forall fuel results, delivers results fuel (zlen message) ->
    exists k sv1, run k uninit (server_arrives sv p results) = Some sv1 /\
      if decision : bool then
        let '(s, answer) := mms_answer (ic_application _ sv) init in
        let packets := message_packets (ic_cotpConnection _ sv) (accept_message session 1 3 answer) in
        ic_application _ sv1 = s /\ pr_mmsContextId (ic_presentation _ sv1) = 3 /\
        (answer <> [] -> can_send (ic_cotpConnection _ sv) (zlen packets) ->
         tx_stream (ic_cotpConnection _ sv1) = tx_stream (ic_cotpConnection _ sv) ++ packets /\
         forall ticks results, ct_socketExtensionBufferFill (cl_cotpConnection cl1) = 0 -> in_time cl1 ticks ->
           delivers results (length ticks) (zlen (accept_message session 1 3 answer)) ->
         exists k cl2, ticks_run (callback := callback) uninit (take k ticks) (client_arrives cl1 packets results) = Some cl2 /\
           established cl1 cl2 answer [] /\ pr_mmsContextId (cl_presentation cl2) = 3)
      else refuses sv sv1.
Proof.
  intros message session [[Hint Htime] Hresp Hcl Hpar ([rest Hsb] & Htsz & Hinit) Hsize Hroom] Hdec Hfit Htp Hidle1 Hidle2.
  pose proof Hpar as (Hrem & Hloc & Hauth & Hpl & Hpr & Hsl & Hsr & Hpw). pose proof Hcl as (Hcok & _ & Hsock).
  destruct (client_requests (callback := callback) uninit t cl cotp init rest password) as (cl1 & Hh & Htr & H1 & H2 & H3 & H4 & H5 & H6 & H7); try done.
  destruct (transmits_all _ _ _ Hroom Htr) as [Hf Hstr]. exists cl1, (message_packets cotp message). split; [done|]. split; [done|]. split; [done|].
  intros fuel results Hdel. pose proof (connect_items_ok _ _ Hpar) as Hitems.
  destruct (server_associates uninit fuel sv cotp (connect_items IsoSession_init (cl_parameters cl)) (ia_pSelector (ip_local (cl_parameters cl)))
    (ia_pSelector (ip_remote (cl_parameters cl))) (cl_parameters cl) password init decision results) as (k & sv1 & _ & Hrun & Hres); try done.
  { apply Hcok. } { destruct Hidle1 as (I1 & I2 & I3 & I4 & I5 & I6 & I7). repeat (split; [done|]). revert Hsize. unfold request_message. lia. }
  exists k, sv1. split; [done|]. destruct decision; [|done]. unfold accepts_association, answer_fits in *. fold session in Hres, Hfit.
  destruct (mms_answer _ _) as [s answer]. cbn [snd] in Hfit. destruct Hres as (R1 & R2 & R3 & R4). split; [done|]. split; [done|].
  intros Hne Hcan. destruct (R4 Hne) as (q & _ & Hq & Hall). rewrite (Hall Hcan) in Hq. split; [done|]. intros ticks results2 Hfill Hin Hdel2.
  assert (0 < zlen answer) as Ha by (destruct answer; [done|]; rewrite zlen_cons; pose proof (zlen_nonneg answer); lia).
  assert (session_ok session) as Hsok by (destruct Hdec as [(_ & Hs & _) _ _]; by apply items_apply_ok).
  destruct (client_associated (callback := callback) uninit ticks cl1 (ic_cotpConnection _ sv) session answer results2) as (k2 & cl2 & _ & Hrun2 & Hest); try done.
  { by apply Hfit. } { eapply tx_frame_idle; [exact Hf | done | done]. }
  exists k2, cl2. split; [done|]. split; [done|]. destruct Hest as (_ & _ & _ & E & _). by rewrite E.
Qed.

(** sides with small buffers, before the association *)
Definition small_cotp (socket : Socket) : CotpConnection :=
  mkCotpConnection (-1) 1 (-1) socket (mkCotpOptions (mkTSelector 2 [0; 1; 0; 0]) (mkTSelector 2 [0; 1; 0; 0]) 9) false
    (fresh_buffer 600) (Some (fresh_buffer 600)) (fresh_buffer 600) 0 (Some (replicate 600 0)) 600 0.

(** the authenticator that knows a secret *)
Definition secret_authenticator (secret : list Z) : AcseAuthenticator := fun parameter token reference =>
  (match aa_octetString parameter with
   | Some octets => bool_decide (take (Z.to_nat (aa_passwordLength parameter)) octets = secret)
   | None => false
   end, token, reference).

Definition listening_server (cotp : CotpConnection) (authenticator : AcseAuthenticator) : IsoConnection echo :=
  mkIsoConnection echo (replicate (Z.to_nat SEND_BUF_SIZE) 0) ISO_CON_STATE_RUNNING IsoSession_init
    (mkIsoPresentation (mkPSelector 0 (replicate 16 0)) (mkPSelector 0 (replicate 16 0)) 0 0 0 (mkByteBuffer [] 0 0))
    cotp (AcseConnection_init (Some authenticator) None) [].

(** the parameters of a client with a password *)
Definition example_parameters : IsoConnectionParameters :=
  IsoConnectionParameters_setAcseAuthenticationParameter IsoConnectionParameters_create
    (Some (mkAcseAuthenticationParameter ACSE_AUTH_PASSWORD (Some [7; 8; 9; 0]) 3)).

Definition connecting_client (socket : Socket) : IsoClientConnection (list (IsoIndication * option (list Z))) :=
  mkIsoClientConnection example_parameters INT_STATE_WAIT_FOR_COTP_CONNECT_RESP STATE_CONNECTING 5000 9000 (Some socket) (small_cotp socket)
    (mkIsoPresentation (mkPSelector 0 (replicate 16 0)) (mkPSelector 0 (replicate 16 0)) 0 0 0 (mkByteBuffer [] 0 0))
    IsoSession_init (AcseConnection_init None None)
    (example_request ++ replicate (Z.to_nat (ISO_CLIENT_BUFFER_SIZE - 5)) 0) 5 0 [].

Definition response_socket : Socket := mkSocket [] [1000] (connect_packet 0xd0 1 1 0 (ct_options (small_cotp (mkSocket [] [] [] [])))) (replicate 10 1000).

(** the transport connection once the response has been read *)
Definition response_cotp : CotpConnection :=
  match cotp_receive (small_cotp response_socket) with Some (_, _, c) => c | None => small_cotp response_socket end.

Lemma example_parameters_ok : parameters_ok example_parameters (Some [7; 8; 9]).
Proof.
  assert (address_ok emptyAddress) as Ha by (split; [done|]; split; [bytes_concrete|]; cbn; unfold is_s32; lia).
  assert (pSelector_ok (mkPSelector 0 (replicate 16 0))) as Hp by (split; [done|]; split; [bytes_concrete | cbn; lia]).
  assert (sSelector_ok (mkSSelector 0 (replicate 16 0))) as Hs by (split; [done|]; split; [bytes_concrete | cbn; lia]).
  split; [exact Ha|]. split; [exact Ha|]. split; [|split; [exact Hp|]; split; [exact Hp|]; split; [exact Hs|]; split; [exact Hs|]; vm_compute; split; congruence].
  cbn. split; [done|]. split; [done|]. split; [vm_compute; congruence|]. by exists [0].
Qed.

Lemma example_association_ready t : tk_now t <= 9000 ->
  association_ready t (connecting_client response_socket) response_cotp (Some [7; 8; 9]) example_request.
Proof.
  intros Ht. constructor.
  - done.
  - vm_compute. reflexivity.
  - split; [|split; [|by eexists]].
    + split; [vm_compute; split; congruence|]. split; [vm_compute; repeat split; congruence|]. exists (fresh_buffer 600). vm_compute. repeat split; congruence.
    + unfold connecting_client, cl_with_cotp. cbn [cl_sendBuffer]. rewrite zlen_app, zlen_fresh by (unfold ISO_CLIENT_BUFFER_SIZE, CONFIG_MMS_MAXIMUM_PDU_SIZE; lia).
      change (zlen example_request) with 5. lia.
  - apply example_parameters_ok.
  - split; [by eexists|]. split; [done|]. vm_compute. reflexivity.
  - vm_compute. congruence.
  - split; [by eexists|]. split; [repeat constructor; vm_compute; congruence|]. vm_compute. congruence.
Qed.

Lemma association_established_witness :
  let sv := listening_server (small_cotp (mkSocket [] [1000] [] [])) (secret_authenticator [7; 8; 9]) in
  exists cl1 p k sv1, IsoClientConnection_handleConnection log_callback 0 (mkTick SOCKET_STATE_CONNECTED 1000 1001) (connecting_client response_socket) = Some (false, cl1) /\
    run k 0 (server_arrives sv p (replicate (Z.to_nat 10000) 1)) = Some sv1 /\ ic_application _ sv1 = [example_request].
Proof.
  intros sv. destruct (association_established (callback := log_callback) 0 (mkTick SOCKET_STATE_CONNECTED 1000 1001) (connecting_client response_socket) response_cotp sv
    (Some [7; 8; 9]) example_request true) as (cl1 & p & H1 & _ & _ & H2).
  - apply example_association_ready. cbn. lia.
  - constructor; [|done|].
    + split; [|split; [apply IsoSession_init_ok|]].
      * split; [|apply zlen_fresh; unfold SEND_BUF_SIZE, CONFIG_MMS_MAXIMUM_PDU_SIZE; lia].
        split; [cbn; lia|]. split; [vm_compute; repeat split; congruence|]. exists (fresh_buffer 600). vm_compute. repeat split; congruence.
      * assert (pSelector_ok (mkPSelector 0 (replicate 16 0))) as Hp by (split; [done|]; split; [bytes_concrete | cbn; lia]).
        split; [exact Hp|]. split; [exact Hp|]. unfold is_byte. cbn. lia.
    + exists (secret_authenticator [7; 8; 9]). split; [done|]. intros rest token reference. reflexivity.
  - intros _. vm_compute. congruence.
  - cbn. lia.
  - vm_compute. repeat split; congruence.
  - vm_compute. repeat split; congruence.
  - destruct (H2 (Z.to_nat 2500) (replicate (Z.to_nat 10000) 1)) as (k & sv1 & Hrun & Happ & _); [apply example_delivers; [lia | vm_compute; congruence]|].
    exists cl1, p, k, sv1. split; [exact H1|]. split; [exact Hrun | exact Happ].
Defined.

(** C17: the authenticator can be bypassed. Whatever authenticator a server has, a peer that
    never associates and sends a message of the data phase for the presentation
    context 0 is served: its request reaches the MMS server and the connection stays up. *)
Theorem authentication_bypassed {sapp : Application} `{!MmsServer sapp} uninit authenticator s socket request fuel results :
  0 < zlen request <= CONFIG_MMS_MAXIMUM_PDU_SIZE -> delivers results fuel (zlen (data_message 0 request)) ->
  exists sv, IsoConnection_create sapp socket (Some authenticator) None s = Some sv /\
    exists k sv', run k uninit (server_arrives sv (message_packets (ic_cotpConnection _ sv) (data_message 0 request)) results) = Some sv' /\
      ic_state _ sv' = ISO_CON_STATE_RUNNING /\ ic_application _ sv' = fst (mms_answer s request).
Proof.
  intros Hr Hd. unfold IsoConnection_create. change (ByteBuffer_wrap (replicate (Z.to_nat ?n) 0) 0 ?n) with (fresh_buffer n).
  change (CONFIG_COTP_MAX_TPDU_SIZE + TPKT_RFC1006_HEADER_SIZE) with 8196. change (CONFIG_MMS_MAXIMUM_PDU_SIZE + 1000) with 66000.
  rewrite fresh_cotp_init. cbn [mbind option_bind]. eexists. split; [done|]. set (sv := mkIsoConnection _ _ _ _ _ _ _ _).
  destruct (server_receives uninit fuel sv (fresh_cotp socket) 0 request results) as (k & sv' & _ & Hrun & Hs).
  - split; [apply fresh_cotp_ok|]. apply zlen_fresh. unfold SEND_BUF_SIZE, CONFIG_MMS_MAXIMUM_PDU_SIZE. lia.
  - reflexivity.
  - exact Hr.
  - cbn [ct_options fresh_cotp co_tpduSize]. lia.
  - apply fresh_cotp_idle. pose proof (zlen_data_message 0 request Hr). unfold RECEIVE_BUF_SIZE, CONFIG_MMS_MAXIMUM_PDU_SIZE in *. lia.
  - exact Hd.
  - exists k, sv'. split; [exact Hrun|]. unfold served in Hs. cbn [sv ic_application ic_state] in Hs. destruct (mms_answer s request) as [s' answer]. destruct Hs as (H1 & H2 & _). done.
Qed.

Lemma authentication_bypassed_witness :
  exists sv, IsoConnection_create echo (mkSocket [] [] [] []) (Some (fun _ token reference => (false, token, reference))) None [] = Some sv /\
    exists k sv', run k 0 (server_arrives sv (message_packets (ic_cotpConnection _ sv) (data_message 0 example_request)) (replicate 1000 1)) = Some sv' /\
      ic_state _ sv' = ISO_CON_STATE_RUNNING /\ ic_application _ sv' = fst (mms_answer (app := echo) [] example_request).
Proof.
  apply (authentication_bypassed (sapp := echo) 0 (fun _ token reference => (false, token, reference)) [] (mkSocket [] [] [] []) example_request 250 (replicate 1000 1)).
  - unfold CONFIG_MMS_MAXIMUM_PDU_SIZE. vm_compute. split; congruence.
  - apply example_delivers; [lia | vm_compute; congruence].
Defined.
