(* ===== verification/ClientProperties.v ===== *)
(** What the client connection promises: one owner of the transmit buffer, a
    socket while it is connected, and an end of every attempt to connect; with
    the calls and the peers for which it loses its buffer or its connection. *)

From stdpp Require Import relations.
From S2P Require Import Prelude BerEncoder BerDecoder ByteBuffer IsoParameters Cotp CotpSend CotpReceive CotpConnect.
From S2P Require Import IsoSession SessionFacts IsoPresentation PresentationFacts Acse AcseFacts IsoConnection IsoConnectionFacts IsoClient.
From S2P Require Import IsoClientFacts IsoClientState OsiExchange CotpProperties OsiProperties.
Open Scope Z_scope.

(** C20: in every state that the calls of the layer above and the ticks can reach, in any
    order, the transmit buffer is in exactly one place: it is free, or the layer above has it,
    or the connection has it while it connects, or it is lost, which only a close of a
    connection that still connects and a start for which no socket can be created (made at
    rest) bring about. A connection that is up has its socket, and one at rest has none.
    The layer above gives back, sends or starts with a buffer only while it has it, and
    its callback does not call the connection ([MmsClient]). *)
Theorem transmit_buffer_exclusive {capp : Type}
    {callback : IsoIndication -> option ByteBuffer -> IsoClientConnection capp -> option (bool * IsoClientConnection capp)} `{!MmsClient callback}
    uninit parameters s held lost (self : IsoClientConnection capp) :
  rtc (client_step (callback := callback) uninit) (false, false, IsoClientConnection_create parameters s) (held, lost, self) ->
  0 <= cl_transmitPermits self /\
  cl_transmitPermits self + Z_of_bool held + Z_of_bool (connecting (cl_intState self)) + Z_of_bool lost = 1 /\
  (cl_state self = STATE_CONNECTED -> is_Some (cl_socket self)) /\
  (at_rest (cl_intState self) = true -> cl_socket self = None).
Proof.
  intros H. destruct (client_reachable_ok _ _ _ _ H) as [[Hb Hc Hs] Hp]. split; [done|]. split; [lia|]. split.
  - intros E. apply Hs. specialize (Hc E). by destruct (cl_intState self).
  - intros E. destruct (cl_socket self); [|done]. rewrite E in Hs. destruct Hs as [Hs _]. by specialize (Hs ltac:(by eexists)).
Qed.

(** the buffer is allocated and filled and the connection started *)
Lemma started_client_reachable :
  exists self : IsoClientConnection (list (IsoIndication * option (list Z))),
    rtc (client_step (callback := log_callback) 0) (false, false, IsoClientConnection_create example_parameters []) (false, false, self) /\
    cl_intState self = INT_STATE_TCP_CONNECTING /\ is_Some (IsoClientConnection_close log_callback 0 (mkTick SOCKET_STATE_CONNECTING 1 1) self).
Proof.
  eexists. split.
  - eapply rtc_l; [apply step_allocate; reflexivity|]. eapply rtc_l; [apply (step_write 0 _ _ [] 0)|].
    eapply rtc_l; [eapply (step_associate 0 _ _ (mkSocket [] [] [] []) 1000 true 5000 5000 true); reflexivity|]. apply rtc_refl.
  - split; [reflexivity | by eexists].
Qed.

Lemma transmit_buffer_exclusive_witness :
  exists self self' : IsoClientConnection (list (IsoIndication * option (list Z))),
    (cl_intState self = INT_STATE_TCP_CONNECTING /\ cl_transmitPermits self + Z_of_bool false + Z_of_bool true + Z_of_bool false = 1) /\
    IsoClientConnection_close log_callback 0 (mkTick SOCKET_STATE_CONNECTING 1 1) self = Some self' /\
    0 <= cl_transmitPermits self' /\
    cl_transmitPermits self' + Z_of_bool false + Z_of_bool (connecting (cl_intState self')) + Z_of_bool true = 1.
Proof.
  destruct started_client_reachable as (self & Hr & Hi & [self' Hc]). exists self, self'.
  destruct (transmit_buffer_exclusive (callback := log_callback) 0 example_parameters [] false false self Hr) as (_ & H1 & _).
  destruct (transmit_buffer_exclusive (callback := log_callback) 0 example_parameters [] false true self') as (H2 & H3 & _).
  { eapply rtc_r; [exact Hr|]. pose proof (step_close (callback := log_callback) 0 false false self _ self' Hc) as Hs. by rewrite Hi in Hs. }
  rewrite Hi in H1. split; [split; [exact Hi | exact H1]|]. split; [exact Hc|]. split; [exact H2 | exact H3].
Defined.

(** C24: a peer that does not answer in time, at any stage of connecting, ends the
    attempt within two ticks: the layer above is told of the failure and then of the
    close, the socket is released, and the transmit buffer is free. *)
Theorem connect_times_out {capp : Type}
    {callback : IsoIndication -> option ByteBuffer -> IsoClientConnection capp -> option (bool * IsoClientConnection capp)} `{!MmsClient callback}
    uninit t t2 held (self : IsoClientConnection capp) :
  client_inv held self -> times_out t self ->
  exists self', ticks_run (callback := callback) uninit [t; t2] self = Some self' /\
    cl_intState self' = INT_STATE_ERROR /\ cl_state self' = STATE_ERROR /\ cl_socket self' = None /\
    cl_transmitPermits self' = 1 - Z_of_bool held /\
    cl_application self' = on_tick (told (on_tick (told (cl_application self) ISO_IND_ASSOCIATION_FAILED)) ISO_IND_CLOSED).
Proof.
  intros [Hb _ _] Ht. destruct (timeout_spec (callback := callback) uninit t t2 self Ht) as (self' & H1 & H2 & H3 & H4 & H5 & H6).
  exists self'. rewrite H5. split_and!; try done. lia.
Qed.

Lemma connect_times_out_witness :
  let self := connecting_client response_socket in
  exists self', ticks_run (callback := log_callback) 0 [mkTick SOCKET_STATE_CONNECTED 9001 9001; mkTick SOCKET_STATE_CONNECTED 9002 9002] self = Some self' /\
    cl_intState self' = INT_STATE_ERROR /\ cl_state self' = STATE_ERROR /\ cl_socket self' = None /\ cl_transmitPermits self' = 1 /\
    map fst (cl_application self') = [ISO_IND_ASSOCIATION_FAILED; ISO_IND_TICK; ISO_IND_CLOSED; ISO_IND_TICK].
Proof.
  intros self. destruct (connect_times_out (callback := log_callback) 0 (mkTick SOCKET_STATE_CONNECTED 9001 9001) (mkTick SOCKET_STATE_CONNECTED 9002 9002) false self)
    as (self' & H1 & H2 & H3 & H4 & H5 & H6).
  - constructor; [reflexivity | by intros | split; [done | by eexists]].
  - split; [cbn; lia | exact I].
  - exists self'. rewrite H6. split; [exact H1|]. split; [exact H2|]. split; [exact H3|]. split; [exact H4|]. split; [exact H5 | reflexivity].
Defined.

(** C22: a connection that is closed while it still connects keeps the transmit buffer for
    ever: it is at rest then, and however many ticks follow, the next call that allocates the
    buffer blocks. *)
Theorem close_while_connecting_blocks {capp : Type}
    {callback : IsoIndication -> option ByteBuffer -> IsoClientConnection capp -> option (bool * IsoClientConnection capp)} `{!MmsClient callback}
    uninit t (self : IsoClientConnection capp) :
  client_inv false self -> connecting (cl_intState self) = true ->
  exists self', IsoClientConnection_close callback uninit t self = Some self' /\ cl_state self' = STATE_IDLE /\
    forall ticks, exists self'', ticks_run (callback := callback) uninit ticks self' = Some self'' /\
      IsoClientConnection_allocateTransmitBuffer self'' = None.
Proof.
  intros [Hb _ _] Hc. rewrite Hc in Hb. cbn [Z_of_bool] in Hb.
  destruct (close_spec (callback := callback) uninit t self) as (self' & H1 & H2 & H3 & _ & H5); [by destruct (cl_intState self) | by destruct (cl_intState self)|].
  exists self'. split; [done|]. split; [done|]. intros ticks.
  destruct (rest_ticks (callback := callback) uninit ticks self') as (self'' & H6 & H7); [by rewrite H2|]. exists self''. split; [done|].
  unfold IsoClientConnection_allocateTransmitBuffer. rewrite H7, H5. by if_false.
Qed.

Lemma close_while_connecting_blocks_witness :
  let self := connecting_client response_socket in
  exists self', IsoClientConnection_close log_callback 0 (mkTick SOCKET_STATE_CONNECTED 1 1) self = Some self' /\ cl_state self' = STATE_IDLE /\
    forall ticks, exists self'', ticks_run (callback := log_callback) 0 ticks self' = Some self'' /\
      IsoClientConnection_allocateTransmitBuffer self'' = None.
Proof.
  intros self. apply (close_while_connecting_blocks (callback := log_callback) 0 (mkTick SOCKET_STATE_CONNECTED 1 1) self).
  - constructor; [reflexivity | by intros | split; [done | by eexists]].
  - reflexivity.
Defined.

(** a client accepts the answer to its request to associate only in a single
    packet: if a server sends it in several, as the agreed size of the packets may require,
    the client gives up when the first of them is complete, and tells the layer above
    that the association failed. *)
Theorem fragmented_answer_refused {capp : Type}
    {callback : IsoIndication -> option ByteBuffer -> IsoClientConnection capp -> option (bool * IsoClientConnection capp)} `{!MmsClient callback}
    uninit ticks (cl : IsoClientConnection capp) sender message results :
  cl_intState cl = INT_STATE_WAIT_FOR_ACSE_RESP -> is_Some (cl_socket cl) -> in_time cl ticks ->
  2 <= co_tpduSize (ct_options sender) <= 13 -> CotpConnection_getTpduSize sender - 3 < zlen message ->
  rx_idle (cl_cotpConnection cl) (CotpConnection_getTpduSize sender) (zlen message) -> delivers results (length ticks) (zlen message) ->
  exists k cl', ticks_run (callback := callback) uninit (take k ticks) (client_arrives cl (message_packets sender message) results) = Some cl' /\
    gives_up (callback := callback) cl cl'.
Proof.
  intros Hint Hs Htime Ht Hbig Hidle (Hpos & Hlen & Hf). pose proof (tpduSize_bounds _ Ht) as Hts.
  destruct (packets_pending sender (arrives (cl_cotpConnection cl) (message_packets sender message) results) message []) as [Hp Hz2];
    [done | lia | by apply arrives_ready | rewrite app_nil_r; apply arrives_socket|].
  destruct (arrives_socket (cl_cotpConnection cl) (message_packets sender message) results) as [Har Hrs].
  destruct (packet_count_bounds (CotpConnection_getTpduSize sender - 3) (zlen message)) as [Hn1 Hn2]; [lia | lia|].
  assert (Z.to_nat (packet_count (CotpConnection_getTpduSize sender - 3) (zlen message)) <> 1%nat) as Hn.
  { intros E. assert (packet_count (CotpConnection_getTpduSize sender - 3) (zlen message) = 1) as E' by lia. rewrite E' in Hn2. lia. }
  set (cl0 := client_arrives cl (message_packets sender message) results).
  destruct (fragments_fail (callback := callback) uninit cl0 _ _ _ _ _ ticks ticks 0 _ _ Hint Hs Htime ltac:(done) Hn Hp) as (k & cl' & _ & Hrun & Hg);
    [by rewrite Hrs | by rewrite Hrs | rewrite Har; change (zlen (@nil Z)) with 0; unfold zlen in *; lia|].
  exists k, cl'. split; [|exact Hg]. rewrite <- Hrun. by destruct cl.
Qed.

Lemma fragmented_answer_refused_witness :
  let cl := setIntState (connecting_client response_socket) INT_STATE_WAIT_FOR_ACSE_RESP in
  let sender := CotpProperties.example_connection (mkSocket [] [] [] []) 7 in
  let message := accept_message IsoSession_init 1 3 (replicate 60 1) in
  exists k cl', ticks_run (callback := log_callback) 0 (take k (replicate (Z.to_nat 1500) (mkTick SOCKET_STATE_CONNECTED 1 1)))
      (client_arrives cl (message_packets sender message) (replicate (Z.to_nat 6000) 1)) = Some cl' /\ gives_up (callback := log_callback) cl cl'.
Proof.
  intros cl sender message.
  apply (fragmented_answer_refused (callback := log_callback) 0 (replicate (Z.to_nat 1500) (mkTick SOCKET_STATE_CONNECTED 1 1)) cl sender message (replicate (Z.to_nat 6000) 1)).
  - reflexivity.
  - by eexists.
  - apply Forall_replicate. cbn. lia.
  - cbn. lia.
  - vm_compute. reflexivity.
  - vm_compute. repeat split; congruence.
  - rewrite length_replicate. apply example_delivers; [lia | vm_compute; congruence].
Defined.

(** the read buffer is not emptied when a connection is used again. A
    connection that was closed while the header of a packet was in it fails at the
    first packet of the next attempt to connect, whatever the peer sends. *)
Theorem stale_packet_breaks_reconnect socket payloadBuffer readBuffer writeBuffer extension size cotp :
  4 < bb_maxSize readBuffer -> 4 <= bb_size readBuffer ->
  CotpConnection_init socket payloadBuffer readBuffer writeBuffer extension size = Some cotp ->
  forall bytes results, cotp_receive (arrives cotp bytes results) = Some (TPKT_ERROR, None, with_readSize (arrives cotp bytes results) 0).
Proof.
  intros Hmx Hsz Hinit bytes results. unfold CotpConnection_init, CotpConnection_setTpduSize in Hinit. cbn [mbind option_bind] in Hinit.
  change (tpduSize_loop 14 1 (if COTP_MAX_TPDU_SIZE <? COTP_MAX_TPDU_SIZE then COTP_MAX_TPDU_SIZE else COTP_MAX_TPDU_SIZE)) with (Some 13) in Hinit.
  cbn [mbind option_bind] in Hinit. injection Hinit as <-.
  unfold cotp_receive, CotpConnection_readToTpktBuffer. cbn [arrives with_socket with_options CotpConnection_resetPayload with_payload ct_readBuffer ct_socketExtensionBufferFill ct_packetSize].
  if_false. cbn [Z.ltb Z.compare mbind option_bind negb]. if_false. unfold read_packet. cbn [ct_packetSize]. if_true. done.
Qed.

Lemma stale_packet_breaks_reconnect_witness :
  let stale := mkByteBuffer (replicate 600 3) 600 5 in
  exists cotp, CotpConnection_init (mkSocket [] [] [] []) (fresh_buffer 600) stale (Some (fresh_buffer 600)) (Some (replicate 600 0)) 600 = Some cotp /\
    forall bytes results, cotp_receive (arrives cotp bytes results) = Some (TPKT_ERROR, None, with_readSize (arrives cotp bytes results) 0).
Proof.
  intros stale. eexists. split; [reflexivity|].
  apply (stale_packet_breaks_reconnect (mkSocket [] [] [] []) (fresh_buffer 600) stale (Some (fresh_buffer 600)) (Some (replicate 600 0)) 600);
    [reflexivity | vm_compute; congruence | reflexivity].
Defined.
