(* ===== verification/IecProperties.v ===== *)
(** Properties of the common types of IEC 61850 and of object references. *)

From S2P Require Import Prelude BerEncoder BerDecoder BerInteger StringUtils CText CFloat MmsValue MmsFacts IecCommon ObjectReference.
Open Scope Z_scope.

(** * Object references *)

(** C30: An object reference survives the way to an MMS variable and back. The reference
    of a data attribute with its functional constraint, with or without an index and a
    component, becomes the domain, the item with the constraint behind the logical node,
    the index and the component; from these the same reference is made again. *)
Theorem object_reference_roundtrip fc f0 f1 ld ln path index :
  FunctionalConstraint_toString fc = Some [f0; f1; 0] -> reference_ok ld ln path index ->
  exists spec post,
    MmsMapping_ObjectReferenceToVariableAccessSpec (reference ld ln path index f0 f1 ++ [0]) = Some (Some spec) /\
    spec = access_spec ld ln path index f0 f1 /\
    MmsMapping_varAccessSpecToObjectReference spec = Some (reference ld ln path index f0 f1 ++ 0 :: post).
Proof.
  intros Hfc Hok. pose proof (toString_letters fc f0 f1 Hfc) as Hl.
  destruct (fromSpec_spec f0 f1 ld ln path index) as [post Hp]; [lia | lia | done|].
  exists (access_spec ld ln path index f0 f1), post. split; [by apply (toSpec_spec fc)|]. done.
Qed.

(** the attribute T.x.y of the node L in the device D, index 12, component c *)
Lemma demo_reference_ok : reference_ok [68] [76] [84; 46; 120] (Some (12, [99])).
Proof.
  unfold reference_ok, plain_char.
  split_and!; try (repeat apply List.Forall_cons; try apply List.Forall_nil; lia); try (vm_compute; done); try lia; apply (bool_decide_unpack _); vm_compute; exact I.
Defined.

Lemma object_reference_roundtrip_witness :
  exists spec, MmsMapping_ObjectReferenceToVariableAccessSpec (reference [68] [76] [84; 46; 120] (Some (12, [99])) 83 84 ++ [0]) = Some (Some spec).
Proof.
  destruct (object_reference_roundtrip IEC61850_FC_ST 83 84 [68] [76] [84; 46; 120] (Some (12, [99])) eq_refl demo_reference_ok) as (spec & post & H & _).
  by exists spec.
Defined.

(** The bounds of variable names. A caller passes a buffer of 65 bytes for the name
    of a variable. An item of at most 61 characters is written with its constraint and a
    terminator, and nothing else of the buffer changes. The check against longer items
    is off by one: an item of 62 characters passes it and its name, with the terminator,
    takes 66 bytes. *)
Theorem variable_name_bounds fc f0 f1 ld item post buffer :
  FunctionalConstraint_toString fc = Some [f0; f1; 0] -> plain ld -> zlen ld <= 64 -> plain item -> zlen item <= 62 -> zlen buffer = 65 ->
  MmsMapping_createMmsVariableNameFromObjectReference ((ld ++ [47]) ++ item ++ 0 :: post) fc (Some buffer) =
  if decide (zlen item <= 61) then Some (Some (splice buffer 0 (mms_name f0 f1 item ++ [0]))) else None.
Proof.
  intros Hfc Hld Hlz Hit Hz Hb. pose proof (zlen_nonneg item).
  rewrite (createName_spec fc f0 f1); [|done | right; by exists ld | done | zlen; lia | done].
  change (default _ (Some buffer)) with buffer. destruct (decide _) as [H61|H61].
  - rewrite puts_fits by (rewrite ?zlen_app, ?zlen_mms_name; change (zlen [0]) with 1; lia). done.
  - rewrite puts_overflow by (rewrite ?zlen_app, ?zlen_mms_name; change (zlen [0]) with 1; lia). done.
Qed.

Lemma variable_name_bounds_witness :
  MmsMapping_createMmsVariableNameFromObjectReference (([68] ++ [47]) ++ replicate 62 65 ++ 0 :: []) IEC61850_FC_ST (Some (replicate 65 0)) = None.
Proof.
  rewrite (variable_name_bounds IEC61850_FC_ST 83 84 [68] (replicate 62 65) [] (replicate 65 0)); [|done | | done | | done | done].
  - destruct (decide _) as [H|H]; [exfalso; vm_compute in H; by destruct H | done].
  - unfold plain_char. repeat apply List.Forall_cons; try apply List.Forall_nil; lia.
  - unfold plain_char. apply Forall_replicate. lia.
Defined.

(** * Time stamps *)

Lemma getSeconds_overflow s rest : 2147483648 <= s < 4294967296 -> Timestamp_getTimeInSeconds (be_bytes 4 s ++ rest) = None.
Proof.
  intros Hs. unfold Timestamp_getTimeInSeconds. rewrite be_bytes_4_eq. unfold ld. cbn [app Z.leb Z.compare]. change (Z.to_nat 0) with 0%nat.
  change (Z.to_nat 3) with 3%nat. change (Z.to_nat 2) with 2%nat. change (Z.to_nat 1) with 1%nat. cbn [lookup list_lookup mbind option_bind].
  assert (128 <= s / 0x1000000 mod 256).
  { rewrite Z.mod_small by (split; [apply Z.div_pos | apply Z.div_lt_upper_bound]; lia). apply Z.div_le_lower_bound; lia. }
  unfold chk_int. if_false. done.
Qed.

(** A time stamp set in nanoseconds reads back as the same time rounded down to the
    resolution of the format, less than 60 nanoseconds early, in the years before 2038.
    From 2038 on reading it multiplies beyond the type int: undefined behaviour, although
    the format lasts until 2106. *)
Theorem timestamp_ns_range t ns :
  zlen t = 8 -> 0 <= ns < 4294967296 * 1000000000 ->
  exists t', Timestamp_setTimeInNanoseconds t ns = Some t' /\ zlen t' = 8 /\
    if decide (ns < 2147483648 * 1000000000) then exists r, Timestamp_getTimeInNs t' = Some r /\ ns - 60 <= r <= ns
    else Timestamp_getTimeInNs t' = None.
Proof.
  intros Ht Hns. assert (exists a b c d e f g h, t = [a; b; c; d; e; f; g; h]) as (a & b & c & d & e & f & g & h & ->).
  { unfold zlen in Ht. destruct t as [|? [|? [|? [|? [|? [|? [|? [|? [|? ?]]]]]]]]]; cbn in Ht; try lia. by repeat eexists. }
  rewrite setTimeInNanoseconds_spec. eexists. split; [done|]. split; [done|].
  pose proof (Z.mod_pos_bound ns 1000000000 ltac:(lia)) as Hm. pose proof (Z.div_mod ns 1000000000 ltac:(lia)). destruct (decide _).
  - assert (0 <= ns / 1000000000 < 2147483648) by (split; [apply Z.div_pos | apply Z.div_lt_upper_bound]; lia).
    rewrite getTimeInNs_spec by (try done; by apply ns_fraction_range). eexists. split; [done|]. pose proof (ns_fraction_ns _ Hm). lia.
  - assert (2147483648 <= ns / 1000000000 < 4294967296) by (split; [apply Z.div_le_lower_bound | apply Z.div_lt_upper_bound]; lia).
    unfold Timestamp_getTimeInNs. by rewrite getSeconds_overflow.
Qed.

Lemma timestamp_ns_range_witness : exists t', Timestamp_setTimeInNanoseconds (replicate 8 0) 2147483648000000000 = Some t' /\ zlen t' = 8.
Proof. destruct (timestamp_ns_range (replicate 8 0) 2147483648000000000) as (t' & H & Hz & _); [done | lia |]. by exists t'. Defined.
