(* ===== verification/SvProperties.v ===== *)
(** Properties of the publisher and the receiver of sampled values. *)

From S2P Require Import Prelude BerEncoder BerDecoder BerInteger StringUtils CFloat MmsValue MmsFacts MmsData GoosePublisher GooseSubscriber GooseReceiver GooseSafety GooseRoundtrip IecCommon SvPublisher SvLayout SvSetup SvRefine SvSubscriber SvSafety SvRoundtrip SvRead SvBounds.
Open Scope Z_scope.

(** * Configuring a publisher *)

(** an operation of the application before the layout *)
Inductive SvConfigure :=
| K_addASDU (svID : list Z) (datset : option (list Z)) (confRev : Z)
| K_addValue (k : nat) (size : Z)
| K_enableRefrTm (k : nat)
| K_setSmpMod (k : nat) (smpMod : Z)
| K_setSmpRate (k : nat) (smpRate : Z)
| K_setSmpCntWrap (k : nat) (value : Z)
| K_setGmIdentity (k : nat) (gmIdentity : list Z).

Definition configure (p : SVPublisher) (c : SvConfigure) : option SVPublisher :=
  match c with
  | K_addASDU svID datset confRev => Some (SVPublisher_addASDU p (Some svID) datset confRev).1
  | K_addValue k size => fst <$> add_value size p k
  | K_enableRefrTm k => SVPublisher_ASDU_enableRefrTm p k
  | K_setSmpMod k v => SVPublisher_ASDU_setSmpMod p k v
  | K_setSmpRate k v => SVPublisher_ASDU_setSmpRate p k v
  | K_setSmpCntWrap k v => SVPublisher_ASDU_setSmpCntWrap p k v
  | K_setGmIdentity k g => SVPublisher_ASDU_setGmIdentity p k g
  end.

Definition configure_all (p : SVPublisher) (cs : list SvConfigure) : option SVPublisher :=
  fold_left (fun p c => p ← p; configure p c) cs (Some p).

(** the arguments have their C types: strings are terminated, numbers in range *)
Definition configure_ok (c : SvConfigure) : Prop :=
  match c with
  | K_addASDU svID datset confRev => 0 ∈ svID /\ string_ok datset /\ 0 <= confRev < 4294967296
  | K_addValue _ size => size = 1 \/ size = 4 \/ size = 8
  | K_setSmpMod _ v => 0 <= v < 256
  | K_setSmpRate _ v => 0 <= v < 65536
  | K_setSmpCntWrap _ v => 0 <= v < 65536
  | K_setGmIdentity _ _ | K_enableRefrTm _ => True
  end.

(** the members of an ASDU have the ranges of their types *)
Definition asdu_typed (a : SVPublisher_ASDU) : Prop :=
  0 <= as_smpCnt a < 65536 /\ 0 <= as_confRev a < 4294967296 /\ 0 <= as_smpRate a < 65536 /\ 0 <= as_smpMod a < 256.

Definition configured (p : SVPublisher) (link : list Z) (appId : Z) : Prop :=
  publisher_new p link appId /\ Forall asdu_typed (sv_asduList p).

Lemma set_asdu_configured p link appId k f p' :
  configured p link appId -> set_asdu p k f = Some p' ->
  (forall a, asdu_new a -> asdu_typed a -> asdu_new (f a) /\ asdu_typed (f a)) -> configured p' link appId.
Proof.
  intros [(Hz & Hs & Hl & Hps & Hat & Hn) Ht] H Hf. unfold set_asdu, on_asdu in H. destruct (sv_asduList p !! k) as [a|] eqn:Ea; [|done].
  cbn in H. injection H as <-. destruct p as [b so lf ps pl n l]. cbn in *.
  assert (asdu_new (f a) /\ asdu_typed (f a)) as [H1 H2] by (apply Hf; [by apply (Forall_lookup_1 _ _ _ _ Hn Ea) | by apply (Forall_lookup_1 _ _ _ _ Ht Ea)]).
  split; [|by apply Forall_insert]. unfold publisher_new. cbn. split_and!; try done. by apply Forall_insert.
Qed.

(** Whatever the application configures, the publisher can be laid out. *)
Lemma configure_configured p link appId c p' :
  configured p link appId -> configure_ok c -> configure p c = Some p' -> configured p' link appId.
Proof.
  intros Hc Hok H. destruct c; cbn [configure configure_ok] in *.
  - injection H as <-. destruct Hc as [(Hz & Hs & Hl & Hps & Hat & Hn) Ht]. destruct p as [b so lf ps pl n l]. cbn in *.
    split; [|apply Forall_app; split; [done|]; apply Forall_singleton; unfold asdu_typed; cbn; lia].
    unfold publisher_new. cbn. split_and!; try done. apply Forall_app. split; [done|]. apply Forall_singleton.
    split; [|done]. destruct Hok as (? & ? & ?). split; [by exists svID|]. split; [done|]. cbn. split; [lia | done].
  - unfold add_value in H. destruct (sv_asduList p !! k); [|done]. cbn [mbind option_bind] in H. destruct (set_asdu p k _) as [p1|] eqn:E; [|done]. cbn in H. injection H as <-.
    eapply set_asdu_configured; [done..|]. intros [] [(? & ? & ? & ?) ?] ?. unfold asdu_new, asdu_ok, asdu_typed in *. cbn in *. split_and!; (done || lia || intuition).
  - eapply set_asdu_configured; [done..|]. intros [] ? ?. unfold asdu_new, asdu_ok, asdu_typed in *. cbn in *. intuition.
  - eapply set_asdu_configured; [done..|]. intros [] ? ?. unfold asdu_new, asdu_ok, asdu_typed in *. cbn in *. intuition.
  - eapply set_asdu_configured; [done..|]. intros [] ? ?. unfold asdu_new, asdu_ok, asdu_typed in *. cbn in *. intuition.
  - eapply set_asdu_configured; [done..|]. intros [] ? ?. unfold asdu_new, asdu_ok, asdu_typed in *. cbn in *. intuition.
  - unfold SVPublisher_ASDU_setGmIdentity in H. destruct (ld_range gmIdentity 0 8) as [gm|] eqn:E; [|done]. cbn [mbind option_bind] in H. apply ld_range_zlen in E as [E _].
    eapply set_asdu_configured; [done..|]. intros [] ? ?. unfold asdu_new, asdu_ok, asdu_typed in *. cbn in *. intuition.
Qed.

Lemma configure_all_configured cs : forall p link appId p',
  configured p link appId -> Forall configure_ok cs -> configure_all p cs = Some p' -> configured p' link appId.
Proof.
  unfold configure_all. induction cs as [|c cs IH]; intros p link appId p' Hc HF H; cbn [fold_left] in H; [by injection H as <-|].
  apply Forall_cons_1 in HF as [Hc1 HF]. cbn [mbind option_bind] in H. destruct (configure p c) as [p1|] eqn:E.
  - apply (IH p1); [by eapply configure_configured | done | done].
  - clear -H. induction cs; cbn in H; [done | auto].
Qed.

(** A new publisher: the link header of its communication parameters. *)
Lemma createEx_configured parameters srcAddr vlan :
  let c := default svDefaultCommParameters parameters in
  6 <= zlen (cp_dstAddress c) -> 6 <= zlen srcAddr -> 0 <= cp_appId c < 65536 ->
  exists p link, SVPublisher_createEx parameters srcAddr true vlan = Some (Some p) /\ configured p link (cp_appId c) /\
    link_ok link (take 6 (cp_dstAddress c)) /\ zlen link = (if vlan then 16 else 12).
Proof.
  intros c Hd Hs Hid. unfold SVPublisher_createEx, preparePacketBuffer. fold c. change (Z.to_nat SV_MAX_MESSAGE_SIZE) with 1518%nat.
  rewrite !(ld_range_Some _ 0 6) by lia. change (Z.to_nat 0) with O. change (Z.to_nat 6) with 6%nat. rewrite !drop_0. cbn [mbind option_bind].
  set (dst := take 6 (cp_dstAddress c)). set (src := take 6 srcAddr).
  assert (zlen dst = 6) as Hdz by (apply (zlen_take _ 6); lia). assert (zlen src = 6) as Hsz by (apply (zlen_take _ 6); lia).
  destruct (zlen_6 _ Hdz) as (d0 & d1 & d2 & d3 & d4 & d5 & Ed). destruct (zlen_6 _ Hsz) as (s0 & s1 & s2 & s3 & s4 & s5 & Es). rewrite Ed, Es.
  rewrite st_range_front by zlia. cbn [mbind option_bind]. 
  set (tci1 := u8 (u8 (Z.shiftl (cp_vlanPriority c) 5) + cp_vlanId c / 256)). set (tci2 := u8 (cp_vlanId c mod 256)).
  destruct vlan.
  - eexists _, (([d0; d1; d2; d3; d4; d5] ++ [s0; s1; s2; s3; s4; s5] ++ [0x81; 0x00; tci1; tci2])). split; [reflexivity|].
    split; [split; [|apply List.Forall_nil]|split; [|reflexivity]].
    2: { exists [s0; s1; s2; s3; s4; s5], [0x81; 0x00; tci1; tci2]. split; [reflexivity|]. split_and!; [done..|]. right. by eexists _, _. }
    unfold publisher_new. cbn [sv_buffer sv_ethernetSocket sv_lengthField sv_payloadStart sv_asduList]. split; [reflexivity|]. split; [done|]. split; [reflexivity|]. split; [reflexivity|].
    split; [|apply List.Forall_nil]. exists 8, [], (replicate 1492 0). split; [reflexivity | done].
  - eexists _, (([d0; d1; d2; d3; d4; d5] ++ [s0; s1; s2; s3; s4; s5] ++ [])). split; [reflexivity|].
    split; [split; [|apply List.Forall_nil]|split; [|reflexivity]].
    2: { exists [s0; s1; s2; s3; s4; s5], []. split; [reflexivity|]. split_and!; [done..|]. by left. }
    unfold publisher_new. cbn [sv_buffer sv_ethernetSocket sv_lengthField sv_payloadStart sv_asduList]. split; [reflexivity|]. split; [done|]. split; [reflexivity|]. split; [reflexivity|].
    split; [|apply List.Forall_nil]. exists 8, [], (replicate 1496 0). split; [reflexivity | done].
Qed.

(** * Writing samples *)

(** a sequence of writes, each to the ASDU with an index *)
Definition write_all (p : SVPublisher) (ws : list (nat * SvWrite)) : option SVPublisher :=
  fold_left (fun p '(k, w) => p ← p; write_publisher w p k) ws (Some p).

Definition write_samples (samples : list SvSample) (ws : list (nat * SvWrite)) : list SvSample :=
  fold_left (fun samples '(k, w) => alter (write_sample w) k samples) ws samples.

(** each write goes to an ASDU there is, and its arguments are right for it *)
Definition write_typed (w : SvWrite) : Prop := match w with W_SmpCnt v => 0 <= v < 65536 | _ => True end.

Fixpoint sv_writes_ok (samples : list SvSample) (ws : list (nat * SvWrite)) : Prop :=
  match ws with
  | [] => True
  | (k, w) :: ws =>
      (exists s, samples !! k = Some s /\ write_ok w s) /\ write_typed w /\ sv_writes_ok (alter (write_sample w) k samples) ws
  end.

Lemma alter_insert {A} (f : A -> A) (l : list A) k x : l !! k = Some x -> alter f k l = <[k := f x]> l.
Proof.
  revert k. induction l as [|y l IH]; intros [|k] H; cbn in *; [done | done | by injection H as -> | by rewrite IH].
Qed.

Lemma write_all_rep ws : forall p link appId samples,
  publisher_rep p link appId samples -> sv_writes_ok samples ws ->
  exists p', write_all p ws = Some p' /\ publisher_rep p' link appId (write_samples samples ws).
Proof.
  unfold write_all, write_samples. induction ws as [|[k w] ws IH]; intros p link appId samples Hrep Hok; [by exists p|].
  cbn [fold_left sv_writes_ok] in *. destruct Hok as [(s & Hk & Hw) [_ Hok]]. cbn [mbind option_bind].
  destruct (write_rep p link appId samples k s w Hrep Hk Hw) as (p1 & -> & Hrep1). rewrite (alter_insert _ _ _ _ Hk) in *. by apply IH.
Qed.

(** the typed fields of a sample are not the ones a write can break *)
Lemma write_sample_typed w s : sample_typed s -> write_typed w -> sample_typed (write_sample w s).
Proof.
  intros Hs Hw. unfold write_sample. destruct (data_octets w) as [[i bs]|]; [by destruct s|].
  destruct w; try done; try (by destruct s); unfold write_refrTm.
  - destruct s. unfold sample_typed in *. cbn in *. intuition.
  - destruct s. unfold sample_typed in *. cbn in *. split_and!; try (intuition; fail); unfold u16; apply Z.mod_pos_bound; lia.
  - destruct (sp_refrTm s); [by destruct s | done].
  - destruct (sp_refrTm s); [by destruct s | done].
  - destruct (sp_refrTm s); [by destruct s | done].
Qed.

Lemma write_samples_typed ws : forall samples, Forall sample_typed samples -> sv_writes_ok samples ws -> Forall sample_typed (write_samples samples ws).
Proof.
  unfold write_samples. induction ws as [|[k w] ws IH]; intros samples Hs Hok; [done|]. cbn [fold_left sv_writes_ok] in *.
  destruct Hok as [(s & Hk & _) [Hw Hok]]. rewrite (alter_insert _ _ _ _ Hk) in *. apply IH; [|done]. apply Forall_insert; [done|].
  apply write_sample_typed; [by apply (Forall_lookup_1 _ _ _ _ Hs Hk) | done].
Qed.

(** a C string has no zero in it *)
Lemma sv_string_no_zero s : 0 ∉ c_string s.
Proof.
  induction s as [|c s IH]; cbn [c_string]; [by apply not_elem_of_nil|]. destruct (c =? 0) eqn:E; [by apply not_elem_of_nil|]. bdestr.
  rewrite elem_of_cons. intros [<-|H]; [done | by apply IH].
Qed.

Lemma sample_for_typed a s : asdu_typed a -> sample_for a s -> sample_typed s.
Proof.
  intros (H1 & H2 & H3 & H4) (t & d & -> & _ & _). unfold sample_typed, sample_of. cbn [sp_svId sp_datSet sp_smpCnt sp_confRev sp_smpRate sp_smpMod].
  split; [unfold ber_string; case_match; [apply sv_string_no_zero | by apply not_elem_of_nil]|].
  split. { intros x Hx. destruct (as_datset a); [|done]. injection Hx as <-. apply sv_string_no_zero. }
  split_and!; try lia; unfold when; case_match; intros ? [= <-]; done.
Qed.

Lemma samples_for_typed asdus samples : Forall asdu_typed asdus -> Forall2 sample_for asdus samples -> Forall sample_typed samples.
Proof.
  intros HF H. induction H as [|a s asdus samples Ha H IH]; [constructor|]. apply Forall_cons_1 in HF as [Ht HF].
  apply List.Forall_cons; [by apply (sample_for_typed a) | auto].
Qed.

(** What is sent is the frame. *)
Lemma publish_rep p link appId samples :
  publisher_rep p link appId samples -> SVPublisher_publish p = Some (Some (sv_frame link appId samples)).
Proof.
  intros (Hz & Hs & Hps & Hpl & Hat & _). unfold SVPublisher_publish. rewrite Hs, Hps, Hpl.
  assert (zlen link + 10 + zlen (sv_apdu samples) = zlen (sv_frame link appId samples)) as -> by (unfold sv_frame; rewrite zlen_app, zlen_sv_header; done).
  by rewrite (at_pos_range _ _ _ Hat).
Qed.

(** a receiver with a subscriber for the frames of a publisher *)
Definition subscribed (self : SVReceiver) (appId : Z) (dst : list Z) (k : nat) : Prop :=
  zlen (sr_buffer self) = SV_ETH_BUFFER_LENGTH /\ sr_ethSocket self = true /\
  Forall (fun s => zlen (ss_ethAddr s) = 6) (sr_subscriberList self) /\
  exists pre s post, sr_subscriberList self = pre ++ s :: post /\ length pre = k /\
    Forall (fun s => ~ sv_interested (sr_checkDestAddr self) appId dst s) pre /\
    sv_interested (sr_checkDestAddr self) appId dst s /\ ss_listener s = true.

Lemma rep_received p link dst appId samples self k :
  publisher_rep p link appId samples -> link_ok link dst -> 0 <= appId < 65536 -> subscribed self appId dst k ->
  exists self' calls, SVReceiver_tick self (sv_frame link appId samples) = Some (self', true, calls) /\ delivered_samples k calls samples.
Proof.
  intros (Hz & _ & _ & _ & Hat & _) Hl Hid (Hb & Hsock & HF & pre & s & post & Hsubs & <- & Hpre & Hs & Hlis).
  apply (frame_received self link dst appId samples pre s post); try done. pose proof (at_pos_bounds _ _ _ Hat).
  unfold SV_MAX_MESSAGE_SIZE, SV_ETH_BUFFER_LENGTH in *. lia.
Qed.

Lemma delivered_read k calls samples :
  delivered_samples k calls samples -> Forall sample_typed samples -> Forall2 (fun u s => su_subscriber u = k /\ sample_read u s) calls samples.
Proof.
  intros H. induction H as [|u s calls samples [Hk Hu] H IH]; intros HF; [constructor|]. apply Forall_cons_1 in HF as [Ht HF].
  constructor; [|auto]. split; [done|]. by apply asdu_is_read.
Qed.

(** * The properties *)

(** C27: Sampled values from end to end. A publisher is created for some communication
    parameters and configured by any calls (ASDUs, values, optional fields); its frame
    fits; the frame is laid out, and the application writes to the ASDUs in any order.
    Then the frame that is published makes a receiver with a subscriber for it call the
    listener once for each ASDU, in order, and what the listener reads is what was
    configured and written last: identifier, data set, counter, revision,
    synchronization, time, rate and all data. *)
Theorem sampled_values_delivered parameters srcAddr vlan cs ws p0 p self k :
  let c := default svDefaultCommParameters parameters in
  6 <= zlen (cp_dstAddress c) -> 6 <= zlen srcAddr -> 0 <= cp_appId c < 65536 ->
  SVPublisher_createEx parameters srcAddr true vlan = Some (Some p0) ->
  Forall configure_ok cs -> configure_all p0 cs = Some p ->
  frame_size (replicate (if vlan then 16 else 12)%nat 0) (sv_asduList p) <= SV_MAX_MESSAGE_SIZE ->
  (forall samples, Forall2 sample_for (sv_asduList p) samples -> sv_writes_ok samples ws) ->
  subscribed self (cp_appId c) (take 6 (cp_dstAddress c)) k ->
  exists samples p1 p2 frame self' calls,
    Forall2 sample_for (sv_asduList p) samples /\
    SVPublisher_setupComplete p = Some p1 /\ write_all p1 ws = Some p2 /\ SVPublisher_publish p2 = Some (Some frame) /\
    SVReceiver_tick self frame = Some (self', true, calls) /\
    Forall2 (fun u s => su_subscriber u = k /\ sample_read u s) calls (write_samples samples ws).
Proof.
  intros c Hd Hs Hid Hcr Hcs Hconf Hfit Hws Hsub.
  destruct (createEx_configured parameters srcAddr vlan Hd Hs Hid) as (q & link & Hq & Hcq & Hlink & Hlen). fold c in Hcq, Hlink.
  rewrite Hcr in Hq. injection Hq as <-. destruct (configure_all_configured cs p0 link (cp_appId c) p Hcq Hcs Hconf) as [Hnew Htyped].
  assert (zlen link = zlen (replicate (if vlan then 16 else 12)%nat 0)) as Hll by (rewrite Hlen; by destruct vlan).
  destruct (setupComplete_spec p link (cp_appId c) Hnew) as (samples & p1 & Hset & HF & Hrep); [unfold frame_size in *; by rewrite Hll|].
  pose proof (Hws samples HF) as Hok. destruct (write_all_rep ws p1 link (cp_appId c) samples Hrep Hok) as (p2 & Hw & Hrep2).
  destruct (rep_received p2 link _ (cp_appId c) _ self k Hrep2 Hlink Hid Hsub) as (self' & calls & Htick & Hdel).
  exists samples, p1, p2, (sv_frame link (cp_appId c) (write_samples samples ws)), self', calls. split_and!; try done; [by apply publish_rep|].
  apply delivered_read; [done|]. apply write_samples_typed; [|done]. by apply (samples_for_typed (sv_asduList p)).
Qed.

Definition demo_sv_publisher : SVPublisher := Eval vm_compute in
  match SVPublisher_createEx None (replicate 6 0) true true with Some (Some p) => p | _ => mkSVPublisher [] false 0 0 0 0 [] end.
(** two ASDUs, the first with two values and a time *)
Definition demo_configuration : list SvConfigure :=
  [K_addASDU [115; 118; 49; 0] None 1; K_addASDU [115; 118; 50; 0] (Some [100; 0]) 2; K_addValue 0 4; K_addValue 0 8; K_addValue 1 4; K_enableRefrTm 0].
Definition demo_configured : SVPublisher := Eval vm_compute in default demo_sv_publisher (configure_all demo_sv_publisher demo_configuration).
Definition demo_writes : list (nat * SvWrite) := [(0%nat, W_INT32 0 (-7)); (1%nat, W_SmpCnt 65535); (0%nat, W_RefrTmNs 1700000000000000001); (0%nat, W_IncreaseSmpCnt)].
Definition demo_receiver : SVReceiver :=
  mkSVReceiver true false true None (replicate 1518 255) true [mkSVSubscriber [1; 12; 205; 1; 0; 1] 0x4000 true] true.

Lemma demo_samples samples : Forall2 sample_for (sv_asduList demo_configured) samples -> sv_writes_ok samples demo_writes.
Proof.
  change (sv_asduList demo_configured) with
    [mkSVPublisher_ASDU (Some [115; 118; 49; 0]) None 12 true false false false None 0 0 65535 1 (replicate 8 0) None 0 0 None None;
     mkSVPublisher_ASDU (Some [115; 118; 50; 0]) (Some [100; 0]) 4 false false false false None 0 0 65535 2 (replicate 8 0) None 0 0 None None].
  intros HF. apply Forall2_cons_inv_l in HF as (s1 & l1 & (t1 & d1 & -> & Ht1 & Hd1) & HF & ->).
  apply Forall2_cons_inv_l in HF as (s2 & l2 & (t2 & d2 & -> & Ht2 & Hd2) & HF & ->). apply Forall2_nil_inv_l in HF as ->.
  cbn in Hd1, Hd2. cbn [sv_writes_ok demo_writes]. split; [|split; [done|]].
  { eexists. split; [reflexivity|]. split; [done|]. cbn [data_octets sample_of sp_data]. rewrite zlen_be_bytes. lia. }
  split; [eexists; split; [reflexivity|]; by split|]. split; [cbn; lia|].
  split; [eexists; split; [reflexivity|]; by split|]. split; [done|].
  split; [eexists; split; [reflexivity|]; by split|]. done.
Qed.

Lemma sampled_values_delivered_witness :
  exists frame self' calls, SVReceiver_tick demo_receiver frame = Some (self', true, calls) /\ length calls = 2%nat.
Proof.
  destruct (sampled_values_delivered None (replicate 6 0) true demo_configuration demo_writes demo_sv_publisher demo_configured demo_receiver 0)
    as (samples & p1 & p2 & frame & self' & calls & HF & _ & _ & _ & Htick & Hcalls).
  - done.
  - done.
  - cbn. lia.
  - vm_compute. reflexivity.
  - unfold demo_configuration. repeat apply List.Forall_cons; try apply List.Forall_nil; cbn; repeat split; try lia; try (by left); apply (bool_decide_unpack _); vm_compute; exact I.
  - vm_compute. reflexivity.
  - vm_compute. done.
  - exact demo_samples.
  - split; [reflexivity|]. split; [done|]. split; [by apply Forall_singleton|].
    exists [], (mkSVSubscriber [1; 12; 205; 1; 0; 1] 0x4000 true), []. split; [done|]. split; [done|]. split; [by apply List.Forall_nil|].
    split; [|done]. split; done.
  - exists frame, self', calls. split; [done|]. apply Forall2_length in Hcalls. rewrite Hcalls. unfold write_samples, demo_writes. cbn [fold_left]. rewrite !length_alter.
    apply Forall2_length in HF. rewrite <- HF. reflexivity.
Defined.

(** C28: The publisher refines a list of samples. Once the frame is laid out, any
    sequence of the functions that set values, counters, times and synchronization
    stores through the pointers of the ASDUs; the memory then holds the frame of the
    samples after the same writes on them, so a write changes its field and nothing
    else, and that frame is what is sent. *)
Theorem sv_writes_refine p link appId samples ws :
  publisher_rep p link appId samples -> sv_writes_ok samples ws ->
  exists p', write_all p ws = Some p' /\ publisher_rep p' link appId (write_samples samples ws) /\
    SVPublisher_publish p' = Some (Some (sv_frame link appId (write_samples samples ws))).
Proof.
  intros Hrep Hok. destruct (write_all_rep ws p link appId samples Hrep Hok) as (p' & Hw & Hrep'). exists p'.
  split; [done|]. split; [done|]. by apply publish_rep.
Qed.

Definition demo_link : list Z := [1; 12; 205; 1; 0; 1; 0; 0; 0; 0; 0; 0; 129; 0; 128; 0].

Lemma demo_new : publisher_new demo_configured demo_link 0x4000.
Proof.
  assert (configured demo_sv_publisher demo_link 0x4000) as Hc.
  { split; [|apply List.Forall_nil]. split; [reflexivity|]. split; [done|]. split; [done|]. split; [done|]. split; [|apply List.Forall_nil].
    exists 8, [], (replicate 1492 0). split; [vm_compute; reflexivity | done]. }
  apply (configure_all_configured demo_configuration demo_sv_publisher demo_link 0x4000 demo_configured Hc); [|vm_compute; reflexivity].
  unfold demo_configuration. repeat apply List.Forall_cons; try apply List.Forall_nil; cbn; repeat split; try lia; try (by left); apply (bool_decide_unpack _); vm_compute; exact I.
Defined.

Lemma demo_fits : frame_size demo_link (sv_asduList demo_configured) <= SV_MAX_MESSAGE_SIZE.
Proof. vm_compute. done. Defined.

Lemma sv_writes_refine_witness : exists p1 p2, SVPublisher_setupComplete demo_configured = Some p1 /\ write_all p1 demo_writes = Some p2.
Proof.
  destruct (setupComplete_spec demo_configured demo_link 0x4000 demo_new demo_fits) as (samples & p1 & Hset & HF & Hrep).
  destruct (sv_writes_refine p1 demo_link 0x4000 samples demo_writes Hrep (demo_samples samples HF)) as (p2 & Hw & _). exists p1, p2. split; [exact Hset | exact Hw].
Defined.

(** The bounds of the layout. A configured publisher whose frame has at most 1518
    bytes is laid out, and the frame it sends holds the configured fields. When the
    frame is longer, nothing checks it: the layout stores behind the buffer, or what is
    sent reaches behind it. *)
Theorem sv_layout_bounds p link appId :
  publisher_new p link appId -> frame_size link (sv_asduList p) < 65535 ->
  if decide (frame_size link (sv_asduList p) <= SV_MAX_MESSAGE_SIZE) then
    exists samples p', SVPublisher_setupComplete p = Some p' /\ Forall2 sample_for (sv_asduList p) samples /\
      SVPublisher_publish p' = Some (Some (sv_frame link appId samples))
  else (p' ← SVPublisher_setupComplete p; SVPublisher_publish p') = None.
Proof.
  intros Hnew Hs. destruct (decide _) as [Hf|Hf].
  - destruct (setupComplete_spec p link appId Hnew Hf) as (samples & p' & Hset & HF & Hrep). exists samples, p'. split; [done|]. split; [done|]. by apply publish_rep.
  - apply (setup_overflow p link appId); [done | lia].
Qed.

Lemma sv_layout_bounds_witness : exists samples p', SVPublisher_setupComplete demo_configured = Some p' /\ SVPublisher_publish p' = Some (Some (sv_frame demo_link 0x4000 samples)).
Proof.
  pose proof (sv_layout_bounds demo_configured demo_link 0x4000 demo_new) as H. destruct (decide _) as [_|Hf]; [|by destruct (Hf demo_fits)].
  destruct H as (samples & p' & Hset & _ & Hpub); [vm_compute; done|]. exists samples, p'. split; [exact Hset | exact Hpub].
Defined.

(** C29: The receiver of sampled values is memory safe for every sequence of packets
    shorter than its buffer of 1518 bytes, whatever they hold: the thread reads and
    writes inside the buffer and ends each packet, and every ASDU a listener gets points
    into the buffer, with all its data. *)
Theorem sv_receiver_safe self events :
  sv_receiver_ok self ->
  Forall (fun e => match e with Wait_packet p => bytes_ok p /\ zlen p < SV_ETH_BUFFER_LENGTH | _ => True end) events ->
  exists self' calls, svReceiverLoop self events = Some (self', calls) /\ sv_receiver_ok self' /\ calls_in 0 SV_ETH_BUFFER_LENGTH calls.
Proof.
  intros Hok HF. assert (forall b, sv_receiver_ok (sr_with_stopped self b)) as Hst by (intros b; by destruct self). unfold svReceiverLoop. destruct (sr_ethSocket self).
  - destruct (receiver_loop_in (sr_with_stopped self false) events (Hst false) HF) as (self' & calls & -> & Hok' & Hc). cbn [mbind option_bind].
    exists (sr_with_stopped self' true), calls. split; [done|]. split; [by destruct self' | done].
  - exists (sr_with_stopped self true), []. split; [done|]. split; [done | apply List.Forall_nil].
Qed.

Lemma sv_receiver_safe_witness : exists self' calls, svReceiverLoop demo_receiver [Wait_packet (replicate 1517 0x88); Wait_failure] = Some (self', calls).
Proof.
  destruct (sv_receiver_safe demo_receiver [Wait_packet (replicate 1517 0x88); Wait_failure]) as (self' & calls & H & _).
  - split; [by apply Forall_replicate|]. split; [reflexivity|]. by apply Forall_singleton.
  - apply List.Forall_cons; [split; [by apply Forall_replicate | vm_compute; done]|]. by apply Forall_singleton.
  - by exists self', calls.
Defined.

(** a frame of the full 1518 bytes: one ASDU, its identifier at the end *)
Definition full_frame : list Z :=
  [1; 12; 205; 1; 0; 1; 0; 0; 0; 0; 0; 0; 0x88; 0xba; 0x40; 0x00; 0x05; 0xe0; 0; 0; 0; 0] ++
  [0x60; 0x82; 0x05; 0xd4; 0xa2; 0x82; 0x05; 0xd0; 0x30; 0x82; 0x05; 0xcc; 0x87; 0x82; 0x05; 0xc4] ++ replicate 1476 0 ++ [0x80; 0x02; 65; 66].
(** a frame of 1517 bytes: one ASDU, its counter empty and at the end *)
Definition short_counter_frame : list Z :=
  [1; 12; 205; 1; 0; 1; 0; 0; 0; 0; 0; 0; 0x88; 0xba; 0x40; 0x00; 0x05; 0xdf; 0; 0; 0; 0] ++
  [0x60; 0x82; 0x05; 0xd3; 0xa2; 0x82; 0x05; 0xcf; 0x30; 0x82; 0x05; 0xcb; 0x87; 0x82; 0x05; 0xc5] ++ replicate 1477 0 ++ [0x82; 0x00].

(** Two overruns of the receive buffer. In a frame of the full 1518 bytes the
    identifier of an ASDU may end with the frame: the parser then stores its terminator
    one byte behind the buffer. And no length of a field is checked: an empty counter at
    the end of a frame is accepted, the listener is called, and reading the counter
    reaches behind the buffer. *)
Theorem sv_receiver_overruns :
  SVReceiver_tick demo_receiver full_frame = None /\
  exists self' u, SVReceiver_tick demo_receiver short_counter_frame = Some (self', true, [u]) /\
    SVSubscriber_ASDU_getSmpCnt (su_asdu u) (su_buffer u) = None.
Proof.
  split; [vm_compute; reflexivity|]. eexists _, _. split; [vm_compute; reflexivity | vm_compute; reflexivity].
Qed.

(** A value of every type that is written to an ASDU is the value the subscriber
    reads from it: integers with their sign, floating point numbers by their bits, time
    stamps and qualities. *)
Theorem sv_value_roundtrip w v s u :
  asdu_is (su_buffer u) (su_asdu u) (write_sample w s) -> write_ok w s -> written w v ->
  read_back w (su_asdu u) (su_buffer u) = Some v.
Proof. apply read_back_written. Qed.

(** the delivery of a single ASDU with four bytes of data *)
Definition demo_sample : SvSample := mkSvSample [65] None 0 1 None 0 None [0; 0; 0; 0] (Some 1) None 65535.
Definition demo_update (s : SvSample) : SVUpdate :=
  match parseASDU 0 true (sample_content s) 0 (zlen (sample_content s)) with
  | Some (_, [u]) => u
  | _ => mkSVUpdate 0 (mkSVSubscriber_ASDU None None None None None None None None 0 None) []
  end.

Lemma demo_asdu s : zlen (sample_content s) < 16777216 -> asdu_is (su_buffer (demo_update s)) (su_asdu (demo_update s)) s.
Proof.
  intros Hs. unfold demo_update. destruct (parseASDU_sample 0 (sample_content s) 0 s []) as (b & a & -> & Ha & _); [done | rewrite app_nil_r; apply at_pos_whole | done|]. done.
Defined.

Lemma sv_value_roundtrip_witness :
  let u := demo_update (write_sample (W_INT32 0 (-7)) demo_sample) in SVSubscriber_ASDU_getINT32 (su_asdu u) (su_buffer u) 0 = Some (-7).
Proof.
  intros u. pose proof (sv_value_roundtrip (W_INT32 0 (-7)) [-7] demo_sample u) as H. cbn [read_back] in H.
  destruct (SVSubscriber_ASDU_getINT32 (su_asdu u) (su_buffer u) 0) as [v|]; cbn in H.
  - f_equal. assert (Some [v] = Some [-7]) as [= ->]; [|done]. apply H; [apply demo_asdu; vm_compute; done | split; [done | vm_compute; done] | split; [done | vm_compute; done]].
  - assert (None = Some [-7]); [|done]. apply H; [apply demo_asdu; vm_compute; done | split; [done | vm_compute; done] | split; [done | vm_compute; done]].
Defined.

(** A sampling mode does not survive: it is sent in two octets, most significant
    first, and the subscriber reads one, so it reads zero for every mode. *)
Theorem smpMod_lost u s m :
  asdu_is (su_buffer u) (su_asdu u) s -> sp_smpMod s = Some m -> 0 <= m < 256 ->
  SVSubscriber_ASDU_getSmpMod (su_asdu u) (su_buffer u) = Some 0.
Proof.
  intros (_ & _ & _ & _ & _ & _ & _ & Hm & _) Hs Hr. rewrite Hs in Hm. destruct Hm as (p & Hp & Hat). unfold SVSubscriber_ASDU_getSmpMod. rewrite Hp. cbn [mbind option_bind].
  unfold be_bytes in Hat. cbn in Hat. apply at_pos_cons in Hat as [-> _]. by rewrite Z.div_small.
Qed.

Lemma smpMod_lost_witness : SVSubscriber_ASDU_getSmpMod (su_asdu (demo_update demo_sample)) (su_buffer (demo_update demo_sample)) = Some 0.
Proof. apply (smpMod_lost (demo_update demo_sample) demo_sample 1); [apply demo_asdu; vm_compute; done | done | lia]. Defined.

(** ** The sample counter *)

Lemma increase_samples n : forall samples k s,
  samples !! k = Some s -> 0 <= sp_smpCnt s < sp_smpCntLimit s -> sp_smpCntLimit s < 65536 ->
  sv_writes_ok samples (replicate n (k, W_IncreaseSmpCnt)) /\
  exists s', write_samples samples (replicate n (k, W_IncreaseSmpCnt)) !! k = Some s' /\
    sp_smpCnt s' = (sp_smpCnt s + Z.of_nat n) mod sp_smpCntLimit s /\ sp_smpCntLimit s' = sp_smpCntLimit s.
Proof.
  induction n as [|n IH]; intros samples k s Hk Hc Hl; cbn [replicate sv_writes_ok].
  - split; [done|]. exists s. split; [done|]. rewrite Z.add_0_r, Z.mod_small by lia. done.
  - set (s1 := write_sample W_IncreaseSmpCnt s). set (l := sp_smpCntLimit s) in *.
    assert (sp_smpCnt s1 = (sp_smpCnt s + 1) mod l /\ sp_smpCntLimit s1 = l) as [H1 H2].
    { unfold s1, write_sample. cbn [data_octets]. destruct s. cbn in *. split; [|done]. rewrite Z.rem_mod_nonneg by lia. unfold u16. apply Z.mod_small.
      pose proof (Z.mod_pos_bound (sp_smpCnt + 1) l ltac:(lia)). lia. }
    pose proof (Z.mod_pos_bound (sp_smpCnt s + 1) l ltac:(lia)) as Hm.
    assert (alter (write_sample W_IncreaseSmpCnt) k samples !! k = Some s1) as Hk1 by (rewrite list_lookup_alter_eq, Hk; done).
    destruct (IH _ k s1 Hk1) as (Hok & s' & Hs' & Hcnt & Hlim); [lia | lia|]. split.
    + split; [exists s; split; [done|]; split; [fold l; lia | done]|]. split; [done|]. exact Hok.
    + exists s'. split; [exact Hs'|]. rewrite Hcnt, Hlim, H1, H2. split; [|done]. rewrite Zplus_mod_idemp_l. f_equal. lia.
Qed.

(** The sample counter counts modulo its limit: after any number of increments it
    is the number of them, modulo the limit, in the ASDU and in the frame. So it stays
    below the limit; with the default limit of 65535 a frame never carries the count
    65535, although the counter has 16 bits. *)
Theorem smpCnt_counts p link appId samples k s n :
  publisher_rep p link appId samples -> samples !! k = Some s -> 0 <= sp_smpCnt s < sp_smpCntLimit s -> sp_smpCntLimit s < 65536 ->
  exists p' samples' s', write_all p (replicate n (k, W_IncreaseSmpCnt)) = Some p' /\ publisher_rep p' link appId samples' /\ samples' !! k = Some s' /\
    sp_smpCnt s' = (sp_smpCnt s + Z.of_nat n) mod sp_smpCntLimit s /\ SVPublisher_ASDU_getSmpCnt p' k = Some (sp_smpCnt s').
Proof.
  intros Hrep Hk Hc Hl. destruct (increase_samples n samples k s Hk Hc Hl) as (Hok & s' & Hs' & Hcnt & _).
  destruct (write_all_rep _ p link appId samples Hrep Hok) as (p' & Hw & Hrep'). exists p', (write_samples samples (replicate n (k, W_IncreaseSmpCnt))), s'.
  split_and!; try done. pose proof Hrep' as (_ & _ & _ & _ & _ & Hptrs). destruct (asdus_ptrs_lookup _ _ _ _ _ Hptrs Hs') as (_ & _ & a & _ & _ & Ha & (_ & Hcnt' & _) & _).
  unfold SVPublisher_ASDU_getSmpCnt. rewrite Ha. cbn. by rewrite Hcnt'.
Qed.

Lemma smpCnt_counts_witness : exists p1 p', SVPublisher_setupComplete demo_configured = Some p1 /\
  write_all p1 (replicate 70000 (0%nat, W_IncreaseSmpCnt)) = Some p' /\ SVPublisher_ASDU_getSmpCnt p' 0 = Some (70000 mod 65535).
Proof.
  destruct (setupComplete_spec demo_configured demo_link 0x4000 demo_new demo_fits) as (samples & p1 & Hset & HF & Hrep).
  pose proof HF as HF2. change (sv_asduList demo_configured) with
    [mkSVPublisher_ASDU (Some [115; 118; 49; 0]) None 12 true false false false None 0 0 65535 1 (replicate 8 0) None 0 0 None None;
     mkSVPublisher_ASDU (Some [115; 118; 50; 0]) (Some [100; 0]) 4 false false false false None 0 0 65535 2 (replicate 8 0) None 0 0 None None] in HF2.
  apply Forall2_cons_inv_l in HF2 as (s1 & l1 & (t1 & d1 & Hs1 & _) & _ & Hs).
  destruct (smpCnt_counts p1 demo_link 0x4000 samples 0 s1 70000 Hrep) as (p' & samples' & s' & Hw & _ & _ & Hc & Hg);
    [by rewrite Hs | rewrite Hs1; cbn; lia | rewrite Hs1; cbn; lia|].
  exists p1, p'. split; [done|]. split; [done|]. rewrite Hg, Hc, Hs1. reflexivity.
Defined.
