(* ===== verification/ContainerProperties.v ===== *)
(** Properties of the containers. *)

From S2P Require Import Prelude BerEncoder Containers ContainerFacts.
From stdpp Require Import list gmap fin_sets.
Open Scope Z_scope.

(** * Lists refine sequences *)

(** an operation on a list; [memory] is whether there is memory left *)
Inductive ListOp := Op_add (memory : bool) (data : option nat) | Op_remove (data : option nat).

(** an allocator: an address that is not in use *)
Definition malloc (memory : bool) (h : heap) : option nat := if memory then Some (fresh (dom h)) else None.

Definition run_op (self : nat) (h : heap) (op : ListOp) : option heap :=
  match op with
  | Op_add memory data => LinkedList_add (malloc memory h) h (Some self) data
  | Op_remove data => fst <$> LinkedList_remove h (Some self) data
  end.
Definition run_ops (self : nat) (h : heap) (ops : list ListOp) : option heap :=
  fold_left (fun h op => h ← h; run_op self h op) ops (Some h).

(** the meaning of an operation for the sequence of the data *)
Fixpoint remove_first (data : option nat) (l : list (option nat)) : list (option nat) :=
  match l with [] => [] | d :: l => if decide (d = data) then l else d :: remove_first data l end.
Definition seq_op (l : list (option nat)) (op : ListOp) : list (option nat) :=
  match op with
  | Op_add memory data => if memory then l ++ [data] else l
  | Op_remove data => remove_first data l
  end.

(** a sequence with a given element: what is in front of the first one, and behind *)
Lemma split_first (data : option nat) (cells : list (nat * option nat)) :
  data ∈ cells.*2 -> exists c1 a c2, cells = c1 ++ (a, data) :: c2 /\ data ∉ c1.*2.
Proof.
  induction cells as [|[a d] cells IH]; intros H; cbn in H; [by apply not_elem_of_nil in H|].
  destruct (decide (d = data)) as [->|Hne]; [exists [], a, cells; split; [done | by apply not_elem_of_nil]|].
  apply elem_of_cons in H as [->|H]; [done|]. destruct (IH H) as (c1 & b & c2 & -> & Hn). exists ((a, d) :: c1), b, c2. split; [done|].
  cbn. apply not_elem_of_cons. split; [congruence | done].
Qed.

Lemma remove_first_app data l1 l2 : data ∉ l1 -> remove_first data (l1 ++ data :: l2) = l1 ++ l2.
Proof.
  induction l1 as [|d l1 IH]; intros H; cbn; [by rewrite decide_True|]. apply not_elem_of_cons in H as [Hne H]. rewrite decide_False by congruence. by rewrite IH.
Qed.

Lemma remove_first_missing data l : data ∉ l -> remove_first data l = l.
Proof. induction l as [|d l IH]; intros H; cbn; [done|]. apply not_elem_of_cons in H as [Hne H]. rewrite decide_False by congruence. by rewrite IH. Qed.

Lemma run_op_spec self h cells op :
  linked h self cells -> exists h' cells', run_op self h op = Some h' /\ linked h' self cells' /\ cells'.*2 = seq_op cells.*2 op.
Proof.
  intros Hl. destruct op as [[|] data|data]; cbn [run_op seq_op].
  - destruct (add_spec h self cells Hl (fresh (dom h)) data) as (h' & H & Hl' & _); [apply not_elem_of_dom, is_fresh|].
    exists h', (cells ++ [(fresh (dom h), data)]). split; [done|]. split; [done|]. by rewrite fmap_app.
  - by exists h, cells.
  - destruct (decide (data ∈ cells.*2)) as [Hin|Hin].
    + destruct (split_first data cells Hin) as (c1 & a & c2 & -> & Hn). destruct (remove_spec h self c1 a data c2 Hl Hn) as (h' & -> & Hl' & _).
      exists h', (c1 ++ c2). split; [done|]. split; [done|]. rewrite !fmap_app. cbn. by rewrite remove_first_app.
    + rewrite (remove_missing h self cells data Hl Hin). exists h, cells. split; [done|]. split; [done|]. by rewrite remove_first_missing.
Qed.

Lemma run_ops_spec ops : forall self h cells,
  linked h self cells -> exists h' cells', run_ops self h ops = Some h' /\ linked h' self cells' /\ cells'.*2 = fold_left seq_op ops cells.*2.
Proof.
  unfold run_ops. induction ops as [|op ops IH]; intros self h cells Hl; [by exists h, cells|]. cbn [fold_left mbind option_bind].
  destruct (run_op_spec self h cells op Hl) as (h1 & cells1 & -> & Hl1 & Hs1). rewrite <- Hs1. by apply IH.
Qed.

(** C31: A linked list refines a sequence. After its creation and any additions and
    removals, with memory running out at any of them, the cells in the heap hold the
    sequence those operations make; its length, the test for an element and the access
    by index are those of the sequence. The exception is an empty list, where the access
    to every index but zero dereferences the null pointer. *)
Theorem linked_list_refines h0 self ops :
  h0 !! self = None ->
  exists h cells, run_ops self (LinkedList_create (Some self) h0).2 ops = Some h /\ linked h self cells /\
    let l := fold_left seq_op ops [] in
    cells.*2 = l /\ LinkedList_size h (Some self) = Some (zlen l) /\
    (forall data, LinkedList_contains h (Some self) data = Some (bool_decide (data ∈ l))) /\
    (forall index, 0 <= index -> LinkedList_get h (Some self) index =
       if decide (l = [] /\ index <> 0) then None else Some (cells.*1 !! Z.to_nat index)).
Proof.
  intros Hf. destruct (run_ops_spec ops self _ [] (create_linked self h0 Hf)) as (h & cells & Hr & Hl & Hs). cbn [fmap list_fmap] in Hs. exists h, cells.
  split; [done|]. split; [done|]. cbv zeta. rewrite <- Hs. split; [done|]. split; [rewrite (size_spec h self cells Hl); unfold zlen; by rewrite length_fmap|].
  split; [by intros; apply contains_spec|]. intros index Hi. rewrite (get_spec h self cells index Hl Hi). apply decide_ext.
  destruct cells; cbn; intuition congruence.
Qed.

Lemma linked_list_refines_witness :
  exists h, run_ops 7 (LinkedList_create (Some 7%nat) ∅).2 [Op_add true (Some 1%nat); Op_add false None; Op_add true (Some 2%nat); Op_remove (Some 1%nat)] = Some h /\
    LinkedList_size h (Some 7%nat) = Some 1.
Proof.
  destruct (linked_list_refines ∅ 7 [Op_add true (Some 1%nat); Op_add false None; Op_add true (Some 2%nat); Op_remove (Some 1%nat)]) as (h & cells & H & _ & _ & Hz & _); [done|].
  by exists h.
Defined.

(** * Maps *)

Lemma same_key_keep h h' c key k :
  (forall b s, h !! b = Some (Str s) -> h' !! b = Some (Str s)) -> is_Some (same_key h c key k) -> same_key h' c key k = same_key h c key k.
Proof.
  intros Hk [b Hb]. destruct c; [done|]. unfold same_key in *. destruct key as [a1|]; [|done]. destruct k as [a2|]; [|done]. cbn [mbind option_bind] in *.
  destruct (h !! a1) as [[]|] eqn:E1; try done. destruct (h !! a2) as [[]|] eqn:E2; try done. rewrite (Hk _ _ E1), (Hk _ _ E2). done.
Qed.

Lemma map_find_keep h h' c key items :
  (forall b s, h !! b = Some (Str s) -> h' !! b = Some (Str s)) -> keys_ok h c key items -> map_find h' c key items = map_find h c key items /\ keys_ok h' c key items.
Proof.
  intros Hk. unfold keys_ok. induction items as [|i items IH]; intros HF; [done|]. apply Forall_cons in HF as [Hi HF]. destruct (IH HF) as [IH1 IH2]. cbn [map_find].
  assert (matches h' c key i <-> matches h c key i) as Hm by (unfold matches; by rewrite (same_key_keep h h')).
  split; [|apply Forall_cons; split; [by rewrite (same_key_keep h h') | done]].
  destruct (decide (matches h c key i)), (decide (matches h' c key i)); (done || tauto).
Qed.

(** The first entry wins. A map is a list of entries and adding does not look at the
    keys: looking a key up returns the value of its first entry, so that adding a key
    that is there keeps the old value, while the size grows; the new value shows when
    the first entry is removed. A key that is not there is found after it was added. This
    holds for maps with pointers as keys and for those with strings. *)
Theorem map_first_entry_wins h map items a1 a2 key value :
  map_rep h map items -> keys_ok h (mp_compareKeys map) key items -> same_key h (mp_compareKeys map) key key = Some true ->
  h !! a1 = None -> h !! a2 = None -> a1 <> a2 ->
  exists h', Map_addEntry (Some a1) (Some a2) h map key value = Some (h', key) /\ Map_size h' map = Some (zlen items + 1) /\
    Map_getEntry h' map key = Some (match map_find h (mp_compareKeys map) key items with Some i => mi_value i | None => value end) /\
    forall l1 i l2, items = l1 ++ i :: l2 -> Forall (fun j => ~ matches h (mp_compareKeys map) key j) l1 -> matches h (mp_compareKeys map) key i ->
      exists h'', Map_removeEntry h' map key false = Some (h'', mi_value i) /\ map_rep h'' map (l1 ++ l2 ++ [mkMapItem a2 a1 key value]).
Proof.
  intros Hrep Hk Hrefl H1 H2 Hne. set (c := mp_compareKeys map) in *. set (new := mkMapItem a2 a1 key value).
  destruct (addEntry_spec h map items a1 a2 key value Hrep H1 H2 Hne) as (h' & Hadd & Hrep' & Hstr). exists h'. fold new in Hrep'.
  assert (keys_ok h c key (items ++ [new])) as Hk2 by (apply Forall_app; split; [done | apply Forall_singleton; by eexists]).
  destruct (map_find_keep h h' c key (items ++ [new]) Hstr Hk2) as [Hfind Hk']. split; [done|]. split.
  { destruct Hrep' as (self & Hm & Hl & _). unfold Map_size. rewrite Hm, (size_spec _ _ _ Hl). unfold zlen. rewrite length_fmap, length_app. cbn. f_equal. lia. }
  split. { rewrite (getEntry_spec h' map _ key Hrep' Hk'). fold c. rewrite Hfind, map_find_app. destruct (map_find h c key items) as [i|]; [done|].
    cbn [map_find]. rewrite decide_True by exact Hrefl. done. }
  intros l1 i l2 -> Hno Hi. rewrite <- app_assoc in *. cbn [app] in *.
  assert (forall j, j ∈ l1 ++ i :: l2 ++ [new] -> matches h' c key j <-> matches h c key j) as Hmm.
  { intros j Hj. unfold matches. rewrite (same_key_keep h h'); [done | done |]. unfold keys_ok in Hk2. rewrite Forall_forall in Hk2. by apply (Hk2 j). }
  destruct (removeEntry_spec h' map l1 i (l2 ++ [new]) key Hrep' Hk') as (h'' & Hr & Hrep'' & _).
  - apply Forall_forall. intros j Hj. fold c. rewrite Hmm; [rewrite Forall_forall in Hno; auto|]. apply elem_of_app. by left.
  - fold c. apply Hmm; [|done]. apply elem_of_app. right. by left.
  - by exists h''.
Qed.

(** a map with the entry 5 -> 6 *)
Definition demo_map_heap : heap := {[ 1%nat := Node None (Some 2%nat); 2%nat := Node (Some 3%nat) None; 3%nat := MapEntry (Some 5%nat) (Some 6%nat) ]}.

Lemma map_first_entry_wins_witness :
  exists h', Map_addEntry (Some 8%nat) (Some 9%nat) demo_map_heap (mkMap (Some 1%nat) comparePointerKeys) (Some 5%nat) (Some 7%nat) = Some (h', Some 5%nat) /\
    Map_getEntry h' (mkMap (Some 1%nat) comparePointerKeys) (Some 5%nat) = Some (Some 6%nat).
Proof.
  destruct (map_first_entry_wins demo_map_heap (mkMap (Some 1%nat) comparePointerKeys) [mkMapItem 2 3 (Some 5%nat) (Some 6%nat)] 8 9 (Some 5%nat) (Some 7%nat))
    as (h' & Ha & _ & Hg & _); [| | done | done | done | done |].
  - exists 1%nat. split; [done|]. split; [|split; [by apply Forall_singleton | apply NoDup_singleton]]. split; [apply (bool_decide_unpack _); vm_compute; exact I|].
    exists None, (Some 2%nat). split; [done|]. cbn. split; [done|]. by exists None.
  - apply Forall_singleton. by eexists.
  - exists h'. split; [done|]. exact Hg.
Defined.

(** * The allocator *)

(** an allocator hands out aligned pieces of its block *)
Definition allocator_ok (self : MemoryAllocator) : Prop := 0 <= ma_currentPtr self <= ma_size self /\ ma_currentPtr self mod 8 = 0 /\ ma_size self < 2147483640.

(** what is allocated lies in the block, aligned and behind everything before *)
Lemma allocate_ok self size :
  allocator_ok self -> 0 <= size < 2147483640 ->
  let '(self', p) := MemoryAllocator_allocate self size in
  allocator_ok self' /\ ma_size self' = ma_size self /\
  match p with
  | Some p => p = ma_currentPtr self /\ p + size <= ma_currentPtr self' <= ma_size self /\ p mod 8 = 0
  | None => self' = self /\ ma_size self < ma_currentPtr self + size + 8
  end.
Proof.
  intros (Hp & Ha & Hz) Hs. pose proof (alignedSize_spec size Hs) as [Hn Hm]. unfold MemoryAllocator_allocate. cbv zeta in *.
  set (n := MemoryAllocator_getAlignedSize size) in *. destruct (_ <=? _) eqn:E; bdestr.
  - unfold allocator_ok. cbn. assert ((ma_currentPtr self + n) mod 8 = 0) by (rewrite Z.add_mod, Ha, Hm by lia; done). lia.
  - unfold allocator_ok. split; [done|]. split; [done|]. split; [done|]. lia.
Qed.
