(* ===== verification/TypeProperties.v ===== *)
(** Properties of the descriptions of types. *)

From Stdlib Require Import String.
From S2P Require Import Prelude BerEncoder BerDecoder BerInteger StringUtils CText CFloat MmsValue MmsFacts MmsTypeSpec.
Open Scope Z_scope.

(** C38: Types are sound: the default value of a description (whose arrays have no
    negative counts and whose binary times have four or six octets) has the type described,
    and in every value of the type each component that is found by its name has the type
    that the same name finds in the description. A path with dots, which only the values by
    name take for separators, finds in the description with dollar signs in their place. *)
Theorem named_components_typed t v :
  (spec_ok (unnamed t) -> MmsValue_newDefaultValue (unnamed t) = Some (Some v) ->
     MmsVariableSpecification_isValueOfType (unnamed t) (Some v) = Some true) /\
  (MmsVariableSpecification_isValueOfType (unnamed t) (Some v) = Some true ->
     forall path v', MmsVariableSpecification_getChildValue t (Some v) path = Some (Some v') ->
     (46 ∉ c_string path -> exists t', MmsVariableSpecification_getNamedVariableRecursive t path = Some (Some t') /\
        MmsVariableSpecification_isValueOfType (unnamed t') (Some v') = Some true) /\
     (exists t', MmsVariableSpecification_getNamedVariableRecursive t (dollars path) = Some (Some t') /\
        MmsVariableSpecification_isValueOfType (unnamed t') (Some v') = Some true)).
Proof.
  split; [apply default_typed|]. intros Ht path v' Hv. split; [intros Hd; by eapply child_typed_all|].
  eapply child_typed_all; [exact Ht | apply dollars_dot_free | by rewrite getChildValue_dollars].
Qed.

(** a logical node with a measured value and a histogram *)
Definition demo_node : MmsTypeSpec :=
  TypeStructure (Some (c_literal "MHAI1")) [TypeStructure (Some (c_literal "MX")) [
    TypeStructure (Some (c_literal "Hz")) [TypeSimple (Some (c_literal "f")) (SpecFloat 8 32); TypeSimple (Some (c_literal "q")) (SpecBitString (-13))];
    TypeArray (Some (c_literal "hstVal")) 4 (TypeSimple None (SpecInteger 32))]].

Lemma named_components_typed_witness : exists v v' t',
  MmsValue_newDefaultValue (unnamed demo_node) = Some (Some v) /\
  MmsVariableSpecification_getChildValue demo_node (Some v) (c_literal "MX.Hz.f") = Some (Some v') /\
  MmsVariableSpecification_getNamedVariableRecursive demo_node (c_literal "MX$Hz$f") = Some (Some t') /\
  MmsVariableSpecification_isValueOfType (unnamed t') (Some v') = Some true.
Proof.
  destruct (MmsValue_newDefaultValue (unnamed demo_node)) as [[v|]|] eqn:E; [|by vm_compute in E..].
  destruct (named_components_typed demo_node v) as [H1 H2].
  specialize (H2 (H1 ltac:(cbn; repeat split; lia) E) (c_literal "MX.Hz.f")).
  assert (exists v', MmsVariableSpecification_getChildValue demo_node (Some v) (c_literal "MX.Hz.f") = Some (Some v')) as [v' Ev]
    by (vm_compute in E; injection E as <-; eexists; vm_compute; reflexivity).
  destruct (H2 v' Ev) as [_ (t' & Ht & Hty)]. by exists v, v', t'.
Defined.

(** The path with dots itself finds the value and no type. *)
Example dotted_path_untyped :
  MmsVariableSpecification_getNamedVariableRecursive demo_node (c_literal "MX.Hz.f") = Some None /\
  exists v, (d ← MmsValue_newDefaultValue (unnamed demo_node); MmsVariableSpecification_getChildValue demo_node d (c_literal "MX.Hz.f")) = Some (Some v).
Proof. split; [reflexivity|]. eexists. reflexivity. Qed.

(** A name that goes two levels below an array of numbers makes the server use the
    size of the number as a count of components that do not exist: it dereferences a null
    pointer, whatever service the name came with. *)
Example array_name_crashes : MmsDomain_getNamedVariable (Some [demo_node]) (c_literal "MHAI1$MX$hstVal$a$b") = None.
Proof. vm_compute. reflexivity. Qed.
