(* ===== verification/ControlProperties.v ===== *)
(** Properties of the control objects. *)

From Stdlib Require Import String.
From S2P Require Import Prelude BerEncoder BerDecoder BerInteger StringUtils CText CFloat MmsValue MmsFacts IecCommon ObjectReference MmsTypeSpec Control ControlSetup ControlFacts ControlServer ControlTimeout ControlSafety ControlServerSafety.
Open Scope Z_scope.

(** * A switch for the witnesses

    The control object CSWI1.Pos of the select-before-operate model with enhanced
    security, the requests of a client, and an application that executes everything. *)
Module Switch.
Definition integer (z : Z) : MmsValue := default (MmsBoolean false) (MmsValue_newIntegerFromInt32 z).
Definition origin (orCat : Z) : MmsValue := MmsStructure [Some (integer orCat); Some (MmsOctetString 0 64 (replicate 64 0))].
Definition simple (name : string) (type : MmsVariableSpecification) : MmsTypeSpec := TypeSimple (Some (c_literal name)) type.
Definition originSpec : MmsTypeSpec :=
  TypeStructure (Some (c_literal "origin")) [simple "orCat" (SpecInteger 8); simple "orIdent" (SpecOctetString (-64))].
Definition operSpec : MmsTypeSpec :=
  TypeStructure (Some (c_literal "Oper")) [simple "ctlVal" SpecBoolean; originSpec; simple "ctlNum" (SpecUnsigned 8); simple "T" SpecUtcTime;
    simple "Test" SpecBoolean; simple "Check" (SpecBitString (-2))].
Definition timedSpec : MmsTypeSpec :=
  TypeStructure (Some (c_literal "Oper")) [simple "ctlVal" SpecBoolean; simple "operTm" SpecUtcTime; originSpec; simple "ctlNum" (SpecUnsigned 8);
    simple "T" SpecUtcTime; simple "Test" SpecBoolean; simple "Check" (SpecBitString (-2))].

Definition posSpec (spec : MmsTypeSpec) : MmsTypeSpec :=
  let named name := match spec with TypeStructure _ elements => TypeStructure (Some (c_literal name)) elements | t => t end in
  TypeStructure (Some (c_literal "Pos")) [simple "SBO" (SpecVisibleString 65); named "Oper"%string; named "SBOw"%string].

Definition is_ctlModel (s : list Z) : bool := bool_decide (take 21 s = take 21 (c_literal "CSWI1$CF$Pos$ctlModel")).

(** created and initialised with the control model [ctlModel] and the specification [spec] of Oper *)
Definition create (ctlModel : Z) (spec : MmsTypeSpec) : option ControlObject :=
  '(_, objects) ← createControlObjects (mkMmsDomain 1 (c_literal "LD0")) (c_literal "CSWI1") (TypeStructure (Some (c_literal "CO")) [posSpec spec]) None;
  co ← head objects;
  ControlObject_initialize (fun s => if is_ctlModel s then Some (integer ctlModel) else None) (fun _ => Some (0, MmsBoolean false)) co.

Definition world : World := mkWorld 0xFFFFFFFFFFFFFFFF (fun n => 1000 + Z.of_nat n mod 1000) 0 [7%nat; 8%nat] 0 [].
Definition server (ctlModel : Z) (spec : MmsTypeSpec) : MmsMapping :=
  mkMmsMapping (option_list (create ctlModel spec)) world [].

Definition ctlNum : MmsValue := default (MmsBoolean false) (MmsValue_newUnsignedFromUint32 5).
Definition request (orCat : Z) : MmsValue :=
  MmsStructure [Some (MmsBoolean true); Some (origin orCat); Some ctlNum; Some (MmsUtcTime (replicate 8 0)); Some (MmsBoolean false); Some (MmsBitString 2 [0xc0])].

Definition accepting : ControlApplication := mkControlApplication None None (Some (fun _ _ _ => mkAnswer CONTROL_RESULT_OK None None)) true.

Definition write (name : string) (value : MmsValue) (connection : nat) : ControlApplication * ServerCall :=
  (accepting, Server_write 1 (c_literal name) value connection 33).
Definition SBOw (value : MmsValue) (connection : nat) := write "CSWI1$CO$Pos$SBOw" value connection.
Definition Oper (value : MmsValue) (connection : nat) := write "CSWI1$CO$Pos$Oper" value connection.
Definition tick (now : Z) : ControlApplication * ServerCall := (accepting, Server_process now).
End Switch.

(** * Operations need a selection *)

(** C32: Whatever requests clients make, in whatever order, with whatever handlers of the
    application and with connections that open and close: the application is told to operate an object of a
    select-before-operate model that is operated once per selection only for a client that
    selected it, and the selection was not ended or passed on in between. *)
Theorem sbo_operate_authorised k self co calls self' pre c v test post :
  mm_controlObjects self !! k = Some co -> sbo_once co -> co_state co = STATE_UNSELECTED -> mm_log self = [] ->
  server_run self calls = Some self' ->
  events_of k (mm_log self') = pre ++ E_Operate c v test :: post ->
  exists before between, pre = before ++ E_Selected c :: between /\ Forall (fun e => ~ selection_event e) between.
Proof.
  intros Hk Ho Hs Hlog Hrun Hev.
  assert (owned k self') as (co' & _ & _ & Hinv).
  { eapply owned_run; [exact Hrun|]. exists co. rewrite Hlog, Hs. by split_and!. }
  cbn in Hinv. rewrite Hev in Hinv. apply monitor_owner.
  destruct (monitor _ _) as [o|] eqn:Em; [by eapply monitor_operate|]. by destruct (co_state co').
Qed.

Module Operated.
Definition calls : list (ControlApplication * ServerCall) :=
  [Switch.SBOw (Switch.request 2) 7; Switch.Oper (Switch.request 2) 8; Switch.Oper (Switch.request 2) 7; Switch.tick 2000].
Definition start : MmsMapping := Switch.server 4 Switch.operSpec.
Definition result : MmsMapping := default start (server_run start calls).
Definition events : list ControlEvent := events_of 0 (mm_log result).
End Operated.

Lemma sbo_operate_authorised_witness : exists before between,
  take 8 Operated.events = before ++ E_Selected (Some 7%nat) :: between /\ Forall (fun e => ~ selection_event e) between.
Proof.
  destruct (mm_controlObjects Operated.start !! 0%nat) as [co|] eqn:E0; [|by vm_compute in E0].
  assert (sbo_once co /\ co_state co = STATE_UNSELECTED) as [H1 H2] by (vm_compute in E0; injection E0 as <-; by vm_compute).
  apply (sbo_operate_authorised 0 Operated.start co Operated.calls Operated.result (take 8 Operated.events)
    (Some 7%nat) (Some (MmsBoolean true)) false (drop 9 Operated.events)); [done..|by vm_compute|by vm_compute].
Defined.

(** * Selections end *)

Definition resting (co : ControlObject) : Prop := co_state co = STATE_UNSELECTED \/ co_state co = STATE_READY.

(** programs that are defined for every object *)
Definition total {A} (m : ctl A) : Prop := forall co w, is_Some (m co w).
Lemma total_bind {A B} (m : ctl A) (k : A -> ctl B) : total m -> (forall a, total (k a)) -> total (m ≫= k).
Proof. intros Hm Hk co w. destruct (Hm co w) as [[[a co1] w1] E]. unfold mbind, ctl_bind. rewrite E. apply Hk. Qed.
Ltac total :=
  repeat first
    [ progress intros
    | match goal with |- total (mbind _ _) => apply total_bind end
    | match goal with |- total (match ?x with _ => _ end) => destruct x end
    | solve [intros ? ?; by eexists] ].

Lemma total_handlePendingEvents : total ControlObject_handlePendingEvents.
Proof. unfold ControlObject_handlePendingEvents, handle_pending. total. Qed.
Lemma total_checkSelectTimeout app t : total (checkSelectTimeout app t).
Proof. unfold checkSelectTimeout, unselectObject, updateNextControlTimeout, setStSeld, getState. total. Qed.

Lemma process_resting app now co w : resting co -> is_Some (process_object app now co w).
Proof.
  intros H. unfold process_object. unfold mbind at 1, ctl_bind at 1. cbn [get].
  destruct (_ && _); [by eexists|]. revert w. destruct H as [-> | ->]; intros w.
  - apply (total_bind (mret tt)); [|intros; apply total_handlePendingEvents]. by eexists.
  - apply (total_bind (checkSelectTimeout app now)); [apply total_checkSelectTimeout|intros; apply total_handlePendingEvents].
Qed.

Lemma for_each_resting app now n : forall j self, length (mm_controlObjects self) = (j + n)%nat ->
  Forall resting (drop j (mm_controlObjects self)) -> is_Some (for_each (process_object app now) n j self).
Proof.
  induction n as [|n IH]; intros j self Hl Hr; cbn [for_each]; [by eexists|].
  destruct (lookup_lt_is_Some_2 (mm_controlObjects self) j ltac:(lia)) as [co Hco].
  rewrite (drop_S _ _ _ Hco) in Hr. inversion Hr as [|? ? Hco1 Hr1]; subst.
  destruct (process_resting app now co (w_with_events (mm_world self) []) Hco1) as [[[a co1] w1] E].
  unfold on_control. rewrite Hco. cbn [mbind option_bind]. rewrite E. cbn [mbind option_bind]. apply IH; cbn [mm_controlObjects].
  - rewrite length_insert. lia.
  - by rewrite drop_insert_lt by lia.
Qed.

(** C37: An object that is operated once per selection does not stay selected: in every
    state that any calls reach, when the time of the selection has passed, the next turn of the periodic
    task finds it due and unselects it; and the turn comes to its end when no object is about to execute. *)
Theorem selection_times_out app k self co calls self1 co1 now :
  mm_controlObjects self !! k = Some co -> sbo_once co -> co_state co = STATE_UNSELECTED -> clock_ok (mm_world self) ->
  server_run self calls = Some self1 ->
  mm_controlObjects self1 !! k = Some co1 -> selected co1 -> deadline co1 < now ->
  (forall self2, Control_processControlActions app self1 now = Some self2 ->
     co_state <$> mm_controlObjects self2 !! k = Some STATE_UNSELECTED) /\
  (Forall resting (mm_controlObjects self1) -> is_Some (Control_processControlActions app self1 now)).
Proof.
  intros Hk Ho Hs Hc Hrun Hk1 Hsel Hd. split.
  - assert (object_at scheduled k self1) as Hsch.
    { eapply scheduled_run; [exact Hrun|]. exists co. split_and!; [done..|]. intros [Hr _]. congruence. }
    intros self2 E. destruct (process_expired k app self1 now self2 E Hsch) as (co2 & H2 & _ & _ & Hu).
    + destruct Hsch as (co0 & H0 & Ho0 & Hc0 & _). exists co0. assert (co0 = co1) as -> by congruence. done.
    + rewrite H2. cbn. by rewrite Hu.
  - intros Hr. unfold Control_processControlActions. case_match; [|by eexists]. by apply for_each_resting.
Qed.

Module Selected.
Definition calls : list (ControlApplication * ServerCall) := [Switch.SBOw (Switch.request 2) 7; Switch.tick 2000].
Definition start : MmsMapping := Switch.server 4 Switch.operSpec.
Definition result : MmsMapping := default start (server_run start calls).
End Selected.

Lemma selection_times_out_witness : exists self2,
  Control_processControlActions Switch.accepting Selected.result 16002 = Some self2 /\
  co_state <$> mm_controlObjects self2 !! 0%nat = Some STATE_UNSELECTED.
Proof.
  destruct (mm_controlObjects Selected.start !! 0%nat) as [co|] eqn:E0; [|by vm_compute in E0].
  assert (sbo_once co /\ co_state co = STATE_UNSELECTED) as [Ho Hs] by (vm_compute in E0; injection E0 as <-; by vm_compute).
  destruct (mm_controlObjects Selected.result !! 0%nat) as [co1|] eqn:E1; [|clear E0; by vm_compute in E1].
  assert (selected co1 /\ deadline co1 < 16002) as [Hsel Hd] by (clear E0; vm_compute in E1; injection E1 as <-; by vm_compute).
  destruct (selection_times_out Switch.accepting 0 Selected.start co Selected.calls Selected.result co1 16002
    E0 Ho Hs ltac:(intros n; cbn; unfold time_ok; pose proof (Z.mod_pos_bound (Z.of_nat n) 1000); lia)
    ltac:(clear; vm_compute; reflexivity) E1 Hsel Hd) as [H1 H2]. clear E0 E1.
  destruct H2 as [self2 E2]; [vm_compute; repeat constructor; by right|]. exists self2. split; [exact E2|exact (H1 _ E2)].
Defined.

(** * What other clients can do *)

(** programs that leave a part of the object alone *)
Definition preserves {A X} (f : ControlObject -> X) (m : ctl A) : Prop := forall co w a co' w', m co w = Some (a, co', w') -> f co' = f co.
Lemma preserves_bind {A B X} (f : ControlObject -> X) (m : ctl A) (k : A -> ctl B) :
  preserves f m -> (forall a, preserves f (k a)) -> preserves f (m ≫= k).
Proof. intros Hm Hk co w b co' w' (a & co1 & w1 & E1 & E2)%bind_inv. rewrite (Hk _ _ _ _ _ _ E2). by eapply Hm. Qed.
Lemma preserves_modify {X} (f : ControlObject -> X) g : (forall co, f (g co) = f co) -> preserves f (modify g).
Proof. intros H co w a co' w' [= <- <- <-]. apply H. Qed.
Lemma preserves_lift {A X} (f : ControlObject -> X) (o : option A) : preserves f (lift o).
Proof. intros co w a co' w'. unfold lift. destruct o; [|done]. by intros [= <- <- <-]. Qed.
Ltac preserves :=
  repeat first
    [ progress intros
    | match goal with |- preserves _ (mbind _ _) => apply preserves_bind end
    | match goal with |- preserves _ (match ?x with _ => _ end) => destruct x end
    | apply preserves_lift
    | solve [apply preserves_modify; let co := fresh in intros co; try unfold set_object_element; repeat case_match; by destruct co]
    | solve [intros ? ? ? ? ? [= <- <- <-]; done] ].

Lemma unselectObject_state app r co w a co' w' : unselectObject app r co w = Some (a, co', w') -> co_state co' = STATE_UNSELECTED.
Proof.
  unfold unselectObject. intros (s & co1 & w1 & E1 & E2)%bind_inv. injection E1 as <- <- <-. case_decide as Hs; [by injection E2 as <- <- <-|].
  apply bind_inv in E2 as ([] & co2 & w2 & E2 & E3). injection E2 as <- <-.
  match type of E3 with ?m _ _ = _ => assert (preserves co_state m) as Hp by (unfold setStSeld, add_pending; preserves) end.
  rewrite (Hp _ _ _ _ _ E3). by destruct co.
Qed.

(** C39: Any client can end the selection of another, or give up its operation that is
    being executed: an Oper whose origin is not valid unselects an object of a
    select-before-operate model in every state, before it is looked at who selected it. *)
Theorem foreign_origin_unselects app value connection invokeId ctlVal test ctlNum origin check t co w r co' w' :
  is_sbo (co_ctlModel co) = true ->
  getCtlVal value = Some ctlVal -> getOperParameterTest value = Some test -> getOperParameterCtlNum value = Some ctlNum ->
  getOperParameterOrigin value = Some origin -> getOperParameterCheck value = Some check -> getOperParameterTime value = Some t ->
  checkValidityOfOriginParameter (Some origin) = Some false ->
  write_Oper app value connection invokeId co w = Some (r, co', w') ->
  r = (DATA_ACCESS_ERROR_OBJECT_ACCESS_DENIED, 0) /\ co_state co' = STATE_UNSELECTED.
Proof.
  intros Hsbo H1 H2 H3 H4 H5 H6 Hv. unfold write_Oper. rewrite H1, H2, H3, H4, H5, H6, Hv.
  intros ([] & co1 & w1 & E1 & E)%bind_inv. assert (fixed co1 = fixed co) as F1.
  { by destruct (neutral_store_T _ None _ _ _ _ _ E1) as (? & _). }
  apply bind_inv in E as (v & co2 & w2 & [= <- <- <-] & E). apply bind_inv in E as (co2 & co3 & w3 & [= <- <- <-] & E). cbn [negb] in E.
  apply bind_inv in E as ([] & co4 & w4 & _ & E). assert (co_ctlModel co1 = co_ctlModel co) as Hm by (unfold fixed in F1; congruence).
  rewrite Hm, Hsbo in E. apply bind_inv in E as ([] & co5 & w5 & E5 & E). injection E as <- <- <-.
  split; [done|]. by eapply unselectObject_state.
Qed.

Module Foreign.
Definition result : MmsMapping := default Selected.start (server_run Selected.start [Switch.SBOw (Switch.request 2) 7]).
End Foreign.

(** the switch, selected by client 7 and unselected by a request of client 8 *)
Lemma foreign_origin_unselects_witness : exists co r co' w',
  mm_controlObjects Foreign.result !! 0%nat = Some co /\ co_state co = STATE_READY /\ co_mmsConnection co = Some 7%nat /\
  write_Oper Switch.accepting (Switch.request 9) (Some 8%nat) 40 co Switch.world = Some (r, co', w') /\ co_state co' = STATE_UNSELECTED.
Proof.
  destruct (mm_controlObjects Foreign.result !! 0%nat) as [co|] eqn:E0; [|by vm_compute in E0].
  assert (co_state co = STATE_READY /\ co_mmsConnection co = Some 7%nat /\ is_sbo (co_ctlModel co) = true) as (H1 & H2 & H3)
    by (vm_compute in E0; injection E0 as <-; done).
  destruct (write_Oper Switch.accepting (Switch.request 9) (Some 8%nat) 40 co Switch.world) as [[[r co'] w']|] eqn:E;
    [|exfalso; vm_compute in E0; injection E0 as <-; vm_compute in E; discriminate E].
  exists co, r, co', w'. split_and!; [done..|exact E|].
  apply (foreign_origin_unselects Switch.accepting (Switch.request 9) (Some 8%nat) 40 (MmsBoolean true) (MmsBoolean false) Switch.ctlNum (Switch.origin 9)
    (MmsBitString 2 [0xc0]) (MmsUtcTime (replicate 8 0))) in E as [_ E]; [exact E|exact H3|vm_compute; reflexivity..].
Defined.

(** * Flags and timers that are left behind *)








(** ** The time that a request reads *)



(** ** Oper *)




Abbreviation is_denied := (eq DATA_ACCESS_ERROR_OBJECT_ACCESS_DENIED).





(** ** The requests of an object *)









Module Timed.
Definition request (operTm : list Z) : MmsValue :=
  MmsStructure [Some (MmsBoolean true); Some (MmsUtcTime operTm); Some (Switch.origin 2); Some Switch.ctlNum;
    Some (MmsUtcTime (replicate 8 0)); Some (MmsBoolean false); Some (MmsBitString 2 [0xc0])].
Definition later : MmsValue := request [0; 0; 1; 0; 0; 0; 0; 0].
Definition at_once : MmsValue := request (replicate 8 0).
Definition refusing : ControlApplication := mkControlApplication (Some (fun _ _ _ _ => mkAnswer CONTROL_HARDWARE_FAULT None None)) None None true.
Definition start : option ControlObject := mm_controlObjects (Switch.server 1 Switch.timedSpec) !! 0%nat.
End Timed.

(** Both requests have the type of Oper of such an object, which the write service checks. *)
Example timed_requests_typed :
  Forall (fun v => MmsVariableSpecification_isValueOfType (unnamed Switch.timedSpec) (Some v) = Some true) [Timed.later; Timed.at_once].
Proof. repeat constructor. Qed.


Module Delayed.
(** the application answers a select later *)
Definition app : ControlApplication := mkControlApplication (Some (fun _ _ _ _ => mkAnswer CONTROL_WAITING_FOR_SELECT None None)) None None true.
Definition start : MmsMapping := Switch.server 2 Switch.operSpec.
Definition result : MmsMapping :=
  default start (server_run start [(app, Server_read 1 (c_literal "CSWI1$CO$Pos$SBO") 7 33 true)]).
End Delayed.

(** A select by a read that the application answers later is not answered: the read
    leaves the object waiting and does not see to the next check, so no turn of the periodic
    task, at whatever time, looks at the object again while no other request sets the timer. *)
Theorem delayed_select_unanswered app now : now < 0xFFFFFFFFFFFFFFFF ->
  co_state <$> mm_controlObjects Delayed.result !! 0%nat = Some STATE_WAIT_FOR_SELECT /\
  Control_processControlActions app Delayed.result now = Some Delayed.result.
Proof.
  intros Hn. split; [by vm_compute|]. unfold Control_processControlActions.
  change (w_nextControlTimeout (mm_world Delayed.result)) with 0xFFFFFFFFFFFFFFFF. by rewrite (proj2 (Z.leb_gt _ _)).
Qed.
Lemma delayed_select_unanswered_witness : Control_processControlActions Switch.accepting Delayed.result 1000000 = Some Delayed.result.
Proof. by apply delayed_select_unanswered. Defined.

(** An object that is unselected and selected again between two turns of the periodic
    task ends with the attribute stSeld false while it is selected. *)
Example stSeld_order :
  let calls := [Switch.SBOw (Switch.request 2) 7; Switch.Oper (Switch.request 9) 7; Switch.SBOw (Switch.request 2) 7; Switch.tick 2000] in
  (m ← server_run Selected.start calls; co ← mm_controlObjects m !! 0%nat; Some (co_state co, drop 9 (events_of 0 (mm_log m)))) =
  Some (STATE_READY, [E_Track 44 0; E_StSeld true; E_StSeld false]).
Proof. vm_compute. done. Qed.

(** * Objects that are operated several times per selection

    The properties above are about objects whose class is operate-once (or absent). Those
    of the class operate-many do not have them. *)
Module Many.
Definition is_attribute (name : string) (s : list Z) : bool := bool_decide (take 21 s = take 21 (c_literal name)).
(** the switch with the class operate-many, of the select-before-operate model with enhanced security *)
Definition create (spec : MmsTypeSpec) : option ControlObject :=
  '(_, objects) ← createControlObjects (mkMmsDomain 1 (c_literal "LD0")) (c_literal "CSWI1") (TypeStructure (Some (c_literal "CO")) [Switch.posSpec spec]) None;
  co ← head objects;
  ControlObject_initialize
    (fun s => if is_attribute "CSWI1$CF$Pos$ctlModel" s then Some (Switch.integer 4)
              else if is_attribute "CSWI1$CF$Pos$sboClass" s then Some (Switch.integer 1) else None)
    (fun _ => Some (0, MmsBoolean false)) co.
Definition start (spec : MmsTypeSpec) : MmsMapping := mkMmsMapping (option_list (create spec)) Switch.world [].

Definition cancel (connection : nat) : ControlApplication * ServerCall :=
  Switch.write "CSWI1$CO$Pos$Cancel" (MmsStructure [Some (MmsBoolean true); Some (MmsUtcTime (replicate 8 0)); Some (Switch.origin 2); Some Switch.ctlNum;
    Some (MmsUtcTime (replicate 8 0)); Some (MmsBoolean false)]) connection.
Definition refused : ControlApplication * ServerCall :=
  (Timed.refusing, Server_write 1 (c_literal "CSWI1$CO$Pos$Oper") Timed.later 7 33).

(** the selections and operations of a log *)
Definition selections (m : MmsMapping) : list ControlEvent :=
  List.filter (fun e => match e with E_Selected _ | E_Unselected _ | E_Operate _ _ _ => true | _ => false end) (events_of 0 (mm_log m)).
End Many.

(** Client 7 selects the switch, has a timed operation refused and cancels; the cancel of
    client 8, which never selected it, makes the object ready again, and client 7 operates
    it without a selection. *)
Example many_operated_unselected :
  let calls := [Switch.SBOw Timed.at_once 7; Many.refused; Many.cancel 7; Many.cancel 8; Switch.Oper Timed.at_once 7; Switch.tick 2000] in
  Many.selections <$> server_run (Many.start Switch.timedSpec) calls =
  Some [E_Selected (Some 7%nat); E_Unselected SELECT_STATE_REASON_CANCELED; E_Operate (Some 7%nat) (Some (MmsBoolean true)) false].
Proof. vm_compute. reflexivity. Qed.

(** After an operation the switch stays selected and the timer is not set: no later turn of
    the periodic task, at whatever time, unselects it. *)
Example many_never_unselected :
  let calls := [Switch.SBOw (Switch.request 2) 7; Switch.Oper (Switch.request 2) 7; Switch.tick 2000] in
  exists m co, server_run (Many.start Switch.operSpec) calls = Some m /\ mm_controlObjects m !! 0%nat = Some co /\
    co_state co = STATE_READY /\ deadline co < 20000 /\
    forall app now, now < 0xFFFFFFFFFFFFFFFF -> Control_processControlActions app m now = Some m.
Proof.
  intros calls. destruct (server_run (Many.start Switch.operSpec) calls) as [m|] eqn:E; [|by vm_compute in E].
  destruct (mm_controlObjects m !! 0%nat) as [co|] eqn:Ec; [|exfalso; vm_compute in E; injection E as <-; by vm_compute in Ec].
  exists m, co. vm_compute in E. injection E as <-. vm_compute in Ec. injection Ec as <-. split_and!; try reflexivity.
  intros app now Hn. unfold Control_processControlActions. cbn [mm_world w_nextControlTimeout]. by rewrite (proj2 (Z.leb_gt _ _)).
Qed.

(** * Requests do not crash the server *)

(** a call of an application with a check handler exactly if [has_check] *)
Definition proper_call (has_check : bool) (objects : list Known) (c : ControlApplication * ServerCall) : Prop :=
  (has_check = true <-> is_Some (checkHandler c.1)) /\ call_ok objects c.2.

(** C33: A server whose control objects are well formed survives every sequence of
    requests, turns of the periodic task and connections that open and close: no step
    reads or writes outside a block or through a null pointer, every step comes to its
    end, and the objects stay well formed. The values of writes have the types of Oper and SBOw, which the write
    service checks first, and the category of their origin is an integer of at least one octet. *)
Theorem control_requests_safe has_check objects self calls :
  server_ok has_check objects self -> Forall (proper_call has_check objects) calls ->
  exists self', server_run self calls = Some self' /\ server_ok has_check objects self'.
Proof.
  intros Hs Hcalls. revert self Hs. induction Hcalls as [|[app call] calls [Hcheck Hc] _ IH]; intros self Hs; cbn [server_run]; [by exists self|].
  destruct (server_call_ok has_check objects app Hcheck self call Hs Hc) as (self1 & -> & Hs1). by apply IH.
Qed.

Module Survives.
Definition types : CtlTypes :=
  mkCtlTypes SpecBoolean false 8 (-64) (SpecUnsigned 8) SpecUtcTime (-2) (Switch.posSpec Switch.operSpec) 1 (Some 2).
Definition switch : Known := mkKnown types (mkMmsDomain 1 (c_literal "LD0")) (c_literal "CSWI1") (c_literal "Pos").
Definition calls : list (ControlApplication * ServerCall) :=
  [Switch.SBOw (Switch.request 2) 7; Switch.Oper (Switch.request 9) 8; Switch.Oper (Switch.request 2) 7; Switch.tick 2000;
   (Switch.accepting, Server_closed 7); (Switch.accepting, Server_read 1 (c_literal "CSWI1$CO$Pos$Oper$ctlVal") 8 3 false)].
End Survives.

Section Witness.
Local Ltac terminated := apply (bool_decide_unpack _); vm_compute; exact I.
Local Ltac named := eexists; split; [reflexivity|]; terminated.
(* the conditions on the blocks of concrete values *)
Local Ltac blocks := repeat first [exact I | lia | split | apply List.Forall_cons | apply List.Forall_nil | (cbn; lia) | reflexivity | terminated].

Lemma switch_known : known_ok Survives.switch.
Proof.
  split_and!; try apply literal_terminated. split.
  - cbn; repeat (split; [named|]); split_and!; done || named.
  - eexists. split; [reflexivity|]. by repeat constructor.
Qed.
Lemma switch_ok : server_ok false [Survives.switch] (Switch.server 4 Switch.operSpec).
Proof.
  assert (exists co, mm_controlObjects (Switch.server 4 Switch.operSpec) = [co] /\ object_ok false Survives.switch co) as (co & E & H).
  2: { split; [|done]. rewrite E. by constructor. }
  eexists. split; [vm_compute; reflexivity|]. split; [exact switch_known|]. constructor; cbn [co_mmsDomain co_lnName co_name co_error co_addCause co_T co_ctlVal co_ctlNum
    co_origin co_ctlNumSt co_originSt co_tOpOk co_sboClass co_sboTimeout co_typeSpec co_oper co_sbow co_mmsValue co_state]; try done.
  1, 2: eexists; split; [done|blocks].
  1, 2: split; [blocks|done].
  eexists. split; [done|]. split; [blocks|done].
Qed.
Lemma switch_requests_ok : Forall (fun orCat => request_ok Survives.types (Switch.request orCat)) [2; 9].
Proof.
  assert (forall v, mms_ok v -> MmsVariableSpecification_isValueOfType (SpecStructure (oper_specs Survives.types)) (Some v) = Some true ->
    (z ← getOperParameterOrigin v; c ← MmsValue_getElement z 0; MmsValue_toInt32 c) <> None -> request_ok Survives.types v) as Hreq.
  { intros v Hok Ht Hr. split_and!; [done..|]. destruct (getOperParameterOrigin v) as [o|]; [|done]. cbn in Hr. unfold readable.
    destruct (MmsValue_getElement o 0) as [c|]; [|done]. cbn in Hr. by apply not_eq_None_Some. }
  apply List.Forall_cons; [|apply List.Forall_cons; [|apply List.Forall_nil]]; (apply Hreq; [|reflexivity|by vm_compute]).
  - let v := eval vm_compute in (Switch.request 2) in change (Switch.request 2) with v. blocks.
  - let v := eval vm_compute in (Switch.request 9) in change (Switch.request 9) with v. blocks.
Qed.
End Witness.

Lemma control_requests_safe_witness :
  exists self', server_run (Switch.server 4 Switch.operSpec) Survives.calls = Some self' /\ server_ok false [Survives.switch] self'.
Proof.
  apply (control_requests_safe false [Survives.switch]); [exact switch_ok|].
  assert (forall call, call_ok [Survives.switch] call -> proper_call false [Survives.switch] (Switch.accepting, call)) as Hcall.
  { intros call Hc. split; [|exact Hc]. split; [done|]. by intros [? [=]]. }
  assert (forall name orCat c, orCat ∈ [2; 9] -> proper_call false [Survives.switch] (Switch.write name (Switch.request orCat) c)) as Hwrite.
  { intros name orCat c Ho. apply Hcall. split; [apply literal_terminated|]. intros n v kn _ _ ->%list_elem_of_singleton _ _.
    pose proof switch_requests_ok as Hall. rewrite List.Forall_forall in Hall. by apply Hall, list_elem_of_In. }
  repeat (apply List.Forall_cons; [|]); try apply List.Forall_nil.
  - apply Hwrite. by left.
  - apply Hwrite. by right; left.
  - apply Hwrite. by left.
  - by apply Hcall.
  - by apply Hcall.
  - apply Hcall. apply literal_terminated.
Defined.
