(* ===== verification/ReportProperties.v ===== *)
(** Properties of the reports and their buffer. *)

From S2P Require Import Prelude BerEncoder BerDecoder BerInteger StringUtils CText CFloat MmsValue MmsFacts MmsData Containers ContainerFacts ReportBuffer Reporting ReportRing ReportWrite ReportQueue.
Open Scope Z_scope.

(** * A control block for the witnesses

    A buffered control block for a data set of a switch position and an entry without a
    value, with a block of 128 bytes; the position has changed. *)
Module Feeder.
Definition entryId : MmsValue := MmsOctetString 8 8 (replicate 8 0).
Definition rcbValues : MmsValue := MmsStructure (replicate 11 None ++ [Some entryId]).
Definition block (bsize : Z) : ReportBuffer := default (mkReportBuffer 0 [] 0 0 0 0 0 false) (ReportBuffer_create bsize (Some (4096, replicate (Z.to_nat bsize) 0))).
Definition control (bsize : Z) : ReportControl :=
  mkReportControl true false true rcbValues (MmsBitString 2 [0]) (mkDataSet 2 [Some (MmsBoolean true); None]) [Some (MmsBoolean true); None] [Some (MmsBoolean true); None]
    true 0 0 0 0 0 (TRG_OPT_GI + 2) [REPORT_CONTROL_VALUE_CHANGED; REPORT_CONTROL_NONE] true 1000 false (block bsize) (MmsBinaryTime 6 (replicate 6 0)) true false.
Definition env : ReportEnv := mkReportEnv (fun n => 1000 + Z.of_nat n) 0 [].

Lemma block_rep bsize : 0 <= bsize -> rep 4096 bsize (block bsize) [] [].
Proof.
  intros Hb. constructor; try done; [|left; done]. split_and!; [done..|]. unfold zlen. cbn. rewrite length_replicate. lia.
Qed.
Lemma control_is_ok bsize : control_ok (control bsize) 2.
Proof.
  constructor; try done; [by eexists|repeat constructor; done| |].
  - intros i Hi. destruct (decide (i = 0)) as [->|]; [eexists; split; [done|]; intros _; by exists (MmsBoolean true)|]. replace i with 1 by lia. by exists REPORT_CONTROL_NONE.
  - by exists 6, (replicate 6 0).
Qed.

(** the state after the first event, with one report in the buffer *)
Definition first (bsize : Z) : ReportControl := match enqueueReport false false 1000 (control bsize) env with Some (rc, _) => rc | None => control bsize end.
Definition report1 : Report :=
  mkReport 0 48 [0; 0; 0; 0; 0; 0; 3; 232] 1000 0 [128; 0; 0; 0; 0; 0; 0; 0; 3; 0; 0; 0; 131; 1; 1; 2].

Lemma first_rep bsize : bsize = 64 \/ bsize = 128 -> rep 4096 bsize (rc_reportBuffer (first bsize)) [] [report1].
Proof.
  intros [-> | ->]; (constructor; [by vm_compute| |by left; vm_compute|by vm_compute..]); (split; [by vm_compute|]); exists 0; (split; [|by split; [lia|vm_compute]]); constructor; by vm_compute.
Qed.
Lemma first_ok bsize : bsize = 64 \/ bsize = 128 -> control_ok (first bsize) 2.
Proof.
  intros [-> | ->]; (constructor; [lia|by eexists; vm_compute|by vm_compute|by repeat constructor|by vm_compute| |by vm_compute|by exists 6, [0; 0; 0; 0; 0; 0]; vm_compute|by vm_compute]);
    intros i Hi; exists REPORT_CONTROL_NONE; (split; [|done]); (destruct (decide (i = 0)) as [->|]; [by vm_compute|]); replace i with 1 by lia; by vm_compute.
Qed.
End Feeder.

(** * Enqueueing *)

(** C34: A report buffer implements a sequence of reports of which the first were
    sent and the others wait. Enqueueing a report, whether for events, a general
    interrogation or the integrity period, never leaves the block or overwrites a report
    that stays: a report larger than the block changes nothing, and for any other one
    the sequence loses its general interrogation reports (where the block is buffered and
    the new report is one) and then some of the oldest, the others stay byte by byte in
    their order, and the new report follows them with its time, its reason, an identifier
    that follows the last one and exactly the values that are due. No report is removed
    while there is room behind the last one. That one that waits is lost is recorded,
    unless it was alone in the buffer. *)
Theorem report_queue_refines base bsize rc size isIntegrity isGI time env sent pending :
  0 < base -> base + bsize < 18446744073709551616 -> control_ok rc size -> rep base bsize (rc_reportBuffer rc) sent pending ->
  exists dataBlockSize n rc' events,
    report_sizes rc (isIntegrity || isGI) size (MemoryAllocator_getAlignedSize (bitSize_bytes size)) = Some (dataBlockSize, n) /\
    enqueueReport isIntegrity isGI time rc env = Some (rc', if rc_eventHandler rc then rcbEventHandler events (snd (Hal_time env)) else snd (Hal_time env)) /\
    control_ok rc' size /\ enqueue_frame rc rc' /\ enqueue_result base bsize rc rc' size n isIntegrity isGI time sent pending events.
Proof. intros Hbase Hend Hok Hrep. by apply enqueueReport_spec. Qed.
Lemma report_queue_refines_witness : exists dataBlockSize n rc' events,
  report_sizes (Feeder.first 128) true 2 8 = Some (dataBlockSize, n) /\
  enqueueReport false true 2000 (Feeder.first 128) Feeder.env = Some (rc', rcbEventHandler events (snd (Hal_time Feeder.env))) /\
  control_ok rc' 2 /\ enqueue_frame (Feeder.first 128) rc' /\ enqueue_result 4096 128 (Feeder.first 128) rc' 2 n false true 2000 [] [Feeder.report1] events.
Proof. apply (report_queue_refines 4096 128 (Feeder.first 128) 2 false true 2000 Feeder.env [] [Feeder.report1]); [lia|lia|apply Feeder.first_ok; by right|apply Feeder.first_rep; by right]. Defined.

(** The only report of a buffer is lost without notice: where it waits to be sent and the
    new report fits into the block but not beside it, the new one replaces it, the overflow
    is not recorded and the application gets no event of it. *)
Theorem lone_report_lost base bsize rc size isIntegrity time env x dataBlockSize n :
  0 < base -> base + bsize < 18446744073709551616 -> control_ok rc size -> rep base bsize (rc_reportBuffer rc) [] [x] ->
  report_sizes rc isIntegrity size (MemoryAllocator_getAlignedSize (bitSize_bytes size)) = Some (dataBlockSize, n) -> n <= bsize < rp_len x + n -> rc_eventHandler rc = true ->
  exists rc' r, enqueueReport isIntegrity false time rc env = Some (rc', rcbEventHandler [RCB_EVENT_REPORT_CREATED] (snd (Hal_time env))) /\
    rep base bsize (rc_reportBuffer rc') [] [r] /\ rb_isOverflow (rc_reportBuffer rc') = rb_isOverflow (rc_reportBuffer rc).
Proof.
  intros Hbase Hend Hok Hrep Esz Hn Hev. destruct (enqueueReport_spec base bsize Hbase Hend rc size isIntegrity false time env [] [x] Hok Hrep) as (d & n' & rc' & ev & Esz' & E & _ & _ & Hres).
  rewrite orb_false_r, Esz in Esz'. injection Esz' as <- <-. destruct Hres as [[? _]|(_ & ov & k & r & [Hrep' [_ Hlen] Hov His _ _] & ->)]; [lia|]. rewrite Hev in E.
  assert (staying rc false [x] = [x]) as Hst by (unfold staying; by rewrite andb_false_r). rewrite Hst in *. cbn [app] in Hov. rewrite Hst in Hov.
  assert (staying rc false [] = []) as Hst0 by (unfold staying; by rewrite andb_false_r). rewrite Hst0 in *.
  rewrite andb_false_r in Hov. subst ov. rewrite orb_false_r in His. exists rc', r. split; [done|]. split; [|done]. rewrite drop_nil, Nat.sub_0_r in Hrep'.
  destruct k as [|k]; [|change (drop (S k) [x]) with (drop k (@nil Report)) in Hrep'; by rewrite drop_nil in Hrep']. exfalso. pose proof (ring_apart _ _ (ln_ring _ _ _ _ _ Hrep')) as Ha. pose proof (ring_all _ _ (ln_ring _ _ _ _ _ Hrep')) as Hall.
  cbn in Ha, Hall. inversion Ha as [|? ? Hx _]; subst. apply Forall_cons_1 in Hx as [Hx _]. apply Forall_cons_1 in Hall as [H1 Hall]. apply Forall_cons_1 in Hall as [H2 _]. unfold apart, rp_end in *. lia.
Qed.
Lemma lone_report_lost_witness : exists rc' r,
  enqueueReport true false 2000 (Feeder.first 64) Feeder.env = Some (rc', rcbEventHandler [RCB_EVENT_REPORT_CREATED] (snd (Hal_time Feeder.env))) /\
  rep 4096 64 (rc_reportBuffer rc') [] [r] /\ rb_isOverflow (rc_reportBuffer rc') = rb_isOverflow (rc_reportBuffer (Feeder.first 64)).
Proof.
  apply (lone_report_lost 4096 64 (Feeder.first 64) 2 true 2000 Feeder.env Feeder.report1 6 48); [lia|lia|apply Feeder.first_ok; by left|apply Feeder.first_rep; by left|by vm_compute|by split; vm_compute|by vm_compute].
Defined.

(** * Sending *)

(** C36: The next report to send is a place in the sequence: a report that is done
    joins those that were sent and the next one waits, and a client that names the
    identifier of a report gets the reports behind the first one with it, no matter whether
    they were sent before; without such a report nothing changes. No report is removed or
    changed by this. *)
Theorem report_cursor base bsize rc sent pending n maxSize id :
  0 < base -> base + bsize < 18446744073709551616 -> rep base bsize (rc_reportBuffer rc) sent pending -> 8 <= zlen id ->
  match pending with
  | [] => True
  | r :: waiting => exists rc', report_done rc = Some rc' /\ rep base bsize (rc_reportBuffer rc') (sent ++ [r]) waiting /\ rb_isOverflow (rc_reportBuffer rc') = false /\
      rb_memory (rc_reportBuffer rc') = rb_memory (rc_reportBuffer rc)
  end /\
  match after_id (take 8 id) (sent ++ pending) with
  | Some (before, after) => sent ++ pending = before ++ after /\
      exists rc', checkReportBufferForEntryID rc (MmsOctetString n maxSize id) = Some (rc', true) /\ rep base bsize (rc_reportBuffer rc') before after /\ rc_isResync rc' = true
  | None => checkReportBufferForEntryID rc (MmsOctetString n maxSize id) = Some (rc, false)
  end.
Proof.
  intros Hbase Hend Hrep Hid. split.
  - destruct pending as [|r waiting]; [done|]. by apply done_spec.
  - pose proof (check_entryId_spec base bsize Hbase Hend rc sent pending n maxSize id Hrep Hid) as H. pose proof (after_id_app (take 8 id) (sent ++ pending)) as Ha.
    destruct (after_id (take 8 id) (sent ++ pending)) as [[before after]|]; [|done]. split; [by apply Ha|done].
Qed.
Lemma report_cursor_witness :
  (exists rc', report_done (Feeder.first 128) = Some rc' /\ rep 4096 128 (rc_reportBuffer rc') [Feeder.report1] [] /\ rb_isOverflow (rc_reportBuffer rc') = false /\
     rb_memory (rc_reportBuffer rc') = rb_memory (rc_reportBuffer (Feeder.first 128))) /\
  ([Feeder.report1] = [Feeder.report1] ++ [] /\ exists rc', checkReportBufferForEntryID (Feeder.first 128) (MmsOctetString 8 8 [0; 0; 0; 0; 0; 0; 3; 232]) = Some (rc', true) /\
     rep 4096 128 (rc_reportBuffer rc') [Feeder.report1] [] /\ rc_isResync rc' = true).
Proof. apply (report_cursor 4096 128 (Feeder.first 128) [] [Feeder.report1] 8 8 [0; 0; 0; 0; 0; 0; 3; 232]); [lia|lia|apply Feeder.first_rep; by right|by vm_compute]. Defined.

(** * Processing *)

(** C35: Whatever is requested and due, the processing of the events of a report
    control block returns: the reports for events, the general interrogation and the
    integrity period find their place, the block stays a sequence of reports and the control
    block well-formed, no time that is rounded to the period divides by zero, and an active
    control block has no due event and no request for a general interrogation left. *)
Theorem report_events_processed base bsize size t rc env :
  0 < base -> base + bsize < 18446744073709551616 -> report_state base bsize size rc ->
  exists rc' env', processEventsForReport t rc env = Some (rc', env') /\ report_state base bsize size rc' /\
    (rc_enabled rc || rc_isBuffering rc = true ->
       (rc_triggered rc' = true -> t < rc_reportTime rc') /\ (Z.land (rc_triggerOps rc) TRG_OPT_GI <> 0 -> rc_gi rc' = false)).
Proof. intros Hbase Hend Hs. by apply process_keeps. Qed.
Lemma report_events_processed_witness : exists rc' env', processEventsForReport 1000 (Feeder.control 128) Feeder.env = Some (rc', env') /\ report_state 4096 128 2 rc' /\
  (true = true -> (rc_triggered rc' = true -> 1000 < rc_reportTime rc') /\ (16 <> 0 -> rc_gi rc' = false)).
Proof.
  apply (report_events_processed 4096 128 2 1000 (Feeder.control 128) Feeder.env); [lia|lia|]. split; [apply Feeder.control_is_ok|]. exists [], []. apply Feeder.block_rep. lia.
Defined.

(** * Updates

    The entry has changed its value; the update of its quality replaces the pending reason,
    or joins it while the model is locked. An update for the same reason makes the report
    for the pending one first. *)

Definition updated (flag : Z) (modelLocked : bool) : list Z * Z :=
  match ReportControl_valueUpdated 0 flag modelLocked (Feeder.control 128) Feeder.env with
  | Some (rc, _) => (rc_inclusionFlags rc, rb_reportsCount (rc_reportBuffer rc))
  | None => ([], -1)
  end.
Example pending_reason_replaced : updated REPORT_CONTROL_QUALITY_CHANGED false = ([REPORT_CONTROL_QUALITY_CHANGED; REPORT_CONTROL_NONE], 0).
Proof. by vm_compute. Qed.
Example pending_reason_joined :
  updated REPORT_CONTROL_QUALITY_CHANGED true = ([REPORT_CONTROL_VALUE_CHANGED + REPORT_CONTROL_QUALITY_CHANGED + REPORT_CONTROL_NOT_UPDATED; REPORT_CONTROL_NONE], 0).
Proof. by vm_compute. Qed.
Example pending_reason_reported : updated REPORT_CONTROL_VALUE_CHANGED false = ([REPORT_CONTROL_VALUE_CHANGED; REPORT_CONTROL_NONE], 2).
Proof. by vm_compute. Qed.
